(* ===== verification/_CoqProject ===== *)
-Q . S2P
Prelude.v
JsMap.v
JsString.v
JsNum.v
Json.v
Regex.v
Http.v
Tier.v
Auth.v
LoginRateLimit.v
Login.v
Middleware.v
Interleave.v
BanUtils.v
FetchBanned.v
ProofBans.v
Bans.v
BanExec.v
JsDate.v
Store.v
FleetCommand.v
Fleet.v
FleetProps.v
FleetSpec.v
CopilotAction.v
Telemetry.v
LineageGraph.v
GraphLayout.v
Pdf.v
Registry.v
Plugins.v
Prometheus.v
JsValue.v
DataRoom.v
Marketplace.v
SocTimeline.v
AttackTreeRoute.v
AttackMap.v
Reports.v
ValidationDetection.v
ValidationRuntime.v
ValidationPlatform.v
ValidationTests.v
PromClient.v
Grafana.v
CopilotText.v
Copilot.v
StatusRoutes.v
FleetStatus.v
Compliance.v
Client.v
Dictionary.v
I18n.v
BanClient.v
BansPage.v
SocPanel.v
GrafanaPanel.v
TestsPanel.v
FleetPage.v
CopilotPage.v
OpsPages.v
System.v
LandingContent.v
LandingCopy.v
LandingBodies.v
LandingSections.v
LandingLocales.v
LandingSteps.v
LandingTiers.v
LandingTests.v
LandingTypes.v
Landing.v
LandingTables.v
LandingSite.v
LandingPages.v
LandingEffects.v
AdminPages.v
StatusPanels.v
HomeView.v
PageViews.v
