(* ===== verification/Prelude.v ===== *)
(** * Linux Log Guardian, dashboard and site: a verification library

    Linux Log Guardian is a log-analysis and blocking service.  A C analyzer
    with eBPF programs watches a host; the dashboard (dashboard/src, TypeScript
    on Next.js) is the part people and agents talk to: it signs users in, guards
    every route, shows and changes the ban list, queues signed commands for a
    fleet of agents, stores their telemetry and renders evidence.  This library
    models the dashboard's server side and the state its pages keep in the
    browser, file by file, and proves what its parts promise to each other.  The
    landing site (landing, the same language) presents the product in twenty-four
    languages; its texts and its controls are modelled as well.

    ** The parts and how they interact

    A request first meets the session gate (middleware.ts), which decides from
    the path, the tier and the session token whether a route sees it and puts the
    user's role and tenant into headers; the routes trust those headers.  The
    login route issues the tokens behind a rate limiter.  The ban routes read the
    analyzer's list or its files through a cache and ask the analyzer to ban; the
    fleet routes keep a command queue in the database, sign each command and hand
    it to the polling agent; the copilot's action route queues the same commands
    and may ban at once; telemetry uploads fill the fleet, tenant, attack-tree and
    map views.  The copilot's chat route scopes a question, collects evidence from
    the analyzer and the database, streams a model's answer and replaces an answer
    of poor quality by a computed one.  The Grafana route runs the panels' range
    queries against Prometheus behind a cache and merges their series.  The
    validation catalogue turns the gate reports on disk into verdicts; the status
    routes read single reports; the compliance routes export nodes and audit
    evidence as CSV and PDF.  The remaining parts turn stored documents into
    something to show: timeline, lineage graph, PDF, metrics, data room,
    marketplace.

    In the browser each page polls its routes while it is visible, keeps what it
    was told, and sends commands; requests are in flight at the same time and are
    answered in any order.

    ** Files

    Foundations:
    - Prelude: string literals as UTF-16 units, the state-and-exception monad [M]
      of the handlers, invariants of it ([keeps]), stable sort, filter, slices,
      first occurrences, the hint database [lg] and the tactics.
    - JsString, JsNum, JsDate: the string, number (IEEE double, as [spec_float])
      and date operations the source uses, with their printed forms.
    - Json: values, property access with its failures, [JSON.parse] and
      [JSON.stringify].  Regex: patterns as syntax, matched by derivatives, with
      the proof that the matcher decides the pattern's language.
    - JsValue: the dynamic values of the language ([undefined], truthiness, [??],
      loose and strict comparison, concatenation) and its interface types as data
      ([ty], [has_ty]).
    - Http: requests, responses, headers, the environment, files and network.
    - Store: a table of the Prisma client as a class of operations with laws, and
      an instance that shows the laws can hold.
    - Interleave: handlers that wait, as sequences of atomic pieces ([proc]); the
      requests in progress with the log of what they did ([pool]); the proof rule
      for invariants of all interleavings ([pool_invariant]).

    Components, with the sources they translate (under dashboard/src):
    - Tier (lib/tier.ts, api/tier), Auth (authSecrets, timingSafeToken, password,
      tenantGuard, requestOrigin, guardianApiAuth, guardianApiBase,
      guardianMetricsUrl), LoginRateLimit (lib/loginRateLimit.ts), Login
      (lib/loginAuth.ts, api/auth/login), Middleware (middleware.ts).
    - BanUtils (lib/banUtils.ts), FetchBanned (lib/fetchBannedIps.ts), ProofBans
      (attackGeoFallback, proofBanFallback, bansDisplayMode), Bans (bansCache,
      api/bans, api/internal/bans-invalidate), BanExec (guardianBanExec,
      api/guardian/ban).
    - FleetCommand (fleetCommandValidate, fleetCommandSign), Fleet
      (api/fleet/commands and its ack), FleetProps (theorems on the queue),
      FleetSpec (the queue's abstract specification, a mailbox, and the
      refinement), CopilotAction (api/copilot/action), Telemetry (api/telemetry,
      api/fleet, api/tenants, api/tenants/isolation, api/metrics/fleet,
      vpsFleetShadow, repoJson).
    - LineageGraph (lib/lineageGraph.ts), Pdf (lib/pdfBuilder.ts), Registry
      (api/schema), Plugins (api/plugins), Prometheus (prometheusParse,
      api/metrics/live), DataRoom (api/data-room), Marketplace
      (marketplaceSigned, api/marketplace/signed), SocTimeline (api/soc-timeline,
      socTimelineFallback, socTimelineTypes), AttackTreeRoute (api/attack-tree),
      AttackMap (api/attack-geo, ipGeoLookup, countryCentroids).
    - Reports (the report documents of lib/validationTests.ts and the evaluator's
      helpers), ValidationDetection, ValidationRuntime, ValidationPlatform (the
      cases of [evaluateFromReport], in the order of the source), ValidationTests
      (the evaluator as a whole, the catalogue, lib/gateTestDocs.ts, api/tests).
    - PromClient (lib/prometheusClient.ts), Grafana (lib/grafanaPanels.ts,
      api/metrics/grafana).
    - CopilotText (copilotScope, copilotQuality, copilotFallback and the locale
      functions of lib/i18n.ts), Copilot (ollama, copilotRag, api/copilot,
      api/copilot/rag).
    - StatusRoutes (the routes that report one gate's state), FleetStatus
      (api/fleet-offline-status, api/tls-status, the Kubernetes status),
      Compliance (complianceReport, fetchComplianceReport, compliancePdf,
      api/reports).

    Composition:
    - System: the session gate in front of the routes it serves, and the login in
      front of the gate; what a route promises to the gate is the class [Confined].

    The browser:
    - JsMap: the insertion-ordered [Map].  Client: a page as a machine of events,
      requests in flight and answers in any order, with its invariant rule, and
      the polling hook (hooks/useVisibleInterval.ts).
    - Dictionary, I18n (lib/i18n.ts, lib/i18nExtraLocales.ts,
      components/LanguageProvider.tsx).
    - GraphLayout (components/LineageGraph.tsx), BanClient (BannedIpsContext,
      BanNavBadge, BannedIpsPanel, BanIpButton), BansPage (app/bans), SocPanel
      (SocKindFilterContext, SocTimelinePanel, AttackWorldMap, AttackGlobe),
      GrafanaPanel (GrafanaMiniPanels), TestsPanel (lib/proofMeta.ts,
      ValidationTestsPanel), FleetPage (app/page.tsx, FleetCharts,
      lib/formatTimeAgo.ts), CopilotPage (app/copilot, CopilotMessageBody),
      OpsPages (app/fleet/dispatch, OpsGatesStrip, OperatorGatesTabs,
      OpsMetricsCharts), AdminPages (app/login, app/plugins, app/schema,
      app/attack-tree, app/reports), StatusPanels (the fleet, ban interface,
      production host, morning, runbook, notification, edge, probe, measurement
      and false-positive panels, IncidentsPanel, BanTelegramOpsPanel, SiteNav).
    - What is on the screen for a state of a page: HomeView (the home page with its
      timeline and map panels), PageViews (the report and the bans page, the
      embedded viewers PdfEmbed, CompetitiveProofViewer and GrafanaEmbedPanel, the
      deep link of an incident, the heading of the tests page).

    The landing site (under landing):
    - LandingContent (lib/content.ts, lib/shareUrls.ts, and how documents are read),
      LandingCopy and LandingBodies (lib/i18n/copy.ts), LandingSections
      (lib/i18n/sections.ts), LandingLocales (lib/i18n/locales.ts, lib/sectors.ts,
      the labels of lib/i18n/pipelineDeep), LandingSteps (its steps), LandingTiers
      (lib/tiers.ts) and LandingTests (lib/tests.ts) hold the texts as documents,
      with the source's names; LandingTypes their declared types.
    - Landing: the functions that choose and override texts.  LandingTables: the
      comparison, the test matrix, the charts, the figures, the pipeline's cards
      and the footer.  LandingSite: the section navigator, links, lib/seo.ts, the
      language provider and its menu, the carousel, the guide of the editions and
      the contact terminal.  LandingPages: the lists, links and copy buttons of the
      remaining sections and the packages page (app/paketler).  LandingEffects: the
      synthesizer and the audio provider with its players and fades as a
      machine (context/AudioKernelContext.tsx), the sound button, the frames of the
      boot screen, the counters and the decrypting text.

    A definition has the name of the function it translates; a route's handler is
    called after its route and method ([login_POST], [bans_GET]).  A record has
    the fields of the TypeScript type with a short prefix.

    ** What the theorems show

    - Composition: two databases that agree on a tenant give a user of that tenant
      the same answers through the gate, whatever the other tenants hold; whoever
      gets past the gate with a token of the login route gave a matching password.
    - Sessions: outside the open paths a route sees only requests with a verified
      token and that token's role and tenant; a user cannot pass another tenant;
      the tier gate blocks all but image paths; the login is total, issues a
      cookie only for a matching password, and locks an address the limiter
      watches out after the configured number of decided failures, however
      logins overlap; hashes verify their password; token comparison is equality.
    - Bans: paging is complete, the cache key separates what the answer depends
      on; in every interleaving a cached answer was stored at most five seconds
      before with no invalidation since; a ban request reaches the analyzer only
      for an administrator and a dotted quad and succeeds exactly when the analyzer
      confirms; evidence lists hold public addresses only and never hide a live ban.
    - Fleet: in every interleaving of the database statements a command is handed
      out twice only by polls that overlap; it goes to the agents of its tenant it
      addresses, oldest first, with a verified signature; the queue refines a
      mailbox with readers that look and then take, and requests that do not
      overlap a mailbox that hands out once ([fleet_serial_mailbox]); an authentic
      command is handed out at the agent's next answered poll unless it has left
      the queue; a signature binds the command's fields; users are confined to
      their tenant.
    - Copilot: what a user's chat tells about the fleet comes from the agents of
      that user's tenant; the computed answer exists for every input; a streamed answer does not
      depend on how the network cuts it into chunks.
    - Validation: on documents of the declared types the evaluator does not throw
      and returns cards of their declared type; no card says "pass" unless the
      gate of its report holds; the verdicts do not depend on the language.
    - Grafana: a cached answer is one for the tenant and range asked; the queries of
      a tenant carry its matcher; the merged rows are those of a reference
      definition, by time.
    - Views: fleet and tenant views are confined; metrics count what they say;
      the timeline keeps the newest event of each kind of duplicate; sample trees
      are never labelled live; graphs, PDF files and expositions are well formed;
      the compliance export answers every request, its pages are balanced and its
      nodes are the tenant's; the kill log is the last hundred
      accepted events.
    - Registries, data room, marketplace: one active schema per tenant unless
      uploads overlap, uploads stay in their directory, only files under listed or
      inherited names are served, exactly the signed packages are marked and
      confirmed.
    - Pages: whatever order answers arrive in, the bans page shows one page of one
      search, the metrics panel the answer for the chosen tenant and range, the
      chat has at most one open question and answers each; with the server, paging
      shows all exported bans, and the live mark means a live list.  The home page's
      figures and the tests panel's banner are those of a reference; the drawing
      of a lineage ends and separates its nodes; the timeline's export reads back;
      every message has a text with the right placeholders in every language.
      At most one plugin upload is under way, the report filters divide the
      controls, the attack page offers a ban only for an address of its tree; the
      incident dialog waits only while a request is under way and names exactly
      the signals whose bit is set; one link of the navigation is marked; the
      runbook links to tests that exist.
    - Screens: a line of the tenant menu chooses the tenant the next poll asks for, and
      one line is highlighted; every agent has its card and the banner counts the
      cards that say so; no filter chip leads to an empty list or map, and the map
      is never blank without a word; links open the bans page on their address; every
      computed report can be drawn and its foot counts its rows; proof entries are
      never called live nor offered for unbanning.
    - Landing site: in every language every document has its declared type and no
      empty text but one unit; translations change words only, never commands, figures or
      winners; the comparison is a full table with the named winner marked; the
      charts' points lie on the plot; the matrix shows each test once and their
      number is the one announced; the guides of the editions extend each other;
      the navigator names the section being read, the carousel always shows a card,
      a page's addresses agree, links arrive, and the chosen language is kept; the
      lists of every section have distinct keys, the three merged packages their
      colours, and the evidence links name their file; every sound can be scheduled,
      the volume stays in its range, a fade ends at its target, the boot screen ends,
      and each frame of a decrypting text has the text's length.
    - Where the code departs from its intent the theorem states what it does:
      [mw_idle_never_fires], [fleet_role_forgeable], [copilot_unban_any_user],
      [attack_tree_all_tenants], and the lemmas [fleet_broadcast_first_only],
      [fleet_view_lists_all_tenants], [fallback_connect_keeps_port],
      [fleet_metrics_injection], [prom_prefix_confusion],
      [marketplace_verified_unchecked], [plugin_file_shared],
      [schema_overlap_two_active], [fleet_overlap_twice], [bans_clear_lost],
      [login_overlap_unbounded], [image_suffix_passes], [data_room_inherited],
      [cut_off_empty], [tarpit_unlabelled], [lookup_negative_throws],
      [verifyPassword_empty_digest], [soak_needs_seconds],
      [grafana_ignores_session], [tenant_injection], [merge_drops_repeated],
      [turkish_reply_rejected], [english_taken_for_turkish],
      [russian_word_unseen], [copilot_no_ban_evidence], [offline_lists_all],
      [intel_pass_without_data], [compliance_always_passes],
      [lineage_layout_hangs], [bans_page_race], [home_race], [dots_all_rose],
      [snapshot_label_lost], [refused_ban_said_queued], [failed_ban_in_green],
      [summary_overrides], [tenant_change_keeps_figures], [slow_round],
      [reload_dead], [banner_without_ids], [redirect_repeats_form],
      [upload_stuck], [both_messages], [selection_lost], [closed_reopens],
      [verdict_stays], [banned_missed], [failure_shows_empty], [late_blob_leaks],
      [muted_fades_in], [volume_lost_in_fade], [musical_part_silent],
      [started_twice], [button_dead], [mark_cleared_early], [footer_dangles],
      [navigator_skips],
      [inherited_name_kept], [english_labels_missing], [limits_shortened],
      [step_counts_stale].

    ** Modelling decisions and bounds

    - A handler is a function of the request, the clock and its state; one that
      can throw runs in [M].  Where requests in progress share state that the
      theorems are about, the handler is also given piece by piece ([proc], the
      names that end in [_p]): a piece ends at every [await] of a database
      statement, file or network call, between two pieces anything else may run,
      and run alone it is the function in [M] (the lemmas [..._runs]).  These are
      the command queue (poll, creation, acknowledgement), the cache of the bans
      route and the schema registry; the login's two decisions, before and after
      it waits for the password, are two events of a history.  The other handlers
      have one access to shared state or are stated for one request at a time, and
      histories of them are sequences of whole requests ([fleet_delivery_live]).
      A status request reads the clock once.
    - A page is [on_event] and [on_response] over its state; a request carries the
      values its closure captured, and a state update that the code makes on the
      previous state is applied to the state at the time of the answer.  Effects
      run after the event that changes their inputs.  Answers are read at their
      declared types.  What is drawn is modelled as the data handed to the
      drawing (texts, classes, rows, points), not as markup.
    - Third-party code is a parameter: the database ([Table]), JWT signing and
      verification, scrypt, SHA-256 and HMAC, [fetch] and the file system
      ([world]), path joining, base64, [Date.parse], the Unicode case tables
      ([UnicodeCase], [CaseFold]), the host's formatting of dates, times and
      numbers and its collation ([DateFormat], [TimeFormat], [LocaleText],
      [Printing], [PageText], [Collation]).  What a theorem needs of one is a hypothesis or a law of the
      class, and a concrete instance serves the witnesses.
    - Quantities the code keeps as whole numbers (times in milliseconds, counts,
      ports) are [Z] with [None] for NaN; other numbers are [spec_float] with
      53-bit precision.  Database [Int] columns are limited to 32 bits.
    - Documents are read at their declared types; a value of another type makes
      the handler fail where the code would use it.  The gate reports, which the
      code casts without a check, are dynamic values ([val]); the interfaces they
      are cast to are data of type [ty].
    - Fuel: [JSON_parse] gets twice the length of the text plus one, proved enough
      by [JSON_parse_fuel] (any larger fuel gives the same answer); [dec] uses the
      binary length of the number, proved enough by [dec_digits_val]; digit
      searches in [num_to_string] cover the 17 significant digits of a double.
      The regular-expression matcher needs none.

    ** Not modelled

    Markup and styles, and the rows of panels that only repeat a field of their
    document; the buttons that only copy a text; the landing site's canvas drawing,
    cursor and pointer smoothing (particles and scene, which no page mounts); shells
    that only name a component, redirect or re-export; the C analyzer, its eBPF
    programs and the scripts (another language, seen through HTTP, files and
    commands) and the Prisma client (third party, a class here).  What is left of the
    language modelled here decides nothing: it places texts and boxes. *)

From Stdlib Require Import Strings.Byte Sorting.Sorted.
From Stdlib Require Export ZArith Lia.
From stdpp Require Import strings.
From stdpp Require Export base tactics option gmap.
From stdpp Require Export list.
#[global] Open Scope Z_scope.

(** ** JavaScript strings

    A JavaScript string is a finite sequence of 16-bit code units.  A unit is
    kept as a [Z]; a string is the plain list, so that the list lemmas apply. *)
Abbreviation jstring := (list Z).

(** Literals are written in scope [js]; the parser below decodes the UTF-8 of
    the literal to the UTF-16 units JavaScript would hold. *)
Declare Scope js_scope.
Delimit Scope js_scope with js.

Module Literal.

Inductive units := unil | ucons (c : Z) (s : units).

(** Units of one code point: itself in the basic plane, else a surrogate pair. *)
Definition add_point (p : Z) (s : units) : units :=
  if p <? 65536 then ucons p s
  else ucons (55296 + (p - 65536) / 1024) (ucons (56320 + (p - 65536) mod 1024) s).

(** [decode need acc bytes]: [need] continuation bytes of the point [acc] are
    still to come. *)
Fixpoint decode (need : nat) (acc : Z) (l : list Byte.byte) : units :=
  match l with
  | [] => unil
  | b :: l =>
      let c := Z.of_N (Byte.to_N b) in
      match need with
      | S O => add_point (acc * 64 + c mod 64) (decode O 0 l)
      | S n => decode n (acc * 64 + c mod 64) l
      | O =>
          if c <? 128 then ucons c (decode O 0 l)
          else if c <? 224 then decode 1 (c mod 32) l
          else if c <? 240 then decode 2 (c mod 16) l
          else decode 3 (c mod 8) l
      end
  end.

Definition parse (l : list Byte.byte) : units := decode O 0 l.

(** Printer, used by the display of goals only; it gives up outside ASCII. *)
Fixpoint print (s : units) : option (list Byte.byte) :=
  match s with
  | unil => Some []
  | ucons c s =>
      if (0 <=? c) && (c <? 128) then
        match Byte.of_N (Z.to_N c), print s with
        | Some b, Some l => Some (b :: l)
        | _, _ => None
        end
      else None
  end.

Definition text := list Z.

#[warnings="-via-type-remapping,-via-type-mismatch"]
String Notation text parse print (via units mapping [[nil] => unil, [cons] => ucons]) : js_scope.

End Literal.

#[global] Open Scope js_scope.
Export (notations) Literal.

(** The double quote, which a literal of this development cannot contain. *)
Definition dq : jstring := [34].

(** Boolean equality of strings ([===] on two strings). *)
Definition jeq (a b : jstring) : bool := bool_decide (a = b).
Infix "=s" := jeq (at level 70) : js_scope.

Lemma jeq_true a b : (a =s b) = true ↔ a = b.
Proof. unfold jeq. by rewrite bool_decide_eq_true. Qed.
Lemma jeq_false a b : (a =s b) = false ↔ a ≠ b.
Proof. unfold jeq. by rewrite bool_decide_eq_false. Qed.
Lemma jeq_refl a : (a =s a) = true.
Proof. by apply jeq_true. Qed.

(** A string is truthy exactly when it is not empty. *)
Definition nonempty (s : jstring) : bool := match s with [] => false | _ => true end.

Lemma nonempty_true s : nonempty s = true ↔ s ≠ [].
Proof. destruct s; naive_solver. Qed.
Lemma nonempty_false s : nonempty s = false ↔ s = [].
Proof. destruct s; naive_solver. Qed.

(** [a || b] on strings. *)
Definition sor (a b : jstring) : jstring := if nonempty a then a else b.
(** [a || b] where [a] may be [undefined] or [null]. *)
Definition oor (a : option jstring) (b : jstring) : jstring := sor (default [] a) b.
(** The truthy part of an optional string: [None] for a missing or empty one. *)
Definition truthy_str (a : option jstring) : option jstring :=
  match a with Some s => if nonempty s then Some s else None | None => None end.

Lemma truthy_str_Some a s : truthy_str a = Some s ↔ a = Some s ∧ s ≠ [].
Proof.
  destruct a as [[|c t]|]; simpl; split; intros; naive_solver.
Qed.

(** ** Hint database and tactics of the development *)

Create HintDb lg discriminated.
#[export] Hint Resolve jeq_refl : lg.

(** Turns the boolean tests of the models into the propositions they decide. *)
Ltac bprop :=
  repeat match goal with
  | H : (_ && _) = true |- _ => apply andb_true_iff in H; destruct H
  | H : (_ || _) = false |- _ => apply orb_false_iff in H; destruct H
  | H : negb _ = true |- _ => apply negb_true_iff in H
  | H : negb _ = false |- _ => apply negb_false_iff in H
  | H : jeq _ _ = true |- _ => apply jeq_true in H
  | H : jeq _ _ = false |- _ => apply jeq_false in H
  | H : nonempty _ = true |- _ => apply nonempty_true in H
  | H : nonempty _ = false |- _ => apply nonempty_false in H
  | H : bool_decide _ = true |- _ => apply bool_decide_eq_true in H
  | H : bool_decide _ = false |- _ => apply bool_decide_eq_false in H
  | H : (_ <? _) = true |- _ => apply Z.ltb_lt in H
  | H : (_ <? _) = false |- _ => apply Z.ltb_ge in H
  | H : (_ <=? _) = true |- _ => apply Z.leb_le in H
  | H : (_ <=? _) = false |- _ => apply Z.leb_gt in H
  | H : (_ =? _) = true |- _ => apply Z.eqb_eq in H
  | H : (_ =? _) = false |- _ => apply Z.eqb_neq in H
  end.

(** Case analysis on the first test of the goal or of a hypothesis. *)
Ltac split_if :=
  match goal with
  | |- context [if ?b then _ else _] => let E := fresh "E" in destruct b eqn:E
  | H : context [if ?b then _ else _] |- _ => let E := fresh "E" in destruct b eqn:E
  end.
Ltac split_match :=
  match goal with
  | |- context [match ?b with _ => _ end] => let E := fresh "E" in destruct b eqn:E
  | H : context [match ?b with _ => _ end] |- _ => let E := fresh "E" in destruct b eqn:E
  end.
Ltac splits := repeat match goal with |- _ ∧ _ => split end.

(** ** Results with exceptions, and the state monad of the route handlers

    A handler runs over a state [S]; a JavaScript exception aborts it but keeps
    the effects already done, which is why the state is outside the result. *)
Inductive res (A : Type) : Type :=
  | Ok (a : A)
  | Throw (msg : jstring).
Arguments Ok {A} a.
Arguments Throw {A} msg.

Definition M (S A : Type) : Type := S → res A * S.

Section monad.
Context {S : Type}.
Definition mret' {A} (a : A) : M S A := λ s, (Ok a, s).
Definition mbind' {A B} (m : M S A) (k : A → M S B) : M S B := λ s,
  match m s with
  | (Ok a, s') => k a s'
  | (Throw e, s') => (Throw e, s')
  end.
Definition throw {A} (e : jstring) : M S A := λ s, (Throw e, s).
(** [try { m } catch (e) { h(e) }] *)
Definition catch {A} (m : M S A) (h : jstring → M S A) : M S A := λ s,
  match m s with
  | (Ok a, s') => (Ok a, s')
  | (Throw e, s') => h e s'
  end.
Definition get : M S S := λ s, (Ok s, s).
Definition modify (f : S → S) : M S unit := λ s, (Ok tt, f s).
(** A call of an external operation that may throw. *)
Definition ofo {A} (e : jstring) (o : option A) : M S A :=
  match o with Some a => mret' a | None => throw e end.

Definition lift_res {A} (r : res A) : M S A := λ s, (r, s).
(** A state transformer that returns a value. *)
Definition run {A} (f : S → A * S) : M S A := λ s, let '(a, s') := f s in (Ok a, s').

Lemma catch_ok {A} (m : M S A) h s : ∀ a, m s = (Ok a, s) → catch m h s = (Ok a, s).
Proof. intros a H. unfold catch. by rewrite H. Qed.
End monad.

Notation "'let*' x ':=' m 'in' k" := (mbind' m (λ x, k))
  (at level 10, x pattern, m at level 100, k at level 200) : js_scope.
Notation "m ';;;' k" := (mbind' m (λ _, k)) (at level 100, right associativity) : js_scope.

(** [for (const x of l) f(x)] *)
Fixpoint for_each {S A} (f : A → M S unit) (l : list A) : M S unit :=
  match l with
  | [] => mret' tt
  | x :: l' => mbind' (f x) (λ _, for_each f l')
  end.

(** [m] preserves the invariant [I] of the state, also when it throws. *)
Definition keeps {S A} (I : S → Prop) (m : M S A) : Prop := ∀ s, I s → I (m s).2.

Section keeps.
Context {S : Type} (I : S → Prop).
Lemma keeps_ret {A} (a : A) : keeps I (mret' a).
Proof. by intros s. Qed.
Lemma keeps_throw {A} e : keeps I (throw (A := A) e).
Proof. by intros s. Qed.
Lemma keeps_bind {A B} (m : M S A) (k : A → M S B) :
  keeps I m → (∀ a, keeps I (k a)) → keeps I (mbind' m k).
Proof.
  intros Hm Hk s Hs. unfold mbind'. specialize (Hm s Hs).
  destruct (m s) as [[a|e] s']; [by apply Hk|done].
Qed.
Lemma keeps_catch {A} (m : M S A) h :
  keeps I m → (∀ e, keeps I (h e)) → keeps I (catch m h).
Proof.
  intros Hm Hk s Hs. unfold catch. specialize (Hm s Hs).
  destruct (m s) as [[a|e] s']; [done|by apply Hk].
Qed.
Lemma keeps_modify f : (∀ s, I s → I (f s)) → keeps I (modify f).
Proof. intros H s Hs. by apply H. Qed.
Lemma keeps_lift {A} (r : res A) : keeps I (lift_res r).
Proof. by intros s. Qed.
Lemma keeps_for_each {A} (f : A → M S unit) l :
  (∀ x, keeps I (f x)) → keeps I (for_each f l).
Proof. intros H. induction l; simpl; [apply keeps_ret|]. by apply keeps_bind. Qed.
Lemma keeps_if {A} (b : bool) (m1 m2 : M S A) :
  keeps I m1 → keeps I m2 → keeps I (if b then m1 else m2).
Proof. by destruct b. Qed.
End keeps.

#[export] Hint Resolve keeps_ret keeps_throw keeps_bind keeps_catch keeps_modify keeps_lift
  keeps_for_each keeps_if : lg.

(** Walks through a handler: every step keeps the invariant. *)
Ltac keep_steps :=
  repeat match goal with
  | |- keeps _ (mbind' _ _) => apply keeps_bind; [|intros ?]
  | |- keeps _ (for_each _ _) => apply keeps_for_each; intros ?
  | |- keeps _ (catch _ _) => apply keeps_catch; [|intros ?]
  | |- keeps _ (mret' _) => apply keeps_ret
  | |- keeps _ (throw _) => apply keeps_throw
  | |- keeps _ (lift_res _) => apply keeps_lift
  | |- keeps _ (if _ then _ else _) => apply keeps_if
  | |- keeps _ (match ?x with _ => _ end) => destruct x
  | |- keeps _ _ => solve [eauto with lg]
  end.

(** ** Lists *)

Section lists.
Context {A : Type}.

(** [Array.prototype.sort] with a consistent comparator is a stable sort:
    [le a b] stands for [cmp(a, b) <= 0]. *)
Fixpoint ins_by (le : A → A → bool) (x : A) (l : list A) : list A :=
  match l with
  | [] => [x]
  | y :: l' => if le x y then x :: y :: l' else y :: ins_by le x l'
  end.
Definition sort_by (le : A → A → bool) (l : list A) : list A :=
  foldr (ins_by le) [] l.

Lemma ins_by_perm le x l : ins_by le x l ≡ₚ x :: l.
Proof.
  induction l as [|y l IH]; simpl; [done|].
  destruct (le x y); [done|]. rewrite IH. apply Permutation_swap.
Qed.
Lemma sort_by_perm le l : sort_by le l ≡ₚ l.
Proof. induction l as [|x l IH]; simpl; [done|]. by rewrite ins_by_perm, IH. Qed.
Lemma sort_by_elem le l x : x ∈ sort_by le l ↔ x ∈ l.
Proof. by rewrite sort_by_perm. Qed.
Lemma sort_by_length le l : length (sort_by le l) = length l.
Proof. apply Permutation_length, sort_by_perm. Qed.

(** Sorted by an integer key, in increasing order. *)
Definition key_le (key : A → Z) (a b : A) : bool := key a <=? key b.
Definition sorted_by (key : A → Z) : list A → Prop :=
  StronglySorted (λ a b, key a ≤ key b).

Lemma ins_by_sorted key x l :
  sorted_by key l → sorted_by key (ins_by (key_le key) x l).
Proof.
  unfold sorted_by, key_le. induction 1 as [|y l Hs IH Hall]; simpl.
  - repeat constructor.
  - destruct (key x <=? key y) eqn:E; bprop.
    + constructor; [by constructor|]. constructor; [lia|].
      rewrite Forall_forall in Hall |- *. intros z Hz. specialize (Hall z Hz). lia.
    + constructor; [done|]. rewrite Forall_forall. intros z Hz.
      rewrite ins_by_perm in Hz. apply elem_of_cons in Hz as [->|Hz]; [lia|].
      rewrite Forall_forall in Hall. by apply Hall.
Qed.
Lemma sort_by_sorted key l : sorted_by key (sort_by (key_le key) l).
Proof. induction l; simpl; [constructor|]. by apply ins_by_sorted. Qed.

(** The head of a stable sort is the first element of minimal key. *)
(** Sorting by any comparator that refines the order of a key sorts by the key. *)
Lemma sort_by_refines (le : A → A → bool) key l :
  (∀ a b, le a b = true → key a ≤ key b) → (∀ a b, le a b = false → key b ≤ key a) →
  sorted_by key (sort_by le l).
Proof.
  intros Ht Hf. induction l as [|x l IH]; simpl; [constructor|].
  unfold sorted_by in *. induction IH as [|y l' IH IH' Hy]; simpl; [by repeat constructor|].
  destruct (le x y) eqn:E.
  - constructor; [by constructor|]. constructor; [by apply Ht|].
    eapply Forall_impl; [exact Hy|]. intros z Hz. cbn in *. specialize (Ht x y E). lia.
  - constructor; [done|]. rewrite ins_by_perm. constructor; [by apply Hf|done].
Qed.
Lemma sort_by_head_min key l x t :
  sort_by (key_le key) l = x :: t → x ∈ l ∧ ∀ y, y ∈ l → key x ≤ key y.
Proof.
  intros H. pose proof (sort_by_sorted key l) as Hs.
  assert (Hp : ∀ y, y ∈ l ↔ y ∈ x :: t) by (intros; rewrite <- H; by rewrite sort_by_elem).
  rewrite H in Hs. inversion_clear Hs as [|? ? _ Hall]. rewrite Forall_forall in Hall.
  split; [apply Hp; by left|]. intros y Hy%Hp. apply elem_of_cons in Hy as [->|Hy]; [lia|].
  by apply Hall.
Qed.

(** [Array.prototype.slice(from, to)] for non-negative bounds. *)
Definition slice (from to : Z) (l : list A) : list A :=
  take (Z.to_nat (to - from)) (drop (Z.to_nat from) l).

Lemma slice_length from to l :
  (length (slice from to l) <= Z.to_nat (to - from))%nat.
Proof. unfold slice. rewrite length_take. lia. Qed.
Lemma slice_sub from to l x : x ∈ slice from to l → x ∈ l.
Proof.
  unfold slice. intros H. eapply elem_of_submseteq; [exact H|].
  apply sublist_submseteq. transitivity (drop (Z.to_nat from) l);
    [apply sublist_take|apply sublist_drop].
Qed.

(** [Array.prototype.filter] and [find] with a boolean predicate. *)
Definition jfilter (p : A → bool) (l : list A) : list A := List.filter p l.
Definition jfind (p : A → bool) (l : list A) : option A := List.find p l.

Lemma jfilter_elem p l x : x ∈ jfilter p l ↔ x ∈ l ∧ p x = true.
Proof. unfold jfilter. rewrite !list_elem_of_In, filter_In. done. Qed.
Lemma jfilter_length p l : (length (jfilter p l) <= length l)%nat.
Proof. unfold jfilter. induction l as [|x l IH]; simpl; [done|]. destruct (p x); simpl; lia. Qed.
Lemma jfilter_all p l : (∀ x, x ∈ l → p x = true) → jfilter p l = l.
Proof.
  unfold jfilter. induction l as [|x l IH]; simpl; [done|]. intros H.
  rewrite (H x) by (by left). f_equal. apply IH. intros; apply H; by right.
Qed.
Lemma jfilter_none p l : (∀ x, x ∈ l → p x = false) → jfilter p l = [].
Proof.
  unfold jfilter. induction l as [|x l IH]; simpl; [done|]. intros H.
  rewrite (H x) by (by left). apply IH. intros; apply H; by right.
Qed.
#[global] Instance jfilter_perm p : Proper ((≡ₚ) ==> (≡ₚ)) (jfilter p).
Proof.
  unfold jfilter. intros l1 l2. induction 1; simpl; repeat split_if; auto.
  - apply perm_swap.
  - by etransitivity.
Qed.
Lemma jfind_Some p l x : jfind p l = Some x → x ∈ l ∧ p x = true.
Proof. unfold jfind. intros H. apply find_some in H. by rewrite list_elem_of_In. Qed.
Lemma jfind_None p l : jfind p l = None ↔ ∀ x, x ∈ l → p x = false.
Proof.
  unfold jfind. split.
  - intros H x Hx. eapply find_none; [exact H|]. by rewrite <- list_elem_of_In.
  - induction l as [|y l IH]; simpl; [done|]. intros H. rewrite (H y) by (by left).
    apply IH. intros; apply H; by right.
Qed.

(** Keeps the first entry of each key: the loop over a [Set] of seen keys. *)
Fixpoint dedup_by {K} `{EqDecision K} (key : A → K) (seen : list K) (l : list A) : list A :=
  match l with
  | [] => []
  | x :: l' =>
      if bool_decide (key x ∈ seen) then dedup_by key seen l'
      else x :: dedup_by key (key x :: seen) l'
  end.

Lemma dedup_by_fresh {K} `{EqDecision K} (key : A → K) seen l x :
  x ∈ dedup_by key seen l → x ∈ l ∧ key x ∉ seen.
Proof.
  revert seen. induction l as [|y l IH]; simpl; intros seen Hx; [by apply elem_of_nil in Hx|].
  split_if; bprop.
  - apply IH in Hx as [? ?]. split; [by right|done].
  - apply elem_of_cons in Hx as [->|Hx]; [split; [by left|done]|].
    apply IH in Hx as [? Hn]. split; [by right|]. intros Hs. apply Hn. by right.
Qed.
Lemma dedup_by_nodup {K} `{EqDecision K} (key : A → K) seen l :
  NoDup (key <$> dedup_by key seen l).
Proof.
  revert seen. induction l as [|y l IH]; simpl; intros seen; [constructor|].
  split_if; [apply IH|]. simpl. constructor; [|apply IH].
  intros (z & Hz & Hin)%list_elem_of_fmap. apply dedup_by_fresh in Hin as [_ Hn].
  apply Hn. rewrite <- Hz. by left.
Qed.
Lemma dedup_by_covers {K} `{EqDecision K} (key : A → K) seen l x :
  x ∈ l → key x ∈ seen ∨ ∃ y, y ∈ dedup_by key seen l ∧ key y = key x.
Proof.
  revert seen. induction l as [|y l IH]; simpl; intros seen Hx; [by apply elem_of_nil in Hx|].
  apply elem_of_cons in Hx as [->|Hx].
  - split_if; bprop; [by left|]. right. exists y. split; [by left|done].
  - split_if; bprop; [by apply IH|]. destruct (IH (key y :: seen) Hx) as [Hs|(z & Hz & Hk)].
    + apply elem_of_cons in Hs as [Hs|Hs]; [|by left]. right. exists y. split; [by left|done].
    + right. exists z. split; [by right|done].
Qed.
Lemma dedup_by_sublist {K} `{EqDecision K} (key : A → K) seen l :
  dedup_by key seen l `sublist_of` l.
Proof.
  revert seen. induction l as [|y l IH]; simpl; intros seen; [constructor|].
  split_if; by constructor.
Qed.
Lemma sublist_sorted_by key (l1 l2 : list A) :
  l1 `sublist_of` l2 → sorted_by key l2 → sorted_by key l1.
Proof.
  unfold sorted_by. induction 1 as [|x l1 l2 Hsub IH|x l1 l2 Hsub IH]; intros Hs; [done| |].
  - inversion_clear Hs as [|? ? Hs' Hall]. constructor; [by apply IH|].
    rewrite Forall_forall in Hall |- *. intros z Hz. apply Hall.
    eapply elem_of_submseteq; [exact Hz|by apply sublist_submseteq].
  - inversion_clear Hs. by apply IH.
Qed.
Lemma sorted_by_app key (l1 l2 : list A) x y : sorted_by key (l1 ++ l2) → x ∈ l1 → y ∈ l2 → key x ≤ key y.
Proof.
  induction l1 as [|z l1 IH]; cbn; [by intros _ ?%elem_of_nil|]. intros Hs.
  inversion_clear Hs as [|? ? Hs' Hall]. rewrite Forall_forall in Hall.
  intros [->|Hx]%elem_of_cons Hy; [|by apply IH]. apply Hall, elem_of_app. by right.
Qed.
Lemma take_sorted_by key n (l : list A) : sorted_by key l → sorted_by key (take n l).
Proof. apply sublist_sorted_by, sublist_take. Qed.
Lemma jfilter_sublist p (l : list A) : jfilter p l `sublist_of` l.
Proof. unfold jfilter. induction l as [|x l IH]; simpl; [constructor|]. split_if; by constructor. Qed.
Lemma forallb_Forall (p : A → bool) (l : list A) :
  forallb p l = true ↔ Forall (λ x, p x = true) l.
Proof.
  rewrite forallb_forall, Forall_forall.
  split; intros H x Hx; apply H; by rewrite list_elem_of_In in *.
Qed.
End lists.

#[export] Hint Resolve sort_by_sorted take_sorted_by : lg.

(** Sorting commutes with a map that keeps the comparison. *)
Lemma sort_by_fmap {A B} (f : A → B) (le : A → A → bool) (le' : B → B → bool) l :
  (∀ a b, le a b = le' (f a) (f b)) → f <$> sort_by le l = sort_by le' (f <$> l).
Proof.
  intros H. assert (Hi : ∀ x l, f <$> ins_by le x l = ins_by le' (f x) (f <$> l)).
  { intros x l'. induction l' as [|y l' IH]; cbn; [done|]. rewrite <- H. destruct (le x y); cbn; by rewrite ?IH. }
  induction l as [|x l IH]; [done|]. cbn -[ins_by]. rewrite Hi. f_equal. exact IH.
Qed.

(** ** Optional values *)

(** [a ?? b] *)
Notation "a ?? b" := (default b a) (at level 45, right associativity, only parsing) : js_scope.

Fixpoint first_some {A B} (f : A → option B) (l : list A) : option B :=
  match l with
  | [] => None
  | x :: l' => match f x with Some y => Some y | None => first_some f l' end
  end.

Lemma first_some_Some {A B} (f : A → option B) l y :
  first_some f l = Some y →
  ∃ l1 x l2, l = l1 ++ x :: l2 ∧ f x = Some y ∧ ∀ z, z ∈ l1 → f z = None.
Proof.
  induction l as [|x l IH]; simpl; [done|]. destruct (f x) eqn:E.
  - intros [= ->]. exists [], x, l. splits; [done|done|]. intros z Hz. by apply elem_of_nil in Hz.
  - intros (l1 & x' & l2 & -> & Hf & Hn)%IH. exists (x :: l1), x', l2. splits; [done|done|].
    intros z [->|Hz]%elem_of_cons; [done|by apply Hn].
Qed.

Lemma first_some_ext {A B} (f g : A → option B) l :
  (∀ x, f x = g x) → first_some f l = first_some g l.
Proof. intros H. induction l as [|x l IH]; simpl; [done|]. by rewrite H, IH. Qed.
