(* ===== verification/JsMap.v ===== *)
(** The [Map] of JavaScript: an association list in insertion order, in which
    [set] of a known key keeps its place.  [Set] is a map to [unit].  Also the
    indexed traversals ([forEach((x, i) => ...)]) of arrays. *)

From S2P Require Import Prelude.

Section ordered_map.
Context {K V : Type} `{!EqDecision K}.

Fixpoint mget (k : K) (m : list (K * V)) : option V :=
  match m with
  | [] => None
  | (k', v) :: m' => if bool_decide (k = k') then Some v else mget k m'
  end.
Fixpoint mset (k : K) (v : V) (m : list (K * V)) : list (K * V) :=
  match m with
  | [] => [(k, v)]
  | (k', v') :: m' => if bool_decide (k = k') then (k', v) :: m' else (k', v') :: mset k v m'
  end.
Definition mhas (k : K) (m : list (K * V)) : bool := match mget k m with Some _ => true | None => false end.
(** [new Map(l)] *)
Definition map_of (l : list (K * V)) : list (K * V) := fold_left (λ m kv, mset kv.1 kv.2 m) l [].

Lemma mget_set_eq k v m : mget k (mset k v m) = Some v.
Proof.
  induction m as [|[k' v'] m IH]; cbn; [by rewrite bool_decide_true|].
  destruct (bool_decide (k = k')) eqn:E; cbn; by rewrite E.
Qed.
Lemma mget_set_ne k k' v m : k ≠ k' → mget k (mset k' v m) = mget k m.
Proof.
  intros Hne. induction m as [|[k1 v1] m IH]; cbn.
  - by rewrite bool_decide_false.
  - destruct (bool_decide (k' = k1)) eqn:E; cbn; [|by rewrite IH].
    bprop; subst. by rewrite !(bool_decide_false (k = k1)).
Qed.
Lemma mget_set k k' v m : mget k (mset k' v m) = if bool_decide (k = k') then Some v else mget k m.
Proof. destruct (bool_decide _) eqn:E; bprop; subst; [apply mget_set_eq|by apply mget_set_ne]. Qed.

Lemma mget_None k m : mget k m = None ↔ k ∉ m.*1.
Proof.
  induction m as [|[k' v] m IH]; cbn; [split; [intros _; apply not_elem_of_nil|done]|].
  rewrite not_elem_of_cons. destruct (bool_decide (k = k')) eqn:E; bprop; naive_solver.
Qed.
Lemma mget_is_Some k m : is_Some (mget k m) ↔ k ∈ m.*1.
Proof.
  destruct (mget k m) eqn:E.
  - split; [|eauto]. intros _. destruct (decide (k ∈ m.*1)) as [|Hn]; [done|]. apply mget_None in Hn. congruence.
  - apply mget_None in E. split; [by intros [? ?]|done].
Qed.
Lemma mget_elem k v m : mget k m = Some v → (k, v) ∈ m.
Proof.
  induction m as [|[k' v'] m IH]; cbn; [done|]. destruct (bool_decide (k = k')) eqn:E; bprop; subst.
  - intros [= ->]. by left.
  - intros H. right. auto.
Qed.
Lemma mget_nodup k v m : NoDup m.*1 → (k, v) ∈ m → mget k m = Some v.
Proof.
  induction m as [|[k' v'] m IH]; cbn; [by intros _ ?%elem_of_nil|]. rewrite NoDup_cons. intros [Hn Hd].
  intros [[= -> ->]|Hin]%elem_of_cons; [by rewrite bool_decide_true|].
  destruct (bool_decide (k = k')) eqn:E; bprop; subst; [|auto]. destruct Hn. apply list_elem_of_fmap. by exists (k', v).
Qed.

Lemma mset_keys k v m : (mset k v m).*1 = if bool_decide (k ∈ m.*1) then m.*1 else m.*1 ++ [k].
Proof.
  induction m as [|[k' v'] m IH]; cbn; [done|].
  destruct (bool_decide (k = k')) eqn:E; bprop; cbn.
  - rewrite bool_decide_true; [done|]. subst. by left.
  - rewrite IH. destruct (bool_decide (k ∈ m.*1)) eqn:E'; bprop.
    + rewrite bool_decide_true; [done|by right].
    + rewrite bool_decide_false; [done|]. rewrite not_elem_of_cons. done.
Qed.
Lemma mset_keys_elem k v m x : x ∈ (mset k v m).*1 ↔ x = k ∨ x ∈ m.*1.
Proof.
  rewrite mset_keys. destruct (bool_decide (k ∈ m.*1)) eqn:E; bprop; [naive_solver|].
  rewrite elem_of_app, list_elem_of_singleton. naive_solver.
Qed.
Lemma mset_nodup k v m : NoDup m.*1 → NoDup (mset k v m).*1.
Proof.
  rewrite mset_keys. destruct (bool_decide (k ∈ m.*1)) eqn:E; bprop; [done|]. intros Hd.
  apply NoDup_app. splits; [done| |apply NoDup_singleton]. by intros x Hx ->%list_elem_of_singleton.
Qed.
Lemma fold_mset_nodup (l m : list (K * V)) : NoDup m.*1 → NoDup (fold_left (λ m kv, mset kv.1 kv.2 m) l m).*1.
Proof. revert m. induction l as [|x l IH]; intros m Hm; cbn; [done|]. by apply IH, mset_nodup. Qed.
Lemma map_of_nodup l : NoDup (map_of l).*1.
Proof. apply fold_mset_nodup. constructor. Qed.

(** A map built from distinct keys is the list itself. *)
Lemma mset_fresh k v m : k ∉ m.*1 → mset k v m = m ++ [(k, v)].
Proof.
  induction m as [|[k' v'] m IH]; cbn; [done|]. rewrite not_elem_of_cons. intros [Hne Hn].
  rewrite bool_decide_false by done. by rewrite IH.
Qed.
Lemma map_of_distinct l : NoDup l.*1 → map_of l = l.
Proof.
  unfold map_of. enough (H : ∀ m, NoDup (m ++ l).*1 → fold_left (λ m kv, mset kv.1 kv.2 m) l m = m ++ l) by exact (H []).
  induction l as [|[k v] l IH]; intros m Hd; cbn; [by rewrite app_nil_r|].
  rewrite mset_fresh.
  - rewrite IH; by rewrite <- app_assoc.
  - rewrite fmap_app in Hd. apply NoDup_app in Hd as (_ & Hd & _). intros Hk. apply (Hd k Hk). by left.
Qed.
End ordered_map.

#[export] Hint Resolve mset_nodup map_of_nodup : lg.

(** [l.forEach((x, i) => ...)] and [l.map((x, i) => ...)] walk over these pairs. *)
Definition numbered {A} (l : list A) : list (nat * A) := zip (seq 0 (length l)) l.

Lemma numbered_lookup {A} (l : list A) i : numbered l !! i = (λ x, (i, x)) <$> l !! i.
Proof.
  unfold numbered. rewrite lookup_zip_with. destruct (l !! i) as [x|] eqn:E; cbn.
  - pose proof (lookup_lt_Some _ _ _ E). by rewrite lookup_seq_lt.
  - apply lookup_ge_None in E. by rewrite lookup_seq_ge.
Qed.
Lemma numbered_elem {A} (l : list A) i x : (i, x) ∈ numbered l ↔ l !! i = Some x.
Proof.
  rewrite list_elem_of_lookup. setoid_rewrite numbered_lookup. split.
  - intros (j & H). destruct (l !! j) eqn:E; cbn in H; [|done]. by simplify_eq.
  - intros H. exists i. by rewrite H.
Qed.
Lemma numbered_snd {A} (l : list A) : (numbered l).*2 = l.
Proof. unfold numbered. apply snd_zip. by rewrite length_seq. Qed.
Lemma numbered_fst {A} (l : list A) : (numbered l).*1 = seq 0 (length l).
Proof. unfold numbered. apply fst_zip. by rewrite length_seq. Qed.
