(* ===== verification/JsString.v ===== *)
(** The string operations of the JavaScript standard library that the dashboard
    uses: trimming, prefix and substring tests, splitting and joining, ASCII
    and Unicode case folding, decimal printing, [parseInt] and UTF-8 encoding.
    These model the language, not a file of the repository. *)

From S2P Require Import Prelude.

(** ** White space and trimming *)

(** WhiteSpace and LineTerminator of ECMA-262, which [trim] and [\s] use. *)
Definition is_space (c : Z) : bool :=
  ((9 <=? c) && (c <=? 13)) || (c =? 32) || (c =? 160) || (c =? 5760)
  || ((8192 <=? c) && (c <=? 8202)) || (c =? 8232) || (c =? 8233) || (c =? 8239)
  || (c =? 8287) || (c =? 12288) || (c =? 65279).

Fixpoint trim_start (s : jstring) : jstring :=
  match s with
  | [] => []
  | c :: s' => if is_space c then trim_start s' else s
  end.
Definition trim_end (s : jstring) : jstring := rev (trim_start (rev s)).
Definition trim (s : jstring) : jstring := trim_end (trim_start s).

(** No white space at all. *)
Definition no_space (s : jstring) : Prop := ∀ c, c ∈ s → is_space c = false.

Lemma trim_start_id s : (∀ c t, s = c :: t → is_space c = false) → trim_start s = s.
Proof. destruct s as [|c t]; simpl; [done|]. intros H. by rewrite (H c t). Qed.
Lemma trim_start_suffix s : ∃ p, s = p ++ trim_start s ∧ ∀ c, c ∈ p → is_space c = true.
Proof.
  induction s as [|c s (p & IH & Hp)]; simpl.
  - exists []. split; [done|]. intros c Hc. by apply elem_of_nil in Hc.
  - destruct (is_space c) eqn:E.
    + exists (c :: p). rewrite IH at 1. split; [done|].
      intros d [->|Hd]%elem_of_cons; [done|by apply Hp].
    + exists []. split; [done|]. intros d Hd. by apply elem_of_nil in Hd.
Qed.
Lemma trim_start_head s c t : trim_start s = c :: t → is_space c = false.
Proof.
  induction s as [|d s IH]; simpl; [done|]. destruct (is_space d) eqn:E; [apply IH|].
  by intros [= -> ->].
Qed.
Lemma trim_start_idemp s : trim_start (trim_start s) = trim_start s.
Proof. apply trim_start_id. intros c t. apply trim_start_head. Qed.

Lemma trim_no_space s : no_space s → trim s = s.
Proof.
  intros H. unfold trim, trim_end. rewrite (trim_start_id s).
  - rewrite (trim_start_id (rev s)); [apply rev_involutive|].
    intros c t E. apply H. rewrite list_elem_of_In, in_rev, E. by left.
  - intros c t ->. apply H. by left.
Qed.

Lemma trim_end_start s : trim_start (trim_end (trim_start s)) = trim_end (trim_start s).
Proof.
  unfold trim_end. set (u := trim_start s).
  destruct (trim_start_suffix (rev u)) as (p & Hp & Hsp).
  apply trim_start_id. intros c t E.
  assert (Hu : u = rev (trim_start (rev u)) ++ rev p).
  { rewrite <- rev_app_distr, <- Hp. by rewrite rev_involutive. }
  rewrite E in Hu. apply (trim_start_head s c (t ++ rev p)). exact Hu.
Qed.
Lemma trim_sub s c : c ∈ trim s → c ∈ s.
Proof.
  assert (Hs : ∀ t, c ∈ trim_start t → c ∈ t).
  { intros t Hc. destruct (trim_start_suffix t) as (p & -> & _). apply elem_of_app. by right. }
  assert (Hr : ∀ t : jstring, c ∈ rev t ↔ c ∈ t) by (intros t; rewrite !list_elem_of_In; symmetry; apply in_rev).
  unfold trim, trim_end. intros H%Hr%Hs%Hr%Hs. done.
Qed.
Lemma trim_idemp s : trim (trim s) = trim s.
Proof.
  unfold trim at 1. unfold trim. rewrite trim_end_start.
  unfold trim_end. rewrite rev_involutive. by rewrite trim_start_idemp.
Qed.

(** ** Prefixes, suffixes, substrings *)

Fixpoint starts_with (p s : jstring) : bool :=
  match p, s with
  | [], _ => true
  | c :: p', d :: s' => (c =? d) && starts_with p' s'
  | _ :: _, [] => false
  end.
Definition ends_with (p s : jstring) : bool := starts_with (rev p) (rev s).

Fixpoint index_of (p s : jstring) : option nat :=
  if starts_with p s then Some O
  else match s with
       | [] => None
       | _ :: s' => S <$> index_of p s'
       end.
Definition includes (p s : jstring) : bool :=
  match index_of p s with Some _ => true | None => false end.

Lemma starts_with_spec p s : starts_with p s = true ↔ ∃ t, s = p ++ t.
Proof.
  revert s. induction p as [|c p IH]; intros s; simpl.
  - split; [by exists s|done].
  - destruct s as [|d s]; [naive_solver|]. rewrite andb_true_iff, Z.eqb_eq, IH.
    split; [intros [-> [t ->]]; by exists t|intros [t [= -> ->]]; eauto].
Qed.
Lemma starts_with_app p t : starts_with p (p ++ t) = true.
Proof. apply starts_with_spec. by exists t. Qed.
Lemma ends_with_spec p s : ends_with p s = true ↔ ∃ t, s = t ++ p.
Proof.
  unfold ends_with. rewrite starts_with_spec. split; intros [t H]; exists (rev t).
  - rewrite <- (rev_involutive s), H, rev_app_distr. by rewrite rev_involutive.
  - by rewrite H, rev_app_distr.
Qed.
Lemma index_of_unfold p s :
  index_of p s = if starts_with p s then Some O
                 else match s with [] => None | _ :: s' => S <$> index_of p s' end.
Proof. by destruct s. Qed.
Lemma index_of_Some p s n : index_of p s = Some n → ∃ a b, s = a ++ p ++ b ∧ length a = n.
Proof.
  revert n. induction s as [|c s IH]; intros n; simpl; split_if; intros H.
  1,3: apply starts_with_spec in E as [t E]; exists [], t; by injection H as <-.
  - done.
  - destruct (index_of p s) as [m|]; [|done]. injection H as <-.
    destruct (IH m eq_refl) as (a & b & -> & <-). by exists (c :: a), b.
Qed.
Lemma includes_spec p s : includes p s = true ↔ ∃ a b, s = a ++ p ++ b.
Proof.
  unfold includes. split.
  - destruct (index_of p s) eqn:E; [|done]. intros _. apply index_of_Some in E. naive_solver.
  - intros (a & b & ->). induction a as [|c a IH]; simpl.
    + by rewrite index_of_unfold, starts_with_app.
    + destruct (starts_with p (c :: a ++ p ++ b)); [done|].
      destruct (index_of p (a ++ p ++ b)); done.
Qed.

(** [s.slice(n)] and [s.slice(0, n)] for non-negative [n]. *)
Definition str_from (n : Z) (s : jstring) : jstring := drop (Z.to_nat n) s.
Definition str_upto (n : Z) (s : jstring) : jstring := take (Z.to_nat n) s.
(** [s.length] *)
Definition slen (s : jstring) : Z := Z.of_nat (length s).

(** ** Splitting and joining *)

(** [s.split(c)] for a separator of one unit. *)
Fixpoint split1 (c : Z) (s : jstring) : list jstring :=
  match s with
  | [] => [[]]
  | d :: s' =>
      if d =? c then [] :: split1 c s'
      else match split1 c s' with
           | [] => [[d]]
           | h :: t => (d :: h) :: t
           end
  end.

(** [s.split(sep)] for a longer separator; [skip] units of the separator that
    starts earlier are still to be dropped. *)
Fixpoint split_go (sep : jstring) (skip : nat) (s : jstring) : list jstring :=
  match s with
  | [] => [[]]
  | d :: s' =>
      match skip with
      | S k => split_go sep k s'
      | O =>
          if starts_with sep s then [] :: split_go sep (length sep - 1) s'
          else match split_go sep O s' with
               | [] => [[d]]
               | h :: t => (d :: h) :: t
               end
      end
  end.
Definition split_str (sep s : jstring) : list jstring := split_go sep O s.

(** [l.join(sep)] *)
Fixpoint join (sep : jstring) (l : list jstring) : jstring :=
  match l with
  | [] => []
  | [x] => x
  | x :: l' => x ++ sep ++ join sep l'
  end.

Lemma split1_nonnil c s : split1 c s ≠ [].
Proof. destruct s as [|d s]; simpl; [done|]. repeat split_if; try done. by destruct (split1 c s). Qed.
Lemma split1_join c s : join [c] (split1 c s) = s.
Proof.
  induction s as [|d s IH]; simpl; [done|]. destruct (d =? c) eqn:E; bprop.
  - subst d. destruct (split1 c s) eqn:F; [by apply split1_nonnil in F|]. simpl in *. by rewrite IH.
  - destruct (split1 c s) as [|h t] eqn:F; [by apply split1_nonnil in F|].
    destruct t as [|x t]; simpl in *; by rewrite <- IH.
Qed.
Lemma split1_free c s p : p ∈ split1 c s → c ∉ p.
Proof.
  revert p. induction s as [|d s IH]; simpl; intros p Hp.
  - apply list_elem_of_singleton in Hp as ->. apply not_elem_of_nil.
  - destruct (d =? c) eqn:E; bprop.
    + apply elem_of_cons in Hp as [->|Hp]; [apply not_elem_of_nil|by apply IH].
    + destruct (split1 c s) as [|h t] eqn:F; [by apply split1_nonnil in F|].
      apply elem_of_cons in Hp as [->|Hp]; [|apply IH; by right].
      apply not_elem_of_cons. split; [congruence|]. apply IH. by left.
Qed.
Lemma split1_single c s : c ∉ s → split1 c s = [s].
Proof.
  induction s as [|d s IH]; simpl; [done|]. intros [Hd Hs]%not_elem_of_cons.
  destruct (d =? c) eqn:E; bprop; [congruence|]. by rewrite (IH Hs).
Qed.
(** A separator-free prefix is the first piece. *)
Lemma split1_app c a b : c ∉ a → split1 c (a ++ c :: b) = a :: split1 c b.
Proof.
  induction a as [|d a IH]; simpl.
  - intros _. by rewrite Z.eqb_refl.
  - intros [Hd Ha]%not_elem_of_cons. destruct (d =? c) eqn:E; bprop; [congruence|].
    by rewrite (IH Ha).
Qed.
(** Joining pieces free of the separator and splitting again is the identity. *)
Lemma split1_of_join c l :
  l ≠ [] → (∀ p, p ∈ l → c ∉ p) → split1 c (join [c] l) = l.
Proof.
  induction l as [|p l IH]; intros Hne Hf; [done|]. destruct l as [|q l].
  - cbn [join]. apply split1_single, Hf. by left.
  - change (join [c] (p :: q :: l)) with (p ++ c :: join [c] (q :: l)).
    rewrite split1_app by (apply Hf; by left). f_equal. apply IH; [done|].
    intros x Hx. apply Hf. by right.
Qed.
(** Two decompositions at the first separator agree. *)
Lemma sep_inj c (a1 a2 b1 b2 : jstring) :
  c ∉ a1 → c ∉ a2 → a1 ++ c :: b1 = a2 ++ c :: b2 → a1 = a2 ∧ b1 = b2.
Proof.
  revert a2. induction a1 as [|x a1 IH]; intros [|y a2] H1 H2 [= E]; simplify_eq; try done.
  - exfalso. apply H2. by left.
  - exfalso. apply H1. by left.
  - apply not_elem_of_cons in H1 as [_ H1]. apply not_elem_of_cons in H2 as [_ H2].
    destruct (IH a2 H1 H2) as [-> ->]; done.
Qed.

(** [s.replace(/x/g, y)] for one unit. *)
Definition replace_unit (x : Z) (y s : jstring) : jstring :=
  flat_map (λ c, if c =? x then y else [c]) s.
(** [s.replace(p, y)] for a string pattern: the first occurrence. *)
Definition replace_first (p y s : jstring) : jstring :=
  match index_of p s with
  | Some n => take n s ++ y ++ drop (n + length p) s
  | None => s
  end.

(** ** Case folding

    Lower and upper casing use the Unicode tables of the host.  The tables are a
    parameter; what the code relies on is that ASCII letters fold as usual and
    that folding is idempotent. *)
Definition ascii_lower (c : Z) : Z := if (65 <=? c) && (c <=? 90) then c + 32 else c.
Definition ascii_upper (c : Z) : Z := if (97 <=? c) && (c <=? 122) then c - 32 else c.
Definition is_ascii (s : jstring) : Prop := ∀ c, c ∈ s → 0 ≤ c < 128.

Class UnicodeCase := {
  to_lower : jstring → jstring;
  to_upper : jstring → jstring;
  to_lower_ascii : ∀ s, is_ascii s → to_lower s = map ascii_lower s;
  to_upper_ascii : ∀ s, is_ascii s → to_upper s = map ascii_upper s;
  to_lower_idemp : ∀ s, to_lower (to_lower s) = to_lower s;
  to_lower_nil : ∀ s, to_lower s = [] ↔ s = [];
  to_lower_units : ∀ s, Forall (λ c, 0 ≤ c < 65536) s → Forall (λ c, 0 ≤ c < 65536) (to_lower s);
}.

(** A table that folds ASCII letters only: the parameter can be instantiated. *)
#[local] Instance ascii_case_laws : UnicodeCase.
Proof.
  refine {| to_lower := map ascii_lower; to_upper := map ascii_upper |}; auto;
    [|by intros [|? ?]
     |intros s Hs; apply Forall_fmap; eapply Forall_impl; [exact Hs|]; intros c Hc;
      cbv beta in Hc; unfold compose, ascii_lower; split_if; bprop; lia].
  intros s. rewrite map_map. apply map_ext. intros c. unfold ascii_lower.
  destruct ((65 <=? c) && (c <=? 90)) eqn:E; [|by rewrite E]. bprop.
  destruct ((65 <=? c + 32) && (c + 32 <=? 90)) eqn:F; bprop; lia.
Defined.
Definition ascii_case : UnicodeCase := ascii_case_laws.

(** ** Decimal numerals *)

Definition is_digit (c : Z) : bool := (48 <=? c) && (c <=? 57).

(** Digits of [n >= 0], most significant first; [fuel] bounds their number. *)
Fixpoint dec_digits (fuel : nat) (n : Z) (acc : jstring) : jstring :=
  match fuel with
  | O => acc
  | S f =>
      let acc' := (48 + n mod 10) :: acc in
      if n <? 10 then acc' else dec_digits f (n / 10) acc'
  end.
(** [String(n)] for an integer below 10^21 in absolute value. *)
Definition dec_pos (n : Z) : jstring := dec_digits (S (Z.to_nat (Z.log2 n))) n [].
Definition dec (n : Z) : jstring := if n <? 0 then 45 :: dec_pos (- n) else dec_pos n.

Definition digits_val (acc : Z) (s : jstring) : Z :=
  fold_left (λ a c, a * 10 + (c - 48)) s acc.

Fixpoint take_digits (s : jstring) : jstring :=
  match s with
  | c :: s' => if is_digit c then c :: take_digits s' else []
  | [] => []
  end.

(** [parseInt(s, 10)]; [None] is [NaN].  The result is the exact integer: beyond
    2^53 JavaScript rounds it to the nearest double. *)
Definition parseInt (s : jstring) : option Z :=
  let s := trim_start s in
  let '(neg, s) := match s with
                   | 45 :: s' => (true, s')
                   | 43 :: s' => (false, s')
                   | _ => (false, s)
                   end in
  match take_digits s with
  | [] => None
  | ds => Some (if neg then - digits_val 0 ds else digits_val 0 ds)
  end.

Lemma dec_digits_val fuel n acc a :
  0 ≤ n → n < 2 ^ Z.of_nat fuel → (fuel > 0)%nat →
  ∃ ds, dec_digits fuel n acc = ds ++ acc ∧ ds ≠ [] ∧
        Forall (λ c, is_digit c = true) ds ∧
        digits_val a ds = a * 10 ^ Z.of_nat (length ds) + n.
Proof.
  revert n acc. induction fuel as [|f IH]; [lia|]. intros n acc Hn Hb _.
  assert (Hm := Z.mod_pos_bound n 10 ltac:(lia)).
  assert (Hd : is_digit (48 + n mod 10) = true)
    by (unfold is_digit; apply andb_true_iff; rewrite !Z.leb_le; lia).
  cbn [dec_digits]. destruct (n <? 10) eqn:E; bprop.
  - exists [48 + n mod 10]. splits; [done|done|by repeat constructor|].
    unfold digits_val. simpl. rewrite Z.mod_small by lia. lia.
  - assert (Hf : (f > 0)%nat).
    { destruct f; [|lia]. change (2 ^ Z.of_nat 1) with 2 in Hb. lia. }
    assert (Hq : n / 10 < 2 ^ Z.of_nat f).
    { apply Z.div_lt_upper_bound; [lia|].
      assert (2 ^ Z.of_nat (S f) = 2 * 2 ^ Z.of_nat f)
        by (rewrite Nat2Z.inj_succ, Z.pow_succ_r by lia; lia). lia. }
    destruct (IH (n / 10) ((48 + n mod 10) :: acc)) as (ds & E1 & E2 & E3 & E4);
      [apply Z.div_pos; lia|done|done|].
    exists (ds ++ [48 + n mod 10]). splits.
    + rewrite E1. by rewrite <- app_assoc.
    + by destruct ds.
    + apply Forall_app. split; [done|by repeat constructor].
    + unfold digits_val in *. rewrite fold_left_app. simpl. rewrite E4, length_app. simpl.
      rewrite Nat2Z.inj_add. change (Z.of_nat 1) with 1.
      rewrite Z.pow_add_r, Z.pow_1_r by lia.
      pose proof (Z.div_mod n 10). lia.
Qed.

Lemma dec_pos_spec n : 0 ≤ n →
  dec_pos n ≠ [] ∧ Forall (λ c, is_digit c = true) (dec_pos n) ∧ digits_val 0 (dec_pos n) = n.
Proof.
  intros Hn. unfold dec_pos.
  destruct (dec_digits_val (S (Z.to_nat (Z.log2 n))) n [] 0) as (ds & -> & ? & ? & Hv); [done| |lia|].
  - destruct (decide (n = 0)) as [->|]; [by vm_compute|].
    rewrite Nat2Z.inj_succ, Z2Nat.id by apply Z.log2_nonneg. by apply Z.log2_spec; lia.
  - rewrite app_nil_r. splits; [done|done|]. rewrite Hv. lia.
Qed.

Lemma take_digits_all s : Forall (λ c, is_digit c = true) s → take_digits s = s.
Proof. induction 1 as [|c s Hc _ IH]; simpl; [done|]. by rewrite Hc, IH. Qed.

Lemma digit_not_space c : is_digit c = true → is_space c = false.
Proof. unfold is_digit, is_space. intros; bprop. repeat (apply orb_false_iff; split);
  try apply andb_false_iff; rewrite ?Z.eqb_neq, ?Z.leb_gt; lia. Qed.

Lemma parseInt_digits s :
  s ≠ [] → Forall (λ c, is_digit c = true) s → parseInt s = Some (digits_val 0 s).
Proof.
  intros Hne Hd. unfold parseInt. destruct s as [|c s]; [done|].
  pose proof Hd as Hd'. apply Forall_cons_1 in Hd' as [Hc _].
  rewrite trim_start_id by (intros ? ? [= <- <-]; by apply digit_not_space).
  assert (H45 : c ≠ 45 ∧ c ≠ 43) by (unfold is_digit in Hc; bprop; lia).
  destruct H45 as [H1 H2].
  assert (Hm : match c :: s with
               | 45 :: s' => (true, s') | 43 :: s' => (false, s') | _ => (false, c :: s) end
               = (false, c :: s)).
  { destruct c as [|p|p]; try done. do 6 (destruct p; try done). }
  rewrite Hm. rewrite take_digits_all by done. done.
Qed.

Lemma parseInt_dec n : 0 ≤ n → parseInt (dec n) = Some n.
Proof.
  intros Hn. unfold dec. destruct (n <? 0) eqn:E; bprop; [lia|].
  destruct (dec_pos_spec n Hn) as (H1 & H2 & H3). by rewrite parseInt_digits, H3.
Qed.
Lemma dec_inj m n : 0 ≤ m → 0 ≤ n → dec m = dec n → m = n.
Proof. intros Hm Hn H. apply (f_equal parseInt) in H. rewrite !parseInt_dec in H by done. congruence. Qed.
Lemma dec_inj_Z m n : dec m = dec n → m = n.
Proof.
  unfold dec. assert (Hneg : ∀ a b, 0 ≤ b → 45 :: dec_pos a ≠ dec_pos b).
  { intros a b Hb E. destruct (dec_pos_spec b Hb) as (_ & Hd & _). rewrite <- E in Hd.
    by apply Forall_cons_1 in Hd as [? _]. }
  assert (Hpos : ∀ a b, 0 ≤ a → 0 ≤ b → dec_pos a = dec_pos b → a = b).
  { intros a b Ha Hb E. destruct (dec_pos_spec a Ha) as (_ & _ & <-).
    destruct (dec_pos_spec b Hb) as (_ & _ & <-). by rewrite E. }
  repeat split_if; bprop; intros E'.
  - injection E' as E'. apply Hpos in E'; lia.
  - exfalso. eapply Hneg; [|exact E']. lia.
  - exfalso. eapply Hneg; [|symmetry; exact E']. lia.
  - apply Hpos; lia || done.
Qed.
Lemma dec_chars n c : c ∈ dec n → is_digit c = true ∨ c = 45.
Proof.
  unfold dec. split_if; bprop.
  - intros [->|Hc]%elem_of_cons; [by right|]. left.
    destruct (dec_pos_spec (- n)) as (_ & Hd & _); [lia|]. rewrite Forall_forall in Hd. auto.
  - intros Hc. left. destruct (dec_pos_spec n) as (_ & Hd & _); [lia|]. rewrite Forall_forall in Hd. auto.
Qed.
Lemma dec_digit_only n : 0 ≤ n → Forall (λ c, is_digit c = true) (dec n).
Proof.
  intros Hn. unfold dec. destruct (n <? 0) eqn:E; bprop; [lia|]. by destruct (dec_pos_spec n Hn) as (_ & ? & _).
Qed.

(** ** UTF-8 *)

Definition is_high (u : Z) : bool := (55296 <=? u) && (u <=? 56319).
Definition is_low (u : Z) : bool := (56320 <=? u) && (u <=? 57343).

(** Iterating over a string: one string per code point. *)
Fixpoint code_points (s : jstring) : list jstring :=
  match s with
  | [] => []
  | u :: s' =>
      match s' with
      | l :: s'' => if is_high u && is_low l then [u; l] :: code_points s'' else [u] :: code_points s'
      | [] => [[u]]
      end
  end.

(** [Buffer.from(s)] and [new TextEncoder().encode(s)]: a lone surrogate becomes
    the replacement character. *)
Fixpoint utf8 (s : jstring) : list Z :=
  match s with
  | [] => []
  | u :: s' =>
      if u <? 128 then u :: utf8 s'
      else if u <? 2048 then (192 + u / 64) :: (128 + u mod 64) :: utf8 s'
      else if is_high u then
        match s' with
        | l :: s'' =>
            if is_low l then
              let p := 65536 + (u - 55296) * 1024 + (l - 56320) in
              (240 + p / 262144) :: (128 + (p / 4096) mod 64)
                :: (128 + (p / 64) mod 64) :: (128 + p mod 64) :: utf8 s''
            else 239 :: 191 :: 189 :: utf8 s'
        | [] => [239; 191; 189]
        end
      else if is_low u then 239 :: 191 :: 189 :: utf8 s'
      else (224 + u / 4096) :: (128 + (u / 64) mod 64) :: (128 + u mod 64) :: utf8 s'
  end.

(** Units of a header value or of a hexadecimal digest: below U+0800, where the
    encoding loses nothing. *)
Definition narrow (s : jstring) : Prop := ∀ c, c ∈ s → 0 ≤ c < 2048.

Lemma narrow_cons c s : narrow (c :: s) ↔ 0 ≤ c < 2048 ∧ narrow s.
Proof.
  unfold narrow. split.
  - intros H. split; [apply H; by left|intros d Hd; apply H; by right].
  - intros [Hc Hs] d [->|Hd]%elem_of_cons; [done|by apply Hs].
Qed.

Lemma utf8_narrow_inj a b : narrow a → narrow b → utf8 a = utf8 b → a = b.
Proof.
  revert b. induction a as [|x a IH]; intros [|y b] Ha Hb; cbn [utf8].
  - done.
  - apply narrow_cons in Hb as [Hy _]. destruct (y <? 128); [done|].
    destruct (y <? 2048) eqn:E; bprop; [done|lia].
  - apply narrow_cons in Ha as [Hx _]. destruct (x <? 128); [done|].
    destruct (x <? 2048) eqn:E; bprop; [done|lia].
  - apply narrow_cons in Ha as [Hx Ha]. apply narrow_cons in Hb as [Hy Hb].
    assert (Hx2 : (x <? 2048) = true) by (apply Z.ltb_lt; lia).
    assert (Hy2 : (y <? 2048) = true) by (apply Z.ltb_lt; lia).
    assert (Hxd : x < 128 ∨ 2 ≤ x / 64) by (destruct (decide (x < 128)); [by left|right; apply Z.div_le_lower_bound; lia]).
    rewrite Hx2, Hy2. clear Hx2 Hy2.
    pose proof (Z.div_mod x 64 ltac:(lia)). pose proof (Z.div_mod y 64 ltac:(lia)).
    assert (Hyd : y < 128 ∨ 2 ≤ y / 64) by (destruct (decide (y < 128)); [by left|right; apply Z.div_le_lower_bound; lia]).
    destruct (x <? 128) eqn:Ex, (y <? 128) eqn:Ey; bprop; intros [= E]; simplify_eq.
    + f_equal. by apply IH.
    + lia.
    + lia.
    + f_equal; [lia|]. by apply IH.
Qed.

(** Encoding is piecewise where no surrogate can meet its other half. *)
Lemma utf8_narrow_app a b : narrow a → utf8 (a ++ b) = utf8 a ++ utf8 b.
Proof.
  induction a as [|c a IH]; intros Ha; [done|]. apply narrow_cons in Ha as [Hc Ha].
  cbn [app utf8]. rewrite IH by done. destruct (c <? 128) eqn:E1; [done|].
  destruct (c <? 2048) eqn:E2; [done|]. bprop. lia.
Qed.
Lemma narrow_app a b : narrow (a ++ b) ↔ narrow a ∧ narrow b.
Proof.
  unfold narrow. split.
  - intros H. split; intros c Hc; apply H, elem_of_app; auto.
  - intros [Ha Hb] c [?|?]%elem_of_app; auto.
Qed.
