(* ===== verification/JsNum.v ===== *)
(** JavaScript numbers: IEEE 754 binary64, through the executable [SpecFloat]
    of the Standard Library (53 bits of precision, largest exponent 1024).
    Integer quantities the code only counts with (lengths, milliseconds, row
    counts) are kept as [Z] elsewhere; this file serves JSON numbers, event
    rates and risk scores. *)

From S2P Require Import Prelude JsString.
From Stdlib Require Export SpecFloat.

Abbreviation num := spec_float.

Definition num_of_Z (z : Z) : num := binary_normalize 53 1024 z 0 false.
Definition nadd : num → num → num := SFadd 53 1024.
Definition nsub : num → num → num := SFsub 53 1024.
Definition nmul : num → num → num := SFmul 53 1024.
Definition ndiv : num → num → num := SFdiv 53 1024.
Definition nlt : num → num → bool := SFltb.
Definition nle : num → num → bool := SFleb.
(** [===] on numbers: false on [NaN], and the two zeros are equal. *)
Definition neq_num : num → num → bool := SFeqb.
Definition nzero : num := S754_zero false.
Definition nNaN : num := S754_nan.

Definition is_nan (x : num) : bool := match x with S754_nan => true | _ => false end.
Definition is_finite (x : num) : bool :=
  match x with S754_zero _ | S754_finite _ _ _ => true | _ => false end.
(** A number is truthy unless it is a zero or [NaN]. *)
Definition num_truthy (x : num) : bool :=
  match x with S754_zero _ | S754_nan => false | _ => true end.

#[global] Instance num_eq_dec : EqDecision num.
Proof. solve_decision. Defined.

(** The integer value of an integral finite number. *)
Definition num_int (x : num) : option Z :=
  match x with
  | S754_zero _ => Some 0
  | S754_finite s m e =>
      let v := if s then Z.neg m else Z.pos m in
      if 0 <=? e then Some (v * 2 ^ e)
      else if v mod 2 ^ (- e) =? 0 then Some (v / 2 ^ (- e)) else None
  | _ => None
  end.

(** [Math.floor] of a finite number. *)
Definition nfloor (x : num) : option Z :=
  match x with
  | S754_zero _ => Some 0
  | S754_finite s m e =>
      let v := if s then Z.neg m else Z.pos m in
      Some (if 0 <=? e then v * 2 ^ e else v / 2 ^ (- e))
  | _ => None
  end.

(** ** Decimal text *)

(** [x % y]: exact, with the sign of [x]. *)
Definition nrem (x y : num) : num :=
  match x, y with
  | S754_finite sx mx ex, S754_finite _ my ey =>
      let e := Z.min ex ey in
      let r := Z.rem (Zpos mx * 2 ^ (ex - e)) (Zpos my * 2 ^ (ey - e)) in
      if r =? 0 then S754_zero sx else binary_normalize 53 1024 (if sx then - r else r) e false
  | S754_finite _ _ _, S754_infinity _ => x
  | S754_zero _, S754_finite _ _ _ | S754_zero _, S754_infinity _ => x
  | _, _ => nNaN
  end.
(** [x | 0] of an integer-valued number *)
Definition to_int32 (x : num) : Z :=
  match num_int x with
  | Some z => let m := z mod 2 ^ 32 in if 2 ^ 31 <=? m then m - 2 ^ 32 else m
  | None => 0
  end.

(** [Math.max(a, b)] *)
Definition nmax (x y : num) : num :=
  if is_nan x || is_nan y then nNaN
  else if nlt x y then y
  else match x, y with S754_zero true, S754_zero _ => y | _, _ => x end.
(** [Math.min(a, b)] *)
Definition nmin (x y : num) : num :=
  if is_nan x || is_nan y then nNaN
  else if nlt y x then y
  else match x, y with S754_zero false, S754_zero _ => y | _, _ => x end.

(** The double nearest to [m * 10^e]. *)
Definition num_of_decimal (neg : bool) (m e : Z) : num :=
  if m =? 0 then S754_zero neg
  else if 0 <=? e then binary_normalize 53 1024 (if neg then - (m * 10 ^ e) else m * 10 ^ e) 0 neg
  else
    let '(q, ex, loc) := SFdiv_core_binary 53 1024 m 0 (10 ^ (- e)) 0 in
    binary_round_aux 53 1024 neg q ex loc.

(** [num_frac m e] is the fraction [m * 2^e] as numerator and denominator. *)
Definition num_frac (m : positive) (e : Z) : Z * Z :=
  if 0 <=? e then (Z.pos m * 2 ^ e, 1) else (Z.pos m, 2 ^ (- e)).

(** [p / q * 10^k], rounded half up. *)
Definition round_dec (p q k : Z) : Z :=
  if 0 <=? k then (2 * p * 10 ^ k + q) / (2 * q)
  else (2 * p + q * 10 ^ (- k)) / (2 * q * 10 ^ (- k)).

(** Whether [p / q < 10^n]. *)
Definition below_pow10 (p q n : Z) : bool :=
  if 0 <=? n then p <? q * 10 ^ n else p * 10 ^ (- n) <? q.

Fixpoint search_from {A} (fuel : nat) (n : Z) (f : Z → option A) : option A :=
  match fuel with
  | O => None
  | S k => match f n with Some x => Some x | None => search_from k (n + 1) f end
  end.

(** The [n] with [10^(n-1) <= p/q < 10^n]. *)
Definition dec_exponent (p q : Z) : Z :=
  let est := ((Z.log2 p - Z.log2 q) * 30103) / 100000 - 1 in
  default 0 (search_from 6 est (λ n, if below_pow10 p q n then Some n else None)).

Definition zeros (n : Z) : jstring := replicate (Z.to_nat n) 48.

(** The shortest decimal digits [(s, k)] that round to the number. *)
Definition shortest (m : positive) (e : Z) (n p q : Z) : Z * Z :=
  default (round_dec p q (17 - n), 17)
    (search_from 17 1 (λ k,
       let s := round_dec p q (k - n) in
       if bool_decide (num_of_decimal false s (n - k) = S754_finite false m e)
       then Some (s, k) else None)).

(** [Number::toString] of a positive finite number. *)
Definition pos_to_string (m : positive) (e : Z) : jstring :=
  let '(p, q) := num_frac m e in
  let n := dec_exponent p q in
  let '(s, k) := shortest m e n p q in
  let ds := dec s in
  let len := slen ds in
  let n := if k <? len then n + 1 else n in
  if (len <=? n) && (n <=? 21) then ds ++ zeros (n - len)
  else if (0 <? n) && (n <=? 21) then str_upto n ds ++ "." ++ str_from n ds
  else if (-6 <? n) && (n <=? 0) then "0." ++ zeros (- n) ++ ds
  else
    let ex := (if n - 1 <? 0 then "-" else "+") ++ dec (Z.abs (n - 1)) in
    if len =? 1 then ds ++ "e" ++ ex
    else str_upto 1 ds ++ "." ++ str_from 1 ds ++ "e" ++ ex.

(** [String(x)] *)
Definition num_to_string (x : num) : jstring :=
  match x with
  | S754_nan => "NaN"
  | S754_zero _ => "0"
  | S754_infinity s => if s then "-Infinity" else "Infinity"
  | S754_finite s m e => (if s then "-" else []) ++ pos_to_string m e
  end.

(** [x.toFixed(f)] for [0 <= f]. *)
Definition fixed_digits (n f : Z) : jstring :=
  let ds := dec n in
  let ds := zeros (f + 1 - slen ds) ++ ds in
  let k := slen ds - f in
  if f =? 0 then ds else str_upto k ds ++ "." ++ str_from k ds.
Definition toFixed (f : Z) (x : num) : jstring :=
  match x with
  | S754_zero _ => fixed_digits 0 f
  | S754_finite s m e =>
      let '(p, q) := num_frac m e in
      if below_pow10 p q 21 then (if s then "-" else []) ++ fixed_digits (round_dec p q f) f
      else num_to_string x
  | _ => num_to_string x
  end.

(** Optional fraction and exponent of a numeral: [(digits, number of fraction
    digits, rest)]. *)
Definition scan_exp (s : jstring) : Z * jstring :=
  match s with
  | c :: s' =>
      if (c =? 101) || (c =? 69) then
        let '(neg, t) := match s' with
                         | 45 :: t => (true, t) | 43 :: t => (false, t) | _ => (false, s')
                         end in
        match take_digits t with
        | [] => (0, s)
        | ds => (if neg then - digits_val 0 ds else digits_val 0 ds, drop (length ds) t)
        end
      else (0, s)
  | [] => (0, [])
  end.

(** [parseFloat(s)]: the longest numeral at the start of the trimmed text. *)
Definition parseFloat (s : jstring) : num :=
  let s := trim_start s in
  let '(neg, s) := match s with
                   | 45 :: s' => (true, s') | 43 :: s' => (false, s') | _ => (false, s)
                   end in
  if starts_with "Infinity" s then S754_infinity neg
  else
    let ip := take_digits s in
    let r := drop (length ip) s in
    let fp := match r with 46 :: r' => take_digits r' | _ => [] end in
    let r := match r with 46 :: r' => drop (length fp) r' | _ => r end in
    match ip ++ fp with
    | [] => nNaN
    | ds => num_of_decimal neg (digits_val 0 ds) (fst (scan_exp r) - slen fp)
    end.

Example nrem_ex :
  map num_to_string [nrem (num_of_Z 791) (num_of_Z 20); nrem (parseFloat "-7.5") (num_of_Z 2)] = ["11"; "-1.5"].
Proof. vm_compute. reflexivity. Qed.
Example parseFloat_ex : parseFloat "0.5" = S754_finite false 4503599627370496 (-53).
Proof. reflexivity. Qed.
Example to_string_ex :
  map num_to_string [parseFloat "0.1"; parseFloat "1e21"; parseFloat "-12.50"; num_of_Z 100;
                     parseFloat "1.5e-7"; parseFloat "123456789012345680000"]
  = ["0.1"; "1e+21"; "-12.5"; "100"; "1.5e-7"; "123456789012345680000"].
Proof. vm_compute. reflexivity. Qed.
Example toFixed_ex :
  map (toFixed 1) [parseFloat "0.25"; parseFloat "2.35"; num_of_Z 7; parseFloat "-1.26"]
  = ["0.3"; "2.4"; "7.0"; "-1.3"].
Proof. vm_compute. reflexivity. Qed.

(** ** Characters of printed numbers *)

Lemma zeros_chars n c : c ∈ zeros n → c = 48.
Proof. unfold zeros. intros H. by apply elem_of_replicate in H as [-> _]. Qed.
Lemma take_elem {A} n (l : list A) x : x ∈ take n l → x ∈ l.
Proof. intros H. rewrite <- (take_drop n l). apply elem_of_app. by left. Qed.
Lemma drop_elem {A} n (l : list A) x : x ∈ drop n l → x ∈ l.
Proof. intros H. rewrite <- (take_drop n l). apply elem_of_app. by right. Qed.

(** Printed numbers hold visible ASCII characters only. *)
Definition printable (s : jstring) : Prop := ∀ c, c ∈ s → 32 < c < 127.
Lemma printable_app a b : printable a → printable b → printable (a ++ b).
Proof. intros Ha Hb c [?|?]%elem_of_app; auto. Qed.
Lemma printable_dec n : printable (dec n).
Proof. intros c [H| ->]%dec_chars; [|lia]. unfold is_digit in H. bprop. lia. Qed.
Lemma printable_zeros n : printable (zeros n).
Proof. intros c ->%zeros_chars. lia. Qed.
Lemma printable_lit s : forallb (λ c, (32 <? c) && (c <? 127)) s = true → printable s.
Proof.
  intros H c Hc. rewrite forallb_forall in H. specialize (H c (proj1 (list_elem_of_In _ _) Hc)). bprop. lia.
Qed.
Lemma printable_upto n s : printable s → printable (str_upto n s).
Proof. intros H c Hc%take_elem. auto. Qed.
Lemma printable_from n s : printable s → printable (str_from n s).
Proof. intros H c Hc%drop_elem. auto. Qed.
#[export] Hint Resolve printable_app printable_dec printable_zeros printable_upto printable_from : lg.
#[export] Hint Extern 1 (printable _) => (apply printable_lit; reflexivity) : lg.

Lemma printable_num x : printable (num_to_string x).
Proof.
  destruct x as [s|s| |s m e]; cbn [num_to_string]; [auto with lg|destruct s; auto with lg|auto with lg|].
  apply printable_app; [destruct s; auto with lg|]. unfold pos_to_string.
  destruct (num_frac m e) as [p q]. destruct (shortest _ _ _ _ _) as [ss k]. cbv zeta.
  repeat split_if; repeat apply printable_app; auto with lg.
Qed.
Lemma printable_fixed n f : printable (fixed_digits n f).
Proof. unfold fixed_digits. cbv zeta. destruct (f =? 0); repeat apply printable_app; auto with lg. Qed.
Lemma printable_toFixed f x : printable (toFixed f x).
Proof.
  unfold toFixed. destruct x as [s|s| |s m e]; auto using printable_num, printable_fixed.
  destruct (num_frac m e) as [p q]. destruct (below_pow10 p q 21); auto using printable_num.
  apply printable_app; [destruct s; auto with lg|apply printable_fixed].
Qed.
