(* ===== verification/Json.v ===== *)
(** JSON values as JavaScript sees them: the data type, [JSON.parse],
    [JSON.stringify], [String(v)], truthiness and property access.  [undefined]
    is the [None] of an [option json]. *)

From S2P Require Import Prelude JsString JsNum.

Inductive json :=
  | JNull
  | JBool (b : bool)
  | JNum (x : num)
  | JStr (s : jstring)
  | JArr (l : list json)
  | JObj (fs : list (jstring * json)).

Definition jint (z : Z) : json := JNum (num_of_Z z).

(** ** Reading properties *)

Fixpoint assoc {A} (k : jstring) (l : list (jstring * A)) : option A :=
  match l with
  | [] => None
  | (k', v) :: l' => if k =s k' then Some v else assoc k l'
  end.

(** Sets a property, or a key of a [Map]: an existing key keeps its position. *)
Fixpoint put_field {A} (k : jstring) (v : A) (fs : list (jstring * A)) : list (jstring * A) :=
  match fs with
  | [] => [(k, v)]
  | (k', v') :: fs' => if k =s k' then (k, v) :: fs' else (k', v') :: put_field k v fs'
  end.

Section put_field.
Context {A : Type}.
Implicit Types (fs : list (jstring * A)).
Lemma assoc_put_eq k (v : A) fs : assoc k (put_field k v fs) = Some v.
Proof.
  induction fs as [|[k' v'] fs IH]; simpl; [by rewrite jeq_refl|].
  destruct (k =s k') eqn:E; simpl; [by rewrite jeq_refl|by rewrite E].
Qed.
Lemma assoc_put_ne k k' (v : A) fs : k ≠ k' → assoc k (put_field k' v fs) = assoc k fs.
Proof.
  intros Hne. induction fs as [|[k2 v2] fs IH]; simpl.
  - apply jeq_false in Hne. by rewrite Hne.
  - destruct (k' =s k2) eqn:E; simpl; bprop; [subst k2|by rewrite IH].
    apply jeq_false in Hne. by rewrite Hne.
Qed.
Lemma put_field_keys k (v : A) fs :
  (put_field k v fs).*1 = if bool_decide (k ∈ fs.*1) then fs.*1 else fs.*1 ++ [k].
Proof.
  induction fs as [|[k' v'] fs IH]; [done|]. cbn [put_field].
  destruct (k =s k') eqn:E; bprop; rewrite !fmap_cons; cbn [fst].
  - subst k'. by rewrite bool_decide_eq_true_2 by (by left).
  - rewrite IH. repeat case_bool_decide; try done.
    + exfalso. match goal with H : ¬ _ |- _ => apply H end. by right.
    + exfalso. match goal with H : _ ∈ _ :: _ |- _ => apply elem_of_cons in H as [?|?] end; done.
Qed.
Lemma put_field_nodup k (v : A) fs : NoDup (fs.*1) → NoDup ((put_field k v fs).*1).
Proof.
  intros Hnd. rewrite put_field_keys. case_bool_decide as Hin; [done|].
  apply NoDup_app. split; [done|]. split; [|apply NoDup_singleton].
  intros x Hx ->%list_elem_of_singleton. done.
Qed.
Lemma put_field_length k (v : A) fs : (length (put_field k v fs) <= S (length fs))%nat.
Proof. induction fs as [|[k' v'] fs IH]; simpl; [lia|]. destruct (k =s k'); simpl; lia. Qed.
Lemma put_field_elem k (v : A) fs x : x ∈ put_field k v fs → x = (k, v) ∨ x ∈ fs.
Proof.
  induction fs as [|[k' v'] fs IH]; simpl.
  - intros ->%list_elem_of_singleton. by left.
  - destruct (k =s k'); intros [->|H]%elem_of_cons; auto.
    + right. by right.
    + right. by left.
    + destruct (IH H); auto. right. by right.
Qed.
Lemma assoc_elem k (v : A) fs : assoc k fs = Some v → (k, v) ∈ fs.
Proof.
  induction fs as [|[k' v'] fs IH]; simpl; [done|]. destruct (k =s k') eqn:E; bprop.
  - intros [= ->]. subst. by left.
  - intros ?. right. auto.
Qed.
Lemma elem_assoc k (v : A) fs : NoDup (fs.*1) → (k, v) ∈ fs → assoc k fs = Some v.
Proof.
  induction fs as [|[k' v'] fs IH]; cbn; [by intros _ ?%elem_of_nil|].
  intros [Hk Hn]%NoDup_cons [[= <- <-]|Hin]%elem_of_cons; [by rewrite jeq_refl|].
  destruct (k =s k') eqn:E; [|auto]. bprop. subst. destruct Hk. by apply (list_elem_of_fmap_2 fst) in Hin.
Qed.
End put_field.

(** What a lookup of a plain object finds under the names of its prototype's
    properties, as text: functions, except for [__proto__]. *)
Definition native (name : jstring) : jstring * jstring := (name, "function " ++ name ++ "() { [native code] }").
Definition object_prototype : list (jstring * jstring) :=
  [("constructor", "function Object() { [native code] }"); ("__proto__", "[object Object]")] ++
  map native ["__defineGetter__"; "__defineSetter__"; "hasOwnProperty"; "__lookupGetter__"; "__lookupSetter__";
              "isPrototypeOf"; "propertyIsEnumerable"; "toString"; "valueOf"; "toLocaleString"].

(** [v.k]: throws on [null]; none of the property names the code reads exists on
    a primitive or an array. *)
Definition jget (k : jstring) (v : json) : res (option json) :=
  match v with
  | JNull => Throw "Cannot read properties of null"
  | JObj fs => Ok (assoc k fs)
  | _ => Ok None
  end.
(** [v?.k] *)
Definition jopt (k : jstring) (v : option json) : option json :=
  match v with Some (JObj fs) => assoc k fs | _ => None end.

(** [v ?? d] treats [null] as missing. *)
Definition nullish (v : option json) : option json :=
  match v with Some JNull => None | _ => v end.

Definition truthy (v : json) : bool :=
  match v with
  | JNull => false
  | JBool b => b
  | JNum x => num_truthy x
  | JStr s => nonempty s
  | JArr _ | JObj _ => true
  end.
Definition otruthy (v : option json) : bool := match v with Some v => truthy v | None => false end.

Definition as_str (v : option json) : option jstring :=
  match v with Some (JStr s) => Some s | _ => None end.
Definition as_num (v : option json) : option num :=
  match v with Some (JNum x) => Some x | _ => None end.
Definition as_arr (v : option json) : option (list json) :=
  match v with Some (JArr l) => Some l | _ => None end.
(** [v === true] *)
Definition is_true (v : option json) : bool :=
  match v with Some (JBool true) => true | _ => false end.
(** [v === "lit"] *)
Definition is_lit (lit : jstring) (v : option json) : bool :=
  match v with Some (JStr s) => s =s lit | _ => false end.
(** Neither [null] nor [undefined] ([v != null]). *)
Definition present (v : option json) : bool :=
  match v with None | Some JNull => false | _ => true end.

(** [String(v)] *)
Fixpoint to_str (v : json) : jstring :=
  match v with
  | JNull => "null"
  | JBool b => if b then "true" else "false"
  | JNum x => num_to_string x
  | JStr s => s
  | JArr l => join "," (map (λ x, match x with JNull => [] | _ => to_str x end) l)
  | JObj _ => "[object Object]"
  end.
Definition ostr (v : option json) : jstring := match v with Some v => to_str v | None => "undefined" end.

(** ** Printing *)

Definition hex_digit (n : Z) : Z := if n <? 10 then 48 + n else 87 + n.
Definition u_escape (c : Z) : jstring :=
  "\u" ++ [hex_digit (c / 4096); hex_digit ((c / 256) mod 16);
           hex_digit ((c / 16) mod 16); hex_digit (c mod 16)].
Definition quote_unit (c : Z) : jstring :=
  if c =? 34 then [92; 34]
  else if c =? 92 then [92; 92]
  else if c =? 8 then "\b" else if c =? 9 then "\t" else if c =? 10 then "\n"
  else if c =? 12 then "\f" else if c =? 13 then "\r"
  else if c <? 32 then u_escape c
  else [c].
Fixpoint quote_body (s : jstring) : jstring :=
  match s with
  | [] => []
  | c :: s' =>
      if is_high c then
        match s' with
        | d :: s'' => if is_low d then c :: d :: quote_body s'' else u_escape c ++ quote_body s'
        | [] => u_escape c
        end
      else if is_low c then u_escape c ++ quote_body s'
      else quote_unit c ++ quote_body s'
  end.
Definition quote (s : jstring) : jstring := dq ++ quote_body s ++ dq.

(** [JSON.stringify(v)] *)
Fixpoint stringify (v : json) : jstring :=
  match v with
  | JNull => "null"
  | JBool b => if b then "true" else "false"
  | JNum x => if is_finite x then num_to_string x else "null"
  | JStr s => quote s
  | JArr l => "[" ++ join "," (map stringify l) ++ "]"
  | JObj fs => "{" ++ join "," (map (λ kv, quote kv.1 ++ ":" ++ stringify kv.2) fs) ++ "}"
  end.

(** An object literal: properties whose value is [undefined] do not reach the
    printed text. *)
Fixpoint obj (fs : list (jstring * option json)) : list (jstring * json) :=
  match fs with
  | [] => []
  | (k, Some v) :: fs' => (k, v) :: obj fs'
  | (_, None) :: fs' => obj fs'
  end.
Definition JObject (fs : list (jstring * option json)) : json := JObj (obj fs).

Lemma assoc_obj k fs : NoDup (fs.*1) → assoc k (obj fs) = match assoc k fs with Some v => v | None => None end.
Proof.
  induction fs as [|[k' [v|]] fs IH]; intros Hnd; cbn [fmap list_fmap fst] in Hnd;
    [done|inversion_clear Hnd as [|? ? Hn Hnd']..]; simpl.
  - split_if; [done|]. by apply IH.
  - split_if; [|by apply IH]. bprop. subst k'. rewrite IH by done.
    clear -Hn. induction fs as [|[k' w] fs IHf]; [done|]. simpl.
    cbn [fmap list_fmap fst] in Hn. apply not_elem_of_cons in Hn as [Hk Hn].
    destruct (k =s k') eqn:E; bprop; [congruence|]. by apply IHf.
Qed.

(** ** Parsing *)

Fixpoint skip_ws (s : jstring) : jstring :=
  match s with
  | c :: s' => if (c =? 32) || (c =? 9) || (c =? 10) || (c =? 13) then skip_ws s' else s
  | [] => []
  end.

Definition hex_val (c : Z) : option Z :=
  if is_digit c then Some (c - 48)
  else if (97 <=? c) && (c <=? 102) then Some (c - 87)
  else if (65 <=? c) && (c <=? 70) then Some (c - 55)
  else None.
Definition hex4 (s : jstring) : option (Z * jstring) :=
  match s with
  | a :: b :: c :: d :: s' =>
      match hex_val a, hex_val b, hex_val c, hex_val d with
      | Some a, Some b, Some c, Some d => Some (a * 4096 + b * 256 + c * 16 + d, s')
      | _, _, _, _ => None
      end
  | _ => None
  end.

(** The body of a string literal, up to its closing quote; [fuel] bounds the
    text left. *)
Fixpoint parse_str (fuel : nat) (s : jstring) : option (jstring * jstring) :=
  match fuel with
  | O => None
  | S f =>
      match s with
      | [] => None
      | c :: s' =>
          if c =? 34 then Some ([], s')
          else if c <? 32 then None
          else if c =? 92 then
            match s' with
            | [] => None
            | e :: s'' =>
                let put u t := match parse_str f t with
                               | Some (r, t') => Some (u :: r, t')
                               | None => None
                               end in
                if (e =? 34) || (e =? 92) || (e =? 47) then put e s''
                else if e =? 98 then put 8 s'' else if e =? 102 then put 12 s''
                else if e =? 110 then put 10 s'' else if e =? 114 then put 13 s''
                else if e =? 116 then put 9 s''
                else if e =? 117 then
                  match hex4 s'' with Some (u, t) => put u t | None => None end
                else None
            end
          else match parse_str f s' with
               | Some (r, t) => Some (c :: r, t)
               | None => None
               end
      end
  end.

(** A JSON number: no leading zeros, at least one digit after the point. *)
Definition strip_minus (s : jstring) : bool * jstring :=
  match s with 45 :: s' => (true, s') | _ => (false, s) end.
Definition frac_digits (r : jstring) : jstring := match r with 46 :: r' => take_digits r' | _ => [] end.
Definition frac_rest (r : jstring) : jstring := match r with 46 :: r' => drop (length (frac_digits r)) r' | _ => r end.
Definition parse_num (s : jstring) : option (num * jstring) :=
  let '(neg, s) := strip_minus s in
  let ip := take_digits s in
  let r := drop (length ip) s in
  let fp := frac_digits r in
  let bad := match ip with [] => true | 48 :: _ :: _ => true | _ => false end in
  if bad || (starts_with "." r && negb (nonempty fp)) then None
  else
    let '(ex, r') := scan_exp (frac_rest r) in
    if starts_with "e" r' || starts_with "E" r' then None
    else Some (num_of_decimal neg (digits_val 0 (ip ++ fp)) (ex - slen fp), r').

Fixpoint parse_value (fuel : nat) (s : jstring) : option (json * jstring) :=
  match fuel with
  | O => None
  | S f =>
      match skip_ws s with
      | [] => None
      | c :: s' =>
          if c =? 34 then
            match parse_str (S (length s')) s' with
            | Some (t, r) => Some (JStr t, r)
            | None => None
            end
          else if c =? 91 then
            match skip_ws s' with
            | 93 :: r => Some (JArr [], r)
            | r => match parse_elems f r with
                   | Some (l, r') => Some (JArr l, r')
                   | None => None
                   end
            end
          else if c =? 123 then
            match skip_ws s' with
            | 125 :: r => Some (JObj [], r)
            | r => match parse_members f r [] with
                   | Some (fs, r') => Some (JObj fs, r')
                   | None => None
                   end
            end
          else if starts_with "true" (c :: s') then Some (JBool true, drop 4 (c :: s'))
          else if starts_with "false" (c :: s') then Some (JBool false, drop 5 (c :: s'))
          else if starts_with "null" (c :: s') then Some (JNull, drop 4 (c :: s'))
          else match parse_num (c :: s') with
               | Some (x, r) => Some (JNum x, r)
               | None => None
               end
      end
  end
with parse_elems (fuel : nat) (s : jstring) : option (list json * jstring) :=
  match fuel with
  | O => None
  | S f =>
      match parse_value f s with
      | Some (v, r) =>
          match skip_ws r with
          | 44 :: r' => match parse_elems f r' with
                        | Some (l, r'') => Some (v :: l, r'')
                        | None => None
                        end
          | 93 :: r' => Some ([v], r')
          | _ => None
          end
      | None => None
      end
  end
with parse_members (fuel : nat) (s : jstring) (acc : list (jstring * json))
    : option (list (jstring * json) * jstring) :=
  match fuel with
  | O => None
  | S f =>
      match skip_ws s with
      | 34 :: s' =>
          match parse_str (S (length s')) s' with
          | Some (k, r) =>
              match skip_ws r with
              | 58 :: r' =>
                  match parse_value f r' with
                  | Some (v, r'') =>
                      match skip_ws r'' with
                      | 44 :: t => parse_members f t (put_field k v acc)
                      | 125 :: t => Some (put_field k v acc, t)
                      | _ => None
                      end
                  | None => None
                  end
              | _ => None
              end
          | None => None
          end
      | _ => None
      end
  end.

(** [JSON.parse(s)]; [None] is the thrown [SyntaxError].  Every recursive call
    consumes at least one unit or one level, so twice the length is enough. *)
Definition JSON_parse (s : jstring) : option json :=
  match parse_value (S (2 * length s)) s with
  | Some (v, r) => match skip_ws r with [] => Some v | _ => None end
  | None => None
  end.

(** The printed form of a string is read back as the same string. *)
Lemma hex4_escape c t : 0 ≤ c < 65536 → hex4 (hex_digit (c / 4096) :: hex_digit ((c / 256) mod 16)
           :: hex_digit ((c / 16) mod 16) :: hex_digit (c mod 16) :: t) = Some (c, t).
Proof.
  intros Hc.
  assert (Hh : ∀ n, 0 ≤ n < 16 → hex_val (hex_digit n) = Some n).
  { assert (Hall : Forall (λ n, hex_val (hex_digit n) = Some n) (seqZ 0 16))
      by (repeat (constructor; [reflexivity|]); constructor).
    intros n Hn. rewrite Forall_forall in Hall. apply Hall, elem_of_seqZ. lia. }
  cbn [hex4]. rewrite !Hh.
  - f_equal. f_equal.
    pose proof (Z.div_mod c 16 ltac:(lia)). pose proof (Z.div_mod (c / 16) 16 ltac:(lia)).
    pose proof (Z.div_mod (c / 256) 16 ltac:(lia)).
    assert (c / 16 / 16 = c / 256) by (by rewrite Z.div_div by lia).
    assert (c / 256 / 16 = c / 4096) by (by rewrite Z.div_div by lia). lia.
  - apply Z.mod_pos_bound; lia.
  - apply Z.mod_pos_bound; lia.
  - apply Z.mod_pos_bound; lia.
  - split; [apply Z.div_pos; lia|apply Z.div_lt_upper_bound; lia].
Qed.

Definition unit_ok (c : Z) : Prop := 0 ≤ c < 65536.

Lemma parse_str_escape f c r t q : unit_ok c →
  parse_str f t = Some (r, q) → parse_str (S f) (u_escape c ++ t) = Some (c :: r, q).
Proof.
  intros Hc Ht. unfold u_escape. rewrite <- app_assoc.
  change ("\u" ++ ?x) with (92 :: 117 :: x). cbn [parse_str].
  change (92 =? 34) with false. change (92 <? 32) with false. change (92 =? 92) with true.
  cbn -[hex4 hex_digit Z.div Z.modulo]. rewrite hex4_escape by done. by rewrite Ht.
Qed.
Lemma parse_str_unit f c r t q : unit_ok c →
  parse_str f t = Some (r, q) → (is_high c || is_low c = false) →
  parse_str (S f) (quote_unit c ++ t) = Some (c :: r, q).
Proof.
  intros Hc Ht Hs. unfold quote_unit.
  destruct (c =? 34) eqn:E1; bprop; [subst; cbn; by rewrite Ht|].
  destruct (c =? 92) eqn:E2; bprop; [subst; cbn; by rewrite Ht|].
  destruct (c =? 8) eqn:E3; bprop; [subst; cbn; by rewrite Ht|].
  destruct (c =? 9) eqn:E4; bprop; [subst; cbn; by rewrite Ht|].
  destruct (c =? 10) eqn:E5; bprop; [subst; cbn; by rewrite Ht|].
  destruct (c =? 12) eqn:E6; bprop; [subst; cbn; by rewrite Ht|].
  destruct (c =? 13) eqn:E7; bprop; [subst; cbn; by rewrite Ht|].
  destruct (c <? 32) eqn:E8; bprop.
  - by apply parse_str_escape.
  - cbn [app parse_str]. apply Z.eqb_neq in E1 as ->. apply Z.eqb_neq in E2 as ->.
    destruct (c <? 32) eqn:E9; bprop; [lia|]. by rewrite Ht.
Qed.
Lemma parse_str_plain f c r t q : 93 ≤ c →
  parse_str f t = Some (r, q) → parse_str (S f) (c :: t) = Some (c :: r, q).
Proof.
  intros Hc Ht. cbn [parse_str].
  destruct (c =? 34) eqn:E1; bprop; [lia|]. destruct (c <? 32) eqn:E2; bprop; [lia|].
  destruct (c =? 92) eqn:E3; bprop; [lia|]. by rewrite Ht.
Qed.

Lemma parse_quote s t : Forall unit_ok s →
  ∀ f, (length s < f)%nat → parse_str f (quote_body s ++ 34 :: t) = Some (s, t).
Proof.
  induction s as [s IH] using (induction_ltof1 _ (@length Z)). unfold ltof in IH. intros Hu f Hf.
  destruct f as [|f]; [lia|]. destruct s as [|c s]; [done|]. cbn [quote_body length] in *.
  apply Forall_cons_1 in Hu as [Hc Hu].
  assert (Hs : parse_str f (quote_body s ++ 34 :: t) = Some (s, t)) by (apply IH; [lia|done|lia]).
  destruct (is_high c) eqn:Eh.
  - destruct s as [|d s]; [rewrite <- ?app_assoc; by apply parse_str_escape|].
    destruct (is_low d) eqn:El; [|rewrite <- app_assoc; by apply parse_str_escape].
    unfold is_high, is_low in *. bprop. destruct f as [|f]; [simpl in Hf; lia|].
    apply Forall_cons_1 in Hu as [Hd Hu]. cbn [app length] in *.
    apply parse_str_plain; [lia|]. apply parse_str_plain; [lia|]. apply IH; [lia|done|lia].
  - destruct (is_low c) eqn:El; rewrite <- app_assoc.
    + by apply parse_str_escape.
    + apply parse_str_unit; [done|done|]. by rewrite Eh, El.
Qed.

Theorem parse_stringify_str s : Forall unit_ok s → JSON_parse (stringify (JStr s)) = Some (JStr s).
Proof.
  intros Hu. unfold JSON_parse. cbn [stringify]. unfold quote, dq. cbn [app].
  set (b := quote_body s ++ [34]).
  replace (parse_value (S (2 * length (34 :: b))) (34 :: b)) with (Some (JStr s, @nil Z)); [done|].
  cbn [parse_value skip_ws]. change (34 =? 34) with true.
  cbv beta iota zeta. change ((34 =? 32) || _ || _ || _) with false. cbv iota.
  unfold b. rewrite parse_quote; [done|done|].
  enough (length s <= length (quote_body s))%nat by (rewrite length_app; simpl; lia).
  clear. induction s as [s IH] using (induction_ltof1 _ (@length Z)). unfold ltof in IH.
  destruct s as [|c s]; [done|]. cbn [quote_body length].
  assert (Hs := IH s ltac:(simpl; lia)).
  assert (∀ c, 1 <= length (quote_unit c))%nat by (intros; unfold quote_unit; repeat split_if; simpl; lia).
  assert (∀ c, 1 <= length (u_escape c))%nat by (intros; unfold u_escape; simpl; lia).
  destruct (is_high c).
  - destruct s as [|d s]; [simpl; lia|]. destruct (is_low d).
    + assert (Hs2 := IH s ltac:(simpl; lia)). simpl in *. lia.
    + rewrite length_app. specialize (H0 c). lia.
  - destruct (is_low c); rewrite length_app; [specialize (H0 c)|specialize (H c)]; lia.
Qed.

(** Hence equal printed forms come from equal strings. *)
Lemma quote_inj a b : Forall unit_ok a → Forall unit_ok b → ∀ x y,
  quote a ++ x = quote b ++ y → a = b ∧ x = y.
Proof.
  intros Ha Hb x y H. unfold quote, dq in H. cbn [app] in H. injection H as H.
  rewrite <- !app_assoc in H. cbn [app] in H.
  set (n := S (length a + length b)).
  assert (H1 := parse_quote a x Ha n ltac:(lia)). assert (H2 := parse_quote b y Hb n ltac:(lia)).
  rewrite H in H1. rewrite H1 in H2. by simplify_eq.
Qed.

Example json_parse_ex :
  JSON_parse ("{" ++ dq ++ "a" ++ dq ++ ": [1, 2.5, null], " ++ dq ++ "b" ++ dq ++ ": true}")
  = Some (JObj [("a", JArr [JNum (num_of_Z 1); JNum (parseFloat "2.5"); JNull]); ("b", JBool true)]).
Proof. vm_compute. reflexivity. Qed.

(** ** The parser's fuel is enough

    Every value, list of elements and list of members that is read leaves a
    shorter text; hence the result does not depend on the fuel from twice the
    length of the text on. *)

Lemma skip_ws_le s : (length (skip_ws s) <= length s)%nat.
Proof. induction s as [|c s IH]; cbn; [done|]. split_if; cbn; lia. Qed.
Lemma hex4_le s u t : hex4 s = Some (u, t) → (length t < length s)%nat.
Proof.
  unfold hex4. destruct s as [|a [|b [|c [|d s]]]]; try done.
  destruct (hex_val a), (hex_val b), (hex_val c), (hex_val d); try done. intros [= _ <-]. cbn. lia.
Qed.
Lemma parse_str_lt f s t r : parse_str f s = Some (t, r) → (length r < length s)%nat.
Proof.
  revert s t r. induction f as [|f IH]; intros s t r; [done|]. cbn [parse_str]. destruct s as [|c s]; [done|].
  assert (Hput : ∀ u x, (length x <= length s)%nat →
    match parse_str f x with Some (y, z) => Some (u :: y, z) | None => None end = Some (t, r) →
    (length r < length (c :: s))%nat).
  { intros u x Hx. destruct (parse_str f x) as [[y z]|] eqn:E; [|done]. intros [= _ <-].
    apply IH in E. cbn. lia. }
  destruct (c =? 34); [intros [= _ <-]; cbn; lia|]. destruct (c <? 32); [done|].
  destruct (c =? 92); [|by apply Hput]. destruct s as [|d s]; [done|]. cbv zeta.
  destruct (hex4 s) as [[u x]|] eqn:Eh; [apply hex4_le in Eh|];
    repeat (split_if; [first [done|apply Hput; cbn; lia]|]); done.
Qed.
Lemma scan_exp_le s : (length (scan_exp s).2 <= length s)%nat.
Proof.
  unfold scan_exp. destruct s as [|c s]; [done|]. split_if; [|done].
  destruct (match s with 45 :: t => (true, t) | 43 :: t => (false, t) | _ => (false, s) end) as [neg t] eqn:En.
  assert (Ht : (length t <= length s)%nat) by (repeat split_match; simplify_eq; cbn; lia).
  destruct (take_digits t); [done|]. cbn [snd]. rewrite length_drop. cbn. lia.
Qed.

Lemma strip_minus_le s : (length (strip_minus s).2 <= length s)%nat.
Proof. unfold strip_minus. repeat split_match; cbn; lia. Qed.
Lemma frac_rest_le r : (length (frac_rest r) <= length r)%nat.
Proof. unfold frac_rest. repeat split_match; rewrite ?length_drop; cbn; lia. Qed.
Lemma parse_num_lt s x r : parse_num s = Some (x, r) → (length r < length s)%nat.
Proof.
  unfold parse_num. pose proof (strip_minus_le s) as Hs. destruct (strip_minus s) as [neg t]. cbn [snd] in Hs.
  destruct (take_digits t) as [|d ds] eqn:Ed; [done|].
  assert (Hr : (length (drop (length (d :: ds)) t) < length t)%nat).
  { rewrite length_drop. cbn. destruct t; [done|]. cbn. lia. }
  set (rest := drop (length (d :: ds)) t) in *. destruct (_ || _); [done|].
  pose proof (scan_exp_le (frac_rest rest)) as He. pose proof (frac_rest_le rest).
  destruct (scan_exp (frac_rest rest)) as [ex r']. cbn [snd] in He. destruct (_ || _); [done|]. intros [= _ <-]. lia.
Qed.

(** What the three readers leave. *)
Lemma parse_lt f :
  (∀ s v r, parse_value f s = Some (v, r) → (length r < length s)%nat) ∧
  (∀ s l r, parse_elems f s = Some (l, r) → (length r < length s)%nat) ∧
  (∀ s acc fs r, parse_members f s acc = Some (fs, r) → (length r < length s)%nat).
Proof.
  induction f as [|f (IHv & IHe & IHm)]; [done|]. splits.
  - intros s v r. cbn [parse_value]. pose proof (skip_ws_le s) as Hs.
    destruct (skip_ws s) as [|c s'] eqn:Es; [done|]. cbn in Hs.
    destruct (c =? 34); [destruct (parse_str _ s') as [[t r']|] eqn:E; [|done]; intros [= _ <-]; apply parse_str_lt in E; lia|].
    pose proof (skip_ws_le s') as Hs'. set (r1 := skip_ws s') in *.
    destruct (c =? 91); [|destruct (c =? 123)].
    + assert (Hel : match parse_elems f r1 with Some (l, r') => Some (JArr l, r') | None => None end = Some (v, r) →
                    (length r < length s)%nat).
      { destruct (parse_elems f r1) as [[l r']|] eqn:E; [|done]. intros [= _ <-]. apply IHe in E. lia. }
      clearbody r1. repeat split_match; try exact Hel; intros [= _ <-]; cbn in *; lia.
    + assert (Hme : match parse_members f r1 [] with Some (l, r') => Some (JObj l, r') | None => None end = Some (v, r) →
                    (length r < length s)%nat).
      { destruct (parse_members f r1 []) as [[l r']|] eqn:E; [|done]. intros [= _ <-]. apply IHm in E. lia. }
      clearbody r1. repeat split_match; try exact Hme; intros [= _ <-]; cbn in *; lia.
    + repeat (split_if; [intros [= _ <-]; rewrite length_drop; cbn; lia|]).
      destruct (parse_num (c :: s')) as [[x r']|] eqn:Ep; [|done]. intros [= _ <-]. apply parse_num_lt in Ep. cbn in Ep. lia.
  - intros s l r. cbn [parse_elems]. destruct (parse_value f s) as [[v r1]|] eqn:Ev; [|done]. apply IHv in Ev.
    pose proof (skip_ws_le r1) as H1. destruct (skip_ws r1) as [|c r2] eqn:Er; [done|]. cbn in H1.
    destruct (decide (c = 44)) as [->|N1]; [|destruct (decide (c = 93)) as [->|N2]].
    + destruct (parse_elems f r2) as [[l' r']|] eqn:E; [|done]. intros [= _ <-]. apply IHe in E. lia.
    + intros [= _ <-]. lia.
    + repeat split_match; try done; congruence.
  - intros s acc fs r. cbn [parse_members]. pose proof (skip_ws_le s) as Hs.
    destruct (skip_ws s) as [|c s'] eqn:Es; [done|]. cbn in Hs.
    destruct (decide (c = 34)) as [->|N1]; [|repeat split_match; try done; congruence].
    destruct (parse_str (S (length s')) s') as [[k r1]|] eqn:Ek; [|done]. apply parse_str_lt in Ek.
    pose proof (skip_ws_le r1) as H1. destruct (skip_ws r1) as [|c2 r2] eqn:Er; [done|]. cbn in H1.
    destruct (decide (c2 = 58)) as [->|N2]; [|repeat split_match; try done; congruence].
    destruct (parse_value f r2) as [[v r3]|] eqn:Ev; [|done]. apply IHv in Ev.
    pose proof (skip_ws_le r3) as H3. destruct (skip_ws r3) as [|c3 r4] eqn:Er3; [done|]. cbn in H3.
    destruct (decide (c3 = 44)) as [->|N3]; [intros E; apply IHm in E; lia|].
    destruct (decide (c3 = 125)) as [->|N4]; [intros [= _ <-]; lia|]. repeat split_match; try done; congruence.
Qed.

(** Case analysis on the variables a match inspects. *)
Ltac var_cases :=
  repeat match goal with |- context [match ?x with _ => _ end] => is_var x; destruct x end.

Lemma parse_fuel f1 : ∀ f2,
  (∀ s, (2 * length s < f1)%nat → (2 * length s < f2)%nat → parse_value f1 s = parse_value f2 s) ∧
  (∀ s, (S (2 * length s) < f1)%nat → (S (2 * length s) < f2)%nat → parse_elems f1 s = parse_elems f2 s) ∧
  (∀ s acc, (S (2 * length s) < f1)%nat → (S (2 * length s) < f2)%nat →
     parse_members f1 s acc = parse_members f2 s acc).
Proof.
  induction f1 as [|f1 IH]; intros f2; [splits; intros; lia|]. destruct f2 as [|f2]; [splits; intros; lia|].
  destruct (IH f2) as (IHv & IHe & IHm). splits.
  - intros s H1 H2. cbn [parse_value]. pose proof (skip_ws_le s) as Hs.
    destruct (skip_ws s) as [|c s']; [done|]. cbn in Hs. destruct (c =? 34); [done|].
    pose proof (skip_ws_le s') as Hs'. set (r1 := skip_ws s') in *.
    assert (He : parse_elems f1 r1 = parse_elems f2 r1) by (apply IHe; lia).
    assert (Hm : parse_members f1 r1 [] = parse_members f2 r1 []) by (apply IHm; lia).
    clearbody r1. destruct (c =? 91); [|destruct (c =? 123); [|done]]; revert He Hm; var_cases;
      intros He Hm; try done; by rewrite ?He, ?Hm.
  - intros s H1 H2. cbn [parse_elems]. rewrite (IHv s) by lia.
    destruct (parse_value f2 s) as [[v r1]|] eqn:Ev; [|done]. apply parse_lt in Ev.
    pose proof (skip_ws_le r1) as H3. destruct (skip_ws r1) as [|c r2]; [done|]. cbn in H3.
    assert (He : parse_elems f1 r2 = parse_elems f2 r2) by (apply IHe; lia).
    destruct (decide (c = 44)) as [->|N]; [by rewrite He|]. var_cases; try done; congruence.
  - intros s acc H1 H2. cbn [parse_members]. pose proof (skip_ws_le s) as Hs.
    destruct (skip_ws s) as [|c s']; [done|]. cbn in Hs.
    destruct (decide (c = 34)) as [->|N1]; [|var_cases; try done; congruence].
    destruct (parse_str (S (length s')) s') as [[k r1]|] eqn:Ek; [|done]. apply parse_str_lt in Ek.
    pose proof (skip_ws_le r1) as H3. destruct (skip_ws r1) as [|c2 r2]; [done|]. cbn in H3.
    destruct (decide (c2 = 58)) as [->|N2]; [|var_cases; try done; congruence].
    rewrite (IHv r2) by lia. destruct (parse_value f2 r2) as [[v r3]|] eqn:Ev; [|done]. apply parse_lt in Ev.
    pose proof (skip_ws_le r3) as H4. destruct (skip_ws r3) as [|c3 r4]; [done|]. cbn in H4.
    assert (Hm : parse_members f1 r4 (put_field k v acc) = parse_members f2 r4 (put_field k v acc)) by (apply IHm; lia).
    destruct (decide (c3 = 44)) as [->|N3]; [exact Hm|]. var_cases; try done; congruence.
Qed.

(** Any larger fuel gives the same answer. *)
Lemma JSON_parse_fuel f s :
  (2 * length s < f)%nat →
  JSON_parse s = match parse_value f s with
                 | Some (v, r) => match skip_ws r with [] => Some v | _ => None end
                 | None => None
                 end.
Proof. intros Hf. unfold JSON_parse. destruct (parse_fuel (S (2 * length s)) f) as (-> & _ & _); [done|lia|done]. Qed.
