(* ===== verification/Regex.v ===== *)
(** Regular expressions of the source, as syntax with a matcher.

    The source tests strings against literal patterns.  A pattern is translated
    to the syntax below; [re_match] decides membership by derivatives, and
    [re_match_spec] shows that it decides exactly the language [rmatch] of the
    pattern.  [test_full], [test_prefix] and [test_any] are [RegExp.test] for the
    anchorings [^r$], [^r] and [r]. *)

From S2P Require Import Prelude JsString.

Inductive re :=
  | RVoid
  | REps
  | RCls (p : Z → bool)
  | RCat (a b : re)
  | RAlt (a b : re)
  | RStar (a : re).

Inductive rmatch : re → jstring → Prop :=
  | m_eps : rmatch REps []
  | m_cls p c : p c = true → rmatch (RCls p) [c]
  | m_cat a b s t : rmatch a s → rmatch b t → rmatch (RCat a b) (s ++ t)
  | m_alt_l a b s : rmatch a s → rmatch (RAlt a b) s
  | m_alt_r a b s : rmatch b s → rmatch (RAlt a b) s
  | m_star_nil a : rmatch (RStar a) []
  | m_star_cons a s t : rmatch a s → rmatch (RStar a) t → rmatch (RStar a) (s ++ t).

#[export] Hint Constructors rmatch : lg.

(** ** The matcher *)

Fixpoint nullable (r : re) : bool :=
  match r with
  | RVoid | RCls _ => false
  | REps | RStar _ => true
  | RCat a b => nullable a && nullable b
  | RAlt a b => nullable a || nullable b
  end.

(** Constructors that drop dead branches, to keep derivatives small. *)
Definition scat (a b : re) : re :=
  match a with RVoid => RVoid | REps => b | _ => RCat a b end.
Definition salt (a b : re) : re :=
  match a, b with RVoid, _ => b | _, RVoid => a | _, _ => RAlt a b end.

Fixpoint deriv (c : Z) (r : re) : re :=
  match r with
  | RVoid | REps => RVoid
  | RCls p => if p c then REps else RVoid
  | RCat a b =>
      let d := scat (deriv c a) b in
      if nullable a then salt d (deriv c b) else d
  | RAlt a b => salt (deriv c a) (deriv c b)
  | RStar a => scat (deriv c a) (RStar a)
  end.

Fixpoint re_match (r : re) (s : jstring) : bool :=
  match s with
  | [] => nullable r
  | c :: s' => re_match (deriv c r) s'
  end.

(** ** Correctness of the matcher *)

Lemma rmatch_void s : ¬ rmatch RVoid s.
Proof. inversion 1. Qed.
Lemma rmatch_eps s : rmatch REps s ↔ s = [].
Proof. split; [by inversion 1|intros ->; auto with lg]. Qed.
Lemma rmatch_cls p s : rmatch (RCls p) s ↔ ∃ c, s = [c] ∧ p c = true.
Proof. split; [inversion 1; eauto|intros (c & -> & ?); auto with lg]. Qed.
Lemma rmatch_cat a b s : rmatch (RCat a b) s ↔ ∃ x y, s = x ++ y ∧ rmatch a x ∧ rmatch b y.
Proof. split; [inversion 1; eauto|intros (x & y & -> & ? & ?); auto with lg]. Qed.
Lemma rmatch_alt a b s : rmatch (RAlt a b) s ↔ rmatch a s ∨ rmatch b s.
Proof. split; [inversion 1; eauto|intros [?|?]; auto with lg]. Qed.

Lemma rmatch_scat a b s : rmatch (scat a b) s ↔ rmatch (RCat a b) s.
Proof.
  destruct a; simpl; try done; rewrite rmatch_cat; split.
  - by intros ?%rmatch_void.
  - by intros (? & ? & _ & ?%rmatch_void & _).
  - intros H. exists [], s. auto with lg.
  - intros (x & y & -> & ->%rmatch_eps & ?). done.
Qed.
Lemma rmatch_salt a b s : rmatch (salt a b) s ↔ rmatch (RAlt a b) s.
Proof.
  rewrite rmatch_alt. pose proof (rmatch_void s).
  destruct a, b; simpl; rewrite ?rmatch_alt; naive_solver.
Qed.

Lemma nullable_spec r : nullable r = true ↔ rmatch r [].
Proof.
  induction r as [| |p|a IHa b IHb|a IHa b IHb|a IHa]; simpl.
  - split; [done|by intros ?%rmatch_void].
  - split; auto with lg.
  - rewrite rmatch_cls. naive_solver.
  - rewrite andb_true_iff, IHa, IHb, rmatch_cat. split.
    + intros [? ?]. by exists [], [].
    + intros (x & y & E & Hx & Hy). symmetry in E. apply app_eq_nil in E as [-> ->]. done.
  - by rewrite orb_true_iff, IHa, IHb, rmatch_alt.
  - split; auto with lg.
Qed.

(** The first non-empty factor of a starred match. *)
Lemma star_cons_inv a c s : rmatch (RStar a) (c :: s) →
  ∃ x y, s = x ++ y ∧ rmatch a (c :: x) ∧ rmatch (RStar a) y.
Proof.
  intros H. remember (RStar a) as r eqn:Er. remember (c :: s) as u eqn:Eu.
  revert Eu. induction H as [| | | | | |a' x y Hx _ Hy IHy]; intros Eu; try done.
  injection Er as ->. destruct x as [|d x]; simpl in Eu; [by apply (IHy eq_refl)|].
  injection Eu as -> <-. eauto.
Qed.

Lemma deriv_spec c r s : rmatch (deriv c r) s ↔ rmatch r (c :: s).
Proof.
  revert s. induction r as [| |p|a IHa b IHb|a IHa b IHb|a IHa]; intros s; simpl.
  - split; by intros ?%rmatch_void.
  - rewrite rmatch_eps. split; [by intros ?%rmatch_void|done].
  - rewrite rmatch_cls. destruct (p c) eqn:E.
    + rewrite rmatch_eps. naive_solver.
    + split; [by intros ?%rmatch_void|]. intros (d & [= -> ->] & ?). congruence.
  - assert (Hd : rmatch (scat (deriv c a) b) s ↔ ∃ x y, s = x ++ y ∧ rmatch a (c :: x) ∧ rmatch b y).
    { rewrite rmatch_scat, rmatch_cat. by setoid_rewrite IHa. }
    rewrite (rmatch_cat a b). destruct (nullable a) eqn:En.
    + apply nullable_spec in En. rewrite rmatch_salt, rmatch_alt, Hd, IHb. split.
      * intros [(x & y & -> & ? & ?)|?]; [by exists (c :: x), y|by exists [], (c :: s)].
      * intros ([|d x] & y & E & ? & ?); simpl in E; simplify_eq; [by right|left; eauto].
    + rewrite Hd. split.
      * intros (x & y & -> & ? & ?). by exists (c :: x), y.
      * intros ([|d x] & y & E & Hx & ?); simpl in E; simplify_eq; [|eauto].
        apply nullable_spec in Hx. congruence.
  - by rewrite rmatch_salt, !rmatch_alt, IHa, IHb.
  - rewrite rmatch_scat, rmatch_cat. setoid_rewrite IHa. split.
    + intros (x & y & -> & ? & ?). change (c :: x ++ y) with ((c :: x) ++ y). auto with lg.
    + intros (x & y & -> & ? & ?)%star_cons_inv. eauto.
Qed.

Theorem re_match_spec r s : re_match r s = true ↔ rmatch r s.
Proof.
  revert r. induction s as [|c s IH]; intros r; simpl; [apply nullable_spec|].
  by rewrite IH, deriv_spec.
Qed.

(** ** Building patterns *)

Definition any_unit : re := RCls (λ _, true).
Definition chr (c : Z) : re := RCls (Z.eqb c).
Definition rng (lo hi : Z) : re := RCls (λ c, (lo <=? c) && (c <=? hi)).
(** A literal string. *)
Fixpoint lit (s : jstring) : re :=
  match s with [] => REps | [c] => chr c | c :: s' => RCat (chr c) (lit s') end.
(** A literal under the [i] flag; the source's ignore-case literals are ASCII. *)
Definition chr_i (c : Z) : re := RCls (λ d, ascii_lower d =? ascii_lower c).
Fixpoint lit_i (s : jstring) : re :=
  match s with [] => REps | [c] => chr_i c | c :: s' => RCat (chr_i c) (lit_i s') end.
Definition ropt (r : re) : re := RAlt r REps.
Definition rplus (r : re) : re := RCat r (RStar r).
Fixpoint rrep (n : nat) (r : re) : re :=
  match n with O => REps | S n => RCat r (rrep n r) end.
(** [r{lo,lo+extra}] *)
Fixpoint rupto (extra : nat) (r : re) : re :=
  match extra with O => REps | S n => ropt (RCat r (rupto n r)) end.
Definition rbetween (lo extra : nat) (r : re) : re := RCat (rrep lo r) (rupto extra r).
Fixpoint ralts (l : list re) : re :=
  match l with [] => RVoid | [r] => r | r :: l' => RAlt r (ralts l') end.
Definition digit : re := RCls is_digit.

(** [RegExp.test] *)
Definition test_full (r : re) (s : jstring) : bool := re_match r s.
Definition test_prefix (r : re) (s : jstring) : bool := re_match (RCat r (RStar any_unit)) s.
Definition test_suffix (r : re) (s : jstring) : bool := re_match (RCat (RStar any_unit) r) s.
Definition test_any (r : re) (s : jstring) : bool :=
  re_match (RCat (RStar any_unit) (RCat r (RStar any_unit))) s.

Lemma rmatch_star_any s : rmatch (RStar any_unit) s.
Proof.
  induction s as [|c s IH]; [constructor|]. apply (m_star_cons _ [c] s); [|done].
  by constructor.
Qed.
Lemma test_full_spec r s : test_full r s = true ↔ rmatch r s.
Proof. apply re_match_spec. Qed.
Lemma test_prefix_spec r s : test_prefix r s = true ↔ ∃ a b, s = a ++ b ∧ rmatch r a.
Proof.
  unfold test_prefix. rewrite re_match_spec, rmatch_cat. split; [naive_solver|].
  intros (a & b & -> & ?). exists a, b. auto using rmatch_star_any.
Qed.
Lemma test_any_spec r s : test_any r s = true ↔ ∃ a b c, s = a ++ b ++ c ∧ rmatch r b.
Proof.
  unfold test_any. rewrite re_match_spec, rmatch_cat. setoid_rewrite rmatch_cat. split.
  - intros (a & ? & -> & _ & b & c & -> & ? & _). eauto.
  - intros (a & b & c & -> & ?). exists a, (b ++ c). split; [done|]. split; [apply rmatch_star_any|].
    exists b, c. auto using rmatch_star_any.
Qed.
Lemma rmatch_lit t s : rmatch (lit t) s ↔ s = t.
Proof.
  revert s. induction t as [|c t IH]; intros s; cbn [lit]; [apply rmatch_eps|].
  assert (Hc : ∀ x, rmatch (chr c) x ↔ x = [c]).
  { intros x. unfold chr. rewrite rmatch_cls. split; [intros (d & -> & ?); bprop; by subst|].
    intros ->. exists c. by rewrite Z.eqb_refl. }
  destruct t as [|d t]; [apply Hc|]. rewrite rmatch_cat. split.
  - intros (x & y & -> & ->%Hc & ->%IH). done.
  - intros ->. exists [c], (d :: t). by rewrite Hc, IH.
Qed.
(** A literal tested anywhere is the substring test. *)
Lemma test_any_lit t s : test_any (lit t) s = includes t s.
Proof.
  apply eq_true_iff_eq. rewrite test_any_spec, includes_spec. split.
  - intros (a & b & c & -> & ->%rmatch_lit). eauto.
  - intros (a & c & ->). exists a, t, c. by rewrite rmatch_lit.
Qed.
