(* ===== verification/Http.v ===== *)
(** The web-platform types the handlers exchange: headers, requests and
    responses as Next.js hands them to a route, and the process environment.
    These model the platform, not a file of the repository. *)

From S2P Require Import Prelude JsString JsNum Json.

(** [process.env] *)
Definition env := jstring → option jstring.
(** [process.env.K === v] and its negation. *)
Definition env_is (e : env) (k v : jstring) : bool :=
  match e k with Some s => s =s v | None => false end.
(** An environment given by its list of settings. *)
Definition env_of (l : list (jstring * jstring)) : env := λ k, assoc k l.

(** ** Headers

    Names are case-insensitive: they are kept in lower case. *)
Definition headers := list (jstring * jstring).
Definition lname (k : jstring) : jstring := map ascii_lower k.
Definition hget (k : jstring) (h : headers) : option jstring := assoc (lname k) h.
Definition hset (k v : jstring) (h : headers) : headers := put_field (lname k) v h.

Lemma hget_hset_eq k k' v h : lname k = lname k' → hget k (hset k' v h) = Some v.
Proof. unfold hget, hset. intros ->. apply assoc_put_eq. Qed.
Lemma hget_hset_ne k k' v h : lname k ≠ lname k' → hget k (hset k' v h) = hget k h.
Proof. apply assoc_put_ne. Qed.

(** ** Requests *)

Record request := {
  rq_path : jstring;                         (* nextUrl.pathname *)
  rq_search : jstring;                       (* nextUrl.search, with its question mark *)
  rq_query : list (jstring * jstring);       (* the decoded search parameters *)
  rq_protocol : jstring;                     (* of request.url, with its colon *)
  rq_hostname : jstring;
  rq_origin : jstring;
  rq_headers : headers;
  rq_cookies : list (jstring * jstring);
  rq_json : option json;                     (* request.json(), None when it throws *)
  rq_form : option (list (jstring * jstring)); (* the text fields of request.formData() *)
}.

(** [searchParams.get(k)] and [has(k)] *)
Definition query (k : jstring) (r : request) : option jstring := assoc k (rq_query r).
Definition query_has (k : jstring) (r : request) : bool :=
  match query k r with Some _ => true | None => false end.
Definition header (k : jstring) (r : request) : option jstring := hget k (rq_headers r).
Definition cookie (k : jstring) (r : request) : option jstring := assoc k (rq_cookies r).

(** A request as one would type it, for examples. *)
Definition mk_request (path : jstring) (hs : headers) (cs q : list (jstring * jstring))
    (body : option json) : request :=
  {| rq_path := path; rq_search := []; rq_query := q; rq_protocol := "http:";
     rq_hostname := "localhost"; rq_origin := "http://localhost:3000"; rq_headers := hs;
     rq_cookies := cs; rq_json := body; rq_form := None |}.

(** The request a route sees behind a middleware that replaced the headers. *)
Definition with_headers (h : headers) (r : request) : request :=
  {| rq_path := rq_path r; rq_search := rq_search r; rq_query := rq_query r;
     rq_protocol := rq_protocol r; rq_hostname := rq_hostname r; rq_origin := rq_origin r;
     rq_headers := h; rq_cookies := rq_cookies r; rq_json := rq_json r; rq_form := rq_form r |}.

(** ** Responses *)

Record set_cookie := {
  ck_name : jstring;
  ck_value : jstring;
  ck_httpOnly : bool;
  ck_secure : bool;
  ck_sameSite : jstring;
  ck_path : jstring;
  ck_maxAge : Z;
}.

Inductive body :=
  | BJson (v : json)
  | BText (s : jstring)
  | BRedirect (location : jstring).

Record response := {
  rs_status : Z;
  rs_body : body;
  rs_headers : headers;
  rs_set : list set_cookie;
  rs_delete : list jstring;      (* cookies the response deletes *)
}.

(** [NextResponse.json(v, { status })] *)
Definition respond (st : Z) (v : json) : response :=
  {| rs_status := st; rs_body := BJson v; rs_headers := []; rs_set := []; rs_delete := [] |}.
Definition with_cache (cc : jstring) (r : response) : response :=
  {| rs_status := rs_status r; rs_body := rs_body r;
     rs_headers := [("cache-control", cc)]; rs_set := rs_set r; rs_delete := rs_delete r |}.
(** [NextResponse.redirect(url)] *)
Definition redirect (url : jstring) : response :=
  {| rs_status := 307; rs_body := BRedirect url; rs_headers := []; rs_set := []; rs_delete := [] |}.
Definition add_cookie (c : set_cookie) (r : response) : response :=
  {| rs_status := rs_status r; rs_body := rs_body r; rs_headers := rs_headers r;
     rs_set := rs_set r ++ [c]; rs_delete := rs_delete r |}.
Definition delete_cookie (k : jstring) (r : response) : response :=
  {| rs_status := rs_status r; rs_body := rs_body r; rs_headers := rs_headers r;
     rs_set := rs_set r; rs_delete := rs_delete r ++ [k] |}.

(** [{ error: msg }] with a status. *)
Definition error (st : Z) (msg : jstring) : response := respond st (JObj [("error", JStr msg)]).

(** The JSON body of a response. *)
Definition body_json (r : response) : option json :=
  match rs_body r with BJson v => Some v | _ => None end.
Definition body_get (k : jstring) (r : response) : option json := jopt k (body_json r).

(** [Bearer ] scheme of an Authorization header. *)
Definition has_bearer (auth : option jstring) : bool :=
  match auth with Some a => nonempty a && starts_with "Bearer " a | None => false end.

(** ** Outgoing requests and files

    What a handler observes of the world outside the process. *)
Record world := {
  (** [fetch(url, { headers })]: status and [res.json()]; the outer [None] is a
      network failure or a timeout, the inner one a body that is not JSON. *)
  w_fetch : jstring → headers → option (Z * option json);
  (** [readFile(path, "utf8")] and the size [stat(path)] reports. *)
  w_read : jstring → option jstring;
  w_size : jstring → option Z;
  (** [readFile(path.join(dir, name), "utf8")] *)
  w_readIn : jstring → jstring → option jstring;
}.

(** [res.ok] *)
Definition res_ok (st : Z) : bool := (200 <=? st) && (st <=? 299).

(** A directory without files behind a dead network, for examples. *)
Definition no_world : world :=
  {| w_fetch := λ _ _, None; w_read := λ _, None; w_size := λ _, None; w_readIn := λ _ _, None |}.

(** [JSON.parse] of a file under a directory, [null] on any failure: the helper
    [readJsonFile] the dashboard's libraries share. *)
Definition readJsonFile (w : world) (dir name : jstring) : json :=
  match w_readIn w dir name with
  | Some raw => default JNull (JSON_parse raw)
  | None => JNull
  end.

(** The first directory where the file exists and parses ([null] if none). *)
Definition readFirst (w : world) (dirs : list jstring) (name : jstring) : json :=
  first_some (λ d, match w_readIn w d name with Some raw => JSON_parse raw | None => None end) dirs ?? JNull.

(** Fields of a document at their declared types.  The outer [None] is a value
    of another type, on which the code's use of the field throws. *)
Definition field_str (k : jstring) (v : json) : option (option jstring) :=
  match nullish (jopt k (Some v)) with
  | None => Some None
  | Some (JStr s) => Some (Some s)
  | Some _ => None
  end.
Definition field_int (k : jstring) (v : json) : option (option Z) :=
  match nullish (jopt k (Some v)) with
  | None => Some None
  | Some (JNum x) => Some <$> num_int x
  | Some _ => None
  end.
Definition field_strs (k : jstring) (v : json) : option (option (list jstring)) :=
  match nullish (jopt k (Some v)) with
  | None => Some None
  | Some (JArr l) => Some <$> mapM (λ x, as_str (Some x)) l
  | Some _ => None
  end.
