(* ===== verification/Tier.v ===== *)
(** Subscription tiers and the routes each tier may reach
    (dashboard/src/lib/tier.ts, dashboard/src/app/api/tier/route.ts). *)

From S2P Require Import Prelude JsString JsNum Json Http.

Inductive SaasTier := community | pro | pro_plus | enterprise.

#[global] Instance SaasTier_eq_dec : EqDecision SaasTier.
Proof. solve_decision. Defined.

Definition tier_name (t : SaasTier) : jstring :=
  match t with
  | community => "community" | pro => "pro" | pro_plus => "pro_plus" | enterprise => "enterprise"
  end.

Definition TIER_ORDER (t : SaasTier) : Z :=
  match t with community => 0 | pro => 1 | pro_plus => 2 | enterprise => 3 end.

(** Routes a tier gates. *)
Definition isProRoute (pathname : jstring) : bool :=
  if (pathname =s "/fleet") || starts_with "/fleet/" pathname then true
  else if starts_with "/api/fleet" pathname then true
  else if starts_with "/api/tenants/isolation" pathname then true
  else if (pathname =s "/api/reports/export") || starts_with "/api/reports/export/" pathname then true
  else false.

Definition isEnterpriseRoute (pathname : jstring) : bool :=
  starts_with "/api/marketplace/signed" pathname.

Section tier.
Context `{UnicodeCase}.

Definition normalizeSaasTier (raw : jstring) : SaasTier :=
  let s := replace_unit 45 "_" (to_lower (trim raw)) in
  if s =s "proplus" then pro_plus
  else if s =s "community" then community
  else if s =s "pro" then pro
  else if s =s "pro_plus" then pro_plus
  else if s =s "enterprise" then enterprise
  else community.

Definition resolveSaasTier (e : env) : SaasTier :=
  normalizeSaasTier (oor (e "LOG_GUARDIAN_TIER") "community").

Definition tierAtLeast (e : env) (required : SaasTier) : bool :=
  TIER_ORDER required <=? TIER_ORDER (resolveSaasTier e).

Definition tierStatus (e : env) : json :=
  let tier := resolveSaasTier e in
  JObj [
    ("tier", JStr (tier_name tier));
    ("displayName", JStr (
       if bool_decide (tier = pro_plus) then "Pro Plus"
       else if bool_decide (tier = enterprise) then "Enterprise"
       else if bool_decide (tier = pro) then "Pro"
       else "Community"));
    ("features", JObj [
       ("fleet", JBool (tierAtLeast e pro));
       ("compliance", JBool (tierAtLeast e pro));
       ("multiTenant", JBool (tierAtLeast e pro));
       ("k8sKindCluster", JBool (tierAtLeast e pro_plus));
       ("helmChart", JBool (tierAtLeast e pro_plus));
       ("k8sOperator", JBool (tierAtLeast e pro_plus));
       ("wasmSignedMarketplace", JBool (tierAtLeast e enterprise));
       ("ebpfMandatoryRunbook", JBool (tierAtLeast e enterprise))]);
    ("resources", JObj [
       ("coreRamMb", jint 120); ("proStackRamMb", jint 730); ("proPlusStackRamMb", jint 1900);
       ("coreDiskMb", jint 4); ("proStackDiskGb", jint 5); ("proPlusStackDiskGb", jint 8)]);
    ("env", JStr "LOG_GUARDIAN_TIER");
    ("hint", JStr (
       if bool_decide (tier = community) then "Pro: LOG_GUARDIAN_TIER=pro — fleet + compliance"
       else if bool_decide (tier = pro) then
         "Pro Plus: LOG_GUARDIAN_TIER=pro_plus — K8s/Helm kaniti (bash scripts/pro_plus_stack.sh)"
       else if bool_decide (tier = pro_plus) then
         "Enterprise: LOG_GUARDIAN_TIER=enterprise — imzali Wasm marketplace"
       else "Enterprise tier aktif"))].

(** GET /api/tier *)
Definition tier_GET (e : env) : response := respond 200 (tierStatus e).

(** ** Properties *)

Lemma tier_order_inj t u : TIER_ORDER t = TIER_ORDER u → t = u.
Proof. by destruct t, u. Qed.

(** Being at some tier implies being at every lower one. *)
Lemma tierAtLeast_mono e t u :
  TIER_ORDER u ≤ TIER_ORDER t → tierAtLeast e t = true → tierAtLeast e u = true.
Proof. unfold tierAtLeast. rewrite !Z.leb_le. lia. Qed.

Lemma ascii_lit_fold (s : jstring) (f : Z → Z) :
  forallb (λ c, (0 <=? c) && (c <? 128) && negb (is_space c)) s = true →
  is_ascii s ∧ no_space s.
Proof.
  intros Hs. split; intros c Hc; apply list_elem_of_In in Hc;
    rewrite forallb_forall in Hs; specialize (Hs c Hc); bprop; [lia|done].
Qed.

Lemma normalize_plain raw :
  forallb (λ c, (0 <=? c) && (c <? 128) && negb (is_space c)) raw = true →
  normalizeSaasTier raw =
    let s := replace_unit 45 "_" (map ascii_lower raw) in
    if s =s "proplus" then pro_plus
    else if s =s "community" then community
    else if s =s "pro" then pro
    else if s =s "pro_plus" then pro_plus
    else if s =s "enterprise" then enterprise
    else community.
Proof.
  intros Hs. destruct (ascii_lit_fold raw id Hs) as [Ha Hn].
  unfold normalizeSaasTier. by rewrite trim_no_space, to_lower_ascii by done.
Qed.

Lemma normalize_name t : normalizeSaasTier (tier_name t) = t.
Proof. rewrite normalize_plain; by destruct t. Qed.
End tier.
