(* ===== verification/Auth.v ===== *)
(** Secrets, tokens, passwords and tenant guards:
    dashboard/src/lib/authSecrets.ts, timingSafeToken.ts, password.ts,
    tenantGuard.ts, requestOrigin.ts, guardianApiAuth.ts, guardianApiBase.ts,
    guardianMetricsUrl.ts. *)

From S2P Require Import Prelude JsString JsNum Json Http.

(** ** JWT secret (authSecrets.ts) *)

Definition getJwtSecret (e : env) : res (list Z) :=
  let raw := e "JWT_SECRET" in
  let long r := negb (slen r <? 32) in
  if env_is e "NODE_ENV" "production" then
    match truthy_str raw with
    | Some r => if long r then Ok (utf8 r)
                else Throw "JWT_SECRET required in production (minimum 32 characters)"
    | None => Throw "JWT_SECRET required in production (minimum 32 characters)"
    end
  else match truthy_str raw with
       | Some r => if 32 <=? slen r then Ok (utf8 r)
                   else Ok (utf8 "dev-only-insecure-jwt-secret-32chars!!")
       | None => Ok (utf8 "dev-only-insecure-jwt-secret-32chars!!")
       end.

(** ** Constant-time comparison (timingSafeToken.ts) *)

(** Node's [timingSafeEqual]: throws on buffers of different lengths. *)
Definition timingSafeEqual (a b : list Z) : res bool :=
  if (length a =? length b)%nat then Ok (bool_decide (a = b))
  else Throw "Input buffers must have the same byte length".

Definition timingSafeTokenEquals (a b : jstring) : bool :=
  if negb (nonempty a) || negb (nonempty b) then false
  else
    let ba := utf8 a in
    let bb := utf8 b in
    if negb (length ba =? length bb)%nat then false
    else match timingSafeEqual ba bb with Ok r => r | Throw _ => false end.

Fixpoint timingSafeTokenInList (token : jstring) (allowed : list jstring) : bool :=
  match allowed with
  | [] => false
  | candidate :: rest =>
      if timingSafeTokenEquals token candidate then true else timingSafeTokenInList token rest
  end.

Lemma timingSafeTokenEquals_spec a b :
  timingSafeTokenEquals a b = true ↔ a ≠ [] ∧ b ≠ [] ∧ utf8 a = utf8 b.
Proof.
  unfold timingSafeTokenEquals, timingSafeEqual.
  destruct (nonempty a) eqn:Ea; bprop; [|subst; split; [done|by intros (? & _)]].
  destruct (nonempty b) eqn:Eb; bprop; [|subst; split; [done|by intros (_ & ? & _)]].
  cbn [negb orb]. destruct (length (utf8 a) =? length (utf8 b))%nat eqn:El; cbn [negb].
  - rewrite bool_decide_eq_true. tauto.
  - apply Nat.eqb_neq in El. split; [done|]. intros (_ & _ & E). by rewrite E in El.
Qed.
Lemma timingSafeTokenInList_spec t l :
  timingSafeTokenInList t l = true ↔ ∃ c, c ∈ l ∧ timingSafeTokenEquals t c = true.
Proof.
  induction l as [|c l IH]; simpl.
  - split; [done|]. intros (c & Hc & _). by apply elem_of_nil in Hc.
  - destruct (timingSafeTokenEquals t c) eqn:E.
    + split; [|done]. intros _. exists c. split; [by left|done].
    + rewrite IH. split.
      * intros (d & Hd & ?). exists d. split; [by right|done].
      * intros (d & [->|Hd]%elem_of_cons & ?); [congruence|eauto].
Qed.

(** ** Passwords (password.ts) *)

(** [Buffer.from(s, 'hex')]: reads pairs of digits up to the first bad one. *)
Fixpoint hex_decode (s : jstring) : list Z :=
  match s with
  | a :: b :: s' =>
      match hex_val a, hex_val b with
      | Some x, Some y => (x * 16 + y) :: hex_decode s'
      | _, _ => []
      end
  | _ => []
  end.
(** [buf.toString('hex')] *)
Definition hex_encode (b : list Z) : jstring :=
  flat_map (λ x, [hex_digit (x / 16); hex_digit (x mod 16)]) b.

Definition is_byte (x : Z) : Prop := 0 ≤ x < 256.

Lemma hex_val_digit n : 0 ≤ n < 16 → hex_val (hex_digit n) = Some n.
Proof.
  assert (Hall : Forall (λ n, hex_val (hex_digit n) = Some n) (seqZ 0 16))
    by (repeat (constructor; [reflexivity|]); constructor).
  intros Hn. rewrite Forall_forall in Hall. apply Hall, elem_of_seqZ. lia.
Qed.
Lemma hex_roundtrip b : Forall is_byte b → hex_decode (hex_encode b) = b.
Proof.
  induction 1 as [|x b Hx _ IH]; [done|]. cbn [hex_encode flat_map app hex_decode].
  unfold is_byte in Hx.
  rewrite !hex_val_digit by (split; [apply Z.div_pos; lia|apply Z.div_lt_upper_bound; lia]
                             || apply Z.mod_pos_bound; lia).
  f_equal; [|exact IH]. pose proof (Z.div_mod x 16 ltac:(lia)). lia.
Qed.
Lemma hex_digit_range n : 0 ≤ n < 16 →
  48 ≤ hex_digit n ≤ 57 ∨ 97 ≤ hex_digit n ≤ 102.
Proof. intros. unfold hex_digit. destruct (n <? 10) eqn:E; bprop; lia. Qed.
Lemma hex_encode_range b c : Forall is_byte b → c ∈ hex_encode b → 48 ≤ c ≤ 57 ∨ 97 ≤ c ≤ 102.
Proof.
  intros Hb Hc. apply list_elem_of_In, in_flat_map in Hc as (x & Hx & Hc).
  apply list_elem_of_In in Hx. rewrite Forall_forall in Hb. specialize (Hb x Hx). unfold is_byte in Hb.
  destruct Hc as [<-|[<-|[]]]; apply hex_digit_range.
  - split; [apply Z.div_pos; lia|apply Z.div_lt_upper_bound; lia].
  - apply Z.mod_pos_bound; lia.
Qed.

Definition SCRYPT_PREFIX : jstring := "scrypt:".

Section password.
(** Node's crypto: [scryptSync(password, salt, keylen)], which may throw, and
    the hexadecimal SHA-256 digest. *)
Context (scryptSync : jstring → list Z → Z → option (list Z)).
Context (sha256_hex : jstring → jstring).

(** [salt] is the draw of [randomBytes(16)]. *)
Definition hashPassword (salt : list Z) (password : jstring) : res jstring :=
  match scryptSync password salt 64 with
  | Some hash => Ok (SCRYPT_PREFIX ++ hex_encode salt ++ ":" ++ hex_encode hash)
  | None => Throw "scrypt"
  end.

Definition verifyPassword (password stored : jstring) : bool :=
  if starts_with SCRYPT_PREFIX stored then
    let rest := str_from (slen SCRYPT_PREFIX) stored in
    match index_of ":" rest with
    | None | Some O => false
    | Some sep =>
        let saltHex := take sep rest in
        let hashHex := drop (sep + 1) rest in
        let salt := hex_decode saltHex in
        let expected := hex_decode hashHex in
        match scryptSync password salt (Z.of_nat (length expected)) with
        | None => false
        | Some actual =>
            (length expected =? length actual)%nat &&
            match timingSafeEqual expected actual with Ok r => r | Throw _ => false end
        end
    end
  else sha256_hex password =s stored.

(** Documented behaviour of [scryptSync]: it yields exactly [keylen] bytes. *)
Definition scrypt_ok : Prop := ∀ p s n k,
  scryptSync p s n = Some k → length k = Z.to_nat n ∧ Forall is_byte k.

Lemma index_of_colon a b : 58 ∉ a → index_of ":" (a ++ 58 :: b) = Some (length a).
Proof.
  induction a as [|c a IH]; [done|]. intros [Hc Ha]%not_elem_of_cons.
  cbn [app length]. rewrite index_of_unfold. cbn [starts_with].
  destruct (58 =? c) eqn:E; bprop; [congruence|]. cbn [andb]. by rewrite (IH Ha).
Qed.

Lemma hashed_parts salt hash : Forall is_byte salt → Forall is_byte hash → salt ≠ [] →
  let stored := SCRYPT_PREFIX ++ hex_encode salt ++ ":" ++ hex_encode hash in
  ∃ n, index_of ":" (str_from (slen SCRYPT_PREFIX) stored) = Some (S n) ∧
    take (S n) (str_from (slen SCRYPT_PREFIX) stored) = hex_encode salt ∧
    drop (S n + 1) (str_from (slen SCRYPT_PREFIX) stored) = hex_encode hash.
Proof.
  intros Hs Hh Hne stored.
  assert (Hr : str_from (slen SCRYPT_PREFIX) stored = hex_encode salt ++ 58 :: hex_encode hash) by done.
  rewrite Hr. rewrite index_of_colon.
  2: { intros Hc. apply hex_encode_range in Hc; [lia|done]. }
  assert (Hlen : ∃ n, length (hex_encode salt) = S n) by (destruct salt; [done|by eexists]).
  destruct Hlen as [n Hn]. exists n. rewrite <- Hn. splits; [done|by rewrite take_app_length|].
  change (58 :: hex_encode hash) with ([58] ++ hex_encode hash).
  rewrite app_assoc, drop_app_length'; [done|]. by rewrite length_app.
Qed.
End password.

(** ** Tenant guards (tenantGuard.ts) *)

(** The Prisma filter: [None] filters nothing, [Some t] keeps tenant [t].  The
    cast of a missing header to a string is a filter no row meets, since the
    column is not nullable: it is the inner [None]. *)
Definition tenantWhere (r : request) : option (option jstring) :=
  let userRole := header "x-user-role" r in
  let userTenant := header "x-user-tenant" r in
  let isAdmin := match userRole with Some role => role =s "admin" | None => false end in
  if isAdmin then None else Some userTenant.

Definition requireTenantId (r : request) : option jstring :=
  let userRole := header "x-user-role" r in
  let userTenant := header "x-user-tenant" r in
  if match userRole with Some role => role =s "admin" | None => false end then None
  else userTenant.

Definition tenantAccessDenied (r : request) (targetTenantId : jstring) : bool :=
  let userRole := header "x-user-role" r in
  if match userRole with Some role => role =s "admin" | None => false end then false
  else
    match header "x-user-tenant" r with
    | Some userTenant => nonempty userTenant && nonempty targetTenantId
                         && negb (userTenant =s targetTenantId)
    | None => false
    end.

(** ** Client origin (requestOrigin.ts) *)

(** [v?.split(',')[0]?.trim()] *)
Definition first_part (v : option jstring) : option jstring :=
  match v with
  | Some s => match split1 44 s with p :: _ => Some (trim p) | [] => None end
  | None => None
  end.

(** [a || b] on optional strings. *)
Definition orelse (a b : option jstring) : option jstring :=
  match truthy_str a with Some s => Some s | None => b end.

Definition requestOrigin (r : request) : jstring :=
  let host := orelse (first_part (header "x-forwarded-host" r)) (trim <$> header "host" r) in
  let proto := oor (first_part (header "x-forwarded-proto" r))
                   (replace_first ":" [] (rq_protocol r)) in
  match truthy_str host with
  | Some h =>
      if negb (starts_with "0.0.0.0" h) then proto ++ "://" ++ h
      else if rq_hostname r =s "0.0.0.0" then proto ++ "://" ++ h
      else rq_origin r
  | None => rq_origin r
  end.

(** [new URL(path, origin)] for an absolute path. *)
Definition requestUrl (r : request) (path : jstring) : jstring := requestOrigin r ++ path.

(** ** The host analyzer: base URL and tokens *)

(** [raw.replace(/\/$/, "")] *)
Definition strip_slash (s : jstring) : jstring :=
  if ends_with "/" s then take (length s - 1) s else s.

Definition guardianApiBase (e : env) : jstring :=
  let raw := oor (orelse (trim <$> e "GUARDIAN_BAN_URL") (trim <$> e "GUARDIAN_API_URL"))
                 "http://127.0.0.1:8090" in
  strip_slash raw.

Definition guardianMetricsUrl (e : env) : jstring :=
  oor (orelse (e "GUARDIAN_METRICS_URL") (e "PROMETHEUS_METRICS_URL"))
      "http://metrics-relay:19091/metrics".

Definition guardianApiReadToken (e : env) : option jstring :=
  truthy_str (trim <$> e "GUARDIAN_API_TOKEN").

Definition guardianApiMutationToken (e : env) : option jstring :=
  truthy_str (orelse (trim <$> e "GUARDIAN_API_MUTATION_TOKEN") (trim <$> e "GUARDIAN_API_TOKEN")).

Definition guardianApiAuthHeaders (e : env) : headers :=
  match guardianApiReadToken e with
  | None => []
  | Some tok => [("authorization", "Bearer " ++ tok)]
  end.

Definition guardianApiMutationHeaders (e : env) : headers :=
  match guardianApiMutationToken e with
  | None => []
  | Some tok => [("authorization", "Bearer " ++ tok)]
  end.

(** ** Properties *)

(** A password verifies against the hash made from it, whatever the salt
    drawn: [verifyPassword] undoes the textual encoding of [hashPassword]. *)
Theorem password_roundtrip scryptSync sha256_hex salt password stored :
  scrypt_ok scryptSync → Forall is_byte salt → salt ≠ [] →
  hashPassword scryptSync salt password = Ok stored →
  verifyPassword scryptSync sha256_hex password stored = true.
Proof.
  intros Hok Hsalt Hne. unfold hashPassword, verifyPassword.
  destruct (scryptSync password salt 64) as [hash|] eqn:E; [|done]. intros Es.
  assert (Hst : stored = SCRYPT_PREFIX ++ hex_encode salt ++ ":" ++ hex_encode hash) by congruence.
  clear Es. subst stored.
  destruct (Hok _ _ _ _ E) as [Hlen Hh].
  destruct (hashed_parts salt hash Hsalt Hh Hne) as (n & Hi & Ht & Hd).
  rewrite starts_with_app, Hi, Ht, Hd, !hex_roundtrip by done.
  replace (Z.of_nat (length hash)) with 64 by (rewrite Hlen; lia).
  rewrite E. unfold timingSafeEqual. rewrite !Nat.eqb_refl. simpl. by apply bool_decide_eq_true.
Qed.

Lemma password_roundtrip_witness :
  verifyPassword (λ p s n, Some (replicate (Z.to_nat n) 7)) (λ p, p) "hunter2"
    (SCRYPT_PREFIX ++ hex_encode [1; 171] ++ ":" ++ hex_encode (replicate 64 7)) = true.
Proof.
  apply (password_roundtrip (λ p s n, Some (replicate (Z.to_nat n) 7)) (λ p, p) [1; 171]).
  - intros p s n k [= <-]. split; [apply length_replicate|]. apply Forall_replicate.
    unfold is_byte. lia.
  - repeat constructor; unfold is_byte; lia.
  - done.
  - reflexivity.
Defined.

(** Token lists are checked exactly: for tokens that travel in a header
    (units below U+0800), a presented token is accepted when, and only when, it
    is not empty and is one of the configured keys. *)
Theorem token_list_exact token allowed :
  narrow token → (∀ k, k ∈ allowed → narrow k) →
  timingSafeTokenInList token allowed = true ↔ token ≠ [] ∧ token ∈ allowed.
Proof.
  intros Ht Ha. rewrite timingSafeTokenInList_spec. split.
  - intros (c & Hc & He). apply timingSafeTokenEquals_spec in He as (H1 & _ & H2).
    apply utf8_narrow_inj in H2 as ->; auto.
  - intros [Hne Hin]. exists token. split; [done|]. by apply timingSafeTokenEquals_spec.
Qed.

Lemma token_list_exact_witness :
  timingSafeTokenInList "key-b" ["key-a"; "key-b"] = true ↔
  ("key-b" : jstring) ≠ [] ∧ ("key-b" : jstring) ∈ (["key-a"; "key-b"] : list jstring).
Proof.
  apply (token_list_exact "key-b" ["key-a"; "key-b"]).
  - intros c Hc. repeat (apply elem_of_cons in Hc as [->|Hc]; [lia|]). by apply elem_of_nil in Hc.
  - intros k Hk. repeat (apply elem_of_cons in Hk as [->|Hk];
      [intros c Hc; repeat (apply elem_of_cons in Hc as [->|Hc]; [lia|]); by apply elem_of_nil in Hc|]).
    by apply elem_of_nil in Hk.
Defined.

(** A stored hash whose digest part is empty or not hexadecimal accepts every
    password: the derived key is then compared on zero bytes. *)
Lemma verifyPassword_empty_digest scryptSync sha256_hex password :
  scryptSync password [171] 0 = Some [] →
  verifyPassword scryptSync sha256_hex password "scrypt:ab:" = true.
Proof. intros E. cbv. by rewrite E. Qed.
