(* ===== verification/LoginRateLimit.v ===== *)
(** The per-address limiter of failed logins
    (dashboard/src/lib/loginRateLimit.ts). *)

From S2P Require Import Prelude JsString JsNum Json Regex Http Auth.

Record Bucket := { count : Z; resetAt : Z }.

(** The module-level [Map<string, Bucket>]. *)
Abbreviation Buckets := (gmap (list Z) Bucket).

Definition WINDOW_MS : Z := 15 * 60 * 1000.

(** [parseInt(process.env.DASHBOARD_LOGIN_RL_MAX || '10', 10) || 10] *)
Definition MAX_ATTEMPTS (e : env) : Z :=
  match parseInt (oor (e "DASHBOARD_LOGIN_RL_MAX") "10") with
  | Some n => if n =? 0 then 10 else n
  | None => 10
  end.

Section limiter.
Context `{UnicodeCase}.

Definition isLoopbackAddress (key : jstring) : bool :=
  let k := to_lower (trim key) in
  if negb (nonempty k) then false
  else if (k =s "::1") || (k =s "localhost") then true
  else if starts_with "127." k then true
  else false.

Definition private_172 : re :=
  RCat (lit "172.") (RCat (ralts [RCat (chr 49) (rng 54 57); RCat (chr 50) (rng 48 57);
                                  RCat (chr 51) (rng 48 49)]) (chr 46)).

Definition isPrivateLabAddress (key : jstring) : bool :=
  let k := trim key in
  if negb (nonempty k) then false
  else if isLoopbackAddress k then true
  else if test_prefix (lit "10.") k then true
  else if test_prefix (lit "192.168.") k then true
  else if test_prefix private_172 k then true
  else false.

Definition bypassLoginRateLimit (e : env) (key : jstring) : bool :=
  let k := trim key in
  if negb (env_is e "NODE_ENV" "production") then
    if negb (nonempty k) || (k =s "unknown") then true
    else if isLoopbackAddress k then true
    else false
  else if env_is e "DASHBOARD_LOGIN_RL_LAB" "1" && isPrivateLabAddress k then true
  else if isLoopbackAddress k && env_is e "DASHBOARD_LOGIN_RL_BYPASS_LOOPBACK" "1" then true
  else false.

Definition loginRateLimitKey (r : request) : jstring :=
  match truthy_str (header "x-forwarded-for" r) with
  | Some fwd => match split1 44 fwd with p :: _ => trim p | [] => [] end
  | None =>
      match truthy_str (header "x-real-ip" r) with
      | Some real => trim real
      | None => "unknown"
      end
  end.

Definition bucketKey (key : jstring) : jstring := sor (trim key) "unknown".

(** The bucket of a key at [now]: a missing or expired one is replaced. *)
Definition live_bucket (bs : Buckets) (k : jstring) (now : Z) : Bucket * Buckets :=
  match bs !! k with
  | Some b =>
      if resetAt b <=? now
      then let b' := {| count := 0; resetAt := now + WINDOW_MS |} in (b', <[k := b']> bs)
      else (b, bs)
  | None => let b' := {| count := 0; resetAt := now + WINDOW_MS |} in (b', <[k := b']> bs)
  end.

Record verdict := { ok : bool; retryAfterSec : option Z }.

(** [Math.ceil(a / b)] for [b > 0] *)
Definition ceil_div (a b : Z) : Z := - ((- a) / b).

Definition checkLoginRateLimit (e : env) (now : Z) (key : jstring) (bs : Buckets)
    : verdict * Buckets :=
  if bypassLoginRateLimit e key then ({| ok := true; retryAfterSec := None |}, bs)
  else
    let '(b, bs') := live_bucket bs (bucketKey key) now in
    if MAX_ATTEMPTS e <=? count b
    then ({| ok := false; retryAfterSec := Some (ceil_div (resetAt b - now) 1000) |}, bs')
    else ({| ok := true; retryAfterSec := None |}, bs').

Definition recordLoginFailure (e : env) (now : Z) (key : jstring) (bs : Buckets) : Buckets :=
  if bypassLoginRateLimit e key then bs
  else
    let '(b, bs') := live_bucket bs (bucketKey key) now in
    <[bucketKey key := {| count := count b + 1; resetAt := resetAt b |}]> bs'.

Definition resetLoginRateLimitForTests (key : option jstring) (bs : Buckets) : Buckets :=
  match truthy_str key with
  | Some k => delete (bucketKey k) bs
  | None => ∅
  end.

(** ** Properties *)

(** Every bucket was opened at most one window before it ends. *)
Definition buckets_ok (now : Z) (bs : Buckets) : Prop :=
  ∀ k b, bs !! k = Some b → 0 ≤ count b ∧ resetAt b ≤ now + WINDOW_MS.

Lemma live_bucket_spec bs k now b bs' :
  live_bucket bs k now = (b, bs') →
  bs' !! k = Some b ∧ now < resetAt b ∧ (∀ k', k' ≠ k → bs' !! k' = bs !! k').
Proof.
  unfold live_bucket. intros E.
  destruct (bs !! k) as [b0|] eqn:Eb; [destruct (resetAt b0 <=? now) eqn:Er; bprop|];
    injection E as <- <-; unfold WINDOW_MS; simpl; splits; try done; try lia;
    try (by rewrite lookup_insert_eq); intros; by rewrite lookup_insert_ne.
Qed.

Lemma live_bucket_live bs k now b :
  bs !! k = Some b → now < resetAt b → live_bucket bs k now = (b, bs).
Proof. intros Hb Hr. unfold live_bucket. rewrite Hb. destruct (resetAt b <=? now) eqn:E; bprop; [lia|done]. Qed.

Lemma live_bucket_fresh bs k now :
  (∀ b, bs !! k = Some b → resetAt b ≤ now) →
  live_bucket bs k now =
    ({| count := 0; resetAt := now + WINDOW_MS |},
     <[k := {| count := 0; resetAt := now + WINDOW_MS |}]> bs).
Proof.
  intros Hb. unfold live_bucket. destruct (bs !! k) as [b|] eqn:E; [|done].
  specialize (Hb b eq_refl). destruct (resetAt b <=? now) eqn:E2; bprop; [done|lia].
Qed.

Lemma record_live e now key bs b :
  bypassLoginRateLimit e key = false → bs !! bucketKey key = Some b → now < resetAt b →
  recordLoginFailure e now key bs
    = <[bucketKey key := {| count := count b + 1; resetAt := resetAt b |}]> bs.
Proof. intros Hb Hk Hr. unfold recordLoginFailure. by rewrite Hb, (live_bucket_live _ _ _ b). Qed.

(** Failures at the given times, one after the other. *)
Definition failures (e : env) (key : jstring) (times : list Z) (bs : Buckets) : Buckets :=
  fold_left (λ s t, recordLoginFailure e t key s) times bs.

Lemma failures_count e key times bs b :
  bypassLoginRateLimit e key = false → bs !! bucketKey key = Some b →
  Forall (λ t, t < resetAt b) times →
  failures e key times bs !! bucketKey key
    = Some {| count := count b + Z.of_nat (length times); resetAt := resetAt b |}.
Proof.
  intros Hby. revert bs b. induction times as [|t times IH]; intros bs b Hb Hall.
  - simpl. rewrite Hb. f_equal. destruct b; simpl. f_equal. lia.
  - apply Forall_cons_1 in Hall as [Ht Hall]. change (failures e key (t :: times) bs)
      with (failures e key times (recordLoginFailure e t key bs)).
    rewrite (record_live e t key bs b Hby Hb Ht).
    rewrite (IH _ {| count := count b + 1; resetAt := resetAt b |});
      [simpl; do 2 f_equal; lia|by rewrite lookup_insert_eq|done].
Qed.

Lemma check_live e now key bs b :
  bypassLoginRateLimit e key = false → bs !! bucketKey key = Some b → now < resetAt b →
  checkLoginRateLimit e now key bs
    = (if MAX_ATTEMPTS e <=? count b
       then {| ok := false; retryAfterSec := Some (ceil_div (resetAt b - now) 1000) |}
       else {| ok := true; retryAfterSec := None |}, bs).
Proof.
  intros Hby Hb Hr. unfold checkLoginRateLimit. rewrite Hby, (live_bucket_live _ _ _ b) by done.
  by destruct (MAX_ATTEMPTS e <=? count b).
Qed.

Lemma ceil_div_bounds a b : 0 < b → 0 < a →
  1 ≤ ceil_div a b ∧ b * (ceil_div a b - 1) < a ≤ b * ceil_div a b.
Proof.
  intros Hb Ha. unfold ceil_div. pose proof (Z.div_mod (- a) b ltac:(lia)).
  pose proof (Z.mod_pos_bound (- a) b Hb). nia.
Qed.

(** An operation on one key leaves the buckets of the others. *)
Lemma record_frame e now key bs k :
  k ≠ bucketKey key → recordLoginFailure e now key bs !! k = bs !! k.
Proof.
  intros Hk. unfold recordLoginFailure. destruct (bypassLoginRateLimit e key); [done|].
  destruct (live_bucket bs (bucketKey key) now) as [b bs'] eqn:E.
  apply live_bucket_spec in E as (_ & _ & Hf). rewrite lookup_insert_ne by done. by apply Hf.
Qed.
Lemma check_frame e now key bs k :
  k ≠ bucketKey key → (checkLoginRateLimit e now key bs).2 !! k = bs !! k.
Proof.
  intros Hk. unfold checkLoginRateLimit. destruct (bypassLoginRateLimit e key); [done|].
  destruct (live_bucket bs (bucketKey key) now) as [b bs'] eqn:E.
  apply live_bucket_spec in E as (_ & _ & Hf). destruct (MAX_ATTEMPTS e <=? count b); by apply Hf.
Qed.

Lemma live_bucket_ok now bs k : buckets_ok now bs →
  buckets_ok now (live_bucket bs k now).2 ∧ 0 ≤ count (live_bucket bs k now).1
  ∧ resetAt (live_bucket bs k now).1 ≤ now + WINDOW_MS.
Proof.
  intros Hok. unfold live_bucket.
  assert (Hnew : buckets_ok now (<[k := {| count := 0; resetAt := now + WINDOW_MS |}]> bs)).
  { intros k' b'. rewrite lookup_insert. case_decide; [intros [= <-]; simpl; lia|apply Hok]. }
  destruct (bs !! k) as [b|] eqn:E; [destruct (resetAt b <=? now)|]; simpl; splits; try done; try lia;
    by apply (Hok k).
Qed.

(** The invariant survives both operations, as the clock advances. *)
Lemma buckets_ok_later now now' bs : now ≤ now' → buckets_ok now bs → buckets_ok now' bs.
Proof. intros Hle Hok k b Hb. destruct (Hok k b Hb). lia. Qed.
Lemma record_ok e now key bs : buckets_ok now bs → buckets_ok now (recordLoginFailure e now key bs).
Proof.
  intros Hok. unfold recordLoginFailure. destruct (bypassLoginRateLimit e key); [done|].
  destruct (live_bucket_ok now bs (bucketKey key) Hok) as (H1 & H2 & H3).
  destruct (live_bucket bs (bucketKey key) now) as [b bs']. simpl in *.
  intros k b'. rewrite lookup_insert. case_decide; [intros [= <-]; simpl; lia|apply H1].
Qed.
Lemma check_ok e now key bs : buckets_ok now bs → buckets_ok now (checkLoginRateLimit e now key bs).2.
Proof.
  intros Hok. unfold checkLoginRateLimit. destruct (bypassLoginRateLimit e key); [done|].
  destruct (live_bucket_ok now bs (bucketKey key) Hok) as (H1 & _).
  destruct (live_bucket bs (bucketKey key) now) as [b bs']. by destruct (MAX_ATTEMPTS e <=? count b).
Qed.
End limiter.
