(* ===== verification/Login.v ===== *)
(** Sign-in: user authentication, session tokens and the login route
    (dashboard/src/lib/loginAuth.ts, dashboard/src/app/api/auth/login/route.ts). *)

From S2P Require Import Prelude JsString JsNum Json Regex Http Auth LoginRateLimit.

(** A row of the [User] table (dashboard/prisma/schema.prisma). *)
Record User := {
  u_id : jstring;
  u_username : jstring;
  u_passwordHash : jstring;
  u_tenantId : jstring;
  u_isAdmin : bool;
}.

Record AuthUser := {
  a_id : jstring;
  a_username : jstring;
  a_tenantId : jstring;
  a_isAdmin : bool;
}.

Definition authCookieSecure (e : env) : bool :=
  if negb (env_is e "NODE_ENV" "production") then false
  else negb (env_is e "COOKIE_SECURE" "0").

(** The claims [signAuthToken] puts in the token. *)
Definition token_claims (u : AuthUser) : list (jstring * json) :=
  [("userId", JStr (a_id u)); ("username", JStr (a_username u));
   ("tenantId", JStr (a_tenantId u)); ("isAdmin", JBool (a_isAdmin u))].

Record Credentials := { username : jstring; password : jstring; browserForm : bool }.

Definition readCredentials (r : request) : res Credentials :=
  let contentType := oor (header "content-type" r) [] in
  if includes "application/json" contentType then
    match rq_json r with
    | None => Throw "invalid json"
    | Some body =>
        let field k := match jopt k (Some body) with
                       | Some v => if truthy v then to_str v else []
                       | None => []
                       end in
        Ok {| username := field "username"; password := field "password"; browserForm := false |}
    end
  else
    match rq_form r with
    | None => Throw "invalid form"
    | Some form =>
        Ok {| username := oor (assoc "username" form) []; password := oor (assoc "password" form) [];
              browserForm := true |}
    end.

Definition setAuthCookie (e : env) (token : jstring) (resp : response) : response :=
  add_cookie {| ck_name := "auth_token"; ck_value := token; ck_httpOnly := true;
                ck_secure := authCookieSecure e; ck_sameSite := "lax"; ck_path := "/";
                ck_maxAge := 60 * 60 * 24 |} resp.

Section login.
Context `{UnicodeCase}.
(** Node's crypto and the JWT library. *)
Context (scryptSync : jstring → list Z → Z → option (list Z)) (sha256_hex : jstring → jstring).
(** [new SignJWT(claims).setProtectedHeader({alg:'HS256'}).setExpirationTime(ttl).sign(secret)] *)
Context (jwtSign : list (jstring * json) → jstring → list Z → option jstring).
(** [prisma.user.findUnique({ where: { username } })]; the outer [None] throws. *)
Context (findUser : jstring → option (option User)).

Definition authenticateUser (name pass : jstring) : res (option AuthUser) :=
  if negb (nonempty name) || negb (nonempty pass) then Ok None
  else match findUser name with
       | None => Throw "database"
       | Some None => Ok None
       | Some (Some user) =>
           if negb (verifyPassword scryptSync sha256_hex pass (u_passwordHash user)) then Ok None
           else Ok (Some {| a_id := u_id user; a_username := u_username user;
                            a_tenantId := u_tenantId user; a_isAdmin := u_isAdmin user |})
       end.

Definition signAuthToken (e : env) (u : AuthUser) : res jstring :=
  let ttl := oor (trim <$> e "DASHBOARD_JWT_EXPIRY") "24h" in
  match getJwtSecret e with
  | Throw m => Throw m
  | Ok secret => match jwtSign (token_claims u) ttl secret with
                 | Some t => Ok t
                 | None => Throw "sign"
                 end
  end.

(** The part of the handler behind the limiter's check; [now2] is the clock when a
    failure is recorded. *)
Definition login_checked (e : env) (now2 : Z) (r : request) : M Buckets response :=
  let rlKey := loginRateLimitKey r in
  let* c := lift_res (readCredentials r) in
  let* user := lift_res (authenticateUser (username c) (password c)) in
  match user with
  | None =>
      modify (recordLoginFailure e now2 rlKey) ;;;
      (if browserForm c then mret' (redirect (requestUrl r "/login?error=invalid"))
       else mret' (error 401 "Invalid credentials"))
  | Some user =>
      let* token := lift_res (signAuthToken e user) in
      if browserForm c then mret' (setAuthCookie e token (redirect (requestUrl r "/")))
      else mret' (setAuthCookie e token
                    (respond 200 (JObj [("success", JBool true); ("redirect", JStr "/")])))
  end.

(** POST /api/auth/login; [now1] and [now2] are the clock at the check and at
    the recording of a failure. *)
Definition login_POST (e : env) (now1 now2 : Z) (r : request) : M Buckets response :=
  catch
    (let rlKey := loginRateLimitKey r in
     let* rl := run (checkLoginRateLimit e now1 rlKey) in
     if negb (ok rl) then
       mret' (respond 429 (JObject [("error", Some (JStr "Too many login attempts"));
                                    ("retryAfterSec", jint <$> retryAfterSec rl)]))
     else login_checked e now2 r)
    (λ _, mret' (error 500 "Internal Server Error")).

(** ** Lemmas *)

Lemma authenticate_sound name pass u :
  authenticateUser name pass = Ok (Some u) →
  ∃ row, findUser name = Some (Some row) ∧ pass ≠ [] ∧
    verifyPassword scryptSync sha256_hex pass (u_passwordHash row) = true ∧
    u = {| a_id := u_id row; a_username := u_username row;
           a_tenantId := u_tenantId row; a_isAdmin := u_isAdmin row |}.
Proof.
  unfold authenticateUser. destruct (negb (nonempty name) || negb (nonempty pass)) eqn:E; [done|]. bprop.
  destruct (findUser name) as [[row|]|]; try done. split_if; bprop; [done|].
  intros [= <-]. eauto.
Qed.

(** The limiter is not reached by any other part of the handler: a locked-out
    address gets 429 whatever its credentials. *)
Lemma login_locked e now1 now2 r bs b :
  let key := loginRateLimitKey r in
  bypassLoginRateLimit e key = false →
  bs !! bucketKey key = Some b → now1 < resetAt b → MAX_ATTEMPTS e ≤ count b →
  login_POST e now1 now2 r bs =
    (Ok (respond 429 (JObject [("error", Some (JStr "Too many login attempts"));
                               ("retryAfterSec", Some (jint (ceil_div (resetAt b - now1) 1000)))])), bs).
Proof.
  intros key Hby Hb Hr Hc. unfold login_POST, catch, mbind', run.
  rewrite (check_live e now1 _ bs b) by done.
  destruct (MAX_ATTEMPTS e <=? count b) eqn:E; bprop; [done|lia].
Qed.

(** The handler waits for the body and the user's row between the check and its
    decision, so other requests come in between: a history is a sequence of arrivals
    (the check) and decisions (the rest of the handler) of any requests. *)
Inductive login_event := Arrive (r : request) (now : Z) | Decide (r : request) (now : Z).
Definition event_request (ev : login_event) : request := match ev with Arrive r _ | Decide r _ => r end.
Definition event_time (ev : login_event) : Z := match ev with Arrive _ t | Decide _ t => t end.
Definition login_step (e : env) (bs : Buckets) (ev : login_event) : Buckets :=
  match ev with
  | Arrive r now => (checkLoginRateLimit e now (loginRateLimitKey r) bs).2
  | Decide r now => (login_checked e now r bs).2
  end.
Definition login_history (e : env) (l : list login_event) (bs : Buckets) : Buckets := fold_left (login_step e) l bs.

(** A login that nothing interrupts is its arrival and its decision. *)
Lemma login_two_steps e now1 now2 r bs :
  (login_POST e now1 now2 r bs).2 =
  if ok (checkLoginRateLimit e now1 (loginRateLimitKey r) bs).1
  then login_history e [Arrive r now1; Decide r now2] bs else login_history e [Arrive r now1] bs.
Proof.
  unfold login_POST, catch, mbind', run, login_history. cbn [fold_left login_step].
  destruct (checkLoginRateLimit e now1 (loginRateLimitKey r) bs) as [rl bs1]. cbn [fst snd].
  destruct (ok rl); cbn [negb]; [|done]. by destruct (login_checked e now2 r bs1) as [[|] ?].
Qed.

(** The decision on wrong credentials. *)
Definition wrong_credentials (r : request) : bool :=
  match readCredentials r with
  | Ok c => match authenticateUser (username c) (password c) with Ok None => true | _ => false end
  | Throw _ => false
  end.
Definition rejection (key : jstring) (ev : login_event) : bool :=
  match ev with
  | Decide r _ => (loginRateLimitKey r =s key) && wrong_credentials r
  | Arrive _ _ => false
  end.

Lemma decide_effect e now r bs :
  (login_checked e now r bs).2 =
  if wrong_credentials r then recordLoginFailure e now (loginRateLimitKey r) bs else bs.
Proof.
  unfold login_checked, mbind', lift_res, wrong_credentials. destruct (readCredentials r) as [c|]; [|done].
  destruct (authenticateUser (username c) (password c)) as [[u|]|]; [| |done].
  - destruct (signAuthToken e u); [by destruct (browserForm c)|done].
  - unfold modify. by destruct (browserForm c).
Qed.

(** What a step does to a live bucket: its window stays, its count grows with every
    rejection of its address and never shrinks. *)
Lemma step_live e key ev bs b :
  bypassLoginRateLimit e key = false → bs !! bucketKey key = Some b →
  (bucketKey (loginRateLimitKey (event_request ev)) = bucketKey key → event_time ev < resetAt b) →
  ∃ b', login_step e bs ev !! bucketKey key = Some b' ∧ resetAt b' = resetAt b ∧
    count b + (if rejection key ev then 1 else 0) ≤ count b'.
Proof.
  intros Hby Hb Ht. destruct ev as [r now|r now]; cbn [login_step rejection event_request event_time] in *.
  - destruct (decide (bucketKey (loginRateLimitKey r) = bucketKey key)) as [Ek|Ek].
    + exists b. split; [|split; [done|lia]]. unfold checkLoginRateLimit. split_if; [done|].
      rewrite Ek, (live_bucket_live _ _ _ b) by auto. by split_if.
    + exists b. rewrite check_frame by done. split; [done|]. split; [done|lia].
  - rewrite decide_effect. destruct (wrong_credentials r); [|rewrite andb_false_r; exists b; split; [done|split; [done|lia]]].
    rewrite andb_true_r. destruct (decide (bucketKey (loginRateLimitKey r) = bucketKey key)) as [Ek|Ek].
    + destruct (bypassLoginRateLimit e (loginRateLimitKey r)) eqn:Eby.
      * destruct (loginRateLimitKey r =s key) eqn:E; bprop; [congruence|].
        exists b. unfold recordLoginFailure. rewrite Eby. split; [done|split; [done|lia]].
      * rewrite (record_live e now _ bs b), Ek by (rewrite ?Ek; auto). rewrite lookup_insert_eq.
        eexists. split; [done|]. cbn. split; [done|]. split_if; lia.
    + destruct (loginRateLimitKey r =s key) eqn:E; bprop; [congruence|].
      exists b. rewrite record_frame by done. split; [done|]. split; [done|lia].
Qed.

Lemma history_count e key l bs b :
  bypassLoginRateLimit e key = false → bs !! bucketKey key = Some b →
  Forall (λ ev, bucketKey (loginRateLimitKey (event_request ev)) = bucketKey key → event_time ev < resetAt b) l →
  ∃ b', login_history e l bs !! bucketKey key = Some b' ∧ resetAt b' = resetAt b ∧
    count b + Z.of_nat (length (jfilter (rejection key) l)) ≤ count b'.
Proof.
  intros Hby. revert bs b. induction l as [|ev l IH]; intros bs b Hb Hall; unfold login_history; cbn [fold_left].
  - exists b. split; [done|]. split; [done|cbn; lia].
  - apply Forall_cons_1 in Hall as [Ht Hall]. destruct (step_live e key ev bs b Hby Hb Ht) as (b1 & Hb1 & Hr1 & Hc1).
    destruct (IH (login_step e bs ev) b1 Hb1) as (b2 & Hb2 & Hr2 & Hc2); [by rewrite Hr1|].
    exists b2. split; [exact Hb2|]. split; [congruence|]. unfold jfilter in *. cbn [List.filter].
    destruct (rejection key ev); cbn [length]; lia.
Qed.

(** The arrival that opens a window. *)
Lemma arrive_fresh e r0 t0 bs :
  let key := loginRateLimitKey r0 in
  bypassLoginRateLimit e key = false → (∀ b, bs !! bucketKey key = Some b → resetAt b ≤ t0) →
  login_step e bs (Arrive r0 t0) !! bucketKey key = Some {| count := 0; resetAt := t0 + WINDOW_MS |}.
Proof.
  intros key Hby Hfresh. cbn [login_step]. fold key. unfold checkLoginRateLimit. rewrite Hby, live_bucket_fresh by done.
  split_if; cbn [snd]; by rewrite lookup_insert_eq.
Qed.

(** ** Properties *)

(** C4. Brute force is stopped: take any history of logins, of any addresses, right and
    wrong ones, overlapping in any way, after the arrival at [t0] that opened the window
    of an address. Once [MAX_ATTEMPTS] rejections of that address have been decided, every
    further login of it that arrives before the window ends is answered 429 without
    looking at its credentials, sets no cookie, records nothing, and announces the
    seconds left, rounded up. The address must be one the limiter watches: loopback and,
    where the environment says so, lab addresses are exempt. *)
Theorem login_lockout e key r0 t0 l bs r now1 now2 :
  bypassLoginRateLimit e key = false → loginRateLimitKey r0 = key →
  (∀ b, bs !! bucketKey key = Some b → resetAt b ≤ t0) →
  Forall (λ ev, bucketKey (loginRateLimitKey (event_request ev)) = bucketKey key → event_time ev < t0 + WINDOW_MS) l →
  MAX_ATTEMPTS e ≤ Z.of_nat (length (jfilter (rejection key) l)) →
  loginRateLimitKey r = key → now1 < t0 + WINDOW_MS →
  let bs' := login_history e (Arrive r0 t0 :: l) bs in
  ∃ n resp, login_POST e now1 now2 r bs' = (Ok resp, bs') ∧
    rs_status resp = 429 ∧ rs_set resp = [] ∧
    body_get "retryAfterSec" resp = Some (jint n) ∧
    1 ≤ n ∧ 1000 * (n - 1) < t0 + WINDOW_MS - now1 ≤ 1000 * n.
Proof.
  intros Hby Hr0 Hfresh Hall Hmax Hr Hnow bs'. rewrite <- Hr0 in Hby, Hfresh.
  pose proof (arrive_fresh e r0 t0 bs Hby Hfresh) as Hb. rewrite Hr0 in Hb, Hby.
  destruct (history_count e key l _ _ Hby Hb Hall) as (b & Hb' & Hre & Hc). cbn [resetAt count] in Hre, Hc.
  change (login_history e l _) with bs' in Hb'. rewrite <- Hr in Hby, Hb'. eexists _, _. split.
  - apply (login_locked e now1 now2 r bs' b Hby Hb'); lia.
  - rewrite Hre. pose proof (ceil_div_bounds (t0 + WINDOW_MS - now1) 1000 ltac:(lia) ltac:(lia)).
    splits; try done; lia.
Qed.

(** An exempt address is never refused by the limiter, whatever happened before. *)
Lemma login_exempt e now r bs :
  bypassLoginRateLimit e (loginRateLimitKey r) = true →
  checkLoginRateLimit e now (loginRateLimitKey r) bs = ({| ok := true; retryAfterSec := None |}, bs).
Proof. intros Hby. unfold checkLoginRateLimit. by rewrite Hby. Qed.

(** Arrivals alone record nothing: any number of logins of one address that arrive before
    the first of them is decided are all let through to the password check. *)
Lemma login_overlap_unbounded e r t0 n now bs :
  let key := loginRateLimitKey r in
  bypassLoginRateLimit e key = false → 0 < MAX_ATTEMPTS e → now < t0 + WINDOW_MS → t0 ≤ now →
  (∀ b, bs !! bucketKey key = Some b → resetAt b ≤ t0) →
  ok (checkLoginRateLimit e now key (login_history e (replicate (S n) (Arrive r t0)) bs)).1 = true.
Proof.
  intros key Hby Hmax Hnow Ht Hfresh.
  assert (Hb : login_history e (replicate (S n) (Arrive r t0)) bs !! bucketKey key = Some {| count := 0; resetAt := t0 + WINDOW_MS |}).
  { cbn [replicate]. unfold login_history. cbn [fold_left].
    pose proof (arrive_fresh e r t0 bs Hby Hfresh) as Hb. fold key in Hb. revert Hb.
    generalize (login_step e bs (Arrive r t0)) as bs1. induction n as [|n IH]; intros bs1 Hb; cbn [replicate fold_left]; [done|].
    apply IH. cbn [login_step]. fold key. unfold checkLoginRateLimit. rewrite Hby, (live_bucket_live _ _ _ _ Hb) by (cbn; lia).
    by split_if. }
  rewrite (check_live e now key _ _ Hby Hb) by done. cbn [count]. destruct (MAX_ATTEMPTS e <=? 0) eqn:E; bprop; [lia|done].
Qed.

(** An answer that sets a cookie, from the checks it passed. *)
Lemma login_issues e now1 now2 r bs resp bs' :
  login_POST e now1 now2 r bs = (Ok resp, bs') → rs_set resp ≠ [] →
  ∃ c row token,
    readCredentials r = Ok c ∧ findUser (username c) = Some (Some row) ∧
    verifyPassword scryptSync sha256_hex (password c) (u_passwordHash row) = true ∧
    signAuthToken e {| a_id := u_id row; a_username := u_username row;
                       a_tenantId := u_tenantId row; a_isAdmin := u_isAdmin row |} = Ok token ∧
    rs_set resp = [{| ck_name := "auth_token"; ck_value := token; ck_httpOnly := true;
                      ck_secure := authCookieSecure e; ck_sameSite := "lax"; ck_path := "/";
                      ck_maxAge := 86400 |}] ∧
    bs' = (checkLoginRateLimit e now1 (loginRateLimitKey r) bs).2.
Proof.
  unfold login_POST, login_checked, catch, mbind', run.
  destruct (checkLoginRateLimit e now1 (loginRateLimitKey r) bs) as [rl bs1].
  destruct (ok rl); cbn [negb]; [|by intros [= <- <-]].
  unfold lift_res. destruct (readCredentials r) as [c|]; [|by intros [= <- <-]].
  destruct (authenticateUser (username c) (password c)) as [[u|]|] eqn:Ea; [| |by intros [= <- <-]].
  - apply authenticate_sound in Ea as (row & Hf & _ & Hv & ->).
    destruct (signAuthToken e _) as [token|] eqn:Es; [|by intros [= <- <-]].
    intros Hp _. exists c, row, token.
    destruct (browserForm c); injection Hp as <- <-; done.
  - destruct (browserForm c); by intros [= <- <-].
Qed.

(** C5. A session cookie is only ever issued to a user of the table whose
    stored hash accepts the submitted password; the cookie carries the token
    signed for that very user and is HTTP-only, and no failure is recorded. *)
Theorem login_cookie_sound e now1 now2 r bs resp bs' :
  login_POST e now1 now2 r bs = (Ok resp, bs') → rs_set resp ≠ [] →
  ∃ c row token,
    readCredentials r = Ok c ∧ findUser (username c) = Some (Some row) ∧
    verifyPassword scryptSync sha256_hex (password c) (u_passwordHash row) = true ∧
    signAuthToken e {| a_id := u_id row; a_username := u_username row;
                       a_tenantId := u_tenantId row; a_isAdmin := u_isAdmin row |} = Ok token ∧
    rs_set resp = [{| ck_name := "auth_token"; ck_value := token; ck_httpOnly := true;
                      ck_secure := authCookieSecure e; ck_sameSite := "lax"; ck_path := "/";
                      ck_maxAge := 86400 |}] ∧
    bs' = (checkLoginRateLimit e now1 (loginRateLimitKey r) bs).2.
Proof. apply login_issues. Qed.

(** The handler always answers, with one of five statuses, and its effect
    on the limiter is confined to the bucket of the calling address. *)
Theorem login_total e now1 now2 r bs :
  ∃ resp bs', login_POST e now1 now2 r bs = (Ok resp, bs') ∧
    rs_status resp ∈ [200; 307; 401; 429; 500] ∧
    ∀ k, k ≠ bucketKey (loginRateLimitKey r) → bs' !! k = bs !! k.
Proof.
  unfold login_POST, login_checked, catch, mbind', run.
  pose proof (check_frame e now1 (loginRateLimitKey r) bs) as Hcf.
  destruct (checkLoginRateLimit e now1 (loginRateLimitKey r) bs) as [rl bs1]. cbn [snd] in Hcf.
  assert (Hrf : ∀ k, k ≠ bucketKey (loginRateLimitKey r) →
            recordLoginFailure e now2 (loginRateLimitKey r) bs1 !! k = bs !! k)
    by (intros k Hk; rewrite record_frame by done; by apply Hcf).
  unfold lift_res, modify.
  destruct (ok rl); cbn [negb].
  2: { eexists _, _. split; [done|]. split; [|done]. cbn. set_solver. }
  destruct (readCredentials r) as [c|]; cbn.
  2: { eexists _, _. split; [done|]. split; [|done]. cbn. set_solver. }
  destruct (authenticateUser (username c) (password c)) as [[u|]|]; cbn.
  - destruct (signAuthToken e u); [destruct (browserForm c)|];
      eexists _, _; (split; [done|]); (split; [|done]); cbn; set_solver.
  - destruct (browserForm c);
      eexists _, _; (split; [done|]); (split; [|done]); cbn; set_solver.
  - eexists _, _. split; [done|]. split; [|done]. cbn. set_solver.
Qed.
End login.

(** ** Witnesses *)

(** A concrete host: one user, a toy key derivation and signature. *)
Module Demo.
Definition scrypt (p : jstring) (salt : list Z) (n : Z) : option (list Z) :=
  Some (replicate (Z.to_nat n) (Z.of_nat (length p) mod 256)).
Definition sha (p : jstring) : jstring := p ++ "#".
Definition sign (c : list (jstring * json)) (ttl : jstring) (k : list Z) : option jstring :=
  Some ("tok:" ++ ostr (assoc "username" c)).
Definition alice : User :=
  {| u_id := "1"; u_username := "alice"; u_passwordHash := "s3cret#"; u_tenantId := "t1";
     u_isAdmin := false |}.
Definition users (n : jstring) : option (option User) :=
  Some (if n =s "alice" then Some alice else None).
Definition attempt (pass : jstring) : request :=
  mk_request "/api/auth/login"
    [("content-type", "application/json"); ("x-forwarded-for", "203.0.113.7, 10.0.0.1")] [] []
    (Some (JObj [("username", JStr "alice"); ("password", JStr pass)])).
Definition elsewhere : request :=
  mk_request "/api/auth/login" [("content-type", "application/json"); ("x-real-ip", "198.51.100.2")] [] []
    (Some (JObj [("username", JStr "alice"); ("password", JStr "x")])).
Definition prod : env :=
  env_of [("NODE_ENV", "production"); ("DASHBOARD_LOGIN_RL_MAX", "3");
          ("JWT_SECRET", "0123456789abcdef0123456789abcdef")].
End Demo.

(** Three wrong logins, the second and the third overlapping, with one of another
    address in between; the right password then comes too late. *)
Definition lockout_history : list login_event :=
  [Decide (Demo.attempt "a") 1001; Arrive (Demo.attempt "b") 2000; Arrive (Demo.attempt "c") 2000;
   Arrive Demo.elsewhere 2000; Decide (Demo.attempt "c") 2001; Decide Demo.elsewhere 2001; Decide (Demo.attempt "b") 2002].
Lemma login_lockout_witness :
  let bs' := @login_history ascii_case Demo.scrypt Demo.sha Demo.sign Demo.users Demo.prod
               (Arrive (Demo.attempt "a") 1000 :: lockout_history) ∅ in
  ∃ n resp, @login_POST ascii_case Demo.scrypt Demo.sha Demo.sign Demo.users Demo.prod 5000 5001
              (Demo.attempt "s3cret") bs' = (Ok resp, bs') ∧
    rs_status resp = 429 ∧ rs_set resp = [] ∧ body_get "retryAfterSec" resp = Some (jint n) ∧
    1 ≤ n ∧ 1000 * (n - 1) < 1000 + WINDOW_MS - 5000 ≤ 1000 * n.
Proof.
  apply (@login_lockout ascii_case Demo.scrypt Demo.sha Demo.sign Demo.users Demo.prod
           "203.0.113.7" (Demo.attempt "a") 1000 lockout_history ∅).
  - reflexivity.
  - reflexivity.
  - intros b Hb. by rewrite lookup_empty in Hb.
  - unfold lockout_history. repeat constructor; intros _; reflexivity.
  - vm_compute. discriminate.
  - reflexivity.
  - reflexivity.
Defined.

Lemma login_cookie_sound_witness :
  ∃ c row token, readCredentials (Demo.attempt "s3cret") = Ok c ∧
    Demo.users (username c) = Some (Some row) ∧
    verifyPassword Demo.scrypt Demo.sha (password c) (u_passwordHash row) = true ∧
    signAuthToken Demo.sign Demo.prod
      {| a_id := u_id row; a_username := u_username row;
         a_tenantId := u_tenantId row; a_isAdmin := u_isAdmin row |} = Ok token ∧
    rs_set (setAuthCookie Demo.prod "tok:alice"
              (respond 200 (JObj [("success", JBool true); ("redirect", JStr "/")])))
      = [{| ck_name := "auth_token"; ck_value := token; ck_httpOnly := true;
            ck_secure := authCookieSecure Demo.prod; ck_sameSite := "lax"; ck_path := "/";
            ck_maxAge := 86400 |}] ∧
    (<["203.0.113.7" := {| count := 0; resetAt := 1000 + WINDOW_MS |}]> ∅ : Buckets)
      = (@checkLoginRateLimit ascii_case Demo.prod 1000
           (loginRateLimitKey (Demo.attempt "s3cret")) ∅).2.
Proof.
  apply (@login_cookie_sound ascii_case Demo.scrypt Demo.sha Demo.sign Demo.users Demo.prod
           1000 1001 (Demo.attempt "s3cret") ∅); [reflexivity|discriminate].
Defined.
