(* ===== verification/Middleware.v ===== *)
(** The request gate in front of every page and API route
    (dashboard/src/middleware.ts). *)

From S2P Require Import Prelude JsString JsNum Json Regex Http Tier Auth Login.

(** [/\.(svg|png|jpe?g|gif|webp|ico)$/i] *)
Definition PUBLIC_FILE : re :=
  RCat (chr 46)
    (ralts [lit_i "svg"; lit_i "png"; RCat (lit_i "jp") (RCat (ropt (chr_i 101)) (chr_i 103));
            lit_i "gif"; lit_i "webp"; lit_i "ico"]).

(** What the gate decides: hand the request on, with the headers the route will
    see, or answer it. *)
Inductive decision :=
  | Next (h : headers)
  | Respond (r : response).

(** ** Classification of paths *)

Definition isAgentBearerApi (p : jstring) : bool :=
  (p =s "/api/fleet/commands") || (p =s "/api/fleet/commands/ack").
Definition isPublicDataRoomFile (p : jstring) : bool :=
  (p =s "/api/data-room/competitive-proof.pdf") || (p =s "/api/data-room/competitive-proof.json").
Definition isPublicPage (p : jstring) : bool := p =s "/competitive-proof".
Definition isPublicApi (p : jstring) : bool :=
  (p =s "/api/auth/login") || (p =s "/api/telemetry") || (p =s "/api/tier")
  || (p =s "/api/metrics/fleet") || (p =s "/api/internal/bans-invalidate")
  || isPublicDataRoomFile p || isAgentBearerApi p.
Definition isLoginPage (p : jstring) : bool := p =s "/login".
Definition isApiRoute (p : jstring) : bool := starts_with "/api/" p.

Section middleware.
Context `{UnicodeCase}.
(** [jwtVerify(token, secret)] of the JWT library: the claims of a valid token. *)
Context (jwtVerify : jstring → list Z → option (list (jstring * json))).

Definition tierBlocked (e : env) (required : SaasTier) : option response :=
  let tier := JStr (oor (e "LOG_GUARDIAN_TIER") "community") in
  if bool_decide (required = enterprise) && negb (tierAtLeast e enterprise) then
    Some (respond 403 (JObj [("error", JStr "Enterprise tier required"); ("tier", tier);
                             ("hint", JStr "Set LOG_GUARDIAN_TIER=enterprise")]))
  else if bool_decide (required = pro) && negb (tierAtLeast e pro) then
    Some (respond 403 (JObj [("error", JStr "Pro tier required"); ("tier", tier);
                             ("hint", JStr "Set LOG_GUARDIAN_TIER=pro for fleet + compliance")]))
  else None.

(** The headers handed to the route for a valid token. *)
Definition inject_identity (payload : list (jstring * json)) (h : headers) : headers :=
  let tenant := ostr (assoc "tenantId" payload) in
  let admin := otruthy (assoc "isAdmin" payload) in
  let h := hset "X-User-Tenant" tenant h in
  let h := hset "X-User-Role" (if admin then "admin" else "user") h in
  if negb admin then hset "X-Tenant-Id" tenant h else h.

(** Whether the idle timeout of the session has passed. *)
Definition idle_expired (e : env) (now : Z) (payload : list (jstring * json)) : bool :=
  match parseInt (oor (e "DASHBOARD_JWT_IDLE_MIN") "0"), assoc "iat" payload with
  | Some idleMin, Some (JNum iat) =>
      (0 <? idleMin) &&
      nlt (num_of_Z (idleMin * 60)) (SFsub 53 1024 (num_of_Z (now / 1000)) iat)
  | _, _ => false
  end.

Definition middleware (e : env) (now : Z) (r : request) : decision :=
  let pathname := rq_path r in
  if test_suffix PUBLIC_FILE pathname then Next (rq_headers r)
  else if starts_with "/alerting" pathname then
    let embed := match e "NEXT_PUBLIC_GRAFANA_EMBED_URL" with
                 | Some u => match split_str "/d/" u with p :: _ => Some p | [] => None end
                 | None => None
                 end in
    let grafanaBase := oor (orelse (e "GRAFANA_EXTERNAL_URL") embed) "http://127.0.0.1:3002" in
    Respond (redirect (grafanaBase ++ pathname ++ rq_search r))
  else
    let home := Respond (redirect (rq_origin r ++ "/")) in
    let toLogin := Respond (redirect (rq_origin r ++ "/login")) in
    let block required (k : decision) :=
      match tierBlocked e required with
      | Some blocked => if isApiRoute pathname then Respond blocked else home
      | None => k
      end in
    let rejected :=
      if isLoginPage pathname || isPublicApi pathname || isPublicPage pathname
      then Next (rq_headers r)
      else if isApiRoute pathname then Respond (error 401 "Unauthorized")
      else toLogin in
    let authenticate :=
      match truthy_str (cookie "auth_token" r) with
      | None => rejected
      | Some token =>
          match getJwtSecret e with
          | Throw _ => rejected
          | Ok secret =>
              match jwtVerify token secret with
              | None => rejected
              | Some payload =>
                  if idle_expired e now payload then
                    Respond (delete_cookie "auth_token"
                               (redirect (rq_origin r ++ "/login?session=expired")))
                  else if isLoginPage pathname then home
                  else Next (inject_identity payload (rq_headers r))
              end
          end
      end in
    let pro_gate := if isProRoute pathname then block pro authenticate else authenticate in
    if isEnterpriseRoute pathname then block enterprise pro_gate else pro_gate.

(** ** Properties *)

(** Paths the gate hands on without a session. *)
Definition open_path (p : jstring) : bool :=
  test_suffix PUBLIC_FILE p || isLoginPage p || isPublicApi p || isPublicPage p.

(** A verified, unexpired session of the request. *)
Definition session (e : env) (now : Z) (r : request) (payload : list (jstring * json)) : Prop :=
  ∃ token secret, cookie "auth_token" r = Some token ∧ getJwtSecret e = Ok secret ∧
    jwtVerify token secret = Some payload ∧ idle_expired e now payload = false.

(** The decision without the tier gates, for a path that is neither a public
    file nor a Grafana link. *)
Lemma middleware_next e now r h :
  middleware e now r = Next h →
  (h = rq_headers r ∧ open_path (rq_path r) = true) ∨
  ∃ payload, session e now r payload ∧ h = inject_identity payload (rq_headers r).
Proof.
  unfold middleware, open_path.
  destruct (test_suffix PUBLIC_FILE (rq_path r)); [intros [= <-]; by left|].
  destruct (starts_with "/alerting" (rq_path r)); [done|].
  intros Hm.
  assert (Hrej : ∀ d, (if isLoginPage (rq_path r) || isPublicApi (rq_path r) || isPublicPage (rq_path r)
                       then Next (rq_headers r)
                       else if isApiRoute (rq_path r) then Respond (error 401 "Unauthorized")
                       else d) = Next h → (∀ h', d ≠ Next h') →
            h = rq_headers r ∧
            false || isLoginPage (rq_path r) || isPublicApi (rq_path r) || isPublicPage (rq_path r) = true).
  { intros d. cbn [orb]. destruct (isLoginPage _ || isPublicApi _ || isPublicPage _).
    - by intros [= <-].
    - destruct (isApiRoute (rq_path r)); [done|]. intros -> Hd. by destruct (Hd h). }
  repeat match type of Hm with
  | (if isEnterpriseRoute ?p then _ else _) = _ => destruct (isEnterpriseRoute p)
  | (if isProRoute ?p then _ else _) = _ => destruct (isProRoute p)
  | match tierBlocked ?e ?t with _ => _ end = _ =>
      destruct (tierBlocked e t); [destruct (isApiRoute (rq_path r)); done|]
  end.
  all: destruct (truthy_str (cookie "auth_token" r)) as [token|] eqn:Et;
    [|left; by eapply Hrej].
  all: apply truthy_str_Some in Et as [Et _].
  all: destruct (getJwtSecret e) as [secret|] eqn:Es; [|left; by eapply Hrej].
  all: destruct (jwtVerify token secret) as [payload|] eqn:Ev; [|left; by eapply Hrej].
  all: destruct (idle_expired e now payload) eqn:Ei; [done|].
  all: destruct (isLoginPage (rq_path r)); [done|].
  all: injection Hm as <-; right; exists payload; split; [by exists token, secret|done].
Qed.

Lemma inject_role payload h :
  hget "x-user-role" (inject_identity payload h)
    = Some (if otruthy (assoc "isAdmin" payload) then "admin" else "user").
Proof.
  unfold inject_identity. destruct (otruthy (assoc "isAdmin" payload)); cbn [negb].
  - by rewrite hget_hset_eq.
  - rewrite hget_hset_ne by done. by rewrite hget_hset_eq.
Qed.
Lemma inject_tenant payload h :
  hget "x-user-tenant" (inject_identity payload h) = Some (ostr (assoc "tenantId" payload)).
Proof.
  unfold inject_identity. destruct (otruthy (assoc "isAdmin" payload)); cbn [negb].
  - rewrite hget_hset_ne by done. by rewrite hget_hset_eq.
  - rewrite hget_hset_ne by done. rewrite hget_hset_ne by done. by rewrite hget_hset_eq.
Qed.
Lemma inject_shield payload h :
  otruthy (assoc "isAdmin" payload) = false →
  hget "x-tenant-id" (inject_identity payload h) = Some (ostr (assoc "tenantId" payload)).
Proof. intros E. unfold inject_identity. rewrite E. cbn [negb]. by rewrite hget_hset_eq. Qed.

(** C1. Outside the open paths nothing reaches a route without a session: if
    the gate hands a request on, its cookie held a token that verified under
    the configured secret and had not gone idle, and the role and tenant
    headers the route sees are those of the token, whatever the client sent. *)
Theorem mw_session_required e now r h :
  middleware e now r = Next h → open_path (rq_path r) = false →
  ∃ payload, session e now r payload ∧
    hget "x-user-role" h = Some (if otruthy (assoc "isAdmin" payload) then "admin" else "user") ∧
    hget "x-user-tenant" h = Some (ostr (assoc "tenantId" payload)).
Proof.
  intros Hm Ho. destruct (middleware_next e now r h Hm) as [[_ Hp]|(payload & Hs & ->)]; [congruence|].
  exists payload. by rewrite inject_role, inject_tenant.
Qed.

(** The tenant shield: a signed-in user who is not an administrator cannot
    choose the tenant filter.  On every path the gate guards, the route sees
    the tenant of the token in [x-tenant-id], even if the client sent another. *)
Theorem mw_tenant_shield e now r h payload :
  middleware e now r = Next h → open_path (rq_path r) = false →
  session e now r payload → otruthy (assoc "isAdmin" payload) = false →
  hget "x-tenant-id" h = Some (ostr (assoc "tenantId" payload)).
Proof.
  intros Hm Ho (t & s & Hc & Hs & Hv & Hi) Ha.
  destruct (middleware_next e now r h Hm) as [[_ Hp]|(p & (t' & s' & Hc' & Hs' & Hv' & _) & ->)];
    [congruence|]. rewrite Hc in Hc'. injection Hc' as <-. rewrite Hs in Hs'. injection Hs' as <-.
  rewrite Hv in Hv'. injection Hv' as <-. by apply inject_shield.
Qed.

(** The installation lacks the tier a path asks for. *)
Definition tier_missing (e : env) (p : jstring) : bool :=
  (isEnterpriseRoute p && negb (tierAtLeast e enterprise)) || (isProRoute p && negb (tierAtLeast e pro)).

Lemma alerting_no_api p : starts_with "/alerting" p = true → isApiRoute p = false.
Proof. intros (t & ->)%starts_with_spec. done. Qed.

(** C6. The tier gate: when the installation's tier is below the one a path asks for, no
    request for it, signed in or not, is handed on: an API call is answered with 403, a
    page with a redirect. The one exception are paths that end like an image file, which
    the gate lets through unchanged, with no check of the tier or of the session. *)
Theorem mw_tier_gate e now r :
  tier_missing e (rq_path r) = true →
  if test_suffix PUBLIC_FILE (rq_path r) then middleware e now r = Next (rq_headers r)
  else ∃ resp, middleware e now r = Respond resp ∧
    rs_status resp = (if isApiRoute (rq_path r) then 403 else 307).
Proof.
  intros Hm. unfold middleware. destruct (test_suffix PUBLIC_FILE (rq_path r)); [done|].
  destruct (starts_with "/alerting" (rq_path r)) eqn:Ea; [rewrite (alerting_no_api _ Ea); eauto|].
  unfold tier_missing in Hm. unfold tierBlocked.
  destruct (isEnterpriseRoute (rq_path r)), (isProRoute (rq_path r)), (tierAtLeast e enterprise), (tierAtLeast e pro);
    try done; simpl; destruct (isApiRoute (rq_path r)); try done; eexists; by split.
Qed.

(** The claims a token of [signAuthToken] verifies to: the signed ones and the
    expiry ([setIssuedAt] is not called). *)
Definition issued_payload (u : AuthUser) (exp : num) : list (jstring * json) :=
  token_claims u ++ [("exp", JNum exp)].

(** The idle timeout never fires for a session the login route issued: its
    tokens carry no [iat] claim, so [DASHBOARD_JWT_IDLE_MIN] has no effect on
    them at any time. *)
Theorem mw_idle_never_fires e now r token secret u exp :
  cookie "auth_token" r = Some token → token ≠ [] → getJwtSecret e = Ok secret →
  jwtVerify token secret = Some (issued_payload u exp) →
  open_path (rq_path r) = false → starts_with "/alerting" (rq_path r) = false →
  isProRoute (rq_path r) = false → isEnterpriseRoute (rq_path r) = false →
  middleware e now r = Next (inject_identity (issued_payload u exp) (rq_headers r)).
Proof.
  intros Hc Hne Hs Hv Ho Ha Hp He. unfold open_path in Ho.
  apply orb_false_iff in Ho as [Ho _]. apply orb_false_iff in Ho as [Ho _].
  apply orb_false_iff in Ho as [Hf Hl].
  unfold middleware. rewrite Hf, Ha, He, Hp, Hc, Hl.
  assert (Ht : truthy_str (Some token) = Some token) by (by apply truthy_str_Some).
  rewrite Ht, Hs, Hv. unfold idle_expired.
  replace (assoc "iat" (issued_payload u exp)) with (@None json) by done.
  by destruct (parseInt _).
Qed.
End middleware.

(** ** Witnesses *)

Module MwDemo.
Definition bob : AuthUser :=
  {| a_id := "7"; a_username := "bob"; a_tenantId := "t2"; a_isAdmin := false |}.
Definition verify (t : jstring) (k : list Z) : option (list (jstring * json)) :=
  if t =s "tok" then Some (issued_payload bob (num_of_Z 2000000000)) else None.
Definition e : env := env_of [("LOG_GUARDIAN_TIER", "pro"); ("DASHBOARD_JWT_IDLE_MIN", "1")].
Definition forged : request :=
  mk_request "/api/tenants" [("x-user-role", "admin"); ("x-tenant-id", "t1")] [("auth_token", "tok")] [] None.
End MwDemo.

Lemma mw_session_required_witness :
  ∃ payload, session MwDemo.verify MwDemo.e 0 MwDemo.forged payload ∧
    hget "x-user-role" (inject_identity (issued_payload MwDemo.bob (num_of_Z 2000000000))
                          (rq_headers MwDemo.forged))
      = Some (if otruthy (assoc "isAdmin" payload) then "admin" else "user") ∧
    hget "x-user-tenant" (inject_identity (issued_payload MwDemo.bob (num_of_Z 2000000000))
                          (rq_headers MwDemo.forged))
      = Some (ostr (assoc "tenantId" payload)).
Proof.
  apply (@mw_session_required ascii_case MwDemo.verify MwDemo.e 0 MwDemo.forged); reflexivity.
Defined.

Lemma mw_tenant_shield_witness :
  hget "x-tenant-id" (inject_identity (issued_payload MwDemo.bob (num_of_Z 2000000000))
                        (rq_headers MwDemo.forged))
    = Some (ostr (assoc "tenantId" (issued_payload MwDemo.bob (num_of_Z 2000000000)))).
Proof.
  apply (@mw_tenant_shield ascii_case MwDemo.verify MwDemo.e 0 MwDemo.forged);
    [reflexivity|reflexivity| |reflexivity].
  exists "tok", (utf8 "dev-only-insecure-jwt-secret-32chars!!"). splits; reflexivity.
Defined.

Lemma mw_tier_gate_witness :
  ∃ resp, @middleware ascii_case MwDemo.verify (env_of []) 0
            (mk_request "/api/fleet/commands" [] [("auth_token", "tok")] [] None) = Respond resp ∧
    rs_status resp = (if isApiRoute "/api/fleet/commands" then 403 else 307).
Proof.
  exact (@mw_tier_gate ascii_case MwDemo.verify (env_of []) 0
           (mk_request "/api/fleet/commands" [] [("auth_token", "tok")] [] None) eq_refl).
Defined.

(** A path of the fleet that ends like an image passes on a Community installation,
    without a session. *)
Lemma image_suffix_passes :
  let r := mk_request "/api/fleet/x.png" [] [] [] None in
  @tier_missing ascii_case (env_of []) (rq_path r) = true ∧
  @middleware ascii_case MwDemo.verify (env_of []) 0 r = Next (rq_headers r).
Proof. split; vm_compute; reflexivity. Qed.

(** Two hours after sign-in, with an idle limit of one minute. *)
Lemma mw_idle_never_fires_witness :
  @middleware ascii_case MwDemo.verify MwDemo.e 7200000 MwDemo.forged
    = Next (inject_identity (issued_payload MwDemo.bob (num_of_Z 2000000000))
              (rq_headers MwDemo.forged)).
Proof.
  apply (@mw_idle_never_fires ascii_case MwDemo.verify MwDemo.e 7200000 MwDemo.forged "tok"
           (utf8 "dev-only-insecure-jwt-secret-32chars!!")); try reflexivity. done.
Defined.
