(* ===== verification/Interleave.v ===== *)
(** Handlers that wait: a request handler is a sequence of atomic pieces, and between
    two pieces (at every [await] of the source) any other request may run.

    [proc] is the type of such handlers, [alone] runs one without interruption, [pool]
    is a set of requests in progress together with the log of what they did, and
    [pool_invariant] is the proof rule: an invariant holds in every interleaving when
    each piece of each handler keeps it, whatever the others did before that piece. *)

From S2P Require Import Prelude.

(** ** Handlers *)

Section procs.
Context {S E : Type}.

(** An atomic piece changes the shared state, notes what it did, and goes on with
    what it saw. *)
Inductive proc (R : Type) : Type :=
  | Ret (r : R)
  | Atom (step : S → S) (sees : S → list E) (next : S → proc R).
#[global] Arguments Ret {R} r.
#[global] Arguments Atom {R} step sees next.

(** [await] of one operation on the shared state. *)
Definition await {A} (m : M S A) (sees : res A → list E) : proc (res A) :=
  Atom (λ s, (m s).2) (λ s, sees (m s).1) (λ s, Ret (m s).1).
Definition silently {A} (m : M S A) : proc (res A) := await m (λ _, []).

Definition pret {A} (a : A) : proc (res A) := Ret (Ok a).
Definition pthrow {A} (msg : jstring) : proc (res A) := Ret (Throw msg).
Definition pofo {A} (msg : jstring) (o : option A) : proc (res A) :=
  match o with Some a => pret a | None => pthrow msg end.
Definition plift {A} (r : res A) : proc (res A) := Ret r.
Fixpoint pbind {A B} (p : proc (res A)) (k : A → proc (res B)) : proc (res B) :=
  match p with
  | Ret (Ok a) => k a
  | Ret (Throw msg) => Ret (Throw msg)
  | Atom step sees next => Atom step sees (λ s, pbind (next s) k)
  end.
Fixpoint pcatch {A} (p : proc (res A)) (h : jstring → proc (res A)) : proc (res A) :=
  match p with
  | Ret (Ok a) => Ret (Ok a)
  | Ret (Throw msg) => h msg
  | Atom step sees next => Atom step sees (λ s, pcatch (next s) h)
  end.

(** The handler on its own. *)
Fixpoint alone {R} (p : proc R) (s : S) : R * S :=
  match p with
  | Ret r => (r, s)
  | Atom step _ next => alone (next s) (step s)
  end.

Definition runs {A} (p : proc (res A)) (m : M S A) : Prop := ∀ s, alone p s = m s.

Lemma runs_ret {A} (a : A) : runs (pret a) (mret' a). Proof. done. Qed.
Lemma runs_throw {A} msg : runs (@pthrow A msg) (throw msg). Proof. done. Qed.
Lemma runs_ofo {A} msg (o : option A) : runs (pofo msg o) (ofo msg o). Proof. by destruct o. Qed.
Lemma runs_lift {A} (r : res A) : runs (plift r) (lift_res r). Proof. done. Qed.
Lemma runs_await {A} (m : M S A) sees : runs (await m sees) m.
Proof. intros s. cbn. by destruct (m s). Qed.
Lemma alone_bind {A B} (p : proc (res A)) (k : A → proc (res B)) s :
  alone (pbind p k) s = match alone p s with (Ok a, s') => alone (k a) s' | (Throw msg, s') => (Throw msg, s') end.
Proof. revert s. induction p as [[a|msg]|step sees next IH]; intros s; cbn; [done..|]. apply IH. Qed.
Lemma runs_bind {A B} p m (k : A → proc (res B)) k' :
  runs p m → (∀ a, runs (k a) (k' a)) → runs (pbind p k) (mbind' m k').
Proof. intros Hp Hk s. rewrite alone_bind, Hp. unfold mbind'. destruct (m s) as [[a|msg] s']; [apply Hk|done]. Qed.
Lemma alone_catch {A} (p : proc (res A)) (h : jstring → proc (res A)) s :
  alone (pcatch p h) s = match alone p s with (Ok a, s') => (Ok a, s') | (Throw msg, s') => alone (h msg) s' end.
Proof. revert s. induction p as [[a|msg]|step sees next IH]; intros s; cbn; [done..|]. apply IH. Qed.
Lemma runs_catch {A} (p : proc (res A)) m h h' :
  runs p m → (∀ msg, runs (h msg) (h' msg)) → runs (pcatch p h) (catch m h').
Proof. intros Hp Hh s. rewrite alone_catch, Hp. unfold catch. destruct (m s) as [[a|msg] s']; [done|apply Hh]. Qed.

(** A handler all of whose pieces make a step of [K] and note nothing, and whose
    result satisfies [P]. *)
Fixpoint silent {R} (K : S → S → Prop) (P : R → Prop) (p : proc R) : Prop :=
  match p with
  | Ret r => P r
  | Atom step sees next => ∀ s, K s (step s) ∧ sees s = [] ∧ silent K P (next s)
  end.
Definition any {A} (r : res A) : Prop := True.

Lemma silent_bind {A B} K (p : proc (res A)) (k : A → proc (res B)) P :
  silent K any p → (∀ msg, P (Throw msg)) → (∀ a, silent K P (k a)) → silent K P (pbind p k).
Proof.
  intros Hp Ht Hk. induction p as [[a|msg]|step sees next IH]; cbn in *; [apply Hk|apply Ht|].
  intros s. destruct (Hp s) as (H1 & H2 & H3). splits; [done|done|by apply IH].
Qed.
Lemma silent_catch {A} K (p : proc (res A)) (h : jstring → proc (res A)) P :
  silent K (λ r, match r with Ok a => P (Ok a) | Throw _ => True end) p → (∀ msg, silent K P (h msg)) →
  silent K P (pcatch p h).
Proof.
  intros Hp Hh. induction p as [[a|msg]|step sees next IH]; cbn in *; [done|apply Hh|].
  intros s. destruct (Hp s) as (H1 & H2 & H3). splits; [done|done|by apply IH].
Qed.
Lemma silent_silently {A} (K : S → S → Prop) (m : M S A) (P : res A → Prop) :
  (∀ s, K s (m s).2) → (∀ r, P r) → silent K P (silently m).
Proof. intros Hk Hp s. cbn. splits; [apply Hk|done|apply Hp]. Qed.
Lemma silent_ofo {A} K msg (o : option A) (P : res A → Prop) :
  (∀ a, P (Ok a)) → P (Throw msg) → silent K P (pofo msg o).
Proof. intros H1 H2. destruct o; cbn; auto. Qed.
End procs.

Arguments proc : clear implicits.
Arguments Ret {S E R} r.
Arguments Atom {S E R} step sees next.

Notation "'let**' x ':=' p 'in' k" := (pbind p (λ x, k))
  (at level 200, x name, p at level 100, k at level 200, right associativity) : js_scope.

(** ** Order in a log *)

Section order.
Context {A : Type}.
Implicit Types (x y z : A) (l : list A).

Definition precedes x y l : Prop := ∃ l1 l2 l3, l = l1 ++ x :: l2 ++ y :: l3.

Lemma precedes_app x y l l' : precedes x y l → precedes x y (l ++ l').
Proof.
  intros (l1 & l2 & l3 & ->). exists l1, l2, (l3 ++ l'). rewrite <- !app_assoc. cbn. by rewrite <- app_assoc.
Qed.
Lemma precedes_snoc x y l : x ∈ l → precedes x y (l ++ [y]).
Proof.
  intros (l1 & l2 & ->)%list_elem_of_split. exists l1, l2, []. rewrite <- app_assoc. done.
Qed.
Lemma precedes_snoc_inv x y z l : precedes x y (l ++ [z]) → precedes x y l ∨ (y = z ∧ x ∈ l).
Proof.
  intros (l1 & l2 & l3 & E). destruct l3 as [|w l3] using rev_ind.
  - right. change (l1 ++ x :: l2 ++ [y]) with (l1 ++ (x :: l2) ++ [y]) in E. rewrite app_assoc in E.
    apply app_inj_tail in E as [-> <-]. split; [done|]. apply elem_of_app. right. by left.
  - left. exists l1, l2, l3. replace (l1 ++ x :: l2 ++ y :: l3 ++ [w]) with ((l1 ++ x :: l2 ++ y :: l3) ++ [w]) in E.
    + by apply app_inj_tail in E as [-> _].
    + rewrite <- app_assoc. cbn. by rewrite <- app_assoc.
Qed.
Lemma precedes_elem x y l : precedes x y l → x ∈ l ∧ y ∈ l.
Proof. intros (l1 & l2 & l3 & ->). set_solver. Qed.
(** Of two different entries one is first. *)
Lemma precedes_total x y l : x ≠ y → x ∈ l → y ∈ l → precedes x y l ∨ precedes y x l.
Proof.
  intros Hne (l1 & l2 & ->)%list_elem_of_split Hy. apply elem_of_app in Hy as [Hy|Hy].
  - right. apply list_elem_of_split in Hy as (l3 & l4 & ->). exists l3, l4, l2. by rewrite <- app_assoc.
  - left. apply elem_of_cons in Hy as [Hy|Hy]; [congruence|].
    apply list_elem_of_split in Hy as (l3 & l4 & ->). by exists l1, l3, l4.
Qed.
End order.

(** ** Requests in progress *)

Section pools.
Context {S E R : Type}.

(** What a request did, or its answer. *)
Inductive entry := Did (ev : E) | Answered (r : R).
(** The shared state and the log so far, oldest entry first, with the number of the
    request that made it. *)
Record moment := Moment { shared : S; log : list (nat * entry) }.
Record pool := Pool { at_moment : moment; live : list (nat * proc S E R); born : nat }.

Definition fire (t : nat) (step : S → S) (sees : S → list E) (m : moment) : moment :=
  Moment (step (shared m)) (log m ++ map (λ ev, (t, Did ev)) (sees (shared m))).
Definition answer (t : nat) (r : R) (m : moment) : moment :=
  Moment (shared m) (log m ++ [(t, Answered r)]).

(** A request comes in, one in progress makes its next piece, or one ends. *)
Inductive pool_step (starts : proc S E R → Prop) : pool → pool → Prop :=
  | ps_spawn m l n p : starts p → pool_step starts (Pool m l n) (Pool m (l ++ [(n, p)]) (n + 1))
  | ps_atom m l1 l2 n t step sees next :
      pool_step starts (Pool m (l1 ++ (t, Atom step sees next) :: l2) n)
                       (Pool (fire t step sees m) (l1 ++ (t, next (shared m)) :: l2) n)
  | ps_answer m l1 l2 n t r :
      pool_step starts (Pool m (l1 ++ (t, Ret r) :: l2) n) (Pool (answer t r m) (l1 ++ l2) n).
Definition pool_reach (starts : proc S E R → Prop) (s0 : S) (c : pool) : Prop :=
  rtc (pool_step starts) (Pool (Moment s0 []) [] 0) c.

(** *** Invariants *)

Section rule.
Context (starts : proc S E R → Prop) (G : S → S → Prop) `{!PreOrder G} (I : moment → Prop).

(** What may happen between two pieces of request [t]. *)
Definition rely (t : nat) (m m' : moment) : Prop :=
  G (shared m) (shared m') ∧ ∃ ext, log m' = log m ++ ext ∧ Forall (λ x, x.1 ≠ t) ext.

#[local] Instance rely_preorder t : PreOrder (rely t).
Proof.
  split.
  - intros m. split; [done|]. exists []. by rewrite app_nil_r.
  - intros m1 m2 m3 [G1 (x1 & E1 & F1)] [G2 (x2 & E2 & F2)]. split; [by etrans|].
    exists (x1 ++ x2). rewrite E2, E1, <- app_assoc. split; [done|]. by apply Forall_app.
Qed.

(** From [m] on, every piece of [p] keeps the invariant and makes steps the others
    allow, and its result satisfies [Q]. *)
Fixpoint wp {R'} (t : nat) (m : moment) (p : proc S E R') (Q : R' → moment → Prop) : Prop :=
  match p with
  | Ret r => Q r m
  | Atom step sees next => ∀ m', rely t m m' → I m' →
      I (fire t step sees m') ∧ G (shared m') (step (shared m')) ∧ wp t (fire t step sees m') (next (shared m')) Q
  end.
Definition closes (t : nat) (r : R) (m : moment) : Prop := ∀ m', rely t m m' → I m' → I (answer t r m').
Definition safe (t : nat) (m : moment) (p : proc S E R) : Prop := wp t m p (closes t).

Lemma wp_later {R'} t m m' (p : proc S E R') Q :
  (∀ r m m', Q r m → rely t m m' → Q r m') → rely t m m' → wp t m p Q → wp t m' p Q.
Proof. destruct p; cbn; intros HQ Hr H; [by eapply HQ|]. intros m1 Hr1. apply H. by etrans. Qed.
Lemma safe_later t m m' p : rely t m m' → safe t m p → safe t m' p.
Proof. intros Hr. apply wp_later; [|done]. intros r m1 m2 H Hr1 m3 Hr3. apply H. by etrans. Qed.

Lemma wp_bind {A B} t m (p : proc S E (res A)) (k : A → proc S E (res B)) Q :
  wp t m p (λ r m', match r with Ok a => wp t m' (k a) Q | Throw msg => Q (Throw msg) m' end) → wp t m (pbind p k) Q.
Proof.
  revert m. induction p as [[a|msg]|step sees next IH]; intros m; cbn; [done..|].
  intros H m' Hr Hi. destruct (H m' Hr Hi) as (H1 & H2 & H3). splits; [done|done|by apply IH].
Qed.
Lemma wp_await {A} t m (op : M S A) sees (Q : res A → moment → Prop) :
  (∀ m', rely t m m' → I m' →
     let m'' := Moment (op (shared m')).2 (log m' ++ map (λ ev, (t, Did ev)) (sees (op (shared m')).1)) in
     I m'' ∧ G (shared m') (shared m'') ∧ Q (op (shared m')).1 m'') →
  wp t m (await op sees) Q.
Proof. done. Qed.
Lemma wp_catch {A} t m (p : proc S E (res A)) h Q :
  wp t m p (λ r m', match r with Ok a => Q (Ok a) m' | Throw msg => wp t m' (h msg) Q end) → wp t m (pcatch p h) Q.
Proof.
  revert m. induction p as [[a|msg]|step sees next IH]; intros m; cbn; [done..|].
  intros H m' Hr Hi. destruct (H m' Hr Hi) as (H1 & H2 & H3). splits; [done|done|by apply IH].
Qed.

Lemma silent_wp {R'} K (P : R' → Prop) t m (p : proc S E R') Q :
  (∀ s s', K s s' → G s s') → (∀ m s', I m → K (shared m) s' → I (Moment s' (log m))) →
  (∀ r m, P r → Q r m) → silent K P p → wp t m p Q.
Proof.
  intros HG HI HQ. revert m. induction p as [r|step sees next IH]; intros m; cbn; [auto|].
  intros Hs m' Hr Hi. destruct (Hs (shared m')) as (H1 & H2 & H3). unfold fire. rewrite H2. cbn [map]. rewrite app_nil_r.
  splits; [by apply HI|by apply HG|by apply IH].
Qed.

(** The others of a request see its pieces and its answer as allowed steps. *)
Lemma fire_rely t t' step sees m : t ≠ t' → G (shared m) (step (shared m)) → rely t' m (fire t step sees m).
Proof.
  intros Hne HG. split; [done|]. eexists. split; [done|]. apply Forall_forall.
  intros x (ev & -> & _)%list_elem_of_fmap. done.
Qed.
Lemma answer_rely t t' r m : t ≠ t' → rely t' m (answer t r m).
Proof. intros Hne. split; [done|]. eexists. split; [done|]. by repeat constructor. Qed.

(** All requests in progress are safe and have numbers of their own. *)
Definition pool_ok (s0 : S) (c : pool) : Prop :=
  I (at_moment c) ∧ G s0 (shared (at_moment c)) ∧ (∀ t p, (t, p) ∈ live c → safe t (at_moment c) p) ∧
  NoDup (live c).*1 ∧ Forall (λ t, t < born c)%nat (live c).*1 ∧ Forall (λ x, x.1 < born c)%nat (log (at_moment c)).

Lemma spawn_ok s0 m l n p :
  (∀ t m p, starts p → I m → Forall (λ x, x.1 ≠ t) (log m) → safe t m p) →
  starts p → pool_ok s0 (Pool m l n) → pool_ok s0 (Pool m (l ++ [(n, p)]) (n + 1)).
Proof.
  intros Hst Hp (Hi & Hg & Hs & Hn & Hl & Hb). unfold pool_ok. cbn [at_moment live born] in *.
  rewrite fmap_app. cbn [fmap list_fmap fst]. splits; [done|done| | | |].
  - intros t q [Hq|Hq%list_elem_of_singleton]%elem_of_app; [by apply Hs|]. injection Hq as -> ->.
    apply Hst; [done..|]. eapply Forall_impl; [exact Hb|]. cbn. lia.
  - apply NoDup_app. splits; [done| |apply NoDup_singleton]. intros t Ht ->%list_elem_of_singleton.
    rewrite Forall_forall in Hl. specialize (Hl n Ht). lia.
  - apply Forall_app. split; [eapply Forall_impl; [exact Hl|]; cbn; lia|]. repeat constructor. lia.
  - eapply Forall_impl; [exact Hb|]. cbn. lia.
Qed.

Lemma middle_other (l1 l2 : list (nat * proc S E R)) t (p q : proc S E R) t' :
  NoDup (l1 ++ (t, p) :: l2).*1 → (t', q) ∈ l1 ++ l2 → t ≠ t'.
Proof.
  rewrite fmap_app, fmap_cons. cbn [fst]. intros Hn Hq ->. apply NoDup_app in Hn as (_ & Hd & [Hx _]%NoDup_cons).
  apply elem_of_app in Hq as [Hq|Hq]; apply (list_elem_of_fmap_2 fst) in Hq; cbn in Hq; [|done].
  apply (Hd t' Hq). by left.
Qed.

Lemma atom_ok s0 m l1 l2 n t step sees next :
  pool_ok s0 (Pool m (l1 ++ (t, Atom step sees next) :: l2) n) →
  pool_ok s0 (Pool (fire t step sees m) (l1 ++ (t, next (shared m)) :: l2) n).
Proof.
  intros (Hi & Hg & Hs & Hn & Hl & Hb). unfold pool_ok. cbn [at_moment live born] in *.
  assert (Ht : safe t m (Atom step sees next)) by (apply Hs, elem_of_app; right; by left).
  destruct (Ht m ltac:(reflexivity) Hi) as (Hi' & Hg' & Hs'). unfold pool_ok. splits.
  - done.
  - by etrans.
  - intros t' q Hq. apply elem_of_app in Hq as [Hq|[Hq|Hq]%elem_of_cons]; [|by simplify_eq|].
    + apply (safe_later _ m); [|apply Hs, elem_of_app; by left]. apply fire_rely; [|done].
      eapply middle_other; [exact Hn|apply elem_of_app; by left].
    + apply (safe_later _ m); [|apply Hs, elem_of_app; right; by right]. apply fire_rely; [|done].
      eapply middle_other; [exact Hn|apply elem_of_app; by right].
  - rewrite fmap_app, fmap_cons in *. done.
  - rewrite fmap_app, fmap_cons in *. done.
  - apply Forall_app. split; [done|]. apply Forall_forall. intros x (ev & -> & _)%list_elem_of_fmap. cbn.
    rewrite Forall_forall in Hl. apply Hl. rewrite fmap_app. apply elem_of_app. right. by left.
Qed.

Lemma answer_ok s0 m l1 l2 n t r :
  pool_ok s0 (Pool m (l1 ++ (t, Ret r) :: l2) n) → pool_ok s0 (Pool (answer t r m) (l1 ++ l2) n).
Proof.
  intros (Hi & Hg & Hs & Hn & Hl & Hb). unfold pool_ok. cbn [at_moment live born] in *.
  assert (Ht : safe t m (Ret r)) by (apply Hs, elem_of_app; right; by left).
  splits; [apply Ht; [reflexivity|done]|done| | | |].
  - intros t' q Hq. apply (safe_later _ m).
    + apply answer_rely. by eapply middle_other.
    + apply Hs. apply elem_of_app in Hq as [Hq|Hq]; apply elem_of_app; [by left|right; by right].
  - rewrite fmap_app, fmap_cons in *. eapply sublist_NoDup; [exact Hn|]. apply sublist_app; [done|by constructor].
  - rewrite fmap_app, fmap_cons in *. apply Forall_app in Hl as [H1 [_ H2]%Forall_cons_1]. by apply Forall_app.
  - apply Forall_app. split; [done|]. repeat constructor. cbn. rewrite Forall_forall in Hl. apply Hl.
    rewrite fmap_app. apply elem_of_app. right. by left.
Qed.

Theorem pool_invariant s0 c :
  I (Moment s0 []) → (∀ t m p, starts p → I m → Forall (λ x, x.1 ≠ t) (log m) → safe t m p) →
  pool_reach starts s0 c → I (at_moment c) ∧ G s0 (shared (at_moment c)).
Proof.
  intros H0 Hst Hr. enough (pool_ok s0 c) as (? & ? & _) by done.
  assert (Hok : pool_ok s0 (Pool (Moment s0 []) [] 0)).
  { unfold pool_ok. cbn. splits; [done|done| |constructor|constructor|constructor]. intros t p Hp. by apply elem_of_nil in Hp. }
  unfold pool_reach in Hr. revert Hok. induction Hr as [c|c1 c2 c3 Hs _ IH]; [done|]. intros Hok. apply IH.
  destruct Hs; [by apply spawn_ok|by apply atom_ok|by apply answer_ok].
Qed.
End rule.

(** *** After its answer a request does nothing *)

(** The log so far makes answers final, and the requests [ids] have none. *)
Definition finals (ids : list nat) (l : list (nat * entry)) : Prop :=
  (∀ t r, (t, Answered r) ∈ l → t ∉ ids) ∧ ∀ t r x, ¬ precedes (t, Answered r) (t, x) l.

Lemma finals_did ids t evs l : t ∈ ids → finals ids l → finals ids (l ++ map (λ ev, (t, Did ev)) evs).
Proof.
  intros Ht. revert l. induction evs as [|ev evs IH]; intros l H; cbn [map]; [by rewrite app_nil_r|].
  rewrite cons_middle, app_assoc. apply IH. destruct H as [Ha Hp]. split.
  - intros t' r [Hr|Hr%list_elem_of_singleton]%elem_of_app; [by apply (Ha _ r)|done].
  - intros t' r x [Hx|[Hx Hr]]%precedes_snoc_inv; [by apply (Hp _ _ _ Hx)|]. injection Hx as -> _. by apply (Ha t r).
Qed.
Lemma finals_answer l1 l2 t r l :
  t ∉ l1 ++ l2 → finals (l1 ++ t :: l2) l → finals (l1 ++ l2) (l ++ [(t, Answered r)]).
Proof.
  intros Ht [Ha Hp]. split.
  - intros t' r' [Hr|Hr%list_elem_of_singleton]%elem_of_app; [|by injection Hr as -> _].
    intros Hin. apply (Ha _ _ Hr). set_solver.
  - intros t' r' x [Hx|[Hx Hr]]%precedes_snoc_inv; [by apply (Hp _ _ _ Hx)|]. injection Hx as -> _.
    apply (Ha _ _ Hr). set_solver.
Qed.
Lemma always_safe t m p : safe (λ _ _, True) (λ _, True) t m p.
Proof. unfold safe, closes. revert m. induction p as [|step sees next IH]; intros m; cbn; [done|]. intros m' _ _. splits; [done|done|apply IH]. Qed.
Lemma pool_ids starts s0 c : pool_reach starts s0 c → pool_ok (λ _ _, True) (λ _, True) s0 c.
Proof.
  intros Hr. unfold pool_reach in Hr. assert (PreOrder (λ _ _ : S, True)) by (by split).
  revert c Hr. apply rtc_ind_r; [|intros c1 c2 _ Hs IH].
  - unfold pool_ok. cbn. splits; [done|done| |constructor|constructor|constructor]. intros t p _. apply always_safe.
  - destruct Hs; [apply (spawn_ok starts); [intros; apply always_safe|done|done]|by apply atom_ok|by apply answer_ok].
Qed.

Lemma pool_finals starts s0 c : pool_reach starts s0 c → finals (live c).*1 (log (at_moment c)).
Proof.
  intros Hr. unfold pool_reach in Hr. revert c Hr. apply rtc_ind_r; [|intros c1 c2 Hr Hs IH].
  - split; cbn; [intros t r Hr; by apply elem_of_nil in Hr|]. intros t r x (l1 & l2 & l3 & El). by destruct l1.
  - apply pool_ids in Hr as (_ & _ & _ & Hn & Hl & Hb).
    destruct Hs as [m l n p _|m l1 l2 n t step sees next|m l1 l2 n t r]; cbn [live at_moment log fire answer born] in *.
    + destruct IH as [Ha Hp]. split; [|done]. intros t r Ht. rewrite fmap_app. apply not_elem_of_app.
      split; [by apply (Ha _ r)|]. intros ->%list_elem_of_singleton. rewrite Forall_forall in Hb. specialize (Hb _ Ht). cbn in Hb. lia.
    + rewrite fmap_app, fmap_cons in *. apply finals_did; [set_solver|done].
    + rewrite fmap_app, fmap_cons in *. apply finals_answer; [|done]. cbn [fst] in Hn.
      apply NoDup_app in Hn as (_ & Hd & [Hx _]%NoDup_cons). set_solver.
Qed.
(** A request that starts after another one's answer sees all its pieces done. *)
Lemma answered_before starts s0 c p1 p2 r l1 l2 x y :
  pool_reach starts s0 c → log (at_moment c) = l1 ++ (p1, Answered r) :: l2 → p1 ≠ p2 → Forall (λ x, x.1 ≠ p2) l1 →
  ¬ precedes (p2, x) (p1, y) (log (at_moment c)).
Proof.
  intros [_ Hf]%pool_finals El Hne Hq (k1 & k2 & k3 & Ek). apply (Hf p1 r y). rewrite El in Ek.
  apply app_eq_inv in Ek as [(k & -> & Ek)|(k & -> & Ek)].
  - destruct k as [|z k]; [by simplify_eq/=|]. injection Ek as <- Ek.
    apply Forall_app in Hq as [_ [Hq _]%Forall_cons_1]. done.
  - destruct k as [|z k]; [by simplify_eq/=|]. injection Ek as <- ->.
    exists l1, (k ++ (p2, x) :: k2), k3. rewrite El, <- app_assoc. done.
Qed.
End pools.

Arguments entry : clear implicits.
Arguments moment : clear implicits.
Arguments pool : clear implicits.
Arguments Did {E R} ev.
Arguments Answered {E R} r.

(** Running a schedule, for examples: start the given handler, or let the request at a
    position of the pool make its next piece or its end. *)
Section schedules.
Context {S E R : Type}.
Inductive turn := Start (p : proc S E R) | Turn (i : nat).
Definition take_turn (a : turn) (c : pool S E R) : option (pool S E R) :=
  match a with
  | Start p => Some (Pool (at_moment c) (live c ++ [(born c, p)]) (born c + 1))
  | Turn i =>
      match live c !! i with
      | Some (t, Atom step sees next) =>
          Some (Pool (fire t step sees (at_moment c))
                     (take i (live c) ++ (t, next (shared (at_moment c))) :: drop (i + 1) (live c)) (born c))
      | Some (t, Ret r) => Some (Pool (answer t r (at_moment c)) (take i (live c) ++ drop (i + 1) (live c)) (born c))
      | None => None
      end
  end.
Fixpoint play_turns (l : list turn) (c : pool S E R) : option (pool S E R) :=
  match l with
  | [] => Some c
  | a :: l' => match take_turn a c with Some c' => play_turns l' c' | None => None end
  end.
Lemma play_turns_reach starts l c c' :
  Forall (λ a, match a with Start p => starts p | Turn _ => True end) l →
  play_turns l c = Some c' → rtc (pool_step starts) c c'.
Proof.
  intros Hl. revert c. induction Hl as [|a l Ha _ IH]; intros c; cbn [play_turns]; [by intros [= <-]|].
  destruct (take_turn a c) as [c1|] eqn:Et; [|done]. intros Hp. eapply rtc_l; [|by apply IH].
  destruct c as [m lv n]. destruct a as [p|i]; cbn in Et.
  - injection Et as <-. by constructor.
  - destruct (lv !! i) as [[t q]|] eqn:Ei; [|done]. rewrite Nat.add_1_r in Et.
    destruct q; injection Et as <-; rewrite <- (take_drop_middle lv i _ Ei) at 1; constructor.
Qed.
End schedules.
Arguments turn : clear implicits.
