(* ===== verification/BanUtils.v ===== *)
(** Addresses in ban requests (dashboard/src/lib/banUtils.ts): the IPv4 pattern,
    the address of a connect event, the candidates of an attack tree. *)

From S2P Require Import Prelude JsString Regex.

(** [25[0-5]|2[0-4][0-9]|[01]?[0-9][0-9]?] *)
Definition octet_re : re :=
  RAlt (RCat (lit "25") (rng 48 53))
    (RAlt (RCat (chr 50) (RCat (rng 48 52) digit))
          (RCat (ropt (rng 48 49)) (RCat digit (ropt digit)))).

(** The pattern is anchored at both ends. *)
Definition IPV4_RE : re := RCat (rrep 3 (RCat octet_re (chr 46))) octet_re.

(** An event of an attack tree; both fields may be missing. *)
Record TreeEvent := { ev_type : option jstring; ev_detail : option jstring }.

Definition ipFromConnectDetail (detail : option jstring) : option jstring :=
  match truthy_str detail with
  | None => None
  | Some detail =>
      match truthy_str (trim <$> head (split1 58 detail)) with
      | Some ip => if test_full IPV4_RE ip then Some ip else None
      | None => None
      end
  end.

(** The [Set] keeps the order of insertion. *)
Fixpoint collect_from (ips : list jstring) (events : list TreeEvent) : list jstring :=
  match events with
  | [] => ips
  | ev :: events' =>
      let ips :=
        if bool_decide (ev_type ev = Some ("NET_CONNECT" : jstring)) then
          match ipFromConnectDetail (ev_detail ev) with
          | Some ip => if bool_decide (ip ∈ ips) then ips else ips ++ [ip]
          | None => ips
          end
        else ips in
      collect_from ips events'
  end.
Definition collectBanIpsFromTree (events : option (list TreeEvent)) : list jstring :=
  collect_from [] (events ?? []).

(** ** What the pattern accepts *)

(** A decimal octet: one to three digits, value at most 255. *)
Definition octet_ok (s : jstring) : bool :=
  (1 <=? slen s) && (slen s <=? 3) && forallb is_digit s && (digits_val 0 s <=? 255).

(** A dotted quad. *)
Definition dotted_quad (s : jstring) : Prop :=
  ∃ a b c d, s = a ++ "." ++ b ++ "." ++ c ++ "." ++ d ∧
    octet_ok a ∧ octet_ok b ∧ octet_ok c ∧ octet_ok d.

Definition all_digits : list Z := [48;49;50;51;52;53;54;55;56;57].

Lemma is_digit_elem c : is_digit c = true → c ∈ all_digits.
Proof.
  unfold is_digit. intros H. bprop. unfold all_digits. rewrite !elem_of_cons. lia.
Qed.

(** All strings of one to three digits. *)
Definition octet_texts : list jstring :=
  flat_map (λ a, [a] :: flat_map (λ b, [a; b] :: map (λ c, [a; b; c]) all_digits) all_digits) all_digits.

Lemma octet_texts_all s :
  1 ≤ slen s ≤ 3 → Forall (λ c, is_digit c = true) s → s ∈ octet_texts.
Proof.
  unfold slen. intros Hl Hd. rewrite list_elem_of_In. unfold octet_texts. apply in_flat_map.
  destruct s as [|a [|b [|c [|d s]]]]; cbn [length] in Hl; try lia;
    repeat (apply Forall_cons_1 in Hd as [?%is_digit_elem%list_elem_of_In Hd]);
    exists a; (split; [done|]); [by left|right; apply in_flat_map..];
    exists b; (split; [done|]); [by left|right]. by apply (in_map (λ c, [a; b; c])).
Qed.

Lemma octet_texts_agree : Forall (λ s, test_full octet_re s = octet_ok s) octet_texts.
Proof.
  apply Forall_forall. intros s Hs%list_elem_of_In.
  assert (H : forallb (λ s, Bool.eqb (test_full octet_re s) (octet_ok s)) octet_texts = true)
    by (vm_compute; reflexivity).
  rewrite forallb_forall in H. by apply Bool.eqb_prop, H.
Qed.

Lemma rmatch_digit_rng lo hi s : 48 ≤ lo → hi ≤ 57 → rmatch (rng lo hi) s → rmatch digit s.
Proof.
  intros ? ? (c & -> & H)%rmatch_cls. constructor. unfold is_digit. bprop.
  apply andb_true_intro. split; [apply Z.leb_le|apply Z.leb_le]; lia.
Qed.

Lemma octet_re_digits s :
  rmatch octet_re s → 1 ≤ slen s ≤ 3 ∧ Forall (λ c, is_digit c = true) s.
Proof.
  assert (Hd : ∀ x, rmatch digit x → ∃ c, x = [c] ∧ is_digit c = true) by (intros x; apply rmatch_cls).
  unfold octet_re, ropt. rewrite !rmatch_alt, !rmatch_cat.
  intros [(x & y & -> & H1 & H2)|[(x & y & -> & H1 & H2)|(x & y & -> & H1 & H2)]].
  - rewrite rmatch_lit in H1. subst x.
    apply rmatch_digit_rng in H2; [|lia..]. apply Hd in H2 as (c & -> & ?).
    split; [done|]. repeat constructor; done.
  - apply rmatch_cls in H1 as (c1 & -> & H1). apply Z.eqb_eq in H1 as <-.
    apply rmatch_cat in H2 as (u & v & -> & H2 & H3).
    apply rmatch_digit_rng in H2; [|lia..]. apply Hd in H2 as (c & -> & ?).
    apply Hd in H3 as (d & -> & ?). split; [done|]. repeat constructor; done.
  - apply rmatch_cat in H2 as (u & v & -> & H2 & H3). apply Hd in H2 as (c & -> & ?).
    rewrite rmatch_alt, rmatch_eps in H1, H3.
    destruct H1 as [H1| ->]; [apply rmatch_digit_rng in H1; [|lia..]; apply Hd in H1 as (d & -> & ?)|];
    (destruct H3 as [H3| ->]; [apply Hd in H3 as (f & -> & ?)|]);
    (split; [done|repeat constructor; done]).
Qed.

Lemma octet_re_spec s : rmatch octet_re s ↔ octet_ok s.
Proof.
  rewrite <- test_full_spec. split.
  - intros H. pose proof H as H'. apply test_full_spec, octet_re_digits in H' as [Hl Hd].
    pose proof octet_texts_agree as Ha. rewrite Forall_forall in Ha.
    rewrite <- (Ha s); [by rewrite H|by apply octet_texts_all].
  - intros H. apply Is_true_true in H. pose proof H as H'. unfold octet_ok in H'. bprop.
    pose proof octet_texts_agree as Ha. rewrite Forall_forall in Ha.
    rewrite (Ha s); [done|]. apply octet_texts_all; [lia|]. by apply forallb_Forall.
Qed.

Lemma rmatch_dot s : rmatch (chr 46) s ↔ s = ".".
Proof. apply (rmatch_lit "." s). Qed.

Lemma ipv4_dotted s : test_full IPV4_RE s = true ↔ dotted_quad s.
Proof.
  rewrite test_full_spec. unfold IPV4_RE, dotted_quad. cbn [rrep].
  setoid_rewrite <- octet_re_spec. split.
  - intros (p & d & -> & (pa & q & -> & Ha & (pb & r & -> & Hb & (pc & n & -> & Hc & Hn)
      %rmatch_cat)%rmatch_cat)%rmatch_cat & Hd)%rmatch_cat.
    apply rmatch_cat in Ha as (a & ? & -> & Ha & ->%rmatch_dot).
    apply rmatch_cat in Hb as (b & ? & -> & Hb & ->%rmatch_dot).
    apply rmatch_cat in Hc as (c & ? & -> & Hc & ->%rmatch_dot).
    apply rmatch_eps in Hn as ->. exists a, b, c, d. by rewrite app_nil_r, <- !app_assoc.
  - intros (a & b & c & d & -> & Ha & Hb & Hc & Hd).
    assert (Hdot : ∀ x, rmatch octet_re x → rmatch (RCat octet_re (chr 46)) (x ++ ".")).
    { intros x Hx. apply rmatch_cat. exists x, ".". by rewrite rmatch_dot. }
    replace (a ++ "." ++ b ++ "." ++ c ++ "." ++ d)
      with (((a ++ ".") ++ (b ++ ".") ++ (c ++ ".") ++ []) ++ d)
      by (by rewrite app_nil_r, <- !app_assoc).
    repeat (apply rmatch_cat; eexists _, _; splits; [reflexivity|auto|..]); auto.
    constructor.
Qed.

(** A dotted quad has no blank and no character a shell, an URL or an ipset
    command treats specially. *)
Lemma dotted_quad_chars s : dotted_quad s → Forall (λ c, is_digit c = true ∨ c = 46) s.
Proof.
  assert (Ho : ∀ x, octet_ok x → Forall (λ c, is_digit c = true ∨ c = 46) x).
  { intros x Hx. apply Is_true_true in Hx. unfold octet_ok in Hx. bprop.
    eapply Forall_impl; [by apply forallb_Forall|]. auto. }
  intros (a & b & c & d & -> & Ha & Hb & Hc & Hd).
  repeat (apply Forall_app; split); auto; constructor; auto.
Qed.

(** Scan over the events: what is collected, each address once. *)
Lemma collect_from_spec events ips :
  (∀ ip, ip ∈ collect_from ips events ↔
     ip ∈ ips ∨ ∃ ev, ev ∈ events ∧ ev_type ev = Some ("NET_CONNECT" : jstring) ∧
                      ipFromConnectDetail (ev_detail ev) = Some ip) ∧
  (NoDup ips → NoDup (collect_from ips events)).
Proof.
  revert ips. induction events as [|ev events IH]; intros ips; cbn [collect_from].
  { split; [|done]. intros ip. split; [by left|]. intros [?|(ev & Hev & _)]; [done|].
    by apply elem_of_nil in Hev. }
  set (ips' := if bool_decide _ then _ else _).
  assert (Hin : ∀ ip, ip ∈ ips' ↔ ip ∈ ips ∨ (ev_type ev = Some ("NET_CONNECT" : jstring) ∧
                                              ipFromConnectDetail (ev_detail ev) = Some ip)).
  { intros ip. unfold ips'. case_bool_decide as Ht; [|naive_solver].
    destruct (ipFromConnectDetail (ev_detail ev)) as [i|] eqn:Ei; [|naive_solver].
    case_bool_decide; [naive_solver|]. rewrite elem_of_app, list_elem_of_singleton. naive_solver. }
  assert (Hnd : NoDup ips → NoDup ips').
  { intros Hnd. unfold ips'. repeat case_bool_decide; try done.
    destruct (ipFromConnectDetail (ev_detail ev)) as [i|]; [|done].
    case_bool_decide; [done|]. apply NoDup_app. split; [done|]. split; [|apply NoDup_singleton].
    intros x Hx ->%list_elem_of_singleton. done. }
  destruct (IH ips') as [IH1 IH2]. split; [|by auto]. intros ip. rewrite IH1, Hin.
  setoid_rewrite elem_of_cons. naive_solver.
Qed.

Lemma ipFromConnectDetail_quad detail ip : ipFromConnectDetail detail = Some ip → dotted_quad ip.
Proof.
  unfold ipFromConnectDetail. intros H. repeat split_match; try done.
  injection H as <-. by apply ipv4_dotted.
Qed.

(** The addresses offered for banning from an attack tree are pairwise
    distinct dotted quads with octets at most 255, and they are exactly the
    addresses of the NET_CONNECT events whose detail starts with such an address. *)
Theorem tree_candidates_exact events :
  let ips := collectBanIpsFromTree events in
  NoDup ips ∧ Forall dotted_quad ips ∧
  ∀ ip, ip ∈ ips ↔ ∃ ev, ev ∈ (events ?? []) ∧ ev_type ev = Some ("NET_CONNECT" : jstring) ∧
                         ipFromConnectDetail (ev_detail ev) = Some ip.
Proof.
  intros ips. destruct (collect_from_spec (events ?? []) []) as [Hin Hnd].
  assert (He : ∀ ip, ip ∈ ips ↔ ∃ ev, ev ∈ (events ?? []) ∧
    ev_type ev = Some ("NET_CONNECT" : jstring) ∧ ipFromConnectDetail (ev_detail ev) = Some ip).
  { intros ip. unfold ips, collectBanIpsFromTree. rewrite Hin, elem_of_nil. naive_solver. }
  splits; [by apply Hnd; constructor| |done].
  apply Forall_forall. intros ip (ev & _ & _ & H)%He. by eapply ipFromConnectDetail_quad.
Qed.

Example tree_candidates_ex :
  collectBanIpsFromTree (Some
    [{| ev_type := Some ("NET_CONNECT" : jstring); ev_detail := Some ("45.9.1.7:443" : jstring) |};
     {| ev_type := Some ("NET_CONNECT" : jstring); ev_detail := Some ("45.9.1.7:80" : jstring) |};
     {| ev_type := Some ("NET_CONNECT" : jstring); ev_detail := Some ("1.2.3.256:80" : jstring) |};
     {| ev_type := Some ("EXEC" : jstring); ev_detail := Some ("8.8.8.8" : jstring) |}])
  = ["45.9.1.7"].
Proof. vm_compute. reflexivity. Qed.
