(* ===== verification/FetchBanned.v ===== *)
(** The list of banned addresses (dashboard/src/lib/fetchBannedIps.ts): the
    analyzer's API first, then the snapshot files; paging and search.

    Documents are read at their declared TypeScript types; a field of another
    type makes the read fail, as its use does in the code.  [NaN] is the [None]
    of an integer. *)

From S2P Require Import Prelude JsString JsNum Json Http Auth.

Record BanEntry := { be_ip : jstring; be_reason : option jstring; be_ts : option num }.
Definition plain_ban (ip : jstring) : BanEntry := {| be_ip := ip; be_reason := None; be_ts := None |}.

Record BannedIpsFile := {
  bf_ips : option (list jstring);
  bf_total_count : option Z;
  bf_source : option jstring;
}.

Record FetchBannedOpts := {
  countOnly : bool;
  limit : option (option Z);
  offset : option (option Z);
  search : option jstring;
}.

Record BannedIpsResult := {
  br_count : Z;
  br_source : jstring;
  br_bans : list BanEntry;
  br_truncated : option bool;
  br_limit : option Z;
  br_offset : option (option Z);
  br_data_mode : option jstring;
  br_preview : option bool;
}.

(** A result that carries no page. *)
Definition bare_result (n : Z) (src : jstring) (tr : option bool) : BannedIpsResult :=
  {| br_count := n; br_source := src; br_bans := []; br_truncated := tr; br_limit := None;
     br_offset := None; br_data_mode := None; br_preview := None |}.

Definition BAN_FILE_PATHS : list jstring :=
  ["/run/log-guardian/active_bans.json"; "/data/lg/active_bans.json"].

Definition LARGE_BAN_FILE_BYTES : Z := 65536.

(** Comparison with a number that may be [NaN]. *)
Definition gt_nan (a : Z) (b : option Z) : bool :=
  match b with Some b => b <? a | None => false end.

(** ** Metadata by pattern, without parsing the document *)

(** The quoted key, [\s*:\s*], VALUE, leftmost; [value] recognises VALUE at the start of the text. *)
Fixpoint match_key {A} (key : jstring) (value : jstring → option A) (s : jstring) : option A :=
  let here :=
    if starts_with (dq ++ key ++ dq) s then
      match trim_start (drop (length key + 2) s) with
      | 58 :: t => value (trim_start t)
      | _ => None
      end
    else None in
  match here, s with
  | Some v, _ => Some v
  | None, _ :: s' => match_key key value s'
  | None, [] => None
  end.

(** A non-empty quoted text without escapes: units up to the next quote. *)
Definition value_str (s : jstring) : option jstring :=
  match s with
  | 34 :: t => match split1 34 t with
               | v :: _ :: _ => if nonempty v then Some v else None
               | _ => None
               end
  | _ => None
  end.
(** [(\d+)], read by [parseInt] *)
Definition value_int (s : jstring) : option Z :=
  match take_digits s with [] => None | ds => Some (digits_val 0 ds) end.
(** [(true|false)] *)
Definition value_bool (s : jstring) : option bool :=
  if starts_with "true" s then Some true else if starts_with "false" s then Some false else None.

Record Meta := { m_total : option Z; m_truncated : option bool; m_source : jstring }.

Definition parseMeta (raw : jstring) : Meta :=
  {| m_total := match_key "total_count" value_int raw;
     m_truncated := match_key "truncated" value_bool raw;
     m_source := match_key "source" value_str raw ?? "ipset" |}.

(** ** Paging *)

Definition clampLimit (n : option Z) : Z :=
  match n with
  | None => 50
  | Some n => if n <? 1 then 50 else Z.min n 200
  end.

(** [Math.max(0, opts.offset ?? 0)] *)
Definition page_offset (opts : FetchBannedOpts) : option Z :=
  match offset opts with
  | None => Some 0
  | Some None => None
  | Some (Some o) => Some (Z.max 0 o)
  end.
(** [clampLimit(opts.limit ?? 50)] *)
Definition page_limit (opts : FetchBannedOpts) : Z := clampLimit (limit opts ?? Some 50).
(** [l.slice(offset, offset + limit)]; both bounds are 0 when [offset] is [NaN]. *)
Definition page {A} (o : option Z) (n : Z) (l : list A) : list A :=
  match o with Some o => slice o (o + n) l | None => slice 0 0 l end.
(** [total > offset + page.length] *)
Definition more_after {A} (total : Z) (o : option Z) (pg : list A) : bool :=
  gt_nan total (Z.add (Z.of_nat (length pg)) <$> o).

Section bans.
Context `{UnicodeCase}.

(** The trimmed, lower-cased search text; [None] when there is nothing to search. *)
Definition search_text (opts : FetchBannedOpts) : option jstring :=
  truthy_str (to_lower ∘ trim <$> search opts).

Definition sliceBans (ips : list jstring) (o n : Z) : list BanEntry :=
  map plain_ban (slice o (o + n) ips).

Definition filterIpsBySearch (ips : list jstring) (srch : option jstring) : list jstring :=
  match truthy_str (to_lower ∘ trim <$> srch) with
  | None => ips
  | Some q => jfilter (λ ip, includes q (to_lower ip)) ips
  end.

Definition packResult (ips : list jstring) (total : Z) (source : jstring)
    (opts : FetchBannedOpts) : BannedIpsResult :=
  let filtered := filterIpsBySearch ips (search opts) in
  let listTotal := match truthy_str (trim <$> search opts) with
                   | Some _ => Z.of_nat (length filtered)
                   | None => total
                   end in
  if countOnly opts then bare_result listTotal source (Some (0 <? listTotal))
  else
    let off := page_offset opts in
    let lim := page_limit opts in
    let pageIps := page off lim filtered in
    {| br_count := listTotal; br_source := source; br_bans := map plain_ban pageIps;
       br_truncated := Some (more_after listTotal off pageIps);
       br_limit := Some lim; br_offset := Some off;
       br_data_mode := None; br_preview := None |}.

(** ** Sources *)

Definition as_BannedIpsFile (v : json) : option BannedIpsFile :=
  match field_strs "ips" v, field_int "total_count" v, field_str "source" v with
  | Some ips, Some total, Some source =>
      Some {| bf_ips := ips; bf_total_count := total; bf_source := source |}
  | _, _, _ => None
  end.

Definition readBanFile (w : world) (path : jstring) (opts : FetchBannedOpts)
    : option BannedIpsResult :=
  match w_size w path, w_read w path with
  | Some size, Some raw =>
      let meta := parseMeta raw in
      let whole :=
        match JSON_parse raw with
        | None | Some JNull => None
        | Some v => as_BannedIpsFile v
        end in
      let small :=
        match whole with
        | None => None
        | Some data =>
            let ips := bf_ips data ?? [] in
            match ips, bf_total_count data with
            | [], None => None
            | _, _ => Some (packResult ips (bf_total_count data ?? Z.of_nat (length ips))
                              (oor (bf_source data) "ipset") opts)
            end
        end in
      match m_total meta with
      | Some total =>
          if countOnly opts then
            Some (bare_result total (m_source meta)
                    (Some (m_truncated meta ?? gt_nan total (limit opts ?? Some 50))))
          else if LARGE_BAN_FILE_BYTES <? size then
            match whole with
            | None => None
            | Some data => Some (packResult (bf_ips data ?? []) total (m_source meta) opts)
            end
          else small
      | None => small
      end
  | _, _ => None
  end.

(** An entry of the [bans] array of the API. *)
Definition as_BanEntry (v : json) : option BanEntry :=
  match jopt "ip" (Some v), field_str "reason" v with
  | Some (JStr ip), Some reason =>
      Some {| be_ip := ip; be_reason := reason; be_ts := as_num (jopt "ts" (Some v)) |}
  | _, _ => None
  end.

Definition nan_str (n : option Z) : jstring := match n with Some n => dec n | None => "NaN" end.

(** The query string of the API call. *)
Definition bans_query (opts : FetchBannedOpts) : jstring :=
  join "&" ((if countOnly opts then ["count_only=1"] else []) ++
            match limit opts with Some n => ["limit=" ++ nan_str n] | None => [] end ++
            match offset opts with Some n => ["offset=" ++ nan_str n] | None => [] end).

(** The answer of the analyzer's API; [None] falls through to the files. *)
Definition fetch_api (w : world) (e : env) (opts : FetchBannedOpts) : option BannedIpsResult :=
  let apiBase := guardianApiBase e in
  if negb (nonempty apiBase) then None
  else
    let qs := bans_query opts in
    let hs := match truthy_str (trim <$> e "GUARDIAN_API_TOKEN") with
              | Some tok => [("authorization", "Bearer " ++ tok)]
              | None => []
              end in
    match w_fetch w (apiBase ++ "/api/v1/bans" ++ (if nonempty qs then "?" ++ qs else [])) hs with
    | Some (st, Some v) =>
        if negb (res_ok st) then None
        else match v with
        | JNull => None
        | _ =>
            match jopt "bans" (Some v) with
            | Some (JArr l) =>
                match mapM as_BanEntry l, field_str "source" v with
                | Some bans, Some source =>
                    let bans := match search_text opts with
                                | Some q => jfilter (λ b, includes q (to_lower (be_ip b))) bans
                                | None => bans
                                end in
                    let total := Z.of_nat (length bans) in
                    if countOnly opts then
                      Some (bare_result total (oor source "ipset") (Some (0 <? total)))
                    else
                      let off := page_offset opts in
                      let lim := page_limit opts in
                      let pg := page off lim bans in
                      Some {| br_count := total; br_source := oor source "ipset"; br_bans := pg;
                              br_truncated := Some (more_after total off pg);
                              br_limit := Some lim; br_offset := Some off;
                              br_data_mode := None; br_preview := None |}
                | _, _ => None
                end
            | _ =>
                match as_BannedIpsFile v, field_int "count" v with
                | Some data, Some cnt =>
                    let ips := bf_ips data ?? [] in
                    let total := bf_total_count data ?? (cnt ?? Z.of_nat (length ips)) in
                    Some (packResult ips total (oor (bf_source data) "ipset") opts)
                | _, _ => None
                end
            end
        end
    | _ => None
    end.

Definition fetchBannedIps (w : world) (e : env) (opts : FetchBannedOpts) : BannedIpsResult :=
  let dataDir := oor (e "BENCH_DATA_DIR") "/data/lg" in
  let filePaths := (dataDir ++ "/active_bans.json") :: BAN_FILE_PATHS in
  match fetch_api w e opts with
  | Some r => r
  | None => first_some (λ p, readBanFile w p opts) filePaths ?? bare_result 0 "empty" None
  end.
End bans.

(** ** Paging lemmas *)

Lemma clampLimit_range n : 1 ≤ clampLimit n ≤ 200.
Proof. unfold clampLimit. destruct n as [n|]; [|lia]. split_if; bprop; lia. Qed.
Lemma page_limit_range opts : 1 ≤ page_limit opts ≤ 200.
Proof. apply clampLimit_range. Qed.

Lemma page_length {A} o n (l : list A) : 0 ≤ n → Z.of_nat (length (page o n l)) ≤ n.
Proof.
  intros Hn. unfold page. destruct o as [o|].
  - pose proof (slice_length o (o + n) l). lia.
  - pose proof (slice_length 0 0 l). lia.
Qed.
Lemma page_sub {A} o n (l : list A) x : x ∈ page o n l → x ∈ l.
Proof. destruct o; apply slice_sub. Qed.
Lemma page_map {A B} (f : A → B) o n l : page o n (map f l) = map f (page o n l).
Proof. destruct o; unfold page, slice; by rewrite skipn_map, firstn_map. Qed.

(** A client that asks for the page after the last entry it has as long as the
    answer says [truncated]. *)
Fixpoint follow_pages (fuel : nat) (ask : Z → BannedIpsResult) (o : Z) : list BanEntry :=
  match fuel with
  | O => []
  | S k =>
      let r := ask o in
      br_bans r ++
      match br_truncated r with
      | Some true => follow_pages k ask (o + Z.of_nat (length (br_bans r)))
      | _ => []
      end
  end.

Lemma follow_pages_all (l : list BanEntry) (lim : Z) (ask : Z → BannedIpsResult) :
  1 ≤ lim →
  (∀ o, 0 ≤ o → br_bans (ask o) = page (Some o) lim l ∧
     br_truncated (ask o) = Some (more_after (Z.of_nat (length l)) (Some o) (page (Some o) lim l))) →
  ∀ fuel o, 0 ≤ o → (length l < fuel + Z.to_nat o)%nat →
  follow_pages fuel ask o = drop (Z.to_nat o) l.
Proof.
  intros Hlim Hask. induction fuel as [|k IH]; intros o Ho Hf; cbn [follow_pages].
  { rewrite drop_ge; [done|lia]. }
  destruct (Hask o Ho) as [Hb Ht]. rewrite Hb, Ht. unfold more_after, gt_nan. cbn [fmap option_fmap option_map].
  unfold page at 1. unfold slice. replace (o + lim - o) with lim by lia.
  assert (Hl : length (page (Some o) lim l) = Nat.min (Z.to_nat lim) (length l - Z.to_nat o)).
  { unfold page, slice. rewrite length_take, length_drop. lia. }
  destruct (_ <? _) eqn:E; bprop; rewrite Hl in *.
  - rewrite IH by lia. rewrite Z2Nat.inj_add, Nat2Z.id by lia.
    rewrite <- drop_drop. replace (Nat.min _ _) with (Z.to_nat lim) by lia. apply take_drop.
  - rewrite app_nil_r, take_ge; [done|]. rewrite length_drop. lia.
Qed.

Section bans_facts.
Context `{UnicodeCase}.

(** The search filter looks at the trimmed, lower-cased text; it is empty
    exactly when the trimmed text is. *)
Lemma search_text_None opts : search_text opts = None ↔ truthy_str (trim <$> search opts) = None.
Proof.
  unfold search_text. destruct (search opts) as [s|]; cbn; [|done].
  pose proof (to_lower_nil (trim s)) as Hn.
  destruct (to_lower (trim s)), (trim s); cbn; naive_solver.
Qed.
Lemma filter_search_text ips opts :
  filterIpsBySearch ips (search opts) =
  match search_text opts with
  | None => ips
  | Some q => jfilter (λ ip, includes q (to_lower ip)) ips
  end.
Proof. done. Qed.

(** An answer is sound for a query: a bounded page whose entries match. *)
Definition answer_ok (opts : FetchBannedOpts) (r : BannedIpsResult) : Prop :=
  Z.of_nat (length (br_bans r)) ≤ 200 ∧
  (∀ q b, search_text opts = Some q → b ∈ br_bans r → includes q (to_lower (be_ip b)) = true).

Lemma bare_result_ok opts n src tr : answer_ok opts (bare_result n src tr).
Proof. split; [simpl; lia|]. intros q b _ Hb. by apply elem_of_nil in Hb. Qed.

Lemma page_answer_ok opts (l : list BanEntry) r :
  (∀ q b, search_text opts = Some q → b ∈ l → includes q (to_lower (be_ip b)) = true) →
  br_bans r = page (page_offset opts) (page_limit opts) l → answer_ok opts r.
Proof.
  intros Hl Hr. unfold answer_ok. rewrite Hr. pose proof (page_limit_range opts) as Hp. split.
  - etransitivity; [apply page_length|]; lia.
  - intros q b Hq Hb%page_sub. by eapply Hl.
Qed.

Lemma packResult_ok ips total source opts : answer_ok opts (packResult ips total source opts).
Proof.
  unfold packResult. destruct (countOnly opts); [apply bare_result_ok|].
  apply (page_answer_ok opts (map plain_ban (filterIpsBySearch ips (search opts))));
    [|cbn; by rewrite page_map].
  intros q b Hq Hb. rewrite filter_search_text, Hq in Hb.
  apply list_elem_of_fmap in Hb as (ip & -> & Hip). by apply jfilter_elem in Hip as [_ ?].
Qed.
Lemma readBanFile_ok w p opts r : readBanFile w p opts = Some r → answer_ok opts r.
Proof.
  unfold readBanFile. intros Hr.
  repeat (split_match; simplify_eq; try done); auto using bare_result_ok, packResult_ok.
Qed.
Lemma fetch_api_ok w e opts r : fetch_api w e opts = Some r → answer_ok opts r.
Proof.
  unfold fetch_api. intros Hr. cbv zeta in Hr.
  repeat first
    [ progress simplify_eq | done
    | apply bare_result_ok | apply packResult_ok
    | match type of Hr with context [match ?x with _ => _ end] => 
        lazymatch x with search_text _ => fail | _ => destruct x eqn:? end end ].
  all: eapply page_answer_ok; [|reflexivity]; intros q b Hq Hb; rewrite Hq in Hb;
    by apply jfilter_elem in Hb as [_ ?].
Qed.

Lemma fetchBannedIps_ok w e opts : answer_ok opts (fetchBannedIps w e opts).
Proof.
  unfold fetchBannedIps. destruct (fetch_api w e opts) as [r|] eqn:E; [by eapply fetch_api_ok|].
  destruct (first_some _ _) as [r|] eqn:F; cbn [default]; [|apply bare_result_ok].
  apply first_some_Some in F as (l1 & p & l2 & _ & Hp & _). by eapply readBanFile_ok.
Qed.
End bans_facts.

(** The same query at another offset. *)
Definition at_offset (o : Z) (opts : FetchBannedOpts) : FetchBannedOpts :=
  {| countOnly := countOnly opts; limit := limit opts; offset := Some (Some o); search := search opts |}.

Lemma page_offset_at o opts : 0 ≤ o → page_offset (at_offset o opts) = Some o.
Proof. intros. unfold page_offset, at_offset. cbn. f_equal. lia. Qed.

(** Paging loses and repeats nothing: a client that follows the [truncated]
    flag page by page, with any limit and search text, collects exactly the
    addresses that match the search, in the order of the list, and stops. *)
Theorem pages_complete `{UnicodeCase} ips source opts :
  countOnly opts = false →
  follow_pages (S (length ips))
    (λ o, packResult ips (Z.of_nat (length ips)) source (at_offset o opts)) 0
  = map plain_ban (filterIpsBySearch ips (search opts)).
Proof.
  intros Hc. set (fl := filterIpsBySearch ips (search opts)).
  assert (Hlen : (length fl <= length ips)%nat).
  { unfold fl, filterIpsBySearch. destruct (truthy_str _); [apply jfilter_length|done]. }
  rewrite (follow_pages_all (map plain_ban fl) (page_limit opts)); [done| | |lia|].
  - pose proof (page_limit_range opts). lia.
  - intros o Ho. unfold packResult. cbn [countOnly at_offset]. rewrite Hc.
    cbn [br_bans br_truncated]. rewrite page_offset_at by done.
    change (page_limit (at_offset o opts)) with (page_limit opts).
    change (search (at_offset o opts)) with (search opts). fold fl.
    rewrite page_map. split; [done|]. unfold more_after. rewrite !length_map.
    destruct (truthy_str (trim <$> search opts)) eqn:E; [done|].
    apply search_text_None in E. unfold fl. by rewrite filter_search_text, E.
  - rewrite length_map. lia.
Qed.

Lemma pages_complete_witness :
  let opts := {| countOnly := false; limit := Some (Some 2); offset := None;
                 search := Some (" 10.0." : jstring) |} in
  let ips : list jstring := ["10.0.0.1"; "8.8.8.8"; "10.0.0.2"; "10.0.0.3"] in
  follow_pages 5 (λ o, packResult (H := ascii_case) ips 4 "ipset" (at_offset o opts)) 0
  = [plain_ban "10.0.0.1"; plain_ban "10.0.0.2"; plain_ban "10.0.0.3"].
Proof. intros opts ips. exact (pages_complete (H := ascii_case) ips "ipset" opts eq_refl). Defined.
