(* ===== verification/ProofBans.v ===== *)
(** Addresses from the evidence reports, shown while no live ban exists
    (dashboard/src/lib/attackGeoFallback.ts, proofBanFallback.ts), and the choice
    between live and evidence data (bansDisplayMode.ts). *)

From S2P Require Import Prelude JsString JsNum Json Regex Http FetchBanned.

(** ** attackGeoFallback.ts *)

Inductive IpKind := KBan | KIncident.
#[global] Instance IpKind_eq_dec : EqDecision IpKind.
Proof. solve_decision. Defined.

Record FallbackIpMeta := { fm_ip : jstring; fm_reason : jstring; fm_kind : IpKind }.

Definition ip_block_char (c : Z) : bool := is_digit c || (c =? 46).

(** [Number(s)] for a string of digits; the empty string is 0. *)
Definition number_of_digits (s : jstring) : Z := digits_val 0 s.

(** The numbers [n], [n+1], ... ([len] of them). *)
Fixpoint count_from (n : Z) (len : nat) : list Z :=
  match len with O => [] | S k => n :: count_from (n + 1) k end.

Definition expandIpBlock (block : jstring) : list jstring :=
  let t := trim block in
  match split1 45 t with
  | [a; b] =>
      if nonempty a && forallb ip_block_char a && nonempty b && forallb ip_block_char b then
        let start := map number_of_digits (split1 46 a) in
        let endLast := number_of_digits <$> (split1 46 b !! 3%nat) in
        match start, endLast with
        | [s0; s1; s2; startLast], Some endLast =>
            if (endLast <? startLast) || (32 <? endLast - startLast) then [a]
            else map (λ d, join "." (map dec [s0; s1; s2; d]))
                   (count_from startLast (Z.to_nat (endLast - startLast + 1)))
        | _, _ => [a]
        end
      else [t]
  | _ => [t]
  end.

(** [\da-f.:] under the [i] flag *)
Definition detail_char (c : Z) : bool :=
  is_digit c || ((97 <=? ascii_lower c) && (ascii_lower c <=? 102)) || (c =? 46) || (c =? 58).
(** [(?::\d+)?$] *)
Definition port_suffix (s : jstring) : bool :=
  match s with
  | [] => true
  | 58 :: ds => nonempty ds && forallb is_digit ds
  | _ => false
  end.
(** The group takes as many characters as it can: lengths [n], [n-1], ..., 1. *)
Fixpoint greedy_detail (n : nat) (s : jstring) : option jstring :=
  match n with
  | O => None
  | S k =>
      if forallb detail_char (take n s) && port_suffix (drop n s) then Some (take n s)
      else greedy_detail k s
  end.
(** [ipFromConnectDetail] of this file (banUtils.ts has another one). *)
Definition fallbackConnectIp (detail : jstring) : option jstring :=
  let t := trim detail in greedy_detail (length t) t.

(** [/^172\.(1[6-9]|2\d|3[01])\./] *)
Definition PRIVATE_172 : re :=
  RCat (lit "172.") (RCat (ralts [RCat (chr 49) (rng 54 57); RCat (chr 50) digit;
                                  RCat (chr 51) (rng 48 49)]) (chr 46)).

Definition skipIp (ip : jstring) : bool :=
  if negb (nonempty ip) || (ip =s "127.0.0.1") || starts_with "127." ip then true
  else if starts_with "10." ip || starts_with "192.168." ip then true
  else test_prefix PRIVATE_172 ip.

(** The [Map] from address to entry, in insertion order. *)
Definition ipmap := list FallbackIpMeta.

(** A value used as a string: [.trim()] of anything else throws. *)
Definition want_str (v : json) : M ipmap jstring :=
  match v with JStr s => mret' s | _ => throw "trim is not a function" end.

Definition put_new (key reason : jstring) (kind : IpKind) (out : ipmap) : ipmap :=
  if bool_decide (key ∈ map fm_ip out) then out
  else out ++ [{| fm_ip := key; fm_reason := reason; fm_kind := kind |}].

Definition addIp (ip : json) (reason : jstring) (kind : IpKind) : M ipmap unit :=
  let* s := want_str ip in
  let key := trim s in
  if negb (nonempty key) || skipIp key then mret' tt
  else modify (put_new key reason kind).

(** [if (v) addIp(out, v, reason, kind)] *)
Definition addIf (v : option json) (reason : jstring) (kind : IpKind) : M ipmap unit :=
  match v with
  | Some v => if truthy v then addIp v reason kind else mret' tt
  | None => mret' tt
  end.

(** [if (v) for (const ip of expandIpBlock(v)) addIp(out, ip, reason, kind)] *)
Definition addBlock (v : option json) (reason : jstring) (kind : IpKind) : M ipmap unit :=
  match v with
  | Some v =>
      if truthy v then
        let* block := want_str v in
        for_each (λ ip, addIp (JStr ip) reason kind) (expandIpBlock block)
      else mret' tt
  | None => mret' tt
  end.

(** [if (v?.length) for (const ip of v) addIp(out, ip, reason, kind)] *)
Definition addAll (v : option json) (reason : jstring) (kind : IpKind) : M ipmap unit :=
  match nullish v with
  | Some (JArr l) => for_each (λ ip, addIp ip reason kind) l
  | Some (JStr s) => for_each (λ ip, addIp (JStr ip) reason kind) (code_points s)
  | Some (JObj fs) => if otruthy (assoc "length" fs) then throw "object is not iterable" else mret' tt
  | _ => mret' tt
  end.

(** [v.k] inside the handlers: throws on [null]. *)
Definition prop (k : jstring) (v : json) : M ipmap (option json) := lift_res (jget k v).

Definition add_event (ev : json) : M ipmap unit :=
  let* ty := prop "type" ev in
  let* detail := prop "detail" ev in
  if negb (is_lit "NET_CONNECT" ty) || negb (otruthy detail) then mret' tt
  else
    let* d := want_str (detail ?? JNull) in
    match fallbackConnectIp d with
    | Some ip => addIf (Some (JStr ip)) "lineage NET_CONNECT" KIncident
    | None => mret' tt
    end.

(** [for (const x of v ?? [])]: arrays and strings are iterable. *)
Definition iterable (v : option json) : M ipmap (list json) :=
  match nullish v with
  | None => mret' []
  | Some (JArr l) => mret' l
  | Some (JStr s) => mret' (map JStr (code_points s))
  | Some _ => throw "object is not iterable"
  end.

Definition add_tree (tree : json) : M ipmap unit :=
  let* evs := prop "events" tree in
  let* events := iterable evs in
  for_each add_event events.

Section fallback.
Context (w : world).

Definition collect_fallback (dataDir : jstring) : M ipmap unit :=
  let live := readJsonFile w dataDir "live-attack-report.json" in
  addIf (jopt "ip" (jopt "ban_proof" (Some live))) "live-attack ban_proof" KBan ;;;
  let ja3 := readJsonFile w dataDir "ja3-cluster-ban-live.json" in
  addBlock (jopt "ip_block" (Some ja3)) "JA3 cluster block" KBan ;;;
  for_each (λ name : jstring,
      let doc := readJsonFile w dataDir name in
      addIf (jopt "test_ip" (Some doc)) (replace_first ".json" [] name) KBan)
    ["bench-ban-latency.json"; "dashboard-ban-api-report.json"] ;;;
  let treeRaw := readJsonFile w dataDir "attack_tree.json" in
  let* trees := match treeRaw with
                | JArr l => mret' l
                | _ => iterable (jopt "trees" (Some treeRaw))
                end in
  for_each add_tree trees ;;;
  let cp := readJsonFile w dataDir "competitive-proof.json" in
  addIf (jopt "ip" (jopt "ban_proof" (jopt "liveAttack" (Some cp)))) "competitive-proof ban" KBan ;;;
  addBlock (jopt "ip_block" (jopt "ja3ClusterBanLive" (Some cp))) "competitive-proof JA3" KBan ;;;
  addIf (jopt "test_ip" (jopt "banLatency" (Some cp))) "competitive-proof bench" KBan ;;;
  let ja3Report := readJsonFile w dataDir "ja3-cluster-report.json" in
  addAll (jopt "sample_ips" (Some ja3Report))
    ("JA3 " ++ to_str (nullish (jopt "category" (Some ja3Report)) ?? JStr "distributed")) KIncident ;;;
  let proofReplay := readJsonFile w dataDir "proof-replay-webhook-ban.json" in
  addBlock (jopt "ip_block" (Some proofReplay)) "proof-replay WAF ban" KBan ;;;
  let authLog := readJsonFile w dataDir "auth-log-report.json" in
  addAll (jopt "sample_ips" (Some authLog)) "auth.log brute SSH" KIncident.

Definition fetchFallbackAttackIps (dataDir : jstring) : res (list FallbackIpMeta) :=
  match collect_fallback dataDir [] with
  | (Ok _, out) => Ok (take 48 out)
  | (Throw e, _) => Throw e
  end.
End fallback.

(** ** proofBanFallback.ts *)

Section proof_bans.
Context `{UnicodeCase}.

Definition packBanEntries (entries : list BanEntry) (source : jstring) (opts : FetchBannedOpts)
    (data_mode : option jstring) (preview : option bool) : BannedIpsResult :=
  let filtered := match search_text opts with
                  | Some q => jfilter (λ b, includes q (to_lower (be_ip b))) entries
                  | None => entries
                  end in
  let total := Z.of_nat (length filtered) in
  if countOnly opts then
    {| br_count := total; br_source := source; br_bans := []; br_truncated := None;
       br_limit := None; br_offset := None; br_data_mode := data_mode; br_preview := preview |}
  else
    let off := page_offset opts in
    let lim := page_limit opts in
    let pg := page off lim filtered in
    {| br_count := total; br_source := source; br_bans := pg;
       br_truncated := Some (more_after total off pg); br_limit := Some lim;
       br_offset := Some off; br_data_mode := data_mode; br_preview := preview |}.

Definition fetchProofBansResult (w : world) (dataDir : jstring) (opts : FetchBannedOpts)
    : res (option BannedIpsResult) :=
  match fetchFallbackAttackIps w dataDir with
  | Throw e => Throw e
  | Ok all =>
      let entries := map (λ m, {| be_ip := fm_ip m;
          be_reason := Some (if nonempty (fm_reason m) then "proof · " ++ fm_reason m
                             else "proof report");
          be_ts := None |}) (jfilter (λ m, bool_decide (fm_kind m = KBan)) all) in
      match entries with
      | [] => Ok None
      | _ => Ok (Some (packBanEntries entries "proof-reports" opts (Some "preview") (Some true)))
      end
  end.

Definition fetchLiveDemoBansResult (ips : list jstring) (opts : FetchBannedOpts) : BannedIpsResult :=
  packBanEntries
    (map (λ ip, {| be_ip := ip; be_reason := Some "dashboard-live-demo"; be_ts := None |}) ips)
    "live-demo" opts (Some "live") None.
End proof_bans.

(** ** bansDisplayMode.ts *)

Inductive BansDisplayMode :=
  | ModeProof
  | ModeLiveDemo (ips : list jstring) (api : option json)
  | ModeLive.

(** [active.source || "ipset"] and so on: the file [active_bans.json] again. *)
Definition ipsetLiveOverridesDemo (demoIps : list jstring) (active : BannedIpsFile) : bool :=
  let source := oor (bf_source active) "ipset" in
  if negb (source =s "ipset") then false
  else
    let liveIps := bf_ips active ?? [] in
    let total := bf_total_count active ?? Z.of_nat (length liveIps) in
    if total <=? 0 then false
    else if Z.of_nat (length demoIps) <? total then true
    else existsb (λ ip, negb (bool_decide (ip ∈ demoIps))) liveIps.

(** [(v ?? 0) === 0] *)
Definition zero_or_missing (v : option json) : bool :=
  match nullish v with
  | None => true
  | Some (JNum x) => neq_num x nzero
  | Some _ => false
  end.

Definition resolveBansDisplayMode (w : world) (dataDir : jstring) : res BansDisplayMode :=
  let demo := readJsonFile w dataDir "dashboard-live-demo.json" in
  let by_flag :=
    let flag := readJsonFile w dataDir "bans-preview-mode.json" in
    if is_lit "proof" (jopt "mode" (Some flag)) then ModeProof else ModeLive in
  if truthy demo then
    let note := to_str (nullish (jopt "note" (Some demo)) ?? JStr []) in
    let pass := is_true (jopt "pass" (Some demo)) in
    if includes "CLEANUP" note || (negb pass && zero_or_missing (jopt "bans_applied" (Some demo)))
    then Ok ModeProof
    else
      match field_strs "ips" demo with
      | None => Throw "filter is not a function"
      | Some ips =>
          let ips := jfilter (includes ".") (ips ?? []) in
          if pass && (0 <? Z.of_nat (length ips)) then
            let active := readJsonFile w dataDir "active_bans.json" in
            if truthy active then
              match as_BannedIpsFile active with
              | None => Throw "active_bans"
              | Some a =>
                  if ipsetLiveOverridesDemo ips a then Ok ModeLive
                  else Ok (ModeLiveDemo ips (jopt "api" (Some demo)))
              end
            else Ok (ModeLiveDemo ips (jopt "api" (Some demo)))
          else Ok by_flag
      end
  else Ok by_flag.

(** ** Lemmas *)

Lemma count_from_length n len : length (count_from n len) = len.
Proof. revert n. induction len; intros; simpl; auto. Qed.

(** A block expands to at most 33 addresses. *)
Lemma expandIpBlock_length block : (1 <= length (expandIpBlock block) <= 33)%nat.
Proof.
  unfold expandIpBlock. repeat (split_match; simpl; try lia).
  rewrite length_map, count_from_length. bprop. lia.
Qed.

(** What every entry of the collected map satisfies. *)
Definition entry_clean (m : FallbackIpMeta) : Prop :=
  fm_ip m ≠ [] ∧ trim (fm_ip m) = fm_ip m ∧ skipIp (fm_ip m) = false.
Definition ipmap_inv (out : ipmap) : Prop := NoDup (map fm_ip out) ∧ Forall entry_clean out.

Lemma put_new_inv key reason kind out :
  key ≠ [] → trim key = key → skipIp key = false → ipmap_inv out → ipmap_inv (put_new key reason kind out).
Proof.
  intros Hk Ht Hs [Hnd Hall]. unfold put_new. case_bool_decide as Hin; [done|]. split.
  - rewrite map_app. apply NoDup_app. split; [done|]. split; [|apply NoDup_singleton].
    intros x Hx ->%list_elem_of_singleton. by apply Hin.
  - apply Forall_app. split; [done|]. repeat constructor; done.
Qed.

Lemma want_str_keeps v : keeps ipmap_inv (want_str v).
Proof. unfold want_str. keep_steps. Qed.
#[export] Hint Resolve want_str_keeps : lg.

Lemma addIp_keeps ip reason kind : keeps ipmap_inv (addIp ip reason kind).
Proof.
  unfold addIp. apply keeps_bind; [auto with lg|]. intros s.
  destruct (negb _ || _) eqn:E; [apply keeps_ret|]. bprop.
  apply keeps_modify. intros out Ho. apply put_new_inv; auto using trim_idemp.
Qed.
#[export] Hint Resolve addIp_keeps : lg.

Lemma addIf_keeps v reason kind : keeps ipmap_inv (addIf v reason kind).
Proof. unfold addIf. keep_steps. Qed.
Lemma addBlock_keeps v reason kind : keeps ipmap_inv (addBlock v reason kind).
Proof. unfold addBlock. keep_steps. Qed.
Lemma addAll_keeps v reason kind : keeps ipmap_inv (addAll v reason kind).
Proof. unfold addAll. keep_steps. Qed.
#[export] Hint Resolve addIf_keeps addBlock_keeps addAll_keeps : lg.

Lemma add_tree_keeps tree : keeps ipmap_inv (add_tree tree).
Proof. unfold add_tree, add_event, prop, iterable. keep_steps. Qed.
#[export] Hint Resolve add_tree_keeps : lg.

Lemma collect_fallback_keeps w dir : keeps ipmap_inv (collect_fallback w dir).
Proof. unfold collect_fallback, iterable. keep_steps. Qed.

Lemma ipmap_inv_take n out : ipmap_inv out → ipmap_inv (take n out).
Proof.
  intros [Hnd Hall]. split; [|by apply Forall_take].
  rewrite <- firstn_map. eapply sublist_NoDup; [exact Hnd|apply sublist_take].
Qed.

Lemma fallback_inv w dir all :
  fetchFallbackAttackIps w dir = Ok all → ipmap_inv all ∧ (length all <= 48)%nat.
Proof.
  unfold fetchFallbackAttackIps. pose proof (collect_fallback_keeps w dir []) as Hk.
  destruct (collect_fallback w dir []) as [[[]|] out]; [|done]. intros [= <-].
  split; [|rewrite length_take; lia]. apply ipmap_inv_take, Hk. split; constructor.
Qed.

(** Loopback and the RFC 1918 networks, by their first octets. *)
Definition private_prefixes : list jstring :=
  ["127."; "10."; "192.168."; "172.16."; "172.17."; "172.18."; "172.19."; "172.20."; "172.21.";
   "172.22."; "172.23."; "172.24."; "172.25."; "172.26."; "172.27."; "172.28."; "172.29.";
   "172.30."; "172.31."].

Lemma skipIp_private p t : p ∈ private_prefixes → skipIp (p ++ t) = true.
Proof.
  intros Hp.
  unfold skipIp.
  assert (Hr : ∀ x, test_full PRIVATE_172 x = true → test_prefix PRIVATE_172 (x ++ t) = true).
  { intros x Hx%test_full_spec. apply test_prefix_spec. eauto. }
  unfold private_prefixes in Hp.
  repeat (apply elem_of_cons in Hp as [->|Hp];
    [first [ rewrite Hr by (vm_compute; reflexivity); by repeat split_if
           | destruct (_ =s "127.0.0.1"); reflexivity ]|]).
  by apply elem_of_nil in Hp.
Qed.

(** The addresses collected from the evidence reports, whatever the reports
    contain, are at most 48, pairwise distinct, trimmed and not empty, and none
    of them is a loopback or private (RFC 1918) address. *)
Theorem fallback_ips_public w dir all :
  fetchFallbackAttackIps w dir = Ok all →
  (length all <= 48)%nat ∧ NoDup (map fm_ip all) ∧
  ∀ m, m ∈ all → fm_ip m ≠ [] ∧ trim (fm_ip m) = fm_ip m ∧
    ∀ p, p ∈ private_prefixes → starts_with p (fm_ip m) = false.
Proof.
  intros H. apply fallback_inv in H as [[Hnd Hall] Hlen]. splits; [done|done|].
  intros m Hm. rewrite Forall_forall in Hall. destruct (Hall m Hm) as (Hne & Ht & Hs).
  splits; [done|done|]. intros p Hp. destruct (starts_with p (fm_ip m)) eqn:E; [|done].
  apply starts_with_spec in E as [t Et]. by rewrite Et, skipIp_private in Hs.
Qed.

(** A world with the given files. *)
Definition files_world (fs : list (jstring * jstring)) : world :=
  {| w_fetch := λ _ _, None; w_read := λ _, None; w_size := λ _, None;
     w_readIn := λ _ name, assoc name fs |}.

(** An object with one field, as text. *)
Definition one_field (k v : jstring) : jstring := stringify (JObj [(k, JStr v)]).

Lemma fallback_ips_public_witness :
  let w := files_world [("ja3-cluster-ban-live.json", one_field "ip_block" "45.9.1.7-45.9.1.9");
                        ("bench-ban-latency.json", one_field "test_ip" "192.168.1.5")] in
  ∃ all, map fm_ip all = ["45.9.1.7"; "45.9.1.8"; "45.9.1.9"] ∧ NoDup (map fm_ip all).
Proof.
  intros w. destruct (fetchFallbackAttackIps w "/data/lg") as [all|] eqn:E.
  - exists all. split; [|exact (proj1 (proj2 (fallback_ips_public w "/data/lg" all E)))].
    vm_compute in E. injection E as <-. reflexivity.
  - vm_compute in E. discriminate E.
Defined.

(** The greedy group of the connect pattern takes the whole text: the optional
    port suffix is never split off. *)
Lemma greedy_detail_whole t : t ≠ [] → forallb detail_char t = true →
  greedy_detail (length t) t = Some t.
Proof.
  intros Hne Hall. destruct t as [|c t]; [done|]. cbn [length greedy_detail].
  change (S (length t)) with (length (c :: t)). by rewrite firstn_all, skipn_all, Hall.
Qed.

(** The address taken from a NET_CONNECT event with detail [address:port]
    for the evidence list still carries the port: the first group of the pattern
    also matches colons and digits, so the optional port never matches. *)
Theorem fallback_connect_keeps_port ip port :
  ip ≠ [] → forallb detail_char ip = true → forallb is_digit port = true →
  no_space (ip ++ ":" ++ port) →
  fallbackConnectIp (ip ++ ":" ++ port) = Some (ip ++ ":" ++ port).
Proof.
  intros Hne Hip Hport Hsp. unfold fallbackConnectIp. rewrite trim_no_space by done.
  apply greedy_detail_whole; [by destruct ip|].
  rewrite !forallb_app, Hip. cbn [forallb andb]. change (detail_char 58) with true. cbn [andb].
  apply forallb_forall. intros c Hc. rewrite forallb_forall in Hport.
  unfold detail_char. by rewrite (Hport c Hc).
Qed.

Lemma fallback_connect_keeps_port_witness :
  fallbackConnectIp "45.9.1.7:443" = Some ("45.9.1.7:443" : jstring).
Proof.
  apply (fallback_connect_keeps_port "45.9.1.7" "443"); [done|reflexivity|reflexivity|].
  intros c Hc. repeat (apply elem_of_cons in Hc as [->|Hc]; [reflexivity|]). by apply elem_of_nil in Hc.
Defined.

Lemma overrides_false_covers demo active :
  ipsetLiveOverridesDemo demo active = false →
  oor (bf_source active) "ipset" = "ipset" →
  0 < bf_total_count active ?? Z.of_nat (length (bf_ips active ?? [])) →
  ∀ ip, ip ∈ (bf_ips active ?? []) → ip ∈ demo.
Proof.
  unfold ipsetLiveOverridesDemo. intros H Hs Ht ip Hip. rewrite Hs, jeq_refl in H. cbn [negb] in H.
  destruct (_ <=? 0) eqn:E1 in H; bprop; [lia|]. destruct (_ <? _) in H; [done|].
  destruct (decide (ip ∈ demo)) as [|Hn]; [done|]. exfalso.
  assert (Hex : existsb (λ ip, negb (bool_decide (ip ∈ demo))) (bf_ips active ?? []) = true).
  { apply existsb_exists. exists ip. rewrite <- list_elem_of_In. split; [done|].
    by rewrite bool_decide_eq_false_2. }
  congruence.
Qed.

(** Demo data never hides a live ban: when the page shows the rehearsal
    addresses only, every address of the live ipset snapshot is one of them. *)
Theorem demo_hides_no_ban w dir ips api active :
  resolveBansDisplayMode w dir = Ok (ModeLiveDemo ips api) →
  as_BannedIpsFile (readJsonFile w dir "active_bans.json") = Some active →
  oor (bf_source active) "ipset" = "ipset" →
  0 < bf_total_count active ?? Z.of_nat (length (bf_ips active ?? [])) →
  ∀ ip, ip ∈ (bf_ips active ?? []) → ip ∈ ips.
Proof.
  unfold resolveBansDisplayMode. intros H Ha Hs Ht.
  assert (Htr : truthy (readJsonFile w dir "active_bans.json") = true).
  { destruct (readJsonFile w dir "active_bans.json"); try done; cbn in Ha; simplify_eq; cbn in Ht; lia. }
  cbv zeta in H. rewrite Htr, Ha in H.
  repeat match type of H with
  | (if ?b then _ else _) = _ => destruct b eqn:?; try done
  | context [match field_strs ?a ?b with _ => _ end] => destruct (field_strs a b); try done
  | Ok (if ?b then _ else _) = _ => by destruct b
  end; simplify_eq.
  by apply overrides_false_covers.
Qed.

Definition demo_report : jstring :=
  stringify (JObj [("pass", JBool true); ("ips", JArr [JStr "203.0.113.5"; JStr "203.0.113.6"])]).
Definition active_report : jstring :=
  stringify (JObj [("source", JStr "ipset"); ("ips", JArr [JStr "203.0.113.6"])]).

Lemma demo_hides_no_ban_witness :
  let w := files_world [("dashboard-live-demo.json", demo_report);
                        ("active_bans.json", active_report)] in
  ("203.0.113.6" : jstring) ∈ (["203.0.113.5"; "203.0.113.6"] : list jstring).
Proof.
  intros w.
  apply (demo_hides_no_ban w "/data/lg" ["203.0.113.5"; "203.0.113.6"] None
           {| bf_ips := Some ["203.0.113.6"]; bf_total_count := None; bf_source := Some "ipset" |}).
  - vm_compute. reflexivity.
  - vm_compute. reflexivity.
  - reflexivity.
  - reflexivity.
  - by left.
Defined.

(** Every evidence and demo answer is a bounded page that matches the search. *)
Section proof_facts.
Context `{UnicodeCase}.

Lemma packBanEntries_ok entries source opts dm pv :
  answer_ok opts (packBanEntries entries source opts dm pv).
Proof.
  unfold packBanEntries. cbv zeta. destruct (countOnly opts).
  - split; [simpl; lia|]. intros q b _ Hb. by apply elem_of_nil in Hb.
  - eapply page_answer_ok; [|reflexivity]. intros q b Hq Hb. rewrite Hq in Hb.
    by apply jfilter_elem in Hb as [_ ?].
Qed.
Lemma fetchProofBansResult_ok w dir opts r :
  fetchProofBansResult w dir opts = Ok (Some r) → answer_ok opts r.
Proof.
  unfold fetchProofBansResult. intros Hr. repeat (split_match; simplify_eq; try done).
  apply packBanEntries_ok.
Qed.
End proof_facts.
