(* ===== verification/Bans.v ===== *)
(** The bans page: the in-memory cache of answers (dashboard/src/lib/bansCache.ts)
    and the routes app/api/bans/route.ts and app/api/internal/bans-invalidate/route.ts. *)

From S2P Require Import Prelude JsString JsNum Json Http Auth Interleave FetchBanned ProofBans.

(** ** bansCache.ts *)

Definition TTL_MS : Z := 5000.

Record CacheEntry := { ce_ts : Z; ce_data : BannedIpsResult }.
(** The [Map], in insertion order. *)
Definition cache := list (jstring * CacheEntry).

(** [JSON.stringify] of a number that may be [NaN] *)
Definition json_int (n : option Z) : jstring := match n with Some n => dec n | None => "null" end.

Section keys.
Context `{UnicodeCase}.

Definition bansCacheKey (opts : FetchBannedOpts) : jstring :=
  "{" ++ quote "c" ++ ":" ++ (if countOnly opts then "1" else "0") ++ "," ++
  quote "l" ++ ":" ++ json_int (limit opts ?? Some 0) ++ "," ++
  quote "o" ++ ":" ++ json_int (offset opts ?? Some 0) ++ "," ++
  quote "s" ++ ":" ++ quote ((to_lower ∘ trim <$> search opts) ?? []) ++ "}".
End keys.

Definition getCachedBans (now : Z) (key : jstring) (store : cache) : option BannedIpsResult :=
  match assoc key store with
  | None => None
  | Some hit => if TTL_MS <? now - ce_ts hit then None else Some (ce_data hit)
  end.

Definition setCachedBans (now : Z) (key : jstring) (data : BannedIpsResult) (store : cache) : cache :=
  let store := put_field key {| ce_ts := now; ce_data := data |} store in
  if 32 <? Z.of_nat (length store) then
    match sort_by (key_le (λ kv, ce_ts kv.2)) store with
    | oldest :: _ => jfilter (λ kv, negb (kv.1 =s oldest.1)) store
    | [] => store
    end
  else store.

Definition invalidateAllBansCache (_ : cache) : cache := [].

(** ** GET and POST /api/bans *)

Definition ban_json (b : BanEntry) : json :=
  JObject [("ip", Some (JStr (be_ip b))); ("reason", JStr <$> be_reason b); ("ts", JNum <$> be_ts b)].
Definition result_json (r : BannedIpsResult) : json :=
  JObject [("count", Some (jint (br_count r))); ("source", Some (JStr (br_source r)));
           ("bans", Some (JArr (map ban_json (br_bans r))));
           ("truncated", JBool <$> br_truncated r); ("limit", jint <$> br_limit r);
           ("offset", (λ o, match o with Some o => jint o | None => JNull end) <$> br_offset r);
           ("data_mode", JStr <$> br_data_mode r); ("preview", JBool <$> br_preview r)].

(** [{ ...data, data_mode: "live" }] *)
Definition mark_live (r : BannedIpsResult) : BannedIpsResult :=
  {| br_count := br_count r; br_source := br_source r; br_bans := br_bans r;
     br_truncated := br_truncated r; br_limit := br_limit r; br_offset := br_offset r;
     br_data_mode := Some "live"; br_preview := br_preview r |}.

Section routes.
Context `{UnicodeCase}.
Context (e : env).

Definition BENCH_DATA_DIR : jstring := oor (e "BENCH_DATA_DIR") "/data/lg".

(** [sp.get(k) ? parseInt(sp.get(k), 10) : d] *)
Definition int_param (k : jstring) (d : Z) (r : request) : option Z :=
  match truthy_str (query k r) with Some s => parseInt s | None => Some d end.

Definition bans_opts (r : request) : FetchBannedOpts :=
  let cOnly := bool_decide (query "count_only" r = Some ("1" : jstring)) in
  {| countOnly := cOnly;
     limit := if cOnly then None else Some (int_param "limit" 50 r);
     offset := if cOnly then None else Some (int_param "offset" 0 r);
     search := match truthy_str (trim <$> query "search" r) with
               | Some s => Some s
               | None => truthy_str (trim <$> query "q" r)
               end |}.

(** The answer computed on a cache miss. *)
Definition bans_answer (w : world) (opts : FetchBannedOpts) : res BannedIpsResult :=
  match resolveBansDisplayMode w BENCH_DATA_DIR with
  | Throw m => Throw m
  | Ok ModeProof =>
      match fetchProofBansResult w BENCH_DATA_DIR opts with
      | Throw m => Throw m
      | Ok r => Ok (r ?? bare_result 0 "empty" None)
      end
  | Ok (ModeLiveDemo ips _) => Ok (fetchLiveDemoBansResult ips opts)
  | Ok ModeLive =>
      let data := fetchBannedIps w e opts in
      if (br_count data =? 0) && ((br_source data =s "empty") || bool_decide (br_bans data = []))
      then match fetchProofBansResult w BENCH_DATA_DIR opts with
           | Throw m => Throw m
           | Ok r => Ok (r ?? data)
           end
      else Ok (mark_live data)
  end.

(** [now1] is the clock at the cache lookup, [now2] when the answer is stored. *)
Definition bans_GET (w : world) (now1 now2 : Z) (r : request) : M cache response :=
  let opts := bans_opts r in
  let bust := query_has "bust" r || query_has "_t" r in
  let key := bansCacheKey opts in
  let* store := get in
  match (if bust then None else getCachedBans now1 key store) with
  | Some cached => mret' (with_cache "private, max-age=3" (respond 200 (result_json cached)))
  | None =>
      let* out := lift_res (bans_answer w opts) in
      modify (setCachedBans now2 key out) ;;;
      mret' (with_cache (if countOnly opts then "private, max-age=3" else "private, max-age=2")
               (respond 200 (result_json out)))
  end.

Definition bans_POST : M cache response :=
  modify invalidateAllBansCache ;;; mret' (respond 200 (JObj [("ok", JBool true)])).

(** ** POST /api/internal/bans-invalidate *)

Definition cacheBustAuthorized (r : request) : bool :=
  match header "authorization" r with
  | None => false
  | Some auth =>
      if negb (starts_with "Bearer " auth) then false
      else
        let token := trim (str_from 7 auth) in
        if negb (nonempty token) then false
        else timingSafeTokenInList token
               (omap (λ k, truthy_str (e k))
                  ["DASHBOARD_CACHE_BUST_KEY" : jstring; "GUARDIAN_API_TOKEN";
                   "DASHBOARD_FLEET_API_KEY"; "FLEET_API_KEY"])
  end.

Definition invalidate_POST (r : request) : M cache response :=
  if negb (cacheBustAuthorized r) then mret' (error 401 "Unauthorized")
  else modify invalidateAllBansCache ;;;
       mret' (respond 200 (JObj [("ok", JBool true); ("invalidated", JStr "bans")])).

(** ** The routes piece by piece

    The handler looks into the cache, waits for the list, and then stores it: other
    reads and invalidations run in between.  A read notes whether it was served from the
    cache and when, and what it stored: the request, the world its list came from, and
    the clock. *)
Inductive cache_event :=
  | Hit (r : request) (now : Z)
  | Stored (r : request) (w : world) (now : Z)
  | Cleared.
Abbreviation cache_proc := (proc cache cache_event (res response)).

Definition look_up (now : Z) (r : request) : M cache (option BannedIpsResult) :=
  let* store := get in
  mret' (if query_has "bust" r || query_has "_t" r then None
         else getCachedBans now (bansCacheKey (bans_opts r)) store).
Definition bans_GET_p (w : world) (now1 now2 : Z) (r : request) : cache_proc :=
  let** hit := await (look_up now1 r) (λ out, match out with Ok (Some _) => [Hit r now1] | _ => [] end) in
  match hit with
  | Some cached => pret (with_cache "private, max-age=3" (respond 200 (result_json cached)))
  | None =>
      let** out := plift (bans_answer w (bans_opts r)) in
      let** _ := await (modify (setCachedBans now2 (bansCacheKey (bans_opts r)) out)) (λ _, [Stored r w now2]) in
      pret (with_cache (if countOnly (bans_opts r) then "private, max-age=3" else "private, max-age=2")
              (respond 200 (result_json out)))
  end.
Definition bans_POST_p : cache_proc :=
  let** _ := await (modify invalidateAllBansCache) (λ _, [Cleared]) in pret (respond 200 (JObj [("ok", JBool true)])).
Definition invalidate_POST_p (r : request) : cache_proc :=
  if negb (cacheBustAuthorized r) then pret (error 401 "Unauthorized")
  else
    let** _ := await (modify invalidateAllBansCache) (λ _, [Cleared]) in
    pret (respond 200 (JObj [("ok", JBool true); ("invalidated", JStr "bans")])).

Lemma bans_GET_runs w now1 now2 r : runs (bans_GET_p w now1 now2 r) (bans_GET w now1 now2 r).
Proof.
  intros s. unfold bans_GET_p, bans_GET, look_up, await, mbind', get, lift_res, mret', modify. cbn [pbind alone fst snd].
  destruct (if query_has "bust" r || query_has "_t" r then None else getCachedBans now1 (bansCacheKey (bans_opts r)) s); [done|].
  by destruct (bans_answer w (bans_opts r)).
Qed.
Lemma bans_POST_runs : runs bans_POST_p bans_POST.
Proof. done. Qed.
Lemma invalidate_POST_runs r : runs (invalidate_POST_p r) (invalidate_POST r).
Proof. unfold invalidate_POST_p, invalidate_POST. by destruct (negb _). Qed.
End routes.

(** ** The cache stays small and keyed *)

Definition cache_inv (c : cache) : Prop := NoDup (c.*1) ∧ (length c <= 32)%nat.

Lemma jfilter_drop_one {A} (p : A → bool) (l : list A) x :
  x ∈ l → p x = false → (S (length (jfilter p l)) <= length l)%nat.
Proof.
  unfold jfilter. induction l as [|y l IH]; intros Hx Hp; [by apply elem_of_nil in Hx|].
  simpl. apply elem_of_cons in Hx as [->|Hx].
  - rewrite Hp. pose proof (jfilter_length p l). unfold jfilter in *. lia.
  - specialize (IH Hx Hp). destruct (p y); simpl; lia.
Qed.

Lemma setCachedBans_inv now key data c : cache_inv c → cache_inv (setCachedBans now key data c).
Proof.
  intros [Hnd Hlen]. unfold setCachedBans.
  pose proof (put_field_nodup key {| ce_ts := now; ce_data := data |} c Hnd) as Hnd'.
  pose proof (put_field_length key {| ce_ts := now; ce_data := data |} c) as Hlen'.
  set (c' := put_field _ _ _) in *. destruct (32 <? _) eqn:E; bprop; [|split; [done|lia]].
  destruct (sort_by _ c') as [|o t] eqn:Es.
  { apply (f_equal length) in Es. rewrite sort_by_length in Es. simpl in Es. lia. }
  apply sort_by_head_min in Es as [Ho _]. split.
  - eapply sublist_NoDup; [exact Hnd'|]. apply fmap_sublist, jfilter_sublist.
  - pose proof (jfilter_drop_one (λ kv, negb (kv.1 =s o.1)) c' o Ho) as Hd.
    cbv beta in Hd. rewrite jeq_refl in Hd. specialize (Hd eq_refl). lia.
Qed.

Lemma setCachedBans_elem now key data c x :
  x ∈ setCachedBans now key data c → x = (key, {| ce_ts := now; ce_data := data |}) ∨ x ∈ c.
Proof.
  unfold setCachedBans. intros Hx. apply put_field_elem.
  destruct (32 <? _); [|done]. destruct (sort_by _ _); [done|]. by apply jfilter_elem in Hx as [? _].
Qed.

Lemma getCachedBans_Some now key c d :
  getCachedBans now key c = Some d →
  ∃ en, (key, en) ∈ c ∧ ce_data en = d ∧ now - ce_ts en ≤ TTL_MS.
Proof.
  unfold getCachedBans. destruct (assoc key c) as [hit|] eqn:E; [|done].
  split_if; bprop; [done|]. intros [= <-]. exists hit. splits; [by apply assoc_elem|done|lia].
Qed.

(** ** Queries with the same key get the same answer *)

Section same_query.
Context `{UnicodeCase}.

Definition same_query (o1 o2 : FetchBannedOpts) : Prop :=
  countOnly o1 = countOnly o2 ∧ limit o1 = limit o2 ∧ offset o1 = offset o2 ∧
  search_text o1 = search_text o2.

Lemma same_page o1 o2 : same_query o1 o2 → page_offset o1 = page_offset o2 ∧ page_limit o1 = page_limit o2.
Proof. intros (_ & Hl & Ho & _). unfold page_offset, page_limit. by rewrite Hl, Ho. Qed.

Lemma packResult_same ips total src o1 o2 :
  same_query o1 o2 → packResult ips total src o1 = packResult ips total src o2.
Proof.
  intros Hq. destruct (same_page _ _ Hq) as [Ho Hl]. destruct Hq as (Hc & _ & _ & Hs).
  unfold packResult. rewrite !filter_search_text, Hs, Hc, Ho, Hl.
  assert (Ht : ∀ A (x y : A),
    match truthy_str (trim <$> search o1) with Some _ => x | None => y end =
    match truthy_str (trim <$> search o2) with Some _ => x | None => y end).
  { intros A x y. pose proof (search_text_None o1) as H1. pose proof (search_text_None o2) as H2.
    rewrite Hs in H1. destruct (truthy_str (trim <$> search o1)), (truthy_str (trim <$> search o2));
      naive_solver. }
  by rewrite Ht.
Qed.
Lemma packBanEntries_same l src o1 o2 dm pv :
  same_query o1 o2 → packBanEntries l src o1 dm pv = packBanEntries l src o2 dm pv.
Proof.
  intros Hq. destruct (same_page _ _ Hq) as [Ho Hl]. destruct Hq as (Hc & _ & _ & Hs).
  unfold packBanEntries. by rewrite Hs, Hc, Ho, Hl.
Qed.
Lemma readBanFile_same w p o1 o2 : same_query o1 o2 → readBanFile w p o1 = readBanFile w p o2.
Proof.
  intros Hq. pose proof Hq as (Hc & Hl & _ & _). unfold readBanFile. rewrite Hc, Hl.
  repeat (split_match; try done); f_equal; by apply packResult_same.
Qed.
Lemma fetch_api_same w e o1 o2 : same_query o1 o2 → fetch_api w e o1 = fetch_api w e o2.
Proof.
  intros Hq. destruct (same_page _ _ Hq) as [Hpo Hpl]. pose proof Hq as (Hc & Hl & Ho & Hs).
  unfold fetch_api, bans_query. rewrite Hc, Hl, Ho, Hs, Hpo, Hpl.
  repeat (split_match; try done); f_equal; by apply packResult_same.
Qed.
Lemma fetchProofBansResult_same w dir o1 o2 :
  same_query o1 o2 → fetchProofBansResult w dir o1 = fetchProofBansResult w dir o2.
Proof.
  intros Hq. unfold fetchProofBansResult. destruct (fetchFallbackAttackIps w dir); [|done].
  cbv zeta. split_match; [done|]. do 2 f_equal. by apply packBanEntries_same.
Qed.
Lemma bans_answer_same e w o1 o2 : same_query o1 o2 → bans_answer e w o1 = bans_answer e w o2.
Proof.
  intros Hq. unfold bans_answer, fetchBannedIps, fetchLiveDemoBansResult.
  rewrite (fetch_api_same w e o1 o2), (fetchProofBansResult_same w _ o1 o2) by done.
  rewrite (first_some_ext (λ p, readBanFile w p o1) (λ p, readBanFile w p o2))
    by (intros; by apply readBanFile_same).
  destruct (resolveBansDisplayMode _ _) as [[| |]|]; try done. f_equal. by apply packBanEntries_same.
Qed.

Definition request_wf (r : request) : Prop := ∀ k v, query k r = Some v → Forall unit_ok v.

Lemma trim_units s : Forall unit_ok s → Forall unit_ok (trim s).
Proof. rewrite !Forall_forall. intros Hs c Hc%trim_sub. auto. Qed.

Lemma bans_opts_search r s : request_wf r → search (bans_opts r) = Some s → Forall unit_ok s.
Proof.
  intros Hwf. unfold bans_opts. cbn [search].
  assert (Hk : ∀ k t, truthy_str (trim <$> query k r) = Some t → Forall unit_ok t).
  { intros k t Ht. apply truthy_str_Some in Ht as [Ht _]. destruct (query k r) as [v|] eqn:E; [|done].
    cbn in Ht. injection Ht as <-. eapply trim_units, Hwf, E. }
  split_match; intros; simplify_eq; eauto.
Qed.

Lemma json_int_no_comma n : 44 ∉ json_int n.
Proof.
  destruct n as [n|]; cbn [json_int].
  - intros [Hd|?]%dec_chars; done.
  - intros Hc. repeat (apply elem_of_cons in Hc as [?|Hc]; [done|]). by apply elem_of_nil in Hc.
Qed.
Lemma json_int_inj m n : json_int m = json_int n → m = n.
Proof.
  assert (Hn : ∀ n, "null" ≠ dec n).
  { intros z Hz. assert (Hc : 110 ∈ dec z) by (rewrite <- Hz; by left).
    by apply dec_chars in Hc as [?|?]. }
  destruct m as [m|], n as [n|]; cbn [json_int]; intros E; [|by destruct (Hn m)|by destruct (Hn n)|done].
  by apply dec_inj_Z in E as ->.
Qed.

Lemma bansCacheKey_inj o1 o2 :
  Forall unit_ok ((to_lower ∘ trim <$> search o1) ?? []) →
  Forall unit_ok ((to_lower ∘ trim <$> search o2) ?? []) →
  bansCacheKey o1 = bansCacheKey o2 →
  countOnly o1 = countOnly o2 ∧ (limit o1 ?? Some 0) = (limit o2 ?? Some 0) ∧
  (offset o1 ?? Some 0) = (offset o2 ?? Some 0) ∧
  (to_lower ∘ trim <$> search o1) ?? [] = (to_lower ∘ trim <$> search o2) ?? [].
Proof.
  intros H1 H2 E. unfold bansCacheKey in E.
  repeat (apply app_inv_head in E).
  assert (Hc : countOnly o1 = countOnly o2) by (by destruct (countOnly o1), (countOnly o2)).
  rewrite Hc in E. repeat (apply app_inv_head in E).
  apply sep_inj in E as [El E]; [|apply json_int_no_comma..]. repeat (apply app_inv_head in E).
  apply sep_inj in E as [Eo E]; [|apply json_int_no_comma..]. repeat (apply app_inv_head in E).
  apply quote_inj in E as [Es _]; [|done..].
  apply json_int_inj in El, Eo. done.
Qed.

(** The cache never serves the answer of another query: requests whose
    options have the same cache key get the same answer from every state of
    the analyzer, the files and the environment. *)
Theorem cache_key_sound e w r1 r2 :
  request_wf r1 → request_wf r2 →
  bansCacheKey (bans_opts r1) = bansCacheKey (bans_opts r2) →
  bans_answer e w (bans_opts r1) = bans_answer e w (bans_opts r2).
Proof.
  intros W1 W2 E. apply bans_answer_same.
  assert (Hu : ∀ r, request_wf r → Forall unit_ok ((to_lower ∘ trim <$> search (bans_opts r)) ?? [])).
  { intros r Hr. destruct (search (bans_opts r)) as [s|] eqn:Es; cbn; [|constructor].
    apply to_lower_units, trim_units. by eapply bans_opts_search. }
  destruct (bansCacheKey_inj _ _ (Hu r1 W1) (Hu r2 W2) E) as (Hc & Hl & Ho & Hs).
  unfold same_query. splits; [done| | |unfold search_text].
  - revert Hc Hl. unfold bans_opts. cbn [limit countOnly]. intros ->. destruct (bool_decide _); cbn; congruence.
  - revert Hc Ho. unfold bans_opts. cbn [offset countOnly]. intros ->. destruct (bool_decide _); cbn; congruence.
  - destruct (search (bans_opts r1)), (search (bans_opts r2)); cbn in *; rewrite ?Hs; auto. by rewrite <- Hs.
Qed.
End same_query.

Lemma cache_key_sound_witness :
  let r1 := mk_request "/api/bans" [] [] [("search", " 10.0 "); ("limit", "20")] None in
  let r2 := mk_request "/api/bans" [] [] [("q", "10.0"); ("limit", "020")] None in
  let e := env_of [] in
  bans_answer (H := ascii_case) e no_world (bans_opts r1) = bans_answer (H := ascii_case) e no_world (bans_opts r2).
Proof.
  intros r1 r2 e. apply (cache_key_sound (H := ascii_case) e no_world r1 r2).
  - intros k v Hv. apply assoc_elem in Hv. repeat (apply elem_of_cons in Hv as [[= -> ->]|Hv];
      [repeat constructor; lia|]). by apply elem_of_nil in Hv.
  - intros k v Hv. apply assoc_elem in Hv. repeat (apply elem_of_cons in Hv as [[= -> ->]|Hv];
      [repeat constructor; lia|]). by apply elem_of_nil in Hv.
  - vm_compute. reflexivity.
Defined.

(** ** Overlapping reads and invalidations *)

Section staleness.
Context `{UnicodeCase} (e : env).
Abbreviation cache_log := (list (nat * entry cache_event (res response))).

(** Reads in any world and at any clock, and the two routes that clear the cache; a ban
    through the ban or fleet routes clears it by the same call. *)
Inductive cache_starts : proc cache cache_event (res response) → Prop :=
  | start_read w now1 now2 r : request_wf r → cache_starts (bans_GET_p e w now1 now2 r)
  | start_clear : cache_starts bans_POST_p
  | start_invalidate r : cache_starts (invalidate_POST_p e r).

(** After an entry of the log nothing cleared the cache. *)
Definition kept_since (x : nat * entry cache_event (res response)) (l : cache_log) : Prop :=
  ∃ l1 l2, l = l1 ++ x :: l2 ∧ ∀ q, (q, Did Cleared) ∉ l2.
(** The entry was stored by a read after the last clear. *)
Definition backed (l : cache_log) (k : jstring) (en : CacheEntry) : Prop :=
  ∃ q r w, kept_since (q, Did (Stored r w (ce_ts en))) l ∧ request_wf r ∧
    bansCacheKey (bans_opts r) = k ∧ bans_answer e w (bans_opts r) = Ok (ce_data en).
(** What an answer of request [p] may be. *)
Definition own_list (p : nat) (resp : response) (l : cache_log) : Prop :=
  ∃ r w now d, (p, Did (Stored r w now)) ∈ l ∧ bans_answer e w (bans_opts r) = Ok d ∧ rs_body resp = BJson (result_json d).
Definition cached_list (p : nat) (resp : response) (l : cache_log) : Prop :=
  ∃ r now q r' w now' d l1 l2 l3,
    l = l1 ++ (q, Did (Stored r' w now')) :: l2 ++ (p, Did (Hit r now)) :: l3 ∧ (∀ q', (q', Did Cleared) ∉ l2) ∧
    now - now' ≤ TTL_MS ∧ bans_answer e w (bans_opts r) = Ok d ∧ rs_body resp = BJson (result_json d).
(** The answers of the routes that clear the cache. *)
Definition clearing_answer (resp : response) : Prop :=
  resp ∈ [respond 200 (JObj [("ok", JBool true)]); respond 200 (JObj [("ok", JBool true); ("invalidated", JStr "bans")]);
          error 401 "Unauthorized"].
Definition answer_fits (p : nat) (out : res response) (l : cache_log) : Prop :=
  ∀ resp, out = Ok resp → own_list p resp l ∨ cached_list p resp l ∨ clearing_answer resp.

Definition cache_ok (m : moment cache cache_event (res response)) : Prop :=
  cache_inv (shared m) ∧ (∀ k en, (k, en) ∈ shared m → backed (log m) k en) ∧
  ∀ p out, (p, Answered out) ∈ log m → answer_fits p out (log m).

Lemma kept_later x y l : (∀ q, y ≠ (q, Did Cleared)) → kept_since x l → kept_since x (l ++ [y]).
Proof.
  intros Hy (l1 & l2 & -> & Hn). exists l1, (l2 ++ [y]). rewrite <- app_assoc. split; [done|].
  intros q [Hq|Hq%list_elem_of_singleton]%elem_of_app; [by eapply Hn|by eapply Hy].
Qed.
Lemma backed_later l k en y : (∀ q, y ≠ (q, Did Cleared)) → backed l k en → backed (l ++ [y]) k en.
Proof. intros Hy (q & r & w & Hk & H1). exists q, r, w. split; [by apply kept_later|done]. Qed.
Lemma fits_later p out l l' : answer_fits p out l → answer_fits p out (l ++ l').
Proof.
  intros Hf resp E. destruct (Hf resp E) as [(r & w & now & d & H1 & H2)|[Hc|Hn]]; [left|right; left|by right; right].
  - exists r, w, now, d. split; [apply elem_of_app; by left|done].
  - destruct Hc as (r & now & q & r' & w & now' & d & l1 & l2 & l3 & -> & H1). exists r, now, q, r', w, now', d, l1, l2, (l3 ++ l').
    split; [|done]. rewrite <- !app_assoc. cbn. by rewrite <- app_assoc.
Qed.
(** An entry that is no answer keeps the answers right. *)
Lemma fits_snoc (l : cache_log) t ev :
  (∀ p out, (p, Answered out) ∈ l → answer_fits p out l) →
  ∀ p out, (p, Answered out) ∈ l ++ [(t, Did ev)] → answer_fits p out (l ++ [(t, Did ev)]).
Proof. intros Hl p out [Hp|Hp%list_elem_of_singleton]%elem_of_app; [|done]. by apply fits_later, Hl. Qed.

Definition always (s s' : cache) : Prop := True.
#[local] Instance always_preorder : PreOrder always. Proof. by split. Qed.

Lemma fits_closes t out (m : moment cache cache_event (res response)) : answer_fits t out (log m) → closes always cache_ok t out m.
Proof.
  intros Hf m' [_ (ext & El & _)] (Hi & Hb & Ha). unfold cache_ok, answer. cbn. splits; [done| |].
  - intros k en Hin. apply backed_later; [done|by apply Hb].
  - intros p out' [Hp|Hp%list_elem_of_singleton]%elem_of_app; apply fits_later; [by apply Ha|].
    injection Hp as -> ->. rewrite El. by apply fits_later.
Qed.
Lemma other_closes t resp (m : moment cache cache_event (res response)) : clearing_answer resp → closes always cache_ok t (Ok resp) m.
Proof. intros Hn. apply fits_closes. intros r [= <-]. by right; right. Qed.

Lemma clear_ok t (m : moment cache cache_event (res response)) : cache_ok m → cache_ok (Moment [] (log m ++ [(t, Did Cleared)])).
Proof.
  intros (_ & _ & Ha). unfold cache_ok. cbn. splits; [split; [constructor|simpl; lia]| |].
  - intros k en Hk. by apply elem_of_nil in Hk.
  - by apply fits_snoc.
Qed.
Lemma clear_safe t m resp : clearing_answer resp →
  safe always cache_ok t m (let** _ := await (modify invalidateAllBansCache) (λ _, [Cleared]) in pret resp).
Proof.
  intros Hn. unfold safe. apply wp_bind. cbn. intros m1 _ Hi. unfold fire. cbn [map].
  splits; [by apply clear_ok|done|by apply other_closes].
Qed.

(** A hit serves what another read stored. *)
Lemma hit_fits t m r now d resp : cache_ok m → request_wf r →
  getCachedBans now (bansCacheKey (bans_opts r)) (shared m) = Some d → rs_body resp = BJson (result_json d) →
  answer_fits t (Ok resp) (log m ++ [(t, Did (Hit r now))]).
Proof.
  intros (_ & Hb & _) Wr Hg Hbody resp' [= <-]. right; left. apply getCachedBans_Some in Hg as (en & Hin & <- & Hts).
  destruct (Hb _ _ Hin) as (q & r' & w & (l1 & l2 & El & Hn) & Wr' & Hk & Ha).
  exists r, now, q, r', w, (ce_ts en), (ce_data en), l1, l2, []. splits; [|done|done| |done].
  - rewrite El, <- app_assoc. done.
  - rewrite <- Ha. symmetry. by apply cache_key_sound.
Qed.
Lemma store_ok t m r w now d : cache_ok m → request_wf r → bans_answer e w (bans_opts r) = Ok d →
  cache_ok (Moment (setCachedBans now (bansCacheKey (bans_opts r)) d (shared m)) (log m ++ [(t, Did (Stored r w now))])).
Proof.
  intros (Hi & Hb & Ha) Wr Hd. unfold cache_ok. cbn. splits; [by apply setCachedBans_inv| |by apply fits_snoc].
  intros k en [[= -> ->]|Hin]%setCachedBans_elem; [|by apply backed_later, Hb].
  exists t, r, w. splits; [|done|done|done]. exists (log m), []. split; [done|]. intros q Hq. by apply elem_of_nil in Hq.
Qed.

Lemma read_safe t m w now1 now2 r : request_wf r → safe always cache_ok t m (bans_GET_p e w now1 now2 r).
Proof.
  intros Wr. unfold safe, bans_GET_p. apply wp_bind, wp_await. intros m1 _ Hi1.
  unfold look_up, mbind', get, mret'. cbn [fst snd shared log].
  destruct (if query_has "bust" r || query_has "_t" r then None
            else getCachedBans now1 (bansCacheKey (bans_opts r)) (shared m1)) as [d|] eqn:E; cbn [map].
  - assert (Hg : getCachedBans now1 (bansCacheKey (bans_opts r)) (shared m1) = Some d) by (by destruct (_ || _)).
    splits; [|done|apply fits_closes; by eapply hit_fits].
    destruct Hi1 as (Hi & Hb & Ha). unfold cache_ok. cbn. splits; [done| |by apply fits_snoc].
    intros k en Hin. by apply backed_later, Hb.
  - rewrite app_nil_r. splits; [by destruct m1|done|].
    destruct (bans_answer e w (bans_opts r)) as [d|msg] eqn:Ed; cbn [plift pbind wp]; [|by apply fits_closes].
    apply wp_bind, wp_await. intros m2 _ Hi2. cbn [modify fst snd shared log map].
    splits; [by apply store_ok|done|]. apply fits_closes.
    intros resp [= <-]. left. exists r, w, now2, d. splits; [|done|done]. cbn [log]. apply elem_of_app. right. by left.
Qed.

Lemma cache_reach_ok c : pool_reach cache_starts [] c → cache_ok (at_moment c).
Proof.
  intros Hr. apply (pool_invariant cache_starts always cache_ok [] c); [| |done].
  - unfold cache_ok. cbn. splits; [split; [constructor|simpl; lia]| |].
    + intros k en Hk. by apply elem_of_nil in Hk.
    + intros p out Hp. by apply elem_of_nil in Hp.
  - intros t m p Hst Hi _. destruct Hst as [w now1 now2 r Wr| |r]; [by apply read_safe|apply clear_safe; set_solver|].
    unfold invalidate_POST_p. destruct (negb _); [apply other_closes|apply clear_safe]; set_solver.
Qed.

(** C10. Bounded staleness of the bans page.  Reads and invalidations of the cache run in
    any order and overlap in any way.  The answer of a read is what its own query yields
    in the world that very read saw, or it was served from the cache, and then it is what
    its query yields in the world of a read that stored its list at most TTL_MS (five
    seconds) before, with no invalidation between the storing and the serving.  Any
    other answer is one of the three fixed ones of the routes that clear.  The cache
    never holds more than 32 entries. *)
Theorem bans_staleness c :
  pool_reach cache_starts [] c →
  (length (shared (at_moment c)) <= 32)%nat ∧
  ∀ p resp, (p, Answered (Ok resp)) ∈ log (at_moment c) →
    own_list p resp (log (at_moment c)) ∨ cached_list p resp (log (at_moment c)) ∨ clearing_answer resp.
Proof.
  intros Hr. destruct (cache_reach_ok c Hr) as ([_ Hl] & _ & Ha). split; [done|]. intros p resp Hp. by apply (Ha p _ Hp).
Qed.
End staleness.

Module BansDemo.
Definition r : request := mk_request "/api/bans" [] [] [("limit", "20")] None.
Definition read (w : world) (t1 t2 : Z) : proc cache cache_event (res response) := bans_GET_p (H := ascii_case) (env_of []) w t1 t2 r.
Abbreviation turns := (list (turn cache cache_event (res response))).
(** A read waits for its list while the cache is cleared, and stores the list after. *)
Definition lost_clear (w : world) : turns :=
  [Start (read no_world 0 20); Turn 0; Start bans_POST_p; Turn 1; Turn 1; Turn 0; Turn 0;
   Start (read w 5000 5010); Turn 0; Turn 0].
Definition from (l : turns) : pool cache cache_event (res response) :=
  default (Pool (Moment [] []) [] 0) (play_turns l (Pool (Moment [] []) [] 0)).
Lemma r_wf : request_wf r.
Proof.
  intros k v Hv. apply assoc_elem in Hv. repeat (apply elem_of_cons in Hv as [[= -> ->]|Hv];
    [repeat constructor; lia|]). by apply elem_of_nil in Hv.
Qed.
Lemma lost_clear_reached w : pool_reach (cache_starts (H := ascii_case) (env_of [])) [] (from (lost_clear w)).
Proof.
  apply (play_turns_reach _ (lost_clear w)).
  - repeat constructor; apply r_wf.
  - vm_compute. reflexivity.
Qed.
End BansDemo.

(** An invalidation can be lost: when it comes while a read waits for its list, the list
    from before is stored after it, and is served for five seconds more, whatever the
    analyzer's list is by then. *)
Lemma bans_clear_lost w :
  ∃ d resp resp', bans_answer (H := ascii_case) (env_of []) no_world (bans_opts BansDemo.r) = Ok d ∧
    rs_body resp = BJson (result_json d) ∧ rs_body resp' = BJson (result_json d) ∧
    log (at_moment (BansDemo.from (BansDemo.lost_clear w))) =
      [(1%nat, Did Cleared); (1%nat, Answered (Ok (respond 200 (JObj [("ok", JBool true)]))));
       (0%nat, Did (Stored BansDemo.r no_world 20)); (0%nat, Answered (Ok resp));
       (2%nat, Did (Hit BansDemo.r 5000)); (2%nat, Answered (Ok resp'))].
Proof. eexists _, _, _. splits; [| | |vm_compute; reflexivity]; [vm_compute; reflexivity..]. Qed.

Lemma bans_staleness_witness :
  (length (shared (at_moment (BansDemo.from (BansDemo.lost_clear no_world)))) <= 32)%nat.
Proof.
  exact (proj1 (bans_staleness (H := ascii_case) (env_of []) _ (BansDemo.lost_clear_reached no_world))).
Defined.
