(* ===== verification/BanExec.v ===== *)
(** Banning an address from the dashboard: the analyzer's mutation API with the
    command line as fallback (dashboard/src/lib/guardianBanExec.ts) and the route
    app/api/guardian/ban/route.ts.  Calls that leave the process are recorded, so
    that the theorems can say which calls a request causes. *)

From S2P Require Import Prelude JsString JsNum Json Regex Http Auth BanUtils FetchBanned Bans.

(** ** [encodeURIComponent] *)

Definition uri_plain (c : Z) : bool :=
  is_digit c || ((65 <=? c) && (c <=? 90)) || ((97 <=? c) && (c <=? 122)) ||
  existsb (Z.eqb c) [45; 95; 46; 33; 126; 42; 39; 40; 41].
Definition hex_upper (n : Z) : Z := if n <? 10 then 48 + n else 55 + n.
Definition pct (b : Z) : jstring := [37; hex_upper (b / 16); hex_upper (b mod 16)].

(** A lone surrogate throws: [None]. *)
Fixpoint encodeURIComponent (s : jstring) : option jstring :=
  match s with
  | [] => Some []
  | c :: s' =>
      if uri_plain c then app [c] <$> encodeURIComponent s'
      else if is_high c then
        match s' with
        | d :: s'' => if is_low d then app (flat_map pct (utf8 [c; d])) <$> encodeURIComponent s'' else None
        | [] => None
        end
      else if is_low c then None
      else app (flat_map pct (utf8 [c])) <$> encodeURIComponent s'
  end.

Lemma encode_plain s : forallb uri_plain s = true → encodeURIComponent s = Some s.
Proof.
  induction s as [|c s IH]; [done|]. cbn [forallb encodeURIComponent]. intros H. bprop.
  rewrite H, IH by done. done.
Qed.
Lemma encode_quad ip : dotted_quad ip → encodeURIComponent ip = Some ip.
Proof.
  intros H%dotted_quad_chars. apply encode_plain, forallb_Forall. eapply Forall_impl; [exact H|].
  intros c [Hc| ->]; unfold uri_plain; [by rewrite Hc|done].
Qed.

(** ** guardianBanExec.ts *)

Inductive BanAction := Ban | Unban.
Definition action_str (a : BanAction) : jstring := match a with Ban => "ban" | Unban => "unban" end.

Record GuardianBanResult := {
  gb_ok : bool;
  gb_via : jstring;
  gb_ip : jstring;
  gb_action : BanAction;
  gb_message : json;
  gb_detail : option json;
}.

(** What leaves the process. *)
Inductive ban_call :=
  | CallPost (url : jstring) (hs : headers)
  | CallExec (bin : jstring) (args : list jstring).

Section exec.
Context (e : env).
(** The analyzer's answer to a POST: status and body, or the error thrown. *)
Context (post : jstring → headers → res (Z * option json)).
(** Output of the command line tool, or the error thrown. *)
Context (execFile : jstring → list jstring → res (jstring * jstring)).

Definition call (c : ban_call) : M (list ban_call) unit := modify (λ l, l ++ [c]).

Definition api_ban (apiBase apiToken ip reason : jstring) (action : BanAction)
    : M (list ban_call) GuardianBanResult :=
  let path : jstring := match action with Unban => "/api/v1/unban" | Ban => "/api/v1/ban" end in
  let* eip := ofo "URI malformed" (encodeURIComponent ip) in
  let* ereason := ofo "URI malformed" (encodeURIComponent reason) in
  let url := apiBase ++ path ++ "?ip=" ++ eip ++ "&reason=" ++ ereason in
  let hs := [("authorization" : jstring, "Bearer " ++ apiToken)] in
  call (CallPost url hs) ;;;
  let* r := lift_res (post url hs) in
  let body := r.2 ?? JObj [] in
  let* success := lift_res (jget "success" body) in
  let failed := match success with Some (JBool false) => true | _ => false end in
  if res_ok r.1 && negb failed then
    mret' {| gb_ok := true; gb_via := "analyzer_api"; gb_ip := ip; gb_action := action;
             gb_message := JStr (match action with
                                 | Unban => ip ++ " engeli kaldırıldı (kernel)"
                                 | Ban => ip ++ " kernel seviyesinde engellendi"
                                 end);
             gb_detail := jopt "path" (Some body) |}
  else
    let err := jopt "error" (Some body) in
    mret' {| gb_ok := false; gb_via := "analyzer_api"; gb_ip := ip; gb_action := action;
             gb_message := if otruthy err then err ?? JNull
                           else JStr ("Analyzer API HTTP " ++ dec r.1);
             gb_detail := None |}.

Definition cli_ban (ip reason : jstring) (action : BanAction) : M (list ban_call) GuardianBanResult :=
  let bin := oor (e "GUARDIAN_BIN") "log-guardian" in
  let rules := oor (e "GUARDIAN_RULES") "/etc/log-guardian/rules.conf" in
  let args := match action with
              | Unban => ["unban" : jstring; ip; "--rules"; rules]
              | Ban => ["ban" : jstring; ip; "--reason"; reason; "--rules"; rules]
              end in
  catch
    (call (CallExec bin args) ;;;
     let* o := lift_res (execFile bin args) in
     let out := trim (sor o.1 o.2) in
     let ok := test_any (lit_i "[OK]") out || negb (nonempty out) in
     mret' {| gb_ok := ok; gb_via := "cli"; gb_ip := ip; gb_action := action;
              gb_message := JStr (if ok then match action with
                                             | Unban => ip ++ " unban (CLI)"
                                             | Ban => ip ++ " ban (CLI)"
                                             end
                                  else sor out "CLI ban başarısız");
              gb_detail := Some (JStr out) |})
    (λ msg, mret' {| gb_ok := false; gb_via := "cli"; gb_ip := ip; gb_action := action;
                     gb_message := JStr msg; gb_detail := None |}).

Definition executeGuardianBan (ip0 : jstring) (action : BanAction) (reason : jstring)
    : M (list ban_call) GuardianBanResult :=
  let ip := trim ip0 in
  let refuse (via msg : jstring) : M (list ban_call) GuardianBanResult :=
    mret' {| gb_ok := false; gb_via := via; gb_ip := ip; gb_action := action;
             gb_message := JStr msg; gb_detail := None |} in
  if negb (test_full IPV4_RE ip) then refuse "queued_only" "Geçersiz IPv4"
  else
    let apiBase := guardianApiBase e in
    if nonempty apiBase then
      match guardianApiMutationToken e with
      | None => refuse "analyzer_api"
                  "GUARDIAN_API_MUTATION_TOKEN eksik — bash scripts/sync_dashboard_api_token.sh"
      | Some apiToken =>
          catch (api_ban apiBase apiToken ip reason action)
            (λ msg, if nonempty (e "GUARDIAN_BIN" ?? [])
                    then cli_ban ip reason action
                    else refuse "analyzer_api" ("Analyzer API erişilemedi: " ++ msg))
      end
    else cli_ban ip reason action.

(** ** POST /api/guardian/ban *)

Record ban_state := { bs_calls : list ban_call; bs_cache : cache }.

Definition on_calls {A} (m : M (list ban_call) A) : M ban_state A := λ s,
  let '(r, l) := m (bs_calls s) in (r, {| bs_calls := l; bs_cache := bs_cache s |}).
Definition on_cache (f : cache → cache) : M ban_state unit :=
  modify (λ s, {| bs_calls := bs_calls s; bs_cache := f (bs_cache s) |}).

(** [...result] after the given fields; [success] and [error] are not fields of it. *)
Definition gb_json (pre : list (jstring * json)) (r : GuardianBanResult) : json :=
  JObj (pre ++ [("ok", JBool (gb_ok r)); ("via", JStr (gb_via r)); ("ip", JStr (gb_ip r));
                ("action", JStr (action_str (gb_action r))); ("message", gb_message r)] ++
        match gb_detail r with Some d => [("detail", d)] | None => [] end).

(** [String(v || d)] *)
Definition str_or (v : option json) (d : jstring) : jstring :=
  match v with Some v => if truthy v then to_str v else d | None => d end.

Definition ban_POST (r : request) : M ban_state response :=
  catch
    (let userRole := oor (header "x-user-role" r) [] in
     if negb (userRole =s "admin") then mret' (error 403 "Admin role required")
     else
       let* body := ofo "invalid json" (rq_json r) in
       let* bip := lift_res (jget "ip" body) in
       let ip := trim (str_or bip []) in
       let reason := str_or (jopt "reason" (Some body)) "dashboard-ban" in
       let action := if is_lit "unban" (jopt "action" (Some body)) then Unban else Ban in
       if negb (test_full IPV4_RE ip) then mret' (error 400 "Invalid IPv4")
       else if negb (nonempty (trim (e "GUARDIAN_API_TOKEN" ?? []))) then
         mret' (error 503 "GUARDIAN_API_TOKEN eksik — host: bash scripts/sync_dashboard_api_token.sh")
       else
         let* result := on_calls (executeGuardianBan ip action reason) in
         if negb (gb_ok result) then
           mret' (respond 502 (gb_json [("success", JBool false); ("error", gb_message result)] result))
         else
           on_cache invalidateAllBansCache ;;;
           mret' (respond 200 (gb_json [("success", JBool true)] result)))
    (λ msg, mret' (error 500 msg)).
End exec.

(** ** Which calls a request causes *)

Section calls.
Context (e : env) (post : jstring → headers → res (Z * option json))
  (execFile : jstring → list jstring → res (jstring * jstring)).

(** A call that asks the analyzer to apply [action] to exactly this address:
    the API with the configured mutation token, or the command line with the
    address as its own argument. *)
Definition targets (ip : jstring) (action : BanAction) (c : ban_call) : Prop :=
  match c with
  | CallPost url hs => ∃ tok ereason,
      guardianApiMutationToken e = Some tok ∧ hs = [("authorization" : jstring, "Bearer " ++ tok)] ∧
      url = guardianApiBase e ++ (match action with Unban => "/api/v1/unban" | Ban => "/api/v1/ban" end)
              ++ "?ip=" ++ ip ++ "&reason=" ++ ereason
  | CallExec bin args => ∃ rest, args = action_str action :: ip :: rest
  end.

(** The analyzer took the call: the API answered with a 2xx status and a body
    whose [success] is not false, the tool ended well with an [OK] or no output. *)
Definition confirmed (c : ban_call) : Prop :=
  match c with
  | CallPost url hs => ∃ status body success,
      post url hs = Ok (status, body) ∧ res_ok status = true ∧
      jget "success" (body ?? JObj []) = Ok success ∧ success ≠ Some (JBool false)
  | CallExec bin args => ∃ out err,
      execFile bin args = Ok (out, err) ∧
      (test_any (lit_i "[OK]") (trim (sor out err)) = true ∨ trim (sor out err) = [])
  end.

(** The computation returns a value (it never throws), makes only calls that
    target the address, and reports success exactly when a call was confirmed. *)
Definition made (ip : jstring) (action : BanAction) (l : list ban_call)
    (out : res GuardianBanResult * list ban_call) : Prop :=
  ∃ r calls, out = (Ok r, l ++ calls) ∧ Forall (targets ip action) calls ∧
    (gb_ok r = true ↔ Exists confirmed calls).

Lemma cli_ban_made ip reason action l : made ip action l (cli_ban e execFile ip reason action l).
Proof.
  unfold cli_ban, catch, mbind', call, modify, lift_res, mret', made.
  assert (Ht : ∀ bin, Forall (targets ip action)
    [CallExec bin (match action with
                   | Unban => ["unban" : jstring; ip; "--rules"; oor (e "GUARDIAN_RULES") "/etc/log-guardian/rules.conf"]
                   | Ban => ["ban" : jstring; ip; "--reason"; reason; "--rules";
                             oor (e "GUARDIAN_RULES") "/etc/log-guardian/rules.conf"]
                   end)]).
  { intros bin. repeat constructor. destruct action; by eexists. }
  destruct (execFile _ _) as [[o1 o2]|msg] eqn:Ex; eexists _, _; (split; [reflexivity|]); (split; [auto|]);
    rewrite Exists_cons, Exists_nil; cbn [gb_ok confirmed fst snd]; rewrite Ex.
  - rewrite orb_true_iff, negb_true_iff. split.
    + intros H. left. exists o1, o2. split; [done|]. destruct H as [H|H]; [by left|right].
      by destruct (trim (sor o1 o2)).
    + intros [(out & err & [= <- <-] & [H|H])|[]]; [by left|right]. by rewrite H.
  - split; [done|]. by intros [(? & ? & ? & _)|[]].
Qed.

(** The API call: either a result, or a thrown error after calls that were not confirmed. *)
Lemma api_ban_made tok ip reason action l :
  dotted_quad ip → guardianApiMutationToken e = Some tok →
  let out := api_ban post (guardianApiBase e) tok ip reason action l in
  made ip action l out ∨
  ∃ msg calls, out = (Throw msg, l ++ calls) ∧ Forall (targets ip action) calls ∧ ¬ Exists confirmed calls.
Proof.
  intros Hip Htok out. unfold out, api_ban, mbind', ofo, throw, mret'.
  rewrite (encode_quad ip) by done.
  destruct (encodeURIComponent reason) as [er|];
    [|right; eexists _, []; rewrite app_nil_r, Exists_nil; split; [reflexivity|auto]].
  unfold call, modify, lift_res.
  set (url := guardianApiBase e ++ _). set (hs := [("authorization" : jstring, "Bearer " ++ tok)]).
  assert (Ht : Forall (targets ip action) [CallPost url hs])
    by (constructor; [by exists tok, er|constructor]).
  destruct (post url hs) as [[st b]|msg] eqn:Ep; [|right; eexists _, _; (split; [reflexivity|]); split; [done|]].
  2:{ rewrite Exists_cons, Exists_nil. cbn [confirmed]. rewrite Ep. by intros [(? & ? & ? & ? & _)|[]]. }
  cbn [snd fst]. destruct (jget "success" _) as [su|msg] eqn:Es;
    [left|right; eexists _, _; (split; [reflexivity|]); split; [done|]].
  2:{ rewrite Exists_cons, Exists_nil. cbn [confirmed]. rewrite Ep.
      intros [(? & ? & ? & [= <- <-] & _ & ? & _)|[]]. congruence. }
  assert (Hc : res_ok st && negb (match su with Some (JBool false) => true | _ => false end) = true
               ↔ Exists confirmed [CallPost url hs]).
  { rewrite Exists_cons, Exists_nil. cbn [confirmed]. rewrite Ep, andb_true_iff, negb_true_iff. split.
    - intros [H1 H2]. left. exists st, b, su. splits; [done|done|done|]. by intros ->.
    - intros [(? & ? & ? & [= <- <-] & H1 & H2 & H3)|[]]. split; [done|].
      rewrite Es in H2. injection H2 as <-. by destruct su as [[|[]| | | |]|]. }
  destruct (_ && _); eexists _, _; (split; [reflexivity|]); (split; [done|]); rewrite <- Hc; done.
Qed.

Lemma made_after ip action l calls out :
  Forall (targets ip action) calls → ¬ Exists confirmed calls →
  made ip action (l ++ calls) out → made ip action l out.
Proof.
  intros Hc Hn (r & cs & -> & Hcs & Hok). exists r, (calls ++ cs). rewrite app_assoc.
  splits; [done|by apply Forall_app|]. rewrite Exists_app, Hok. tauto.
Qed.
Lemma made_refuse ip action l r : gb_ok r = false → made ip action l (Ok r, l).
Proof. intros H. exists r, []. rewrite app_nil_r, H, Exists_nil. done. Qed.

Lemma execute_made ip action reason l :
  dotted_quad ip → trim ip = ip →
  made ip action l (executeGuardianBan e post execFile ip action reason l).
Proof.
  intros Hip Ht. unfold executeGuardianBan. rewrite Ht.
  apply ipv4_dotted in Hip as Hre. rewrite Hre. cbn [negb].
  destruct (nonempty (guardianApiBase e)); [|apply cli_ban_made].
  destruct (guardianApiMutationToken e) as [tok|] eqn:Etok; [|by apply made_refuse].
  unfold catch. destruct (api_ban_made tok ip reason action l Hip Etok) as [Hm|(msg & calls & Em & Hc & Hn)].
  - destruct Hm as (r & calls & Er & Hc & Hok). rewrite Er. exists r, calls. done.
  - rewrite Em. apply (made_after _ _ _ calls); [done|done|].
    destruct (nonempty _); [apply cli_ban_made|by apply made_refuse].
Qed.

(** Whatever the text given as an address: only its trimmed form is used, and
    nothing is called unless that is a dotted quad. *)
Lemma execute_any ip0 action reason l :
  ∃ r calls, executeGuardianBan e post execFile ip0 action reason l = (Ok r, l ++ calls) ∧
    Forall (λ c, dotted_quad (trim ip0) ∧ targets (trim ip0) action c) calls ∧
    (gb_ok r = true ↔ Exists confirmed calls).
Proof.
  destruct (test_full IPV4_RE (trim ip0)) eqn:Eip.
  - apply ipv4_dotted in Eip.
    destruct (execute_made (trim ip0) action reason l Eip (trim_idemp _)) as (r & calls & Er & Hc & Hok).
    exists r, calls. split; [|split; [|done]].
    + rewrite <- Er. unfold executeGuardianBan. by rewrite trim_idemp.
    + eapply Forall_impl; [exact Hc|]. auto.
  - eexists _, []. unfold executeGuardianBan. rewrite Eip, app_nil_r. cbn [negb]. unfold mret'.
    split; [reflexivity|]. rewrite Exists_nil. by split.
Qed.

(** With the API configured, the first thing done for a dotted quad is the call. *)
Lemma execute_posts ip action reason ereason tok l :
  dotted_quad ip → trim ip = ip → encodeURIComponent reason = Some ereason →
  nonempty (guardianApiBase e) = true → guardianApiMutationToken e = Some tok →
  ∃ r url hs calls, executeGuardianBan e post execFile ip action reason l
      = (Ok r, l ++ CallPost url hs :: calls) ∧ targets ip action (CallPost url hs).
Proof.
  intros Hip Ht Her Hb Htok. unfold executeGuardianBan. rewrite Ht.
  apply ipv4_dotted in Hip as Hre. rewrite Hre, Hb, Htok. cbn [negb].
  unfold catch, api_ban, mbind', ofo, mret', call, modify, lift_res. rewrite encode_quad, Her by done.
  set (url := guardianApiBase e ++ _). set (hs := [("authorization" : jstring, "Bearer " ++ tok)]).
  assert (Htg : targets ip action (CallPost url hs)) by (by exists tok, ereason).
  assert (Hcatch : ∀ msg : jstring, ∃ r calls,
    (if nonempty (e "GUARDIAN_BIN" ?? []) then cli_ban e execFile ip reason action
     else λ s, (Ok {| gb_ok := false; gb_via := "analyzer_api"; gb_ip := ip; gb_action := action;
                      gb_message := JStr ("Analyzer API erişilemedi: " ++ msg); gb_detail := None |}, s))
      (l ++ [CallPost url hs]) = (Ok r, l ++ CallPost url hs :: calls)).
  { intros msg. destruct (nonempty (e "GUARDIAN_BIN" ?? [])); [|by eexists _, []].
    destruct (cli_ban_made ip reason action (l ++ [CallPost url hs])) as (r & calls & -> & _).
    exists r, calls. by rewrite <- app_assoc. }
  destruct (post url hs) as [r|msg]; [|destruct (Hcatch msg) as (r & calls & ->); by exists r, url, hs, calls].
  destruct (jget "success" _) as [su|msg]; [|destruct (Hcatch msg) as (r' & calls & ->); by exists r', url, hs, calls].
  destruct (_ && _); eexists _, url, hs, []; done.
Qed.

(** What a request must have for the analyzer to be asked: the admin role, a
    dotted quad in the body, a configured token. *)
Definition ban_admitted (r : request) : Prop :=
  ∃ body, header "x-user-role" r = Some ("admin" : jstring) ∧ rq_json r = Some body ∧
    dotted_quad (trim (str_or (jopt "ip" (Some body)) [])) ∧
    nonempty (trim (e "GUARDIAN_API_TOKEN" ?? [])) = true.

Lemma ban_action_of v :
  (if is_lit "unban" v then Unban else Ban) =
  match v with Some (JStr a) => if decide (a = "unban") then Unban else Ban | _ => Ban end.
Proof. destruct v as [[| | |a| |]|]; try done. cbn. destruct (decide _) as [->|Hn]; [done|]. by apply jeq_false in Hn as ->. Qed.

(** A branch that refuses the request. *)
Local Ltac refused := eexists _, _; split; [reflexivity|left; splits; [|done|done]].

(** C11. A ban request reaches the analyzer only for an administrator and only
    for the well-formed address of its body, and it reports what the analyzer
    answered. A request without the role [admin], a dotted quad in its body or a
    configured API token is refused: no call leaves the process and the cache is
    untouched. For any other, every call made carries exactly that address and
    the action the body asks for ([unban] when its action field says so, else
    [ban]); the answer is 200 and the cached lists are dropped exactly when one of
    the calls was confirmed by the analyzer, and 502 with the cache kept otherwise.
    The handler always answers. *)
Theorem ban_request_guarded r s :
  ∃ resp s', ban_POST e post execFile r s = (Ok resp, s') ∧
    ((¬ ban_admitted r ∧ s' = s ∧ rs_status resp ≠ 200) ∨
     ∃ body ip action calls,
       ban_admitted r ∧ rq_json r = Some body ∧
       ip = trim (str_or (jopt "ip" (Some body)) []) ∧ dotted_quad ip ∧
       action = match jopt "action" (Some body) with
                | Some (JStr a) => if decide (a = "unban") then Unban else Ban
                | _ => Ban
                end ∧
       bs_calls s' = bs_calls s ++ calls ∧ Forall (targets ip action) calls ∧
       ((rs_status resp = 200 ∧ Exists confirmed calls ∧ bs_cache s' = []) ∨
        (rs_status resp = 502 ∧ ¬ Exists confirmed calls ∧ bs_cache s' = bs_cache s))).
Proof.
  unfold ban_POST, catch, mbind', ofo, throw, lift_res, mret'.
  destruct (negb (oor (header "x-user-role" r) [] =s "admin")) eqn:Erole.
  { refused. intros (? & H & _). by rewrite H in Erole. }
  bprop. assert (Hrole : header "x-user-role" r = Some ("admin" : jstring)).
  { destruct (header "x-user-role" r) as [h|]; [|done]. destruct h; cbn in Erole; congruence. }
  destruct (rq_json r) as [body|] eqn:Ebody; [|refused; intros (? & _ & ? & _); congruence].
  destruct (jget "ip" body) as [bip|msg] eqn:Ejip.
  2:{ refused. intros (b & _ & Eb & Hq & _). rewrite Ebody in Eb. injection Eb as <-.
      apply ipv4_dotted in Hq. destruct body; cbn in Ejip; try done. }
  assert (Hbip : bip = jopt "ip" (Some body)) by (destruct body; cbn in Ejip |- *; congruence).
  rewrite Hbip. set (ip := trim (str_or (jopt "ip" (Some body)) [])) in *.
  set (action := if is_lit _ _ then Unban else Ban).
  set (reason := str_or (jopt "reason" _) _).
  destruct (test_full IPV4_RE ip) eqn:Eip; cbn [negb].
  2:{ refused. intros (b & _ & Eb & Hq & _). rewrite Ebody in Eb. injection Eb as <-.
      apply ipv4_dotted in Hq. fold ip in Hq. congruence. }
  apply ipv4_dotted in Eip.
  destruct (nonempty (trim (e "GUARDIAN_API_TOKEN" ?? []))) eqn:Etok; cbn [negb].
  2:{ refused. intros (b & _ & _ & _ & Hq). congruence. }
  unfold on_calls.
  assert (Hadm : ban_admitted r) by (exists body; splits; done).
  destruct (execute_made ip action reason (bs_calls s) Eip (trim_idemp _)) as (res & calls & -> & Hc & Hok).
  destruct (gb_ok res) eqn:Eok; cbn [negb]; eexists _, _; (split; [reflexivity|]); right;
    exists body, ip, action, calls; splits; try done; try apply ban_action_of; [left|right]; (split; [done|]); split; try done.
  - by apply Hok.
  - intros H. apply Hok in H. done.
Qed.
End calls.

(** The guarded path is taken: an administrator's ban goes out and clears the cache. *)
Example ban_request_ex :
  let e := env_of [("GUARDIAN_API_TOKEN", "t0k")] in
  let r := mk_request "/api/guardian/ban" [("x-user-role", "admin")] []  []
             (Some (JObj [("ip", JStr " 45.9.1.7 "); ("reason", JStr "brute force")])) in
  let '(out, s) := ban_POST e (λ _ _, Ok (200, Some (JObj [("success", JBool true)]))) (λ _ _, Throw "no")
                     r {| bs_calls := []; bs_cache := [] |} in
  bs_calls s = [CallPost "http://127.0.0.1:8090/api/v1/ban?ip=45.9.1.7&reason=brute%20force"
                  [("authorization", "Bearer t0k")]].
Proof. vm_compute. reflexivity. Qed.
