(* ===== verification/JsDate.v ===== *)
(** Dates: [Date.prototype.toISOString] on a time value in milliseconds.
    Reading a date from text is implementation-defined and stays a parameter of
    the components that do it. *)

From S2P Require Import Prelude JsString Json.

Definition MS_PER_DAY : Z := 86400000.

(** Year, month and day of a day number counted from 1970-01-01, in the
    proleptic Gregorian calendar (eras of 400 years, years that start in March). *)
Definition civil (days : Z) : Z * Z * Z :=
  let z := days + 719468 in
  let era := z / 146097 in
  let doe := z mod 146097 in
  let yoe := (doe - doe / 1460 + doe / 36524 - doe / 146096) / 365 in
  let doy := doe - (365 * yoe + yoe / 4 - yoe / 100) in
  let mp := (5 * doy + 2) / 153 in
  let d := doy - (153 * mp + 2) / 5 + 1 in
  let m := if mp <? 10 then mp + 3 else mp - 9 in
  (yoe + era * 400 + (if m <=? 2 then 1 else 0), m, d).

(** Left-padded with zeros to a width. *)
Definition pad0 (width n : Z) : jstring :=
  let ds := dec n in replicate (Z.to_nat (width - slen ds)) 48 ++ ds.

Definition toISOString (ms : Z) : jstring :=
  let '(y, m, d) := civil (ms / MS_PER_DAY) in
  let t := ms mod MS_PER_DAY in
  (if (0 <=? y) && (y <=? 9999) then pad0 4 y
   else (if y <? 0 then "-" else "+") ++ pad0 6 (Z.abs y)) ++
  "-" ++ pad0 2 m ++ "-" ++ pad0 2 d ++ "T" ++
  pad0 2 (t / 3600000) ++ ":" ++ pad0 2 (t / 60000 mod 60) ++ ":" ++
  pad0 2 (t / 1000 mod 60) ++ "." ++ pad0 3 (t mod 1000) ++ "Z".

Definition date_json (ms : Z) : json := JStr (toISOString ms).

Example iso_ex :
  map toISOString [0; 951782400000; 1709251199999; -1; 1735689600000]
  = ["1970-01-01T00:00:00.000Z"; "2000-02-29T00:00:00.000Z"; "2024-02-29T23:59:59.999Z";
     "1969-12-31T23:59:59.999Z"; "2025-01-01T00:00:00.000Z"].
Proof. vm_compute. reflexivity. Qed.
