(* ===== verification/Store.v ===== *)
(** Tables of the database, as the Prisma client offers them to the routes.

    The client is a third-party package: a table is an abstract type with its
    operations, and [Table] states what the routes rely on.  Every operation may
    fail ([None]: the promise rejects); one that fails changes nothing.  The
    order of an unordered query is not promised, so the laws are up to
    permutation. *)

From S2P Require Import Prelude.

Class Table (T R : Type) (pk : R → jstring) := {
  (** The rows a table holds. *)
  rows : T → list R;
  (** [findMany({ where })], and with [orderBy] an integer column, ascending. *)
  find_many : (R → bool) → T → option (list R);
  find_sorted : (R → Z) → (R → bool) → T → option (list R);
  (** [create({ data })] of a row whose generated columns are given. *)
  insert_row : R → T → option T;
  (** [updateMany({ where, data })] and [update({ where: { id }, data })] *)
  update_many : (R → bool) → (R → R) → T → option T;
  update_one : jstring → (R → R) → T → option (R * T);
  (** [upsert({ where, update, create })] on a unique constraint *)
  upsert : (R → bool) → (R → R) → R → T → option (R * T);
  (** [count({ where })] and [groupBy({ by: [column], _count })] *)
  count_rows : (R → bool) → T → option Z;
  group_count : (R → jstring) → T → option (list (jstring * Z));
  find_many_law : ∀ p t l, find_many p t = Some l → l ≡ₚ jfilter p (rows t);
  find_sorted_law : ∀ key p t l, find_sorted key p t = Some l →
    l ≡ₚ jfilter p (rows t) ∧ sorted_by key l;
  insert_law : ∀ r t t', insert_row r t = Some t' →
    rows t' ≡ₚ r :: rows t ∧ pk r ∉ map pk (rows t);
  update_many_law : ∀ p f t t', update_many p f t = Some t' →
    rows t' ≡ₚ map (λ r, if p r then f r else r) (rows t);
  update_one_law : ∀ id f t r t', update_one id f t = Some (r, t') →
    (∃ r0, r0 ∈ rows t ∧ pk r0 = id ∧ r = f r0) ∧
    rows t' ≡ₚ map (λ x, if pk x =s id then f x else x) (rows t);
  upsert_law : ∀ p f new t r t', upsert p f new t = Some (r, t') →
    ((∃ r0, r0 ∈ rows t ∧ p r0 = true ∧ r = f r0) ∧
       rows t' ≡ₚ map (λ x, if p x then f x else x) (rows t)) ∨
    ((∀ r0, r0 ∈ rows t → p r0 = false) ∧ r = new ∧ rows t' ≡ₚ new :: rows t ∧
       pk new ∉ map pk (rows t));
  count_law : ∀ p t n, count_rows p t = Some n → n = Z.of_nat (length (jfilter p (rows t)));
  group_law : ∀ col t l, group_count col t = Some l →
    NoDup (l.*1) ∧ ∀ k n, (k, n) ∈ l ↔
      k ∈ map col (rows t) ∧ n = Z.of_nat (length (jfilter (λ r, col r =s k) (rows t)));
}.
Arguments rows {_ _ _ _} _.
Arguments find_many {_ _ _ _} _ _.
Arguments find_sorted {_ _ _ _} _ _ _.
Arguments insert_row {_ _ _ _} _ _.
Arguments update_many {_ _ _ _} _ _ _.
Arguments update_one {_ _ _ _} _ _ _.
Arguments upsert {_ _ _ _} _ _ _ _.
Arguments count_rows {_ _ _ _} _ _.
Arguments group_count {_ _ _ _} _ _.

Section facts.
Context {T R : Type} {pk : R → jstring} `{!Table T R pk}.

(** Primary keys are unique. *)
Definition keyed (t : T) : Prop := NoDup (map pk (rows t)).

Lemma insert_keyed r t t' : insert_row r t = Some t' → keyed t → keyed t'.
Proof.
  intros [Hp Hn]%insert_law Ht. unfold keyed. rewrite Hp. simpl. by constructor.
Qed.
Lemma map_update_pk (p : R → bool) (f : R → R) (l : list R) :
  (∀ r, pk (f r) = pk r) → map pk (map (λ r, if p r then f r else r) l) = map pk l.
Proof. intros Hf. rewrite map_map. apply map_ext. intros r. destruct (p r); auto. Qed.
Lemma update_many_keyed p f t t' :
  (∀ r, pk (f r) = pk r) → update_many p f t = Some t' → keyed t → keyed t'.
Proof. intros Hf H%update_many_law Ht. unfold keyed. rewrite H. by rewrite map_update_pk. Qed.
Lemma update_one_keyed id f t r t' :
  (∀ x, pk (f x) = pk x) → update_one id f t = Some (r, t') → keyed t → keyed t'.
Proof. intros Hf [_ H]%update_one_law Ht. unfold keyed. rewrite H. by rewrite map_update_pk. Qed.

Lemma insert_rows r t t' x : insert_row r t = Some t' → x ∈ rows t' ↔ x = r ∨ x ∈ rows t.
Proof. intros [Hp _]%insert_law. by rewrite Hp, elem_of_cons. Qed.
Lemma update_many_rows p f t t' x :
  update_many p f t = Some t' →
  x ∈ rows t' ↔ ∃ r, r ∈ rows t ∧ x = if p r then f r else r.
Proof.
  intros H%update_many_law. rewrite H, list_elem_of_fmap. naive_solver.
Qed.
Lemma update_one_rows id f t r t' x :
  update_one id f t = Some (r, t') →
  x ∈ rows t' ↔ ∃ y, y ∈ rows t ∧ x = if pk y =s id then f y else y.
Proof. intros [_ H]%update_one_law. rewrite H, list_elem_of_fmap. naive_solver. Qed.
Lemma find_sorted_rows key p t l x :
  find_sorted key p t = Some l → x ∈ l ↔ x ∈ rows t ∧ p x = true.
Proof. intros [H _]%find_sorted_law. by rewrite H, jfilter_elem. Qed.
Lemma find_many_rows p t l x : find_many p t = Some l → x ∈ l ↔ x ∈ rows t ∧ p x = true.
Proof. intros H%find_many_law. by rewrite H, jfilter_elem. Qed.

(** With unique keys the rows of one key agree. *)
Lemma keyed_eq t x y : keyed t → x ∈ rows t → y ∈ rows t → pk x = pk y → x = y.
Proof.
  unfold keyed. intros Hnd Hx Hy E. apply list_elem_of_lookup in Hx as [i Hi], Hy as [j Hj].
  assert (i = j) as ->; [|congruence].
  eapply (NoDup_lookup (map pk (rows t)) i j (pk x)); [done|..].
  - change (map pk (rows t)) with (pk <$> rows t). by rewrite list_lookup_fmap, Hi.
  - change (map pk (rows t)) with (pk <$> rows t). by rewrite list_lookup_fmap, Hj, E.
Qed.
End facts.

(** The laws can hold: a table kept as a list, whose only failures are a
    duplicate key on insertion and a missing row on update. *)
Section list_table.
Context {R : Type} (pk : R → jstring).

Definition list_insert_row (r : R) (t : list R) : option (list R) :=
  if bool_decide (pk r ∈ map pk t) then None else Some (t ++ [r]).
Definition list_update (p : R → bool) (f : R → R) (t : list R) : list R :=
  map (λ r, if p r then f r else r) t.
Definition list_update_one (id : jstring) (f : R → R) (t : list R) : option (R * list R) :=
  match jfind (λ r, pk r =s id) t with
  | None => None
  | Some r => Some (f r, list_update (λ x, pk x =s id) f t)
  end.

Definition list_upsert (p : R → bool) (f : R → R) (new : R) (t : list R) : option (R * list R) :=
  match jfind p t with
  | Some r => Some (f r, list_update p f t)
  | None => match list_insert_row new t with Some t' => Some (new, t') | None => None end
  end.
Definition list_group (col : R → jstring) (t : list R) : list (jstring * Z) :=
  map (λ r, (col r, Z.of_nat (length (jfilter (λ x, col x =s col r) t)))) (dedup_by col [] t).

Lemma list_group_spec col t :
  NoDup ((list_group col t).*1) ∧ ∀ k n, (k, n) ∈ list_group col t ↔
    k ∈ map col t ∧ n = Z.of_nat (length (jfilter (λ r, col r =s k) t)).
Proof.
  unfold list_group. split.
  - change (NoDup (map fst (map (λ r, (col r, Z.of_nat (length (jfilter (λ x, col x =s col r) t))))
                              (dedup_by col [] t)))).
    rewrite map_map. apply (dedup_by_nodup col []).
  - intros k n. rewrite list_elem_of_fmap. split.
    + intros (r & [= -> ->] & Hr). apply dedup_by_fresh in Hr as [Hr _].
      split; [by apply list_elem_of_fmap_2|done].
    + intros [(r & -> & Hr)%list_elem_of_fmap ->].
      destruct (dedup_by_covers col [] t r Hr) as [Hn|(y & Hy & E)]; [by apply elem_of_nil in Hn|].
      exists y. by rewrite E.
Qed.
Lemma list_insert_law r t t' : list_insert_row r t = Some t' → t' ≡ₚ r :: t ∧ pk r ∉ map pk t.
Proof.
  unfold list_insert_row. case_bool_decide; [done|]. intros [= <-].
  split; [|done]. by rewrite Permutation_app_comm.
Qed.

#[local] Instance list_table_laws : Table (list R) R pk.
Proof.
  refine {| rows := id; find_many := λ p t, Some (jfilter p t);
            find_sorted := λ key p t, Some (sort_by (key_le key) (jfilter p t));
            insert_row := list_insert_row;
            update_many := λ p f t, Some (list_update p f t);
            update_one := list_update_one; upsert := list_upsert;
            count_rows := λ p t, Some (Z.of_nat (length (jfilter p t)));
            group_count := λ col t, Some (list_group col t) |}.
  - by intros p t l [= <-].
  - intros key p t l [= <-]. split; [apply sort_by_perm|apply sort_by_sorted].
  - intros r t t'. apply list_insert_law.
  - by intros p f t t' [= <-].
  - intros id f t r t'. unfold list_update_one. destruct (jfind _ t) as [r0|] eqn:E; [|done].
    intros [= <- <-]. apply jfind_Some in E as [Hin Hk]. bprop. split; [|done]. eauto.
  - intros p f new t r t'. unfold list_upsert. destruct (jfind p t) as [r0|] eqn:E.
    + intros [= <- <-]. apply jfind_Some in E as [Hin Hk]. left. split; [eauto|done].
    + destruct (list_insert_row new t) as [t1|] eqn:Ei; [|done]. intros [= <- <-].
      right. split; [by apply jfind_None|]. split; [done|]. by apply list_insert_law.
  - by intros p t n [= <-].
  - intros col t l [= <-]. apply list_group_spec.
Defined.
Definition list_table : Table (list R) R pk := list_table_laws.
End list_table.
