(* ===== verification/FleetCommand.v ===== *)
(** Fleet commands: validation (dashboard/src/lib/fleetCommandValidate.ts),
    signing (fleetCommandSign.ts) and the row type of prisma/schema.prisma. *)

From S2P Require Import Prelude JsString JsNum Json Regex Http Auth BanUtils JsDate Store.

(** A row of the [AgentCommand] table; times in milliseconds. *)
Record AgentCommand := {
  c_id : jstring;
  c_tenantId : jstring;
  c_targetAgentId : option jstring;
  c_commandType : jstring;
  c_payload : jstring;
  c_executed : bool;
  c_status : jstring;
  c_executedAt : option Z;
  c_signature : option jstring;
  c_createdAt : Z;
}.

Definition nullable_str (v : option jstring) : json := match v with Some s => JStr s | None => JNull end.

Definition command_json (c : AgentCommand) : json :=
  JObj [("id", JStr (c_id c)); ("tenantId", JStr (c_tenantId c));
        ("targetAgentId", nullable_str (c_targetAgentId c));
        ("commandType", JStr (c_commandType c)); ("payload", JStr (c_payload c));
        ("executed", JBool (c_executed c)); ("status", JStr (c_status c));
        ("executedAt", match c_executedAt c with Some t => date_json t | None => JNull end);
        ("signature", nullable_str (c_signature c)); ("createdAt", date_json (c_createdAt c))].

(** Column updates. *)
Definition set_status (st : jstring) (c : AgentCommand) : AgentCommand :=
  {| c_id := c_id c; c_tenantId := c_tenantId c; c_targetAgentId := c_targetAgentId c;
     c_commandType := c_commandType c; c_payload := c_payload c; c_executed := c_executed c;
     c_status := st; c_executedAt := c_executedAt c; c_signature := c_signature c;
     c_createdAt := c_createdAt c |}.
Definition set_signature (sig : jstring) (c : AgentCommand) : AgentCommand :=
  {| c_id := c_id c; c_tenantId := c_tenantId c; c_targetAgentId := c_targetAgentId c;
     c_commandType := c_commandType c; c_payload := c_payload c; c_executed := c_executed c;
     c_status := c_status c; c_executedAt := c_executedAt c; c_signature := Some sig;
     c_createdAt := c_createdAt c |}.

(** ** vpsFleetShadow.ts: the watch-only agent *)

Definition VPS_FLEET_AGENT_ID : jstring := "node-vps-01".
Definition isVpsFleetShadowAgent (agentId : option jstring) : bool :=
  bool_decide (agentId = Some VPS_FLEET_AGENT_ID).

(** ** fleetCommandValidate.ts *)

Definition ALLOWED_TYPES : list jstring :=
  ["BAN_IP"; "UNBAN_IP"; "PUSH_WAF_RULE"; "PUSH_THREAT_FEED"; "PUSH_CONFIG"; "PUSH_SCHEMA";
   "PUSH_WASM_PLUGIN"].
Definition MAX_PAYLOAD_LEN : Z := 4096.
Definition MAX_AGENT_ID_LEN : Z := 128.

Definition hex_re : re :=
  RCls (λ c, is_digit c || ((97 <=? c) && (c <=? 102)) || ((65 <=? c) && (c <=? 70))).
(** [(?:[0-9a-fA-F]{0,4}:){2,7}[0-9a-fA-F]{0,4}] *)
Definition IPV6_LIKE : re := RCat (rbetween 2 5 (RCat (rupto 4 hex_re) (chr 58))) (rupto 4 hex_re).
Definition IP_RE : re := RAlt IPV4_RE IPV6_LIKE.

(** [\w.-] *)
Definition agent_id_char (c : Z) : bool :=
  is_digit c || ((65 <=? c) && (c <=? 90)) || ((97 <=? c) && (c <=? 122)) || (c =? 95)
  || (c =? 46) || (c =? 45).

(** [typeof v === "string" ? v : JSON.stringify(v ?? "")] *)
Definition payload_text (v : option json) : jstring :=
  match v with
  | Some (JStr s) => s
  | _ => stringify (nullish v ?? JStr [])
  end.

(** The error message, [None] for a valid command. *)
Definition validateFleetCommand (body : json) : option jstring :=
  let commandType := trim (to_str (nullish (jopt "commandType" (Some body)) ?? JStr [])) in
  if negb (nonempty commandType) || negb (bool_decide (commandType ∈ ALLOWED_TYPES)) then
    Some ("invalid commandType: " ++ sor commandType "(empty)")
  else
    let payloadRaw := payload_text (jopt "payload" (Some body)) in
    if negb (nonempty payloadRaw) || (MAX_PAYLOAD_LEN <? slen payloadRaw) then
      Some "payload missing or too large"
    else if ((commandType =s "BAN_IP") || (commandType =s "UNBAN_IP"))
            && negb (test_full IP_RE (trim payloadRaw)) then
      Some ("invalid IP for " ++ commandType)
    else
      match nullish (jopt "targetAgentId" (Some body)) with
      | None | Some (JStr []) => None
      | Some v =>
          let aid := to_str v in
          if isVpsFleetShadowAgent (Some aid) then
            Some "targetAgentId is SSH watch-only (no fleet dispatch)"
          else if (MAX_AGENT_ID_LEN <? slen aid) || negb (nonempty aid && forallb agent_id_char aid) then
            Some "invalid targetAgentId"
          else None
      end.

(** ** fleetCommandSign.ts *)

Record FleetCommandSignInput := {
  si_id : jstring;
  si_tenantId : jstring;
  si_commandType : jstring;
  si_payload : jstring;
  si_targetAgentId : option jstring;
}.
Definition sign_input (c : AgentCommand) : FleetCommandSignInput :=
  {| si_id := c_id c; si_tenantId := c_tenantId c; si_commandType := c_commandType c;
     si_payload := c_payload c; si_targetAgentId := c_targetAgentId c |}.

Definition DEV_FLEET_HMAC_KEY : jstring := "log-guardian-fleet-command-dev-key".

Definition fleetSignKey (e : env) : option jstring :=
  let key := trim (oor (e "FLEET_COMMAND_HMAC_KEY") DEV_FLEET_HMAC_KEY) in
  if negb (nonempty key) || (slen key <? 16) then None else Some key.

Definition fleetRequireSig (e : env) : bool :=
  negb ((e "FLEET_COMMAND_REQUIRE_SIG" ?? "1") =s "0").

Definition buildFleetCommandDigest (i : FleetCommandSignInput) : jstring :=
  let target := si_targetAgentId i ?? [] in
  si_id i ++ "|" ++ si_tenantId i ++ "|" ++ si_commandType i ++ "|" ++ si_payload i ++ "|" ++ target.

Section sign.
(** [createHmac("sha256", key).update(text).digest("hex")] *)
Context (hmac_hex : jstring → jstring → jstring) (e : env).

Definition signFleetCommand (i : FleetCommandSignInput) : option jstring :=
  match fleetSignKey e with
  | None => None
  | Some key => Some (hmac_hex key (buildFleetCommandDigest i))
  end.

Definition verifyFleetCommandSignature (i : FleetCommandSignInput) (signature : option jstring) : bool :=
  match truthy_str (trim <$> signature) with
  | None => negb (fleetRequireSig e)
  | Some expected =>
      match truthy_str (signFleetCommand i) with
      | None => false
      | Some calc =>
          if negb (slen calc =? slen expected) then false
          else match timingSafeEqual (utf8 calc) (utf8 expected) with
               | Ok b => b
               | Throw _ => false
               end
      end
  end.

(** [createSignedFleetCommand]: the row is stored first, then signed. *)
Context {Tc : Type} `{!Table Tc AgentCommand c_id}.

Definition createSignedFleetCommand (data : AgentCommand) : M Tc AgentCommand :=
  let* t := get in
  let* t' := ofo "create" (insert_row data t) in
  modify (λ _, t') ;;;
  match signFleetCommand (sign_input data) with
  | None => mret' data
  | Some signature =>
      if nonempty signature then
        let* r := ofo "update" (update_one (c_id data) (set_signature signature) t') in
        modify (λ _, r.2) ;;; mret' r.1
      else mret' data
  end.
End sign.

(** ** Signature lemmas *)

Definition hex_char (c : Z) : bool := is_digit c || ((97 <=? c) && (c <=? 102)).
Definition hex_text (s : jstring) : Prop := s ≠ [] ∧ Forall (λ c, hex_char c = true) s.

Lemma hex_text_plain s : hex_text s → no_space s ∧ narrow s.
Proof.
  intros [_ H]. rewrite Forall_forall in H. split; intros c Hc; specialize (H c Hc);
    unfold hex_char, is_digit in H; apply orb_true_iff in H.
  - unfold is_space. destruct H as [H|H]; bprop;
      repeat (apply orb_false_iff; split); try apply andb_false_iff;
      rewrite ?Z.eqb_neq, ?Z.leb_gt; lia.
  - destruct H; bprop; lia.
Qed.

Section sign_facts.
Context (hmac_hex : jstring → jstring → jstring) (e : env).
(** A digest is printed in hexadecimal. *)
Hypothesis hmac_is_hex : ∀ k m, hex_text (hmac_hex k m).

Lemma sign_hex i sig : signFleetCommand hmac_hex e i = Some sig → hex_text sig.
Proof. unfold signFleetCommand. destruct (fleetSignKey e); intros; simplify_eq. apply hmac_is_hex. Qed.

Lemma sign_verify i sig :
  signFleetCommand hmac_hex e i = Some sig → verifyFleetCommandSignature hmac_hex e i (Some sig) = true.
Proof.
  intros Hs. pose proof (sign_hex i sig Hs) as Hx. pose proof (hex_text_plain sig Hx) as [Hsp _].
  destruct Hx as [Hne _]. unfold verifyFleetCommandSignature. rewrite Hs. cbn [fmap option_fmap option_map].
  rewrite trim_no_space by done. unfold truthy_str. destruct (nonempty sig) eqn:E; bprop; [|done].
  rewrite Z.eqb_refl. cbn [negb]. unfold timingSafeEqual. rewrite Nat.eqb_refl. by apply bool_decide_eq_true.
Qed.

(** When signatures are required, only what the key signed passes. *)
Lemma verify_signed i signature :
  fleetRequireSig e = true → narrow (signature ?? []) →
  verifyFleetCommandSignature hmac_hex e i signature = true →
  ∃ key sig, fleetSignKey e = Some key ∧ signature = Some sig ∧
    trim sig = hmac_hex key (buildFleetCommandDigest i).
Proof.
  intros Hreq Hns. unfold verifyFleetCommandSignature, signFleetCommand. rewrite Hreq.
  destruct (truthy_str (trim <$> signature)) as [ex|] eqn:Eex; [|done].
  apply truthy_str_Some in Eex as [Eex _]. destruct signature as [sig|]; [|done]. cbn in Eex. simplify_eq.
  destruct (fleetSignKey e) as [key|]; [|done]. destruct (truthy_str _) as [calc|] eqn:Ec; [|done].
  apply truthy_str_Some in Ec as [[= <-] _]. split_if; [done|].
  unfold timingSafeEqual. split_if; [|done]. intros Hb. bprop.
  exists key, sig. splits; [done|done|]. symmetry. apply utf8_narrow_inj; [apply hex_text_plain, hmac_is_hex| |done].
  intros c Hc%trim_sub. by apply Hns.
Qed.

(** The separator of the digest occurs in no field but the payload. *)
Definition sep_free (i : FleetCommandSignInput) : Prop :=
  124 ∉ si_id i ∧ 124 ∉ si_tenantId i ∧ 124 ∉ si_commandType i ∧ 124 ∉ (si_targetAgentId i ?? []).

(** Equal up to the difference between no target and an empty one. *)
Definition same_command (i j : FleetCommandSignInput) : Prop :=
  si_id i = si_id j ∧ si_tenantId i = si_tenantId j ∧ si_commandType i = si_commandType j ∧
  si_payload i = si_payload j ∧ si_targetAgentId i ?? [] = si_targetAgentId j ?? [].

Lemma digest_inj i j :
  sep_free i → sep_free j → buildFleetCommandDigest i = buildFleetCommandDigest j → same_command i j.
Proof.
  intros (A1 & A2 & A3 & A4) (B1 & B2 & B3 & B4) E. unfold buildFleetCommandDigest in E.
  apply sep_inj in E as [E1 E]; [|done..]. apply sep_inj in E as [E2 E]; [|done..].
  apply sep_inj in E as [E3 E]; [|done..].
  apply (f_equal (@rev Z)) in E. rewrite !rev_app_distr, <- !app_assoc in E. cbn [rev app] in E.
  assert (Hr : ∀ t : jstring, 124 ∉ t → 124 ∉ rev t)
    by (intros t Ht Hin; apply Ht; rewrite list_elem_of_In in *; by apply in_rev).
  apply sep_inj in E as [E4 E5]; [|by apply Hr..].
  apply (f_equal (@rev Z)) in E4, E5. rewrite !rev_involutive in E4, E5. done.
Qed.

Lemma same_digest i j : same_command i j → buildFleetCommandDigest i = buildFleetCommandDigest j.
Proof. intros (E1 & E2 & E3 & E4 & E5). unfold buildFleetCommandDigest. by rewrite E1, E2, E3, E4, E5. Qed.

(** An accepted hexadecimal signature is the digest of the command under the key. *)
Lemma verify_made i sig :
  hex_text sig → verifyFleetCommandSignature hmac_hex e i (Some sig) = true →
  ∃ key, fleetSignKey e = Some key ∧ sig = hmac_hex key (buildFleetCommandDigest i).
Proof.
  intros Hx Hv. apply hex_text_plain in Hx as Hp. destruct Hp as [Hsp Hnar].
  unfold verifyFleetCommandSignature in Hv. cbn [fmap option_fmap option_map] in Hv.
  rewrite trim_no_space in Hv by done. unfold truthy_str at 1 in Hv.
  destruct (nonempty sig) eqn:En; bprop; [|by destruct Hx].
  unfold signFleetCommand in Hv. destruct (fleetSignKey e) as [key|]; [|done].
  destruct (truthy_str _) as [calc|] eqn:Ec; [|done]. apply truthy_str_Some in Ec as [[= <-] _].
  split_if; [done|]. unfold timingSafeEqual in Hv. split_if; [|done]. bprop.
  exists key. split; [done|]. symmetry. apply utf8_narrow_inj; [apply hex_text_plain, hmac_is_hex|done|done].
Qed.
End sign_facts.

(** C12. A fleet signature is bound to the whole command: the signature made for
    command [j] is accepted on command [i] exactly when the two have the same id,
    tenant, type, payload and target. The conditions: the keyed hash does not map
    the texts of these two commands to one digest, it prints hexadecimal, and the
    separator "|" occurs in no field but the payload. *)
Theorem fleet_signature_binding (hmac_hex : jstring → jstring → jstring) (e : env) i j sig :
  (∀ k m, hex_text (hmac_hex k m)) → sep_free i → sep_free j →
  (∀ key, fleetSignKey e = Some key →
     hmac_hex key (buildFleetCommandDigest i) = hmac_hex key (buildFleetCommandDigest j) →
     buildFleetCommandDigest i = buildFleetCommandDigest j) →
  signFleetCommand hmac_hex e j = Some sig →
  verifyFleetCommandSignature hmac_hex e i (Some sig) = true ↔ same_command i j.
Proof.
  intros Hhex Hi Hj Hcol Hs. split.
  - intros Hv. destruct (verify_made hmac_hex e Hhex i sig (sign_hex hmac_hex e Hhex j sig Hs) Hv) as (key & Ek & Ed).
    unfold signFleetCommand in Hs. rewrite Ek in Hs. injection Hs as Hs.
    apply digest_inj; [done..|]. apply (Hcol key Ek). congruence.
  - intros Hsame. apply sign_verify; [done|]. unfold signFleetCommand in *.
    by rewrite (same_digest i j Hsame).
Qed.

(** A keyed hash that keeps its text apart: two hexadecimal digits a byte. *)
Definition hex_digit (d : Z) : Z := if d <? 10 then 48 + d else 87 + d.
Definition hex_of (m : jstring) : jstring :=
  "0" ++ flat_map (λ c, [hex_digit ((c / 16) mod 16); hex_digit (c mod 16)]) m.

Lemma hex_of_hex m : hex_text (hex_of m).
Proof.
  assert (Hd : ∀ c, hex_char (hex_digit (c mod 16)) = true).
  { intros c. pose proof (Z.mod_pos_bound c 16). unfold hex_char, is_digit, hex_digit.
    destruct (c mod 16 <? 10) eqn:E; bprop; apply orb_true_iff; [left|right];
      apply andb_true_iff; rewrite !Z.leb_le; lia. }
  split; [done|]. constructor; [done|]. induction m as [|c m IH]; cbn; [constructor|].
  constructor; [apply Hd|]. constructor; [apply Hd|apply IH].
Qed.

Lemma fleet_signature_binding_witness :
  let hmac : jstring → jstring → jstring := λ k m, hex_of (k ++ m) in
  let c (p : jstring) := {| si_id := "1"; si_tenantId := "t1"; si_commandType := "BAN_IP";
              si_payload := p; si_targetAgentId := Some "edge-1" |} in
  ∃ sig, signFleetCommand hmac (env_of []) (c "45.9.1.7") = Some sig ∧
    (verifyFleetCommandSignature hmac (env_of []) (c "45.9.1.8") (Some sig) = true ↔
     same_command (c "45.9.1.8") (c "45.9.1.7")).
Proof.
  intros hmac c. eexists. split; [reflexivity|].
  apply (fleet_signature_binding hmac (env_of []) (c "45.9.1.8") (c "45.9.1.7")).
  - intros k m. apply hex_of_hex.
  - repeat split; intros H; repeat (apply elem_of_cons in H as [H|H]; [done|]); by apply elem_of_nil in H.
  - repeat split; intros H; repeat (apply elem_of_cons in H as [H|H]; [done|]); by apply elem_of_nil in H.
  - intros key Hk. vm_compute in Hk. injection Hk as <-. vm_compute. discriminate.
  - reflexivity.
Defined.
