(* ===== verification/Fleet.v ===== *)
(** The fleet command queue: polling and creating commands
    (dashboard/src/app/api/fleet/commands/route.ts) and acknowledging them
    (commands/ack/route.ts). *)

From S2P Require Import Prelude JsString JsNum Json Http Auth BanUtils FetchBanned Bans BanExec JsDate Store FleetCommand Interleave.

(** A row of the [ApiKey] table. *)
Record ApiKey := { k_key : jstring; k_tenantId : jstring }.

(** [authHeader.split(' ')[1]] of a Bearer header. *)
Definition bearer_token (r : request) : option jstring :=
  match header "authorization" r with
  | Some a => if nonempty a && starts_with "Bearer " a then split1 32 a !! 1%nat else None
  | None => None
  end.

Section fleet.
Context (hmac_hex : jstring → jstring → jstring) (e : env).
Context (post : jstring → headers → res (Z * option json))
  (execFile : jstring → list jstring → res (jstring * jstring)).
(** [prisma.apiKey.findUnique({ where: { key } })]; the outer [None] throws. *)
Context (findKey : jstring → option (option ApiKey)).
Context {Tc : Type} `{!Table Tc AgentCommand c_id}.

(** Commands, calls to the analyzer, cached ban lists. *)
Record fleet_state := { fs_cmds : Tc; fs_calls : list ban_call; fs_cache : cache }.

Definition on_cmds {A} (m : M Tc A) : M fleet_state A := λ s,
  let '(r, t) := m (fs_cmds s) in
  (r, {| fs_cmds := t; fs_calls := fs_calls s; fs_cache := fs_cache s |}).
Definition on_fleet_calls {A} (m : M (list ban_call) A) : M fleet_state A := λ s,
  let '(r, l) := m (fs_calls s) in
  (r, {| fs_cmds := fs_cmds s; fs_calls := l; fs_cache := fs_cache s |}).
Definition on_fleet_cache (f : cache → cache) : M fleet_state unit :=
  modify (λ s, {| fs_cmds := fs_cmds s; fs_calls := fs_calls s; fs_cache := f (fs_cache s) |}).

Definition ise : response := error 500 "Internal Server Error".

(** The lookup both agent routes start with; [k] is the rest of the handler. *)
Definition with_key (r : request) (k : ApiKey → M fleet_state response) : M fleet_state response :=
  match bearer_token r with
  | None => mret' (error 401 "Unauthorized")
  | Some token =>
      let* key := ofo "apiKey" (findKey token) in
      match key with
      | None => mret' (error 401 "Invalid API Key")
      | Some key => k key
      end
  end.

(** ** GET /api/fleet/commands *)

(** The [where] of the query. *)
Definition open_for (tenantId agentId : jstring) (c : AgentCommand) : bool :=
  (c_tenantId c =s tenantId) && negb (c_executed c) && (c_status c =s "pending") &&
  (bool_decide (c_targetAgentId c = Some agentId) || bool_decide (c_targetAgentId c = None)).

Definition verified (c : AgentCommand) : bool :=
  verifyFleetCommandSignature hmac_hex e (sign_input c) (c_signature c).

(** Query, check the signatures, mark as delivered. *)
Definition take_commands (tenantId agentId : jstring) : M Tc (list AgentCommand) :=
  let* t := get in
  let* commands := ofo "findMany" (find_sorted c_createdAt (open_for tenantId agentId) t) in
  let deliverable := jfilter verified commands in
  if bool_decide (deliverable = []) then mret' []
  else
    let ids := map c_id deliverable in
    let* t' := ofo "updateMany"
      (update_many (λ c, bool_decide (c_id c ∈ ids) && (c_status c =s "pending"))
         (set_status "delivered") t) in
    modify (λ _, t') ;;; mret' deliverable.

Definition commands_json (l : list AgentCommand) : json :=
  JObj [("commands", JArr (map command_json l))].

Definition commands_GET (r : request) : M fleet_state response :=
  catch
    (with_key r (λ key,
       match truthy_str (query "agent_id" r) with
       | None => mret' (error 400 "Missing agent_id")
       | Some agentId =>
           if isVpsFleetShadowAgent (Some agentId) then mret' (respond 200 (commands_json []))
           else
             let* deliverable := on_cmds (take_commands (k_tenantId key) agentId) in
             mret' (respond 200 (commands_json deliverable))
       end))
    (λ _, mret' ise).

(** ** POST /api/fleet/commands *)

(** A value Prisma accepts for a string column. *)
Definition want_string (v : option json) : M fleet_state jstring :=
  match v with Some (JStr s) => mret' s | _ => throw "Invalid value provided" end.
(** [v || null] for a nullable string column. *)
Definition want_nullable (v : option json) : M fleet_state (option jstring) :=
  if otruthy v then (let* s := want_string v in mret' (Some s)) else mret' None.

Definition new_command (id tenant : jstring) (now : Z) (target : option jstring)
    (ty payload : jstring) : AgentCommand :=
  {| c_id := id; c_tenantId := tenant; c_targetAgentId := target; c_commandType := ty;
     c_payload := payload; c_executed := false; c_status := "pending"; c_executedAt := None;
     c_signature := None; c_createdAt := now |}.

Definition complete (c : AgentCommand) : AgentCommand :=
  {| c_id := c_id c; c_tenantId := c_tenantId c; c_targetAgentId := c_targetAgentId c;
     c_commandType := c_commandType c; c_payload := c_payload c; c_executed := true;
     c_status := "completed"; c_executedAt := c_executedAt c; c_signature := c_signature c;
     c_createdAt := c_createdAt c |}.

(** [data: { executed: true, status: 'completed' }] of one row *)
Definition complete_row (id : jstring) : M Tc unit :=
  let* t := get in
  let* r := ofo "update" (update_one id complete t) in
  modify (λ _, r.2).

Definition is_ban_type (ty : option json) : bool := is_lit "BAN_IP" ty || is_lit "UNBAN_IP" ty.

(** [id] and [now] are the generated columns of the new row. *)
Definition commands_POST (id : jstring) (now : Z) (r : request) : M fleet_state response :=
  catch
    (let userRole := header "x-user-role" r in
     let userTenant := header "x-user-tenant" r in
     if negb (nonempty (userRole ?? [])) then mret' (error 401 "Unauthorized")
     else
       let* body := ofo "invalid json" (rq_json r) in
       let* commandType := lift_res (jget "commandType" body) in
       let payload := jopt "payload" (Some body) in
       let targetAgentId := jopt "targetAgentId" (Some body) in
       let targetTenantId := jopt "targetTenantId" (Some body) in
       let banReason := jopt "reason" (Some body) in
       match validateFleetCommand body with
       | Some validationErr => mret' (error 400 validationErr)
       | None =>
           if is_lit VPS_FLEET_AGENT_ID targetAgentId then
             mret' (error 403 (VPS_FLEET_AGENT_ID ++ " is SSH watch-only; fleet commands are disabled"))
           else if negb (otruthy commandType) || negb (otruthy payload) then
             mret' (error 400 "Missing parameters")
           else
             let admin := bool_decide (userRole = Some ("admin" : jstring)) in
             let finalTenantId := if admin && otruthy targetTenantId then targetTenantId
                                  else JStr <$> userTenant in
             let* tenant := want_string finalTenantId in
             let* target := want_nullable targetAgentId in
             let* ty := want_string commandType in
             let text := match payload with Some (JStr s) => s | Some v => stringify v | None => [] end in
             let* command := on_cmds (createSignedFleetCommand hmac_hex e
                                        (new_command id tenant now target ty text)) in
             let* immediateBan :=
               (if admin && is_ban_type commandType then
                  let ip := trim (ostr payload) in
                  let reason := match banReason with
                                | Some (JStr s) => sor s "dashboard-fleet"
                                | _ => "dashboard-fleet"
                                end in
                  let* b := on_fleet_calls (executeGuardianBan e post execFile ip
                              (if is_lit "UNBAN_IP" commandType then Unban else Ban) reason) in
                  if gb_ok b then
                    on_fleet_cache invalidateAllBansCache ;;;
                    on_cmds (complete_row (c_id command)) ;;;
                    mret' (Some b)
                  else mret' (Some b)
                else mret' None) in
             mret' (respond 200 (JObj
               [("success", JBool (match immediateBan with Some b => gb_ok b | None => true end));
                ("command", command_json command);
                ("immediateBan", match immediateBan with Some b => gb_json [] b | None => JNull end);
                ("message", match immediateBan with
                            | Some b => gb_message b
                            | None => JStr (ty ++ " kuyruğa alındı")
                            end)]))
       end)
    (λ _, mret' ise).

(** ** POST /api/fleet/commands/ack *)

Definition ack_status (status : option json) : jstring :=
  if is_lit "failed" status then "failed"
  else if is_lit "delivered" status then "delivered" else "executed".

Definition ack_row (st payload : jstring) (now : Z) (c : AgentCommand) : AgentCommand :=
  {| c_id := c_id c; c_tenantId := c_tenantId c; c_targetAgentId := c_targetAgentId c;
     c_commandType := c_commandType c; c_payload := payload;
     c_executed := (st =s "executed") || (st =s "failed"); c_status := st;
     c_executedAt := Some now; c_signature := c_signature c; c_createdAt := c_createdAt c |}.

Definition ack_update (tenantId id : jstring) (body : json) (now : Z) : M Tc response :=
  let* t := get in
  let* found := ofo "findFirst" (find_many (λ c, (c_id c =s id) && (c_tenantId c =s tenantId)) t) in
  match found with
  | [] => mret' (error 404 "Command not found")
  | cmd :: _ =>
      let st := ack_status (jopt "status" (Some body)) in
      let payload :=
        match jopt "detail" (Some body) with
        | Some (JStr (_ :: _ as detail)) =>
            c_payload cmd ++ " | ack:" ++
            to_str (nullish (jopt "agent_id" (Some body)) ?? JStr "?") ++ ":" ++ detail
        | _ => c_payload cmd
        end in
      let* r := ofo "update" (update_one id (ack_row st payload now) t) in
      modify (λ _, r.2) ;;;
      mret' (respond 200 (JObj [("success", JBool true); ("id", JStr id); ("status", JStr st)]))
  end.

Definition ack_POST (now : Z) (r : request) : M fleet_state response :=
  catch
    (with_key r (λ key,
       let* body := ofo "invalid json" (rq_json r) in
       let* id := lift_res (jget "id" body) in
       match id with
       | Some (JStr (_ :: _ as id)) => on_cmds (ack_update (k_tenantId key) id body now)
       | _ => mret' (error 400 "Missing id")
       end))
    (λ _, mret' ise).

(** ** The handlers piece by piece

    Each [await] on the database, and the call to the analyzer, ends a piece: other
    requests run in between.  (The lookup of the API key reads another table and
    decides nothing here about the shared ones; it is part of the first piece.) *)

(** What a poll notes: the deliverable commands its query saw, and those it hands out
    once they are marked. *)
Inductive fleet_event := Looked (l : list AgentCommand) | Handed (l : list AgentCommand).
Abbreviation fleet_proc := (proc fleet_state fleet_event (res response)).

Definition find_open (tenantId agentId : jstring) : M Tc (list AgentCommand) :=
  let* t := get in
  let* commands := ofo "findMany" (find_sorted c_createdAt (open_for tenantId agentId) t) in
  mret' (jfilter verified commands).
Definition mark_delivered (deliverable : list AgentCommand) : M Tc unit :=
  let* t := get in
  let* t' := ofo "updateMany"
    (update_many (λ c, bool_decide (c_id c ∈ map c_id deliverable) && (c_status c =s "pending"))
       (set_status "delivered") t) in
  modify (λ _, t').

Definition take_commands_p (tenantId agentId : jstring) : proc fleet_state fleet_event (res (list AgentCommand)) :=
  let** deliverable := await (on_cmds (find_open tenantId agentId))
                         (λ r, match r with Ok l => [Looked l] | Throw _ => [] end) in
  if bool_decide (deliverable = []) then pret []
  else
    let** _ := await (on_cmds (mark_delivered deliverable))
                 (λ r, match r with Ok _ => [Handed deliverable] | Throw _ => [] end) in
    pret deliverable.

Definition with_key_p (r : request) (k : ApiKey → fleet_proc) : fleet_proc :=
  match bearer_token r with
  | None => pret (error 401 "Unauthorized")
  | Some token =>
      let** key := pofo "apiKey" (findKey token) in
      match key with
      | None => pret (error 401 "Invalid API Key")
      | Some key => k key
      end
  end.

Definition commands_GET_p (r : request) : fleet_proc :=
  pcatch
    (with_key_p r (λ key,
       match truthy_str (query "agent_id" r) with
       | None => pret (error 400 "Missing agent_id")
       | Some agentId =>
           if isVpsFleetShadowAgent (Some agentId) then pret (respond 200 (commands_json []))
           else
             let** deliverable := take_commands_p (k_tenantId key) agentId in
             pret (respond 200 (commands_json deliverable))
       end))
    (λ _, pret ise).

(** [createSignedFleetCommand]: the row is created, then signed. *)
Definition create_row (data : AgentCommand) : M Tc unit :=
  let* t := get in let* t' := ofo "create" (insert_row data t) in modify (λ _, t').
Definition sign_row (id sig : jstring) : M Tc AgentCommand :=
  let* t := get in
  let* r := ofo "update" (update_one id (set_signature sig) t) in
  modify (λ _, r.2) ;;; mret' r.1.
Definition create_signed_p (data : AgentCommand) : proc fleet_state fleet_event (res AgentCommand) :=
  let** _ := silently (on_cmds (create_row data)) in
  match signFleetCommand hmac_hex e (sign_input data) with
  | None => pret data
  | Some signature =>
      if nonempty signature then silently (on_cmds (sign_row (c_id data) signature)) else pret data
  end.

Definition want_string_p (v : option json) : proc fleet_state fleet_event (res jstring) :=
  match v with Some (JStr s) => pret s | _ => pthrow "Invalid value provided" end.
Definition want_nullable_p (v : option json) : proc fleet_state fleet_event (res (option jstring)) :=
  if otruthy v then (let** s := want_string_p v in pret (Some s)) else pret None.

Definition commands_POST_p (id : jstring) (now : Z) (r : request) : fleet_proc :=
  pcatch
    (let userRole := header "x-user-role" r in
     let userTenant := header "x-user-tenant" r in
     if negb (nonempty (userRole ?? [])) then pret (error 401 "Unauthorized")
     else
       let** body := pofo "invalid json" (rq_json r) in
       let** commandType := plift (jget "commandType" body) in
       let payload := jopt "payload" (Some body) in
       let targetAgentId := jopt "targetAgentId" (Some body) in
       let targetTenantId := jopt "targetTenantId" (Some body) in
       let banReason := jopt "reason" (Some body) in
       match validateFleetCommand body with
       | Some validationErr => pret (error 400 validationErr)
       | None =>
           if is_lit VPS_FLEET_AGENT_ID targetAgentId then
             pret (error 403 (VPS_FLEET_AGENT_ID ++ " is SSH watch-only; fleet commands are disabled"))
           else if negb (otruthy commandType) || negb (otruthy payload) then
             pret (error 400 "Missing parameters")
           else
             let admin := bool_decide (userRole = Some ("admin" : jstring)) in
             let finalTenantId := if admin && otruthy targetTenantId then targetTenantId
                                  else JStr <$> userTenant in
             let** tenant := want_string_p finalTenantId in
             let** target := want_nullable_p targetAgentId in
             let** ty := want_string_p commandType in
             let text := match payload with Some (JStr s) => s | Some v => stringify v | None => [] end in
             let** command := create_signed_p (new_command id tenant now target ty text) in
             let** immediateBan :=
               (if admin && is_ban_type commandType then
                  let ip := trim (ostr payload) in
                  let reason := match banReason with
                                | Some (JStr s) => sor s "dashboard-fleet"
                                | _ => "dashboard-fleet"
                                end in
                  let** b := silently (on_fleet_calls (executeGuardianBan e post execFile ip
                               (if is_lit "UNBAN_IP" commandType then Unban else Ban) reason)) in
                  if gb_ok b then
                    let** _ := silently (on_fleet_cache invalidateAllBansCache) in
                    let** _ := silently (on_cmds (complete_row (c_id command))) in
                    pret (Some b)
                  else pret (Some b)
                else pret None) in
             pret (respond 200 (JObj
               [("success", JBool (match immediateBan with Some b => gb_ok b | None => true end));
                ("command", command_json command);
                ("immediateBan", match immediateBan with Some b => gb_json [] b | None => JNull end);
                ("message", match immediateBan with
                            | Some b => gb_message b
                            | None => JStr (ty ++ " kuyruğa alındı")
                            end)]))
       end)
    (λ _, pret ise).

Definition find_acked (tenantId id : jstring) : M Tc (list AgentCommand) :=
  let* t := get in ofo "findFirst" (find_many (λ c, (c_id c =s id) && (c_tenantId c =s tenantId)) t).
Definition update_acked (id st payload : jstring) (now : Z) : M Tc unit :=
  let* t := get in
  let* r := ofo "update" (update_one id (ack_row st payload now) t) in
  modify (λ _, r.2).
Definition ack_update_p (tenantId id : jstring) (body : json) (now : Z) : fleet_proc :=
  let** found := silently (on_cmds (find_acked tenantId id)) in
  match found with
  | [] => pret (error 404 "Command not found")
  | cmd :: _ =>
      let st := ack_status (jopt "status" (Some body)) in
      let payload :=
        match jopt "detail" (Some body) with
        | Some (JStr (_ :: _ as detail)) =>
            c_payload cmd ++ " | ack:" ++
            to_str (nullish (jopt "agent_id" (Some body)) ?? JStr "?") ++ ":" ++ detail
        | _ => c_payload cmd
        end in
      let** _ := silently (on_cmds (update_acked id st payload now)) in
      pret (respond 200 (JObj [("success", JBool true); ("id", JStr id); ("status", JStr st)]))
  end.

Definition ack_POST_p (now : Z) (r : request) : fleet_proc :=
  pcatch
    (with_key_p r (λ key,
       let** body := pofo "invalid json" (rq_json r) in
       let** id := plift (jget "id" body) in
       match id with
       | Some (JStr (_ :: _ as id)) => ack_update_p (k_tenantId key) id body now
       | _ => pret (error 400 "Missing id")
       end))
    (λ _, pret ise).

(** The requests that reach the queue. *)
Inductive fleet_starts : fleet_proc → Prop :=
  | start_poll r : fleet_starts (commands_GET_p r)
  | start_create id now r : fleet_starts (commands_POST_p id now r)
  | start_ack now r : fleet_starts (ack_POST_p now r).

(** *** Without interruption a handler does what the sequential definition says *)

Lemma take_commands_runs tn ag : runs (take_commands_p tn ag) (on_cmds (take_commands tn ag)).
Proof.
  intros s. unfold take_commands_p. rewrite alone_bind. unfold await, find_open, take_commands, on_cmds, mbind', get, ofo, throw, mret'.
  cbn [alone]. destruct (find_sorted _ _ (fs_cmds s)) as [l|]; cbn; [|by destruct s].
  destruct (bool_decide _); cbn; [by destruct s|]. unfold mark_delivered, mbind', get, ofo, throw, modify, mret'. cbn [fs_cmds].
  destruct (update_many _ _ _); cbn; [done|by destruct s].
Qed.
Lemma create_signed_runs data : runs (create_signed_p data) (on_cmds (createSignedFleetCommand hmac_hex e data)).
Proof.
  intros s. unfold create_signed_p. rewrite alone_bind.
  unfold silently, await, create_row, createSignedFleetCommand, on_cmds, mbind', get, ofo, throw, modify, mret'.
  cbn [alone]. destruct (insert_row data (fs_cmds s)) as [t|]; cbn; [|by destruct s].
  destruct (signFleetCommand _ _ _) as [sig|]; [|done]. destruct (nonempty sig); [|done].
  unfold sign_row, mbind', get, ofo, throw, modify, mret'. cbn. by destruct (update_one _ _ t) as [[]|].
Qed.
Lemma ack_update_runs tn id body now : runs (ack_update_p tn id body now) (on_cmds (ack_update tn id body now)).
Proof.
  intros s. unfold ack_update_p. rewrite alone_bind.
  unfold silently, await, find_acked, ack_update, on_cmds, mbind', get, ofo, throw, modify, mret'.
  cbn [alone]. destruct (find_many _ (fs_cmds s)) as [[|c l]|]; cbn; [by destruct s| |by destruct s].
  unfold update_acked, mbind', get, ofo, throw, modify, mret'. cbn.
  destruct (update_one _ _ (fs_cmds s)) as [[]|]; cbn; [done|by destruct s].
Qed.

Ltac runs_steps := repeat match goal with
  | |- runs (pcatch _ _) (catch _ _) => apply runs_catch; [|intros ?]
  | |- runs (let** _ := take_commands_p _ _ in _) _ => apply runs_bind; [apply take_commands_runs|intros ?]
  | |- runs (let** _ := create_signed_p _ in _) _ => apply runs_bind; [apply create_signed_runs|intros ?]
  | |- runs (pbind _ _) (mbind' _ _) => apply runs_bind; [|intros ?]
  | |- runs (silently _) _ => apply runs_await
  | |- runs (pofo _ _) _ => apply runs_ofo
  | |- runs (plift _) _ => apply runs_lift
  | |- runs (ack_update_p _ _ _ _) _ => apply ack_update_runs
  | |- runs (pret _) _ => apply runs_ret
  | |- runs (pthrow _) _ => apply runs_throw
  | |- runs (if ?b then _ else _) _ => destruct b
  | |- runs (match ?x with _ => _ end) _ => destruct x
  end.
Lemma commands_GET_runs r : runs (commands_GET_p r) (commands_GET r).
Proof. unfold commands_GET_p, commands_GET, with_key_p, with_key. runs_steps. Qed.
Lemma commands_POST_runs id now r : runs (commands_POST_p id now r) (commands_POST id now r).
Proof.
  unfold commands_POST_p, commands_POST, want_nullable_p, want_nullable. cbv zeta. runs_steps; unfold want_string_p, want_string; runs_steps.
Qed.
Lemma ack_POST_runs now r : runs (ack_POST_p now r) (ack_POST now r).
Proof. unfold ack_POST_p, ack_POST, with_key_p, with_key. runs_steps. Qed.
End fleet.

(** ** How the table evolves *)

Section evolution.
Context {Tc : Type} `{!Table Tc AgentCommand c_id}.

(** No command disappears, and none that has left [pending] returns to it. *)
Definition forward (t t' : Tc) : Prop :=
  (keyed t → keyed t') ∧
  ∀ c, c ∈ rows t → ∃ c', c' ∈ rows t' ∧ c_id c' = c_id c ∧
    (c_status c ≠ "pending" → c_status c' ≠ "pending").

#[global] Instance forward_preorder : PreOrder forward.
Proof.
  split.
  - intros t. split; [done|]. intros c Hc. exists c. done.
  - intros t1 t2 t3 [K1 F1] [K2 F2]. split; [auto|]. intros c Hc.
    destruct (F1 c Hc) as (c' & Hc' & E1 & P1). destruct (F2 c' Hc') as (c'' & Hc'' & E2 & P2).
    exists c''. splits; [done|congruence|auto].
Qed.

Lemma insert_forward r t t' : insert_row r t = Some t' → forward t t'.
Proof.
  intros H. split; [by eapply insert_keyed|]. intros c Hc. exists c. splits; [|done|done].
  eapply insert_rows; [done|]. by right.
Qed.
(** Column updates that keep the id and do not go back to [pending]. *)
Definition onward (f : AgentCommand → AgentCommand) : Prop :=
  ∀ c, c_id (f c) = c_id c ∧ (c_status c ≠ "pending" → c_status (f c) ≠ "pending").

Lemma update_many_forward p f t t' : onward f → update_many p f t = Some t' → forward t t'.
Proof.
  intros Hf H. split; [by eapply update_many_keyed; [apply Hf|]|]. intros c Hc.
  exists (if p c then f c else c). splits.
  - eapply update_many_rows; [done|]. eauto.
  - destruct (p c); [apply Hf|done].
  - destruct (p c); [apply Hf|done].
Qed.
Lemma update_one_forward id f t r t' : onward f → update_one id f t = Some (r, t') → forward t t'.
Proof.
  intros Hf H. split; [by eapply update_one_keyed; [apply Hf|]|]. intros c Hc.
  exists (if c_id c =s id then f c else c). splits.
  - eapply update_one_rows; [done|]. eauto.
  - destruct (_ =s _); [apply Hf|done].
  - destruct (_ =s _); [apply Hf|done].
Qed.

Lemma onward_signature sig : onward (set_signature sig).
Proof. done. Qed.
Lemma onward_complete : onward complete.
Proof. done. Qed.
Lemma onward_delivered : onward (set_status "delivered").
Proof. done. Qed.
Lemma onward_ack status payload now : onward (ack_row (ack_status status) payload now).
Proof. intros c. split; [done|]. intros _. cbn. unfold ack_status. by repeat split_if. Qed.
End evolution.

#[export] Hint Resolve onward_signature onward_complete onward_delivered onward_ack : lg.

Section facts.
Context (hmac_hex : jstring → jstring → jstring) (e : env).
Context (post : jstring → headers → res (Z * option json))
  (execFile : jstring → list jstring → res (jstring * jstring)).
Context (findKey : jstring → option (option ApiKey)).
Context {Tc : Type} `{!Table Tc AgentCommand c_id}.
Abbreviation state := (@fleet_state Tc).

(** The table after is ahead of [t0]. *)
Definition ahead (t0 : Tc) (s : state) : Prop := forward t0 (fs_cmds s).

Lemma on_cmds_ahead {A} t0 (m : M Tc A) :
  (∀ t, forward t (m t).2) → keeps (ahead t0) (on_cmds m).
Proof.
  intros Hm s Hs. unfold on_cmds, ahead in *. specialize (Hm (fs_cmds s)).
  destruct (m (fs_cmds s)) as [r t]. cbn in *. by etransitivity.
Qed.
Lemma on_calls_ahead {A} t0 (m : M (list ban_call) A) : keeps (ahead t0) (on_fleet_calls m).
Proof. intros s Hs. unfold on_fleet_calls, ahead in *. by destruct (m (fs_calls s)). Qed.
Lemma on_cache_ahead t0 f : keeps (ahead t0) (on_fleet_cache f).
Proof. by intros s Hs. Qed.

Lemma create_forward data t : forward t (createSignedFleetCommand hmac_hex e data t).2.
Proof.
  unfold createSignedFleetCommand, mbind', get, ofo, throw, modify, mret'.
  destruct (insert_row data t) as [t'|] eqn:Ei; [|done]. pose proof (insert_forward _ _ _ Ei) as Hi.
  destruct (signFleetCommand _ _ _) as [sig|]; [|done]. destruct (nonempty sig); [|done].
  destruct (update_one _ _ t') as [[r t'']|] eqn:Eu; [|done]. cbn.
  etransitivity; [exact Hi|]. eapply update_one_forward; [|exact Eu]. auto with lg.
Qed.
Lemma complete_forward id t : forward t (complete_row id t).2.
Proof.
  unfold complete_row, mbind', get, ofo, throw, modify, mret'.
  destruct (update_one _ _ t) as [[r t']|] eqn:Eu; [|done]. eapply update_one_forward; [|exact Eu].
  auto with lg.
Qed.
Lemma ack_forward tn id body now t : forward t (ack_update tn id body now t).2.
Proof.
  unfold ack_update, mbind', get, ofo, throw, modify, mret'.
  destruct (find_many _ t) as [[|cmd l]|]; [done| |done].
  destruct (update_one _ _ t) as [[r t']|] eqn:Eu; [|done]. eapply update_one_forward; [|exact Eu].
  auto with lg.
Qed.
Lemma take_forward tn ag t : forward t (take_commands hmac_hex e tn ag t).2.
Proof.
  unfold take_commands, mbind', get, ofo, throw, modify, mret'.
  destruct (find_sorted _ _ t) as [l|]; [|done]. cbv zeta. destruct (bool_decide _); [done|].
  destruct (update_many _ _ t) as [t'|] eqn:Eu; [|done]. eapply update_many_forward; [|exact Eu].
  auto with lg.
Qed.

Hint Resolve on_calls_ahead on_cache_ahead : lg.
Lemma ofo_keeps {A} t0 m (o : option A) : keeps (ahead t0) (ofo m o).
Proof. unfold ofo. keep_steps. Qed.
Hint Resolve ofo_keeps : lg.

Lemma commands_GET_ahead t0 r : keeps (ahead t0) (commands_GET hmac_hex e findKey r).
Proof.
  unfold commands_GET, with_key. keep_steps. apply on_cmds_ahead. intros; apply take_forward.
Qed.
Lemma want_string_ahead t0 v : keeps (ahead t0) (want_string v).
Proof. unfold want_string. keep_steps. Qed.
Hint Resolve want_string_ahead : lg.
Lemma want_nullable_ahead t0 v : keeps (ahead t0) (want_nullable v).
Proof. unfold want_nullable. keep_steps. Qed.
Hint Resolve want_nullable_ahead : lg.
Lemma commands_POST_ahead t0 id now r :
  keeps (ahead t0) (commands_POST hmac_hex e post execFile id now r).
Proof.
  unfold commands_POST. keep_steps; apply on_cmds_ahead; intros; auto using create_forward, complete_forward.
Qed.
Lemma ack_POST_ahead t0 now r : keeps (ahead t0) (ack_POST findKey now r).
Proof.
  unfold ack_POST, with_key. keep_steps; apply on_cmds_ahead; intros; apply ack_forward.
Qed.
End facts.

(** ** Delivery *)

(** The ids of the commands a response hands to an agent. *)
Definition delivered_ids (r : response) : list jstring :=
  match body_get "commands" r with
  | Some (JArr l) => omap (λ c, as_str (jopt "id" (Some c))) l
  | _ => []
  end.

Lemma delivered_commands l : delivered_ids (respond 200 (commands_json l)) = map c_id l.
Proof.
  change (delivered_ids _) with (omap (λ c, as_str (jopt "id" (Some c))) (map command_json l)).
  induction l as [|c l IH]; [done|]. cbn [map]. change (map c_id (c :: l)) with (c_id c :: map c_id l).
  by rewrite <- IH.
Qed.

Lemma open_for_spec tn ag c :
  open_for tn ag c = true ↔
  c_tenantId c = tn ∧ c_executed c = false ∧ c_status c = "pending" ∧
  (c_targetAgentId c = Some ag ∨ c_targetAgentId c = None).
Proof.
  unfold open_for. rewrite !andb_true_iff, orb_true_iff, !bool_decide_eq_true, !jeq_true, negb_true_iff.
  tauto.
Qed.

Section delivery.
Context (hmac_hex : jstring → jstring → jstring) (e : env).
Context {Tc : Type} `{!Table Tc AgentCommand c_id}.
(** What one poll of the table does when it succeeds. *)
Lemma take_commands_ok tn ag t l t' :
  take_commands hmac_hex e tn ag t = (Ok l, t') →
  sorted_by c_createdAt l ∧
  (∀ c, c ∈ l ↔ c ∈ rows t ∧ open_for tn ag c = true ∧ verified hmac_hex e c = true) ∧
  (keyed t → NoDup (map c_id l)) ∧
  (∀ x, x ∈ rows t' ↔ ∃ c, c ∈ rows t ∧
     x = if bool_decide (c_id c ∈ map c_id l) && (c_status c =s "pending") then set_status "delivered" c else c).
Proof.
  unfold take_commands, mbind', get, ofo, throw, modify, mret'. cbv zeta.
  destruct (find_sorted _ _ t) as [cs|] eqn:Ef; [|done].
  set (d := jfilter _ cs).
  assert (Hd : ∀ c, c ∈ d ↔ c ∈ rows t ∧ open_for tn ag c = true ∧ verified hmac_hex e c = true).
  { intros c. unfold d. rewrite jfilter_elem, (find_sorted_rows _ _ _ _ c Ef). naive_solver. }
  pose proof Ef as [Hp Hs]%find_sorted_law.
  assert (Hsd : sorted_by c_createdAt d) by (eapply sublist_sorted_by; [apply jfilter_sublist|done]).
  assert (Hnd : keyed t → NoDup (map c_id d)).
  { intros Hk. change (map c_id d) with (c_id <$> d).
    eapply sublist_NoDup; [|apply fmap_sublist, jfilter_sublist].
    rewrite Hp. eapply sublist_NoDup; [exact Hk|apply fmap_sublist, jfilter_sublist]. }
  case_bool_decide as Hnil.
  - intros [= <- <-]. rewrite Hnil in *. splits; try done.
    intros x. split; [intros Hx; exists x; split; [done|by rewrite bool_decide_eq_false_2 by apply not_elem_of_nil]|].
    intros (c & Hc & ->). by rewrite bool_decide_eq_false_2 by apply not_elem_of_nil.
  - destruct (update_many _ _ t) as [t2|] eqn:Eu; [|done]. intros [= <- <-]. splits; try done.
    intros x. by rewrite (update_many_rows _ _ _ _ x Eu).
Qed.

Context (findKey : jstring → option (option ApiKey)).

(** A poll either answers without touching the table, or takes commands. *)
Lemma commands_GET_cases r (s s' : @fleet_state Tc) out :
  commands_GET hmac_hex e findKey r s = (out, s') →
  ∃ resp, out = Ok resp ∧
  ((s' = s ∧ delivered_ids resp = []) ∨
   ∃ token key agentId l t',
     bearer_token r = Some token ∧ findKey token = Some (Some key) ∧
     query "agent_id" r = Some agentId ∧ agentId ≠ [] ∧ agentId ≠ VPS_FLEET_AGENT_ID ∧
     take_commands hmac_hex e (k_tenantId key) agentId (fs_cmds s) = (Ok l, t') ∧
     resp = respond 200 (commands_json l) ∧
     s' = {| fs_cmds := t'; fs_calls := fs_calls s; fs_cache := fs_cache s |}).
Proof.
  unfold commands_GET, with_key, catch, mbind', ofo, throw, mret', on_cmds.
  destruct (bearer_token r) as [token|]; [|intros [= <- <-]; eauto].
  destruct (findKey token) as [[key|]|] eqn:Ek; [|intros [= <- <-]; eauto..].
  destruct (truthy_str (query "agent_id" r)) as [ag|] eqn:Eq; [|intros [= <- <-]; eauto].
  apply truthy_str_Some in Eq as [Eq Hne].
  unfold isVpsFleetShadowAgent. case_bool_decide as Hvps; [intros [= <- <-]; eauto|].
  destruct (take_commands _ _ _ _ _) as [[l|m] t'] eqn:Et; intros [= <- <-]; eexists; (split; [done|]).
  - right. exists token, key, ag, l, t'. splits; try done. congruence.
  - left. split; [|done]. f_equal.
    assert (t' = fs_cmds s) as ->; [|by destruct s].
    unfold take_commands, mbind', get, ofo, throw, modify, mret' in Et. cbv zeta in Et.
    repeat (split_match; simplify_eq; try done).
Qed.
End delivery.
