(* ===== verification/FleetProps.v ===== *)
(** What the fleet queue guarantees: tenant isolation, at-most-once delivery up to
    overlapping polls, who can create commands, and what the gate in front of the
    queue lets through. *)

From S2P Require Import Prelude JsString JsNum Json Regex Http Tier Auth Login Middleware BanUtils FetchBanned Bans BanExec JsDate Store FleetCommand Interleave Fleet.

Section polling.
Context (hmac_hex : jstring → jstring → jstring) (e : env).
Context (findKey : jstring → option (option ApiKey)).
Context {Tc : Type} `{!Table Tc AgentCommand c_id}.

(** A poll hands an agent only commands of the tenant its API key belongs
    to, addressed to that agent or to the whole tenant, still pending, not
    executed and with a valid signature, oldest first; and it hands out all of
    those.  Exactly the delivered commands change, to [delivered]. *)
Theorem fleet_poll_sound r (s s' : @fleet_state Tc) resp :
  keyed (fs_cmds s) →
  commands_GET hmac_hex e findKey r s = (Ok resp, s') → delivered_ids resp ≠ [] →
  ∃ token key agentId l,
    bearer_token r = Some token ∧ findKey token = Some (Some key) ∧ query "agent_id" r = Some agentId ∧
    rs_body resp = BJson (commands_json l) ∧ sorted_by c_createdAt l ∧ NoDup (map c_id l) ∧
    (∀ c, c ∈ l ↔ c ∈ rows (fs_cmds s) ∧ c_tenantId c = k_tenantId key ∧
       (c_targetAgentId c = Some agentId ∨ c_targetAgentId c = None) ∧
       c_status c = "pending" ∧ c_executed c = false ∧
       verifyFleetCommandSignature hmac_hex e (sign_input c) (c_signature c) = true) ∧
    (∀ x, x ∈ rows (fs_cmds s') ↔
       (x ∈ rows (fs_cmds s) ∧ x ∉ l) ∨ ∃ c, c ∈ l ∧ x = set_status "delivered" c).
Proof.
  intros Hk E Hne. apply commands_GET_cases in E as (resp' & [= <-] & [[_ Hnil]|H]); [done|].
  destruct H as (token & key & ag & l & t' & Hb & Hkey & Hq & _ & _ & Ht & -> & ->).
  apply take_commands_ok in Ht as (Hs & Hl & Hnd & Hrows).
  exists token, key, ag, l. splits; try done; [auto| |].
  - intros c. rewrite Hl, open_for_spec. unfold verified. naive_solver.
  - cbn [fs_cmds]. intros x. rewrite Hrows. clear Hrows. split.
    + intros (c & Hc & ->). destruct (bool_decide _ && _) eqn:Eb.
      * bprop. right. exists c. split; [|done].
        match goal with H : _ ∈ map c_id l |- _ => apply list_elem_of_fmap in H as (d & Hd & Hdl) end.
        assert (d = c) as ->; [|done]. apply Hl in Hdl as Hd'. destruct Hd' as [Hdr _].
        by eapply keyed_eq.
      * left. split; [done|]. intros Hcl. pose proof Hcl as Hc2. apply Hl in Hc2 as (_ & Ho & _).
        apply open_for_spec in Ho as (_ & _ & Hp & _).
        rewrite bool_decide_eq_true_2, Hp, jeq_refl in Eb by (by apply list_elem_of_fmap_2).
        done.
    + intros [[Hx Hxl]|(c & Hc & ->)].
      * exists x. split; [done|]. destruct (bool_decide _ && _) eqn:Eb; [|done]. bprop.
        match goal with H : _ ∈ map c_id l |- _ => apply list_elem_of_fmap in H as (d & Hd & Hdl) end.
        exfalso. assert (d = x) as ->; [|done]. apply Hl in Hdl as Hd'. destruct Hd' as [Hdr _].
        by eapply keyed_eq.
      * apply Hl in Hc as Hc2. destruct Hc2 as (Hcr & Ho & _). exists c. split; [done|].
        apply open_for_spec in Ho as (_ & _ & Hp & _).
        by rewrite bool_decide_eq_true_2, Hp, jeq_refl by (by apply list_elem_of_fmap_2).
Qed.
End polling.

(** ** Histories *)

Section props.
Context (hmac_hex : jstring → jstring → jstring) (e : env).
Context (post : jstring → headers → res (Z * option json))
  (execFile : jstring → list jstring → res (jstring * jstring)).
Context (findKey : jstring → option (option ApiKey)).
Context {Tc : Type} `{!Table Tc AgentCommand c_id}.
Abbreviation state := (@fleet_state Tc).

(** The queue over time: the requests handled, one after the other, and the
    ids handed out so far. *)
Inductive fleet_reach (s0 : state) : state → list jstring → Prop :=
  | fr_init : fleet_reach s0 s0 []
  | fr_get s log r resp s' :
      fleet_reach s0 s log → commands_GET hmac_hex e findKey r s = (Ok resp, s') →
      fleet_reach s0 s' (log ++ delivered_ids resp)
  | fr_post s log id now r :
      fleet_reach s0 s log →
      fleet_reach s0 (commands_POST hmac_hex e post execFile id now r s).2 log
  | fr_ack s log now r :
      fleet_reach s0 s log → fleet_reach s0 (ack_POST findKey now r s).2 log.

(** Every id handed out names a command that has left [pending]. *)
Definition log_inv (t : Tc) (log : list jstring) : Prop :=
  keyed t ∧ NoDup log ∧ ∀ id, id ∈ log → ∃ c, c ∈ rows t ∧ c_id c = id ∧ c_status c ≠ "pending".

Lemma log_inv_forward t t' log : forward t t' → log_inv t log → log_inv t' log.
Proof.
  intros [Hk Hf] (K & N & Hl). unfold log_inv. splits; [auto|done|]. intros id (c & Hc & <- & Hp)%Hl.
  destruct (Hf c Hc) as (c' & Hc' & E & Hp'). exists c'. auto.
Qed.

Lemma take_log_inv tn ag t l t' log :
  take_commands hmac_hex e tn ag t = (Ok l, t') → log_inv t log → log_inv t' (log ++ map c_id l).
Proof.
  intros Ht Hi. pose proof (take_forward hmac_hex e tn ag t) as Hf. rewrite Ht in Hf. cbn in Hf.
  pose proof (log_inv_forward _ _ _ Hf Hi) as (K' & N' & Hl').
  destruct Hi as (K & N & Hl). apply take_commands_ok in Ht as (_ & Hel & Hnd & Hrows).
  assert (Hpend : ∀ c, c ∈ l → c ∈ rows t ∧ c_status c = "pending").
  { intros c Hc. apply Hel in Hc as (Hc & Ho & _). by apply open_for_spec in Ho as (_ & _ & ? & _). }
  unfold log_inv. splits; [done| |].
  - apply NoDup_app. splits; [done| |auto]. intros id Hid (c & -> & Hc)%list_elem_of_fmap.
    destruct (Hl _ Hid) as (c' & Hc' & Eid & Hp). destruct (Hpend c Hc) as [Hcr Hcp].
    apply Hp. by rewrite (keyed_eq t c' c).
  - intros id [Hid|(c & -> & Hc)%list_elem_of_fmap]%elem_of_app; [auto|].
    destruct (Hpend c Hc) as [Hcr Hcp]. exists (set_status "delivered" c). splits; [|done|done].
    apply Hrows. exists c. split; [done|].
    by rewrite bool_decide_eq_true_2, Hcp, jeq_refl by (by apply list_elem_of_fmap_2).
Qed.

Lemma fleet_reach_inv s0 s log :
  keyed (fs_cmds s0) → fleet_reach s0 s log → log_inv (fs_cmds s) log.
Proof.
  intros K0. induction 1 as [|s log r resp s' _ IH E|s log id now r _ IH|s log now r _ IH].
  - unfold log_inv. splits; [done|constructor|]. intros id Hid. by apply elem_of_nil in Hid.
  - apply commands_GET_cases in E as (resp' & [= <-] & [[-> ->]|H]); [by rewrite app_nil_r|].
    destruct H as (token & key & ag & l & t' & _ & _ & _ & _ & _ & Ht & -> & ->).
    rewrite delivered_commands. cbn [fs_cmds]. by eapply take_log_inv.
  - eapply log_inv_forward; [|exact IH].
    apply (commands_POST_ahead hmac_hex e post execFile (fs_cmds s) id now r s). unfold ahead. reflexivity.
  - eapply log_inv_forward; [|exact IH].
    apply (ack_POST_ahead findKey (fs_cmds s) now r s). unfold ahead. reflexivity.
Qed.

(** Requests handled one after the other hand out no command twice. *)
Lemma fleet_serial_once s0 s log :
  keyed (fs_cmds s0) → fleet_reach s0 s log →
  NoDup log ∧ ∀ c, c ∈ rows (fs_cmds s) → c_id c ∈ log → c_status c ≠ "pending".
Proof.
  intros K0 Hr. destruct (fleet_reach_inv _ _ _ K0 Hr) as (K & N & Hl). split; [done|].
  intros c Hc Hid. destruct (Hl _ Hid) as (c' & Hc' & E & Hp). by rewrite (keyed_eq (fs_cmds s) c c').
Qed.

(** A command for all agents of a tenant reaches only the first agent that
    polls: once one poll has handed it out, the next poll, by whichever agent,
    does not contain it. *)
Theorem fleet_broadcast_first_only r1 r2 (s s1 s2 : state) resp1 resp2 c :
  keyed (fs_cmds s) → c ∈ rows (fs_cmds s) → c_targetAgentId c = None →
  commands_GET hmac_hex e findKey r1 s = (Ok resp1, s1) →
  commands_GET hmac_hex e findKey r2 s1 = (Ok resp2, s2) →
  c_id c ∈ delivered_ids resp1 → c_id c ∉ delivered_ids resp2.
Proof.
  intros K Hc Hb E1 E2 Hin1 Hin2.
  pose proof (fr_get s _ _ _ _ _ (fr_get s _ _ _ _ _ (fr_init s) E1) E2) as Hr.
  apply fleet_reach_inv in Hr as (_ & N & _); [|done].
  apply NoDup_app in N as (_ & Hd & _). by apply (Hd (c_id c)).
Qed.
End props.

(** ** Overlapping requests *)

Section pieces.
Context (hmac_hex : jstring → jstring → jstring) (e : env).
Context (post : jstring → headers → res (Z * option json))
  (execFile : jstring → list jstring → res (jstring * jstring)).
Context (findKey : jstring → option (option ApiKey)).
Context {Tc : Type} `{!Table Tc AgentCommand c_id}.
Abbreviation state := (@fleet_state Tc).

(** An answer that hands out nothing. *)
Definition hands_nothing (r : res response) : Prop := ∃ resp, r = Ok resp ∧ delivered_ids resp = [].

(** The pieces of creations and acknowledgements, given what their statements do. *)
Section quiet.
Context (K : state → state → Prop).
Hypothesis K_other : ∀ s s', fs_cmds s' = fs_cmds s → K s s'.
Hypothesis K_create : ∀ id tn now target ty text s, K s (on_cmds (create_row (new_command id tn now target ty text)) s).2.
Hypothesis K_sign : ∀ id sig s, K s (on_cmds (sign_row id sig) s).2.
Hypothesis K_complete : ∀ id s, K s (on_cmds (complete_row id) s).2.
Hypothesis K_ack : ∀ id status payload now s, K s (on_cmds (update_acked id (ack_status status) payload now) s).2.

Lemma K_calls {A} (m : M (list ban_call) A) s : K s (on_fleet_calls m s).2.
Proof. apply K_other. unfold on_fleet_calls. by destruct (m (fs_calls s)). Qed.
Lemma K_cache f s : K s (on_fleet_cache f s).2.
Proof. by apply K_other. Qed.
Lemma K_find tn id s : K s (on_cmds (find_acked tn id) s).2.
Proof.
  apply K_other. unfold on_cmds, find_acked, mbind', get, ofo, throw, mret'. by destruct (find_many _ _).
Qed.

Ltac silent_steps := repeat match goal with
  | |- silent _ _ (pcatch _ _) => apply silent_catch; [|intros ?]
  | |- silent _ _ (pbind _ _) => apply silent_bind; [| |intros ?]
  | |- silent _ _ (silently _) => apply silent_silently; [intros ?|]
  | |- silent _ _ (pofo _ _) => apply silent_ofo
  | |- silent _ _ (if ?b then _ else _) => destruct b
  | |- silent _ _ (match ?x with _ => _ end) => destruct x
  | |- silent _ _ (pret _) => cbn
  | |- silent _ _ (pthrow _) => cbn
  | |- silent _ _ (plift _) => cbn
  | |- K _ _ => first [apply K_create|apply K_sign|apply K_complete|apply K_ack|apply K_calls|apply K_cache|apply K_find]
  | |- any _ => done
  | |- True => done
  | |- ∀ _, _ => intros ?
  | |- hands_nothing _ => eexists; split; [reflexivity|reflexivity]
  end.

Lemma create_silent id now r : silent K hands_nothing (commands_POST_p hmac_hex e post execFile id now r).
Proof.
  unfold commands_POST_p, create_signed_p, want_string_p, want_nullable_p. cbv zeta.
  silent_steps; try done; unfold want_string_p; silent_steps.
Qed.
Lemma ack_silent now r : silent K hands_nothing (ack_POST_p findKey now r).
Proof. unfold ack_POST_p, with_key_p, ack_update_p. cbv zeta. silent_steps; done. Qed.
End quiet.

(** A poll is its query and its update, and an answer. *)
Lemma poll_wp (G : state → state → Prop) I t m r :
  (∀ tn ag, wp G I t m (take_commands_p hmac_hex e tn ag)
     (λ out m', match out with
                | Ok l => closes G I t (Ok (respond 200 (commands_json l))) m'
                | Throw _ => closes G I t (Ok ise) m'
                end)) →
  (∀ resp, delivered_ids resp = [] → closes G I t (Ok resp) m) →
  safe G I t m (commands_GET_p hmac_hex e findKey r).
Proof.
  intros Htake Hempty. unfold safe, commands_GET_p, with_key_p. apply wp_catch.
  destruct (bearer_token r) as [token|]; [|by apply Hempty].
  destruct (findKey token) as [[key|]|]; cbn [pofo pbind pret pthrow wp]; [|by apply Hempty..].
  destruct (truthy_str (query "agent_id" r)) as [ag|]; cbn [wp]; [|by apply Hempty].
  destruct (isVpsFleetShadowAgent (Some ag)); cbn [wp]; [by apply Hempty|].
  apply wp_bind. specialize (Htake (k_tenantId key) ag). revert Htake.
  generalize (take_commands_p hmac_hex e (k_tenantId key) ag) as p. intros p. clear.
  revert m. induction p as [[l|msg]|step sees next IH]; intros m; cbn; [done..|].
  intros H m' Hr Hi. destruct (H m' Hr Hi) as (H1 & H2 & H3). splits; [done|done|by apply IH].
Qed.
End pieces.

Section statements.
Context (hmac_hex : jstring → jstring → jstring) (e : env).
Context {Tc : Type} `{!Table Tc AgentCommand c_id}.
Abbreviation state := (@fleet_state Tc).
Abbreviation fleet_log := (list (nat * entry fleet_event (res response))).

(** The table goes forward in every piece. *)
Definition onwards (s s' : state) : Prop := forward (fs_cmds s) (fs_cmds s').
#[export] Instance onwards_preorder : PreOrder onwards.
Proof.
  split; [intros s; unfold onwards; reflexivity|]. intros s1 s2 s3 H1 H2. unfold onwards in *. by etrans.
Qed.
Lemma on_cmds_onwards {A} (m : M Tc A) s : (∀ t, forward t (m t).2) → onwards s (on_cmds m s).2.
Proof. intros Hm. unfold onwards, on_cmds. specialize (Hm (fs_cmds s)). by destruct (m (fs_cmds s)). Qed.

Lemma create_row_forward data (t : Tc) : forward t (create_row data t).2.
Proof.
  unfold create_row, mbind', get, ofo, throw, modify, mret'.
  destruct (insert_row data t) as [t'|] eqn:Ei; [by eapply insert_forward|reflexivity].
Qed.
Lemma sign_row_forward id sig (t : Tc) : forward t (sign_row id sig t).2.
Proof.
  unfold sign_row, mbind', get, ofo, throw, modify, mret'.
  destruct (update_one _ _ t) as [[r t']|] eqn:Eu; [|reflexivity]. eapply update_one_forward; [|exact Eu]. auto with lg.
Qed.
Lemma update_acked_forward id status payload now (t : Tc) : forward t (update_acked id (ack_status status) payload now t).2.
Proof.
  unfold update_acked, mbind', get, ofo, throw, modify, mret'.
  destruct (update_one _ _ t) as [[r t']|] eqn:Eu; [|reflexivity]. eapply update_one_forward; [|exact Eu]. auto with lg.
Qed.

(** What a poll's query sees and what its update does. *)
Lemma find_open_ok tn ag t l t' : find_open hmac_hex e tn ag t = (Ok l, t') →
  t' = t ∧ sorted_by c_createdAt l ∧ (keyed t → NoDup (map c_id l)) ∧
  ∀ c, c ∈ l ↔ c ∈ rows t ∧ open_for tn ag c = true ∧ verified hmac_hex e c = true.
Proof.
  unfold find_open, mbind', get, ofo, throw, mret'. destruct (find_sorted _ _ t) as [cs|] eqn:Ef; [|done].
  intros [= <- <-]. pose proof Ef as [Hp Hs]%find_sorted_law. splits; [done| | |].
  - eapply sublist_sorted_by; [apply jfilter_sublist|done].
  - intros Hk. change (map c_id ?l) with (c_id <$> l). eapply sublist_NoDup; [|apply fmap_sublist, jfilter_sublist].
    rewrite Hp. eapply sublist_NoDup; [exact Hk|apply fmap_sublist, jfilter_sublist].
  - intros c. rewrite jfilter_elem, (find_sorted_rows _ _ _ _ c Ef). naive_solver.
Qed.
Lemma find_open_same tn ag t : (find_open hmac_hex e tn ag t).2 = t.
Proof. unfold find_open, mbind', get, ofo, throw, mret'. by destruct (find_sorted _ _ t). Qed.
Lemma mark_delivered_ok l t t' : mark_delivered l t = (Ok tt, t') →
  ∀ x, x ∈ rows t' ↔ ∃ c, c ∈ rows t ∧
    x = if bool_decide (c_id c ∈ map c_id l) && (c_status c =s "pending") then set_status "delivered" c else c.
Proof.
  unfold mark_delivered, mbind', get, ofo, throw, modify, mret'. destruct (update_many _ _ t) as [t2|] eqn:Eu; [|done].
  intros [= <-] x. by rewrite (update_many_rows _ _ _ _ x Eu).
Qed.
Lemma mark_forward l (t : Tc) : forward t (mark_delivered l t).2.
Proof.
  unfold mark_delivered, mbind', get, ofo, throw, modify, mret'. destruct (update_many _ _ t) as [t2|] eqn:Eu; [|reflexivity].
  eapply update_many_forward; [|exact Eu]. auto with lg.
Qed.
Lemma mark_throws l (t : Tc) msg : (mark_delivered l t).1 = Throw msg → (mark_delivered l t).2 = t.
Proof. unfold mark_delivered, mbind', get, ofo, throw, modify, mret'. by destruct (update_many _ _ t). Qed.

(** *** What the log says *)

Implicit Types (l : fleet_log) (cs : list AgentCommand) (p : nat).

(** The answer of a poll hands out what its query saw and its update marked. *)
Definition answered_ok p (r : res response) l : Prop :=
  ∃ resp, r = Ok resp ∧
    (delivered_ids resp = [] ∨
     ∃ cs, delivered_ids resp = map c_id cs ∧ NoDup (map c_id cs) ∧
       precedes (p, Did (Looked cs)) (p, Did (Handed cs)) l).
Definition log_ok (t : Tc) l : Prop :=
  keyed t ∧
  (∀ p cs c, (p, Did (Handed cs)) ∈ l → c ∈ cs → ∃ c', c' ∈ rows t ∧ c_id c' = c_id c ∧ c_status c' ≠ "pending") ∧
  (∀ p1 cs1 p2 cs2 c1 c2, precedes (p1, Did (Handed cs1)) (p2, Did (Looked cs2)) l →
     c1 ∈ cs1 → c2 ∈ cs2 → c_id c1 ≠ c_id c2) ∧
  (∀ p r, (p, Answered r) ∈ l → answered_ok p r l).
Definition queue_ok (m : moment state fleet_event (res response)) : Prop := log_ok (fs_cmds (shared m)) (log m).

Lemma answered_later p r l l' : answered_ok p r l → answered_ok p r (l ++ l').
Proof.
  intros (resp & -> & [H|(cs & H1 & H2 & H3)]); exists resp; (split; [done|]); [by left|right].
  exists cs. splits; [done|done|by apply precedes_app].
Qed.
Lemma log_ok_forward t t' l : forward t t' → log_ok t l → log_ok t' l.
Proof.
  intros [Hk Hf] (K & Ha & Hb & Hc). unfold log_ok. splits; [auto| |done|done].
  intros p cs c Hp Hcs. destruct (Ha p cs c Hp Hcs) as (c' & Hc' & E & Hs).
  destruct (Hf c' Hc') as (c'' & Hc'' & E' & Hs'). exists c''. splits; [done|congruence|auto].
Qed.
Lemma log_ok_nil t : keyed t → log_ok t [].
Proof.
  intros K. unfold log_ok. splits; [done| | |].
  - intros p cs c Hp. by apply elem_of_nil in Hp.
  - intros p1 cs1 p2 cs2 c1 c2 [Hp _]%precedes_elem. by apply elem_of_nil in Hp.
  - intros p r Hp. by apply elem_of_nil in Hp.
Qed.
Lemma log_ok_looked t l p cs :
  (∀ c, c ∈ cs → c ∈ rows t ∧ c_status c = "pending") → log_ok t l → log_ok t (l ++ [(p, Did (Looked cs))]).
Proof.
  intros Hcs (K & Ha & Hb & Hc). unfold log_ok. splits; [done| | |].
  - intros p' cs' c [Hp|Hp%list_elem_of_singleton]%elem_of_app; [by apply (Ha p')|done].
  - intros p1 cs1 p2 cs2 c1 c2 [Hp|[Hp Hin]]%precedes_snoc_inv H1 H2; [by eapply Hb|]. injection Hp as -> ->.
    destruct (Ha p1 cs1 c1 Hin H1) as (c' & Hc' & E & Hs). destruct (Hcs c2 H2) as [Hr Hpend]. intros E'.
    apply Hs. rewrite (keyed_eq t c' c2); [done..|congruence].
  - intros p' r [Hp|Hp%list_elem_of_singleton]%elem_of_app; [|done]. by apply answered_later, Hc.
Qed.
Lemma log_ok_handed t t' l p cs :
  (∀ c, c ∈ cs → ∃ c', c' ∈ rows t ∧ c_id c' = c_id c) → mark_delivered cs t = (Ok tt, t') →
  log_ok t l → log_ok t' (l ++ [(p, Did (Handed cs))]).
Proof.
  intros Hex Hm Hl. pose proof (mark_forward cs t) as Hf. rewrite Hm in Hf. cbn [snd] in Hf.
  apply (log_ok_forward _ _ _ Hf) in Hl as (K & Ha & Hb & Hc). pose proof (mark_delivered_ok _ _ _ Hm) as Hrows.
  unfold log_ok. splits; [done| | |].
  - intros p' cs' c [Hp|Hp%list_elem_of_singleton]%elem_of_app Hin; [by apply (Ha p' cs')|]. injection Hp as -> ->.
    destruct (Hex c Hin) as (c' & Hc' & E). eexists. split; [apply Hrows; by exists c'|].
    rewrite E, bool_decide_eq_true_2 by (by apply list_elem_of_fmap_2). cbn [andb].
    destruct (c_status c' =s "pending") eqn:Es; [done|]. bprop. done.
  - intros p1 cs1 p2 cs2 c1 c2 [Hp|[Hp _]]%precedes_snoc_inv; [by eapply Hb|done].
  - intros p' r [Hp|Hp%list_elem_of_singleton]%elem_of_app; [|done]. by apply answered_later, Hc.
Qed.
Lemma log_ok_answer t l p r : answered_ok p r l → log_ok t l → log_ok t (l ++ [(p, Answered r)]).
Proof.
  intros Hr (K & Ha & Hb & Hc). unfold log_ok. splits; [done| | |].
  - intros p' cs' c [Hp|Hp%list_elem_of_singleton]%elem_of_app; [by apply (Ha p')|done].
  - intros p1 cs1 p2 cs2 c1 c2 [Hp|[Hp _]]%precedes_snoc_inv; [by eapply Hb|done].
  - intros p' r' [Hp|Hp%list_elem_of_singleton]%elem_of_app; apply answered_later; [by apply Hc|by injection Hp as -> ->].
Qed.

Lemma nothing_closes p resp m : delivered_ids resp = [] → closes onwards queue_ok p (Ok resp) m.
Proof. intros Hd m' _ Hi. apply log_ok_answer; [|done]. exists resp. split; [done|by left]. Qed.

Lemma take_wp p m tn ag :
  wp onwards queue_ok p m (take_commands_p hmac_hex e tn ag)
    (λ out m', match out with
               | Ok cs => closes onwards queue_ok p (Ok (respond 200 (commands_json cs))) m'
               | Throw _ => closes onwards queue_ok p (Ok ise) m'
               end).
Proof.
  unfold take_commands_p. apply wp_bind. cbn. intros m1 _ Hi1.
  assert (Hsame : (on_cmds (find_open hmac_hex e tn ag) (shared m1)).2 = shared m1).
  { unfold on_cmds. pose proof (find_open_same tn ag (fs_cmds (shared m1))) as Hs.
    destruct (find_open _ _ _ _ _) as [out t']. cbn in Hs |- *. rewrite Hs. by destruct (shared m1). }
  unfold fire. rewrite Hsame. unfold on_cmds. pose proof (find_open_same tn ag (fs_cmds (shared m1))) as Hs.
  destruct (find_open hmac_hex e tn ag (fs_cmds (shared m1))) as [[cs|msg] t'] eqn:Ef; cbn [fst map].
  2:{ rewrite app_nil_r. splits; [by destruct m1|reflexivity|]. by apply nothing_closes. }
  apply find_open_ok in Ef as (_ & _ & Hnd & Hcs).
  assert (Hpend : ∀ c, c ∈ cs → c ∈ rows (fs_cmds (shared m1)) ∧ c_status c = "pending").
  { intros c Hc. apply Hcs in Hc as (Hc & Ho & _). by apply open_for_spec in Ho as (_ & _ & ? & _). }
  splits; [by apply log_ok_looked|reflexivity|]. destruct (bool_decide _) eqn:Enil; [by apply nothing_closes|].
  intros m2 [Hg (ext & El & _)] Hi2. cbn [shared log] in Hg, El.
  assert (Hex : ∀ c, c ∈ cs → ∃ c', c' ∈ rows (fs_cmds (shared m2)) ∧ c_id c' = c_id c).
  { intros c Hc. destruct (proj2 Hg c (proj1 (Hpend c Hc))) as (c' & ? & ? & _). eauto. }
  assert (Hlook : (p, Did (Looked cs)) ∈ log m2) by (rewrite El; set_solver).
  assert (Hkeyed : NoDup (map c_id cs)) by (apply Hnd, Hi1).
  unfold fire, on_cmds. pose proof (mark_forward cs (fs_cmds (shared m2))) as Hf.
  destruct (mark_delivered cs (fs_cmds (shared m2))) as [[[]|msg] t2] eqn:Em; cbn [fst snd map shared log fs_cmds] in *.
  - splits; [by eapply log_ok_handed|done|]. cbn. intros m3 [_ (ext' & El' & _)] Hi3. cbn [log] in El'.
    apply log_ok_answer; [|done]. eexists. split; [done|]. right. exists cs. rewrite delivered_commands.
    splits; [done|done|]. rewrite El'. apply precedes_app, precedes_snoc, Hlook.
  - rewrite app_nil_r. splits; [by eapply log_ok_forward|done|]. by apply nothing_closes.
Qed.
End statements.

Section overlap.
Context (hmac_hex : jstring → jstring → jstring) (e : env).
Context (post : jstring → headers → res (Z * option json))
  (execFile : jstring → list jstring → res (jstring * jstring)).
Context (findKey : jstring → option (option ApiKey)).
Context {Tc : Type} `{!Table Tc AgentCommand c_id}.
Abbreviation fleet_log := (list (nat * entry fleet_event (res response))).
Abbreviation starts := (fleet_starts hmac_hex e post execFile findKey).
Implicit Types (l : fleet_log).

Lemma overlap_inv s0 c :
  keyed (fs_cmds s0) → pool_reach starts s0 c → queue_ok (at_moment c) ∧ forward (fs_cmds s0) (fs_cmds (shared (at_moment c))).
Proof.
  intros K0. apply (pool_invariant starts onwards queue_ok).
  - by apply log_ok_nil.
  - intros t m p Hst Hi _.
    assert (Hq : ∀ q, silent onwards hands_nothing q → safe onwards queue_ok t m q).
    { intros q. apply silent_wp; [done| |].
      - intros m' s' Hi' Hk. by eapply log_ok_forward.
      - intros r m' (resp & -> & Hd). by apply nothing_closes. }
    destruct Hst as [r|id now r|now r].
    + apply poll_wp; [intros; apply take_wp|intros; by apply nothing_closes].
    + apply Hq, create_silent; intros.
      * unfold onwards. by rewrite H.
      * apply on_cmds_onwards. intros; apply create_row_forward.
      * apply on_cmds_onwards. intros; apply sign_row_forward.
      * apply on_cmds_onwards. intros; apply complete_forward.
    + apply Hq, ack_silent; intros.
      * unfold onwards. by rewrite H.
      * apply on_cmds_onwards. intros; apply update_acked_forward.
Qed.

(** The query of each of two polls came before the other one's update. *)
Definition overlapped (p1 p2 : nat) l : Prop :=
  ∃ cs1 cs2, precedes (p1, Did (Looked cs1)) (p2, Did (Handed cs2)) l ∧
             precedes (p2, Did (Looked cs2)) (p1, Did (Handed cs1)) l.

(** Two answers with a command in common come from overlapping polls. *)
Lemma common_overlapped t l p1 p2 resp1 resp2 id :
  log_ok t l → (p1, Answered (Ok resp1)) ∈ l → (p2, Answered (Ok resp2)) ∈ l →
  id ∈ delivered_ids resp1 → id ∈ delivered_ids resp2 → overlapped p1 p2 l.
Proof.
  intros (_ & _ & Hb & Hc) H1 H2 D1 D2.
  destruct (Hc _ _ H1) as (? & [= <-] & [E|(cs1 & E1 & _ & P1)]); [rewrite E in D1; by apply elem_of_nil in D1|].
  destruct (Hc _ _ H2) as (? & [= <-] & [E|(cs2 & E2 & _ & P2)]); [rewrite E in D2; by apply elem_of_nil in D2|].
  rewrite E1 in D1. rewrite E2 in D2. apply list_elem_of_fmap in D1 as (c1 & -> & D1), D2 as (c2 & Ec & D2).
  apply precedes_elem in P1 as [L1 M1], P2 as [L2 M2]. exists cs1, cs2. split.
  - destruct (precedes_total (p1, Did (Looked cs1)) (p2, Did (Handed cs2)) l) as [H|H]; [done..|].
    destruct (Hb _ _ _ _ c2 c1 H D2 D1). congruence.
  - destruct (precedes_total (p2, Did (Looked cs2)) (p1, Did (Handed cs1)) l) as [H|H]; [done..|].
    destruct (Hb _ _ _ _ c1 c2 H D1 D2). congruence.
Qed.

(** C8. At-most-once delivery, as far as the code gives it: polls, new commands and
    acknowledgements run in any order and in any interleaving of their database
    statements. No answer names a command twice, and what an answer handed out is never
    pending again. A command is handed out by two polls only if the two overlap, the
    query of each running before the update of the other; a poll that starts after
    another one was answered hands out none of its commands. *)
Theorem fleet_at_most_once s0 c :
  keyed (fs_cmds s0) → pool_reach starts s0 c →
  (∀ p resp, (p, Answered (Ok resp)) ∈ log (at_moment c) →
     NoDup (delivered_ids resp) ∧
     ∀ x, x ∈ rows (fs_cmds (shared (at_moment c))) → c_id x ∈ delivered_ids resp → c_status x ≠ "pending") ∧
  (∀ p1 p2 resp1 resp2 id, p1 ≠ p2 →
     (p1, Answered (Ok resp1)) ∈ log (at_moment c) → (p2, Answered (Ok resp2)) ∈ log (at_moment c) →
     id ∈ delivered_ids resp1 → id ∈ delivered_ids resp2 → overlapped p1 p2 (log (at_moment c))) ∧
  (∀ p1 p2 resp1 resp2 before after id, p1 ≠ p2 →
     log (at_moment c) = before ++ (p1, Answered (Ok resp1)) :: after → Forall (λ x, x.1 ≠ p2) before →
     (p2, Answered (Ok resp2)) ∈ after → id ∈ delivered_ids resp1 → id ∉ delivered_ids resp2).
Proof.
  intros K0 Hr. destruct (overlap_inv s0 c K0 Hr) as [Hi _]. pose proof Hi as (K & Ha & _ & Hc). splits.
  - intros p resp Hp. destruct (Hc _ _ Hp) as (? & [= <-] & [->|(cs & -> & Hnd & [_ Hm]%precedes_elem)]).
    + split; [constructor|]. intros x _ Hx. by apply elem_of_nil in Hx.
    + split; [done|]. intros x Hx (c' & E & Hc')%list_elem_of_fmap.
      destruct (Ha p cs c' Hm Hc') as (y & Hy & Ey & Hs). rewrite (keyed_eq _ x y K Hx Hy) by congruence. done.
  - intros p1 p2 resp1 resp2 id _. by eapply common_overlapped.
  - intros p1 p2 resp1 resp2 before after id Hne El Hq H2 D1 D2.
    assert (overlapped p1 p2 (log (at_moment c))) as (cs1 & cs2 & _ & Ho)
      by (eapply common_overlapped; [exact Hi| | |exact D1|exact D2]; rewrite El; set_solver).
    by eapply answered_before in Ho.
Qed.

End overlap.

(** ** Creating commands *)

Section creating.
Context (hmac_hex : jstring → jstring → jstring) (e : env).
Context {Tc : Type} `{!Table Tc AgentCommand c_id}.

Lemma map_skip_fresh id (f : AgentCommand → AgentCommand) l :
  id ∉ map c_id l → map (λ x, if c_id x =s id then f x else x) l = l.
Proof.
  induction l as [|x l IH]; [done|]. cbn [map]. intros [Hx Hl]%not_elem_of_cons.
  rewrite IH by done. destruct (c_id x =s id) eqn:E; bprop; [congruence|done].
Qed.

(** Creation adds one row, or nothing; a failure to sign leaves the row unsigned. *)
Lemma create_cases data t out t' :
  createSignedFleetCommand hmac_hex e data t = (out, t') →
  (insert_row data t = None ∧ t' = t ∧ ∃ m, out = Throw m) ∨
  (c_id data ∉ map c_id (rows t) ∧
   ((rows t' ≡ₚ data :: rows t ∧ (out = Ok data ∨ ∃ m, out = Throw m)) ∨
    ∃ sig, signFleetCommand hmac_hex e (sign_input data) = Some sig ∧
           rows t' ≡ₚ set_signature sig data :: rows t ∧ out = Ok (set_signature sig data))).
Proof.
  unfold createSignedFleetCommand, mbind', get, ofo, throw, modify, mret'.
  destruct (insert_row data t) as [t1|] eqn:Ei; [|intros [= <- <-]; left; eauto].
  apply insert_law in Ei as [Hp Hn].
  destruct (signFleetCommand _ _ _) as [sig|]; [|intros [= <- <-]; right; eauto 6].
  destruct (nonempty sig); [|intros [= <- <-]; right; eauto 6].
  destruct (update_one _ _ t1) as [[r t2]|] eqn:Eu; intros [= <- <-]; right; (split; [done|]); [|eauto 6].
  right. exists sig. apply update_one_law in Eu as [(r0 & Hr0 & Hid & ->) Hr]. splits; [done| |].
  - cbn [snd]. rewrite Hr, Hp. cbn [map]. rewrite jeq_refl. by rewrite map_skip_fresh.
  - cbn [fst]. rewrite Hp in Hr0. apply elem_of_cons in Hr0 as [->|Hr0]; [done|].
    exfalso. apply Hn. rewrite <- Hid. by apply list_elem_of_fmap_2.
Qed.
End creating.

Section posting.
Context (hmac_hex : jstring → jstring → jstring) (e : env).
Context (post : jstring → headers → res (Z * option json))
  (execFile : jstring → list jstring → res (jstring * jstring)).
Context {Tc : Type} `{!Table Tc AgentCommand c_id}.
Abbreviation state := (@fleet_state Tc).

(** C13. A user who is not an administrator creates commands in their own tenant
    only: whatever the body names, a request with another role adds at most one
    row, whose tenant is the one of the [x-user-tenant] header and whose type
    and payload passed validation; it changes no other row, makes no call to
    the analyzer and leaves the cache alone.  The handler always answers. *)
Theorem fleet_post_confined id now r (s : state) :
  header "x-user-role" r ≠ Some ("admin" : jstring) →
  ∃ resp s', commands_POST hmac_hex e post execFile id now r s = (Ok resp, s') ∧
    fs_calls s' = fs_calls s ∧ fs_cache s' = fs_cache s ∧
    (fs_cmds s' = fs_cmds s ∨
     ∃ c body, rows (fs_cmds s') ≡ₚ c :: rows (fs_cmds s) ∧ c_id c = id ∧
       header "x-user-tenant" r = Some (c_tenantId c) ∧ c_status c = "pending" ∧
       rq_json r = Some body ∧ validateFleetCommand body = None ∧
       jopt "commandType" (Some body) = Some (JStr (c_commandType c))).
Proof.
  intros Hrole. unfold commands_POST, catch, mbind', ofo, throw, lift_res, mret'.
  assert (Hadm : bool_decide (header "x-user-role" r = Some ("admin" : jstring)) = false)
    by (by apply bool_decide_eq_false).
  destruct (negb _); [eauto 10|]. destruct (rq_json r) as [body|] eqn:Ebody; [|eauto 10].
  destruct (jget "commandType" body) as [cty|] eqn:Ety; [|eauto 10].
  assert (Hcty : cty = jopt "commandType" (Some body)) by (destruct body; cbn in Ety |- *; congruence).
  destruct (validateFleetCommand body) eqn:Ev; [eauto 10|].
  destruct (is_lit VPS_FLEET_AGENT_ID _); [eauto 10|]. destruct (_ || _); [eauto 10|].
  rewrite Hadm. cbn [andb]. unfold want_string at 1.
  destruct (header "x-user-tenant" r) as [tenant|] eqn:Eten; cbn [fmap option_fmap option_map];
    [|unfold throw; eauto 10]. unfold mret' at 1.
  destruct (want_nullable _ s) as [[target|] s1] eqn:Etg;
    assert (s1 = s) as -> by (revert Etg; unfold want_nullable, want_string, mbind', throw, mret';
      repeat split_match; intros; simplify_eq; done); [|eauto 10].
  destruct (want_string cty s) as [[ty|] s2] eqn:Eq;
    assert (s2 = s) as -> by (revert Eq; unfold want_string, throw, mret';
      repeat split_match; intros; simplify_eq; done); [|eauto 10].
  assert (Hty : cty = Some (JStr ty))
    by (revert Eq; unfold want_string, throw, mret'; repeat split_match; intros; simplify_eq; done).
  unfold on_cmds. destruct (createSignedFleetCommand _ _ _ _) as [out t'] eqn:Ec.
  assert (Hrows : t' = fs_cmds s ∨ ∃ c, rows t' ≡ₚ c :: rows (fs_cmds s) ∧ c_id c = id ∧
     c_tenantId c = tenant ∧ c_status c = "pending" ∧ c_commandType c = ty).
  { apply create_cases in Ec as [(_ & -> & _)|(_ & [[Hp _]|(sig & _ & Hp & _)])]; [by left|right..];
      eexists; (split; [exact Hp|done]). }
  destruct out as [command|m]; eexists _, _; (split; [reflexivity|]); cbn [fs_calls fs_cache fs_cmds];
    (splits; [done|done|]); (destruct Hrows as [->|(c & Hp & <- & <- & Hst & Hct)]; [by left|right]);
    exists c, body; splits; try done; by rewrite Hct, <- Hcty.
Qed.
End posting.

(** ** The gate in front of the queue *)

(** A request to the command queue without a session. *)
Definition sessionless (r : request) : Prop :=
  rq_path r = "/api/fleet/commands" ∧ cookie "auth_token" r = None.

Lemma gate_passes_queue `{UnicodeCase} jwtVerify e now r :
  tierAtLeast e pro = true → sessionless r → middleware jwtVerify e now r = Next (rq_headers r).
Proof.
  intros Ht [Hp Hc]. unfold middleware, tierBlocked. rewrite Hp, Hc, Ht. reflexivity.
Qed.

Section forging.
Context `{UnicodeCase} (jwtVerify : jstring → list Z → option (list (jstring * json))).
Context (hmac_hex : jstring → jstring → jstring) (e : env).
Context (post : jstring → headers → res (Z * option json))
  (execFile : jstring → list jstring → res (jstring * jstring)).
Context {Tc : Type} `{!Table Tc AgentCommand c_id}.

Definition config_body (payload victim : jstring) : json :=
  JObj [("commandType", JStr "PUSH_CONFIG"); ("payload", JStr payload); ("targetTenantId", JStr victim)].

(** The administrator role of a command creation is not authenticated: the
    gate hands a request for the command queue on without a session and with
    the headers the client sent, and the route takes the role from those
    headers.  Anyone who can reach a Pro installation can so put a command in
    the queue of any tenant (as soon as the database accepts the row). *)
Theorem fleet_role_forgeable now id r (s : @fleet_state Tc) payload victim t1 :
  tierAtLeast e pro = true → sessionless r →
  header "x-user-role" r = Some ("admin" : jstring) →
  rq_json r = Some (config_body payload victim) →
  payload ≠ [] → slen payload ≤ MAX_PAYLOAD_LEN → victim ≠ [] →
  insert_row (new_command id victim now None "PUSH_CONFIG" payload) (fs_cmds s) = Some t1 →
  ∃ h, middleware jwtVerify e now r = Next h ∧
  ∃ c, c ∈ rows (fs_cmds (commands_POST hmac_hex e post execFile id now (with_headers h r) s).2) ∧
    c_id c = id ∧ c_tenantId c = victim ∧ c_payload c = payload ∧ c_status c = "pending".
Proof.
  intros Ht Hs Hrole Hbody Hp Hlen Hv Hins. exists (rq_headers r).
  split; [by apply gate_passes_queue|].
  assert (Hval : validateFleetCommand (config_body payload victim) = None).
  { unfold validateFleetCommand, config_body.
    change (jopt "payload" _) with (Some (JStr payload)).
    change (jopt "commandType" _) with (Some (JStr "PUSH_CONFIG")).
    cbn [nullish default to_str payload_text].
    change (trim "PUSH_CONFIG") with ("PUSH_CONFIG" : jstring).
    rewrite bool_decide_eq_true_2 by (do 4 right; by left).
    destruct payload as [|p0 p]; [done|]. cbn [nonempty negb orb]. 
    destruct (MAX_PAYLOAD_LEN <? slen _) eqn:E; bprop; [lia|]. reflexivity. }
  unfold commands_POST, catch, mbind', ofo, throw, lift_res, mret'.
  change (header ?k (with_headers (rq_headers r) r)) with (header k r).
  change (rq_json (with_headers (rq_headers r) r)) with (rq_json r).
  rewrite Hrole, Hbody, Hval. cbn [default nonempty negb].
  change (jget "commandType" _) with (Ok (Some (JStr "PUSH_CONFIG"))).
  change (jopt "payload" _) with (Some (JStr payload)).
  change (jopt "targetAgentId" _) with (@None json).
  change (jopt "targetTenantId" _) with (Some (JStr victim)).
  change (jopt "reason" _) with (@None json).
  destruct payload as [|p0 payload]; [done|]. destruct victim as [|v0 victim]; [done|].
  cbn [is_lit otruthy truthy nonempty negb orb]. rewrite bool_decide_eq_true_2 by done.
  cbn [andb want_string]. unfold want_nullable, on_cmds, mret' at 1. cbn [otruthy]. unfold mret' at 1 2.
  change (negb (nonempty (Datatypes.id "admin"))) with false. cbv iota beta.
  change (is_ban_type _) with false.
  destruct (createSignedFleetCommand hmac_hex e _ (fs_cmds s)) as [out t'] eqn:Ec.
  assert (Hc : ∃ c, c ∈ rows t' ∧ c_id c = id ∧ c_tenantId c = v0 :: victim ∧
                    c_payload c = p0 :: payload ∧ c_status c = "pending").
  { apply create_cases in Ec as Hx.
    destruct Hx as [[Hno _]|(_ & [[Hr _]|(sig & _ & Hr & _)])]; [congruence| |].
    - eexists. rewrite Hr. split; [by left|done].
    - eexists. rewrite Hr. split; [by left|done]. }
  destruct out; exact Hc.
Qed.
End forging.

(** ** A concrete queue *)

Module FleetDemo.
Definition hmac (k m : jstring) : jstring := "ab12".
Definition e : env := env_of [("LOG_GUARDIAN_TIER", "pro")].
Definition keys (k : jstring) : option (option ApiKey) :=
  Some (if k =s "k1" then Some {| k_key := "k1"; k_tenantId := "t1" |} else None).
Definition nopost (_ : jstring) (_ : headers) : res (Z * option json) := Throw "down".
Definition noexec (_ : jstring) (_ : list jstring) : res (jstring * jstring) := Throw "down".
Definition cmd (id tenant : jstring) (at_ : Z) : AgentCommand :=
  set_signature "ab12" (new_command id tenant at_ None "BAN_IP" "45.9.1.7").
Definition table : list AgentCommand := [cmd "2" "t1" 20; cmd "3" "t2" 5; cmd "1" "t1" 10].
Definition s0 : @fleet_state (list AgentCommand) :=
  {| fs_cmds := table; fs_calls := []; fs_cache := [] |}.
Definition poll (agent : jstring) : request :=
  mk_request "/api/fleet/commands" [("authorization", "Bearer k1")] [] [("agent_id", agent)] None.
Definition GET (agent : jstring) :=
  commands_GET (Tc := list AgentCommand) (Table0 := list_table c_id) hmac e keys (poll agent).
(** What the first poll answers and leaves. *)
Definition resp1 : response := respond 200 (commands_json [cmd "1" "t1" 10; cmd "2" "t1" 20]).
Definition s1 : @fleet_state (list AgentCommand) :=
  {| fs_cmds := [set_status "delivered" (cmd "2" "t1" 20); cmd "3" "t2" 5;
                 set_status "delivered" (cmd "1" "t1" 10)]; fs_calls := []; fs_cache := [] |}.
Definition resp2 : response := respond 200 (commands_json []).
Lemma poll1 : GET "a" s0 = (Ok resp1, s1).
Proof. vm_compute. reflexivity. Qed.
Lemma poll2 : GET "b" s1 = (Ok resp2, s1).
Proof. vm_compute. reflexivity. Qed.
Lemma s0_keyed : keyed (Table0 := list_table c_id) (fs_cmds s0).
Proof. unfold keyed. cbn. repeat constructor; rewrite ?not_elem_of_cons; repeat split; try done;
  apply not_elem_of_nil. Qed.
(** A request without a session that claims to be an administrator. *)
Definition forged : request :=
  mk_request "/api/fleet/commands" [("x-user-role", "admin")] [] []
    (Some (config_body "BAN_THRESHOLD=1" "t2")).
(** A user of tenant t1 who names another tenant. *)
Definition other_tenant : request :=
  mk_request "/api/fleet/commands" [("x-user-role", "user"); ("x-user-tenant", "t1")] [] []
    (Some (config_body "BAN_THRESHOLD=1" "t2")).
End FleetDemo.

Lemma fleet_poll_sound_witness :
  ∃ token key agentId l,
    bearer_token (FleetDemo.poll "a") = Some token ∧ FleetDemo.keys token = Some (Some key) ∧
    query "agent_id" (FleetDemo.poll "a") = Some agentId ∧
    rs_body FleetDemo.resp1 = BJson (commands_json l) ∧ sorted_by c_createdAt l.
Proof.
  destruct (fleet_poll_sound (Table0 := list_table c_id) FleetDemo.hmac FleetDemo.e FleetDemo.keys
              (FleetDemo.poll "a") FleetDemo.s0 FleetDemo.s1 FleetDemo.resp1)
    as (token & key & ag & l & H1 & H2 & H3 & H4 & H5 & _).
  - exact FleetDemo.s0_keyed.
  - exact FleetDemo.poll1.
  - vm_compute. discriminate.
  - exists token, key, ag, l. repeat split; assumption.
Defined.

(** Two polls of one tenant that overlap: both queries, both updates, both answers. *)
Definition poll_p (agent : jstring) : proc (@fleet_state (list AgentCommand)) fleet_event (res response) :=
  commands_GET_p (Tc := list AgentCommand) (Table0 := list_table c_id) FleetDemo.hmac FleetDemo.e FleetDemo.keys (FleetDemo.poll agent).
Definition overlap_turns : list (turn (@fleet_state (list AgentCommand)) fleet_event (res response)) :=
  [Start (poll_p "a"); Start (poll_p "b"); Turn 0; Turn 1; Turn 0; Turn 1; Turn 0; Turn 0].
Definition overlap_end : pool (@fleet_state (list AgentCommand)) fleet_event (res response) :=
  default (Pool (Moment FleetDemo.s0 []) [] 0) (play_turns overlap_turns (Pool (Moment FleetDemo.s0 []) [] 0)).
Lemma overlap_reached :
  pool_reach (fleet_starts (Table0 := list_table c_id) FleetDemo.hmac FleetDemo.e FleetDemo.nopost FleetDemo.noexec FleetDemo.keys)
    FleetDemo.s0 overlap_end.
Proof.
  apply (play_turns_reach _ overlap_turns).
  - repeat constructor.
  - vm_compute. reflexivity.
Qed.

(** The code hands out the same commands twice when two polls overlap: between the query
    and the update nothing keeps another poll from the same rows, and each poll answers
    with what it read. *)
Lemma fleet_overlap_twice :
  log (at_moment overlap_end) =
    [(0%nat, Did (Looked [FleetDemo.cmd "1" "t1" 10; FleetDemo.cmd "2" "t1" 20]));
     (1%nat, Did (Looked [FleetDemo.cmd "1" "t1" 10; FleetDemo.cmd "2" "t1" 20]));
     (0%nat, Did (Handed [FleetDemo.cmd "1" "t1" 10; FleetDemo.cmd "2" "t1" 20]));
     (1%nat, Did (Handed [FleetDemo.cmd "1" "t1" 10; FleetDemo.cmd "2" "t1" 20]));
     (0%nat, Answered (Ok FleetDemo.resp1)); (1%nat, Answered (Ok FleetDemo.resp1))].
Proof. vm_compute. reflexivity. Qed.

Lemma fleet_at_most_once_witness :
  NoDup (delivered_ids FleetDemo.resp1) ∧ overlapped 0 1 (log (at_moment overlap_end)).
Proof.
  destruct (fleet_at_most_once (Table0 := list_table c_id) FleetDemo.hmac FleetDemo.e FleetDemo.nopost
           FleetDemo.noexec FleetDemo.keys FleetDemo.s0 overlap_end FleetDemo.s0_keyed overlap_reached) as (H1 & H2 & _).
  split.
  - apply (H1 0%nat FleetDemo.resp1). rewrite fleet_overlap_twice. do 4 right. left.
  - apply (H2 0%nat 1%nat FleetDemo.resp1 FleetDemo.resp1 "1"); [discriminate| | | |].
    + rewrite fleet_overlap_twice. do 4 right. left.
    + rewrite fleet_overlap_twice. do 5 right. left.
    + vm_compute. left.
    + vm_compute. left.
Defined.

Lemma fleet_broadcast_first_only_witness :
  ("1" : jstring) ∈ delivered_ids FleetDemo.resp1 ∧ ("1" : jstring) ∉ delivered_ids FleetDemo.resp2.
Proof.
  assert (H : ("1" : jstring) ∈ delivered_ids FleetDemo.resp1) by (vm_compute; by left).
  split; [exact H|].
  apply (fleet_broadcast_first_only (Table0 := list_table c_id) FleetDemo.hmac FleetDemo.e FleetDemo.nopost
           FleetDemo.noexec FleetDemo.keys (FleetDemo.poll "a") (FleetDemo.poll "b") FleetDemo.s0 FleetDemo.s1 FleetDemo.s1
           FleetDemo.resp1 FleetDemo.resp2 (FleetDemo.cmd "1" "t1" 10)).
  - exact FleetDemo.s0_keyed.
  - right; right; left.
  - reflexivity.
  - exact FleetDemo.poll1.
  - exact FleetDemo.poll2.
  - exact H.
Defined.

Lemma fleet_post_confined_witness :
  ∃ resp s', commands_POST (Table0 := list_table c_id) FleetDemo.hmac FleetDemo.e FleetDemo.nopost
               FleetDemo.noexec "9" 30 FleetDemo.other_tenant FleetDemo.s0 = (Ok resp, s') ∧
    fs_calls s' = [].
Proof.
  destruct (fleet_post_confined (Table0 := list_table c_id) FleetDemo.hmac FleetDemo.e FleetDemo.nopost
              FleetDemo.noexec "9" 30 FleetDemo.other_tenant FleetDemo.s0) as (resp & s' & H1 & H2 & _).
  - vm_compute. discriminate.
  - exists resp, s'. split; [exact H1|exact H2].
Defined.

Lemma fleet_role_forgeable_witness :
  ∃ h, middleware (H := ascii_case) (λ _ _, None) FleetDemo.e 30 FleetDemo.forged = Next h ∧
  ∃ c, c ∈ rows (Table := list_table c_id)
         (fs_cmds (commands_POST (Table0 := list_table c_id) FleetDemo.hmac FleetDemo.e FleetDemo.nopost
            FleetDemo.noexec "9" 30 (with_headers h FleetDemo.forged) FleetDemo.s0).2) ∧
    c_id c = "9" ∧ c_tenantId c = "t2" ∧ c_payload c = "BAN_THRESHOLD=1" ∧ c_status c = "pending".
Proof.
  apply (fleet_role_forgeable (H := ascii_case) (Table0 := list_table c_id) (λ _ _, None)
           FleetDemo.hmac FleetDemo.e FleetDemo.nopost FleetDemo.noexec 30 "9" FleetDemo.forged
           FleetDemo.s0 "BAN_THRESHOLD=1" "t2"
           (FleetDemo.table ++ [new_command "9" "t2" 30 None "PUSH_CONFIG" "BAN_THRESHOLD=1"]));
    try reflexivity; try discriminate.
  split; reflexivity.
Defined.
