(* ===== verification/FleetSpec.v ===== *)
(** The contract of the fleet queue: a mailbox per installation, from which every
    message is handed out to an agent it addresses, at most once when requests do not
    overlap, and in which a message that can be handed out stays until it is.  With
    overlapping requests readers look first and take later.  The routes implement it. *)

From S2P Require Import Prelude JsString JsNum Json Http Auth BanUtils FetchBanned Bans BanExec JsDate Store FleetCommand Interleave Fleet FleetProps.

(** ** The mailbox *)

(** The messages waiting, by id, and every id ever given out. *)
Record mailbox := { open : gmap jstring AgentCommand; used : gset jstring }.
Definition remove (ids : list jstring) (m : mailbox) : mailbox :=
  {| open := filter (λ kv, kv.1 ∉ ids) (open m); used := used m |}.
Definition enqueue (c : AgentCommand) (m : mailbox) : mailbox :=
  {| open := <[c_id c := c]> (open m); used := {[c_id c]} ∪ used m |}.
(** A message for an agent: its own, or one for the whole tenant. *)
Definition addressed (tenant agent : jstring) (c : AgentCommand) : Prop :=
  c_tenantId c = tenant ∧ (c_targetAgentId c = Some agent ∨ c_targetAgentId c = None).

Section spec.
(** Which messages are authentic. *)
Context (authentic : AgentCommand → bool).

(** What may happen to the mailbox, with the ids handed out by it. *)
Inductive mail_step (m : mailbox) : list jstring → mailbox → Prop :=
  | ms_enqueue c : c_id c ∉ used m → mail_step m [] (enqueue c m)
  | ms_withdraw id : mail_step m [] (remove [id] m)
  | ms_deliver tenant agent cs :
      NoDup (map c_id cs) → sorted_by c_createdAt cs →
      (∀ c, c ∈ cs ↔ open m !! c_id c = Some c ∧ addressed tenant agent c ∧ authentic c = true) →
      mail_step m (map c_id cs) (remove (map c_id cs) m).
Inductive mail_steps (m : mailbox) : list jstring → mailbox → Prop :=
  | mss_refl : mail_steps m [] m
  | mss_step log m1 ids m2 : mail_steps m log m1 → mail_step m1 ids m2 → mail_steps m (log ++ ids) m2.

Lemma mail_steps_trans m log m1 log' m2 :
  mail_steps m log m1 → mail_steps m1 log' m2 → mail_steps m (log ++ log') m2.
Proof.
  intros H1. induction 1 as [|log' m2 ids m3 _ IH Hs]; [by rewrite app_nil_r|].
  rewrite app_assoc. by econstructor.
Qed.

(** What waits has an id given out before. *)
Definition mail_wf (m : mailbox) : Prop := ∀ id c, open m !! id = Some c → id ∈ used m.
Lemma remove_lookup ids m id c : open (remove ids m) !! id = Some c ↔ open m !! id = Some c ∧ id ∉ ids.
Proof. cbn. by rewrite map_lookup_filter_Some. Qed.
Lemma mail_step_wf m ids m' : mail_step m ids m' → mail_wf m → mail_wf m'.
Proof.
  unfold mail_wf. destruct 1; intros Hwf id' c'.
  - cbn. rewrite lookup_insert_Some. set_solver.
  - rewrite remove_lookup. naive_solver.
  - rewrite remove_lookup. naive_solver.
Qed.

(** Nothing handed out is waiting, and nothing is handed out twice. *)
Lemma mail_steps_once m log m' : mail_wf m → mail_steps m log m' →
  mail_wf m' ∧ NoDup log ∧ ∀ id, id ∈ log → id ∈ used m' ∧ open m' !! id = None.
Proof.
  intros Hwf. induction 1 as [|log m1 ids m2 _ IH Hs].
  - split_and!; [done|constructor|]. intros id Hid. by apply elem_of_nil in Hid.
  - destruct IH as (W & N & Hl). pose proof (mail_step_wf _ _ _ Hs W) as W'.
    assert (Hkeep : ∀ id, id ∈ used m1 → open m1 !! id = None → id ∈ used m2 ∧ open m2 !! id = None).
    { intros id Hu Hn. destruct Hs as [c Hc|id'|tn ag cs].
      - cbn. rewrite lookup_insert_None. set_solver.
      - cbn. rewrite map_lookup_filter_None. naive_solver.
      - cbn. rewrite map_lookup_filter_None. naive_solver. }
    split; [done|]. destruct Hs as [c Hc|id'|tn ag cs Nd _ Hcs]; rewrite ?app_nil_r; [naive_solver..|].
    assert (Hin : ∀ id, id ∈ map c_id cs → ∃ c, open m1 !! id = Some c).
    { intros id Hid. change (map c_id cs) with (c_id <$> cs) in Hid.
      apply list_elem_of_fmap in Hid as (c & -> & Hc). apply Hcs in Hc as (Ho & _). eauto. }
    split.
    + apply NoDup_app. split_and!; [done| |done]. intros id Hid Hd.
      destruct (Hin id Hd) as [c Hc]. apply Hl in Hid as [_ Hn]. congruence.
    + intros id [Hid|Hid]%elem_of_app; [naive_solver|]. destruct (Hin id Hid) as [c Hc]. split; [by eapply W|].
      cbn. apply map_lookup_filter_None. naive_solver.
Qed.

(** What waits leaves the mailbox unchanged or not at all. *)
Lemma mail_steps_stable m log m' id c :
  mail_wf m → mail_steps m log m' → open m !! id = Some c → open m' !! id = Some c ∨ open m' !! id = None.
Proof.
  intros Hwf Hm Hc. assert (Hu : mail_wf m' ∧ id ∈ used m' ∧ (open m' !! id = Some c ∨ open m' !! id = None)); [|tauto].
  induction Hm as [|log m1 ids m2 _ IH Hs]; [eauto|]. destruct IH as (W & Hid & Ho).
  split; [by eapply mail_step_wf|].
  destruct Hs as [c' Hc'|id'|tn ag cs]; cbn.
  - split; [set_solver|]. rewrite lookup_insert_ne by set_solver. done.
  - split; [done|]. rewrite map_lookup_filter_Some, map_lookup_filter_None. destruct (decide (id ∉ [id'])); naive_solver.
  - split; [done|]. rewrite map_lookup_filter_Some, map_lookup_filter_None.
    destruct (decide (id ∉ map c_id cs)); naive_solver.
Qed.
End spec.

(** *** Readers that overlap

    A reader looks at the mailbox first and takes out what it saw later: others may put
    in, sign, withdraw and take out messages in between. *)
Record shared_mailbox := { box : mailbox; looking : gmap nat (list AgentCommand) }.
Definition set_box (b : mailbox) (m : shared_mailbox) : shared_mailbox := {| box := b; looking := looking m |}.
(** A signature is added to a message that waits. *)
Definition seal (id sig : jstring) (b : mailbox) : mailbox :=
  {| open := alter (set_signature sig) id (open b); used := used b |}.

(** What may happen, with the ids handed out and the reader that gets them. *)
Inductive shared_step (authentic : AgentCommand → bool) (m : shared_mailbox) :
    list (nat * list jstring) → shared_mailbox → Prop :=
  | sh_enqueue c : c_id c ∉ used (box m) → shared_step authentic m [] (set_box (enqueue c (box m)) m)
  | sh_seal id sig : shared_step authentic m [] (set_box (seal id sig (box m)) m)
  | sh_withdraw id : shared_step authentic m [] (set_box (remove [id] (box m)) m)
  | sh_look reader tenant agent cs :
      looking m !! reader = None → NoDup (map c_id cs) → sorted_by c_createdAt cs →
      (∀ c, c ∈ cs ↔ open (box m) !! c_id c = Some c ∧ addressed tenant agent c ∧ authentic c = true) →
      shared_step authentic m [] {| box := box m; looking := <[reader := cs]> (looking m) |}
  | sh_take reader cs :
      looking m !! reader = Some cs →
      shared_step authentic m [(reader, map c_id cs)]
        {| box := remove (map c_id cs) (box m); looking := delete reader (looking m) |}.
Inductive shared_steps (authentic : AgentCommand → bool) (m : shared_mailbox) :
    list (nat * list jstring) → shared_mailbox → Prop :=
  | shs_refl : shared_steps authentic m [] m
  | shs_step out m1 l m2 :
      shared_steps authentic m out m1 → shared_step authentic m1 l m2 → shared_steps authentic m (out ++ l) m2.

(** A reader that nobody disturbs makes a delivery of the plain mailbox. *)
Lemma look_take_deliver authentic m reader tenant agent cs :
  looking m !! reader = None → NoDup (map c_id cs) → sorted_by c_createdAt cs →
  (∀ c, c ∈ cs ↔ open (box m) !! c_id c = Some c ∧ addressed tenant agent c ∧ authentic c = true) →
  shared_steps authentic m [(reader, map c_id cs)] (set_box (remove (map c_id cs) (box m)) m) ∧
  mail_step authentic (box m) (map c_id cs) (remove (map c_id cs) (box m)).
Proof.
  intros Hn Hd Hs Hc. split; [|by apply (ms_deliver _ _ tenant agent)].
  eapply (shs_step _ _ [] _ [_]); [eapply (shs_step _ _ [] _ []); [apply shs_refl|by apply (sh_look _ _ reader tenant agent cs)]|].
  pose proof (sh_take authentic {| box := box m; looking := <[reader := cs]> (looking m) |} reader cs) as Ht.
  cbn [box looking] in Ht. rewrite lookup_insert_eq, delete_insert_id in Ht by done. by apply Ht.
Qed.

(** What a reader took out is no longer waiting, and never waits again. *)
Lemma shared_taken authentic m out m' :
  mail_wf (box m) → (∀ r cs c, looking m !! r = Some cs → c ∈ cs → c_id c ∈ used (box m)) →
  shared_steps authentic m out m' →
  mail_wf (box m') ∧ (∀ r cs c, looking m' !! r = Some cs → c ∈ cs → c_id c ∈ used (box m')) ∧
  ∀ r ids id, (r, ids) ∈ out → id ∈ ids → id ∈ used (box m') ∧ open (box m') !! id = None.
Proof.
  intros Hwf Hl. induction 1 as [|out m1 l m2 _ IH Hs].
  - splits; [done|done|]. intros r ids id H. by apply elem_of_nil in H.
  - destruct IH as (W & L & T). destruct Hs as [c Hc|id sig|id|r tn ag cs Hn Hd Hso Hcs|r cs Hr];
      cbn [set_box box looking] in *; unfold mail_wf in *.
    + splits.
      * intros id d. cbn. rewrite lookup_insert_Some. set_solver.
      * intros r cs d H1 H2. cbn. set_solver.
      * intros r ids id H1 H2. rewrite app_nil_r in H1. destruct (T r ids id H1 H2) as [U N]. cbn.
        rewrite lookup_insert_None. set_solver.
    + splits; [|done|].
      * intros i d. cbn. rewrite lookup_alter_Some. naive_solver.
      * intros r ids i H1 H2. rewrite app_nil_r in H1. destruct (T r ids i H1 H2) as [U N]. cbn.
        split; [done|]. by apply lookup_alter_None.
    + splits; [|done|].
      * intros i d. rewrite remove_lookup. naive_solver.
      * intros r ids i H1 H2. rewrite app_nil_r in H1. destruct (T r ids i H1 H2) as [U N]. split; [done|].
        cbn. apply map_lookup_filter_None. naive_solver.
    + splits; [done| |].
      * intros r' cs' c [[<- <-]|[_ H]]%lookup_insert_Some Hin; [|by eapply L].
        apply Hcs in Hin as (Ho & _). by eapply W.
      * intros r' ids i H1 H2. rewrite app_nil_r in H1. by eapply T.
    + splits.
      * intros i d. rewrite remove_lookup. naive_solver.
      * intros r' cs' c [_ H]%lookup_delete_Some Hin. by eapply L.
      * intros r' ids i [H1|H1%list_elem_of_singleton]%elem_of_app H2.
        -- destruct (T r' ids i H1 H2) as [U N]. split; [done|]. cbn. apply map_lookup_filter_None. naive_solver.
        -- injection H1 as -> ->. split.
           ++ apply list_elem_of_fmap in H2 as (c & -> & Hin). by eapply L.
           ++ cbn. apply map_lookup_filter_None. naive_solver.
Qed.

(** ** The table as a mailbox *)

Definition waiting (c : AgentCommand) : bool := negb (c_executed c) && (c_status c =s "pending").

Section table.
Context {Tc : Type} `{!Table Tc AgentCommand c_id}.

Definition mailbox_of (t : Tc) : mailbox :=
  {| open := list_to_map (map (λ c, (c_id c, c)) (jfilter waiting (rows t))); used := list_to_set (map c_id (rows t)) |}.

Lemma waiting_spec c : waiting c = true ↔ c_executed c = false ∧ c_status c = "pending".
Proof. unfold waiting. by rewrite andb_true_iff, jeq_true, negb_true_iff. Qed.
Lemma open_spec t id c : keyed t → open (mailbox_of t) !! id = Some c ↔ c ∈ rows t ∧ c_id c = id ∧ waiting c = true.
Proof.
  intros K. cbn. rewrite <- elem_of_list_to_map.
  - change (map (λ c, (c_id c, c)) (jfilter waiting (rows t))) with ((λ c, (c_id c, c)) <$> jfilter waiting (rows t)).
    rewrite list_elem_of_fmap. split.
    + intros (d & [= -> ->] & Hd). apply jfilter_elem in Hd as [? ?]. done.
    + intros (Hc & <- & Hw). exists c. split; [done|]. by apply jfilter_elem.
  - change (map (λ c, (c_id c, c)) (jfilter waiting (rows t))) with ((λ c, (c_id c, c)) <$> jfilter waiting (rows t)).
    rewrite <- list_fmap_compose.
    eapply sublist_NoDup; [exact K|]. change (map c_id (rows t)) with (c_id <$> rows t).
    apply (fmap_sublist c_id), jfilter_sublist.
Qed.
Lemma used_spec t id : id ∈ used (mailbox_of t) ↔ id ∈ map c_id (rows t).
Proof. cbn. by rewrite elem_of_list_to_set. Qed.
Lemma mailbox_of_wf t : keyed t → mail_wf (mailbox_of t).
Proof.
  intros K id c (Hc & <- & _)%open_spec; [|done]. rewrite used_spec. by apply list_elem_of_fmap_2.
Qed.

Lemma mailbox_eq (m m' : mailbox) :
  (∀ id c, open m !! id = Some c ↔ open m' !! id = Some c) → (∀ id, id ∈ used m ↔ id ∈ used m') → m = m'.
Proof.
  intros Ho Hu. destruct m as [o u], m' as [o' u']; cbn in *. f_equal.
  - apply map_eq. intros i. apply option_eq. intros c. apply Ho.
  - by apply leibniz_equiv.
Qed.

(** An update that closes the rows it touches removes them from the mailbox. *)
Lemma mailbox_close t t' (p : AgentCommand → bool) (f : AgentCommand → AgentCommand) ids :
  keyed t → keyed t' → (∀ x, x ∈ rows t' ↔ ∃ c, c ∈ rows t ∧ x = if p c then f c else c) →
  (∀ c, c_id (f c) = c_id c) → (∀ c, waiting (f c) = false) →
  (∀ c, c ∈ rows t → waiting c = true → p c = bool_decide (c_id c ∈ ids)) →
  mailbox_of t' = remove ids (mailbox_of t).
Proof.
  intros K K' Hr Hid Hw Hp. apply mailbox_eq.
  - intros id c. rewrite remove_lookup, !open_spec, Hr by done. split.
    + intros ((d & Hd & ->) & <- & Hwt). destruct (p d) eqn:Ep; [by rewrite Hw in Hwt|].
      split; [done|]. rewrite Hp in Ep by done. by apply bool_decide_eq_false in Ep.
    + intros ((Hc & <- & Hwt) & Hn). split; [|done]. exists c. split; [done|].
      rewrite Hp by done. by rewrite bool_decide_eq_false_2.
  - intros id. change (used (remove ids (mailbox_of t))) with (used (mailbox_of t)). rewrite !used_spec.
    change (map c_id ?l) with (c_id <$> l). rewrite !list_elem_of_fmap. split.
    + intros (x & -> & (c & Hc & ->)%Hr). exists c. split; [|done]. by destruct (p c).
    + intros (c & -> & Hc). exists (if p c then f c else c). split; [by destruct (p c)|]. apply Hr. eauto.
Qed.
Lemma mailbox_add t t' c :
  keyed t → c_id c ∉ map c_id (rows t) → waiting c = true → rows t' ≡ₚ c :: rows t →
  keyed t' ∧ mailbox_of t' = enqueue c (mailbox_of t).
Proof.
  intros K Hn Hw Hr. assert (K' : keyed t') by (unfold keyed; rewrite Hr; cbn [map]; by constructor).
  split; [done|]. apply mailbox_eq.
  - intros id d. cbn [enqueue open]. rewrite lookup_insert_Some, !open_spec by done. rewrite Hr, elem_of_cons. split.
    + intros ([->|Hd] & <- & Hwd); [by left|right]. split_and!; [|done..]. intros E. apply Hn. rewrite E.
      by apply list_elem_of_fmap_2.
    + intros [[<- <-]|(Hne & Hd & <- & Hwd)]; [|tauto]. tauto.
  - intros id. cbn [enqueue used]. rewrite elem_of_union, elem_of_singleton, !used_spec, Hr. cbn [map].
    by rewrite elem_of_cons.
Qed.

(** Signing a row seals its message. *)
Lemma mailbox_seal t t' id sig r :
  keyed t → update_one id (set_signature sig) t = Some (r, t') → mailbox_of t' = seal id sig (mailbox_of t).
Proof.
  intros K Hu. assert (K' : keyed t') by (by eapply update_one_keyed; [|exact Hu|]).
  assert (Hr := λ x, update_one_rows _ _ _ _ _ x Hu). apply mailbox_eq.
  - intros i d. cbn [seal open]. rewrite lookup_alter_Some, open_spec, Hr by done. split.
    + intros ((c & Hc & ->) & <- & Hw). destruct (c_id c =s id) eqn:E; bprop.
      * left. split; [done|]. exists c. split; [by apply open_spec|done].
      * right. split; [congruence|]. by apply open_spec.
    + intros [(-> & c & Hc & ->)|[Hne Hc]]; apply open_spec in Hc as (Hc & E & Hw); try done.
      * splits; [|done|done]. exists c. split; [done|]. by rewrite E, jeq_refl.
      * splits; [|done|done]. exists d. split; [done|]. destruct (c_id d =s id) eqn:E'; bprop; congruence.
  - intros i. change (used (seal id sig (mailbox_of t))) with (used (mailbox_of t)). rewrite !used_spec.
    change (map c_id ?l) with (c_id <$> l). rewrite !list_elem_of_fmap. split.
    + intros (x & -> & (c & Hc & ->)%Hr). exists c. split; [|done]. by destruct (c_id c =s id).
    + intros (c & -> & Hc). exists (if c_id c =s id then set_signature sig c else c).
      split; [by destruct (c_id c =s id)|]. apply Hr. eauto.
Qed.
End table.

(** ** The routes implement the mailbox *)

Section refinement.
Context (hmac_hex : jstring → jstring → jstring) (e : env).
Context (post : jstring → headers → res (Z * option json))
  (execFile : jstring → list jstring → res (jstring * jstring)).
Context (findKey : jstring → option (option ApiKey)).
Context {Tc : Type} `{!Table Tc AgentCommand c_id}.
Abbreviation state := (@fleet_state Tc).
Abbreviation steps := (mail_steps (verified hmac_hex e)).

(** The mailbox has made steps from [m0], handing out [log], and is now that of the table. *)
Definition simulates (m0 : mailbox) (log : list jstring) (t : Tc) : Prop := keyed t ∧ steps m0 log (mailbox_of t).

Lemma simulates_silent m0 log t m' t' :
  simulates m0 log t → keyed t' → mailbox_of t' = m' → mail_step (verified hmac_hex e) (mailbox_of t) [] m' →
  simulates m0 log t'.
Proof. intros [K H] K' <- Hs. split; [done|]. rewrite <- (app_nil_r log). by econstructor. Qed.

Lemma take_simulates m0 log tn ag t l t' :
  take_commands hmac_hex e tn ag t = (Ok l, t') → simulates m0 log t → simulates m0 (log ++ map c_id l) t'.
Proof.
  intros Ht [K H]. pose proof (take_forward hmac_hex e tn ag t) as [Hf _]. rewrite Ht in Hf. cbn in Hf.
  apply take_commands_ok in Ht as (Hs & Hl & Hnd & Hrows). specialize (Hf K). split; [done|].
  econstructor; [exact H|]. rewrite (mailbox_close t t' _ _ (map c_id l) K Hf Hrows); [|done|intros c; apply andb_false_r|].
  - apply (ms_deliver _ _ tn ag); [auto|done|]. intros c. rewrite open_spec, Hl, open_for_spec, waiting_spec by done.
    unfold addressed. naive_solver.
  - intros c _ Hw. apply waiting_spec in Hw as [_ ->]. by rewrite jeq_refl, andb_true_r.
Qed.

Lemma create_simulates m0 log data t :
  waiting data = true → simulates m0 log t → simulates m0 log (createSignedFleetCommand hmac_hex e data t).2.
Proof.
  intros Hw Hsim. destruct (createSignedFleetCommand hmac_hex e data t) as [out t'] eqn:Ec. cbn [snd].
  pose proof Hsim as [K _].
  assert (Hadd : ∀ c, c_id c = c_id data → waiting c = true → c_id data ∉ map c_id (rows t) → rows t' ≡ₚ c :: rows t →
    simulates m0 log t').
  { intros c Hid Hwc Hn Hr. destruct (mailbox_add t t' c K) as [K' Hm]; [by rewrite Hid|done..|].
    eapply simulates_silent; [done..|]. apply ms_enqueue. by rewrite used_spec, Hid. }
  apply create_cases in Ec as [(_ & -> & _)|(Hn & [[Hr _]|(sig & _ & Hr & _)])]; [done|eauto|].
  by apply (Hadd (set_signature sig data)).
Qed.

(** Closing the row of one id. *)
Lemma close_simulates m0 log t id f r t' :
  (∀ c, c_id (f c) = c_id c) → (∀ c, waiting (f c) = false) →
  update_one id f t = Some (r, t') → simulates m0 log t → simulates m0 log t'.
Proof.
  intros Hid Hw Hu Hsim. pose proof Hsim as [K _]. pose proof (update_one_keyed _ _ _ _ _ Hid Hu K) as K'.
  eapply simulates_silent; [done..| |apply (ms_withdraw _ _ id)].
  apply (mailbox_close t t' (λ c, c_id c =s id) f [id] K K'); [|done..|].
  - intros x. by rewrite (update_one_rows _ _ _ _ _ x Hu).
  - intros c _ _. destruct (c_id c =s id) eqn:E; bprop.
    + by rewrite bool_decide_eq_true_2 by (by apply list_elem_of_singleton).
    + by rewrite bool_decide_eq_false_2 by (by rewrite list_elem_of_singleton).
Qed.
Lemma complete_simulates m0 log id t : simulates m0 log t → simulates m0 log (complete_row id t).2.
Proof.
  intros Hsim. unfold complete_row, mbind', get, ofo, throw, modify, mret'.
  destruct (update_one _ _ t) as [[r t']|] eqn:Eu; [|done]. by eapply close_simulates; [..|exact Eu|].
Qed.
Lemma ack_waiting status payload now c : waiting (ack_row (ack_status status) payload now c) = false.
Proof. unfold waiting, ack_row, ack_status. cbn. by repeat split_if. Qed.
Lemma ack_simulates m0 log tn id body now t : simulates m0 log t → simulates m0 log (ack_update tn id body now t).2.
Proof.
  intros Hsim. unfold ack_update, mbind', get, ofo, throw, modify, mret'.
  destruct (find_many _ t) as [[|cmd l]|]; [done| |done].
  destruct (update_one _ _ t) as [[r t']|] eqn:Eu; [|done]. eapply close_simulates; [..|exact Eu|done]; [done|].
  intros c. apply ack_waiting.
Qed.

Definition sim (m0 : mailbox) (log : list jstring) (s : state) : Prop := simulates m0 log (fs_cmds s).
Lemma on_cmds_sim {A} m0 log (m : M Tc A) :
  (∀ t, simulates m0 log t → simulates m0 log (m t).2) → keeps (sim m0 log) (on_cmds m).
Proof.
  intros Hm s Hs. unfold on_cmds, sim in *. specialize (Hm (fs_cmds s) Hs). by destruct (m (fs_cmds s)).
Qed.
Lemma on_calls_sim {A} m0 log (m : M (list ban_call) A) : keeps (sim m0 log) (on_fleet_calls m).
Proof. intros s Hs. unfold on_fleet_calls, sim in *. by destruct (m (fs_calls s)). Qed.
Lemma on_cache_sim m0 log f : keeps (sim m0 log) (on_fleet_cache f).
Proof. by intros s Hs. Qed.
Lemma ofo_sim {A} m0 log msg (o : option A) : keeps (sim m0 log) (ofo msg o).
Proof. unfold ofo. keep_steps. Qed.
Hint Resolve on_calls_sim on_cache_sim ofo_sim : lg.
Lemma want_string_sim m0 log v : keeps (sim m0 log) (want_string v).
Proof. unfold want_string. keep_steps. Qed.
Hint Resolve want_string_sim : lg.
Lemma want_nullable_sim m0 log v : keeps (sim m0 log) (want_nullable v).
Proof. unfold want_nullable. keep_steps. Qed.
Hint Resolve want_nullable_sim : lg.
Lemma commands_POST_sim m0 log id now r : keeps (sim m0 log) (commands_POST hmac_hex e post execFile id now r).
Proof.
  unfold commands_POST. keep_steps; apply on_cmds_sim; intros; [by apply create_simulates|by apply complete_simulates].
Qed.
Lemma ack_POST_sim m0 log now r : keeps (sim m0 log) (ack_POST findKey now r).
Proof. unfold ack_POST, with_key. keep_steps; apply on_cmds_sim; intros; by apply ack_simulates. Qed.

Lemma reach_simulates s0 s log :
  keyed (fs_cmds s0) → fleet_reach hmac_hex e post execFile findKey s0 s log →
  sim (mailbox_of (fs_cmds s0)) log s.
Proof.
  intros K0. induction 1 as [|s log r resp s' _ IH E|s log id now r _ IH|s log now r _ IH].
  - split; [done|constructor].
  - apply commands_GET_cases in E as (resp' & [= <-] & [[-> ->]|H]); [by rewrite app_nil_r|].
    destruct H as (token & key & ag & l & t' & _ & _ & _ & _ & _ & Ht & -> & ->).
    rewrite delivered_commands. by eapply take_simulates.
  - by apply commands_POST_sim.
  - by apply ack_POST_sim.
Qed.

(** Requests handled one after the other make a history of the plain mailbox. *)
Lemma fleet_serial_mailbox s0 s log :
  keyed (fs_cmds s0) → fleet_reach hmac_hex e post execFile findKey s0 s log →
  steps (mailbox_of (fs_cmds s0)) log (mailbox_of (fs_cmds s)).
Proof. intros K H. by apply reach_simulates. Qed.

(** *** Overlapping requests *)

Abbreviation fleet_log := (list (nat * entry fleet_event (res response))).

(** The readers of a log and what they took out. *)
Definition look_entry (m : gmap nat (list AgentCommand)) (x : nat * entry fleet_event (res response))
    : gmap nat (list AgentCommand) :=
  match x with
  | (p, Did (Looked cs)) => <[p := cs]> m
  | (p, Did (Handed _)) => delete p m
  | (_, Answered _) => m
  end.
Definition looking_of (l : fleet_log) : gmap nat (list AgentCommand) := fold_left look_entry l ∅.
Definition taken_of (l : fleet_log) : list (nat * list jstring) :=
  omap (λ x, match x with (p, Did (Handed cs)) => Some (p, map c_id cs) | _ => None end) l.
Definition mail_of (s : state) (lk : gmap nat (list AgentCommand)) : shared_mailbox :=
  {| box := mailbox_of (fs_cmds s); looking := lk |}.

Lemma looking_other (p : nat) (l : fleet_log) m : Forall (λ x, x.1 ≠ p) l → fold_left look_entry l m !! p = m !! p.
Proof.
  intros Hl. revert m. induction Hl as [|[q en] l Hq _ IH]; intros m; cbn [fold_left]; [done|]. rewrite IH.
  destruct en as [[cs|cs]|r]; cbn in *; [by rewrite lookup_insert_ne|by rewrite lookup_delete_ne|done].
Qed.
Lemma looking_snoc (l : fleet_log) x : looking_of (l ++ [x]) = look_entry (looking_of l) x.
Proof. unfold looking_of. by rewrite fold_left_app. Qed.
Lemma taken_app (l l' : fleet_log) : taken_of (l ++ l') = taken_of l ++ taken_of l'.
Proof. apply omap_app. Qed.

(** The history so far is one of the shared mailbox. *)
Definition mail_inv (s0 : state) (m : moment state fleet_event (res response)) : Prop :=
  keyed (fs_cmds (shared m)) ∧
  shared_steps (verified hmac_hex e) (mail_of s0 ∅) (taken_of (log m)) (mail_of (shared m) (looking_of (log m))).

(** Statements that change the messages and no reader. *)
Definition box_step (s s' : state) : Prop :=
  keyed (fs_cmds s) → keyed (fs_cmds s') ∧
  (mailbox_of (fs_cmds s') = mailbox_of (fs_cmds s) ∨
   ∀ lk, shared_step (verified hmac_hex e) (mail_of s lk) [] (mail_of s' lk)).

Lemma box_step_inv s0 m s' : mail_inv s0 m → box_step (shared m) s' → mail_inv s0 (Moment s' (log m)).
Proof.
  intros [K Hs] Hb. destruct (Hb K) as [K' [E|Hb']]; (split; [done|]); cbn [shared log].
  - unfold mail_of. rewrite E. exact Hs.
  - rewrite <- (app_nil_r (taken_of _)). econstructor; [exact Hs|apply Hb'].
Qed.
Lemma on_cmds_box {A} (m : M Tc A) s :
  (keyed (fs_cmds s) → keyed (m (fs_cmds s)).2 ∧
     (mailbox_of (m (fs_cmds s)).2 = mailbox_of (fs_cmds s) ∨
      ∀ lk, shared_step (verified hmac_hex e) (mail_of s lk) [] (set_box (mailbox_of (m (fs_cmds s)).2) (mail_of s lk)))) →
  box_step s (on_cmds m s).2.
Proof. intros Hm K. specialize (Hm K). unfold on_cmds. destruct (m (fs_cmds s)) as [r t]. exact Hm. Qed.

Lemma create_row_box id tn now target ty text s : box_step s (on_cmds (create_row (new_command id tn now target ty text)) s).2.
Proof.
  apply on_cmds_box. intros K. unfold create_row, mbind', get, ofo, throw, modify, mret'.
  destruct (insert_row _ _) as [t'|] eqn:Ei; cbn [snd]; [|auto]. apply insert_law in Ei as [Hr Hn].
  destruct (mailbox_add (fs_cmds s) t' _ K Hn eq_refl Hr) as [K' E]. split; [done|]. right. intros lk. rewrite E.
  apply (sh_enqueue _ (mail_of s lk)). cbn [mail_of box]. by rewrite used_spec.
Qed.
Lemma sign_row_box id sig s : box_step s (on_cmds (sign_row id sig) s).2.
Proof.
  apply on_cmds_box. intros K. unfold sign_row, mbind', get, ofo, throw, modify, mret'.
  destruct (update_one _ _ _) as [[r t']|] eqn:Eu; cbn [snd]; [|auto].
  split; [by eapply update_one_keyed; [|exact Eu|]|]. right. intros lk. rewrite (mailbox_seal _ _ _ _ _ K Eu).
  apply (sh_seal _ (mail_of s lk)).
Qed.
(** An update of one row that closes it. *)
Lemma close_row_box id f s :
  (∀ c, c_id (f c) = c_id c) → (∀ c, waiting (f c) = false) →
  box_step s (on_cmds (let* t := get in let* r := ofo "update" (update_one id f t) in modify (λ _, r.2)) s).2.
Proof.
  intros Hid Hw. apply on_cmds_box. intros K. unfold mbind', get, ofo, throw, modify, mret'.
  destruct (update_one _ _ _) as [[r t']|] eqn:Eu; cbn [snd]; [|auto].
  pose proof (update_one_keyed _ _ _ _ _ Hid Eu K) as K'. split; [done|]. right. intros lk.
  rewrite (mailbox_close (fs_cmds s) t' (λ c, c_id c =s id) f [id] K K'); [apply (sh_withdraw _ (mail_of s lk))| |done..|].
  - intros x. by rewrite (update_one_rows _ _ _ _ _ x Eu).
  - intros c _ _. destruct (c_id c =s id) eqn:E; bprop.
    + by rewrite bool_decide_eq_true_2 by (by apply list_elem_of_singleton).
    + by rewrite bool_decide_eq_false_2 by (by rewrite list_elem_of_singleton).
Qed.

Definition anyhow (s s' : state) : Prop := True.
#[local] Instance anyhow_preorder : PreOrder anyhow. Proof. by split. Qed.

Lemma answer_closes s0 p r m : closes anyhow (mail_inv s0) p r m.
Proof.
  intros m' _ [K Hs]. split; [done|]. cbn [answer shared log]. rewrite looking_snoc, taken_app. cbn. by rewrite app_nil_r.
Qed.

(** The query of a poll is a look, its update takes out what it saw. *)
Lemma look_inv s0 p m tn ag cs t' :
  looking_of (log m) !! p = None → find_open hmac_hex e tn ag (fs_cmds (shared m)) = (Ok cs, t') →
  mail_inv s0 m → mail_inv s0 (Moment (shared m) (log m ++ [(p, Did (Looked cs))])).
Proof.
  intros Hn Hf [K Hs]. apply find_open_ok in Hf as (_ & Hso & Hnd & Hcs). split; [done|]. cbn [shared log].
  rewrite looking_snoc, taken_app. cbn. econstructor; [exact Hs|].
  apply (sh_look _ (mail_of (shared m) (looking_of (log m))) p tn ag cs); [done|auto|done|].
  intros c. cbn [box mail_of]. rewrite open_spec, Hcs, open_for_spec, waiting_spec by done. unfold addressed. naive_solver.
Qed.
Lemma take_inv s0 p m cs t' :
  looking_of (log m) !! p = Some cs → mark_delivered cs (fs_cmds (shared m)) = (Ok tt, t') →
  mail_inv s0 m →
  mail_inv s0 (Moment {| fs_cmds := t'; fs_calls := fs_calls (shared m); fs_cache := fs_cache (shared m) |}
                      (log m ++ [(p, Did (Handed cs))])).
Proof.
  intros Hp Hm [K Hs]. pose proof (mark_forward cs (fs_cmds (shared m))) as [Hf _]. rewrite Hm in Hf. specialize (Hf K).
  split; [done|]. cbn [shared log]. rewrite looking_snoc, taken_app. cbn. econstructor; [exact Hs|].
  pose proof (sh_take (verified hmac_hex e) (mail_of (shared m) (looking_of (log m))) p cs Hp) as Ht.
  unfold mail_of in *. cbn [fs_cmds box looking] in *. rewrite (mailbox_close (fs_cmds (shared m)) t' _ _ (map c_id cs) K Hf (mark_delivered_ok _ _ _ Hm));
    [exact Ht|done|intros c; apply andb_false_r|].
  intros c _ Hw. apply waiting_spec in Hw as [_ ->]. by rewrite jeq_refl, andb_true_r.
Qed.

Lemma take_mail_wp s0 p m tn ag Q :
  Forall (λ x, x.1 ≠ p) (log m) → (∀ r m, Q r m) → wp anyhow (mail_inv s0) p m (take_commands_p hmac_hex e tn ag) Q.
Proof.
  intros Hfresh HQ. unfold take_commands_p. apply wp_bind. cbn. intros m1 [_ (ext & El & Hext)] Hi1.
  assert (Hn : looking_of (log m1) !! p = None).
  { unfold looking_of. rewrite El, looking_other; [by rewrite lookup_empty|by apply Forall_app]. }
  unfold fire, on_cmds. pose proof (find_open_same hmac_hex e tn ag (fs_cmds (shared m1))) as Hsame.
  destruct (find_open hmac_hex e tn ag (fs_cmds (shared m1))) as [[cs|msg] t'] eqn:Ef; cbn [fst snd map] in *; subst t';
    (replace {| fs_cmds := _; fs_calls := _; fs_cache := _ |} with (shared m1) by (by destruct (shared m1)));
    [|rewrite app_nil_r; splits; [by destruct m1|done|by apply HQ]].
  splits; [by eapply look_inv|done|]. destruct (bool_decide _); [by apply HQ|].
  intros m2 [_ (ext' & El' & Hext')] Hi2. cbn [shared log] in El'.
  assert (Hp : looking_of (log m2) !! p = Some cs).
  { unfold looking_of in *. rewrite El', fold_left_app, looking_other by done. rewrite fold_left_app. cbn. by rewrite lookup_insert_eq. }
  unfold fire, on_cmds. pose proof (mark_throws cs (fs_cmds (shared m2))) as Hthrow.
  destruct (mark_delivered cs (fs_cmds (shared m2))) as [[[]|msg] t2] eqn:Em; cbn [fst snd map] in *.
  - splits; [by eapply take_inv|done|]. by apply HQ.
  - rewrite (Hthrow msg eq_refl), app_nil_r. splits; [|done|by apply HQ]. destruct m2 as [[] ?]. done.
Qed.

Lemma overlap_mail s0 c :
  keyed (fs_cmds s0) → pool_reach (fleet_starts hmac_hex e post execFile findKey) s0 c → mail_inv s0 (at_moment c).
Proof.
  intros K0 Hr. apply (pool_invariant (fleet_starts hmac_hex e post execFile findKey) anyhow (mail_inv s0) s0 c); [| |done].
  - split; [done|]. constructor.
  - intros t m q Hst Hi Hfresh.
    assert (Hq : ∀ q, silent box_step hands_nothing q → safe anyhow (mail_inv s0) t m q).
    { intros q'. apply silent_wp; [done| |]; intros; [by apply box_step_inv|apply answer_closes]. }
    assert (Hother : ∀ s s', fs_cmds s' = fs_cmds s → box_step s s').
    { intros s s' E K. rewrite E. auto. }
    destruct Hst as [r|id now r|now r].
    + apply poll_wp; [|intros; apply answer_closes]. intros tn ag. apply take_mail_wp; [done|].
      intros [cs|msg] m'; apply answer_closes.
    + apply Hq, create_silent; [done|intros; apply create_row_box|intros; apply sign_row_box|].
      intros. by apply close_row_box.
    + apply Hq, ack_silent; [done|]. intros. apply close_row_box; [done|]. intros. apply ack_waiting.
Qed.


(** The database answers queries and updates of the table. *)
Definition answering (t : Tc) : Prop :=
  (∀ key p, is_Some (find_sorted key p t)) ∧ ∀ p f, is_Some (update_many p f t).
(** A poll of one agent with the key of its tenant. *)
Definition polls (r : request) (tenant agent : jstring) : Prop :=
  (∃ token key, bearer_token r = Some token ∧ findKey token = Some (Some key) ∧ k_tenantId key = tenant) ∧
  query "agent_id" r = Some agent ∧ agent ≠ [] ∧ agent ≠ VPS_FLEET_AGENT_ID.

Lemma take_answers tn ag t : answering t → ∃ l t', take_commands hmac_hex e tn ag t = (Ok l, t').
Proof.
  intros [Hf Hu]. unfold take_commands, mbind', get, ofo, throw, modify, mret'.
  destruct (Hf c_createdAt (open_for tn ag)) as [l ->]. cbv zeta. destruct (bool_decide _); [eauto|].
  match goal with |- context [update_many ?p ?f t] => destruct (Hu p f) as [t' ->] end. eauto.
Qed.
Lemma poll_answers r (s : state) tn ag : polls r tn ag → answering (fs_cmds s) →
  ∃ l t', take_commands hmac_hex e tn ag (fs_cmds s) = (Ok l, t') ∧
    commands_GET hmac_hex e findKey r s =
      (Ok (respond 200 (commands_json l)), {| fs_cmds := t'; fs_calls := fs_calls s; fs_cache := fs_cache s |}).
Proof.
  intros ((token & key & Hb & Hk & Ht) & Hq & Hne & Hvps) Ha. destruct (take_answers tn ag _ Ha) as (l & t' & Et).
  exists l, t'. split; [done|]. unfold commands_GET, with_key, catch, mbind', ofo, throw, mret', on_cmds.
  rewrite Hb, Hk, Hq. destruct ag as [|a ag]; [done|]. cbn [truthy_str nonempty].
  unfold isVpsFleetShadowAgent. destruct (bool_decide _) eqn:Eb; [apply bool_decide_eq_true in Eb; congruence|]. by rewrite Ht, Et.
Qed.

(** C9. Every authentic command reaches its agent unless it was dealt with before:
    whatever requests come in between, as soon as the agent polls and the database
    answers, the command is handed out, or it had already left the queue; and after
    that poll it is not waiting any more. *)
Theorem fleet_delivery_live (s s1 : state) log c tn ag r :
  keyed (fs_cmds s) → c ∈ rows (fs_cmds s) → waiting c = true → addressed tn ag c → verified hmac_hex e c = true →
  fleet_reach hmac_hex e post execFile findKey s s1 log → polls r tn ag → answering (fs_cmds s1) →
  ∃ resp s2, commands_GET hmac_hex e findKey r s1 = (Ok resp, s2) ∧
    (open (mailbox_of (fs_cmds s1)) !! c_id c = None ∨ c_id c ∈ delivered_ids resp) ∧
    open (mailbox_of (fs_cmds s2)) !! c_id c = None.
Proof.
  intros K Hc Hw Had Hv Hr Hp Ha. pose proof (reach_simulates _ _ _ K Hr) as [K1 Hs].
  assert (Ho : open (mailbox_of (fs_cmds s)) !! c_id c = Some c) by (by apply open_spec).
  destruct (poll_answers r s1 tn ag Hp Ha) as (l & t' & Et & Eg).
  eexists _, _. split; [exact Eg|]. rewrite delivered_commands. cbn [fs_cmds].
  assert (Hs2 : simulates (mailbox_of (fs_cmds s)) (log ++ map c_id l) t') by (eapply take_simulates; [exact Et|by split]).
  pose proof (mailbox_of_wf _ K) as Hwf.
  destruct Hs2 as [K2 Hs2]. pose proof (mail_steps_once _ _ _ _ Hwf Hs2) as (_ & _ & Hgone).
  destruct (mail_steps_stable _ _ _ _ _ _ Hwf Hs Ho) as [Ho1|Hn1].
  - assert (Hin : c_id c ∈ map c_id l).
    { apply take_commands_ok in Et as (_ & Hl & _). apply list_elem_of_fmap_2, Hl.
      apply open_spec in Ho1 as (Hc1 & _ & _); [|done]. apply waiting_spec in Hw as [? ?].
      split_and!; [done| |done]. apply open_for_spec. by destruct Had. }
    split; [by right|]. apply Hgone, elem_of_app. by right.
  - split; [by left|]. destruct (mail_steps_stable _ _ _ _ _ _ Hwf Hs2 Ho) as [Ho2|]; [|done]. exfalso.
    apply open_spec in Ho2 as (Hc2 & _ & _); [|done].
    apply take_commands_ok in Et as (_ & _ & _ & Hrows). apply Hrows in Hc2 as (d & Hd & E).
    destruct (_ && _); [rewrite E in Hw; by rewrite (andb_false_r _ : waiting (set_status "delivered" d) = false) in Hw|].
    subst d. assert (open (mailbox_of (fs_cmds s1)) !! c_id c = Some c) by (by apply open_spec). congruence.
Qed.
End refinement.

(** ** A concrete history *)

Module FleetSpecDemo.
#[local] Instance commands_table : Table (list AgentCommand) AgentCommand c_id := list_table c_id.
Import FleetDemo.


Lemma fleet_delivery_live_witness :
  ∃ resp s2, commands_GET hmac e keys (poll "a") s0 = (Ok resp, s2) ∧
    (open (mailbox_of table) !! ("1" : jstring) = None ∨ ("1" : jstring) ∈ delivered_ids resp) ∧
    open (mailbox_of (fs_cmds s2)) !! ("1" : jstring) = None.
Proof.
  apply (fleet_delivery_live hmac e nopost noexec keys s0 s0 [] (cmd "1" "t1" 10) "t1" "a").
  - exact s0_keyed.
  - right; right; left.
  - reflexivity.
  - split; [reflexivity|right; reflexivity].
  - vm_compute. reflexivity.
  - apply fr_init.
  - split; [|split; [reflexivity|split; discriminate]].
    exists "k1", {| k_key := "k1"; k_tenantId := "t1" |}. vm_compute. auto.
  - split; intros; eexists; reflexivity.
Defined.
End FleetSpecDemo.
