(* ===== verification/CopilotAction.v ===== *)
(** Remediation actions of the copilot (dashboard/src/app/api/copilot/action/route.ts):
    queueing a fleet command and, for bans, executing it at once. *)

From S2P Require Import Prelude JsString JsNum Json Http Auth BanUtils FetchBanned Bans BanExec JsDate Store FleetCommand Fleet FleetProps.

(** Actions that need the administrator role. *)
Definition ADMIN_ACTIONS : list jstring :=
  ["BAN_IP"; "PUSH_WAF_RULE"; "PUSH_THREAT_FEED"; "PUSH_SCHEMA"; "PUSH_WASM_PLUGIN"].

(** [String(params.k || '')]; [params] itself must not be [undefined] or [null]. *)
Definition param_text (k : jstring) (params : json) : jstring := str_or (jopt k (Some params)) [].
(** A template with two parameters. *)
Definition set_text (k1 k2 : jstring) (params : json) : jstring :=
  "SET " ++ ostr (jopt k1 (Some params)) ++ " " ++ ostr (jopt k2 (Some params)).

(** The [switch]: [None] is the default branch. *)
Definition action_payload (act : jstring) : option (json → jstring) :=
  if act =s "BAN_IP" then Some (param_text "ip")
  else if act =s "UNBAN_IP" then Some (param_text "ip")
  else if act =s "PUSH_WAF_RULE" then Some (set_text "key" "value")
  else if act =s "PUSH_THREAT_FEED" then Some (param_text "ips")
  else if act =s "UPDATE_THRESHOLD" then Some (set_text "metric" "value")
  else if act =s "PUSH_CONFIG" then Some (param_text "config")
  else if act =s "PUSH_SCHEMA" then Some (param_text "schemaPath")
  else if act =s "PUSH_WASM_PLUGIN" then Some (param_text "pluginPath")
  else None.

Section action.
Context (hmac_hex : jstring → jstring → jstring) (e : env).
Context (post : jstring → headers → res (Z * option json))
  (execFile : jstring → list jstring → res (jstring * jstring)).
Context {Tc : Type} `{!Table Tc AgentCommand c_id}.

(** Immediate execution of a ban or unban; the error message if it failed. *)
Definition execute_now (act payload : jstring) (reason : option json)
    : M (@fleet_state Tc) (bool * json) :=
  if (act =s "BAN_IP") || (act =s "UNBAN_IP") then
    let* b := on_fleet_calls (executeGuardianBan e post execFile payload
                (if act =s "UNBAN_IP" then Unban else Ban) (str_or reason "copilot-ban")) in
    if gb_ok b then mret' (true, JNull) else mret' (false, gb_message b)
  else mret' (false, JNull).

Definition action_POST (id : jstring) (now : Z) (r : request) : M (@fleet_state Tc) response :=
  catch
    (let tenantId := oor (header "x-user-tenant" r) [] in
     let userRole := oor (header "x-user-role" r) [] in
     if negb (nonempty tenantId) then mret' (error 401 "Unauthorized")
     else
       let* body := ofo "invalid json" (rq_json r) in
       let* action := lift_res (jget "action" body) in
       let targetAgentId := jopt "targetAgentId" (Some body) in
       let executeNow := otruthy (jopt "executeNow" (Some body)) in
       let act := jopt "action" action in
       if negb (otruthy act) then mret' (error 400 "action.action required")
       else if negb (userRole =s "admin") && existsb (λ a, is_lit a act) ADMIN_ACTIONS then
         mret' (error 403 "Admin role required for remediation actions")
       else
         match act with
         | Some (JStr act) =>
             match action_payload act with
             | None => mret' (error 400 "Unknown action type")
             | Some mk =>
                 let* params := ofo "Cannot read properties of undefined" (nullish (jopt "params" action)) in
                 let payload := mk params in
                 if negb (nonempty payload) then mret' (error 400 "Empty payload for action")
                 else
                   let* target := want_nullable targetAgentId in
                   let* command := on_cmds (createSignedFleetCommand hmac_hex e
                                              (new_command id tenantId now target act payload)) in
                   let targetDesc := match target with
                                     | Some a => "Agent " ++ a
                                     | None => "Tüm filo"
                                     end in
                   let* done := (if executeNow then execute_now act payload (jopt "reason" action)
                                 else mret' (false, JNull)) in
                   mret' (respond 200 (JObject
                     [("success", Some (JBool true)); ("commandId", Some (JStr (c_id command)));
                      ("action", Some (JStr act)); ("payload", Some (JStr payload));
                      ("target", Some (JStr targetDesc)); ("reason", jopt "reason" action);
                      ("executedNow", Some (JBool done.1)); ("executionError", Some done.2);
                      ("message", Some (JStr (if done.1
                         then "✅ " ++ act ++ " uygulandi: " ++ payload ++ " (filo kuyrugu + aninda ban)"
                         else "✅ Komut kuyruğa alındı: " ++ act ++ " → " ++ targetDesc)));
                      ("enqueuedAt", Some (date_json now))]))
             end
         | _ => mret' (error 400 "Unknown action type")
         end)
    (λ _, mret' ise).

(** GET: the latest actions of the tenant. *)
Definition LISTED_ACTIONS : list jstring :=
  ["BAN_IP"; "UNBAN_IP"; "PUSH_WAF_RULE"; "PUSH_THREAT_FEED"; "PUSH_CONFIG"; "PUSH_SCHEMA";
   "PUSH_WASM_PLUGIN"; "UPDATE_THRESHOLD"].

(** [take: n] of Prisma: a negative count takes from the end. *)
Definition prisma_take {A} (n : Z) (l : list A) : list A :=
  if n <? 0 then drop (length l - Z.to_nat (- n)) l else take (Z.to_nat n) l.

Definition action_GET (r : request) (t : Tc) : response :=
  let tenantId := oor (header "x-user-tenant" r) [] in
  match parseInt (oor (query "limit" r) "20") with
  | None => ise
  | Some limit =>
      match find_sorted (λ c, - c_createdAt c)
              (λ c, (c_tenantId c =s tenantId) && bool_decide (c_commandType c ∈ LISTED_ACTIONS)) t with
      | None => ise
      | Some l =>
          let l := prisma_take limit l in
          respond 200 (JObj [("actions", JArr (map command_json l));
                             ("total", jint (Z.of_nat (length l)))])
      end
  end.

(** ** Who can do what *)

(** A caller without the administrator role creates only commands of the four
    actions left open, in the own tenant, and never bans an address. *)
Lemma ADMIN_ACTIONS_spec act :
  existsb (λ a, is_lit a (Some (JStr act))) ADMIN_ACTIONS = false → act ∉ ADMIN_ACTIONS.
Proof.
  intros H Hin. assert (existsb (λ a, is_lit a (Some (JStr act))) ADMIN_ACTIONS = true); [|congruence].
  apply existsb_exists. exists act. rewrite <- list_elem_of_In. split; [done|]. apply jeq_refl.
Qed.

Lemma want_nullable_state v (s : @fleet_state Tc) out s' : want_nullable v s = (out, s') → s' = s.
Proof.
  unfold want_nullable, want_string, mbind', throw, mret'.
  repeat split_match; intros; simplify_eq; done.
Qed.

Lemma create_keeps_rest data (s s' : @fleet_state Tc) out :
  on_cmds (createSignedFleetCommand hmac_hex e data) s = (out, s') →
  fs_calls s' = fs_calls s ∧ fs_cache s' = fs_cache s ∧
  (fs_cmds s' = fs_cmds s ∨ ∃ c, rows (fs_cmds s') ≡ₚ c :: rows (fs_cmds s) ∧
     c_id c = c_id data ∧ c_tenantId c = c_tenantId data ∧ c_commandType c = c_commandType data).
Proof.
  unfold on_cmds. destruct (createSignedFleetCommand _ _ _ _) as [o t'] eqn:Ec. intros [= <- <-].
  cbn [fs_calls fs_cache fs_cmds]. splits; [done|done|].
  apply create_cases in Ec as [(_ & -> & _)|(_ & [[Hp _]|(sig & _ & Hp & _)])]; [by left|right..];
    eexists; (split; [exact Hp|done]).
Qed.

(** The effects open to a caller without the administrator role: at most one
    new command, of an open action and in the own tenant; calls that lift bans. *)
Definition user_effect (id : jstring) (r : request) (s s' : @fleet_state Tc) : Prop :=
  (fs_cmds s' = fs_cmds s ∨
   ∃ c, rows (fs_cmds s') ≡ₚ c :: rows (fs_cmds s) ∧ c_id c = id ∧
     header "x-user-tenant" r = Some (c_tenantId c) ∧ c_commandType c ∉ ADMIN_ACTIONS) ∧
  fs_cache s' = fs_cache s ∧
  ∃ calls, fs_calls s' = fs_calls s ++ calls ∧
    Forall (λ c, ∃ ip, dotted_quad ip ∧ targets e ip Unban c) calls.

Lemma user_effect_refl id r s : user_effect id r s s.
Proof. unfold user_effect. splits; [by left|done|]. exists []. by rewrite app_nil_r. Qed.

Lemma execute_now_effect act payload reason (s : @fleet_state Tc) :
  act ∉ ADMIN_ACTIONS →
  ∃ done s' calls, execute_now act payload reason s = (Ok done, s') ∧
    fs_cmds s' = fs_cmds s ∧ fs_cache s' = fs_cache s ∧ fs_calls s' = fs_calls s ++ calls ∧
    Forall (λ c, ∃ ip, dotted_quad ip ∧ targets e ip Unban c) calls.
Proof.
  intros Hact. unfold execute_now, mbind', on_fleet_calls, mret'.
  destruct (act =s "BAN_IP") eqn:Eb; bprop; [subst act; exfalso; apply Hact; by left|]. cbn [orb].
  destruct (act =s "UNBAN_IP"); [|eexists _, s, []; rewrite app_nil_r; done].
  destruct (execute_any e post execFile payload Unban (str_or reason "copilot-ban") (fs_calls s))
    as (b & calls & -> & Hc & _).
  destruct (gb_ok b); eexists _, _, calls; (split; [reflexivity|]); cbn; splits; try done;
    (eapply Forall_impl; [exact Hc|]; cbv beta; intros c [? ?]; eauto).
Qed.

Lemma role_not_admin r :
  header "x-user-role" r ≠ Some ("admin" : jstring) → (oor (header "x-user-role" r) [] =s "admin") = false.
Proof.
  intros H. apply jeq_false. intros E. apply H. destruct (header "x-user-role" r) as [[|c h]|]; cbn in E; congruence.
Qed.

(** C15. Without the administrator role the copilot route queues only commands
    of the actions left open (never a ban, a rule, feed, schema or plugin
    push), in the tenant of the caller, one at most; every call it makes to the
    analyzer lifts a ban, and the handler always answers. *)
Theorem copilot_user_confined id now r (s : @fleet_state Tc) :
  header "x-user-role" r ≠ Some ("admin" : jstring) →
  ∃ resp s', action_POST id now r s = (Ok resp, s') ∧ user_effect id r s s'.
Proof.
  intros Hrole. pose proof (user_effect_refl id r s) as Hid.
  unfold action_POST, catch, mbind', ofo, throw, lift_res, mret'. rewrite role_not_admin by done. cbn [negb andb].
  destruct (nonempty _) eqn:Eten; cbn [negb]; [|eauto]. bprop.
  assert (Htn : header "x-user-tenant" r = Some (oor (header "x-user-tenant" r) []))
    by (destruct (header "x-user-tenant" r) as [[|c h]|]; done).
  destruct (rq_json r) as [body|]; [|eauto].
  destruct (jget "action" body) as [action|]; [|eauto].
  destruct (negb (otruthy _)); [eauto|].
  destruct (existsb _ ADMIN_ACTIONS) eqn:Eact; [eauto|].
  destruct (jopt "action" action) as [[| | |act| |]|]; try by eauto.
  apply ADMIN_ACTIONS_spec in Eact.
  destruct (action_payload act) as [mk|]; [|eauto].
  destruct (nullish (jopt "params" action)) as [params|]; [|eauto].
  destruct (negb (nonempty _)); [eauto|].
  destruct (want_nullable _ s) as [[target|] s1] eqn:Etg; apply want_nullable_state in Etg as ->; [|eauto].
  destruct (on_cmds _ s) as [out s2] eqn:Ec. apply create_keeps_rest in Ec as (Hcalls & Hcache & Hrows).
  assert (Heff : ∀ s3 calls, fs_cmds s3 = fs_cmds s2 → fs_cache s3 = fs_cache s2 →
    fs_calls s3 = fs_calls s2 ++ calls →
    Forall (λ c, ∃ ip, dotted_quad ip ∧ targets e ip Unban c) calls → user_effect id r s s3).
  { intros s3 calls E1 E2 E3 Hall. unfold user_effect. rewrite E1, E2, E3, Hcalls, Hcache.
    splits; [|done|eauto]. destruct Hrows as [?|(c & ? & ? & F1 & F2)]; [by left|right].
    exists c. rewrite F1, F2. auto. }
  destruct out as [command|m]; [|eexists _, s2; split; [reflexivity|]; apply (Heff s2 []); by rewrite ?app_nil_r].
  destruct (otruthy (jopt "executeNow" (Some body))).
  - destruct (execute_now_effect act (mk params) (jopt "reason" action) s2 Eact) as (d & s3 & calls & -> & ?).
    eexists _, s3. split; [reflexivity|]. eapply Heff; naive_solver.
  - eexists _, s2. split; [reflexivity|]. apply (Heff s2 []); by rewrite ?app_nil_r.
Qed.

Definition unban_body (ip : jstring) : json :=
  JObj [("action", JObj [("action", JStr "UNBAN_IP"); ("params", JObj [("ip", JStr ip)])]);
        ("executeNow", JBool true)].

(** Lifting a ban at once needs no administrator: a signed-in user of any
    tenant who asks the copilot for UNBAN_IP with [executeNow] makes the
    dashboard call the analyzer's unban API for the address of their choice,
    which POST /api/guardian/ban refuses to everyone but administrators. *)
Theorem copilot_unban_any_user id now r (s : @fleet_state Tc) ip command t1 tok :
  nonempty (oor (header "x-user-tenant" r) []) = true →
  rq_json r = Some (unban_body ip) → dotted_quad ip → trim ip = ip →
  createSignedFleetCommand hmac_hex e
    (new_command id (oor (header "x-user-tenant" r) []) now None "UNBAN_IP" ip) (fs_cmds s) = (Ok command, t1) →
  nonempty (guardianApiBase e) = true → guardianApiMutationToken e = Some tok →
  ∃ url hs calls, fs_calls (action_POST id now r s).2 = fs_calls s ++ CallPost url hs :: calls ∧
    targets e ip Unban (CallPost url hs).
Proof.
  intros Hten Hbody Hip Htrim Hcreate Hbase Htok.
  unfold action_POST, catch, mbind', ofo, throw, lift_res, mret'. rewrite Hten, Hbody. cbn [negb].
  change (jget "action" _) with (Ok (Some (JObj [("action", JStr "UNBAN_IP"); ("params", JObj [("ip", JStr ip)])]))).
  change (jopt "targetAgentId" _) with (@None json).
  change (otruthy (jopt "executeNow" _)) with true.
  set (action := Some (JObj _)). cbv iota beta.
  change (jopt "action" action) with (Some (JStr "UNBAN_IP")).
  change (nullish (jopt "params" action)) with (Some (JObj [("ip", JStr ip)])).
  change (jopt "reason" action) with (@None json).
  replace (existsb (λ a, is_lit a (Some (JStr "UNBAN_IP"))) ADMIN_ACTIONS) with false
    by (vm_compute; reflexivity). rewrite andb_false_r.
  change (negb (otruthy (Some (JStr "UNBAN_IP")))) with false.
  change (action_payload "UNBAN_IP") with (Some (param_text "ip")). cbv iota beta.
  assert (Hne : nonempty ip = true) by (destruct Hip as (a & b & c & d & -> & _); by destruct a).
  assert (Hpt : param_text "ip" (JObj [("ip", JStr ip)]) = ip).
  { unfold param_text, str_or. change (jopt "ip" _) with (Some (JStr ip)). cbn [truthy to_str]. by rewrite Hne. }
  rewrite Hpt, Hne. cbn [negb]. unfold want_nullable, mret'. cbn [otruthy]. unfold on_cmds. rewrite Hcreate.
  unfold execute_now, on_fleet_calls, mbind'. change ("UNBAN_IP" =s "BAN_IP") with false.
  change ("UNBAN_IP" =s "UNBAN_IP") with true. cbn [orb fs_calls].
  destruct (execute_posts e post execFile ip Unban "copilot-ban" "copilot-ban" tok (fs_calls s))
    as (b & url & hs & calls & Ex & Htg); try done.
  change (str_or None "copilot-ban") with ("copilot-ban" : jstring). rewrite Ex.
  exists url, hs, calls. split; [by destruct (gb_ok b)|done].
Qed.
End action.

Lemma quad_ex : dotted_quad "45.9.1.7".
Proof. exists "45", "9", "1", "7". repeat split. Qed.

Module ActionDemo.
Definition e : env := env_of [("GUARDIAN_API_TOKEN", "t0k")].
(** A user of tenant t1 who lifts a ban. *)
Definition unban : request :=
  mk_request "/api/copilot/action" [("x-user-role", "user"); ("x-user-tenant", "t1")] [] []
    (Some (unban_body "45.9.1.7")).
Definition signed : AgentCommand := set_signature "ab12" (new_command "9" "t1" 30 None "UNBAN_IP" "45.9.1.7").
End ActionDemo.

Lemma copilot_user_confined_witness :
  ∃ resp s', action_POST (Table0 := list_table c_id) FleetDemo.hmac ActionDemo.e FleetDemo.nopost
      FleetDemo.noexec "9" 30 ActionDemo.unban FleetDemo.s0 = (Ok resp, s') ∧
    user_effect (Table0 := list_table c_id) ActionDemo.e "9" ActionDemo.unban FleetDemo.s0 s'.
Proof.
  apply (copilot_user_confined (Table0 := list_table c_id) FleetDemo.hmac ActionDemo.e FleetDemo.nopost
           FleetDemo.noexec "9" 30 ActionDemo.unban FleetDemo.s0).
  vm_compute. discriminate.
Defined.

Lemma copilot_unban_any_user_witness :
  ∃ url hs calls, fs_calls (action_POST (Table0 := list_table c_id) FleetDemo.hmac ActionDemo.e FleetDemo.nopost
      FleetDemo.noexec "9" 30 ActionDemo.unban FleetDemo.s0).2 = [] ++ CallPost url hs :: calls ∧
    targets ActionDemo.e "45.9.1.7" Unban (CallPost url hs).
Proof.
  apply (copilot_unban_any_user (Table0 := list_table c_id) FleetDemo.hmac ActionDemo.e FleetDemo.nopost
           FleetDemo.noexec "9" 30 ActionDemo.unban FleetDemo.s0 "45.9.1.7" ActionDemo.signed
           (FleetDemo.table ++ [ActionDemo.signed]) "t0k").
  - reflexivity.
  - reflexivity.
  - exact quad_ex.
  - reflexivity.
  - vm_compute. reflexivity.
  - reflexivity.
  - reflexivity.
Defined.
