(* ===== verification/Telemetry.v ===== *)
(** Agent telemetry and the views over it: ingestion (dashboard/src/app/api/telemetry/route.ts),
    the fleet page (api/fleet/route.ts, lib/vpsFleetShadow.ts), the tenant list
    (api/tenants/route.ts), tenant isolation (api/tenants/isolation/route.ts) and
    the Prometheus exposition (api/metrics/fleet/route.ts). *)

From S2P Require Import Prelude JsString JsNum Json Http Auth JsDate Store FleetCommand Fleet.

(** A row of the [Telemetry] table. *)
Record Telemetry := {
  t_id : jstring;
  t_agentId : jstring;
  t_tenantId : jstring;
  t_eps : num;
  t_totalLines : Z;
  t_alertsTotal : Z;
  t_rceDetections : Z;
  t_tarpitActive : Z;
  t_tarpitTrapped : Z;
  t_meshPeers : Z;
  t_uniqueIps : Z;
  t_tlsDecrypted : Z;
  t_etcdPeers : Z;
  t_attackTreeJson : jstring;
  t_incidentsActive : Z;
  t_incidentsCorrelated : Z;
  t_lastSeen : Z;
}.

(** ** POST /api/telemetry *)

(** [v || 0] and [v ?? 0] *)
Definition or_zero (v : option json) : json := match v with Some v => if truthy v then v else jint 0 | None => jint 0 end.
Definition null_zero (v : option json) : json := nullish v ?? jint 0.

(** Values the client accepts for a [Float] and for a 32-bit [Int] column. *)
Definition col_float (v : json) : option num := match v with JNum x => if is_finite x then Some x else None | _ => None end.
Definition col_int (v : json) : option Z :=
  match v with
  | JNum x => match num_int x with
              | Some z => if (-2147483648 <=? z) && (z <=? 2147483647) then Some z else None
              | None => None
              end
  | _ => None
  end.

Definition attack_tree_text (v : option json) : jstring :=
  match v with
  | Some (JStr s) => s
  | _ => stringify (nullish v ?? JArr [])
  end.

(** The measured columns of a report; [None] when the client rejects a value. *)
Definition telemetry_of (data : json) (id agentId tenantId : jstring) (now : Z) : option Telemetry :=
  let f k := jopt k (Some data) in
  eps ← col_float (or_zero (f "eps"));
  totalLines ← col_int (or_zero (f "total_lines"));
  alertsTotal ← col_int (or_zero (f "alerts_total"));
  rceDetections ← col_int (or_zero (f "rce_detections"));
  tarpitActive ← col_int (or_zero (f "tarpit_active"));
  tarpitTrapped ← col_int (or_zero (f "tarpit_trapped"));
  meshPeers ← col_int (or_zero (f "mesh_peers"));
  uniqueIps ← col_int (or_zero (f "unique_ips"));
  tlsDecrypted ← col_int (or_zero (f "tls_decrypted"));
  etcdPeers ← col_int (or_zero (f "etcd_peers"));
  incidentsActive ← col_int (null_zero (f "incidents_active"));
  incidentsCorrelated ← col_int (null_zero (f "incidents_correlated"));
  Some {| t_id := id; t_agentId := agentId; t_tenantId := tenantId; t_eps := eps;
          t_totalLines := totalLines; t_alertsTotal := alertsTotal; t_rceDetections := rceDetections;
          t_tarpitActive := tarpitActive; t_tarpitTrapped := tarpitTrapped; t_meshPeers := meshPeers;
          t_uniqueIps := uniqueIps; t_tlsDecrypted := tlsDecrypted; t_etcdPeers := etcdPeers;
          t_attackTreeJson := attack_tree_text (f "attack_tree");
          t_incidentsActive := incidentsActive; t_incidentsCorrelated := incidentsCorrelated;
          t_lastSeen := now |}.

(** The update keeps the identity of the row it finds. *)
Definition refresh (n r : Telemetry) : Telemetry :=
  {| t_id := t_id r; t_agentId := t_agentId r; t_tenantId := t_tenantId r; t_eps := t_eps n;
     t_totalLines := t_totalLines n; t_alertsTotal := t_alertsTotal n; t_rceDetections := t_rceDetections n;
     t_tarpitActive := t_tarpitActive n; t_tarpitTrapped := t_tarpitTrapped n; t_meshPeers := t_meshPeers n;
     t_uniqueIps := t_uniqueIps n; t_tlsDecrypted := t_tlsDecrypted n; t_etcdPeers := t_etcdPeers n;
     t_attackTreeJson := t_attackTreeJson n; t_incidentsActive := t_incidentsActive n;
     t_incidentsCorrelated := t_incidentsCorrelated n; t_lastSeen := t_lastSeen n |}.

Definition of_agent (agentId tenantId : jstring) (t : Telemetry) : bool :=
  (t_agentId t =s agentId) && (t_tenantId t =s tenantId).

Section ingest.
Context (findKey : jstring → option (option ApiKey)).
Context {Tt : Type} `{!Table Tt Telemetry t_id}.

(** [id] and [now] are the generated columns. *)
Definition telemetry_POST (id : jstring) (now : Z) (r : request) : M Tt response :=
  catch
    (match bearer_token r with
     | None => mret' (error 401 "Unauthorized: Missing or invalid token")
     | Some token =>
         let* key := ofo "apiKey" (findKey token) in
         match key with
         | None => mret' (error 401 "Unauthorized: Invalid API Key")
         | Some key =>
             let* data := ofo "invalid json" (rq_json r) in
             let* agent := lift_res (jget "agent_id" data) in
             if negb (otruthy agent) then mret' (error 400 "Missing agent_id")
             else
               let* agentId := ofo "agent_id" (as_str agent) in
               let* row := ofo "data" (telemetry_of data id agentId (k_tenantId key) now) in
               let* t := get in
               let* u := ofo "upsert" (upsert (of_agent agentId (k_tenantId key)) (refresh row) row t) in
               modify (λ _, u.2) ;;;
               mret' (respond 200 (JObj [("success", JBool true); ("tenant_id", JStr (k_tenantId key));
                                         ("timestamp", date_json (t_lastSeen u.1))]))
         end
     end)
    (λ _, mret' ise).
End ingest.

(** ** vpsFleetShadow.ts *)

Section shadow.
(** The time value [new Date(text)] gets, [None] for an invalid date. *)
Context (dateParse : jstring → option Z).

(** [remote.date ? new Date(remote.date) : new Date()] as JSON *)
Definition shadow_date (now : Z) (v : option json) : json :=
  if otruthy v then
    match v with
    | Some (JStr s) => match dateParse s with Some t => date_json t | None => JNull end
    | Some (JNum x) => match num_int x with Some t => date_json t | None => JNull end
    | _ => JNull
    end
  else date_json now.

Definition buildVpsFleetShadow (now : Z) (remote : json) : option json :=
  let f k := jopt k (Some remote) in
  let orNull k := nullish (f k) ?? JNull in
  if negb (otruthy (f "ssh_ok")) then None
  else Some (JObj
    [("agent_id", JStr VPS_FLEET_AGENT_ID); ("tenant_id", JStr "vps-prod"); ("tenant_name", JStr "VPS prod");
     ("eps", nullish (f "eps") ?? jint 0); ("total_lines", jint 0); ("alerts_total", jint 0);
     ("rce_detections", jint 0); ("tarpit_active", jint 0); ("tarpit_trapped", jint 0);
     ("mesh_peers", jint 0); ("unique_ips", jint 0); ("tls_decrypted", jint 0); ("etcd_peers", jint 0);
     ("incidents_active", jint 0); ("incidents_correlated", jint 0); ("attack_trees", jint 0);
     ("last_seen", shadow_date now (f "date")); ("status", JStr "Online"); ("remote_shadow", JBool true);
     ("xdp_mode", orNull "xdp_mode"); ("soak_proof_72h", orNull "soak_proof_72h");
     ("hostname", orNull "hostname"); ("host", orNull "host")]).
End shadow.

Definition readVpsRemoteStatus (w : world) (e : env) (cwd : jstring) : json :=
  readFirst w [oor (e "BENCH_DATA_DIR") "/data/lg"; cwd; cwd ++ "/.."] "vps-remote-status-report.json".

(** ** GET /api/fleet *)

Definition is_online (now : Z) (t : Telemetry) : bool := now - t_lastSeen t <? 15000.

Definition attack_trees (t : Telemetry) : Z :=
  match JSON_parse (sor (t_attackTreeJson t) "[]") with
  | Some (JArr l) => Z.of_nat (length l)
  | _ => 0
  end.

(** The tenant filter of the fleet page. *)
Definition fleet_where (tenantId : option jstring) (t : Telemetry) : bool :=
  match truthy_str tenantId with
  | Some tn => if tn =s "*" then true else t_tenantId t =s tn
  | None => true
  end.

(** Offline agents last seen longer ago than [staleHours] are hidden; [NaN]
    hides every offline agent. *)
Definition recent (now : Z) (staleHours : num) (t : Telemetry) : bool :=
  if nle staleHours nzero then true
  else if is_online now t then true
  else nlt (num_of_Z (now - t_lastSeen t)) (nmul (nmul staleHours (num_of_Z 3600)) (num_of_Z 1000)).

Section views.
Context (dateParse : jstring → option Z) (tenantName : jstring → option jstring).
Context {Tt Tc : Type} `{!Table Tt Telemetry t_id, !Table Tc AgentCommand c_id}.

Definition agent_json (now : Z) (t : Telemetry) : json :=
  JObj [("agent_id", JStr (t_agentId t)); ("tenant_id", JStr (t_tenantId t));
        ("tenant_name", JStr (tenantName (t_tenantId t) ?? t_tenantId t)); ("eps", JNum (t_eps t));
        ("total_lines", jint (t_totalLines t)); ("alerts_total", jint (t_alertsTotal t));
        ("rce_detections", jint (t_rceDetections t)); ("tarpit_active", jint (t_tarpitActive t));
        ("tarpit_trapped", jint (t_tarpitTrapped t)); ("mesh_peers", jint (t_meshPeers t));
        ("unique_ips", jint (t_uniqueIps t)); ("tls_decrypted", jint (t_tlsDecrypted t));
        ("etcd_peers", jint (t_etcdPeers t)); ("incidents_active", jint (t_incidentsActive t));
        ("incidents_correlated", jint (t_incidentsCorrelated t)); ("attack_trees", jint (attack_trees t));
        ("last_seen", date_json (t_lastSeen t));
        ("status", JStr (if is_online now t then "Online" else "Offline"))].

Definition fleet_GET (w : world) (e : env) (cwd : jstring) (now : Z) (r : request) (tt : Tt) (tc : Tc)
    : response :=
  let tenantId := header "x-tenant-id" r in
  let staleHours := parseFloat (oor (query "stale_hours" r) "0") in
  match find_many (fleet_where tenantId) tt with
  | None => ise
  | Some agents =>
      let enriched := jfilter (recent now staleHours) agents in
      let shadow := buildVpsFleetShadow dateParse now (readVpsRemoteStatus w e cwd) in
      let fleetOut :=
        map (agent_json now) enriched ++
        match shadow with
        | Some s => if existsb (λ t, t_agentId t =s VPS_FLEET_AGENT_ID) enriched then [] else [s]
        | None => []
        end in
      match group_count t_tenantId tt,
            count_rows (λ c, negb (c_executed c) && bool_decide (c_status c ∈ ["delivered" : jstring; "pending"])) tc with
      | Some groups, Some pendingCommands =>
          respond 200 (JObj
            [("fleet", JArr fleetOut);
             ("remote_shadow", match shadow with
                | Some s => JObject (map (λ k, (k, jopt k (Some s)))
                              ["agent_id"; "host"; "hostname"; "xdp_mode"; "soak_proof_72h"])
                | None => JNull
                end);
             ("tenant_id", JStr (oor tenantId "*"));
             ("tenant_count", jint (Z.of_nat (length groups)));
             ("tenants", JArr (map (λ g, JObj [("tenant_id", JStr g.1); ("agent_count", jint g.2)]) groups));
             ("pending_commands", jint pendingCommands)])
      | _, _ => ise
      end
  end.
End views.

(** ** GET /api/tenants *)

(** The agents of each tenant, in the order tenants first appear. *)
Fixpoint add_to_tenant (t : Telemetry) (m : list (jstring * list Telemetry)) : list (jstring * list Telemetry) :=
  match m with
  | [] => [(t_tenantId t, [t])]
  | (k, l) :: m' => if t_tenantId t =s k then (k, l ++ [t]) :: m' else (k, l) :: add_to_tenant t m'
  end.
Definition by_tenant (agents : list Telemetry) : list (jstring * list Telemetry) :=
  fold_left (λ m t, add_to_tenant t m) agents [].

Definition sum_num (f : Telemetry → num) (l : list Telemetry) : num := fold_left (λ s t, nadd s (f t)) l nzero.
Definition sum_int (f : Telemetry → Z) (l : list Telemetry) : Z := fold_left (λ s t, s + f t) l 0.

Section tenants.
Context {Tt : Type} `{!Table Tt Telemetry t_id}.

Definition tenants_GET (now : Z) (r : request) (tt : Tt) : response :=
  let isAdmin := bool_decide (header "x-user-role" r = Some ("admin" : jstring)) in
  let query := if isAdmin then Some (λ _ : Telemetry, true)
               else (λ tn t, t_tenantId t =s tn) <$> header "x-user-tenant" r in
  match query with
  | None => ise
  | Some p =>
      match find_many p tt with
      | None => ise
      | Some agents =>
          respond 200 (JObj [("tenants", JArr (map (λ g,
            JObj [("tenant_id", JStr g.1); ("agent_count", jint (Z.of_nat (length g.2)));
                  ("online_agents", jint (Z.of_nat (length (jfilter (is_online now) g.2))));
                  ("total_eps", JNum (sum_num t_eps g.2)); ("total_rce", jint (sum_int t_rceDetections g.2));
                  ("total_tarpit", jint (sum_int t_tarpitActive g.2));
                  ("tls_decrypted", jint (sum_int t_tlsDecrypted g.2));
                  ("etcd_peers", jint (sum_int t_etcdPeers g.2))]) (by_tenant agents)))])
      end
  end.
End tenants.

(** ** GET /api/tenants/isolation *)

Definition readRepoJson (w : world) (e : env) (cwd name : jstring) : json :=
  readFirst w [oor (e "BENCH_DATA_DIR") "/data/lg"; cwd; cwd ++ "/.."] name.

Section isolation.
Context {Tt : Type} `{!Table Tt Telemetry t_id}.

(** [tenantCount] and [apiKeyCount] are the results of [count()] on their tables. *)
Definition isolation_GET (w : world) (e : env) (cwd : jstring) (tenantCount apiKeyCount : option Z) (tt : Tt)
    : response :=
  let file := readRepoJson w e cwd "tenant-isolation-report.json" in
  match tenantCount, apiKeyCount, group_count t_tenantId tt with
  | Some tenantCount, Some apiKeyCount, Some agentsByTenant =>
      respond 200 (JObject
        [("available", Some (JBool (truthy file)));
         ("pass", Some (nullish (jopt "pass" (Some file)) ?? JBool false));
         ("checks_passed", jopt "checks_passed" (Some file)); ("checks_total", jopt "checks_total" (Some file));
         ("tenant", jopt "tenant" (Some file)); ("checks", jopt "checks" (Some file));
         ("dashboard", Some (JObj
            [("tenant_count", jint tenantCount); ("api_key_count", jint apiKeyCount);
             ("telemetry_by_tenant", JArr (map (λ g, JObj [("tenant_id", JStr g.1); ("agents", jint g.2)]) agentsByTenant));
             ("api_key_bound_telemetry", JBool true); ("middleware_enforces_tenant", JBool true)]));
         ("hint", Some (if truthy file then JNull else JStr "Run: bash scripts/tenant_isolation_export.sh"))])
  | _, _, _ => ise
  end.
End isolation.

(** ** GET /api/metrics/fleet *)

Definition ONLINE_MS : Z := 15 * 60 * 1000.

(** Backslashes and double quotes of a label value. *)
Definition label_escape (s : jstring) : jstring :=
  replace_unit 34 [92; 34] (replace_unit 92 [92; 92] s).

Definition age_sec (now : Z) (t : Telemetry) : num :=
  let a := ndiv (num_of_Z (now - t_lastSeen t)) (num_of_Z 1000) in
  if nlt nzero a then a else nzero.

Definition metric_tenant (t : Telemetry) : jstring := sor (t_tenantId t) "default".

Record Tally := { tl_online : Z; tl_total : Z }.

(** One round of the loop over the agents: the tally of the tenant and the age line. *)
Definition tally_agent (now : Z) (acc : list (jstring * Tally) * list jstring) (t : Telemetry)
    : list (jstring * Tally) * list jstring :=
  let tid := metric_tenant t in
  let ageSec := age_sec now t in
  let online := nlt (nmul ageSec (num_of_Z 1000)) (num_of_Z ONLINE_MS) in
  let cur := assoc tid acc.1 ?? {| tl_online := 0; tl_total := 0 |} in
  let cur := {| tl_online := if online then tl_online cur + 1 else tl_online cur;
                tl_total := tl_total cur + 1 |} in
  (put_field tid cur acc.1,
   acc.2 ++ ["loganalyzer_fleet_agent_last_seen_age_seconds{tenant_id=" ++ dq ++ label_escape tid ++ dq ++
             ",agent_id=" ++ dq ++ label_escape (t_agentId t) ++ dq ++ "} " ++ toFixed 1 ageSec]).

Definition fleet_metric_lines (now : Z) (agents : list Telemetry) : list jstring :=
  let '(byTenant, ageLines) := fold_left (tally_agent now) agents ([], []) in
  ["# HELP loganalyzer_fleet_agent_online Agents with last_seen < 15m (Grafana fleet heartbeat)";
   "# TYPE loganalyzer_fleet_agent_online gauge";
   "# HELP loganalyzer_fleet_agent_total Telemetry agents in dashboard DB";
   "# TYPE loganalyzer_fleet_agent_total gauge";
   "# HELP loganalyzer_fleet_agent_last_seen_age_seconds Seconds since last telemetry heartbeat";
   "# TYPE loganalyzer_fleet_agent_last_seen_age_seconds gauge"] ++
  (match byTenant with
   | [] => ["loganalyzer_fleet_agent_online{tenant_id=" ++ dq ++ "default" ++ dq ++ "} 0";
            "loganalyzer_fleet_agent_total{tenant_id=" ++ dq ++ "default" ++ dq ++ "} 0"]
   | _ => flat_map (λ kv,
            ["loganalyzer_fleet_agent_online{tenant_id=" ++ dq ++ label_escape kv.1 ++ dq ++ "} " ++ dec (tl_online kv.2);
             "loganalyzer_fleet_agent_total{tenant_id=" ++ dq ++ label_escape kv.1 ++ dq ++ "} " ++ dec (tl_total kv.2)])
            byTenant
   end) ++ ageLines ++ [[]].

Section metrics.
Context {Tt : Type} `{!Table Tt Telemetry t_id}.
Definition metrics_fleet_GET (now : Z) (tt : Tt) : response :=
  match find_many (λ _, true) tt with
  | None => ise
  | Some agents =>
      {| rs_status := 200; rs_body := BText (join [10] (fleet_metric_lines now agents));
         rs_headers := [("content-type", "text/plain; version=0.0.4; charset=utf-8"); ("cache-control", "no-store")];
         rs_set := []; rs_delete := [] |}
  end.
End metrics.

(** ** Ingestion writes only the caller's own row *)

Section ingest_facts.
Context (findKey : jstring → option (option ApiKey)).
Context {Tt : Type} `{!Table Tt Telemetry t_id}.

(** One row per agent and tenant. *)
Definition one_row_each (tt : Tt) : Prop :=
  ∀ x y, x ∈ rows tt → y ∈ rows tt → t_agentId x = t_agentId y → t_tenantId x = t_tenantId y → x = y.

Lemma of_agent_spec a tn t : of_agent a tn t = true ↔ t_agentId t = a ∧ t_tenantId t = tn.
Proof. unfold of_agent. by rewrite andb_true_iff, !jeq_true. Qed.

Lemma telemetry_of_fields data id a tn now row :
  telemetry_of data id a tn now = Some row → t_id row = id ∧ t_agentId row = a ∧ t_tenantId row = tn ∧ t_lastSeen row = now.
Proof.
  unfold telemetry_of. intros H. repeat (apply bind_Some in H as (? & _ & H)). by simplify_eq.
Qed.

(** The measured columns do not depend on the id of the row. *)
Lemma telemetry_of_id data id id' a tn now row :
  telemetry_of data id a tn now = Some row →
  telemetry_of data id' a tn now =
    Some {| t_id := id'; t_agentId := t_agentId row; t_tenantId := t_tenantId row; t_eps := t_eps row;
            t_totalLines := t_totalLines row; t_alertsTotal := t_alertsTotal row;
            t_rceDetections := t_rceDetections row; t_tarpitActive := t_tarpitActive row;
            t_tarpitTrapped := t_tarpitTrapped row; t_meshPeers := t_meshPeers row;
            t_uniqueIps := t_uniqueIps row; t_tlsDecrypted := t_tlsDecrypted row;
            t_etcdPeers := t_etcdPeers row; t_attackTreeJson := t_attackTreeJson row;
            t_incidentsActive := t_incidentsActive row;
            t_incidentsCorrelated := t_incidentsCorrelated row; t_lastSeen := t_lastSeen row |}.
Proof.
  unfold telemetry_of. intros H.
  repeat (apply bind_Some in H as (? & E & H); rewrite E; clear E; cbn [mbind option_bind]). by simplify_eq.
Qed.

(** What a stored report changes. *)
Lemma upsert_effect a tn row (tt tt' : Tt) u :
  t_agentId row = a → t_tenantId row = tn → one_row_each tt →
  upsert (of_agent a tn) (refresh row) row tt = Some (u, tt') →
  (u = row ∨ ∃ r0, r0 ∈ rows tt ∧ t_agentId r0 = a ∧ t_tenantId r0 = tn ∧ u = refresh row r0) ∧
  one_row_each tt' ∧
  (∀ x, x ∈ rows tt' ↔ x = u ∨ (x ∈ rows tt ∧ of_agent a tn x = false)).
Proof.
  intros Ha Ht Hone [[(r0 & Hr0 & Hp0 & ->) Hrows]|(Hnone & -> & Hrows & _)]%upsert_law.
  - apply of_agent_spec in Hp0 as [E1 E2].
    assert (Hel : ∀ x, x ∈ rows tt' ↔ x = refresh row r0 ∨ (x ∈ rows tt ∧ of_agent a tn x = false)).
    { intros x. rewrite Hrows, list_elem_of_fmap. split.
      - intros (y & -> & Hy). destruct (of_agent a tn y) eqn:Ey; [left|by right].
        apply of_agent_spec in Ey as [F1 F2]. rewrite (Hone y r0); congruence.
      - intros [->|[Hx Hf]]; [exists r0|exists x; by rewrite Hf].
        split; [|done]. destruct (of_agent a tn r0) eqn:Ey; [done|].
        assert (of_agent a tn r0 = true) by (by apply of_agent_spec). congruence. }
    splits; [right; exists r0; done| |done].
    intros x y [->|[Hx Fx]]%Hel [->|[Hy Fy]]%Hel; cbn [t_agentId t_tenantId refresh]; intros G1 G2; [done|..].
    + exfalso. assert (of_agent a tn y = true) by (apply of_agent_spec; split; congruence). congruence.
    + exfalso. assert (of_agent a tn x = true) by (apply of_agent_spec; split; congruence). congruence.
    + by apply Hone.
  - assert (Hel : ∀ x, x ∈ rows tt' ↔ x = row ∨ (x ∈ rows tt ∧ of_agent a tn x = false)).
    { intros x. rewrite Hrows, elem_of_cons. split; [intros [->|Hx]; auto|]. intros [->|[Hx _]]; auto. }
    splits; [by left| |done].
    intros x y [->|[Hx Fx]]%Hel [->|[Hy Fy]]%Hel G1 G2; [done|..].
    + exfalso. assert (of_agent a tn y = true) by (apply of_agent_spec; split; congruence). congruence.
    + exfalso. assert (of_agent a tn x = true) by (apply of_agent_spec; split; congruence). congruence.
    + by apply Hone.
Qed.

(** C14. A telemetry report is bound to the tenant of the API key and to the agent
    it names: a report either is answered with an error and changes nothing, or is
    answered with 200 and replaces exactly the row of (the agent_id of the body,
    the tenant of the key) by one whose every measured column is read from this
    body, stamped with the time of arrival. All other rows stay, and each agent of
    a tenant keeps a single row. *)
Theorem telemetry_tenant_bound id now r (tt : Tt) :
  one_row_each tt →
  ∃ resp tt', telemetry_POST findKey id now r tt = (Ok resp, tt') ∧ one_row_each tt' ∧
    ((rs_status resp ≠ 200 ∧ tt' = tt) ∨
     ∃ token key data u, rs_status resp = 200 ∧
       bearer_token r = Some token ∧ findKey token = Some (Some key) ∧ rq_json r = Some data ∧
       jget "agent_id" data = Ok (Some (JStr (t_agentId u))) ∧ t_agentId u ≠ [] ∧
       telemetry_of data (t_id u) (t_agentId u) (k_tenantId key) now = Some u ∧
       t_tenantId u = k_tenantId key ∧ t_lastSeen u = now ∧
       ∀ x, x ∈ rows tt' ↔ x = u ∨ (x ∈ rows tt ∧ of_agent (t_agentId u) (k_tenantId key) x = false)).
Proof.
  intros Hone. unfold telemetry_POST, catch, mbind', ofo, throw, lift_res, get, modify, mret'.
  destruct (bearer_token r) as [token|]; [|eauto 10].
  destruct (findKey token) as [[key|]|] eqn:Ek; [|eauto 10..].
  destruct (rq_json r) as [data|]; [|eauto 10]. destruct (jget "agent_id" data) as [agent|] eqn:Eg; [|eauto 10].
  destruct (negb _) eqn:Eneg; [eauto 10|]. destruct (as_str agent) as [a|] eqn:Eas; [|eauto 10].
  assert (Hag : agent = Some (JStr a) ∧ a ≠ []).
  { destruct agent as [[| | | | |]|]; cbn in Eas; simplify_eq. split; [done|]. by intros ->. }
  destruct Hag as [-> Hane].
  destruct (telemetry_of data id a (k_tenantId key) now) as [row|] eqn:Er; [|eauto 10].
  destruct (telemetry_of_fields _ _ _ _ _ _ Er) as (Ei & Ea & Et & En).
  destruct (upsert _ _ row tt) as [[u tt']|] eqn:Eu; [|eauto 10].
  destruct (upsert_effect a (k_tenantId key) row tt tt' u Ea Et Hone Eu) as (Hu & Hone' & Hel).
  eexists _, tt'. split; [reflexivity|]. split; [done|]. right. exists token, key, data, u.
  assert (t_agentId u = a ∧ t_tenantId u = k_tenantId key ∧ t_lastSeen u = now
          ∧ telemetry_of data (t_id u) a (k_tenantId key) now = Some u) as (Hua & Hut & Hun & Hof).
  { destruct Hu as [->|(r0 & _ & F1 & F2 & ->)]; [by rewrite Ei|]. cbn. splits; [done|done|done|].
    rewrite (telemetry_of_id data id (t_id r0) a _ now row Er). unfold refresh. congruence. }
  rewrite Hua. splits; done.
Qed.
End ingest_facts.

(** ** Views *)

Definition tenant_is (k : jstring) (t : Telemetry) : bool := t_tenantId t =s k.

(** Groups of the tenant list: each tenant once, with exactly its agents in order. *)
Definition grouped (agents : list Telemetry) (m : list (jstring * list Telemetry)) : Prop :=
  NoDup (m.*1) ∧ (∀ k, k ∈ m.*1 ↔ k ∈ map t_tenantId agents) ∧
  (∀ k l, (k, l) ∈ m → l = jfilter (tenant_is k) agents).

Lemma jfilter_app {A} (p : A → bool) l1 l2 : jfilter p (l1 ++ l2) = jfilter p l1 ++ jfilter p l2.
Proof. unfold jfilter. apply List.filter_app. Qed.

Lemma jfilter_snoc {A} (p : A → bool) l x : jfilter p (l ++ [x]) = jfilter p l ++ if p x then [x] else [].
Proof. by rewrite jfilter_app. Qed.

Lemma add_to_tenant_keys t m :
  (add_to_tenant t m).*1 = if bool_decide (t_tenantId t ∈ m.*1) then m.*1 else m.*1 ++ [t_tenantId t].
Proof.
  induction m as [|[k l] m IH]; [done|]. cbn [add_to_tenant].
  destruct (t_tenantId t =s k) eqn:E; bprop; rewrite !fmap_cons; cbn [fst].
  - subst k. by rewrite bool_decide_eq_true_2 by (by left).
  - rewrite IH. repeat case_bool_decide; try done.
    + exfalso. match goal with H : ¬ _ |- _ => apply H end. by right.
    + exfalso. match goal with H : _ ∈ _ :: _ |- _ => apply elem_of_cons in H as [?|?] end; done.
Qed.

Lemma add_to_tenant_elem t m k l :
  NoDup (m.*1) → (k, l) ∈ add_to_tenant t m →
  ((k, l) ∈ m ∧ k ≠ t_tenantId t) ∨
  (k = t_tenantId t ∧ ((∃ l0, (k, l0) ∈ m ∧ l = l0 ++ [t]) ∨ (k ∉ m.*1 ∧ l = [t]))).
Proof.
  induction m as [|[k' l'] m IH]; cbn [add_to_tenant]; intros Hnd Hin.
  { apply list_elem_of_singleton in Hin as [= -> ->]. right. split; [done|]. right.
    split; [apply not_elem_of_nil|done]. }
  rewrite fmap_cons in Hnd. inversion_clear Hnd as [|? ? Hn Hnd']. cbn [fst] in Hn.
  destruct (t_tenantId t =s k') eqn:E; bprop.
  - subst k'. apply elem_of_cons in Hin as [[= -> ->]|Hin].
    + right. split; [done|]. left. exists l'. split; [by left|done].
    + left. split; [by right|]. intros ->. apply Hn. by apply (list_elem_of_fmap_2 fst) in Hin.
  - apply elem_of_cons in Hin as [[= -> ->]|Hin]; [left; split; [by left|done]|].
    destruct (IH Hnd' Hin) as [[H1 H2]|(-> & [(l0 & H1 & ->)|[H1 ->]])].
    + left. split; [by right|done].
    + right. split; [done|]. left. exists l0. split; [by right|done].
    + right. split; [done|]. right. split; [|done]. rewrite fmap_cons. cbn [fst]. by apply not_elem_of_cons.
Qed.

Lemma by_tenant_grouped agents : grouped agents (by_tenant agents).
Proof.
  unfold by_tenant. induction agents as [|t agents (Hnd & Hk & Hl)] using rev_ind.
  { split; [constructor|]. split; [done|]. intros k l H. by apply elem_of_nil in H. }
  rewrite fold_left_app. cbn [fold_left]. set (m := fold_left _ agents []) in *. unfold grouped.
  rewrite add_to_tenant_keys, map_app. cbn [map]. splits.
  - case_bool_decide as Hin; [done|]. apply NoDup_app. splits; [done| |apply NoDup_singleton].
    intros x Hx ->%list_elem_of_singleton. done.
  - intros k. case_bool_decide as Hin; rewrite ?elem_of_app, ?list_elem_of_singleton, Hk; [|done].
    split; [by left|]. intros [?| ->]; [done|]. by apply Hk.
  - intros k l Hin. rewrite jfilter_snoc. unfold tenant_is at 2.
    destruct (add_to_tenant_elem t m k l Hnd Hin) as [[H1 H2]|(-> & [(l0 & H1 & ->)|[H1 ->]])].
    + rewrite <- (Hl k l H1).
      destruct (t_tenantId t =s k) eqn:E; bprop; [congruence|by rewrite app_nil_r].
    + by rewrite <- (Hl _ l0 H1), jeq_refl.
    + rewrite Hk in H1. rewrite (jfilter_none (tenant_is (t_tenantId t)) agents), jeq_refl.
      * done.
      * intros x Hx. unfold tenant_is. apply jeq_false. intros E. apply H1. rewrite <- E.
        by apply list_elem_of_fmap_2.
Qed.

Section view_facts.
Context (dateParse : jstring → option Z) (tenantName : jstring → option jstring).
Context {Tt Tc : Type} `{!Table Tt Telemetry t_id, !Table Tc AgentCommand c_id}.

(** The agents on the fleet page of a tenant are that tenant's agents: with
    a tenant in the x-tenant-id header, the page lists exactly the recent
    agents of this tenant, and besides them at most the watch-only remote host. *)
Theorem fleet_view_confined w e cwd now r (tt : Tt) (tc : Tc) tn :
  header "x-tenant-id" r = Some tn → tn ≠ [] → tn ≠ "*" →
  rs_status (fleet_GET dateParse tenantName w e cwd now r tt tc) = 200 →
  ∃ l extra, body_get "fleet" (fleet_GET dateParse tenantName w e cwd now r tt tc)
      = Some (JArr (map (agent_json tenantName now) l ++ extra)) ∧
    (∀ t, t ∈ l ↔ t ∈ rows tt ∧ t_tenantId t = tn ∧
                   recent now (parseFloat (oor (query "stale_hours" r) "0")) t = true) ∧
    (extra = [] ∨ ∃ s, extra = [s] ∧ jopt "agent_id" (Some s) = Some (JStr VPS_FLEET_AGENT_ID)).
Proof.
  intros Hh Hne Hs. unfold fleet_GET. rewrite Hh. cbv zeta.
  destruct (find_many (fleet_where (Some tn)) tt) as [agents|] eqn:Ef; [|done].
  destruct (group_count _ tt); [|done]. destruct (count_rows _ tc); [|done]. intros _.
  eexists _, _. split; [reflexivity|]. split.
  - intros t. rewrite jfilter_elem, (find_many_rows _ _ _ t Ef). unfold fleet_where.
    cbn [truthy_str]. destruct (nonempty tn) eqn:En; bprop; [|done].
    destruct (tn =s "*") eqn:Est; bprop; [done|]. rewrite jeq_true. tauto.
  - destruct (buildVpsFleetShadow _ _ _) as [s|] eqn:Eb; [|by left]. split_if; [by left|].
    right. exists s. split; [done|]. unfold buildVpsFleetShadow in Eb. split_if; [done|].
    injection Eb as <-. reflexivity.
Qed.

(** The fleet page names all tenants to everyone: whatever tenant the
    caller is confined to, the [tenants] field lists every tenant that has
    agents, with the number of its agents. *)
Theorem fleet_view_lists_all_tenants w e cwd now r (tt : Tt) (tc : Tc) t :
  t ∈ rows tt → rs_status (fleet_GET dateParse tenantName w e cwd now r tt tc) = 200 →
  ∃ l, body_get "tenants" (fleet_GET dateParse tenantName w e cwd now r tt tc) = Some (JArr l) ∧
    JObj [("tenant_id", JStr (t_tenantId t));
          ("agent_count", jint (Z.of_nat (length (jfilter (tenant_is (t_tenantId t)) (rows tt)))))] ∈ l.
Proof.
  intros Ht. unfold fleet_GET. cbv zeta.
  destruct (find_many _ tt) as [agents|]; [|done].
  destruct (group_count _ tt) as [groups|] eqn:Eg; [|done]. destruct (count_rows _ tc); [|done]. intros _.
  eexists. split; [reflexivity|]. apply group_law in Eg as [_ Hg].
  apply list_elem_of_fmap.
  exists (t_tenantId t, Z.of_nat (length (jfilter (tenant_is (t_tenantId t)) (rows tt)))).
  split; [reflexivity|]. apply Hg. split; [by apply (list_elem_of_fmap_2 t_tenantId)|reflexivity].
Qed.

(** The tenant list of a user who is not an administrator has no entry but
    that of the own tenant, and every entry counts exactly the agents of its
    tenant. *)
Theorem tenants_view_confined now r (tt : Tt) tn :
  header "x-user-role" r ≠ Some ("admin" : jstring) → header "x-user-tenant" r = Some tn →
  rs_status (tenants_GET now r tt) = 200 →
  ∃ groups, body_get "tenants" (tenants_GET now r tt) = Some (JArr (map (λ g,
      JObj [("tenant_id", JStr g.1); ("agent_count", jint (Z.of_nat (length g.2)));
            ("online_agents", jint (Z.of_nat (length (jfilter (is_online now) g.2))));
            ("total_eps", JNum (sum_num t_eps g.2)); ("total_rce", jint (sum_int t_rceDetections g.2));
            ("total_tarpit", jint (sum_int t_tarpitActive g.2));
            ("tls_decrypted", jint (sum_int t_tlsDecrypted g.2));
            ("etcd_peers", jint (sum_int t_etcdPeers g.2))]) groups)) ∧
    (length groups <= 1)%nat ∧
    ∀ k l, (k, l) ∈ groups → k = tn ∧ l ≡ₚ jfilter (tenant_is tn) (rows tt).
Proof.
  intros Hrole Hten. unfold tenants_GET. cbv zeta. rewrite bool_decide_eq_false_2, Hten by done.
  cbn [fmap option_fmap option_map].
  destruct (find_many _ tt) as [agents|] eqn:Ef; [|done]. intros _.
  pose proof (by_tenant_grouped agents) as (Hnd & Hk & Hl).
  assert (Hall : ∀ t, t ∈ agents → t_tenantId t = tn).
  { intros t Ht. apply (find_many_rows _ _ _ t Ef) in Ht as [_ Ht]. by apply jeq_true. }
  assert (Hkey : ∀ k, k ∈ (by_tenant agents).*1 → k = tn).
  { intros k (t & -> & Ht)%Hk%list_elem_of_fmap. auto. }
  exists (by_tenant agents). split; [reflexivity|]. split.
  - destruct (by_tenant agents) as [|[k1 l1] [|[k2 l2] m]]; simpl; [lia..|]. exfalso.
    rewrite !fmap_cons in *. cbn [fst] in *. inversion_clear Hnd as [|? ? Hn _]. apply Hn.
    rewrite (Hkey k1), (Hkey k2) by (rewrite ?elem_of_cons; auto). by left.
  - intros k l Hin. assert (k = tn) as -> by (apply Hkey; by apply (list_elem_of_fmap_2 fst) in Hin).
    split; [done|]. rewrite (Hl _ _ Hin). rewrite jfilter_all.
    + by apply find_many_law in Ef.
    + intros x Hx. apply jeq_true. auto.
Qed.
End view_facts.

(** ** The Prometheus exposition *)

(** Whether the loop counts an agent as online. *)
Definition counted_online (now : Z) (t : Telemetry) : bool :=
  nlt (nmul (age_sec now t) (num_of_Z 1000)) (num_of_Z ONLINE_MS).
Definition metric_of (k : jstring) (t : Telemetry) : bool := metric_tenant t =s k.

Lemma tally_app now agents acc :
  fold_left (tally_agent now) agents acc =
  (fold_left (λ m t, (tally_agent now (m, []) t).1) agents acc.1,
   acc.2 ++ flat_map (λ t, (tally_agent now ([], []) t).2) agents).
Proof.
  revert acc. induction agents as [|t agents IH]; intros [m ls]; cbn [fold_left flat_map fst snd];
    [by rewrite app_nil_r|]. rewrite IH. unfold tally_agent. cbn [fst snd]. by rewrite <- app_assoc.
Qed.

Lemma tally_spec now agents k :
  assoc k (fold_left (λ m t, (tally_agent now (m, []) t).1) agents []) =
  match jfilter (metric_of k) agents with
  | [] => None
  | l => Some {| tl_online := Z.of_nat (length (jfilter (counted_online now) l));
                 tl_total := Z.of_nat (length l) |}
  end.
Proof.
  induction agents as [|t agents IH] using rev_ind; [done|].
  rewrite fold_left_app, jfilter_snoc. cbn [fold_left]. set (m := fold_left _ agents []) in *.
  unfold tally_agent. cbn [fst]. unfold metric_of at 2.
  destruct (metric_tenant t =s k) eqn:E; bprop.
  - subst k. rewrite assoc_put_eq, IH. change (nlt _ _) with (counted_online now t).
    destruct (jfilter (metric_of _) agents) as [|x l]; cbn [default tl_online tl_total app].
    + unfold jfilter. cbn. by destruct (counted_online now t).
    + change (x :: l ++ [t]) with ((x :: l) ++ [t]). rewrite jfilter_snoc, !length_app.
      destruct (counted_online now t); cbn [length]; unfold id; do 2 f_equal; cbn [tl_online tl_total]; lia.
  - by rewrite assoc_put_ne, app_nil_r.
Qed.

(** No line feed. *)
Definition one_line (s : jstring) : Prop := 10 ∉ s.
Lemma one_line_app a b : one_line a → one_line b → one_line (a ++ b).
Proof. unfold one_line. rewrite elem_of_app. tauto. Qed.
Lemma one_line_printable s : printable s → one_line s.
Proof. intros H Hc%H. lia. Qed.
Lemma one_line_lit s : forallb (λ c, negb (c =? 10)) s = true → one_line s.
Proof. intros H Hc. rewrite forallb_forall in H. by apply list_elem_of_In, H in Hc. Qed.
Lemma one_line_escape s : one_line s → one_line (label_escape s).
Proof.
  assert (Hr : ∀ x y s, one_line y → one_line s → one_line (replace_unit x y s)).
  { intros x y t Hy Ht Hc. apply list_elem_of_In, in_flat_map in Hc as (c & Hc & Hin).
    apply list_elem_of_In in Hin, Hc. destruct (c =? x); [by apply Hy|].
    apply list_elem_of_singleton in Hin as <-. by apply Ht. }
  intros Hs. unfold label_escape. apply Hr; [by apply one_line_lit|]. apply Hr; [by apply one_line_lit|done].
Qed.
#[export] Hint Resolve one_line_app one_line_escape : lg.
#[export] Hint Extern 2 (one_line _) => (apply one_line_lit; reflexivity) : lg.

Lemma tally_keys now agents k :
  k ∈ (fold_left (λ m t, (tally_agent now (m, []) t).1) agents []).*1 → ∃ t, t ∈ agents ∧ metric_tenant t = k.
Proof.
  induction agents as [|t agents IH] using rev_ind; [by intros ?%elem_of_nil|].
  rewrite fold_left_app. cbn [fold_left]. set (m := fold_left _ agents []) in *.
  unfold tally_agent. cbn [fst]. rewrite put_field_keys.
  assert (Hold : k ∈ m.*1 → ∃ t0, t0 ∈ agents ++ [t] ∧ metric_tenant t0 = k).
  { intros (x & Hx & Ex)%IH. exists x. split; [apply elem_of_app; by left|done]. }
  case_bool_decide; [done|]. intros [?| ->%list_elem_of_singleton]%elem_of_app; [auto|].
  exists t. split; [apply elem_of_app; right; by left|done].
Qed.

Lemma fleet_lines_one_line now agents l :
  (∀ t, t ∈ agents → one_line (t_agentId t) ∧ one_line (t_tenantId t)) →
  l ∈ fleet_metric_lines now agents → one_line l.
Proof.
  intros Hids. unfold fleet_metric_lines. rewrite tally_app. cbn [fst snd].
  rewrite app_nil_l.
  assert (Ht : ∀ t, t ∈ agents → one_line (metric_tenant t)).
  { intros t Ht. unfold metric_tenant, sor. destruct (nonempty _); [by apply Hids|auto with lg]. }
  intros [Hl|[Hl|[Hl|Hl]%elem_of_app]%elem_of_app]%elem_of_app.
  - repeat (apply elem_of_cons in Hl as [->|Hl]; [by apply one_line_lit|]). by apply elem_of_nil in Hl.
  - destruct (fold_left _ agents []) as [|kv m] eqn:Em.
    + repeat (apply elem_of_cons in Hl as [->|Hl]; [by apply one_line_lit|]). by apply elem_of_nil in Hl.
    + apply list_elem_of_In, in_flat_map in Hl as ([k v] & Hk & Hl). apply list_elem_of_In in Hk, Hl.
      assert (Hk1 : one_line k).
      { destruct (tally_keys now agents k) as (t & Hta & <-); [|auto]. rewrite Em.
        by apply (list_elem_of_fmap_2 fst) in Hk. }
      cbn [fst snd] in Hl. rewrite !elem_of_cons, elem_of_nil in Hl. destruct Hl as [->|[->|[]]];
        repeat apply one_line_app; auto using one_line_printable, printable_dec with lg.
  - apply list_elem_of_In, in_flat_map in Hl as (t & Hta & Hl). apply list_elem_of_In in Hta, Hl.
    unfold tally_agent in Hl. cbn [snd] in Hl. rewrite app_nil_l in Hl. apply list_elem_of_singleton in Hl as ->.
    repeat apply one_line_app; auto using one_line_printable, printable_toFixed with lg.
    apply one_line_escape. by apply Hids.
  - apply list_elem_of_singleton in Hl as ->. by intros ?%elem_of_nil.
Qed.

(** The Prometheus exposition has one line per sample: as long as no agent
    or tenant id contains a line feed (the one character the label escaping
    leaves alone), splitting the body at line feeds gives back the help lines,
    the samples and the final empty line. *)
Theorem fleet_metrics_lines now agents :
  (∀ t, t ∈ agents → one_line (t_agentId t) ∧ one_line (t_tenantId t)) →
  split1 10 (join [10] (fleet_metric_lines now agents)) = fleet_metric_lines now agents.
Proof.
  intros Hids. apply split1_of_join.
  - unfold fleet_metric_lines. destruct (fold_left _ _ _). done.
  - intros l Hl. by apply (fleet_lines_one_line now agents).
Qed.

(** The gauges count what they say: for every tenant label, the value of
    [agent_total] is the number of its agents and [agent_online] the number of
    those seen less than 15 minutes ago; a tenant without agents has no sample
    (unless the table is empty, when a zero sample for "default" is printed). *)
Theorem fleet_metrics_counts now agents k :
  assoc k (fold_left (tally_agent now) agents ([], [])).1 =
  match jfilter (metric_of k) agents with
  | [] => None
  | l => Some {| tl_online := Z.of_nat (length (jfilter (counted_online now) l));
                 tl_total := Z.of_nat (length l) |}
  end.
Proof. rewrite tally_app. apply tally_spec. Qed.

(** ** Witnesses *)

Module TelemetryDemo.
Definition row (id agent tenant : jstring) (seen : Z) : Telemetry :=
  {| t_id := id; t_agentId := agent; t_tenantId := tenant; t_eps := nzero; t_totalLines := 0;
     t_alertsTotal := 0; t_rceDetections := 0; t_tarpitActive := 0; t_tarpitTrapped := 0;
     t_meshPeers := 0; t_uniqueIps := 0; t_tlsDecrypted := 0; t_etcdPeers := 0;
     t_attackTreeJson := "[]"; t_incidentsActive := 0; t_incidentsCorrelated := 0; t_lastSeen := seen |}.
Definition table : list Telemetry := [row "1" "a" "t1" 1000; row "2" "b" "t2" 2000].
Definition keys (k : jstring) : option (option ApiKey) :=
  Some (if k =s "k1" then Some {| k_key := "k1"; k_tenantId := "t1" |} else None).
(** An agent of t1 that claims another tenant. *)
Definition report : request :=
  mk_request "/api/telemetry" [("authorization", "Bearer k1")] [] []
    (Some (JObj [("agent_id", JStr "a"); ("tenant_id", JStr "t2"); ("eps", jint 7)])).
Definition user : request :=
  mk_request "/api/fleet" [("x-tenant-id", "t1"); ("x-user-role", "user"); ("x-user-tenant", "t1")] [] [] None.
Lemma table_one : one_row_each (Table0 := list_table t_id) table.
Proof.
  intros x y Hx Hy. unfold table in *. cbn [rows list_table list_table_laws id] in *.
  rewrite !elem_of_cons, elem_of_nil in Hx, Hy.
  destruct Hx as [->|[->|[]]], Hy as [->|[->|[]]]; cbn; intros; congruence.
Qed.
End TelemetryDemo.

Lemma telemetry_tenant_bound_witness :
  ∃ resp tt', telemetry_POST (Table0 := list_table t_id) TelemetryDemo.keys "9" 9000 TelemetryDemo.report
      TelemetryDemo.table = (Ok resp, tt') ∧ one_row_each (Table0 := list_table t_id) tt'.
Proof.
  destruct (telemetry_tenant_bound (Table0 := list_table t_id) TelemetryDemo.keys "9" 9000 TelemetryDemo.report
              TelemetryDemo.table TelemetryDemo.table_one) as (resp & tt' & H1 & H2 & _).
  exists resp, tt'. split; assumption.
Defined.

Lemma fleet_view_confined_witness :
  ∃ l extra, body_get "fleet" (fleet_GET (Table0 := list_table t_id) (Table1 := list_table c_id) (λ _, None)
      (λ _, None) no_world (env_of []) "/app" 3000 TelemetryDemo.user TelemetryDemo.table [])
    = Some (JArr (map (agent_json (λ _, None) 3000) l ++ extra)).
Proof.
  destruct (fleet_view_confined (Table0 := list_table t_id) (Table1 := list_table c_id) (λ _, None) (λ _, None)
              no_world (env_of []) "/app" 3000 TelemetryDemo.user TelemetryDemo.table [] "t1")
    as (l & extra & H & _).
  - reflexivity.
  - discriminate.
  - discriminate.
  - vm_compute. reflexivity.
  - exists l, extra. exact H.
Defined.

Lemma fleet_view_lists_all_tenants_witness :
  ∃ l, body_get "tenants" (fleet_GET (Table0 := list_table t_id) (Table1 := list_table c_id) (λ _, None)
      (λ _, None) no_world (env_of []) "/app" 3000 TelemetryDemo.user TelemetryDemo.table []) = Some (JArr l) ∧
    JObj [("tenant_id", JStr "t2"); ("agent_count", jint 1)] ∈ l.
Proof.
  apply (fleet_view_lists_all_tenants (Table0 := list_table t_id) (Table1 := list_table c_id) (λ _, None) (λ _, None)
           no_world (env_of []) "/app" 3000 TelemetryDemo.user TelemetryDemo.table []
           (TelemetryDemo.row "2" "b" "t2" 2000)).
  - right. left.
  - vm_compute. reflexivity.
Defined.

Lemma tenants_view_confined_witness :
  ∃ groups : list (jstring * list Telemetry), (length groups <= 1)%nat ∧
    ∀ k l, (k, l) ∈ groups → k = "t1" ∧ l ≡ₚ jfilter (tenant_is "t1") TelemetryDemo.table.
Proof.
  destruct (tenants_view_confined (Table0 := list_table t_id) 3000 TelemetryDemo.user TelemetryDemo.table "t1")
    as (groups & _ & H1 & H2).
  - discriminate.
  - reflexivity.
  - vm_compute. reflexivity.
  - exists groups. split; assumption.
Defined.

Lemma fleet_metrics_lines_witness :
  split1 10 (join [10] (fleet_metric_lines 3000 TelemetryDemo.table)) = fleet_metric_lines 3000 TelemetryDemo.table.
Proof.
  apply (fleet_metrics_lines 3000 TelemetryDemo.table). intros t Ht. unfold TelemetryDemo.table in Ht.
  rewrite !elem_of_cons, elem_of_nil in Ht.
  destruct Ht as [->|[->|[]]]; split; by apply one_line_lit.
Defined.

(** An agent id with a line feed breaks the exposition into an extra line. *)
Lemma fleet_metrics_injection :
  length (split1 10 (join [10] (fleet_metric_lines 3000
    [TelemetryDemo.row "1" ("a" ++ [10] ++ "loganalyzer_fleet_agent_total 0") "t1" 1000])))
  = S (length (fleet_metric_lines 3000
    [TelemetryDemo.row "1" ("a" ++ [10] ++ "loganalyzer_fleet_agent_total 0") "t1" 1000])).
Proof. vm_compute. reflexivity. Qed.
