(* ===== verification/LineageGraph.v ===== *)
(** Attack trees as graphs (dashboard/src/lib/lineageGraph.ts): process nodes
    and labelled edges for the lineage view. *)

From S2P Require Import Prelude JsString JsNum Json.

Record LineageEvent := {
  le_type : jstring;
  le_pid : Z;
  le_ppid : option Z;
  le_comm : jstring;
  le_detail : jstring;
  le_ts : Z;
}.

Record AttackTree := {
  at_pid : Z;
  at_comm : jstring;
  at_risk : num;
  at_agentId : option jstring;
  at_events : option (list LineageEvent);
  at_firstSeen : option Z;
  at_lastSeen : option Z;
}.

Inductive NodeKind := process | event.
Record GraphNode := {
  gn_id : jstring;
  gn_label : jstring;
  gn_kind : NodeKind;
  gn_pid : option Z;
  gn_risk : option num;
  gn_eventType : option jstring;
}.
Record GraphEdge := {
  ge_id : jstring;
  ge_source : jstring;
  ge_target : jstring;
  ge_label : jstring;
  ge_detail : jstring;
  ge_eventType : jstring;
}.
Record LineageGraphElements := { nodes : list GraphNode; edges : list GraphEdge }.

Definition EVENT_COLORS : list (jstring * jstring) :=
  [("FILE_READ", "#60a5fa"); ("EXEC_SHELL", "#f87171"); ("NET_CONNECT", "#c084fc");
   ("FILE_WRITE", "#fb923c"); ("NET_RECV", "#22d3ee")].
(** A property name of [Object.prototype] finds an inherited value, which is not
    a colour ([None]). *)
Definition eventColor (type : jstring) : option jstring :=
  match assoc type EVENT_COLORS with
  | Some color => Some color
  | None => match assoc type object_prototype with Some _ => None | None => Some "#94a3b8" end
  end.

(** The variables the closures of [treeToGraph] share. *)
Record builder := {
  b_nodes : list GraphNode;
  b_edges : list GraphEdge;
  b_procNodes : gmap Z jstring;
  b_commByPid : gmap Z jstring;
  b_prevPid : Z;
}.

Definition proc_id (treeKey : jstring) (pid : Z) : jstring := "p-" ++ treeKey ++ "-" ++ dec pid.
Definition edge_id (treeKey : jstring) (idx : nat) : jstring := "e-" ++ treeKey ++ "-" ++ dec (Z.of_nat idx).

Definition set_comm (pid : Z) (comm : jstring) (b : builder) : builder :=
  {| b_nodes := b_nodes b; b_edges := b_edges b; b_procNodes := b_procNodes b;
     b_commByPid := <[pid := comm]> (b_commByPid b); b_prevPid := b_prevPid b |}.

Section tree.
Context (tree : AttackTree) (treeKey : jstring).

Definition ensureProcess (pid : Z) (comm : jstring) (isRoot : bool) (b : builder) : jstring * builder :=
  match truthy_str (b_procNodes b !! pid) with
  | Some known => (known, b)
  | None =>
      let id := proc_id treeKey pid in
      (id, {| b_nodes := b_nodes b ++ [{| gn_id := id; gn_label := comm ++ [10] ++ "PID " ++ dec pid;
                                          gn_kind := process; gn_pid := Some pid;
                                          gn_risk := if isRoot then Some (at_risk tree) else None;
                                          gn_eventType := None |}];
              b_edges := b_edges b; b_procNodes := <[pid := id]> (b_procNodes b);
              b_commByPid := <[pid := comm]> (b_commByPid b); b_prevPid := b_prevPid b |})
  end.

(** One round of [events.forEach]. *)
Definition add_event (idx : nat) (ev : LineageEvent) (b : builder) : builder :=
  let b := set_comm (le_pid ev) (le_comm ev) b in
  let '(target, b) := ensureProcess (le_pid ev) (le_comm ev) (le_pid ev =? at_pid tree) b in
  let parentPid :=
    match le_ppid ev with
    | Some p => if 0 <? p then p else if (idx =? 0)%nat then at_pid tree else b_prevPid b
    | None => if (idx =? 0)%nat then at_pid tree else b_prevPid b
    end in
  let parentComm := b_commByPid b !! parentPid ?? at_comm tree in
  let '(source, b) := ensureProcess parentPid parentComm (parentPid =? at_pid tree) b in
  {| b_nodes := b_nodes b;
     b_edges := b_edges b ++ [{| ge_id := edge_id treeKey idx; ge_source := source; ge_target := target;
                                 ge_label := replace_unit 95 " " (le_type ev);
                                 ge_detail := le_detail ev; ge_eventType := le_type ev |}];
     b_procNodes := b_procNodes b; b_commByPid := b_commByPid b; b_prevPid := le_pid ev |}.

Fixpoint add_events (idx : nat) (evs : list LineageEvent) (b : builder) : builder :=
  match evs with
  | [] => b
  | ev :: evs' => add_events (S idx) evs' (add_event idx ev b)
  end.

Definition start_builder : builder :=
  (ensureProcess (at_pid tree) (at_comm tree) true
     {| b_nodes := []; b_edges := []; b_procNodes := ∅;
        b_commByPid := {[at_pid tree := at_comm tree]}; b_prevPid := at_pid tree |}).2.

Definition treeToGraph : LineageGraphElements :=
  let b := add_events 0 (at_events tree ?? []) start_builder in
  {| nodes := b_nodes b; edges := b_edges b |}.
End tree.

Fixpoint graphs_from (i : nat) (trees : list AttackTree) : LineageGraphElements :=
  match trees with
  | [] => {| nodes := []; edges := [] |}
  | t :: trees' =>
      let g := treeToGraph t (dec (Z.of_nat i)) in
      let rest := graphs_from (S i) trees' in
      {| nodes := nodes g ++ nodes rest; edges := edges g ++ edges rest |}
  end.
Definition treesToGraph (trees : list AttackTree) : LineageGraphElements := graphs_from 0 trees.

Inductive RiskClass := high | medium | low.
Definition riskClass (risk : num) : RiskClass :=
  if nle (num_of_Z 85) risk then high else if nle (num_of_Z 60) risk then medium else low.

(** ** Well-formed graphs *)

(** The process a node stands for; [treeToGraph] always sets it. *)
Definition node_pid (n : GraphNode) : Z := match gn_pid n with Some pid => pid | None => 0 end.

Section wf.
Context (tree : AttackTree) (key : jstring).

(** The map of known processes and the node list describe the same processes,
    and edges join listed nodes. *)
Definition builder_inv (b : builder) : Prop :=
  (∀ pid id, b_procNodes b !! pid = Some id → id = proc_id key pid) ∧
  (∀ pid, is_Some (b_procNodes b !! pid) ↔ pid ∈ map node_pid (b_nodes b)) ∧
  NoDup (map node_pid (b_nodes b)) ∧
  (∀ n, n ∈ b_nodes b → gn_id n = proc_id key (node_pid n)) ∧
  (∀ ed, ed ∈ b_edges b → ge_source ed ∈ map gn_id (b_nodes b) ∧ ge_target ed ∈ map gn_id (b_nodes b)).

Lemma builder_inv_comm pid c b : builder_inv b → builder_inv (set_comm pid c b).
Proof. done. Qed.

Lemma ensure_inv pid comm isRoot b id b' :
  ensureProcess tree key pid comm isRoot b = (id, b') → builder_inv b →
  builder_inv b' ∧ id = proc_id key pid ∧ id ∈ map gn_id (b_nodes b') ∧
  b_edges b' = b_edges b ∧ b_prevPid b' = b_prevPid b ∧
  (∀ n, n ∈ b_nodes b → n ∈ b_nodes b') ∧ pid ∈ map node_pid (b_nodes b').
Proof.
  unfold ensureProcess. intros E Hi. pose proof Hi as (H1 & H2 & H3 & H4 & H5).
  destruct (truthy_str (b_procNodes b !! pid)) as [known|] eqn:Ek; injection E as <- <-.
  - apply truthy_str_Some in Ek as [Ek _]. pose proof (H1 _ _ Ek) as ->.
    assert (Hp : pid ∈ map node_pid (b_nodes b)) by (apply H2; eauto).
    splits; try done. apply list_elem_of_fmap in Hp as (n & -> & Hn).
    rewrite <- (H4 n Hn). by apply list_elem_of_fmap_2.
  - assert (Hno : b_procNodes b !! pid = None).
    { destruct (b_procNodes b !! pid) as [k|] eqn:Ep; [|done]. exfalso. rewrite (H1 _ _ Ep) in Ek. done. }
    unfold builder_inv. cbn [b_nodes b_edges b_procNodes b_prevPid]. rewrite !map_app. cbn [map gn_id node_pid gn_pid].
    splits; try done.
    + intros q i. destruct (decide (q = pid)) as [->|Hne].
      * rewrite lookup_insert_eq. by intros [= <-].
      * rewrite lookup_insert_ne by done. apply H1.
    + intros q. rewrite elem_of_app, list_elem_of_singleton, <- H2. destruct (decide (q = pid)) as [->|Hne].
      * rewrite lookup_insert_eq. split; [by right|eauto].
      * rewrite lookup_insert_ne by done. naive_solver.
    + apply NoDup_app. splits; [done| |apply NoDup_singleton]. intros q Hq ->%list_elem_of_singleton.
      apply H2 in Hq as [k Hk]. congruence.
    + intros n [Hn| ->%list_elem_of_singleton]%elem_of_app; [auto|done].
    + intros ed He. rewrite !elem_of_app. destruct (H5 ed He). auto.
    + apply elem_of_app. right. by left.
    + intros n Hn. apply elem_of_app. by left.
    + apply elem_of_app. right. by left.
Qed.

Lemma add_event_inv idx ev b :
  builder_inv b →
  let b' := add_event tree key idx ev b in
  builder_inv b' ∧
  (∃ ed, b_edges b' = b_edges b ++ [ed] ∧ ge_id ed = edge_id key idx ∧ ge_eventType ed = le_type ev) ∧
  (∀ n, n ∈ b_nodes b → n ∈ b_nodes b') ∧ le_pid ev ∈ map node_pid (b_nodes b').
Proof.
  intros Hi b'. subst b'. unfold add_event.
  destruct (ensureProcess tree key (le_pid ev) (le_comm ev) _ _) as [target b1] eqn:E1.
  apply ensure_inv in E1 as (Hi1 & Ht & Hin1 & He1 & Hp1 & Hn1 & Hpid); [|by apply builder_inv_comm].
  destruct (ensureProcess tree key _ _ _ b1) as [source b2] eqn:E2.
  apply ensure_inv in E2 as (Hi2 & Hs & Hin2 & He2 & Hp2 & Hn2 & _); [|done].
  assert (Hmon : ∀ {B} (f : GraphNode → B) x, x ∈ map f (b_nodes b1) → x ∈ map f (b_nodes b2)).
  { intros B f x (n & -> & Hn)%list_elem_of_fmap. apply list_elem_of_fmap_2. auto. }
  cbn [b_nodes b_edges]. splits.
  - destruct Hi2 as (H1 & H2 & H3 & H4 & H5). unfold builder_inv. cbn [b_nodes b_edges b_procNodes].
    splits; try done. intros ed [Hed| ->%list_elem_of_singleton]%elem_of_app; [auto|]. cbn. auto.
  - eexists. rewrite He2, He1. done.
  - intros n Hn. apply Hn2, Hn1. done.
  - by apply Hmon.
Qed.

Lemma add_events_inv evs idx b :
  builder_inv b →
  let b' := add_events tree key idx evs b in
  builder_inv b' ∧
  map ge_id (b_edges b') = map ge_id (b_edges b) ++ map (edge_id key) (seq idx (length evs)) ∧
  map ge_eventType (b_edges b') = map ge_eventType (b_edges b) ++ map le_type evs ∧
  (∀ n, n ∈ b_nodes b → n ∈ b_nodes b') ∧
  (∀ ev, ev ∈ evs → le_pid ev ∈ map node_pid (b_nodes b')).
Proof.
  revert idx b. induction evs as [|ev evs IH]; intros idx b Hi; cbn [add_events].
  { cbn. rewrite !app_nil_r. splits; try done. intros ev Hev. by apply elem_of_nil in Hev. }
  destruct (add_event_inv idx ev b Hi) as (Hi1 & (ed & He & Hid & Hty) & Hn1 & Hpid).
  destruct (IH (S idx) _ Hi1) as (Hi2 & Hids & Htys & Hn2 & Hpids). splits; [done| | |auto|].
  - rewrite Hids, He, map_app. cbn [map length seq]. by rewrite Hid, <- app_assoc.
  - rewrite Htys, He, map_app. cbn [map]. by rewrite Hty, <- app_assoc.
  - intros ev' [->|Hev]%elem_of_cons; [|auto].
    apply list_elem_of_fmap in Hpid as (n & -> & Hn). apply list_elem_of_fmap_2. auto.
Qed.

Lemma start_inv : builder_inv (start_builder tree key) ∧ b_edges (start_builder tree key) = [] ∧
  at_pid tree ∈ map node_pid (b_nodes (start_builder tree key)).
Proof.
  unfold start_builder. destruct (ensureProcess tree key _ _ true _) as [id b] eqn:E. cbn [snd].
  apply ensure_inv in E as (Hi & _ & _ & He & _ & _ & Hp); [done|].
  unfold builder_inv. cbn. splits; try done.
  - intros pid. rewrite lookup_empty. split; [by intros [? ?]|by intros ?%elem_of_nil].
  - constructor.
  - by intros n ?%elem_of_nil.
  - by intros ed ?%elem_of_nil.
Qed.
End wf.

(** The graph of one tree. *)
Lemma tree_graph_wf tree key :
  let g := treeToGraph tree key in
  NoDup (map node_pid (nodes g)) ∧ (∀ n, n ∈ nodes g → gn_id n = proc_id key (node_pid n)) ∧
  (∀ ed, ed ∈ edges g → ge_source ed ∈ map gn_id (nodes g) ∧ ge_target ed ∈ map gn_id (nodes g)) ∧
  map ge_id (edges g) = map (edge_id key) (seq 0 (length (at_events tree ?? []))) ∧
  map ge_eventType (edges g) = map le_type (at_events tree ?? []) ∧
  (∀ ev, ev ∈ (at_events tree ?? []) → le_pid ev ∈ map node_pid (nodes g)).
Proof.
  destruct (start_inv tree key) as (Hi & He & _).
  destruct (add_events_inv tree key (at_events tree ?? []) 0 _ Hi) as ((_ & _ & H3 & H4 & H5) & Hids & Htys & _ & Hp).
  rewrite He in Hids, Htys. cbn. splits; done.
Qed.

(** ** Identifiers *)

Lemma dec_no_dash n : 0 ≤ n → 45 ∉ dec n.
Proof.
  intros Hn Hin. pose proof (dec_digit_only n Hn) as Hd. rewrite Forall_forall in Hd. by specialize (Hd _ Hin).
Qed.
Lemma proc_id_inj i j p q :
  proc_id (dec (Z.of_nat i)) p = proc_id (dec (Z.of_nat j)) q → i = j ∧ p = q.
Proof.
  unfold proc_id. intros E. apply app_inv_head in E.
  apply sep_inj in E as [E1 E2]; [|apply dec_no_dash; lia..].
  apply dec_inj_Z in E1, E2. split; [lia|done].
Qed.
Lemma edge_id_inj i j m n :
  edge_id (dec (Z.of_nat i)) m = edge_id (dec (Z.of_nat j)) n → i = j ∧ m = n.
Proof.
  unfold edge_id. intros E. apply app_inv_head in E.
  apply sep_inj in E as [E1 E2]; [|apply dec_no_dash; lia..].
  apply dec_inj_Z in E1, E2. lia.
Qed.

(** The identifiers of the graph of the trees from index [i] on carry an index of at least [i]. *)
Lemma graphs_from_wf trees i :
  let g := graphs_from i trees in
  NoDup (map gn_id (nodes g)) ∧ NoDup (map ge_id (edges g)) ∧
  (∀ x, x ∈ map gn_id (nodes g) → ∃ j p, (i <= j)%nat ∧ x = proc_id (dec (Z.of_nat j)) p) ∧
  (∀ x, x ∈ map ge_id (edges g) → ∃ j m, (i <= j)%nat ∧ x = edge_id (dec (Z.of_nat j)) m) ∧
  (∀ ed, ed ∈ edges g → ge_source ed ∈ map gn_id (nodes g) ∧ ge_target ed ∈ map gn_id (nodes g)).
Proof.
  revert i. induction trees as [|t trees IH]; intros i; cbn [graphs_from nodes edges].
  { cbn. splits; [constructor|constructor|by intros x ?%elem_of_nil..]. }
  destruct (IH (S i)) as (N1 & N2 & P1 & P2 & Hed).
  destruct (tree_graph_wf t (dec (Z.of_nat i))) as (M1 & M2 & M3 & M4 & _ & _).
  set (g := treeToGraph t _) in *. set (h := graphs_from (S i) trees) in *. rewrite !map_app.
  assert (Hg : map gn_id (nodes g) = map (proc_id (dec (Z.of_nat i))) (map node_pid (nodes g))).
  { rewrite map_map. apply map_ext_in. intros n Hn%list_elem_of_In. by apply M2. }
  assert (Hi : ∀ x, x ∈ map gn_id (nodes g) → ∃ p, x = proc_id (dec (Z.of_nat i)) p).
  { rewrite Hg. intros x (p & -> & _)%list_elem_of_fmap. eauto. }
  assert (Hj : ∀ x, x ∈ map ge_id (edges g) → ∃ m, x = edge_id (dec (Z.of_nat i)) m).
  { rewrite M4. intros x (p & -> & _)%list_elem_of_fmap. eauto. }
  splits.
  - apply NoDup_app. splits; [| |done].
    + rewrite Hg. apply (NoDup_fmap_2_strong (proc_id (dec (Z.of_nat i)))); [|done].
      intros p q _ _ E. by apply proc_id_inj in E as [_ ->].
    + intros x (p & ->)%Hi (j & q & Hle & E)%P1. apply proc_id_inj in E as [-> _]. lia.
  - apply NoDup_app. splits; [| |done].
    + rewrite M4. apply (NoDup_fmap_2_strong (edge_id (dec (Z.of_nat i)))); [|apply NoDup_seq].
      intros p q _ _ E. by apply edge_id_inj in E as [_ ->].
    + intros x (p & ->)%Hj (j & q & Hle & E)%P2. apply edge_id_inj in E as [-> _]. lia.
  - intros x [(p & ->)%Hi|(j & p & Hle & ->)%P1]%elem_of_app; eexists _, _; (split; [|reflexivity]); lia.
  - intros x [(p & ->)%Hj|(j & p & Hle & ->)%P2]%elem_of_app; eexists _, _; (split; [|reflexivity]); lia.
  - intros ed [H%M3|H%Hed]%elem_of_app; rewrite !elem_of_app; naive_solver.
Qed.

(** The lineage graph is well formed for every list of attack trees: node
    identifiers are distinct, also across trees, edge identifiers are distinct,
    and both ends of every edge are nodes of the graph. *)
Theorem lineage_graph_wf trees :
  let g := treesToGraph trees in
  NoDup (map gn_id (nodes g)) ∧ NoDup (map ge_id (edges g)) ∧
  ∀ ed, ed ∈ edges g → ge_source ed ∈ map gn_id (nodes g) ∧ ge_target ed ∈ map gn_id (nodes g).
Proof. destruct (graphs_from_wf trees 0) as (? & ? & _ & _ & ?). done. Qed.

Lemma graphs_from_events trees i :
  map ge_eventType (edges (graphs_from i trees)) = flat_map (λ t, map le_type (at_events t ?? [])) trees.
Proof.
  revert i. induction trees as [|t trees IH]; intros i; [done|]. cbn [graphs_from edges flat_map].
  rewrite map_app, IH. f_equal. by destruct (tree_graph_wf t (dec (Z.of_nat i))) as (_ & _ & _ & _ & ? & _).
Qed.

(** The lineage graph shows every event: it has one edge per event of the
    trees, in order, with the type of the event. *)
Theorem lineage_graph_events trees :
  map ge_eventType (edges (treesToGraph trees)) = flat_map (λ t, map le_type (at_events t ?? [])) trees.
Proof. apply graphs_from_events. Qed.
