(* ===== verification/GraphLayout.v ===== *)
(** The drawing of the lineage graph (dashboard/src/components/LineageGraph.tsx):
    nodes are placed in rows by their longest distance from a root, which the code
    finds with a work list that knows no visited set. *)

From S2P Require Import Prelude JsMap JsString JsNum Json LineageGraph.

Record LayoutNode := { ln_id : jstring; ln_label : jstring; ln_x : Z; ln_y : Z; ln_risk : option num }.
Record LayoutEdge := {
  el_id : jstring;
  el_x1 : Z; el_y1 : Z; el_x2 : Z; el_y2 : Z;
  el_label : jstring;
  el_detail : jstring;
  el_eventType : jstring;
  el_labelX : num; el_labelY : num;
}.
Record Layout := { lo_nodes : list LayoutNode; lo_edges : list LayoutEdge; lo_width : Z; lo_height : Z }.

Definition shortEventLabel (label : jstring) : jstring :=
  let s := replace_first "EXEC SHELL" "EXEC" label in
  let s := replace_first "FILE WRITE" "WRITE" s in
  let s := replace_first "FILE READ" "READ" s in
  let s := replace_first "NET CONNECT" "CONN" s in
  replace_first "NET RECV" "RECV" s.

(** ** Labels of parallel edges *)

Section labels.
(** [Math.hypot], which the language leaves to the host. *)
Context (hypot : num → num → num).

(** The coordinates are whole numbers, which [Math.round] keeps. *)
Definition group_key (e : LayoutEdge) : jstring :=
  dec (el_x1 e) ++ ":" ++ dec (el_y1 e) ++ "→" ++ dec (el_x2 e) ++ ":" ++ dec (el_y2 e).

(** The positions in [edges] that share a key; an edge is found in its group by
    identity, which is its position. *)
Definition edge_groups (edges : list LayoutEdge) : list (jstring * list nat) :=
  fold_left (λ groups ie, mset (group_key ie.2) ((mget (group_key ie.2) groups ?? []) ++ [ie.1]) groups)
    (numbered edges) [].

Fixpoint index_in (i : nat) (l : list nat) : Z :=
  match l with
  | [] => -1
  | j :: l' => if (i =? j)%nat then 0 else let p := index_in i l' in if p =? -1 then -1 else p + 1
  end.

Definition num_lit (m e : Z) : num := num_of_decimal false m e.

Definition spread_label (groups : list (jstring * list nat)) (ie : nat * LayoutEdge) : LayoutEdge :=
  let '(i, e) := ie in
  let group := mget (group_key e) groups ?? [i] in
  let idx := num_of_Z (index_in i group) in
  let n := num_of_Z (Z.of_nat (length group)) in
  let one := num_of_Z 1 in
  let x1 := num_of_Z (el_x1 e) in
  let y1 := num_of_Z (el_y1 e + 28) in
  let x2 := num_of_Z (el_x2 e) in
  let y2 := num_of_Z (el_y2 e - 28) in
  let edx := nsub x2 x1 in
  let edy := nsub y2 y1 in
  let h := hypot edx edy in
  let len := if num_truthy h then h else one in
  let nx := ndiv (SFopp edy) len in
  let ny := ndiv edx len in
  let t := if neq_num n one then num_lit 5 (-1)
           else nadd (num_lit 22 (-2)) (nmul (ndiv (nadd idx one) (nadd n one)) (num_lit 56 (-2))) in
  let spread := nmul (nsub idx (ndiv (nsub n one) (num_of_Z 2))) (num_of_Z 16) in
  let mx := nadd x1 (nmul edx t) in
  let my := nadd y1 (nmul edy t) in
  {| el_id := el_id e; el_x1 := el_x1 e; el_y1 := el_y1 e; el_x2 := el_x2 e; el_y2 := el_y2 e;
     el_label := el_label e; el_detail := el_detail e; el_eventType := el_eventType e;
     el_labelX := nadd mx (nmul nx spread); el_labelY := nadd my (nmul ny spread) |}.

Definition spreadEdgeLabels (edges : list LayoutEdge) : list LayoutEdge :=
  map (spread_label (edge_groups edges)) (numbered edges).

(** ** Ranks *)

Abbreviation adjacency := (list (jstring * list jstring)).
Abbreviation ranks := (list (jstring * Z)).

Definition empty_node (n : GraphNode) : LayoutNode :=
  {| ln_id := gn_id n; ln_label := gn_label n; ln_x := 0; ln_y := 0; ln_risk := gn_risk n |}.
Definition node_map (g : LineageGraphElements) : list (jstring * LayoutNode) :=
  map_of (map (λ n, (gn_id n, empty_node n)) (nodes g)).

(** [adj.get(source)?.push(target)] *)
Definition add_adj (adj : adjacency) (e : GraphEdge) : adjacency :=
  match mget (ge_source e) adj with
  | Some l => mset (ge_source e) (l ++ [ge_target e]) adj
  | None => adj
  end.
Definition adjacency_of (g : LineageGraphElements) : adjacency :=
  fold_left add_adj (edges g) (map_of (map (λ n, (gn_id n, [])) (nodes g))).
Definition add_deg (deg : ranks) (e : GraphEdge) : ranks :=
  mset (ge_target e) ((mget (ge_target e) deg ?? 0) + 1) deg.
Definition in_degrees (g : LineageGraphElements) : ranks :=
  fold_left add_deg (edges g) (map_of (map (λ n, (gn_id n, 0)) (nodes g))).
Definition roots_of (g : LineageGraphElements) : list jstring :=
  map fst (jfilter (λ kd : jstring * Z, kd.2 =? 0) (in_degrees g)).

(** The work list: every child of the node taken from it is ranked and appended,
    known or not.  [None] when the rounds do not suffice. *)
Definition raise_child (r : Z) (rank : ranks) (v : jstring) : ranks :=
  mset v (Z.max (mget v rank ?? 0) (r + 1)) rank.
Fixpoint rank_loop (fuel : nat) (adj : adjacency) (queue : list jstring) (rank : ranks) : option ranks :=
  match queue with
  | [] => Some rank
  | u :: queue =>
      match fuel with
      | O => None
      | S fuel =>
          let children := mget u adj ?? [] in
          rank_loop fuel adj (queue ++ children) (fold_left (raise_child (mget u rank ?? 0)) children rank)
      end
  end.
Definition root_ranks (g : LineageGraphElements) : ranks := fold_left (λ rank r, mset r 0 rank) (roots_of g) [].
Definition rank_nodes (fuel : nat) (g : LineageGraphElements) : option ranks :=
  rank_loop fuel (adjacency_of g) (roots_of g) (root_ranks g).

(** ** Positions *)

Definition colW : Z := 140.
Definition rowH : Z := 100.
Definition pad : Z := 48.

Definition by_rank (rank : ranks) : list (Z * list jstring) :=
  fold_left (λ m kr, mset kr.2 ((mget kr.2 m ?? []) ++ [kr.1]) m) rank [].

(** [const n = nodeMap.get(id); if (!n) return; n.x = ...; n.y = ...] *)
Definition place (row : Z) (m : list (jstring * LayoutNode)) (iid : nat * jstring) : list (jstring * LayoutNode) :=
  match mget iid.2 m with
  | Some n => mset iid.2 {| ln_id := ln_id n; ln_label := ln_label n; ln_risk := ln_risk n;
                           ln_x := pad + Z.of_nat iid.1 * colW + colW / 2;
                           ln_y := pad + row * rowH + 36 |} m
  | None => m
  end.
Definition place_row (m : list (jstring * LayoutNode)) (row : Z) (ids : list jstring) : list (jstring * LayoutNode) :=
  fold_left (place row) (numbered ids) m.

Definition maxRow (rows : list (Z * list jstring)) : Z := fold_left (λ a ri, Z.max a ri.1) rows 0.
Definition maxCol (rows : list (Z * list jstring)) : Z := fold_left (λ a ri, Z.max a (Z.of_nat (length ri.2))) rows 0.

Definition orphans (g : LineageGraphElements) (rank : ranks) : list jstring :=
  jfilter (λ id, negb (mhas id rank)) (map gn_id (nodes g)).

(** The nodes after both placing loops. *)
Definition placed (g : LineageGraphElements) (rank : ranks) : list (jstring * LayoutNode) :=
  let rows := by_rank rank in
  let m := fold_left (λ m ri, place_row m ri.1 ri.2) rows (node_map g) in
  place_row m (maxRow rows + 1) (orphans g rank).

Definition raw_edge (m : list (jstring * LayoutNode)) (e : GraphEdge) : LayoutEdge :=
  let a := mget (ge_source e) m in
  let b := mget (ge_target e) m in
  {| el_id := ge_id e; el_x1 := (ln_x <$> a) ?? 0; el_y1 := (ln_y <$> a) ?? 0;
     el_x2 := (ln_x <$> b) ?? 0; el_y2 := (ln_y <$> b) ?? 0;
     el_label := ge_label e; el_detail := ge_detail e; el_eventType := ge_eventType e;
     el_labelX := nzero; el_labelY := nzero |}.

Definition layoutGraph (fuel : nat) (g : LineageGraphElements) : option Layout :=
  match rank_nodes fuel g with
  | Some rank =>
      let rows := by_rank rank in
      let m := placed g rank in
      Some {| lo_nodes := m.*2; lo_edges := spreadEdgeLabels (map (raw_edge m) (edges g));
              lo_width := Z.max 320 (pad * 2 + Z.max (maxCol rows) 1 * colW);
              lo_height := pad * 2 + (maxRow rows + 2) * rowH |}
  | None => None
  end.
End labels.

(** ** The work list ends on graphs without cycles *)

Fixpoint sum_of (l : list nat) : nat := match l with [] => O | n :: l' => (n + sum_of l')%nat end.

Section acyclic.
Context (adj : list (jstring * list jstring)) (h : jstring → nat) (top : nat).
Local Abbreviation children u := (mget u adj ?? []).
Hypothesis Hup : ∀ u v, v ∈ children u → (h u < h v <= top)%nat.

(** Rounds needed for a node and everything below it. *)
Fixpoint cost (n : nat) (u : jstring) : nat :=
  match n with O => 1 | S n => S (sum_of (map (cost n) (children u))) end.

Lemma sum_le (f g : jstring → nat) l : (∀ x, x ∈ l → (f x <= g x)%nat) → (sum_of (map f l) <= sum_of (map g l))%nat.
Proof.
  induction l as [|x l IH]; cbn; [lia|]. intros H. pose proof (H x ltac:(by left)).
  specialize (IH ltac:(intros; apply H; by right)). lia.
Qed.
Lemma cost_mono n m u : (n <= m)%nat → (cost n u <= cost m u)%nat.
Proof.
  revert m u. induction n as [|n IH]; intros [|m] u Hle; cbn; [lia..|].
  apply le_n_S, sum_le. intros. apply IH. lia.
Qed.
Definition node_cost (u : jstring) : nat := cost (S top - h u) u.

Lemma children_cost u : (S (sum_of (map node_cost (children u))) <= node_cost u)%nat.
Proof.
  unfold node_cost. destruct (decide (children u = [])) as [E|Hne].
  { rewrite E. destruct (_ - _)%nat; cbn [cost]; rewrite ?E; cbn; lia. }
  assert (Hh : (h u < top)%nat).
  { destruct (children u) as [|v l] eqn:E; [done|]. specialize (Hup u v). rewrite E in Hup.
    specialize (Hup ltac:(by left)). lia. }
  replace (S top - h u)%nat with (S (top - h u)) by lia. cbn [cost]. apply le_n_S, sum_le.
  intros v Hv. apply cost_mono. specialize (Hup u v Hv). lia.
Qed.

Lemma rank_loop_ends fuel queue rank :
  (sum_of (map node_cost queue) <= fuel)%nat → is_Some (rank_loop fuel adj queue rank).
Proof.
  revert queue rank. induction fuel as [|fuel IH]; intros [|u queue] rank Hf; cbn [rank_loop]; [eauto| |eauto|].
  - pose proof (children_cost u). cbn in Hf. lia.
  - apply IH. rewrite map_app. pose proof (children_cost u). cbn in Hf.
    assert (Ha : ∀ a b, sum_of (a ++ b) = (sum_of a + sum_of b)%nat) by (induction a; cbn; intros; [done|]; rewrite IHa; lia).
    rewrite Ha. lia.
Qed.

(** What holds of the ranks while the list is worked off: a node outside the list
    is above its children. *)
Definition rank_inv (queue : list jstring) (rank : list (jstring * Z)) : Prop :=
  NoDup rank.*1 ∧ (∀ u, u ∈ queue → u ∈ rank.*1) ∧ (∀ u r, mget u rank = Some r → 0 ≤ r) ∧
  ∀ u r, mget u rank = Some r → u ∈ queue ∨ ∀ v, v ∈ children u → ∃ r', mget v rank = Some r' ∧ r < r'.

Lemma raise_get r vs rank u :
  mget u (fold_left (raise_child r) vs rank) =
    if bool_decide (u ∈ vs) then Some (Z.max (mget u rank ?? 0) (r + 1)) else mget u rank.
Proof.
  revert rank. induction vs as [|v vs IH]; intros rank; cbn [fold_left]; [done|].
  rewrite IH. unfold raise_child at 1 2. rewrite !mget_set.
  destruct (bool_decide (u = v)) eqn:E; bprop.
  - subst. rewrite (bool_decide_true (v ∈ v :: vs)) by (by left). destruct (bool_decide (v ∈ vs)); cbn; f_equal; lia.
  - destruct (bool_decide (u ∈ vs)) eqn:E'; bprop.
    + rewrite bool_decide_true; [done|by right].
    + rewrite bool_decide_false; [done|]. by rewrite not_elem_of_cons.
Qed.
Lemma raise_nodup r vs rank : NoDup rank.*1 → NoDup (fold_left (raise_child r) vs rank).*1.
Proof. revert rank. induction vs as [|v vs IH]; intros rank Hd; cbn; [done|]. by apply IH, mset_nodup. Qed.

Lemma rank_step u queue rank :
  rank_inv (u :: queue) rank →
  rank_inv (queue ++ children u) (fold_left (raise_child (mget u rank ?? 0)) (children u) rank).
Proof.
  intros (Hd & Hq & Hpos & Hin). set (vs := children u). set (r0 := mget u rank ?? 0).
  assert (Hr0 : 0 ≤ r0).
  { unfold r0. destruct (mget u rank) eqn:E; cbn; [|lia]. by eapply Hpos. }
  assert (Hu : u ∉ vs) by (intros Hc; specialize (Hup u u Hc); lia).
  unfold rank_inv. splits.
  - by apply raise_nodup.
  - intros w Hw. apply mget_is_Some. rewrite raise_get. destruct (bool_decide (w ∈ vs)) eqn:E; [eauto|]. bprop.
    apply mget_is_Some, Hq. apply elem_of_app in Hw as [Hw|Hw]; [by right|done].
  - intros w r. rewrite raise_get. split_if; [|apply Hpos]. intros [= <-]. lia.
  - intros w r. rewrite raise_get. destruct (bool_decide (w ∈ vs)) eqn:E; bprop.
    + intros _. left. apply elem_of_app. by right.
    + intros Hw. destruct (decide (w = u)) as [->|Hne].
      * right. intros v Hv. rewrite raise_get, bool_decide_true by done. eexists. split; [done|].
        unfold r0. rewrite Hw. cbn. lia.
      * destruct (Hin w r Hw) as [[->|Hq']%elem_of_cons|Hc]; [done|left; apply elem_of_app; by left|].
        right. intros v Hv. destruct (Hc v Hv) as (r' & Hr' & Hlt). rewrite raise_get.
        split_if; [|eauto]. eexists. split; [done|]. rewrite Hr'. cbn. lia.
Qed.

Lemma rank_loop_inv fuel queue rank rank' :
  rank_loop fuel adj queue rank = Some rank' → rank_inv queue rank →
  rank_inv [] rank' ∧ ∀ u, u ∈ rank.*1 → u ∈ rank'.*1.
Proof.
  revert queue rank. induction fuel as [|fuel IH]; intros [|u queue] rank; cbn [rank_loop].
  1,3: by intros [= <-]. 1: done.
  intros He Hi. apply rank_step in Hi. destruct (IH _ _ He Hi) as [Hi' Hk]. split; [done|].
  intros w Hw. apply Hk, mget_is_Some. rewrite raise_get. split_if; [eauto|]. by apply mget_is_Some.
Qed.
End acyclic.

(** ** Ranks of a graph *)

(** Node identifiers are distinct and edges join nodes, as [lineage_graph_wf] states. *)
Definition graph_wf (g : LineageGraphElements) : Prop :=
  NoDup (map gn_id (nodes g)) ∧
  ∀ e, e ∈ edges g → ge_source e ∈ map gn_id (nodes g) ∧ ge_target e ∈ map gn_id (nodes g).

Lemma init_get {V} (v : V) g u :
  NoDup (map gn_id (nodes g)) →
  mget u (map_of (map (λ n, (gn_id n, v)) (nodes g))) = if bool_decide (u ∈ map gn_id (nodes g)) then Some v else None.
Proof.
  intros Hd. assert (Hf : (map (λ n, (gn_id n, v)) (nodes g)).*1 = map gn_id (nodes g)).
  { change (fst <$> ((λ n, (gn_id n, v)) <$> nodes g) = gn_id <$> nodes g). by rewrite <- list_fmap_compose. }
  rewrite map_of_distinct by (by rewrite Hf). split_if; bprop.
  - apply mget_nodup; [by rewrite Hf|]. apply list_elem_of_fmap in E as (n & -> & Hn).
    apply list_elem_of_fmap. by exists n.
  - apply mget_None. by rewrite Hf.
Qed.

Definition targets_of (u : jstring) (es : list GraphEdge) : list jstring :=
  map ge_target (jfilter (λ e, ge_source e =s u) es).
Lemma adjacency_get es m u :
  mget u (fold_left add_adj es m) = (λ l, l ++ targets_of u es) <$> mget u m.
Proof.
  revert m. induction es as [|e es IH]; intros m; cbn [fold_left].
  - destruct (mget u m); cbn; [by rewrite app_nil_r|done].
  - rewrite IH. unfold add_adj. unfold targets_of, jfilter. cbn [List.filter].
    destruct (ge_source e =s u) eqn:E; bprop.
    + subst. destruct (mget (ge_source e) m) eqn:Em; [|by rewrite Em].
      rewrite mget_set_eq. cbn. by rewrite <- app_assoc.
    + destruct (mget (ge_source e) m) eqn:Em; [|done]. by rewrite mget_set_ne by congruence.
Qed.
Lemma children_spec g u v : graph_wf g →
  v ∈ mget u (adjacency_of g) ?? [] ↔ ∃ e, e ∈ edges g ∧ ge_source e = u ∧ ge_target e = v.
Proof.
  intros [Hd He]. unfold adjacency_of. rewrite adjacency_get, init_get by done.
  assert (Ht : v ∈ targets_of u (edges g) ↔ ∃ e, e ∈ edges g ∧ ge_source e = u ∧ ge_target e = v).
  { unfold targets_of. rewrite list_elem_of_In, in_map_iff. setoid_rewrite <- list_elem_of_In.
    setoid_rewrite jfilter_elem. setoid_rewrite jeq_true. naive_solver. }
  destruct (bool_decide (u ∈ map gn_id (nodes g))) eqn:E; bprop; cbn; [done|].
  split; [by intros ?%elem_of_nil|]. intros (e & Hin & <- & _). destruct E. by apply He.
Qed.

Lemma degrees_get es (m : list (jstring * Z)) v d : (∀ u r, mget u m = Some r → 0 ≤ r) →
  mget v (fold_left add_deg es m) = Some d → 0 ≤ d ∧ (d = 0 → mget v m = Some 0 ∧ v ∉ map ge_target es) ∧
    (d ≠ 0 → mget v m ≠ Some 0 ∨ v ∈ map ge_target es).
Proof.
  revert m. induction es as [|e es IH]; intros m Hm; cbn [fold_left].
  - intros H. splits; [by eapply Hm| |]; intros Hd; [subst; split; [done|apply not_elem_of_nil]|left; congruence].
  - intros H. apply IH in H as (H0 & Hz & Hnz).
    + splits; [done| |].
      * intros Hd. destruct (Hz Hd) as [Hg Hn]. unfold add_deg in Hg. rewrite mget_set in Hg.
        destruct (bool_decide (v = ge_target e)) eqn:E; bprop.
        { injection Hg as Hg. destruct (mget (ge_target e) m) eqn:Em; cbn in Hg; [apply Hm in Em|]; lia. }
        split; [done|]. cbn. by rewrite not_elem_of_cons.
      * intros Hd. cbn. rewrite elem_of_cons. destruct (Hnz Hd) as [Hg|Hg]; [|naive_solver].
        unfold add_deg in Hg. rewrite mget_set in Hg. destruct (bool_decide (v = ge_target e)) eqn:E; bprop; naive_solver.
    + intros u r. unfold add_deg. rewrite mget_set. split_if; [|apply Hm]. intros [= <-].
      destruct (mget (ge_target e) m) eqn:Em; cbn; [apply Hm in Em|]; lia.
Qed.
Lemma degrees_nodup g : NoDup (in_degrees g).*1.
Proof.
  unfold in_degrees. generalize (map_of_nodup (map (λ n, (gn_id n, 0)) (nodes g))).
  generalize (map_of (map (λ n, (gn_id n, 0)) (nodes g))). induction (edges g) as [|e es IH]; intros m Hm; cbn; [done|].
  by apply IH, mset_nodup.
Qed.
Lemma degrees_keys g v : v ∈ map gn_id (nodes g) → NoDup (map gn_id (nodes g)) → is_Some (mget v (in_degrees g)).
Proof.
  intros Hv Hd. unfold in_degrees.
  assert (Hi : is_Some (mget v (map_of (map (λ n, (gn_id n, 0)) (nodes g))))).
  { rewrite init_get, bool_decide_true by done. eauto. }
  revert Hi. generalize (map_of (map (λ n, (gn_id n, 0)) (nodes g))). induction (edges g) as [|e es IH]; intros m Hm; cbn; [done|].
  apply IH. unfold add_deg. rewrite mget_set. split_if; eauto.
Qed.
(** A node is a root exactly when no edge leads to it. *)
Lemma roots_spec g v : graph_wf g → v ∈ map gn_id (nodes g) → v ∈ roots_of g ↔ v ∉ map ge_target (edges g).
Proof.
  intros [Hd He] Hv. destruct (degrees_keys g v Hv Hd) as [d Hg].
  assert (Hroot : v ∈ roots_of g ↔ d = 0).
  { unfold roots_of. rewrite list_elem_of_In, in_map_iff. setoid_rewrite <- list_elem_of_In.
    setoid_rewrite jfilter_elem. split.
    - intros ([k r] & <- & Hin & Hr). cbn in *. apply Z.eqb_eq in Hr. subst.
      apply (mget_nodup k 0) in Hin; [congruence|apply degrees_nodup].
    - intros ->. exists (v, 0). splits; [done|by apply mget_elem|done]. }
  rewrite Hroot. unfold in_degrees in Hg. apply degrees_get in Hg as (H0 & Hz & Hnz).
  - rewrite init_get, bool_decide_true in * by done. split; [naive_solver|]. intros Hn.
    destruct (decide (d = 0)) as [|Hne]; [done|]. destruct (Hnz Hne); done.
  - intros u r. rewrite init_get by done. split_if; [|done]. intros [= <-]. lia.
Qed.

Lemma root_ranks_get (rs : list jstring) (m : list (jstring * Z)) v :
  mget v (fold_left (λ rank r, mset r 0 rank) rs m) = if bool_decide (v ∈ rs) then Some 0 else mget v m.
Proof.
  revert m. induction rs as [|r rs IH]; intros m; cbn [fold_left]; [done|]. rewrite IH, mget_set.
  destruct (bool_decide (v ∈ rs)) eqn:E; bprop.
  - rewrite bool_decide_true; [done|by right].
  - destruct (bool_decide (v = r)) eqn:E'; bprop.
    + subst. rewrite bool_decide_true; [done|by left].
    + rewrite bool_decide_false; [done|]. by rewrite not_elem_of_cons.
Qed.
Lemma root_ranks_nodup (rs : list jstring) (m : list (jstring * Z)) : NoDup m.*1 → NoDup (fold_left (λ rank r, mset r 0 rank) rs m).*1.
Proof. revert m. induction rs as [|r rs IH]; intros m Hm; cbn; [done|]. by apply IH, mset_nodup. Qed.

Lemma sum_elem x l : x ∈ l → (x <= sum_of l)%nat.
Proof. induction 1; cbn; lia. Qed.

(** Ranks in which every edge goes down. *)
Definition ranked (g : LineageGraphElements) (rank : list (jstring * Z)) : Prop :=
  NoDup rank.*1 ∧ (∀ u r, mget u rank = Some r → 0 ≤ r) ∧
  (∀ v, v ∈ map gn_id (nodes g) → is_Some (mget v rank)) ∧
  ∀ e, e ∈ edges g → ∃ r r', mget (ge_source e) rank = Some r ∧ mget (ge_target e) rank = Some r' ∧ r < r'.

Section ranking.
Context (g : LineageGraphElements) (h : jstring → nat).
Hypothesis Hwf : graph_wf g.
Hypothesis Hup : ∀ e, e ∈ edges g → (h (ge_source e) < h (ge_target e))%nat.

Lemma edges_up u v : v ∈ mget u (adjacency_of g) ?? [] → (h u < h v <= sum_of (map (h ∘ ge_target) (edges g)))%nat.
Proof.
  intros (e & He & <- & <-)%children_spec; [|done]. split; [by apply Hup|].
  apply sum_elem. apply list_elem_of_fmap. by exists e.
Qed.

Lemma rank_start : rank_inv (adjacency_of g) (roots_of g) (root_ranks g).
Proof.
  unfold rank_inv, root_ranks. splits.
  - apply root_ranks_nodup. constructor.
  - intros u Hu. apply mget_is_Some. rewrite root_ranks_get, bool_decide_true by done. eauto.
  - intros u r. rewrite root_ranks_get. split_if; [|done]. intros [= <-]. lia.
  - intros u r. rewrite root_ranks_get. split_if; [|done]. bprop. by left.
Qed.

Lemma all_ranked rank : rank_inv (adjacency_of g) [] rank → (∀ v, v ∈ roots_of g → v ∈ rank.*1) →
  ∀ v, v ∈ map gn_id (nodes g) → is_Some (mget v rank).
Proof.
  intros (_ & _ & _ & Hc) Hr v. remember (h v) as n eqn:En. revert v En.
  induction n as [n IH] using lt_wf_ind. intros v -> Hv.
  destruct (decide (v ∈ map ge_target (edges g))) as [Ht|Hn].
  - apply list_elem_of_fmap in Ht as (e & -> & He).
    destruct (IH _ (Hup e He) (ge_source e) eq_refl) as [r Hs]; [by apply Hwf|].
    destruct (Hc _ _ Hs) as [Hq%elem_of_nil|Hc']; [done|].
    destruct (Hc' (ge_target e)) as (r' & Hr' & _); [|eauto]. apply children_spec; [done|]. by exists e.
  - apply mget_is_Some, Hr. by apply roots_spec.
Qed.

Lemma rank_nodes_ends : ∃ n, ∀ fuel, (n <= fuel)%nat → ∃ rank, rank_nodes fuel g = Some rank ∧ ranked g rank.
Proof.
  set (top := sum_of (map (h ∘ ge_target) (edges g))).
  exists (sum_of (map (node_cost (adjacency_of g) h top) (roots_of g))). intros fuel Hf.
  destruct (rank_loop_ends (adjacency_of g) h top edges_up fuel (roots_of g) (root_ranks g) Hf) as [rank Hrank].
  exists rank. split; [done|].
  destruct (rank_loop_inv (adjacency_of g) h top edges_up _ _ _ _ Hrank rank_start) as [Hi Hk].
  pose proof Hi as (Hd & _ & Hpos & Hc).
  assert (Hall : ∀ v, v ∈ map gn_id (nodes g) → is_Some (mget v rank)).
  { apply all_ranked; [done|]. intros v Hv. apply Hk. destruct rank_start as (_ & Hq & _). by apply Hq. }
  unfold ranked. splits; try done. intros e He. destruct (Hall (ge_source e)) as [r Hr]; [by apply Hwf|].
  destruct (Hc _ _ Hr) as [Hq%elem_of_nil|Hc']; [done|].
  destruct (Hc' (ge_target e)) as (r' & Hr' & Hlt); [apply children_spec; [done|]; by exists e|eauto].
Qed.
End ranking.

(** ** Positions of the nodes *)

Definition moved (row : Z) (i : nat) (n : LayoutNode) : LayoutNode :=
  {| ln_id := ln_id n; ln_label := ln_label n; ln_risk := ln_risk n;
     ln_x := pad + Z.of_nat i * colW + colW / 2; ln_y := pad + row * rowH + 36 |}.

Lemma place_get row m i id id' :
  mget id (place row m (i, id')) = if bool_decide (id = id') then moved row i <$> mget id m else mget id m.
Proof.
  unfold place. cbn. destruct (mget id' m) eqn:E; split_if; bprop; subst.
  - by rewrite mget_set_eq, E.
  - by rewrite mget_set_ne.
  - by rewrite E.
  - done.
Qed.
Lemma place_keys row m iid : (place row m iid).*1 = m.*1.
Proof.
  unfold place. destruct (mget iid.2 m) eqn:E; [|done]. rewrite mset_keys, bool_decide_true; [done|].
  apply mget_is_Some. eauto.
Qed.
Lemma row_keys row l m : (fold_left (place row) l m).*1 = m.*1.
Proof. revert m. induction l as [|x l IH]; intros m; cbn; [done|]. by rewrite IH, place_keys. Qed.

Lemma row_other row l m id : id ∉ l.*2 → mget id (fold_left (place row) l m) = mget id m.
Proof.
  revert m. induction l as [|[i id'] l IH]; intros m; cbn; [done|]. rewrite not_elem_of_cons. intros [Hne Hn].
  rewrite IH by done. rewrite place_get. by rewrite bool_decide_false.
Qed.
Lemma row_member row l m i id : NoDup l.*2 → (i, id) ∈ l →
  mget id (fold_left (place row) l m) = moved row i <$> mget id m.
Proof.
  revert m. induction l as [|[i' id'] l IH]; intros m; cbn; [by intros _ ?%elem_of_nil|].
  rewrite NoDup_cons. intros [Hn Hd] [[= -> ->]|Hin]%elem_of_cons.
  - rewrite row_other by done. rewrite place_get. by rewrite bool_decide_true.
  - rewrite (IH _ Hd Hin). rewrite place_get, bool_decide_false; [done|]. intros ->. apply Hn.
    apply list_elem_of_fmap. by exists (i, id').
Qed.

Definition place_rows (rows : list (Z * list jstring)) (m : list (jstring * LayoutNode)) : list (jstring * LayoutNode) :=
  fold_left (λ m ri, place_row m ri.1 ri.2) rows m.
Lemma rows_keys rows m : (place_rows rows m).*1 = m.*1.
Proof.
  unfold place_rows. revert m. induction rows as [|x rows IH]; intros m; cbn; [done|].
  rewrite IH. apply row_keys.
Qed.
Lemma rows_other rows m id : (∀ r ids, (r, ids) ∈ rows → id ∉ ids) → mget id (place_rows rows m) = mget id m.
Proof.
  unfold place_rows. revert m. induction rows as [|[r ids] rows IH]; intros m H; cbn [fold_left fst snd]; [done|].
  rewrite IH by (intros; eapply H; by right). apply (row_other r). rewrite numbered_snd. eapply H. by left.
Qed.
(** A node that occurs in one row only stands at its place in that row. *)
Lemma rows_member rows m r ids i id : NoDup rows.*1 → (∀ r' ids', (r', ids') ∈ rows → NoDup ids') →
  (r, ids) ∈ rows → ids !! i = Some id → (∀ r' ids', (r', ids') ∈ rows → id ∈ ids' → r' = r) →
  mget id (place_rows rows m) = moved r i <$> mget id m.
Proof.
  unfold place_rows. revert m. induction rows as [|[r1 ids1] rows IH]; intros m; cbn [fold_left fst snd]; [by intros _ _ ?%elem_of_nil|].
  rewrite fmap_cons, NoDup_cons. intros [Hn Hd] Hnd [[= -> ->]|Hin]%elem_of_cons Hi Hu.
  - fold (place_rows rows (place_row m r1 ids1)). rewrite rows_other.
    + unfold place_row. rewrite row_member with (i := i); [done| |by apply numbered_elem].
      rewrite numbered_snd. eapply Hnd. by left.
    + intros r' ids' Hr' Hid. apply Hn. replace r1 with r'.
      * apply list_elem_of_fmap. by exists (r', ids').
      * eapply Hu; [by right|done].
  - rewrite IH; [|done|intros; eapply Hnd; by right|done|done|intros; eapply Hu; [by right|done]].
    f_equal. apply row_other. rewrite numbered_snd. intros Hid. apply Hn.
    rewrite (Hu r1 ids1 ltac:(by left) Hid). apply list_elem_of_fmap. by exists (r, ids).
Qed.

Definition row_of (r : Z) (rank : list (jstring * Z)) : list jstring := map fst (jfilter (λ kr : jstring * Z, kr.2 =? r) rank).
Lemma by_rank_get l m r :
  mget r (fold_left (λ m kr, mset kr.2 ((mget kr.2 m ?? []) ++ [kr.1]) m) l m) =
    if bool_decide (row_of r l = []) then mget r m else Some ((mget r m ?? []) ++ row_of r l).
Proof.
  revert m. induction l as [|[id r'] l IH]; intros m; cbn [fold_left]; [done|]. rewrite IH. cbn [fst snd].
  rewrite mget_set. unfold row_of, jfilter. cbn [List.filter snd map].
  destruct (bool_decide (r = r')) eqn:E; bprop; subst.
  - rewrite Z.eqb_refl. cbn. split_if; bprop.
    + by rewrite E.
    + by rewrite <- app_assoc.
  - rewrite (proj2 (Z.eqb_neq r' r)) by congruence. done.
Qed.
Lemma by_rank_nodup (l : list (jstring * Z)) m :
  NoDup m.*1 → NoDup (fold_left (λ m kr, mset kr.2 ((mget kr.2 m ?? []) ++ [kr.1]) m) l m).*1.
Proof. revert m. induction l as [|x l IH]; intros m Hm; cbn; [done|]. by apply IH, mset_nodup. Qed.
Lemma row_of_elem r rank id : NoDup rank.*1 → id ∈ row_of r rank ↔ mget id rank = Some r.
Proof.
  intros Hd. unfold row_of. rewrite list_elem_of_In, in_map_iff. setoid_rewrite <- list_elem_of_In.
  setoid_rewrite jfilter_elem. split.
  - intros ([k r'] & <- & Hin & Hr). cbn in *. apply Z.eqb_eq in Hr. subst. by apply mget_nodup.
  - intros H. exists (id, r). splits; [done|by apply mget_elem|apply Z.eqb_refl].
Qed.
Lemma by_rank_rows rank r ids : (r, ids) ∈ by_rank rank → ids = row_of r rank.
Proof.
  intros Hin. pose proof (by_rank_nodup rank [] ltac:(constructor)) as Hd.
  apply (mget_nodup _ _ _ Hd) in Hin. rewrite by_rank_get in Hin. cbn in Hin.
  destruct (bool_decide _); [done|]. by simplify_eq.
Qed.
Lemma row_of_nodup r (rank : list (jstring * Z)) : NoDup rank.*1 → NoDup (row_of r rank).
Proof.
  intros Hd. eapply sublist_NoDup; [exact Hd|]. unfold row_of. apply (fmap_sublist fst), jfilter_sublist.
Qed.

Lemma max_ge {A} (f : A → Z) l a x : x ∈ l → f x ≤ fold_left (λ a y, Z.max a (f y)) l a.
Proof.
  assert (Hge : ∀ l a, a ≤ fold_left (λ a y, Z.max a (f y)) l a).
  { clear. induction l as [|y l IH]; intros a; cbn; [lia|]. etrans; [|apply IH]. lia. }
  intros Hx. revert a. induction Hx as [l|x y l _ IH]; intros a; cbn; [|apply IH]. etrans; [|apply Hge]. lia.
Qed.

Section placing.
Context (g : LineageGraphElements) (rank : list (jstring * Z)).
Hypothesis Hwf : graph_wf g.
Hypothesis Hrank : ranked g rank.

Lemma node_map_keys : (node_map g).*1 = map gn_id (nodes g).
Proof.
  unfold node_map. assert (Hf : (map (λ n, (gn_id n, empty_node n)) (nodes g)).*1 = map gn_id (nodes g)).
  { change (fst <$> ((λ n, (gn_id n, empty_node n)) <$> nodes g) = gn_id <$> nodes g). by rewrite <- list_fmap_compose. }
  rewrite map_of_distinct; [done|]. rewrite Hf. apply Hwf.
Qed.
Lemma no_orphans : orphans g rank = [].
Proof.
  apply jfilter_none. intros id Hid. destruct Hrank as (_ & _ & Ha & _). destruct (Ha id Hid) as [r Hr].
  unfold mhas. by rewrite Hr.
Qed.

(** Where a node of rank [r] is drawn. *)
Lemma placed_at id r : id ∈ map gn_id (nodes g) → mget id rank = Some r →
  ∃ i n, row_of r rank !! i = Some id ∧ mget id (placed g rank) = Some (moved r i n).
Proof.
  intros Hid Hr. destruct Hrank as (Hd & _ & _ & _). pose proof (proj2 (row_of_elem r rank id Hd) Hr) as Hin.
  apply list_elem_of_lookup in Hin as [i Hi].
  assert (Hrow : (r, row_of r rank) ∈ by_rank rank).
  { apply mget_elem. unfold by_rank. rewrite by_rank_get. rewrite bool_decide_false; [done|]. by destruct (row_of r rank). }
  unfold placed. rewrite no_orphans. cbn [place_row numbered seq length zip fold_left].
  change (place_row ?m ?r []) with m.
  fold (place_rows (by_rank rank) (node_map g)). rewrite rows_member with (r := r) (ids := row_of r rank) (i := i).
  - assert (Hs : is_Some (mget id (node_map g))) by (apply mget_is_Some; by rewrite node_map_keys).
    destruct Hs as [n ->]. by exists i, n.
  - by apply by_rank_nodup; constructor.
  - intros r' ids' ->%by_rank_rows. by apply row_of_nodup.
  - done.
  - done.
  - intros r' ids' ->%by_rank_rows Hid'. apply row_of_elem in Hid'; [congruence|done].
Qed.

Lemma placed_keys : (placed g rank).*1 = map gn_id (nodes g).
Proof. unfold placed. rewrite no_orphans. rewrite <- node_map_keys. apply rows_keys. Qed.

(** Every node drawn has a rank and a place in the row of its rank. *)
Lemma placed_where id n : (id, n) ∈ placed g rank →
  ∃ r i n', mget id rank = Some r ∧ row_of r rank !! i = Some id ∧ n = moved r i n'.
Proof.
  assert (Hk : NoDup (placed g rank).*1) by (rewrite placed_keys; apply Hwf).
  intros Hin. assert (Hid : id ∈ map gn_id (nodes g)).
  { rewrite <- placed_keys. apply list_elem_of_fmap. by exists (id, n). }
  destruct Hrank as (_ & _ & Ha & _). destruct (Ha id Hid) as [r Hr].
  destruct (placed_at id r Hid Hr) as (i & n' & Hi & Hg). exists r, i, n'. splits; try done.
  apply (mget_nodup _ _ _ Hk) in Hin. congruence.
Qed.

Lemma placed_apart : NoDup (map (λ n, (ln_x n, ln_y n)) (placed g rank).*2).
Proof.
  assert (Hk : NoDup (placed g rank).*1) by (rewrite placed_keys; apply Hwf).
  rewrite <- list_fmap_compose. eapply (NoDup_fmap_2_strong (A := jstring * LayoutNode)); [|by eapply NoDup_fmap_1].
  intros [id1 n1] [id2 n2] H1 H2 E. pose proof (placed_where _ _ H1) as (r1 & i1 & m1 & Hr1 & Hi1 & ->).
  pose proof (placed_where _ _ H2) as (r2 & i2 & m2 & Hr2 & Hi2 & ->). cbn in E. unfold pad, colW, rowH in E.
  assert (i1 = i2) by (injection E; lia). assert (r1 = r2) by (injection E; lia). subst.
  assert (id1 = id2) by congruence. subst. apply (mget_nodup _ _ _ Hk) in H1, H2. congruence.
Qed.

(** The rows and columns used are within the counted ones. *)
Lemma placed_within id n : (id, n) ∈ placed g rank →
  ∃ r i, 0 ≤ r ≤ maxRow (by_rank rank) ∧ 0 ≤ i < maxCol (by_rank rank) ∧
    ln_x n = pad + i * colW + colW / 2 ∧ ln_y n = pad + r * rowH + 36.
Proof.
  intros (r & i & n' & Hr & Hi & ->)%placed_where. exists r, (Z.of_nat i).
  assert (Hrow : (r, row_of r rank) ∈ by_rank rank).
  { apply mget_elem. unfold by_rank. rewrite by_rank_get. rewrite bool_decide_false; [done|]. by destruct (row_of r rank). }
  pose proof (lookup_lt_Some _ _ _ Hi) as Hlt. destruct Hrank as (_ & Hpos & _).
  pose proof (max_ge fst (by_rank rank) 0 _ Hrow). cbn [fst] in *.
  pose proof (max_ge (λ ri, Z.of_nat (length ri.2)) (by_rank rank) 0 _ Hrow). cbn [snd] in *.
  splits; [by eapply Hpos|done|lia|unfold maxCol; lia|done|done].
Qed.

Lemma raw_edges_down e : e ∈ edges g → el_y1 (raw_edge (placed g rank) e) + rowH ≤ el_y2 (raw_edge (placed g rank) e).
Proof.
  intros He. pose proof Hrank as (_ & _ & _ & Hdown). destruct (Hdown e He) as (r & r' & Hs & Ht & Hlt).
  destruct Hwf as [_ Hends]. destruct (Hends e He) as [Hse Hte].
  destruct (placed_at _ _ Hse Hs) as (i & n & _ & E1). destruct (placed_at _ _ Hte Ht) as (j & n' & _ & E2).
  unfold raw_edge. rewrite E1, E2. cbn. unfold pad, rowH. lia.
Qed.
End placing.

Lemma spread_keeps hypot es : map (λ e, (el_y1 e, el_y2 e)) (spreadEdgeLabels hypot es) = map (λ e, (el_y1 e, el_y2 e)) es.
Proof.
  unfold spreadEdgeLabels. rewrite map_map. transitivity (map (λ e, (el_y1 e, el_y2 e)) (numbered es).*2).
  - change ((numbered es).*2) with (map snd (numbered es)). rewrite map_map. apply map_ext. by intros [i e].
  - by rewrite numbered_snd.
Qed.

(** A drawing in which every edge leads at least one row down, no two nodes share a
    place, every node of the graph is drawn, and every node's box (104 by 56
    around its place) lies inside the canvas. *)
Definition good_layout (g : LineageGraphElements) (l : Layout) : Prop :=
  (∀ e, e ∈ lo_edges l → el_y1 e + rowH ≤ el_y2 e) ∧
  NoDup (map (λ n, (ln_x n, ln_y n)) (lo_nodes l)) ∧ length (lo_nodes l) = length (nodes g) ∧
  ∀ n, n ∈ lo_nodes l → 0 ≤ ln_x n - 52 ∧ ln_x n + 52 ≤ lo_width l ∧ 0 ≤ ln_y n - 28 ∧ ln_y n + 28 ≤ lo_height l.

Lemma layout_acyclic hypot g (h : jstring → nat) : graph_wf g →
  (∀ e, e ∈ edges g → (h (ge_source e) < h (ge_target e))%nat) →
  ∃ n, ∀ fuel, (n <= fuel)%nat → ∃ l, layoutGraph hypot fuel g = Some l ∧ good_layout g l.
Proof.
  intros Hwf Hup. destruct (rank_nodes_ends g h Hwf Hup) as [n Hn]. exists n. intros fuel Hf.
  destruct (Hn fuel Hf) as (rank & Hr & Hrank). unfold layoutGraph. rewrite Hr. eexists. split; [done|].
  unfold good_layout. cbn [lo_nodes lo_edges]. splits.
  - intros e He. assert (Hin : (el_y1 e, el_y2 e) ∈ map (λ e, (el_y1 e, el_y2 e)) (map (raw_edge (placed g rank)) (edges g))).
    { rewrite <- (spread_keeps hypot). apply list_elem_of_fmap. by exists e. }
    rewrite map_map in Hin. apply list_elem_of_fmap in Hin as (ge & [= -> ->] & Hge). by apply raw_edges_down.
  - by apply placed_apart.
  - rewrite length_fmap. rewrite <- (length_fmap fst), placed_keys by done. apply length_map.
  - intros n' Hn'. apply list_elem_of_fmap in Hn' as ([id n0] & -> & Hin).
    destruct (placed_within g rank Hwf Hrank _ _ Hin) as (r & i & Hrow & Hcol & Hx & Hy). cbn [snd lo_width lo_height].
    rewrite Hx, Hy. unfold pad, colW, rowH. change (140 / 2) with 70. lia.
Qed.

(** ** Attack trees *)

Section trees.
Context (tree : AttackTree) (key : jstring).

(** Every edge is one of an event that names an older parent. *)
Definition older_parent (ev : LineageEvent) : Prop := ∃ p, le_ppid ev = Some p ∧ 0 < p < le_pid ev.
Definition parent_edge (e : GraphEdge) : Prop :=
  ∃ p q, ge_source e = proc_id key p ∧ ge_target e = proc_id key q ∧ 0 < p < q.

Lemma add_event_edge idx ev b : builder_inv key b → older_parent ev →
  Forall parent_edge (b_edges b) → Forall parent_edge (b_edges (add_event tree key idx ev b)).
Proof.
  intros Hi (p & Hp & Hlt) Hb. unfold add_event. rewrite Hp. rewrite (proj2 (Z.ltb_lt 0 p)) by lia.
  destruct (ensureProcess tree key (le_pid ev) (le_comm ev) _ _) as [target b1] eqn:E1.
  apply (ensure_inv tree key) in E1 as (Hi1 & Ht & _ & He1 & _); [|by apply builder_inv_comm].
  destruct (ensureProcess tree key p _ _ b1) as [source b2] eqn:E2.
  apply (ensure_inv tree key) in E2 as (_ & Hs & _ & He2 & _); [|done].
  cbn [b_edges]. rewrite He2, He1. apply Forall_app. split; [done|]. constructor; [|constructor].
  exists p, (le_pid ev). done.
Qed.
Lemma add_events_edges evs idx b : builder_inv key b → Forall older_parent evs →
  Forall parent_edge (b_edges b) → Forall parent_edge (b_edges (add_events tree key idx evs b)).
Proof.
  intros Hi Hev. revert idx b Hi. induction Hev as [|ev evs Hev _ IH]; intros idx b Hi Hb; cbn; [done|].
  apply IH; [by destruct (add_event_inv tree key idx ev b Hi)|by apply add_event_edge].
Qed.

Lemma tree_graph_ok : graph_wf (treeToGraph tree key).
Proof.
  destruct (tree_graph_wf tree key) as (Hn & Hid & He & _). split; [|done].
  replace (map gn_id (nodes (treeToGraph tree key))) with (map (proc_id key) (map node_pid (nodes (treeToGraph tree key)))).
  - apply (NoDup_fmap_2_strong (proc_id key)); [|done]. intros p q _ _ E.
    unfold proc_id in E. do 3 apply app_inv_head in E. by apply dec_inj_Z.
  - rewrite map_map. apply map_ext_in. intros n Hin%list_elem_of_In. by rewrite Hid.
Qed.
End trees.

(** The process a node identifier names. *)
Definition id_pid (key x : jstring) : nat := Z.to_nat (parseInt (drop (3 + length key) x) ?? 0).
Lemma id_pid_proc key p : 0 ≤ p → id_pid key (proc_id key p) = Z.to_nat p.
Proof.
  intros Hp. unfold id_pid, proc_id. change ("p-" ++ ?s) with (112 :: 45 :: s). cbn [drop app].
  replace (drop (3 + length key) _) with (dec p); [by rewrite parseInt_dec|].
  change (3 + length key)%nat with (S (S (S (length key)))). cbn [drop].
  rewrite drop_app_ge by lia. by replace (S (length key) - length key)%nat with 1%nat by lia.
Qed.

(** C25. The drawing of an attack tree ends, and is a proper one, when every event
    names its parent process and processes are younger than their parents: every
    node of the graph is drawn, at a place of its own, with its box inside the
    canvas, and every edge leads at least one row down. *)
Theorem lineage_layout_ends hypot tree key :
  Forall older_parent (at_events tree ?? []) →
  ∃ n, ∀ fuel, (n <= fuel)%nat →
    ∃ l, layoutGraph hypot fuel (treeToGraph tree key) = Some l ∧ good_layout (treeToGraph tree key) l.
Proof.
  intros Hev. apply layout_acyclic with (h := id_pid key); [apply tree_graph_ok|].
  destruct (start_inv tree key) as (Hi & Hs & _).
  pose proof (add_events_edges tree key _ 0 _ Hi Hev) as He. rewrite Hs in He. specialize (He ltac:(constructor)).
  rewrite Forall_forall in He. intros e Hin. destruct (He e Hin) as (p & q & -> & -> & Hlt).
  rewrite !id_pid_proc by lia. lia.
Qed.

(** ** Cycles *)

(** Nodes from which every step can be followed by another one. *)
Definition endless (adj : list (jstring * list jstring)) (P : jstring → Prop) : Prop :=
  ∀ u, P u → ∃ v, P v ∧ v ∈ mget u adj ?? [].

Lemma endless_hangs adj P fuel queue rank u :
  endless adj P → P u → u ∈ queue → rank_loop fuel adj queue rank = None.
Proof.
  intros He. revert queue rank u. induction fuel as [|fuel IH]; intros [|w queue] rank u HP Hq; cbn [rank_loop].
  1,3: by apply elem_of_nil in Hq. 1: done.
  apply elem_of_cons in Hq as [->|Hq].
  - destruct (He w HP) as (v & Hv & Hc). apply (IH _ _ v Hv). apply elem_of_app. by right.
  - apply (IH _ _ u HP). apply elem_of_app. by left.
Qed.

(** The edge an event adds. *)
Lemma add_event_exact tree key idx ev b : builder_inv key b →
  ∃ e, b_edges (add_event tree key idx ev b) = b_edges b ++ [e] ∧ b_prevPid (add_event tree key idx ev b) = le_pid ev ∧
    ge_target e = proc_id key (le_pid ev) ∧
    ge_source e = proc_id key (match le_ppid ev with
                               | Some p => if 0 <? p then p else if (idx =? 0)%nat then at_pid tree else b_prevPid b
                               | None => if (idx =? 0)%nat then at_pid tree else b_prevPid b
                               end).
Proof.
  intros Hi. unfold add_event.
  destruct (ensureProcess tree key (le_pid ev) (le_comm ev) _ _) as [target b1] eqn:E1.
  apply (ensure_inv tree key) in E1 as (Hi1 & Ht & _ & He1 & Hp1 & _); [|by apply builder_inv_comm].
  destruct (ensureProcess tree key _ _ _ b1) as [source b2] eqn:E2.
  apply (ensure_inv tree key) in E2 as (_ & Hs & _ & He2 & _); [|done].
  cbn [b_edges b_prevPid]. rewrite He2, He1. eexists. split; [done|]. splits; [done|done|].
  cbn [ge_source]. rewrite Hs, Hp1. done.
Qed.

(** A second event of a process that does not name its parent gives the process an
    edge to itself; behind a parent that is itself a root, the drawing never ends:
    no number of rounds is enough, and the page that shows the tree hangs. *)
Theorem lineage_layout_hangs hypot tree key ev1 ev2 p fuel :
  at_events tree = Some [ev1; ev2] → le_pid ev1 = at_pid tree → le_pid ev2 = at_pid tree →
  le_ppid ev1 = Some p → 0 < p → p ≠ at_pid tree → le_ppid ev2 = None →
  layoutGraph hypot fuel (treeToGraph tree key) = None.
Proof.
  intros Hev H1 H2 Hp Hpos Hne Hn. set (g := treeToGraph tree key).
  destruct (start_inv tree key) as (Hi & Hs & _).
  destruct (add_event_exact tree key 0 ev1 _ Hi) as (e1 & He1 & Hp1 & Ht1 & Hs1).
  destruct (add_event_inv tree key 0 ev1 _ Hi) as (Hi1 & _).
  destruct (add_event_exact tree key 1 ev2 _ Hi1) as (e2 & He2 & _ & Ht2 & Hs2).
  assert (Hg : edges g = [e1; e2]).
  { unfold g, treeToGraph. rewrite Hev. cbn [default id add_events edges]. by rewrite He2, He1, Hs. }
  rewrite Hp, (proj2 (Z.ltb_lt 0 p) Hpos) in Hs1. rewrite Hn, Hp1 in Hs2. cbn in Hs2. rewrite H1 in Ht1, Hs2. rewrite H2 in Ht2.
  pose proof (tree_graph_ok tree key) as Hwf. fold g in Hwf.
  assert (Hpq : proc_id key p ≠ proc_id key (at_pid tree)).
  { intros E. unfold proc_id in E. do 3 apply app_inv_head in E. apply dec_inj_Z in E. done. }
  assert (Hroot : proc_id key p ∈ roots_of g).
  { apply roots_spec; [done| |].
    - rewrite <- Hs1. apply Hwf. rewrite Hg. by left.
    - rewrite Hg. cbn. rewrite Ht1, Ht2, !not_elem_of_cons. splits; [done|done|apply not_elem_of_nil]. }
  assert (Hloop : endless (adjacency_of g) (λ x, x = proc_id key p ∨ x = proc_id key (at_pid tree))).
  { intros u [->| ->]; exists (proc_id key (at_pid tree)); (split; [by right|]); apply children_spec; try done;
      [exists e1|exists e2]; rewrite Hg; (split; [|by split]); [by left|right; by left]. }
  unfold layoutGraph, rank_nodes. by rewrite (endless_hangs _ _ fuel _ _ _ Hloop (or_introl eq_refl) Hroot).
Qed.

(** ** Examples *)

Module LayoutDemo.
Definition event (pid : Z) (ppid : option Z) : LineageEvent :=
  {| le_type := "EXEC_SHELL"; le_pid := pid; le_ppid := ppid; le_comm := "bash"; le_detail := "/bin/sh"; le_ts := 0 |}.
Definition tree (evs : list LineageEvent) : AttackTree :=
  {| at_pid := 100; at_comm := "nginx"; at_risk := num_of_Z 90; at_agentId := None; at_events := Some evs;
     at_firstSeen := None; at_lastSeen := None |}.
Definition no_hypot (x y : num) : num := nzero.

Example drawn : (λ l, (map (λ n, (ln_x n, ln_y n)) (lo_nodes l), lo_width l, lo_height l)) <$>
  layoutGraph no_hypot 10 (treeToGraph (tree [event 100 (Some 1); event 101 (Some 100); event 102 (Some 100)]) "0") =
  Some ([(118, 184); (118, 84); (118, 284); (258, 284)], 376, 496).
Proof. by vm_compute. Qed.

Lemma lineage_layout_ends_witness : ∃ n, ∀ fuel, (n <= fuel)%nat →
  ∃ l, layoutGraph no_hypot fuel (treeToGraph (tree [event 100 (Some 1); event 101 (Some 100)]) "0") = Some l ∧
    good_layout (treeToGraph (tree [event 100 (Some 1); event 101 (Some 100)]) "0") l.
Proof.
  apply lineage_layout_ends. constructor; [|constructor; [|constructor]].
  - exists 1. split; [reflexivity|cbn; lia].
  - exists 100. split; [reflexivity|cbn; lia].
Defined.
Lemma lineage_layout_hangs_witness :
  layoutGraph no_hypot 1000 (treeToGraph (tree [event 100 (Some 1); event 100 None]) "0") = None.
Proof. by apply (lineage_layout_hangs no_hypot _ _ (event 100 (Some 1)) (event 100 None) 1). Defined.
End LayoutDemo.
