(* ===== verification/Pdf.v ===== *)
(** The PDF writer of the compliance reports (dashboard/src/lib/pdfBuilder.ts):
    class [SimplePdf] as a state record with one function per method, and the
    file it builds.  [formatReportDate] only calls the host's locale formatting. *)

From S2P Require Import Prelude JsString JsNum.

Definition nl : jstring := [10].
Definition num_str : num → jstring := num_to_string.

Definition Rgb : Type := num * num * num.
Definition black : Rgb := (nzero, nzero, nzero).

(** ** wrapLines *)

(** [text.split(/\s+/).filter(Boolean)]; [cur] is the word being read, reversed. *)
Fixpoint words_from (cur : jstring) (s : jstring) : list jstring :=
  match s with
  | [] => match cur with [] => [] | _ => [rev cur] end
  | c :: s' =>
      if is_space c then match cur with [] => words_from [] s' | _ => rev cur :: words_from [] s' end
      else words_from (c :: cur) s'
  end.
Definition split_words (s : jstring) : list jstring := words_from [] s.

(** [n > maxChars], where no bound ([None]) stands for [NaN] or [Infinity]. *)
Definition exceeds (n : Z) (maxChars : option Z) : bool :=
  match maxChars with Some m => m <? n | None => false end.

Fixpoint wrap_from (maxChars : option Z) (line : jstring) (words : list jstring) : list jstring :=
  match words with
  | [] => if nonempty line then [line] else []
  | w :: words' =>
      let next := if nonempty line then line ++ " " ++ w else w in
      if exceeds (slen next) maxChars && nonempty line then line :: wrap_from maxChars w words'
      else wrap_from maxChars next words'
  end.
Definition wrapLines (text : jstring) (maxChars : option Z) : list jstring :=
  match wrap_from maxChars [] (split_words text) with
  | [] => [[]]
  | lines => lines
  end.

(** ** The document *)

Record SimplePdf := { p_streams : list jstring; p_ops : list jstring; p_y : num }.

Definition page_w : num := num_of_Z 595.
Definition page_h : num := num_of_Z 842.
Definition margin : num := num_of_Z 44.
Definition bottom : num := num_of_Z 48.

Definition newPage (p : SimplePdf) : SimplePdf :=
  {| p_streams := match p_ops p with [] => p_streams p | ops => p_streams p ++ [join nl ops] end;
     p_ops := []; p_y := nsub page_h margin |}.
Definition pdf_new : SimplePdf := newPage {| p_streams := []; p_ops := []; p_y := nzero |}.

Definition ensure (min : num) (p : SimplePdf) : SimplePdf :=
  if nlt (nsub (p_y p) min) bottom then newPage p else p.

(** The Turkish letters and dashes and what stands for them. *)
Definition tr : list (Z * Z) :=
  [(351, 115); (350, 83); (305, 105); (304, 73); (287, 103); (286, 71); (252, 117); (220, 85);
   (246, 111); (214, 79); (231, 99); (199, 67); (8212, 45); (8211, 45)].
Definition translit (c : Z) : Z :=
  match jfind (λ kv, c =? kv.1) tr with Some kv => kv.2 | None => c end.
Definition latin_only (c : Z) : Z := if c <=? 255 then c else 63.

Definition esc (text : jstring) : jstring :=
  map latin_only (replace_unit 41 [92; 41] (replace_unit 40 [92; 40] (replace_unit 92 [92; 92] (map translit text)))).

Definition emit (cmd : jstring) (p : SimplePdf) : SimplePdf :=
  {| p_streams := p_streams p; p_ops := p_ops p ++ [cmd]; p_y := p_y p |}.

Definition rgb_cmd (c : Rgb) : jstring :=
  num_str c.1.1 ++ " " ++ num_str c.1.2 ++ " " ++ num_str c.2 ++ " rg".

Definition fillRect (x y w h : num) (color : Rgb) (p : SimplePdf) : SimplePdf :=
  emit "Q" (emit (num_str x ++ " " ++ num_str y ++ " " ++ num_str w ++ " " ++ num_str h ++ " re f")
    (emit (rgb_cmd color) (emit "q" p))).
Definition strokeRect (x y w h width : num) (p : SimplePdf) : SimplePdf :=
  emit (num_str x ++ " " ++ num_str y ++ " " ++ num_str w ++ " " ++ num_str h ++ " re S")
    (emit (num_str width ++ " w") p).
Definition line (x1 y1 x2 y2 width : num) (p : SimplePdf) : SimplePdf :=
  emit (num_str x1 ++ " " ++ num_str y1 ++ " m " ++ num_str x2 ++ " " ++ num_str y2 ++ " l S")
    (emit (num_str width ++ " w") p).

Record TextOpts := {
  o_size : option num;
  o_bold : bool;
  o_color : option Rgb;
  o_maxWidth : option num;
  o_lineHeight : option num;
}.
Definition opt_size (o : TextOpts) : num := o_size o ?? num_of_Z 10.

Definition text (x y : num) (t : jstring) (o : TextOpts) (p : SimplePdf) : SimplePdf :=
  emit "ET" (emit ("(" ++ esc t ++ ") Tj") (emit ("1 0 0 1 " ++ num_str x ++ " " ++ num_str y ++ " Tm")
    (emit (rgb_cmd (o_color o ?? black))
      (emit ((if o_bold o then "/F2" else "/F1") ++ " " ++ num_str (opt_size o) ++ " Tf") (emit "BT" p))))).

Definition set_y (y : num) (p : SimplePdf) : SimplePdf :=
  {| p_streams := p_streams p; p_ops := p_ops p; p_y := y |}.

(** A line of text at the cursor, which then moves down by [lh]. *)
Definition put_line (x lh : num) (o : TextOpts) (t : jstring) (p : SimplePdf) : SimplePdf :=
  let p := ensure lh p in
  let p := text x (p_y p) t o p in
  set_y (nsub (p_y p) lh) p.

(** [Math.max(20, Math.floor(max / (size * 0.52)))] *)
Definition approx_chars (max size : num) : option Z :=
  let q := ndiv max (nmul size (num_of_decimal false 52 (-2))) in
  match q with
  | S754_infinity true => Some 20
  | _ => Z.max 20 <$> nfloor q
  end.

Definition textBlock (x : num) (t : jstring) (o : TextOpts) (p : SimplePdf) : SimplePdf :=
  let size := opt_size o in
  let lh := o_lineHeight o ?? nadd size (num_of_Z 4) in
  let max := o_maxWidth o ?? nsub page_w (nmul margin (num_of_Z 2)) in
  fold_left (λ p l, put_line x lh o l p) (wrapLines t (approx_chars max size)) p.

Definition gap (n : num) (p : SimplePdf) : SimplePdf := set_y (nsub (p_y p) n) p.

(** [Math.max(size + 8, 14)] *)
Definition line_height (size : num) : num :=
  let a := nadd size (num_of_Z 8) in
  if is_nan a then a else if nlt a (num_of_Z 14) then num_of_Z 14 else a.

Definition textLine (x : num) (t : jstring) (o : TextOpts) (p : SimplePdf) : SimplePdf :=
  put_line x (o_lineHeight o ?? line_height (opt_size o)) o t p.

Definition cursorY (p : SimplePdf) : num := p_y p.
Definition setY (y : num) (p : SimplePdf) : SimplePdf := set_y y p.

(** ** The file *)

Definition byteLength (s : jstring) : Z := Z.of_nat (length (utf8 s)).
Definition padStart10 (s : jstring) : jstring := zeros (10 - slen s) ++ s.

(** The content streams when the document is closed. *)
Definition all_streams (p : SimplePdf) : list jstring :=
  match p_ops p with [] => p_streams p | ops => p_streams p ++ [join nl ops] end.

(** [k 0 obj] *)
Definition obj_head (k : Z) : jstring := dec k ++ " 0 obj" ++ nl.

(** The page and content objects of the streams from page [i] on. *)
Fixpoint page_objects (fontRegularId i : Z) (streams : list jstring) : list jstring :=
  match streams with
  | [] => []
  | stream :: rest =>
      let pageId := 3 + i * 2 in
      let contentId := pageId + 1 in
      (obj_head pageId ++ "<< /Type /Page /Parent 2 0 R /MediaBox [0 0 595 842] " ++
        "/Contents " ++ dec contentId ++ " 0 R /Resources << /Font << /F1 " ++ dec fontRegularId ++
        " 0 R /F2 " ++ dec (fontRegularId + 1) ++ " 0 R >> >> >>" ++ nl ++ "endobj" ++ nl) ::
      (obj_head contentId ++ "<< /Length " ++ dec (byteLength stream) ++ " >>" ++ nl ++ "stream" ++ nl ++
        stream ++ nl ++ "endstream" ++ nl ++ "endobj" ++ nl) ::
      page_objects fontRegularId (i + 1) rest
  end.

Definition pdf_objects (p : SimplePdf) : list jstring :=
  let streams := all_streams p in
  let pageCount := Z.of_nat (length streams) in
  let kids := join " " (map (λ i, dec (3 + Z.of_nat i * 2) ++ " 0 R") (seq 0 (length streams))) in
  let fontRegularId := 3 + pageCount * 2 in
  [obj_head 1 ++ "<< /Type /Catalog /Pages 2 0 R >>" ++ nl ++ "endobj" ++ nl;
   obj_head 2 ++ "<< /Type /Pages /Kids [" ++ kids ++ "] /Count " ++ dec pageCount ++ " >>" ++ nl ++ "endobj" ++ nl] ++
  page_objects fontRegularId 0 streams ++
  [obj_head fontRegularId ++ "<< /Type /Font /Subtype /Type1 /BaseFont /Helvetica >>" ++ nl ++ "endobj" ++ nl;
   obj_head (fontRegularId + 1) ++ "<< /Type /Font /Subtype /Type1 /BaseFont /Helvetica-Bold >>" ++ nl ++ "endobj" ++ nl].

(** The loop that appends the objects and notes where each begins. *)
Fixpoint append_objects (pdf : jstring) (objects : list jstring) : jstring * list Z :=
  match objects with
  | [] => (pdf, [])
  | obj :: rest =>
      let r := append_objects (pdf ++ obj) rest in
      (r.1, byteLength pdf :: r.2)
  end.

Definition xref_line (offset : Z) : jstring := padStart10 (dec offset) ++ " 00000 n " ++ nl.

Definition build_text (p : SimplePdf) : jstring :=
  let objects := pdf_objects p in
  let '(pdf, offsets) := append_objects ("%PDF-1.4" ++ nl) objects in
  let xrefPos := byteLength pdf in
  let size := dec (Z.of_nat (length objects) + 1) in
  pdf ++ "xref" ++ nl ++ "0 " ++ size ++ nl ++ "0000000000 65535 f " ++ nl ++
  concat (map xref_line offsets) ++
  "trailer" ++ nl ++ "<< /Size " ++ size ++ " /Root 1 0 R >>" ++ nl ++ "startxref" ++ nl ++
  dec xrefPos ++ nl ++ "%%EOF" ++ nl.
Definition build (p : SimplePdf) : list Z := utf8 (build_text p).

(** ** Text wrapping *)

Definition is_word (w : jstring) : Prop := w ≠ [] ∧ no_space w.

Lemma words_from_app cur w s :
  no_space w → words_from cur (w ++ s) = words_from (rev w ++ cur) s.
Proof.
  revert cur. induction w as [|c w IH]; intros cur Hw; [done|].
  cbn [app words_from rev]. rewrite (Hw c) by (by left).
  rewrite IH by (intros d Hd; apply Hw; by right). by rewrite <- app_assoc.
Qed.
Lemma words_from_word w s : is_word w → words_from [] (w ++ " " ++ s) = w :: words_from [] s.
Proof.
  intros [Hne Hw]. rewrite words_from_app, app_nil_r by done. cbn [app words_from].
  change (is_space 32) with true. cbv iota.
  destruct (rev w) as [|c t] eqn:E; [by apply (f_equal (@rev Z)) in E; rewrite rev_involutive in E|].
  by rewrite <- E, rev_involutive.
Qed.
Lemma words_of_word w : is_word w → words_from [] w = [w].
Proof.
  intros [Hne Hw]. rewrite <- (app_nil_r w), words_from_app, !app_nil_r by done. cbn [words_from].
  destruct (rev w) as [|c t] eqn:E; [by apply (f_equal (@rev Z)) in E; rewrite rev_involutive in E|].
  by rewrite <- E, rev_involutive.
Qed.
Lemma words_of_join ws : Forall is_word ws → split_words (join " " ws) = ws.
Proof.
  unfold split_words. induction 1 as [|w ws Hw Hws IH]; [done|]. destruct ws as [|v ws].
  - by apply words_of_word.
  - change (join " " (w :: v :: ws)) with (w ++ " " ++ join " " (v :: ws)).
    by rewrite words_from_word, IH.
Qed.
Lemma words_from_ok cur s : no_space cur → Forall is_word (words_from cur s).
Proof.
  assert (Hrev : ∀ t, t ≠ [] → no_space t → is_word (rev t)).
  { intros t Hne Ht. split; [intros E; apply Hne; by rewrite <- (rev_involutive t), E|].
    intros c Hc. apply Ht. rewrite list_elem_of_In in *. by apply in_rev. }
  assert (Hnil : no_space []) by (by intros c ?%elem_of_nil).
  revert cur. induction s as [|c s IH]; intros cur Hc; cbn [words_from].
  - destruct cur; [constructor|]. constructor; [by apply Hrev|constructor].
  - destruct (is_space c) eqn:E.
    + destruct cur; [by apply IH|]. constructor; [by apply Hrev|by apply IH].
    + apply IH. intros d [->|Hd]%elem_of_cons; [done|]. by apply Hc.
Qed.

Lemma join_snoc ws w : ws ≠ [] → join " " (ws ++ [w]) = join " " ws ++ " " ++ w.
Proof.
  induction ws as [|v ws IH]; intros Hne; [done|]. destruct ws as [|u ws]; [done|].
  change ((v :: u :: ws) ++ [w]) with (v :: (u :: ws) ++ [w]).
  change (join " " (v :: (u :: ws) ++ [w])) with (v ++ " " ++ join " " ((u :: ws) ++ [w])).
  rewrite IH by done. change (join " " (v :: u :: ws)) with (v ++ " " ++ join " " (u :: ws)).
  by rewrite <- !app_assoc.
Qed.
Lemma join_nonempty ws : Forall is_word ws → nonempty (join " " ws) = negb (bool_decide (ws = [])).
Proof.
  intros H. destruct H as [|w ws Hw Hws]; [done|]. rewrite bool_decide_eq_false_2 by done. cbn [negb].
  destruct Hw as [Hne _]. destruct w as [|c w]; [done|]. by destruct ws.
Qed.

(** The lines hold the words in order, and each fits or is a single word. *)
Lemma wrap_from_spec m ws words :
  Forall is_word ws → Forall is_word words →
  (slen (join " " ws) ≤ Z.max 0 m ∨ ∃ w, ws = [w]) →
  flat_map split_words (wrap_from (Some m) (join " " ws) words) = ws ++ words ∧
  ∀ l, l ∈ wrap_from (Some m) (join " " ws) words → slen l ≤ Z.max 0 m ∨ l ∈ ws ++ words.
Proof.
  revert ws. induction words as [|w words IH]; intros ws Hws Hwords Hfit; cbn [wrap_from].
  - rewrite join_nonempty by done. case_bool_decide as E; cbn [negb].
    + subst ws. split; [done|]. by intros l ?%elem_of_nil.
    + cbn [flat_map]. rewrite words_of_join, !app_nil_r by done. split; [done|].
      intros l ->%list_elem_of_singleton. destruct Hfit as [?|[w ->]]; [by left|right; by left].
  - apply Forall_cons_1 in Hwords as [Hw Hwords]. rewrite join_nonempty by done.
    case_bool_decide as E; cbn [negb].
    + subst ws. rewrite andb_false_r. destruct (IH [w]) as [H1 H2]; [by constructor|done|eauto|].
      split; [exact H1|]. intros l Hl. by apply H2.
    + rewrite andb_true_r. rewrite <- join_snoc by done. cbn [exceeds].
      destruct (m <? slen (join " " (ws ++ [w]))) eqn:Ex; bprop.
      * destruct (IH [w]) as [H1 H2]; [by constructor|done|eauto|]. cbn [join] in H1, H2.
        cbn [flat_map]. rewrite words_of_join, H1 by done. split; [done|].
        intros l [->|Hl]%elem_of_cons.
        -- destruct Hfit as [?|[v ->]]; [by left|right; by left].
        -- destruct (H2 l Hl) as [?|Hin]; [by left|right]. apply elem_of_app. by right.
      * destruct (IH (ws ++ [w])) as [H1 H2]; [by apply Forall_app; auto|done|left; lia|].
        rewrite <- !app_assoc in *. cbn [app] in *. split; [exact H1|]. intros l Hl. destruct (H2 l Hl); auto.
Qed.

(** Wrapping loses and reorders no word: the words of the wrapped lines, read
    line by line, are the words of the text, and every line fits the width or is
    a single word that does not. *)
Theorem wrap_lines_words text m :
  let lines := wrapLines text (Some m) in
  flat_map split_words lines = split_words text ∧
  ∀ l, l ∈ lines → slen l ≤ Z.max 0 m ∨ l ∈ split_words text.
Proof.
  assert (Hw : Forall is_word (split_words text)) by (apply words_from_ok; by intros c ?%elem_of_nil).
  destruct (wrap_from_spec m [] (split_words text)) as [H1 H2]; [constructor|done|left; cbn; unfold slen; simpl; lia|].
  cbn [join app] in H1, H2. unfold wrapLines. cbv zeta. destruct (wrap_from (Some m) [] _) as [|l ls] eqn:E.
  - split; [exact H1|]. intros l ->%list_elem_of_singleton. left. unfold slen. simpl. lia.
  - split; [exact H1|exact H2].
Qed.

(** ** String literals *)

(** What [esc] does to one unit. *)
Definition esc_unit (c : Z) : jstring :=
  let d := translit c in
  if (d =? 92) || (d =? 40) || (d =? 41) then [92; d] else [latin_only d].
Lemma esc_units t : esc t = flat_map esc_unit t.
Proof.
  unfold esc. induction t as [|c t IH]; [done|]. cbn [flat_map map].
  change (replace_unit 92 [92; 92] (translit c :: map translit t))
    with ((if translit c =? 92 then [92; 92] else [translit c]) ++ replace_unit 92 [92; 92] (map translit t)).
  unfold replace_unit at 1 2. rewrite !flat_map_app, map_app. fold (replace_unit 40 [92; 40]).
  fold (replace_unit 41 [92; 41]). unfold replace_unit in IH |- *. rewrite IH. f_equal.
  unfold esc_unit. cbv zeta.
  destruct (translit c =? 92) eqn:E1; bprop; [by rewrite E1|].
  destruct (translit c =? 40) eqn:E2; bprop; [rewrite E2; reflexivity|].
  cbn [flat_map app orb]. replace (translit c =? 40) with false by (symmetry; apply Z.eqb_neq; done).
  cbn [flat_map app]. destruct (translit c =? 41) eqn:E3; bprop; [rewrite E3; reflexivity|]. done.
Qed.

(** A reader of PDF string literals, from after the opening parenthesis; a
    parenthesis that is not escaped ends (or would nest in) the literal. *)
Fixpoint pdf_string (s : jstring) : option (jstring * jstring) :=
  match s with
  | [] => None
  | c :: s' =>
      if c =? 41 then Some ([], s')
      else if c =? 40 then None
      else if c =? 92 then
        match s' with
        | d :: s'' => match pdf_string s'' with Some (r, t) => Some (d :: r, t) | None => None end
        | [] => None
        end
      else match pdf_string s' with Some (r, t) => Some (c :: r, t) | None => None end
  end.

(** No text can break out of its string literal: reading [(esc t)] as a PDF
    string gives the transliterated text and stops at the closing parenthesis
    that the writer put there, whatever the text contains. *)
Theorem pdf_literal_closed t rest :
  pdf_string (esc t ++ ")" ++ rest) = Some (map (λ c, latin_only (translit c)) t, rest).
Proof.
  rewrite esc_units. induction t as [|c t IH]; [done|]. cbn [flat_map map].
  rewrite <- app_assoc. unfold esc_unit at 1. cbv zeta.
  destruct (_ || _ || _) eqn:E.
  - assert (Hd : latin_only (translit c) = translit c).
    { unfold latin_only. destruct (translit c <=? 255) eqn:El; [done|]. bprop.
      apply orb_true_iff in E as [[E|E]%orb_true_iff|E]; bprop; lia. }
    cbn [app pdf_string]. change (92 =? 41) with false. change (92 =? 40) with false. change (92 =? 92) with true.
    cbv iota. cbn [app] in IH. rewrite IH. by rewrite Hd.
  - apply orb_false_iff in E as [E E3]. apply orb_false_iff in E as [E1 E2]. bprop.
    assert (Hl : latin_only (translit c) ≠ 41 ∧ latin_only (translit c) ≠ 40 ∧ latin_only (translit c) ≠ 92)
      by (unfold latin_only; split_if; bprop; lia).
    destruct Hl as (L1 & L2 & L3). apply Z.eqb_neq in L1, L2, L3.
    cbn [app pdf_string]. rewrite L1, L2, L3. cbn [app] in IH. by rewrite IH.
Qed.

(** ** The cross-reference table *)

(** Documents as the methods make them; texts are sequences of code units. *)
Inductive drawn : SimplePdf → Prop :=
  | drawn_new : drawn pdf_new
  | drawn_fillRect x y w h c p : drawn p → drawn (fillRect x y w h c p)
  | drawn_strokeRect x y w h wd p : drawn p → drawn (strokeRect x y w h wd p)
  | drawn_line x1 y1 x2 y2 wd p : drawn p → drawn (line x1 y1 x2 y2 wd p)
  | drawn_text x y t o p : drawn p → Forall (Z.le 0) t → drawn (text x y t o p)
  | drawn_textBlock x t o p : drawn p → Forall (Z.le 0) t → drawn (textBlock x t o p)
  | drawn_textLine x t o p : drawn p → Forall (Z.le 0) t → drawn (textLine x t o p)
  | drawn_gap n p : drawn p → drawn (gap n p)
  | drawn_setY y p : drawn p → drawn (setY y p)
  | drawn_ensure m p : drawn p → drawn (ensure m p).

(** All text of a document is in the first 2048 code points. *)
Definition narrow_doc (p : SimplePdf) : Prop := Forall narrow (p_streams p) ∧ Forall narrow (p_ops p).

Lemma narrow_printable s : printable s → narrow s.
Proof. intros H c Hc%H. lia. Qed.
Lemma narrow_lit s : forallb (λ c, (0 <=? c) && (c <? 2048)) s = true → narrow s.
Proof. intros H c Hc. rewrite forallb_forall in H. apply list_elem_of_In, H in Hc. bprop. lia. Qed.
Lemma narrow_nil : narrow [].
Proof. by intros c ?%elem_of_nil. Qed.
Lemma narrow_app_2 a b : narrow a → narrow b → narrow (a ++ b).
Proof. intros. by apply narrow_app. Qed.
Lemma narrow_num x : narrow (num_str x).
Proof. apply narrow_printable, printable_num. Qed.
Lemma narrow_dec n : narrow (dec n).
Proof. apply narrow_printable, printable_dec. Qed.
Lemma narrow_join sep l : narrow sep → Forall narrow l → narrow (join sep l).
Proof.
  intros Hs. induction 1 as [|x l Hx Hl IH]; [apply narrow_nil|]. destruct l as [|y l]; [done|].
  change (join sep (x :: y :: l)) with (x ++ sep ++ join sep (y :: l)). auto using narrow_app_2.
Qed.
Lemma narrow_esc t : Forall (Z.le 0) t → narrow (esc t).
Proof.
  intros Ht. rewrite esc_units. intros c Hc. apply list_elem_of_In, in_flat_map in Hc as (u & Hu & Hc).
  apply list_elem_of_In in Hu, Hc. rewrite Forall_forall in Ht. specialize (Ht u Hu).
  assert (Hd : 0 ≤ translit u).
  { unfold translit. destruct (jfind _ tr) as [kv|] eqn:E; [|done]. apply jfind_Some in E as [Hin _].
    unfold tr in Hin. repeat (apply elem_of_cons in Hin as [->|Hin]; [by cbn|]). by apply elem_of_nil in Hin. }
  unfold esc_unit, latin_only in Hc. cbv zeta in Hc. revert Hc.
  destruct (_ || _ || _) eqn:E; rewrite ?elem_of_cons, ?elem_of_nil.
  - apply orb_true_iff in E as [[E|E]%orb_true_iff|E]; bprop; lia.
  - split_if; bprop; lia.
Qed.
#[export] Hint Resolve narrow_nil narrow_app_2 narrow_num narrow_dec narrow_esc narrow_join : lg.
#[export] Hint Extern 2 (narrow _) => (apply narrow_lit; reflexivity) : lg.
Ltac narrow_pieces := repeat apply narrow_app_2; auto with lg.

Lemma emit_narrow cmd p : narrow cmd → narrow_doc p → narrow_doc (emit cmd p).
Proof. intros Hc [Hs Ho]. split; [done|]. apply Forall_app. split; [done|by constructor]. Qed.
Lemma newPage_narrow p : narrow_doc p → narrow_doc (newPage p).
Proof.
  intros [Hs Ho]. split; [|constructor]. unfold newPage. cbn [p_streams]. destruct (p_ops p) as [|o ops]; [done|].
  apply Forall_app. split; [done|]. constructor; [|constructor]. apply narrow_join; [auto with lg|done].
Qed.
Lemma ensure_narrow m p : narrow_doc p → narrow_doc (ensure m p).
Proof. intros H. unfold ensure. split_if; [by apply newPage_narrow|done]. Qed.
Lemma rgb_narrow c : narrow (rgb_cmd c).
Proof. unfold rgb_cmd. narrow_pieces. Qed.
#[export] Hint Resolve emit_narrow ensure_narrow rgb_narrow : lg.

Lemma text_narrow x y t o p : Forall (Z.le 0) t → narrow_doc p → narrow_doc (text x y t o p).
Proof.
  intros Ht Hp. unfold text. repeat apply emit_narrow; auto with lg; narrow_pieces.
  destruct (o_bold o); auto with lg.
Qed.
Lemma put_line_narrow x lh o t p : Forall (Z.le 0) t → narrow_doc p → narrow_doc (put_line x lh o t p).
Proof.
  intros Ht Hp. unfold put_line. cbv zeta.
  destruct (text_narrow x (p_y (ensure lh p)) t o (ensure lh p) Ht) as [H1 H2]; [auto with lg|]. by split.
Qed.

(** Wrapped lines are made of the units of the text and blanks. *)
Lemma words_from_units cur s w c : w ∈ words_from cur s → c ∈ w → c ∈ cur ∨ c ∈ s.
Proof.
  assert (Hr : ∀ t : jstring, c ∈ rev t → c ∈ t) by (intros t; rewrite !list_elem_of_In; apply in_rev).
  revert cur. induction s as [|d s IH]; intros cur; cbn [words_from].
  - destruct cur; [by intros ?%elem_of_nil|]. intros ->%list_elem_of_singleton Hc. left. by apply Hr.
  - destruct (is_space d).
    + destruct cur as [|d' cur].
      * intros Hw Hc. destruct (IH [] Hw Hc) as [?%elem_of_nil|?]; [done|right; by right].
      * intros [->|Hw]%elem_of_cons Hc; [left; by apply Hr|].
        destruct (IH [] Hw Hc) as [?%elem_of_nil|?]; [done|right; by right].
    + intros Hw Hc. destruct (IH (d :: cur) Hw Hc) as [[->|?]%elem_of_cons|?]; [right; by left|by left|right; by right].
Qed.
Lemma wrap_from_units m line words l c :
  l ∈ wrap_from m line words → c ∈ l → c = 32 ∨ c ∈ line ∨ ∃ w, w ∈ words ∧ c ∈ w.
Proof.
  revert line. induction words as [|w words IH]; intros line; cbn [wrap_from].
  - destruct (nonempty line); [|by intros ?%elem_of_nil]. intros ->%list_elem_of_singleton. auto.
  - cbv zeta. destruct (_ && _).
    + intros [->|Hl]%elem_of_cons Hc; [auto|].
      destruct (IH w Hl Hc) as [?|[?|(w' & ? & ?)]]; [auto| |]; right; right; eexists; (split; [|done]);
        [by left|by right].
    + intros Hl Hc. destruct (IH _ Hl Hc) as [?|[Hn|(w' & ? & ?)]]; [auto| |].
      * destruct (nonempty line).
        -- apply elem_of_app in Hn as [?|[->|?]%elem_of_cons]; [auto..|]. right; right. exists w. split; [by left|done].
        -- right; right. exists w. split; [by left|done].
      * right; right. exists w'. split; [by right|done].
Qed.
Lemma wrapLines_units text m l : Forall (Z.le 0) text → l ∈ wrapLines text m → Forall (Z.le 0) l.
Proof.
  intros Ht Hl. rewrite Forall_forall in Ht |- *. intros c Hc. unfold wrapLines in Hl.
  destruct (wrap_from m [] _) as [|l0 ls] eqn:E.
  - apply list_elem_of_singleton in Hl as ->. by apply elem_of_nil in Hc.
  - rewrite <- E in Hl. destruct (wrap_from_units _ _ _ _ _ Hl Hc) as [->|[?%elem_of_nil|(w & Hw & Hcw)]]; [lia|done|].
    destruct (words_from_units _ _ _ _ Hw Hcw) as [?%elem_of_nil|?]; [done|auto].
Qed.

Lemma put_lines_narrow x lh o ls p :
  (∀ l, l ∈ ls → Forall (Z.le 0) l) → narrow_doc p →
  narrow_doc (fold_left (λ p l, put_line x lh o l p) ls p).
Proof.
  revert p. induction ls as [|l ls IH]; intros p Hl Hp; [done|]. cbn [fold_left].
  apply IH; [intros; apply Hl; by right|]. apply put_line_narrow; [apply Hl; by left|done].
Qed.

Lemma drawn_narrow p : drawn p → narrow_doc p.
Proof.
  induction 1; auto with lg.
  - split; constructor.
  - unfold fillRect. repeat apply emit_narrow; auto with lg; narrow_pieces.
  - unfold strokeRect. repeat apply emit_narrow; auto with lg; narrow_pieces.
  - unfold line. repeat apply emit_narrow; auto with lg; narrow_pieces.
  - by apply text_narrow.
  - apply put_lines_narrow; [|done]. intros l. by apply wrapLines_units.
  - by apply put_line_narrow.
Qed.

Lemma all_streams_narrow p : narrow_doc p → Forall narrow (all_streams p).
Proof.
  intros [Hs Ho]. unfold all_streams. destruct (p_ops p) as [|o ops]; [done|].
  apply Forall_app. split; [done|]. constructor; [|constructor]. apply narrow_join; [auto with lg|done].
Qed.
Lemma obj_head_narrow k : narrow (obj_head k).
Proof. unfold obj_head. narrow_pieces. Qed.
#[export] Hint Resolve obj_head_narrow : lg.

Lemma page_objects_narrow f i streams : Forall narrow streams → Forall narrow (page_objects f i streams).
Proof.
  intros H. revert i. induction H as [|s l Hs Hl IH]; intros i; cbn [page_objects]; [constructor|].
  constructor; [narrow_pieces|]. constructor; [narrow_pieces|]. apply IH.
Qed.
Lemma pdf_objects_narrow p : narrow_doc p → Forall narrow (pdf_objects p).
Proof.
  intros H%all_streams_narrow. unfold pdf_objects. cbv zeta.
  apply Forall_app. split; [|apply Forall_app; split; [by apply page_objects_narrow|]].
  - constructor; [narrow_pieces|]. constructor; [|constructor]. narrow_pieces.
    apply narrow_join; [auto with lg|]. apply Forall_forall. intros x (i & -> & _)%list_elem_of_fmap. narrow_pieces.
  - constructor; [narrow_pieces|]. constructor; [narrow_pieces|constructor].
Qed.

(** The objects are numbered from 1 in the order they are written. *)
Lemma page_objects_ids f i streams k o :
  page_objects f i streams !! k = Some o → ∃ t, o = obj_head (3 + i * 2 + Z.of_nat k) ++ t.
Proof.
  revert i k. induction streams as [|s l IH]; intros i k; cbn [page_objects]; [done|].
  destruct k as [|[|k]]; cbn [lookup list_lookup].
  - intros [= <-]. replace (3 + i * 2 + Z.of_nat 0) with (3 + i * 2) by lia. eauto.
  - intros [= <-]. replace (3 + i * 2 + Z.of_nat 1) with (3 + i * 2 + 1) by lia. eauto.
  - intros (t & ->)%IH. exists t. do 2 f_equal. lia.
Qed.
Lemma page_objects_length f i streams : length (page_objects f i streams) = (2 * length streams)%nat.
Proof. revert i. induction streams as [|s l IH]; intros i; simpl; [done|]. rewrite IH. lia. Qed.

Lemma pdf_objects_ids p k o :
  pdf_objects p !! k = Some o → ∃ t, o = obj_head (Z.of_nat k + 1) ++ t.
Proof.
  unfold pdf_objects. cbv zeta. set (streams := all_streams p).
  destruct k as [|[|k]]; [intros [= <-]; eauto..|]. cbn [app lookup list_lookup].
  intros Hk. apply lookup_app_Some in Hk as [Hk|[Hge Hk]].
  - apply page_objects_ids in Hk as (t & ->). exists t. do 2 f_equal. lia.
  - rewrite page_objects_length in *. remember (k - 2 * length streams)%nat as j eqn:Ej.
    destruct j as [|[|j]]; cbn -[obj_head] in Hk; simplify_eq;
      (eexists; apply (f_equal2 app); [apply f_equal; lia|reflexivity]).
Qed.

(** Appending the objects gives their concatenation and the byte length before each. *)
Lemma append_objects_spec pdf objects :
  append_objects pdf objects =
  (pdf ++ concat objects, map (λ k, byteLength (pdf ++ concat (take k objects))) (seq 0 (length objects))).
Proof.
  revert pdf. induction objects as [|o l IH]; intros pdf; cbn [append_objects concat].
  - by rewrite app_nil_r.
  - rewrite IH. cbn [fst snd length seq map take concat]. rewrite <- seq_shift, map_map, app_nil_r. f_equal.
    + by rewrite <- app_assoc.
    + f_equal. apply map_ext. intros k. cbn [take concat]. by rewrite <- app_assoc.
Qed.

Lemma drop_utf8 a b : narrow a → drop (Z.to_nat (byteLength a)) (utf8 (a ++ b)) = utf8 b.
Proof.
  intros Ha. unfold byteLength. rewrite Nat2Z.id, utf8_narrow_app by done. by rewrite drop_app_length.
Qed.

(** An entry of the table as the format prescribes it: ten digits that spell the
    offset, a generation, the mark of an object in use, and twenty bytes in all. *)
Definition entry_for (off : Z) (line : jstring) : Prop :=
  ∃ digits, line = digits ++ " 00000 n " ++ nl ∧ length digits = 10%nat ∧ length line = 20%nat ∧
    Forall (λ c, is_digit c = true) digits ∧ digits_val 0 digits = off.

Lemma dec_digits_short fuel n k acc : 0 ≤ n → (0 < k)%nat → n < 10 ^ Z.of_nat k →
  (length (dec_digits fuel n acc) <= k + length acc)%nat.
Proof.
  revert n k acc. induction fuel as [|fuel IH]; intros n k acc Hn Hk Hlt; cbn [dec_digits]; [lia|].
  split_if; bprop; cbn [length]; [lia|]. destruct k as [|[|k]]; [lia|change (10 ^ Z.of_nat 1) with 10 in Hlt; lia|].
  etrans; [apply (IH (n / 10) (S k)); [apply Z.div_pos; lia|lia|]|cbn [length]; lia].
  apply Z.div_lt_upper_bound; [lia|]. rewrite <- Z.pow_succ_r by lia. by rewrite <- Nat2Z.inj_succ.
Qed.
Lemma dec_short n k : 0 ≤ n → (0 < k)%nat → n < 10 ^ Z.of_nat k → (length (dec n) <= k)%nat.
Proof.
  intros Hn Hk Hlt. unfold dec. split_if; bprop; [lia|]. unfold dec_pos.
  pose proof (dec_digits_short (S (Z.to_nat (Z.log2 n))) n k [] Hn Hk Hlt). cbn [length] in *. lia.
Qed.

Lemma xref_line_entry off : 0 ≤ off < 10 ^ 10 → entry_for off (xref_line off).
Proof.
  intros [H0 H1]. pose proof (dec_short off 10 H0 ltac:(lia) H1) as Hl.
  exists (padStart10 (dec off)). unfold padStart10, zeros.
  assert (Hlen : length (replicate (Z.to_nat (10 - slen (dec off))) 48 ++ dec off) = 10%nat).
  { rewrite length_app, length_replicate. unfold slen. lia. }
  splits; [done|done| | |].
  - unfold xref_line, padStart10, zeros. rewrite length_app, Hlen. reflexivity.
  - apply Forall_app. split; [by apply Forall_replicate|by apply dec_digit_only].
  - unfold digits_val. rewrite fold_left_app.
    assert (Hz : ∀ n, fold_left (λ a c : Z, a * 10 + (c - 48)) (replicate n 48) 0 = 0) by (induction n; cbn; auto).
    rewrite Hz. pose proof (parseInt_dec off H0) as Hp. rewrite parseInt_digits in Hp.
    + injection Hp as Hp. exact Hp.
    + intros E. by rewrite E in Hp.
    + by apply dec_digit_only.
Qed.

Lemma narrow_concat l : Forall narrow l → narrow (concat l).
Proof. induction 1; cbn [concat]; [apply narrow_nil|by apply narrow_app_2]. Qed.

Lemma head_narrow l : Forall narrow l → narrow ("%PDF-1.4" ++ nl ++ concat l).
Proof. intros H. apply narrow_app_2; [auto with lg|]. apply narrow_app_2; [auto with lg|by apply narrow_concat]. Qed.

(** What is written before the table, and the bytes before object [k]. *)
Definition pdf_body (p : SimplePdf) : jstring := "%PDF-1.4" ++ nl ++ concat (pdf_objects p).
Definition before_object (p : SimplePdf) (k : nat) : jstring := "%PDF-1.4" ++ nl ++ concat (take k (pdf_objects p)).

Lemma build_text_spec p :
  build_text p =
  pdf_body p ++ "xref" ++ nl ++ "0 " ++ dec (Z.of_nat (length (pdf_objects p)) + 1) ++ nl ++ "0000000000 65535 f " ++ nl ++
  concat (map (λ k, xref_line (byteLength (before_object p k))) (seq 0 (length (pdf_objects p)))) ++
  "trailer" ++ nl ++ "<< /Size " ++ dec (Z.of_nat (length (pdf_objects p)) + 1) ++ " /Root 1 0 R >>" ++ nl ++ "startxref" ++ nl ++
  dec (byteLength (pdf_body p)) ++ nl ++ "%%EOF" ++ nl.
Proof.
  unfold build_text. rewrite append_objects_spec. cbv beta iota zeta. rewrite map_map.
  done.
Qed.

Lemma object_split p k o : pdf_objects p !! k = Some o →
  pdf_body p = before_object p k ++ o ++ concat (drop (S k) (pdf_objects p)).
Proof.
  intros Ho. unfold pdf_body, before_object. rewrite <- (take_drop_middle _ k o Ho) at 1.
  rewrite concat_app. cbn [concat]. by rewrite <- !app_assoc.
Qed.

(** C40. The cross-reference table printed in the file is right: the file of any
    document made with the methods ends with the table, the trailer and the position
    of the table, which is the number of bytes before it; the table says how many
    entries follow, has one entry of twenty bytes per object after the fixed first one,
    and the ten digits of entry k spell the byte position in the file at which object k
    begins.  The file has to be smaller than ten thousand million bytes, more than ten
    digits can say. *)
Theorem pdf_xref_correct p :
  drawn p → Z.of_nat (length (build p)) < 10 ^ 10 →
  ∃ body entries,
    build p = body ++ utf8 ("xref" ++ nl ++ "0 " ++ dec (Z.of_nat (length entries) + 1) ++ nl ++
                            "0000000000 65535 f " ++ nl ++ concat entries ++
                            "trailer" ++ nl ++ "<< /Size " ++ dec (Z.of_nat (length entries) + 1) ++ " /Root 1 0 R >>" ++ nl ++
                            "startxref" ++ nl ++ dec (Z.of_nat (length body)) ++ nl ++ "%%EOF" ++ nl) ∧
    length entries = length (pdf_objects p) ∧
    ∀ k line, entries !! k = Some line →
      ∃ off o text rest, entry_for off line ∧ pdf_objects p !! k = Some o ∧ o = obj_head (Z.of_nat k + 1) ++ text ∧
        drop (Z.to_nat off) (build p) = utf8 o ++ rest.
Proof.
  intros Hd Hsize. pose proof (pdf_objects_narrow p (drawn_narrow p Hd)) as Hn.
  assert (Hb : ∀ k, narrow (before_object p k))
    by (intros k; by apply head_narrow, Forall_take).
  assert (Hbody : narrow (pdf_body p)) by (by apply head_narrow).
  exists (utf8 (pdf_body p)), (map (λ k, xref_line (byteLength (before_object p k))) (seq 0 (length (pdf_objects p)))).
  rewrite length_map, length_seq. splits; [|done|].
  - unfold build. rewrite build_text_spec, utf8_narrow_app by done. done.
  - intros k line Hk. change (map ?f ?l) with (f <$> l) in Hk. rewrite list_lookup_fmap in Hk.
    destruct (seq 0 (length (pdf_objects p)) !! k) as [j|] eqn:Ej; [|done]. apply lookup_seq in Ej as [-> Hlt].
    cbn [fmap option_fmap option_map Nat.add] in Hk. injection Hk as <-. destruct (lookup_lt_is_Some_2 _ _ Hlt) as [o Ho].
    pose proof (pdf_objects_ids p k o Ho) as [text Et].
    assert (Ho' : narrow o) by (eapply Forall_lookup_1; eauto).
    assert (Hfile : build p = utf8 (before_object p k) ++ utf8 o ++
              utf8 (concat (drop (S k) (pdf_objects p)) ++ drop (length (pdf_body p)) (build_text p))).
    { rewrite <- utf8_narrow_app by done. rewrite <- utf8_narrow_app by done. unfold build. f_equal.
      rewrite !app_assoc, <- (app_assoc (before_object p k)), <- object_split by done.
      rewrite build_text_spec. by rewrite drop_app_length. }
    eexists _, o, text, _. splits; [|done|done|].
    + apply xref_line_entry. unfold byteLength. split; [lia|]. eapply Z.le_lt_trans; [|exact Hsize].
      rewrite Hfile, length_app. lia.
    + rewrite Hfile. unfold byteLength. rewrite Nat2Z.id. by rewrite drop_app_length.
Qed.

Definition plain : TextOpts :=
  {| o_size := None; o_bold := false; o_color := None; o_maxWidth := None; o_lineHeight := None |}.
Lemma pdf_xref_correct_witness :
  let p := textLine (num_of_Z 44) "Uyum raporu (şifreli)" plain pdf_new in
  ∃ body entries line off, length entries = 6%nat ∧ entries !! 1%nat = Some line ∧ entry_for off line ∧
    ∃ rest rest', build p = body ++ utf8 "xref" ++ rest ∧ drop (Z.to_nat off) (build p) = utf8 "2 0 obj" ++ rest'.
Proof.
  intros p. destruct (pdf_xref_correct p) as (body & entries & H1 & H2 & H3).
  - apply drawn_textLine; [apply drawn_new|]. repeat constructor; discriminate.
  - vm_compute. reflexivity.
  - assert (Hlen : length entries = 6%nat) by (rewrite H2; vm_compute; reflexivity).
    destruct entries as [|l0 [|l1 entries]]; try discriminate Hlen.
    destruct (H3 1%nat l1 eq_refl) as (off & o & text & rest & H4 & H5 & -> & H6).
    exists body, (l0 :: l1 :: entries), l1, off. split; [exact Hlen|]. split; [reflexivity|]. split; [exact H4|].
    eexists _, _. split.
    + rewrite H1. rewrite utf8_narrow_app by (apply narrow_lit; reflexivity). reflexivity.
    + rewrite H6. change (obj_head (Z.of_nat 1 + 1)) with ("2 0 obj" ++ nl).
      rewrite <- app_assoc, (utf8_narrow_app "2 0 obj") by (apply narrow_lit; reflexivity). rewrite <- app_assoc. reflexivity.
Defined.
