(* ===== verification/Registry.v ===== *)
(** The OpenAPI schema registry (dashboard/src/app/api/schema/route.ts), its handlers
    as a whole and piece by piece; and the file writes the plugin registry shares. *)

From S2P Require Import Prelude JsString JsNum Json Http JsDate Store FleetCommand Interleave Fleet FleetProps.

(** Files the handlers write: directory, name and content. *)
Record file_write := { fw_dir : jstring; fw_name : jstring; fw_content : jstring }.

(** ** Schema registry *)

Record SchemaRow := {
  s_id : jstring;
  s_tenantId : jstring;
  s_name : jstring;
  s_version : jstring;
  s_jsonContent : jstring;
  s_active : bool;
  s_uploadedAt : Z;
}.
Definition deactivate (r : SchemaRow) : SchemaRow :=
  {| s_id := s_id r; s_tenantId := s_tenantId r; s_name := s_name r; s_version := s_version r;
     s_jsonContent := s_jsonContent r; s_active := false; s_uploadedAt := s_uploadedAt r |}.
Definition active_of (tenantId : jstring) (r : SchemaRow) : bool := (s_tenantId r =s tenantId) && s_active r.

(** [Object.keys(v || {}).length] *)
Definition key_count (v : option json) : Z :=
  match v with
  | Some (JObj fs) => Z.of_nat (length fs)
  | Some (JArr l) => Z.of_nat (length l)
  | Some (JStr s) => slen s
  | _ => 0
  end.

Section registry.
Context (hmac_hex : jstring → jstring → jstring) (e : env).
(** [path.join(dir, name)] and whether [mkdir] and [writeFile] succeed. *)
Context (joinPath : jstring → jstring → jstring) (canWrite : jstring → bool).
Context {Ts Tc : Type} `{!Table Ts SchemaRow s_id, !Table Tc AgentCommand c_id}.

Record reg_state := { rg_schemas : Ts; rg_cmds : Tc; rg_files : list file_write }.
Definition on_schemas (f : Ts → option Ts) : M reg_state unit := λ s,
  match f (rg_schemas s) with
  | Some t => (Ok tt, {| rg_schemas := t; rg_cmds := rg_cmds s; rg_files := rg_files s |})
  | None => (Throw "database", s)
  end.
Definition on_reg_cmds {A} (m : M Tc A) : M reg_state A := λ s,
  let '(r, t) := m (rg_cmds s) in
  (r, {| rg_schemas := rg_schemas s; rg_cmds := t; rg_files := rg_files s |}).
Definition write_file (dir name content : jstring) : M reg_state unit := λ s,
  if canWrite dir then
    (Ok tt, {| rg_schemas := rg_schemas s; rg_cmds := rg_cmds s;
               rg_files := rg_files s ++ [{| fw_dir := dir; fw_name := name; fw_content := content |}] |})
  else (Throw "EACCES", s).

Definition user_tenant (r : request) : jstring := oor (header "x-user-tenant" r) [].
Definition is_admin (r : request) : bool := oor (header "x-user-role" r) [] =s "admin".

Definition schema_GET (r : request) (t : Ts) : response :=
  match find_sorted (λ x, - s_uploadedAt x) (active_of (user_tenant r)) t with
  | None => ise
  | Some [] => respond 200 (JObj [("loaded", JBool false); ("message", JStr "No active schema")])
  | Some (schema :: _) =>
      respond 200 (JObj
        [("loaded", JBool true); ("id", JStr (s_id schema)); ("name", JStr (s_name schema));
         ("version", JStr (s_version schema)); ("uploadedAt", date_json (s_uploadedAt schema));
         ("endpointCount", jint (match JSON_parse (s_jsonContent schema) with
                                 | Some parsed => key_count (jopt "paths" (Some parsed))
                                 | None => 0
                                 end))])
  end.

(** A string column of a row to be created. *)
Definition str_col (v : option json) : M reg_state jstring := ofo "Invalid value provided" (as_str v).

Definition deactivate_all (tenantId : jstring) : M reg_state unit :=
  on_schemas (update_many (active_of tenantId) deactivate).

(** [id1], [id2] and [now] are generated columns of the new rows. *)
Definition schema_POST (id1 id2 : jstring) (now : Z) (r : request) : M reg_state response :=
  catch
    (let tenantId := user_tenant r in
     if negb (is_admin r) then mret' (error 403 "Admin required")
     else
       let* body := ofo "invalid json" (rq_json r) in
       let* name := lift_res (jget "name" body) in
       let version := match jopt "version" (Some body) with None => Some (JStr "1.0") | v => v end in
       let jsonContent := jopt "jsonContent" (Some body) in
       if negb (otruthy name) || negb (otruthy jsonContent) then
         mret' (error 400 "name and jsonContent required")
       else
         match JSON_parse (ostr jsonContent) with
         | None => mret' (error 400 "Invalid JSON")
         | Some parsed =>
             let* openapi := lift_res (jget "openapi" parsed) in
             if negb (otruthy openapi) && negb (otruthy (jopt "swagger" (Some parsed))) then
               mret' (error 400 "Not a valid OpenAPI schema (missing openapi/swagger field)")
             else
               let pathCount := key_count (jopt "paths" (Some parsed)) in
               deactivate_all tenantId ;;;
               let* nm := str_col name in
               let* ver := str_col version in
               let* content := str_col jsonContent in
               on_schemas (insert_row {| s_id := id1; s_tenantId := tenantId; s_name := nm; s_version := ver;
                                         s_jsonContent := content; s_active := true; s_uploadedAt := now |}) ;;;
               catch
                 (let schemaDir := oor (e "SCHEMA_DIR") "./schemas" in
                  let fileName := tenantId ++ "_openapi.json" in
                  write_file schemaDir fileName content ;;;
                  on_reg_cmds (createSignedFleetCommand hmac_hex e
                    (new_command id2 tenantId now None "PUSH_SCHEMA" (joinPath schemaDir fileName))) ;;;
                  mret' tt)
                 (λ _, mret' tt) ;;;
               mret' (respond 200 (JObj
                 [("success", JBool true); ("id", JStr id1); ("name", JStr nm); ("version", JStr ver);
                  ("pathCount", jint pathCount);
                  ("message", JStr ("Schema yüklendi: " ++ dec pathCount ++ " endpoint tanımlandı"))]))
         end)
    (λ _, mret' ise).

Definition schema_DELETE (r : request) : M reg_state response :=
  catch
    (if negb (is_admin r) then mret' (error 403 "Admin required")
     else deactivate_all (user_tenant r) ;;;
          mret' (respond 200 (JObj [("success", JBool true); ("message", JStr "Schema deaktif edildi")])))
    (λ _, mret' ise).

(** ** At most one active schema per tenant *)

Definition single_active (t : Ts) : Prop :=
  ∀ x y, x ∈ rows t → y ∈ rows t → s_active x = true → s_active y = true → s_tenantId x = s_tenantId y → x = y.
(** No schema of the tenant is active. *)
Definition none_active (tn : jstring) (t : Ts) : Prop := ∀ x, x ∈ rows t → active_of tn x = false.

Lemma deactivate_effect tn t t' :
  update_many (active_of tn) deactivate t = Some t' → single_active t → single_active t' ∧ none_active tn t'.
Proof.
  intros Hu Hs. assert (Hel := λ x, update_many_rows _ _ _ _ x Hu).
  assert (Hback : ∀ x, x ∈ rows t' → s_active x = true → x ∈ rows t ∧ active_of tn x = false).
  { intros x (r & Hr & ->)%Hel Ha. destruct (active_of tn r) eqn:E; [done|]. auto. }
  split.
  - intros x y Hx Hy Ax Ay. apply Hs; [by apply Hback|by apply Hback|done|done].
  - intros x Hx. destruct (s_active x) eqn:Ax; [by apply Hback|]. unfold active_of. by rewrite Ax, andb_false_r.
Qed.

Lemma insert_effect row t t' :
  insert_row row t = Some t' → none_active (s_tenantId row) t → single_active t → single_active t'.
Proof.
  intros Hi Hn Hs x y Hx Hy. rewrite (insert_rows _ _ _ x Hi) in Hx. rewrite (insert_rows _ _ _ y Hi) in Hy.
  assert (Hno : ∀ z, z ∈ rows t → s_active z = true → s_tenantId z ≠ s_tenantId row).
  { intros z Hz Az E. specialize (Hn z Hz). unfold active_of in Hn. by rewrite E, Az, jeq_refl in Hn. }
  destruct Hx as [->|Hx], Hy as [->|Hy]; intros Ax Ay E; [done|by destruct (Hno y Hy Ay)|by destruct (Hno x Hx Ax)|].
  by apply Hs.
Qed.

Definition reg_inv (s : reg_state) : Prop := single_active (rg_schemas s).

Lemma deactivate_all_keeps tn : keeps reg_inv (deactivate_all tn).
Proof.
  intros s Hs. unfold deactivate_all, on_schemas. destruct (update_many _ _ _) as [t|] eqn:E; [|done].
  by apply deactivate_effect in E as [? _].
Qed.
Lemma reg_cmds_keeps {A} (m : M Tc A) : keeps reg_inv (on_reg_cmds m).
Proof. intros s Hs. unfold on_reg_cmds. by destruct (m (rg_cmds s)). Qed.
Lemma write_file_keeps d n c : keeps reg_inv (write_file d n c).
Proof. intros s Hs. unfold write_file. by destruct (canWrite d). Qed.
Lemma reg_ofo_keeps {A} m (o : option A) : keeps reg_inv (ofo m o).
Proof. unfold ofo. destruct o; auto with lg. Qed.
Hint Resolve deactivate_all_keeps reg_cmds_keeps write_file_keeps reg_ofo_keeps : lg.

(** Deactivation, the type checks and the insertion as one step. *)
Lemma replace_schema_keeps tn name version content mk (k : jstring → jstring → jstring → M reg_state response) :
  (∀ a b c, s_tenantId (mk a b c) = tn) → (∀ a b c, keeps reg_inv (k a b c)) →
  keeps reg_inv (deactivate_all tn ;;;
    let* nm := str_col name in let* ver := str_col version in let* ct := str_col content in
    on_schemas (insert_row (mk nm ver ct)) ;;; k nm ver ct).
Proof.
  intros Hmk Hk s Hs. unfold mbind' at 1, deactivate_all, on_schemas at 1.
  destruct (update_many _ _ _) as [t|] eqn:Eu; [|done]. apply deactivate_effect in Eu as [Hs' Hn]; [|done].
  unfold str_col, mbind', ofo, throw, mret'.
  destruct (as_str name) as [nm|]; [|done]. destruct (as_str version) as [ver|]; [|done].
  destruct (as_str content) as [ct|]; [|done]. unfold on_schemas. cbn [rg_schemas].
  destruct (insert_row (mk nm ver ct) t) as [t'|] eqn:Ei; [|done]. cbn [rg_schemas rg_cmds rg_files].
  apply Hk. unfold reg_inv. cbn [rg_schemas]. eapply insert_effect; [exact Ei|by rewrite Hmk|done].
Qed.

Lemma schema_POST_keeps id1 id2 now r : keeps reg_inv (schema_POST id1 id2 now r).
Proof.
  unfold schema_POST. cbv zeta.
  repeat match goal with
  | |- keeps _ (deactivate_all _ ;;; _) =>
      apply (replace_schema_keeps _ _ _ _ (λ a b c, {| s_id := id1; s_tenantId := user_tenant r; s_name := a;
        s_version := b; s_jsonContent := c; s_active := true; s_uploadedAt := now |})); [done|intros ? ? ?]
  | |- keeps _ (mbind' _ _) => apply keeps_bind; [|intros ?]
  | |- keeps _ (catch _ _) => apply keeps_catch; [|intros ?]
  | |- keeps _ (if _ then _ else _) => apply keeps_if
  | |- keeps _ (match ?x with _ => _ end) => destruct x
  | |- keeps _ _ => solve [auto with lg]
  end.
Qed.
Lemma schema_DELETE_keeps r : keeps reg_inv (schema_DELETE r).
Proof. unfold schema_DELETE. keep_steps. Qed.

(** Histories of uploads and deletions. *)
Inductive reg_reach (s0 : reg_state) : reg_state → Prop :=
  | rr_init : reg_reach s0 s0
  | rr_post s id1 id2 now r : reg_reach s0 s → reg_reach s0 (schema_POST id1 id2 now r s).2
  | rr_delete s r : reg_reach s0 s → reg_reach s0 (schema_DELETE r s).2.

(** Uploads and deletions that do not overlap keep one active schema per tenant. *)
Lemma schema_serial_single s0 s : reg_inv s0 → reg_reach s0 s → reg_inv s.
Proof. intros H0. induction 1; [done|by apply schema_POST_keeps|by apply schema_DELETE_keeps]. Qed.

(** ** Overlapping uploads

    The handlers piece by piece; a piece ends at each statement of the database and at
    the write of the file. *)
Inductive reg_event := Deactivated (tenantId : jstring) | Created (row : SchemaRow).
Abbreviation reg_proc := (proc reg_state reg_event (res response)).

Definition deactivate_p (tenantId : jstring) : proc reg_state reg_event (res unit) :=
  await (deactivate_all tenantId) (λ r, match r with Ok _ => [Deactivated tenantId] | Throw _ => [] end).
Definition insert_p (row : SchemaRow) : proc reg_state reg_event (res unit) :=
  await (on_schemas (insert_row row)) (λ r, match r with Ok _ => [Created row] | Throw _ => [] end).
(** The command that announces the schema: created, then signed. *)
Definition announce_p (data : AgentCommand) : proc reg_state reg_event (res AgentCommand) :=
  let** _ := silently (on_reg_cmds (create_row data)) in
  match signFleetCommand hmac_hex e (sign_input data) with
  | None => pret data
  | Some signature => if nonempty signature then silently (on_reg_cmds (sign_row (c_id data) signature)) else pret data
  end.

Definition schema_POST_p (id1 id2 : jstring) (now : Z) (r : request) : reg_proc :=
  pcatch
    (let tenantId := user_tenant r in
     if negb (is_admin r) then pret (error 403 "Admin required")
     else
       let** body := pofo "invalid json" (rq_json r) in
       let** name := plift (jget "name" body) in
       let version := match jopt "version" (Some body) with None => Some (JStr "1.0") | v => v end in
       let jsonContent := jopt "jsonContent" (Some body) in
       if negb (otruthy name) || negb (otruthy jsonContent) then
         pret (error 400 "name and jsonContent required")
       else
         match JSON_parse (ostr jsonContent) with
         | None => pret (error 400 "Invalid JSON")
         | Some parsed =>
             let** openapi := plift (jget "openapi" parsed) in
             if negb (otruthy openapi) && negb (otruthy (jopt "swagger" (Some parsed))) then
               pret (error 400 "Not a valid OpenAPI schema (missing openapi/swagger field)")
             else
               let pathCount := key_count (jopt "paths" (Some parsed)) in
               let** _ := deactivate_p tenantId in
               let** nm := pofo "Invalid value provided" (as_str name) in
               let** ver := pofo "Invalid value provided" (as_str version) in
               let** content := pofo "Invalid value provided" (as_str jsonContent) in
               let** _ := insert_p {| s_id := id1; s_tenantId := tenantId; s_name := nm; s_version := ver;
                                      s_jsonContent := content; s_active := true; s_uploadedAt := now |} in
               let** _ := pcatch
                 (let schemaDir := oor (e "SCHEMA_DIR") "./schemas" in
                  let fileName := tenantId ++ "_openapi.json" in
                  let** _ := silently (write_file schemaDir fileName content) in
                  let** _ := announce_p (new_command id2 tenantId now None "PUSH_SCHEMA" (joinPath schemaDir fileName)) in
                  pret tt)
                 (λ _, pret tt) in
               pret (respond 200 (JObj
                 [("success", JBool true); ("id", JStr id1); ("name", JStr nm); ("version", JStr ver);
                  ("pathCount", jint pathCount);
                  ("message", JStr ("Schema yüklendi: " ++ dec pathCount ++ " endpoint tanımlandı"))]))
         end)
    (λ _, pret ise).
Definition schema_DELETE_p (r : request) : reg_proc :=
  pcatch
    (if negb (is_admin r) then pret (error 403 "Admin required")
     else let** _ := deactivate_p (user_tenant r) in
          pret (respond 200 (JObj [("success", JBool true); ("message", JStr "Schema deaktif edildi")])))
    (λ _, pret ise).

Inductive reg_starts : reg_proc → Prop :=
  | start_upload id1 id2 now r : reg_starts (schema_POST_p id1 id2 now r)
  | start_delete r : reg_starts (schema_DELETE_p r).

(** *** Without interruption *)

Lemma announce_runs data : runs (announce_p data) (on_reg_cmds (createSignedFleetCommand hmac_hex e data)).
Proof.
  intros s. unfold announce_p. rewrite alone_bind.
  unfold silently, await, create_row, createSignedFleetCommand, on_reg_cmds, mbind', get, ofo, throw, modify, mret'.
  cbn [alone]. destruct (insert_row data (rg_cmds s)) as [t|]; cbn; [|by destruct s].
  destruct (signFleetCommand _ _ _) as [sig|]; [|done]. destruct (nonempty sig); [|done].
  unfold sign_row, mbind', get, ofo, throw, modify, mret'. cbn. by destruct (update_one _ _ t) as [[]|].
Qed.
Ltac reg_runs := repeat match goal with
  | |- runs (pcatch _ _) (catch _ _) => apply runs_catch; [|intros ?]
  | |- runs (let** _ := announce_p _ in _) _ => apply runs_bind; [apply announce_runs|intros ?]
  | |- runs (pbind _ _) (mbind' _ _) => apply runs_bind; [|intros ?]
  | |- runs (deactivate_p _) _ => apply runs_await
  | |- runs (insert_p _) _ => apply runs_await
  | |- runs (silently _) _ => apply runs_await
  | |- runs (pofo _ _) _ => apply runs_ofo
  | |- runs (plift _) _ => apply runs_lift
  | |- runs (pret _) _ => apply runs_ret
  | |- runs (if ?b then _ else _) _ => destruct b
  | |- runs (match ?x with _ => _ end) _ => destruct x
  end.
Lemma schema_POST_runs id1 id2 now r : runs (schema_POST_p id1 id2 now r) (schema_POST id1 id2 now r).
Proof. unfold schema_POST_p, schema_POST, str_col. cbv zeta. reg_runs. Qed.
Lemma schema_DELETE_runs r : runs (schema_DELETE_p r) (schema_DELETE r).
Proof. unfold schema_DELETE_p, schema_DELETE. reg_runs. Qed.

(** *** Where an active schema comes from *)

Abbreviation reg_log := (list (nat * entry reg_event (res response))).
Abbreviation reg_moment := (moment reg_state reg_event (res response)).
Definition deactivated_in (tn : jstring) (l : reg_log) : Prop := ∃ q, (q, Did (Deactivated tn)) ∈ l.
Definition schemas_ok (t0 : Ts) (t : Ts) (l : reg_log) : Prop :=
  (∀ x, x ∈ rows t → s_active x = true →
     (x ∈ rows t0 ∧ ¬ deactivated_in (s_tenantId x) l) ∨
     ∃ p l1 l2, l = l1 ++ (p, Did (Created x)) :: l2 ∧ ¬ deactivated_in (s_tenantId x) l2) ∧
  (∀ p x, (p, Did (Created x)) ∈ l → precedes (p, Did (Deactivated (s_tenantId x))) (p, Did (Created x)) l) ∧
  (∀ p x y, (p, Did (Created x)) ∈ l → (p, Did (Created y)) ∈ l → x = y).

Lemma deactivated_snoc tn l y :
  (∀ q, y ≠ (q, Did (Deactivated tn))) → ¬ deactivated_in tn l → ¬ deactivated_in tn (l ++ [y]).
Proof. intros Hy Hn (q & [Hq|Hq%list_elem_of_singleton]%elem_of_app); [apply Hn; by exists q|by eapply Hy]. Qed.
(** An entry that is no creation, and deactivates no tenant with an active schema. *)
Lemma schemas_entry t0 t t' l y :
  (∀ p x, y ≠ (p, Did (Created x))) →
  (∀ x, x ∈ rows t' → s_active x = true → x ∈ rows t ∧ ∀ q, y ≠ (q, Did (Deactivated (s_tenantId x)))) →
  schemas_ok t0 t l → schemas_ok t0 t' (l ++ [y]).
Proof.
  intros Hy Ht (H1 & H2 & H3). unfold schemas_ok. splits.
  - intros x Hx Ha. destruct (Ht x Hx Ha) as [Hx' Hd]. destruct (H1 x Hx' Ha) as [[H0 Hn]|(p & l1 & l2 & -> & Hn)].
    + left. split; [done|by apply deactivated_snoc].
    + right. exists p, l1, (l2 ++ [y]). rewrite <- app_assoc. split; [done|by apply deactivated_snoc].
  - intros p x [Hp|Hp%list_elem_of_singleton]%elem_of_app; [by apply precedes_app, H2|by destruct (Hy p x)].
  - intros p x z [Hp|Hp%list_elem_of_singleton]%elem_of_app; [|by destruct (Hy p x)].
    intros [Hq|Hq%list_elem_of_singleton]%elem_of_app; [by eapply H3|by destruct (Hy p z)].
Qed.
Lemma schemas_created t0 t t' l p row :
  insert_row row t = Some t' → (p, Did (Deactivated (s_tenantId row))) ∈ l → (∀ x, (p, Did (Created x)) ∉ l) →
  schemas_ok t0 t l → schemas_ok t0 t' (l ++ [(p, Did (Created row))]).
Proof.
  intros Hi Hd Hnew (H1 & H2 & H3). unfold schemas_ok. splits.
  - intros x Hx Ha. rewrite (insert_rows _ _ _ x Hi) in Hx. destruct Hx as [->|Hx].
    + right. exists p, l, []. split; [done|]. intros (q & Hq). by apply elem_of_nil in Hq.
    + destruct (H1 x Hx Ha) as [[H0 Hn]|(q & l1 & l2 & -> & Hn)].
      * left. split; [done|by apply deactivated_snoc].
      * right. exists q, l1, (l2 ++ [(p, Did (Created row))]). rewrite <- app_assoc. split; [done|by apply deactivated_snoc].
  - intros q x [Hq|Hq%list_elem_of_singleton]%elem_of_app; [by apply precedes_app, H2|]. injection Hq as -> ->.
    by apply precedes_snoc.
  - intros q x z [Hq|Hq%list_elem_of_singleton]%elem_of_app [Hz|Hz%list_elem_of_singleton]%elem_of_app; simplify_eq;
      [by eapply H3|by destruct (Hnew x)|by destruct (Hnew z)|done].
Qed.

Definition whatever (s s' : reg_state) : Prop := True.
#[local] Instance whatever_preorder : PreOrder whatever. Proof. by split. Qed.
Definition reg_ok (t0 : Ts) (m : reg_moment) : Prop := schemas_ok t0 (rg_schemas (shared m)) (log m).

Lemma reg_closes t0 p r m : closes whatever (reg_ok t0) p r m.
Proof. intros m' _ Hi. eapply schemas_entry; [done| |exact Hi]. done. Qed.
Lemma deactivate_wp t0 p m tn (Q : res unit → reg_moment → Prop) :
  (∀ m1 m2, rely whatever p m m1 → log m2 = log m1 ++ [(p, Did (Deactivated tn))] → Q (Ok tt) m2) →
  (∀ msg m', Q (Throw msg) m') → wp whatever (reg_ok t0) p m (deactivate_p tn) Q.
Proof.
  intros HQ Ht. apply wp_await. intros m1 Hr Hi. unfold deactivate_all, on_schemas.
  destruct (update_many _ _ _) as [t|] eqn:Eu; cbn [fst snd map].
  - splits; [|done|by eapply HQ]. eapply schemas_entry; [done| |exact Hi]. intros x Hx Ha. cbn [shared rg_schemas] in Hx.
    apply (update_many_rows _ _ _ _ x Eu) in Hx as (c & Hc & ->). destruct (active_of tn c) eqn:Ec; [done|]. split; [done|].
    intros q E. injection E as _ E. unfold active_of in Ec. rewrite Ha, E, jeq_refl in Ec. done.
  - rewrite app_nil_r. splits; [by destruct m1|done|apply Ht].
Qed.
Lemma insert_wp t0 p m row (Q : res unit → reg_moment → Prop) :
  (p, Did (Deactivated (s_tenantId row))) ∈ log m → (∀ x, (p, Did (Created x)) ∉ log m) →
  (∀ r m', Q r m') → wp whatever (reg_ok t0) p m (insert_p row) Q.
Proof.
  intros Hd Hn HQ. apply wp_await. intros m1 [_ (ext & El & Hext)] Hi. unfold on_schemas.
  destruct (insert_row row _) as [t|] eqn:Ei; cbn [fst snd map].
  - splits; [|done|apply HQ]. apply (schemas_created _ _ _ _ _ _ Ei); [rewrite El; set_solver| |exact Hi].
    intros x Hx. rewrite El in Hx. apply elem_of_app in Hx as [Hx|Hx]; [by apply (Hn x)|].
    rewrite Forall_forall in Hext. by apply (Hext _ Hx).
  - rewrite app_nil_r. splits; [by destruct m1|done|apply HQ].
Qed.

Definition same_schemas (s s' : reg_state) : Prop := rg_schemas s = rg_schemas s'.
Lemma announce_silent data : silent same_schemas any (announce_p data).
Proof.
  apply silent_bind; [|done|intros _].
  - apply silent_silently; [|done]. intros s. unfold on_reg_cmds. by destruct (create_row data (rg_cmds s)).
  - destruct (signFleetCommand _ _ _) as [sig|]; [|done]. destruct (nonempty sig); [|done].
    apply silent_silently; [|done]. intros s. unfold on_reg_cmds. by destruct (sign_row _ _ _).
Qed.
Lemma announcement_silent d n c data (P : res unit → Prop) :
  (∀ r, P r) →
  silent same_schemas P
    (pcatch (let** _ := silently (write_file d n c) in let** _ := announce_p data in pret tt) (λ _, pret tt)).
Proof.
  intros HP. apply silent_catch; [|intros msg; cbn; apply HP].
  apply silent_bind; [|done|intros _].
  - apply silent_silently; [|done]. intros s. unfold write_file. by destruct (canWrite d).
  - apply silent_bind; [apply announce_silent|done|]. intros a. cbn. apply HP.
Qed.
Lemma same_schemas_wp {A} t0 p m (q : proc reg_state reg_event (res A)) Q :
  silent same_schemas any q → (∀ r m', Q r m') → wp whatever (reg_ok t0) p m q Q.
Proof.
  intros Hq HQ. apply (silent_wp whatever (reg_ok t0) same_schemas any); [done| |auto|done].
  intros [s l] s' Hi E. unfold reg_ok in *. cbn in *. by rewrite <- E.
Qed.

(** The insertion and what follows it, once the tenant's schemas are deactivated. *)
Lemma created_safe t0 p m tn id1 id2 now pathCount (name version jsonContent : option json) :
  (p, Did (Deactivated tn)) ∈ log m → (∀ x, (p, Did (Created x)) ∉ log m) →
  wp whatever (reg_ok t0) p m
    (let** nm := pofo "Invalid value provided" (as_str name) in
     let** ver := pofo "Invalid value provided" (as_str version) in
     let** content := pofo "Invalid value provided" (as_str jsonContent) in
     let** _ := insert_p {| s_id := id1; s_tenantId := tn; s_name := nm; s_version := ver;
                            s_jsonContent := content; s_active := true; s_uploadedAt := now |} in
     let** _ := pcatch
       (let** _ := silently (write_file (oor (e "SCHEMA_DIR") "./schemas") (tn ++ "_openapi.json") content) in
        let** _ := announce_p (new_command id2 tn now None "PUSH_SCHEMA"
                     (joinPath (oor (e "SCHEMA_DIR") "./schemas") (tn ++ "_openapi.json"))) in
        pret tt)
       (λ _, pret tt) in
     pret (respond 200 (JObj
       [("success", JBool true); ("id", JStr id1); ("name", JStr nm); ("version", JStr ver);
        ("pathCount", jint pathCount);
        ("message", JStr ("Schema yüklendi: " ++ dec pathCount ++ " endpoint tanımlandı"))])))
    (λ r m', match r with Ok a => closes whatever (reg_ok t0) p (Ok a) m'
                        | Throw msg => wp whatever (reg_ok t0) p m' (pret ise) (closes whatever (reg_ok t0) p) end).
Proof.
  intros Hd Hn.
  destruct (as_str name) as [nm|]; [|apply reg_closes]. destruct (as_str version) as [ver|]; [|apply reg_closes].
  destruct (as_str jsonContent) as [ct|]; [|apply reg_closes]. cbn [pofo pbind pret].
  apply wp_bind, insert_wp; [done|done|]. intros [[]|msg] m'; [|apply reg_closes].
  apply wp_bind, same_schemas_wp; [by apply announcement_silent|].
  intros [[]|msg] m''; apply reg_closes.
Qed.

Lemma upload_safe t0 p m id1 id2 now r :
  Forall (λ x, x.1 ≠ p) (log m) → safe whatever (reg_ok t0) p m (schema_POST_p id1 id2 now r).
Proof.
  intros Hnew. unfold safe, schema_POST_p. cbv zeta. apply wp_catch.
  destruct (negb (is_admin r)); [apply reg_closes|].
  destruct (rq_json r) as [body|]; [|apply reg_closes]. cbn [pofo pret pbind].
  destruct (jget "name" body) as [name|]; [|apply reg_closes]. cbn [plift pbind].
  destruct (negb (otruthy name) || _); [apply reg_closes|].
  destruct (JSON_parse _) as [parsed|]; [|apply reg_closes].
  destruct (jget "openapi" parsed) as [openapi|]; [|apply reg_closes]. cbn [plift pbind].
  destruct (negb (otruthy openapi) && _); [apply reg_closes|].
  apply wp_bind, deactivate_wp; [|intros; apply reg_closes].
  intros m1 m2 [_ (ext & E1 & Hext)] E2. apply created_safe; rewrite E2, E1; [set_solver|].
  intros x. rewrite !elem_of_app, list_elem_of_singleton. rewrite Forall_forall in Hnew, Hext.
  intros [[Hx|Hx]|Hx]; [by apply (Hnew _ Hx)|by apply (Hext _ Hx)|done].
Qed.
Lemma delete_safe t0 p m r : safe whatever (reg_ok t0) p m (schema_DELETE_p r).
Proof.
  unfold safe, schema_DELETE_p. apply wp_catch. destruct (negb (is_admin r)); [apply reg_closes|].
  apply wp_bind, deactivate_wp; intros; apply reg_closes.
Qed.
Lemma reg_overlap_ok s0 c :
  pool_reach reg_starts s0 c →
  schemas_ok (rg_schemas s0) (rg_schemas (shared (at_moment c))) (log (at_moment c)).
Proof.
  intros Hr. apply (pool_invariant reg_starts whatever (reg_ok (rg_schemas s0)) s0 c) in Hr as [Hi _]; [exact Hi| |].
  - unfold reg_ok, schemas_ok, deactivated_in. cbn. splits; [|intros p x Hx; by apply elem_of_nil in Hx|intros p x y Hx; by apply elem_of_nil in Hx].
    intros x Hx _. left. split; [done|]. intros (q & Hq). by apply elem_of_nil in Hq.
  - intros p m h [id1 id2 now r|r] _ Hf; [by apply upload_safe|apply delete_safe].
Qed.

(** The upload [q] deactivated its tenant's schemas before [p] created its own. *)
Lemma deactivated_before tn (l l1 l2 : reg_log) p x q :
  l = l1 ++ (p, Did (Created x)) :: l2 → ¬ deactivated_in tn l2 → (q, Did (Deactivated tn)) ∈ l →
  precedes (q, Did (Deactivated tn)) (p, Did (Created x)) l.
Proof.
  intros -> Hn [Hq|[Hq|Hq]%elem_of_cons]%elem_of_app; [|done|destruct Hn; by exists q].
  apply list_elem_of_split in Hq as (k1 & k2 & ->). exists k1, k2, l2. by rewrite <- app_assoc.
Qed.

(** C36. From a table with at most one active schema per tenant, whatever uploads and
    deletions follow and however their database statements interleave, two different
    schemas of a tenant can be active together only when both came from uploads that
    overlapped, each deactivating the tenant's schemas before the other created its own;
    uploads one after the other leave one active schema. *)
Theorem schema_single_active s0 c :
  reg_inv s0 → pool_reach reg_starts s0 c →
  ∀ x y, x ∈ rows (rg_schemas (shared (at_moment c))) → y ∈ rows (rg_schemas (shared (at_moment c))) →
    s_active x = true → s_active y = true → s_tenantId x = s_tenantId y →
    x = y ∨
    ∃ p q, p ≠ q ∧
      precedes (q, Did (Deactivated (s_tenantId x))) (p, Did (Created x)) (log (at_moment c)) ∧
      precedes (p, Did (Deactivated (s_tenantId x))) (q, Did (Created y)) (log (at_moment c)).
Proof.
  intros H0 Hr x y Hx Hy Ax Ay Et. apply reg_overlap_ok in Hr as (H1 & H2 & H3).
  assert (Hde : ∀ p z l1 l2, log (at_moment c) = l1 ++ (p, Did (Created z)) :: l2 →
            (p, Did (Deactivated (s_tenantId z))) ∈ log (at_moment c)).
  { intros p z l1 l2 E. apply (precedes_elem _ (p, Did (Created z))), H2. rewrite E. set_solver. }
  destruct (H1 x Hx Ax) as [[Ix Nx]|(p & k1 & k2 & Ep & Nx)], (H1 y Hy Ay) as [[Iy Ny]|(q & l1 & l2 & Eq & Ny)].
  - left. by apply H0.
  - destruct Nx. exists q. rewrite Et. by eapply Hde.
  - destruct Ny. exists p. rewrite <- Et. by eapply Hde.
  - destruct (decide (p = q)) as [<-|Hne].
    + left. apply (H3 p); [rewrite Ep|rewrite Eq]; set_solver.
    + right. exists p, q. splits; [done| |].
      * eapply deactivated_before; [exact Ep|exact Nx|]. rewrite Et. by eapply Hde.
      * eapply deactivated_before; [exact Eq|by rewrite Et|]. by eapply Hde.
Qed.

End registry.

Module SchemaDemo.
Definition admin (m : jstring) (b : option json) : request :=
  mk_request "/api/schema" [("x-user-role", "admin"); ("x-user-tenant", "t1")] [] [] b.
Definition doc (v : jstring) : json :=
  JObj [("name", JStr "orders"); ("version", JStr v);
        ("jsonContent", JStr ("{" ++ dq ++ "openapi" ++ dq ++ ":" ++ dq ++ "3.1" ++ dq ++ "}"))].
Definition s0 : @reg_state (list SchemaRow) (list AgentCommand) :=
  {| rg_schemas := []; rg_cmds := []; rg_files := [] |}.
Definition upload (id : jstring) (now : Z) (b : json) :=
  schema_POST_p (Ts := list SchemaRow) (Tc := list AgentCommand) (Table0 := list_table s_id)
    (Table1 := list_table c_id) FleetDemo.hmac FleetDemo.e (λ d n, d ++ "/" ++ n) (λ _, true)
    id ("c" ++ id) now (admin "POST" (Some b)).
Abbreviation demo_state := (@reg_state (list SchemaRow) (list AgentCommand)).
Abbreviation turns := (list (turn demo_state reg_event (res response))).
Abbreviation demo_starts := (reg_starts (Table0 := list_table s_id) (Table1 := list_table c_id)
  FleetDemo.hmac FleetDemo.e (λ d n, d ++ "/" ++ n) (λ _, true)).
(** One upload after the other: deactivation, creation, file, command and its signature, answer. *)
Definition serial : turns :=
  Start (upload "1" 10 (doc "1.0")) :: replicate 6 (Turn 0) ++
  Start (upload "2" 20 (doc "2.0")) :: replicate 6 (Turn 0).
(** Both deactivate, then both create. *)
Definition crossed : turns :=
  [Start (upload "1" 10 (doc "1.0")); Start (upload "2" 20 (doc "2.0")); Turn 0; Turn 1; Turn 0; Turn 1].
Definition from (l : turns) : pool demo_state reg_event (res response) :=
  default (Pool (Moment s0 []) [] 0) (play_turns l (Pool (Moment s0 []) [] 0)).
Definition table (l : turns) : list SchemaRow := rg_schemas (shared (at_moment (from l))).
Lemma serial_reached : pool_reach demo_starts s0 (from serial).
Proof. apply (play_turns_reach _ serial); [repeat constructor|vm_compute; reflexivity]. Qed.
Lemma crossed_reached : pool_reach demo_starts s0 (from crossed).
Proof. apply (play_turns_reach _ crossed); [repeat constructor|vm_compute; reflexivity]. Qed.
End SchemaDemo.


(** Two uploads one after the other: the second replaces the first. *)
Lemma schema_single_active_witness :
  map s_active (SchemaDemo.table SchemaDemo.serial) = [false; true] ∧
  ∀ x y, x ∈ SchemaDemo.table SchemaDemo.serial → y ∈ SchemaDemo.table SchemaDemo.serial →
    s_active x = true → s_active y = true → s_tenantId x = s_tenantId y →
    x = y ∨
    ∃ p q, p ≠ q ∧
      precedes (q, Did (Deactivated (s_tenantId x))) (p, Did (Created x)) (log (at_moment (SchemaDemo.from SchemaDemo.serial))) ∧
      precedes (p, Did (Deactivated (s_tenantId x))) (q, Did (Created y)) (log (at_moment (SchemaDemo.from SchemaDemo.serial))).
Proof.
  split; [vm_compute; reflexivity|].
  refine (schema_single_active (Table0 := list_table s_id) (Table1 := list_table c_id)
    FleetDemo.hmac FleetDemo.e (λ d n, d ++ "/" ++ n) (λ _, true) SchemaDemo.s0 (SchemaDemo.from SchemaDemo.serial) _ _).
  - intros x y Hx. by apply elem_of_nil in Hx.
  - exact SchemaDemo.serial_reached.
Defined.

(** Two uploads of a tenant that overlap so that both deactivate before either creates
    its row leave two active schemas. *)
Lemma schema_overlap_two_active :
  pool_reach SchemaDemo.demo_starts SchemaDemo.s0 (SchemaDemo.from SchemaDemo.crossed) ∧
  map s_active (SchemaDemo.table SchemaDemo.crossed) = [true; true] ∧
  map s_tenantId (SchemaDemo.table SchemaDemo.crossed) = ["t1"; "t1"].
Proof. splits; [exact SchemaDemo.crossed_reached|vm_compute; reflexivity..]. Qed.
