(* ===== verification/Plugins.v ===== *)
(** The Wasm plugin registry (dashboard/src/app/api/plugins/route.ts): upload
    to the plugin directory, registration and distribution to the fleet. *)

From S2P Require Import Prelude JsString JsNum Json Http JsDate Store FleetCommand Fleet FleetProps Registry.

Record WasmPlugin := {
  p_id : jstring;
  p_tenantId : jstring;
  p_name : jstring;
  p_version : jstring;
  p_filePath : jstring;
  p_active : bool;
  p_uploadedAt : Z;
  p_callsTotal : Z;
  p_blocksTotal : Z;
}.
Definition plugin_json (p : WasmPlugin) : json :=
  JObj [("id", JStr (p_id p)); ("tenantId", JStr (p_tenantId p)); ("name", JStr (p_name p));
        ("version", JStr (p_version p)); ("filePath", JStr (p_filePath p)); ("active", JBool (p_active p));
        ("uploadedAt", date_json (p_uploadedAt p)); ("callsTotal", jint (p_callsTotal p));
        ("blocksTotal", jint (p_blocksTotal p))].
Definition retire (p : WasmPlugin) : WasmPlugin :=
  {| p_id := p_id p; p_tenantId := p_tenantId p; p_name := p_name p; p_version := p_version p;
     p_filePath := p_filePath p; p_active := false; p_uploadedAt := p_uploadedAt p;
     p_callsTotal := p_callsTotal p; p_blocksTotal := p_blocksTotal p |}.

(** The units [/[^a-z0-9_-]/gi] leaves alone. *)
Definition file_unit (c : Z) : bool :=
  is_digit c || ((97 <=? ascii_lower c) && (ascii_lower c <=? 122)) || (c =? 95) || (c =? 45).
Definition safe_name (name : jstring) : jstring := map (λ c, if file_unit c then c else 95) name.
Definition plugin_file (tenantId name : jstring) : jstring := tenantId ++ "_" ++ safe_name name ++ ".wasm".

Section plugins.
Context (hmac_hex : jstring → jstring → jstring) (e : env).
Context (joinPath : jstring → jstring → jstring) (canWrite : jstring → bool).
(** [Buffer.from(v, 'base64')], [None] when it throws. *)
Context (decode64 : json → option (list Z)).
Context {Tp Tc : Type} `{!Table Tp WasmPlugin p_id, !Table Tc AgentCommand c_id}.

Record plugin_state := { ps_plugins : Tp; ps_cmds : Tc; ps_files : list file_write }.
Definition on_plugins (f : Tp → option Tp) : M plugin_state unit := λ s,
  match f (ps_plugins s) with
  | Some t => (Ok tt, {| ps_plugins := t; ps_cmds := ps_cmds s; ps_files := ps_files s |})
  | None => (Throw "database", s)
  end.
Definition on_plugin_cmds {A} (m : M Tc A) : M plugin_state A := λ s,
  let '(r, t) := m (ps_cmds s) in
  (r, {| ps_plugins := ps_plugins s; ps_cmds := t; ps_files := ps_files s |}).
Definition store_file (dir name : jstring) (content : list Z) : M plugin_state unit := λ s,
  if canWrite dir then
    (Ok tt, {| ps_plugins := ps_plugins s; ps_cmds := ps_cmds s;
               ps_files := ps_files s ++ [{| fw_dir := dir; fw_name := name; fw_content := content |}] |})
  else (Throw "EACCES", s).

Definition plugins_GET (r : request) (t : Tp) : response :=
  match find_sorted (λ x, - p_uploadedAt x) (λ x, p_tenantId x =s user_tenant r) t with
  | None => ise
  | Some plugins => respond 200 (JObj [("plugins", JArr (map plugin_json plugins));
                                       ("total", jint (Z.of_nat (length plugins)))])
  end.

Definition plugin_dir : jstring := oor (e "WASM_PLUGIN_DIR") "/etc/log-guardian/plugins".
Definition new_plugin (id : jstring) (now : Z) (tenantId name version filePath : jstring) : WasmPlugin :=
  {| p_id := id; p_tenantId := tenantId; p_name := name; p_version := version; p_filePath := filePath;
     p_active := true; p_uploadedAt := now; p_callsTotal := 0; p_blocksTotal := 0 |}.

(** The block [if (wasmBase64) { try ... }]: a failure is only logged. *)
Definition write_wasm (wasmBase64 : option json) (fileName : jstring) : M plugin_state unit :=
  match wasmBase64 with
  | Some v =>
      if truthy v then
        catch (let* wasmBuf := ofo "Buffer.from" (decode64 v) in store_file plugin_dir fileName wasmBuf)
              (λ _, mret' tt)
      else mret' tt
  | None => mret' tt
  end.

Definition plugins_POST (id1 id2 : jstring) (now : Z) (r : request) : M plugin_state response :=
  catch
    (let tenantId := user_tenant r in
     if negb (is_admin r) then mret' (error 403 "Admin required")
     else
       let* body := ofo "invalid json" (rq_json r) in
       let* name := lift_res (jget "name" body) in
       let version := match jopt "version" (Some body) with None => Some (JStr "1.0") | v => v end in
       let wasmBase64 := jopt "wasmBase64" (Some body) in
       if negb (otruthy name) then mret' (error 400 "name required")
       else
         let* nm := ofo "name.replace is not a function" (as_str name) in
         let fileName := plugin_file tenantId nm in
         let filePath := joinPath plugin_dir fileName in
         write_wasm wasmBase64 fileName ;;;
         let* ver := ofo "Invalid value provided" (as_str version) in
         on_plugins (insert_row (new_plugin id1 now tenantId nm ver filePath)) ;;;
         on_plugin_cmds (createSignedFleetCommand hmac_hex e
           (new_command id2 tenantId now None "PUSH_WASM_PLUGIN" filePath)) ;;;
         mret' (respond 200 (JObj
           [("success", JBool true); ("id", JStr id1); ("name", JStr nm); ("version", JStr ver);
            ("filePath", JStr filePath);
            ("message", JStr ("Wasm plugin '" ++ nm ++ "' yüklendi ve filoya dağıtılıyor"))])))
    (λ _, mret' ise).

Definition plugins_DELETE (r : request) : M plugin_state response :=
  catch
    (if negb (is_admin r) then mret' (error 403 "Admin required")
     else
       match truthy_str (query "id" r) with
       | None => mret' (error 400 "Plugin ID required")
       | Some pluginId =>
           on_plugins (update_many (λ p, (p_id p =s pluginId) && (p_tenantId p =s user_tenant r)) retire) ;;;
           mret' (respond 200 (JObj [("success", JBool true); ("message", JStr "Plugin deaktif edildi")]))
       end)
    (λ _, mret' ise).

(** ** File names *)

Lemma safe_name_units name c : c ∈ safe_name name → file_unit c = true.
Proof.
  unfold safe_name. intros (d & -> & Hd)%list_elem_of_fmap.
  destruct (file_unit d) eqn:E; [done|reflexivity].
Qed.
Lemma file_unit_not c : file_unit c = false → ∀ name, c ∉ safe_name name.
Proof. intros Hc name H%safe_name_units. congruence. Qed.

(** A path separator in the file name can only come from the tenant id. *)
Lemma plugin_file_flat tn name : 47 ∉ tn → 47 ∉ plugin_file tn name.
Proof.
  intros Ht. unfold plugin_file. rewrite !not_elem_of_app. splits; [done| | |].
  - by apply (bool_decide_unpack _).
  - by apply file_unit_not.
  - by apply (bool_decide_unpack _).
Qed.
(** Tenants whose ids have no underscore never share a file. *)
Lemma plugin_file_tenant t1 t2 n1 n2 :
  95 ∉ t1 → 95 ∉ t2 → plugin_file t1 n1 = plugin_file t2 n2 → t1 = t2 ∧ safe_name n1 = safe_name n2.
Proof.
  intros H1 H2 E. unfold plugin_file in E. cbn [app] in E.
  apply sep_inj in E as [-> E]; [|done|done]. split; [done|].
  by apply app_inv_tail in E.
Qed.

(** ** Uploads *)

(** What one upload may leave behind for the tenant and plugin name. *)
Definition upload_effect (id1 id2 : jstring) (now : Z) (tn nm : jstring) (s s' : plugin_state) : Prop :=
  let path := joinPath plugin_dir (plugin_file tn nm) in
  (∃ ver, rows (ps_plugins s') ≡ₚ new_plugin id1 now tn nm ver path :: rows (ps_plugins s)) ∧
  ∃ c, rows (ps_cmds s') ≡ₚ c :: rows (ps_cmds s) ∧ c_tenantId c = tn ∧ c_payload c = path ∧
       c_commandType c = "PUSH_WASM_PLUGIN" ∧ c_targetAgentId c = None.
Definition only_file (fileName : jstring) (s s' : plugin_state) : Prop :=
  ps_files s' = ps_files s ∨
  ∃ content, ps_files s' = ps_files s ++ [{| fw_dir := plugin_dir; fw_name := fileName; fw_content := content |}].

Lemma write_wasm_effect v fileName s :
  ∃ s', write_wasm v fileName s = (Ok tt, s') ∧ ps_plugins s' = ps_plugins s ∧ ps_cmds s' = ps_cmds s ∧
        only_file fileName s s'.
Proof.
  assert (Hs : ∃ s', (Ok tt, s) = (Ok tt, s') ∧ ps_plugins s' = ps_plugins s ∧ ps_cmds s' = ps_cmds s ∧
                     only_file fileName s s') by (exists s; unfold only_file; auto).
  unfold write_wasm. destruct v as [v|]; [|done]. destruct (truthy v); [|done].
  unfold catch, mbind', ofo, throw, mret'. destruct (decode64 v) as [buf|]; [|done].
  unfold store_file. destruct (canWrite _); [|done].
  eexists. split; [done|]. splits; [done|done|]. right. by eexists.
Qed.

Lemma on_plugins_insert row s s' out :
  on_plugins (insert_row row) s = (out, s') →
  ps_files s' = ps_files s ∧ ps_cmds s' = ps_cmds s ∧
  (out = Ok tt ∧ rows (ps_plugins s') ≡ₚ row :: rows (ps_plugins s) ∨ (∃ m, out = Throw m) ∧ s' = s).
Proof.
  unfold on_plugins. destruct (insert_row row _) as [t|] eqn:E; intros [= <- <-]; cbn.
  - splits; [done|done|left]. split; [done|]. by apply insert_law in E as [? _].
  - splits; [done|done|right]. eauto.
Qed.
Lemma on_plugin_cmds_create data s s' out :
  on_plugin_cmds (createSignedFleetCommand hmac_hex e data) s = (out, s') →
  ps_files s' = ps_files s ∧ ps_plugins s' = ps_plugins s ∧
  (∀ c, out = Ok c → c = data ∨ ∃ sig, c = set_signature sig data) ∧
  (∀ c, out = Ok c → rows (ps_cmds s') ≡ₚ c :: rows (ps_cmds s)).
Proof.
  unfold on_plugin_cmds. destruct (createSignedFleetCommand _ _ _ _) as [o t] eqn:E. intros [= <- <-]. cbn.
  apply create_cases in E as [(_ & -> & m & ->)|(_ & [[Hp Ho]|(sig & _ & Hp & ->)])].
  - splits; done.
  - destruct Ho as [->|[m ->]]; splits; try done; intros c [= <-]; auto.
  - splits; [done|done| |]; intros c [= <-]; eauto.
Qed.

(** The body of an upload after its checks. *)
Lemma upload_spec id1 id2 now tn nm wasm version k h s :
  let m := write_wasm wasm (plugin_file tn nm) ;;;
    let* ver := ofo "Invalid value provided" (as_str version) in
    on_plugins (insert_row (new_plugin id1 now tn nm ver (joinPath plugin_dir (plugin_file tn nm)))) ;;;
    on_plugin_cmds (createSignedFleetCommand hmac_hex e
      (new_command id2 tn now None "PUSH_WASM_PLUGIN" (joinPath plugin_dir (plugin_file tn nm)))) ;;;
    mret' (respond 200 (k ver)) in
  ∃ resp s', catch m (λ _, mret' (error 500 h)) s = (Ok resp, s') ∧ only_file (plugin_file tn nm) s s' ∧
    (rs_status resp = 200 → upload_effect id1 id2 now tn nm s s').
Proof.
  destruct (write_wasm_effect wasm (plugin_file tn nm) s) as (s1 & Hw & Hp & Hc & Hf).
  unfold catch, mbind'. cbv zeta. rewrite Hw. unfold ofo, throw, mret'.
  destruct (as_str version) as [ver|]; [|by eexists _, s1].
  destruct (on_plugins _ s1) as [o2 s2] eqn:E2. apply on_plugins_insert in E2 as (Hf2 & Hc2 & H2).
  assert (Hf' : only_file (plugin_file tn nm) s s2) by (unfold only_file; rewrite Hf2; exact Hf).
  destruct H2 as [[-> Hr2]|[[m ->] ->]]; [|by eexists _, s1].
  destruct (on_plugin_cmds _ s2) as [o3 s3] eqn:E3. apply on_plugin_cmds_create in E3 as (Hf3 & Hp3 & Hd & Hr).
  assert (Hf'' : only_file (plugin_file tn nm) s s3) by (unfold only_file; rewrite Hf3; exact Hf').
  destruct o3 as [c|m]; [|by eexists _, s3]. eexists _, s3. split; [done|]. split; [done|]. intros _.
  split; [exists ver; by rewrite Hp3, Hr2, Hp|]. exists c. rewrite (Hr c eq_refl), Hc2, Hc.
  split; [done|]. by destruct (Hd c eq_refl) as [->|[sig ->]].
Qed.

(** C37. A plugin upload is confined: without the administrator role nothing
    changes and the answer is 403; with it the request always completes, the
    only file it writes lies directly in the plugin directory under a name that
    starts with the caller's tenant id and has no path separator (tenant ids
    have none), and when it succeeds one plugin row and one fleet command of
    that tenant were added, both pointing at that file.  Two tenants whose ids
    have no underscore never share a file. *)
Theorem plugin_upload_confined id1 id2 now r s :
  (is_admin r = false → plugins_POST id1 id2 now r s = (Ok (error 403 "Admin required"), s)) ∧
  ∃ resp s', plugins_POST id1 id2 now r s = (Ok resp, s') ∧
    (s' = s ∧ rs_status resp ≠ 200 ∨
     ∃ nm, only_file (plugin_file (user_tenant r) nm) s s' ∧
       (47 ∉ user_tenant r → 47 ∉ plugin_file (user_tenant r) nm) ∧
       (rs_status resp = 200 → upload_effect id1 id2 now (user_tenant r) nm s s') ∧
       ∀ t2 n2, 95 ∉ user_tenant r → 95 ∉ t2 →
         plugin_file (user_tenant r) nm = plugin_file t2 n2 → t2 = user_tenant r).
Proof.
  unfold plugins_POST. cbv zeta. split; [by intros ->|].
  destruct (is_admin r); cbn [negb]; [|eexists _, s; split; [done|]; by left].
  assert (Hno : ∃ resp s', (Ok ise, s) = (Ok resp, s') ∧ s' = s ∧ rs_status resp ≠ 200)
    by (by eexists _, s).
  destruct (rq_json r) as [body|]; [|destruct Hno as (? & ? & ? & ?); eauto 6].
  unfold catch at 1, mbind' at 1 2, ofo at 1, mret' at 1, lift_res at 1.
  destruct (jget "name" body) as [name|]; [|destruct Hno as (? & ? & ? & ?); eauto 6].
  destruct (otruthy name); cbn [negb]; [|eexists _, s; split; [done|]; by left].
  unfold mbind' at 1, ofo at 1. destruct (as_str name) as [nm|]; [|destruct Hno as (? & ? & ? & ?); eauto 6].
  destruct (upload_spec id1 id2 now (user_tenant r) nm (jopt "wasmBase64" (Some body))
    (match jopt "version" (Some body) with None => Some (JStr "1.0") | v => v end)
    (λ ver, JObj [("success", JBool true); ("id", JStr id1); ("name", JStr nm); ("version", JStr ver);
            ("filePath", JStr (joinPath plugin_dir (plugin_file (user_tenant r) nm)));
            ("message", JStr ("Wasm plugin '" ++ nm ++ "' yüklendi ve filoya dağıtılıyor"))])
    "Internal Server Error" s) as (resp & s' & E & Hf & He).
  exists resp, s'. split; [exact E|]. right. exists nm. splits; [done|apply plugin_file_flat|done|].
  intros t2 n2 H1 H2 Heq. by apply plugin_file_tenant in Heq as [-> _].
Qed.
End plugins.

(** Different plugin names of one tenant can share a file: the second upload
    then replaces the first plugin's binary. *)
Lemma plugin_file_shared tn : plugin_file tn "geo ip" = plugin_file tn "geo_ip".
Proof. reflexivity. Qed.

Module PluginDemo.
Definition s0 : @plugin_state (list WasmPlugin) (list AgentCommand) :=
  {| ps_plugins := []; ps_cmds := []; ps_files := [] |}.
Definition upload : request :=
  mk_request "/api/plugins" [("x-user-role", "admin"); ("x-user-tenant", "t1")] [] []
    (Some (JObj [("name", JStr "../../geo"); ("wasmBase64", JStr "AGFzbQ==")])).
Definition POST := plugins_POST (Tp := list WasmPlugin) (Tc := list AgentCommand) (Table0 := list_table p_id)
  (Table1 := list_table c_id) FleetDemo.hmac FleetDemo.e (λ d n, d ++ "/" ++ n) (λ _, true)
  (λ _, Some [0; 97; 115; 109]) "p1" "c1" 10 upload.
(** A traversal in the plugin name is flattened. *)
Example upload_flat : map fw_name (ps_files (POST s0).2) = ["t1_______geo.wasm"].
Proof. vm_compute. reflexivity. Qed.
End PluginDemo.
