(* ===== verification/Prometheus.v ===== *)
(** The analyzer's metrics endpoint as the dashboard reads it: the text parser
    (lib/prometheusParse.ts) and the live route with its cache
    (api/metrics/live/route.ts). *)

From S2P Require Import Prelude JsString JsNum Json Regex Http Auth.

(** ** The text parser *)

Definition is_sign (c : Z) : bool := (c =? 43) || (c =? 45).
Definition sign_re : re := ropt (RCls is_sign).
(** [[+-]?(?:\d+\.?\d*|\.\d+)(?:[eE][+-]?\d+)?] *)
Definition numeral_re : re :=
  RCat sign_re
    (RCat (RAlt (RCat (rplus digit) (RCat (ropt (chr 46)) (RStar digit))) (RCat (chr 46) (rplus digit)))
          (ropt (RCat (RCls (λ c, (c =? 101) || (c =? 69))) (RCat sign_re (rplus digit))))).

(** What follows the last occurrence of a unit. *)
Fixpoint after_last (x : Z) (s : jstring) : option jstring :=
  match s with
  | [] => None
  | c :: t => match after_last x t with
              | Some r => Some r
              | None => if c =? x then Some t else None
              end
  end.

(** [line.match(/\}\s+(numeral)\s*$/)]: no numeral holds a brace, so the brace
    is the last one of the line and the numeral what follows it, trimmed. *)
Definition braced_number (line : jstring) : option jstring :=
  match after_last 125 line with
  | Some ((c :: _) as rest) =>
      if is_space c && re_match numeral_re (trim rest) then Some (trim rest) else None
  | _ => None
  end.

(** [[+-]?\d+(?:\.\d+)?] at the start of the text, as long as it goes. *)
Definition plain_numeral (s : jstring) : option jstring :=
  let '(sign, t) := match s with
                    | c :: t => if is_sign c then ([c], t) else ([], s)
                    | [] => ([], [])
                    end in
  match take_digits t with
  | [] => None
  | ds => Some (sign ++ ds ++ match drop (length ds) t with
                              | 46 :: r => match take_digits r with [] => [] | fs => 46 :: fs end
                              | _ => []
                              end)
  end.
(** [new RegExp(`^${metric}\\s+(...)`)] for a metric name, which has no unit
    with a meaning of its own in a pattern. *)
Definition bare_number (metric line : jstring) : option jstring :=
  if starts_with metric line then
    match drop (length metric) line with
    | c :: t => if is_space c then plain_numeral (trim_start t) else None
    | [] => None
    end
  else None.

(** One turn of the loop: the value the line gives, if any. *)
Definition line_value (metric : jstring) (label : option (jstring * jstring)) (line : jstring) : option num :=
  if negb (starts_with metric line) then None
  else if starts_with "#" line then None
  else if match label with
          | Some (k, v) => nonempty k && nonempty v && negb (includes (k ++ "=" ++ dq ++ v ++ dq) line)
          | None => false
          end then None
  else match braced_number line with
       | Some m => Some (parseFloat m)
       | None => parseFloat <$> bare_number metric line
       end.
Definition parsePrometheusGauge (body metric : jstring) (label : option (jstring * jstring)) : option num :=
  first_some (line_value metric label) (split1 10 body).

(** The gauges of a snapshot: field and metric name. *)
Definition gauges : list (jstring * jstring) :=
  [("eps", "loganalyzer_eps"); ("eps_peak", "loganalyzer_eps_peak"); ("lines_total", "loganalyzer_lines_total");
   ("alerts_total", "loganalyzer_alerts_total"); ("bans_success", "loganalyzer_bans_success");
   ("bans_failed", "loganalyzer_bans_fail"); ("unique_ips", "loganalyzer_unique_ips");
   ("parse_errors", "loganalyzer_parse_errors_total")].
Definition gauges2 : list (jstring * jstring) :=
  [("ja3_clusters_active", "loganalyzer_ja3_clusters_active");
   ("ja3_cluster_bans_total", "loganalyzer_ja3_cluster_bans_total");
   ("dist_risk_buckets_active", "loganalyzer_dist_risk_buckets_active");
   ("dist_risk_bonus_applied_total", "loganalyzer_dist_risk_bonus_applied_total");
   ("dist_risk_enabled", "loganalyzer_dist_risk_enabled");
   ("threat_total_iocs", "loganalyzer_threat_total_iocs"); ("fp_trusted_ips", "loganalyzer_fp_trusted_ips");
   ("ban_pipeline_ipset", "loganalyzer_ban_pipeline_ipset"); ("ban_pipeline_ipc", "loganalyzer_ban_pipeline_ipc");
   ("ban_pipeline_xdp", "loganalyzer_ban_pipeline_xdp"); ("ban_pipeline_failed", "loganalyzer_ban_pipeline_failed");
   ("ban_events_total", "loganalyzer_ban_events_total");
   ("intel_ban_legacy_rows", "loganalyzer_intel_ban_legacy_rows");
   ("intel_ban_summary_rows", "loganalyzer_intel_ban_summary_rows");
   ("threat_last_sync_ts", "loganalyzer_threat_last_sync_ts");
   ("threat_last_applied", "loganalyzer_threat_last_applied");
   ("threat_last_failed", "loganalyzer_threat_last_failed"); ("fp_learn_enabled", "loganalyzer_fp_learn_enabled");
   ("fp_suppressed_total", "loganalyzer_fp_suppressed_total");
   ("api_requests_total", "loganalyzer_api_requests_total");
   ("api_auth_fail_total", "loganalyzer_api_auth_fail_total");
   ("api_rate_limited_total", "loganalyzer_api_rate_limited_total");
   ("webhook_sent_total", "loganalyzer_webhook_sent_total"); ("webhook_fail_total", "loganalyzer_webhook_fail_total");
   ("webhook_queue_drops_total", "loganalyzer_webhook_queue_drops_total");
   ("telegram_ack_24h", "loganalyzer_telegram_ack_24h"); ("telegram_unacked_24h", "loganalyzer_telegram_unacked_24h");
   ("webhook_quiet_hours", "loganalyzer_webhook_quiet_hours");
   ("webhook_quiet_active", "loganalyzer_webhook_quiet_active");
   ("webhook_telegram_route", "loganalyzer_webhook_telegram_route");
   ("webhook_telegram_batch_sec", "loganalyzer_webhook_telegram_batch_sec");
   ("webhook_queue_depth", "loganalyzer_webhook_queue_depth")].

Section metrics.
Context (e : env).

Definition metrics_tenant : jstring := oor (e "METRICS_TENANT") "default".
Definition gauge (body m : jstring) : num :=
  parsePrometheusGauge body m (Some ("tenant_id", metrics_tenant)) ??
    (parsePrometheusGauge body m None ?? nzero).
Definition gauge_field (body : jstring) (g : jstring * jstring) : jstring * json :=
  (g.1, JNum (gauge body g.2)).

(** The object literal, with its fields in the source's order. *)
Definition snapshot_fields (body : jstring) (now : Z) : list (jstring * json) :=
  map (gauge_field body) gauges ++
  [("xdp_active", jint (if neq_num (gauge body "loganalyzer_xdp_active") (num_of_Z 1) then 1 else 0))] ++
  map (gauge_field body) gauges2 ++
  [("http_4xx", JNum (parsePrometheusGauge body "loganalyzer_http_status_total" (Some ("code", "4xx")) ?? nzero));
   ("http_5xx", JNum (parsePrometheusGauge body "loganalyzer_http_status_total" (Some ("code", "5xx")) ?? nzero));
   ("reachable", JBool (includes "loganalyzer_eps" body));
   ("ts", jint now)].
Definition parseGuardianMetrics (body : jstring) (now : Z) : json := JObj (snapshot_fields body now).

(** ** The live route *)

Definition CACHE_MS : Z := 3000.
Definition live_cache := option (Z * json).

(** The cached snapshot, when it is young enough. *)
Definition cached_snapshot (now : Z) (c : live_cache) : option json :=
  match c with
  | Some (ts, body) => if now - ts <? CACHE_MS then Some body else None
  | None => None
  end.

(** [fetchText] is [fetch(url)] with [res.text()]: status and text, or the
    error's message; the inner failure is a body that cannot be read.  [t1] is
    the clock when the text has arrived. *)
Definition live_GET (fetchText : jstring → res (Z * res jstring)) (now t1 : Z) (c : live_cache) :
    response * live_cache :=
  let failed msg := respond 200 (JObj
    [("reachable", JBool false); ("eps", jint 0); ("lines_total", jint 0); ("alerts_total", jint 0);
     ("bans_success", jint 0); ("bans_failed", jint 0); ("unique_ips", jint 0); ("parse_errors", jint 0);
     ("xdp_active", jint 0); ("ts", jint now); ("error", JStr msg);
     ("hint", JStr "GUARDIAN_METRICS_URL=http://metrics-relay:19091/metrics")]) in
  match cached_snapshot now c with
  | Some body => (with_cache "private, max-age=2" (respond 200 body), c)
  | None =>
      match fetchText (guardianMetricsUrl e) with
      | Throw msg => (failed msg, c)
      | Ok (st, text) =>
          if negb (res_ok st) then
            (respond 200 (JObj [("reachable", JBool false); ("eps", jint 0); ("ts", jint now);
                                ("error", JStr ("HTTP " ++ dec st))]), c)
          else
            match text with
            | Throw msg => (failed msg, c)
            | Ok text => let body := parseGuardianMetrics text t1 in
                         (with_cache "private, max-age=2" (respond 200 body), Some (now, body))
            end
      end
  end.
End metrics.

(** ** Reading an exposition *)

(** Lines of the exposition format: comments and labelled samples. *)
Inductive prom_line :=
  | PComment (text : jstring)
  | PSample (name labels value : jstring).
Definition render (l : prom_line) : jstring :=
  match l with
  | PComment t => "#" ++ t
  | PSample n ls v => n ++ "{" ++ ls ++ "} " ++ v
  end.
Definition name_unit (c : Z) : bool :=
  is_digit c || ((97 <=? ascii_lower c) && (ascii_lower c <=? 122)) || (c =? 95) || (c =? 58).
(** Metric names, labels on one line, values that are numerals. *)
Definition line_wf (l : prom_line) : bool :=
  match l with
  | PComment t => negb (bool_decide (10 ∈ t))
  | PSample n ls v => nonempty n && forallb name_unit n && negb (bool_decide (10 ∈ ls)) && re_match numeral_re v
  end.
Definition sample_hit (metric : jstring) (label : option (jstring * jstring)) (l : prom_line) : bool :=
  match l with
  | PComment _ => false
  | PSample n _ _ => starts_with metric n &&
      match label with Some (k, v) => includes (k ++ "=" ++ dq ++ v ++ dq) (render l) | None => true end
  end.
Definition sample_value (l : prom_line) : num :=
  match l with PComment _ => nNaN | PSample _ _ v => parseFloat v end.

Lemma after_last_app x a b : x ∉ b → after_last x (a ++ x :: b) = Some b.
Proof.
  intros Hb. assert (Hn : after_last x b = None).
  { induction b as [|c b IH]; [done|]. apply not_elem_of_cons in Hb as [? ?]. cbn. rewrite IH by done.
    destruct (c =? x) eqn:E; [apply Z.eqb_eq in E; congruence|done]. }
  induction a as [|c a IH]; cbn; [by rewrite Hn, Z.eqb_refl|by rewrite IH].
Qed.

(** Units of a numeral: neither spaces nor braces nor line feeds. *)
Definition numeral_unit (c : Z) : bool :=
  is_digit c || is_sign c || (c =? 46) || (c =? 101) || (c =? 69).
Fixpoint units_of (p : Z → bool) (r : re) : Prop :=
  match r with
  | RVoid | REps => True
  | RCls q => ∀ c, q c = true → p c = true
  | RCat a b | RAlt a b => units_of p a ∧ units_of p b
  | RStar a => units_of p a
  end.
Lemma rmatch_units p r s : units_of p r → rmatch r s → ∀ c, c ∈ s → p c = true.
Proof.
  intros Hr Hm. induction Hm; cbn in Hr; intros d Hd.
  all: try (by apply elem_of_nil in Hd).
  all: try (destruct Hr as [Hr1 Hr2]; by auto).
  all: try (rewrite elem_of_app in Hd; destruct Hd; destruct_and?; by eauto).
  all: try (apply list_elem_of_singleton in Hd as ->; by auto).
Qed.

Lemma numeral_units v c : re_match numeral_re v = true → c ∈ v → numeral_unit c = true.
Proof.
  intros Hv. apply (rmatch_units numeral_unit numeral_re); [|by apply re_match_spec].
  unfold numeral_unit. cbn -[Z.eqb]. repeat split; intros d Hd; unfold is_sign, is_digit in *; lia.
Qed.
Lemma numeral_unit_plain c : numeral_unit c = true → is_space c = false ∧ c ≠ 125 ∧ c ≠ 10.
Proof.
  intros H. assert (Hc : 43 ≤ c ≤ 101 ∧ c ≠ 96).
  { unfold numeral_unit, is_sign, is_digit in H. lia. }
  split; [|lia]. unfold is_space. lia.
Qed.

(** ** The parser finds the first sample whose name starts with the metric's *)

Lemma starts_with_stop m n r x : x ∉ m → starts_with m (n ++ x :: r) = starts_with m n.
Proof.
  revert m. induction n as [|c n IH]; intros [|d m] Hm; cbn; try done.
  - apply not_elem_of_cons in Hm as [Hx _]. destruct (d =? x) eqn:E; [|done]. bprop. congruence.
  - apply not_elem_of_cons in Hm as [_ Hm]. by rewrite IH.
Qed.
Lemma name_unit_not c m : name_unit c = false → forallb name_unit m = true → c ∉ m.
Proof. intros Hc Hm Hin. rewrite forallb_Forall, Forall_forall in Hm. specialize (Hm c Hin). congruence. Qed.

Lemma braced_sample n ls v : re_match numeral_re v = true → braced_number (render (PSample n ls v)) = Some v.
Proof.
  intros Hv. assert (Hu := λ c H, numeral_unit_plain c (numeral_units v c Hv H)).
  assert (Ht : trim (32 :: v) = v).
  { transitivity (trim v); [reflexivity|]. apply trim_no_space. intros c Hc. by apply Hu. }
  unfold braced_number, render. replace (n ++ "{" ++ ls ++ "} " ++ v) with ((n ++ "{" ++ ls) ++ 125 :: 32 :: v)
    by (by rewrite <- !app_assoc).
  rewrite after_last_app.
  - rewrite Ht, Hv. reflexivity.
  - intros [E|Hc]%elem_of_cons; [done|]. by destruct (Hu _ Hc) as (_ & ? & _).
Qed.

Section exposition.
Context (metric : jstring) (label : option (jstring * jstring)).
Context (Hne : nonempty metric = true) (Hm : forallb name_unit metric = true).
Context (Hl : match label with Some (k, v) => nonempty k && nonempty v | None => true end = true).

Lemma line_value_render l :
  line_wf l = true →
  line_value metric label (render l) = if sample_hit metric label l then Some (sample_value l) else None.
Proof.
  destruct l as [t|n ls v]; intros Hw; unfold line_value.
  - destruct metric as [|c m]; [done|]. cbn in Hm. bprop. cbn [render app starts_with sample_hit].
    assert (c =? 35 = false) as -> by (unfold name_unit, is_digit, ascii_lower in *; split_if; lia). done.
  - cbn in Hw. bprop. destruct n as [|c n]; [done|].
    assert (Hs : starts_with metric (render (PSample (c :: n) ls v)) = starts_with metric (c :: n)).
    { unfold render. apply starts_with_stop. by apply name_unit_not. }
    rewrite Hs. unfold sample_hit. destruct (starts_with metric (c :: n)); [|done]. cbn [negb andb].
    assert (starts_with "#" (render (PSample (c :: n) ls v)) = false) as ->.
    { cbn [render app starts_with]. assert (Hc : name_unit c = true) by (cbn [forallb] in *; by bprop).
      destruct (35 =? c) eqn:E; [|done]. apply Z.eqb_eq in E. by subst. }
    rewrite braced_sample by done. destruct label as [[k w]|]; [|done]. rewrite Hl. cbn [andb].
    by destruct (includes _ _).
Qed.

Lemma gauge_of_lines ls :
  ls ≠ [] → forallb line_wf ls = true →
  parsePrometheusGauge (join [10] (map render ls)) metric label = sample_value <$> jfind (sample_hit metric label) ls.
Proof.
  intros Hn Hw. rewrite forallb_Forall, Forall_forall in Hw. unfold parsePrometheusGauge.
  rewrite split1_of_join; [|by destruct ls|].
  - clear Hn. induction ls as [|l ls IH]; [done|]. cbn [map first_some]. rewrite line_value_render by (apply Hw; by left).
    unfold jfind in *. cbn [List.find]. destruct (sample_hit _ _ l); [done|]. apply IH. intros x Hx. apply Hw. by right.
  - intros p (l & -> & Hin)%list_elem_of_fmap. specialize (Hw l Hin). destruct l as [t|n la v]; cbn in Hw; bprop; cbn.
    + by intros [|]%elem_of_cons.
    + assert (10 ∉ n) by by apply name_unit_not. repeat first [rewrite elem_of_app | rewrite elem_of_cons].
      intros [?|[?|[?|[?|[?|Hv]]]]]; try done. by apply (numeral_units v) in Hv.
Qed.
End exposition.

Section snapshot.
Context (e : env).

(** The gauge fields of a snapshot are read under their metric's name. *)
Lemma snapshot_gauge body now f m :
  (f, m) ∈ gauges ++ gauges2 →
  assoc f (snapshot_fields e body now) = Some (JNum (gauge e body m)) ∧
  nonempty m = true ∧ forallb name_unit m = true.
Proof.
  revert f m. assert (Hall : Forall (λ g, assoc g.1 (snapshot_fields e body now) = Some (JNum (gauge e body g.2)) ∧
    nonempty g.2 = true ∧ forallb name_unit g.2 = true) (gauges ++ gauges2)).
  { repeat constructor. }
  intros f m H. rewrite Forall_forall in Hall. exact (Hall (f, m) H).
Qed.
Lemma tenant_label_ok :
  match Some (("tenant_id" : jstring), metrics_tenant e) with
  | Some (k, v) => nonempty k && nonempty v | None => true end = true.
Proof. unfold metrics_tenant, oor, sor. cbn. by destruct (nonempty (default [] (e _))) eqn:E. Qed.

(** On an exposition of comments and labelled samples, every gauge field of
    the snapshot is the value of its own metric's sample of the configured
    tenant, provided no earlier sample of that tenant has a name that extends
    the metric's (the exporter's order); a metric that no sample's name starts
    with reads as zero. *)
Theorem metrics_snapshot_exact f m pre labels v post now :
  let ls := pre ++ PSample m labels v :: post in
  let tenant := Some (("tenant_id" : jstring), metrics_tenant e) in
  let body := join [10] (map render ls) in
  (f, m) ∈ gauges ++ gauges2 → forallb line_wf ls = true →
  (sample_hit m tenant (PSample m labels v) = true →
   forallb (λ l, negb (sample_hit m tenant l)) pre = true →
   assoc f (snapshot_fields e body now) = Some (JNum (parseFloat v))) ∧
  (∀ f' m', (f', m') ∈ gauges ++ gauges2 → forallb (λ l, negb (sample_hit m' None l)) ls = true →
   assoc f' (snapshot_fields e body now) = Some (JNum nzero)).
Proof.
  intros ls tenant body Hg Hw. assert (Hne : ls ≠ []) by (unfold ls; by destruct pre). split.
  - intros Hhit Hpre. destruct (snapshot_gauge body now f m Hg) as (-> & Hn & Hu).
    unfold gauge, body. fold tenant. rewrite (gauge_of_lines m tenant) by eauto using tenant_label_ok.
    enough (jfind (sample_hit m tenant) ls = Some (PSample m labels v)) as E by (rewrite E; done).
    unfold ls, jfind. clear -Hhit Hpre. induction pre as [|l pre IH]; cbn [app List.find]; [by rewrite Hhit|].
    cbn [forallb] in Hpre. bprop. replace (sample_hit m tenant l) with false by done. by apply IH.
  - intros f' m' Hg' Hno. destruct (snapshot_gauge body now f' m' Hg') as (-> & Hn & Hu).
    rewrite forallb_Forall, Forall_forall in Hno.
    unfold gauge, body. rewrite !gauge_of_lines by eauto using tenant_label_ok.
    assert (∀ lab, jfind (sample_hit m' lab) ls = None) as Hnone.
    { intros lab. apply jfind_None. intros x Hx. specialize (Hno x Hx). bprop.
      destruct x as [|n la w]; [done|]. cbn in Hno |- *. rewrite andb_true_r in Hno. by rewrite Hno. }
    by rewrite !Hnone.
Qed.

(** A cached snapshot is shown only within [CACHE_MS] of the request that
    fetched it, and a failed fetch never replaces it. *)
Lemma live_cache_rule fetchText now t1 c :
  let '(resp, c') := live_GET e fetchText now t1 c in
  rs_status resp = 200 ∧
  (c' = c ∨ ∃ st text, fetchText (guardianMetricsUrl e) = Ok (st, Ok text) ∧ res_ok st = true ∧
     c' = Some (now, parseGuardianMetrics e text t1) ∧ body_json resp = Some (parseGuardianMetrics e text t1)).
Proof.
  unfold live_GET. destruct (cached_snapshot now c); [by eauto|].
  destruct (fetchText _) as [[st text]|msg]; [|by eauto]. destruct (res_ok st) eqn:Es; cbn [negb]; [|by eauto].
  destruct text as [text|msg]; [|by eauto]. split; [done|]. right. by exists st, text.
Qed.
End snapshot.

Module PromDemo.
Definition e : env := env_of [].
Definition labels : jstring := "tenant_id=" ++ dq ++ "default" ++ dq.
Definition eps : prom_line := PSample "loganalyzer_eps" labels "12.5".
Definition peak : prom_line := PSample "loganalyzer_eps_peak" labels "900".
Definition snapshot (ls : list prom_line) (f : jstring) : option json :=
  assoc f (snapshot_fields e (join [10] (map render ls)) 1000).
End PromDemo.

(** The parser matches names by prefix: when the peak is listed before the
    gauge, its value is shown as the current rate. *)
Lemma prom_prefix_confusion :
  PromDemo.snapshot [PromDemo.peak; PromDemo.eps] "eps" = Some (jint 900) ∧
  PromDemo.snapshot [PromDemo.eps; PromDemo.peak] "eps" = Some (JNum (parseFloat "12.5")).
Proof. split; vm_compute; reflexivity. Qed.

Lemma metrics_snapshot_exact_witness :
  PromDemo.snapshot [PComment " HELP loganalyzer_eps"; PromDemo.eps; PromDemo.peak] "eps" =
    Some (JNum (parseFloat "12.5")).
Proof.
  refine (proj1 (metrics_snapshot_exact PromDemo.e "eps" "loganalyzer_eps" [PComment " HELP loganalyzer_eps"]
    PromDemo.labels "12.5" [PromDemo.peak] 1000 _ _) _ _).
  - by left.
  - vm_compute. reflexivity.
  - vm_compute. reflexivity.
  - vm_compute. reflexivity.
Defined.
