(* ===== verification/JsValue.v ===== *)
(** JavaScript values as the libraries that read reports use them: documents come
    from [JSON.parse] without a check, so an operation on a value of another type
    than the declared one behaves as the language says, up to a [TypeError].  The
    file holds those operations, the TypeScript object types as data and the
    lemmas that connect the two: on documents of their declared type no operation
    of the evaluators throws.  It models the language, not a file of the
    repository. *)

From S2P Require Import Prelude JsString JsNum Json Regex Http Prometheus.

(** A value; [None] is [undefined]. *)
Abbreviation val := (option json).
Definition vs (t : jstring) : val := Some (JStr t).
Definition vn (z : Z) : val := Some (jint z).
Definition vb (b : bool) : val := Some (JBool b).
Definition vnum (x : num) : val := Some (JNum x).

(** [v?.k], and [v.k] on a value that is not nullish. *)
Notation "v .[ k ]" := (jopt k v) (at level 2, left associativity, format "v .[ k ]") : js_scope.
(** [a ?? b] and [a || b] *)
Definition ncoal (a b : val) : val := match nullish a with Some v => Some v | None => b end.
Definition vor (a b : val) : val := if otruthy a then a else b.
Infix "???" := ncoal (at level 45, right associativity) : js_scope.
Infix "|||" := vor (at level 50, left associativity) : js_scope.

(** [a === b]; two objects read from documents are never the same object. *)
Definition strict_eq (a b : val) : bool :=
  match a, b with
  | None, None | Some JNull, Some JNull => true
  | Some (JBool x), Some (JBool y) => eqb x y
  | Some (JNum x), Some (JNum y) => neq_num x y
  | Some (JStr x), Some (JStr y) => x =s y
  | _, _ => false
  end.
Infix "===" := strict_eq (at level 70) : js_scope.

(** [Number(s)] for decimal text and the prefixed integers. *)
Definition radix_digits (radix : Z) (s : jstring) : option Z :=
  match s with
  | [] => None
  | _ => fold_left (λ acc c, match acc, hex_val c with
                             | Some a, Some d => if d <? radix then Some (a * radix + d) else None
                             | _, _ => None end) s (Some 0)
  end.
Definition js_Number (s : jstring) : num :=
  let t := trim s in
  let radix n := match radix_digits n (drop 2 t) with Some z => num_of_Z z | None => nNaN end in
  if negb (nonempty t) then nzero
  else if re_match numeral_re t || re_match (RCat sign_re (lit "Infinity")) t then parseFloat t
  else if starts_with "0x" t || starts_with "0X" t then radix 16
  else if starts_with "0o" t || starts_with "0O" t then radix 8
  else if starts_with "0b" t || starts_with "0B" t then radix 2
  else nNaN.
(** A number as [JSON.stringify] prints it. *)
Definition num_json (x : num) : json := if is_finite x then JNum x else JNull.
(** ToNumber *)
Definition to_num (v : val) : num :=
  match v with
  | None => nNaN
  | Some JNull => nzero
  | Some (JBool b) => num_of_Z (if b then 1 else 0)
  | Some (JNum x) => x
  | Some (JStr s) => js_Number s
  | Some (JArr l) => js_Number (to_str (JArr l))
  | Some (JObj _) => nNaN
  end.
(** ToPrimitive keeps text as text; objects become text. *)
Definition prim_text (v : val) : option jstring :=
  match v with
  | Some (JStr s) => Some s
  | Some (JArr l) => Some (to_str (JArr l))
  | Some (JObj fs) => Some (to_str (JObj fs))
  | _ => None
  end.
Fixpoint text_lt (a b : jstring) : bool :=
  match a, b with
  | _, [] => false
  | [], _ :: _ => true
  | x :: a', y :: b' => if x =? y then text_lt a' b' else x <? y
  end.
(** [a < b], [a <= b]: text is compared by units, anything else as numbers. *)
Definition vlt (a b : val) : bool :=
  match prim_text a, prim_text b with
  | Some x, Some y => text_lt x y
  | _, _ => nlt (to_num a) (to_num b)
  end.
Definition vle (a b : val) : bool :=
  match prim_text a, prim_text b with
  | Some x, Some y => negb (text_lt y x)
  | _, _ => nle (to_num a) (to_num b)
  end.
Definition vdiv (a b : val) : val := vnum (ndiv (to_num a) (to_num b)).

(** [Math.round]: the nearest integer, halves up. *)
Definition nround (x : num) : num :=
  match x with
  | S754_finite s m e =>
      if 0 <=? e then x
      else let q := 2 ^ (- e) in
           let p := if s then Z.neg m else Z.pos m in
           let r := (2 * p + q) / (2 * q) in
           if (r =? 0) && s then S754_zero true else num_of_Z r
  | _ => x
  end.

(** ** Operations that may throw *)

Definition rbind {A B} (m : res A) (k : A → res B) : res B :=
  match m with Ok a => k a | Throw e => Throw e end.
Notation "'let?' x ':=' m 'in' k" := (rbind m (λ x, k))
  (at level 10, x name, m at level 100, k at level 200) : js_scope.
Fixpoint rseq {A} (l : list (res A)) : res (list A) :=
  match l with
  | [] => Ok []
  | m :: l => rbind m (λ a, rbind (rseq l) (λ r, Ok (a :: r)))
  end.
Definition not_a_function {A} (name : jstring) : res A := Throw (name ++ " is not a function").

(** Expressions: a literal text, a computed value, [String(v)]. *)
Definition str (t : jstring) : res val := Ok (vs t).
Definition ret (v : val) : res val := Ok v.
Definition Str (v : val) : res val := Ok (vs (ostr v)).
(** Template literals: fixed text, [${v}], and [${e}] for an expression. *)
Definition Txt (t : jstring) : res jstring := Ok t.
Definition Val (v : val) : res jstring := Ok (ostr v).
Definition Exp (m : res val) : res jstring := rbind m (λ v, Ok (ostr v)).
(** [v.toFixed(n)] *)
Definition Fix (n : Z) (v : val) : res jstring :=
  match v with
  | Some (JNum x) => Ok (toFixed n x)
  | None | Some JNull => Throw "Cannot read properties of undefined"
  | _ => not_a_function "toFixed"
  end.
Definition tpl (parts : list (res jstring)) : res val := rbind (rseq parts) (λ l, Ok (vs (concat l))).

(** [v.length] of an array or a text, [undefined] for the rest. *)
Definition vlength (v : val) : val :=
  match v with
  | Some (JArr l) => vn (Z.of_nat (length l))
  | Some (JStr t) => vn (slen t)
  | Some (JObj fs) => assoc "length" fs
  | _ => None
  end.
(** [v?.[i]]; an object has its numbers as names. *)
Definition vindex (i : nat) (v : val) : val :=
  match v with
  | Some (JArr l) => l !! i
  | Some (JStr t) => (λ c, JStr [c]) <$> t !! i
  | Some (JObj fs) => assoc (dec (Z.of_nat i)) fs
  | _ => None
  end.
(** [v.join(sep)] *)
Definition vjoin (sep : jstring) (v : val) : res val :=
  match v with
  | Some (JArr l) => Ok (vs (join sep (map (λ x, match x with JNull => [] | _ => to_str x end) l)))
  | None | Some JNull => Throw "Cannot read properties of undefined"
  | _ => not_a_function "join"
  end.
(** [v.filter(p)] *)
Fixpoint rfilter {A} (p : A → res bool) (l : list A) : res (list A) :=
  match l with
  | [] => Ok []
  | x :: l => rbind (p x) (λ b, rbind (rfilter p l) (λ r, Ok (if b then x :: r else r)))
  end.
Definition vfilter (p : json → res bool) (v : val) : res val :=
  match v with
  | Some (JArr l) => rbind (rfilter p l) (λ r, Ok (Some (JArr r)))
  | None | Some JNull => Throw "Cannot read properties of undefined"
  | _ => not_a_function "filter"
  end.
(** [v.slice(0, n)] of an array or a text. *)
Definition vslice (n : Z) (v : val) : res val :=
  match v with
  | Some (JArr l) => Ok (Some (JArr (take (Z.to_nat n) l)))
  | Some (JStr t) => Ok (vs (str_upto n t))
  | None | Some JNull => Throw "Cannot read properties of undefined"
  | _ => not_a_function "slice"
  end.
(** [v.includes(t)]: text inside a text, or an element of an array. *)
Definition vincludes (t : jstring) (v : val) : res bool :=
  match v with
  | Some (JStr u) => Ok (includes t u)
  | Some (JArr l) => Ok (existsb (λ x, Some x === vs t) l)
  | None | Some JNull => Throw "Cannot read properties of undefined"
  | _ => not_a_function "includes"
  end.
(** [Object.entries(v)]: text and arrays list their positions. *)
Definition entries (v : val) : res (list (jstring * json)) :=
  match v with
  | None | Some JNull => Throw "Cannot convert undefined or null to object"
  | Some (JObj fs) => Ok fs
  | Some (JArr l) => Ok (imap (λ i x, (dec (Z.of_nat i), x)) l)
  | Some (JStr t) => Ok (imap (λ i c, (dec (Z.of_nat i), JStr [c])) t)
  | _ => Ok []
  end.
(** [x.k] of a document, which throws on [null]. *)
Definition dot (k : jstring) (x : json) : res val := jget k x.

(** The empty literals, [null] and an array literal. *)
Definition empty_arr : val := Some (JArr []).
Definition empty_obj : val := Some (JObj []).
Definition vnull : val := Some JNull.
Definition varr (l : list val) : val := Some (JArr (map (default JNull) l)).
(** [a && b] *)
Definition vand (a b : val) : val := if otruthy a then b else a.

(** [for (const x of v ?? [])]; the loop reads fields, which [null] does not have. *)
Definition items (v : val) : res (list json) :=
  match v ??? empty_arr with
  | Some (JArr l) => Ok l
  | Some (JStr t) => Ok (map (λ c, JStr c) (code_points t))
  | _ => Throw "value is not iterable"
  end.
Definition not_null (x : json) : res val :=
  match x with JNull => Throw "Cannot read properties of null" | _ => Ok (Some x) end.

(** ** TypeScript types of documents

    [TObj fs] lists the fields of an object type, [TRecord t] is
    [Record<string, t>], [TNull t] is [t | null], [TLits l] a union of texts. *)
Inductive ty :=
  | TNum | TStr | TBool
  | TLits (l : list jstring)
  | TArr (t : ty)
  | TObj (fs : list (jstring * (bool * ty)))
  | TRecord (t : ty)
  | TUnion (t u : ty)
  | TNull (t : ty).
(** [k?: t] and [k: t] *)
Definition opt (k : jstring) (t : ty) : jstring * (bool * ty) := (k, (false, t)).
Definition req (k : jstring) (t : ty) : jstring * (bool * ty) := (k, (true, t)).

(** Whether a document has a type; properties the type does not name are free. *)
Fixpoint has_ty (t : ty) (v : json) : bool :=
  match t with
  | TNum => match v with JNum _ => true | _ => false end
  | TStr => match v with JStr _ => true | _ => false end
  | TBool => match v with JBool _ => true | _ => false end
  | TLits ls => match v with JStr x => existsb (jeq x) ls | _ => false end
  | TArr t => match v with JArr l => forallb (has_ty t) l | _ => false end
  | TObj fs =>
      match v with
      | JObj gs => forallb (λ f, match assoc f.1 gs with Some x => has_ty f.2.2 x | None => negb f.2.1 end) fs
      | _ => false
      end
  | TRecord t => match v with JObj gs => forallb (λ g, has_ty t g.2) gs | _ => false end
  | TUnion t u => has_ty t v || has_ty u v
  | TNull t => match v with JNull => true | _ => has_ty t v end
  end.

(** ** Typing of the operations

    [tyn t v]: the value is nullish or has the type, which is what [v ?? d] and
    [v?.k] need. *)
Definition tyn (t : ty) (v : val) : Prop :=
  match nullish v with None => True | Some x => has_ty t x = true end.
Definition bare (t : ty) : ty := match t with TNull t => t | _ => t end.
Definition has_str (v : val) : Prop := ∃ t, v = vs t.
Definition has_num (v : val) : Prop := ∃ x, v = vnum x.
Definition has_arr (v : val) : Prop := ∃ l, v = Some (JArr l).
Definition okv {A} (m : res A) : Prop := ∃ v, m = Ok v.
Definition okstr (m : res val) : Prop := ∃ t, m = Ok (vs t).

Lemma has_ty_nn t v : v ≠ JNull → has_ty t v = true → has_ty (bare t) v = true.
Proof. intros Hn. destruct t; cbn; try done. destruct v; done. Qed.
Lemma tyn_get fs v k t : tyn (TObj fs) v → (bare ∘ snd) <$> assoc k fs = Some t → tyn t v.[k].
Proof.
  intros Hv Hk. destruct v as [[| | | | |gs]|]; try done; cbn in Hv |- *.
  destruct (assoc k fs) as [[b t']|] eqn:Ha; [|done]. simplify_eq/=.
  apply assoc_elem in Ha. rewrite forallb_forall in Hv. specialize (Hv (k, (b, t'))).
  rewrite <- list_elem_of_In in Hv. specialize (Hv Ha). cbn in Hv.
  unfold tyn. destruct (assoc k gs) as [x|]; [|done]. destruct x; cbn; try done; by apply has_ty_nn.
Qed.
Lemma tyn_coal t a b : tyn t a → tyn t b → tyn t (a ??? b).
Proof. unfold ncoal. destruct a as [[]|]; cbn; done. Qed.
Lemma tyn_num z : tyn TNum (vn z). Proof. done. Qed.
Lemma tyn_str z : tyn TStr (vs z). Proof. done. Qed.
Lemma tyn_none t : tyn t None. Proof. done. Qed.

Lemma num_coal a z : tyn TNum a → has_num (a ??? vn z).
Proof. intros H. unfold ncoal. destruct a as [[]|]; cbn in *; try done; by eexists. Qed.
Lemma num_present a : present a = true → tyn TNum a → has_num a.
Proof. destruct a as [[]|]; cbn; try done. intros. by eexists. Qed.
Lemma num_vn z : has_num (vn z). Proof. by eexists. Qed.
Lemma num_vdiv a b : has_num (vdiv a b). Proof. by eexists. Qed.
Lemma num_vnum x : has_num (vnum x). Proof. by eexists. Qed.
Lemma num_if (c : bool) a b : has_num a → has_num b → has_num (if c then a else b).
Proof. by destruct c. Qed.
Lemma str_vs t : has_str (vs t). Proof. by eexists. Qed.
Lemma str_coal a t : tyn TStr a → has_str (a ??? vs t).
Proof. intros H. unfold ncoal. destruct a as [[]|]; cbn in *; try done; by eexists. Qed.
Lemma str_or a b : tyn TStr a → has_str b → has_str (a ||| b).
Proof.
  intros Ha [t ->]. unfold vor. destruct a as [[| | |u| |]|]; cbn in *; try done; try by eexists.
  destruct (nonempty u); by eexists.
Qed.
Lemma str_truthy a : otruthy a = true → tyn TStr a → has_str a.
Proof. destruct a as [[]|]; cbn; try done. intros. by eexists. Qed.
Lemma str_if (c : bool) a b : (c = true → has_str a) → (c = false → has_str b) → has_str (if c then a else b).
Proof. destruct c; auto. Qed.
Lemma arr_coal t a l : tyn (TArr t) a → has_arr (a ??? Some (JArr l)).
Proof. intros H. unfold ncoal. destruct a as [[]|]; cbn in *; try done; by eexists. Qed.
Lemma arr_len t a : otruthy (vlength a) = true → tyn (TArr t) a → has_arr a.
Proof. destruct a as [[]|]; cbn; try done. intros. by eexists. Qed.

Lemma okstr_okv m : okstr m → okv m. Proof. intros [t ->]. by eexists. Qed.
Lemma okv_ok {A} (a : A) : okv (Ok a). Proof. by eexists. Qed.
Lemma okv_if {A} (c : bool) (a b : res A) : (c = true → okv a) → (c = false → okv b) → okv (if c then a else b).
Proof. destruct c; auto. Qed.
Lemma okstr_str t : okstr (str t). Proof. by eexists. Qed.
Lemma okstr_Str v : okstr (Str v). Proof. by eexists. Qed.
Lemma okstr_ret v : has_str v → okstr (ret v). Proof. intros [t ->]. by eexists. Qed.
Lemma okstr_if (c : bool) a b : (c = true → okstr a) → (c = false → okstr b) → okstr (if c then a else b).
Proof. destruct c; auto. Qed.
Lemma okstr_bind (Q : val → Prop) m k :
  (∃ v, m = Ok v ∧ Q v) → (∀ v, Q v → okstr (k v)) → okstr (rbind m k).
Proof. intros (v & -> & HQ) Hk. by apply Hk. Qed.
Lemma okv_Txt t : okv (Txt t). Proof. by eexists. Qed.
Lemma okv_Val v : okv (Val v). Proof. by eexists. Qed.
Lemma okv_Exp m : okstr m → okv (Exp m). Proof. intros [t ->]. by eexists. Qed.
Lemma okv_Fix n v : has_num v → okv (Fix n v). Proof. intros [x ->]. by eexists. Qed.
Lemma okv_rseq {A} (l : list (res A)) : Forall okv l → okv (rseq l).
Proof.
  induction 1 as [|m l [a ->] _ [r Hr]]; cbn; [by eexists|]. rewrite Hr. by eexists.
Qed.
Lemma okstr_tpl l : Forall okv l → okstr (tpl l).
Proof. intros H. destruct (okv_rseq l H) as [r Hr]. unfold tpl. rewrite Hr. by eexists. Qed.
Lemma okstr_vjoin sep v : has_arr v → okstr (vjoin sep v).
Proof. intros [l ->]. by eexists. Qed.
Lemma vslice_arr n v : has_arr v → ∃ w, vslice n v = Ok w ∧ has_arr w.
Proof. intros [l ->]. eexists; split; [done|by eexists]. Qed.
Lemma okstr_vslice n v : has_str v → okstr (vslice n v).
Proof. intros [t ->]. by eexists. Qed.
Lemma okv_vincludes t v : has_str v → okv (vincludes t v).
Proof. intros [u ->]. by eexists. Qed.
Lemma rfilter_ok {A} (p : A → res bool) l : (∀ x, x ∈ l → okv (p x)) → okv (rfilter p l).
Proof.
  induction l as [|x l IH]; intros H; cbn; [by eexists|].
  destruct (H x) as [b ->]; [left|]. destruct IH as [r ->]; [intros y Hy; apply H; by right|]. by eexists.
Qed.
Lemma vfilter_ok fs p v : tyn (TArr (TObj fs)) v → (∀ gs, okv (p (JObj gs))) →
  ∃ w, vfilter p (v ??? empty_arr) = Ok w ∧ has_arr w.
Proof.
  intros Hv Hp. assert (Hl : ∃ l, v ??? empty_arr = Some (JArr l) ∧ forallb (has_ty (TObj fs)) l = true).
  { unfold ncoal. destruct v as [[| | | |l|]|]; cbn in *; try done; by eexists. }
  destruct Hl as (l & -> & Hl). rewrite forallb_forall in Hl.
  destruct (rfilter_ok p l) as [r Hr].
  { intros x Hx. apply list_elem_of_In in Hx. specialize (Hl x Hx). destruct x; done. }
  cbn. rewrite Hr. eexists; split; [done|by eexists].
Qed.
Lemma entries_record t v : tyn (TRecord t) v →
  ∃ l, entries (v ??? empty_obj) = Ok l ∧ ∀ kc, kc ∈ l → has_ty t kc.2 = true.
Proof.
  intros Hv. unfold ncoal. destruct v as [[| | | | |gs]|]; cbn in *; try done.
  - exists []. split; [done|]. intros kc Hk. by apply elem_of_nil in Hk.
  - exists gs. split; [done|]. rewrite forallb_forall in Hv. intros kc Hk. by apply Hv, list_elem_of_In.
  - exists []. split; [done|]. intros kc Hk. by apply elem_of_nil in Hk.
Qed.

Lemma Forall_if {A} (P : A → Prop) (c : bool) l r :
  (c = true → Forall P l) → (c = false → Forall P r) → Forall P (if c then l else r).
Proof. destruct c; auto. Qed.
Lemma ok_weak {A} (m : res A) : okv m → ∃ v, m = Ok v ∧ True.
Proof. intros [v ->]. by exists v. Qed.
Lemma okstr_strong m : okstr m → ∃ v, m = Ok v ∧ has_str v.
Proof. intros [t ->]. eexists; split; [done|by eexists]. Qed.

Lemma okv_bind {A B} (Q : A → Prop) (m : res A) (k : A → res B) :
  (∃ v, m = Ok v ∧ Q v) → (∀ v, Q v → okv (k v)) → okv (rbind m k).
Proof. intros (v & -> & HQ) Hk. by apply Hk. Qed.
Lemma tyn_has_str v : has_str v → tyn TStr v. Proof. by intros [t ->]. Qed.
Lemma okv_ret v : okv (ret v). Proof. by eexists. Qed.
Lemma dot_ok fs k x : has_ty (TObj fs) x = true → okv (dot k x).
Proof. destruct x; cbn; try done. intros _. by eexists. Qed.
Lemma entries_map t v : tyn (TRecord t) v → otruthy v = true →
  ∃ l, entries v = Ok l ∧ ∀ kc, kc ∈ l → has_ty t kc.2 = true.
Proof. intros Hv Ht. pose proof (entries_record t v Hv) as H. by destruct v as [[]|]. Qed.

#[export] Hint Resolve tyn_num tyn_str tyn_none num_vn num_vdiv num_vnum str_vs okstr_str okstr_Str okv_Txt okv_Val
  okv_ok : lg.

(** Finds the type of a path of a report. *)
Ltac ty_path :=
  lazymatch goal with
  | |- tyn _ (ncoal _ _) => apply tyn_coal; ty_path
  | |- tyn _ (jopt _ _) =>
      first [ assumption
            | solve [eapply tyn_get; [eassumption | reflexivity]]
            | solve [eapply tyn_get; [ty_path | reflexivity]] ]
  | |- tyn _ _ => first [assumption | apply tyn_has_str; assumption | solve [eauto with lg nocore]]
  end.
(** One step through an expression. *)
Ltac expr_step :=
  lazymatch goal with
  | |- ∀ _, _ => let H := fresh "H" in intros H; cbv beta in H
  | |- True => exact I
  | |- okstr (if _ then _ else _) => apply okstr_if
  | |- okstr (str _) => apply okstr_str
  | |- okstr (Str _) => apply okstr_Str
  | |- okstr (tpl _) => apply okstr_tpl
  | |- okstr (ret _) => apply okstr_ret
  | |- okstr (vjoin _ _) => apply okstr_vjoin
  | |- okstr (vslice _ _) => apply okstr_vslice
  | |- okstr (rbind (vslice _ _) _) => eapply okstr_bind; [apply vslice_arr|]
  | |- okstr (rbind (vjoin _ _) _) => eapply okstr_bind; [apply okstr_strong|]
  | |- okstr (rbind (if _ then _ else _) _) => eapply okstr_bind; [apply okstr_strong|]
  | |- okstr (rbind (rbind _ _) _) => eapply (okstr_bind (λ _, True)); [apply ok_weak|]
  | |- okv (rbind (rbind _ _) _) => eapply (okv_bind (λ _, True)); [apply ok_weak|]
  | |- okv (rbind (vfilter _ _) _) => eapply okv_bind; [eapply vfilter_ok|]
  | |- okv (rbind (entries (ncoal _ _)) _) => eapply okv_bind; [eapply entries_record|]
  | |- okv (rbind (entries _) _) => eapply okv_bind; [eapply entries_map|]
  | |- okv (rbind (dot _ (JObj _)) _) => cbn
  | |- okv (rbind (dot _ _) _) => eapply (okv_bind (λ _, True)); [apply ok_weak; eapply dot_ok|]
  | |- okv (rfilter _ _) => apply rfilter_ok
  | |- okv (if _ then _ else _) => apply okv_if
  | |- okv (ret _) => apply okv_ret
  | |- okv (Ok _) => apply okv_ok
  | |- okv (tpl _) => apply okstr_okv
  | |- okv (str _) => apply okstr_okv
  | |- otruthy _ = true => bprop; assumption
  | |- has_ty _ _ = true => match goal with H : ∀ _, _ → has_ty _ _ = true |- _ => eapply H; eassumption end
  | |- okv (Txt _) => apply okv_Txt
  | |- okv (Val _) => apply okv_Val
  | |- okv (Exp _) => apply okv_Exp
  | |- okv (Fix _ _) => apply okv_Fix
  | |- okv (vincludes _ _) => apply okv_vincludes
  | |- Forall _ [] => constructor
  | |- Forall _ (_ :: _) => constructor
  | |- Forall _ (_ ++ _) => apply Forall_app; split
  | |- Forall _ (if _ then _ else _) => apply Forall_if
  | |- has_num (if _ then _ else _) => apply num_if
  | |- has_num (ncoal _ _) => first [apply num_coal]
  | |- has_num (jopt _ _) => apply num_present; [bprop; assumption|]
  | |- has_num _ => first [assumption | solve [eauto with lg nocore]]
  | |- has_arr (ncoal _ _) => eapply arr_coal
  | |- has_arr (jopt _ _) => eapply arr_len; [eassumption|]
  | |- has_arr (Some (JArr _)) => by eexists
  | |- has_arr _ => assumption
  | |- has_str (if _ then _ else _) => apply str_if
  | |- has_str (ncoal _ _) => apply str_coal
  | |- has_str (vor _ _) => apply str_or
  | |- has_str (jopt _ _) => apply str_truthy; [bprop; assumption|]
  | |- has_str (?f _) => first [assumption | apply str_vs | match goal with H : ∀ _, has_str (f _) |- _ => apply H end]
  | |- has_str _ => first [assumption | apply str_vs]
  | |- tyn _ _ => ty_path
  end.
