(* ===== verification/DataRoom.v ===== *)
(** The data room: public and private evidence files
    (dashboard/src/app/api/data-room/[file]/route.ts). *)

From S2P Require Import Prelude JsString JsNum Json Http Auth.



Definition PUBLIC_FILES : list jstring := ["competitive-proof.pdf"; "competitive-proof.json"].
Definition ALLOWED : list (jstring * jstring) :=
  [("competitive-proof.pdf", "application/pdf"); ("competitive-proof.json", "application/json");
   ("soak-report.json", "application/json"); ("MANIFEST.json", "application/json")].

(** [ALLOWED] is an object literal: its prototype's properties are found under
    their names too. *)
Definition allowed (file : jstring) : option jstring :=
  match assoc file ALLOWED with Some t => Some t | None => assoc file object_prototype end.

Section data_room.
Context (jwtVerify : jstring → list Z → option (list (jstring * json))) (e : env).
(** [process.cwd()], [path.join] and [readFile] of a name in a directory. *)
Context (cwd : jstring) (joinPath : jstring → jstring → jstring).
Context (readIn : jstring → jstring → option (list Z)).

Definition dataRoomAuthOk (r : request) : bool :=
  match truthy_str (cookie "auth_token" r) with
  | None => false
  | Some token =>
      match getJwtSecret e with
      | Ok secret => match jwtVerify token secret with Some _ => true | None => false end
      | Throw _ => false
      end
  end.

Definition room_dirs : list jstring :=
  match truthy_str (e "BENCH_DATA_DIR") with Some dir => [dir] | None => [] end ++
  ["/data/lg"; joinPath cwd "data-room"; cwd; joinPath cwd ".."; joinPath (joinPath cwd "..") "data-room"].

(** The directory where the file was found, and its content. *)
Definition resolveFile (name : jstring) : option (jstring * list Z) :=
  first_some (λ d, match readIn d name with Some c => Some (d, c) | None => None end) room_dirs.

Definition data_room_GET (file : jstring) (r : request) : response :=
  match allowed file with
  | None => error 404 "not allowed"
  | Some contentType =>
      if negb (bool_decide (file ∈ PUBLIC_FILES)) && negb (dataRoomAuthOk r) then error 401 "Unauthorized"
      else
        match resolveFile file with
        | None => respond 404 (JObj [("error", JStr "file not found");
                                     ("hint", JStr "bash scripts/competitive_proof.sh")])
        | Some (_, content) =>
            {| rs_status := 200; rs_body := BText content;
               rs_headers := ("content-type", contentType) ::
                 (if ends_with ".pdf" file
                  then [("content-disposition", "inline; filename=" ++ dq ++ file ++ dq)] else []);
               rs_set := []; rs_delete := [] |}
        end
  end.

Lemma allowed_names file t : allowed file = Some t → file ∈ map fst ALLOWED ++ map fst object_prototype.
Proof.
  unfold allowed. rewrite elem_of_app. destruct (assoc file ALLOWED) eqn:E.
  - intros _. left. apply assoc_elem in E. by apply (list_elem_of_fmap_2 fst) in E.
  - intros H%assoc_elem. right. by apply (list_elem_of_fmap_2 fst) in H.
Qed.
(** No allowed name has a path separator or is made of dots. *)
Definition flat_name (s : jstring) : bool :=
  negb (bool_decide (47 ∈ s)) && negb (bool_decide (92 ∈ s)) && negb (forallb (Z.eqb 46) s).
Lemma allowed_flat file t : allowed file = Some t → flat_name file = true.
Proof.
  intros H%allowed_names. assert (Hall : Forall (λ s, flat_name s = true) (map fst ALLOWED ++ map fst object_prototype))
    by (vm_compute; repeat constructor).
  rewrite Forall_forall in Hall. by apply Hall.
Qed.

Lemma allowed_kind file t : allowed file = Some t →
  (∃ t', (file, t') ∈ ALLOWED ∧ Some t = Some t') ∨ (file ∉ map fst ALLOWED ∧ file ∈ map fst object_prototype).
Proof.
  unfold allowed. destruct (assoc file ALLOWED) as [t'|] eqn:E.
  - intros [= <-]. left. exists t'. split; [by apply assoc_elem|done].
  - intros H%assoc_elem. right. split; [|by apply (list_elem_of_fmap_2 fst) in H]. clear H.
    revert E. generalize ALLOWED as l. induction l as [|[k v] l IH]; cbn; [intros _ H; by apply elem_of_nil in H|].
    split_if; [done|]. bprop. intros E0 [Hk|Hk]%elem_of_cons; [done|by apply IH].
Qed.
Lemma resolve_first file d content : resolveFile file = Some (d, content) →
  ∃ before d' after content', room_dirs = before ++ d' :: after ∧ Forall (λ d, readIn d file = None) before ∧
    readIn d' file = Some content' ∧ BText content = BText content'.
Proof.
  unfold resolveFile. intros (l1 & x & l2 & Hl & Hx & Hn)%first_some_Some.
  destruct (readIn x file) as [c|] eqn:Ex; [|done]. injection Hx as -> ->. exists l1, d, l2, content.
  splits; [done| |done|done]. apply Forall_forall. intros y Hy. specialize (Hn y Hy). by destruct (readIn y file).
Qed.
Lemma resolve_found file : Exists (λ d, is_Some (readIn d file)) room_dirs → is_Some (resolveFile file).
Proof.
  unfold resolveFile. induction 1 as [d l [c Hc]|d l _ IH]; cbn [first_some]; [by rewrite Hc; eauto|].
  destruct (readIn d file); eauto.
Qed.

(** C38. The data room serves nothing but files of the data directories under a known
    name: whatever the path parameter is, a 200 carries the content of the file of
    that name in the first data directory that has one (the name cannot leave the
    directory), and the name is one of the four listed, sent with its listed type,
    or one that every object inherits ([constructor], [toString], ...). A name that
    is not one of the two public ones needs a token that verifies. Conversely a
    public file that lies in a data directory is always served. *)
Theorem data_room_confined file r :
  (rs_status (data_room_GET file r) = 200 →
   flat_name file = true ∧
   ((∃ t, (file, t) ∈ ALLOWED ∧ hget "content-type" (rs_headers (data_room_GET file r)) = Some t) ∨
    (file ∉ map fst ALLOWED ∧ file ∈ map fst object_prototype)) ∧
   (∃ before d after content, room_dirs = before ++ d :: after ∧ Forall (λ d', readIn d' file = None) before ∧
      readIn d file = Some content ∧ rs_body (data_room_GET file r) = BText content) ∧
   (file ∉ PUBLIC_FILES → ∃ token secret claims, cookie "auth_token" r = Some token ∧
      getJwtSecret e = Ok secret ∧ jwtVerify token secret = Some claims)) ∧
  (file ∈ PUBLIC_FILES → Exists (λ d, is_Some (readIn d file)) room_dirs → rs_status (data_room_GET file r) = 200).
Proof.
  split.
  - unfold data_room_GET. destruct (allowed file) as [ct|] eqn:Ea; [|done].
    destruct (negb _ && negb _) eqn:Eg; [done|]. destruct (resolveFile file) as [[d content]|] eqn:Er; [|done].
    intros _. splits; [by eapply allowed_flat|by apply allowed_kind|by eapply resolve_first|].
    intros Hp. rewrite (bool_decide_eq_false_2 _ Hp) in Eg. cbn [negb andb] in Eg. bprop.
    unfold dataRoomAuthOk in Eg. destruct (truthy_str _) as [token|] eqn:Et; [|done].
    apply truthy_str_Some in Et as [Et _]. destruct (getJwtSecret e) as [secret|] eqn:Es; [|done].
    destruct (jwtVerify token secret) as [claims|] eqn:Ev; [|done]. by exists token, secret, claims.
  - intros Hp Hex. unfold data_room_GET. rewrite (bool_decide_eq_true_2 _ Hp). cbn [negb andb].
    assert (Ha : is_Some (allowed file)).
    { unfold PUBLIC_FILES in Hp. rewrite !elem_of_cons, elem_of_nil in Hp. destruct Hp as [->|[->|[]]]; by eexists. }
    destruct Ha as [t ->]. destruct (resolve_found file Hex) as [[d c] ->]. done.
Qed.
End data_room.

Module RoomDemo.
Definition e : env := env_of [("JWT_SECRET", "an-example-secret-of-32-characters")].
Definition verify (t : jstring) (_ : list Z) : option (list (jstring * json)) := if t =s "good" then Some [] else None.
Definition files (d n : jstring) : option (list Z) :=
  if (d =s "/data/lg") && (n =s "soak-report.json") then Some [123; 125] else None.
Definition GET (file token : jstring) : response :=
  data_room_GET verify e "/app" (λ d n, d ++ "/" ++ n) files file (mk_request "/api/data-room" [] [("auth_token", token)] [] None).
(** A private file needs a session; other names are refused. *)
Example room_statuses :
  map (λ p, rs_status (GET p.1 p.2)) [("soak-report.json", "good"); ("soak-report.json", "bad");
    ("../.env", "good"); ("MANIFEST.json", "good"); ("constructor", "bad")] = [200; 401; 404; 404; 401].
Proof. vm_compute. reflexivity. Qed.
End RoomDemo.

(** The table of allowed names is an object literal and is asked with a plain lookup:
    a file of a data directory that is called [constructor] is served to a session,
    although it is not listed. *)
Lemma data_room_inherited :
  rs_status (data_room_GET RoomDemo.verify RoomDemo.e "/app" (λ d n, d ++ "/" ++ n)
    (λ d n, if n =s "constructor" then Some [1] else None) "constructor"
    (mk_request "/api/data-room" [] [("auth_token", "good")] [] None)) = 200 ∧
  bool_decide ("constructor" ∈ map fst ALLOWED) = false.
Proof. split; vm_compute; reflexivity. Qed.

Lemma data_room_confined_witness :
  flat_name "soak-report.json" = true ∧
  ∃ token secret claims, cookie "auth_token" (mk_request "/api/data-room" [] [("auth_token", "good")] [] None) = Some token ∧
    getJwtSecret RoomDemo.e = Ok secret ∧ RoomDemo.verify token secret = Some claims.
Proof.
  destruct (data_room_confined RoomDemo.verify RoomDemo.e "/app" (λ d n, d ++ "/" ++ n) RoomDemo.files "soak-report.json"
    (mk_request "/api/data-room" [] [("auth_token", "good")] [] None)) as [Hall _].
  destruct Hall as (Hf & _ & _ & Hp).
  - vm_compute. reflexivity.
  - split; [exact Hf|]. apply Hp. vm_compute. intros H. repeat (apply elem_of_cons in H as [H|H]; [discriminate H|]).
    by apply elem_of_nil in H.
Defined.
