(* ===== verification/Marketplace.v ===== *)
(** The signed rule marketplace (dashboard/src/lib/marketplaceSigned.ts and
    api/marketplace/signed/route.ts). *)

From S2P Require Import Prelude JsString JsNum Json Http.

(** The own properties [{ ...v }] copies. *)
Definition spread (v : json) : list (jstring * json) :=
  match v with
  | JObj fs => fs
  | JArr l => imap (λ i x, (dec (Z.of_nat i), x)) l
  | JStr s => imap (λ i c, (dec (Z.of_nat i), JStr [c])) s
  | _ => []
  end.

(** [v?.trim()] of a field that should be a string. *)
Definition trim_field (v : option json) : res (option jstring) :=
  match nullish v with
  | None => Ok None
  | Some (JStr s) => Ok (Some (trim s))
  | Some _ => Throw "trim is not a function"
  end.

(** The copied properties of an array or a text have numbers as names. *)
Lemma assoc_index {A} (k : jstring) (f : A → json) (l : list A) :
  forallb is_digit k = false → assoc k (imap (λ i x, (dec (Z.of_nat i), f x)) l) = None.
Proof.
  intros Hk. destruct (assoc k _) as [v|] eqn:E; [|done]. apply assoc_elem, list_elem_of_lookup in E as [i Hi].
  rewrite list_lookup_imap in Hi. destruct (l !! i); [|done]. injection Hi as Ek _.
  pose proof (dec_digit_only (Z.of_nat i) ltac:(lia)) as Hd. rewrite Ek in Hd.
  enough (forallb is_digit k = true) by congruence. apply forallb_forall. rewrite Forall_forall in Hd.
  intros c Hc%list_elem_of_In. by apply Hd.
Qed.

Section marketplace.
Context (hmac_hex : jstring → jstring → jstring) (e : env).

Definition signKey : jstring := oor (e "MARKETPLACE_SIGN_KEY") "log-guardian-marketplace-dev-key".

Definition verifyPackageSignature (pkg : json) : res bool :=
  match jget "sha256" pkg with
  | Throw m => Throw m
  | Ok sha =>
      match trim_field sha with
      | Throw m => Throw m
      | Ok digest =>
          match trim_field (jopt "signature" (Some pkg)) with
          | Throw m => Throw m
          | Ok expected =>
              match truthy_str digest, truthy_str expected with
              | Some d, Some x => Ok (hmac_hex signKey d =s x)
              | _, _ => Ok false
              end
          end
      end
  end.

(** The [map] over the packages; [None] when one of them throws. *)
Fixpoint mark_signed (l : list json) : option (list (list (jstring * json))) :=
  match l with
  | [] => Some []
  | pkg :: l' =>
      match verifyPackageSignature pkg with
      | Ok b => cons (put_field "signed" (JBool b) (spread pkg)) <$> mark_signed l'
      | Throw _ => None
      end
  end.

Record manifest := { mf_fields : list (jstring * json); mf_packages : list (list (jstring * json)) }.
Definition read_manifest (raw : jstring) : option manifest :=
  match JSON_parse raw with
  | None => None
  | Some data =>
      match jget "packages" data with
      | Throw _ => None
      | Ok ps =>
          match nullish ps with
          | None => Some {| mf_fields := spread data; mf_packages := [] |}
          | Some (JArr l) => (λ p, {| mf_fields := spread data; mf_packages := p |}) <$> mark_signed l
          | Some _ => None
          end
      end
  end.

(** The manifest's places in order, and what [readFile] finds there. *)
Context (cwd : jstring) (joinPath : jstring → jstring → jstring) (readFile : jstring → option jstring).
Definition manifestCandidates : list jstring :=
  match truthy_str (e "BENCH_DATA_DIR") with
  | Some dir => [joinPath dir "marketplace-manifest.json"] | None => [] end ++
  [joinPath "/data/lg" "marketplace-manifest.json";
   joinPath (joinPath (joinPath (joinPath cwd "..") "rules") "marketplace") "manifest.json";
   joinPath (joinPath (joinPath cwd "rules") "marketplace") "manifest.json"].
Definition loadMarketplaceManifest : option manifest :=
  first_some (λ p, match readFile p with Some raw => read_manifest raw | None => None end) manifestCandidates.

Definition requireSigEnforced : bool := negb (oor (e "MARKETPLACE_REQUIRE_SIG") "1" =s "0").

Definition is_signed (p : list (jstring * json)) : bool := otruthy (assoc "signed" p).
Definition signed_GET : response :=
  match loadMarketplaceManifest with
  | Some ({| mf_packages := (_ :: _) as packages |} as m) =>
      respond 200 (JObj
        [("marketplace", nullish (assoc "marketplace" (mf_fields m)) ?? JStr "log-guardian-rules");
         ("require_sig", JBool requireSigEnforced); ("packages", JArr (map JObj packages));
         ("packages_signed", jint (Z.of_nat (length (jfilter is_signed packages))));
         ("packages_total", jint (Z.of_nat (length packages)))])
  | _ => respond 503 (JObj [("error", JStr "marketplace manifest not found");
                            ("hint", JStr "bash scripts/sync_dashboard_data.sh")])
  end.

(** A [Throw] leaves the handler: the framework answers 500. *)
Definition signed_POST (r : request) : res response :=
  match rq_json r with
  | None => Ok (error 400 "invalid JSON")
  | Some body =>
      match jget "package_id" body with
      | Throw m => Throw m
      | Ok v =>
          match trim_field v with
          | Throw m => Throw m
          | Ok id =>
              match truthy_str id with
              | None => Ok (error 400 "package_id required")
              | Some packageId =>
                  let packages := match loadMarketplaceManifest with Some m => mf_packages m | None => [] end in
                  match jfind (λ p, is_lit packageId (assoc "id" p)) packages with
                  | None => Ok (respond 404 (JObj [("error", JStr "package not found"); ("package_id", JStr packageId)]))
                  | Some pkg =>
                      match (if requireSigEnforced then verifyPackageSignature (JObj pkg) else Ok true) with
                      | Throw m => Throw m
                      | Ok false => Ok (respond 403 (JObj [("error", JStr "signature invalid or missing");
                                                           ("package_id", JStr packageId)]))
                      | Ok true => Ok (respond 200 (JObject
                          [("ok", Some (JBool true)); ("package_id", Some (JStr packageId));
                           ("name", assoc "name" pkg); ("version", assoc "version" pkg);
                           ("sha256", assoc "sha256" pkg); ("verified", Some (JBool true));
                           ("hint", Some (JStr ("Host kurulum: MARKETPLACE_REQUIRE_SIG=1 python3 scripts/marketplace_install.py "
                                                ++ packageId)))]))
                      end
                  end
              end
          end
      end
  end.

(** ** Signatures *)

(** The package carries a digest and as its signature the HMAC of that digest under
    the marketplace's key. *)
Definition package_authentic (p : list (jstring * json)) : Prop :=
  ∃ d s, assoc "sha256" p = Some (JStr d) ∧ assoc "signature" p = Some (JStr s) ∧
         trim d ≠ [] ∧ trim s ≠ [] ∧ trim s = hmac_hex signKey (trim d).

Lemma truthy_nonempty s : s ≠ [] → truthy_str (Some s) = Some s.
Proof. by destruct s. Qed.
Lemma trim_field_Ok v s : trim_field v = Ok (Some s) → ∃ t, v = Some (JStr t) ∧ s = trim t.
Proof. unfold trim_field, nullish. destruct v as [[]|]; try done. intros [= <-]. eauto. Qed.

Lemma verify_authentic p b : verifyPackageSignature (JObj p) = Ok b → b = true ↔ package_authentic p.
Proof.
  unfold verifyPackageSignature, package_authentic. cbn [jget jopt].
  destruct (trim_field (assoc "sha256" p)) as [d|] eqn:Ed; [|done].
  destruct (trim_field (assoc "signature" p)) as [x|] eqn:Ex; [|done].
  intros Hb. split.
  - intros ->. destruct (truthy_str d) as [d'|] eqn:Td; [|done]. destruct (truthy_str x) as [x'|] eqn:Tx; [|done].
    apply truthy_str_Some in Td as [-> Hd], Tx as [-> Hx]. injection Hb as H%jeq_true.
    apply trim_field_Ok in Ed as (d0 & -> & ->), Ex as (x0 & -> & ->). by exists d0, x0.
  - intros (d0 & s0 & H1 & H2 & Hd & Hs & E). rewrite H1 in Ed. rewrite H2 in Ex. cbn in Ed, Ex. injection Ed as <-. injection Ex as <-.
    rewrite (truthy_nonempty (trim d0)), (truthy_nonempty (trim s0)) in Hb by done. injection Hb as <-. by apply jeq_true.
Qed.
(** The check of a package does not see the mark, and only an object can pass it. *)
Lemma verify_marked pkg b c :
  verifyPackageSignature pkg = Ok b → verifyPackageSignature (JObj (put_field "signed" (JBool c) (spread pkg))) = Ok b.
Proof.
  destruct pkg as [| | |s|l|fs]; cbn [spread]; try done; unfold verifyPackageSignature; cbn [jget jopt].
  - intros [= <-]. rewrite !assoc_put_ne by done. by rewrite !assoc_index by done.
  - intros [= <-]. rewrite !assoc_put_ne by done. by rewrite !assoc_index by done.
  - by rewrite !assoc_put_ne.
Qed.

Lemma mark_signed_spec l ps p :
  mark_signed l = Some ps → p ∈ ps →
  ∃ pkg b, pkg ∈ l ∧ verifyPackageSignature pkg = Ok b ∧ p = put_field "signed" (JBool b) (spread pkg).
Proof.
  revert ps. induction l as [|pkg l IH]; intros ps; cbn.
  - intros [= <-] H. by apply elem_of_nil in H.
  - destruct (verifyPackageSignature pkg) as [b|] eqn:E; [|done].
    destruct (mark_signed l) as [ps'|]; [|done]. intros [= <-] [->|Hp]%elem_of_cons.
    + exists pkg, b. splits; [by left|done|done].
    + destruct (IH ps' eq_refl Hp) as (pkg' & b' & ? & ? & ?). exists pkg', b'. splits; [by right|done|done].
Qed.

(** Every listed package is marked with the outcome of its own check. *)
Lemma manifest_marks m p :
  loadMarketplaceManifest = Some m → p ∈ mf_packages m →
  ∃ b, assoc "signed" p = Some (JBool b) ∧ verifyPackageSignature (JObj p) = Ok b.
Proof.
  unfold loadMarketplaceManifest. intros (l1 & x & l2 & _ & Hx & _)%first_some_Some Hp.
  destruct (readFile x) as [raw|]; [|done]. unfold read_manifest in Hx.
  destruct (JSON_parse raw) as [data|]; [|done]. destruct (jget "packages" data) as [ps|]; [|done].
  destruct (nullish ps) as [[| | | |l|]|]; try done; [|injection Hx as <-; by apply elem_of_nil in Hp].
  destruct (mark_signed l) as [ps'|] eqn:E; [|done]. injection Hx as <-.
  destruct (mark_signed_spec l ps' p E Hp) as (pkg & b & _ & Hv & ->). exists b. split; [apply assoc_put_eq|].
  by apply verify_marked.
Qed.

(** The first package of the catalogue with an id. *)
Definition catalogued (id : jstring) (p : list (jstring * json)) : Prop :=
  ∃ m, loadMarketplaceManifest = Some m ∧ jfind (λ q, is_lit id (assoc "id" q)) (mf_packages m) = Some p.

(** What a successful installation answer says of the package. *)
Definition install_answer (id : jstring) (p : list (jstring * json)) (resp : response) : Prop :=
  body_get "package_id" resp = Some (JStr id) ∧ body_get "sha256" resp = assoc "sha256" p.

Lemma post_named r body id :
  rq_json r = Some body → jget "package_id" body = Ok (Some (JStr id)) → trim id ≠ [] → requireSigEnforced = true →
  ∃ resp, signed_POST r = Ok resp ∧
    (rs_status resp = 200 ↔ ∃ p, catalogued (trim id) p ∧ package_authentic p) ∧
    (∀ p, rs_status resp = 200 → catalogued (trim id) p → install_answer (trim id) p resp).
Proof.
  intros Hr Hid Hne He. unfold signed_POST. rewrite Hr, Hid, He. cbn [trim_field nullish]. rewrite truthy_nonempty by done.
  unfold catalogued. destruct loadMarketplaceManifest as [m|] eqn:El; cbv zeta.
  2:{ eexists. split; [done|]. split; [split; [done|]; by intros (? & (? & ? & _) & _)|done]. }
  destruct (jfind _ (mf_packages m)) as [pkg|] eqn:Ef.
  2:{ eexists. split; [done|]. split; [split; [done|]; intros (? & (? & [= <-] & ?) & _); congruence|done]. }
  destruct (manifest_marks m pkg El ltac:(by apply jfind_Some in Ef as [? _])) as (b & _ & Hv). rewrite Hv.
  pose proof (verify_authentic pkg b Hv) as Ha. destruct b; eexists; (split; [reflexivity|]); (split; [split|]).
  - intros _. exists pkg. split; [by exists m|by apply Ha].
  - done.
  - intros p _ (m' & [= <-] & Ep). rewrite Ef in Ep. injection Ep as <-. split; [done|].
    destruct (proj1 Ha eq_refl) as (d & _ & Hd & _). unfold body_get. cbn [body_json respond rs_body JObject jopt]. rewrite Hd.
    destruct (assoc "name" pkg), (assoc "version" pkg); reflexivity.
  - done.
  - intros (p & (m' & [= <-] & Ep) & Hp). rewrite Ef in Ep. injection Ep as <-. apply Ha in Hp. done.
  - done.
Qed.

(** C39. The marketplace vouches exactly for signed packages.  In the catalogue the mark
    [signed] of every package is the outcome of the check, whatever the file claims: it
    is true if and only if the package has a non-empty digest and as its signature the
    HMAC of that digest under the marketplace's key; the answer to the browser lists
    these packages and counts the marks.  With signatures enforced, a request that names
    a package is answered with 200 if and only if the first package of that id in the
    catalogue passes the same check, and the answer then carries its id and digest; a
    request that names none never gets a 200. *)
Theorem marketplace_signed_sound :
  (∀ m q, loadMarketplaceManifest = Some m → q ∈ mf_packages m →
     assoc "signed" q = Some (JBool (is_signed q)) ∧ (is_signed q = true ↔ package_authentic q)) ∧
  (∀ m, loadMarketplaceManifest = Some m → mf_packages m ≠ [] →
     rs_status signed_GET = 200 ∧ body_get "packages" signed_GET = Some (JArr (map JObj (mf_packages m))) ∧
     body_get "packages_signed" signed_GET = Some (jint (Z.of_nat (length (jfilter is_signed (mf_packages m)))))) ∧
  (requireSigEnforced = true → ∀ r,
     (∀ body id, rq_json r = Some body → jget "package_id" body = Ok (Some (JStr id)) → trim id ≠ [] →
        ∃ resp, signed_POST r = Ok resp ∧
          (rs_status resp = 200 ↔ ∃ p, catalogued (trim id) p ∧ package_authentic p) ∧
          (∀ p, rs_status resp = 200 → catalogued (trim id) p → install_answer (trim id) p resp)) ∧
     (∀ resp, signed_POST r = Ok resp → rs_status resp = 200 →
        ∃ body id, rq_json r = Some body ∧ jget "package_id" body = Ok (Some (JStr id)) ∧ trim id ≠ [])).
Proof.
  split; [|split].
  - intros m q Hm Hq. destruct (manifest_marks m q Hm Hq) as (b & Hb & Hv). unfold is_signed. rewrite Hb. cbn.
    split; [done|by apply verify_authentic].
  - intros m Hm Hne. unfold signed_GET. rewrite Hm. destruct m as [fs [|p ps]]; [done|]. done.
  - intros He r. split; [intros; by eapply post_named|]. intros resp. unfold signed_POST.
    destruct (rq_json r) as [body|]; [|by intros [= <-]].
    destruct (jget "package_id" body) as [v|] eqn:Ev; [|done]. destruct (trim_field v) as [id|] eqn:Et; [|done].
    destruct (truthy_str id) as [pid|] eqn:Eid; [|by intros [= <-]]. intros _ _.
    apply truthy_str_Some in Eid as [-> Hne]. apply trim_field_Ok in Et as (t & -> & ->). exists body, t. done.
Qed.
End marketplace.

Module MarketDemo.
Definition hmac (k m : jstring) : jstring := "f00d" ++ m.
Definition str (s : jstring) : jstring := dq ++ s ++ dq.
Definition catalogue : jstring :=
  "{" ++ str "packages" ++ ":[{" ++ str "id" ++ ":" ++ str "a" ++ "," ++ str "sha256" ++ ":" ++ str "77" ++ ","
  ++ str "signature" ++ ":" ++ str "f00d77" ++ "},{" ++ str "id" ++ ":" ++ str "b" ++ "," ++ str "signed" ++ ":true}]}".
Definition join_ (d n : jstring) : jstring := d ++ "/" ++ n.
Definition files (p : jstring) : option jstring :=
  if p =s "/data/lg/marketplace-manifest.json" then Some catalogue else None.
Definition post (id : jstring) : request :=
  mk_request "/api/marketplace/signed" [] [] [] (Some (JObj [("package_id", JStr id)])).
Definition POST (e : env) (id : jstring) : res response := signed_POST hmac e "/app" join_ files (post id).
Definition status (r : res response) : Z := match r with Ok resp => rs_status resp | Throw _ => 500 end.
Example market_statuses : map (λ i, status (POST (env_of []) i)) ["a"; "b"; "c"] = [200; 403; 404].
Proof. vm_compute. reflexivity. Qed.
End MarketDemo.

(** With enforcement off the route reports an unsigned package as verified. *)
Lemma marketplace_verified_unchecked :
  ∃ resp, MarketDemo.POST (env_of [("MARKETPLACE_REQUIRE_SIG", "0")]) "b" = Ok resp ∧
    rs_status resp = 200 ∧ body_get "verified" resp = Some (JBool true) ∧ body_get "sha256" resp = None.
Proof. eexists. splits; vm_compute; reflexivity. Qed.

Lemma marketplace_signed_sound_witness :
  ∃ resp, MarketDemo.POST (env_of []) "a" = Ok resp ∧
    (rs_status resp = 200 ↔ ∃ p, catalogued MarketDemo.hmac (env_of []) "/app" MarketDemo.join_ MarketDemo.files "a" p ∧
       package_authentic MarketDemo.hmac (env_of []) p).
Proof.
  destruct (marketplace_signed_sound MarketDemo.hmac (env_of []) "/app" MarketDemo.join_ MarketDemo.files) as (_ & _ & Hpost).
  destruct (Hpost eq_refl (MarketDemo.post "a")) as [Hnamed _].
  destruct (Hnamed (JObj [("package_id", JStr "a")]) "a") as (resp & H1 & H2 & _); [reflexivity|reflexivity|discriminate|].
  exists resp. split; [exact H1|exact H2].
Defined.
