(* ===== verification/SocTimeline.v ===== *)
(** The security timeline (dashboard/src/app/api/soc-timeline/route.ts) and its
    preview from evidence reports (lib/socTimelineFallback.ts).

    Times are whole seconds.  Documents are read at the types the source
    declares; one of another type makes the handler throw. *)

From S2P Require Import Prelude JsString JsNum Json Regex Http Auth BanUtils FetchBanned ProofBans BanExec LineageGraph.

Inductive SocTimelineKind := KindIncident | KindBan | KindLineage | KindWaf | KindAck.
#[global] Instance SocTimelineKind_eq_dec : EqDecision SocTimelineKind.
Proof. solve_decision. Defined.
Definition kind_text (k : SocTimelineKind) : jstring :=
  match k with
  | KindIncident => "incident" | KindBan => "ban" | KindLineage => "lineage" | KindWaf => "waf" | KindAck => "ack"
  end.

Record SocTimelineEntry := {
  se_id : jstring;
  se_kind : SocTimelineKind;
  se_ts : Z;
  se_title : jstring;
  se_detail : jstring;
  se_ip : option jstring;
  se_risk : option num;
  se_href : option jstring;
}.
Definition entry_json (e : SocTimelineEntry) : json :=
  JObject [("id", Some (JStr (se_id e))); ("kind", Some (JStr (kind_text (se_kind e)))); ("ts", Some (jint (se_ts e)));
           ("title", Some (JStr (se_title e))); ("detail", Some (JStr (se_detail e))); ("ip", JStr <$> se_ip e);
           ("risk", JNum <$> se_risk e); ("href", JStr <$> se_href e)].

Record StatusAlert := { al_ts : option Z; al_ip : option jstring; al_level : option num; al_message : option jstring;
                        al_incident_id : option jstring }.
Record StatusBan := { sb_ts : option Z; sb_ip : option jstring; sb_action : option jstring; sb_reason : option jstring }.
Record StatusAck := { ac_ts : option Z; ac_ack_key : option jstring; ac_operator : option jstring;
                      ac_operator_id : option jstring }.
Record GuardianStatus := { gs_alerts : list StatusAlert; gs_bans : list StatusBan; gs_acks : list StatusAck }.
Record IncidentRow := { in_incident_id : option jstring; in_ip : option jstring; in_risk_score : option num;
                        in_primary_signal : option jstring; in_last_ts : option Z; in_first_ts : option Z }.
(** An attack tree as the timeline reads it. *)
Record TreeDoc := { td_pid : Z; td_comm : jstring; td_risk : option num; td_events : list LineageEvent }.

(** ** Reading documents *)

Definition field_num (k : jstring) (v : json) : option (option num) :=
  match nullish (jopt k (Some v)) with
  | None => Some None
  | Some (JNum x) => Some (Some x)
  | Some _ => None
  end.
(** [v.k ?? []] with its elements decoded. *)
Definition field_docs {A} (dec : json → option A) (k : jstring) (v : json) : option (list A) :=
  match nullish (jopt k (Some v)) with
  | None => Some []
  | Some (JArr l) => mapM dec l
  | Some _ => None
  end.
Definition is_obj (v : json) : bool := match v with JObj _ => true | _ => false end.

Definition as_StatusAlert (v : json) : option StatusAlert :=
  match is_obj v, field_int "ts" v, field_str "ip" v, field_num "level" v, field_str "message" v, field_str "incident_id" v with
  | true, Some ts, Some ip, Some level, Some message, Some id =>
      Some {| al_ts := ts; al_ip := ip; al_level := level; al_message := message; al_incident_id := id |}
  | _, _, _, _, _, _ => None
  end.
Definition as_StatusBan (v : json) : option StatusBan :=
  match is_obj v, field_int "ts" v, field_str "ip" v, field_str "action" v, field_str "reason" v with
  | true, Some ts, Some ip, Some action, Some reason =>
      Some {| sb_ts := ts; sb_ip := ip; sb_action := action; sb_reason := reason |}
  | _, _, _, _, _ => None
  end.
Definition as_StatusAck (v : json) : option StatusAck :=
  match is_obj v, field_int "ts" v, field_str "ack_key" v, field_str "operator" v, field_str "operator_id" v with
  | true, Some ts, Some key, Some op, Some oid =>
      Some {| ac_ts := ts; ac_ack_key := key; ac_operator := op; ac_operator_id := oid |}
  | _, _, _, _, _ => None
  end.
Definition as_IncidentRow (v : json) : option IncidentRow :=
  match is_obj v, field_str "incident_id" v, field_str "ip" v, field_num "risk_score" v, field_str "primary_signal" v,
        field_int "last_ts" v, field_int "first_ts" v with
  | true, Some id, Some ip, Some risk, Some signal, Some last, Some first =>
      Some {| in_incident_id := id; in_ip := ip; in_risk_score := risk; in_primary_signal := signal;
              in_last_ts := last; in_first_ts := first |}
  | _, _, _, _, _, _, _ => None
  end.
Definition as_LineageEvent (v : json) : option LineageEvent :=
  match field_str "type" v, field_int "pid" v, field_int "ppid" v, field_str "comm" v, field_str "detail" v, field_int "ts" v with
  | Some (Some ty), Some (Some pid), Some ppid, Some (Some comm), Some (Some detail), Some (Some ts) =>
      Some {| le_type := ty; le_pid := pid; le_ppid := ppid; le_comm := comm; le_detail := detail; le_ts := ts |}
  | _, _, _, _, _, _ => None
  end.
Definition as_TreeDoc (v : json) : option TreeDoc :=
  match field_int "pid" v, field_str "comm" v, field_num "risk" v, field_docs as_LineageEvent "events" v with
  | Some (Some pid), Some (Some comm), Some risk, Some events =>
      Some {| td_pid := pid; td_comm := comm; td_risk := risk; td_events := events |}
  | _, _, _, _ => None
  end.

(** ** Entries *)

Definition MAX : Z := 32.
Definition LINEAGE_MIN_RISK : Z := 55.

(** [/^\d{1,3}(\.\d{1,3}){3}$/] *)
Definition QUAD_RE : re := RCat (rbetween 1 2 digit) (rrep 3 (RCat (chr 46) (rbetween 1 2 digit))).
Definition isPublicIp (ip : option jstring) : bool :=
  match truthy_str ip with
  | None => false
  | Some ip => negb ((ip =s "lineage") || (ip =s "system")) && test_full QUAD_RE ip
  end.
(** [/WAF|SchemaViolation|SQLi|XSS|CRS|force_waf/i] *)
Definition WAF_RE : re := ralts (map lit_i ["WAF"; "SchemaViolation"; "SQLi"; "XSS"; "CRS"; "force_waf"]).
Definition isWafMessage (msg : option jstring) : bool :=
  match truthy_str msg with None => false | Some m => test_any WAF_RE m end.
Definition public_part (ip : option jstring) : option jstring := if isPublicIp ip then ip else None.
Definition opt_is (s : jstring) (v : option jstring) : bool := match v with Some t => t =s s | None => false end.

(** The guards of the loop over the alerts: whether the alert is listed. *)
Definition waf_listed (a : StatusAlert) : bool :=
  let waf := isWafMessage (al_message a) in
  let pub := isPublicIp (al_ip a) in
  let lineage := opt_is "lineage" (al_ip a) in
  negb (negb waf && negb lineage && (negb pub || nlt (al_level a ?? nzero) (num_of_Z 2))) &&
  negb lineage && (pub || waf).
Definition waf_id (a : StatusAlert) : jstring :=
  "waf-" ++ dec (al_ts a ?? 0) ++ "-" ++ (public_part (al_ip a) ?? "evt").
(** [encodeURIComponent(ip)] of a dotted quad is the quad itself. *)
Definition waf_entry (a : StatusAlert) : SocTimelineEntry :=
  let ip := public_part (al_ip a) in
  {| se_id := waf_id a; se_kind := KindWaf; se_ts := al_ts a ?? 0;
     se_title := ip ?? oor (al_incident_id a) "WAF alarm"; se_detail := al_message a ?? "WAF alarm"; se_ip := ip;
     se_risk := (λ l, nmul l (num_of_Z 20)) <$> al_level a;
     se_href := Some match ip with Some ip => "/bans?search=" ++ ip | None => "/tests" end |}.
Definition wafAlertEntries (alerts : list StatusAlert) : list SocTimelineEntry :=
  map waf_entry (dedup_by waf_id [] (jfilter waf_listed alerts)).

Definition ackDisplayTitle (key operator : jstring) : jstring :=
  if isPublicIp (Some key) then key
  else if negb (nonempty key) then operator
  else if slen key <=? 28 then key
  else str_upto 26 key ++ "…".
Definition ack_entry (a : StatusAck) : SocTimelineEntry :=
  let key := ac_ack_key a ?? [] in
  let ip := public_part (Some key) in
  let operator := sor (trim (ac_operator a ?? [])) (sor (trim (ac_operator_id a ?? [])) "operator") in
  {| se_id := "ack-" ++ dec (ac_ts a ?? 0) ++ "-" ++ sor key operator; se_kind := KindAck; se_ts := ac_ts a ?? 0;
     se_title := ackDisplayTitle key operator; se_detail := "Gördüm · " ++ operator; se_ip := ip; se_risk := None;
     se_href := Some match ip with Some ip => "/bans?search=" ++ ip | None => "#webhook-ops" end |}.
Definition telegramAckEntries (acks : list StatusAck) : list SocTimelineEntry := map ack_entry acks.

(** [None]: [encodeURIComponent] throws on a lone surrogate. *)
Definition incident_entry (inc : IncidentRow) : option SocTimelineEntry :=
  let href := match truthy_str (in_incident_id inc) with
              | None => Some None
              | Some id => (λ u, Some ("/?incident=" ++ u)) <$> encodeURIComponent id
              end in
  (λ href, {| se_id := "inc-" ++ (match in_incident_id inc with Some i => i | None => in_ip inc ?? "undefined" end);
              se_kind := KindIncident; se_ts := match in_last_ts inc with Some t => t | None => in_first_ts inc ?? 0 end;
              se_title := in_incident_id inc ?? "incident"; se_detail := in_primary_signal inc ?? "multi-signal";
              se_ip := in_ip inc; se_risk := in_risk_score inc; se_href := href |}) <$> href.
Definition incidentEntries (rows : list IncidentRow) : option (list SocTimelineEntry) := mapM incident_entry rows.

(** [i] is the index of the ban, [now] the clock in seconds. *)
Definition ban_entry (now : Z) (i : nat) (b : BanEntry) : option SocTimelineEntry :=
  match be_ts b with
  | None => Some (None : option Z)
  | Some x => Some <$> num_int x
  end ≫= λ ts,
  Some {| se_id := "ban-" ++ be_ip b ++ "-" ++ dec (ts ?? Z.of_nat i); se_kind := KindBan;
          se_ts := match ts with
                   | Some t => if 1000000000 <? t then t else now - Z.of_nat i
                   | None => now - Z.of_nat i
                   end;
          se_title := be_ip b; se_detail := be_reason b ?? "kernel ban"; se_ip := Some (be_ip b); se_risk := None;
          se_href := Some "/bans" |}.
Definition banEntries (now : Z) (bans : list BanEntry) : option (list SocTimelineEntry) :=
  mapM (λ p, ban_entry now p.1 p.2) (imap pair bans).

Definition hotTypes : list jstring := ["EXEC_SHELL"; "NET_CONNECT"; "FILE_READ"].
Definition lineage_entry (t : TreeDoc) (ev : LineageEvent) : SocTimelineEntry :=
  {| se_id := "lg-" ++ dec (td_pid t) ++ "-" ++ dec (le_ts ev) ++ "-" ++ le_type ev; se_kind := KindLineage;
     se_ts := le_ts ev; se_title := td_comm t ++ " · " ++ le_type ev; se_detail := le_detail ev; se_ip := None;
     se_risk := td_risk t; se_href := Some "/attack-tree" |}.
Definition lineageEntries (trees : list TreeDoc) : list SocTimelineEntry :=
  flat_map (λ t, if nlt (td_risk t ?? nzero) (num_of_Z LINEAGE_MIN_RISK) then []
                 else map (lineage_entry t) (jfilter (λ ev, bool_decide (le_type ev ∈ hotTypes)) (td_events t))) trees.

(** ** Merging *)

(** [e.kind === "ban" && e.ip] *)
Definition ban_ip (e : SocTimelineEntry) : option jstring :=
  if bool_decide (se_kind e = KindBan) then truthy_str (se_ip e) else None.
Definition keep_best (best : list (jstring * SocTimelineEntry)) (e : SocTimelineEntry) (ip : jstring) :=
  match assoc ip best with
  | Some prev => if se_ts prev <=? se_ts e then put_field ip e best else best
  | None => put_field ip e best
  end.
Fixpoint split_bans (entries : list SocTimelineEntry) (best : list (jstring * SocTimelineEntry)) :
    list SocTimelineEntry * list (jstring * SocTimelineEntry) :=
  match entries with
  | [] => ([], best)
  | e :: es =>
      match ban_ip e with
      | Some ip => split_bans es (keep_best best e ip)
      | None => let '(rest, b) := split_bans es best in (e :: rest, b)
      end
  end.
Definition dedupeTimelineBansByIp (entries : list SocTimelineEntry) : list SocTimelineEntry :=
  let '(rest, best) := split_bans entries [] in rest ++ map snd best.

Definition newest_first (l : list SocTimelineEntry) : list SocTimelineEntry := sort_by (key_le (λ e, - se_ts e)) l.
Definition dated (e : SocTimelineEntry) : bool := (0 <? se_ts e) || bool_decide (se_kind e = KindBan).
(** The entries of the first window, and the list that is shown. *)
Definition timeline_window (all : list SocTimelineEntry) : list SocTimelineEntry :=
  take (Z.to_nat MAX) (newest_first (jfilter dated (dedupeTimelineBansByIp all))).
Definition timeline (all : list SocTimelineEntry) : list SocTimelineEntry :=
  take (Z.to_nat MAX) (newest_first (dedup_by se_id [] (timeline_window all))).

Section sources.
Context `{UnicodeCase}.

Definition statusBanEntries (bans : list StatusBan) : list SocTimelineEntry :=
  flat_map (λ b,
    let act := to_lower (sb_action b ?? []) in
    if (act =s "unban") || (act =s "info") then []
    else match public_part (sb_ip b) with
         | None => []
         | Some ip => [{| se_id := "status-ban-" ++ dec (sb_ts b ?? 0) ++ "-" ++ ip; se_kind := KindBan;
                          se_ts := sb_ts b ?? 0; se_title := ip;
                          se_detail := match sb_reason b with Some r => r | None => sor act "kernel ban" end;
                          se_ip := Some ip; se_risk := None; se_href := Some ("/bans?search=" ++ ip) |}]
         end) bans.

(** ** Sources *)

Context (w : world) (e : env).
(** [process.cwd()], [os.homedir()], [path.join]; [Date.parse] in milliseconds. *)
Context (cwd home : jstring) (joinPath : jstring → jstring → jstring) (dateParse : jstring → option Z).

Definition SOC_DATA_DIR : jstring := oor (e "BENCH_DATA_DIR") "/data/lg".
Definition no_status : GuardianStatus := {| gs_alerts := []; gs_bans := []; gs_acks := [] |}.
Definition as_GuardianStatus (v : json) : option GuardianStatus :=
  match field_docs as_StatusAlert "recent_alerts" v, field_docs as_StatusBan "recent_bans" v,
        field_docs as_StatusAck "recent_telegram_acks" v with
  | Some a, Some b, Some c => Some {| gs_alerts := a; gs_bans := b; gs_acks := c |}
  | _, _, _ => None
  end.
(** The first status file that parses. *)
Definition readGuardianStatus : option (GuardianStatus * jstring) :=
  match first_some (λ p, match w_read w p with Some raw => JSON_parse raw | None => None end)
          [joinPath SOC_DATA_DIR "guardian-status.json"; joinPath cwd "guardian-status.json";
           joinPath (joinPath cwd "..") "guardian-status.json"] with
  | Some v => (λ s, (s, "guardian_status" : jstring)) <$> as_GuardianStatus v
  | None => Some (no_status, "empty" : jstring)
  end.

(** An answer of the analyzer's API under a key: [None] when a document has
    another type, an empty list with source empty on any failure. *)
Definition fetchIncidents : option (list IncidentRow * jstring) :=
  match w_fetch w (guardianApiBase e ++ "/api/v1/incidents") (guardianApiAuthHeaders e) with
  | Some (st, Some data) =>
      if res_ok st then
        match data with
        | JNull => Some ([], "empty" : jstring)
        | _ => (λ rows, (rows, "guardian_api" : jstring)) <$> field_docs as_IncidentRow "incidents" data
        end
      else Some ([], "empty" : jstring)
  | _ => Some ([], "empty" : jstring)
  end.

(** Trees of a parsed file: an array or the field [trees]; empty ones are skipped. *)
Definition file_trees (v : json) : option (list json) :=
  match (match v with JArr l => Some l | _ => as_arr (jopt "trees" (Some v)) end) with
  | Some [] | None => None
  | Some l => Some l
  end.
Definition tree_paths : list jstring :=
  match truthy_str (e "ATTACK_TREE_PATH") with Some p => [p] | None => [] end ++
  ["/data/lg/attack_tree.json"; "/run/log-guardian/attack_tree.json"; joinPath cwd "attack_tree.json";
   joinPath (joinPath cwd "..") "attack_tree.json"; joinPath home ".local/share/log-guardian/attack_tree.json"].
Definition readAttackTrees : option (list TreeDoc * jstring) :=
  match first_some (λ p, match w_read w p with
                         | Some raw => JSON_parse raw ≫= file_trees
                         | None => None
                         end) tree_paths with
  | Some l => (λ ts, (ts, "daemon_file" : jstring)) <$> mapM as_TreeDoc l
  | None =>
      match w_fetch w (guardianApiBase e ++ "/api/v1/attack-tree") (guardianApiAuthHeaders e) with
      | Some (st, Some data) =>
          match (if res_ok st then as_arr (jopt "trees" (Some data)) else None) with
          | Some [] | None => Some ([], "empty" : jstring)
          | Some l => (λ ts, (ts, "guardian_api" : jstring)) <$> mapM as_TreeDoc l
          end
      | _ => Some ([], "empty" : jstring)
      end
  end.

(** ** Preview from evidence reports *)

Definition parseIsoTs (iso : option json) : Z :=
  if otruthy iso then match dateParse (ostr iso) with Some ms => ms / 1000 | None => 0 end else 0.
Definition preview := list SocTimelineEntry.
Definition push (en : SocTimelineEntry) : M preview unit :=
  modify (λ out, if bool_decide (se_id en ∈ map se_id out) then out else out ++ [en]).
Definition want (v : json) : M preview jstring := ofo "not a string" (as_str (Some v)).
Definition enc (ip : jstring) : M preview jstring := ofo "URI malformed" (encodeURIComponent ip).
Definition proof_entry (id : jstring) (kind : SocTimelineKind) (ts : Z) (ip detail href : jstring) : SocTimelineEntry :=
  {| se_id := id; se_kind := kind; se_ts := ts; se_title := ip; se_detail := detail; se_ip := Some ip; se_risk := None;
     se_href := Some href |}.

(** Bans of an address block named by a report. *)
Definition push_block (doc : json) (prefix detail : jstring) : M preview unit :=
  match jopt "ip_block" (Some doc) with
  | Some v =>
      if truthy v then
        let* block := want v in
        for_each (λ ip : jstring,
          let* u := enc ip in
          push (proof_entry (prefix ++ ip) KindBan (parseIsoTs (jopt "date" (Some doc))) ip detail ("/bans?search=" ++ u)))
          (expandIpBlock block)
      else mret' tt
  | None => mret' tt
  end.
Definition push_samples (ja3 : json) : M preview unit :=
  match nullish (jopt "sample_ips" (Some ja3)) with
  | None => mret' tt
  | Some (JArr l) =>
      let detail := "distributed " ++ to_str (nullish (jopt "category" (Some ja3)) ?? JStr "scanner") ++ " recall " ++
                    to_str (nullish (jopt "recall_pct" (Some ja3)) ?? JStr "?") ++ "%" in
      for_each (λ v, let* ip := want v in
        push (proof_entry ("proof-ja3-dist-" ++ ip) KindIncident (parseIsoTs (jopt "date" (Some ja3))) ip detail
                "/#attack-world-map")) (take 12 l)
  | Some _ => throw "not an array"
  end.
Definition push_live (live : json) : M preview unit :=
  let proof := jopt "ban_proof" (Some live) in
  match jopt "ip" proof with
  | Some v =>
      if truthy v then
        let* ip := want v in
        let* detail := match nullish (jopt "reason" proof) with
                       | None => mret' ("live-attack harness ban_proof" : jstring) | Some r => want r end in
        let* u := enc ip in
        push (proof_entry ("proof-live-ban-" ++ ip) KindBan (parseIsoTs (jopt "date" (Some live))) ip detail
                ("/bans?search=" ++ u))
      else mret' tt
  | None => mret' tt
  end.
Definition push_webhook (doc : json) : M preview unit :=
  if otruthy (jopt "ok" (jopt "prod_e2e" (Some doc))) then
    let ts := parseIsoTs (jopt "date" (Some doc)) in
    push (proof_entry "proof-webhook-waf" KindWaf ts "203.0.113.198"
      ("prod webhook E2E — " ++ to_str (nullish (jopt "alerts_total" (Some doc)) ?? jint 1) ++ " alarm, Δ" ++
       to_str (nullish (jopt "metrics_delta" (Some doc)) ?? jint 2) ++ " Telegram") "/tests") ;;;
    push (proof_entry "proof-webhook-ban" KindBan (if 0 <? ts then ts + 1 else ts) "203.0.113.198"
      "prod webhook E2E — ipset ban (RFC5737)" "/bans?search=203.0.113.198")
  else mret' tt.

Definition collect_preview (dataDir : jstring) : M preview unit :=
  push_block (readJsonFile w dataDir "ja3-cluster-ban-live.json") "proof-ja3-ban-" "JA3 cluster live ban (proof)" ;;;
  push_samples (readJsonFile w dataDir "ja3-cluster-report.json") ;;;
  push_block (readJsonFile w dataDir "proof-replay-webhook-ban.json") "proof-replay-"
    "corpus replay force_waf ban (proof)" ;;;
  push_live (readJsonFile w dataDir "live-attack-report.json") ;;;
  push_webhook (readJsonFile w dataDir "webhook-route-proof-report.json").
Definition fetchSocTimelineFallback (dataDir : jstring) : res (list SocTimelineEntry) :=
  match collect_preview dataDir [] with
  | (Ok _, out) => Ok (take 20 (newest_first (jfilter dated out)))
  | (Throw m, _) => Throw m
  end.

(** ** The route *)

Definition soc_opts : FetchBannedOpts :=
  {| countOnly := false; limit := Some (Some 20); offset := Some (Some 0); search := None |}.
Definition some_entries {A} (l : list A) : bool := match l with [] => false | _ => true end.

(** Every entry of the live sources, in the order of the array literal. *)
Definition all_entries (now : Z) (rows : list IncidentRow) (bans : list BanEntry) (trees : list TreeDoc)
    (st : GuardianStatus) : option (list SocTimelineEntry) :=
  match incidentEntries rows, banEntries now bans with
  | Some i, Some b => Some (i ++ b ++ lineageEntries trees ++ wafAlertEntries (gs_alerts st) ++
                            statusBanEntries (gs_bans st) ++ telegramAckEntries (gs_acks st))
  | _, _ => None
  end.
Definition live_count (rows : list IncidentRow) (inc_src : jstring) (bans : BannedIpsResult) (trees : list TreeDoc)
    (tree_src : jstring) (st : GuardianStatus) (st_src : jstring) : nat :=
  length (jfilter id
    [(inc_src =s "guardian_api") && some_entries rows; negb (br_source bans =s "empty") && (0 <? br_count bans);
     negb (tree_src =s "empty") && some_entries trees;
     (st_src =s "guardian_status") && (some_entries (wafAlertEntries (gs_alerts st)) ||
       some_entries (statusBanEntries (gs_bans st)) || some_entries (telegramAckEntries (gs_acks st)))]).
Definition soc_json (entries : list SocTimelineEntry) (inc_src ban_src tree_src st_src mode : jstring)
    (allowPreview : bool) : response :=
  with_cache "private, max-age=5" (respond 200 (JObj
    [("entries", JArr (map entry_json entries));
     ("sources", JObj [("incidents", JStr inc_src); ("bans", JStr ban_src); ("lineage", JStr tree_src);
                       ("status", JStr st_src)]);
     ("data_mode", JStr mode); ("preview_allowed", JBool allowPreview)])).
(** What is shown and the data mode: the live list, or the preview when it is
    empty and allowed. *)
Definition soc_choice (all : list SocTimelineEntry) (n_live : nat) (allowPreview : bool) :
    res (list SocTimelineEntry * jstring) :=
  if some_entries (timeline_window all) then Ok (timeline all, if (2 <=? n_live)%nat then "live" else "live_partial")
  else if allowPreview then
    match fetchSocTimelineFallback SOC_DATA_DIR with
    | Throw m => Throw m
    | Ok [] => Ok (timeline all, "none" : jstring)
    | Ok fallback => Ok (take (Z.to_nat MAX) fallback, "preview" : jstring)
    end
  else Ok (timeline all, "none" : jstring).

Definition soc_GET (now : Z) (r : request) : res response :=
  let allowPreview := negb (env_is e "SOC_TIMELINE_PREVIEW" "0") || opt_is "1" (query "preview" r) in
  let banRes := fetchBannedIps w e soc_opts in
  match fetchIncidents, readAttackTrees, readGuardianStatus with
  | Some (rows, inc_src), Some (trees, tree_src), Some (st, st_src) =>
      match all_entries (now / 1000) rows (br_bans banRes) trees st with
      | None => Throw "URI malformed"
      | Some all =>
          match soc_choice all (live_count rows inc_src banRes trees tree_src st st_src) allowPreview with
          | Throw m => Throw m
          | Ok (entries, mode) => Ok (soc_json entries inc_src (br_source banRes) tree_src st_src mode allowPreview)
          end
      end
  | _, _, _ => Throw "unexpected document"
  end.
End sources.

(** ** One ban per address, the newest *)

(** [best] holds, for each address banned in [seen], a newest ban of it. *)
Definition best_ok (seen : list SocTimelineEntry) (best : list (jstring * SocTimelineEntry)) : Prop :=
  NoDup (best.*1) ∧
  (∀ ip x, assoc ip best = Some x → x ∈ seen ∧ ban_ip x = Some ip ∧
     ∀ y, y ∈ seen → ban_ip y = Some ip → se_ts y ≤ se_ts x) ∧
  (∀ y ip, y ∈ seen → ban_ip y = Some ip → is_Some (assoc ip best)).

Lemma best_ok_skip seen best x : ban_ip x = None → best_ok seen best → best_ok (seen ++ [x]) best.
Proof.
  intros Hx (H1 & H2 & H3). unfold best_ok. splits; [done| |].
  - intros ip y Hy. destruct (H2 ip y Hy) as (Hi & Hb & Hm). splits; [apply elem_of_app; auto|done|].
    intros z [Hz| ->%list_elem_of_singleton]%elem_of_app Hbz; [auto|congruence].
  - intros y ip [Hy| ->%list_elem_of_singleton]%elem_of_app Hb; [eauto|congruence].
Qed.
Lemma best_ok_put seen best x ip :
  ban_ip x = Some ip → (∀ y, y ∈ seen → ban_ip y = Some ip → se_ts y ≤ se_ts x) →
  best_ok seen best → best_ok (seen ++ [x]) (put_field ip x best).
Proof.
  intros Hx Hnew (H1 & H2 & H3). unfold best_ok. splits; [by apply put_field_nodup| |].
  - intros ip' y. destruct (decide (ip' = ip)) as [->|Hne].
    + rewrite assoc_put_eq. intros [= <-]. splits; [apply elem_of_app; right; by left|done|].
      intros z [Hz| ->%list_elem_of_singleton]%elem_of_app Hbz; [auto|lia].
    + rewrite assoc_put_ne by done. intros Hy. destruct (H2 ip' y Hy) as (Hi & Hb & Hm).
      splits; [apply elem_of_app; auto|done|].
      intros z [Hz| ->%list_elem_of_singleton]%elem_of_app Hbz; [auto|congruence].
  - intros y ip' [Hy| ->%list_elem_of_singleton]%elem_of_app Hb;
      (destruct (decide (ip' = ip)) as [->|Hne]; [rewrite assoc_put_eq; eauto|]); [|congruence].
    rewrite assoc_put_ne by done. eauto.
Qed.
Lemma best_ok_keep seen best x ip :
  ban_ip x = Some ip → best_ok seen best → best_ok (seen ++ [x]) (keep_best best x ip).
Proof.
  intros Hx Hok. pose proof Hok as (H1 & H2 & H3). unfold keep_best. destruct (assoc ip best) as [prev|] eqn:Ep.
  - destruct (H2 ip prev Ep) as (Hi & Hb & Hm). destruct (se_ts prev <=? se_ts x) eqn:Et; bprop.
    + apply best_ok_put; [done| |done]. intros y Hy Hby. specialize (Hm y Hy Hby). lia.
    + unfold best_ok. splits; [done| |].
      * intros ip' y Hy. destruct (H2 ip' y Hy) as (Hi' & Hb' & Hm'). splits; [apply elem_of_app; auto|done|].
        intros z [Hz| ->%list_elem_of_singleton]%elem_of_app Hbz; [auto|].
        assert (ip' = ip) as -> by congruence. assert (y = prev) as -> by congruence. lia.
      * intros y ip' [Hy| ->%list_elem_of_singleton]%elem_of_app Hb'; [eauto|].
        assert (ip' = ip) as -> by congruence. eauto.
  - apply best_ok_put; [done| |done]. intros y Hy Hby. destruct (H3 y ip Hy Hby) as [? ?]. congruence.
Qed.
Lemma split_bans_spec es seen best rest best' :
  split_bans es best = (rest, best') → best_ok seen best →
  rest = jfilter (λ x, bool_decide (ban_ip x = None)) es ∧ best_ok (seen ++ es) best'.
Proof.
  revert seen best rest. induction es as [|x es IH]; intros seen best rest; cbn [split_bans].
  - intros [= <- <-] Hok. by rewrite app_nil_r.
  - replace (seen ++ x :: es) with ((seen ++ [x]) ++ es) by (by rewrite <- app_assoc).
    unfold jfilter. cbn [List.filter]. destruct (ban_ip x) as [ip|] eqn:Eb; intros E Hok.
    + rewrite bool_decide_eq_false_2 by done. eapply IH; [exact E|]. by apply best_ok_keep.
    + rewrite bool_decide_eq_true_2 by done. destruct (split_bans es best) as [rest1 b1] eqn:E1.
      injection E as <- <-. destruct (IH (seen ++ [x]) _ _ E1) as [-> Hb]; [by apply best_ok_skip|done].
Qed.

(** What the merged list holds. *)
Lemma dedupe_best all :
  ∃ best, dedupeTimelineBansByIp all = jfilter (λ x, bool_decide (ban_ip x = None)) all ++ map snd best ∧
    best_ok all best.
Proof.
  unfold dedupeTimelineBansByIp. destruct (split_bans all []) as [rest best] eqn:E. exists best.
  apply (split_bans_spec all []) in E as [-> Hb]; [done|].
  unfold best_ok. splits; [constructor|done|by intros y ip ?%elem_of_nil].
Qed.
Lemma best_elem all best x : best_ok all best → x ∈ map snd best → ∃ ip, assoc ip best = Some x ∧ ban_ip x = Some ip.
Proof.
  intros (H1 & H2 & _) ([ip x'] & -> & Hx)%list_elem_of_fmap. apply elem_assoc in Hx; [|done].
  exists ip. split; [done|]. by destruct (H2 ip x' Hx) as (_ & ? & _).
Qed.
Lemma dedupe_spec all x :
  x ∈ dedupeTimelineBansByIp all →
  x ∈ all ∧ ∀ ip, ban_ip x = Some ip → ∀ y, y ∈ all → ban_ip y = Some ip → se_ts y ≤ se_ts x.
Proof.
  destruct (dedupe_best all) as (best & -> & Hok). intros [Hx|Hx]%elem_of_app.
  - apply jfilter_elem in Hx as [Hx Hb]. bprop. split; [done|]. congruence.
  - apply (best_elem all) in Hx as (ip & Hx & Hb); [|done]. destruct Hok as (_ & H2 & _).
    destruct (H2 ip x Hx) as (Hi & _ & Hm). split; [done|]. intros ip' Hb'. by assert (ip' = ip) as -> by congruence.
Qed.
Lemma dedupe_one all x y ip :
  x ∈ dedupeTimelineBansByIp all → y ∈ dedupeTimelineBansByIp all →
  ban_ip x = Some ip → ban_ip y = Some ip → x = y.
Proof.
  destruct (dedupe_best all) as (best & -> & Hok).
  assert (Hin : ∀ z, z ∈ jfilter (λ x, bool_decide (ban_ip x = None)) all ++ map snd best → ban_ip z = Some ip →
                     assoc ip best = Some z).
  { intros z [Hz|Hz]%elem_of_app Hb; [apply jfilter_elem in Hz as [_ Hz]; bprop; congruence|].
    apply (best_elem all) in Hz as (ip' & Hz & Hb'); [congruence|done]. }
  intros Hx Hy Hbx Hby. apply Hin in Hx, Hy; [congruence|done|done].
Qed.
(** Every entry is kept, or replaced by a ban of its address that is not older. *)
Lemma dedupe_covers all x :
  x ∈ all → ∃ z, z ∈ dedupeTimelineBansByIp all ∧ (z = x ∨ ban_ip x ≠ None ∧ ban_ip z = ban_ip x) ∧ se_ts x ≤ se_ts z.
Proof.
  intros Hx. destruct (dedupe_best all) as (best & -> & Hok). destruct (ban_ip x) as [ip|] eqn:Eb.
  - destruct Hok as (_ & H2 & H3). destruct (H3 x ip Hx Eb) as [z Hz]. destruct (H2 ip z Hz) as (_ & Hbz & Hm).
    exists z. splits; [|by right|by apply Hm].
    apply elem_of_app. right. apply assoc_elem in Hz. by apply (list_elem_of_fmap_2 snd) in Hz.
  - exists x. splits; [|by left|lia]. apply elem_of_app. left. apply jfilter_elem. split; [done|].
    by apply bool_decide_eq_true.
Qed.

(** ** The shown window *)

Lemma window_elem all x : x ∈ timeline_window all → x ∈ dedupeTimelineBansByIp all ∧ dated x = true.
Proof. unfold timeline_window. intros H%take_elem. unfold newest_first in H. by rewrite sort_by_elem, jfilter_elem in H. Qed.
Lemma timeline_elem all x : x ∈ timeline all → x ∈ timeline_window all.
Proof. unfold timeline, newest_first. intros H%take_elem. rewrite sort_by_elem in H. by apply dedup_by_fresh in H as [? _]. Qed.
(** The second truncation drops nothing. *)
Lemma timeline_perm all : timeline all ≡ₚ dedup_by se_id [] (timeline_window all).
Proof.
  unfold timeline, newest_first. rewrite take_ge; [apply sort_by_perm|]. rewrite sort_by_length.
  transitivity (length (timeline_window all)); [apply sublist_length, dedup_by_sublist|].
  unfold timeline_window. rewrite length_take. lia.
Qed.
(** A dated entry outside the window is not newer than any in it. *)
Lemma window_newest all x :
  x ∈ dedupeTimelineBansByIp all → dated x = true →
  x ∈ timeline_window all ∨ ∀ y, y ∈ timeline_window all → se_ts x ≤ se_ts y.
Proof.
  intros Hx Hd. unfold timeline_window. set (l := newest_first _).
  assert (Hl : x ∈ l) by (unfold l, newest_first; rewrite sort_by_elem, jfilter_elem; done).
  rewrite <- (take_drop (Z.to_nat MAX) l) in Hl. apply elem_of_app in Hl as [Hl|Hl]; [by left|].
  right. intros y Hy. enough (- se_ts y ≤ - se_ts x) by lia.
  apply (sorted_by_app (λ e, - se_ts e) (take (Z.to_nat MAX) l) (drop (Z.to_nat MAX) l)); [|done|done].
  rewrite take_drop. apply sort_by_sorted.
Qed.
Lemma ban_dated x : ban_ip x ≠ None → dated x = true.
Proof. unfold ban_ip, dated. case_bool_decide; [by rewrite orb_true_r|done]. Qed.

(** C35. The security timeline shows the newest events, once each: at most 32
    entries, newest first, with distinct ids, all of them events of the sources
    that carry a time or are bans; of the bans of an address only one, and none
    of its bans is newer; and every such event is shown (itself, an entry with
    its id, or a ban of its address that is not older), or is not newer than
    any entry shown. *)
Theorem soc_timeline_sound all :
  let out := timeline all in
  Z.of_nat (length out) ≤ MAX ∧ sorted_by (λ e, - se_ts e) out ∧ NoDup (map se_id out) ∧
  (∀ x, x ∈ out → x ∈ all ∧ dated x = true) ∧
  (∀ x y ip, x ∈ out → y ∈ out → ban_ip x = Some ip → ban_ip y = Some ip → x = y) ∧
  (∀ x y ip, x ∈ out → y ∈ all → ban_ip x = Some ip → ban_ip y = Some ip → se_ts y ≤ se_ts x) ∧
  (∀ x, x ∈ all → dated x = true →
     ∃ z, (z = x ∨ ban_ip x ≠ None ∧ ban_ip z = ban_ip x) ∧ se_ts x ≤ se_ts z ∧
       ((∃ y, y ∈ out ∧ se_id y = se_id z) ∨ ∀ y, y ∈ out → se_ts z ≤ se_ts y)).
Proof.
  intros out. assert (Hout : ∀ x, x ∈ out → x ∈ dedupeTimelineBansByIp all ∧ dated x = true).
  { intros x Hx. by apply window_elem, timeline_elem. }
  splits.
  - unfold out, timeline. rewrite length_take. unfold MAX. lia.
  - unfold out, timeline. apply take_sorted_by, sort_by_sorted.
  - unfold out. change (NoDup (se_id <$> timeline all)). rewrite timeline_perm. apply dedup_by_nodup.
  - intros x Hx. destruct (Hout x Hx) as [Hd ?]. by apply dedupe_spec in Hd as [? _].
  - intros x y ip Hx Hy. apply (dedupe_one all); by apply Hout.
  - intros x y ip Hx Hy Hbx Hby. destruct (Hout x Hx) as [Hd _]. apply dedupe_spec in Hd as [_ Hd]. eauto.
  - intros x Hx Hdx. destruct (dedupe_covers all x Hx) as (z & Hz & Hrel & Ht). exists z. splits; [done|done|].
    assert (Hdz : dated z = true).
    { destruct Hrel as [->|[Hn Hb]]; [done|]. apply ban_dated. congruence. }
    destruct (window_newest all z Hz Hdz) as [Hw|Hw].
    + left. destruct (dedup_by_covers se_id [] (timeline_window all) z Hw) as [Hn|(y & Hy & Hid)];
        [by apply elem_of_nil in Hn|]. exists y. split; [|done]. unfold out. by rewrite timeline_perm.
    + right. intros y Hy. by apply Hw, timeline_elem.
Qed.

(** ** Live and preview entries do not mix *)

Definition distinct_ids (out : preview) : Prop := NoDup (map se_id out).

Section preview_facts.
Context `{UnicodeCase} (w : world) (e : env) (dateParse : jstring → option Z).

Lemma push_distinct en : keeps distinct_ids (push en).
Proof.
  apply keeps_modify. unfold distinct_ids. intros out Hout. case_bool_decide as Hin; [done|].
  rewrite map_app. apply NoDup_app. splits; [done| |apply NoDup_singleton].
  intros x Hx Hx2. apply list_elem_of_singleton in Hx2 as ->. done.
Qed.
Lemma preview_ofo_distinct {A} m (o : option A) : keeps distinct_ids (ofo m o).
Proof. destruct o; [apply keeps_ret|apply keeps_throw]. Qed.
Hint Resolve push_distinct preview_ofo_distinct : lg.

Lemma collect_preview_distinct dir : keeps distinct_ids (collect_preview w dateParse dir).
Proof.
  unfold collect_preview, push_block, push_samples, push_live, push_webhook, want, enc. keep_steps.
Qed.

(** The preview has at most 20 entries with distinct ids. *)
Lemma preview_shape dir out :
  fetchSocTimelineFallback w dateParse dir = Ok out → (length out <= 20)%nat ∧ NoDup (map se_id out).
Proof.
  unfold fetchSocTimelineFallback. destruct (collect_preview w dateParse dir []) as [[[]|m] l] eqn:E; [|done].
  intros [= <-]. split; [rewrite length_take; lia|].
  assert (Hl : distinct_ids l).
  { pose proof (collect_preview_distinct dir [] ltac:(constructor)) as Hd. by rewrite E in Hd. }
  change (NoDup (se_id <$> take 20 (newest_first (jfilter dated l)))).
  eapply sublist_NoDup; [|apply fmap_sublist, sublist_take]. unfold newest_first. rewrite sort_by_perm.
  eapply sublist_NoDup; [exact Hl|]. apply fmap_sublist, jfilter_sublist.
Qed.
End preview_facts.

Section route_facts.
Context `{UnicodeCase} (w : world) (e : env) (dateParse : jstring → option Z).

(** The mode says where the entries come from. *)
Lemma soc_choice_spec all n allow entries mode :
  soc_choice w e dateParse all n allow = Ok (entries, mode) →
  mode = "preview" ∧ allow = true ∧ timeline_window all = [] ∧ (length entries <= 20)%nat ∧ NoDup (map se_id entries) ∨
  mode ≠ "preview" ∧ entries = timeline all ∧ (mode = "none" ↔ timeline_window all = []).
Proof.
  unfold soc_choice. destruct (timeline_window all) as [|x l] eqn:Ew; cbn [some_entries].
  - destruct allow; [|intros [= <- <-]; right; done].
    destruct (fetchSocTimelineFallback w dateParse _) as [[|y fb]|] eqn:Ef; [intros [= <- <-]; right; done| |done].
    intros [= <- <-]. left. destruct (preview_shape w dateParse _ _ Ef) as [Hlen Hnd].
    splits; [done|done|done| |].
    + change (length (take (Z.to_nat MAX) (y :: fb)) <= 20)%nat. rewrite length_take. lia.
    + change (NoDup (se_id <$> take (Z.to_nat MAX) (y :: fb))). eapply sublist_NoDup; [exact Hnd|].
      apply fmap_sublist, sublist_take.
  - destruct (2 <=? n)%nat; intros [= <- <-]; by right.
Qed.
End route_facts.

Module SocDemo.
Definition alert (ts level : Z) (ip msg : jstring) : StatusAlert :=
  {| al_ts := Some ts; al_ip := Some ip; al_level := Some (num_of_Z level); al_message := Some msg; al_incident_id := None |}.
Definition ban (ts : Z) (ip : jstring) : StatusBan :=
  {| sb_ts := Some ts; sb_ip := Some ip; sb_action := Some "BAN"; sb_reason := None |}.
Definition all : list SocTimelineEntry :=
  wafAlertEntries [alert 50 1 "45.9.1.7" "probe"; alert 60 3 "45.9.1.7" "SQLi"; alert 70 3 "lineage" "WAF"] ++
  statusBanEntries (H := ascii_case) [ban 40 "45.9.1.7"; ban 90 "45.9.1.7"; ban 10 "lineage"].
(** The low alert, the lineage alert and the older ban are not shown. *)
Example timeline_ex : map (λ x, (kind_text (se_kind x), se_ts x)) (timeline all) = [("ban" : jstring, 90); ("waf" : jstring, 60)].
Proof. vm_compute. reflexivity. Qed.
End SocDemo.
