(* ===== verification/AttackTreeRoute.v ===== *)
(** The attack-tree route (dashboard/src/app/api/attack-tree/route.ts): trees from
    the agents' telemetry, the analyzer or a file, filtered by risk and drawn as
    a graph. *)

From S2P Require Import Prelude JsString JsNum Json Regex Http Auth JsDate Store FleetCommand Fleet Telemetry LineageGraph SocTimeline Marketplace.

Inductive LineageSource := SrcTelemetry | SrcGuardianApi | SrcDaemonFile | SrcDemo | SrcEmpty.
Inductive LineageDataMode := ModeLive | ModePreview | ModeNone.
#[global] Instance LineageSource_eq_dec : EqDecision LineageSource.
Proof. solve_decision. Defined.
Definition source_text (s : LineageSource) : jstring :=
  match s with
  | SrcTelemetry => "telemetry" | SrcGuardianApi => "guardian_api" | SrcDaemonFile => "daemon_file"
  | SrcDemo => "demo" | SrcEmpty => "empty"
  end.
Definition toDataMode (s : LineageSource) : LineageDataMode :=
  match s with SrcDemo => ModePreview | SrcEmpty => ModeNone | _ => ModeLive end.
Definition mode_text (m : LineageDataMode) : jstring :=
  match m with ModeLive => "live" | ModePreview => "preview" | ModeNone => "none" end.

(** ** Documents and elements *)

Definition as_AttackTree (v : json) : option AttackTree :=
  match field_int "pid" v, field_str "comm" v, field_num "risk" v, field_str "agentId" v,
        field_docs as_LineageEvent "events" v, field_int "firstSeen" v, field_int "lastSeen" v with
  | Some (Some pid), Some (Some comm), Some (Some risk), Some agent, Some events, Some first, Some last =>
      Some {| at_pid := pid; at_comm := comm; at_risk := risk; at_agentId := agent; at_events := Some events;
              at_firstSeen := first; at_lastSeen := last |}
  | _, _, _, _, _, _, _ => None
  end.
Definition node_json (n : GraphNode) : json :=
  JObj [("data", JObject
    [("id", Some (JStr (gn_id n))); ("label", Some (JStr (gn_label n)));
     ("kind", Some (JStr match gn_kind n with process => "process" | event => "event" end));
     ("pid", jint <$> gn_pid n); ("risk", JNum <$> gn_risk n); ("eventType", JStr <$> gn_eventType n)])].
Definition edge_json (ed : GraphEdge) : json :=
  JObj [("data", JObj
    [("id", JStr (ge_id ed)); ("source", JStr (ge_source ed)); ("target", JStr (ge_target ed));
     ("label", JStr (ge_label ed)); ("detail", JStr (ge_detail ed)); ("eventType", JStr (ge_eventType ed))])].
Definition graph_json (g : LineageGraphElements) : json :=
  JObj [("nodes", JArr (map node_json (nodes g))); ("edges", JArr (map edge_json (edges g)))].

(** [(t.risk ?? 0) >= bound]: [None] on a [null] tree or a risk that is not a number. *)
Definition risk_at_least (bound : num) (t : json) : option bool :=
  match t with
  | JNull => None
  | _ => (λ r, nle bound (r ?? nzero)) <$> field_num "risk" t
  end.
Fixpoint filter_risk (bound : num) (l : list json) : option (list json) :=
  match l with
  | [] => Some []
  | t :: l' =>
      match risk_at_least bound t, filter_risk bound l' with
      | Some b, Some rest => Some (if b then t :: rest else rest)
      | _, _ => None
      end
  end.

(** One agent's trees, marked with the agent; anything but an array is skipped. *)
Definition agent_trees (a : Telemetry) : list json :=
  match JSON_parse (sor (t_attackTreeJson a) "[]") with
  | Some (JArr trees) => map (λ t, JObj (put_field "agentId" (JStr (t_agentId a)) (spread t))) trees
  | _ => []
  end.
Definition mergeAgentTrees (agents : list Telemetry) : list json := flat_map agent_trees agents.

Section route.
Context (w : world) (e : env) (cwd home : jstring) (joinPath : jstring → jstring → jstring).
(** [path.basename] *)
Context (basename : jstring → jstring).
Context {Tt : Type} `{!Table Tt Telemetry t_id}.

Definition allowDemoFallback (r : request) : bool :=
  env_is e "LINEAGE_ALLOW_DEMO" "1" || opt_is "1" (query "allow_demo" r) || opt_is "1" (query "preview" r).

Definition fetchFromAnalyzerApi : option (list json) :=
  match w_fetch w (guardianApiBase e ++ "/api/v1/attack-tree") (guardianApiAuthHeaders e) with
  | Some (st, Some data) => if res_ok st then as_arr (jopt "trees" (Some data)) else None
  | _ => None
  end.

Definition isDemoTreePath (treePath : jstring) : bool :=
  let base := basename treePath in (base =s "lineage-demo.json") || includes "demo" base.

Definition liveCandidates : list jstring :=
  match truthy_str (e "ATTACK_TREE_PATH") with Some p => [p] | None => [] end ++
  ["/data/lg/attack_tree.json"; "/run/log-guardian/attack_tree.json"; "/var/lib/log-guardian/attack_tree.json";
   joinPath cwd "attack_tree.json"; joinPath (joinPath cwd "..") "attack_tree.json";
   joinPath (joinPath (joinPath cwd "..") "corpus") "lineage_live_snapshot.json";
   joinPath (joinPath cwd "corpus") "lineage_live_snapshot.json";
   joinPath home ".local/share/log-guardian/attack_tree.json"].
Definition demoCandidates (permitDemo : bool) : list jstring :=
  if permitDemo then [joinPath (joinPath (joinPath cwd "..") "rules") "lineage-demo.json";
                      joinPath (joinPath cwd "rules") "lineage-demo.json"] else [].
(** What one candidate gives: its trees and whether they are sample data. *)
Definition try_tree_file (permitDemo : bool) (p : jstring) : option (list json * LineageSource) :=
  match w_read w p with
  | None => None
  | Some raw =>
      match JSON_parse raw ≫= file_trees with
      | None => None
      | Some trees =>
          if isDemoTreePath p && negb permitDemo then None
          else Some (trees, if isDemoTreePath p then SrcDemo else SrcDaemonFile)
      end
  end.
Definition readLocalAttackTreeFile (permitDemo : bool) : option (list json * LineageSource) :=
  first_some (try_tree_file permitDemo) (liveCandidates ++ demoCandidates permitDemo).

(** The trees of the first source that has any. *)
Definition choose_trees (permitDemo : bool) (agents : list Telemetry) : list json * LineageSource :=
  let '(trees, source) := match agents with [] => ([], SrcEmpty) | _ => (mergeAgentTrees agents, SrcTelemetry) end in
  let '(trees, source) :=
    match trees with
    | [] => match fetchFromAnalyzerApi with Some ((_ :: _) as l) => (l, SrcGuardianApi) | _ => ([], source) end
    | _ => (trees, source)
    end in
  match trees with
  | [] => match readLocalAttackTreeFile permitDemo with Some (l, src) => (l, src) | None => ([], source) end
  | _ => (trees, source)
  end.

(** [readGuardianProbes]: [None] when no status file can be read. *)
Definition probes_of (d : json) : option json :=
  match d with
  | JNull => None
  | _ =>
      let l7 := jopt "l7_http" (Some d) in
      let daemon := jopt "daemon" (Some d) in
      let active := is_true (jopt "probe_active" l7) || is_lit "true" (jopt "probe_active" l7) in
      Some (JObject [("ipc", jopt "ipc" (Some d)); ("lineage_probe", jopt "lineage_probe" daemon);
                     ("l7_probe", Some (nullish (jopt "l7_probe" daemon) ?? JBool active));
                     ("l7_ebpf_hits", jopt "ebpf_hits" l7)])
  end.
Definition readGuardianProbes : option json :=
  first_some (λ p, match w_read w p with Some raw => JSON_parse raw ≫= probes_of | None => None end)
    [joinPath cwd "guardian-status.json"; joinPath (joinPath cwd "..") "guardian-status.json"].

Definition setup_hint (source : LineageSource) (probes : option json) : option jstring :=
  if bool_decide (source = SrcEmpty) then
    Some "sudo ./log-guardian-daemon --iface eth0  # eBPF → /run/log-guardian/attack_tree.json"
  else if is_lit "ok" (jopt "ipc" probes) && negb (otruthy (jopt "lineage_probe" probes)) then
    Some "Daemon IPC OK; lineage_probe kapali — BPF objeleri (lineage_probe.o) kontrol edin."
  else None.

Definition tree_where (agentId : jstring) (t : Telemetry) : bool := (agentId =s "*") || (t_agentId t =s agentId).
Definition attack_tree_GET (now : Z) (r : request) (t : Tt) : response :=
  let agentId := oor (query "agent_id" r) "*" in
  let minRisk := parseFloat (oor (query "min_risk" r) "0") in
  match find_sorted (λ x, - t_lastSeen x) (tree_where agentId) t with
  | None => ise
  | Some found =>
      let '(trees, source) := choose_trees (allowDemoFallback r) (take 32 found) in
      match filter_risk minRisk trees with
      | None => ise
      | Some filtered =>
          match mapM as_AttackTree filtered, filter_risk (num_of_Z 85) filtered with
          | Some typed, Some hot =>
              let probes := readGuardianProbes in
              respond 200 (JObject
                [("trees", Some (JArr filtered)); ("total", Some (jint (Z.of_nat (length filtered))));
                 ("high_risk", Some (jint (Z.of_nat (length hot)))); ("graph", Some (graph_json (treesToGraph typed)));
                 ("source", Some (JStr (source_text source))); ("data_mode", Some (JStr (mode_text (toDataMode source))));
                 ("live", Some (JBool (match toDataMode source with ModeLive => true | _ => false end)));
                 ("preview_only", Some (JBool (bool_decide (source = SrcDemo)))); ("probes", Some (probes ?? JNull));
                 ("setup_hint", JStr <$> setup_hint source probes); ("generated_at", Some (date_json now))])
          | _, _ => ise
          end
      end
  end.
End route.

(** ** Sample data is labelled *)

Section facts.
Context (w : world) (e : env) (cwd home : jstring) (joinPath : jstring → jstring → jstring).
Context (basename : jstring → jstring).

(** Trees that are not sample data. *)
Definition live_origin (agents : list Telemetry) (trees : list json) : Prop :=
  trees = mergeAgentTrees agents ∨ fetchFromAnalyzerApi w e = Some trees ∨
  ∃ p raw, isDemoTreePath basename p = false ∧ w_read w p = Some raw ∧ JSON_parse raw ≫= file_trees = Some trees.

Lemma local_file_origin permit trees src :
  readLocalAttackTreeFile w e cwd home joinPath basename permit = Some (trees, src) →
  (src = SrcDemo ∧ permit = true) ∨ (src = SrcDaemonFile ∧ ∀ agents, live_origin agents trees).
Proof.
  unfold readLocalAttackTreeFile. intros (l1 & p & l2 & _ & Hp & _)%first_some_Some.
  unfold try_tree_file in Hp. destruct (w_read w p) as [raw|] eqn:Er; [|done].
  destruct (JSON_parse raw ≫= file_trees) as [ts|] eqn:Ef; [|done].
  destruct (isDemoTreePath basename p) eqn:Ed; cbn [andb] in Hp.
  - destruct permit; [|done]. injection Hp as <- <-. by left.
  - injection Hp as <- <-. right. split; [done|]. intros agents. right. right. by exists p, raw.
Qed.

Lemma choose_origin permit agents trees src :
  choose_trees w e cwd home joinPath basename permit agents = (trees, src) →
  match src with
  | SrcDemo => permit = true
  | SrcEmpty => trees = []
  | _ => live_origin agents trees
  end.
Proof.
  unfold choose_trees.
  assert (Hlocal : ∀ src0, match src0 with SrcTelemetry => mergeAgentTrees agents = [] | SrcEmpty => True | _ => False end →
    match readLocalAttackTreeFile w e cwd home joinPath basename permit with
    | Some (l, s) => (l, s) | None => ([], src0) end = (trees, src) →
    match src with SrcDemo => permit = true | SrcEmpty => trees = [] | _ => live_origin agents trees end).
  { intros src0 H0. destruct (readLocalAttackTreeFile _ _ _ _ _ _ _) as [[l s]|] eqn:El; intros [= <- <-].
    - apply local_file_origin in El as [[-> ?]|[-> ?]]; auto.
    - destruct src0; try done. by left. }
  destruct agents as [|a agents].
  - destruct (fetchFromAnalyzerApi w e) as [[|x l]|] eqn:Ea; [by apply (Hlocal SrcEmpty)| |by apply (Hlocal SrcEmpty)].
    intros [= <- <-]. right. by left.
  - destruct (mergeAgentTrees (a :: agents)) as [|x l] eqn:Em.
    + destruct (fetchFromAnalyzerApi w e) as [[|y l]|] eqn:Ea; [by apply (Hlocal SrcTelemetry)| |by apply (Hlocal SrcTelemetry)].
      intros [= <- <-]. right. by left.
    + intros [= <- <-]. by left.
Qed.

Lemma filter_risk_sub bound l out x : filter_risk bound l = Some out → x ∈ out → x ∈ l.
Proof.
  revert out. induction l as [|t l IH]; intros out; cbn; [intros [= <-]; done|].
  destruct (risk_at_least bound t) as [b|]; [|done]. destruct (filter_risk bound l) as [rest|]; [|done].
  intros [= <-]. destruct b; [|intros H; right; by eapply IH].
  intros [->|H]%elem_of_cons; [by left|]. right. by eapply IH.
Qed.

Lemma filter_risk_in bound l out x :
  filter_risk bound l = Some out → x ∈ l → risk_at_least bound x = Some true → x ∈ out.
Proof.
  revert out. induction l as [|t l IH]; intros out; cbn; [by intros _ ?%elem_of_nil|].
  destruct (risk_at_least bound t) as [b|] eqn:Et; [|done]. destruct (filter_risk bound l) as [rest|]; [|done].
  intros [= <-] [->|Hx]%elem_of_cons Hr.
  - assert (b = true) as -> by congruence. by left.
  - specialize (IH rest eq_refl Hx Hr). destruct b; [by right|done].
Qed.

Context {Tt : Type} `{!Table Tt Telemetry t_id}.

(** Sample attack trees are never shown as live ones: an answer marked live
    holds only trees of the agents' telemetry, of the analyzer, or of a file that
    is not a sample; one marked as preview is given only when samples are
    allowed; in every other answer there are no trees. *)
Theorem attack_tree_sample_labelled now r t :
  let resp := attack_tree_GET w e cwd home joinPath basename now r t in
  rs_status resp = 200 →
  ∃ agents trees filtered, body_get "trees" resp = Some (JArr filtered) ∧ (∀ x, x ∈ filtered → x ∈ trees) ∧
    ((body_get "live" resp = Some (JBool true) ∧ body_get "preview_only" resp = Some (JBool false) ∧
      live_origin agents trees) ∨
     (body_get "live" resp = Some (JBool false) ∧ body_get "preview_only" resp = Some (JBool true) ∧
      allowDemoFallback e r = true) ∨
     (body_get "live" resp = Some (JBool false) ∧ body_get "data_mode" resp = Some (JStr "none") ∧ trees = [])).
Proof.
  intros resp. unfold resp, attack_tree_GET. destruct (find_sorted _ _ t) as [found|]; [|done].
  destruct (choose_trees _ _ _ _ _ _ _ _) as [trees src] eqn:Ec. apply choose_origin in Ec.
  destruct (filter_risk _ trees) as [filtered|] eqn:Ef; [|done].
  destruct (mapM as_AttackTree filtered) as [typed|]; [|done].
  destruct (filter_risk (num_of_Z 85) filtered) as [hot|]; [|done]. intros _.
  exists (take 32 found), trees, filtered. splits; [reflexivity|intros x; by apply (filter_risk_sub _ _ _ _ Ef)|].
  destruct src; [left|left|left|right; left|right; right]; (split; [reflexivity|split; [reflexivity|exact Ec]]).
Qed.

(** The attack-tree page is not confined to the caller's tenant: when at most
    32 agents report, every answer to a request for all agents, whoever sends it,
    lists every tree with a non-negative risk that any agent of any tenant
    sent. *)
Theorem attack_tree_all_tenants now r t l a ts tree :
  query "agent_id" r = None → query "min_risk" r = None →
  find_sorted (λ x, - t_lastSeen x) (tree_where "*") t = Some l → (length l <= 32)%nat →
  a ∈ rows t → JSON_parse (sor (t_attackTreeJson a) "[]") = Some (JArr ts) → tree ∈ ts →
  let shown := JObj (put_field "agentId" (JStr (t_agentId a)) (spread tree)) in
  let resp := attack_tree_GET w e cwd home joinPath basename now r t in
  risk_at_least nzero shown = Some true → rs_status resp = 200 →
  ∃ filtered, body_get "trees" resp = Some (JArr filtered) ∧ shown ∈ filtered.
Proof.
  intros Hq Hm Hl Hlen Ha Hp Ht shown resp Hr. unfold resp, attack_tree_GET. rewrite Hq, Hm.
  change (oor None "*") with ("*" : jstring). rewrite Hl, take_ge by done.
  assert (Hin : shown ∈ mergeAgentTrees l).
  { unfold mergeAgentTrees. apply list_elem_of_In, in_flat_map. exists a.
    split; [apply list_elem_of_In, (find_sorted_rows _ _ _ _ a Hl); by split|].
    unfold agent_trees. rewrite Hp. apply in_map_iff. exists tree. split; [done|by apply list_elem_of_In]. }
  assert (Hc : choose_trees w e cwd home joinPath basename (allowDemoFallback e r) l = (mergeAgentTrees l, SrcTelemetry)).
  { unfold choose_trees. destruct l as [|a0 l']; [by apply elem_of_nil in Hin|].
    destruct (mergeAgentTrees (a0 :: l')) as [|y ys]; [by apply elem_of_nil in Hin|done]. }
  rewrite Hc. destruct (filter_risk _ (mergeAgentTrees l)) as [filtered|] eqn:Ef; [|done].
  destruct (mapM as_AttackTree filtered) as [typed|]; [|done].
  destruct (filter_risk (num_of_Z 85) filtered) as [hot|]; [|done]. intros _.
  exists filtered. split; [reflexivity|]. by apply (filter_risk_in _ _ _ _ Ef).
Qed.
End facts.

Module TreeDemo.
Definition text : jstring :=
  let q s := dq ++ s ++ dq in
  "[{" ++ q "pid" ++ ":7," ++ q "comm" ++ ":" ++ q "sh" ++ "," ++ q "risk" ++ ":90}]".
Definition row (id tenant : jstring) : Telemetry :=
  {| t_id := id; t_agentId := "a" ++ id; t_tenantId := tenant; t_eps := nzero; t_totalLines := 0; t_alertsTotal := 0;
     t_rceDetections := 0; t_tarpitActive := 0; t_tarpitTrapped := 0; t_meshPeers := 0; t_uniqueIps := 0;
     t_tlsDecrypted := 0; t_etcdPeers := 0; t_attackTreeJson := text; t_incidentsActive := 0;
     t_incidentsCorrelated := 0; t_lastSeen := 5 |}.
Definition table : list Telemetry := [row "1" "t1"; row "2" "t2"].
(** A user of tenant t1. *)
Definition r : request :=
  mk_request "/api/attack-tree" [("x-user-role", "user"); ("x-user-tenant", "t1")] [] [] None.
Definition doc : list (jstring * json) := [("pid", jint 7); ("comm", JStr "sh"); ("risk", jint 90)].
Definition GET : response :=
  attack_tree_GET (Tt := list Telemetry) (Table0 := list_table t_id) no_world (env_of []) "/app" "/root"
    (λ d n, d ++ "/" ++ n) id 1000 r table.
End TreeDemo.

Lemma attack_tree_sample_labelled_witness :
  rs_status TreeDemo.GET = 200 ∧ ∃ filtered, body_get "trees" TreeDemo.GET = Some (JArr filtered).
Proof.
  split; [vm_compute; reflexivity|].
  destruct (attack_tree_sample_labelled (Table0 := list_table t_id) no_world (env_of []) "/app" "/root"
    (λ d n, d ++ "/" ++ n) id 1000 TreeDemo.r TreeDemo.table) as (_ & _ & filtered & H & _); [vm_compute; reflexivity|].
  exists filtered. exact H.
Defined.

(** The user of tenant t1 sees the tree of tenant t2's agent. *)
Lemma attack_tree_all_tenants_witness :
  ∃ filtered, body_get "trees" TreeDemo.GET = Some (JArr filtered) ∧
    JObj (put_field "agentId" (JStr "a2") TreeDemo.doc) ∈ filtered.
Proof.
  apply (attack_tree_all_tenants (Table0 := list_table t_id) no_world (env_of []) "/app" "/root"
    (λ d n, d ++ "/" ++ n) id 1000 TreeDemo.r TreeDemo.table TreeDemo.table (TreeDemo.row "2" "t2")
    [JObj TreeDemo.doc] (JObj TreeDemo.doc)).
  - reflexivity.
  - reflexivity.
  - vm_compute. reflexivity.
  - vm_compute. lia.
  - right. by left.
  - vm_compute. reflexivity.
  - by left.
  - vm_compute. reflexivity.
  - vm_compute. reflexivity.
Defined.
