(* ===== verification/AttackMap.v ===== *)
(** The attack map: geolocation of addresses with its cache
    (dashboard/src/lib/ipGeoLookup.ts) and the markers
    (api/attack-geo/route.ts). *)

From S2P Require Import Prelude JsString JsNum Json Regex Http Auth BanUtils FetchBanned ProofBans BanExec LineageGraph Prometheus JsValue SocTimeline.

Inductive GeoSource := GLookup | GCentroid | GPrivate.
Definition geo_source_text (s : GeoSource) : jstring :=
  match s with GLookup => "lookup" | GCentroid => "centroid" | GPrivate => "private" end.
Record IpGeo := { g_ip : jstring; g_countryCode : jstring; g_country : jstring; g_lat : num; g_lon : num;
                  g_source : GeoSource }.

(** Decimal literals of the source. *)
Definition lit_num (s : jstring) : num := parseFloat s.
Record Region := { rg_cc : jstring; rg_country : jstring; rg_lat : num; rg_lon : num }.
Definition region (cc country lat lon : jstring) : Region :=
  {| rg_cc := cc; rg_country := country; rg_lat := lit_num lat; rg_lon := lit_num lon |}.
Definition RFC5737_ATTACK_REGIONS : list Region :=
  [region "US" "United States" "40.7128" "-74.006"; region "US" "US West" "37.7749" "-122.4194";
   region "CA" "Canada" "43.6532" "-79.3832"; region "GB" "United Kingdom" "51.5074" "-0.1278";
   region "DE" "Germany" "52.52" "13.405"; region "FR" "France" "48.8566" "2.3522";
   region "NL" "Netherlands" "52.3676" "4.9041"; region "RU" "Russia" "55.7558" "37.6173";
   region "CN" "China" "39.9042" "116.4074"; region "IN" "India" "28.6139" "77.209";
   region "BR" "Brazil" "-23.5505" "-46.6333"; region "SG" "Singapore" "1.3521" "103.8198";
   region "AU" "Australia" "-33.8688" "151.2093"; region "JP" "Japan" "35.6762" "139.6503";
   region "KR" "South Korea" "37.5665" "126.978"; region "IR" "Iran" "35.6892" "51.389";
   region "UA" "Ukraine" "50.4501" "30.5234"; region "ZA" "South Africa" "-26.2041" "28.0473";
   region "MX" "Mexico" "19.4326" "-99.1332"; region "PL" "Poland" "52.2297" "21.0122"].

(** COUNTRY_CENTROIDS of lib/countryCentroids.ts: longitude and latitude. *)
Definition COUNTRY_CENTROIDS : list (jstring * jstring * jstring) :=
  [("AD", "1.52", "42.51"); ("AE", "53.85", "23.42"); ("AF", "67.71", "33.94"); ("AL", "20.17", "41.15");
   ("AM", "45.04", "40.07"); ("AO", "17.87", "-11.2"); ("AR", "-63.62", "-38.42"); ("AT", "14.55", "47.52");
   ("AU", "133.78", "-25.27"); ("AZ", "47.58", "40.14"); ("BA", "17.68", "43.92"); ("BD", "90.36", "23.68");
   ("BE", "4.47", "50.5"); ("BF", "-1.56", "12.24"); ("BG", "25.49", "42.73"); ("BH", "50.56", "26.07");
   ("BI", "29.92", "-3.37"); ("BJ", "2.32", "9.31"); ("BN", "114.73", "4.54"); ("BO", "-63.59", "-16.29");
   ("BR", "-51.93", "-14.24"); ("BS", "-77.4", "25.03"); ("BT", "90.43", "27.51"); ("BW", "24.68", "-22.33");
   ("BY", "27.95", "53.71"); ("BZ", "-88.5", "17.19"); ("CA", "-106.35", "56.13"); ("CD", "21.76", "-4.04");
   ("CF", "20.94", "6.61"); ("CG", "15.83", "-0.23"); ("CH", "8.23", "46.82"); ("CI", "-5.55", "7.54");
   ("CL", "-71.54", "-35.68"); ("CM", "12.35", "7.37"); ("CN", "104.2", "35.86"); ("CO", "-74.3", "4.57");
   ("CR", "-83.75", "9.75"); ("CU", "-77.78", "21.52"); ("CY", "33.43", "35.13"); ("CZ", "15.47", "49.82");
   ("DE", "10.45", "51.17"); ("DJ", "42.59", "11.83"); ("DK", "9.5", "56.26"); ("DO", "-70.16", "18.74");
   ("DZ", "1.66", "28.03"); ("EC", "-78.18", "-1.83"); ("EE", "25.01", "58.6"); ("EG", "30.8", "26.82");
   ("ER", "39.78", "15.18"); ("ES", "-3.75", "40.46"); ("ET", "40.49", "9.15"); ("FI", "25.75", "61.92");
   ("FJ", "178.07", "-17.71"); ("FR", "2.21", "46.23"); ("GA", "11.61", "-0.8"); ("GB", "-3.44", "55.38");
   ("GE", "43.36", "42.32"); ("GH", "-1.02", "7.95"); ("GM", "-15.31", "13.44"); ("GN", "-9.7", "9.95");
   ("GQ", "10.27", "1.65"); ("GR", "21.82", "39.07"); ("GT", "-90.23", "15.78"); ("GW", "-15.18", "11.8");
   ("GY", "-58.93", "4.86"); ("HK", "114.17", "22.32"); ("HN", "-86.24", "15.2"); ("HR", "15.2", "45.1");
   ("HT", "-72.29", "18.97"); ("HU", "19.5", "47.16"); ("ID", "113.92", "-0.79"); ("IE", "-8.24", "53.41");
   ("IL", "34.85", "31.05"); ("IN", "78.96", "20.59"); ("IQ", "43.68", "33.22"); ("IR", "53.69", "32.43");
   ("IS", "-19.02", "64.96"); ("IT", "12.57", "41.87"); ("JM", "-77.3", "18.11"); ("JO", "36.24", "30.59");
   ("JP", "138.25", "36.2"); ("KE", "37.91", "-0.02"); ("KG", "74.77", "41.2"); ("KH", "104.99", "12.57");
   ("KP", "127.51", "40.34"); ("KR", "127.77", "35.91"); ("KW", "47.48", "29.31"); ("KZ", "66.92", "48.02");
   ("LA", "102.5", "19.86"); ("LB", "35.86", "33.85"); ("LK", "80.77", "7.87"); ("LR", "-9.43", "6.43");
   ("LS", "28.23", "-29.61"); ("LT", "23.88", "55.17"); ("LU", "6.13", "49.82"); ("LV", "24.6", "56.88");
   ("LY", "17.23", "26.34"); ("MA", "-7.09", "31.79"); ("MD", "28.37", "47.41"); ("ME", "19.37", "42.71");
   ("MG", "46.87", "-18.77"); ("MK", "21.75", "41.51"); ("ML", "-3.52", "17.57"); ("MM", "95.96", "21.91");
   ("MN", "103.85", "46.86"); ("MO", "113.54", "22.2"); ("MR", "-10.94", "21.01"); ("MT", "14.38", "35.94");
   ("MU", "57.55", "-20.35"); ("MV", "73.22", "3.2"); ("MW", "34.3", "-13.25"); ("MX", "-102.55", "23.63");
   ("MY", "101.98", "4.21"); ("MZ", "35.53", "-18.67"); ("NA", "18.49", "-22.96"); ("NE", "8.08", "17.61");
   ("NG", "8.68", "9.08"); ("NI", "-85.21", "12.87"); ("NL", "5.29", "52.13"); ("NO", "8.47", "60.47");
   ("NP", "84.12", "28.39"); ("NZ", "174.89", "-40.9"); ("OM", "55.92", "21.51"); ("PA", "-80.78", "8.54");
   ("PE", "-75.02", "-9.19"); ("PG", "143.96", "-6.31"); ("PH", "121.77", "12.88"); ("PK", "69.35", "30.38");
   ("PL", "19.15", "51.92"); ("PR", "-66.59", "18.22"); ("PS", "35.23", "31.95"); ("PT", "-8.22", "39.4");
   ("PY", "-58.44", "-23.44"); ("QA", "51.18", "25.35"); ("RO", "24.97", "45.94"); ("RS", "21.01", "44.02");
   ("RU", "105.32", "61.52"); ("RW", "29.87", "-1.94"); ("SA", "45.08", "23.89"); ("SD", "30.22", "12.86");
   ("SE", "18.64", "60.13"); ("SG", "103.82", "1.35"); ("SI", "14.99", "46.15"); ("SK", "19.7", "48.67");
   ("SL", "-11.78", "8.46"); ("SN", "-14.45", "14.5"); ("SO", "46.2", "5.15"); ("SR", "-56.03", "3.92");
   ("SS", "31.31", "6.88"); ("SV", "-88.9", "13.79"); ("SY", "38.99", "34.8"); ("SZ", "31.47", "-26.52");
   ("TD", "18.73", "15.45"); ("TG", "0.82", "8.62"); ("TH", "100.99", "15.87"); ("TJ", "71.28", "38.86");
   ("TM", "59.56", "38.97"); ("TN", "9.54", "33.89"); ("TR", "35.24", "38.96"); ("TW", "120.96", "23.7");
   ("TZ", "34.89", "-6.37"); ("UA", "31.17", "48.38"); ("UG", "32.29", "1.37"); ("US", "-95.71", "37.09");
   ("UY", "-55.77", "-32.52"); ("UZ", "64.59", "41.38"); ("VE", "-66.59", "6.42"); ("VN", "108.28", "14.06");
   ("YE", "48.52", "15.55"); ("ZA", "22.94", "-30.56"); ("ZM", "27.85", "-13.13"); ("ZW", "29.15", "-19.02")].

(** [ip.split(".").map((x) => parseInt(x, 10))]; NaN for a part that is not a
    number. *)
Definition octets (ip : jstring) : list num :=
  map (λ s, match parseInt s with Some z => num_of_Z z | None => nNaN end) (split1 46 ip).
(** [Number.isFinite(octets[n]) ? octets[n] : 0] *)
Definition octet (n : nat) (ip : jstring) : num :=
  match octets ip !! n with Some x => if is_finite x then x else nzero | None => nzero end.

(** A region of the list, shifted a little.  A negative last part selects no
    region, and reading the missing entry throws. *)
Definition rfc5737SpreadGeo (ip : jstring) : res IpGeo :=
  let o3 := octet 2 ip in
  let o4 := octet 3 ip in
  let base := match num_int (nrem (nadd (nmul o3 (num_of_Z 7)) o4) (num_of_Z 20)) with
              | Some idx => if idx <? 0 then None else RFC5737_ATTACK_REGIONS !! Z.to_nat idx
              | None => None
              end in
  match base with
  | None => Throw "Cannot read properties of undefined"
  | Some base =>
      Ok {| g_ip := ip; g_countryCode := rg_cc base; g_country := "Demo · " ++ rg_country base;
            g_lat := nadd (rg_lat base) (nmul (nsub (nrem o4 (num_of_Z 9)) (num_of_Z 4)) (lit_num "0.38"));
            g_lon := nadd (rg_lon base) (nmul (nsub (nrem o3 (num_of_Z 11)) (num_of_Z 5)) (lit_num "0.42"));
            g_source := GPrivate |}
  end.

Definition isRfc5737TestIp (ip : jstring) : bool :=
  starts_with "203.0.113." ip || starts_with "198.51.100." ip || starts_with "192.0.2." ip.

(** [/^(\d+)\.(\d+)\.(\d+)\.(\d+)$/]: the four numbers. *)
Definition quad_numbers (ip : jstring) : option (Z * Z * Z) :=
  match split1 46 ip with
  | [a; b; c; d] =>
      if forallb (λ s, nonempty s && forallb is_digit s) [a; b; c; d]
      then Some (digits_val 0 a, digits_val 0 b, digits_val 0 c) else None
  | _ => None
  end.
Definition isPrivateIpv4 (ip : jstring) : bool :=
  match quad_numbers ip with
  | None => false
  | Some (a, b, c) =>
      (a =? 10) || (a =? 127) || ((a =? 192) && (b =? 168)) || ((a =? 172) && (16 <=? b) && (b <=? 31)) ||
      ((a =? 100) && (64 <=? b) && (b <=? 127)) || ((a =? 192) && (b =? 0) && (c =? 2)) ||
      ((a =? 198) && (b =? 51) && (c =? 100)) || ((a =? 203) && (b =? 0) && (c =? 113))
  end.

Definition MAX_CACHE : Z := 512.
(** The [Map] from address to answer, oldest first. *)
Definition geo_cache := list (jstring * option IpGeo).
Definition trimCache (c : geo_cache) : geo_cache := drop (Z.to_nat (Z.of_nat (length c) - MAX_CACHE)) c.

Section lookup.
Context `{UnicodeCase} (w : world) (e : env).
(** [Math.cos] and [Math.sin], which are implementation-approximated. *)
Context (cos sin : num → num).

Definition centroidForCountry (cc : jstring) : option (num * num) :=
  let key := to_upper (trim cc) in
  (λ t, (lit_num t.1.2, lit_num t.2)) <$> jfind (λ t, t.1.1 =s key) COUNTRY_CENTROIDS.

(** [(a * 31 + p) | 0] over the octets *)
Definition octet_hash (ip : jstring) : Z :=
  fold_left (λ a p, to_int32 (nadd (nmul (num_of_Z a) (num_of_Z 31)) p)) (octets ip) 0.
(** The branch for private addresses: a point around the label's position. *)
Definition privateGeo (key : jstring) : IpGeo :=
  let angle := nmul (nrem (nmul (num_of_Z (octet_hash key)) (lit_num "137.508")) (num_of_Z 360))
                    (ndiv (lit_num "3.141592653589793") (num_of_Z 180)) in
  let radius := nadd (lit_num "0.18") (nmul (nrem (octet 3 key) (num_of_Z 16)) (lit_num "0.11")) in
  {| g_ip := key; g_countryCode := "PRV"; g_country := "Private"; g_lat := nadd (num_of_Z 39) (nmul radius (cos angle));
     g_lon := nadd (num_of_Z 35) (nmul radius (sin angle)); g_source := GPrivate |}.

Definition fetchIpApi (ip : jstring) : option IpGeo :=
  if negb (test_full IPV4_RE ip) then None
  else
    match encodeURIComponent ip with
    | None => None
    | Some u =>
        match w_fetch w ("http://ip-api.com/json/" ++ u ++ "?fields=status,country,countryCode,lat,lon")
                [("user-agent", "Log-Guardian-Dashboard/1.0")] with
        | Some (st, Some data) =>
            if negb (res_ok st) then None
            else
              match truthy_str (as_str (jopt "countryCode" (Some data))) with
              | Some code =>
                  if negb (is_lit "success" (jopt "status" (Some data))) then None
                  else
                    let cc := to_upper code in
                    let lat := match as_num (jopt "lat" (Some data)) with Some x => Some x | None => snd <$> centroidForCountry cc end in
                    let lon := match as_num (jopt "lon" (Some data)) with Some x => Some x | None => fst <$> centroidForCountry cc end in
                    match lat, lon with
                    | Some lat, Some lon =>
                        Some {| g_ip := ip; g_countryCode := cc; g_country := oor (as_str (jopt "country" (Some data))) cc;
                                g_lat := lat; g_lon := lon;
                                g_source := match as_num (jopt "lat" (Some data)) with Some _ => GLookup | None => GCentroid end |}
                    | _, _ => None
                    end
              | None => None
              end
        | _ => None
        end
    end.

(** The answer for a key that is not cached. *)
Definition locate (key : jstring) : res (option IpGeo) :=
  if isRfc5737TestIp key then match rfc5737SpreadGeo key with Ok g => Ok (Some g) | Throw m => Throw m end
  else if isPrivateIpv4 key || starts_with "::" key || (key =s "::1") then Ok (Some (privateGeo key))
  else
    match fetchIpApi key with
    | Some g => Ok (Some g)
    | None =>
        match truthy_str (e ("GEOIP_CC_" ++ replace_unit 46 "_" key)) with
        | None => Ok None
        | Some cc =>
            Ok ((λ c, {| g_ip := key; g_countryCode := to_upper cc; g_country := to_upper cc; g_lat := c.2;
                         g_lon := c.1; g_source := GCentroid |}) <$> centroidForCountry cc)
        end
    end.

Definition lookupIpGeo (ip : jstring) : M geo_cache (option IpGeo) :=
  let key := trim ip in
  if negb (nonempty key) || (45 <? slen key) then mret' None
  else
    let* c := get in
    match assoc key c with
    | Some hit => mret' hit
    | None =>
        let* result := lift_res (locate key) in
        modify (λ c, trimCache (put_field key result c)) ;;;
        mret' result
    end.

Fixpoint lookup_each (ips : list jstring) : M geo_cache (list IpGeo) :=
  match ips with
  | [] => mret' []
  | ip :: ips' =>
      let* geo := lookupIpGeo ip in
      let* out := lookup_each ips' in
      mret' (match geo with Some g => g :: out | None => out end)
  end.
Definition lookupManyIps (ips : list jstring) (limit : Z) : M geo_cache (list IpGeo) :=
  lookup_each (take (Z.to_nat limit) (dedup_by id [] (jfilter nonempty (map trim ips)))).
End lookup.

(** ** The route *)

Inductive MarkerKind := MBan | MIncident | MAck.
Definition marker_kind_text (k : MarkerKind) : jstring :=
  match k with MBan => "ban" | MIncident => "incident" | MAck => "ack" end.
Record marker_meta := { mm_reason : option jstring; mm_kind : MarkerKind; mm_risk : option num; mm_operator : option jstring }.
Definition meta_map := list (jstring * marker_meta).

Record GeoIncident := { gi_ip : option jstring; gi_incident_id : option jstring; gi_risk_score : option num }.
Definition as_GeoIncident (v : json) : option GeoIncident :=
  match is_obj v, field_str "ip" v, field_str "incident_id" v, field_num "risk_score" v with
  | true, Some ip, Some id, Some risk => Some {| gi_ip := ip; gi_incident_id := id; gi_risk_score := risk |}
  | _, _, _, _ => None
  end.
Record GeoAck := { ga_ack_key : option jstring; ga_operator : option jstring }.
Definition as_GeoAck (v : json) : option GeoAck :=
  match is_obj v, field_str "ack_key" v, field_str "operator" v with
  | true, Some key, Some op => Some {| ga_ack_key := key; ga_operator := op |}
  | _, _, _ => None
  end.
(** [isPublicIp] of this route *)
Definition quad_like (ip : option jstring) : bool :=
  match truthy_str ip with Some ip => test_full QUAD_RE ip | None => false end.


Definition GEO_LIMIT : Z := 64.
Definition add_ban (m : meta_map) (b : BanEntry) : meta_map :=
  if nonempty (be_ip b) then
    put_field (be_ip b) {| mm_reason := be_reason b; mm_kind := MBan; mm_risk := None; mm_operator := None |} m
  else m.
Definition add_incident (m : meta_map) (inc : GeoIncident) : meta_map :=
  match truthy_str (gi_ip inc) with
  | None => m
  | Some ip =>
      put_field ip {| mm_reason := match assoc ip m ≫= mm_reason with Some r => Some r | None => gi_incident_id inc end;
                      mm_kind := MIncident; mm_risk := gi_risk_score inc; mm_operator := None |} m
  end.
Definition add_ack (m : meta_map) (ack : GeoAck) : meta_map :=
  match ga_ack_key ack with
  | None => m
  | Some ip =>
      match assoc ip m with
      | Some _ => m
      | None =>
          let op := sor (trim (ga_operator ack ?? [])) "operator" in
          put_field ip {| mm_reason := Some ("Gördüm · " ++ op); mm_kind := MAck; mm_risk := None;
                          mm_operator := Some op |} m
      end
  end.
Definition add_report (m : meta_map) (f : FallbackIpMeta) : meta_map :=
  put_field (fm_ip f) {| mm_reason := Some (fm_reason f);
                         mm_kind := match fm_kind f with KBan => MBan | KIncident => MIncident end; mm_risk := None;
                         mm_operator := None |} m.

Section route.
Context `{UnicodeCase} (w : world) (e : env) (cos sin : num → num).
Context (cwd : jstring) (joinPath : jstring → jstring → jstring).

(** The acknowledged addresses of the first status file that can be read. *)
Definition readTelegramAckIps : list GeoAck :=
  first_some (λ p, match w_read w p with
                   | Some raw => match JSON_parse raw with
                                 | None | Some JNull => None
                                 | Some data => jfilter (λ a, quad_like (ga_ack_key a)) <$>
                                                  field_docs as_GeoAck "recent_telegram_acks" data
                                 end
                   | None => None
                   end)
    [joinPath (SOC_DATA_DIR e) "guardian-status.json"; joinPath cwd "guardian-status.json";
     joinPath (joinPath cwd "..") "guardian-status.json"] ?? [].
Definition geo_incidents : option (list GeoIncident) :=
  match w_fetch w (guardianApiBase e ++ "/api/v1/incidents") (guardianApiAuthHeaders e) with
  | Some (st, Some data) =>
      if res_ok st then match data with JNull => Some [] | _ => field_docs as_GeoIncident "incidents" data end
      else Some []
  | _ => Some []
  end.

Definition live_meta (bans : list BanEntry) (incidents : list GeoIncident) (acks : list GeoAck) : meta_map :=
  fold_left add_ack acks (fold_left add_incident incidents (fold_left add_ban bans [])).

Definition marker_json (m : meta_map) (g : IpGeo) : json :=
  let mm := assoc (g_ip g) m in
  JObject [("ip", Some (JStr (g_ip g))); ("lat", Some (num_json (g_lat g))); ("lon", Some (num_json (g_lon g)));
           ("countryCode", Some (JStr (g_countryCode g))); ("country", Some (JStr (g_country g)));
           ("kind", Some (JStr (marker_kind_text ((mm_kind <$> mm) ?? MBan)))); ("reason", JStr <$> (mm ≫= mm_reason));
           ("risk", JNum <$> (mm ≫= mm_risk)); ("source", Some (JStr (geo_source_text (g_source g))));
           ("operator", JStr <$> (mm ≫= mm_operator))].

Definition attack_geo_GET : M geo_cache response :=
  let bans := fetchBannedIps w e {| countOnly := false; limit := Some (Some 40); offset := Some (Some 0); search := None |} in
  let* incidents := ofo "unexpected document" geo_incidents in
  let meta := live_meta (br_bans bans) incidents readTelegramAckIps in
  let* chosen :=
    match meta with
    | [] => let* fallback := lift_res (fetchFallbackAttackIps w (SOC_DATA_DIR e)) in
            mret' (fold_left add_report fallback [], match fallback with [] => "live" | _ => "report" end)
    | _ => mret' (meta, "live" : jstring)
    end in
  let meta := fst chosen in
  let ips := map fst meta in
  let geoEnabled := negb (env_is e "ATTACK_GEO_LOOKUP" "0") in
  let* geos := (if geoEnabled then lookupManyIps w e cos sin ips GEO_LIMIT else mret' []) in
  mret' (respond 200 (JObj
    [("count", jint (Z.of_nat (length geos))); ("total_ips", jint (Z.of_nat (length ips)));
     ("geo_lookup", JBool geoEnabled); ("bans_source", JStr (br_source bans)); ("data_source", JStr (snd chosen));
     ("defender", JObj [("lat", num_json (js_Number (e "ATTACK_MAP_DEFENDER_LAT" ?? "41.0082")));
                        ("lng", num_json (js_Number (e "ATTACK_MAP_DEFENDER_LNG" ?? "28.9784")))]);
     ("markers", JArr (map (marker_json meta) geos))])).
End route.

(** ** Lookups *)

(** The cache holds at most [MAX_CACHE] answers, each under its own address. *)
Definition geo_ok (c : geo_cache) : Prop :=
  Z.of_nat (length c) ≤ MAX_CACHE ∧ NoDup (c.*1) ∧ ∀ k g, (k, Some g) ∈ c → g_ip g = k.

Section lookup_facts.
Context `{UnicodeCase} (w : world) (e : env) (cos sin : num → num).

Lemma locate_ip key g : locate w e cos sin key = Ok (Some g) → g_ip g = key.
Proof.
  unfold locate. destruct (isRfc5737TestIp key).
  - unfold rfc5737SpreadGeo. destruct (match num_int _ with Some _ => _ | None => _ end); [|done]. by intros [= <-].
  - destruct (_ || _ || _); [by intros [= <-]|]. destruct (fetchIpApi w key) as [g'|] eqn:Ef.
    + intros [= <-]. unfold fetchIpApi in Ef. repeat split_match; simplify_eq; done.
    + destruct (truthy_str _); [|done]. destruct (centroidForCountry _); [|done]. by intros [= <-].
Qed.

(** Private, local and documentation addresses are placed without asking the
    external service: the answer is the same whatever the network returns. *)
Lemma locate_private_offline w2 key :
  isRfc5737TestIp key || isPrivateIpv4 key || starts_with "::" key = true →
  locate w e cos sin key = locate w2 e cos sin key.
Proof.
  intros Hk. unfold locate. destruct (isRfc5737TestIp key); [done|]. cbn [orb] in Hk. by rewrite Hk.
Qed.
(** Only dotted quads are ever sent to it. *)
Lemma fetch_only_quads w2 key : test_full IPV4_RE key = false → fetchIpApi w key = fetchIpApi w2 key.
Proof. intros Hk. unfold fetchIpApi. by rewrite Hk. Qed.

Lemma trim_put_ok key result c :
  geo_ok c → assoc key c = None → (∀ g, result = Some g → g_ip g = key) → geo_ok (trimCache (put_field key result c)).
Proof.
  intros (Hlen & Hnd & Hk) Hn Hr. unfold trimCache, geo_ok. splits.
  - rewrite length_drop. unfold MAX_CACHE. lia.
  - eapply sublist_NoDup; [by apply (put_field_nodup key result c)|]. apply fmap_sublist, sublist_drop.
  - intros k g Hin%drop_elem. apply put_field_elem in Hin as [[= -> <-]|Hin]; [by apply Hr|by apply Hk].
Qed.
Lemma lookupIpGeo_ok ip : keeps geo_ok (lookupIpGeo w e cos sin ip).
Proof.
  intros c Hc. unfold lookupIpGeo. destruct (_ || _); [done|]. unfold mbind', get, mret', lift_res, modify.
  destruct (assoc (trim ip) c) as [hit|] eqn:Ea; [done|]. destruct (locate w e cos sin (trim ip)) as [res|m] eqn:El; [|done].
  cbn. apply trim_put_ok; [done|done|]. intros g ->. by apply locate_ip in El.
Qed.
Lemma lookup_hit ip c c' g :
  lookupIpGeo w e cos sin ip c = (Ok (Some g), c') → geo_ok c → g_ip g = trim ip.
Proof.
  unfold lookupIpGeo. destruct (_ || _); [done|]. unfold mbind', get, mret', lift_res, modify. intros E (_ & Hnd & Hk).
  destruct (assoc (trim ip) c) as [hit|] eqn:Ea.
  - injection E as -> _. apply assoc_elem in Ea. by apply Hk.
  - destruct (locate w e cos sin (trim ip)) as [res|m] eqn:El; [|done]. injection E as -> _. by apply locate_ip in El.
Qed.

(** The looked-up places are a part of the requested addresses, in order. *)
Lemma lookup_each_sub ips c c' out :
  Forall (λ ip, trim ip = ip) ips → geo_ok c → lookup_each w e cos sin ips c = (Ok out, c') →
  map g_ip out `sublist_of` ips.
Proof.
  revert c c' out. induction ips as [|ip ips IH]; intros c c' out Ht Hc; cbn [lookup_each].
  - unfold mret'. intros [= <- _]. constructor.
  - unfold mbind', mret'. inversion_clear Ht as [|? ? Hip Htl].
    destruct (lookupIpGeo w e cos sin ip c) as [[geo|m] c1] eqn:E1; [|done].
    assert (Hc1 : geo_ok c1) by (pose proof (lookupIpGeo_ok ip c Hc) as Hk; by rewrite E1 in Hk).
    destruct (lookup_each w e cos sin ips c1) as [[out'|m] c2] eqn:E2; [|done]. intros [= <- _].
    specialize (IH _ _ _ Htl Hc1 E2). destruct geo as [g|]; [|by constructor].
    apply lookup_hit in E1; [|done]. rewrite Hip in E1. cbn [map]. rewrite E1. by constructor.
Qed.

(** Geolocation of a list of addresses: at most [limit] places, at most one
    per address and each for one of the trimmed addresses asked for, while the
    cache keeps at most 512 answers, each under its own address, also when a
    lookup fails. *)
Theorem lookup_many_sound ips limit c :
  0 ≤ limit → geo_ok c →
  geo_ok (lookupManyIps w e cos sin ips limit c).2 ∧
  ∀ out c', lookupManyIps w e cos sin ips limit c = (Ok out, c') →
    Z.of_nat (length out) ≤ limit ∧ NoDup (map g_ip out) ∧ ∀ g, g ∈ out → g_ip g ∈ map trim ips.
Proof.
  intros Hlim Hc. unfold lookupManyIps. set (asked := take _ _). split.
  - clear -Hc. revert c Hc. generalize asked. intros l. induction l as [|ip l IH]; intros c Hc; [done|].
    change (keeps geo_ok (lookup_each w e cos sin l)) in IH. cbn [lookup_each].
    apply (keeps_bind geo_ok); [apply lookupIpGeo_ok| |done]. intros geo. apply keeps_bind; [done|]. intros out. apply keeps_ret.
  - intros out c' E. assert (Hasked : ∀ ip, ip ∈ asked → ip ∈ map trim ips ∧ trim ip = ip).
    { intros ip Hip. apply take_elem, dedup_by_fresh in Hip as [Hip _]. apply jfilter_elem in Hip as [Hip _].
      split; [done|]. apply list_elem_of_fmap in Hip as (x & -> & _). apply trim_idemp. }
    apply lookup_each_sub in E; [|apply Forall_forall; intros; by apply Hasked|done]. splits.
    + apply sublist_length in E. rewrite length_map in E. unfold asked in E. rewrite length_take in E. lia.
    + eapply sublist_NoDup; [|exact E]. eapply sublist_NoDup; [|apply sublist_take].
      pose proof (dedup_by_nodup (id : jstring → jstring) [] (jfilter nonempty (map trim ips))) as Hnd.
      by rewrite list_fmap_id in Hnd.
    + intros g Hg. apply Hasked. eapply elem_of_sublist; [|exact E]. by apply list_elem_of_fmap_2.
Qed.
End lookup_facts.

Module MapDemo.
Definition const_one (_ : num) : num := num_of_Z 1.
Definition run := lookupManyIps (H := ascii_case) no_world (env_of []) const_one const_one
  [" 203.0.113.5"; "203.0.113.5"; "8.8.8.8"; "10.0.0.1"] 64 [].
(** Without a network the public address has no place; the others do. *)
Example lookup_ex :
  match run with (Ok out, c) => (map g_ip out, map g_countryCode out, map fst c) | _ => ([], [], []) end
  = (["203.0.113.5"; "10.0.0.1"], ["UA"; "PRV"], ["203.0.113.5"; "8.8.8.8"; "10.0.0.1"]).
Proof. vm_compute. reflexivity. Qed.
End MapDemo.

(** A test address with a negative last part makes the lookup throw. *)
Lemma lookup_negative_throws `{UnicodeCase} w e cos sin c :
  assoc "203.0.113.-800" c = None →
  lookupIpGeo w e cos sin "203.0.113.-800" c = (Throw "Cannot read properties of undefined", c).
Proof.
  intros Hc. unfold lookupIpGeo. cbv zeta.
  replace (trim "203.0.113.-800") with ("203.0.113.-800" : jstring) by reflexivity.
  replace (negb (nonempty _) || _) with false by reflexivity.
  unfold mbind', get. rewrite Hc. reflexivity.
Qed.
