(* ===== verification/Reports.v ===== *)
(** The report documents the dashboard reads and the cards it makes of them
    (dashboard/src/lib/validationTests.ts, the types and helpers at its top): the
    TypeScript type of every report as data, and the pieces a test card is built
    from. *)

From S2P Require Import Prelude JsString JsNum Json Regex Http JsValue.

Inductive TestStatus := TPass | TFail | TPending | TWarn.
#[global] Instance TestStatus_eq_dec : EqDecision TestStatus.
Proof. solve_decision. Defined.
Definition status_text (x : TestStatus) : jstring :=
  match x with TPass => "pass" | TFail => "fail" | TPending => "pending" | TWarn => "warn" end.

Inductive Locale := tr | en.
Definition is_tr (l : Locale) : bool := match l with tr => true | en => false end.

(** A card, an object of type [ValidationTestResult]. *)
Abbreviation test := json.

(** The locale and time zone of the process decide how [new Date(v)] prints. *)
Class DateFormat := show_date : json → jstring.

(** The two texts are arguments: both are computed before one is chosen. *)
Definition L (locale : Locale) (turkish english : res val) : res val :=
  let? a := turkish in let? b := english in Ok (if is_tr locale then a else b).
(** [toLocaleString] of an invalid date is a text, so nothing is caught. *)
Definition fmtDate `{DateFormat} (iso : val) : val :=
  match iso with Some v => if truthy v then vs (show_date v) else None | None => None end.
Definition metric (label value : res val) : res json :=
  let? l := label in let? v := value in Ok (JObject [("label", l); ("value", v)]).

(** The object literal a block of the evaluator pushes, with the expressions of
    its fields. *)
Record draft := {
  d_id : jstring;
  d_status : TestStatus;
  d_title : res val;
  d_purpose : res val;
  d_verdict : res val;
  d_metrics : list (res json);
  d_date : val;
  d_script : res val;
  d_badge : option (res val);
}.
(** [out.push({ ... })]: the fields are computed in order. *)
Definition push (d : draft) : res (list test) :=
  let? title := d_title d in
  let? purpose := d_purpose d in
  let? verdict := d_verdict d in
  let? metrics := rseq (d_metrics d) in
  let? script := d_script d in
  let? badge := match d_badge d with Some b => b | None => Ok None end in
  Ok [JObject [("id", vs (d_id d)); ("status", vs (status_text (d_status d))); ("title", title);
               ("purpose", purpose); ("verdict", verdict); ("metrics", Some (JArr metrics)); ("date", d_date d);
               ("script", script); ("badge", badge)]].
Definition none : res (list test) := Ok [].

(** [mode] and [file] as texts: another truthy value has no [startsWith], and a
    pattern is tested on the printed form. *)
Definition arm64BinaryVerified (mode file : val) : res bool :=
  if negb (otruthy mode) || is_lit "dry-run" mode || is_lit "skip" mode then Ok false
  else if negb (otruthy file) then
    match mode with Some (JStr m) => Ok (starts_with "native" m) | _ => not_a_function "startsWith" end
  else let f := lname (ostr file) in Ok (includes "aarch64" f || includes "arm" f).
(** [api?.replace(/^https?:\/\//, "")] *)
Definition strip_scheme (v : val) : res val :=
  match v with
  | None | Some JNull => Ok None
  | Some (JStr u) => Ok (vs (if starts_with "https://" u then drop 8 u
                             else if starts_with "http://" u then drop 7 u else u))
  | _ => not_a_function "replace"
  end.
Definition skipModes : list jstring :=
  ["skip"; "skip-no-kind"; "skip-no-cluster"; "skip-no-helm"; "skip-no-kubectl"].

(** ** The report types *)

Definition TestStatus_ty : ty := TLits ["pass"; "fail"; "pending"; "warn"].
Definition ValidationTestResult : ty :=
  TObj [req "id" TStr; req "status" TestStatus_ty; req "title" TStr; req "purpose" TStr; req "verdict" TStr;
        req "metrics" (TArr (TObj [req "label" TStr; req "value" TStr])); opt "date" TStr; req "script" TStr;
        opt "badge" TStr; opt "docHref" TStr; opt "docLabel" TStr].

Definition CrsReport : ty :=
  TObj [opt "date" TStr; opt "pass" TBool; opt "guardian" (TObj [opt "attack_recall_pct" TNum;
        opt "benign_fp_pct" TNum]); opt "parity_pct" TNum; opt "attacks_total" TNum].
Definition FpReport : ty :=
  TObj [opt "date" TStr; opt "benign" (TObj [opt "lines" TNum; opt "alerts" TNum;
        opt "fp_rate_pct" TNum]); opt "target_fp_pct" TNum].
Definition SoakReport : ty :=
  TObj [opt "started" TStr; opt "ended" TStr; opt "pass" TBool; opt "pass_strict" TBool;
        opt "pass_operational" TBool; opt "duration_hours" TNum; opt "failures" TNum; opt "samples" TNum;
        opt "max_rss_kb" TNum; opt "fail_reasons" (TRecord TNum); opt "notes" TStr].
Definition IsolationReport : ty :=
  TObj [opt "generated_at" TStr; opt "pass" TBool; opt "checks_passed" TNum; opt "checks_total" TNum;
        opt "tenant" (TObj [opt "id" TStr])].
Definition BenchReport : ty :=
  TObj [opt "date" TStr; opt "lines" TNum; opt "log_guardian" (TObj [opt "eps" TNum;
        opt "latency_us_per_line" TNum]); opt "modsecurity" (TObj [opt "eps" TNum;
        opt "latency_us_per_line" TNum; opt "note" TStr]);
        opt "comparison" (TObj [opt "same_log_corpus" TBool])].
Definition BanReport : ty :=
  TObj [opt "date" TStr; opt "ban_latency_ms" (TNull TNum); opt "target_ms" TNum;
        opt "prod_target_ms" TNum; opt "pass" TBool; opt "ipset_confirmed" TBool; opt "p90_ms" TNum;
        opt "note" TStr].
Definition LiveReport : ty :=
  TObj [opt "generated_at" TStr; opt "ipc" TStr; opt "ban_pipeline" (TObj [opt "ipc" TNum; opt "xdp" TNum;
        opt "ipset" TNum; opt "failed" TNum]); opt "metrics" (TObj [opt "eps" TNum; opt "reachable" TBool]);
        opt "daemon" (TNull (TObj [opt "xdp_active" TBool]))].
Definition RealAttackReport : ty :=
  TObj [opt "date" TStr; opt "pass" TBool; opt "attack_recall_pct" TNum; opt "target_recall_pct" TNum;
        opt "lines_total" TNum; opt "alerts_total" TNum; opt "categories" (TRecord (TObj [opt "lines" TNum;
        opt "alerts" TNum; opt "recall_pct" TNum; opt "pass" TBool])); opt "live" (TObj [opt "enabled" TBool;
        opt "pass" TBool])].
Definition LiveAttackReport : ty :=
  TObj [opt "generated_at" TStr; opt "pass" TBool; opt "summary" (TObj [opt "sent_total" TNum;
        opt "refused_total" TNum; opt "ban_evidence" TBool]); opt "scenarios" (TArr (TObj [opt "name" TStr;
        opt "sent" TNum; opt "refused" TNum]))].
Definition Ja3ClusterReport : ty :=
  TObj [opt "date" TStr; opt "pass" TBool; opt "category" TStr; opt "unique_ips" TNum;
        opt "lines_total" TNum; opt "alerts_total" TNum; opt "recall_pct" TNum; opt "target_recall_pct" TNum;
        opt "same_ua" TStr; opt "live" (TObj [opt "enabled" TBool; opt "tls_ready" TBool; opt "pass" TBool;
        opt "ja3_test" (TObj [opt "sent" TBool; opt "metrics_delta_c2" TNum]);
        opt "https_swarm" (TObj [opt "ok" TNum; opt "sent" TNum])])].
Definition Ja3ClusterBanLiveReport : ty :=
  TObj [opt "date" TStr; opt "pass" TBool; opt "mode" TStr; opt "ip_block" TStr;
        opt "ban_pipeline_delta" TNum; opt "alerts_delta" TNum; opt "ja3_cluster_flush_this_run" TBool;
        opt "lines_injected" TNum].
Definition FpClusterTrustReport : ty :=
  TObj [opt "date" TStr; opt "pass" TBool; opt "trusted_ip" TStr; opt "attack_block" TStr;
        opt "trusted_cluster_banned" TBool; opt "ja3_cluster_flush" TBool; opt "attack_ja3_cluster_bans" TNum].
Definition LineageLiveReport : ty :=
  TObj [opt "date" TStr; opt "pass" TBool; opt "active_trees" TNum; opt "max_risk" TNum;
        opt "chain_risk" TNum; opt "event_types" (TArr TStr); opt "event_count" TNum; opt "comm" TStr;
        opt "export" TStr; opt "resolver_source" TStr; opt "demo_pid" TNum].
Definition NginxConsultReport : ty :=
  TObj [opt "date" TStr; opt "pass" TBool; opt "api_port" TNum; opt "endpoint" TStr;
        opt "tests" (TRecord (TObj [opt "http_code" TNum; opt "expect" TNum])); opt "nginx_snippet" TStr].
Definition NginxHybridReport : ty :=
  TObj [opt "date" TStr; opt "pass" TBool; opt "mode" TStr;
        opt "checks" (TObj [opt "log_replay_alerts" TNum;
        opt "edge_sqli_blocked" (TObj [opt "http_code" TNum])]); opt "note" TStr].
Definition BanProfileE2eReport : ty :=
  TObj [opt "date" TStr; opt "pass" TBool; opt "checks" (TArr TStr)].
Definition Ipv6BanE2eReport : ty :=
  TObj [opt "date" TStr; opt "pass" TBool; opt "test_ip" TStr; opt "ban_via" TStr; opt "ban_path" TStr;
        opt "ipset_v6" TStr].
Definition ApiMutationTokenE2eReport : ty :=
  TObj [opt "date" TStr; opt "pass" TBool; opt "skipped" TBool; opt "split_enabled" TBool;
        opt "fail_reason" (TNull TStr); opt "reason" TStr].
Definition ApiMutationAuditE2eReport : ty :=
  TObj [opt "date" TStr; opt "pass" TBool; opt "fail_reason" (TNull TStr); opt "audit_path" TStr].
Definition DashboardLoginRlE2eReport : ty :=
  TObj [opt "date" TStr; opt "pass" TBool; opt "fail_reason" (TNull TStr); opt "probe_ip" TStr;
        opt "max_attempts" TNum].
Definition HardeningRollbackGateReport : ty :=
  TObj [opt "date" TStr; opt "pass" TBool; opt "fail_reason" (TNull TStr);
        opt "checks" (TArr (TObj [opt "id" TStr; opt "ok" TBool; opt "note" TStr])); opt "doc" TStr].
Definition DashboardJwtIdleGateReport : ty :=
  TObj [opt "date" TStr; opt "pass" TBool; opt "fail_reason" (TNull TStr);
        opt "idle_min" (TUnion TNum TStr); opt "mode" TStr; opt "hint" TStr].
Definition MtlsCertExpiryReport : ty :=
  TObj [opt "date" TStr; opt "pass" TBool; opt "skipped" TBool; opt "min_days_left" (TNull TNum);
        opt "warn_days" TNum; opt "certs" (TArr (TObj [opt "id" TStr; opt "days_left" TNum; opt "ok" TBool]))].
Definition BanApiMtlsReport : ty :=
  TObj [opt "date" TStr; opt "pass" TBool; opt "skipped" TBool; opt "fail_reason" (TNull TStr);
        opt "reason" TStr; opt "read_token_post_reject" TBool; opt "mutation_ok" TBool; opt "mtls_verify" TBool;
        opt "mtls_no_cert_reject" TBool; opt "skipped_nginx" TBool; opt "caddy_mtls_verify" TBool;
        opt "caddy_skipped" TBool].
Definition CaddyMtlsStatusReport : ty :=
  TObj [opt "enabled" TBool; opt "mtls_strict" TBool; opt "soar_url" TStr; opt "relay_url" TStr].
Definition EnterpriseSoarGateReport : ty :=
  TObj [opt "date" TStr; opt "pass" TBool; opt "mode" TStr; opt "soar_enabled" TBool;
        opt "mtls_strict" TBool; opt "dashboard_ban_ok" TBool; opt "caddy_mtls_ok" (TNull TBool);
        opt "mtls_lab_ok" TBool; opt "mutation_ok" TBool; opt "fail_reason" (TNull TStr); opt "soar_url" TStr;
        opt "relay_url" TStr].
Definition CorpusReport : ty :=
  TObj [opt "date" TStr; opt "pass" TBool; opt "lines_total" TNum; opt "alerts_total" TNum;
        opt "attack_recall_pct" TNum; opt "target_recall_pct" TNum;
        opt "categories" (TRecord (TObj [opt "lines" TNum; opt "alerts" TNum; opt "recall_pct" TNum;
        opt "pass" TBool]))].
Definition ThreatIntelSyncReport : ty :=
  TObj [opt "date" TStr; opt "pass" TBool; opt "duration_sec" TNum; opt "ipset_delta" TNum;
        opt "ioc_lines" TNum; opt "sync_ok" TBool].
Definition WebhookRouteProofReport : ty :=
  TObj [opt "date" TStr; opt "pass" TBool; opt "mode" TStr; opt "route_enabled" TBool;
        opt "batch_sec" TNum; opt "dry_run" (TObj [opt "ok" TBool]); opt "batch" (TObj [opt "ok" TBool]);
        opt "prod_e2e" (TObj [opt "ok" TBool; opt "skipped" TBool]); opt "metrics_delta" TNum;
        opt "alerts_total" TNum; opt "fail_reason" TStr].
Definition WebhookTelegramLiveReport : ty :=
  TObj [opt "date" TStr; opt "pass" TBool; opt "mode" TStr; opt "route" TBool; opt "batch_sec" TNum;
        opt "mirror_warn" TBool; opt "kinds" (TArr TStr)].
Definition WebhookTelegramAckLiveReport : ty :=
  TObj [opt "date" TStr; opt "pass" TBool; opt "ack_before" TNum; opt "ack_after" TNum;
        opt "unacked_before" TNum; opt "unacked_after" TNum; opt "test_ip" TStr; opt "ack_key" TStr;
        opt "metrics_ack_24h" (TNull TNum); opt "fail_reason" TStr].
Definition TelegramOperatorUndoE2eReport : ty :=
  TObj [opt "date" TStr; opt "pass" TBool; opt "ip" TStr; opt "mode" TStr; opt "fail_reason" TStr;
        opt "script" TStr].
Definition DashboardBanApiReport : ty :=
  TObj [opt "date" TStr; opt "pass" TBool; opt "test_ip" TStr; opt "host_api" (TObj [opt "ok" TBool;
        opt "url" TStr]); opt "relay_api" (TObj [opt "ok" TBool; opt "url" TStr]);
        opt "docker_api" (TObj [opt "ok" TBool; opt "container" TStr]); opt "ban_path" TStr;
        opt "fail_reason" TStr].
Definition DashboardLiveDemoReport : ty :=
  TObj [opt "date" TStr; opt "pass" TBool; opt "bans_applied" TNum; opt "bans_failed" TNum;
        opt "active_bans_synced" TNum; opt "api" TStr; opt "ips" (TArr TStr); opt "note" TStr].
Definition AttackMapReport : ty :=
  TObj [opt "date" TStr; opt "pass" TBool; opt "dash_url" TStr; opt "markers" TNum; opt "total_ips" TNum;
        opt "data_source" TStr; opt "geo_lookup" TBool; opt "bans_source" TStr; opt "ack_markers" TNum;
        opt "ban_markers" TNum; opt "incident_markers" TNum; opt "fail_reason" TStr].
Definition TelegramSocGateReport : ty :=
  TObj [opt "date" TStr; opt "pass" TBool; opt "soc_entries" TNum; opt "soc_ack" TNum; opt "soc_ban" TNum;
        opt "map_markers" TNum; opt "map_ack" TNum; opt "map_ban" TNum; opt "bans_acks" TNum;
        opt "status_acks" TNum; opt "prod_e2e_ok" TBool; opt "undo_e2e_ok" TBool; opt "data_mode" TStr;
        opt "fail_reason" TStr; opt "script" TStr].
Definition BansTelegramOpsReport : ty :=
  TObj [opt "date" TStr; opt "pass" TBool; opt "acks_count" TNum; opt "test_ip" TStr;
        opt "test_ip_ack" TBool; opt "test_ip_operator" TStr; opt "test_ip_banned" TBool;
        opt "bans_search_count" TNum; opt "fail_reason" TStr; opt "script" TStr].
Definition EdgeProtectionGateReport : ty :=
  TObj [opt "date" TStr; opt "pass" TBool; opt "ipc" TStr; opt "xdp_mode" TStr; opt "xdp_active" TBool;
        opt "default_nic" TStr; opt "wifi_nic" TBool; opt "nginx_log_format" TBool; opt "nginx_snippets" TBool;
        opt "nginx_live" TBool; opt "whitelist_count" TNum; opt "ipset_entries" TNum; opt "bans_active" TNum;
        opt "threat_intel_legacy_rows" TNum; opt "threat_intel_summary_rows" TNum; opt "fail_reason" TStr;
        opt "script" TStr].
Definition IntelBanDbReport : ty :=
  TObj [opt "date" TStr; opt "pass" TBool; opt "ban_events_total" TNum; opt "intel_legacy_rows" TNum;
        opt "intel_summary_rows" TNum; opt "stale_rows" TNum; opt "intel_ban_db_ttl_days" TNum;
        opt "max_total_rows" TNum; opt "fail_reason" TStr; opt "notes" (TArr TStr); opt "script" TStr].
Definition GrafanaParityGateReport : ty :=
  TObj [opt "date" TStr; opt "pass" TBool; opt "panel_metrics" TNum; opt "dashboard_metrics" TNum;
        opt "missing_in_dashboard" (TArr TStr); opt "missing_in_panels" (TArr TStr); opt "fail_reason" TStr;
        opt "script" TStr].
Definition WebsitePreviewGateReport : ty :=
  TObj [opt "date" TStr; opt "pass" TBool; opt "expected_tests" TNum; opt "site_tests" TNum;
        opt "site_pass" TNum; opt "site_fail" TNum; opt "has_grafana_parity" TBool; opt "has_edge_gate" TBool;
        opt "fail_reason" TStr; opt "script" TStr].
Definition EnterpriseEscalationGateReport : ty :=
  TObj [opt "date" TStr; opt "pass" TBool; opt "doc_sections" TNum; opt "support_linked" TBool;
        opt "operator_scripts" TNum; opt "live_gates_ok" TNum; opt "live_gates_total" TNum;
        opt "fail_reason" TStr; opt "script" TStr].
Definition VmHostPrepGateReport : ty :=
  TObj [opt "date" TStr; opt "pass" TBool; opt "context" TStr; opt "post_install_fail" TNum;
        opt "post_install_warn" TNum; opt "proof_tests" TNum; opt "proof_pass" TNum; opt "vm_sprint_pass" TBool;
        opt "vbox_share_ok" TBool; opt "fail_reason" TStr; opt "script" TStr].
Definition DocsConsistencyGateReport : ty :=
  TObj [opt "date" TStr; opt "pass" TBool; opt "checks_ok" TNum; opt "checks_fail" TNum;
        opt "proof_tests" TNum; opt "proof_pass" TNum; opt "hosting_8b" TBool;
        opt "escalation_hosting_link" TBool; opt "support_64_kart" TBool; opt "fail_reason" TStr;
        opt "script" TStr].
Definition VmFleetGateReport : ty :=
  TObj [opt "date" TStr; opt "pass" TBool; opt "skipped" TBool; opt "skip_reason" TStr;
        opt "dash_url" TStr; opt "host_agent" TStr; opt "vm_agent" TStr; opt "host_status" TStr;
        opt "vm_status" TStr; opt "online_count" TNum; opt "agent_count" TNum;
        opt "host_keepalive_active" TBool; opt "laptop_ops_doc_ok" TBool; opt "fail_reason" TStr;
        opt "script" TStr].
Definition LaptopExcellenceGateReport : ty :=
  TObj [opt "date" TStr; opt "pass" TBool; opt "ok" TNum; opt "warn" TNum; opt "fail" TNum;
        opt "full_mode" TBool; opt "proof_tests" TNum; opt "proof_pass" TNum; opt "script" TStr].
Definition WebsiteLiveGateReport : ty :=
  TObj [opt "date" TStr; opt "pass" TBool; opt "domain" TStr; opt "expected_tests" TNum;
        opt "live_cards" TNum; opt "css_ok" TBool; opt "js_ok" TBool; opt "sri_ok" TBool; opt "dash_url" TStr;
        opt "fail_reason" TStr; opt "script" TStr].
Definition ReleaseReadyGateReport : ty :=
  TObj [opt "date" TStr; opt "pass" TBool; opt "release_ready_ok" TBool; opt "docs_consistency_ok" TBool;
        opt "website_live_ok" (TNull TBool); opt "website_live_skipped" TBool; opt "vm_fleet_ok" (TNull TBool);
        opt "vm_fleet_skipped" TBool; opt "proof_tests" TNum; opt "proof_pass" TNum;
        opt "artifacts" (TObj [opt "competitive_proof_pdf" TBool; opt "data_room_zip" TBool;
        opt "release_pack_zip" TBool]); opt "fail_reason" TStr; opt "script" TStr].
Definition DemoRehearsalGateReport : ty :=
  TObj [opt "date" TStr; opt "pass" TBool; opt "demo_3min_ok" TBool; opt "dashboard_ok" TBool;
        opt "website_live_ok" (TNull TBool); opt "website_live_skipped" TBool;
        opt "security_closure_ok" (TNull TBool); opt "webhook_ok" (TNull TBool); opt "full_mode" TBool;
        opt "proof_tests" TNum; opt "proof_pass" TNum; opt "pdf_ok" TBool; opt "dash_url" TStr;
        opt "site_url" TStr; opt "fail_reason" TStr; opt "script" TStr].
Definition PresentationShipGateReport : ty :=
  TObj [opt "date" TStr; opt "pass" TBool; opt "demo_rehearsal_ok" TBool; opt "release_ready_ok" TBool;
        opt "demo_3min_ok" TBool; opt "dashboard_ok" TBool; opt "website_live_ok" (TNull TBool);
        opt "docs_consistency_ok" TBool; opt "artifacts_ok" TBool; opt "artifacts_count" TStr;
        opt "proof_tests" TNum; opt "proof_pass" TNum; opt "dash_url" TStr; opt "site_url" TStr;
        opt "fail_reason" TStr; opt "script" TStr].
Definition DemoVideoGateReport : ty :=
  TObj [opt "date" TStr; opt "pass" TBool; opt "demo_video_script_ok" TBool; opt "pdf_ok" TBool;
        opt "dashboard_ok" TBool; opt "presentation_ship_ok" TBool; opt "siem_export_ok" (TNull TBool);
        opt "siem_skipped" TBool; opt "webhook_ok" (TNull TBool); opt "webhook_skipped" TBool;
        opt "telegram_soc_ok" TBool; opt "proof_tests" TNum; opt "proof_pass" TNum; opt "site_url" TStr;
        opt "dash_url" TStr; opt "video_script" TStr; opt "fail_reason" TStr; opt "script" TStr].
Definition GithubShipGateReport : ty :=
  TObj [opt "date" TStr; opt "pass" TBool; opt "presentation_ship_ok" TBool;
        opt "security_closure_ok" (TNull TBool); opt "security_closure_skipped" TBool;
        opt "secret_scan_ok" TBool; opt "website_live_ok" (TNull TBool); opt "vm_fleet_ok" (TNull TBool);
        opt "proof_tests" TNum; opt "proof_pass" TNum; opt "dash_url" TStr; opt "site_url" TStr;
        opt "fail_reason" TStr; opt "script" TStr].
Definition LaptopCoreGateReport : ty :=
  TObj [opt "date" TStr; opt "pass" TBool; opt "health_ok" TBool; opt "edge_protection_ok" (TNull TBool);
        opt "edge_skipped" TBool; opt "telegram_soc_ok" TBool; opt "ban_ops_ok" TBool; opt "dashboard_ok" TBool;
        opt "xdp_mode" TStr; opt "ipc" TStr; opt "proof_tests" TNum; opt "proof_pass" TNum; opt "dash_url" TStr;
        opt "fail_reason" TStr; opt "script" TStr].
Definition MorningOperatorGateReport : ty :=
  TObj [opt "date" TStr; opt "pass" TBool; opt "laptop_core_ok" TBool; opt "laptop_core_refreshed" TBool;
        opt "presentation_ship_ok" TBool; opt "dashboard_ok" TBool; opt "proof_tests" TNum;
        opt "proof_pass" TNum; opt "dash_url" TStr; opt "fail_reason" TStr; opt "script" TStr].
Definition AuthLogReport : ty :=
  TObj [opt "date" TStr; opt "pass" TBool; opt "total_lines" TNum; opt "parse_errors" TNum;
        opt "unique_ips" TNum; opt "alerts_total" TNum].
Definition SiemExportReport : ty :=
  TObj [opt "date" TStr; opt "pass" TBool; opt "alert_seen" TBool; opt "ban_seen" TBool; opt "port" TNum;
        opt "attack_ip" TStr].
Definition CrowdsecBouncerReport : ty :=
  TObj [opt "date" TStr; opt "pass" TBool; opt "mode" TStr; opt "decisions_synced" TNum;
        opt "live_api_ok" TBool; opt "live_lapi_ok" TBool; opt "api_base" TStr].
Definition TaxiiFeedReport : ty :=
  TObj [opt "date" TStr; opt "pass" TBool; opt "mode" TStr; opt "iocs_synced" TNum;
        opt "skipped_low_confidence" TNum; opt "min_confidence" TNum; opt "live_api_ok" TBool;
        opt "api_base" TStr; opt "fixture" TStr].
Definition ParserFuzzReport : ty :=
  TObj [opt "date" TStr; opt "pass" TBool; opt "mode" TStr; opt "parse_runs" TNum; opt "mutations" TNum;
        opt "corpus_lines" TNum; opt "binary" TStr].
Definition BanPolicyAuditReport : ty :=
  TObj [opt "date" TStr; opt "pass" TBool; opt "audit_lines" TNum; opt "last_decision" TStr;
        opt "last_risk" TNum; opt "audit_path" TStr; opt "openapi_strict_checked" TBool].
Definition DistRiskProofReport : ty :=
  TObj [opt "date" TStr; opt "pass" TBool; opt "risk_off" TNum; opt "risk_on" TNum; opt "delta" TNum;
        opt "decision_off" TStr; opt "decision_on" TStr; opt "script" TStr].
Definition LineageIncidentReport : ty :=
  TObj [opt "date" TStr; opt "pass" TBool; opt "mode" TStr; opt "incident_id" TStr; opt "ip" TStr;
        opt "active_incidents" TNum; opt "correlated_total" TNum; opt "signals" (TArr TStr); opt "note" TStr].
Definition HoneypotFeedReport : ty :=
  TObj [opt "date" TStr; opt "pass" TBool; opt "mode" TStr; opt "honey_traps_total" TNum;
        opt "lfi_traps_total" TNum; opt "c2_traps_total" TNum; opt "note" TStr].
Definition L7ProbeProdReport : ty :=
  TObj [opt "date" TStr; opt "pass" TBool; opt "mode" TStr; opt "ipc" TStr; opt "l7_probe_active" TBool;
        opt "execve_probe" TBool; opt "l7_http_hits" TNum; opt "xdp_mode" TStr; opt "note" TStr].
Definition OpsGateEntry : ty :=
  TObj [req "id" TStr; opt "pass" TBool; opt "fail" TNum; opt "warn" TNum; opt "title" TStr;
        opt "titleEn" TStr; opt "purpose" TStr; opt "purposeEn" TStr; opt "verdict" TStr; opt "verdictEn" TStr;
        opt "metrics" (TArr (TObj [req "label" TStr; req "value" TStr])); opt "script" TStr].
Definition OpsGateReport : ty :=
  TObj [opt "date" TStr; opt "pass" TBool; opt "gates" (TArr OpsGateEntry)].
Definition WasmStatusReport : ty :=
  TObj [opt "mode" TStr; opt "pass" TBool; opt "plugins_native" TNum; opt "alerts_on_sqli" TNum;
        opt "plugin_bytes" TNum; opt "plugin_path" TStr].
Definition FleetMultiNodeReport : ty :=
  TObj [opt "date" TStr; opt "pass" TBool; opt "mode" TStr; opt "dash_url" TStr; opt "agents" (TArr TStr);
        opt "agent_count" TNum; opt "online_count" TNum; opt "dispatch_target" TStr; opt "test_ip" TStr;
        opt "command_hmac" TBool; opt "hmac_verify" TBool; opt "fail_reason" TStr].
Definition FleetOfflineGateReport : ty :=
  TObj [opt "date" TStr; opt "pass" TBool; opt "reason" TStr; opt "online" TNum; opt "total" TNum;
        opt "mode" TStr; opt "max_age_min" TNum].
Definition GrafanaProvisionReport : ty :=
  TObj [opt "date" TStr; opt "pass" TBool; opt "grafana_url" TStr; opt "dashboard_uid" TStr;
        opt "tenant_variable" TBool; opt "alert_rules" TNum; opt "alert_rules_with_tenant" TNum;
        opt "fail_reason" TStr].
Definition CopilotOllamaReport : ty :=
  TObj [opt "date" TStr; opt "pass" TBool; opt "ollama_reachable" TBool; opt "reply_source" TStr;
        opt "fallback_ok" TBool; opt "dash_url" TStr; opt "mode" TStr; opt "reason" TStr].
Definition MarketplaceSignedApiReport : ty :=
  TObj [opt "date" TStr; opt "pass" TBool; opt "mode" TStr; opt "tier" TStr; opt "packages_signed" TNum;
        opt "verify_ok" TBool; opt "dash_url" TStr; opt "script" TStr].
Definition VpsXdpReport : ty :=
  TObj [opt "date" TStr; opt "pass" TBool; opt "mode" TStr; opt "xdp_mode" TStr; opt "iface" (TNull TStr);
        opt "fail_count" TNum; opt "script" TStr].
Definition Arm64BuildReport : ty :=
  TObj [opt "date" TStr; opt "pass" TBool; opt "mode" TStr; opt "host_arch" TStr; opt "target_arch" TStr;
        opt "file" TStr; opt "note" TStr; opt "script" TStr].
Definition ProdStackE2eReport : ty :=
  TObj [opt "date" TStr; opt "pass" TBool; opt "wasm_mode" TStr; opt "wasm_plugins_native" TNum;
        opt "lineage_risk" TNum; opt "lineage_resolver" TStr; opt "l7_probe_active" TBool; opt "ipc" TStr;
        opt "xdp_mode" TStr; opt "lineage_probe" TBool; opt "script" TStr].
Definition Phase100FastGateReport : ty :=
  TObj [opt "date" TStr; opt "pass" TBool; opt "mode" TStr; opt "phases" TStr; opt "script" TStr].
Definition ComplianceExportReport : ty :=
  TObj [opt "date" TStr; opt "pass" TBool; opt "mode" TStr; opt "tier" TStr; opt "controls" TNum;
        opt "json_ok" TBool; opt "pdf_ok" TBool; opt "script" TStr].
Definition K8sAdmissionReport : ty :=
  TObj [opt "date" TStr; opt "pass" TBool; opt "mode" TStr; opt "deny_label" TStr; opt "reason" TStr;
        opt "script" TStr].
Definition K8sKindE2eReport : ty :=
  TObj [opt "date" TStr; opt "pass" TBool; opt "mode" TStr; opt "cluster" TStr; opt "namespace" TStr;
        opt "reason" TStr; opt "script" TStr].
Definition MeshEtcdDockerReport : ty :=
  TObj [opt "date" TStr; opt "pass" TBool; opt "mode" TStr; opt "script" TStr].
Definition MeshEtcdLiveReport : ty :=
  TObj [opt "date" TStr; opt "pass" TBool; opt "mode" TStr; opt "endpoint" TStr; opt "policy_key" TStr;
        opt "round_trip" TBool; opt "script" TStr].
Definition TestReports : ty :=
  TObj [opt "opsGates" (TNull OpsGateReport); opt "crs" (TNull CrsReport); opt "fp" (TNull FpReport);
        opt "realAttack" (TNull RealAttackReport); opt "realAttack10k" (TNull RealAttackReport);
        opt "liveAttack" (TNull LiveAttackReport); opt "ja3Cluster" (TNull Ja3ClusterReport);
        opt "ja3ClusterBanLive" (TNull Ja3ClusterBanLiveReport);
        opt "fpClusterTrust" (TNull FpClusterTrustReport); opt "lineageLive" (TNull LineageLiveReport);
        opt "nginxConsult" (TNull NginxConsultReport); opt "nginxHybrid" (TNull NginxHybridReport);
        opt "banProfileE2e" (TNull BanProfileE2eReport); opt "ipv6BanE2e" (TNull Ipv6BanE2eReport);
        opt "apiMutationTokenE2e" (TNull ApiMutationTokenE2eReport);
        opt "apiMutationAuditE2e" (TNull ApiMutationAuditE2eReport);
        opt "dashboardLoginRlE2e" (TNull DashboardLoginRlE2eReport);
        opt "hardeningRollbackGate" (TNull HardeningRollbackGateReport);
        opt "dashboardJwtIdleGate" (TNull DashboardJwtIdleGateReport);
        opt "mtlsCertExpiry" (TNull MtlsCertExpiryReport); opt "banApiMtls" (TNull BanApiMtlsReport);
        opt "caddyMtlsStatus" (TNull CaddyMtlsStatusReport);
        opt "enterpriseSoarGate" (TNull EnterpriseSoarGateReport); opt "owaspCorpus" (TNull CorpusReport);
        opt "trHostingCorpus" (TNull CorpusReport); opt "customerCorpus" (TNull CorpusReport);
        opt "threatIntelSync" (TNull ThreatIntelSyncReport); opt "soak" (TNull SoakReport);
        opt "soakShort" (TNull SoakReport); opt "soakSource" (TNull TStr);
        opt "vpsRemote" (TNull (TObj [opt "host" (TNull TStr); opt "hostname" (TNull TStr);
        opt "xdp_mode" (TNull TStr); opt "soak_proof_72h" (TNull TNum); opt "ssh_ok" TBool;
        opt "eps" (TNull TNum)])); opt "isolation" (TNull IsolationReport); opt "bench" (TNull BenchReport);
        opt "ban" (TNull BanReport); opt "live" (TNull LiveReport);
        opt "dashboardBanApi" (TNull DashboardBanApiReport);
        opt "dashboardLiveDemo" (TNull DashboardLiveDemoReport); opt "attackMap" (TNull AttackMapReport);
        opt "webhookRoute" (TNull WebhookRouteProofReport);
        opt "webhookTelegramLive" (TNull WebhookTelegramLiveReport);
        opt "webhookTelegramAckLive" (TNull WebhookTelegramAckLiveReport);
        opt "telegramOperatorUndoE2e" (TNull TelegramOperatorUndoE2eReport);
        opt "telegramSocGate" (TNull TelegramSocGateReport);
        opt "bansTelegramOps" (TNull BansTelegramOpsReport);
        opt "edgeProtectionGate" (TNull EdgeProtectionGateReport); opt "intelBanDb" (TNull IntelBanDbReport);
        opt "grafanaParityGate" (TNull GrafanaParityGateReport);
        opt "websitePreviewGate" (TNull WebsitePreviewGateReport);
        opt "enterpriseEscalationGate" (TNull EnterpriseEscalationGateReport);
        opt "vmHostPrepGate" (TNull VmHostPrepGateReport);
        opt "docsConsistencyGate" (TNull DocsConsistencyGateReport);
        opt "vmFleetGate" (TNull VmFleetGateReport);
        opt "laptopExcellenceGate" (TNull LaptopExcellenceGateReport);
        opt "websiteLiveGate" (TNull WebsiteLiveGateReport);
        opt "releaseReadyGate" (TNull ReleaseReadyGateReport);
        opt "demoRehearsalGate" (TNull DemoRehearsalGateReport);
        opt "presentationShipGate" (TNull PresentationShipGateReport);
        opt "demoVideoGate" (TNull DemoVideoGateReport); opt "githubShipGate" (TNull GithubShipGateReport);
        opt "laptopCoreGate" (TNull LaptopCoreGateReport);
        opt "morningOperatorGate" (TNull MorningOperatorGateReport); opt "authLog" (TNull AuthLogReport);
        opt "siemExport" (TNull SiemExportReport); opt "crowdsecBouncer" (TNull CrowdsecBouncerReport);
        opt "taxiiFeed" (TNull TaxiiFeedReport); opt "parserFuzz" (TNull ParserFuzzReport);
        opt "banPolicyAudit" (TNull BanPolicyAuditReport); opt "distRiskProof" (TNull DistRiskProofReport);
        opt "lineageIncident" (TNull LineageIncidentReport); opt "honeypotFeed" (TNull HoneypotFeedReport);
        opt "l7ProbeProd" (TNull L7ProbeProdReport); opt "wasm" (TNull WasmStatusReport);
        opt "fleetMultiNode" (TNull FleetMultiNodeReport);
        opt "fleetOfflineGate" (TNull FleetOfflineGateReport);
        opt "grafanaProvision" (TNull GrafanaProvisionReport); opt "copilotOllama" (TNull CopilotOllamaReport);
        opt "marketplaceSignedApi" (TNull MarketplaceSignedApiReport); opt "vpsXdp" (TNull VpsXdpReport);
        opt "arm64Build" (TNull Arm64BuildReport); opt "prodStack" (TNull ProdStackE2eReport);
        opt "phase100Fast" (TNull Phase100FastGateReport);
        opt "complianceExport" (TNull ComplianceExportReport); opt "k8sAdmission" (TNull K8sAdmissionReport);
        opt "k8sKind" (TNull K8sKindE2eReport); opt "meshEtcdDocker" (TNull MeshEtcdDockerReport);
        opt "meshEtcdLive" (TNull MeshEtcdLiveReport)].

(** ** Typed cards *)

Definition row_ty : ty := TObj [req "label" TStr; req "value" TStr].
Definition typed_test (t : test) : Prop := has_ty ValidationTestResult t = true.
Definition opt_str (v : val) : Prop := v = None ∨ has_str v.
Definition ok_row (m : res json) : Prop := ∃ r, m = Ok r ∧ has_ty row_ty r = true.

(** What does not depend on the language of the card: name, status, date, script. *)
Definition card_key : Type := jstring * TestStatus * val * val.
Definition key_of (k : card_key) : val * val * val * val :=
  let '(id, st, date, scr) := k in (vs id, vs (status_text st), date, scr).
Definition key (t : test) : val * val * val * val :=
  ((Some t).["id"], (Some t).["status"], (Some t).["date"], (Some t).["script"]).

(** A block of the evaluator on documents of their types: it never throws, its
    cards are typed, and their keys are [p] in either language. *)
Definition block_ok (f : Locale → res (list test)) (p : list card_key) : Prop :=
  ∀ locale, ∃ l, f locale = Ok l ∧ Forall typed_test l ∧ key <$> l = key_of <$> p.

Lemma okstr_L locale a b : okstr a → okstr b → okstr (L locale a b).
Proof. intros [x ->] [y ->]. cbn. destruct (is_tr locale); by eexists. Qed.
Lemma fmtDate_str `{DateFormat} v : opt_str (fmtDate v).
Proof. unfold fmtDate. destruct v as [v|]; [|by left]. destruct (truthy v); [right; by eexists|by left]. Qed.
Lemma ok_metric l v : okstr l → okstr v → ok_row (metric l v).
Proof. intros [a ->] [b ->]. by eexists. Qed.
Lemma rows_ok l : Forall ok_row l → ∃ r, rseq l = Ok r ∧ has_ty (TArr row_ty) (JArr r) = true.
Proof.
  induction 1 as [|m l (r & -> & Hr) _ (rs & Hrs & Ht)]; cbn -[row_ty]; [by exists []|].
  rewrite Hrs. exists (r :: rs). split; [done|]. cbn -[row_ty] in *. by rewrite Hr.
Qed.
Lemma strip_scheme_ok v : tyn TStr v → ∃ w, strip_scheme v = Ok w ∧ tyn TStr w.
Proof. destruct v as [[]|]; cbn; try done; intros _; eexists; split; done. Qed.
Lemma arm64_ok m f : has_str m → okv (arm64BinaryVerified m f).
Proof.
  intros [t ->]. unfold arm64BinaryVerified. destruct (_ || _); [apply okv_ok|].
  destruct (negb (otruthy f)); apply okv_ok.
Qed.

(** A card with all fields of their types. *)
Lemma card_typed id st title purpose verdict rows date scr badge :
  has_ty (TArr row_ty) (JArr rows) = true → opt_str date → opt_str badge →
  let t := JObject [("id", vs id); ("status", vs (status_text st)); ("title", vs title); ("purpose", vs purpose);
                    ("verdict", vs verdict); ("metrics", Some (JArr rows)); ("date", date); ("script", vs scr);
                    ("badge", badge)] in
  typed_test t ∧ key t = (vs id, vs (status_text st), date, vs scr).
Proof.
  intros Hr Hd Hb t. subst t. unfold typed_test.
  assert (Hm : has_ty (TArr row_ty) (JArr rows) && true = true) by (by rewrite Hr).
  destruct Hd as [->|[? ->]], Hb as [->|[? ->]]; (split; [|done]); destruct st; exact Hm.
Qed.

(** The fields of a pushed literal, for every language. *)
Lemma block_push (d : Locale → draft) id st date scr :
  (∀ lo, d_id (d lo) = id ∧ d_status (d lo) = st ∧ d_date (d lo) = date ∧ d_script (d lo) = Ok scr) →
  has_str scr → opt_str date → (∀ lo, okstr (d_title (d lo))) → (∀ lo, okstr (d_purpose (d lo))) →
  (∀ lo, okstr (d_verdict (d lo))) → (∀ lo, Forall ok_row (d_metrics (d lo))) →
  (∀ lo, match d_badge (d lo) with Some b => okstr b | None => True end) →
  block_ok (λ lo, push (d lo)) [(id, st, date, scr)].
Proof.
  intros Hk [sc ->] Hd Ht Hp Hv Hm Hb lo. destruct (Hk lo) as (<- & <- & <- & Hscr).
  destruct (Ht lo) as [x1 E1], (Hp lo) as [x2 E2], (Hv lo) as [x3 E3], (rows_ok _ (Hm lo)) as (ms & E4 & Hms).
  assert (Hbd : ∃ bd, match d_badge (d lo) with Some b => b | None => Ok None end = Ok bd ∧ opt_str bd).
  { specialize (Hb lo). destruct (d_badge (d lo)) as [b|]; [|exists None; by split; [|left]].
    destruct Hb as [x5 ->]. exists (vs x5). split; [done|right; by eexists]. }
  destruct Hbd as (bd & E5 & Hbd).
  unfold push. rewrite E1, E2, E3, E4, Hscr. cbn [rbind]. rewrite E5. cbn [rbind]. eexists. split; [done|].
  destruct (card_typed (d_id (d lo)) (d_status (d lo)) x1 x2 x3 ms (d_date (d lo)) sc bd Hms Hd Hbd) as [H1 H2].
  split; [by repeat constructor|]. cbn [fmap list_fmap]. by rewrite H2.
Qed.
Lemma block_none : block_ok (λ _, none) [].
Proof. intros lo. by exists []. Qed.
Lemma block_bind {A} (Q : A → Prop) (m : res A) (k : Locale → A → res (list test)) p :
  (∃ v, m = Ok v ∧ Q v) → (∀ v, Q v → block_ok (λ lo, k lo v) p) → block_ok (λ lo, rbind m (k lo)) p.
Proof. intros (v & -> & HQ) Hk lo. by apply Hk. Qed.

#[export] Hint Resolve fmtDate_str : lg.

(** What a block promises: at most one card, with the given name, and a pass only
    when the gate of the report holds. *)
Definition block_spec (id : jstring) (gate : bool) (f : Locale → res (list test)) : Prop :=
  ∃ p, block_ok f p ∧ (p = [] ∨ ∃ st date scr, p = [(id, st, date, scr)] ∧ (st = TPass → gate = true)).

Lemma spec_none id g : block_spec id g (λ _, none).
Proof. exists []. split; [apply block_none|by left]. Qed.
Lemma spec_push (d : Locale → draft) id g st date scr :
  (∀ lo, d_id (d lo) = id ∧ d_status (d lo) = st ∧ d_date (d lo) = date ∧ d_script (d lo) = Ok scr) →
  (st = TPass → g = true) →
  has_str scr → opt_str date → (∀ lo, okstr (d_title (d lo))) → (∀ lo, okstr (d_purpose (d lo))) →
  (∀ lo, okstr (d_verdict (d lo))) → (∀ lo, Forall ok_row (d_metrics (d lo))) →
  (∀ lo, match d_badge (d lo) with Some b => okstr b | None => True end) →
  block_spec id g (λ lo, push (d lo)).
Proof.
  intros Hk Hg Hs Hd Ht Hp Hv Hm Hb. eexists. split; [by apply (block_push d id st date scr)|].
  right. by exists st, date, scr.
Qed.
Lemma spec_bind {A} (Q : A → Prop) id g (m : res A) (k : Locale → A → res (list test)) :
  (∃ v, m = Ok v ∧ Q v) → (∀ v, Q v → block_spec id g (λ lo, k lo v)) → block_spec id g (λ lo, rbind m (k lo)).
Proof. intros (v & -> & HQ) Hk. by apply Hk. Qed.
Lemma spec_bind_lo id g (m : Locale → res val) (k : Locale → val → res (list test)) :
  (∀ lo, okstr (m lo)) → (∀ f, (∀ lo, has_str (f lo)) → block_spec id g (λ lo, k lo (f lo))) →
  block_spec id g (λ lo, rbind (m lo) (k lo)).
Proof.
  intros Hm Hk. destruct (Hm tr) as [a Ha], (Hm en) as [b Hb].
  destruct (Hk (λ lo, if is_tr lo then vs a else vs b)) as (p & Hp & Hq).
  { intros []; by eexists. }
  exists p. split; [|done]. intros lo. destruct (Hp lo) as (l & Hl & Hr). exists l. split; [|done].
  destruct lo; cbn in *; [by rewrite Ha|by rewrite Hb].
Qed.
(** One step through the expressions of a card. *)
Ltac card_step :=
  lazymatch goal with
  | |- okstr (L _ _ _) => apply okstr_L
  | |- okstr (rbind (strip_scheme _) _) => eapply okstr_bind; [apply strip_scheme_ok|]
  | |- okv (L _ _ _) => apply okstr_okv
  | |- okv (arm64BinaryVerified _ _) => apply arm64_ok
  | |- ok_row _ => apply ok_metric
  | |- opt_str None => by left
  | |- opt_str _ => apply fmtDate_str
  | |- _ => expr_step
  end.
Ltac card := repeat card_step.
Ltac gate_ok := repeat (match goal with |- context [if ?b then _ else _] => destruct b eqn:?E end);
  intros; bprop; first [discriminate | reflexivity | assumption | by auto |
    repeat match goal with
    | H : _ || _ = true |- _ => apply orb_true_iff in H as [H|H]
    | H : _ && _ = true |- _ => apply andb_true_iff in H as [? ?]
    end; repeat match goal with H : _ = true |- _ => rewrite H end; rewrite ?orb_true_r; reflexivity].
(** A block: its guards, its throwing constants, then the literal. *)
Ltac block_step :=
  lazymatch goal with
  | |- block_spec _ _ (λ _, none) => apply spec_none
  | |- block_spec _ _ (λ lo, if ?c then _ else _) => destruct c eqn:?Hc
  | |- block_spec _ _ (λ lo, rbind _ _) =>
      first [ eapply (spec_bind has_str); [apply okstr_strong; solve [card] | intros ? ?]
            | eapply (spec_bind (λ _, True)); [apply ok_weak; solve [card] | intros ? _]
            | apply spec_bind_lo; [solve [card] | intros ? ?] ]
  | |- block_spec _ _ (λ lo, push _) =>
      eapply spec_push;
      cbv beta iota delta [d_id d_status d_title d_purpose d_verdict d_metrics d_date d_script d_badge];
      [intros ?; splits; reflexivity | gate_ok | card ..]
  end.
Ltac block := cbv zeta; repeat block_step.

(** The promises of the blocks. *)
Create HintDb blocks discriminated.
