(* ===== verification/ValidationDetection.v ===== *)
(** Blocks of [evaluateValidationTests] (dashboard/src/lib/validationTests.ts) on
    detection: corpora, inline consult, ban profiles, tokens, certificates, clusters and false positives.
    Each definition is one block: the card its report gives, if there is one. *)

From S2P Require Import Prelude JsString JsNum Json Http JsValue Reports.

Section blocks.
Context `{DateFormat}.

Definition test_crs (locale : Locale) (reports : val) : res (list test) :=
  let crs := reports.["crs"] in
  if otruthy crs then
    let recall := crs.["guardian"].["attack_recall_pct"] ??? vn 0 in
    let parity := crs.["parity_pct"] ??? vn 0 in
    let pass := is_true crs.["pass"] in
    push {| d_id := "crs-parity";
       d_status := if pass then TPass else TFail;
       d_title :=
         L locale
           (str "OWASP CRS ile aynı saldırı satırlarında tespit paritesini ölçüyoruz")
           (str "We measure detection parity against OWASP CRS on the same attack lines");
       d_purpose :=
         L locale
           (str "Kural setimizin bilinen saldırı örneklerini kaçırmadığını kanıtlar.")
           (str "Proves our rule set does not miss known attack samples.");
       d_verdict :=
         if pass then
           L locale
             (tpl [Val (crs.["attacks_total"] ??? vs "—");
                   Txt " saldırı satırının tamamında uyarı üretildi; CRS ile %"; Fix 0 parity; Txt " parite."])
             (tpl [Txt "Alerts on all "; Val (crs.["attacks_total"] ??? vs "—"); Txt " attack lines; ";
                   Fix 0 parity; Txt "% parity with CRS."])
         else
           L locale
             (tpl [Txt "Saldırı recall %"; Fix 1 recall;
                   Txt " — hedefin altında; kural seti gözden geçirilmeli."])
             (tpl [Txt "Attack recall "; Fix 1 recall; Txt "% — below target; review rule set."]);
       d_metrics :=
         [metric (L locale (str "Recall") (str "Recall")) (tpl [Fix 1 recall; Txt "%"]);
          metric (L locale (str "Parite") (str "Parity")) (tpl [Fix 1 parity; Txt "%"])];
       d_date := fmtDate crs.["date"];
       d_script := str "scripts/crs_parity_e2e.sh";
       d_badge := None |}
  else none.

Definition test_real (locale : Locale) (reports : val) : res (list test) :=
  let real := reports.["realAttack"] in
  if otruthy real then
    let recall := real.["attack_recall_pct"] ??? vn 0 in
    let target := real.["target_recall_pct"] ??? vn 85 in
    let pass := is_true real.["pass"] in
    let cats := real.["categories"] ??? empty_obj in
    let? failed :=
      (let? l := entries cats in rfilter (λ kc, let? p := dot "pass" kc.2 in Ok (p === vb false)) l) in
    let failedCats := Some (JArr (map (λ kc, JStr kc.1) failed)) in
    push {| d_id := "real-attack";
       d_status := if pass then TPass else TFail;
       d_title :=
         L locale
           (str
              "Gerçek saldırı corpus'unda (30 kategori: SQLi, RFI, GraphQL, path traversal, JWT alg, BOLA, …) tespit oranını ölçüyoruz")
           (str
              "We measure detection on a 30-category real attack corpus (SQLi, RFI, GraphQL, path traversal, JWT alg, BOLA, …)");
       d_purpose :=
         L locale
           (str "CRS dışı, güncel payload örneklerinde kural setinin recall'unu kanıtlar.")
           (str "Proves rule-set recall on current payloads beyond CRS parity alone.");
       d_verdict :=
         if pass then
           L locale
             (tpl [Val (real.["lines_total"] ??? vs "—"); Txt " satırda ortalama recall %"; Fix 1 recall;
                   Txt " — hedef >=%"; Val target; Txt "."])
             (tpl [Val (real.["lines_total"] ??? vs "—"); Txt " lines at "; Fix 1 recall;
                   Txt "% average recall — target >="; Val target; Txt "%."])
         else
           L locale
             (tpl [Txt "Recall %"; Fix 1 recall; Txt " — hedef >=%"; Val target; Txt " altında";
                   Exp
                     (if otruthy (vlength failedCats) then
                        tpl [Txt " ("; Exp (vjoin ", " failedCats); Txt ")"]
                      else str "");
                   Txt "."])
             (tpl [Txt "Recall "; Fix 1 recall; Txt "% — below "; Val target; Txt "% target";
                   Exp
                     (if otruthy (vlength failedCats) then
                        tpl [Txt " ("; Exp (vjoin ", " failedCats); Txt ")"]
                      else str "");
                   Txt "."]);
       d_metrics :=
         [metric (L locale (str "Recall") (str "Recall")) (tpl [Fix 1 recall; Txt "%"]);
          metric
            (L locale (str "Kategori") (str "Categories"))
            (let? n := let? l := entries cats in ret (vn (Z.of_nat (length l))) in
             Str n);
          metric (L locale (str "Satır") (str "Lines")) (Str (real.["lines_total"] ??? vn 0));
          metric (L locale (str "Uyarı") (str "Alerts")) (Str (real.["alerts_total"] ??? vn 0))];
       d_date := fmtDate real.["date"];
       d_script := str "scripts/real_attack_suite.sh";
       d_badge := None |}
  else none.

Definition test_real10k (locale : Locale) (reports : val) : res (list test) :=
  let real10k := reports.["realAttack10k"] in
  if otruthy real10k then
    let recall := real10k.["attack_recall_pct"] ??? vn 0 in
    let target := real10k.["target_recall_pct"] ??? vn 85 in
    let pass := is_true real10k.["pass"] in
    push {| d_id := "real-attack-10k";
       d_status := if pass then TPass else TFail;
       d_title :=
         L locale
           (str "Genişletilmiş 10K saldırı corpus'unda recall ölçüyoruz")
           (str "We measure recall on an expanded 10K attack corpus");
       d_purpose :=
         L locale
           (str "1K'nin ötesinde ölçeklenebilir tespit kanıtı — 19 kategori, dinamik varyant.")
           (str "Scalable detection proof beyond 1K — 19 categories, dynamic variants.");
       d_verdict :=
         if pass then
           L locale
             (tpl [Val (real10k.["lines_total"] ??? vs "—"); Txt " satırda %"; Fix 1 recall;
                   Txt " recall — hedef >=%"; Val target; Txt "."])
             (tpl [Val (real10k.["lines_total"] ??? vs "—"); Txt " lines at "; Fix 1 recall;
                   Txt "% recall — target >="; Val target; Txt "%."])
         else
           L locale
             (tpl [Txt "10K recall %"; Fix 1 recall; Txt " — scripts/corpus_10k_proof.sh"])
             (tpl [Txt "10K recall "; Fix 1 recall; Txt "% — scripts/corpus_10k_proof.sh"]);
       d_metrics :=
         [metric (L locale (str "Recall") (str "Recall")) (tpl [Fix 1 recall; Txt "%"]);
          metric (L locale (str "Satır") (str "Lines")) (Str (real10k.["lines_total"] ??? vn 0))];
       d_date := fmtDate real10k.["date"];
       d_script := str "scripts/corpus_10k_proof.sh";
       d_badge := None |}
  else none.

Definition test_liveAtk (locale : Locale) (reports : val) : res (list test) :=
  let liveAtk := reports.["liveAttack"] in
  if otruthy liveAtk then
    let summ := liveAtk.["summary"] ??? empty_obj in
    let sent := summ.["sent_total"] ??? vn 0 in
    let refused := summ.["refused_total"] ??? vn 0 in
    let pass := is_true liveAtk.["pass"] in
    push {| d_id := "live-attack";
       d_status := if pass then TPass else TFail;
       d_title :=
         L locale
           (str "Canlı nginx :80 saldırı harness'inde tester + ban kanıtını ölçüyoruz")
           (str "We measure live nginx :80 attack harness with tester + ban evidence");
       d_purpose :=
         L locale
           (str "SQLi/POST/brute/ddos/slow senaryolarının gerçek nginx üzerinde reddedildiğini kanıtlar.")
           (str "Proves SQLi/POST/brute/ddos/slow scenarios are refused on real nginx.");
       d_verdict :=
         if pass then
           L locale
             (tpl [Val sent; Txt " istek gönderildi, "; Val refused; Txt " reddedildi";
                   Val (if otruthy summ.["ban_evidence"] then vs " — ban kanıtı var" else vs ""); Txt "."])
             (tpl [Val sent; Txt " requests sent, "; Val refused; Txt " refused";
                   Val (if otruthy summ.["ban_evidence"] then vs " — ban evidence present" else vs "");
                   Txt "."])
         else
           L locale
             (str "Canlı harness başarısız veya nginx kapalı — scripts/live_attack_harness.sh")
             (str "Live harness failed or nginx down — scripts/live_attack_harness.sh");
       d_metrics :=
         [metric (L locale (str "Gönderilen") (str "Sent")) (Str sent);
          metric (L locale (str "Reddedilen") (str "Refused")) (Str refused)];
       d_date := fmtDate liveAtk.["generated_at"];
       d_script := str "scripts/live_attack_harness.sh";
       d_badge := None |}
  else none.

Definition test_owasp (locale : Locale) (reports : val) : res (list test) :=
  let owasp := reports.["owaspCorpus"] in
  if otruthy owasp then
    let recall := owasp.["attack_recall_pct"] ??? vn 0 in
    let pass := is_true owasp.["pass"] in
    push {| d_id := "owasp-corpus";
       d_status := if pass then TPass else TFail;
       d_title :=
         L locale (str "OWASP/CRS tarzı test corpus recall") (str "OWASP/CRS-style test corpus recall");
       d_purpose :=
         L locale
           (str "OWASP WSTG ve CRS yaygın pattern'leriyle ek saldırı kapsamı doğrular.")
           (str "Validates extra attack coverage with common OWASP WSTG and CRS patterns.");
       d_verdict :=
         if pass then
           L locale
             (tpl [Txt "%"; Fix 1 recall; Txt " recall — "; Val (owasp.["lines_total"] ??? vn 0);
                   Txt " satır."])
             (tpl [Fix 1 recall; Txt "% recall — "; Val (owasp.["lines_total"] ??? vn 0); Txt " lines."])
         else
           L locale
             (str "OWASP corpus recall düşük — scripts/owasp_corpus_proof.sh")
             (str "Low OWASP corpus recall — scripts/owasp_corpus_proof.sh");
       d_metrics := [metric (L locale (str "Recall") (str "Recall")) (tpl [Fix 1 recall; Txt "%"])];
       d_date := fmtDate owasp.["date"];
       d_script := str "scripts/owasp_corpus_proof.sh";
       d_badge := None |}
  else none.

Definition test_trHost (locale : Locale) (reports : val) : res (list test) :=
  let trHost := reports.["trHostingCorpus"] in
  let custCorp := reports.["customerCorpus"] in
  if otruthy trHost then
    let recall := trHost.["attack_recall_pct"] ??? vn 0 in
    let pass := is_true trHost.["pass"] in
    let? custAtk :=
      if otruthy custCorp.["pass"] && otruthy custCorp.["categories"] then
        let? l := entries custCorp.["categories"] in ret (vn (Z.of_nat (length (jfilter (λ kc, negb (kc.1 =s "benign")) l))))
      else ret (vn 0) in
    let? custSuffix :=
      if otruthy custCorp.["pass"] && vlt (vn 0) custAtk then
        L locale
          (tpl [Txt " · customer_corpus %"; Fix 0 (custCorp.["attack_recall_pct"] ??? vn 0); Txt " (";
                Val custAtk; Txt " attack cat)"])
          (tpl [Txt " · customer_corpus "; Fix 0 (custCorp.["attack_recall_pct"] ??? vn 0); Txt "% (";
                Val custAtk; Txt " attack cats)"])
      else str "" in
    push {| d_id := "tr-hosting-corpus";
       d_status := if pass then TPass else TFail;
       d_title := L locale (str "TR hosting tarzı corpus recall") (str "TR hosting-style corpus recall");
       d_purpose :=
         L locale
           (str
              "Türkçe path ve anonymized IP ile hosting senaryosu recall kanıtı; customer corpus API/JWT/path traversal.")
           (str
              "Hosting scenario recall proof with Turkish paths, anonymized IPs; customer corpus API/JWT/path traversal.");
       d_verdict :=
         if pass then
           L locale
             (tpl [Txt "%"; Fix 1 recall; Txt " recall — "; Val (trHost.["lines_total"] ??? vn 0); Txt " satır";
                   Val custSuffix; Txt "."])
             (tpl [Fix 1 recall; Txt "% recall — "; Val (trHost.["lines_total"] ??? vn 0); Txt " lines";
                   Val custSuffix; Txt "."])
         else
           L locale
             (str "TR hosting corpus FAIL — scripts/tr_hosting_corpus_proof.sh")
             (str "TR hosting corpus FAIL");
       d_metrics :=
         [metric (L locale (str "Recall") (str "Recall")) (tpl [Fix 1 recall; Txt "%"])] ++
         (if vlt (vn 0) custAtk then
            [metric (L locale (str "Customer cat") (str "Customer cats")) (Str custAtk)]
          else []);
       d_date := fmtDate trHost.["date"];
       d_script := str "scripts/tr_hosting_corpus_proof.sh";
       d_badge := None |}
  else none.

Definition test_ti (locale : Locale) (reports : val) : res (list test) :=
  let ti := reports.["threatIntelSync"] in
  if otruthy ti then
    let pass := is_true ti.["pass"] in
    push {| d_id := "threat-intel-sync";
       d_status := if pass then TPass else TFail;
       d_title :=
         L locale
           (str "Threat intel sync hızı ve ipset etkisi")
           (str "Threat intel sync speed and ipset impact");
       d_purpose :=
         L locale
           (str "Firehol/GeoIP beslemesinin dakikalar içinde ipset'e yansımasını ölçer.")
           (str "Measures Firehol/GeoIP feed reflection into ipset within minutes.");
       d_verdict :=
         if pass then
           L locale
             (tpl [Val (ti.["duration_sec"] ??? vn 0); Txt "s sync, ipset_delta=";
                   Val ((ti.["ioc_lines"] ??? ti.["ipset_delta"]) ??? vn 0); Txt "."])
             (tpl [Val (ti.["duration_sec"] ??? vn 0); Txt "s sync, ipset_delta=";
                   Val ((ti.["ioc_lines"] ??? ti.["ipset_delta"]) ??? vn 0); Txt "."])
         else
           L locale
             (str "Threat intel sync FAIL — scripts/threat_intel_sync_proof.sh")
             (str "Threat intel sync FAIL");
       d_metrics :=
         [metric (L locale (str "Süre") (str "Duration")) (tpl [Val (ti.["duration_sec"] ??? vn 0); Txt "s"]);
          metric (str "ipset Δ") (Str (ti.["ipset_delta"] ??? vn 0))];
       d_date := fmtDate ti.["date"];
       d_script := str "scripts/threat_intel_sync_proof.sh";
       d_badge := None |}
  else none.

Definition test_consult (locale : Locale) (reports : val) : res (list test) :=
  let consult := reports.["nginxConsult"] in
  if otruthy consult then
    let tests := consult.["tests"] ??? empty_obj in
    let union := tests.["sqli_union"].["http_code"] in
    let or1 := tests.["sqli_or"].["http_code"] in
    let benign := tests.["benign_health"].["http_code"] in
    let lfi := tests.["lfi_attack"].["http_code"] in
    let pass := is_true consult.["pass"] in
    push {| d_id := "nginx-consult";
       d_status := if pass then TPass else TFail;
       d_title :=
         L locale
           (str "nginx inline consult API (auth_request öncesi WAF+CRS)")
           (str "nginx inline consult API (WAF+CRS before auth_request)");
       d_purpose :=
         L locale
           (str "ModSecurity inline alternatifi: istek nginx'e ulaşmadan consult ile 403/200 kararı.")
           (str
              "ModSecurity inline alternative: 403/200 decision via consult before request reaches upstream.");
       d_verdict :=
         if pass then
           L locale
             (tpl [Txt "union="; Val union; Txt " or1="; Val or1; Txt " benign="; Val benign; Txt " lfi=";
                   Val lfi; Txt " — hepsi beklenen kod."])
             (tpl [Txt "union="; Val union; Txt " or1="; Val or1; Txt " benign="; Val benign; Txt " lfi=";
                   Val lfi; Txt " — all expected codes."])
         else
           L locale
             (str "Consult API basarisiz — sudo systemctl restart log-guardian + sync_etc_rules")
             (str "Consult API failed — sudo systemctl restart log-guardian + sync_etc_rules");
       d_metrics :=
         [metric (str "UNION") (Str (union ??? vs "—"));
          metric (str "OR 1=1") (Str (or1 ??? vs "—"));
          metric (L locale (str "Sağlık") (str "Health")) (Str (benign ??? vs "—"));
          metric (str "LFI") (Str (lfi ??? vs "—"))];
       d_date := fmtDate consult.["date"];
       d_script := str "scripts/nginx_inline_consult_proof.sh";
       d_badge := None |}
  else none.

Definition test_hybrid (locale : Locale) (reports : val) : res (list test) :=
  let hybrid := reports.["nginxHybrid"] in
  if otruthy hybrid then
    let pass := is_true hybrid.["pass"] in
    let sqli := hybrid.["checks"].["edge_sqli_blocked"].["http_code"] in
    let replay := hybrid.["checks"].["log_replay_alerts"] ??? vn 0 in
    push {| d_id := "nginx-hybrid";
       d_status := if pass then TPass else TFail;
       d_title :=
         L locale
           (str "nginx hibrit — inline consult + log replay")
           (str "nginx hybrid — inline consult + log replay");
       d_purpose :=
         L locale
           (str "ModSec/Fail2ban farkı: auth_request WAF + access_log tek zincir kanıtı.")
           (str "ModSec/Fail2ban gap: auth_request WAF + access_log single-chain proof.");
       d_verdict :=
         if pass then
           L locale
             (tpl [Txt "mode="; Val (hybrid.["mode"] ??? vs "inline+log"); Txt "; edge_sqli=";
                   Val (sqli ??? vs "—"); Txt "; replay_alerts="; Val replay; Txt "."])
             (tpl [Txt "mode="; Val (hybrid.["mode"] ??? vs "inline+log"); Txt "; edge_sqli=";
                   Val (sqli ??? vs "—"); Txt "; replay_alerts="; Val replay; Txt "."])
         else
           L locale
             (str "nginx_hybrid_proof FAIL — bash scripts/nginx_hybrid_proof.sh")
             (str "nginx_hybrid_proof FAIL — bash scripts/nginx_hybrid_proof.sh");
       d_metrics := [metric (str "edge_sqli") (Str (sqli ??? vs "—")); metric (str "replay") (Str replay)];
       d_date := fmtDate hybrid.["date"];
       d_script := str "scripts/nginx_hybrid_proof.sh";
       d_badge := None |}
  else none.

Definition test_banProf (locale : Locale) (reports : val) : res (list test) :=
  let banProf := reports.["banProfileE2e"] in
  if otruthy banProf then
    let pass := is_true banProf.["pass"] in
    let nchk := vlength banProf.["checks"] ??? vn 0 in
    push {| d_id := "ban-profile-e2e";
       d_status := if pass then TPass else TFail;
       d_title :=
         L locale
           (str "AUTO_BAN profil + consult cache + threat intel offline")
           (str "AUTO_BAN profile + consult cache + threat intel offline");
       d_purpose :=
         L locale
           (str "AUTO_BAN_PROFILE preset, consult cache, threat intel offline fallback.")
           (str "AUTO_BAN_PROFILE preset, consult cache, threat intel offline fallback.");
       d_verdict :=
         if pass then
           L locale
             (tpl [Val nchk; Txt " statik kontrol PASS (AUTO_BAN_PROFILE, CONSULT_CACHE, GeoIP)."])
             (tpl [Val nchk; Txt " static checks PASS (AUTO_BAN_PROFILE, CONSULT_CACHE, GeoIP)."])
         else L locale (str "ban_profile_e2e FAIL") (str "ban_profile_e2e FAIL");
       d_metrics := [metric (L locale (str "kontrol") (str "checks")) (Str nchk)];
       d_date := fmtDate banProf.["date"];
       d_script := str "scripts/ban_profile_e2e.sh";
       d_badge := None |}
  else none.

Definition test_ipv6 (locale : Locale) (reports : val) : res (list test) :=
  let ipv6 := reports.["ipv6BanE2e"] in
  if otruthy ipv6 then
    let pass := is_true ipv6.["pass"] in
    push {| d_id := "ipv6-ban-e2e";
       d_status := if pass then TPass else TFail;
       d_title := L locale (str "IPv6 ban — ipset v6 + API/CLI") (str "IPv6 ban — ipset v6 + API/CLI");
       d_purpose :=
         L locale
           (str "RFC 3849 doc prefix — v4-only rakiplere karşı ipset v6 kanıtı.")
           (str "RFC 3849 doc prefix — ipset v6 proof vs v4-only rivals.");
       d_verdict :=
         if pass then
           L locale
             (tpl [Txt "via="; Val (ipv6.["ban_via"] ??? vs "—"); Txt "; path=";
                   Val (ipv6.["ban_path"] ??? vs "—"); Txt "; ip="; Val (ipv6.["test_ip"] ??? vs "—"); Txt "."])
             (tpl [Txt "via="; Val (ipv6.["ban_via"] ??? vs "—"); Txt "; path=";
                   Val (ipv6.["ban_path"] ??? vs "—"); Txt "; ip="; Val (ipv6.["test_ip"] ??? vs "—"); Txt "."])
         else
           L locale
             (str "ipv6_ban_e2e FAIL — sudo bash scripts/ipv6_ban_e2e.sh")
             (str "ipv6_ban_e2e FAIL — sudo bash scripts/ipv6_ban_e2e.sh");
       d_metrics :=
         [metric (str "via") (ret (ipv6.["ban_via"] ??? vs "—"));
          metric (str "path") (ret (ipv6.["ban_path"] ??? vs "—"))];
       d_date := fmtDate ipv6.["date"];
       d_script := str "scripts/ipv6_ban_e2e.sh";
       d_badge := None |}
  else none.

Definition test_apiMut (locale : Locale) (reports : val) : res (list test) :=
  let apiMut := reports.["apiMutationTokenE2e"] in
  if otruthy apiMut then
    let pass := is_true apiMut.["pass"] in
    let skipped := is_true apiMut.["skipped"] in
    let splitOn := is_true apiMut.["split_enabled"] && negb skipped in
    push {| d_id := "api-mutation-token-e2e";
       d_status := if pass then TPass else TFail;
       d_title :=
         L locale
           (str "API mutation token — read/mutate POST ayrımı")
           (str "API mutation token — read/mutate POST split");
       d_purpose :=
         L locale
           (str "Enterprise: API_TOKEN (GET) + API_MUTATION_TOKEN (POST ban/unban/consult).")
           (str "Enterprise: API_TOKEN (GET) + API_MUTATION_TOKEN (POST ban/unban/consult).");
       d_verdict :=
         if pass then
           if splitOn then
             L locale
               (str "split=ON; read POST 403; mutation POST 200.")
               (str "split=ON; read POST 403; mutation POST 200.")
           else
             L locale
               (ret (apiMut.["reason"] ??? vs "tek token modu (Community)"))
               (ret (apiMut.["reason"] ??? vs "single token (Community)"))
         else
           L locale
             (ret (apiMut.["fail_reason"] ??? vs "api_mutation_token_e2e FAIL"))
             (ret (apiMut.["fail_reason"] ??? vs "api_mutation_token_e2e FAIL"));
       d_metrics :=
         [metric (str "split") (ret (if splitOn then vs "on" else if skipped then vs "skip" else vs "off"))];
       d_date := fmtDate apiMut.["date"];
       d_script := str "scripts/api_mutation_token_e2e.sh";
       d_badge := None |}
  else none.

Definition test_apiMutAudit (locale : Locale) (reports : val) : res (list test) :=
  let apiMutAudit := reports.["apiMutationAuditE2e"] in
  if otruthy apiMutAudit then
    let pass := is_true apiMutAudit.["pass"] in
    push {| d_id := "api-mutation-audit-e2e";
       d_status := if pass then TPass else TFail;
       d_title :=
         L locale
           (str "API mutation audit — ban/unban jsonl izi")
           (str "API mutation audit — ban/unban jsonl trail");
       d_purpose :=
         L locale
           (str "POST /ban sonrası /var/lib/log-guardian/api-mutation-audit.jsonl append-only satır.")
           (str "Append-only line in /var/lib/log-guardian/api-mutation-audit.jsonl after POST /ban.");
       d_verdict :=
         if pass then
           L locale
             (tpl [Txt "audit trail OK — "; Val (apiMutAudit.["audit_path"] ??? vs "jsonl"); Txt "."])
             (tpl [Txt "audit trail OK — "; Val (apiMutAudit.["audit_path"] ??? vs "jsonl"); Txt "."])
         else
           L locale
             (ret (apiMutAudit.["fail_reason"] ??? vs "api_mutation_audit_e2e FAIL"))
             (ret (apiMutAudit.["fail_reason"] ??? vs "api_mutation_audit_e2e FAIL"));
       d_metrics := [metric (str "audit") (ret (if pass then vs "OK" else vs "FAIL"))];
       d_date := fmtDate apiMutAudit.["date"];
       d_script := str "scripts/api_mutation_audit_e2e.sh";
       d_badge := None |}
  else none.

Definition test_dashLoginRl (locale : Locale) (reports : val) : res (list test) :=
  let dashLoginRl := reports.["dashboardLoginRlE2e"] in
  if otruthy dashLoginRl then
    let pass := is_true dashLoginRl.["pass"] in
    push {| d_id := "dashboard-login-rl-e2e";
       d_status := if pass then TPass else TFail;
       d_title :=
         L locale
           (str "Dashboard login rate limit — brute-force koruması")
           (str "Dashboard login rate limit — brute-force protection");
       d_purpose :=
         L locale
           (str "Prod: X-Forwarded-For ile 10 başarısız denemeden sonra HTTP 429.")
           (str "Prod: HTTP 429 after 10 failed attempts (X-Forwarded-For).");
       d_verdict :=
         if pass then
           L locale
             (tpl [Val (dashLoginRl.["max_attempts"] ??? vn 10); Txt " deneme → 429 (probe ";
                   Val (dashLoginRl.["probe_ip"] ??? vs "—"); Txt ")."])
             (tpl [Val (dashLoginRl.["max_attempts"] ??? vn 10); Txt " attempts → 429 (probe ";
                   Val (dashLoginRl.["probe_ip"] ??? vs "—"); Txt ")."])
         else
           L locale
             (ret (dashLoginRl.["fail_reason"] ??? vs "dashboard_login_rate_limit_e2e FAIL"))
             (ret (dashLoginRl.["fail_reason"] ??? vs "dashboard_login_rate_limit_e2e FAIL"));
       d_metrics := [metric (str "max") (Str (dashLoginRl.["max_attempts"] ??? vn 10))];
       d_date := fmtDate dashLoginRl.["date"];
       d_script := str "scripts/dashboard_login_rate_limit_e2e.sh";
       d_badge := None |}
  else none.

Definition test_hardeningRb (locale : Locale) (reports : val) : res (list test) :=
  let hardeningRb := reports.["hardeningRollbackGate"] in
  if otruthy hardeningRb then
    let pass := is_true hardeningRb.["pass"] in
    let? nOk :=
      let? l :=
        vfilter ((λ c, let? x := dot "ok" c in Ok (otruthy x))) (hardeningRb.["checks"] ??? empty_arr) in
      ret (vlength l) in
    let nAll := vlength hardeningRb.["checks"] ??? vn 0 in
    push {| d_id := "hardening-rollback-gate";
       d_status := if pass then TPass else TFail;
       d_title :=
         L locale
           (str "Hardening rollback — geri alma hazırlığı")
           (str "Hardening rollback — rollback readiness");
       d_purpose :=
         L locale
           (str "Internet-facing sertleştirme öncesi yedek + demo parola algısı (salt okunur).")
           (str "Pre-hardening backup + demo password detection (read-only).");
       d_verdict :=
         if pass then
           L locale
             (tpl [Txt "kontroller "; Val nOk; Txt "/"; Val nAll; Txt " OK."])
             (tpl [Txt "checks "; Val nOk; Txt "/"; Val nAll; Txt " OK."])
         else
           L locale
             (ret (hardeningRb.["fail_reason"] ??? vs "hardening_rollback_gate FAIL"))
             (ret (hardeningRb.["fail_reason"] ??? vs "hardening_rollback_gate FAIL"));
       d_metrics := [metric (str "checks") (tpl [Val nOk; Txt "/"; Val nAll])];
       d_date := fmtDate hardeningRb.["date"];
       d_script := str "scripts/hardening_rollback_gate.sh";
       d_badge := None |}
  else none.

Definition test_jwtIdle (locale : Locale) (reports : val) : res (list test) :=
  let jwtIdle := reports.["dashboardJwtIdleGate"] in
  if otruthy jwtIdle then
    let pass := is_true jwtIdle.["pass"] in
    let mode := jwtIdle.["mode"] ??? vs "?" in
    push {| d_id := "dashboard-jwt-idle-gate";
       d_status := if pass then TPass else TFail;
       d_title :=
         L locale (str "Dashboard JWT idle — oturum zaman aşımı") (str "Dashboard JWT idle — session timeout");
       d_purpose :=
         L locale
           (str "middleware iat kontrolü; laptop 0dk, internet-facing 480dk önerilir.")
           (str "middleware iat check; laptop 0m, internet-facing 480m recommended.");
       d_verdict :=
         if pass then
           L locale
             (tpl [Txt "mode="; Val mode; Txt "; idle="; Val (jwtIdle.["idle_min"] ??? vn 0); Txt "dk."])
             (tpl [Txt "mode="; Val mode; Txt "; idle="; Val (jwtIdle.["idle_min"] ??? vn 0); Txt "m."])
         else
           L locale
             (ret (jwtIdle.["fail_reason"] ??? vs "dashboard_jwt_idle_gate FAIL"))
             (ret (jwtIdle.["fail_reason"] ??? vs "dashboard_jwt_idle_gate FAIL"));
       d_metrics := [metric (str "idle_min") (Str (jwtIdle.["idle_min"] ??? vn 0))];
       d_date := fmtDate jwtIdle.["date"];
       d_script := str "scripts/dashboard_jwt_idle_gate.sh";
       d_badge := None |}
  else none.

Definition test_mtlsExp (locale : Locale) (reports : val) : res (list test) :=
  let mtlsExp := reports.["mtlsCertExpiry"] in
  if otruthy mtlsExp && negb (is_true mtlsExp.["skipped"]) then
    let pass := is_true mtlsExp.["pass"] in
    push {| d_id := "mtls-cert-expiry";
       d_status := if pass then TPass else TWarn;
       d_title := L locale (str "mTLS sertifika süresi — SOAR lab") (str "mTLS certificate expiry — SOAR lab");
       d_purpose :=
         L locale
           (str "client/server/ca.crt bitiş — rotasyon runbook uyarısı.")
           (str "client/server/ca.crt expiry — rotation runbook warning.");
       d_verdict :=
         if pass then
           L locale
             (tpl [Txt "min "; Val (mtlsExp.["min_days_left"] ??? vs "—"); Txt " gün (warn<=";
                   Val (mtlsExp.["warn_days"] ??? vn 14); Txt ")."])
             (tpl [Txt "min "; Val (mtlsExp.["min_days_left"] ??? vs "—"); Txt " days (warn<=";
                   Val (mtlsExp.["warn_days"] ??? vn 14); Txt ")."])
         else
           L locale
             (tpl [Txt "yakın bitiş — min "; Val (mtlsExp.["min_days_left"] ??? vs "?"); Txt " gün"])
             (tpl [Txt "expiring soon — min "; Val (mtlsExp.["min_days_left"] ??? vs "?"); Txt " days"]);
       d_metrics := [metric (str "min_days") (Str (mtlsExp.["min_days_left"] ??? vs "—"))];
       d_date := fmtDate mtlsExp.["date"];
       d_script := str "scripts/mtls_cert_expiry_check.sh";
       d_badge := None |}
  else none.

Definition test_banMtls (locale : Locale) (reports : val) : res (list test) :=
  let banMtls := reports.["banApiMtls"] in
  let caddySt := reports.["caddyMtlsStatus"] in
  if otruthy banMtls then
    let pass := is_true banMtls.["pass"] in
    let skipped := is_true banMtls.["skipped"] in
    let mtlsOn := is_true banMtls.["mtls_verify"] && negb skipped in
    let strictOn := is_true caddySt.["mtls_strict"] in
    push {| d_id := "ban-api-mtls";
       d_status := if pass then TPass else TFail;
       d_title :=
         L locale
           (str "Ban API mTLS — edge client cert + mutation token")
           (str "Ban API mTLS — edge client cert + mutation token");
       d_purpose :=
         L locale
           (str "Enterprise: nginx mTLS terminate + internal mutation token inject.")
           (str "Enterprise: nginx mTLS terminate + internal mutation token inject.");
       d_verdict :=
         if pass then
           if mtlsOn then
             L locale
               (str "read POST 403; mutation OK; mTLS edge verify.")
               (str "read POST 403; mutation OK; mTLS edge verify.")
           else
             L locale
               (ret (banMtls.["reason"] ??? vs "mutation token only (nginx skip)"))
               (ret (banMtls.["reason"] ??? vs "mutation token only (nginx skip)"))
         else
           L locale
             (ret (banMtls.["fail_reason"] ??? vs "ban_api_mtls_e2e FAIL"))
             (ret (banMtls.["fail_reason"] ??? vs "ban_api_mtls_e2e FAIL"));
       d_metrics :=
         [metric (str "mtls") (ret (if mtlsOn then vs "on" else if skipped then vs "skip" else vs "off"));
          metric
            (str "read_post")
            (ret (if otruthy banMtls.["read_token_post_reject"] then vs "403" else vs "—"));
          metric
            (str "caddy")
            (ret
               (if otruthy banMtls.["caddy_mtls_verify"] then
                  vs "on"
                else if banMtls.["caddy_skipped"] === vb false then vs "off" else vs "skip"));
          metric (str "strict") (ret (if strictOn then vs "on" else vs "off"))];
       d_date := fmtDate banMtls.["date"];
       d_script := str "scripts/ban_api_mtls_e2e.sh";
       d_badge := None |}
  else none.

Definition test_soarGate (locale : Locale) (reports : val) : res (list test) :=
  let soarGate := reports.["enterpriseSoarGate"] in
  if otruthy soarGate then
    let pass := is_true soarGate.["pass"] in
    let mode := soarGate.["mode"] ??? vs "community" in
    let soarOn := is_true soarGate.["soar_enabled"] in
    push {| d_id := "enterprise-soar-gate";
       d_status := if pass then TPass else TFail;
       d_title :=
         L locale
           (str "Enterprise SOAR gate — Caddy :9443 mTLS + strict")
           (str "Enterprise SOAR gate — Caddy :9443 mTLS + strict");
       d_purpose :=
         L locale
           (str "Operatör: enable/disable SOAR API — split token, Caddy mTLS, loopback strict.")
           (str "Operator gate: enable/disable SOAR API — split token, Caddy mTLS, loopback strict.");
       d_verdict :=
         if pass then
           L locale
             (tpl [Txt "mode="; Val mode; Txt "; SOAR "; Val (if soarOn then vs "on" else vs "off");
                   Txt "; strict="; Val (if otruthy soarGate.["mtls_strict"] then vs "on" else vs "off");
                   Txt "."])
             (tpl [Txt "mode="; Val mode; Txt "; SOAR "; Val (if soarOn then vs "on" else vs "off");
                   Txt "; strict="; Val (if otruthy soarGate.["mtls_strict"] then vs "on" else vs "off");
                   Txt "."])
         else
           L locale
             (ret (soarGate.["fail_reason"] ??? vs "enterprise_soar_gate FAIL"))
             (ret (soarGate.["fail_reason"] ??? vs "enterprise_soar_gate FAIL"));
       d_metrics :=
         [metric (str "mode") (ret mode);
          metric (str "soar") (ret (if soarOn then vs "on" else vs "off"));
          metric (str "strict") (ret (if otruthy soarGate.["mtls_strict"] then vs "on" else vs "off"));
          metric
            (str "caddy")
            (ret
               (if otruthy soarGate.["caddy_mtls_ok"] then vs "OK" else if soarOn then vs "FAIL" else vs "—"));
          metric
            (str "ban_smoke")
            (ret (if otruthy soarGate.["dashboard_ban_ok"] then vs "OK" else vs "FAIL"))];
       d_date := fmtDate soarGate.["date"];
       d_script := str "scripts/enterprise_soar_gate.sh";
       d_badge := None |}
  else none.

Definition test_ja3 (locale : Locale) (reports : val) : res (list test) :=
  let ja3 := reports.["ja3Cluster"] in
  if otruthy ja3 then
    let recall := ja3.["recall_pct"] ??? vn 0 in
    let target := ja3.["target_recall_pct"] ??? vn 85 in
    let pass := is_true ja3.["pass"] in
    push {| d_id := "ja3-cluster";
       d_status := if pass then TPass else TFail;
       d_title :=
         L locale
           (str "Dağıtık saldırıda (aynı UA, farklı IP) cluster recall ölçüyoruz")
           (str "We measure cluster recall on distributed attacks (same UA, different IPs)");
       d_purpose :=
         L locale
           (str "IP başına ban'ın ötesinde scanner UA + çoklu IP senaryosunda tespit oranını kanıtlar.")
           (str "Proves detection beyond per-IP ban on scanner UA + multi-IP scenarios.");
       d_verdict :=
         let live := ja3.["live"] in
         let? liveBit :=
           if otruthy live.["enabled"] && otruthy live.["tls_ready"] then
             L locale
               (tpl [Txt " — TLS :443 canlı (ja3_sent=";
                     Val (if otruthy live.["ja3_test"].["sent"] then vs "evet" else vs "hayır");
                     Txt ", delta_c2="; Val (live.["ja3_test"].["metrics_delta_c2"] ??? vn 0); Txt ")."])
               (tpl [Txt " — live TLS :443 (ja3_sent=";
                     Val (if otruthy live.["ja3_test"].["sent"] then vs "yes" else vs "no"); Txt ", delta_c2=";
                     Val (live.["ja3_test"].["metrics_delta_c2"] ??? vn 0); Txt ")."])
           else str "" in
         if pass then
           L locale
             (tpl [Val (ja3.["unique_ips"] ??? vs "—"); Txt " farklı IP, recall %"; Fix 1 recall;
                   Txt " — hedef >=%"; Val target; Txt "."; Val liveBit])
             (tpl [Val (ja3.["unique_ips"] ??? vs "—"); Txt " unique IPs at "; Fix 1 recall;
                   Txt "% recall — target >="; Val target; Txt "%."; Val liveBit])
         else
           L locale
             (tpl [Txt "Recall %"; Fix 1 recall; Txt " — hedef >=%"; Val target; Txt " altında."])
             (tpl [Txt "Recall "; Fix 1 recall; Txt "% — below "; Val target; Txt "% target."]);
       d_metrics :=
         [metric (L locale (str "Recall") (str "Recall")) (tpl [Fix 1 recall; Txt "%"]);
          metric (str "IP") (Str (ja3.["unique_ips"] ??? vn 0));
          metric (L locale (str "UA") (str "UA")) (ret (ja3.["same_ua"] ??? vs "—"))] ++
         (if otruthy ja3.["live"].["enabled"] then
            [metric
               (str "TLS")
               (ret
                  (if otruthy ja3.["live"].["tls_ready"] then
                     if is_tr locale then vs "açık" else vs "up"
                   else if is_tr locale then vs "kapalı" else vs "down"))]
          else []);
       d_date := fmtDate ja3.["date"];
       d_script := str "scripts/ja3_cluster_proof.sh";
       d_badge := None |}
  else none.

Definition test_ja3Live (locale : Locale) (reports : val) : res (list test) :=
  let ja3Live := reports.["ja3ClusterBanLive"] in
  if otruthy ja3Live then
    let delta := ja3Live.["ban_pipeline_delta"] ??? vn 0 in
    let pass := is_true ja3Live.["pass"] in
    push {| d_id := "ja3-cluster-ban-live";
       d_status := if pass then TPass else TFail;
       d_title :=
         L locale
           (str "Canlı nginx log → JA3/UA cluster → ban_pipeline kanıtı")
           (str "Live nginx log → JA3/UA cluster → ban_pipeline proof");
       d_purpose :=
         L locale
           (str
              "Dağıtık saldırıda aynı scanner UA ile gelen IP'lerin canlı ingest sonrası ban hattına girdiğini ölçer.")
           (str "Measures that same-scanner-UA distributed IPs enter the ban pipeline after live ingest.");
       d_verdict :=
         if pass then
           L locale
             (tpl [Val (ja3Live.["mode"] ??? vs "live"); Txt " — ban_pipeline +"; Val delta; Txt ", blok ";
                   Val (ja3Live.["ip_block"] ??? vs "—");
                   Val
                     (if otruthy ja3Live.["ja3_cluster_flush_this_run"] then vs " — cluster flush" else vs "");
                   Txt "."])
             (tpl [Val (ja3Live.["mode"] ??? vs "live"); Txt " — ban_pipeline +"; Val delta; Txt ", block ";
                   Val (ja3Live.["ip_block"] ??? vs "—");
                   Val
                     (if otruthy ja3Live.["ja3_cluster_flush_this_run"] then vs " — cluster flush" else vs "");
                   Txt "."])
         else
           L locale
             (tpl [Txt "Canlı cluster ban geçmedi — delta="; Val delta;
                   Txt ". sudo bash scripts/ja3_cluster_ban_live.sh"])
             (tpl [Txt "Live cluster ban failed — delta="; Val delta;
                   Txt ". sudo bash scripts/ja3_cluster_ban_live.sh"]);
       d_metrics :=
         [metric (str "Δ ban") (Str delta);
          metric (L locale (str "Mod") (str "Mode")) (ret (ja3Live.["mode"] ??? vs "—"));
          metric
            (str "flush")
            (ret
               (if otruthy ja3Live.["ja3_cluster_flush_this_run"] then
                  if is_tr locale then vs "evet" else vs "yes"
                else if is_tr locale then vs "hayır" else vs "no"))];
       d_date := fmtDate ja3Live.["date"];
       d_script := str "scripts/ja3_cluster_ban_live.sh";
       d_badge := None |}
  else none.

Definition test_fpCluster (locale : Locale) (reports : val) : res (list test) :=
  let fpCluster := reports.["fpClusterTrust"] in
  if otruthy fpCluster then
    let pass := is_true fpCluster.["pass"] in
    push {| d_id := "fp-cluster-trust";
       d_status := if pass then TPass else TFail;
       d_title :=
         L locale
           (str "FP learn — güvenilir IP cluster ban dışında mı?")
           (str "FP learn — are trusted IPs excluded from cluster ban?");
       d_purpose :=
         L locale
           (str
              "Öğrenilmiş güvenilir IP'nin JA3/UA cluster flush listesine girmemesini kanıtlar (tekil SQLi WAF ayrı).")
           (str
              "Proves learned trusted IPs are not included in JA3/UA cluster flush (per-IP SQLi WAF is separate).");
       d_verdict :=
         if pass then
           L locale
             (tpl [Val (fpCluster.["trusted_ip"] ??? vs "—"); Txt " cluster ban almadı; flush=";
                   Val (if otruthy fpCluster.["ja3_cluster_flush"] then vs "evet" else vs "hayır"); Txt "."])
             (tpl [Val (fpCluster.["trusted_ip"] ??? vs "—"); Txt " not cluster-banned; flush=";
                   Val (if otruthy fpCluster.["ja3_cluster_flush"] then vs "yes" else vs "no"); Txt "."])
         else
           L locale
             (str "Güvenilir IP cluster ban yedi — FP_TRUST veya cluster eşiği kontrol edin.")
             (str "Trusted IP received cluster ban — check FP_TRUST or cluster thresholds.");
       d_metrics :=
         [metric (L locale (str "Güvenilir IP") (str "Trusted IP")) (ret (fpCluster.["trusted_ip"] ??? vs "—"));
          metric
            (str "cluster ban")
            (ret
               (if otruthy fpCluster.["trusted_cluster_banned"] then
                  if is_tr locale then vs "evet" else vs "yes"
                else if is_tr locale then vs "hayır" else vs "no"));
          metric
            (str "flush")
            (ret
               (if otruthy fpCluster.["ja3_cluster_flush"] then
                  if is_tr locale then vs "evet" else vs "yes"
                else if is_tr locale then vs "hayır" else vs "no"))];
       d_date := fmtDate fpCluster.["date"];
       d_script := str "scripts/fp_cluster_trust_e2e.sh";
       d_badge := None |}
  else none.

Definition test_lineageLive (locale : Locale) (reports : val) : res (list test) :=
  let lineageLive := reports.["lineageLive"] in
  if otruthy lineageLive then
    let pass := is_true lineageLive.["pass"] in
    let? types := vjoin " · " (lineageLive.["event_types"] ??? empty_arr) in
    let risk := (lineageLive.["chain_risk"] ??? lineageLive.["max_risk"]) ??? vn 0 in
    push {| d_id := "lineage-live";
       d_status := if pass then TPass else TFail;
       d_title :=
         L locale
           (str "eBPF lineage — openat · execve · connect zinciri")
           (str "eBPF lineage — openat · execve · connect chain");
       d_purpose :=
         L locale
           (str
              "Daemon attack_tree.json formatında canlı olay zincirini doğrular; demo dosyası üretim yolunun önüne geçmez.")
           (str
              "Validates live event chain in daemon attack_tree.json format; demo file does not override production path.");
       d_verdict :=
         if pass then
           L locale
             (tpl [Val (lineageLive.["comm"] ??? vs "proc"); Txt " risk "; Fix 1 risk; Txt " — ";
                   Val (lineageLive.["event_count"] ??? vn 0); Txt " olay ("; Val types; Txt "); kaynak=";
                   Val (lineageLive.["resolver_source"] ??? vs "daemon_file"); Txt "."])
             (tpl [Val (lineageLive.["comm"] ??? vs "proc"); Txt " risk "; Fix 1 risk; Txt " — ";
                   Val (lineageLive.["event_count"] ??? vn 0); Txt " events ("; Val types; Txt "); source=";
                   Val (lineageLive.["resolver_source"] ??? vs "daemon_file"); Txt "."])
         else
           L locale
             (str "Lineage zinciri geçmedi — bash scripts/lineage_live_e2e.sh")
             (str "Lineage chain failed — bash scripts/lineage_live_e2e.sh");
       d_metrics :=
         [metric (L locale (str "Risk") (str "Risk")) (tpl [Fix 1 risk]);
          metric (L locale (str "Olay") (str "Events")) (Str (lineageLive.["event_count"] ??? vn 0));
          metric (L locale (str "Ağaç") (str "Trees")) (Str (lineageLive.["active_trees"] ??? vn 0));
          metric (L locale (str "Kaynak") (str "Source")) (ret (lineageLive.["resolver_source"] ??? vs "—"))];
       d_date := fmtDate lineageLive.["date"];
       d_script := str "scripts/lineage_live_e2e.sh";
       d_badge := None |}
  else none.

Definition test_fp (locale : Locale) (reports : val) : res (list test) :=
  let fp := reports.["fp"] in
  if otruthy fp then
    let rate := fp.["benign"].["fp_rate_pct"] ??? vn 0 in
    let target := fp.["target_fp_pct"] ??? vn 5 in
    let lines := fp.["benign"].["lines"] ??? vn 0 in
    let pass := vlt rate target in
    push {| d_id := "fp-rate";
       d_status := if pass then TPass else TFail;
       d_title :=
         L locale
           (str "Temiz (benign) trafikte yanlış alarm oranını sayıyoruz")
           (str "We count false-positive rate on clean (benign) traffic");
       d_purpose :=
         L locale
           (str "Gerçek kullanıcı trafiğini gereksiz yere engellemediğimizi gösterir.")
           (str "Shows we do not block legitimate user traffic unnecessarily.");
       d_verdict :=
         if pass then
           L locale
             (tpl [Val lines; Txt " benign satırda %"; Fix 2 rate; Txt " yanlış alarm — hedef <%"; Val target;
                   Txt " altında."])
             (tpl [Val lines; Txt " benign lines at "; Fix 2 rate; Txt "% FP — under "; Val target;
                   Txt "% target."])
         else
           L locale
             (tpl [Txt "Yanlış alarm %"; Fix 2 rate; Txt " — hedef <%"; Val target;
                   Txt " aşıldı; eşik veya kurallar ayarlanmalı."])
             (tpl [Txt "False positive "; Fix 2 rate; Txt "% — exceeds "; Val target;
                   Txt "% target; tune thresholds or rules."]);
       d_metrics :=
         [metric (L locale (str "FP oranı") (str "FP rate")) (tpl [Fix 2 rate; Txt "%"]);
          metric (L locale (str "Benign satır") (str "Benign lines")) (Str lines)];
       d_date := fmtDate fp.["date"];
       d_script := str "scripts/fp_benign_test.sh";
       d_badge := None |}
  else none.

Definition test_soakShort (locale : Locale) (reports : val) : res (list test) :=
  let soakShort := reports.["soakShort"] in
  if otruthy soakShort then
    let pass := is_true soakShort.["pass"] in
    let sec := soakShort.["duration_sec"] ??? vn 300 in
    let min := vnum (nround (to_num (vdiv sec (vn 60)))) in
    push {| d_id := "soak-short-gate";
       d_status := if pass then TPass else TFail;
       d_title :=
         L locale
           (str "5 dakikalık stabilite kapısı (VPS gerekmez)")
           (str "5-minute stability gate (no VPS required)");
       d_purpose :=
         L locale
           (str "Daemon ve analizörün kısa süreli prod benzeri yükte ayakta kaldığını doğrular.")
           (str "Confirms daemon and analyzer stay up during a short production-like window.");
       d_verdict :=
         if pass then
           L locale
             (tpl [Val min; Txt " dk soak: "; Val (soakShort.["samples"] ??? vn 0); Txt " örnek, ";
                   Val (soakShort.["failures"] ??? vn 0); Txt " hata — PASS."])
             (tpl [Val min; Txt "m soak: "; Val (soakShort.["samples"] ??? vn 0); Txt " samples, ";
                   Val (soakShort.["failures"] ??? vn 0); Txt " failures — PASS."])
         else
           L locale
             (tpl [Val (soakShort.["failures"] ??? vn 0);
                   Txt " başarısız örnek — sağlık veya metrik erişimi koptu."])
             (tpl [Val (soakShort.["failures"] ??? vn 0);
                   Txt " failed samples — health or metrics access lost."]);
       d_metrics :=
         [metric (L locale (str "Süre") (str "Duration")) (tpl [Val min; Txt " dk"]);
          metric
            (L locale (str "Max RSS") (str "Max RSS"))
            (if otruthy soakShort.["max_rss_kb"] then
               tpl [Fix 0 (vdiv soakShort.["max_rss_kb"] (vn 1024)); Txt " MB"]
             else str "—")];
       d_date := fmtDate (soakShort.["ended"] ??? soakShort.["started"]);
       d_script := str "scripts/soak_short_proof.sh";
       d_badge := None |}
  else none.

(** ** The blocks on documents of their types *)

Section typed.
Context (reports : val) (Hr : tyn TestReports reports).

Lemma test_crs_ok : block_spec "crs-parity" (is_true reports.["crs"].["pass"]) (λ lo, test_crs lo reports).
Proof. unfold test_crs. block. Qed.
Lemma test_real_ok : block_spec "real-attack" (is_true reports.["realAttack"].["pass"]) (λ lo, test_real lo reports).
Proof. unfold test_real. block. Qed.
Lemma test_real10k_ok : block_spec "real-attack-10k" (is_true reports.["realAttack10k"].["pass"]) (λ lo, test_real10k lo reports).
Proof. unfold test_real10k. block. Qed.
Lemma test_liveAtk_ok : block_spec "live-attack" (is_true reports.["liveAttack"].["pass"]) (λ lo, test_liveAtk lo reports).
Proof. unfold test_liveAtk. block. Qed.
Lemma test_owasp_ok : block_spec "owasp-corpus" (is_true reports.["owaspCorpus"].["pass"]) (λ lo, test_owasp lo reports).
Proof. unfold test_owasp. block. Qed.
Lemma test_trHost_ok : block_spec "tr-hosting-corpus" (is_true reports.["trHostingCorpus"].["pass"]) (λ lo, test_trHost lo reports).
Proof. unfold test_trHost. block. Qed.
Lemma test_ti_ok : block_spec "threat-intel-sync" (is_true reports.["threatIntelSync"].["pass"]) (λ lo, test_ti lo reports).
Proof. unfold test_ti. block. Qed.
Lemma test_consult_ok : block_spec "nginx-consult" (is_true reports.["nginxConsult"].["pass"]) (λ lo, test_consult lo reports).
Proof. unfold test_consult. block. Qed.
Lemma test_hybrid_ok : block_spec "nginx-hybrid" (is_true reports.["nginxHybrid"].["pass"]) (λ lo, test_hybrid lo reports).
Proof. unfold test_hybrid. block. Qed.
Lemma test_banProf_ok : block_spec "ban-profile-e2e" (is_true reports.["banProfileE2e"].["pass"]) (λ lo, test_banProf lo reports).
Proof. unfold test_banProf. block. Qed.
Lemma test_ipv6_ok : block_spec "ipv6-ban-e2e" (is_true reports.["ipv6BanE2e"].["pass"]) (λ lo, test_ipv6 lo reports).
Proof. unfold test_ipv6. block. Qed.
Lemma test_apiMut_ok : block_spec "api-mutation-token-e2e" (is_true reports.["apiMutationTokenE2e"].["pass"]) (λ lo, test_apiMut lo reports).
Proof. unfold test_apiMut. block. Qed.
Lemma test_apiMutAudit_ok : block_spec "api-mutation-audit-e2e" (is_true reports.["apiMutationAuditE2e"].["pass"]) (λ lo, test_apiMutAudit lo reports).
Proof. unfold test_apiMutAudit. block. Qed.
Lemma test_dashLoginRl_ok : block_spec "dashboard-login-rl-e2e" (is_true reports.["dashboardLoginRlE2e"].["pass"]) (λ lo, test_dashLoginRl lo reports).
Proof. unfold test_dashLoginRl. block. Qed.
Lemma test_hardeningRb_ok : block_spec "hardening-rollback-gate" (is_true reports.["hardeningRollbackGate"].["pass"]) (λ lo, test_hardeningRb lo reports).
Proof. unfold test_hardeningRb. block. Qed.
Lemma test_jwtIdle_ok : block_spec "dashboard-jwt-idle-gate" (is_true reports.["dashboardJwtIdleGate"].["pass"]) (λ lo, test_jwtIdle lo reports).
Proof. unfold test_jwtIdle. block. Qed.
Lemma test_mtlsExp_ok : block_spec "mtls-cert-expiry" (is_true reports.["mtlsCertExpiry"].["pass"]) (λ lo, test_mtlsExp lo reports).
Proof. unfold test_mtlsExp. block. Qed.
Lemma test_banMtls_ok : block_spec "ban-api-mtls" (is_true reports.["banApiMtls"].["pass"]) (λ lo, test_banMtls lo reports).
Proof. unfold test_banMtls. block. Qed.
Lemma test_soarGate_ok : block_spec "enterprise-soar-gate" (is_true reports.["enterpriseSoarGate"].["pass"]) (λ lo, test_soarGate lo reports).
Proof. unfold test_soarGate. block. Qed.
Lemma test_ja3_ok : block_spec "ja3-cluster" (is_true reports.["ja3Cluster"].["pass"]) (λ lo, test_ja3 lo reports).
Proof. unfold test_ja3. block. Qed.
Lemma test_ja3Live_ok : block_spec "ja3-cluster-ban-live" (is_true reports.["ja3ClusterBanLive"].["pass"]) (λ lo, test_ja3Live lo reports).
Proof. unfold test_ja3Live. block. Qed.
Lemma test_fpCluster_ok : block_spec "fp-cluster-trust" (is_true reports.["fpClusterTrust"].["pass"]) (λ lo, test_fpCluster lo reports).
Proof. unfold test_fpCluster. block. Qed.
Lemma test_lineageLive_ok : block_spec "lineage-live" (is_true reports.["lineageLive"].["pass"]) (λ lo, test_lineageLive lo reports).
Proof. unfold test_lineageLive. block. Qed.
Lemma test_fp_ok : block_spec "fp-rate" (vlt (reports.["fp"].["benign"].["fp_rate_pct"] ??? vn 0) (reports.["fp"].["target_fp_pct"] ??? vn 5)) (λ lo, test_fp lo reports).
Proof. unfold test_fp. block. Qed.
Lemma test_soakShort_ok : block_spec "soak-short-gate" (is_true reports.["soakShort"].["pass"]) (λ lo, test_soakShort lo reports).
Proof. unfold test_soakShort. block. Qed.
End typed.

End blocks.

#[export] Hint Resolve test_crs_ok test_real_ok test_real10k_ok test_liveAtk_ok test_owasp_ok test_trHost_ok test_ti_ok
  test_consult_ok test_hybrid_ok test_banProf_ok test_ipv6_ok test_apiMut_ok test_apiMutAudit_ok
  test_dashLoginRl_ok test_hardeningRb_ok test_jwtIdle_ok test_mtlsExp_ok test_banMtls_ok test_soarGate_ok
  test_ja3_ok test_ja3Live_ok test_fpCluster_ok test_lineageLive_ok test_fp_ok test_soakShort_ok : blocks.
