(* ===== verification/ValidationRuntime.v ===== *)
(** Blocks of [evaluateValidationTests] (dashboard/src/lib/validationTests.ts) on
    runtime: soak, isolation, bans, webhooks, edge and release gates.
    Each definition is one block: the card its report gives, if there is one. *)

From S2P Require Import Prelude JsString JsNum Json Http JsValue Reports.

Section blocks.
Context `{DateFormat}.

(** When the soak card passes: the laptop flag, or operation over 70 hours without a failure. *)
Definition soak_passed (soak : val) : bool :=
  let hours := if otruthy (soak.["duration_hours"] ??? soak.["duration_sec"])
               then vdiv (soak.["duration_sec"] ??? vn 0) (vn 3600) else vn 0 in
  is_true soak.["pass_laptop_proof"] ||
    (otruthy (soak.["pass_operational"] ??? vb false) && vle (vn 70) hours &&
       (((soak.["real_failures"] ??? soak.["failures"]) ??? vn 0) === vn 0)).
Definition test_soak (locale : Locale) (reports : val) : res (list test) :=
  let soak := reports.["soak"] in
  if otruthy soak && negb (otruthy soak.["short_mode"]) then
    let hours :=
      if otruthy (soak.["duration_hours"] ??? soak.["duration_sec"]) then
        vdiv (soak.["duration_sec"] ??? vn 0) (vn 3600)
      else vn 0 in
    let passOperational := soak.["pass_operational"] ??? vb false in
    let realFailures := soak.["real_failures"] in
    let artifacts := soak.["measurement_artifacts"] in
    let passProd :=
      is_true soak.["pass_laptop_proof"] ||
        (otruthy passOperational && vle (vn 70) hours &&
           (((realFailures ??? soak.["failures"]) ??? vn 0) === vn 0)) in
    let fpRate := reports.["fp"].["benign"].["fp_rate_pct"] in
    let? fpPct :=
      if present fpRate then if vlt fpRate (vn 1) then tpl [Fix 2 fpRate] else tpl [Fix 1 fpRate] else ret vnull in
    let? rssMb :=
      if otruthy soak.["max_rss_kb"] then
        tpl [Fix 0 (vdiv soak.["max_rss_kb"] (vn 1024)); Txt " MB"]
      else str "—" in
    let sampleN := soak.["samples"] ??? vn 0 in
    let failN := (realFailures ??? soak.["failures"]) ??? vn 0 in
    let artN := artifacts ??? vn 0 in
    push {| d_id := "soak-stability";
       d_status := if passProd then TPass else if otruthy passOperational then TWarn else TFail;
       d_title :=
         L locale
           (if present fpPct then
              tpl [Txt "72 saat VPS/VM soak + benign FP %"; Val fpPct]
            else str "72 saat VPS/VM soak — prod stabilite")
           (if present fpPct then
              tpl [Txt "72h VPS/VM soak + "; Val fpPct; Txt "% benign FP"]
            else str "72h VPS/VM soak — prod stability");
       d_purpose :=
         L locale
           (str "Servisler ~72 saat ayakta kaldı mı? (VM/VPS systemd soak — 864 örnek, 300s aralık.)")
           (str "Did services stay up for ~72h? (VM/VPS systemd soak — 864 samples, 300s interval.)");
       d_verdict :=
         if passProd then
           L locale
             (tpl [Fix 1 hours; Txt " saat soak geçti: "; Val sampleN; Txt " örnek, "; Val failN;
                   Txt " hata — servisler ayakta, max RSS "; Val rssMb;
                   Exp (if present fpPct then tpl [Txt ", benign FP %"; Val fpPct] else str ""); Txt "."])
             (tpl [Fix 1 hours; Txt "h soak passed: "; Val sampleN; Txt " samples, "; Val failN;
                   Txt " failures — services up, max RSS "; Val rssMb;
                   Exp (if present fpPct then tpl [Txt ", benign FP "; Val fpPct; Txt "%"] else str "");
                   Txt "."])
         else if otruthy passOperational then
           L locale
             (tpl [Fix 1 hours; Txt " saat operasyonel geçti ama 72h kanıt kapısı eksik (<70h)."])
             (tpl [Fix 1 hours; Txt "h operational pass but 72h proof gate incomplete (<70h)."])
         else
           L locale
             (tpl [Val failN; Txt " başarısız örnek — servis düşmüş olabilir."])
             (tpl [Val failN; Txt " failed samples — possible service outage."]);
       d_metrics :=
         [metric (L locale (str "Süre") (str "Duration")) (tpl [Fix 1 hours; Txt "h"]);
          metric (L locale (str "Örnek") (str "Samples")) (Str sampleN);
          metric (L locale (str "Hata") (str "Failures")) (Str failN);
          metric (L locale (str "Max RSS") (str "Max RSS")) (ret rssMb)] ++
         (if vlt (vn 0) artN then
            [metric (L locale (str "Ölçüm artefaktı") (str "Meas. artifacts")) (Str artN)]
          else []) ++
         (if present fpPct then
            [metric (L locale (str "Benign FP") (str "Benign FP")) (tpl [Val fpPct; Txt "%"])]
          else []) ++
         (if is_lit "vps-remote" reports.["soakSource"] then
            [metric
               (L locale (str "Kaynak") (str "Source"))
               (ret (reports.["vpsRemote"].["host"] ??? vs "VPS SSH"))] ++
            (if otruthy reports.["vpsRemote"].["xdp_mode"] then
               [metric (str "XDP") (ret reports.["vpsRemote"].["xdp_mode"])]
             else [])
          else if is_lit "laptop" reports.["soakSource"] then
            [metric (L locale (str "Kaynak") (str "Source")) (L locale (str "laptop") (str "laptop"))]
          else []);
       d_date := fmtDate (soak.["ended"] ??? soak.["started"]);
       d_script := str "scripts/soak_recompute_report.sh";
       d_badge := None |}
  else none.

Definition test_iso (locale : Locale) (reports : val) : res (list test) :=
  let iso := reports.["isolation"] in
  if otruthy iso then
    let pass := is_true iso.["pass"] in
    push {| d_id := "tenant-isolation";
       d_status := if pass then TPass else TFail;
       d_title :=
         L locale
           (str "Multi-tenant ortamda kiracı verilerinin birbirinden izole olduğunu kontrol ediyoruz")
           (str "We verify tenant data stays isolated in multi-tenant deployments");
       d_purpose :=
         L locale
           (str "Her müşterinin ban, audit ve FP verisinin ayrı tutulduğunu kanıtlar.")
           (str "Proves each customer's ban, audit, and FP data is kept separate.");
       d_verdict :=
         if pass then
           L locale
             (tpl [Txt "Kiracı «"; Val (iso.["tenant"].["id"] ??? vs "—"); Txt "»: "; Val iso.["checks_passed"];
                   Txt "/"; Val iso.["checks_total"]; Txt " izolasyon kontrolü geçti."])
             (tpl [Txt "Tenant «"; Val (iso.["tenant"].["id"] ??? vs "—"); Txt "»: "; Val iso.["checks_passed"];
                   Txt "/"; Val iso.["checks_total"]; Txt " isolation checks passed."])
         else
           L locale
             (tpl [Txt "İzolasyon eksik — "; Val iso.["checks_passed"]; Txt "/"; Val iso.["checks_total"];
                   Txt " kontrol geçti."])
             (tpl [Txt "Isolation gap — only "; Val iso.["checks_passed"]; Txt "/"; Val iso.["checks_total"];
                   Txt " checks passed."]);
       d_metrics :=
         [metric
            (L locale (str "Kontroller") (str "Checks"))
            (tpl [Val (iso.["checks_passed"] ??? vn 0); Txt "/"; Val (iso.["checks_total"] ??? vn 0)])];
       d_date := fmtDate iso.["generated_at"];
       d_script := str "scripts/tenant_isolation_test.sh";
       d_badge := None |}
  else none.

Definition test_bench (locale : Locale) (reports : val) : res (list test) :=
  let bench := reports.["bench"] in
  if otruthy bench then
    let gEps := bench.["log_guardian"].["eps"] ??? vn 0 in
    let mEps := bench.["modsecurity"].["eps"] ??? vn 0 in
    let gLat := bench.["log_guardian"].["latency_us_per_line"] ??? vn 0 in
    push {| d_id := "bench-eps";
       d_status := TPass;
       d_title :=
         L locale
           (str "Aynı log corpus üzerinde işleme hızını ölçülebilir şekilde karşılaştırıyoruz")
           (str "We compare processing speed on the same log corpus with measurable numbers");
       d_purpose :=
         L locale
           (str
              "Tek geçiş log→WAF mimarisinin throughput'unu şeffaf raporlar; CRS regex replay ile aynı satırlar.")
           (str "Transparent throughput report for log→WAF pipeline; same lines vs CRS regex replay.");
       d_verdict :=
         L locale
           (tpl [Txt "Guardian "; Val gEps; Txt " EPS (tek geçiş, "; Val (bench.["lines"] ??? vs "—");
                 Txt " satır); CRS replay "; Val mEps; Txt " EPS — farklı mimari, aynı corpus."])
           (tpl [Txt "Guardian "; Val gEps; Txt " EPS (single pass, "; Val (bench.["lines"] ??? vs "—");
                 Txt " lines); CRS replay "; Val mEps; Txt " EPS — different architecture, same corpus."]);
       d_metrics :=
         [metric (str "Guardian EPS") (Str gEps);
          metric (str "CRS replay EPS") (Str mEps);
          metric
            (L locale (str "Satır gecikmesi") (str "Per-line latency"))
            (tpl [Fix 2 (vdiv gLat (vn 1000)); Txt " ms"])];
       d_date := fmtDate bench.["date"];
       d_script := str "scripts/competitive_suite.sh";
       d_badge := None |}
  else none.

Definition test_ban (locale : Locale) (reports : val) : res (list test) :=
  let ban := reports.["ban"] in
  if otruthy ban && present ban.["ban_latency_ms"] then
    let ms := ban.["ban_latency_ms"] in
    let target := ban.["target_ms"] ??? vn 75 in
    let prodTarget := ban.["prod_target_ms"] ??? vn 50 in
    let pass := is_true ban.["pass"] || vle ms target in
    let prodOk := vle ms prodTarget in
    push {| d_id := "ban-latency";
       d_status := if pass then TPass else TFail;
       d_title :=
         L locale
           (str "Tehdit tespitinden kernel ban'a kadar geçen süreyi ölçüyoruz")
           (str "We measure time from threat detection to kernel ban");
       d_purpose :=
         L locale
           (str "Ban'ın saniyeler değil milisaniyeler içinde devreye girdiğini gösterir.")
           (str "Shows bans engage in milliseconds, not seconds.");
       d_verdict :=
         if pass then
           L locale
             (tpl [Txt "Medyan ban gecikmesi "; Fix 1 ms; Txt " ms — hedef <"; Val target; Txt " ms";
                   Val (if otruthy ban.["ipset_confirmed"] then vs ", ipset doğrulandı" else vs "");
                   Exp
                     (if prodOk then
                        str ""
                      else tpl [Txt " (prod hedef <"; Val prodTarget; Txt " ms — VPS'te ölçülecek)"]);
                   Txt "."])
             (tpl [Txt "Median ban latency "; Fix 1 ms; Txt " ms — under "; Val target; Txt " ms target";
                   Val (if otruthy ban.["ipset_confirmed"] then vs ", ipset confirmed" else vs "");
                   Exp
                     (if prodOk then
                        str ""
                      else tpl [Txt " (prod target <"; Val prodTarget; Txt " ms — measure on VPS)"]);
                   Txt "."])
         else
           L locale
             (tpl [Txt "Ban gecikmesi "; Fix 1 ms; Txt " ms — hedef <"; Val target; Txt " ms aşıldı."])
             (tpl [Txt "Ban latency "; Fix 1 ms; Txt " ms — exceeds "; Val target; Txt " ms target."]);
       d_metrics :=
         [metric (L locale (str "Medyan") (str "Median")) (tpl [Fix 1 ms; Txt " ms"])] ++
         (if present ban.["p90_ms"] then [metric (str "P90") (tpl [Fix 1 ban.["p90_ms"]; Txt " ms"])] else []);
       d_date := fmtDate ban.["date"];
       d_script := str "scripts/bench_ban_latency.sh";
       d_badge := None |}
  else if otruthy ban.["note"] then
    push {| d_id := "ban-latency";
       d_status := TPending;
       d_title :=
         L locale
           (str "Tehdit tespitinden kernel ban'a kadar geçen süreyi ölçüyoruz")
           (str "We measure time from threat detection to kernel ban");
       d_purpose :=
         L locale
           (str "Ban'ın saniyeler değil milisaniyeler içinde devreye girdiğini gösterir.")
           (str "Shows bans engage in milliseconds, not seconds.");
       d_verdict :=
         L locale
           (str "Henüz çalıştırılmadı — root ile bench script gerekli.")
           (str "Not run yet — bench script requires root.");
       d_metrics := [];
       d_date := None;
       d_script := str "scripts/bench_ban_latency.sh";
       d_badge := None |}
  else none.

Definition test_live (locale : Locale) (reports : val) : res (list test) :=
  let live := reports.["live"] in
  if otruthy live then
    let bp := live.["ban_pipeline"] in
    let ipcOk := is_lit "ok" live.["ipc"] || is_lit "connected" live.["ipc"] in
    let pass := ipcOk && ((bp.["failed"] ??? vn 0) === vn 0) in
    push {| d_id := "live-pipeline";
       d_status := if pass then TPass else if otruthy live then TFail else TPending;
       d_title :=
         L locale
           (str "Canlı ortamda ban hattının (IPC → XDP/ipset) çalıştığını doğruluyoruz")
           (str "We verify the live ban pipeline (IPC → XDP/ipset) is operational");
       d_purpose :=
         L locale
           (str "Log analizörü ile kernel katmanının gerçekten konuştuğunu kanıtlar.")
           (str "Proves log analyzer and kernel layer are actually connected.");
       d_verdict :=
         if pass then
           L locale
             (tpl [Txt "IPC "; Val (live.["ipc"] ??? vs "—"); Txt "; "; Val (bp.["ipc"] ??? vn 0);
                   Txt " IPC ban, "; Val (bp.["xdp"] ??? vn 0); Txt " XDP, "; Val (bp.["ipset"] ??? vn 0);
                   Txt " ipset — hata yok."])
             (tpl [Txt "IPC "; Val (live.["ipc"] ??? vs "—"); Txt "; "; Val (bp.["ipc"] ??? vn 0);
                   Txt " IPC bans, "; Val (bp.["xdp"] ??? vn 0); Txt " XDP, "; Val (bp.["ipset"] ??? vn 0);
                   Txt " ipset — no failures."])
         else
           L locale
             (tpl [Txt "Ban hattında sorun — IPC: "; Val (live.["ipc"] ??? vs "?"); Txt ", başarısız: ";
                   Val (bp.["failed"] ??? vs "?"); Txt "."])
             (tpl [Txt "Ban pipeline issue — IPC: "; Val (live.["ipc"] ??? vs "?"); Txt ", failed: ";
                   Val (bp.["failed"] ??? vs "?"); Txt "."]);
       d_metrics :=
         [metric
            (str "EPS")
            (if present live.["metrics"].["eps"] then Str live.["metrics"].["eps"] else str "—");
          metric (str "XDP") (ret (if otruthy live.["daemon"].["xdp_active"] then vs "ON" else vs "OFF"))];
       d_date := fmtDate live.["generated_at"];
       d_script := str "scripts/competitive_suite.sh";
       d_badge := None |}
  else none.

Definition test_whRoute (locale : Locale) (reports : val) : res (list test) :=
  let whRoute := reports.["webhookRoute"] in
  if otruthy whRoute then
    let pass := is_true whRoute.["pass"] in
    push {| d_id := "webhook-route-proof";
       d_status := if pass then TPass else TFail;
       d_title :=
         L locale
           (str "Telegram route + batch — #waf/#ban yönlendirme")
           (str "Telegram route + batch — #waf/#ban routing");
       d_purpose :=
         L locale
           (str "WARN→DM, CRIT/ban→kanal ve opsiyonel batch özetinin doğru hedefe gittiğini kanıtlar.")
           (str "Proves WARN→DM, CRIT/ban→channel and optional batch summary routing.");
       d_verdict :=
         if pass then
           L locale
             (tpl [Txt "Mod "; Val (whRoute.["mode"] ??? vs "—"); Txt "; route ";
                   Val (if otruthy whRoute.["route_enabled"] then vs "ON" else vs "OFF"); Txt ", batch ";
                   Val (whRoute.["batch_sec"] ??? vn 0); Txt "s";
                   Val (if otruthy whRoute.["prod_e2e"].["ok"] then vs " — prod E2E OK" else vs ""); Txt "."])
             (tpl [Txt "Mode "; Val (whRoute.["mode"] ??? vs "—"); Txt "; route ";
                   Val (if otruthy whRoute.["route_enabled"] then vs "ON" else vs "OFF"); Txt ", batch ";
                   Val (whRoute.["batch_sec"] ??? vn 0); Txt "s";
                   Val (if otruthy whRoute.["prod_e2e"].["ok"] then vs " — prod E2E OK" else vs ""); Txt "."])
         else
           L locale
             (ret (whRoute.["fail_reason"] ||| vs "bash scripts/webhook_route_proof.sh"))
             (ret (whRoute.["fail_reason"] ||| vs "bash scripts/webhook_route_proof.sh"));
       d_metrics :=
         [metric (str "mode") (ret (whRoute.["mode"] ??? vs "—"));
          metric (str "route") (ret (if otruthy whRoute.["route_enabled"] then vs "ON" else vs "OFF"));
          metric (str "batch") (Str (whRoute.["batch_sec"] ??? vn 0));
          metric
            (str "prod")
            (ret
               (if otruthy whRoute.["prod_e2e"].["skipped"] then
                  vs "skip"
                else if otruthy whRoute.["prod_e2e"].["ok"] then vs "OK" else vs "—"))];
       d_date := fmtDate whRoute.["date"];
       d_script := str "scripts/webhook_route_proof.sh";
       d_badge := None |}
  else none.

Definition test_tgLive (locale : Locale) (reports : val) : res (list test) :=
  let tgLive := reports.["webhookTelegramLive"] in
  if otruthy tgLive then
    let pass := is_true tgLive.["pass"] in
    push {| d_id := "webhook-telegram-live";
       d_status := if pass then TPass else TFail;
       d_title :=
         L locale
           (str "Telegram prod — canlı alert/ban/trap/batch")
           (str "Telegram prod — live alert/ban/trap/batch");
       d_purpose :=
         L locale
           (str "Gerçek bot token ile CRIT/WARN route + batch özetinin Telegram’a gittiğini kanıtlar.")
           (str "Proves real bot token delivers CRIT/WARN route + batch summary to Telegram.");
       d_verdict :=
         if pass then
           L locale
             (tpl [Txt "mod "; Val (tgLive.["mode"] ??? vs "prod"); Txt "; route ";
                   Val (if otruthy tgLive.["route"] then vs "ON" else vs "OFF"); Txt ", batch ";
                   Val (tgLive.["batch_sec"] ??? vn 0); Txt "s — ";
                   Exp (vjoin ", " (tgLive.["kinds"] ??? empty_arr)); Txt "."])
             (tpl [Txt "mode "; Val (tgLive.["mode"] ??? vs "prod"); Txt "; route ";
                   Val (if otruthy tgLive.["route"] then vs "ON" else vs "OFF"); Txt ", batch ";
                   Val (tgLive.["batch_sec"] ??? vn 0); Txt "s — ";
                   Exp (vjoin ", " (tgLive.["kinds"] ??? empty_arr)); Txt "."])
         else
           L locale
             (str "sudo bash scripts/webhook_install_prod.sh --test-all")
             (str "sudo bash scripts/webhook_install_prod.sh --test-all");
       d_metrics :=
         [metric (str "route") (ret (if otruthy tgLive.["route"] then vs "ON" else vs "OFF"));
          metric (str "batch") (Str (tgLive.["batch_sec"] ??? vn 0));
          metric
            (str "kinds")
            (if otruthy (vlength tgLive.["kinds"]) then vjoin "," tgLive.["kinds"] else str "—")];
       d_date := fmtDate tgLive.["date"];
       d_script := str "scripts/webhook_install_prod.sh --test-all";
       d_badge := None |}
  else none.

Definition test_tgAck (locale : Locale) (reports : val) : res (list test) :=
  let tgAck := reports.["webhookTelegramAckLive"] in
  if otruthy tgAck then
    let pass := is_true tgAck.["pass"] in
    push {| d_id := "webhook-telegram-ack-live";
       d_status := if pass then TPass else TFail;
       d_title :=
         L locale (str "Telegram Gördüm — DB ack sayacı (24h)") (str "Telegram Ack — DB counter (24h)");
       d_purpose :=
         L locale
           (str
              "Inline Gördüm onayının events.db telegram_acks tablosuna yazıldığını ve guardian-status/metrics sayacını artırdığını kanıtlar.")
           (str
              "Proves inline Ack writes to events.db telegram_acks and bumps guardian-status/metrics counters.");
       d_verdict :=
         if pass then
           L locale
             (tpl [Txt "ack "; Val (tgAck.["ack_before"] ??? vn 0); Txt "→"; Val (tgAck.["ack_after"] ??? vn 0);
                   Txt "; unacked "; Val (tgAck.["unacked_before"] ??? vn 0); Txt "→";
                   Val (tgAck.["unacked_after"] ??? vn 0); Txt " (key ";
                   Val ((tgAck.["ack_key"] ??? tgAck.["test_ip"]) ??? vs "—"); Txt ")."])
             (tpl [Txt "ack "; Val (tgAck.["ack_before"] ??? vn 0); Txt "→"; Val (tgAck.["ack_after"] ??? vn 0);
                   Txt "; unacked "; Val (tgAck.["unacked_before"] ??? vn 0); Txt "→";
                   Val (tgAck.["unacked_after"] ??? vn 0); Txt " (key ";
                   Val ((tgAck.["ack_key"] ??? tgAck.["test_ip"]) ??? vs "—"); Txt ")."])
         else
           L locale
             (ret (tgAck.["fail_reason"] ??? vs "bash scripts/webhook_ack_e2e.sh"))
             (ret (tgAck.["fail_reason"] ??? vs "bash scripts/webhook_ack_e2e.sh"));
       d_metrics :=
         [metric
            (str "ack")
            (tpl [Val (tgAck.["ack_before"] ??? vn 0); Txt "→"; Val (tgAck.["ack_after"] ??? vn 0)]);
          metric
            (str "unacked")
            (tpl [Val (tgAck.["unacked_before"] ??? vn 0); Txt "→"; Val (tgAck.["unacked_after"] ??? vn 0)]);
          metric
            (str "prom")
            (if present tgAck.["metrics_ack_24h"] then Str tgAck.["metrics_ack_24h"] else str "—")];
       d_date := fmtDate tgAck.["date"];
       d_script := str "scripts/webhook_ack_e2e.sh";
       d_badge := None |}
  else none.

Definition test_tgUndo (locale : Locale) (reports : val) : res (list test) :=
  let tgUndo := reports.["telegramOperatorUndoE2e"] in
  if otruthy tgUndo then
    let pass := is_true tgUndo.["pass"] in
    push {| d_id := "telegram-operator-undo-e2e";
       d_status := if pass then TPass else TFail;
       d_title :=
         L locale
           (str "Telegram operatör undo — SIGUSR2 (WL/Sessiz)")
           (str "Telegram operator undo — SIGUSR2 (WL/mute)");
       d_purpose :=
         L locale
           (str
              "WL / Sessiz / Unban yanlış tıklamalarını poll kesmeden geri alır; journal [TELEGRAM_UNDO] kanıtı.")
           (str "Reverts mistaken WL / mute / unban without interrupting poll; journal [TELEGRAM_UNDO] proof.");
       d_verdict :=
         if pass then
           L locale
             (tpl [Txt "SIGUSR2 · "; Val (tgUndo.["mode"] ??? vs "sigusr2"); Txt " · IP ";
                   Val (tgUndo.["ip"] ??? vs "—"); Txt "."])
             (tpl [Txt "SIGUSR2 · "; Val (tgUndo.["mode"] ??? vs "sigusr2"); Txt " · IP ";
                   Val (tgUndo.["ip"] ??? vs "—"); Txt "."])
         else
           L locale
             (ret (tgUndo.["fail_reason"] ??? vs "bash scripts/telegram_operator_undo_e2e.sh"))
             (ret (tgUndo.["fail_reason"] ??? vs "bash scripts/telegram_operator_undo_e2e.sh"));
       d_metrics :=
         [metric (str "mode") (ret (tgUndo.["mode"] ??? vs "—"));
          metric (str "ip") (ret (tgUndo.["ip"] ??? vs "—"));
          metric (str "pass") (ret (if pass then vs "OK" else vs "FAIL"))];
       d_date := fmtDate tgUndo.["date"];
       d_script := str "scripts/telegram_operator_undo_e2e.sh";
       d_badge := None |}
  else none.

Definition test_tgSoc (locale : Locale) (reports : val) : res (list test) :=
  let tgSoc := reports.["telegramSocGate"] in
  if otruthy tgSoc then
    let pass := is_true tgSoc.["pass"] in
    push {| d_id := "telegram-soc-gate";
       d_status := if pass then TPass else TFail;
       d_title :=
         L locale
           (str "Telegram SOC — timeline + harita + webhook")
           (str "Telegram SOC — timeline + map + webhook");
       d_purpose :=
         L locale
           (str
              "Üç operatör yüzeyinin aynı anda canlı kanıt ürettiğini doğrular: SOC timeline, attack map, Webhook panel.")
           (str
              "Proves three operator surfaces emit live evidence together: SOC timeline, attack map, webhook panel.");
       d_verdict :=
         if pass then
           L locale
             (tpl [Txt "SOC "; Val (tgSoc.["soc_entries"] ??? vn 0); Txt " (ack ";
                   Val (tgSoc.["soc_ack"] ??? vn 0); Txt ") · harita "; Val (tgSoc.["map_markers"] ??? vn 0);
                   Txt " · bans ack "; Val (tgSoc.["bans_acks"] ??? vn 0); Txt " · webhook ";
                   Val (if otruthy tgSoc.["prod_e2e_ok"] then vs "prod" else vs "");
                   Val (if otruthy tgSoc.["undo_e2e_ok"] then vs " undo" else vs ""); Txt "."])
             (tpl [Txt "SOC "; Val (tgSoc.["soc_entries"] ??? vn 0); Txt " (ack ";
                   Val (tgSoc.["soc_ack"] ??? vn 0); Txt ") · map "; Val (tgSoc.["map_markers"] ??? vn 0);
                   Txt " · bans ack "; Val (tgSoc.["bans_acks"] ??? vn 0); Txt " · webhook ";
                   Val (if otruthy tgSoc.["prod_e2e_ok"] then vs "prod" else vs "");
                   Val (if otruthy tgSoc.["undo_e2e_ok"] then vs " undo" else vs ""); Txt "."])
         else
           L locale
             (ret (tgSoc.["fail_reason"] ??? vs "bash scripts/telegram_soc_gate.sh"))
             (ret (tgSoc.["fail_reason"] ??? vs "bash scripts/telegram_soc_gate.sh"));
       d_metrics :=
         [metric (str "soc") (Str (tgSoc.["soc_entries"] ??? vn 0));
          metric (str "map") (Str (tgSoc.["map_markers"] ??? vn 0));
          metric (str "bans") (Str (tgSoc.["bans_acks"] ??? vn 0));
          metric
            (str "webhook")
            (ret (if otruthy tgSoc.["prod_e2e_ok"] || otruthy tgSoc.["undo_e2e_ok"] then vs "OK" else vs "—"))];
       d_date := fmtDate tgSoc.["date"];
       d_script := str "scripts/telegram_soc_gate.sh";
       d_badge := None |}
  else none.

Definition test_bansTg (locale : Locale) (reports : val) : res (list test) :=
  let bansTg := reports.["bansTelegramOps"] in
  if otruthy bansTg then
    let pass := is_true bansTg.["pass"] in
    push {| d_id := "bans-telegram-ops";
       d_status := if pass then TPass else TFail;
       d_title :=
         L locale
           (str "Bans + Telegram ack — operatör paneli API")
           (str "Bans + Telegram ack — operator panel API");
       d_purpose :=
         L locale
           (str "/api/telegram-acks ve /bans?search= ile operatör panelinin canlı veri aldığını kanıtlar.")
           (str "Proves operator panel gets live data via /api/telegram-acks and /bans?search=.");
       d_verdict :=
         if pass then
           L locale
             (tpl [Txt "IP "; Val (bansTg.["test_ip"] ??? vs "—"); Txt " · ack ";
                   Val (if otruthy bansTg.["test_ip_ack"] then vs "evet" else vs "hayır");
                   Exp
                     (if otruthy bansTg.["test_ip_operator"] then
                        tpl [Txt " ("; Val bansTg.["test_ip_operator"]; Txt ")"]
                      else str "");
                   Txt " · ban arama "; Val (if otruthy bansTg.["test_ip_banned"] then vs "hit" else vs "yok");
                   Txt "."])
             (tpl [Txt "IP "; Val (bansTg.["test_ip"] ??? vs "—"); Txt " · ack ";
                   Val (if otruthy bansTg.["test_ip_ack"] then vs "yes" else vs "no");
                   Exp
                     (if otruthy bansTg.["test_ip_operator"] then
                        tpl [Txt " ("; Val bansTg.["test_ip_operator"]; Txt ")"]
                      else str "");
                   Txt " · ban search ";
                   Val (if otruthy bansTg.["test_ip_banned"] then vs "hit" else vs "miss"); Txt "."])
         else
           L locale
             (ret (bansTg.["fail_reason"] ??? vs "bash scripts/bans_telegram_ops_e2e.sh"))
             (ret (bansTg.["fail_reason"] ??? vs "bash scripts/bans_telegram_ops_e2e.sh"));
       d_metrics :=
         [metric (str "acks") (Str (bansTg.["acks_count"] ??? vn 0));
          metric (str "ban") (ret (if otruthy bansTg.["test_ip_banned"] then vs "hit" else vs "—"));
          metric (str "operator") (ret (bansTg.["test_ip_operator"] ??? vs "—"))];
       d_date := fmtDate bansTg.["date"];
       d_script := str "scripts/bans_telegram_ops_e2e.sh";
       d_badge := None |}
  else none.

Definition test_edgeGate (locale : Locale) (reports : val) : res (list test) :=
  let edgeGate := reports.["edgeProtectionGate"] in
  if otruthy edgeGate then
    let pass := is_true edgeGate.["pass"] in
    let nginxOk := edgeGate.["nginx_log_format"] ||| edgeGate.["nginx_snippets"] in
    push {| d_id := "edge-protection-gate";
       d_status := if pass then TPass else TFail;
       d_title :=
         L locale
           (str "Edge koruma — nginx + XDP/ipset + threat intel")
           (str "Edge protection — nginx + XDP/ipset + threat intel");
       d_purpose :=
         L locale
           (str "CDN öncesi origin katmanı: nginx log formatı, ipset/XDP ban yolu ve threat-intel özet DB.")
           (str "Pre-CDN origin layer: nginx log format, ipset/XDP ban path, and threat-intel summary DB.");
       d_verdict :=
         if pass then
           L locale
             (tpl [Txt "IPC "; Val (edgeGate.["ipc"] ??? vs "—"); Txt " · ";
                   Val (edgeGate.["xdp_mode"] ??? vs "—"); Txt " · nginx ";
                   Val (if otruthy nginxOk then vs "OK" else vs "—"); Txt " · ipset ";
                   Val (edgeGate.["ipset_entries"] ??? vn 0); Txt " · WL ";
                   Val (edgeGate.["whitelist_count"] ??? vn 0); Txt "."])
             (tpl [Txt "IPC "; Val (edgeGate.["ipc"] ??? vs "—"); Txt " · ";
                   Val (edgeGate.["xdp_mode"] ??? vs "—"); Txt " · nginx ";
                   Val (if otruthy nginxOk then vs "OK" else vs "—"); Txt " · ipset ";
                   Val (edgeGate.["ipset_entries"] ??? vn 0); Txt " · WL ";
                   Val (edgeGate.["whitelist_count"] ??? vn 0); Txt "."])
         else
           L locale
             (ret (edgeGate.["fail_reason"] ??? vs "bash scripts/edge_protection_gate.sh"))
             (ret (edgeGate.["fail_reason"] ??? vs "bash scripts/edge_protection_gate.sh"));
       d_metrics :=
         [metric (str "ipc") (ret (edgeGate.["ipc"] ??? vs "—"));
          metric (str "xdp") (ret (edgeGate.["xdp_mode"] ??? vs "—"));
          metric (str "ipset") (Str (edgeGate.["ipset_entries"] ??? vn 0))];
       d_date := fmtDate edgeGate.["date"];
       d_script := str "scripts/edge_protection_gate.sh";
       d_badge := None |}
  else none.

Definition test_intelDb (locale : Locale) (reports : val) : res (list test) :=
  let intelDb := reports.["intelBanDb"] in
  if otruthy intelDb then
    let pass := is_true intelDb.["pass"] in
    let legacy := intelDb.["intel_legacy_rows"] ??? vn 0 in
    let total := intelDb.["ban_events_total"] ??? vn 0 in
    let ttl := intelDb.["intel_ban_db_ttl_days"] ??? vn 7 in
    push {| d_id := "intel-ban-db";
       d_status := if pass then TPass else TWarn;
       d_title :=
         L locale (str "INTEL_BAN_DB — ban_events boyut + TTL") (str "INTEL_BAN_DB — ban_events size + TTL");
       d_purpose :=
         L locale
           (str "SQLite ban_events şişme kontrolü — ban mantığına dokunmaz; Grafana lg-ban-db-size.")
           (str "SQLite ban_events bloat check — does not change ban logic; Grafana lg-ban-db-size.");
       d_verdict :=
         if pass then
           L locale
             (tpl [Txt "ban_events "; Val total; Txt "; legacy "; Val legacy; Txt "; stale ";
                   Val (intelDb.["stale_rows"] ??? vn 0); Txt "; TTL "; Val ttl; Txt "g."])
             (tpl [Txt "ban_events "; Val total; Txt "; legacy "; Val legacy; Txt "; stale ";
                   Val (intelDb.["stale_rows"] ??? vn 0); Txt "; TTL "; Val ttl; Txt "d."])
         else
           L locale
             (vjoin "; " (intelDb.["notes"] ??? varr [intelDb.["fail_reason"] ??? vs "intel_ban_db"]))
             (vjoin "; " (intelDb.["notes"] ??? varr [intelDb.["fail_reason"] ??? vs "intel_ban_db"]));
       d_metrics :=
         [metric (str "rows") (Str total);
          metric (str "legacy") (Str legacy);
          metric (str "TTL") (tpl [Val ttl; Txt "d"])];
       d_date := fmtDate intelDb.["date"];
       d_script := str "scripts/intel_ban_db_ops_check.sh";
       d_badge := None |}
  else none.

Definition test_grafanaParity (locale : Locale) (reports : val) : res (list test) :=
  let grafanaParity := reports.["grafanaParityGate"] in
  if otruthy grafanaParity then
    let pass := is_true grafanaParity.["pass"] in
    push {| d_id := "grafana-parity-gate";
       d_status := if pass then TPass else TFail;
       d_title :=
         L locale
           (str "Grafana parity — dashboard mini panel ↔ JSON")
           (str "Grafana parity — dashboard mini panels ↔ JSON");
       d_purpose :=
         L locale
           (str "grafanaPanels.ts metrikleri grafana-dashboard.json ile aynı kümede mi doğrular.")
           (str "Verifies grafanaPanels.ts metrics match grafana-dashboard.json.");
       d_verdict :=
         if pass then
           L locale
             (tpl [Txt "Panel "; Val (grafanaParity.["panel_metrics"] ??? vn 0); Txt " · dashboard ";
                   Val (grafanaParity.["dashboard_metrics"] ??? vn 0); Txt " metrik eşleşti."])
             (tpl [Txt "Panel "; Val (grafanaParity.["panel_metrics"] ??? vn 0); Txt " · dashboard ";
                   Val (grafanaParity.["dashboard_metrics"] ??? vn 0); Txt " metrics matched."])
         else
           L locale
             (ret (grafanaParity.["fail_reason"] ??? vs "bash scripts/grafana_parity_gate.sh"))
             (ret (grafanaParity.["fail_reason"] ??? vs "bash scripts/grafana_parity_gate.sh"));
       d_metrics :=
         [metric (str "panel") (Str (grafanaParity.["panel_metrics"] ??? vn 0));
          metric (str "dash") (Str (grafanaParity.["dashboard_metrics"] ??? vn 0))];
       d_date := fmtDate grafanaParity.["date"];
       d_script := str "scripts/grafana_parity_gate.sh";
       d_badge := None |}
  else none.

Definition test_webPreview (locale : Locale) (reports : val) : res (list test) :=
  let webPreview := reports.["websitePreviewGate"] in
  if otruthy webPreview then
    let pass := is_true webPreview.["pass"] in
    push {| d_id := "website-preview-gate";
       d_status := if pass then TPass else TFail;
       d_title :=
         L locale (str "Site preview — landing test parity") (str "Site preview — landing test parity");
       d_purpose :=
         L locale
           (str "landing/lib/tests.ts ile competitive-proof parity (yerel test-kart) doğrular.")
           (str "Verifies landing/lib/tests.ts parity with competitive-proof (local test cards).");
       d_verdict :=
         if pass then
           L locale
             (tpl [Txt "Site ";
                   Val
                     (if webPreview.["site_fail"] === vn 0 then
                        webPreview.["site_tests"] ??? vn 0
                      else webPreview.["site_pass"] ??? vn 0);
                   Txt "/"; Val (webPreview.["expected_tests"] ??? vn 0); Txt " parity · grafana ";
                   Val (if otruthy webPreview.["has_grafana_parity"] then vs "evet" else vs "hayır");
                   Txt " · edge "; Val (if otruthy webPreview.["has_edge_gate"] then vs "evet" else vs "hayır");
                   Txt "."])
             (tpl [Txt "Site ";
                   Val
                     (if webPreview.["site_fail"] === vn 0 then
                        webPreview.["site_tests"] ??? vn 0
                      else webPreview.["site_pass"] ??? vn 0);
                   Txt "/"; Val (webPreview.["expected_tests"] ??? vn 0); Txt " parity · grafana ";
                   Val (if otruthy webPreview.["has_grafana_parity"] then vs "yes" else vs "no");
                   Txt " · edge "; Val (if otruthy webPreview.["has_edge_gate"] then vs "yes" else vs "no");
                   Txt "."])
         else
           L locale
             (ret (webPreview.["fail_reason"] ??? vs "bash scripts/website_preview_gate.sh"))
             (ret (webPreview.["fail_reason"] ??? vs "bash scripts/website_preview_gate.sh"));
       d_metrics :=
         [metric (str "site") (Str (webPreview.["site_tests"] ??? vn 0));
          metric (str "proof") (Str (webPreview.["expected_tests"] ??? vn 0))];
       d_date := fmtDate webPreview.["date"];
       d_script := str "scripts/website_preview_gate.sh";
       d_badge := None |}
  else none.

Definition test_escGate (locale : Locale) (reports : val) : res (list test) :=
  let escGate := reports.["enterpriseEscalationGate"] in
  if otruthy escGate then
    let pass := is_true escGate.["pass"] in
    push {| d_id := "enterprise-escalation-gate";
       d_status := if pass then TPass else TFail;
       d_title :=
         L locale
           (str "Enterprise escalation — operatör playbook")
           (str "Enterprise escalation — operator playbook");
       d_purpose :=
         L locale
           (str "P1–P4 runbook + Telegram/edge operatör kapılarının canlı geçtiğini doğrular.")
           (str "Verifies P1–P4 runbook and live Telegram/edge operator gates.");
       d_verdict :=
         if pass then
           L locale
             (tpl [Txt "Dok "; Val (escGate.["doc_sections"] ??? vn 0); Txt " bölüm · canlı kapı ";
                   Val (escGate.["live_gates_ok"] ??? vn 0); Txt "/";
                   Val (escGate.["live_gates_total"] ??? vn 0); Txt "."])
             (tpl [Txt "Doc "; Val (escGate.["doc_sections"] ??? vn 0); Txt " sections · live gates ";
                   Val (escGate.["live_gates_ok"] ??? vn 0); Txt "/";
                   Val (escGate.["live_gates_total"] ??? vn 0); Txt "."])
         else
           L locale
             (ret (escGate.["fail_reason"] ??? vs "bash scripts/enterprise_escalation_gate.sh"))
             (ret (escGate.["fail_reason"] ??? vs "bash scripts/enterprise_escalation_gate.sh"));
       d_metrics :=
         [metric (str "doc") (Str (escGate.["doc_sections"] ??? vn 0));
          metric
            (str "gates")
            (tpl [Val (escGate.["live_gates_ok"] ??? vn 0); Txt "/";
                  Val (escGate.["live_gates_total"] ??? vn 0)])];
       d_date := fmtDate escGate.["date"];
       d_script := str "scripts/enterprise_escalation_gate.sh";
       d_badge := None |}
  else none.

Definition test_vmPrep (locale : Locale) (reports : val) : res (list test) :=
  let vmPrep := reports.["vmHostPrepGate"] in
  if otruthy vmPrep then
    let pass := is_true vmPrep.["pass"] in
    push {| d_id := "vm-host-prep-gate";
       d_status := if pass then TPass else TFail;
       d_title := L locale (str "VM host prep — sync öncesi kanıt") (str "VM host prep — pre-sync evidence");
       d_purpose :=
         L locale
           (str "Laptop HOST'ta vm_sync öncesi post_install + 64 test kanıtını doğrular.")
           (str "Verifies post_install + 64-test proof on laptop HOST before vm_sync.");
       d_verdict :=
         if pass then
           L locale
             (tpl [Txt "ctx "; Val (vmPrep.["context"] ??? vs "—"); Txt " · proof ";
                   Val (vmPrep.["proof_pass"] ??? vn 0); Txt "/"; Val (vmPrep.["proof_tests"] ??? vn 0);
                   Txt " · post_install FAIL="; Val (vmPrep.["post_install_fail"] ??? vn 0); Txt "."])
             (tpl [Txt "ctx "; Val (vmPrep.["context"] ??? vs "—"); Txt " · proof ";
                   Val (vmPrep.["proof_pass"] ??? vn 0); Txt "/"; Val (vmPrep.["proof_tests"] ??? vn 0);
                   Txt " · post_install FAIL="; Val (vmPrep.["post_install_fail"] ??? vn 0); Txt "."])
         else
           L locale
             (ret (vmPrep.["fail_reason"] ??? vs "bash scripts/vm_host_prep_gate.sh"))
             (ret (vmPrep.["fail_reason"] ??? vs "bash scripts/vm_host_prep_gate.sh"));
       d_metrics :=
         [metric
            (str "proof")
            (tpl [Val (vmPrep.["proof_pass"] ??? vn 0); Txt "/"; Val (vmPrep.["proof_tests"] ??? vn 0)]);
          metric (str "ctx") (ret (vmPrep.["context"] ??? vs "—"))];
       d_date := fmtDate vmPrep.["date"];
       d_script := str "scripts/vm_host_prep_gate.sh";
       d_badge := None |}
  else none.

Definition test_docsCons (locale : Locale) (reports : val) : res (list test) :=
  let docsCons := reports.["docsConsistencyGate"] in
  if otruthy docsCons then
    let pass := is_true docsCons.["pass"] in
    push {| d_id := "docs-consistency-gate";
       d_status := if pass then TPass else TFail;
       d_title :=
         L locale
           (str "Docs consistency — 64 test + HOSTING §8b")
           (str "Docs consistency — 64 test + HOSTING §8b");
       d_purpose :=
         L locale
           (str "Doküman vitrin tutarlılığı: 64 test sayısı, Telegram cross-link, script matrisi.")
           (str "Doc vitrine consistency: 64-test count, Telegram cross-link, script matrix.");
       d_verdict :=
         if pass then
           L locale
             (tpl [Txt "checks OK="; Val (docsCons.["checks_ok"] ??? vn 0); Txt " · proof ";
                   Val (docsCons.["proof_pass"] ??? vn 0); Txt "/"; Val (docsCons.["proof_tests"] ??? vn 0);
                   Txt " · §8b="; Val (if otruthy docsCons.["hosting_8b"] then vs "evet" else vs "hayır");
                   Txt "."])
             (tpl [Txt "checks OK="; Val (docsCons.["checks_ok"] ??? vn 0); Txt " · proof ";
                   Val (docsCons.["proof_pass"] ??? vn 0); Txt "/"; Val (docsCons.["proof_tests"] ??? vn 0);
                   Txt " · §8b="; Val (if otruthy docsCons.["hosting_8b"] then vs "yes" else vs "no"); Txt "."])
         else
           L locale
             (ret (docsCons.["fail_reason"] ??? vs "bash scripts/docs_consistency_gate.sh"))
             (ret (docsCons.["fail_reason"] ??? vs "bash scripts/docs_consistency_gate.sh"));
       d_metrics :=
         [metric (str "checks") (Str (docsCons.["checks_ok"] ??? vn 0));
          metric
            (str "proof")
            (tpl [Val (docsCons.["proof_pass"] ??? vn 0); Txt "/"; Val (docsCons.["proof_tests"] ??? vn 0)])];
       d_date := fmtDate docsCons.["date"];
       d_script := str "scripts/docs_consistency_gate.sh";
       d_badge := None |}
  else none.

Definition test_vmFleet (locale : Locale) (reports : val) : res (list test) :=
  let vmFleet := reports.["vmFleetGate"] in
  if otruthy vmFleet then
    let skipped := is_true vmFleet.["skipped"] in
    let pass := is_true vmFleet.["pass"] || skipped in
    let vmLabel := if skipped then vs "skip" else vmFleet.["vm_status"] ??? vs "—" in
    push {| d_id := "vm-fleet-gate";
       d_status := if pass then TPass else TFail;
       d_title :=
         L locale (str "VM fleet keepalive — host + node-vm-02") (str "VM fleet keepalive — host + node-vm-02");
       d_purpose :=
         L locale
           (str "LAPTOP_OPS filo dokümantasyonu ve iki düğümün /fleet üzerinde Online olduğunu doğrular.")
           (str "Verifies LAPTOP_OPS fleet docs and both nodes Online on /fleet.");
       d_verdict :=
         if pass then
           L locale
             (if skipped then
                tpl [Txt "Rutin laptop (SKIP_FLEET) — "; Val (vmFleet.["host_agent"] ??? vs "host"); Txt "=";
                     Val (vmFleet.["host_status"] ??? vs "—"); Txt " · tam filo: WITH_FLEET=1."]
              else
                tpl [Val (vmFleet.["host_agent"] ??? vs "host"); Txt "=";
                     Val (vmFleet.["host_status"] ??? vs "—"); Txt " · ";
                     Val (vmFleet.["vm_agent"] ??? vs "vm"); Txt "="; Val (vmFleet.["vm_status"] ??? vs "—");
                     Txt " · online="; Val (vmFleet.["online_count"] ??? vn 0); Txt "."])
             (if skipped then
                tpl [Txt "Laptop routine (SKIP_FLEET) — "; Val (vmFleet.["host_agent"] ??? vs "host"); Txt "=";
                     Val (vmFleet.["host_status"] ??? vs "—"); Txt " · full fleet: WITH_FLEET=1."]
              else
                tpl [Val (vmFleet.["host_agent"] ??? vs "host"); Txt "=";
                     Val (vmFleet.["host_status"] ??? vs "—"); Txt " · ";
                     Val (vmFleet.["vm_agent"] ??? vs "vm"); Txt "="; Val (vmFleet.["vm_status"] ??? vs "—");
                     Txt " · online="; Val (vmFleet.["online_count"] ??? vn 0); Txt "."])
         else
           L locale
             (ret (vmFleet.["fail_reason"] ??? vs "bash scripts/vm_fleet_gate.sh"))
             (ret (vmFleet.["fail_reason"] ??? vs "bash scripts/vm_fleet_gate.sh"));
       d_metrics :=
         [metric (str "host") (ret (vmFleet.["host_status"] ??? vs "—")); metric (str "vm") (ret vmLabel)];
       d_date := fmtDate vmFleet.["date"];
       d_script := str "scripts/vm_fleet_gate.sh";
       d_badge := None |}
  else none.

Definition test_laptopExc (locale : Locale) (reports : val) : res (list test) :=
  let laptopExc := reports.["laptopExcellenceGate"] in
  if otruthy laptopExc then
    let pass := is_true laptopExc.["pass"] in
    push {| d_id := "laptop-excellence-gate";
       d_status := if pass then TPass else TFail;
       d_title :=
         L locale
           (str "Laptop excellence — demo hazırlık kapısı")
           (str "Laptop excellence — demo readiness gate");
       d_purpose :=
         L locale
           (str "Servis, :8443, filo, kanıt zincirini tek kapıda özetler (VPS gerekmez).")
           (str "Summarizes services, :8443, fleet, and proof chain in one gate (no VPS).");
       d_verdict :=
         if pass then
           L locale
             (tpl [Txt "OK="; Val (laptopExc.["ok"] ??? vn 0); Txt " WARN="; Val (laptopExc.["warn"] ??? vn 0);
                   Txt " · proof "; Val (laptopExc.["proof_pass"] ??? vn 0); Txt "/";
                   Val (laptopExc.["proof_tests"] ??? vn 0); Txt "."])
             (tpl [Txt "OK="; Val (laptopExc.["ok"] ??? vn 0); Txt " WARN="; Val (laptopExc.["warn"] ??? vn 0);
                   Txt " · proof "; Val (laptopExc.["proof_pass"] ??? vn 0); Txt "/";
                   Val (laptopExc.["proof_tests"] ??? vn 0); Txt "."])
         else
           L locale
             (tpl [Txt "FAIL="; Val (laptopExc.["fail"] ??? vn 0);
                   Txt " — bash scripts/laptop_excellence_gate.sh"])
             (tpl [Txt "FAIL="; Val (laptopExc.["fail"] ??? vn 0);
                   Txt " — bash scripts/laptop_excellence_gate.sh"]);
       d_metrics :=
         [metric (str "OK") (Str (laptopExc.["ok"] ??? vn 0));
          metric (str "FAIL") (Str (laptopExc.["fail"] ??? vn 0))];
       d_date := fmtDate laptopExc.["date"];
       d_script := str "scripts/laptop_excellence_gate.sh";
       d_badge := None |}
  else none.

Definition test_liveSite (locale : Locale) (reports : val) : res (list test) :=
  let liveSite := reports.["websiteLiveGate"] in
  if otruthy liveSite then
    let pass := is_true liveSite.["pass"] in
    push {| d_id := "website-live-gate";
       d_status := if pass then TPass else TFail;
       d_title :=
         L locale
           (str "Website live — canlı site /tests parity")
           (str "Website live — production /tests parity");
       d_purpose :=
         L locale
           (str "ceniklinuxlogguardian.org üzerinde SRI + test kart sayısı competitive-proof ile uyumlu mu.")
           (str "Production domain SRI + test card count matches competitive-proof.");
       d_verdict :=
         if pass then
           L locale
             (tpl [Val (liveSite.["domain"] ??? vs "—"); Txt " · "; Val (liveSite.["live_cards"] ??? vn 0);
                   Txt "/"; Val (liveSite.["expected_tests"] ??? vn 0); Txt " kart · CSS=";
                   Val (if otruthy liveSite.["css_ok"] then vs "evet" else vs "hayır"); Txt "."])
             (tpl [Val (liveSite.["domain"] ??? vs "—"); Txt " · "; Val (liveSite.["live_cards"] ??? vn 0);
                   Txt "/"; Val (liveSite.["expected_tests"] ??? vn 0); Txt " cards · CSS=";
                   Val (if otruthy liveSite.["css_ok"] then vs "yes" else vs "no"); Txt "."])
         else
           L locale
             (ret (liveSite.["fail_reason"] ??? vs "bash scripts/website_live_gate.sh"))
             (ret (liveSite.["fail_reason"] ??? vs "bash scripts/website_live_gate.sh"));
       d_metrics :=
         [metric
            (str "live")
            (tpl [Val (liveSite.["live_cards"] ??? vn 0); Txt "/"; Val (liveSite.["expected_tests"] ??? vn 0)]);
          metric (str "domain") (vslice 20 (liveSite.["domain"] ??? vs "—"))];
       d_date := fmtDate liveSite.["date"];
       d_script := str "scripts/website_live_gate.sh";
       d_badge := None |}
  else none.

Definition test_releaseReady (locale : Locale) (reports : val) : res (list test) :=
  let releaseReady := reports.["releaseReadyGate"] in
  if otruthy releaseReady then
    let pass := is_true releaseReady.["pass"] in
    let arts := releaseReady.["artifacts"] in
    let artOk := vand (vand arts.["competitive_proof_pdf"] arts.["data_room_zip"]) arts.["release_pack_zip"] in
    push {| d_id := "release-ready-gate";
       d_status := if pass then TPass else TFail;
       d_title :=
         L locale
           (str "Release ready — GitHub öncesi zincir kapısı")
           (str "Release ready — pre-GitHub release chain gate");
       d_purpose :=
         L locale
           (str "ZIP/PDF artefakt, docs tutarlılığı, canlı site ve filo — tek kapıda.")
           (str "ZIP/PDF artifacts, docs consistency, live site and fleet — one gate.");
       d_verdict :=
         if pass then
           L locale
             (tpl [Txt "release=";
                   Val (if otruthy releaseReady.["release_ready_ok"] then vs "evet" else vs "hayır");
                   Txt " · docs=";
                   Val (if otruthy releaseReady.["docs_consistency_ok"] then vs "evet" else vs "hayır");
                   Txt " · proof "; Val (releaseReady.["proof_pass"] ??? vn 0); Txt "/";
                   Val (releaseReady.["proof_tests"] ??? vn 0); Txt "."])
             (tpl [Txt "release=";
                   Val (if otruthy releaseReady.["release_ready_ok"] then vs "yes" else vs "no");
                   Txt " · docs=";
                   Val (if otruthy releaseReady.["docs_consistency_ok"] then vs "yes" else vs "no");
                   Txt " · proof "; Val (releaseReady.["proof_pass"] ??? vn 0); Txt "/";
                   Val (releaseReady.["proof_tests"] ??? vn 0); Txt "."])
         else
           L locale
             (ret (releaseReady.["fail_reason"] ??? vs "bash scripts/release_ready_gate.sh"))
             (ret (releaseReady.["fail_reason"] ??? vs "bash scripts/release_ready_gate.sh"));
       d_metrics :=
         [metric (str "artefakt") (ret (if otruthy artOk then vs "3/3" else vs "eksik"));
          metric
            (str "proof")
            (tpl [Val (releaseReady.["proof_pass"] ??? vn 0); Txt "/";
                  Val (releaseReady.["proof_tests"] ??? vn 0)])];
       d_date := fmtDate releaseReady.["date"];
       d_script := str "scripts/release_ready_gate.sh";
       d_badge := None |}
  else none.

Definition test_demoGate (locale : Locale) (reports : val) : res (list test) :=
  let demoGate := reports.["demoRehearsalGate"] in
  if otruthy demoGate then
    let pass := is_true demoGate.["pass"] in
    push {| d_id := "demo-rehearsal-gate";
       d_status := if pass then TPass else TFail;
       d_title :=
         L locale
           (str "Demo rehearsal — 08:00 sunum kapısı")
           (str "Demo rehearsal — presentation readiness gate");
       d_purpose :=
         L locale
           (str "demo_3min + :8443/tests + kanıt PDF + canlı site — tek kapıda sunum hazırlığı.")
           (str "demo_3min + :8443/tests + proof PDF + live site — one presentation gate.");
       d_verdict :=
         if pass then
           L locale
             (tpl [Txt "demo_3min="; Val (if otruthy demoGate.["demo_3min_ok"] then vs "evet" else vs "hayır");
                   Txt " · dash="; Val (if otruthy demoGate.["dashboard_ok"] then vs "evet" else vs "hayır");
                   Txt " · proof "; Val (demoGate.["proof_pass"] ??? vn 0); Txt "/";
                   Val (demoGate.["proof_tests"] ??? vn 0); Txt "."])
             (tpl [Txt "demo_3min="; Val (if otruthy demoGate.["demo_3min_ok"] then vs "yes" else vs "no");
                   Txt " · dash="; Val (if otruthy demoGate.["dashboard_ok"] then vs "yes" else vs "no");
                   Txt " · proof "; Val (demoGate.["proof_pass"] ??? vn 0); Txt "/";
                   Val (demoGate.["proof_tests"] ??? vn 0); Txt "."])
         else
           L locale
             (ret (demoGate.["fail_reason"] ??? vs "bash scripts/demo_rehearsal_gate.sh"))
             (ret (demoGate.["fail_reason"] ??? vs "bash scripts/demo_rehearsal_gate.sh"));
       d_metrics :=
         [metric (str "PDF") (ret (if otruthy demoGate.["pdf_ok"] then vs "evet" else vs "hayır"));
          metric
            (str "live")
            (ret
               (if is_true demoGate.["website_live_ok"] then
                  vs "evet"
                else if otruthy demoGate.["website_live_skipped"] then vs "skip" else vs "hayır"))];
       d_date := fmtDate demoGate.["date"];
       d_script := str "scripts/demo_rehearsal_gate.sh";
       d_badge := None |}
  else none.

Definition test_shipGate (locale : Locale) (reports : val) : res (list test) :=
  let shipGate := reports.["presentationShipGate"] in
  if otruthy shipGate then
    let pass := is_true shipGate.["pass"] in
    push {| d_id := "presentation-ship-gate";
       d_status := if pass then TPass else TFail;
       d_title :=
         L locale
           (str "Presentation ship — sunum + GitHub zinciri")
           (str "Presentation ship — demo + release chain");
       d_purpose :=
         L locale
           (str "demo_rehearsal + release_ready — tek komutta sunum ve ship hazırlığı.")
           (str "demo_rehearsal + release_ready — one-command presentation and ship readiness.");
       d_verdict :=
         if pass then
           L locale
             (tpl [Txt "demo="; Val (if otruthy shipGate.["demo_rehearsal_ok"] then vs "evet" else vs "hayır");
                   Txt " · release=";
                   Val (if otruthy shipGate.["release_ready_ok"] then vs "evet" else vs "hayır");
                   Txt " · artefakt "; Val (shipGate.["artifacts_count"] ??? vs "—"); Txt " · proof ";
                   Val (shipGate.["proof_pass"] ??? vn 0); Txt "/"; Val (shipGate.["proof_tests"] ??? vn 0);
                   Txt "."])
             (tpl [Txt "demo="; Val (if otruthy shipGate.["demo_rehearsal_ok"] then vs "yes" else vs "no");
                   Txt " · release="; Val (if otruthy shipGate.["release_ready_ok"] then vs "yes" else vs "no");
                   Txt " · artefakt "; Val (shipGate.["artifacts_count"] ??? vs "—"); Txt " · proof ";
                   Val (shipGate.["proof_pass"] ??? vn 0); Txt "/"; Val (shipGate.["proof_tests"] ??? vn 0);
                   Txt "."])
         else
           L locale
             (ret (shipGate.["fail_reason"] ??? vs "bash scripts/presentation_ship_gate.sh"))
             (ret (shipGate.["fail_reason"] ??? vs "bash scripts/presentation_ship_gate.sh"));
       d_metrics :=
         [metric (str "artefakt") (ret (shipGate.["artifacts_count"] ??? vs "—"));
          metric
            (str "proof")
            (tpl [Val (shipGate.["proof_pass"] ??? vn 0); Txt "/"; Val (shipGate.["proof_tests"] ??? vn 0)])];
       d_date := fmtDate shipGate.["date"];
       d_script := str "scripts/presentation_ship_gate.sh";
       d_badge := None |}
  else none.

Definition test_videoGate (locale : Locale) (reports : val) : res (list test) :=
  let videoGate := reports.["demoVideoGate"] in
  if otruthy videoGate then
    let pass := is_true videoGate.["pass"] in
    let siemVal :=
      if otruthy videoGate.["siem_skipped"] then
        vs "skip"
      else if otruthy videoGate.["siem_export_ok"] then vs "evet" else vs "hayır" in
    let siemValEn :=
      if otruthy videoGate.["siem_skipped"] then
        vs "skip"
      else if otruthy videoGate.["siem_export_ok"] then vs "yes" else vs "no" in
    push {| d_id := "demo-video-gate";
       d_status := if pass then TPass else TFail;
       d_title :=
         L locale
           (str "Demo video — 04:00 kayıt hazırlık kapısı")
           (str "Demo video — 04:00 recording readiness gate");
       d_purpose :=
         L locale
           (str "demo_video + SIEM + PDF + presentation_ship — interaktif kayıt öncesi otomatik doğrulama.")
           (str "demo_video + SIEM + PDF + presentation_ship — automated pre-recording checks.");
       d_verdict :=
         if pass then
           L locale
             (tpl [Txt "PDF="; Val (if otruthy videoGate.["pdf_ok"] then vs "evet" else vs "hayır");
                   Txt " · ship=";
                   Val (if otruthy videoGate.["presentation_ship_ok"] then vs "evet" else vs "hayır");
                   Txt " · SIEM="; Val siemVal; Txt " · SOC=";
                   Val (if otruthy videoGate.["telegram_soc_ok"] then vs "evet" else vs "hayır"); Txt "."])
             (tpl [Txt "PDF="; Val (if otruthy videoGate.["pdf_ok"] then vs "yes" else vs "no"); Txt " · ship=";
                   Val (if otruthy videoGate.["presentation_ship_ok"] then vs "yes" else vs "no");
                   Txt " · SIEM="; Val siemValEn; Txt " · SOC=";
                   Val (if otruthy videoGate.["telegram_soc_ok"] then vs "yes" else vs "no"); Txt "."])
         else
           L locale
             (ret (videoGate.["fail_reason"] ??? vs "bash scripts/demo_video_gate.sh"))
             (ret (videoGate.["fail_reason"] ??? vs "bash scripts/demo_video_gate.sh"));
       d_metrics :=
         [metric (str "SIEM") (ret siemVal);
          metric (str "PDF") (ret (if otruthy videoGate.["pdf_ok"] then vs "evet" else vs "hayır"))];
       d_date := fmtDate videoGate.["date"];
       d_script := str "scripts/demo_video_gate.sh";
       d_badge := None |}
  else none.

Definition test_githubShip (locale : Locale) (reports : val) : res (list test) :=
  let githubShip := reports.["githubShipGate"] in
  if otruthy githubShip then
    let pass := is_true githubShip.["pass"] in
    let closureVal :=
      if otruthy githubShip.["security_closure_skipped"] then
        vs "skip"
      else if otruthy githubShip.["security_closure_ok"] then vs "evet" else vs "hayır" in
    let closureValEn :=
      if otruthy githubShip.["security_closure_skipped"] then
        vs "skip"
      else if otruthy githubShip.["security_closure_ok"] then vs "yes" else vs "no" in
    push {| d_id := "github-ship-gate";
       d_status := if pass then TPass else TFail;
       d_title := L locale (str "GitHub ship — push öncesi tam kapı") (str "GitHub ship — full pre-push gate");
       d_purpose :=
         L locale
           (str "presentation_ship + security_closure + secret scan — git push hazırlığı.")
           (str "presentation_ship + security_closure + secret scan — git push readiness.");
       d_verdict :=
         if pass then
           L locale
             (tpl [Txt "ship=";
                   Val (if otruthy githubShip.["presentation_ship_ok"] then vs "evet" else vs "hayır");
                   Txt " · closure="; Val closureVal; Txt " · secret=";
                   Val (if otruthy githubShip.["secret_scan_ok"] then vs "evet" else vs "hayır");
                   Txt " · proof "; Val (githubShip.["proof_pass"] ??? vn 0); Txt "/";
                   Val (githubShip.["proof_tests"] ??? vn 0); Txt "."])
             (tpl [Txt "ship="; Val (if otruthy githubShip.["presentation_ship_ok"] then vs "yes" else vs "no");
                   Txt " · closure="; Val closureValEn; Txt " · secret=";
                   Val (if otruthy githubShip.["secret_scan_ok"] then vs "yes" else vs "no"); Txt " · proof ";
                   Val (githubShip.["proof_pass"] ??? vn 0); Txt "/"; Val (githubShip.["proof_tests"] ??? vn 0);
                   Txt "."])
         else
           L locale
             (ret (githubShip.["fail_reason"] ??? vs "bash scripts/github_ship_gate.sh"))
             (ret (githubShip.["fail_reason"] ??? vs "bash scripts/github_ship_gate.sh"));
       d_metrics :=
         [metric (str "closure") (ret closureVal);
          metric
            (str "proof")
            (tpl [Val (githubShip.["proof_pass"] ??? vn 0); Txt "/";
                  Val (githubShip.["proof_tests"] ??? vn 0)])];
       d_date := fmtDate githubShip.["date"];
       d_script := str "scripts/github_ship_gate.sh";
       d_badge := None |}
  else none.

Definition test_laptopCore (locale : Locale) (reports : val) : res (list test) :=
  let laptopCore := reports.["laptopCoreGate"] in
  if otruthy laptopCore then
    let pass := is_true laptopCore.["pass"] in
    let edgeVal :=
      if otruthy laptopCore.["edge_skipped"] then
        vs "skip"
      else if otruthy laptopCore.["edge_protection_ok"] then vs "evet" else vs "hayır" in
    let edgeValEn :=
      if otruthy laptopCore.["edge_skipped"] then
        vs "skip"
      else if otruthy laptopCore.["edge_protection_ok"] then vs "yes" else vs "no" in
    push {| d_id := "laptop-core-gate";
       d_status := if pass then TPass else TFail;
       d_title :=
         L locale
           (str "Laptop Core — edge + SOC + ban operatörü")
           (str "Laptop Core — edge + SOC + ban operator");
       d_purpose :=
         L locale
           (str "Core vaadi: nginx→WAF→ban — edge koruma, Telegram SOC ve ban API tek kapıda.")
           (str "Core promise: nginx→WAF→ban — edge, Telegram SOC and ban API in one gate.");
       d_verdict :=
         if pass then
           L locale
             (tpl [Txt "edge="; Val edgeVal; Txt " · soc=";
                   Val (if otruthy laptopCore.["telegram_soc_ok"] then vs "evet" else vs "hayır");
                   Txt " · ban="; Val (if otruthy laptopCore.["ban_ops_ok"] then vs "evet" else vs "hayır");
                   Txt " · xdp="; Val (laptopCore.["xdp_mode"] ??? vs "—"); Txt "."])
             (tpl [Txt "edge="; Val edgeValEn; Txt " · soc=";
                   Val (if otruthy laptopCore.["telegram_soc_ok"] then vs "yes" else vs "no"); Txt " · ban=";
                   Val (if otruthy laptopCore.["ban_ops_ok"] then vs "yes" else vs "no"); Txt " · xdp=";
                   Val (laptopCore.["xdp_mode"] ??? vs "—"); Txt "."])
         else
           L locale
             (ret (laptopCore.["fail_reason"] ??? vs "bash scripts/laptop_core_gate.sh"))
             (ret (laptopCore.["fail_reason"] ??? vs "bash scripts/laptop_core_gate.sh"));
       d_metrics :=
         [metric (str "xdp") (ret (laptopCore.["xdp_mode"] ??? vs "—"));
          metric
            (str "proof")
            (tpl [Val (laptopCore.["proof_pass"] ??? vn 0); Txt "/";
                  Val (laptopCore.["proof_tests"] ??? vn 0)])];
       d_date := fmtDate laptopCore.["date"];
       d_script := str "scripts/laptop_core_gate.sh";
       d_badge := None |}
  else none.

(** ** The blocks on documents of their types *)

Section typed.
Context (reports : val) (Hr : tyn TestReports reports).

Lemma test_soak_ok : block_spec "soak-stability" (soak_passed reports.["soak"]) (λ lo, test_soak lo reports).
Proof. unfold test_soak. block. Qed.
Lemma test_iso_ok : block_spec "tenant-isolation" (is_true reports.["isolation"].["pass"]) (λ lo, test_iso lo reports).
Proof. unfold test_iso. block. Qed.
Lemma test_bench_ok : block_spec "bench-eps" (true) (λ lo, test_bench lo reports).
Proof. unfold test_bench. block. Qed.
Lemma test_ban_ok : block_spec "ban-latency" (is_true reports.["ban"].["pass"] || vle reports.["ban"].["ban_latency_ms"] (reports.["ban"].["target_ms"] ??? vn 75)) (λ lo, test_ban lo reports).
Proof. unfold test_ban. block. Qed.
Lemma test_live_ok : block_spec "live-pipeline" ((is_lit "ok" reports.["live"].["ipc"] || is_lit "connected" reports.["live"].["ipc"]) && ((reports.["live"].["ban_pipeline"].["failed"] ??? vn 0) === vn 0)) (λ lo, test_live lo reports).
Proof. unfold test_live. block. Qed.
Lemma test_whRoute_ok : block_spec "webhook-route-proof" (is_true reports.["webhookRoute"].["pass"]) (λ lo, test_whRoute lo reports).
Proof. unfold test_whRoute. block. Qed.
Lemma test_tgLive_ok : block_spec "webhook-telegram-live" (is_true reports.["webhookTelegramLive"].["pass"]) (λ lo, test_tgLive lo reports).
Proof. unfold test_tgLive. block. Qed.
Lemma test_tgAck_ok : block_spec "webhook-telegram-ack-live" (is_true reports.["webhookTelegramAckLive"].["pass"]) (λ lo, test_tgAck lo reports).
Proof. unfold test_tgAck. block. Qed.
Lemma test_tgUndo_ok : block_spec "telegram-operator-undo-e2e" (is_true reports.["telegramOperatorUndoE2e"].["pass"]) (λ lo, test_tgUndo lo reports).
Proof. unfold test_tgUndo. block. Qed.
Lemma test_tgSoc_ok : block_spec "telegram-soc-gate" (is_true reports.["telegramSocGate"].["pass"]) (λ lo, test_tgSoc lo reports).
Proof. unfold test_tgSoc. block. Qed.
Lemma test_bansTg_ok : block_spec "bans-telegram-ops" (is_true reports.["bansTelegramOps"].["pass"]) (λ lo, test_bansTg lo reports).
Proof. unfold test_bansTg. block. Qed.
Lemma test_edgeGate_ok : block_spec "edge-protection-gate" (is_true reports.["edgeProtectionGate"].["pass"]) (λ lo, test_edgeGate lo reports).
Proof. unfold test_edgeGate. block. Qed.
Lemma test_intelDb_ok : block_spec "intel-ban-db" (is_true reports.["intelBanDb"].["pass"]) (λ lo, test_intelDb lo reports).
Proof. unfold test_intelDb. block. Qed.
Lemma test_grafanaParity_ok : block_spec "grafana-parity-gate" (is_true reports.["grafanaParityGate"].["pass"]) (λ lo, test_grafanaParity lo reports).
Proof. unfold test_grafanaParity. block. Qed.
Lemma test_webPreview_ok : block_spec "website-preview-gate" (is_true reports.["websitePreviewGate"].["pass"]) (λ lo, test_webPreview lo reports).
Proof. unfold test_webPreview. block. Qed.
Lemma test_escGate_ok : block_spec "enterprise-escalation-gate" (is_true reports.["enterpriseEscalationGate"].["pass"]) (λ lo, test_escGate lo reports).
Proof. unfold test_escGate. block. Qed.
Lemma test_vmPrep_ok : block_spec "vm-host-prep-gate" (is_true reports.["vmHostPrepGate"].["pass"]) (λ lo, test_vmPrep lo reports).
Proof. unfold test_vmPrep. block. Qed.
Lemma test_docsCons_ok : block_spec "docs-consistency-gate" (is_true reports.["docsConsistencyGate"].["pass"]) (λ lo, test_docsCons lo reports).
Proof. unfold test_docsCons. block. Qed.
Lemma test_vmFleet_ok : block_spec "vm-fleet-gate" (is_true reports.["vmFleetGate"].["pass"] || is_true reports.["vmFleetGate"].["skipped"]) (λ lo, test_vmFleet lo reports).
Proof. unfold test_vmFleet. block. Qed.
Lemma test_laptopExc_ok : block_spec "laptop-excellence-gate" (is_true reports.["laptopExcellenceGate"].["pass"]) (λ lo, test_laptopExc lo reports).
Proof. unfold test_laptopExc. block. Qed.
Lemma test_liveSite_ok : block_spec "website-live-gate" (is_true reports.["websiteLiveGate"].["pass"]) (λ lo, test_liveSite lo reports).
Proof. unfold test_liveSite. block. Qed.
Lemma test_releaseReady_ok : block_spec "release-ready-gate" (is_true reports.["releaseReadyGate"].["pass"]) (λ lo, test_releaseReady lo reports).
Proof. unfold test_releaseReady. block. Qed.
Lemma test_demoGate_ok : block_spec "demo-rehearsal-gate" (is_true reports.["demoRehearsalGate"].["pass"]) (λ lo, test_demoGate lo reports).
Proof. unfold test_demoGate. block. Qed.
Lemma test_shipGate_ok : block_spec "presentation-ship-gate" (is_true reports.["presentationShipGate"].["pass"]) (λ lo, test_shipGate lo reports).
Proof. unfold test_shipGate. block. Qed.
Lemma test_videoGate_ok : block_spec "demo-video-gate" (is_true reports.["demoVideoGate"].["pass"]) (λ lo, test_videoGate lo reports).
Proof. unfold test_videoGate. block. Qed.
Lemma test_githubShip_ok : block_spec "github-ship-gate" (is_true reports.["githubShipGate"].["pass"]) (λ lo, test_githubShip lo reports).
Proof. unfold test_githubShip. block. Qed.
Lemma test_laptopCore_ok : block_spec "laptop-core-gate" (is_true reports.["laptopCoreGate"].["pass"]) (λ lo, test_laptopCore lo reports).
Proof. unfold test_laptopCore. block. Qed.
End typed.

End blocks.

#[export] Hint Resolve test_soak_ok test_iso_ok test_bench_ok test_ban_ok test_live_ok test_whRoute_ok test_tgLive_ok test_tgAck_ok
  test_tgUndo_ok test_tgSoc_ok test_bansTg_ok test_edgeGate_ok test_intelDb_ok test_grafanaParity_ok
  test_webPreview_ok test_escGate_ok test_vmPrep_ok test_docsCons_ok test_vmFleet_ok test_laptopExc_ok
  test_liveSite_ok test_releaseReady_ok test_demoGate_ok test_shipGate_ok test_videoGate_ok test_githubShip_ok
  test_laptopCore_ok : blocks.
