(* ===== verification/ValidationPlatform.v ===== *)
(** Blocks of [evaluateValidationTests] (dashboard/src/lib/validationTests.ts) on
    platform: releases, fleet, exports, kernel, integrations and clusters.
    Each definition is one block: the card its report gives, if there is one. *)

From S2P Require Import Prelude JsString JsNum Json Http JsValue Reports.

Section blocks.
Context `{DateFormat}.

Definition test_morningOp (locale : Locale) (reports : val) : res (list test) :=
  let morningOp := reports.["morningOperatorGate"] in
  if otruthy morningOp then
    let pass := is_true morningOp.["pass"] in
    let? coreMode :=
      if otruthy morningOp.["laptop_core_refreshed"] then
        L locale (str "yenilendi") (str "refreshed")
      else L locale (str "rapor") (str "report") in
    push {| d_id := "morning-operator-gate";
       d_status := if pass then TPass else TFail;
       d_title :=
         L locale
           (str "Morning operator — sabah hazırlık (hızlı)")
           (str "Morning operator — fast morning readiness");
       d_purpose :=
         L locale
           (str "Rapor öncelikli sabah kapısı — demo_3min koşmaz, mevcut gate'leri bozmaz.")
           (str "Report-first morning gate — no demo_3min, non-destructive.");
       d_verdict :=
         if pass then
           L locale
             (tpl [Txt "core="; Val (if otruthy morningOp.["laptop_core_ok"] then vs "evet" else vs "hayır");
                   Txt "("; Val coreMode; Txt ") · ship=";
                   Val (if otruthy morningOp.["presentation_ship_ok"] then vs "evet" else vs "hayır");
                   Txt " · proof "; Val (morningOp.["proof_pass"] ??? vn 0); Txt "/";
                   Val (morningOp.["proof_tests"] ??? vn 0); Txt "."])
             (tpl [Txt "core="; Val (if otruthy morningOp.["laptop_core_ok"] then vs "yes" else vs "no");
                   Txt "("; Val coreMode; Txt ") · ship=";
                   Val (if otruthy morningOp.["presentation_ship_ok"] then vs "yes" else vs "no");
                   Txt " · proof "; Val (morningOp.["proof_pass"] ??? vn 0); Txt "/";
                   Val (morningOp.["proof_tests"] ??? vn 0); Txt "."])
         else
           L locale
             (ret (morningOp.["fail_reason"] ??? vs "bash scripts/morning_operator_gate.sh"))
             (ret (morningOp.["fail_reason"] ??? vs "bash scripts/morning_operator_gate.sh"));
       d_metrics :=
         [metric (str "core") (ret coreMode);
          metric
            (str "proof")
            (tpl [Val (morningOp.["proof_pass"] ??? vn 0); Txt "/"; Val (morningOp.["proof_tests"] ??? vn 0)])];
       d_date := fmtDate morningOp.["date"];
       d_script := str "scripts/morning_operator_gate.sh";
       d_badge := None |}
  else none.

Definition test_dashBan (locale : Locale) (reports : val) : res (list test) :=
  let dashBan := reports.["dashboardBanApi"] in
  let caddyStDash := reports.["caddyMtlsStatus"] in
  if otruthy dashBan then
    let pass := is_true dashBan.["pass"] in
    push {| d_id := "dashboard-ban-api";
       d_status := if pass then TPass else TFail;
       d_title :=
         L locale
           (str "Dashboard ban/unban — API + Docker relay (18090)")
           (str "Dashboard ban/unban — API + Docker relay (18090)");
       d_purpose :=
         L locale
           (str "Operatörün /bans sayfasından kernel ban ve engel kaldırma yolunun canlı çalıştığını kanıtlar.")
           (str "Proves operators can ban and unban from /bans via the live kernel path.");
       d_verdict :=
         if pass then
           L locale
             (tpl [Txt "Host "; Val (if otruthy dashBan.["host_api"].["ok"] then vs "OK" else vs "—");
                   Txt ", relay "; Val (if otruthy dashBan.["relay_api"].["ok"] then vs "OK" else vs "—");
                   Txt ", Docker "; Val (if otruthy dashBan.["docker_api"].["ok"] then vs "OK" else vs "skip");
                   Txt " — "; Val (dashBan.["test_ip"] ??? vs "—"); Txt "."])
             (tpl [Txt "Host "; Val (if otruthy dashBan.["host_api"].["ok"] then vs "OK" else vs "—");
                   Txt ", relay "; Val (if otruthy dashBan.["relay_api"].["ok"] then vs "OK" else vs "—");
                   Txt ", Docker "; Val (if otruthy dashBan.["docker_api"].["ok"] then vs "OK" else vs "skip");
                   Txt " — "; Val (dashBan.["test_ip"] ??? vs "—"); Txt "."])
         else
           L locale
             (ret (dashBan.["fail_reason"] ||| vs "Smoke başarısız — bash scripts/dashboard_ban_smoke.sh"))
             (ret (dashBan.["fail_reason"] ||| vs "Smoke failed — bash scripts/dashboard_ban_smoke.sh"));
       d_metrics :=
         [metric (str "host") (ret (if otruthy dashBan.["host_api"].["ok"] then vs "OK" else vs "FAIL"));
          metric (str "relay") (ret (if otruthy dashBan.["relay_api"].["ok"] then vs "OK" else vs "FAIL"));
          metric
            (str "docker")
            (ret
               (if otruthy dashBan.["docker_api"].["ok"] then
                  vs "OK"
                else if dashBan.["docker_api"].["ok"] === vb false then vs "FAIL" else vs "—"));
          metric (str "path") (ret (dashBan.["ban_path"] ||| vs "—"));
          metric (str "soar") (ret (if otruthy caddyStDash.["enabled"] then vs "on" else vs "off"));
          metric (str "strict") (ret (if otruthy caddyStDash.["mtls_strict"] then vs "on" else vs "off"))];
       d_date := fmtDate dashBan.["date"];
       d_script := str "scripts/dashboard_ban_smoke.sh";
       d_badge := None |}
  else none.

Definition test_liveDemo (locale : Locale) (reports : val) : res (list test) :=
  let liveDemo := reports.["dashboardLiveDemo"] in
  if otruthy liveDemo then
    let? cleanedUp := vincludes "CLEANUP" (liveDemo.["note"] ??? vs "") in
    let applied := liveDemo.["bans_applied"] ??? vn 0 in
    let synced := liveDemo.["active_bans_synced"] ??? vn 0 in
    let pass := is_true liveDemo.["pass"] || (vlt (vn 0) applied && vlt (vn 0) synced) in
    push {| d_id := "dashboard-live-demo";
       d_status := if pass then TPass else if cleanedUp then TWarn else TFail;
       d_title :=
         L locale
           (str "Dashboard Live demo — harita + /bans ipset")
           (str "Dashboard live demo — map + /bans ipset");
       d_purpose :=
         L locale
           (str "Operatör sunumunda 4 gerçek kernel ban → harita LIVE + /bans unban (proof yerine).")
           (str "Operator demo: 4 real kernel bans → LIVE map + /bans unban (not proof preview).");
       d_verdict :=
         if pass then
           L locale
             (tpl [Val applied; Txt " ban uygulandı, "; Val synced; Txt " sync — ";
                   Val (liveDemo.["api"] ??? vs "8090"); Txt ". CLEANUP=1 ile geri alınır."])
             (tpl [Val applied; Txt " bans applied, "; Val synced; Txt " synced — ";
                   Val (liveDemo.["api"] ??? vs "8090"); Txt ". Revert with CLEANUP=1."])
         else if cleanedUp then
           L locale
             (str "CLEANUP sonrası proof modu — bash scripts/dashboard_live_demo.sh ile tekrar live.")
             (str "After CLEANUP in proof mode — re-run bash scripts/dashboard_live_demo.sh for live.")
         else
           L locale
             (tpl [Txt "Ban/sync başarısız — applied "; Val applied; Txt ", failed ";
                   Val (liveDemo.["bans_failed"] ??? vn 0); Txt "."])
             (tpl [Txt "Ban/sync failed — applied "; Val applied; Txt ", failed ";
                   Val (liveDemo.["bans_failed"] ??? vn 0); Txt "."]);
       d_metrics :=
         [metric (str "applied") (Str applied);
          metric (str "synced") (Str synced);
          metric (str "api") (let? v := strip_scheme liveDemo.["api"] in ret (v ??? vs "—"));
          metric
            (str "IPs")
            (if otruthy (vlength liveDemo.["ips"]) then
               let? l := vslice 4 liveDemo.["ips"] in
               vjoin ", " l
             else str "—")];
       d_date := fmtDate liveDemo.["date"];
       d_script := str "scripts/dashboard_live_demo.sh";
       d_badge := None |}
  else none.

Definition test_attackMap (locale : Locale) (reports : val) : res (list test) :=
  let attackMap := reports.["attackMap"] in
  if otruthy attackMap then
    let pass := is_true attackMap.["pass"] in
    push {| d_id := "attack-map";
       d_status := if pass then TPass else TFail;
       d_title :=
         L locale (str "Attack map — geo marker + canlı ban") (str "Attack map — geo markers + live bans");
       d_purpose :=
         L locale
           (str "Ana sayfa küre haritasında /api/attack-geo ile ban IP konumlarını kanıtlar.")
           (str "Proves banned IP locations on the home globe via /api/attack-geo.");
       d_verdict :=
         if pass then
           L locale
             (tpl [Val (attackMap.["markers"] ??? vn 0); Txt " marker, kaynak=";
                   Val (attackMap.["data_source"] ??? vs "—"); Txt "; ack=";
                   Val (attackMap.["ack_markers"] ??? vn 0); Txt " ban=";
                   Val (attackMap.["ban_markers"] ??? vn 0); Txt "."])
             (tpl [Val (attackMap.["markers"] ??? vn 0); Txt " markers, source=";
                   Val (attackMap.["data_source"] ??? vs "—"); Txt "; ack=";
                   Val (attackMap.["ack_markers"] ??? vn 0); Txt " ban=";
                   Val (attackMap.["ban_markers"] ??? vn 0); Txt "."])
         else
           L locale
             (ret (attackMap.["fail_reason"] ??? vs "bash scripts/attack_map_e2e.sh"))
             (ret (attackMap.["fail_reason"] ??? vs "bash scripts/attack_map_e2e.sh"));
       d_metrics :=
         [metric (str "markers") (Str (attackMap.["markers"] ??? vn 0));
          metric (str "ack") (Str (attackMap.["ack_markers"] ??? vn 0));
          metric (str "ban") (Str (attackMap.["ban_markers"] ??? vn 0))];
       d_date := fmtDate attackMap.["date"];
       d_script := str "scripts/attack_map_e2e.sh";
       d_badge := None |}
  else none.

Definition test_siem (locale : Locale) (reports : val) : res (list test) :=
  let siem := reports.["siemExport"] in
  if otruthy siem then
    let pass := is_true siem.["pass"] in
    push {| d_id := "siem-export";
       d_status := if pass then TPass else TFail;
       d_title :=
         L locale
           (str "SIEM forwarder — alert + ban JSON (:5044)")
           (str "SIEM forwarder — alert + ban JSON (:5044)");
       d_purpose :=
         L locale
           (str "Splunk/Elastic/Vector hedeflerine event_type JSON akışını kanıtlar.")
           (str "Proves event_type JSON stream to Splunk/Elastic/Vector targets.");
       d_verdict :=
         if pass then
           L locale
             (tpl [Txt "alert "; Val (if otruthy siem.["alert_seen"] then vs "yes" else vs "no"); Txt ", ban ";
                   Val (if otruthy siem.["ban_seen"] then vs "yes" else vs "no"); Txt ", port ";
                   Val (siem.["port"] ??? vn 5044); Txt "."])
             (tpl [Txt "alert "; Val (if otruthy siem.["alert_seen"] then vs "yes" else vs "no"); Txt ", ban ";
                   Val (if otruthy siem.["ban_seen"] then vs "yes" else vs "no"); Txt ", port ";
                   Val (siem.["port"] ??? vn 5044); Txt "."])
         else L locale (str "siem_export_e2e FAIL") (str "siem_export_e2e FAIL");
       d_metrics :=
         [metric (str "alert") (ret (if otruthy siem.["alert_seen"] then vs "yes" else vs "no"));
          metric (str "ban") (ret (if otruthy siem.["ban_seen"] then vs "yes" else vs "no"));
          metric (str "port") (Str (siem.["port"] ??? vn 5044))];
       d_date := fmtDate siem.["date"];
       d_script := str "scripts/siem_export_e2e.sh";
       d_badge := None |}
  else none.

Definition test_wasm (locale : Locale) (reports : val) : res (list test) :=
  let wasm := reports.["wasm"] in
  if otruthy wasm then
    let nativeOk := is_lit "native" wasm.["mode"] && is_true wasm.["pass"] in
    push {| d_id := "wasm-native";
       d_status := if nativeOk then TPass else if wasm.["pass"] === vb false then TFail else TWarn;
       d_title :=
         L locale (str "Wasm native — block-sqli plugin smoke") (str "Wasm native — block-sqli plugin smoke");
       d_purpose :=
         L locale
           (str "Wasmtime C API ile derlenmiş plugin'in SQLi logunda alert ürettiğini kanıtlar.")
           (str "Proves compiled Wasmtime plugin alerts on SQLi in log replay.");
       d_verdict :=
         if nativeOk then
           L locale
             (tpl [Txt "mode "; Val wasm.["mode"]; Txt "; "; Val (wasm.["plugins_native"] ??? vn 0);
                   Txt " native plugin, "; Val (wasm.["alerts_on_sqli"] ??? vn 0); Txt " alert, ";
                   Val (wasm.["plugin_bytes"] ??? vn 0); Txt " B."])
             (tpl [Txt "mode "; Val wasm.["mode"]; Txt "; "; Val (wasm.["plugins_native"] ??? vn 0);
                   Txt " native plugins, "; Val (wasm.["alerts_on_sqli"] ??? vn 0); Txt " alerts, ";
                   Val (wasm.["plugin_bytes"] ??? vn 0); Txt " B."])
         else
           L locale
             (tpl [Txt "Wasm stub veya gate FAIL — bash scripts/wasm_gate.sh"])
             (tpl [Txt "Wasm stub or gate FAIL — bash scripts/wasm_gate.sh"]);
       d_metrics :=
         [metric (str "mode") (ret (wasm.["mode"] ??? vs "—"));
          metric (str "plugins") (Str (wasm.["plugins_native"] ??? vn 0));
          metric (str "alerts") (Str (wasm.["alerts_on_sqli"] ??? vn 0));
          metric (str "bytes") (Str (wasm.["plugin_bytes"] ??? vn 0))];
       d_date := None;
       d_script := str "scripts/wasm_gate.sh";
       d_badge := None |}
  else none.

Definition test_fleetMulti (locale : Locale) (reports : val) : res (list test) :=
  let fleetMulti := reports.["fleetMultiNode"] in
  if otruthy fleetMulti then
    let pass := is_true fleetMulti.["pass"] in
    let fleetMode := fleetMulti.["mode"] in
    let? modeHint :=
      if is_lit "multi-host" fleetMode then
        L locale (str " (VM+host)") (str " (VM+host)")
      else if is_lit "laptop-simulated" fleetMode then
        L locale (str " (laptop sim)") (str " (laptop sim)")
      else str "" in
    push {| d_id := "fleet-multi-node";
       d_status := if pass then TPass else TFail;
       d_title :=
         L locale
           (str "Fleet multi-node — 2+ agent + dispatch")
           (str "Fleet multi-node — 2+ agents + dispatch");
       d_purpose :=
         L locale
           (str "2+ telemetry agent ve /fleet/dispatch hedefli komut yolunu kanıtlar.")
           (str "Proves 2+ telemetry agents and targeted /fleet/dispatch routing.");
       d_verdict :=
         if pass then
           L locale
             (tpl [Val (fleetMulti.["agent_count"] ??? vn 0); Txt " agent, ";
                   Val (fleetMulti.["online_count"] ??? vn 0); Txt " online; dispatch→";
                   Val (fleetMulti.["dispatch_target"] ??? vs "—"); Val modeHint; Txt "."])
             (tpl [Val (fleetMulti.["agent_count"] ??? vn 0); Txt " agents, ";
                   Val (fleetMulti.["online_count"] ??? vn 0); Txt " online; dispatch→";
                   Val (fleetMulti.["dispatch_target"] ??? vs "—"); Val modeHint; Txt "."])
         else
           L locale
             (ret (fleetMulti.["fail_reason"] ??? vs "bash scripts/fleet_multi_node_e2e.sh"))
             (ret (fleetMulti.["fail_reason"] ??? vs "bash scripts/fleet_multi_node_e2e.sh"));
       d_metrics :=
         [metric (L locale (str "agent") (str "agents")) (Str (fleetMulti.["agent_count"] ??? vn 0));
          metric (str "online") (Str (fleetMulti.["online_count"] ??? vn 0));
          metric (str "target") (ret (fleetMulti.["dispatch_target"] ??? vs "—"))] ++
         (if otruthy fleetMode then [metric (str "mode") (ret fleetMode)] else []) ++
         (if otruthy fleetMulti.["command_hmac"] then [metric (str "HMAC") (str "OK")] else []);
       d_date := fmtDate fleetMulti.["date"];
       d_script := str "scripts/fleet_multi_node_e2e.sh";
       d_badge := None |}
  else none.

Definition test_fleetOffline (locale : Locale) (reports : val) : res (list test) :=
  let fleetOffline := reports.["fleetOfflineGate"] in
  if otruthy fleetOffline then
    let pass := is_true fleetOffline.["pass"] in
    push {| d_id := "fleet-offline-gate";
       d_status := if pass then TPass else TFail;
       d_title :=
         L locale
           (str "Fleet offline gate — heartbeat rapor tazeliği")
           (str "Fleet offline gate — heartbeat report freshness");
       d_purpose :=
         L locale
           (str "Filo agent raporunun bayat olmadığını ve en az bir agent online olduğunu doğrular.")
           (str "Verifies fleet agent report freshness and at least one agent online.");
       d_verdict :=
         if pass then
           L locale
             (tpl [Val (fleetOffline.["online"] ??? vn 0); Txt "/"; Val (fleetOffline.["total"] ??? vn 0);
                   Txt " online; mode="; Val (fleetOffline.["mode"] ??? vs "—"); Txt "; max ";
                   Val (fleetOffline.["max_age_min"] ??? vn 15); Txt "m."])
             (tpl [Val (fleetOffline.["online"] ??? vn 0); Txt "/"; Val (fleetOffline.["total"] ??? vn 0);
                   Txt " online; mode="; Val (fleetOffline.["mode"] ??? vs "—"); Txt "; max ";
                   Val (fleetOffline.["max_age_min"] ??? vn 15); Txt "m."])
         else
           L locale
             (ret (fleetOffline.["reason"] ??? vs "bash scripts/fleet_offline_gate.sh"))
             (ret (fleetOffline.["reason"] ??? vs "bash scripts/fleet_offline_gate.sh"));
       d_metrics :=
         [metric (str "online") (Str (fleetOffline.["online"] ??? vn 0));
          metric (str "total") (Str (fleetOffline.["total"] ??? vn 0));
          metric (str "mode") (ret (fleetOffline.["mode"] ??? vs "—"));
          metric (str "max_age_m") (Str (fleetOffline.["max_age_min"] ??? vn 15))];
       d_date := fmtDate fleetOffline.["date"];
       d_script := str "scripts/fleet_offline_gate.sh";
       d_badge := None |}
  else none.

Definition test_grafanaProv (locale : Locale) (reports : val) : res (list test) :=
  let grafanaProv := reports.["grafanaProvision"] in
  if otruthy grafanaProv then
    let pass := is_true grafanaProv.["pass"] in
    push {| d_id := "grafana-alerts";
       d_status := if pass then TPass else TFail;
       d_title :=
         L locale
           (str "Grafana — dashboard $tenant + alert kuralları")
           (str "Grafana — dashboard $tenant + alert rules");
       d_purpose :=
         L locale
           (str "Prometheus tenant değişkeni ve Grafana alert provisioning kanıtı.")
           (str "Proves Prometheus tenant variable and Grafana alert provisioning.");
       d_verdict :=
         if pass then
           L locale
             (tpl [Txt "uid "; Val (grafanaProv.["dashboard_uid"] ??? vs "log-guardian-01"); Txt "; ";
                   Val (grafanaProv.["alert_rules"] ??? vn 0); Txt " alert (";
                   Val (grafanaProv.["alert_rules_with_tenant"] ??? vn 0); Txt " tenant_id)."])
             (tpl [Txt "uid "; Val (grafanaProv.["dashboard_uid"] ??? vs "log-guardian-01"); Txt "; ";
                   Val (grafanaProv.["alert_rules"] ??? vn 0); Txt " alerts (";
                   Val (grafanaProv.["alert_rules_with_tenant"] ??? vn 0); Txt " tenant_id)."])
         else
           L locale
             (ret (grafanaProv.["fail_reason"] ??? vs "bash scripts/grafana_alert_gate.sh"))
             (ret (grafanaProv.["fail_reason"] ??? vs "bash scripts/grafana_alert_gate.sh"));
       d_metrics :=
         [metric (str "dashboard") (ret (grafanaProv.["dashboard_uid"] ??? vs "—"));
          metric (str "alerts") (Str (grafanaProv.["alert_rules"] ??? vn 0));
          metric (str "tenant") (ret (if otruthy grafanaProv.["tenant_variable"] then vs "yes" else vs "no"))];
       d_date := fmtDate grafanaProv.["date"];
       d_script := str "scripts/grafana_alert_gate.sh";
       d_badge := None |}
  else none.

Definition test_copilotOllama (locale : Locale) (reports : val) : res (list test) :=
  let copilotOllama := reports.["copilotOllama"] in
  if otruthy copilotOllama then
    let pass := is_true copilotOllama.["pass"] in
    let ollama := is_true copilotOllama.["ollama_reachable"] in
    let skipped := is_lit "skip" copilotOllama.["mode"] in
    let status := if negb pass then TFail else if skipped then TWarn else if ollama then TPass else TWarn in
    push {| d_id := "copilot-ollama";
       d_status := status;
       d_title :=
         L locale (str "Copilot — Ollama opsiyonel + fallback") (str "Copilot — optional Ollama + fallback");
       d_purpose :=
         L locale
           (str "Copilot LLM (Ollama) isteğe bağlı; yoksa kural tabanlı fallback yanıt verir.")
           (str "Copilot LLM (Ollama) is optional; rule-based fallback when absent.");
       d_verdict :=
         if pass then
           L locale
             (tpl [Txt "ollama="; Val (if ollama then vs "evet" else vs "hayır"); Txt "; kaynak=";
                   Val (copilotOllama.["reply_source"] ??? vs "—"); Txt "."])
             (tpl [Txt "ollama="; Val (if ollama then vs "yes" else vs "no"); Txt "; source=";
                   Val (copilotOllama.["reply_source"] ??? vs "—"); Txt "."])
         else
           L locale
             (ret (copilotOllama.["reason"] ??? vs "bash scripts/copilot_ollama_e2e.sh"))
             (ret (copilotOllama.["reason"] ??? vs "bash scripts/copilot_ollama_e2e.sh"));
       d_metrics :=
         [metric (str "ollama") (ret (if ollama then vs "yes" else vs "no"));
          metric (L locale (str "kaynak") (str "source")) (ret (copilotOllama.["reply_source"] ??? vs "—"))];
       d_date := fmtDate copilotOllama.["date"];
       d_script := str "scripts/copilot_ollama_e2e.sh";
       d_badge := None |}
  else none.

Definition test_mktApi (locale : Locale) (reports : val) : res (list test) :=
  let mktApi := reports.["marketplaceSignedApi"] in
  if otruthy mktApi then
    let pass := is_true mktApi.["pass"] in
    let mode := mktApi.["mode"] ??? vs "—" in
    let status :=
      if negb pass then
        TFail
      else if is_lit "enterprise-live" mode && negb (otruthy mktApi.["verify_ok"]) then TWarn else TPass in
    push {| d_id := "marketplace-signed-api";
       d_status := status;
       d_title :=
         L locale
           (str "Marketplace — imzali API (Enterprise tier)")
           (str "Marketplace — signed API (Enterprise tier)");
       d_purpose :=
         L locale
           (str "Enterprise /api/marketplace/signed — imza dogrulama; Pro/Community 403.")
           (str "Enterprise /api/marketplace/signed — signature verify; Pro/Community get 403.");
       d_verdict :=
         if pass then
           L locale
             (tpl [Txt "mode="; Val mode; Txt "; tier="; Val (mktApi.["tier"] ??? vs "—"); Txt "; imzali=";
                   Val (mktApi.["packages_signed"] ??? vn 0); Txt "."])
             (tpl [Txt "mode="; Val mode; Txt "; tier="; Val (mktApi.["tier"] ??? vs "—"); Txt "; signed=";
                   Val (mktApi.["packages_signed"] ??? vn 0); Txt "."])
         else L locale (str "marketplace_signed_api FAIL") (str "marketplace_signed_api FAIL");
       d_metrics := [metric (str "mode") (ret mode); metric (str "tier") (ret (mktApi.["tier"] ??? vs "—"))];
       d_date := fmtDate mktApi.["date"];
       d_script := str "scripts/marketplace_signed_api_e2e.sh";
       d_badge := None |}
  else none.

Definition test_complianceExport (locale : Locale) (reports : val) : res (list test) :=
  let complianceExport := reports.["complianceExport"] in
  if otruthy complianceExport then
    let pass := is_true complianceExport.["pass"] in
    let mode := complianceExport.["mode"] ??? vs "—" in
    let status :=
      if negb pass then
        TFail
      else if is_lit "pro-live" mode && otruthy complianceExport.["pdf_ok"] && otruthy complianceExport.["json_ok"] then
        TPass
      else if is_lit "tier_gate" mode || is_lit "skip" mode then TWarn else TPass in
    push {| d_id := "compliance-export";
       d_status := status;
       d_title :=
         L locale
           (str "Compliance — JSON/PDF export (Pro tier)")
           (str "Compliance — JSON/PDF export (Pro tier)");
       d_purpose :=
         L locale
           (str "/api/reports/export — Pro tier PDF; Community 403.")
           (str "/api/reports/export — Pro tier PDF; Community gets 403.");
       d_verdict :=
         if pass then
           L locale
             (tpl [Txt "mode="; Val mode; Txt "; tier="; Val (complianceExport.["tier"] ??? vs "—");
                   Txt "; kontrol="; Val (complianceExport.["controls"] ??? vn 0); Txt "; pdf=";
                   Val (if otruthy complianceExport.["pdf_ok"] then vs "OK" else vs "—"); Txt "."])
             (tpl [Txt "mode="; Val mode; Txt "; tier="; Val (complianceExport.["tier"] ??? vs "—");
                   Txt "; controls="; Val (complianceExport.["controls"] ??? vn 0); Txt "; pdf=";
                   Val (if otruthy complianceExport.["pdf_ok"] then vs "OK" else vs "—"); Txt "."])
         else L locale (str "compliance_export FAIL") (str "compliance_export FAIL");
       d_metrics :=
         [metric (str "mode") (ret mode); metric (str "tier") (ret (complianceExport.["tier"] ??? vs "—"))];
       d_date := fmtDate complianceExport.["date"];
       d_script := str "scripts/compliance_export_e2e.sh";
       d_badge := None |}
  else none.

Definition test_vpsXdp (locale : Locale) (reports : val) : res (list test) :=
  let vpsXdp := reports.["vpsXdp"] in
  if otruthy vpsXdp then
    let ok := is_true vpsXdp.["pass"] in
    let mode := vpsXdp.["mode"] ??? vs "unknown" in
    let status :=
      if ok && (is_lit "kernel-xdp" mode || is_lit "skip" mode) then TPass else if ok then TWarn else TFail in
    push {| d_id := "vps-xdp-kernel";
       d_status := status;
       d_title :=
         L locale
           (str "VPS XDP — kernel-xdp (laptop: ipset-fallback)")
           (str "VPS XDP — kernel-xdp (laptop: ipset-fallback)");
       d_purpose :=
         L locale
           (str "Gerçek NIC/VPS'te eBPF XDP; laptop/VM'de ipset-fallback bilinçli.")
           (str "eBPF XDP on real NIC/VPS; laptop/VM ipset-fallback is expected.");
       d_verdict :=
         if ok then
           L locale
             (if is_lit "skip" mode then
                tpl [Txt "xdp_mode="; Val (vpsXdp.["xdp_mode"] ??? vs "—");
                     Txt "; laptop/VM — VPS kaniti atlandi (beklenen)."]
              else
                tpl [Txt "xdp_mode="; Val (vpsXdp.["xdp_mode"] ??? vs "—"); Txt "; iface=";
                     Val (vpsXdp.["iface"] ??? vs "—"); Txt "."])
             (if is_lit "skip" mode then
                tpl [Txt "xdp_mode="; Val (vpsXdp.["xdp_mode"] ??? vs "—");
                     Txt "; laptop/VM — VPS proof skipped (expected)."]
              else
                tpl [Txt "xdp_mode="; Val (vpsXdp.["xdp_mode"] ??? vs "—"); Txt "; iface=";
                     Val (vpsXdp.["iface"] ??? vs "—"); Txt "."])
         else
           L locale
             (tpl [Txt "vps_xdp_proof FAIL ("; Val (vpsXdp.["fail_count"] ??? vn 0); Txt ")."])
             (tpl [Txt "vps_xdp_proof FAIL ("; Val (vpsXdp.["fail_count"] ??? vn 0); Txt ")."]);
       d_metrics :=
         [metric (str "mode") (ret (vpsXdp.["xdp_mode"] ??? vs "—"));
          metric (str "iface") (ret (vpsXdp.["iface"] ??? vs "—"))];
       d_date := fmtDate vpsXdp.["date"];
       d_script := str "scripts/vps_xdp_proof.sh";
       d_badge := None |}
  else none.

Definition test_arm64 (locale : Locale) (reports : val) : res (list test) :=
  let arm64 := reports.["arm64Build"] in
  if otruthy arm64 then
    let ok := is_true arm64.["pass"] in
    let mode := arm64.["mode"] ??? vs "—" in
    let? verified := arm64BinaryVerified mode arm64.["file"] in
    let status := if negb ok then TFail else if verified then TPass else TWarn in
    push {| d_id := "arm64-build";
       d_status := status;
       d_title := L locale (str "ARM64 build — cross / dry-run") (str "ARM64 build — cross / dry-run");
       d_purpose :=
         L locale
           (str "aarch64 hedef derleme matrisi; laptop'ta dry-run WARN kabul.")
           (str "aarch64 build matrix; dry-run WARN on laptop is OK.");
       d_verdict :=
         if ok then
           L locale
             (tpl [Txt "mode="; Val mode; Txt "; host="; Val (arm64.["host_arch"] ??? vs "—"); Txt " → ";
                   Val (arm64.["target_arch"] ??? vs "aarch64"); Txt "."])
             (tpl [Txt "mode="; Val mode; Txt "; host="; Val (arm64.["host_arch"] ??? vs "—"); Txt " → ";
                   Val (arm64.["target_arch"] ??? vs "aarch64"); Txt "."])
         else L locale (str "build_arm64 FAIL") (str "build_arm64 FAIL");
       d_metrics :=
         [metric (str "mode") (ret mode);
          metric (L locale (str "host") (str "host")) (ret (arm64.["host_arch"] ??? vs "—"))];
       d_date := fmtDate arm64.["date"];
       d_script := str "scripts/build_arm64.sh";
       d_badge := None |}
  else none.

Definition test_prodStack (locale : Locale) (reports : val) : res (list test) :=
  let prodStack := reports.["prodStack"] in
  if otruthy prodStack then
    let ok := is_true prodStack.["pass"] in
    push {| d_id := "prod-stack-e2e";
       d_status := if ok then TPass else TFail;
       d_title :=
         L locale
           (str "Prod stack — Wasm native + lineage + L7")
           (str "Prod stack — Wasm native + lineage + L7");
       d_purpose :=
         L locale
           (str "Stub→prod zinciri: native Wasm plugin, canli lineage, L7 probe.")
           (str "Stub→prod chain: native Wasm plugin, live lineage, L7 probe.");
       d_verdict :=
         if ok then
           L locale
             (tpl [Txt "wasm="; Val (prodStack.["wasm_mode"] ??? vs "—"); Txt "; lineage=";
                   Val (prodStack.["lineage_risk"] ??? vs "—"); Txt "; L7=";
                   Val (if otruthy prodStack.["l7_probe_active"] then vs "aktif" else vs "kapali");
                   Txt "; ipc="; Val (prodStack.["ipc"] ??? vs "—"); Txt "."])
             (tpl [Txt "wasm="; Val (prodStack.["wasm_mode"] ??? vs "—"); Txt "; lineage=";
                   Val (prodStack.["lineage_risk"] ??? vs "—"); Txt "; L7=";
                   Val (if otruthy prodStack.["l7_probe_active"] then vs "active" else vs "off"); Txt "; ipc=";
                   Val (prodStack.["ipc"] ??? vs "—"); Txt "."])
         else L locale (str "prod_stack_e2e FAIL") (str "prod_stack_e2e FAIL");
       d_metrics :=
         [metric (str "wasm") (ret (prodStack.["wasm_mode"] ??? vs "—"));
          metric (str "L7") (ret (if otruthy prodStack.["l7_probe_active"] then vs "yes" else vs "no"));
          metric (str "xdp") (ret (prodStack.["xdp_mode"] ??? vs "—"))];
       d_date := fmtDate prodStack.["date"];
       d_script := str "scripts/prod_stack_e2e.sh";
       d_badge := None |}
  else none.

Definition test_phase100Fast (locale : Locale) (reports : val) : res (list test) :=
  let phase100Fast := reports.["phase100Fast"] in
  if otruthy phase100Fast then
    let ok := is_true phase100Fast.["pass"] in
    push {| d_id := "phase100-fast-gate";
       d_status := if ok then TPass else TFail;
       d_title := L locale (str "Faz 0–6 hizli kapisi") (str "Phase 0–6 fast gate");
       d_purpose :=
         L locale
           (str "PHASE100_FAST=1 — bench/soak kisaltilmis regresyon paketi.")
           (str "PHASE100_FAST=1 — shortened bench/soak regression bundle.");
       d_verdict :=
         if ok then
           L locale
             (tpl [Txt "mode="; Val (phase100Fast.["mode"] ??? vs "fast"); Txt "; faz=";
                   Val (phase100Fast.["phases"] ??? vs "0-6"); Txt "."])
             (tpl [Txt "mode="; Val (phase100Fast.["mode"] ??? vs "fast"); Txt "; phases=";
                   Val (phase100Fast.["phases"] ??? vs "0-6"); Txt "."])
         else L locale (str "phase100_fast_gate FAIL") (str "phase100_fast_gate FAIL");
       d_metrics :=
         [metric (str "mode") (ret (phase100Fast.["mode"] ??? vs "fast"));
          metric (L locale (str "faz") (str "phases")) (ret (phase100Fast.["phases"] ??? vs "0-6"))];
       d_date := fmtDate phase100Fast.["date"];
       d_script := str "scripts/phase100_fast_gate.sh";
       d_badge := None |}
  else none.

Definition test_honeypot (locale : Locale) (reports : val) : res (list test) :=
  let honeypot := reports.["honeypotFeed"] in
  if otruthy honeypot then
    let pass := is_true honeypot.["pass"] in
    push {| d_id := "honeypot-feed";
       d_status := if pass then TPass else TFail;
       d_title :=
         L locale (str "Honeypot / deception — trap metrikleri") (str "Honeypot / deception — trap metrics");
       d_purpose :=
         L locale
           (str "trap_watcher + tarpit deception hattının Prometheus sayaçlarını kanıtlar.")
           (str "Proves trap_watcher + tarpit deception path via Prometheus counters.");
       d_verdict :=
         if pass then
           L locale
             (tpl [Txt "mod "; Val (honeypot.["mode"] ??? vs "—"); Txt "; honey=";
                   Val (honeypot.["honey_traps_total"] ??? vn 0); Txt ", lfi=";
                   Val (honeypot.["lfi_traps_total"] ??? vn 0); Txt ", c2=";
                   Val (honeypot.["c2_traps_total"] ??? vn 0); Txt "."])
             (tpl [Txt "mode "; Val (honeypot.["mode"] ??? vs "—"); Txt "; honey=";
                   Val (honeypot.["honey_traps_total"] ??? vn 0); Txt ", lfi=";
                   Val (honeypot.["lfi_traps_total"] ??? vn 0); Txt ", c2=";
                   Val (honeypot.["c2_traps_total"] ??? vn 0); Txt "."])
         else L locale (str "honeypot_feed_e2e FAIL") (str "honeypot_feed_e2e FAIL");
       d_metrics :=
         [metric (L locale (str "mod") (str "mode")) (ret (honeypot.["mode"] ??? vs "—"));
          metric (str "honey") (Str (honeypot.["honey_traps_total"] ??? vn 0));
          metric (str "lfi") (Str (honeypot.["lfi_traps_total"] ??? vn 0));
          metric (str "c2") (Str (honeypot.["c2_traps_total"] ??? vn 0))];
       d_date := fmtDate honeypot.["date"];
       d_script := str "scripts/honeypot_feed_e2e.sh";
       d_badge := None |}
  else none.

Definition test_l7Probe (locale : Locale) (reports : val) : res (list test) :=
  let l7Probe := reports.["l7ProbeProd"] in
  if otruthy l7Probe then
    let pass := is_true l7Probe.["pass"] in
    let live := is_lit "ok" l7Probe.["ipc"] && is_true l7Probe.["l7_probe_active"] in
    let status := if pass && live then TPass else if pass then TWarn else TFail in
    push {| d_id := "l7-probe-prod";
       d_status := status;
       d_title :=
         L locale (str "L7 eBPF HTTP probe — prod hazırlık") (str "L7 eBPF HTTP probe — prod readiness");
       d_purpose :=
         L locale
           (str "Daemon IPC + http_l7_probe.o ile L7 telemetry ve execve lineage kanıtı.")
           (str "Proves daemon IPC + http_l7_probe.o L7 telemetry and execve lineage.");
       d_verdict :=
         if pass then
           if live then
             L locale
               (tpl [Txt "IPC ok; l7_probe ON; hits="; Val (l7Probe.["l7_http_hits"] ??? vn 0); Txt "; xdp=";
                     Val (l7Probe.["xdp_mode"] ??? vs "—"); Txt "."])
               (tpl [Txt "IPC ok; l7_probe ON; hits="; Val (l7Probe.["l7_http_hits"] ??? vn 0); Txt "; xdp=";
                     Val (l7Probe.["xdp_mode"] ??? vs "—"); Txt "."])
           else
             L locale
               (tpl [Txt "mod "; Val (l7Probe.["mode"] ??? vs "—"); Txt "; IPC=";
                     Val (l7Probe.["ipc"] ??? vs "—"); Txt "; probe ";
                     Val (if otruthy l7Probe.["l7_probe_active"] then vs "ON" else vs "OFF");
                     Txt " (laptop/VPS NIC beklenir)."])
               (tpl [Txt "mode "; Val (l7Probe.["mode"] ??? vs "—"); Txt "; IPC=";
                     Val (l7Probe.["ipc"] ??? vs "—"); Txt "; probe ";
                     Val (if otruthy l7Probe.["l7_probe_active"] then vs "ON" else vs "OFF");
                     Txt " (laptop/VPS NIC expected)."])
         else L locale (str "l7_probe_prod_e2e FAIL") (str "l7_probe_prod_e2e FAIL");
       d_metrics :=
         [metric (str "IPC") (ret (l7Probe.["ipc"] ??? vs "—"));
          metric (str "l7_probe") (ret (if otruthy l7Probe.["l7_probe_active"] then vs "ON" else vs "OFF"));
          metric (str "hits") (Str (l7Probe.["l7_http_hits"] ??? vn 0));
          metric (str "xdp") (ret (l7Probe.["xdp_mode"] ??? vs "—"))];
       d_date := fmtDate l7Probe.["date"];
       d_script := str "scripts/l7_probe_prod_e2e.sh";
       d_badge := None |}
  else none.

Definition test_crowdsec (locale : Locale) (reports : val) : res (list test) :=
  let crowdsec := reports.["crowdsecBouncer"] in
  if otruthy crowdsec then
    let pass := is_true crowdsec.["pass"] in
    push {| d_id := "crowdsec-bouncer";
       d_status := if pass then TPass else TFail;
       d_title :=
         L locale (str "CrowdSec LAPI → log-guardian ban API") (str "CrowdSec LAPI → log-guardian ban API");
       d_purpose :=
         L locale
           (str "Dağıtık IP / botnet kararlarının kernel ban hattına aktarılmasını kanıtlar.")
           (str "Proves distributed IP/botnet decisions reach the kernel ban path.");
       d_verdict :=
         if pass then
           L locale
             (tpl [Txt "mod "; Val (crowdsec.["mode"] ??? vs "—"); Txt "; ";
                   Val (crowdsec.["decisions_synced"] ??? vn 0); Txt " karar; ban API ";
                   Val (if otruthy crowdsec.["live_api_ok"] then vs "OK" else vs "dry-run"); Txt "; LAPI ";
                   Val (if otruthy crowdsec.["live_lapi_ok"] then vs "OK" else vs "dry-run"); Txt "."])
             (tpl [Txt "mode "; Val (crowdsec.["mode"] ??? vs "—"); Txt "; ";
                   Val (crowdsec.["decisions_synced"] ??? vn 0); Txt " decisions; ban API ";
                   Val (if otruthy crowdsec.["live_api_ok"] then vs "OK" else vs "dry-run"); Txt "; LAPI ";
                   Val (if otruthy crowdsec.["live_lapi_ok"] then vs "OK" else vs "dry-run"); Txt "."])
         else L locale (str "crowdsec_bouncer_e2e FAIL") (str "crowdsec_bouncer_e2e FAIL");
       d_metrics :=
         [metric (L locale (str "mod") (str "mode")) (ret (crowdsec.["mode"] ??? vs "—"));
          metric (L locale (str "karar") (str "decisions")) (Str (crowdsec.["decisions_synced"] ??? vn 0));
          metric (str "ban API") (ret (if otruthy crowdsec.["live_api_ok"] then vs "OK" else vs "dry-run"));
          metric (str "LAPI") (ret (if otruthy crowdsec.["live_lapi_ok"] then vs "OK" else vs "dry-run"))];
       d_date := fmtDate crowdsec.["date"];
       d_script := str "scripts/crowdsec_bouncer_e2e.sh";
       d_badge := Some (L locale (str "tamamlayıcı") (str "complementary")) |}
  else none.

Definition test_taxii (locale : Locale) (reports : val) : res (list test) :=
  let taxii := reports.["taxiiFeed"] in
  if otruthy taxii then
    let pass := is_true taxii.["pass"] in
    push {| d_id := "taxii-feed";
       d_status := if pass then TPass else TFail;
       d_title :=
         L locale
           (str "TAXII/STIX IOC → ban API (confidence gate)")
           (str "TAXII/STIX IOC → ban API (confidence gate)");
       d_purpose :=
         L locale
           (str "STIX 2.1 göstergelerini confidence eşiği ile süzer; düşük güven IOC'leri banlamaz.")
           (str "Filters STIX 2.1 indicators by confidence; skips low-trust IOCs from ban path.");
       d_verdict :=
         if pass then
           L locale
             (tpl [Val (taxii.["mode"] ??? vs "dry-run"); Txt "; "; Val (taxii.["iocs_synced"] ??? vn 0);
                   Txt " IOC (≥"; Val (taxii.["min_confidence"] ??? vn 70); Txt "); atlanan=";
                   Val (taxii.["skipped_low_confidence"] ??? vn 0); Txt "."])
             (tpl [Val (taxii.["mode"] ??? vs "dry-run"); Txt "; "; Val (taxii.["iocs_synced"] ??? vn 0);
                   Txt " IOC (≥"; Val (taxii.["min_confidence"] ??? vn 70); Txt "); skipped=";
                   Val (taxii.["skipped_low_confidence"] ??? vn 0); Txt "."])
         else L locale (str "taxii_feed_e2e FAIL") (str "taxii_feed_e2e FAIL");
       d_metrics :=
         [metric (L locale (str "mod") (str "mode")) (ret (taxii.["mode"] ??? vs "dry-run"));
          metric (str "IOC") (Str (taxii.["iocs_synced"] ??? vn 0));
          metric (L locale (str "min conf") (str "min conf")) (Str (taxii.["min_confidence"] ??? vn 70));
          metric (L locale (str "atlanan") (str "skipped")) (Str (taxii.["skipped_low_confidence"] ??? vn 0))];
       d_date := fmtDate taxii.["date"];
       d_script := str "scripts/taxii_feed_e2e.sh";
       d_badge := None |}
  else none.

Definition test_parserFuzz (locale : Locale) (reports : val) : res (list test) :=
  let parserFuzz := reports.["parserFuzz"] in
  if otruthy parserFuzz then
    let pass := is_true parserFuzz.["pass"] in
    push {| d_id := "parser-fuzz";
       d_status := if pass then TPass else TFail;
       d_title :=
         L locale
           (str "Parser fuzz — malformed corpus + mutasyon")
           (str "Parser fuzz — malformed corpus + mutation");
       d_purpose :=
         L locale
           (str "Deterministik bozuk log satırlarında crash/UB yok; nginx/auth parse güvenilirliği.")
           (str "No crash/UB on deterministic malformed log lines; nginx/auth parse reliability.");
       d_verdict :=
         if pass then
           L locale
             (tpl [Val (parserFuzz.["parse_runs"] ??? vn 0); Txt " parse; corpus=";
                   Val (parserFuzz.["corpus_lines"] ??? vn 0); Txt "; mutasyon=";
                   Val (parserFuzz.["mutations"] ??? vn 0); Txt "."])
             (tpl [Val (parserFuzz.["parse_runs"] ??? vn 0); Txt " parses; corpus=";
                   Val (parserFuzz.["corpus_lines"] ??? vn 0); Txt "; mutations=";
                   Val (parserFuzz.["mutations"] ??? vn 0); Txt "."])
         else L locale (str "parser_fuzz_e2e FAIL") (str "parser_fuzz_e2e FAIL");
       d_metrics :=
         [metric (L locale (str "çalıştırma") (str "runs")) (Str (parserFuzz.["parse_runs"] ??? vn 0));
          metric (str "corpus") (Str (parserFuzz.["corpus_lines"] ??? vn 0));
          metric (L locale (str "mutasyon") (str "mutations")) (Str (parserFuzz.["mutations"] ??? vn 0))];
       d_date := fmtDate parserFuzz.["date"];
       d_script := str "scripts/parser_fuzz_e2e.sh";
       d_badge := None |}
  else none.

Definition test_banAudit (locale : Locale) (reports : val) : res (list test) :=
  let banAudit := reports.["banPolicyAudit"] in
  if otruthy banAudit then
    let pass := is_true banAudit.["pass"] in
    push {| d_id := "ban-policy-audit";
       d_status := if pass then TPass else TFail;
       d_title := L locale (str "Ban policy audit + OPENAPI_STRICT") (str "Ban policy audit + OPENAPI_STRICT");
       d_purpose :=
         L locale
           (str "Ban/unban karar izi JSONL + şema; prod API şema doğrulaması açık.")
           (str "Ban/unban decision trail JSONL + schema; prod API schema validation on.");
       d_verdict :=
         if pass then
           L locale
             (tpl [Txt "karar="; Val (banAudit.["last_decision"] ??? vs "—"); Txt "; risk=";
                   Val (banAudit.["last_risk"] ??? vs "—"); Txt "; OPENAPI_STRICT=";
                   Val (if otruthy banAudit.["openapi_strict_checked"] then vs "1" else vs "0"); Txt "."])
             (tpl [Txt "decision="; Val (banAudit.["last_decision"] ??? vs "—"); Txt "; risk=";
                   Val (banAudit.["last_risk"] ??? vs "—"); Txt "; OPENAPI_STRICT=";
                   Val (if otruthy banAudit.["openapi_strict_checked"] then vs "1" else vs "0"); Txt "."])
         else L locale (str "ban_policy_audit_e2e FAIL") (str "ban_policy_audit_e2e FAIL");
       d_metrics :=
         [metric (L locale (str "satır") (str "lines")) (Str (banAudit.["audit_lines"] ??? vn 0));
          metric (L locale (str "karar") (str "decision")) (ret (banAudit.["last_decision"] ??? vs "—"));
          metric
            (str "OPENAPI_STRICT")
            (ret (if otruthy banAudit.["openapi_strict_checked"] then vs "1" else vs "0"))];
       d_date := fmtDate banAudit.["date"];
       d_script := str "scripts/ban_policy_audit_e2e.sh";
       d_badge := None |}
  else none.

Definition test_distRisk (locale : Locale) (reports : val) : res (list test) :=
  let distRisk := reports.["distRiskProof"] in
  if otruthy distRisk then
    let pass := is_true distRisk.["pass"] in
    push {| d_id := "dist-risk-proof";
       d_status := if pass then TPass else TFail;
       d_title :=
         L locale
           (str "DIST_RISK — dağıtık saldırı skoru kanıtı")
           (str "DIST_RISK — distributed attack score proof");
       d_purpose :=
         L locale
           (str "/24 + UA fingerprint korelasyonu ban risk bonusu; kapalı/açık replay delta ≥10.")
           (str "/24 + UA fingerprint correlation ban risk bonus; off/on replay delta ≥10.");
       d_verdict :=
         if pass then
           L locale
             (tpl [Txt "risk off="; Val (distRisk.["risk_off"] ??? vs "—"); Txt " on=";
                   Val (distRisk.["risk_on"] ??? vs "—"); Txt "; delta="; Val (distRisk.["delta"] ??? vs "—");
                   Txt "."])
             (tpl [Txt "risk off="; Val (distRisk.["risk_off"] ??? vs "—"); Txt " on=";
                   Val (distRisk.["risk_on"] ??? vs "—"); Txt "; delta="; Val (distRisk.["delta"] ??? vs "—");
                   Txt "."])
         else L locale (str "dist_risk_proof_e2e FAIL") (str "dist_risk_proof_e2e FAIL");
       d_metrics :=
         [metric (L locale (str "delta") (str "delta")) (Str (distRisk.["delta"] ??? vs "—"));
          metric (L locale (str "kapalı") (str "off")) (Str (distRisk.["risk_off"] ??? vs "—"));
          metric (L locale (str "açık") (str "on")) (Str (distRisk.["risk_on"] ??? vs "—"))];
       d_date := fmtDate distRisk.["date"];
       d_script := str "scripts/dist_risk_proof_e2e.sh";
       d_badge := None |}
  else none.

Definition test_lineageInc (locale : Locale) (reports : val) : res (list test) :=
  let lineageInc := reports.["lineageIncident"] in
  if otruthy lineageInc then
    let pass := is_true lineageInc.["pass"] in
    push {| d_id := "lineage-incident";
       d_status := if pass then TPass else TFail;
       d_title :=
         L locale
           (str "Lineage → incident otomatik (tek senaryo)")
           (str "Lineage → auto incident (single scenario)");
       d_purpose :=
         L locale
           (str "LOG_SQLI + EBPF_EXECVE sinyallerinden INC-* korelasyonu; tek otomatik incident kanıtı.")
           (str "INC-* correlation from LOG_SQLI + EBPF_EXECVE signals; single auto-incident proof.");
       d_verdict :=
         if pass then
           L locale
             (tpl [Val (lineageInc.["incident_id"] ??? vs "—"); Txt "; aktif=";
                   Val (lineageInc.["active_incidents"] ??? vn 0); Txt "; sinyal=";
                   Exp (let? v := vjoin "+" (lineageInc.["signals"] ??? empty_arr) in ret (v ||| vs "—"));
                   Txt "."])
             (tpl [Val (lineageInc.["incident_id"] ??? vs "—"); Txt "; active=";
                   Val (lineageInc.["active_incidents"] ??? vn 0); Txt "; signals=";
                   Exp (let? v := vjoin "+" (lineageInc.["signals"] ??? empty_arr) in ret (v ||| vs "—"));
                   Txt "."])
         else L locale (str "lineage_incident_e2e FAIL") (str "lineage_incident_e2e FAIL");
       d_metrics :=
         [metric (str "INC") (ret (lineageInc.["incident_id"] ??? vs "—"));
          metric (str "IP") (ret (lineageInc.["ip"] ??? vs "—"));
          metric (L locale (str "aktif") (str "active")) (Str (lineageInc.["active_incidents"] ??? vn 0))];
       d_date := fmtDate lineageInc.["date"];
       d_script := str "scripts/lineage_incident_e2e.sh";
       d_badge := None |}
  else none.

Definition test_k8sAdm (locale : Locale) (reports : val) : res (list test) :=
  let k8sAdm := reports.["k8sAdmission"] in
  if otruthy k8sAdm then
    let mode := k8sAdm.["mode"] ??? vs "standalone" in
    let ok := is_true k8sAdm.["pass"] in
    let status := if negb ok then TFail else if is_lit "skip" mode then TWarn else TPass in
    push {| d_id := "k8s-admission";
       d_status := status;
       d_title :=
         L locale
           (str "K8s admission webhook — deny label + allow")
           (str "K8s admission webhook — deny label + allow");
       d_purpose :=
         L locale
           (str "Operator admission: security.log-guardian.io/deny pod reddi.")
           (str "Operator admission rejects pods with deny security label.");
       d_verdict :=
         if ok then
           L locale
             (tpl [Txt "mode="; Val mode; Txt "; deny label="; Val (k8sAdm.["deny_label"] ??? vs "—"); Txt "."])
             (tpl [Txt "mode="; Val mode; Txt "; deny label="; Val (k8sAdm.["deny_label"] ??? vs "—"); Txt "."])
         else L locale (str "k8s_admission_test FAIL") (str "k8s_admission_test FAIL");
       d_metrics := [metric (str "mode") (ret mode)];
       d_date := fmtDate k8sAdm.["date"];
       d_script := ret (k8sAdm.["script"] ??? vs "scripts/k8s_admission_test.sh");
       d_badge := None |}
  else none.

Definition test_k8sKind (locale : Locale) (reports : val) : res (list test) :=
  let k8sKind := reports.["k8sKind"] in
  if otruthy k8sKind then
    let mode := k8sKind.["mode"] ??? vs "skip" in
    let ok := is_true k8sKind.["pass"] in
    let status :=
      if negb ok then TFail else if existsb ((λ m, is_lit m mode)) skipModes then TWarn else TPass in
    push {| d_id := "k8s-kind-e2e";
       d_status := status;
       d_title :=
         L locale (str "K8s kind cluster — helm dry-run / live") (str "K8s kind cluster — helm dry-run / live");
       d_purpose :=
         L locale
           (str "Opsiyonel Pro: kind + helm/log-guardian canlı veya dry-run kanıtı.")
           (str "Optional Pro: kind cluster + helm chart live or dry-run proof.");
       d_verdict :=
         if ok then
           L locale
             (tpl [Txt "cluster="; Val (k8sKind.["cluster"] ??? vs "—"); Txt "; mode="; Val mode; Txt "."])
             (tpl [Txt "cluster="; Val (k8sKind.["cluster"] ??? vs "—"); Txt "; mode="; Val mode; Txt "."])
         else L locale (str "k8s_kind_e2e FAIL") (str "k8s_kind_e2e FAIL");
       d_metrics :=
         [metric (str "mode") (ret mode);
          metric (L locale (str "cluster") (str "cluster")) (ret (k8sKind.["cluster"] ??? vs "—"))];
       d_date := fmtDate k8sKind.["date"];
       d_script := ret (k8sKind.["script"] ??? vs "scripts/k8s_kind_e2e.sh");
       d_badge := None |}
  else none.

Definition test_meshDocker (locale : Locale) (reports : val) : res (list test) :=
  let meshDocker := reports.["meshEtcdDocker"] in
  if otruthy meshDocker then
    let mode := meshDocker.["mode"] ??? vs "skip" in
    let ok := is_true meshDocker.["pass"] in
    let status := if negb ok then TFail else if is_lit "docker-live" mode then TPass else TWarn in
    push {| d_id := "mesh-etcd-docker";
       d_status := status;
       d_title := L locale (str "Mesh etcd — Docker smoke") (str "Mesh etcd — Docker smoke");
       d_purpose :=
         L locale
           (str "etcd mesh backend docker-compose smoke (opsiyonel filo).")
           (str "etcd mesh backend docker-compose smoke (optional fleet).");
       d_verdict := L locale (tpl [Txt "mode="; Val mode; Txt "."]) (tpl [Txt "mode="; Val mode; Txt "."]);
       d_metrics := [metric (str "mode") (ret mode)];
       d_date := fmtDate meshDocker.["date"];
       d_script := ret (meshDocker.["script"] ??? vs "scripts/mesh_etcd_docker_smoke.sh");
       d_badge := None |}
  else none.

Definition test_meshLive (locale : Locale) (reports : val) : res (list test) :=
  let meshLive := reports.["meshEtcdLive"] in
  if otruthy meshLive then
    let ok := is_true meshLive.["pass"] in
    let mode := meshLive.["mode"] ??? vs "—" in
    push {| d_id := "mesh-etcd-live";
       d_status := if ok then TPass else TFail;
       d_title := L locale (str "Mesh etcd — canlı PUT/GET") (str "Mesh etcd — live PUT/GET");
       d_purpose :=
         L locale
           (str "Docker etcd v3 round-trip; filo politika anahtarı yazma/okuma kanıtı.")
           (str "Docker etcd v3 round-trip; fleet policy key read/write proof.");
       d_verdict :=
         if ok then
           L locale
             (tpl [Txt "mode="; Val mode; Txt "; key="; Val (meshLive.["policy_key"] ??? vs "—");
                   Txt "; round_trip="; Val (if otruthy meshLive.["round_trip"] then vs "1" else vs "0");
                   Txt "."])
             (tpl [Txt "mode="; Val mode; Txt "; key="; Val (meshLive.["policy_key"] ??? vs "—");
                   Txt "; round_trip="; Val (if otruthy meshLive.["round_trip"] then vs "1" else vs "0");
                   Txt "."])
         else L locale (str "mesh_etcd_live_e2e FAIL") (str "mesh_etcd_live_e2e FAIL");
       d_metrics :=
         [metric (str "mode") (ret mode); metric (str "endpoint") (ret (meshLive.["endpoint"] ??? vs "—"))];
       d_date := fmtDate meshLive.["date"];
       d_script := ret (meshLive.["script"] ??? vs "scripts/mesh_etcd_live_e2e.sh");
       d_badge := None |}
  else none.

(** ** The blocks on documents of their types *)

Section typed.
Context (reports : val) (Hr : tyn TestReports reports).

Lemma test_morningOp_ok : block_spec "morning-operator-gate" (is_true reports.["morningOperatorGate"].["pass"]) (λ lo, test_morningOp lo reports).
Proof. unfold test_morningOp. block. Qed.
Lemma test_dashBan_ok : block_spec "dashboard-ban-api" (is_true reports.["dashboardBanApi"].["pass"]) (λ lo, test_dashBan lo reports).
Proof. unfold test_dashBan. block. Qed.
Lemma test_liveDemo_ok : block_spec "dashboard-live-demo" (is_true reports.["dashboardLiveDemo"].["pass"] || (vlt (vn 0) (reports.["dashboardLiveDemo"].["bans_applied"] ??? vn 0) && vlt (vn 0) (reports.["dashboardLiveDemo"].["active_bans_synced"] ??? vn 0))) (λ lo, test_liveDemo lo reports).
Proof. unfold test_liveDemo. block. Qed.
Lemma test_attackMap_ok : block_spec "attack-map" (is_true reports.["attackMap"].["pass"]) (λ lo, test_attackMap lo reports).
Proof. unfold test_attackMap. block. Qed.
Lemma test_siem_ok : block_spec "siem-export" (is_true reports.["siemExport"].["pass"]) (λ lo, test_siem lo reports).
Proof. unfold test_siem. block. Qed.
Lemma test_wasm_ok : block_spec "wasm-native" (is_true reports.["wasm"].["pass"]) (λ lo, test_wasm lo reports).
Proof. unfold test_wasm. block. Qed.
Lemma test_fleetMulti_ok : block_spec "fleet-multi-node" (is_true reports.["fleetMultiNode"].["pass"]) (λ lo, test_fleetMulti lo reports).
Proof. unfold test_fleetMulti. block. Qed.
Lemma test_fleetOffline_ok : block_spec "fleet-offline-gate" (is_true reports.["fleetOfflineGate"].["pass"]) (λ lo, test_fleetOffline lo reports).
Proof. unfold test_fleetOffline. block. Qed.
Lemma test_grafanaProv_ok : block_spec "grafana-alerts" (is_true reports.["grafanaProvision"].["pass"]) (λ lo, test_grafanaProv lo reports).
Proof. unfold test_grafanaProv. block. Qed.
Lemma test_copilotOllama_ok : block_spec "copilot-ollama" (is_true reports.["copilotOllama"].["pass"]) (λ lo, test_copilotOllama lo reports).
Proof. unfold test_copilotOllama. block. Qed.
Lemma test_mktApi_ok : block_spec "marketplace-signed-api" (is_true reports.["marketplaceSignedApi"].["pass"]) (λ lo, test_mktApi lo reports).
Proof. unfold test_mktApi. block. Qed.
Lemma test_complianceExport_ok : block_spec "compliance-export" (is_true reports.["complianceExport"].["pass"]) (λ lo, test_complianceExport lo reports).
Proof. unfold test_complianceExport. block. Qed.
Lemma test_vpsXdp_ok : block_spec "vps-xdp-kernel" (is_true reports.["vpsXdp"].["pass"]) (λ lo, test_vpsXdp lo reports).
Proof. unfold test_vpsXdp. block. Qed.
Lemma test_arm64_ok : block_spec "arm64-build" (is_true reports.["arm64Build"].["pass"]) (λ lo, test_arm64 lo reports).
Proof. unfold test_arm64. block. Qed.
Lemma test_prodStack_ok : block_spec "prod-stack-e2e" (is_true reports.["prodStack"].["pass"]) (λ lo, test_prodStack lo reports).
Proof. unfold test_prodStack. block. Qed.
Lemma test_phase100Fast_ok : block_spec "phase100-fast-gate" (is_true reports.["phase100Fast"].["pass"]) (λ lo, test_phase100Fast lo reports).
Proof. unfold test_phase100Fast. block. Qed.
Lemma test_honeypot_ok : block_spec "honeypot-feed" (is_true reports.["honeypotFeed"].["pass"]) (λ lo, test_honeypot lo reports).
Proof. unfold test_honeypot. block. Qed.
Lemma test_l7Probe_ok : block_spec "l7-probe-prod" (is_true reports.["l7ProbeProd"].["pass"]) (λ lo, test_l7Probe lo reports).
Proof. unfold test_l7Probe. block. Qed.
Lemma test_crowdsec_ok : block_spec "crowdsec-bouncer" (is_true reports.["crowdsecBouncer"].["pass"]) (λ lo, test_crowdsec lo reports).
Proof. unfold test_crowdsec. block. Qed.
Lemma test_taxii_ok : block_spec "taxii-feed" (is_true reports.["taxiiFeed"].["pass"]) (λ lo, test_taxii lo reports).
Proof. unfold test_taxii. block. Qed.
Lemma test_parserFuzz_ok : block_spec "parser-fuzz" (is_true reports.["parserFuzz"].["pass"]) (λ lo, test_parserFuzz lo reports).
Proof. unfold test_parserFuzz. block. Qed.
Lemma test_banAudit_ok : block_spec "ban-policy-audit" (is_true reports.["banPolicyAudit"].["pass"]) (λ lo, test_banAudit lo reports).
Proof. unfold test_banAudit. block. Qed.
Lemma test_distRisk_ok : block_spec "dist-risk-proof" (is_true reports.["distRiskProof"].["pass"]) (λ lo, test_distRisk lo reports).
Proof. unfold test_distRisk. block. Qed.
Lemma test_lineageInc_ok : block_spec "lineage-incident" (is_true reports.["lineageIncident"].["pass"]) (λ lo, test_lineageInc lo reports).
Proof. unfold test_lineageInc. block. Qed.
Lemma test_k8sAdm_ok : block_spec "k8s-admission" (is_true reports.["k8sAdmission"].["pass"]) (λ lo, test_k8sAdm lo reports).
Proof. unfold test_k8sAdm. block. Qed.
Lemma test_k8sKind_ok : block_spec "k8s-kind-e2e" (is_true reports.["k8sKind"].["pass"]) (λ lo, test_k8sKind lo reports).
Proof. unfold test_k8sKind. block. Qed.
Lemma test_meshDocker_ok : block_spec "mesh-etcd-docker" (is_true reports.["meshEtcdDocker"].["pass"]) (λ lo, test_meshDocker lo reports).
Proof. unfold test_meshDocker. block. Qed.
Lemma test_meshLive_ok : block_spec "mesh-etcd-live" (is_true reports.["meshEtcdLive"].["pass"]) (λ lo, test_meshLive lo reports).
Proof. unfold test_meshLive. block. Qed.
End typed.

End blocks.

#[export] Hint Resolve test_morningOp_ok test_dashBan_ok test_liveDemo_ok test_attackMap_ok test_siem_ok test_wasm_ok
  test_fleetMulti_ok test_fleetOffline_ok test_grafanaProv_ok test_copilotOllama_ok test_mktApi_ok
  test_complianceExport_ok test_vpsXdp_ok test_arm64_ok test_prodStack_ok test_phase100Fast_ok
  test_honeypot_ok test_l7Probe_ok test_crowdsec_ok test_taxii_ok test_parserFuzz_ok test_banAudit_ok
  test_distRisk_ok test_lineageInc_ok test_k8sAdm_ok test_k8sKind_ok test_meshDocker_ok test_meshLive_ok : blocks.
