(* ===== verification/ValidationTests.v ===== *)
(** The validation tests page: the evaluator of the reports
    (dashboard/src/lib/validationTests.ts), the alignment with the published proof
    list, the runbook links (lib/gateTestDocs.ts) and the route
    (api/tests/route.ts). *)

From S2P Require Import Prelude JsString JsNum Json Regex Http JsValue Reports ValidationDetection ValidationRuntime ValidationPlatform.

(** [a.localeCompare(b)]: the collation of the process. *)
Class Collation := locale_compare : jstring → jstring → Z.

(** Display positions, in hundredths. *)
Definition TEST_DISPLAY_ORDER : list (jstring * Z) :=
  [("post-install-verify", 100); ("local-security-audit", 200); ("api-fail-closed", 300);
   ("auth-log-ingest", 400); ("journald-ingest", 500); ("helm-install-smoke", 520); ("k8s-admission", 530);
   ("k8s-kind-e2e", 540); ("mesh-etcd-docker", 550); ("mesh-etcd-live", 555); ("siem-export", 600);
   ("honeypot-feed", 650); ("crowdsec-bouncer", 700); ("taxii-feed", 720); ("parser-fuzz", 725);
   ("ban-policy-audit", 727); ("lineage-incident", 728); ("l7-probe-prod", 750); ("wasm-native", 800);
   ("attack-map", 800); ("fleet-multi-node", 900); ("fleet-offline-gate", 920); ("grafana-alerts", 1000);
   ("copilot-ollama", 1100); ("marketplace-signed-api", 1200); ("compliance-export", 1300);
   ("vps-xdp-kernel", 1400); ("arm64-build", 1500); ("prod-stack-e2e", 1600); ("phase100-fast-gate", 1700);
   ("vm-demo-gate", 1800); ("soak-stability", 1900)].
Definition card_id (t : test) : jstring := match (Some t).["id"] with Some (JStr i) => i | _ => [] end.
Definition position (t : test) : Z := assoc (card_id t) TEST_DISPLAY_ORDER ?? 5000.

Section evaluate.
Context `{DateFormat} `{Collation}.

(** The comparator of the final sort, as [compare(a, b) <= 0]. *)
Definition display_le (a b : test) : bool :=
  if position a =? position b then locale_compare (card_id a) (card_id b) <=? 0
  else position a - position b <=? 0.

(** The blocks in the order of the function. *)
Definition blocks : list (Locale → val → res (list test)) :=
  [test_crs; test_real; test_real10k; test_liveAtk; test_owasp; test_trHost; test_ti; test_consult; test_hybrid;
   test_banProf; test_ipv6; test_apiMut; test_apiMutAudit; test_dashLoginRl; test_hardeningRb; test_jwtIdle;
   test_mtlsExp; test_banMtls; test_soarGate; test_ja3; test_ja3Live; test_fpCluster; test_lineageLive; test_fp;
   test_soakShort; test_soak; test_iso; test_bench; test_ban; test_live; test_whRoute; test_tgLive; test_tgAck;
   test_tgUndo; test_tgSoc; test_bansTg; test_edgeGate; test_intelDb; test_grafanaParity; test_webPreview;
   test_escGate; test_vmPrep; test_docsCons; test_vmFleet; test_laptopExc; test_liveSite; test_releaseReady;
   test_demoGate; test_shipGate; test_videoGate; test_githubShip; test_laptopCore; test_morningOp; test_dashBan;
   test_liveDemo; test_attackMap; test_siem; test_wasm; test_fleetMulti; test_fleetOffline; test_grafanaProv;
   test_copilotOllama; test_mktApi; test_complianceExport; test_vpsXdp; test_arm64; test_prodStack;
   test_phase100Fast; test_honeypot; test_l7Probe; test_crowdsec; test_taxii; test_parserFuzz; test_banAudit;
   test_distRisk; test_lineageInc; test_k8sAdm; test_k8sKind; test_meshDocker; test_meshLive].
Definition evaluateValidationTests (reports : val) (locale : Locale) : res (list test) :=
  let? out := rseq (map (λ block, block locale reports) blocks) in
  Ok (sort_by display_le (concat out)).
End evaluate.

(** ** Alignment with the published list *)

Definition proofCardToResult (card : json) (locale : Locale) : res test :=
  let c := Some card in
  let? title := L locale (ret ((c.["title"] ??? c.["id"]) ??? vs ""))
                         (ret ((c.["titleEn"] ??? c.["title"]) ??? vs "")) in
  let? purpose := L locale (ret (c.["purpose"] ??? vs "")) (ret ((c.["purposeEn"] ??? c.["purpose"]) ??? vs "")) in
  let? verdict := L locale (ret (c.["verdict"] ??? vs "")) (ret ((c.["verdictEn"] ??? c.["verdict"]) ??? vs "")) in
  let? badge := if otruthy c.["badge"] then L locale (ret c.["badge"]) (ret (c.["badgeEn"] ??? c.["badge"]))
                else ret None in
  Ok (JObject [("id", vs (ostr (c.["id"] ??? vs ""))); ("status", c.["status"] ??? vs "pending"); ("title", title);
               ("purpose", purpose); ("verdict", verdict); ("metrics", c.["metrics"] ??? empty_arr);
               ("date", c.["date"]); ("script", c.["script"] ??? vs ""); ("badge", badge)]).

(** [new Map(evaluated.map((t) => [t.id, t])).get(id)]: the last of a name. *)
Definition by_id (evaluated : list test) (id : jstring) : option test :=
  jfind (λ t, is_lit id (Some t).["id"]) (rev evaluated).

(** One card of the list; [null] has no [id]. *)
Definition align_card (evaluated : list test) (locale : Locale) (card : json) : res test :=
  let? i := dot "id" card in
  match by_id evaluated (ostr (i ??? vs "")) with
  | Some t => Ok t
  | None => proofCardToResult card locale
  end.
Definition alignTestsToProof (evaluated : list test) (proofTests : list json) (locale : Locale) : res (list test) :=
  let? l := rseq (map (align_card evaluated locale) proofTests) in
  Ok (jfilter (λ t, otruthy (Some t).["id"]) l).

(** ** Runbook links *)

Definition REPO_DOCS : jstring := "https://github.com/kurtulusutkucenik/Linux-Log-Guardian/blob/main/docs".
Record GateDoc := { gd_href : jstring; gd_labelTr : jstring; gd_labelEn : jstring }.
Definition gate_doc (id path labelTr labelEn : jstring) : jstring * GateDoc :=
  (id, {| gd_href := REPO_DOCS ++ path; gd_labelTr := labelTr; gd_labelEn := labelEn |}).
Definition GATE_TEST_DOCS : list (jstring * GateDoc) :=
  [gate_doc "morning-operator-gate" "/LAPTOP_OPS.md#gate-deep-linkleri" "LAPTOP_OPS — sabah gate" "LAPTOP_OPS — morning gate";
   gate_doc "laptop-core-gate" "/LAPTOP_OPS.md#gate-deep-linkleri" "LAPTOP_OPS — laptop core" "LAPTOP_OPS — laptop core";
   gate_doc "edge-protection-gate" "/EDGE_PROTECTION.md" "EDGE_PROTECTION" "EDGE_PROTECTION";
   gate_doc "intel-ban-db" "/EDGE_PROTECTION.md" "EDGE_PROTECTION — ban DB TTL" "EDGE_PROTECTION — ban DB TTL";
   gate_doc "telegram-soc-gate" "/HOSTING_RUNBOOK_TR.md" "HOSTING_RUNBOOK — Telegram SOC" "HOSTING_RUNBOOK — Telegram SOC";
   gate_doc "webhook-route-proof" "/WEBHOOK_SETUP.md" "WEBHOOK_SETUP — queue / route" "WEBHOOK_SETUP — queue / route";
   gate_doc "webhook-telegram-live" "/WEBHOOK_SETUP.md" "WEBHOOK_SETUP" "WEBHOOK_SETUP";
   gate_doc "webhook-telegram-ack-live" "/WEBHOOK_SETUP.md" "WEBHOOK_SETUP" "WEBHOOK_SETUP";
   gate_doc "bans-telegram-ops" "/HOSTING_RUNBOOK_TR.md" "HOSTING_RUNBOOK — /bans Telegram" "HOSTING_RUNBOOK — /bans Telegram";
   gate_doc "nginx-hybrid" "/EDGE_PROTECTION.md" "EDGE_PROTECTION — nginx hybrid" "EDGE_PROTECTION — nginx hybrid";
   gate_doc "ipv6-ban-e2e" "/VPS_SETUP.md" "VPS_SETUP — IPv6 ban" "VPS_SETUP — IPv6 ban";
   gate_doc "api-mutation-token-e2e" "/BAN_API_MTLS_DESIGN.md" "BAN_API — mutation token split" "BAN_API — mutation token split";
   gate_doc "dashboard-login-rl-e2e" "/SECURITY_PROFILES.md" "SECURITY_PROFILES — login rate limit" "SECURITY_PROFILES — login rate limit";
   gate_doc "hardening-rollback-gate" "/HARDENING_ROLLBACK.md" "HARDENING_ROLLBACK — geri alma" "HARDENING_ROLLBACK — rollback";
   gate_doc "dashboard-jwt-idle-gate" "/INTERNET_FACING_SECURITY_CHAIN.md" "JWT idle — oturum zaman aşımı" "JWT idle — session timeout";
   gate_doc "mtls-cert-expiry" "/MTLS_ROTATION_RUNBOOK.md" "MTLS_ROTATION — sertifika süresi" "MTLS_ROTATION — cert expiry";
   gate_doc "ban-api-mtls" "/BAN_API_MTLS_DESIGN.md" "BAN_API — mTLS edge lab" "BAN_API — mTLS edge lab";
   gate_doc "enterprise-soar-gate" "/BAN_API_MTLS_DESIGN.md" "BAN_API — Enterprise SOAR operatör" "BAN_API — Enterprise SOAR operator";
   gate_doc "crowdsec-bouncer" "/CROWDSEC_INTEGRATION.md" "CROWDSEC_INTEGRATION" "CROWDSEC_INTEGRATION";
   gate_doc "website-preview-gate" "/LAPTOP_OPS.md#gate-deep-linkleri" "LAPTOP_OPS — site preview" "LAPTOP_OPS — site preview";
   gate_doc "website-live-gate" "/WEBSITE_DEPLOY.md" "WEBSITE_DEPLOY" "WEBSITE_DEPLOY";
   gate_doc "presentation-ship-gate" "/LAPTOP_OPS.md#gate-deep-linkleri" "LAPTOP_OPS — sunum gate" "LAPTOP_OPS — presentation gate";
   gate_doc "enterprise-escalation-gate" "/ENTERPRISE_ESCALATION.md" "ENTERPRISE_ESCALATION" "ENTERPRISE_ESCALATION";
   gate_doc "vm-fleet-gate" "/ENTERPRISE_SUPPORT.md" "ENTERPRISE_SUPPORT — filo" "ENTERPRISE_SUPPORT — fleet";
   gate_doc "fleet-multi-node" "/ENTERPRISE_SUPPORT.md" "ENTERPRISE_SUPPORT — filo e2e" "ENTERPRISE_SUPPORT — fleet e2e";
   gate_doc "fleet-offline-gate" "/FLEET_ONLINE.md" "FLEET_ONLINE — offline gate" "FLEET_ONLINE — offline gate";
   gate_doc "laptop-excellence-gate" "/LAPTOP_OPS.md" "LAPTOP_OPS" "LAPTOP_OPS";
   gate_doc "release-ready-gate" "/LAPTOP_OPS.md" "LAPTOP_OPS — release" "LAPTOP_OPS — release";
   gate_doc "github-ship-gate" "/LAPTOP_OPS.md" "LAPTOP_OPS — GitHub ship" "LAPTOP_OPS — GitHub ship";
   gate_doc "grafana-parity-gate" "/GRAFANA_SETUP.md" "GRAFANA_SETUP" "GRAFANA_SETUP";
   gate_doc "demo-rehearsal-gate" "/LAPTOP_OPS.md" "LAPTOP_OPS — demo prova" "LAPTOP_OPS — demo rehearsal"].
Definition webhookSetupDocHref : jstring := REPO_DOCS ++ "/WEBHOOK_SETUP.md".

(** A name of the object's prototype finds a function without these fields, which
    leaves the printed card as it is. *)
Definition enrich_card (locale : Locale) (t : test) : test :=
  match t, assoc (card_id t) GATE_TEST_DOCS with
  | JObj fs, Some doc =>
      JObj (put_field "docLabel" (JStr (if is_tr locale then gd_labelTr doc else gd_labelEn doc))
           (put_field "docHref" (JStr (gd_href doc)) fs))
  | _, _ => t
  end.
Definition enrichGateTestDocs (tests : list test) (locale : Locale) : list test := map (enrich_card locale) tests.

(** ** GET /api/tests *)

(** The reports and the files they are read from, in the order of the object. *)
Definition REPORT_FILES : list (jstring * jstring) :=
  [("opsGates", "ops-gate-report.json"); ("crs", "crs-parity-report.json"); ("fp", "fp-report.json");
   ("realAttack", "real-attack-report.json"); ("realAttack10k", "real-attack-report-10k.json");
   ("liveAttack", "live-attack-report.json"); ("ja3Cluster", "ja3-cluster-report.json");
   ("ja3ClusterBanLive", "ja3-cluster-ban-live.json"); ("fpClusterTrust", "fp-cluster-trust-report.json");
   ("lineageLive", "lineage-live-report.json"); ("nginxConsult", "nginx-inline-consult-report.json");
   ("nginxHybrid", "nginx-hybrid-report.json"); ("banProfileE2e", "ban-profile-e2e-report.json");
   ("ipv6BanE2e", "ipv6-ban-e2e-report.json"); ("apiMutationTokenE2e", "api-mutation-token-e2e-report.json");
   ("apiMutationAuditE2e", "api-mutation-audit-e2e-report.json");
   ("dashboardLoginRlE2e", "dashboard-login-rl-e2e-report.json");
   ("hardeningRollbackGate", "hardening-rollback-gate-report.json");
   ("dashboardJwtIdleGate", "dashboard-jwt-idle-gate-report.json");
   ("mtlsCertExpiry", "mtls-cert-expiry-report.json"); ("banApiMtls", "ban-api-mtls-report.json");
   ("caddyMtlsStatus", "caddy-mtls-status.json"); ("enterpriseSoarGate", "enterprise-soar-gate-report.json");
   ("owaspCorpus", "owasp-corpus-report.json"); ("trHostingCorpus", "tr-hosting-corpus-report.json");
   ("customerCorpus", "customer-corpus-report.json"); ("threatIntelSync", "threat-intel-sync-report.json")].
Definition REPORT_FILES2 : list (jstring * jstring) :=
  [("soakShort", "soak-report.short.json"); ("vpsRemote", "vps-remote-status-report.json");
   ("isolation", "tenant-isolation-report.json"); ("bench", "bench-vs-modsec.json");
   ("ban", "bench-ban-latency.json"); ("live", "guardian-status.json");
   ("dashboardBanApi", "dashboard-ban-api-report.json"); ("dashboardLiveDemo", "dashboard-live-demo.json");
   ("attackMap", "attack-map-report.json"); ("webhookRoute", "webhook-route-proof-report.json");
   ("webhookTelegramLive", "webhook-telegram-live-report.json");
   ("webhookTelegramAckLive", "webhook-telegram-ack-live-report.json");
   ("telegramOperatorUndoE2e", "telegram-operator-undo-e2e-report.json");
   ("telegramSocGate", "telegram-soc-gate-report.json"); ("bansTelegramOps", "bans-telegram-ops-report.json");
   ("edgeProtectionGate", "edge-protection-gate-report.json"); ("intelBanDb", "intel-ban-db-report.json");
   ("grafanaParityGate", "grafana-parity-gate-report.json");
   ("websitePreviewGate", "website-preview-gate-report.json");
   ("enterpriseEscalationGate", "enterprise-escalation-gate-report.json");
   ("vmHostPrepGate", "vm-host-prep-gate-report.json");
   ("docsConsistencyGate", "docs-consistency-gate-report.json"); ("vmFleetGate", "vm-fleet-gate-report.json");
   ("laptopExcellenceGate", "laptop-excellence-gate-report.json");
   ("websiteLiveGate", "website-live-gate-report.json"); ("releaseReadyGate", "release-ready-gate-report.json");
   ("demoRehearsalGate", "demo-rehearsal-gate-report.json");
   ("presentationShipGate", "presentation-ship-gate-report.json");
   ("demoVideoGate", "demo-video-gate-report.json"); ("githubShipGate", "github-ship-gate-report.json");
   ("laptopCoreGate", "laptop-core-gate-report.json");
   ("morningOperatorGate", "morning-operator-gate-report.json"); ("authLog", "auth-log-report.json");
   ("siemExport", "siem-export-report.json"); ("honeypotFeed", "honeypot-feed-report.json");
   ("l7ProbeProd", "l7-probe-prod-report.json"); ("crowdsecBouncer", "crowdsec-bouncer-report.json");
   ("taxiiFeed", "taxii-feed-report.json"); ("parserFuzz", "parser-fuzz-report.json");
   ("banPolicyAudit", "ban-policy-audit-report.json"); ("distRiskProof", "dist-risk-proof-report.json");
   ("lineageIncident", "lineage-incident-report.json"); ("wasm", "wasm-status.json");
   ("fleetMultiNode", "fleet-multi-node-report.json"); ("fleetOfflineGate", "fleet-offline-gate-report.json");
   ("grafanaProvision", "grafana-provision-report.json"); ("copilotOllama", "copilot-ollama-report.json");
   ("marketplaceSignedApi", "marketplace-signed-api-report.json");
   ("complianceExport", "compliance-export-report.json"); ("vpsXdp", "vps-xdp-report.json");
   ("arm64Build", "arm64-build-report.json"); ("prodStack", "prod-stack-e2e-report.json");
   ("phase100Fast", "phase100-fast-gate-report.json"); ("k8sAdmission", "k8s-admission-report.json");
   ("k8sKind", "k8s-kind-e2e-report.json"); ("meshEtcdDocker", "mesh-etcd-docker-report.json");
   ("meshEtcdLive", "mesh-etcd-live-report.json")].
Section route.
Context `{DateFormat} `{Collation}.
Context (w : world) (e : env) (cwd : jstring).

Definition tests_readJson (name : jstring) : json :=
  readFirst w (match truthy_str (e "BENCH_DATA_DIR") with Some d => [d] | None => [] end ++
               ["/data/lg"; cwd; cwd ++ "/.."]) name.

(** The soak report with the longest duration: document, source, duration. *)
Definition soak_files : list (jstring * jstring) :=
  [("vps-soak-report.json", "vps-remote"); ("soak-report.json", "laptop"); ("soak-report.short.json", "short")].
Definition better_soak (best : option (json * jstring * val)) (file : jstring * jstring) :
    option (json * jstring * val) :=
  let data := tests_readJson file.1 in
  if negb (truthy data) then best
  else let sec := (Some data).["duration_sec"] ??? vn 0 in
       match best with
       | Some (_, _, best_sec) => if vlt (best_sec ??? vn 0) sec then Some (data, file.2, sec) else best
       | None => Some (data, file.2, sec)
       end.
Definition readBestSoak : option (json * jstring) :=
  match fold_left better_soak soak_files None with
  | Some (data, source, _) => Some (data, source)
  | None => None
  end.

Definition read_entry (kf : jstring * jstring) : jstring * val := (kf.1, Some (tests_readJson kf.2)).
Definition tests_reports : json :=
  JObject (map read_entry REPORT_FILES ++
           [("soak", fst <$> readBestSoak); ("soakSource", Some (default JNull (JStr ∘ snd <$> readBestSoak)))] ++
           map read_entry REPORT_FILES2).

Definition count_status (st : jstring) (tests : list test) : json :=
  jint (Z.of_nat (length (jfilter (λ t, is_lit st (Some t).["status"]) tests))).

Definition vps_soak_remote (reports : val) : json :=
  let soak := reports.["soak"] in
  if is_lit "vps-remote" reports.["soakSource"] && is_true soak.["pass"] then
    JObject [("pass", vb true); ("hours", soak.["duration_hours"] ??? vn 72); ("samples", soak.["samples"] ??? vn 0);
             ("failures", soak.["failures"] ??? vn 0); ("host", reports.["vpsRemote"].["host"] ??? vnull);
             ("hostname", reports.["vpsRemote"].["hostname"] ??? vnull);
             ("xdp_mode", reports.["vpsRemote"].["xdp_mode"] ??? vnull)]
  else JNull.
Definition morning_operator_banner (reports : val) : json :=
  let m := reports.["morningOperatorGate"] in
  if is_true m.["pass"] then
    JObject [("pass", vb true); ("proof_pass", m.["proof_pass"] ??? vnull);
             ("proof_tests", m.["proof_tests"] ??? vnull);
             ("proof_freshness_ok", vb (is_true m.["proof_freshness_ok"]))]
  else JNull.
Definition half : val := vnum (num_of_decimal false 5 (-1)).
Definition eps_smoke_banner : json :=
  let r := Some (tests_readJson "webhook-eps-smoke-report.json") in
  if is_true r.["pass"] && vle (vn 1) (r.["lines_delta"] ??? vn 0) &&
     (vlt (vn 0) (r.["peak_eps"] ??? vn 0) || vlt half (r.["derived_eps"] ??? vn 0)) then
    JObject [("pass", vb true); ("lines_delta", r.["lines_delta"] ??? vnull);
             ("peak_eps", r.["peak_eps"] ??? vnull); ("derived_eps", r.["derived_eps"] ??? vnull)]
  else JNull.

Definition tests_GET (req : request) : res response :=
  let locale := match query "locale" req with Some l => if l =s "en" then en else tr | None => tr end in
  let reports := Some tests_reports in
  let? evaluated := evaluateValidationTests reports locale in
  let proofTests := match (Some (tests_readJson "competitive-proof.json")).["validationTests"] with
                    | Some (JArr l) => Some l | _ => None end in
  let? proofTestIds :=
    match proofTests with
    | Some l => let? ids := rseq (map (λ t, let? i := dot "id" t in Ok (ostr (i ??? vs ""))) l) in
                Ok (JArr (map JStr (jfilter nonempty ids)))
    | None => Ok JNull
    end in
  let? aligned :=
    match proofTests with
    | Some ((_ :: _) as l) => alignTestsToProof evaluated l locale
    | _ => Ok evaluated
    end in
  let tests := enrichGateTestDocs aligned locale in
  let total := Z.of_nat (length tests) in
  let proofExpected := (λ l, Z.of_nat (length l)) <$> proofTests in
  Ok (with_cache "no-store, max-age=0" (respond 200 (JObj
    [("available", JBool (0 <? total)); ("tests", JArr tests);
     ("summary", JObj [("total", jint total); ("passed", count_status "pass" tests);
                       ("failed", count_status "fail" tests); ("warned", count_status "warn" tests);
                       ("pending", count_status "pending" tests)]);
     ("proof_expected", match proofExpected with Some n => jint n | None => JNull end);
     ("proof_test_ids", proofTestIds);
     ("parity_ok", JBool (match proofExpected with Some n => total =? n | None => true end));
     ("vps_soak_remote", vps_soak_remote reports);
     ("morning_operator_banner", morning_operator_banner reports);
     ("eps_smoke_banner", eps_smoke_banner);
     ("hint", if total =? 0 then JStr "Run: STABILITY=1 bash scripts/full_proof_pack.sh" else JNull)]))).
End route.

(** ** The evaluator on documents of their types *)

(** When a card may say that its test passed: for most tests the report says so
    itself; the others have their own rule, and the benchmark card always does. *)
Definition gates (reports : val) : list (jstring * bool) :=
  [("crs-parity", is_true reports.["crs"].["pass"]);
   ("real-attack", is_true reports.["realAttack"].["pass"]);
   ("real-attack-10k", is_true reports.["realAttack10k"].["pass"]);
   ("live-attack", is_true reports.["liveAttack"].["pass"]);
   ("owasp-corpus", is_true reports.["owaspCorpus"].["pass"]);
   ("tr-hosting-corpus", is_true reports.["trHostingCorpus"].["pass"]);
   ("threat-intel-sync", is_true reports.["threatIntelSync"].["pass"]);
   ("nginx-consult", is_true reports.["nginxConsult"].["pass"]);
   ("nginx-hybrid", is_true reports.["nginxHybrid"].["pass"]);
   ("ban-profile-e2e", is_true reports.["banProfileE2e"].["pass"]);
   ("ipv6-ban-e2e", is_true reports.["ipv6BanE2e"].["pass"]);
   ("api-mutation-token-e2e", is_true reports.["apiMutationTokenE2e"].["pass"]);
   ("api-mutation-audit-e2e", is_true reports.["apiMutationAuditE2e"].["pass"]);
   ("dashboard-login-rl-e2e", is_true reports.["dashboardLoginRlE2e"].["pass"]);
   ("hardening-rollback-gate", is_true reports.["hardeningRollbackGate"].["pass"]);
   ("dashboard-jwt-idle-gate", is_true reports.["dashboardJwtIdleGate"].["pass"]);
   ("mtls-cert-expiry", is_true reports.["mtlsCertExpiry"].["pass"]);
   ("ban-api-mtls", is_true reports.["banApiMtls"].["pass"]);
   ("enterprise-soar-gate", is_true reports.["enterpriseSoarGate"].["pass"]);
   ("ja3-cluster", is_true reports.["ja3Cluster"].["pass"]);
   ("ja3-cluster-ban-live", is_true reports.["ja3ClusterBanLive"].["pass"]);
   ("fp-cluster-trust", is_true reports.["fpClusterTrust"].["pass"]);
   ("lineage-live", is_true reports.["lineageLive"].["pass"]);
   ("fp-rate", vlt (reports.["fp"].["benign"].["fp_rate_pct"] ??? vn 0) (reports.["fp"].["target_fp_pct"] ??? vn 5));
   ("soak-short-gate", is_true reports.["soakShort"].["pass"]);
   ("soak-stability", soak_passed reports.["soak"]);
   ("tenant-isolation", is_true reports.["isolation"].["pass"]);
   ("bench-eps", true);
   ("ban-latency", is_true reports.["ban"].["pass"] || vle reports.["ban"].["ban_latency_ms"] (reports.["ban"].["target_ms"] ??? vn 75));
   ("live-pipeline", (is_lit "ok" reports.["live"].["ipc"] || is_lit "connected" reports.["live"].["ipc"]) && ((reports.["live"].["ban_pipeline"].["failed"] ??? vn 0) === vn 0));
   ("webhook-route-proof", is_true reports.["webhookRoute"].["pass"]);
   ("webhook-telegram-live", is_true reports.["webhookTelegramLive"].["pass"]);
   ("webhook-telegram-ack-live", is_true reports.["webhookTelegramAckLive"].["pass"]);
   ("telegram-operator-undo-e2e", is_true reports.["telegramOperatorUndoE2e"].["pass"]);
   ("telegram-soc-gate", is_true reports.["telegramSocGate"].["pass"]);
   ("bans-telegram-ops", is_true reports.["bansTelegramOps"].["pass"]);
   ("edge-protection-gate", is_true reports.["edgeProtectionGate"].["pass"]);
   ("intel-ban-db", is_true reports.["intelBanDb"].["pass"]);
   ("grafana-parity-gate", is_true reports.["grafanaParityGate"].["pass"]);
   ("website-preview-gate", is_true reports.["websitePreviewGate"].["pass"]);
   ("enterprise-escalation-gate", is_true reports.["enterpriseEscalationGate"].["pass"]);
   ("vm-host-prep-gate", is_true reports.["vmHostPrepGate"].["pass"]);
   ("docs-consistency-gate", is_true reports.["docsConsistencyGate"].["pass"]);
   ("vm-fleet-gate", is_true reports.["vmFleetGate"].["pass"] || is_true reports.["vmFleetGate"].["skipped"]);
   ("laptop-excellence-gate", is_true reports.["laptopExcellenceGate"].["pass"]);
   ("website-live-gate", is_true reports.["websiteLiveGate"].["pass"]);
   ("release-ready-gate", is_true reports.["releaseReadyGate"].["pass"]);
   ("demo-rehearsal-gate", is_true reports.["demoRehearsalGate"].["pass"]);
   ("presentation-ship-gate", is_true reports.["presentationShipGate"].["pass"]);
   ("demo-video-gate", is_true reports.["demoVideoGate"].["pass"]);
   ("github-ship-gate", is_true reports.["githubShipGate"].["pass"]);
   ("laptop-core-gate", is_true reports.["laptopCoreGate"].["pass"]);
   ("morning-operator-gate", is_true reports.["morningOperatorGate"].["pass"]);
   ("dashboard-ban-api", is_true reports.["dashboardBanApi"].["pass"]);
   ("dashboard-live-demo", is_true reports.["dashboardLiveDemo"].["pass"] || (vlt (vn 0) (reports.["dashboardLiveDemo"].["bans_applied"] ??? vn 0) && vlt (vn 0) (reports.["dashboardLiveDemo"].["active_bans_synced"] ??? vn 0)));
   ("attack-map", is_true reports.["attackMap"].["pass"]);
   ("siem-export", is_true reports.["siemExport"].["pass"]);
   ("wasm-native", is_true reports.["wasm"].["pass"]);
   ("fleet-multi-node", is_true reports.["fleetMultiNode"].["pass"]);
   ("fleet-offline-gate", is_true reports.["fleetOfflineGate"].["pass"]);
   ("grafana-alerts", is_true reports.["grafanaProvision"].["pass"]);
   ("copilot-ollama", is_true reports.["copilotOllama"].["pass"]);
   ("marketplace-signed-api", is_true reports.["marketplaceSignedApi"].["pass"]);
   ("compliance-export", is_true reports.["complianceExport"].["pass"]);
   ("vps-xdp-kernel", is_true reports.["vpsXdp"].["pass"]);
   ("arm64-build", is_true reports.["arm64Build"].["pass"]);
   ("prod-stack-e2e", is_true reports.["prodStack"].["pass"]);
   ("phase100-fast-gate", is_true reports.["phase100Fast"].["pass"]);
   ("honeypot-feed", is_true reports.["honeypotFeed"].["pass"]);
   ("l7-probe-prod", is_true reports.["l7ProbeProd"].["pass"]);
   ("crowdsec-bouncer", is_true reports.["crowdsecBouncer"].["pass"]);
   ("taxii-feed", is_true reports.["taxiiFeed"].["pass"]);
   ("parser-fuzz", is_true reports.["parserFuzz"].["pass"]);
   ("ban-policy-audit", is_true reports.["banPolicyAudit"].["pass"]);
   ("dist-risk-proof", is_true reports.["distRiskProof"].["pass"]);
   ("lineage-incident", is_true reports.["lineageIncident"].["pass"]);
   ("k8s-admission", is_true reports.["k8sAdmission"].["pass"]);
   ("k8s-kind-e2e", is_true reports.["k8sKind"].["pass"]);
   ("mesh-etcd-docker", is_true reports.["meshEtcdDocker"].["pass"]);
   ("mesh-etcd-live", is_true reports.["meshEtcdLive"].["pass"])].
Section evaluated.
Context `{DateFormat} `{Collation}.
Context (reports : val) (Hr : tyn TestReports reports).

Lemma blocks_spec : Forall2 (λ g b, block_spec g.1 g.2 (λ lo, b lo reports)) (gates reports) blocks.
Proof. unfold gates, blocks. repeat (constructor; [cbn [fst snd]; solve [auto with blocks nocore]|]). constructor. Qed.

Definition gate_key (g : jstring * bool) (p : list card_key) : Prop :=
  p = [] ∨ ∃ st date scr, p = [(g.1, st, date, scr)] ∧ (st = TPass → g.2 = true).

(** The cards of all blocks, for both languages at once. *)
Lemma blocks_keys gs bs : Forall2 (λ g b, block_spec g.1 g.2 (λ lo, b lo reports)) gs bs →
  ∃ ps, Forall2 gate_key gs ps ∧
    ∀ lo : Locale, ∃ outs, rseq (map (λ b, b lo reports) bs) = Ok outs ∧ Forall typed_test (concat outs) ∧
      key <$> concat outs = key_of <$> concat ps.
Proof.
  induction 1 as [|g b gs bs (p & Hb & Hp) _ (ps & Hps & IH)].
  { exists []. split; [constructor|]. intros lo. by exists []. }
  exists (p :: ps). split; [by constructor|]. intros lo.
  destruct (Hb lo) as (l & Hl & Ht & Hk), (IH lo) as (outs & Ho & Hto & Hko).
  exists (l :: outs). cbn [map rseq]. rewrite Hl, Ho. split; [done|]. cbn [concat]. split; [by apply Forall_app|].
  by rewrite !fmap_app, Hk, Hko.
Qed.

Lemma gate_keys_sub gs ps : Forall2 gate_key gs ps → (λ k, k.1.1.1) <$> concat ps `sublist_of` gs.*1.
Proof.
  induction 1 as [|g p gs ps [->|(st & d & sc & -> & _)] _ IH]; cbn; [done|by constructor|by constructor].
Qed.
Lemma gate_keys_pass gs ps k : Forall2 gate_key gs ps → k ∈ concat ps → k.1.1.2 = TPass → (k.1.1.1, true) ∈ gs.
Proof.
  intros HF Hk Hst. induction HF as [|[i g] p gs ps Hp _ IH]; cbn in Hk; [by apply elem_of_nil in Hk|].
  apply elem_of_app in Hk as [Hk|Hk]; [|right; by apply IH].
  destruct Hp as [->|(st & d & sc & -> & Hg)]; [by apply elem_of_nil in Hk|].
  apply list_elem_of_singleton in Hk as ->. cbn in *. rewrite (Hg Hst). left.
Qed.

Definition key_id (k : val * val * val * val) : jstring := match k.1.1.1 with Some (JStr i) => i | _ => [] end.
Lemma card_id_key t : card_id t = key_id (key t).
Proof. done. Qed.
Definition key_position (k : val * val * val * val) : Z := assoc (key_id k) TEST_DISPLAY_ORDER ?? 5000.
Definition key_display_le (a b : val * val * val * val) : bool :=
  if key_position a =? key_position b then locale_compare (key_id a) (key_id b) <=? 0
  else key_position a - key_position b <=? 0.

(** The list the evaluator returns: typed cards, whose keys are the sorted keys of
    the blocks in either language. *)
Lemma evaluate_keys : ∃ ps, Forall2 gate_key (gates reports) ps ∧
  ∀ lo, ∃ l, evaluateValidationTests reports lo = Ok l ∧ Forall typed_test l ∧
    key <$> l = sort_by key_display_le (key_of <$> concat ps) ∧ sorted_by position l.
Proof.
  destruct (blocks_keys _ _ blocks_spec) as (ps & Hps & Hk). exists ps. split; [done|]. intros lo.
  destruct (Hk lo) as (outs & Ho & Ht & Hkeys). unfold evaluateValidationTests. rewrite Ho. cbn.
  eexists. split; [done|]. split; [by rewrite sort_by_perm|]. split.
  - by rewrite (sort_by_fmap key display_le key_display_le), Hkeys.
  - apply sort_by_refines; intros a b; unfold display_le; split_if; intros; bprop; lia.
Qed.

Lemma gates_distinct : NoDup ((gates reports).*1).
Proof. apply (bool_decide_unpack _). by vm_compute. Qed.

(** On reports of their declared types the evaluator does not throw: it returns
    cards of type [ValidationTestResult], at most one per test, in the order of
    their display positions. *)
Theorem evaluate_typed lo : ∃ l, evaluateValidationTests reports lo = Ok l ∧
  Forall typed_test l ∧ NoDup (card_id <$> l) ∧ sorted_by position l.
Proof.
  destruct evaluate_keys as (ps & Hps & Hk). destruct (Hk lo) as (l & Hl & Ht & Hkl & Hso).
  exists l. splits; try done.
  replace (card_id <$> l) with (key_id <$> (key <$> l)) by (by rewrite <- list_fmap_compose).
  rewrite Hkl, sort_by_perm, <- list_fmap_compose.
  replace ((key_id ∘ key_of) <$> concat ps) with ((λ k : card_key, k.1.1.1) <$> concat ps).
  - eapply sublist_NoDup; [apply gates_distinct|by apply gate_keys_sub].
  - apply list_fmap_ext. by intros _ [[[i st] d] sc] _.
Qed.

(** The language changes only texts: the Turkish and the English list show the
    same tests in the same order, with the same status, date and script. *)
Theorem evaluate_languages : ∃ turkish english, evaluateValidationTests reports tr = Ok turkish ∧
  evaluateValidationTests reports en = Ok english ∧ key <$> turkish = key <$> english.
Proof.
  destruct evaluate_keys as (ps & Hps & Hk).
  destruct (Hk tr) as (a & Ha & _ & Hka & _), (Hk en) as (b & Hb & _ & Hkb & _).
  exists a, b. splits; try done. by rewrite Hka, Hkb.
Qed.

(** C16. No card says "pass" unless the gate of its report holds: for all but seven
    of the eighty tests that is [pass === true] in the report itself. *)
Theorem evaluate_gated lo l t : evaluateValidationTests reports lo = Ok l → t ∈ l →
  (Some t).["status"] = vs "pass" → (card_id t, true) ∈ gates reports.
Proof.
  intros Hl Ht Hst. destruct evaluate_keys as (ps & Hps & Hk). destruct (Hk lo) as (l' & Hl' & _ & Hkl & _).
  rewrite Hl in Hl'. simplify_eq. assert (Hin : key t ∈ key_of <$> concat ps).
  { apply (sort_by_elem key_display_le). rewrite <- Hkl. apply list_elem_of_fmap. by exists t. }
  apply list_elem_of_fmap in Hin as ([[[i st] d] sc] & Hkey & Hin). rewrite card_id_key, Hkey. cbn.
  eapply (gate_keys_pass _ _ (i, st, d, sc)); [done..|]. cbn.
  assert (Hs' : (key t).1.1.2 = vs (status_text st)) by (by rewrite Hkey).
  change ((Some t).["status"] = vs (status_text st)) in Hs'. rewrite Hst in Hs'. by destruct st.
Qed.
End evaluated.

(** ** Single cards *)

Lemma rbind_ok {A B} (m : res A) (k : A → res B) b : rbind m k = Ok b → ∃ a, m = Ok a ∧ k a = Ok b.
Proof. destruct m as [a|err]; cbn; [|done]. by exists a. Qed.
Lemma push_status d l t : push d = Ok l → t ∈ l → (Some t).["status"] = vs (status_text (d_status d)).
Proof.
  unfold push. intros Hp Ht.
  repeat match goal with H : rbind _ _ = Ok _ |- _ => apply rbind_ok in H as (? & _ & H) end.
  simplify_eq. apply list_elem_of_singleton in Ht as ->. reflexivity.
Qed.

(** The hours of a soak come from its seconds only: [a ?? b ? c : d] reads as
    [(a ?? b) ? c : d], so a report that gives [duration_hours] but no
    [duration_sec] counts as zero hours and never passes without the laptop flag. *)
Theorem soak_needs_seconds `{DateFormat} lo reports l t :
  reports.["soak"].["duration_sec"] = None → is_true reports.["soak"].["pass_laptop_proof"] = false →
  test_soak lo reports = Ok l → t ∈ l → (Some t).["status"] ≠ vs "pass".
Proof.
  intros Hsec Hlap Hl Ht. unfold test_soak in Hl. cbv zeta in Hl.
  destruct (_ && _); [|injection Hl as <-; by apply elem_of_nil in Ht].
  apply rbind_ok in Hl as (fp & _ & Hl). apply rbind_ok in Hl as (rss & _ & Hl).
  rewrite (push_status _ _ _ Hl Ht). cbn [d_status]. rewrite Hsec, Hlap.
  assert (Hh : ∀ b : bool, vle (vn 70) (if b then vdiv (None ??? vn 0) (vn 3600) else vn 0) = false)
    by (intros []; by vm_compute).
  rewrite Hh, andb_false_r. cbn. by destruct (otruthy _).
Qed.

(** ** The published list *)

Definition card_name (card : json) : jstring := ostr ((Some card).["id"] ??? vs "").

Lemma by_id_Some evaluated id t : by_id evaluated id = Some t → t ∈ evaluated ∧ (Some t).["id"] = vs id.
Proof.
  unfold by_id. intros [Ht Hi]%jfind_Some. rewrite list_elem_of_In, <- in_rev, <- list_elem_of_In in Ht. split; [done|].
  unfold is_lit in Hi. destruct ((Some t).["id"]) as [[]|]; try done. by bprop; subst.
Qed.
Lemma proof_card_id card lo : ∃ t, proofCardToResult card lo = Ok t ∧ (Some t).["id"] = vs (card_name card).
Proof. unfold proofCardToResult. destruct (otruthy _); cbn; eexists; split; done. Qed.
Lemma align_card_ok evaluated lo card : card ≠ JNull → ∃ t, align_card evaluated lo card = Ok t ∧
  (Some t).["id"] = vs (card_name card) ∧
  (t ∈ evaluated ∨ by_id evaluated (card_name card) = None ∧ proofCardToResult card lo = Ok t).
Proof.
  intros Hn. unfold align_card. replace (dot "id" card) with (Ok (Some card).["id"]) by (by destruct card).
  cbn [rbind]. fold (card_name card). destruct (by_id evaluated (card_name card)) as [t|] eqn:Eb.
  - apply by_id_Some in Eb as [? ?]. exists t. splits; auto.
  - destruct (proof_card_id card lo) as (t & Ht & Hi). exists t. splits; auto.
Qed.
Lemma align_all evaluated lo cards : Forall (λ c, c ≠ JNull) cards →
  ∃ l, rseq (map (align_card evaluated lo) cards) = Ok l ∧
    Forall2 (λ card t, (Some t).["id"] = vs (card_name card) ∧
      (t ∈ evaluated ∨ by_id evaluated (card_name card) = None ∧ proofCardToResult card lo = Ok t)) cards l.
Proof.
  induction 1 as [|c cards Hc _ (l & Hl & Hr)]; [by exists []|].
  destruct (align_card_ok evaluated lo c Hc) as (t & Ht & Hp). exists (t :: l). cbn [map rseq].
  rewrite Ht, Hl. split; [done|by constructor].
Qed.

(** Alignment shows exactly the named entries of the published list, in its
    order; an entry takes its own status only when no test of its name was
    evaluated, and an evaluated test always wins. *)
Theorem align_exact evaluated cards lo : Forall (λ c, c ≠ JNull) cards →
  ∃ l, alignTestsToProof evaluated cards lo = Ok l ∧
    card_id <$> l = jfilter nonempty (map card_name cards) ∧
    ∀ t, t ∈ l → t ∈ evaluated ∨ ∃ card, card ∈ cards ∧ by_id evaluated (card_name card) = None ∧
                                        proofCardToResult card lo = Ok t.
Proof.
  intros Hc. destruct (align_all evaluated lo cards Hc) as (l & Hl & Hr). unfold alignTestsToProof. rewrite Hl.
  cbn [rbind]. eexists. split; [done|]. clear Hl Hc. split.
  - induction Hr as [|c t cards l [Hi _] _ IH]; [done|]. cbn [map jfilter List.filter]. rewrite Hi. cbn [otruthy truthy vs].
    destruct (nonempty (card_name c)); [|done]. cbn. f_equal; [|done]. unfold card_id. by rewrite Hi.
  - intros t [Ht _]%jfilter_elem. apply list_elem_of_lookup in Ht as [i Hi].
    destruct (Forall2_lookup_r _ _ _ _ _ Hr Hi) as (c & Hci & _ & [?|[? ?]]); [by left|].
    right. exists c. splits; try done. by eapply list_elem_of_lookup_2.
Qed.

(** ** Concrete reports *)

Module Demo.
#[local] Instance iso_date : DateFormat := to_str.
#[local] Instance by_units : Collation := λ a b, if text_lt a b then -1 else if text_lt b a then 1 else 0.

(** A soak of 72 hours without a count of seconds, beside a parity report that
    passes and a hosting report that does not. *)
Definition soak : json :=
  JObj [("pass_operational", JBool true); ("duration_hours", jint 72); ("failures", jint 0); ("samples", jint 864)].
Definition reports : val :=
  Some (JObj [("crs", JObj [("pass", JBool true); ("attacks_total", jint 42); ("date", JStr "2026-07-10")]);
              ("trHostingCorpus", JObj [("pass", JBool false)]); ("soak", soak)]).

Lemma typed_reports : tyn TestReports reports. Proof. by vm_compute. Qed.

Lemma evaluate_typed_witness : ∃ l, evaluateValidationTests reports en = Ok l ∧
  Forall typed_test l ∧ NoDup (card_id <$> l) ∧ sorted_by position l.
Proof. apply evaluate_typed; exact typed_reports. Defined.
Lemma evaluate_languages_witness : ∃ turkish english, evaluateValidationTests reports tr = Ok turkish ∧
  evaluateValidationTests reports en = Ok english ∧ key <$> turkish = key <$> english.
Proof. apply evaluate_languages; exact typed_reports. Defined.

Definition shown : list test := match evaluateValidationTests reports en with Ok l => l | Throw _ => [] end.
Lemma evaluate_gated_witness : ("crs-parity", true) ∈ gates reports.
Proof.
  apply (evaluate_gated reports typed_reports en shown (nth 1 shown JNull)).
  - vm_compute. reflexivity.
  - vm_compute. right. left.
  - vm_compute. reflexivity.
Defined.

(** The page shows the 72-hour soak as a zero-hour one. *)
Lemma soak_72h_shown_as_0h : ∃ t, test_soak en reports = Ok [t] ∧ (Some t).["status"] = vs "warn" ∧
  (Some t).["verdict"] = vs "0.0h operational pass but 72h proof gate incomplete (<70h).".
Proof. eexists. split; [vm_compute; reflexivity|]. by vm_compute. Qed.
Lemma soak_needs_seconds_witness : ∀ l, test_soak en reports = Ok l → ∀ t, t ∈ l → (Some t).["status"] ≠ vs "pass".
Proof. intros l Hl t Ht. apply (soak_needs_seconds en reports l t); [reflexivity|reflexivity|exact Hl|exact Ht]. Defined.

Definition published : list json :=
  [JObj [("id", JStr "crs-parity"); ("status", JStr "fail")]; JObj [("id", JStr "helm-install-smoke"); ("status", JStr "pass")];
   JObj [("status", JStr "pass")]].
Lemma align_exact_witness : ∃ l, alignTestsToProof shown published en = Ok l ∧
  card_id <$> l = ["crs-parity"; "helm-install-smoke"].
Proof.
  destruct (align_exact shown published en) as (l & Hl & Hi & _).
  - repeat constructor; discriminate.
  - exists l. split; [exact Hl|]. rewrite Hi. vm_compute. reflexivity.
Defined.
End Demo.
