(* ===== verification/PromClient.v ===== *)
(** The Prometheus client (dashboard/src/lib/prometheusClient.ts): instant and
    range queries, and the merge of several series into rows by timestamp. *)

From Stdlib Require Import Sorting.Sorted.
From S2P Require Import Prelude JsString JsNum Json Regex Http JsValue.

Section client.
(** [fetch(url)] with a time limit, where the address is an endpoint with search
    parameters: status and [res.json()]; the outer [None] is an address that is not
    a URL, a network failure or a timeout, the inner one a body that is not JSON. *)
Context (promFetch : jstring → list (jstring * jstring) → Z → option (Z * option json)).
Context (e : env).

(** [toLocaleTimeString] of a time in milliseconds, as the process prints it. *)
Class TimeFormat := show_time : Z → jstring.
Context `{TimeFormat}.

Definition strip_slash (u : jstring) : jstring := if ends_with "/" u then take (length u - 1) u else u.
Definition prometheusBaseUrl : jstring :=
  strip_slash (sor (oor (e "PROMETHEUS_URL") (default [] (e "PROMETHEUS_QUERY_URL")))
                   "http://host.docker.internal:9090").

(** [num] of the file: the number of a sample's text, zero when there is none. *)
Definition sample_num (v : val) : num :=
  if negb (present v) || is_lit "NaN" v then nzero
  else let n := parseFloat (ostr v) in if is_finite n then n else nzero.

(** The rows of a successful answer, [None] for any other answer. *)
Definition query_rows (endpoint : jstring) (params : list (jstring * jstring)) (timeoutMs : Z) : res val :=
  match promFetch (prometheusBaseUrl ++ endpoint) params timeoutMs with
  | None => Throw "fetch failed"
  | Some (st, body) =>
      if negb (res_ok st) then Ok None
      else match body with
           | None => Throw "Unexpected token in JSON"
           | Some JNull => Throw "Cannot read properties of null"
           | Some b =>
               let rows := (Some b).["data"].["result"] in
               if negb (is_lit "success" (Some b).["status"]) || negb (otruthy (vlength rows)) then Ok None
               else Ok rows
           end
  end.
(** The first row; an entry that is [null] has no fields. *)
Definition first_row (rows : val) : res json :=
  match vindex 0 rows with
  | Some JNull | None => Throw "Cannot read properties of undefined"
  | Some r => Ok r
  end.

Definition promInstant (query : jstring) : res (option num) :=
  let? rows := query_rows "/api/v1/query" [("query", query)] 5000 in
  match rows with
  | None => Ok None
  | Some _ => let? row := first_row rows in Ok (Some (sample_num (vindex 1 (Some row).["value"])))
  end.

Record TsPoint := { p_ts : Z; p_label : jstring; p_v : num }.

(** [([ts, val]) => ({ ... })]: the sample is an array; its time is a whole number
    of seconds, as the start and the step of every query are. *)
Definition ts_point (sample : json) : res TsPoint :=
  match sample with
  | JArr l =>
      match l !! O with
      | Some (JNum x) =>
          match num_int x with
          | Some ts => Ok {| p_ts := ts * 1000; p_label := show_time (ts * 1000); p_v := sample_num (l !! 1%nat) |}
          | None => Throw "fractional timestamp"
          end
      | _ => Throw "timestamp is not a number"
      end
  | _ => Throw "sample is not iterable"
  end.

(** A number of seconds that may be NaN. *)
Definition opt_text (n : option Z) : jstring := match n with Some n => dec n | None => "NaN" end.
Definition range_timeout (rangeSec : option Z) : Z :=
  match rangeSec with
  | Some r => if 7200 <? r then 15000 else if 3600 <? r then 12000 else 8000
  | None => 8000
  end.
Definition promRange (now : Z) (query : jstring) (rangeSec step : option Z) : res (list TsPoint) :=
  let end_ := now / 1000 in
  let start := (λ r, end_ - r) <$> rangeSec in
  let? rows := query_rows "/api/v1/query_range"
    [("query", query); ("start", opt_text start); ("end", dec end_); ("step", opt_text step)]
    (range_timeout rangeSec) in
  match rows with
  | None => Ok []
  | Some _ =>
      let? row := first_row rows in
      match (Some row).["values"] ||| empty_arr with
      | Some (JArr l) => rseq (map ts_point l)
      | _ => not_a_function "map"
      end
  end.

(** ** Merging series *)

(** A row of the chart: an object with the time, its label and the values by series. *)
Definition row := list (jstring * json).
(** [byTs.get(p.ts) || { ts, t }], then [row[key] = p.v] in place. *)
Definition new_row (p : TsPoint) : row := [("ts", jint (p_ts p)); ("t", JStr (p_label p))].
Fixpoint add_point (key : jstring) (p : TsPoint) (byTs : list (Z * row)) : list (Z * row) :=
  match byTs with
  | [] => [(p_ts p, put_field key (JNum (p_v p)) (new_row p))]
  | (ts, r) :: rest =>
      if ts =? p_ts p then (ts, put_field key (JNum (p_v p)) r) :: rest
      else (ts, r) :: add_point key p rest
  end.
Definition add_series (byTs : list (Z * row)) (s : jstring * list TsPoint) : list (Z * row) :=
  fold_left (λ m p, add_point s.1 p m) s.2 byTs.
(** The comparator reads [Number(row.ts)], which is the key of the map: no series of
    the panels is named [ts]. *)
Definition merge_series (maps : list (jstring * list TsPoint)) : list row :=
  (sort_by (key_le fst) (fold_left add_series maps [])).*2.

Definition promRangeMulti (now : Z) (series : list (jstring * jstring)) (rangeSec step : option Z) :
    res (list row) :=
  let? maps := rseq (map (λ s, let? pts := promRange now s.2 rangeSec step in Ok (s.1, pts)) series) in
  Ok (merge_series maps).

Definition promReachable : bool :=
  match promFetch (prometheusBaseUrl ++ "/api/v1/query") [("query", "up")] 3000 with
  | Some (st, _) => res_ok st
  | None => false
  end.
End client.

(** ** The merge against its reference

    All points of the series in order, each with the name of its series, and the
    value a chart should show: the last point of the series at the time. *)
Definition points (maps : list (jstring * list TsPoint)) : list (jstring * TsPoint) :=
  flat_map (λ s, map (pair s.1) s.2) maps.
Definition is_point (k : jstring) (ts : Z) (kp : jstring * TsPoint) : bool := (kp.1 =s k) && (p_ts kp.2 =? ts).
Definition last_value (ps : list (jstring * TsPoint)) (k : jstring) (ts : Z) : option num :=
  fold_left (λ acc kp, if is_point k ts kp then Some (p_v kp.2) else acc) ps None.
Definition add_all (ps : list (jstring * TsPoint)) (m : list (Z * row)) : list (Z * row) :=
  fold_left (λ m kp, add_point kp.1 kp.2 m) ps m.

Lemma add_series_all s m : add_series m s = add_all (map (pair s.1) s.2) m.
Proof.
  destruct s as [k ps]. unfold add_series, add_all. cbn. revert m.
  induction ps as [|p ps IH]; intros m; [done|]. cbn. apply IH.
Qed.
Lemma merge_all maps m : fold_left add_series maps m = add_all (points maps) m.
Proof.
  revert m. induction maps as [|s maps IH]; intros m; [done|]. cbn [fold_left points flat_map].
  rewrite IH, add_series_all. unfold add_all. by rewrite fold_left_app.
Qed.

(** Sorted by a key without repetition. *)
Lemma strict_sorted {A} (m : list (Z * A)) : sorted_by fst m → NoDup m.*1 → StronglySorted Z.lt m.*1.
Proof.
  unfold sorted_by. induction 1 as [|[t r] m Hs IH Hf]; cbn; intros Hnd; [constructor|].
  apply NoDup_cons in Hnd as [Hn Hnd]. constructor; [by apply IH|]. apply Forall_forall. intros u Hu.
  assert (u ≠ t) by (intros ->; done). apply list_elem_of_fmap in Hu as ([u' r'] & -> & Hin).
  rewrite Forall_forall in Hf. specialize (Hf _ Hin). cbn in *. lia.
Qed.

(** The row of a time. *)
Fixpoint row_at (ts : Z) (m : list (Z * row)) : option row :=
  match m with [] => None | (t, r) :: m => if t =? ts then Some r else row_at ts m end.
Lemma row_at_add k p m ts : row_at ts (add_point k p m) =
  if p_ts p =? ts then Some (put_field k (JNum (p_v p)) (default (new_row p) (row_at ts m))) else row_at ts m.
Proof.
  induction m as [|[t r] m IH]; cbn.
  - by destruct (p_ts p =? ts).
  - destruct (t =? p_ts p) eqn:E1; bprop; cbn.
    + subst t. by destruct (p_ts p =? ts).
    + rewrite IH. destruct (t =? ts) eqn:E2, (p_ts p =? ts) eqn:E3; bprop; try done. congruence.
Qed.
Lemma add_point_keys k p m ts : ts ∈ (add_point k p m).*1 ↔ ts = p_ts p ∨ ts ∈ m.*1.
Proof.
  induction m as [|[t r] m IH]; cbn; [by rewrite list_elem_of_singleton, elem_of_nil; tauto|].
  destruct (t =? p_ts p) eqn:E; bprop; cbn; rewrite !elem_of_cons; [subst; tauto|]. rewrite IH. tauto.
Qed.
Lemma add_point_nodup k p m : NoDup m.*1 → NoDup (add_point k p m).*1.
Proof.
  induction m as [|[t r] m IH]; cbn; intros Hnd; [apply NoDup_singleton|].
  apply NoDup_cons in Hnd as [Hn Hnd].
  destruct (t =? p_ts p) eqn:E; bprop; cbn; constructor; auto. rewrite add_point_keys. naive_solver.
Qed.
Lemma row_at_elem ts r m : NoDup m.*1 → (ts, r) ∈ m → row_at ts m = Some r.
Proof.
  induction m as [|[t r'] m IH]; cbn; intros Hnd Hin; [by apply elem_of_nil in Hin|].
  apply NoDup_cons in Hnd as [Hn Hnd]. apply elem_of_cons in Hin as [Hin|Hin].
  - simplify_eq. by rewrite Z.eqb_refl.
  - destruct (t =? ts) eqn:E; [|by apply IH]. bprop; subst. destruct Hn. by apply (list_elem_of_fmap_2 fst _ (ts, r)).
Qed.
Lemma last_value_snoc ps kp k ts :
  last_value (ps ++ [kp]) k ts = if is_point k ts kp then Some (p_v kp.2) else last_value ps k ts.
Proof. unfold last_value. by rewrite fold_left_app. Qed.

(** What the map holds after any sequence of points. *)
Record merged (ps : list (jstring * TsPoint)) (m : list (Z * row)) : Prop := {
  mg_nodup : NoDup m.*1;
  mg_times : ∀ ts, ts ∈ m.*1 ↔ ∃ kp, kp ∈ ps ∧ p_ts kp.2 = ts;
  mg_ts : ∀ ts r, row_at ts m = Some r → assoc "ts" r = Some (jint ts);
  mg_cells : ∀ ts k, k ≠ "ts" → k ≠ "t" →
    (row_at ts m ≫= assoc k) = JNum <$> last_value ps k ts;
}.
Lemma merged_add_all ps : Forall (λ kp, kp.1 ≠ "ts") ps → merged ps (add_all ps []).
Proof.
  induction ps as [|kp ps IH] using rev_ind; intros Hk.
  { split; cbn; try done; [constructor|]. intros ts. rewrite elem_of_nil. split; [done|].
    intros (? & H & _). by apply elem_of_nil in H. }
  apply Forall_app in Hk as [Hps [Hkp _]%Forall_cons]. destruct (IH Hps) as [Hnd Ht Hts Hc]. clear IH.
  unfold add_all in *. rewrite fold_left_app. cbn [fold_left]. split.
  - by apply add_point_nodup.
  - intros ts. rewrite add_point_keys, Ht. setoid_rewrite elem_of_app. setoid_rewrite list_elem_of_singleton. naive_solver.
  - intros ts r. rewrite row_at_add. destruct (p_ts kp.2 =? ts) eqn:E; [|apply Hts]. bprop; subst.
    intros [= <-]. rewrite assoc_put_ne by done. destruct (row_at _ _) eqn:Er; [by apply Hts|done].
  - intros ts k H1 H2. rewrite row_at_add, last_value_snoc. unfold is_point.
    destruct (p_ts kp.2 =? ts) eqn:E; [|by rewrite andb_false_r; apply Hc]. rewrite andb_true_r.
    cbn [mbind option_bind]. destruct (kp.1 =s k) eqn:Ek; bprop; subst; [apply assoc_put_eq|].
    rewrite assoc_put_ne by congruence. rewrite <- Hc by done.
    destruct (row_at _ _); [done|]. cbn [default mbind option_bind new_row assoc].
    destruct (k =s "ts") eqn:Q1; bprop; [done|]. by destruct (k =s "t") eqn:Q2; bprop.
Qed.

(** C18. The chart rows are the reference: one row per time at which some series has
    a point, in strictly increasing order, and the cell of a series is the last
    value it has at that time. *)
Theorem merge_exact maps : Forall (λ s, s.1 ≠ "ts") maps →
  ∃ m : list (Z * row), merge_series maps = m.*2 ∧ StronglySorted Z.lt m.*1 ∧
    (∀ ts, ts ∈ m.*1 ↔ ∃ kp, kp ∈ points maps ∧ p_ts kp.2 = ts) ∧
    (∀ ts r, (ts, r) ∈ m → assoc "ts" r = Some (jint ts) ∧
       ∀ k, k ≠ "ts" → k ≠ "t" → assoc k r = JNum <$> last_value (points maps) k ts).
Proof.
  intros Hk. assert (Hp : Forall (λ kp, kp.1 ≠ "ts") (points maps)).
  { induction Hk as [|s maps Hs _ IH]; [done|]. cbn. apply Forall_app. split; [|done].
    apply Forall_forall. intros [k p]. rewrite list_elem_of_In, in_map_iff. by intros (? & [= <- _] & _). }
  destruct (merged_add_all _ Hp) as [Hnd Ht Hts Hc]. rewrite <- merge_all in *.
  set (m := fold_left add_series maps []) in *. exists (sort_by (key_le fst) m).
  split; [done|]. split; [|split].
  - apply strict_sorted; [apply sort_by_sorted|]. by rewrite sort_by_perm.
  - intros ts. by rewrite sort_by_perm, Ht.
  - intros ts r Hin%sort_by_elem. pose proof (row_at_elem _ _ _ Hnd Hin) as Hr. split; [by apply Hts|].
    intros k H1 H2. rewrite <- Hc by done. by rewrite Hr.
Qed.

Module Demo.
Definition pt (ts v : Z) : TsPoint := {| p_ts := ts; p_label := dec ts; p_v := num_of_Z v |}.
(** Two series that overlap at one time, given out of order. *)
Definition maps : list (jstring * list TsPoint) := [("4xx", [pt 60000 1; pt 30000 2]); ("5xx", [pt 30000 7])].
Lemma merge_exact_witness : ∃ m : list (Z * row), merge_series maps = m.*2 ∧ m.*1 = [30000; 60000].
Proof.
  destruct (merge_exact maps) as (m & Hm & Hs & Ht & _).
  - repeat constructor; discriminate.
  - exists (sort_by (key_le fst) (fold_left add_series maps [])). split; [reflexivity|]. vm_compute. reflexivity.
Defined.
End Demo.
