(* ===== verification/Grafana.v ===== *)
(** The Grafana page of the dashboard: the panels (dashboard/src/lib/
    grafanaPanels.ts) and the route that fills them from Prometheus and from the
    analyzer's own metrics, behind a cache (api/metrics/grafana/route.ts). *)

From S2P Require Import Prelude JsString JsNum Json Regex Http Auth Prometheus JsValue BanExec PromClient.

(** ** Panels *)

Record PanelSeries := { ps_key : jstring; ps_legend : jstring; ps_expr : jstring }.
Record GrafanaStatPanel := { sp_id : jstring; sp_title : jstring; sp_expr : jstring }.
Record GrafanaTsPanel := { tp_id : jstring; tp_title : jstring; tp_series : list PanelSeries }.
Definition panel (id title expr : jstring) : GrafanaStatPanel := {| sp_id := id; sp_title := title; sp_expr := expr |}.
Definition series (key legend expr : jstring) : PanelSeries := {| ps_key := key; ps_legend := legend; ps_expr := expr |}.
Definition ts_panel (id title : jstring) (ss : list PanelSeries) : GrafanaTsPanel :=
  {| tp_id := id; tp_title := title; tp_series := ss |}.

(** The three shapes of the panels' queries, around the placeholder. *)
Definition by_tenant : jstring := "{tenant_id=" ++ dq ++ "$tenant" ++ dq.
Definition metric_of (name : jstring) : jstring := "loganalyzer_" ++ name ++ by_tenant ++ "}".
Definition metric_code (name label v : jstring) : jstring :=
  "loganalyzer_" ++ name ++ by_tenant ++ "," ++ label ++ "=" ++ dq ++ v ++ dq ++ "}".
Definition rate_of (name window : jstring) : jstring := "rate(" ++ metric_of name ++ "[" ++ window ++ "])".

(** The replacement text of [String.prototype.replace] for a match of [matched]
    between [before] and [after]: [$$], [$&], [$`] and [$'] stand for a dollar, the
    match and its surroundings; the pattern has no groups, so other dollars stay. *)
Fixpoint expand_replacement (matched before after t : jstring) : jstring :=
  match t with
  | 36 :: 36 :: t' => 36 :: expand_replacement matched before after t'
  | 36 :: 38 :: t' => matched ++ expand_replacement matched before after t'
  | 36 :: 96 :: t' => before ++ expand_replacement matched before after t'
  | 36 :: 39 :: t' => after ++ expand_replacement matched before after t'
  | c :: t' => c :: expand_replacement matched before after t'
  | [] => []
  end.
(** [expr.replace(/\$tenant/g, tenant)]: [skip] units of a match are behind us. *)
Fixpoint replace_tenant (tenant before : jstring) (skip : nat) (s : jstring) : jstring :=
  match s with
  | [] => []
  | c :: s' =>
      match skip with
      | S k => replace_tenant tenant (before ++ [c]) k s'
      | O => if starts_with "$tenant" s then
               expand_replacement "$tenant" before (drop 7 s) tenant ++ replace_tenant tenant (before ++ [c]) 6 s'
             else c :: replace_tenant tenant (before ++ [c]) O s'
      end
  end.
Definition tenantExpr (expr tenant : jstring) : jstring := replace_tenant tenant [] O expr.

Definition GRAFANA_STAT_PANELS : list GrafanaStatPanel :=
  [panel "lines" "Log Lines Processed" (metric_of "lines_total");
   panel "ban_ok" "Ban Success" (metric_of "bans_success");
   panel "ban_fail" "Ban Fail" (metric_of "bans_fail");
   panel "parse_err" "Parse Errors" (metric_of "parse_errors_total");
   panel "eps" "Events Per Second" (metric_of "eps");
   panel "xdp" "XDP Active" (metric_of "xdp_active");
   panel "unique_ips" "Unique IPs" (metric_of "unique_ips");
   panel "ringbuf" "Ringbuf Drops" (metric_of "ringbuf_drops_total")].
Definition GRAFANA_TS_PANELS : list GrafanaTsPanel :=
  [ts_panel "eps_ts" "EPS (gauge)"
     [series "eps" "EPS" (metric_of "eps")];
   ts_panel "http_status" "HTTP 4xx / 5xx"
     [series "4xx" "4xx" (metric_code "http_status_total" "code" "4xx");
      series "5xx" "5xx" (metric_code "http_status_total" "code" "5xx")];
   ts_panel "alert_rate" "Alert rate"
     [series "alerts_s" "alerts/s" (rate_of "alerts_total" "1m")];
   ts_panel "ban_rate" "Ban success vs fail (rate)"
     [series "success" "success" (rate_of "bans_success" "5m");
      series "fail" "fail" (rate_of "bans_fail" "5m")];
   ts_panel "parse_rate" "Parse errors (rate)"
     [series "parse_s" "parse errors/s" (rate_of "parse_errors_total" "5m")]].
Definition GRAFANA_TABLE_METRICS : list GrafanaStatPanel :=
  [panel "lines" "lines_total" (metric_of "lines_total");
   panel "alerts" "alerts_total" (metric_of "alerts_total");
   panel "eps" "eps" (metric_of "eps");
   panel "ban_ok" "bans_success" (metric_of "bans_success");
   panel "ban_fail" "bans_fail" (metric_of "bans_fail");
   panel "ips" "unique_ips" (metric_of "unique_ips");
   panel "xdp" "xdp_active" (metric_of "xdp_active");
   panel "ja3_clusters" "ja3_clusters_active" (metric_of "ja3_clusters_active");
   panel "ja3_bans" "ja3_cluster_bans" (metric_of "ja3_cluster_bans_total");
   panel "threat_iocs" "threat_iocs" (metric_of "threat_total_iocs");
   panel "fp_trusted" "fp_trusted_ips" (metric_of "fp_trusted_ips");
   panel "bp_ipset" "ban_pipeline_ipset" (metric_of "ban_pipeline_ipset")].
Definition GRAFANA_TELEGRAM_STAT_PANELS : list GrafanaStatPanel :=
  [panel "tg_ack" "Telegram Ack (24h)" (metric_of "telegram_ack_24h");
   panel "tg_unacked" "Telegram Unacked (24h)" (metric_of "telegram_unacked_24h");
   panel "tg_route" "Telegram route" (metric_of "webhook_telegram_route");
   panel "tg_batch" "Telegram batch (s)" (metric_of "webhook_telegram_batch_sec");
   panel "tg_queue" "Webhook queue" (metric_of "webhook_queue_depth");
   panel "quiet_hours" "Quiet hours" (metric_of "webhook_quiet_hours");
   panel "quiet_active" "Quiet active now" (metric_of "webhook_quiet_active")].
Definition GRAFANA_SOC_STAT_PANELS : list GrafanaStatPanel :=
  [panel "threat_sync_ts" "Threat last sync" (metric_of "threat_last_sync_ts");
   panel "threat_iocs" "Threat IOCs" (metric_of "threat_total_iocs");
   panel "threat_applied" "Threat applied (last sync)" (metric_of "threat_last_applied");
   panel "threat_failed" "Threat failed (last sync)" (metric_of "threat_last_failed");
   panel "fp_trusted" "FP trusted IPs" (metric_of "fp_trusted_ips");
   panel "fp_learn" "FP learn" (metric_of "fp_learn_enabled");
   panel "fp_suppressed" "FP suppressed" (metric_of "fp_suppressed_total");
   panel "bp_ipc" "Ban path IPC" (metric_of "ban_pipeline_ipc");
   panel "bp_xdp" "Ban path XDP" (metric_of "ban_pipeline_xdp");
   panel "bp_ipset" "Ban path ipset" (metric_of "ban_pipeline_ipset");
   panel "bp_failed" "Ban pipeline fail" (metric_of "ban_pipeline_failed");
   panel "ban_events_db" "ban_events DB rows" (metric_of "ban_events_total");
   panel "intel_ban_legacy" "Intel ban legacy" (metric_of "intel_ban_legacy_rows");
   panel "intel_ban_summary" "Intel ban summary" (metric_of "intel_ban_summary_rows");
   panel "ja3_clusters" "JA3 cluster buckets" (metric_of "ja3_clusters_active");
   panel "ja3_bans" "JA3 cluster bans" (metric_of "ja3_cluster_bans_total");
   panel "dist_risk_buckets" "DIST risk buckets" (metric_of "dist_risk_buckets_active");
   panel "dist_risk_bonus" "DIST risk bonus" (metric_of "dist_risk_bonus_applied_total")].
Definition GRAFANA_API_STAT_PANELS : list GrafanaStatPanel :=
  [panel "api_requests" "API requests" (metric_of "api_requests_total");
   panel "api_auth_fail" "API auth fail (403)" (metric_of "api_auth_fail_total");
   panel "api_rate_limited" "API rate limited" (metric_of "api_rate_limited_total")].
Definition GRAFANA_WEBHOOK_STAT_PANELS : list GrafanaStatPanel :=
  [panel "wh_sent" "Webhook sent" (metric_of "webhook_sent_total");
   panel "wh_fail" "Webhook fail" (metric_of "webhook_fail_total");
   panel "wh_drops" "Webhook queue drops" (metric_of "webhook_queue_drops_total")].
Definition GRAFANA_SOC_TS_PANELS : list GrafanaTsPanel :=
  [ts_panel "ban_pipeline_rate" "Ban pipeline paths (rate)"
     [series "ipc" "ipc" (rate_of "ban_pipeline_ipc" "5m");
      series "xdp" "xdp" (rate_of "ban_pipeline_xdp" "5m");
      series "ipset" "ipset" (rate_of "ban_pipeline_ipset" "5m");
      series "ja3" "ja3_cluster" (rate_of "ja3_cluster_bans_total" "5m");
      series "dist_risk" "dist_risk_bonus" (rate_of "dist_risk_bonus_applied_total" "5m")]].

Definition GRAFANA_DASH_UID : jstring := "log-guardian-01".
(** [encodeURIComponent] throws on a lone surrogate. *)
Definition grafanaDashboardUrl (e : env) (tenant : jstring) : option jstring :=
  let base := match e "NEXT_PUBLIC_GRAFANA_EMBED_URL" with
              | Some u => sor (default [] (split_str "/d/" u !! O)) "http://127.0.0.1:3002"
              | None => "http://127.0.0.1:3002"
              end in
  (λ t, base ++ "/d/" ++ GRAFANA_DASH_UID ++
        "/linux-log-guardian-e28094-operations?orgId=1&from=now-1h&to=now&var-tenant=" ++ t ++ "&refresh=10s")
  <$> encodeURIComponent tenant.

(** ** Statistics by name *)

Definition stats := list (jstring * num).
Definition stat (k : jstring) (m : stats) : num := assoc k m ?? nzero.
Definition stats_json (m : stats) : json := JObj (map (λ kv, (kv.1, num_json kv.2)) m).
(** [if ((m[k] ?? 0) < v) m[k] = v] for each live value. *)
Definition keep_larger (m : stats) (kv : jstring * num) : stats :=
  if nlt (stat kv.1 m) kv.2 then put_field kv.1 kv.2 m else m.
Definition merge_max (m live : stats) : stats := fold_left keep_larger live m.

(** ** The analyzer's own metrics *)

Record LiveStats := {
  lv_stats : stats;
  lv_socStats : stats;
  lv_telegramStats : stats;
  lv_apiStats : stats;
  lv_webhookStats : stats;
  lv_alerts_total : num;
}.
Definition LIVE_HINT : jstring :=
  "Canli :9091 metrikleri (Prometheus yok). Gecmis grafikler: bash scripts/dashboard_stack.sh".

(** [Math.max(0, x)] *)
Definition max0 (x : num) : num := if is_nan x then x else if nlt nzero x then x else nzero.
(** [Math.max(0, (Date.now() / 1000 - ts) / 3600)] *)
Definition sync_age_h (now : Z) (ts : num) : num :=
  max0 (ndiv (nsub (ndiv (num_of_Z now) (num_of_Z 1000)) ts) (num_of_Z 3600)).

Section live.
Context (e : env).

(** Fields of the snapshot, all of them numbers. *)
Definition snap_num (snap : json) (k : jstring) : num :=
  match (Some snap).[k] with Some (JNum x) => x | _ => nzero end.
Definition pick (snap : json) (names : list (jstring * jstring)) : stats :=
  map (λ n, (n.1, snap_num snap n.2)) names.

Definition live_of_snapshot (snap : json) (now : Z) : LiveStats :=
  let syncTs := snap_num snap "threat_last_sync_ts" in
  let syncAgeH := if nlt nzero syncTs then sync_age_h now syncTs else nzero in
  {| lv_stats :=
       pick snap [("lines", "lines_total"); ("ban_ok", "bans_success"); ("ban_fail", "bans_failed");
                  ("parse_err", "parse_errors"); ("eps", "eps"); ("eps_peak", "eps_peak")] ++
       [("xdp", if neq_num (snap_num snap "xdp_active") (num_of_Z 1) then num_of_Z 1 else nzero);
        ("unique_ips", snap_num snap "unique_ips"); ("ringbuf", nzero)] ++
       pick snap [("alerts", "alerts_total"); ("http_4xx", "http_4xx"); ("http_5xx", "http_5xx")];
     lv_socStats :=
       [("threat_sync_ts", syncTs); ("threat_sync_age_h", syncAgeH)] ++
       pick snap [("threat_iocs", "threat_total_iocs"); ("threat_applied", "threat_last_applied");
                  ("threat_failed", "threat_last_failed"); ("fp_trusted", "fp_trusted_ips");
                  ("fp_learn", "fp_learn_enabled"); ("fp_suppressed", "fp_suppressed_total");
                  ("bp_ipc", "ban_pipeline_ipc"); ("bp_xdp", "ban_pipeline_xdp"); ("bp_ipset", "ban_pipeline_ipset");
                  ("bp_failed", "ban_pipeline_failed"); ("ban_events_db", "ban_events_total");
                  ("intel_ban_legacy", "intel_ban_legacy_rows"); ("intel_ban_summary", "intel_ban_summary_rows");
                  ("ja3_clusters", "ja3_clusters_active"); ("ja3_bans", "ja3_cluster_bans_total");
                  ("dist_risk_buckets", "dist_risk_buckets_active");
                  ("dist_risk_bonus", "dist_risk_bonus_applied_total"); ("dist_risk_enabled", "dist_risk_enabled")];
     lv_telegramStats :=
       pick snap [("tg_ack", "telegram_ack_24h"); ("tg_unacked", "telegram_unacked_24h");
                  ("tg_route", "webhook_telegram_route"); ("tg_batch", "webhook_telegram_batch_sec");
                  ("tg_queue", "webhook_queue_depth"); ("quiet_hours", "webhook_quiet_hours");
                  ("quiet_active", "webhook_quiet_active")];
     lv_apiStats :=
       pick snap [("api_requests", "api_requests_total"); ("api_auth_fail", "api_auth_fail_total");
                  ("api_rate_limited", "api_rate_limited_total")];
     lv_webhookStats :=
       pick snap [("wh_sent", "webhook_sent_total"); ("wh_fail", "webhook_fail_total");
                  ("wh_drops", "webhook_queue_drops_total")];
     lv_alerts_total := snap_num snap "alerts_total" |}.

(** [fetchText] as in the live route; any failure gives no statistics. *)
Definition liveGuardianStats (fetchText : jstring → res (Z * res jstring)) (now : Z) : option LiveStats :=
  match fetchText (guardianMetricsUrl e) with
  | Ok (st, Ok text) =>
      if res_ok st then
        let snap := parseGuardianMetrics e text now in
        if otruthy (Some snap).["reachable"] then Some (live_of_snapshot snap now) else None
      else None
  | _ => None
  end.
End live.

(** ** GET /api/metrics/grafana *)

(** [Math.ceil(n / d)] for whole numbers, NaN for NaN. *)
Definition ceil_div (d : Z) (n : option Z) : option Z := (λ n, - (- n / d)) <$> n.
Definition rangeSparkStep (rangeSec : option Z) : option Z := Z.max 30 <$> ceil_div 48 rangeSec.
Definition rangeTsStep (rangeSec : option Z) : option Z := Z.max 60 <$> ceil_div 72 rangeSec.

Definition GRAFANA_CACHE_MS : Z := 5000.
Record gcache := { gc_key : jstring; gc_ts : Z; gc_body : json }.

Definition rangeSec_of (req : request) : option Z := parseInt (oor (query "range" req) "3600").
Definition tenant_of (req : request) : jstring := oor (query "tenant" req) "default".
Definition cache_key (tenant : jstring) (rangeSec : option Z) : jstring := tenant ++ ":" ++ opt_text rangeSec.

Section route.
Context (promFetch : jstring → list (jstring * jstring) → Z → option (Z * option json)).
Context (fetchText : jstring → res (Z * res jstring)) (e : env).
Context `{TimeFormat}.

(** One statistic: its current value and its sparkline. *)
Definition fill_panel (now : Z) (tenant : jstring) (rangeSec : option Z) (p : GrafanaStatPanel) :
    res ((jstring * num) * (jstring * json)) :=
  let q := tenantExpr (sp_expr p) tenant in
  let? instant := promInstant promFetch e q in
  let? spark := promRange promFetch e now q rangeSec (rangeSparkStep rangeSec) in
  Ok ((sp_id p, instant ?? nzero),
      (sp_id p, JArr (map (λ s, JObj [("t", JStr (p_label s)); ("v", num_json (p_v s))]) spark))).
Definition fill_panels (now : Z) (tenant : jstring) (rangeSec : option Z) (ps : list GrafanaStatPanel) :=
  rseq (map (fill_panel now tenant rangeSec) ps).
Definition fill_series (now : Z) (tenant : jstring) (rangeSec : option Z) (p : GrafanaTsPanel) :
    res (jstring * json) :=
  let? rows := promRangeMulti promFetch e now (map (λ s, (ps_key s, tenantExpr (ps_expr s) tenant)) (tp_series p))
                 rangeSec (rangeTsStep rangeSec) in
  Ok (tp_id p, JArr (map JObj rows)).
Definition fill_table (tenant : jstring) (m : GrafanaStatPanel) : res json :=
  let? v := promInstant promFetch e (tenantExpr (sp_expr m) tenant) in
  Ok (JObj [("metric", JStr (sp_title m)); ("value", num_json (v ?? nzero))]).

(** The live counters overtake the scraped ones. *)
Definition counterKeys : list jstring := ["lines"; "ban_ok"; "ban_fail"; "parse_err"; "unique_ips"; "alerts"].
Definition merge_stats (m : stats) (live : stats) : stats :=
  let m := merge_max m (map (λ k, (k, stat k live)) counterKeys) in
  merge_max m [("eps", stat "eps" live); ("eps_peak", stat "eps_peak" live)].
Definition merge_soc (m : stats) (live : stats) : stats :=
  let m := merge_max m live in
  let ts := stat "threat_sync_ts" live in
  if nlt nzero ts then
    put_field "threat_sync_age_h" (stat "threat_sync_age_h" live) (put_field "threat_sync_ts" ts m)
  else m.
(** The age shown is the age of the time shown. *)
Definition refresh_age (now : Z) (m : stats) : stats :=
  if nlt nzero (stat "threat_sync_ts" m) then
    put_field "threat_sync_age_h" (sync_age_h now (stat "threat_sync_ts" m)) m
  else m.

Definition guardian_direct (tenant : jstring) (rangeSec : option Z) (t1 : Z) (live : LiveStats) : json :=
  let row m v := JObj [("metric", JStr m); ("value", num_json v)] in
  JObj [("reachable", JBool true); ("source", JStr "guardian-direct"); ("tenant", JStr tenant);
        ("rangeSec", match rangeSec with Some r => jint r | None => JNull end); ("ts", jint t1);
        ("hint", JStr LIVE_HINT); ("stats", stats_json (lv_stats live)); ("socStats", stats_json (lv_socStats live));
        ("telegramStats", stats_json (lv_telegramStats live)); ("apiStats", stats_json (lv_apiStats live));
        ("webhookStats", stats_json (lv_webhookStats live)); ("sparklines", JObj []); ("timeseries", JObj []);
        ("table", JArr [row "alerts_total" (lv_alerts_total live); row "eps" (stat "eps" (lv_stats live));
                        row "ja3_clusters_active" (stat "ja3_clusters" (lv_socStats live));
                        row "ban_pipeline_ipset" (stat "bp_ipset" (lv_socStats live))])].
Definition grafana_unreachable (tenant : jstring) : json :=
  JObj [("reachable", JBool false); ("tenant", JStr tenant);
        ("hint", JStr "Prometheus yok — bash scripts/dashboard_stack.sh  (log-guardian :9091 acik mi?)");
        ("stats", JObj []); ("socStats", JObj []); ("telegramStats", JObj []); ("apiStats", JObj []);
        ("webhookStats", JObj []); ("sparklines", JObj []); ("timeseries", JObj []); ("table", JArr [])].

(** The page filled from Prometheus; [now] is the time of the queries, [t1] the
    time at which the answers are put together. *)
Definition grafana_body (now t1 : Z) (tenant : jstring) (rangeSec : option Z) : res json :=
  let fill := fill_panels now tenant rangeSec in
  let? a := fill GRAFANA_STAT_PANELS in
  let? b := fill GRAFANA_SOC_STAT_PANELS in
  let? c := fill GRAFANA_TELEGRAM_STAT_PANELS in
  let? d := fill GRAFANA_API_STAT_PANELS in
  let? f := fill GRAFANA_WEBHOOK_STAT_PANELS in
  let? timeseries := rseq (map (fill_series now tenant rangeSec) (GRAFANA_TS_PANELS ++ GRAFANA_SOC_TS_PANELS)) in
  let? table := rseq (map (fill_table tenant) GRAFANA_TABLE_METRICS) in
  let live := liveGuardianStats e fetchText t1 in
  let with_live (m : stats) (g : LiveStats → stats → stats) := match live with Some l => g l m | None => m end in
  let st := with_live a.*1 (λ l m, merge_stats m (lv_stats l)) in
  let soc := refresh_age t1 (with_live b.*1 (λ l m, merge_soc m (lv_socStats l))) in
  Ok (JObject
    [("reachable", vb true); ("source", vs "prometheus"); ("tenant", vs tenant);
     ("rangeSec", match rangeSec with Some r => vn r | None => vnull end); ("ts", vn t1);
     ("hint", match live with
              | Some _ => if neq_num (stat "lines" st) nzero && neq_num (stat "ban_ok" st) nzero then vs LIVE_HINT else None
              | None => None
              end);
     ("stats", Some (stats_json st)); ("socStats", Some (stats_json soc));
     ("telegramStats", Some (stats_json (with_live c.*1 (λ l m, merge_max m (lv_telegramStats l)))));
     ("apiStats", Some (stats_json (with_live d.*1 (λ l m, merge_max m (lv_apiStats l)))));
     ("webhookStats", Some (stats_json (with_live f.*1 (λ l m, merge_max m (lv_webhookStats l)))));
     ("sparklines", Some (JObj (a.*2 ++ b.*2 ++ c.*2 ++ d.*2 ++ f.*2))); ("timeseries", Some (JObj timeseries));
     ("table", Some (JArr table))]).

Definition grafana_ok (body : json) : response := with_cache "private, max-age=4" (respond 200 body).
Definition cached_body (now : Z) (k : jstring) (c : option gcache) : option json :=
  match c with
  | Some c => if (gc_key c =s k) && (now - gc_ts c <? GRAFANA_CACHE_MS) then Some (gc_body c) else None
  | None => None
  end.
Definition grafana_GET (now t1 : Z) (req : request) : M (option gcache) response :=
  let tenant := tenant_of req in
  let rangeSec := rangeSec_of req in
  let cacheKey := cache_key tenant rangeSec in
  let store body := modify (λ _, Some {| gc_key := cacheKey; gc_ts := t1; gc_body := body |}) in
  let* c := get in
  match cached_body now cacheKey c with
  | Some body => mret' (grafana_ok body)
  | None =>
      if negb (promReachable promFetch e) then
        match liveGuardianStats e fetchText t1 with
        | Some live => let body := guardian_direct tenant rangeSec t1 live in
                       store body ;;; mret' (grafana_ok body)
        | None => mret' (respond 200 (grafana_unreachable tenant))
        end
      else
        let* body := lift_res (grafana_body now t1 tenant rangeSec) in
        store body ;;; mret' (grafana_ok body)
  end.
End route.

(** ** Queries *)

Lemma expand_plain m b a t : 36 ∉ t → expand_replacement m b a t = t.
Proof.
  induction t as [|c t IH]; intros Ht; [done|]. apply not_elem_of_cons in Ht as [Hc Ht].
  assert (E : expand_replacement m b a (c :: t) = c :: expand_replacement m b a t).
  { destruct c as [|c|c]; [done| |done]. repeat (destruct c as [c|c|]; try done). }
  by rewrite E, IH.
Qed.
Lemma no_dollar_start c s : c ≠ 36 → starts_with "$tenant" (c :: s) = false.
Proof. intros Hc. cbn [starts_with]. destruct (36 =? c) eqn:E; [bprop; congruence|done]. Qed.
Lemma replace_none tenant before s : 36 ∉ s → replace_tenant tenant before O s = s.
Proof.
  revert before. induction s as [|c s IH]; intros before Hs; [done|]. apply not_elem_of_cons in Hs as [Hc Hs].
  cbn [replace_tenant]. rewrite no_dollar_start by congruence. by rewrite IH.
Qed.
Lemma replace_skip tenant before n s t : length s = n →
  replace_tenant tenant before n (s ++ t) = replace_tenant tenant (before ++ s) O t.
Proof.
  revert before n. induction s as [|c s IH]; intros before n <-; cbn; [by rewrite app_nil_r|].
  rewrite IH by done. by rewrite <- app_assoc.
Qed.
Lemma replace_before tenant before a s : 36 ∉ a →
  replace_tenant tenant before O (a ++ s) = a ++ replace_tenant tenant (before ++ a) O s.
Proof.
  revert before. induction a as [|c a IH]; intros before Ha; [by rewrite app_nil_r|].
  apply not_elem_of_cons in Ha as [Hc Ha]. cbn [app replace_tenant].
  rewrite no_dollar_start by congruence. rewrite IH by done. by rewrite <- app_assoc.
Qed.
(** The only dollar of the query is the placeholder's, and the tenant has none. *)
Lemma tenantExpr_plain a b tenant : 36 ∉ a → 36 ∉ b → 36 ∉ tenant →
  tenantExpr (a ++ "$tenant" ++ b) tenant = a ++ tenant ++ b.
Proof.
  intros Ha Hb Ht. unfold tenantExpr. rewrite replace_before by done. f_equal.
  assert (E : replace_tenant tenant ([] ++ a) 0 ("$tenant" ++ b) =
    expand_replacement "$tenant" ([] ++ a) b tenant ++ replace_tenant tenant (([] ++ a) ++ [36]) 6 ("tenant" ++ b)) by done.
  rewrite E, expand_plain by done. f_equal. rewrite replace_skip by done. by apply replace_none.
Qed.

(** All queries of the page. *)
Definition all_exprs : list jstring :=
  map sp_expr (GRAFANA_STAT_PANELS ++ GRAFANA_SOC_STAT_PANELS ++ GRAFANA_TELEGRAM_STAT_PANELS ++
               GRAFANA_API_STAT_PANELS ++ GRAFANA_WEBHOOK_STAT_PANELS ++ GRAFANA_TABLE_METRICS) ++
  flat_map (λ p, map ps_expr (tp_series p)) (GRAFANA_TS_PANELS ++ GRAFANA_SOC_TS_PANELS).

(** A query around the placeholder, with nothing else to replace. *)
Definition scoped (q : jstring) : bool :=
  match index_of by_tenant q with
  | Some n => let a := take n q in let b := drop (n + length by_tenant) q in
              negb (bool_decide (36 ∈ a)) && negb (bool_decide (36 ∈ b)) && (q =s a ++ by_tenant ++ b)
  | None => false
  end.
Lemma all_scoped : forallb scoped all_exprs = true.
Proof. by vm_compute. Qed.

(** Every query of the page selects the tenant it was asked for, for tenants
    without a dollar sign: the matcher [tenant_id="..."] holds exactly the
    parameter, whose quotes are not escaped. *)
Theorem panel_queries_scoped q tenant : q ∈ all_exprs → 36 ∉ tenant →
  ∃ a b, 36 ∉ a ∧ tenantExpr q tenant = a ++ "{tenant_id=" ++ dq ++ tenant ++ dq ++ b.
Proof.
  intros Hq Ht. pose proof all_scoped as Hs. rewrite forallb_forall in Hs.
  apply list_elem_of_In in Hq. specialize (Hs q Hq). unfold scoped in Hs.
  destruct (index_of by_tenant q) as [n|]; [|done]. bprop.
  set (a := take n q) in *. set (b := drop _ q) in *. exists a, b. split; [done|].
  rewrite H0. unfold by_tenant.
  replace (a ++ ("{tenant_id=" ++ dq ++ "$tenant" ++ dq) ++ b)
    with ((a ++ "{tenant_id=" ++ dq) ++ "$tenant" ++ (dq ++ b)) by (by rewrite <- !app_assoc).
  rewrite tenantExpr_plain; [by rewrite <- !app_assoc| | |done].
  - rewrite !not_elem_of_app. splits; [done| |]; by apply (bool_decide_unpack _).
  - rewrite not_elem_of_app. split; [by apply (bool_decide_unpack _)|done].
Qed.

(** ** The cache *)

Lemma opt_text_free r : 58 ∉ opt_text r.
Proof.
  destruct r as [r|]; cbn [opt_text]; [|by apply (bool_decide_unpack _)].
  intros [H|H]%dec_chars; [|done]. by vm_compute in H.
Qed.
Lemma opt_text_inj r r' : opt_text r = opt_text r' → r = r'.
Proof.
  assert (Hn : ∀ z, dec z ≠ "NaN").
  { intros z E. assert (Hc : 78 ∈ dec z) by (rewrite E; left). apply dec_chars in Hc as [Hc|Hc]; [|done].
    by vm_compute in Hc. }
  destruct r as [r|], r' as [r'|]; cbn [opt_text]; intros E; try done.
  - f_equal. by apply dec_inj_Z.
  - by destruct (Hn r).
  - by destruct (Hn r').
Qed.
Lemma cache_key_inj t r t' r' : cache_key t r = cache_key t' r' → t = t' ∧ r = r'.
Proof.
  unfold cache_key. intros E%(f_equal (@rev Z)). rewrite !rev_app_distr in E. cbn in E. rewrite <- !app_assoc in E.
  apply sep_inj in E as [E1 E2].
  - split; [by apply (f_equal (@rev Z)) in E2; rewrite !rev_involutive in E2|].
    apply opt_text_inj. by apply (f_equal (@rev Z)) in E1; rewrite !rev_involutive in E1.
  - rewrite list_elem_of_In, <- in_rev, <- list_elem_of_In. apply opt_text_free.
  - rewrite list_elem_of_In, <- in_rev, <- list_elem_of_In. apply opt_text_free.
Qed.

(** What is cached was made for the tenant and the range of its key. *)
Definition made_for (tenant : jstring) (rangeSec : option Z) (body : json) : Prop :=
  (Some body).["tenant"] = vs tenant ∧
  (Some body).["rangeSec"] = match rangeSec with Some r => vn r | None => vnull end.
Definition gcache_ok (c : option gcache) : Prop :=
  ∀ g, c = Some g → ∃ t r, gc_key g = cache_key t r ∧ made_for t r (gc_body g).

Section cache.
Context (promFetch : jstring → list (jstring * jstring) → Z → option (Z * option json)).
Context (fetchText : jstring → res (Z * res jstring)) (e : env) `{TimeFormat}.

Lemma body_made now t1 tenant rangeSec body :
  grafana_body promFetch fetchText e now t1 tenant rangeSec = Ok body → made_for tenant rangeSec body.
Proof.
  unfold grafana_body. cbv zeta. intros Hb.
  repeat match type of Hb with rbind ?m _ = Ok _ => destruct m; cbn [rbind] in Hb; [|done] end.
  injection Hb as <-. destruct rangeSec; by split.
Qed.
Lemma direct_made t1 tenant rangeSec live : made_for tenant rangeSec (guardian_direct tenant rangeSec t1 live).
Proof. destruct rangeSec; by split. Qed.

(** C17. The metrics page never shows the answer to another question: whatever a
    sound cache holds, the body sent was made for the tenant and the range that
    were asked for, and the cache stays sound. *)
Theorem grafana_answers_asked now t1 req c r c' : gcache_ok c →
  grafana_GET promFetch fetchText e now t1 req c = (Ok r, c') →
  gcache_ok c' ∧ ∃ body, body_json r = Some body ∧
    (made_for (tenant_of req) (rangeSec_of req) body ∨ body = grafana_unreachable (tenant_of req)).
Proof.
  intros Hc. unfold grafana_GET, mbind', get, modify, mret', lift_res. cbv zeta.
  assert (Hst : ∀ b, made_for (tenant_of req) (rangeSec_of req) b →
    gcache_ok (Some {| gc_key := cache_key (tenant_of req) (rangeSec_of req); gc_ts := t1; gc_body := b |})).
  { intros b Hb g [= <-]. by exists (tenant_of req), (rangeSec_of req). }
  destruct (cached_body _ _ c) as [body|] eqn:Ec.
  - intros [= <- <-]. split; [done|]. exists body. split; [done|left].
    unfold cached_body in Ec. destruct c as [g|]; [|done]. destruct (_ && _) eqn:Ek; [|done]. bprop. simplify_eq.
    destruct (Hc g eq_refl) as (t & r & Hk & Hm). rewrite Hk in H0. apply cache_key_inj in H0 as [-> ->]. done.
  - destruct (negb _).
    + destruct (liveGuardianStats _ _ _) as [live|]; intros [= <- <-].
      * pose proof (direct_made t1 (tenant_of req) (rangeSec_of req) live) as Hm. split; [by apply Hst|]. eauto.
      * split; [done|]. eexists; split; [done|by right].
    + destruct (grafana_body _ _ _ _ _ _ _) as [body|] eqn:Eb; [|done]. intros [= <- <-].
      apply body_made in Eb. split; [by apply Hst|]. eauto.
Qed.

(** The tenant is the caller's choice: the headers the session gate sets play no
    part in the answer. *)
Lemma grafana_ignores_session now t1 req h :
  grafana_GET promFetch fetchText e now t1 (with_headers h req) = grafana_GET promFetch fetchText e now t1 req.
Proof. done. Qed.
End cache.

(** A tenant with a quote ends the matcher and adds a selector of its own. *)
Lemma tenant_injection : tenantExpr (metric_of "lines_total") ("x" ++ dq ++ "} or loganalyzer_lines_total{tenant_id!=" ++ dq) =
  "loganalyzer_lines_total{tenant_id=" ++ dq ++ "x" ++ dq ++ "} or loganalyzer_lines_total{tenant_id!=" ++ dq ++ dq ++ "}".
Proof. by vm_compute. Qed.

(** The number of samples a chart asks for is bounded. *)
Lemma spark_bound r st : 0 ≤ r → rangeSparkStep (Some r) = Some st → r ≤ 48 * st.
Proof. unfold rangeSparkStep, ceil_div. cbn. intros Hr [= <-]. pose proof (Z.div_mod (- r) 48). pose proof (Z.mod_pos_bound (- r) 48). lia. Qed.
Lemma ts_bound r st : 0 ≤ r → rangeTsStep (Some r) = Some st → r ≤ 72 * st.
Proof. unfold rangeTsStep, ceil_div. cbn. intros Hr [= <-]. pose proof (Z.div_mod (- r) 72). pose proof (Z.mod_pos_bound (- r) 72). lia. Qed.

Module Demo.
#[local] Instance time_dec : TimeFormat := dec.
(** A Prometheus that answers every query with one sample. *)
Definition prom (url : jstring) (params : list (jstring * jstring)) (t : Z) : option (Z * option json) :=
  Some (200, Some (JObj [("status", JStr "success"); ("data", JObj [("result",
    JArr [JObj [("value", JArr [jint 60; JStr "5"]); ("values", JArr [JArr [jint 60; JStr "5"]])]])])])).
Definition no_text (url : jstring) : res (Z * res jstring) := Throw "down".
Definition ask (tenant : jstring) : request :=
  mk_request "/api/metrics/grafana" [] [] [("tenant", tenant); ("range", "3600")] None.
Definition none_env : env := env_of [].
Definition kept : option gcache :=
  Some {| gc_key := "acme:3600"; gc_ts := 1000000; gc_body := JObj [("tenant", JStr "acme"); ("rangeSec", jint 3600)] |}.
Lemma kept_ok : gcache_ok kept.
Proof. intros g [= <-]. by exists "acme", (Some 3600). Qed.

Lemma panel_queries_scoped_witness : ∃ a b, 36 ∉ a ∧
  tenantExpr (metric_of "eps") "acme" = a ++ "{tenant_id=" ++ dq ++ "acme" ++ dq ++ b.
Proof.
  apply (panel_queries_scoped (metric_of "eps") "acme").
  - apply (bool_decide_unpack _). vm_compute. exact I.
  - apply (bool_decide_unpack _). vm_compute. exact I.
Defined.
(** The second question comes while the first answer is still cached. *)
Definition second := grafana_GET prom no_text none_env 1001000 1001000 (ask "globex") kept.
Lemma grafana_answers_asked_witness : ∃ r c', second = (Ok r, c') ∧ gcache_ok c' ∧ ∃ body, body_json r = Some body ∧
  (made_for "globex" (Some 3600) body ∨ body = grafana_unreachable "globex").
Proof.
  destruct second as [[r|msg] c'] eqn:Es.
  - exists r, c'. split; [reflexivity|].
    exact (grafana_answers_asked prom no_text none_env 1001000 1001000 (ask "globex") kept r c' kept_ok Es).
  - exfalso. vm_compute in Es. discriminate Es.
Defined.
End Demo.
