(* ===== verification/CopilotText.v ===== *)
(** The copilot's words: language detection (dashboard/src/lib/i18n.ts), scope
    rules (copilotScope.ts), reply quality (copilotQuality.ts) and the answers it
    gives without a model (copilotFallback.ts). *)

From S2P Require Import Prelude JsString JsNum Json Regex Http JsValue.

Definition nl : jstring := [10].

(** ** Languages *)

Inductive Lang := Ltr | Len | Lde | Lfr | Lru | Les | Lpt | Lit | Lpl | Lnl | Lar | Lzh | Lja | Lko.
#[global] Instance Lang_eq_dec : EqDecision Lang.
Proof. solve_decision. Defined.
Definition is_lang (a b : Lang) : bool := bool_decide (a = b).
Definition LOCALES : list (jstring * Lang * jstring) :=
  [("tr", Ltr, "Türkçe"); ("en", Len, "English"); ("de", Lde, "Deutsch"); ("fr", Lfr, "Français");
   ("ru", Lru, "Русский"); ("es", Les, "Español"); ("pt", Lpt, "Português"); ("it", Lit, "Italiano");
   ("pl", Lpl, "Polski"); ("nl", Lnl, "Nederlands"); ("ar", Lar, "العربية"); ("zh", Lzh, "中文");
   ("ja", Lja, "日本語"); ("ko", Lko, "한국어")].

(** Canonical form of a unit for patterns with the flag [i]; units of ASCII and
    other units never share one. *)
Class CaseFold := canon : Z → Z.

Section text.
Context `{UnicodeCase} `{CaseFold}.

(** A literal of a pattern with the flag [i]. *)
Definition chr_c (c : Z) : re := if c <? 128 then chr_i c else RCls (λ d, canon d =? canon c).
Fixpoint lit_c (t : jstring) : re := match t with [] => REps | c :: t => RCat (chr_c c) (lit_c t) end.
(** [/a|b|.../i.test(s)] for literals. *)
Definition any_of_i (l : list jstring) (s : jstring) : bool := existsb (λ t, test_any (lit_c t) s) l.
Definition any_of (l : list jstring) (s : jstring) : bool := existsb (λ t, includes t s) l.
(** [/[...]/.test(s)] *)
Definition has_unit (p : Z → bool) (s : jstring) : bool := existsb p s.
Definition one_of (l : jstring) (c : Z) : bool := existsb (Z.eqb c) l.
Definition between (lo hi c : Z) : bool := (lo <=? c) && (c <=? hi).

(** [\b]: a change between word units and others. *)
Definition is_word (c : Z) : bool := is_digit c || between 97 122 (ascii_lower c) || (c =? 95).
Definition word_at (l : jstring) : bool := match l with c :: _ => is_word c | [] => false end.
(** [/\b(w)\b/i] with [w] at this place, [prev] before it. *)
Fixpoint strip_c (w s : jstring) : option jstring :=
  match w, s with
  | [], _ => Some s
  | c :: w, d :: s => if re_match (chr_c c) [d] then strip_c w s else None
  | _, [] => None
  end.
Definition word_here (prev : bool) (w s : jstring) : bool :=
  match strip_c w s with
  | Some rest => xorb prev (word_at s) && xorb (word_at (rev (take (length w) s))) (word_at rest)
  | None => false
  end.
Fixpoint any_word (ws : list jstring) (prev : bool) (s : jstring) : bool :=
  existsb (λ w, word_here prev w s) ws ||
  match s with [] => false | c :: s' => any_word ws (is_word c) s' end.

Definition detectTextLocale (text : jstring) : Lang :=
  let s := trim text in
  if negb (nonempty s) then Len
  else if has_unit (one_of "ğüşöçıİĞÜŞÖÇ") s then Ltr
  else if has_unit (between 1536 1791) s then Lar
  else if has_unit (between 19968 40959) s then Lzh
  else if has_unit (between 12352 12543) s then Lja
  else if has_unit (between 44032 55215) s then Lko
  else if has_unit (between 1024 1279) s then Lru
  else if has_unit (one_of "äöüßÄÖÜ") s then Lde
  else if has_unit (one_of "àâçéèêëîïôùûüœæÀÂÇÉÈÊËÎÏÔÙÛÜŒÆ") s then Lfr
  else
    let lower := to_lower s in
    if any_word ["ve"; "bir"; "için"; "olan"; "nedir"; "nasıl"; "tehdit"; "ban"; "özet"; "sistem"; "güvenlik";
                 "merhaba"; "evet"; "hayır"] false lower then Ltr
    else if any_word ["и"; "или"; "что"; "как"; "угроз"; "бан"; "систем"; "безопас"; "привет"; "да"; "нет"; "флот";
                      "агент"; "отчет"; "отчёт"; "ip"; "блок"] false lower then Lru
    else Len.

Definition lang_name (l : Lang) : jstring :=
  match l with
  | Ltr => "Turkce" | Len => "English" | Lde => "Deutsch" | Lfr => "Francais" | Lru => "Russkij" | Les => "Espanol"
  | Lpt => "Portugues" | Lit => "Italiano" | Lpl => "Polski" | Lnl => "Nederlands" | Lar => "Arabic"
  | Lzh => "Chinese" | Lja => "Japanese" | Lko => "Korean"
  end.
Definition localeInstruction (locale : Lang) : jstring :=
  match locale with
  | Lru => "ЯЗЫК ОТВЕТА: Пишите только на русском. Исключения: RCE, EPS, SIEM, IP, BAN_IP. Тон профессионального SOC."
  | Lar | Lzh | Lja | Lko =>
      "RESPONSE LANGUAGE: Write only in " ++ lang_name locale ++
      ". Exceptions: RCE, EPS, SIEM, IP, BAN_IP. Professional SOC tone."
  | _ => "YANIT DILI: Yalnizca " ++ lang_name locale ++
         " yaz. Ingilizce kelime kullanma (RCE, EPS, SIEM, IP, BAN_IP istisna). Profesyonel SOC ussu."
  end.

(** ** Scope *)

Definition space_or (l : jstring) : re := RCls (λ c, is_space c || one_of l c).
(** [.] *)
Definition dot_re : re := RCls (λ c, negb (one_of [10; 13; 8232; 8233] c)).
Definition LG_WORDS : list jstring :=
  ["guardian"; "tehdit"; "threat"; "rce"; "execve"; "ban"; "engelle"; "filo"; "fleet"; "agent"; "alarm"; "eps"; "siem";
   "ebpf"; "xdp"; "waf"; "saldiri"; "uyumluluk"; "compliance"; "kvkk"; "pci"; "soc2"; "dashboard"; "daemon"; "telemetri";
   "telemetry"; "olay"; "incident"; "mesh"; "tarpit"; "reports"; "copilot"; "node-"; "guard"; "audit"; "ihlal"; "koruma";
   "guvenlik"; "security"; "mitre"; "lineage"; "pod kill"; "banned"; "shell"].
Definition LG_PATTERNS : list re :=
  [RCat (lit_c "log") (RCat (ropt (space_or "-")) (lit_c "guardian"));
   RCat (lit_c "attack") (RCat (ropt dot_re) (lit_c "tree"));
   RCat (lit_c "iso") (RCat (ropt dot_re) (lit_c "270")); RCat (lit_c "ip") (space_or "/")].
Definition LG_TOPIC (s : jstring) : bool := any_of_i LG_WORDS s || existsb (λ r, test_any r s) LG_PATTERNS.
Definition OFF_TOPIC_WORDS : list jstring :=
  ["hava durumu"; "hava nasil"; "hava nolur"; "yarin hava"; "bugun hava"; "bugün hava"; "yemek tarif"; "film oner";
   "dizi oner"; "futbol"; "basketbol"; "siyaset"; "secim"; "bitcoin"; "kripto fiyat"; "borsa"; "hisse"; "python ogren";
   "javascript ogren"; "kod yaz"; "siir yaz"; "hikaye yaz"; "felsefe"; "psikoloji"; "iliski"; "ask "; "evlilik";
   "tanisma"; "flort"; "oyun oner"; "minecraft"; "fortnite"; "gpt nedir"; "chatgpt"; "openai nedir"; "kim kazandi";
   "mac skor"].
Definition OFF_TOPIC (s : jstring) : bool := any_of_i OFF_TOPIC_WORDS s.
Definition GREETING (s : jstring) : bool :=
  test_full (RCat (ralts (map lit_c ["merhaba"; "selam"; "hey"; "hi"; "hello"; "günaydın"; "gunaydin"; "iyi günler"]))
                  (RStar (space_or "!.?"))) s.

Definition isGreetingMessage (message : jstring) : bool := GREETING (trim message).
Definition isLogGuardianTopic (message : jstring) : bool :=
  let t := trim message in
  if negb (nonempty t) then false
  else if GREETING t then true
  else if OFF_TOPIC t then false
  else LG_TOPIC t.

Definition logGuardianScopeRule (locale : Lang) : jstring :=
  match locale with
  | Ltr => join nl
      ["KAPSAM KURALI (ZORUNLU):"; "- Sen yalnizca Log Guardian platformunun guvenlik asistanisin.";
       "- Sadece su konularda konus: filo/agent telemetrisi, tehdit ozeti, RCE/execve, IP ban (BAN_IP), attack tree, SIEM, eBPF/XDP/WAF, uyumluluk raporlari (SOC2/PCI/KVKK), dashboard sayfalari (/fleet, /reports, /attack-tree, /copilot).";
       "- Log Guardian disi sorulara (hava, yemek, genel sohbet, baska yazilimlar) yanit verme; nazikce kapsam disi oldugunu soyle ve LG ornek sorulari oner."]
  | Lde => "GULTIGKEITSBEREICH: Nur Log Guardian — Flotte, Bedrohungen, RCE, Compliance. Keine Off-Topic-Antworten."
  | Lfr => "PERIMETRE: Uniquement Log Guardian — flotte, menaces, RCE, conformite. Refusez les sujets hors scope."
  | Lru => join nl
      ["ОБЛАСТЬ (ОБЯЗАТЕЛЬНО):"; "- Вы только ассистент безопасности Log Guardian.";
       "- Темы: телеметрия флота, угрозы, RCE, BAN_IP, attack tree, SIEM, eBPF/XDP/WAF, отчёты соответствия, страницы dashboard.";
       "- На вопросы вне Log Guardian отвечайте отказом и предложите примеры запросов по LG."]
  | _ => join nl
      ["SCOPE RULE (MANDATORY):"; "- You are ONLY the Log Guardian security assistant.";
       "- Discuss: fleet telemetry, threats, RCE, BAN_IP, attack tree, SIEM, eBPF, compliance reports, dashboard pages.";
       "- Refuse off-topic questions; redirect to Log Guardian capabilities."]
  end.
Definition offTopicReply (locale : Lang) : jstring :=
  match locale with
  | Ltr => join nl
      ["Log Guardian Asistani"; "";
       "Bu konuda yardimci olamam — yalnizca Log Guardian guvenlik platformu hakkinda konusabilirim."; "";
       "Yardimci olabilecegim konular:"; "• Filo / agent telemetrisi ve tehdit ozeti";
       "• RCE ve execve engelleme analizi"; "• IP engelleme (BAN_IP) onerisi"; "• Attack tree ve SIEM olaylari";
       "• Uyumluluk raporu (/reports)"; "";
       "Ornek: " ++ dq ++ "Mevcut tehdit ozetini cikar" ++ dq ++ " veya " ++ dq ++ "RCE analizi yap" ++ dq]
  | Lde => join nl ["Log Guardian Assistent"; "";
                    "Ich beantworte nur Fragen zu Log Guardian (Flotte, Bedrohungen, Compliance)."]
  | Lfr => join nl ["Assistant Log Guardian"; "";
                    "Je ne reponds qu'aux sujets Log Guardian (flotte, menaces, conformite)."]
  | Lru => join nl
      ["Ассистент Log Guardian"; "";
       "Я помогаю только по платформе Log Guardian — флот, угрозы, RCE, баны, соответствие."; "";
       "Примеры: «Сводка угроз» или «Анализ RCE»"]
  | _ => join nl
      ["Log Guardian Assistant"; "";
       "I can only help with the Log Guardian security platform — fleet telemetry, threats, RCE, bans, compliance, and dashboard features.";
       ""; "Try: " ++ dq ++ "Summarize current threats" ++ dq ++ " or " ++ dq ++ "RCE analysis" ++ dq]
  end.
Definition greetingReply (locale : Lang) : jstring :=
  match locale with
  | Ltr => join nl
      ["Log Guardian Guvenlik Asistani"; "";
       "Merhaba. Filo telemetrinize erisebilirim; yalnizca Log Guardian kapsaminda yardimci olurum."; "";
       "Ornek sorular:"; "• Mevcut tehdit ozetini cikar"; "• RCE analizi yap"; "• Yonetici ozeti olustur";
       "• Uyumluluk raporu hakkinda bilgi ver"]
  | Lde => "Log Guardian Sicherheitsassistent — Fragen zu Flotte, Bedrohungen, Compliance."
  | Lfr => "Assistant securite Log Guardian — flotte, menaces, conformite."
  | Lru => join nl
      ["Ассистент безопасности Log Guardian"; "";
       "Здравствуйте. Доступна телеметрия флота; отвечаю только по Log Guardian."; "";
       "Примеры: сводка угроз, анализ RCE, исполнительная сводка, соответствие."]
  | _ => join nl
      ["Log Guardian Security Assistant"; "";
       "Hello. I have access to your fleet telemetry and only answer Log Guardian security topics."; "";
       "Try: threat summary, RCE analysis, executive summary, or compliance info."]
  end.

(** ** Quality of a model's reply *)

(** Maximal runs of units with a property ([split(/\s+/)] of trimmed text, and the
    matches of [\b...\b] around ASCII words). *)
Fixpoint runs (p : Z → bool) (s : jstring) : list jstring :=
  match s with
  | [] => []
  | c :: s' =>
      if p c then
        match runs p s', s' with
        | r :: rs, d :: _ => if p d then (c :: r) :: rs else [c] :: r :: rs
        | rs, _ => [c] :: rs
        end
      else runs p s'
  end.
Definition ENGLISH_WORDS : list jstring :=
  ["successful"; "unavailable"; "detailed"; "available"; "data"; "obtain"; "normal"; "activity"; "risk"; "agent"; "alert";
   "tree"].
Definition englishHits (t : jstring) : nat :=
  length (jfilter (λ r, existsb (jeq (map ascii_lower r)) ENGLISH_WORDS) (runs is_word t)).
Definition FOREIGN_UNITS : jstring := "àáâãäåèéêëìíîïòóôõùúûü".
Definition is_alpha (c : Z) : bool := between 97 122 (ascii_lower c).
Definition isCopilotReplyLowQuality (content : jstring) (locale : Lang) : bool :=
  let t := trim content in
  if slen t <? 40 then true
  else if negb (is_lang Ltr locale) then false
  else if (2 <=? englishHits t)%nat then true
  else if has_unit (λ c, existsb (λ d, canon c =? canon d) FOREIGN_UNITS) t then true
  else if existsb (λ r, test_any r t)
            [RCat (lit_c "egr") (RAlt (chr_c 101) (chr_c 233)); lit_c "epsyon"; lit_c "gardyan agent";
             lit_c "ransomware egr"] then true
  else
    let words := runs (λ c, negb (is_space c)) t in
    let latinOnly := length (jfilter (λ w, forallb is_alpha w && (3 <? slen w)) words) in
    4 * Z.of_nat latinOnly >? Z.of_nat (length words).

Definition shouldPreferStructuredReply (e : env) (locale : Lang) : bool :=
  if env_is e "COPILOT_FORCE_LLM" "1" then false
  else match locale with
       | Ltr => negb (env_is e "COPILOT_STRUCTURED_TR" "0")
       | Lru => negb (env_is e "COPILOT_STRUCTURED_RU" "0")
       | _ => false
       end.
Definition pickCopilotModel (e : env) (availableHint : option jstring) : jstring :=
  let model := oor (e "COPILOT_MODEL") (oor (e "OLLAMA_MODEL") (oor availableHint "llama3.2:3b")) in
  match truthy_str (e "COPILOT_MODEL") with
  | Some _ => model
  | None => if includes "llama3.2:3b" model then oor (e "COPILOT_MODEL_TR") "qwen2.5-coder:7b" else model
  end.
Definition turkishSocPrompt : jstring := join nl
  ["KRITIK KURALLAR (Log Guardian Turkce asistani):";
   "- Yalnizca Log Guardian platformu hakkinda konus (filo, tehdit, RCE, ban, uyumluluk, dashboard).";
   "- Log Guardian disi konulara yanit verme.";
   "- Yalnizca duzgun Turkce yaz. Ingilizce kelime KULLANMA (RCE, EPS, SIEM, IP, BAN_IP haric).";
   "- Verilen rakamlari degistirme, uydurma."; "- 4-6 cumle veya madde; net, profesyonel, kisa."].

(** ** Answers without a model *)

Inductive CopilotIntent := IThreatSummary | IRce | IExecutive | IBan | ICompliance | IGeneral.
Definition detectIntent (message : jstring) : CopilotIntent :=
  let m := to_lower message in
  if any_of ["tehdit"; "threat"; "ozet"; "özet"; "summarize"; "landscape"; "bedrohung"; "menace"; "paysage"; "угроз";
             "сводк"; "обзор"] m then IThreatSummary
  else if any_of ["rce"; "execve"; "shell spawn"; "komut calistir"; "komut çalıştır"] m then IRce
  else if any_of ["yonetici"; "yönetici"; "executive"; "management"; "bugunku olay"; "bugünkü olay"; "bugunun olay";
                  "today's events"; "heute"; "aujourd"; "руковод"; "исполнит"] m then IExecutive
  else if any_of ["ban"; "engelle"; "block ip"; "sperr"; "bloquer"; "блок"; "заблок"] m then IBan
  else if any_of ["uyumluluk"; "compliance"; "kvkk"; "pci"; "soc2"; "iso"; "соответств"; "комплаенс"] m then ICompliance
  else IGeneral.

(** An agent is an object of type [FallbackAgent]; [x += a.k ?? 0] over all agents. *)
Definition vadd (a b : val) : val := vnum (nadd (to_num a) (to_num b)).
Definition total_of (k : jstring) (agents : list val) : val :=
  fold_left (λ acc a, vadd acc (a.[k] ??? vn 0)) agents (vn 0).
Definition aggregate (agents : list val) : val :=
  Some (JObject [("eps", total_of "eps" agents); ("alerts", total_of "alertsTotal" agents);
                 ("rce", total_of "rceDetections" agents); ("tarpit", total_of "tarpitActive" agents);
                 ("incActive", total_of "incidentsActive" agents);
                 ("incCorr", total_of "incidentsCorrelated" agents)]).
(** Agents whose status is [online], and those with a blocked RCE. *)
Definition status_online (a : val) : bool := to_lower (ostr (a.["status"] ??? vs "")) =s "online".
Definition online_count (agents : list val) : val := vn (Z.of_nat (length (jfilter status_online agents))).
Definition has_rce (a : val) : bool := vlt (vn 0) (a.["rceDetections"] ??? vn 0).
Definition with_rce (agents : list val) : list val := jfilter has_rce agents.
Definition rce_node (agents : list val) : val := match jfind has_rce agents with Some a => a | None => None end.

(** [[...].join("\n")], [[...].filter(Boolean)] and both. *)
Definition line_text (v : val) : jstring := if present v then ostr v else [].
Definition join_lines (l : list (res val)) : res val :=
  let? xs := rseq l in Ok (vs (join nl (map line_text xs))).
Definition truthy_only (l : list (res val)) : res (list val) := let? xs := rseq l in Ok (jfilter otruthy xs).
Definition join_truthy (l : list (res val)) : res val :=
  let? xs := truthy_only l in Ok (vs (join nl (map line_text xs))).

Definition agentDetailLines (agents : list val) (locale : Lang) : list (res val) :=
  if negb (otruthy (vn (Z.of_nat (length agents)))) then
    if is_lang Ltr locale then
      [str "Kayitli agent bulunmuyor."]
    else if is_lang Lru locale then [str "Нет зарегистрированных агентов."] else [str "No registered agents."]
  else
    map
      (λ a,
         let st := a.["status"] ??? vs "unknown" in
         if is_lang Ltr locale then
           tpl [Txt "• "; Val a.["agentId"]; Txt " ("; Val st; Txt "): "; Val (a.["alertsTotal"] ??? vn 0);
                Txt " alarm, "; Val (a.["rceDetections"] ??? vn 0); Txt " RCE engeli, EPS ";
                Fix 1 (a.["eps"] ??? vn 0)]
         else if is_lang Lru locale then
           tpl [Txt "• "; Val a.["agentId"]; Txt " ("; Val st; Txt "): "; Val (a.["alertsTotal"] ??? vn 0);
                Txt " оповещ., "; Val (a.["rceDetections"] ??? vn 0); Txt " RCE блок., EPS ";
                Fix 1 (a.["eps"] ??? vn 0)]
         else
           tpl [Txt "• "; Val a.["agentId"]; Txt " ("; Val st; Txt "): "; Val (a.["alertsTotal"] ??? vn 0);
                Txt " alerts, "; Val (a.["rceDetections"] ??? vn 0); Txt " RCE blocks, EPS ";
                Fix 1 (a.["eps"] ??? vn 0)])
      (take 8 agents).

Definition threatSummary (locale : Lang) (agents : list val) : res val :=
  let agg := aggregate agents in
  let eps := agg.["eps"] in
  let alerts := agg.["alerts"] in
  let rce := agg.["rce"] in
  let tarpit := agg.["tarpit"] in
  let incActive := agg.["incActive"] in
  let incCorr := agg.["incCorr"] in
  let online := online_count agents in
  let rceNode := rce_node agents in
  if is_lang Ltr locale then
    let? lead :=
      if (online === vn 0) && vlt (vn 0) (vn (Z.of_nat (length agents))) then
        tpl [Txt "Filo kayitlarinda "; Val (vn (Z.of_nat (length agents)));
             Txt
               " agent var ancak hicbiri su an online degil. Asagidaki rakamlar son senkronize telemetriden geliyor; canli akis icin agent/daemon servislerini kontrol edin."]
      else
        tpl [Txt "Filo "; Val (vn (Z.of_nat (length agents))); Txt " agent ile izleniyor; "; Val online;
             Txt " tanesi online."] in
    let? bullets :=
      truthy_only
        [tpl [Val alerts; Txt " guvenlik alarmi"];
         if vlt (vn 0) incActive then tpl [Val incActive; Txt " aktif olay"] else ret vnull;
         if vlt (vn 0) incCorr then tpl [Val incCorr; Txt " korelasyon"] else ret vnull;
         if vlt (vn 0) rce then tpl [Val rce; Txt " RCE girisimi engellendi"] else str "RCE engeli kaydi yok";
         tpl [Val tarpit; Txt " aktif tarpit"];
         tpl [Txt "birlesik EPS "; Fix 1 eps]] in
    join_lines
      ([str "Tehdit Ozeti"; str ""; ret lead; str ""; str "Durum:"] ++
       (map (λ b, tpl [Txt "• "; Val b]) bullets) ++
       [str ""; str "Agent detayi:"] ++
       agentDetailLines agents locale ++
       [str "";
        if otruthy rceNode then
          tpl [Txt "Dikkat: "; Val rceNode.["agentId"];
               Txt
                 " uzerinde RCE engeli var. Attack tree ve kaynak IP incelemesi yapin; tekrar eden kaynak icin BAN_IP onerilir."]
        else
          ret
            (if vlt (vn 0) alerts then
               vs "Alarmlar mevcut — /attack-tree ve SIEM loglariyla capraz dogrulama yapin."
             else vs "Kritik tehdit sinyali dusuk; filo baglantisi kurulunca telemetriyi yenileyin.")])
  else if is_lang Lru locale then
    let? lead :=
      if (online === vn 0) && vlt (vn 0) (vn (Z.of_nat (length agents))) then
        tpl [Txt "Все "; Val (vn (Z.of_nat (length agents)));
             Txt " агентов offline — цифры из последней синхронизации."]
      else tpl [Val online; Txt "/"; Val (vn (Z.of_nat (length agents))); Txt " агентов online."] in
    join_truthy
      ([str "Сводка по угрозам";
        str "";
        ret lead;
        str "";
        tpl [Txt "• "; Val alerts; Txt " оповещений, "; Val rce; Txt " блокировок RCE, суммарный EPS ";
             Fix 1 eps];
        if vlt (vn 0) incActive then
          tpl [Txt "• "; Val incActive; Txt " активных инцидентов, "; Val incCorr; Txt " корреляций"]
        else str "";
        str ""] ++
       agentDetailLines agents locale ++
       [str "";
        ret
          (if vlt (vn 0) rce then
             vs "Проверьте attack tree на узле; при повторении источника — BAN_IP."
           else vs "Сверьте оповещения в /attack-tree и логах SIEM.")])
  else
    let? lead :=
      if (online === vn 0) && vlt (vn 0) (vn (Z.of_nat (length agents))) then
        tpl [Txt "All "; Val (vn (Z.of_nat (length agents)));
             Txt " agents are offline — figures below are from the last sync."]
      else tpl [Val online; Txt "/"; Val (vn (Z.of_nat (length agents))); Txt " agents online."] in
    join_truthy
      ([str "Threat Summary";
        str "";
        ret lead;
        str "";
        tpl [Txt "• "; Val alerts; Txt " alerts, "; Val rce; Txt " RCE blocks, combined EPS "; Fix 1 eps];
        if vlt (vn 0) incActive then
          tpl [Txt "• "; Val incActive; Txt " active incidents, "; Val incCorr; Txt " correlated"]
        else str "";
        str ""] ++
       agentDetailLines agents locale ++
       [str "";
        ret
          (if vlt (vn 0) rce then
             vs "Review attack tree on the affected node; consider BAN_IP if the source repeats."
           else vs "Cross-check alerts in /attack-tree and SIEM logs.")]).

Definition rceAnalysis (locale : Lang) (agents : list val) : res val :=
  let withRce := with_rce agents in
  let rce := (aggregate agents).["rce"] in
  if is_lang Ltr locale then
    if rce === vn 0 then
      join_lines
        [str "RCE Analizi";
         str "";
         str "Mevcut telemetride engellenmis RCE/execve olayi gorunmuyor.";
         str "Agent offline ise yeni olay gelmemis olabilir.";
         str "";
         str "Kontrol listesi:";
         str "• systemctl status log-guardian-daemon";
         str "• log-guardian --status --db events.db";
         str "• Dashboard /attack-tree sayfasini yenileyin"]
    else
      join_lines
        ([str "RCE Analizi";
          str "";
          tpl [Txt "Toplam "; Val rce; Txt " RCE engelleme kaydi var."];
          str "";
          str "Etkilenen node'lar:"] ++
         (map
            (λ a,
               tpl [Txt "• "; Val a.["agentId"]; Txt ": "; Val a.["rceDetections"]; Txt " engelleme, ";
                    Val (a.["alertsTotal"] ??? vn 0); Txt " alarm, EPS "; Fix 1 (a.["eps"] ??? vn 0)])
            withRce) ++
         [str "";
          str "Onerilen adimlar:";
          str "1. Attack tree'de parent PID ve komut satirini inceleyin";
          str "2. Kaynak IP'yi threat feed ile eslestirin";
          str "3. Tekrarlayan saldirgan icin Filo uzerinden BAN_IP (onayli)";
          str "4. EXECVE_GUARD ve WAF kurallarinin guncel oldugunu dogrulayin"])
  else if is_lang Lru locale then
    if rce === vn 0 then
      join_lines
        [str "Анализ RCE";
         str "";
         str "В текущей телеметрии заблокированных RCE/execve не видно.";
         str "Проверьте: systemctl status log-guardian-daemon, log-guardian --status."]
    else
      join_lines
        ([str "Анализ RCE"; str ""; tpl [Txt "Всего "; Val rce; Txt " блокировок RCE."]] ++
         (map
            (λ a,
               tpl [Txt "• "; Val a.["agentId"]; Txt ": "; Val a.["rceDetections"]; Txt " блок., ";
                    Val (a.["alertsTotal"] ??? vn 0); Txt " оповещ., EPS "; Fix 1 (a.["eps"] ??? vn 0)])
            withRce) ++
         [str ""; str "Рекомендации: attack tree → IP источника → BAN_IP при повторении."])
  else if rce === vn 0 then
    str "No blocked RCE events in current telemetry. Check daemon status and refresh /attack-tree."
  else
    join_lines
      ([str "RCE Analysis"; str ""; tpl [Val rce; Txt " blocked RCE event(s)."]] ++
       (map
          (λ a, tpl [Txt "• "; Val a.["agentId"]; Txt ": "; Val a.["rceDetections"]; Txt " blocks"])
          withRce) ++
       [str ""; str "Review attack tree lineage and approve BAN_IP if the source repeats."]).

Definition executiveSummary (locale : Lang) (agents : list val) (topRisk : val) : res val :=
  let agg := aggregate agents in
  let eps := agg.["eps"] in
  let alerts := agg.["alerts"] in
  let rce := agg.["rce"] in
  let incActive := agg.["incActive"] in
  let online := online_count agents in
  if is_lang Ltr locale then
    join_truthy
      [str "Yonetici Ozeti";
       str "";
       tpl [Txt "Guvenlik durumu: "; Val (vn (Z.of_nat (length agents))); Txt " agent'tan "; Val online;
            Txt " tanesi online. "; Val alerts; Txt " alarm, "; Val rce; Txt " kritik RCE engeli, ";
            Val incActive; Txt " aktif olay."];
       tpl [Txt "Islem hacmi: birlesik EPS "; Fix 1 eps; Txt "."];
       str "";
       str "Risk degerlendirmesi:";
       ret
         (if (online === vn 0) && vlt (vn 0) (vn (Z.of_nat (length agents))) then
            vs "• Operasyonel risk: tum agentlar offline — gorunurluk kaybi."
          else vs "• Filo baglantisi aktif.");
       ret
         (if vlt (vn 0) rce then
            vs "• Yetkisiz shell/execve girisimi tespit edildi ve engellendi."
          else vs "• RCE girisimi kaydi yok.");
       if vle (vn 5) alerts then
         tpl [Txt "• Alarm hacmi yuksek ("; Val alerts; Txt ") — SOC incelemesi onerilir."]
       else str "";
       str "";
       str "Aksiyonlar:";
       str "• Offline node'lari yeniden baglayin";
       str "• /reports uzerinden uyumluluk raporunu arsivleyin";
       ret
         (if vle (vn 85) topRisk then vs "• Acil: attack tree riski yuksek — BAN_IP degerlendirin." else vs "")]
  else if is_lang Lru locale then
    join_truthy
      [str "Исполнительная сводка";
       str "";
       tpl [Val online; Txt "/"; Val (vn (Z.of_nat (length agents))); Txt " агентов online; "; Val alerts;
            Txt " оповещений; "; Val rce; Txt " блокировок RCE."];
       tpl [Txt "Суммарный EPS "; Fix 1 eps; Txt "."];
       ret (if vlt (vn 0) rce then vs "Зафиксирована попытка shell/execve — заблокирована." else vs "");
       str "Восстановите offline-узлы; архивируйте отчёт соответствия в /reports."]
  else
    join_truthy
      [str "Executive Summary";
       str "";
       tpl [Val online; Txt "/"; Val (vn (Z.of_nat (length agents))); Txt " agents online; "; Val alerts;
            Txt " alerts; "; Val rce; Txt " RCE blocks."];
       tpl [Txt "Combined EPS "; Fix 1 eps; Txt "."];
       ret (if vlt (vn 0) rce then vs "Unauthorized shell spawn was blocked." else vs "");
       str "Restore offline agents and archive compliance report from /reports."].

Definition banAdvice (locale : Lang) (topRisk : val) (bannedIps : list val) : res val :=
  let list := bannedIps in
  let? listBlock :=
    if vlt (vn 0) (vn (Z.of_nat (length list))) then
      if is_lang Ltr locale then
        join_lines
          ([str ""; str "Aktif engellenen IP'ler (ipset/XDP — /bans sayfasi):"] ++
           (map (λ ip, tpl [Txt "• "; Val ip]) list))
      else if is_lang Lru locale then
        join_lines
          ([str ""; str "Активные заблокированные IP (ipset/XDP — /bans):"] ++
           (map (λ ip, tpl [Txt "• "; Val ip]) list))
      else
        join_lines
          ([str ""; str "Active banned IPs (ipset/XDP — /bans page):"] ++
           (map (λ ip, tpl [Txt "• "; Val ip]) list))
    else
      ret
        (if is_lang Ltr locale then
           vs ((nl ++ nl ++ "Su an aktif ban kaydi yok. Filo veya /bans sayfasindan IP ekleyin."))
         else if is_lang Lru locale then
           vs ((nl ++ nl ++ "Нет активных банов. Добавьте IP через флот или /bans."))
         else vs ((nl ++ nl ++ "No active bans. Add via Fleet or /bans page."))) in
  if is_lang Ltr locale then
    join_lines
      [str "IP Engelleme";
       str "";
       if vle (vn 85) topRisk then
         tpl [Txt "Risk skoru "; Fix 0 topRisk; Txt " — IP ban degerlendirmesi uygun."]
       else str "Once alarm detayini dogrulayin; risk dusukse izlemeye devam edin.";
       ret listBlock;
       str "";
       str "Adimlar:";
       str "1. Ust menuden **Banli IP'ler** (/bans) sayfasini acin";
       str "2. Attack tree'deki saldirgan IP icin Ban tusuna basin";
       str "3. Filo uzerinden BAN_IP (audit log'a yazilir)"]
  else if is_lang Lru locale then
    join_lines
      [str "Блокировка IP";
       str "";
       if vle (vn 85) topRisk then
         tpl [Txt "Риск "; Fix 0 topRisk; Txt " — блокировка IP уместна."]
       else str "Сначала проверьте детали оповещения.";
       ret listBlock;
       str "Откройте **Заблокированные IP** (/bans) в меню."]
  else
    join_lines
      [str "IP Ban";
       str "";
       if vle (vn 85) topRisk then
         tpl [Txt "Risk "; Fix 0 topRisk; Txt " — ban may be appropriate."]
       else str "Verify alert details first.";
       ret listBlock;
       str "Open **Banned IPs** (/bans) in the nav bar for the live list."].

Definition complianceHint (locale : Lang) : res val :=
  if is_lang Ltr locale then
    join_lines
      [str "Uyumluluk";
       str "";
       str "SOC2, PCI-DSS, KVKK ve ISO 27001 raporu Reports sayfasindan JSON veya PDF olarak indirilebilir.";
       str "12 kontrol maddesi canli telemetri ve audit kanitlariyla otomatik doldurulur."]
  else if is_lang Lru locale then
    join_lines
      [str "Соответствие";
       str "";
       str "Отчёты SOC2, PCI-DSS, KVKK и ISO 27001 — на странице Reports (JSON или PDF).";
       str "12 контролей заполняются из live-телеметрии и audit."]
  else str "Download SOC2 / PCI / KVKK compliance report from Reports as JSON or PDF.".

Definition generalReply (locale : Lang) (agents : list val) (fleetSummary lineageSummary message : val) : res val :=
  let agg := aggregate agents in
  let alerts := agg.["alerts"] in
  let rce := agg.["rce"] in
  if is_lang Ltr locale then
    join_truthy
      [str "Log Guardian kapsaminda yanit:";
       str "";
       ret fleetSummary;
       ret (if negb (is_lit "No attack tree data." lineageSummary) then lineageSummary else vs "");
       if vlt (vn 0) alerts then tpl [Val alerts; Txt " alarm kayitli."] else str "Aktif alarm yok.";
       if vlt (vn 0) rce then
         tpl [Val rce; Txt " RCE engeli var — 'RCE analizi' yazarak detay alabilirsiniz."]
       else str "";
       str "";
       str "Ornek: tehdit ozeti | RCE analizi | yonetici ozeti | uyumluluk"]
  else if is_lang Lru locale then
    join_truthy
      [str "Ответ Log Guardian:";
       str "";
       ret fleetSummary;
       ret (if negb (is_lit "No attack tree data." lineageSummary) then lineageSummary else vs "");
       if vlt (vn 0) alerts then tpl [Val alerts; Txt " оповещений."] else str "Нет активных оповещений.";
       if vlt (vn 0) rce then
         tpl [Val rce; Txt " блокировок RCE — напишите «Анализ RCE» для деталей."]
       else str "";
       str "";
       str "Примеры: сводка угроз | анализ RCE | исполнительная сводка | соответствие"]
  else
    join_truthy
      [ret fleetSummary;
       ret (if negb (is_lit "No attack tree data." lineageSummary) then lineageSummary else vs "");
       tpl [Txt (("You asked: " ++ dq)); Exp (vslice 80 message); Txt dq]].

(** The context of the fleet an answer is made from. *)
Record FallbackContext := {
  fc_fleetSummary : val;
  fc_lineageSummary : val;
  fc_agents : list val;
  fc_topRisk : val;
  fc_bannedIps : list val;
}.
Definition buildCopilotFallbackReply (locale : Lang) (userMessage : jstring) (ctx : FallbackContext) : res val :=
  let trimmed := trim userMessage in
  if isGreetingMessage trimmed then str (greetingReply locale)
  else if negb (isLogGuardianTopic trimmed) then str (offTopicReply locale)
  else
    match detectIntent userMessage with
    | IThreatSummary => threatSummary locale (fc_agents ctx)
    | IRce => rceAnalysis locale (fc_agents ctx)
    | IExecutive => executiveSummary locale (fc_agents ctx) (fc_topRisk ctx)
    | IBan => banAdvice locale (fc_topRisk ctx) (fc_bannedIps ctx)
    | ICompliance => complianceHint locale
    | IGeneral => generalReply locale (fc_agents ctx) (fc_fleetSummary ctx) (fc_lineageSummary ctx) (vs userMessage)
    end.
End text.

(** ** Every question is answered *)

Definition FallbackAgent : ty :=
  TObj [req "agentId" TStr; opt "eps" (TNull TNum); opt "rceDetections" (TNull TNum); opt "tarpitActive" (TNull TNum);
        opt "alertsTotal" (TNull TNum); opt "incidentsActive" (TNull TNum); opt "incidentsCorrelated" (TNull TNum);
        opt "status" (TNull TStr)].

Section total.
Context `{UnicodeCase} `{CaseFold}.

Lemma total_num k agents : has_num (total_of k agents).
Proof.
  unfold total_of. assert (Hg : ∀ acc, has_num acc → has_num (fold_left (λ acc a, vadd acc (a.[k] ??? vn 0)) agents acc)).
  { induction agents as [|a agents IH]; intros acc Hacc; [done|]. cbn. apply IH. by eexists. }
  apply Hg, num_vn.
Qed.
Lemma aggregate_get agents k v :
  assoc k [("eps", total_of "eps" agents); ("alerts", total_of "alertsTotal" agents);
           ("rce", total_of "rceDetections" agents); ("tarpit", total_of "tarpitActive" agents);
           ("incActive", total_of "incidentsActive" agents); ("incCorr", total_of "incidentsCorrelated" agents)] = Some v →
  (aggregate agents).[k] = v.
Proof.
  intros Hv. unfold aggregate, JObject, jopt. rewrite assoc_obj; [by rewrite Hv|].
  apply (bool_decide_unpack _). by vm_compute.
Qed.
Lemma okstr_join l : Forall okv l → okstr (join_lines l).
Proof. intros H1. destruct (okv_rseq l H1) as [r Hr]. unfold join_lines. rewrite Hr. by eexists. Qed.
Lemma okv_truthy l : Forall okv l → okv (truthy_only l).
Proof. intros H1. destruct (okv_rseq l H1) as [r Hr]. unfold truthy_only. rewrite Hr. by eexists. Qed.
Lemma okstr_join_truthy l : Forall okv l → okstr (join_truthy l).
Proof. intros H1. destruct (okv_truthy l H1) as [r Hr]. unfold join_truthy. rewrite Hr. by eexists. Qed.
Lemma okstr_bind_any {A} (m : res A) (k : A → res val) : okv m → (∀ v, okstr (k v)) → okstr (rbind m k).
Proof. intros [v ->] Hk. apply Hk. Qed.
Lemma Forall_okv_map {A} (f : A → res val) l : (∀ a, a ∈ l → okv (f a)) → Forall okv (map f l).
Proof. induction l as [|a l IH]; intros Hf; cbn; constructor; [apply Hf; left|apply IH; intros; apply Hf; by right]. Qed.

Context (agents : list val) (Ha : ∀ a, a ∈ agents → tyn FallbackAgent a).

(** One step through an answer; an agent of the list is typed. *)
Ltac answer_step :=
  lazymatch goal with
  | |- okstr (join_lines _) => apply okstr_join
  | |- okstr (join_truthy _) => apply okstr_join_truthy
  | |- okstr (rbind _ _) => apply okstr_bind_any
  | |- okv (join_lines _) => apply okstr_okv
  | |- okv (join_truthy _) => apply okstr_okv
  | |- okv (truthy_only _) => apply okv_truthy
  | |- Forall okv (map _ _) => apply Forall_okv_map
  | |- Forall okv (agentDetailLines _ _) => unfold agentDetailLines; cbv zeta
  | H : ?a ∈ take _ agents |- _ => apply elem_of_take in H as (? & H & _); apply list_elem_of_lookup_2 in H
  | H : ?a ∈ with_rce agents |- _ => apply jfilter_elem in H as [H _]
  | H : ?a ∈ agents |- _ => apply Ha in H
  | |- has_num (jopt ?k (aggregate agents)) => rewrite (aggregate_get agents k _ eq_refl); apply total_num
  | |- _ => expr_step
  end.
Ltac answer := repeat answer_step.

Lemma threatSummary_ok lo : okstr (threatSummary lo agents).
Proof. unfold threatSummary. cbv zeta. answer. Qed.
Lemma rceAnalysis_ok lo : okstr (rceAnalysis lo agents).
Proof. unfold rceAnalysis. cbv zeta. answer. Qed.
Lemma executiveSummary_ok lo risk : okstr (executiveSummary lo agents risk).
Proof. unfold executiveSummary. cbv zeta. answer. Qed.
Lemma banAdvice_ok lo risk ips : has_num risk → okstr (banAdvice lo risk ips).
Proof. intros Hr. unfold banAdvice. cbv zeta. answer. Qed.
Lemma complianceHint_ok lo : okstr (complianceHint lo).
Proof. unfold complianceHint. answer. Qed.
Lemma generalReply_ok lo fl li msg : okstr (generalReply lo agents fl li (vs msg)).
Proof. unfold generalReply. cbv zeta. answer. Qed.

(** C20. Without a model the copilot still answers every message with a text, in any
    language, for any fleet of typed agents. *)
Theorem fallback_total lo msg ctx : fc_agents ctx = agents → has_num (fc_topRisk ctx) →
  ∃ text, buildCopilotFallbackReply lo msg ctx = Ok (vs text).
Proof.
  intros Hc Hr. unfold buildCopilotFallbackReply. rewrite Hc.
  destruct (isGreetingMessage _); [apply okstr_str|]. destruct (negb _); [apply okstr_str|].
  destruct (detectIntent msg);
    [apply threatSummary_ok|apply rceAnalysis_ok|apply executiveSummary_ok|by apply banAdvice_ok|
     apply complianceHint_ok|apply generalReply_ok].
Qed.
End total.

(** ** Where the rules reject their own language *)

(** The letters that mark a reply as foreign include the Turkish [ü]: a Turkish
    reply with that letter is always dropped. *)
Lemma turkish_reply_rejected `{CaseFold} content : 252 ∈ trim content → isCopilotReplyLowQuality content Ltr = true.
Proof.
  intros Hu. unfold isCopilotReplyLowQuality. cbv zeta. destruct (slen _ <? 40); [done|]. cbn [negb is_lang].
  destruct (2 <=? englishHits _)%nat; [done|].
  assert (E : has_unit (λ c, existsb (λ d, canon c =? canon d) FOREIGN_UNITS) (trim content) = true).
  { apply existsb_exists. exists 252. split; [by apply list_elem_of_In|]. apply existsb_exists. exists 252.
    split; [apply list_elem_of_In, (bool_decide_unpack _); by vm_compute|apply Z.eqb_refl]. }
  by rewrite E.
Qed.

Module Demo.
#[local] Instance lower_ascii : UnicodeCase := ascii_case.
#[local] Instance fold_ascii : CaseFold := ascii_upper.

(** The word lists of the detector hold words of English: "ban" counts as Turkish
    and "ip" as Russian. *)
Lemma english_taken_for_turkish : detectTextLocale "Should we ban this host?" = Ltr.
Proof. by vm_compute. Qed.
Lemma english_taken_for_russian : detectTextLocale "Which ip is attacking us?" = Lru.
Proof. by vm_compute. Qed.
(** Cyrillic letters are no word units, so [\b] never finds a Russian word between
    spaces. *)
Lemma russian_word_unseen : any_word ["что"] false "скажи что нового" = false.
Proof. by vm_compute. Qed.

Definition node : val := Some (JObj [("agentId", JStr "node-1"); ("eps", jint 12); ("rceDetections", jint 2);
                                     ("alertsTotal", JNull); ("status", JStr "Online")]).
Definition ctx : FallbackContext :=
  {| fc_fleetSummary := vs "Agents: 1"; fc_lineageSummary := vs "No attack tree data."; fc_agents := [node];
     fc_topRisk := vn 90; fc_bannedIps := [vs "203.0.113.9"] |}.
Lemma fallback_total_witness : ∃ text, buildCopilotFallbackReply Len "RCE analysis" ctx = Ok (vs text).
Proof.
  apply (fallback_total [node]).
  - intros a Hin. apply list_elem_of_singleton in Hin as ->. vm_compute. reflexivity.
  - reflexivity.
  - eexists. reflexivity.
Defined.
Lemma rce_answer : buildCopilotFallbackReply Len "RCE analysis" ctx =
  Ok (vs (join nl ["RCE Analysis"; ""; "2 blocked RCE event(s)."; "• node-1: 2 blocks"; "";
                   "Review attack tree lineage and approve BAN_IP if the source repeats."])).
Proof. by vm_compute. Qed.
End Demo.
