(* ===== verification/Copilot.v ===== *)
(** The copilot route (dashboard/src/app/api/copilot/route.ts), the stream of the
    local model (lib/ollama.ts) and the evidence it cites (lib/copilotRag.ts,
    api/copilot/rag). *)

From S2P Require Import Prelude JsString JsNum Json Regex Http Auth Store Telemetry FetchBanned JsValue CopilotText.

(** ** The local model *)

Fixpoint strip_slashes_rev (s : jstring) : jstring :=
  match s with c :: t => if c =? 47 then strip_slashes_rev t else s | [] => [] end.
(** [url.replace(/\/+$/, "")] *)
Definition trimSlash (url : jstring) : jstring := rev (strip_slashes_rev (rev url)).

Record CopilotOllamaConfig := { oc_baseUrl : jstring; oc_model : jstring }.
Definition resolveCopilotOllamaConfig (e : env) : CopilotOllamaConfig :=
  let defaultUrl := if env_is e "NODE_ENV" "production" then "http://host.docker.internal:11434"
                    else "http://127.0.0.1:11434" in
  {| oc_baseUrl := trimSlash (oor (e "COPILOT_OLLAMA_URL") defaultUrl); oc_model := pickCopilotModel e None |}.
Definition OLLAMA_HINT : jstring := "Yerel Ollama bagliysa dogal dil; degilse filo verisine dayali akilli ozet.".
Definition copilotOllamaStatus (e : env) : list (jstring * json) :=
  let cfg := resolveCopilotOllamaConfig e in
  [("provider", JStr "ollama"); ("model", JStr (oc_model cfg)); ("baseUrl", JStr (oc_baseUrl cfg));
   ("optional", JBool true); ("hint", JStr OLLAMA_HINT)].
Definition checkOllamaReachable (w : world) (cfg : CopilotOllamaConfig) : bool :=
  match w_fetch w (oc_baseUrl cfg ++ "/api/tags") [] with Some (st, _) => res_ok st | None => false end.

(** A part of the stream may repeat what came before it or only add to it. *)
Definition mergeOllamaChunk (previous chunk : jstring) : jstring :=
  if negb (nonempty chunk) then previous
  else if negb (nonempty previous) then chunk
  else if starts_with previous chunk then chunk
  else if ends_with chunk previous then previous
  else previous ++ chunk.

(** One line of the stream; the model's interface gives [content] as a text, and a line
    without one is passed over like a line that does not parse. *)
Definition stream_line (full line : jstring) : jstring :=
  match JSON_parse (trim line) with
  | Some data => match as_str (Some data).["message"].["content"] with
                 | Some part => mergeOllamaChunk full part
                 | None => full
                 end
  | None => full
  end.
(** One chunk: complete lines are read, the rest waits. *)
Definition stream_chunk (st : jstring * jstring) (chunk : jstring) : jstring * jstring :=
  let lines := split1 10 (st.1 ++ chunk) in
  (List.last lines [], fold_left stream_line (removelast lines) st.2).
(** The reply assembled from the decoded chunks. *)
Definition collect_stream (chunks : list jstring) : jstring :=
  let '(buffer, full) := fold_left stream_chunk chunks ([], []) in
  trim (stream_line full buffer).

(** [post url body] is the streaming request: the decoded chunks, or the error. *)
Definition collectOllamaChat (post : jstring → json → res (list jstring)) (url model : jstring)
    (messages : list json) : res jstring :=
  let? chunks := post (url ++ "/api/chat")
                   (JObj [("model", JStr model); ("messages", JArr messages); ("stream", JBool true)]) in
  Ok (collect_stream chunks).

(** ** Evidence *)

(** [collect] is the text the collector script leaves behind, if it runs. *)
Definition loadCopilotRagContext (w : world) (e : env) (cwd : jstring) (collect : option jstring) : json :=
  let cached := readRepoJson w e cwd "copilot-rag-context.json" in
  if otruthy (vlength (Some cached).["evidence_lines"]) then cached
  else match collect with
       | Some raw => default cached (JSON_parse raw)
       | None => cached
       end.

Definition evidence (type : jstring) (detail cite : val) : json :=
  JObject [("type", vs type); ("detail", detail); ("cite", cite)].
Definition alert_evidence (x : json) : res json :=
  let? a := not_null x in
  let? d := tpl [Txt "[L"; Val a.["level"]; Txt "] "; Val a.["ip"]; Txt ": "; Val a.["message"]] in
  Ok (evidence "db_alert" d a.["cite"]).
Definition event_text (x : json) : res jstring :=
  let? e := not_null x in Ok (ostr e.["type"] ++ ":" ++ ostr e.["detail"]).
Definition tree_evidence (x : json) : res json :=
  let? t := not_null x in
  let? events := match t.["events"] ??? empty_arr with
                 | Some (JArr l) => rseq (map event_text l)
                 | _ => not_a_function "map"
                 end in
  let? d := tpl [Txt "pid="; Val t.["pid"]; Txt " risk="; Fix 1 t.["risk"]; Txt " "; Val t.["comm"]; Txt " ";
                 Txt (join " → " events)] in
  Ok (evidence "attack_tree" d t.["cite"]).
Definition ragToEvidence (ctx : json) : res (list json) :=
  if negb (truthy ctx) then Ok []
  else
    let c := Some ctx in
    let? lines := items c.["evidence_lines"] in
    let? alerts := items c.["alerts"] in
    let? a := rseq (map alert_evidence alerts) in
    let? trees := items c.["attack_trees"] in
    let? t := rseq (map tree_evidence trees) in
    Ok (take 20 (map (λ l, evidence "rag_line" (Some l) (Some l)) lines ++ a ++ t)).
Definition ragPromptBlock (ctx : json) : res jstring :=
  if negb (truthy ctx) then Ok "RAG: no events.db / attack tree context available."
  else
    let lines := (Some ctx).["evidence_lines"] ??? empty_arr in
    if negb (otruthy (vlength lines)) then Ok "RAG: empty evidence (run copilot_rag_collect.py)."
    else match lines with
         | Some (JArr l) =>
             Ok ("RAG EVIDENCE (cite these rows only — do not invent):" ++ nl ++
                 join nl (imap (λ i x, dec (Z.of_nat i + 1) ++ ". " ++ to_str x) l))
         | _ => not_a_function "map"
         end.

(** GET /api/copilot/rag *)
Definition rag_GET (w : world) (e : env) (cwd : jstring) (collect : option jstring) : response :=
  let ctx := loadCopilotRagContext w e cwd collect in
  if negb (truthy ctx) then
    respond 200 (JObj [("available", JBool false); ("hint", JStr "bash scripts/copilot_rag_test.sh")])
  else
    let c := Some ctx in
    respond 200 (JObject [("available", vb true); ("generated_at", c.["generated_at"]); ("stats", c.["stats"]);
                          ("evidence_lines", c.["evidence_lines"] ??? empty_arr);
                          ("alerts", c.["alerts"] ??? empty_arr); ("attack_trees", c.["attack_trees"] ??? empty_arr)]).

(** ** The fleet the copilot speaks about *)

(** The riskiest tree so far, and the sentence about it. *)
Record Lineage := { ln_topRisk : val; ln_summary : val }.
(** One tree; a value that throws ends the loop over this agent's trees, with what
    was assigned before it. *)
Definition lineage_tree (agentId : jstring) (n : Z) (st : Lineage) (tree : json) : Lineage * bool :=
  match tree with
  | JNull => (st, false)
  | _ =>
      let t := Some tree in
      let r := t.["risk"] ??? vn 0 in
      if vlt (ln_topRisk st) r then
        match Fix 1 r with
        | Ok text =>
            ({| ln_topRisk := r;
                ln_summary := vs ("Agent " ++ agentId ++ ": max risk " ++ text ++ ", comm=" ++
                  ostr (t.["comm"] ??? vs "?") ++ ", pid=" ++ ostr (t.["pid"] ??? vn 0) ++ ", " ++ dec n ++ " trees.") |},
             true)
        | Throw _ => ({| ln_topRisk := r; ln_summary := ln_summary st |}, false)
        end
      else (st, true)
  end.
Fixpoint lineage_trees (agentId : jstring) (n : Z) (st : Lineage) (trees : list json) : Lineage :=
  match trees with
  | [] => st
  | t :: rest => let '(st', go) := lineage_tree agentId n st t in
                 if go then lineage_trees agentId n st' rest else st'
  end.
Definition lineage_agent (st : Lineage) (a : Telemetry) : Lineage :=
  if negb (nonempty (t_attackTreeJson a)) then st
  else match JSON_parse (t_attackTreeJson a) with
       | Some (JArr trees) => lineage_trees (t_agentId a) (Z.of_nat (length trees)) st trees
       | _ => st
       end.

Record FleetContext := { fx_fleetSummary : jstring; fx_lineageSummary : val; fx_topRisk : val; fx_scope : jstring }.
(** [agent.eps || 0] *)
Definition num_or0 (x : num) : num := if num_truthy x then x else nzero.
Definition buildFleetContext (agents : list Telemetry) (isAdmin : bool) (userTenant : option jstring) : FleetContext :=
  let l := fold_left lineage_agent agents {| ln_topRisk := vn 0; ln_summary := vs "No attack tree data." |} in
  {| fx_fleetSummary :=
       "Agents: " ++ dec (Z.of_nat (length agents)) ++ ", EPS: " ++
       toFixed 1 (sum_num (λ t, num_or0 (t_eps t)) agents) ++ ", RCE blocked: " ++ dec (sum_int t_rceDetections agents) ++
       ", tarpits: " ++ dec (sum_int t_tarpitActive agents) ++ ", alerts: " ++ dec (sum_int t_alertsTotal agents);
     fx_lineageSummary :=
       if vle (vn 85) (ln_topRisk l) then
         vs (ostr (ln_summary l) ++ " CRITICAL: review attack tree; request BAN_IP approval if needed.")
       else ln_summary l;
     fx_topRisk := ln_topRisk l;
     fx_scope := if isAdmin then "Scope: full fleet (admin)." else "Scope: tenant " ++ (userTenant ?? "unknown") ++ "." |}.

(** [Math.max(a, b)] *)
Definition vmax (a b : val) : val :=
  let x := to_num a in let y := to_num b in
  vnum (if is_nan x || is_nan y then nNaN else if nlt x y then y else x).

(** ** The answer *)

Definition agent_alerts (a : Telemetry) : list json :=
  if 0 <? t_alertsTotal a then
    [JObj [("type", JStr "agent_alerts");
           ("detail", JStr (t_agentId a ++ ": alerts=" ++ dec (t_alertsTotal a) ++ ", rce=" ++ dec (t_rceDetections a)))]]
  else [].
Definition cited (e : json) : json :=
  let v := Some e in
  JObject [("type", v.["type"]);
           ("detail", if otruthy v.["cite"] then vs (ostr v.["detail"] ++ " (" ++ ostr v.["cite"] ++ ")") else v.["detail"])].
Definition suggested_action (topRisk : val) : json :=
  if vle (vn 85) topRisk then JStr "BAN_IP" else if vle (vn 50) topRisk then JStr "MONITOR" else JNull.
Definition buildCopilotPayload (content : val) (source : jstring) (agents : list Telemetry) (topRisk : val)
    (fleetSummary lineageSummary : val) (ragEvidence : list json) (llm : option (jstring * jstring))
    (bannedIps : list jstring) : json :=
  JObject
    [("content", content); ("source", vs source);
     ("evidence", Some (JArr (
        [JObject [("type", vs "fleet_telemetry"); ("detail", fleetSummary)];
         JObject [("type", vs "lineage"); ("detail", lineageSummary)]] ++
        map cited ragEvidence ++ flat_map agent_alerts (take 5 agents) ++
        (match bannedIps with
         | [] => []
         | _ => [JObj [("type", JStr "active_bans"); ("detail", JStr (join ", " bannedIps))]]
         end))));
     ("suggested_action", Some (suggested_action topRisk));
     ("llm_provider", JStr ∘ fst <$> llm); ("llm_model", JStr ∘ snd <$> llm)].

Definition toFallbackAgent (now : Z) (a : Telemetry) : val :=
  Some (JObj [("agentId", JStr (t_agentId a)); ("eps", JNum (t_eps a)); ("rceDetections", jint (t_rceDetections a));
              ("tarpitActive", jint (t_tarpitActive a)); ("alertsTotal", jint (t_alertsTotal a));
              ("incidentsActive", jint (t_incidentsActive a)); ("incidentsCorrelated", jint (t_incidentsCorrelated a));
              ("status", JStr (if is_online now a then "Online" else "Offline"))]).

(** GET /api/copilot *)
Definition copilot_GET (w : world) (e : env) : response :=
  let cfg := resolveCopilotOllamaConfig e in
  respond 200 (JObj [("llm", JObj
    [("provider", JStr "ollama"); ("model", JStr (oc_model cfg)); ("base_url", JStr (oc_baseUrl cfg));
     ("optional", JBool true); ("reachable", JBool (checkOllamaReachable w cfg)); ("hint", JStr OLLAMA_HINT)])]).

Section route.
Context {Tt : Type} `{!Table Tt Telemetry t_id}.
Context `{UnicodeCase} `{CaseFold}.
Context (w : world) (e : env) (cwd : jstring).
(** The streaming request to the model. *)
Context (post : jstring → json → res (list jstring)).

Definition DEFAULT_MODEL : jstring := oor (e "COPILOT_MODEL") (oor (e "OLLAMA_MODEL") "llama3.2:3b").

(** The language of the reply: the page's for very short messages. *)
Definition ui_lang (v : val) : option Lang :=
  match v with
  | Some (JStr l) => assoc l [("tr", Ltr); ("en", Len); ("de", Lde); ("fr", Lfr); ("ru", Lru)]
  | _ => None
  end.
Definition reply_lang (message : jstring) (uiLocale : val) : Lang :=
  let detected := detectTextLocale message in
  match ui_lang uiLocale with
  | Some l => if slen (trim message) <? 4 then l else detected
  | None => detected
  end.

Definition system_prompt (locale : Lang) (fx : FleetContext) (banListSummary ragBlock : jstring) : jstring :=
  join nl
    ["You are the Log Guardian security assistant ONLY. You do not answer questions outside Log Guardian."; "";
     logGuardianScopeRule locale; ""; fx_scope fx; ""; "LIVE FLEET (use only this data):"; "- " ++ fx_fleetSummary fx;
     "- " ++ ostr (fx_lineageSummary fx); "- " ++ banListSummary; ""; ragBlock; ""; localeInstruction locale;
     (if is_lang Ltr locale then nl ++ turkishSocPrompt else []); ""; "RULES:";
     "- Keep answers short (3–8 sentences or bullets)."; "- Do not invent numbers or events not in the data above.";
     "- Do NOT invent IP addresses for bans; only list IPs from ACTIVE BANNED IPs line above.";
     "- When citing alerts or lineage, reference RAG EVIDENCE line numbers.";
     "- If risk >= 85, suggest concrete steps (IP ban, WAF, pod kill) and ask approval before destructive actions.";
     "- No repetitive filler words or product marketing."; "- Focus on the user's question about Log Guardian."].

(** [where: isAdmin ? {} : { tenantId }]: the client rejects a null tenant. *)
Definition copilot_agents (isAdmin : bool) (userTenant : option jstring) (tt : Tt) : res (list Telemetry) :=
  let rows := if isAdmin then find_many (λ _, true) tt
              else match userTenant with
                   | Some t => find_many (λ a, t_tenantId a =s t) tt
                   | None => None
                   end in
  match rows with Some l => Ok l | None => Throw "database error" end.

(** Everything between the checks and the reply. *)
Definition copilot_answer (now : Z) (collect : option jstring) (message : jstring) (uiLocale : val) (isAdmin : bool)
    (userTenant : option jstring) (tt : Tt) : res json :=
  let? agents := copilot_agents isAdmin userTenant tt in
  let banData := fetchBannedIps w e {| countOnly := false; limit := None; offset := None; search := None |} in
  let bannedIps := map be_ip (br_bans banData) in
  let banListSummary := match bannedIps with
                        | [] => "ACTIVE BANNED IPs: none (see /bans page)"
                        | _ => "ACTIVE BANNED IPs (" ++ br_source banData ++ "): " ++ join ", " bannedIps
                        end in
  let ragCtx := loadCopilotRagContext w e cwd collect in
  let? ragBlock := ragPromptBlock ragCtx in
  let? ragEvidence := ragToEvidence ragCtx in
  let ragTopRisk := (Some ragCtx).["stats"].["top_risk"] ??? vn 0 in
  let fx := buildFleetContext agents isAdmin userTenant in
  let topRisk := vmax (fx_topRisk fx) ragTopRisk in
  let locale := reply_lang message uiLocale in
  let payload content source llm :=
    buildCopilotPayload content source agents topRisk (vs (fx_fleetSummary fx)) (fx_lineageSummary fx) ragEvidence llm [] in
  let fallback := buildCopilotFallbackReply locale message
    {| fc_fleetSummary := vs (fx_fleetSummary fx); fc_lineageSummary := fx_lineageSummary fx;
       fc_agents := map (toFallbackAgent now) agents; fc_topRisk := topRisk; fc_bannedIps := map vs bannedIps |} in
  let cfg := resolveCopilotOllamaConfig e in
  if negb (isLogGuardianTopic message) then Ok (payload (vs (offTopicReply locale)) "scope" None)
  else if shouldPreferStructuredReply e locale then
    let? fb := fallback in Ok (payload fb "structured" None)
  else
    let messages := [JObj [("role", JStr "system"); ("content", JStr (system_prompt locale fx banListSummary ragBlock))];
                     JObj [("role", JStr "user"); ("content", JStr message)]] in
    match collectOllamaChat post (oc_baseUrl cfg) (oc_model cfg) messages with
    | Ok content =>
        if negb (nonempty content) || isCopilotReplyLowQuality content locale then
          match fallback with
          | Ok fb => Ok (payload fb "fallback" (if nonempty content then Some ("ollama", oc_model cfg) else None))
          | Throw _ => let? fb := fallback in Ok (payload fb "fallback" (Some ("ollama", DEFAULT_MODEL)))
          end
        else Ok (payload (vs content) "ollama" (Some ("ollama", oc_model cfg)))
    | Throw _ => let? fb := fallback in Ok (payload fb "fallback" (Some ("ollama", DEFAULT_MODEL)))
    end.

Definition copilot_POST (now : Z) (collect : option jstring) (req : request) (tt : Tt) : response :=
  match rq_json req with
  | None => error 500 "Internal Server Error"
  | Some body =>
      match as_str (Some body).["message"] with
      | Some (_ :: _ as message) =>
          let role := header "x-user-role" req in
          match copilot_answer now collect message (Some body).["locale"]
                  (match role with Some r => r =s "admin" | None => false end) (header "x-user-tenant" req) tt with
          | Ok v => respond 200 v
          | Throw _ => error 500 "Internal Server Error"
          end
      | _ => error 400 "Message is required"
      end
  end.
End route.

(** ** The stream does not depend on how it is cut *)

Lemma split1_cut c a b :
  split1 c (a ++ b) = removelast (split1 c a) ++ split1 c (List.last (split1 c a) [] ++ b).
Proof.
  induction a as [|d a IH]; [done|]. cbn [app split1]. destruct (d =? c) eqn:Ed.
  - rewrite IH. pose proof (split1_nonnil c a). by destruct (split1 c a).
  - rewrite IH. pose proof (split1_nonnil c a) as Hn. destruct (split1 c a) as [|h [|h2 t]]; [done| |].
    + cbn [removelast List.last app]. cbn [split1 app]. by rewrite Ed.
    + done.
Qed.
Lemma removelast_app2 {A} (l1 l2 : list A) : l2 ≠ [] → removelast (l1 ++ l2) = l1 ++ removelast l2.
Proof. apply removelast_app. Qed.
Lemma last_app2 {A} (l1 l2 : list A) d : l2 ≠ [] → List.last (l1 ++ l2) d = List.last l2 d.
Proof.
  intros Hn. induction l1 as [|x l1 IH]; [done|]. cbn. destruct (l1 ++ l2) eqn:E; [|done].
  apply app_eq_nil in E as [_ ->]. done.
Qed.
Lemma stream_chunk_app st a b : stream_chunk (stream_chunk st a) b = stream_chunk st (a ++ b).
Proof.
  unfold stream_chunk. cbn [fst snd]. rewrite app_assoc, (split1_cut 10 (st.1 ++ a) b).
  pose proof (split1_nonnil 10 (List.last (split1 10 (st.1 ++ a)) [] ++ b)) as Hn.
  by rewrite last_app2, removelast_app2, fold_left_app by done.
Qed.
Lemma stream_chunks_concat st chunks : chunks ≠ [] → fold_left stream_chunk chunks st = stream_chunk st (concat chunks).
Proof.
  revert st. induction chunks as [|c [|d chunks] IH]; intros st Hn; [done|by cbn; rewrite app_nil_r|].
  cbn [fold_left]. change (fold_left stream_chunk (d :: chunks) (stream_chunk st c) = stream_chunk st (concat (c :: d :: chunks))).
  rewrite IH by done. cbn [concat]. apply stream_chunk_app.
Qed.

(** C19. The reply is a function of the text the model sent: however the network
    cuts it into chunks, the result is that of reading its lines one by one. *)
Theorem collect_stream_lines chunks :
  collect_stream chunks = trim (fold_left stream_line (split1 10 (concat chunks)) []).
Proof.
  unfold collect_stream. destruct chunks as [|c chunks]; [done|].
  rewrite stream_chunks_concat by done. unfold stream_chunk. cbn [fst snd app].
  set (ls := split1 10 (concat (c :: chunks))).
  replace (fold_left stream_line ls []) with (fold_left stream_line (removelast ls ++ [List.last ls []]) []).
  - by rewrite fold_left_app.
  - by rewrite <- app_removelast_last by apply split1_nonnil.
Qed.

(** Chunks that repeat the text so far give the last of them. *)
Lemma merge_cumulative p c : p ≠ [] → c ≠ [] → mergeOllamaChunk p (p ++ c) = p ++ c.
Proof.
  intros Hp Hc. unfold mergeOllamaChunk. rewrite starts_with_app.
  destruct (p ++ c) as [|x t] eqn:E; [by apply app_eq_nil in E as [? _]|]. by destruct p.
Qed.
(** Chunks that only add lose a repeated one: the second zero of a hundred. *)
Lemma merge_drops_repeated : fold_left mergeOllamaChunk ["1"; "0"; "0"] [] = "10".
Proof. by vm_compute. Qed.

Lemma rag_bounded ctx l : ragToEvidence ctx = Ok l → (length l <= 20)%nat.
Proof.
  unfold ragToEvidence. destruct (negb _); [by intros [= <-]; cbn; lia|]. intros Hl.
  repeat match type of Hl with rbind ?m _ = Ok _ => destruct m; cbn [rbind] in Hl; [|done] end.
  injection Hl as <-. rewrite length_take. lia.
Qed.

(** ** The route *)

Section properties.
Context {Tt : Type} `{!Table Tt Telemetry t_id} `{UnicodeCase} `{CaseFold} (w : world) (e : env) (cwd : jstring).

(** A message outside the product's topics never reaches the model: the answer
    is the same whatever the model would say, and it is the refusal. *)
Theorem copilot_scope_no_model post post' now collect message ui admin tenant (tt : Tt) :
  isLogGuardianTopic message = false →
  copilot_answer w e cwd post now collect message ui admin tenant tt =
    copilot_answer w e cwd post' now collect message ui admin tenant tt ∧
  ∀ v, copilot_answer w e cwd post now collect message ui admin tenant tt = Ok v →
    (Some v).["source"] = vs "scope" ∧ (Some v).["content"] = vs (offTopicReply (reply_lang message ui)).
Proof.
  intros Ht. unfold copilot_answer. cbv zeta. rewrite Ht. cbn [negb]. split; [done|]. intros v Hv.
  repeat match type of Hv with rbind ?m _ = Ok _ => destruct m; cbn [rbind] in Hv; [|done] end.
  by injection Hv as <-.
Qed.

(** The entries of a payload, by what they are about. *)
Definition evidence_of (v : json) : list json := match (Some v).["evidence"] with Some (JArr l) => l | _ => [] end.
Definition of_kind (k : jstring) (x : json) : bool := is_lit k (Some x).["type"].
(** The collector's evidence is of three kinds. *)
Lemma evidence_kinds ctx l x k :
  ragToEvidence ctx = Ok l → x ∈ l → k ∉ (["rag_line"; "db_alert"; "attack_tree"] : list jstring) →
  of_kind k (cited x) = false.
Proof.
  intros Hl Hx Hn. rewrite !not_elem_of_cons in Hn. destruct Hn as (N1 & N2 & N3 & _).
  assert (Hk : ∀ k' d c, k ≠ k' → of_kind k (cited (evidence k' d c)) = false).
  { intros k' d c Hne. unfold of_kind, cited, evidence.
    replace ((Some (JObject [("type", vs k'); ("detail", d); ("cite", c)])).["type"]) with (vs k') by done.
    destruct (if otruthy _ then _ else _); cbn; apply jeq_false; congruence. }
  unfold ragToEvidence in Hl. destruct (negb _); [injection Hl as <-; by apply elem_of_nil in Hx|].
  repeat match type of Hl with
  | rbind ?m _ = Ok _ => let E := fresh "E" in destruct m eqn:E; cbn [rbind] in Hl; [|done] end.
  injection Hl as <-. apply elem_of_take in Hx as (i & Hx & _). apply list_elem_of_lookup_2 in Hx.
  rewrite !elem_of_app in Hx.
  assert (Hr : ∀ (f : json → res json) m r, rseq (map f m) = Ok r → x ∈ r → ∃ y, f y = Ok x).
  { intros f m. induction m as [|y m IH]; intros r Hr Hin; cbn in Hr; [injection Hr as <-; by apply elem_of_nil in Hin|].
    destruct (f y) as [z|] eqn:Ez; [|done]. destruct (rseq (map f m)) as [r'|]; [|done]. injection Hr as <-.
    apply elem_of_cons in Hin as [->|Hin]; [by exists y|by eapply IH]. }
  destruct Hx as [Hx|[Hx|Hx]].
  - rewrite list_elem_of_In, in_map_iff in Hx. destruct Hx as (y & <- & _). by apply Hk.
  - destruct (Hr _ _ _ E1 Hx) as [y Hy]. unfold alert_evidence in Hy.
    repeat match type of Hy with rbind ?m _ = Ok _ => destruct m; cbn [rbind] in Hy; [|done] end.
    injection Hy as <-. by apply Hk.
  - destruct (Hr _ _ _ E3 Hx) as [y Hy]. unfold tree_evidence in Hy.
    repeat match type of Hy with rbind ?m _ = Ok _ => destruct m; cbn [rbind] in Hy; [|done] end.
    injection Hy as <-. by apply Hk.
Qed.

(** Every reply is one payload over the rows that were read, without a list of bans. *)
Lemma copilot_answer_payload post now collect message ui admin tenant (tt : Tt) v :
  copilot_answer w e cwd post now collect message ui admin tenant tt = Ok v →
  ∃ agents rag content source topRisk fleet lineage llm,
    copilot_agents admin tenant tt = Ok agents ∧
    ragToEvidence (loadCopilotRagContext w e cwd collect) = Ok rag ∧
    v = buildCopilotPayload content source agents topRisk fleet lineage rag llm [].
Proof.
  intros Hv. unfold copilot_answer in Hv. cbv zeta in Hv.
  destruct (copilot_agents admin tenant tt) as [agents|]; cbn [rbind] in Hv; [|done].
  destruct (ragPromptBlock _); cbn [rbind] in Hv; [|done].
  destruct (ragToEvidence _) as [rag|]; cbn [rbind] in Hv; [|done].
  repeat match type of Hv with
  | (if ?b then _ else _) = Ok _ => destruct b
  | rbind ?m _ = Ok _ => destruct m; cbn [rbind] in Hv; [|discriminate Hv]
  | match ?m with Ok _ => _ | Throw _ => _ end = Ok _ => destruct m
  end; try discriminate Hv; injection Hv as <-; do 8 eexists; split_and!; reflexivity.
Qed.

Lemma payload_evidence content source agents topRisk fleet lineage rag llm :
  evidence_of (buildCopilotPayload content source agents topRisk fleet lineage rag llm []) =
    [JObject [("type", vs "fleet_telemetry"); ("detail", fleet)]; JObject [("type", vs "lineage"); ("detail", lineage)]] ++
    map cited rag ++ flat_map agent_alerts (take 5 agents).
Proof. unfold evidence_of, buildCopilotPayload. destruct content; cbn; by rewrite app_nil_r. Qed.

(** What a user who is no administrator is told about the fleet comes from the
    agents of the user's own tenant: every entry about an agent is of such an agent,
    and tables that agree on the tenant give the same answer. *)
Theorem copilot_tenant_confined post now collect message ui tenant (tt tt' : Tt) :
  (∀ v, copilot_answer w e cwd post now collect message ui false (Some tenant) tt = Ok v →
     ∀ x, x ∈ evidence_of v → of_kind "agent_alerts" x = true →
       ∃ a, a ∈ rows tt ∧ t_tenantId a = tenant ∧ x ∈ agent_alerts a) ∧
  (find_many (λ a, t_tenantId a =s tenant) tt = find_many (λ a, t_tenantId a =s tenant) tt' →
     copilot_answer w e cwd post now collect message ui false (Some tenant) tt =
     copilot_answer w e cwd post now collect message ui false (Some tenant) tt').
Proof.
  split; [|intros Heq; unfold copilot_answer, copilot_agents; by rewrite Heq].
  intros v Hv x Hx Ha. apply copilot_answer_payload in Hv as (agents & rag & ? & ? & ? & fleet & lineage & ? & Hag & Hrag & ->).
  rewrite payload_evidence, !elem_of_app in Hx. destruct Hx as [Hx|[Hx|Hx]].
  - exfalso. rewrite !elem_of_cons in Hx. destruct Hx as [->|[->|Hx%elem_of_nil]]; [..|done]; by destruct fleet, lineage.
  - rewrite list_elem_of_In, in_map_iff in Hx. destruct Hx as (y & <- & Hy).
    rewrite <- list_elem_of_In in Hy. rewrite (evidence_kinds _ _ _ _ Hrag Hy) in Ha; [done|].
    rewrite !not_elem_of_cons. split_and!; [by vm_compute..|apply not_elem_of_nil].
  - rewrite list_elem_of_In, in_flat_map in Hx. destruct Hx as (a & Hin & Hx). rewrite <- list_elem_of_In in Hin. rewrite <- list_elem_of_In in Hx.
    apply elem_of_take in Hin as (i & Hin & _). apply list_elem_of_lookup_2 in Hin.
    unfold copilot_agents in Hag. destruct (find_many _ tt) as [l|] eqn:El; [|done]. injection Hag as ->.
    apply find_many_law in El. rewrite El in Hin. apply jfilter_elem in Hin as [Hin Ht]. apply jeq_true in Ht. eauto.
Qed.

(** No reply ever lists the bans it was built from: the argument is never given. *)
Lemma copilot_no_ban_evidence post now collect message ui admin tenant (tt : Tt) v x :
  copilot_answer w e cwd post now collect message ui admin tenant tt = Ok v →
  x ∈ evidence_of v → of_kind "active_bans" x = false.
Proof.
  intros Hv Hx. apply copilot_answer_payload in Hv as (agents & rag & ? & ? & ? & fleet & lineage & ? & _ & Hrag & ->).
  rewrite payload_evidence, !elem_of_app in Hx. destruct Hx as [Hx|[Hx|Hx]].
  - rewrite !elem_of_cons in Hx. destruct Hx as [->|[->|Hx%elem_of_nil]]; [..|done]; by destruct fleet, lineage.
  - rewrite list_elem_of_In, in_map_iff in Hx. destruct Hx as (y & <- & Hy). rewrite <- list_elem_of_In in Hy.
    eapply evidence_kinds; [done..|]. rewrite !not_elem_of_cons. split_and!; [by vm_compute..|apply not_elem_of_nil].
  - rewrite list_elem_of_In, in_flat_map in Hx. destruct Hx as (a & _ & Hx). rewrite <- list_elem_of_In in Hx.
    unfold agent_alerts in Hx. destruct (0 <? _); [|by apply elem_of_nil in Hx].
    apply list_elem_of_singleton in Hx as ->. done.
Qed.
End properties.

Module Demo.
#[local] Instance lower_ascii : UnicodeCase := ascii_case.
#[local] Instance fold_ascii : CaseFold := ascii_upper.
#[local] Instance agents_table : Table (list Telemetry) Telemetry t_id := list_table t_id.

Definition agent (id tenant : jstring) (alerts : Z) : Telemetry :=
  {| t_id := id; t_agentId := "node-" ++ id; t_tenantId := tenant; t_eps := nzero; t_totalLines := 0;
     t_alertsTotal := alerts; t_rceDetections := 1; t_tarpitActive := 0; t_tarpitTrapped := 0;
     t_meshPeers := 0; t_uniqueIps := 0; t_tlsDecrypted := 0; t_etcdPeers := 0;
     t_attackTreeJson := "[]"; t_incidentsActive := 0; t_incidentsCorrelated := 0; t_lastSeen := 1000 |}.
Definition table : list Telemetry := [agent "1" "t1" 4; agent "2" "t2" 7].
Definition e : env := env_of [].
(** A model that answers anything, and one that is away. *)
Definition chatty (_ : jstring) (_ : json) : res (list jstring) := Ok [("{}" : jstring)].
Definition away (_ : jstring) (_ : json) : res (list jstring) := Throw "fetch failed".
Definition ask (message : jstring) : res json :=
  copilot_answer no_world e "/app" away 2000 None message None false (Some "t1") table.

Lemma copilot_scope_no_model_witness :
  copilot_answer no_world e "/app" chatty 2000 None "write me a poem" None false (Some "t1") table =
  copilot_answer no_world e "/app" away 2000 None "write me a poem" None false (Some "t1") table.
Proof. apply (copilot_scope_no_model no_world e "/app" chatty away). by vm_compute. Defined.

Lemma copilot_tenant_confined_witness :
  match ask "threat summary" with
  | Ok v => Forall (λ x, of_kind "agent_alerts" x = true →
                         ∃ a, a ∈ rows table ∧ t_tenantId a = "t1" ∧ x ∈ agent_alerts a) (evidence_of v)
  | Throw _ => False
  end.
Proof.
  destruct (copilot_tenant_confined no_world e "/app" away 2000 None "threat summary" None "t1" table table) as [Hc _].
  destruct (ask "threat summary") as [v|] eqn:E; [|vm_compute in E; discriminate E].
  apply Forall_forall. intros x. exact (Hc v E x).
Defined.
(** The one entry about an agent is the one of the user's tenant. *)
Lemma ask_evidence :
  match ask "threat summary" with
  | Ok v => jfilter (of_kind "agent_alerts") (evidence_of v) =
            [JObj [("type", JStr "agent_alerts"); ("detail", JStr "node-1: alerts=4, rce=1")]]
  | Throw _ => False
  end.
Proof. by vm_compute. Qed.
(** A line cut in two chunks is read as one. *)
Definition line : jstring := stringify (JObj [("message", JObj [("content", JStr "Merhaba")])]).
Lemma stream_cut : collect_stream [take 9 line; drop 9 line] = "Merhaba".
Proof. by vm_compute. Qed.
End Demo.
