(* ===== verification/StatusRoutes.v ===== *)
(** The operator status routes: each reads report files of the scripts, some of them
    the analyzer's metrics, and answers with what the status cards of the dashboard
    show (dashboard/src/app/api: ban-api-status, edge-status, webhook-ops,
    vps-prep-status, operator-gates-summary, morning-operator-status, e9-status,
    lineage-l7, bench-metrics, eps-smoke-status, dashboard-snapshot, fp-metrics,
    telegram-acks, incidents). *)

From S2P Require Import Prelude JsString JsNum Json Regex Http Auth FetchBanned BanExec JsDate Telemetry Prometheus JsValue Marketplace SocTimeline AttackMap Reports ValidationTests.

(** [{ k: "text", ... }] of command lines and documents. *)
Definition texts (l : list (jstring * jstring)) : val := Some (JObj (map (λ kv, (kv.1, JStr kv.2)) l)).
Definition obj_of (fs : list (jstring * val)) : val := Some (JObject fs).
(** [v ?? null] *)
Definition or_null (v : val) : val := v ??? vnull.
(** [v === true] and [v !== false] as values *)
Definition vtrue (v : val) : val := vb (is_true v).
Definition not_false (v : val) : bool := negb (v === vb false).
Definition vbool (v : val) : val := vb (otruthy v).

(** ** What several routes show *)

(** [relayLan ? { ... } : null] *)
Definition relay_lan (r : val) : val :=
  if otruthy r then
    obj_of [("pass", vtrue r.["pass"]); ("fail_count", r.["fail_count"] ??? vn 0);
            ("bridge_up", vtrue r.["host_api_bridge_up"]); ("docker0_ip", or_null r.["docker0_ip"]);
            ("at", or_null r.["date"]); ("check_cmd", vs "bash scripts/relay_lan_exposure_check.sh")]
  else vnull.
(** The verdict of the throughput smoke test. *)
Definition eps_pass (r : val) : bool :=
  is_true r.["pass"] && vle (vn 1) (r.["lines_delta"] ??? vn 0) &&
  (vlt (vn 0) (r.["peak_eps"] ??? vn 0) || vlt half (r.["derived_eps"] ??? vn 0)).
(** [pk${Number(v).toFixed(1)}] *)
Definition peak_text (v : val) : jstring := "pk" ++ toFixed 1 (to_num v).

(** A field of an answer is the value the route gave it. *)
Lemma shown_field st fs k v : NoDup (fs.*1) → assoc k fs = Some v → (body_json (respond st (JObject fs))).[k] = v.
Proof. intros Hn Hk. cbn. by rewrite assoc_obj, Hk. Qed.
Ltac shown_at := erewrite shown_field; [|apply (bool_decide_unpack _); vm_compute; exact I|reflexivity].

Section routes.
Context `{UnicodeCase} (w : world) (e : env) (cwd : jstring).
(** The text of a URL, as in the live-metrics route. *)
Context (fetchText : jstring → res (Z * res jstring)).

(** The first of the three directories where the report exists and parses. *)
Definition status_readJson (name : jstring) : val := Some (readRepoJson w e cwd name).
Definition fetchLiveMetrics (now : Z) : val :=
  match fetchText (guardianMetricsUrl e) with
  | Ok (st, Ok text) => if res_ok st then Some (parseGuardianMetrics e text now) else vnull
  | _ => vnull
  end.

(** ** ban-api-status *)

Definition metrics_live : bool :=
  match fetchText (guardianMetricsUrl e) with
  | Ok (st, Ok text) => res_ok st && includes "loganalyzer_" text
  | _ => false
  end.
Definition mtls_expiry (m : val) : val :=
  if otruthy m.["skipped"] then vnull
  else obj_of [("pass", vtrue m.["pass"]); ("min_days_left", or_null m.["min_days_left"]);
               ("warn_days", m.["warn_days"] ??? vn 14); ("certs", m.["certs"] ??? empty_arr);
               ("date", or_null m.["date"]); ("check_cmd", vs "bash scripts/mtls_cert_expiry_check.sh")].
Definition ban_api_status_GET : response :=
  let caddy := status_readJson "caddy-mtls-status.json" in
  let dashBan := status_readJson "dashboard-ban-api-report.json" in
  let banMtls := status_readJson "ban-api-mtls-report.json" in
  let soarGate := status_readJson "enterprise-soar-gate-report.json" in
  let mtlsExpiry := status_readJson "mtls-cert-expiry-report.json" in
  let relayLan := status_readJson "relay-lan-exposure-report.json" in
  let relayOk := dashBan.["relay_api"].["ok"] ??? caddy.["relay_ok"] ??? vb false in
  let hostOk := dashBan.["host_api"].["ok"] ??? caddy.["host_ok"] ??? vb false in
  let dockerOk := dashBan.["docker_api"].["ok"] ??? caddy.["docker_ok"] ??? vb false in
  let metricsReportOk := dashBan.["metrics_api"].["ok"] ??? caddy.["metrics_ok"] ??? vb false in
  let bridgeOk := dashBan.["host_api_bridge"].["ok"] ??? caddy.["host_api_bridge_ok"] ??? vand relayOk metricsReportOk in
  respond 200 (JObject
    [("at", soarGate.["date"] ??? caddy.["date"] ??? dashBan.["date"] ??? banMtls.["date"] ??? vnull);
     ("relay", obj_of [("ok", relayOk);
        ("url", dashBan.["relay_api"].["url"] ??? caddy.["relay_url"] ??? vs "http://ban-api-relay:18090")]);
     ("host", obj_of [("ok", hostOk);
        ("url", dashBan.["host_api"].["url"] ??? caddy.["host_api_url"] ??? vs "http://127.0.0.1:8090")]);
     ("docker", obj_of [("ok", dockerOk)]);
     ("metrics", obj_of [("ok", vb metrics_live ||| metricsReportOk); ("live", vb metrics_live);
        ("url", dashBan.["metrics_api"].["url"] ??? caddy.["metrics_relay_url"] ??? vs "http://metrics-relay:19091/metrics")]);
     ("host_api_bridge", obj_of [("ok", bridgeOk);
        ("note", dashBan.["host_api_bridge"].["note"] ??? caddy.["host_api_bridge"] ??? vs "docker0 :18091/:19092")]);
     ("ban_path", or_null dashBan.["ban_path"]);
     ("dashboard_ban_pass", dashBan.["pass"] ??? caddy.["dashboard_ban_pass"] ??? vb false);
     ("soar", obj_of
        [("enabled", vtrue caddy.["enabled"]); ("enabled_at", or_null caddy.["enabled_at"]);
         ("url", caddy.["soar_url"] ??? vs "https://localhost:9443");
         ("caddy_mtls_verify", banMtls.["caddy_mtls_verify"] ??? caddy.["caddy_mtls_verify"] ??? vb false);
         ("caddy_skipped", banMtls.["caddy_skipped"] ??? caddy.["caddy_skipped"] ??? vb true);
         ("mtls_lab", vtrue banMtls.["mtls_verify"])]);
     ("setup", texts
        [("enable", "sudo bash scripts/enable_enterprise_soar_api.sh");
         ("disable", "sudo bash scripts/disable_enterprise_soar_api.sh");
         ("test", "bash scripts/caddy_api_mtls_e2e.sh"); ("smoke", "bash scripts/dashboard_ban_smoke.sh");
         ("gate", "bash scripts/enterprise_soar_gate.sh"); ("sync", "sudo bash scripts/caddy_mtls_setup.sh sync")]);
     ("enterprise_gate", obj_of
        [("pass", vtrue soarGate.["pass"]);
         ("mode", soarGate.["mode"] ??? vs (if otruthy caddy.["enabled"] then "enterprise" else "community"));
         ("mutation_ok", soarGate.["mutation_ok"] ??? vtrue banMtls.["pass"])]);
     ("mtls_strict", vb (is_true soarGate.["mtls_strict"] || is_true caddy.["mtls_strict"]));
     ("mtls_expiry", mtls_expiry mtlsExpiry); ("relay_lan", relay_lan relayLan)]).

(** ** edge-status *)

(** [live != null && live > 0 ? live : report] *)
Definition live_or (live report : val) : val := if present live && vlt (vn 0) live then live else report.
Definition intel_ban_db (gate intelReport live : val) : val * val * val :=
  let field k := if otruthy live.["reachable"] then live.[k] else vnull in
  let banEventsLive := field "ban_events_total" in
  let intelLegacyLive := field "intel_ban_legacy_rows" in
  let intelSummaryLive := field "intel_ban_summary_rows" in
  let banEventsTotal := live_or banEventsLive
    (intelReport.["ban_events_total"] ??? gate.["threat_intel_summary_rows"] ??? vn 0) in
  let intelLegacy := if present intelLegacyLive then intelLegacyLive
    else intelReport.["intel_legacy_rows"] ??? gate.["threat_intel_legacy_rows"] ??? vn 0 in
  let intelSummary := live_or intelSummaryLive
    (intelReport.["intel_summary_rows"] ??? gate.["threat_intel_summary_rows"] ??? vn 0) in
  (intelLegacy, intelSummary,
   obj_of [("pass", vb (not_false intelReport.["pass"] && (intelLegacy === vn 0)));
           ("ban_events_total", banEventsTotal); ("intel_legacy_rows", intelLegacy);
           ("intel_summary_rows", intelSummary); ("stale_rows", intelReport.["stale_rows"] ??? vn 0);
           ("ttl_days", intelReport.["intel_ban_db_ttl_days"] ??? vn 7);
           ("max_total_rows", intelReport.["max_total_rows"] ??? vn 50000);
           ("at", intelReport.["date"] ??? gate.["date"] ??? vnull);
           ("data_source", vs (if present banEventsLive then "live" else "report"))]).
Definition edge_checklist (c : val) : val :=
  if otruthy c then
    obj_of [("pass", vtrue c.["pass"]); ("at", or_null c.["date"]); ("pass_n", c.["summary"].["pass"] ??? vn 0);
            ("warn_n", c.["summary"].["warn"] ??? vn 0); ("fail_n", c.["summary"].["fail"] ??? vn 0);
            ("total", c.["summary"].["total"] ??? vn 0); ("fail_ids", c.["laptop_fail_ids"] ??? empty_arr);
            ("warn_ids", c.["laptop_warn_ids"] ??? empty_arr)]
  else vnull.
Definition enterprise_e9 (r : val) : val :=
  if otruthy r then
    obj_of [("pass", vtrue r.["pass"]); ("at", or_null r.["date"]); ("competitive_proof", or_null r.["competitive_proof"]);
            ("enterprise_escalation", vtrue r.["enterprise_escalation"]); ("edge_checklist", vtrue r.["edge_checklist"]);
            ("morning_operator", vtrue r.["morning_operator"]); ("docs_consistency", vtrue r.["docs_consistency"]);
            ("eps_smoke", vtrue r.["eps_smoke"]); ("eps_smoke_peak", or_null r.["eps_smoke_peak"])]
  else vnull.
Definition edge_eps_smoke (r : val) : val :=
  if negb (otruthy r) then vnull
  else
    let peak := r.["peak_eps"] ??? vn 0 in
    let lines := r.["lines_delta"] ??? vn 0 in
    obj_of [("pass", vb (eps_pass r)); ("peak_eps", if vlt (vn 0) peak then peak else vnull);
            ("lines_delta", if vlt (vn 0) lines then lines else vnull); ("at", or_null r.["date"]);
            ("run_cmd", vs "sudo bash scripts/webhook_nginx_eps_smoke.sh")].
Definition edge_status_GET (now : Z) : response :=
  let gate := status_readJson "edge-protection-gate-report.json" in
  let checklist := status_readJson "edge-protection-checklist-report.json" in
  let e9 := status_readJson "enterprise-e9-verify-report.json" in
  let status := status_readJson "guardian-status.json" in
  let intelReport := status_readJson "intel-ban-db-report.json" in
  let live := fetchLiveMetrics now in
  let relayLan := status_readJson "relay-lan-exposure-report.json" in
  let epsSmoke := status_readJson "webhook-eps-smoke-report.json" in
  let ipc := gate.["ipc"] ??? status.["ipc"] ??? vs "?" in
  let dataMode := if (ipc === vs "ok") && otruthy gate.["pass"] then "live"
                  else if otruthy gate then "proof" else "unknown" in
  let liveBans := fetchBannedIps w e {| countOnly := true; limit := None; offset := None; search := None |} in
  let liveCount := br_count liveBans in
  let gateIpset := gate.["ipset_entries"] ??? vn 0 in
  let gateBans := gate.["bans_active"] ??? status.["db"].["bans_active"] ??? vn 0 in
  let '(intelLegacy, intelSummary, intelBanDb) := intel_ban_db gate intelReport live in
  respond 200 (JObject
    [("data_mode", vs dataMode); ("gate_pass", vtrue gate.["pass"]); ("gate_at", or_null gate.["date"]);
     ("gate_fail_reason", or_null gate.["fail_reason"]); ("ipc", ipc);
     ("xdp_mode", gate.["xdp_mode"] ??? status.["xdp_mode"] ??? vs "?");
     ("xdp_active", gate.["xdp_active"] ??? status.["daemon"].["xdp_active"] ??? vb false);
     ("default_nic", gate.["default_nic"] ??? vs "?"); ("wifi_nic", gate.["wifi_nic"] ??? vb false);
     ("nginx_log_format", gate.["nginx_log_format"] ??? vb false);
     ("nginx_snippets", gate.["nginx_snippets"] ??? vb false); ("nginx_live", gate.["nginx_live"] ??? vb false);
     ("whitelist_count", gate.["whitelist_count"] ??? vn 0);
     ("ipset_entries", if 0 <? liveCount then vn liveCount else gateIpset);
     ("bans_active", if 0 <? liveCount then vn liveCount else if vlt (vn 0) gateIpset then gateIpset else gateBans);
     ("bans_active_db", gate.["bans_active_db"] ??? gateBans);
     ("bans_source", if 0 <? liveCount then vs (br_source liveBans)
                     else vs (if vlt (vn 0) gateIpset then "ipset" else "db"));
     ("threat_intel_legacy_rows", intelLegacy); ("threat_intel_summary_rows", intelSummary);
     ("intel_ban_db", intelBanDb); ("edge_checklist", edge_checklist checklist);
     ("enterprise_e9", enterprise_e9 e9); ("relay_lan", relay_lan relayLan); ("eps_smoke", edge_eps_smoke epsSmoke)]).

(** ** webhook-ops *)

Definition webhook_ops_GET (now : Z) : response :=
  let status := status_readJson "guardian-status.json" in
  let proof := status_readJson "webhook-route-proof-report.json" in
  let undo := status_readJson "telegram-operator-undo-e2e-report.json" in
  let live := fetchLiveMetrics now in
  let n := status.["notifications"] ??? empty_obj in
  let ipcOk := status.["ipc"] === vs "ok" in
  let batchSec := live.["webhook_telegram_batch_sec"] ||| n.["telegram_batch_sec"] ||| proof.["batch_sec"] ||| vn 0 in
  let routeOn := otruthy n.["telegram_route"] || (live.["webhook_telegram_route"] === vn 1) || is_true proof.["route_enabled"] in
  let telegramLive := otruthy n.["telegram"] && negb (otruthy n.["dry_run"]) in
  let metricsLive := otruthy live.["reachable"] in
  let dataMode := if telegramLive && (metricsLive || ipcOk) then "live"
                  else if otruthy proof.["pass"] then "proof" else if metricsLive then "live" else "unknown" in
  respond 200 (JObject
    [("data_mode", vs dataMode); ("telegram_enabled", vbool n.["telegram"]); ("telegram_route", vb routeOn);
     ("batch_sec", batchSec); ("batch_active", vb (vlt (vn 0) batchSec));
     ("queue_depth", live.["webhook_queue_depth"] ??? n.["queue_depth"] ??? vn 0);
     ("ack_24h", live.["telegram_ack_24h"] ??? n.["ack_24h"] ??? vn 0);
     ("unacked_24h", live.["telegram_unacked_24h"] ??? n.["unacked_24h"] ??? vn 0);
     ("quiet_active", vb (otruthy n.["quiet_active"] || (live.["webhook_quiet_active"] === vn 1)));
     ("dry_run", vbool n.["dry_run"]); ("proof_pass", vtrue proof.["pass"]); ("proof_mode", or_null proof.["mode"]);
     ("prod_e2e_ok", vb (is_true proof.["prod_e2e"].["ok"] && negb (is_true proof.["prod_e2e"].["skipped"])));
     ("prod_e2e_at", or_null proof.["date"]); ("prod_e2e_metrics_delta", or_null proof.["metrics_delta"]);
     ("prod_e2e_alerts", or_null proof.["alerts_total"]); ("undo_e2e_ok", vtrue undo.["pass"]);
     ("undo_e2e_at", or_null undo.["date"]); ("undo_e2e_ip", or_null undo.["ip"]); ("undo_e2e_mode", or_null undo.["mode"]);
     ("webhook_sent", live.["webhook_sent_total"] ??? vn 0); ("webhook_fail", live.["webhook_fail_total"] ??? vn 0);
     ("webhook_drops", live.["webhook_queue_drops_total"] ??? vn 0);
     ("topics", obj_of [("waf", n.["telegram_topic_waf"] ??? vn 0); ("ban", n.["telegram_topic_ban"] ??? vn 0)])]).

(** ** vps-prep-status *)

(** The first lines of the remote status, on one line; [raw.split] needs a text. *)
Definition excerptRemote (raw : val) : res val :=
  if negb (otruthy raw) then Ok vnull
  else match raw with
       | Some (JStr t) =>
           let lines := take 6 (jfilter nonempty (map trim (split1 10 t))) in
           Ok (match lines with [] => vnull | _ => vs (join " · " lines) end)
       | _ => not_a_function "raw.split"
       end.
(** [typeof v === "number" ? v : null] *)
Definition number_or_null (v : val) : val := match v with Some (JNum x) => Some (JNum x) | _ => vnull end.
Definition vps_remote (remote : val) : res val :=
  if negb (otruthy remote) then Ok vnull
  else
    let remoteSshOk := is_true remote.["ssh_ok"] || is_true remote.["reachable"] in
    let? excerpt := excerptRemote remote.["raw_excerpt"] in
    Ok (obj_of
      [("pass", vtrue remote.["pass"]); ("reachable", vb remoteSshOk);
       ("host_up", vb (is_true remote.["host_up"] || is_true remote.["auth_error"])); ("ssh_ok", vb remoteSshOk);
       ("auth_error", vtrue remote.["auth_error"]); ("connection_error", vtrue remote.["connection_error"]);
       ("at", or_null remote.["date"]); ("host", or_null remote.["host"]); ("port", remote.["port"] ??? vn 22);
       ("hostname", or_null remote.["hostname"]); ("remote_root", or_null remote.["remote_root"]);
       ("xdp_mode", or_null remote.["xdp_mode"]); ("soak_active", vtrue remote.["soak_active"]);
       ("soak_mode", or_null remote.["soak_mode"]); ("soak_elapsed", or_null remote.["soak_elapsed"]);
       ("soak_progress", number_or_null remote.["soak_progress"]);
       ("soak_proof_72h", number_or_null remote.["soak_proof_72h"]); ("soak_synced", vtrue remote.["soak_synced"]);
       ("soak_failures", or_null remote.["soak_failures"]); ("eps", number_or_null remote.["eps"]);
       ("excerpt", excerpt); ("hint", or_null remote.["hint"])]).
Definition vps_prep_status_GET : res response :=
  let gate := status_readJson "vps-prep-gate-report.json" in
  let remote := status_readJson "vps-remote-status-report.json" in
  let remoteSshOk := is_true remote.["ssh_ok"] || is_true remote.["reachable"] in
  let remoteXdp := if remoteSshOk && otruthy remote.["xdp_mode"] then vs (ostr remote.["xdp_mode"]) else vnull in
  let? shown := vps_remote remote in
  Ok (respond 200 (JObject
    [("at", remote.["date"] ??? gate.["date"] ??? vnull); ("pass", vtrue gate.["pass"]);
     ("laptop_mode", vb (not_false gate.["laptop_mode"] && negb remoteSshOk));
     ("vps_available", vb (is_true gate.["vps_available"] || remoteSshOk));
     ("competitive_proof", or_null gate.["competitive_proof"]);
     ("xdp_mode", remoteXdp ??? gate.["xdp_report_mode"] ??? vnull);
     ("steps", gate.["vps_when_ready"] ???
        varr [vs "sudo bash install.sh"; vs "sudo bash scripts/install_first_run.sh";
              vs "sudo bash scripts/vps_xdp_proof.sh"; vs "bash scripts/post_install_verify.sh"]);
     ("doc", gate.["doc"] ??? vs "docs/VPS_SETUP.md"); ("remote", shown);
     ("setup", texts
        [("gate", "bash scripts/vps_prep_gate.sh"); ("doc", "docs/VPS_SETUP.md"); ("xdp", "sudo bash scripts/vps_xdp_proof.sh");
         ("remote", "QUIET=1 source .cache/vps-production.env && bash scripts/vps_remote_status.sh");
         ("remote_host", "VPS_HOST=root@HOST bash scripts/vps_remote_status.sh");
         ("ssh_copy_id", "ssh-copy-id root@157.173.122.198")])])).

(** ** operator-gates-summary *)

Definition hands_off (vpsRemote : val) : bool :=
  otruthy vpsRemote.["ssh_ok"] && vle (vn 72) (vpsRemote.["soak_proof_72h"] ??? vn 0).
Definition operator_gates_GET (now : Z) : response :=
  let morning := status_readJson "morning-operator-gate-report.json" in
  let fleet := status_readJson "fleet-offline-gate-report.json" in
  let vpsRemote := status_readJson "vps-remote-status-report.json" in
  let vpsPrep := status_readJson "vps-prep-gate-report.json" in
  let e9 := status_readJson "enterprise-e9-verify-report.json" in
  let relay := status_readJson "relay-lan-exposure-report.json" in
  let epsSmoke := status_readJson "webhook-eps-smoke-report.json" in
  let shown v fs := if otruthy v then obj_of fs else vnull in
  respond 200 (JObject
    [("at", vs (toISOString now));
     ("morning", shown morning
        [("pass", vtrue morning.["pass"]);
         ("proof", if present morning.["proof_pass"] && present morning.["proof_tests"]
                   then vs (ostr morning.["proof_pass"] ++ "/" ++ ostr morning.["proof_tests"]) else vnull)]);
     ("fleet", shown fleet
        [("pass", vtrue fleet.["pass"]);
         ("online", vs (ostr (fleet.["online"] ??? vn 0) ++ "/" ++ ostr (fleet.["total"] ??? vn 0)))]);
     ("vps", obj_of
        [("pass", vb (is_true vpsPrep.["pass"] || hands_off vpsRemote)); ("hands_off", vb (hands_off vpsRemote));
         ("ssh_ok", vtrue vpsRemote.["ssh_ok"]); ("soak_72h", vb (vle (vn 72) (vpsRemote.["soak_proof_72h"] ??? vn 0)));
         ("xdp_mode", or_null vpsRemote.["xdp_mode"]); ("proof", or_null vpsPrep.["competitive_proof"])]);
     ("e9", shown e9 [("pass", vtrue e9.["pass"]); ("proof", or_null e9.["competitive_proof"])]);
     ("relay_lan", shown relay [("pass", vtrue relay.["pass"]); ("fail_count", relay.["fail_count"] ??? vn 0)]);
     ("eps_smoke", shown epsSmoke
        [("pass", vb (eps_pass epsSmoke)); ("peak_eps", or_null epsSmoke.["peak_eps"]);
         ("derived_eps", or_null epsSmoke.["derived_eps"]); ("lines_delta", or_null epsSmoke.["lines_delta"])])]).

(** ** morning-operator-status and e9-status *)

(** [{ id, ok }], with [detail] where the card has one *)
Definition check_row (id : jstring) (ok : bool) (detail : val) : json :=
  JObject [("id", vs id); ("ok", vb ok); ("detail", detail)].
Definition morning_checks (r : val) : list json :=
  let ok k := is_true r.[k] in
  let epsDetail := if ok "eps_smoke_ok" && present r.["eps_smoke_peak"] then vs (peak_text r.["eps_smoke_peak"])
                   else if ok "eps_smoke_ok" then vs "ok" else vnull in
  [check_row "laptop_core" (ok "laptop_core_ok")
     (vs (if otruthy r.["laptop_core_refreshed"] then "refreshed" else "report"));
   check_row "presentation_ship" (ok "presentation_ship_ok") None;
   check_row "dashboard" (ok "dashboard_ok") None;
   check_row "attack_map" (ok "attack_map_parity_ok") None;
   check_row "telegram_soc" (ok "telegram_soc_ok") None;
   check_row "proof_freshness" (ok "proof_freshness_ok") None] ++
  match r.["eps_smoke_ok"] with
  | Some _ => [check_row "eps_smoke" (ok "eps_smoke_ok") epsDetail]
  | None => []
  end.
Definition morning_status_GET : response :=
  let r := status_readJson "morning-operator-gate-report.json" in
  if negb (otruthy r) then
    respond 200 (JObject
      [("pass", vnull); ("at", vnull); ("checks", empty_arr); ("proof_pass", vnull); ("proof_tests", vnull);
       ("run_cmd", vs "bash scripts/morning_operator_gate.sh");
       ("chain_cmd", vs "bash scripts/morning_operator_chain.sh"); ("dash_url", vs "https://localhost:8443/tests")])
  else
    respond 200 (JObject
      [("pass", vtrue r.["pass"]); ("at", or_null r.["date"]); ("fail_reason", or_null r.["fail_reason"]);
       ("checks", Some (JArr (morning_checks r))); ("proof_pass", or_null r.["proof_pass"]);
       ("proof_tests", or_null r.["proof_tests"]); ("proof_stale_ids", r.["proof_stale_ids"] ??? empty_arr);
       ("run_cmd", r.["script"] ??? vs "bash scripts/morning_operator_gate.sh");
       ("chain_cmd", r.["chain_script"] ??? vs "bash scripts/morning_operator_chain.sh");
       ("dash_url", r.["dash_url"] ??? vs "https://localhost:8443/tests"); ("eps_smoke_ok", vtrue r.["eps_smoke_ok"]);
       ("eps_smoke_peak", or_null r.["eps_smoke_peak"]); ("eps_smoke_lines_delta", or_null r.["eps_smoke_lines_delta"])]).

Definition e9_checks (r : val) : list json :=
  let ok k := is_true r.[k] in
  [check_row "competitive_proof" (otruthy r.["competitive_proof"]) (or_null r.["competitive_proof"]);
   check_row "enterprise_escalation" (ok "enterprise_escalation") None;
   check_row "edge_checklist" (ok "edge_checklist") None;
   check_row "relay_lan_exposure" (ok "relay_lan_exposure") None;
   check_row "morning_operator" (ok "morning_operator") None;
   check_row "eps_smoke" (ok "eps_smoke")
     (if present r.["eps_smoke_peak"] then vs (peak_text r.["eps_smoke_peak"])
      else if ok "eps_smoke" then vs "ok" else vnull);
   check_row "docs_consistency" (ok "docs_consistency") None;
   check_row "vps_prep" (ok "vps_prep") None;
   check_row "vps_remote" (ok "vps_remote") None].
Definition e9_status_GET : response :=
  let r := status_readJson "enterprise-e9-verify-report.json" in
  if negb (otruthy r) then
    respond 200 (JObject
      [("pass", vnull); ("at", vnull); ("competitive_proof", vnull); ("fail_count", vnull); ("checks", empty_arr);
       ("run_cmd", vs "bash scripts/enterprise_e9_verify.sh"); ("doc", vs "docs/ENTERPRISE_SUPPORT.md")])
  else
    respond 200 (JObject
      [("pass", vtrue r.["pass"]); ("at", or_null r.["date"]); ("competitive_proof", or_null r.["competitive_proof"]);
       ("fail_count", r.["fail_count"] ??? vn 0); ("checks", Some (JArr (e9_checks r)));
       ("run_cmd", r.["script"] ??? vs "bash scripts/enterprise_e9_verify.sh");
       ("doc", r.["doc"] ??? vs "docs/ENTERPRISE_SUPPORT.md")]).

(** ** lineage-l7 *)

Definition lineage_l7_GET : response :=
  let status := status_readJson "guardian-status.json" in
  let wasm := status_readJson "wasm-status.json" in
  let wasmNative := if (wasm.["mode"] === vs "native") && is_true wasm.["pass"] then true
                    else otruthy status.["wasm"].["native"] in
  let l7 := status.["l7_http"] ??? empty_obj in
  let daemon := status.["daemon"] ??? empty_obj in
  respond 200 (JObject
    [("data_mode", vs (if status.["ipc"] === vs "ok" then "live" else "preview"));
     ("ipc", status.["ipc"] ??? vs "unknown"); ("xdp_mode", status.["xdp_mode"] ??? vs "unknown");
     ("xdp_active", vbool daemon.["xdp_active"]);
     ("wasm", obj_of
        [("mode", wasm.["mode"] ??? vs (if wasmNative then "native" else "stub")); ("pass", wasm.["pass"] ??? vb wasmNative);
         ("plugins_native", wasm.["plugins_native"] ??? status.["wasm"].["plugins_native"] ??? vn 0);
         ("alerts_on_sqli", wasm.["alerts_on_sqli"] ??? vn 0); ("plugin_bytes", wasm.["plugin_bytes"] ??? vn 0)]);
     ("l7", obj_of
        [("probe_active", vb (otruthy l7.["probe_active"] || otruthy daemon.["l7_probe"])); ("probe", l7.["probe"] ??? vs "—");
         ("inspected", l7.["inspected"] ??? vn 0); ("blocked", l7.["blocked"] ??? vn 0);
         ("ebpf_hits", l7.["ebpf_hits"] ??? vn 0); ("http_hits", daemon.["l7_http_hits"] ??? vn 0)]);
     ("lineage", obj_of
        [("events", daemon.["lineage_events"] ??? vn 0); ("connects", daemon.["lineage_connects"] ??? vn 0);
         ("execve_probe", vbool daemon.["execve_probe"])])]).

(** ** bench-metrics *)

Definition bench_metrics_GET : response :=
  let read name := Some (tests_readJson w e cwd name) in
  let bench := read "bench-vs-modsec.json" in
  let ban := read "bench-ban-latency.json" in
  let fp := read "fp-report.json" in
  let live := read "guardian-status.json" in
  let falco := read "rules/generated-falco-host.json" in
  let crs := read "crs-parity-report.json" in
  let isolation := read "tenant-isolation-report.json" in
  let available := otruthy bench || otruthy ban || otruthy fp || otruthy live || otruthy crs in
  respond 200 (JObject
    [("available", vb available); ("bench", bench);
     ("modsec", if otruthy bench then obj_of
        [("eps", bench.["modsecurity"].["eps"]); ("latency_us_per_line", bench.["modsecurity"].["latency_us_per_line"]);
         ("guardian_latency_us_per_line", bench.["log_guardian"].["latency_us_per_line"]);
         ("eps_ratio", or_null bench.["comparison"].["guardian_eps_over_crs_replay"]);
         ("latency_ratio", or_null bench.["comparison"].["crs_latency_over_guardian"]);
         ("same_corpus", bench.["comparison"].["same_log_corpus"] ??? vb true); ("note", bench.["modsecurity"].["note"])]
       else vnull);
     ("ban", ban); ("fp", fp); ("live", live);
     ("falco", if otruthy falco then obj_of [("count", falco.["count"])] else vnull);
     ("crs", if otruthy crs then obj_of
        [("attack_recall_pct", crs.["guardian"].["attack_recall_pct"]); ("parity_pct", crs.["parity_pct"]); ("pass", crs.["pass"])]
       else vnull);
     ("isolation", if otruthy isolation then obj_of
        [("pass", isolation.["pass"]); ("checks_passed", isolation.["checks_passed"]);
         ("checks_total", isolation.["checks_total"]); ("tenant_id", isolation.["tenant"].["id"])]
       else vnull);
     ("hint", if available then vnull else vs "Run: bash scripts/competitive_suite.sh")]).

(** ** eps-smoke-status *)

Definition eps_smoke_status_GET : response :=
  let r := status_readJson "webhook-eps-smoke-report.json" in
  let upgrade := ("upgrade_cmd" : jstring, vs "sudo bash scripts/upgrade_log_guardian_binary.sh") in
  if negb (otruthy r) then
    respond 200 (JObject [("pass", vnull); ("at", vnull);
                          ("run_cmd", vs "sudo bash scripts/webhook_nginx_eps_smoke.sh"); upgrade])
  else
    respond 200 (JObject
      [("pass", vb (eps_pass r)); ("at", or_null r.["date"]); ("fail_reason", or_null r.["fail_reason"]);
       ("lines_delta", or_null r.["lines_delta"]); ("peak_eps", or_null r.["peak_eps"]);
       ("derived_eps", or_null r.["derived_eps"]); ("eps_after", or_null r.["eps_after"]);
       ("alerts_delta", or_null r.["alerts_delta"]); ("inject_lines", or_null r.["inject_lines"]);
       ("run_cmd", r.["script"] ??? vs "sudo bash scripts/webhook_nginx_eps_smoke.sh"); upgrade]).

(** ** dashboard-snapshot *)

Definition STATUS_DIR : jstring := oor (e "BENCH_DATA_DIR") "/data/lg".
Definition shell_events (tree : json) : res Z :=
  let? t := not_null tree in
  let? evs := items t.["events"] in
  let? hits := rseq (map (λ ev, let? v := not_null ev in Ok (if v.["type"] === vs "EXEC_SHELL" then 1 else 0)) evs) in
  Ok (fold_left Z.add hits 0).
Definition lineageRceCount : Z :=
  match w_readIn w STATUS_DIR "attack_tree.json" with
  | None => 0
  | Some raw =>
      match JSON_parse raw with
      | None => 0
      | Some parsed =>
          match (let? trees := match parsed with
                               | JArr l => Ok l
                               | _ => let? p := not_null parsed in items p.["trees"]
                               end in
                 rseq (map shell_events trees)) with
          | Ok counts => fold_left Z.add counts 0
          | Throw _ => 0
          end
      end
  end.
Definition of_soc_kind (k : SocTimelineKind) (l : list SocTimelineEntry) : Z :=
  Z.of_nat (length (jfilter (λ s, bool_decide (se_kind s = k)) l)).
Definition dashboard_snapshot_GET (dateParse : jstring → option Z) : res response :=
  let status := Some (readJsonFile w STATUS_DIR "guardian-status.json") in
  let? socFallback := fetchSocTimelineFallback w dateParse STATUS_DIR in
  Ok (respond 200 (JObject [("hints", obj_of
    [("from_snapshot", vb true); ("rce_blocked", vn lineageRceCount);
     ("lineage_events", vn (of_soc_kind KindLineage socFallback)); ("proof_ban_entries", vn (of_soc_kind KindBan socFallback));
     ("alerts_total", status.["db"].["alerts_total"] ??? vn 0); ("bans_active_db", status.["db"].["bans_active"] ??? vn 0);
     ("incidents_active", status.["incidents"].["active"] ??? vn 0);
     ("l7_blocked", status.["l7_http"].["blocked"] ??? vn 0)])])).

(** ** fp-metrics *)

Definition readFpReport : json :=
  let direct := match truthy_str (e "FP_REPORT_JSON") with Some p => w_read w p | None => None end in
  match match direct with Some raw => JSON_parse raw | None => None end with
  | Some v => v
  | None => readFirst w (match truthy_str (e "BENCH_DATA_DIR") with Some d => [d] | None => [] end ++
                         ["/data/lg"; cwd; cwd ++ "/.."]) "fp-report.json"
  end.
(** [{ ...a, ...b }] *)
Definition merge_fields (a b : list (jstring * json)) : list (jstring * json) :=
  fold_left (λ acc f, put_field f.1 f.2 acc) b a.
Definition fp_metrics_GET : response :=
  let data := readFpReport in
  if negb (truthy data) then
    respond 200 (JObj [("available", JBool false); ("message", JStr "Run: bash scripts/fp_report.sh")])
  else respond 200 (JObj (merge_fields [("available", JBool true)] (spread data))).

(** ** telegram-acks *)

(** [None]: the document is [null], and the next place is tried. *)
Definition acks_of (dir : jstring) : option val :=
  match w_readIn w dir "guardian-status.json" with
  | Some raw => match JSON_parse raw with
                | Some JNull | None => None
                | Some data => Some ((Some data).["recent_telegram_acks"] ??? empty_arr)
                end
  | None => None
  end.
Definition readAcks : val := first_some acks_of [STATUS_DIR; cwd; cwd ++ "/.."] ?? empty_arr.
(** [v?.trim()] *)
Definition opt_trim (v : val) : res val :=
  match v with
  | None | Some JNull => Ok None
  | Some (JStr t) => Ok (vs (trim t))
  | _ => not_a_function "trim"
  end.
Definition ack_map : Type := list (jstring * (val * val)).
Definition add_ack_ip (m : ack_map) (a : json) : res ack_map :=
  let? a := not_null a in
  let key := ostr (a.["ack_key"] ??? vs "") in
  if negb (test_full QUAD_RE key) then Ok m
  else
    let ts := a.["ts"] ??? vn 0 in
    if match assoc key m with Some old => vlt (old.2 ??? vn 0) ts | None => true end then
      let? operator := opt_trim a.["operator"] in
      let? operator := if otruthy operator then Ok operator else opt_trim a.["operator_id"] in
      Ok (put_field key (operator ||| vs "operator", ts) m)
    else Ok m.
Fixpoint ack_loop (m : ack_map) (l : list json) : res ack_map :=
  match l with [] => Ok m | a :: l => let? m := add_ack_ip m a in ack_loop m l end.
Definition telegram_acks_GET : res response :=
  let rows := readAcks in
  let? l := items rows in
  let? by_ip := ack_loop [] l in
  Ok (respond 200 (JObject
    [("acks", rows);
     ("by_ip", Some (JObj (map (λ kv, (kv.1, JObject [("operator", kv.2.1); ("ts", kv.2.2)])) by_ip)));
     ("count", vn (Z.of_nat (length by_ip)))])).

(** ** incidents *)

(** The last line of the snapshot file. *)
Definition readSnapshot : json :=
  first_some (λ d, match w_readIn w d "incidents-snapshot.json" with
                   | Some raw => JSON_parse (List.last (split1 10 (trim raw)) [])
                   | None => None
                   end) [cwd; cwd ++ "/.."] ?? JNull.
(** The answer the analyzer's own list gives, if it has one. *)
Definition incidents_api (id : option jstring) : option json :=
  let base := guardianApiBase e ++ "/api/v1/incidents" in
  let url := match truthy_str id with
             | Some i => (λ u, base ++ "?id=" ++ u) <$> encodeURIComponent i
             | None => Some base
             end in
  match url with
  | None => None
  | Some url =>
      match w_fetch w url (guardianApiAuthHeaders e) with
      | Some (st, Some data) =>
          if negb (res_ok st) then None
          else match data with
               | JNull => None
               | _ =>
                   let d := Some data in
                   if nonempty (id ?? []) && otruthy d.["incident_id"] then
                     Some (JObj [("incident", data); ("source", JStr "guardian_api")])
                   else if vlt (vn 0) d.["count"] || (otruthy d.["incidents"] && vlt (vn 0) (vlength d.["incidents"])) then
                     Some (JObj (put_field "source" (JStr "guardian_api") (spread data)))
                   else None
               end
      | _ => None
      end
  end.
(** [new URL] and [encodeURIComponent] run before the [try]. *)
Definition incidents_GET (r : request) : res response :=
  let id := query "id" r in
  if match truthy_str id with Some i => bool_decide (encodeURIComponent i = None) | None => false end
  then Throw "URI malformed"
  else
    match incidents_api id with
    | Some v => Ok (respond 200 v)
    | None =>
        let snap := readSnapshot in
        let allowSnapshot := env_is e "INCIDENTS_ALLOW_SNAPSHOT" "1" || negb (env_is e "NODE_ENV" "production") in
        Ok (if truthy snap && allowSnapshot then
          respond 200 (JObject
            [("incidents", Some (JArr [JObject
                [("incident_id", (Some snap).["incident_id"]); ("ip", (Some snap).["ip"]); ("risk_score", vn 72);
                 ("suggested_action", vs "MONITOR"); ("primary_signal", vs "log_sqli+ebpf_execve"); ("log_hits", vn 1)]]));
             ("count", vn 1); ("source", vs "snapshot")])
        else if nonempty (id ?? []) then error 404 "incident not found"
        else respond 200 (JObject
          [("incidents", empty_arr); ("count", vn 0); ("source", vs "empty");
           ("hint", vs "Run bash scripts/competitive_suite.sh or ./log-guardian incident-sim")]))
    end.

(** ** Agreement of the routes *)

(** The page of the tests looks into one place more than the status cards. *)
Lemma tests_read_status name :
  oor (e "BENCH_DATA_DIR") "/data/lg" = "/data/lg" → Some (tests_readJson w e cwd name) = status_readJson name.
Proof.
  intros He. unfold status_readJson, readRepoJson, tests_readJson, readFirst. rewrite He. do 2 f_equal.
  unfold oor in He. destruct (e "BENCH_DATA_DIR") as [[|c d]|]; cbn [truthy_str nonempty sor default] in *; try done.
  assert (c :: d = "/data/lg") as -> by exact He. cbn [app first_some].
  by destruct (match w_readIn w "/data/lg" name with Some raw => JSON_parse raw | None => None end).
Qed.
Lemma eps_pass_falsy r : otruthy r = false → eps_pass r = false.
Proof. by destruct r as [[| | | | |]|]. Qed.

(** The pages agree on the throughput test: its own status card, the edge card,
    the operator summary and the banner of the tests page give one verdict, that of
    the stored report. *)
Theorem eps_verdict_agrees now :
  oor (e "BENCH_DATA_DIR") "/data/lg" = "/data/lg" →
  let verdict := eps_pass (status_readJson "webhook-eps-smoke-report.json") in
  is_true (body_json eps_smoke_status_GET).["pass"] = verdict ∧
  is_true (body_json (edge_status_GET now)).["eps_smoke"].["pass"] = verdict ∧
  is_true (body_json (operator_gates_GET now)).["eps_smoke"].["pass"] = verdict ∧
  truthy (eps_smoke_banner w e cwd) = verdict.
Proof.
  intros He verdict. subst verdict. set (r := status_readJson _).
  assert (Hb : ∀ b, is_true (vb b) = b) by by intros [].
  split_and!.
  - unfold eps_smoke_status_GET. fold r. destruct (otruthy r) eqn:Er; cbn [negb]; [|by rewrite eps_pass_falsy].
    shown_at. apply Hb.
  - unfold edge_status_GET. destruct (intel_ban_db _ _ _) as [[legacy summary] db]. shown_at. fold r.
    unfold edge_eps_smoke. destruct (otruthy r) eqn:Er; cbn [negb]; [|by rewrite eps_pass_falsy]. apply Hb.
  - unfold operator_gates_GET. cbv zeta. shown_at. fold r.
    destruct (otruthy r) eqn:Er; [apply Hb|by rewrite eps_pass_falsy].
  - unfold eps_smoke_banner. rewrite tests_read_status by done. fold r. cbv zeta. fold (eps_pass r).
    by destruct (eps_pass r).
Qed.

(** The intelligence card says "pass" on an installation that has no data at all. *)
Lemma intel_pass_without_data :
  (intel_ban_db vnull vnull vnull).2.["pass"] = vb true.
Proof. done. Qed.
End routes.

Module StatusDemo.
Definition report : json := JObj [("pass", JBool true); ("lines_delta", jint 40); ("peak_eps", jint 3)].
Definition disk : world :=
  {| w_fetch := λ _ _, None; w_read := λ _, None; w_size := λ _, None;
     w_readIn := λ _ name, if name =s "webhook-eps-smoke-report.json" then Some (stringify report) else None |}.
Definition down (_ : jstring) : res (Z * res jstring) := Throw "fetch failed".
Lemma eps_verdict_agrees_witness :
  let verdict := eps_pass (status_readJson disk (env_of []) "/app" "webhook-eps-smoke-report.json") in
  verdict = true ∧ is_true (body_json (eps_smoke_status_GET disk (env_of []) "/app")).["pass"] = verdict.
Proof.
  split; [vm_compute; reflexivity|].
  apply (eps_verdict_agrees (H := ascii_case) disk (env_of []) "/app" down 0). reflexivity.
Defined.
(** Two acknowledgements of one address: the newer one is shown. *)
Definition ack (ts : Z) (op : jstring) : json :=
  JObj [("ack_key", JStr "203.0.113.9"); ("ts", jint ts); ("operator", JStr op)].
Lemma newer_ack : ack_loop [] [ack 10 "ada"; ack 30 "bob"; ack 20 "eve"] = Ok [("203.0.113.9" : jstring, (vs "bob", vn 30))].
Proof. by vm_compute. Qed.
End StatusDemo.
