(* ===== verification/FleetStatus.v ===== *)
(** Status of the fleet and of the cluster: agents and stuck commands
    (dashboard/src/app/api/fleet-offline-status), decrypted traffic of the agents
    (api/tls-status) and the log of killed containers (api/k8s). *)

From S2P Require Import Prelude JsString JsNum Json Http Auth JsDate Store FleetCommand Telemetry JsValue StatusRoutes CopilotText Copilot.

(** [new Date(x)] of a number: the time value, [None] for an invalid date. *)
Definition time_clip (x : num) : option Z :=
  match (if nlt x nzero then Z.opp <$> nfloor (nsub nzero x) else nfloor x) with
  | Some ms => if Z.abs ms <=? 8640000000000000 then Some ms else None
  | None => None
  end.

(** ** fleet-offline-status *)

(** What the database part of the handler leaves. *)
Record FleetLive := {
  fl_online : Z; fl_total : Z; fl_agents : list json;
  fl_pendingTotal : val; fl_pendingYoung : val; fl_pendingStale : val; fl_items : list json;
}.

Definition seconds (ms : Z) : num := ndiv (num_of_Z (Z.max 0 ms)) (num_of_Z 1000).
(** [age * 1000 < ONLINE_MS] *)
Definition live_online (now : Z) (a : Telemetry) : bool :=
  nlt (nmul (seconds (now - t_lastSeen a)) (num_of_Z 1000)) (num_of_Z 15000).
Definition live_agent (now : Z) (a : Telemetry) : json :=
  JObj [("id", JStr (t_agentId a)); ("online", JBool (live_online now a));
        ("age_sec", JNum (nround (seconds (now - t_lastSeen a))))].

(** [executed: false, status: { in: ["delivered", "pending"] }] *)
Definition stuck (c : AgentCommand) : bool :=
  negb (c_executed c) && ((c_status c =s "delivered") || (c_status c =s "pending")).
Definition is_stale (cutoff : option Z) (c : AgentCommand) : bool :=
  match cutoff with Some t => c_createdAt c <? t | None => false end.
Definition ten : num := num_of_Z 10.
Definition stuck_item (now : Z) (c : AgentCommand) : json :=
  let ageH := ndiv (num_of_Z (Z.max 0 (now - c_createdAt c))) (num_of_Z 3600000) in
  JObj [("type", JStr (c_commandType c)); ("status", JStr (c_status c)); ("target", JStr (oor (c_targetAgentId c) "*"));
        ("age_h", JNum (ndiv (nround (nmul ageH ten)) ten)); ("payload", JStr (str_upto 64 (c_payload c)))].
(** The loop over the commands read: stale ones are counted, young ones listed. *)
Definition tally_stuck (now : Z) (cutoff : option Z) (st : Z * Z * list json) (c : AgentCommand) : Z * Z * list json :=
  let '(stale, young, items) := st in
  if is_stale cutoff c then (stale + 1, young, items)
  else (stale, young + 1, if (length items <? 8)%nat then items ++ [stuck_item now c] else items).

(** The entries of the last prune report, used when the database does not answer. *)
Definition prune_item (c : json) : res json :=
  let? c := not_null c in
  Ok (JObject [("type", c.["type"] ??? vs "?"); ("status", c.["status"] ??? vs "?"); ("target", c.["target"] ??? vs "*");
               ("age_h", c.["age_h"] ??? vn 0); ("payload", c.["payload"] ??? vs "")]).
(** [Math.max(0, a - b)] *)
Definition max0_sub (a b : val) : val :=
  let d := nsub (to_num a) (to_num b) in
  Some (if is_nan d then JNull else num_json (if nlt d nzero then nzero else d)).

Section offline.
Context {Tt Tc : Type} `{!Table Tt Telemetry t_id} `{!Table Tc AgentCommand c_id}.
Context (w : world) (e : env) (cwd : jstring) (dateParse : jstring → option Z).

(** The commands part; [None] when a query fails. *)
Definition pending_commands (now : Z) (cutoff : option Z) (tc : Tc) : option (Z * (Z * Z * list json)) :=
  match count_rows stuck tc, find_sorted c_createdAt stuck tc with
  | Some n, Some l => Some (n, fold_left (tally_stuck now cutoff) (take 24 l) (0, 0, []))
  | _, _ => None
  end.
(** Both parts, with the report in place of a database that fails; what was read
    before the failure stays. *)
Definition fleet_live (now : Z) (cutoff : option Z) (prune : val) (tt : Tt) (tc : Tc) : res FleetLive :=
  let '(online, total, agents, ok) :=
    match find_many (λ _, true) tt with
    | Some l => (Z.of_nat (length (jfilter (live_online now) l)), Z.of_nat (length l), map (live_agent now) l, true)
    | None => (0, 0, [], false)
    end in
  match (if ok then pending_commands now cutoff tc else None) with
  | Some (n, (stale, young, items)) =>
      Ok {| fl_online := online; fl_total := total; fl_agents := agents; fl_pendingTotal := vn n;
            fl_pendingYoung := vn young; fl_pendingStale := vn stale; fl_items := items |}
  | None =>
      let pendingTotal := prune.["pending_total"] ??? vn 0 in
      let pendingYoung := prune.["pending_young"] ??? vn 0 in
      let? items := match prune.["pending_young_items"] ??? empty_arr with
                    | Some (JArr l) => rseq (map prune_item l)
                    | _ => not_a_function "map"
                    end in
      Ok {| fl_online := online; fl_total := total; fl_agents := agents; fl_pendingTotal := pendingTotal;
            fl_pendingYoung := pendingYoung; fl_pendingStale := max0_sub pendingTotal pendingYoung; fl_items := items |}
  end.

Definition fleet_offline_GET (now : Z) (tt : Tt) (tc : Tc) : res response :=
  let gate := status_readJson w e cwd "fleet-offline-gate-report.json" in
  let multi := status_readJson w e cwd "fleet-multi-node-report.json" in
  let prune := status_readJson w e cwd "fleet-prune-cmds-report.json" in
  let staleHours := prune.["stale_hours"] ??? vn 48 in
  let cutoff := time_clip (nsub (num_of_Z now) (nmul (nmul (to_num staleHours) (num_of_Z 3600)) (num_of_Z 1000))) in
  let? live := fleet_live now cutoff prune tt tc in
  let shadow := buildVpsFleetShadow dateParse now (readVpsRemoteStatus w e cwd) in
  let known := existsb (λ a, (Some a).["id"] === vs VPS_FLEET_AGENT_ID) (fl_agents live) in
  let liveAgents := match shadow with
    | Some s => if known then fl_agents live
                else fl_agents live ++ [JObject [("id", (Some s).["agent_id"]); ("online", vb true); ("age_sec", vn 0);
                                                 ("remote_shadow", vb true)]]
    | None => fl_agents live
    end in
  let gateOnline := gate.["online"] ??? multi.["online_count"] ??? vn 0 in
  let gateTotal := gate.["total"] ??? multi.["agent_count"] ??? vn 0 in
  Ok (respond 200 (JObject
    [("at", gate.["date"] ??? multi.["date"] ??? vnull);
     ("gate", obj_of
        [("pass", vtrue gate.["pass"]); ("reason", gate.["reason"] ||| vnull); ("online", gateOnline); ("total", gateTotal);
         ("mode", gate.["mode"] ??? multi.["mode"] ??? vnull); ("max_age_min", gate.["max_age_min"] ??? vn 15)]);
     ("live", obj_of
        [("online", vn (fl_online live)); ("total", vn (fl_total live)); ("agents", Some (JArr liveAgents));
         ("heartbeat_sec", vn 15)]);
     ("remote_shadow", match shadow with
        | Some s => obj_of [("agent_id", (Some s).["agent_id"]); ("host", (Some s).["host"]); ("hostname", (Some s).["hostname"]);
                            ("xdp_mode", (Some s).["xdp_mode"]); ("soak_proof_72h", (Some s).["soak_proof_72h"])]
        | None => vnull
        end);
     ("report_stale", vb ((0 <? fl_total live) &&
        (negb (gateOnline === vn (fl_online live)) || negb (gateTotal === vn (fl_total live)))));
     ("multi", if otruthy multi then obj_of
        [("pass", vtrue multi.["pass"]); ("mode", or_null multi.["mode"]); ("agent_count", multi.["agent_count"] ??? vn 0);
         ("online_count", multi.["online_count"] ??? vn 0); ("agents", multi.["agents"] ??? empty_arr);
         ("vm_fallback", vtrue multi.["vm_fallback"])] else vnull);
     ("setup", texts
        [("gate", "bash scripts/fleet_offline_gate.sh");
         ("refresh", "FLEET_MODE=laptop-simulated bash scripts/fleet_multi_node_e2e.sh");
         ("host_keepalive", "bash scripts/host_fleet_agent_setup.sh --install-user-service");
         ("prune", "bash scripts/fleet_prune_pending_commands.sh");
         ("prune_demo", "STALE_MINUTES=30 bash scripts/fleet_prune_pending_commands.sh");
         ("prune_dry", "DRY_RUN=1 bash scripts/fleet_prune_pending_commands.sh");
         ("weekly", "bash scripts/weekly_operator_ritual.sh")]);
     ("prune", obj_of
        [("pass", vb (not_false prune.["pass"])); ("at", or_null prune.["date"]); ("closed_last", prune.["closed"] ??? vn 0);
         ("stale_hours", staleHours); ("pending_total", fl_pendingTotal live); ("pending_young", fl_pendingYoung live);
         ("pending_stale", fl_pendingStale live); ("needs_prune", vb (vlt (vn 0) (fl_pendingStale live)));
         ("items", Some (JArr (fl_items live)))])])).
End offline.

(** ** tls-status *)

Definition seven_tenths : num := num_of_decimal false 7 (-1).
Definition tls_status_GET {Tt} `{!Table Tt Telemetry t_id} (now : Z) (r : request) (tt : Tt) : response :=
  let isAdmin := match header "x-user-role" r with Some role => role =s "admin" | None => false end in
  match copilot_agents isAdmin (header "x-user-tenant" r) tt with
  | Throw _ => error 500 "Internal Server Error"
  | Ok agents =>
      let online := jfilter (is_online now) agents in
      let tls := sum_int t_tlsDecrypted online in
      let peers := sum_int t_etcdPeers online in
      respond 200 (JObj
        [("tls_read_calls", jint tls);
         ("tls_write_calls", match nfloor (nmul (num_of_Z tls) seven_tenths) with Some z => jint z | None => JNull end);
         ("tls_bytes", jint (tls * 512)); ("uprobe_active", JBool (existsb (λ a, 0 <? t_tlsDecrypted a) online));
         ("etcd_connected", JBool (0 <? peers)); ("etcd_peers", jint peers);
         ("online_agents", jint (Z.of_nat (length online)))])
  end.

(** ** k8s: the log of killed containers *)

Definition MAX_LOG_SIZE : Z := 100.
(** [killLog], newest first. *)
Definition kill_log : Type := list json.
Definition k8s_GET (log : kill_log) : response :=
  respond 200 (JObj [("totalKills", jint (Z.of_nat (length log))); ("recentKills", JArr log)]).
(** The event of a request; [id] is the generated one.  A body that is not JSON, is
    [null] or has no usable time is refused. *)
Definition kill_event (id : jstring) (r : request) : option json :=
  match rq_json r with
  | None | Some JNull => None
  | Some body =>
      let d := Some body in
      match time_clip (ndiv (to_num d.["timestamp_ns"]) (num_of_Z 1000000)) with
      | None => None
      | Some ms =>
          Some (JObject [("id", vs id); ("timestamp", vs (toISOString ms)); ("pid", d.["pid"]);
                         ("container_id", d.["container_id"]); ("workload_name", d.["workload_name"]);
                         ("parent_comm", d.["parent_comm"]); ("exec_filename", d.["exec_filename"]); ("argv1", d.["argv1"])])
      end
  end.
Definition record_kill (log : kill_log) (ev : json) : kill_log :=
  let log := ev :: log in
  if MAX_LOG_SIZE <? Z.of_nat (length log) then removelast log else log.
Definition k8s_POST (id : jstring) (r : request) (log : kill_log) : response * kill_log :=
  match kill_event id r with
  | Some ev => (respond 200 (JObj [("status", JStr "success")]), record_kill log ev)
  | None => (error 400 "Bad Request", log)
  end.

(** ** The log keeps the newest events *)

Definition k8s_run (log : kill_log) (posts : list (jstring * request)) : kill_log :=
  fold_left (λ log p, (k8s_POST p.1 p.2 log).2) posts log.

Lemma record_kill_take l ev : record_kill (take 100 l) ev = take 100 (ev :: l).
Proof.
  unfold record_kill, MAX_LOG_SIZE. cbn [length]. destruct (100 <? _) eqn:E; bprop.
  - assert (Hl : length (take 100 l) = 100%nat) by (rewrite length_take in *; lia).
    assert (H100 : (100 <= length l)%nat) by (rewrite length_take in Hl; lia).
    rewrite removelast_firstn_len. cbn [length]. rewrite Hl. cbn [pred]. rewrite firstn_cons. cbn [take].
    f_equal. by rewrite firstn_firstn.
  - cbn [take]. f_equal. rewrite length_take in E.
    rewrite !take_ge by lia. done.
Qed.

(** Whatever is posted, the log of killed containers is the last hundred accepted
    events, newest first; refused requests leave no trace. *)
Theorem kill_log_window posts :
  k8s_run [] posts = take 100 (rev (omap (λ p, kill_event p.1 p.2) posts)).
Proof.
  induction posts as [|p posts IH] using rev_ind; [done|].
  unfold k8s_run in *. rewrite fold_left_app, IH, omap_app, rev_app_distr. cbn [fold_left omap list_omap].
  unfold k8s_POST. destruct (kill_event p.1 p.2) as [ev|]; cbn [snd rev app]; [apply record_kill_take|done].
Qed.

(** ** The commands that wait *)

Section waiting.
Context {Tt Tc : Type} `{!Table Tt Telemetry t_id} `{!Table Tc AgentCommand c_id}.

Lemma tally_counts now cutoff l stale young items stale' young' items' :
  fold_left (tally_stuck now cutoff) l (stale, young, items) = (stale', young', items') →
  stale' + young' = stale + young + Z.of_nat (length l) ∧
  young' = young + Z.of_nat (length (jfilter (λ c, negb (is_stale cutoff c)) l)) ∧
  (Z.of_nat (length items) = Z.min 8 young → Z.of_nat (length items') = Z.min 8 young').
Proof.
  revert stale young items. induction l as [|c l IH]; intros stale young items; cbn [fold_left].
  - intros [= <- <- <-]. cbn. split_and!; [lia..|done].
  - unfold tally_stuck at 2. destruct (is_stale cutoff c) eqn:Es; intros Hf; apply IH in Hf as (H1 & H2 & H3);
      cbn [length jfilter List.filter]; rewrite Es; cbn [negb].
    + split_and!; [lia|exact H2|exact H3].
    + cbn [length]. unfold jfilter in H2. split_and!; [lia|lia|]. intros Hi. apply H3.
      destruct (length items <? 8)%nat eqn:E8; [apply Nat.ltb_lt in E8|apply Nat.ltb_ge in E8];
        rewrite ?length_app; cbn [length]; lia.
Qed.

(** The counts of the card: all waiting commands, and of the 24 oldest how many are
    stale, how many young and how many of those are listed. *)
Lemma pending_counts now cutoff (tc : Tc) n stale young items :
  pending_commands now cutoff tc = Some (n, (stale, young, items)) →
  n = Z.of_nat (length (jfilter stuck (rows tc))) ∧ stale + young = Z.min 24 n ∧
  Z.of_nat (length items) = Z.min 8 young.
Proof.
  unfold pending_commands. destruct (count_rows stuck tc) as [m|] eqn:Ec; [|done].
  destruct (find_sorted _ _ tc) as [l|] eqn:Ef; [|done]. intros [= <- Hf].
  apply count_law in Ec. apply find_sorted_law in Ef as [Hp _]. apply Permutation_length in Hp.
  apply tally_counts in Hf as (H1 & H2 & H3). rewrite length_take in H1. split_and!; [done|lia|]. by apply H3.
Qed.

(** The route has no request to look at: every caller sees the agents of all tenants,
    and the commands that wait for them. *)
Lemma offline_lists_all w e cwd dateParse now (tt : Tt) (tc : Tc) resp l a :
  fleet_offline_GET w e cwd dateParse now tt tc = Ok resp → find_many (λ _, true) tt = Some l → a ∈ rows tt →
  ∃ agents, (body_json resp).["live"].["agents"] = Some (JArr agents) ∧ live_agent now a ∈ agents.
Proof.
  intros Hg Hl Ha. unfold fleet_offline_GET in Hg. cbv zeta in Hg.
  destruct (fleet_live _ _ _ tt tc) as [live|] eqn:Ef; cbn [rbind] in Hg; [|done]. injection Hg as <-.
  shown_at.
  assert (Hag : live_agent now a ∈ fl_agents live).
  { unfold fleet_live in Ef. rewrite Hl in Ef.
    assert (Hin : live_agent now a ∈ map (live_agent now) l).
    { apply list_elem_of_fmap_2. rewrite (find_many_rows _ _ _ _ Hl). done. }
    destruct (pending_commands _ _ tc) as [[n [[stale young] items]]|]; [by injection Ef as <-|].
    destruct (match _ with Some (JArr l) => _ | _ => _ end); cbn [rbind] in Ef; [|done]. by injection Ef as <-. }
  destruct (buildVpsFleetShadow _ _ _) as [s|]; [|eexists; split; [done|done]].
  destruct (existsb _ _); eexists; (split; [reflexivity|]); [done|]. apply elem_of_app. by left.
Qed.
End waiting.

Module FleetStatusDemo.
Definition kill (ns : json) : request := mk_request "/api/k8s" [] [] [] (Some (JObj [("timestamp_ns", ns); ("pid", jint 7)])).
Lemma kill_example :
  k8s_run [] [("a" : jstring, kill (jint 1500000000)); ("b" : jstring, kill (JStr "soon"))] =
  [JObj [("id", JStr "a"); ("timestamp", JStr "1970-01-01T00:00:01.500Z"); ("pid", jint 7)]].
Proof. by vm_compute. Qed.
End FleetStatusDemo.
