(* ===== verification/Compliance.v ===== *)
(** Compliance reports: the report built from the fleet and the stored one
    (dashboard/src/lib/complianceReport.ts, fetchComplianceReport.ts), the routes
    (api/reports, api/reports/export) and its PDF (lib/compliancePdf.ts). *)

From S2P Require Import Prelude JsString JsNum Json Http Auth JsDate Store Telemetry Pdf JsValue Marketplace StatusRoutes Copilot.

(** Texts the host formats: a count in the host's language, a number, a date and a
    time in American English ([toLocaleString] and its kin, and [formatReportDate]). *)
Class LocaleText := {
  local_count : Z → jstring;
  en_number : num → jstring;
  en_date : val → jstring;
  en_time : val → jstring;
}.

(** ** The report *)

Definition control (standard id name evidence detail : jstring) : json :=
  JObj [("standard", JStr standard); ("id", JStr id); ("name", JStr name); ("status", JStr "PASSED");
        ("evidence", JStr evidence); ("detail", JStr detail)].
Definition kvkk (alerts : Z) (id name evidence detail : jstring) : json :=
  control "KVKK" id name
    (replace_first "events.db" (if 0 <? alerts then dec alerts ++ " alarm events.db'de" else "events.db") evidence) detail.
Definition KVKK_CONTROLS (alerts : Z) : list json :=
  [kvkk alerts "m.12" "Kişisel Verilerin Güvenliği"
     "HMAC imzalı audit log, tenant DB ayrımı ve erişim kontrolü aktif."
     "Teknik/idari tedbirler: şifreli audit, TENANT_ID ile veri izolasyonu.";
   kvkk alerts "m.15" "Veri Sorumlusu Yükümlülükleri"
     "Olay kaydı ve ihlal tespiti events.db üzerinde saklanıyor."
     "Güvenlik olayları SQLite + JSONL audit ile kanıtlanabilir.";
   kvkk alerts "m.18" "Veri Güvenliğine İlişkin Yükümlülükler"
     "Adaptive FP trust ile yanlış pozitif oranı <%5 hedefleniyor."
     "FP_LEARN=1 EMA güven skoru; fp-report.json ile denetlenebilir.";
   kvkk alerts "m.4" "Kişisel Verilerin İşlenme Şartları"
     "Log minimizasyonu: whitelist, FP suppression, tenant telemetry."
     "Tenant-scoped telemetri; gereksiz PII loglanmaz."].

Section report.
Context `{LocaleText}.

(** The fleet in numbers; speed and mesh count the agents online. *)
Record FleetTotals := {
  ft_agents : Z; ft_online : Z; ft_rce : Z; ft_tarpit : Z; ft_eps : num; ft_lines : Z; ft_alerts : Z; ft_mesh : Z;
}.
Definition fleet_totals (now : Z) (agents : list Telemetry) : FleetTotals :=
  let online := jfilter (is_online now) agents in
  {| ft_agents := Z.of_nat (length agents); ft_online := Z.of_nat (length online);
     ft_rce := sum_int t_rceDetections agents; ft_tarpit := sum_int t_tarpitActive agents;
     ft_eps := sum_num (λ a, num_or0 (t_eps a)) online; ft_lines := sum_int t_totalLines agents;
     ft_alerts := sum_int t_alertsTotal agents; ft_mesh := sum_int t_meshPeers online |}.
Definition node_detail (now : Z) (a : Telemetry) : json :=
  JObj [("id", JStr (t_agentId a)); ("status", JStr (if is_online now a then "Online" else "Offline"));
        ("rce_prevented", jint (t_rceDetections a)); ("tarpit_active", jint (t_tarpitActive a));
        ("eps", JNum (num_or0 (t_eps a))); ("alerts", jint (t_alertsTotal a)); ("mesh_peers", jint (t_meshPeers a));
        ("total_lines", jint (t_totalLines a)); ("last_seen", date_json (t_lastSeen a))].
(** [Math.round((part / whole) * 100)] *)
Definition percent (part whole : Z) : num :=
  nround (nmul (ndiv (num_of_Z part) (num_of_Z whole)) (num_of_Z 100)).
Definition healthPct (t : FleetTotals) : jstring :=
  if ft_agents t =? 0 then "N/A" else if ft_online t =? 0 then "0%"
  else if ft_online t =? ft_agents t then "100%" else num_to_string (percent (ft_online t) (ft_agents t)) ++ "%".
Definition baseControls (t : FleetTotals) : list json :=
  [control "SOC2" "CC6.1" "Logical & Physical Access Security"
     (dec (ft_rce t) ++ " RCE execve engelleme olayı eBPF ile kaydedildi.")
     "EXECVE_GUARD + syscall_uprobe SIGKILL on unauthorized shell spawn.";
   control "SOC2" "CC6.6" "Logical Access from Untrusted Networks"
     ("XDP/BPF edge blacklist; " ++ dec (ft_agents t) ++ " Guardian sensörü.") "Ban pipeline IPC→XDP→ipset fallback.";
   control "SOC2" "CC7.2" "System Monitoring & Anomaly Detection"
     (local_count (ft_lines t) ++ " olay SIEM'e aktarıldı.") "Native TCP SIEM forwarder (siem_forwarder.c).";
   control "SOC2" "CC7.3" "Security Event Response"
     (dec (ft_alerts t) ++ " güvenlik alarmı; MITRE etiketli.") "AUTO_BAN_MIN_RISK + incident engine.";
   control "PCI-DSS" "Req 6.4" "Web Application Protection"
     "PCRE2-JIT WAF + OpenAPI strict v2 schema firewall." "CRS parity benchmark ile doğrulanabilir.";
   control "PCI-DSS" "Req 10.2" "Audit Log Implementation"
     "HMAC-SHA256 audit + SQLite events.db." "log_alert_json_signed() + ban-policy JSONL.";
   control "PCI-DSS" "Req 11.5" "Intrusion Detection"
     "Honey-trap inotify + eBPF lineage attack tree." "WebShell upload watcher + attack_tree.c.";
   control "ISO 27001" "A.16.1" "Information Security Incident Management"
     (dec (ft_mesh t) ++ " mesh peer; threat feed pipeline (OTX/STIX).") "mesh_intel.c + threat_feed.c IoC senkronizasyonu."] ++
  KVKK_CONTROLS (ft_alerts t).
Definition passed_controls (l : list json) : Z := Z.of_nat (length (jfilter (λ c, is_lit "PASSED" (Some c).["status"]) l)).

Definition STANDARDS : json := JArr [JStr "SOC2 Type II"; JStr "PCI-DSS v4.0"; JStr "KVKK"; JStr "ISO/IEC 27001"].
Definition GENERATED_BY : jstring := "Log Guardian Compliance Engine v2.0".
Definition SIEM_STATUS : jstring := "Active — TCP JSON forwarder (SIEM_FORWARDER_ENABLED)".
Definition buildFromTelemetry (now : Z) (agents : list Telemetry) : json :=
  let t := fleet_totals now agents in
  let controls := baseControls t in
  let passed := passed_controls controls in
  let total := Z.of_nat (length controls) in
  JObj
    [("reportDate", date_json now); ("standards", STANDARDS); ("generatedBy", JStr GENERATED_BY);
     ("executiveSummary", JObj
        [("totalAgentsActive", jint (ft_agents t)); ("onlineAgents", jint (ft_online t)); ("systemHealth", JStr (healthPct t));
         ("totalThreatsMitigated", jint (ft_rce t + ft_tarpit t)); ("totalEventsProcessed", jint (ft_lines t));
         ("totalAlerts", jint (ft_alerts t)); ("totalMeshPeers", jint (ft_mesh t)); ("peakEps", JStr (toFixed 2 (ft_eps t)));
         ("siemStatus", JStr SIEM_STATUS); ("controlsPassed", jint passed); ("controlsTotal", jint total);
         ("passRatePct", JNum (percent passed total))]);
     ("securityControls", JArr controls); ("nodes", JArr (map (node_detail now) agents))].

(** A stored report [f] keeps its controls and its own figures; the fleet is that of
    the live one, [t]. *)
Definition merged_summary (es ts : val) : list (jstring * val) :=
  [("totalAgentsActive", ts.["totalAgentsActive"]); ("onlineAgents", ts.["onlineAgents"]);
   ("systemHealth", ts.["systemHealth"]);
   ("totalThreatsMitigated", es.["totalThreatsMitigated"] ??? ts.["totalThreatsMitigated"]);
   ("totalEventsProcessed", es.["totalEventsProcessed"] ??? ts.["totalEventsProcessed"]);
   ("totalAlerts", ts.["totalAlerts"]); ("totalMeshPeers", ts.["totalMeshPeers"]); ("peakEps", ts.["peakEps"]);
   ("siemStatus", es.["siemStatus"] ??? ts.["siemStatus"]); ("controlsPassed", es.["controlsPassed"]);
   ("controlsTotal", es.["controlsTotal"]); ("passRatePct", es.["passRatePct"]); ("fpRatePct", es.["fpRatePct"])].
Definition merged_report (f t : val) : list (jstring * val) :=
  [("reportDate", f.["reportDate"] ||| t.["reportDate"]);
   ("standards", if otruthy (vlength f.["standards"]) then f.["standards"] else t.["standards"]);
   ("generatedBy", f.["generatedBy"] ||| t.["generatedBy"]);
   ("executiveSummary", obj_of (merged_summary (f.["executiveSummary"] ||| empty_obj) t.["executiveSummary"]));
   ("securityControls", f.["securityControls"]); ("nodes", t.["nodes"])].
Definition loadComplianceReport (w : world) (e : env) (cwd : jstring) (now : Z) (agents : list Telemetry) : json :=
  let stored := readRepoJson w e cwd "compliance-report.json" in
  let telemetry := buildFromTelemetry now agents in
  if negb (otruthy (vlength (Some stored).["securityControls"])) then telemetry
  else JObj (merge_fields (spread stored) (obj (merged_report (Some stored) (Some telemetry)))).

(** A database that fails leaves an empty fleet. *)
Definition fetchComplianceReportForRequest {Tt} `{!Table Tt Telemetry t_id} (w : world) (e : env) (cwd : jstring)
    (now : Z) (r : request) (tt : Tt) : json :=
  let isAdmin := match header "x-user-role" r with Some role => role =s "admin" | None => false end in
  loadComplianceReport w e cwd now
    (match copilot_agents isAdmin (header "x-user-tenant" r) tt with Ok l => l | Throw _ => [] end).

(** GET /api/reports *)
Definition reports_GET {Tt} `{!Table Tt Telemetry t_id} (w : world) (e : env) (cwd : jstring)
    (now : Z) (r : request) (tt : Tt) : response :=
  let report := fetchComplianceReportForRequest w e cwd now r tt in
  respond 200 (if otruthy (vlength (Some report).["securityControls"]) then report else buildFromTelemetry now []).
End report.

(** ** The PDF *)

Definition n (z : Z) : num := num_of_Z z.
(** Tenths and hundredths. *)
Definition d1 (z : Z) : num := num_of_decimal false z (-1).
Definition d2 (z : Z) : num := num_of_decimal false z (-2).
Definition GRAY : Rgb := (d2 45, d2 45, d2 45).
Definition LIGHT : Rgb := (d2 96, d2 96, d2 96).
Definition GREEN : Rgb := (d2 12, d2 55, d2 32).
Definition AMBER : Rgb := (d2 85, d2 55, d1 1).
Definition WHITE : Rgb := (n 1, n 1, n 1).
Definition BLACK : Rgb := (n 0, n 0, n 0).

(** Text options: size, weight, colour; blocks add a width and a line height. *)
Definition o (size : Z) (bold : bool) (color : option Rgb) : TextOpts :=
  {| o_size := Some (n size); o_bold := bold; o_color := color; o_maxWidth := None; o_lineHeight := None |}.
Definition with_height (lh : Z) (opts : TextOpts) : TextOpts :=
  {| o_size := o_size opts; o_bold := o_bold opts; o_color := o_color opts; o_maxWidth := o_maxWidth opts;
     o_lineHeight := Some (n lh) |}.
Definition with_width (w lh : Z) (opts : TextOpts) : TextOpts :=
  {| o_size := o_size opts; o_bold := o_bold opts; o_color := o_color opts; o_maxWidth := Some (n w);
     o_lineHeight := Some (n lh) |}.

(** A value printed on a page must be a text, and one that is read must be there. *)
Definition need_text (v : val) : res jstring :=
  match v with Some (JStr t) => Ok t | _ => not_a_function "replace" end.
Definition need (v : val) : res val :=
  match nullish v with Some x => Ok (Some x) | None => Throw "Cannot read properties of undefined" end.
(** [for (const x of v)] *)
Definition each (v : val) : res (list json) := let? v := need v in items v.

(** Drawing steps one after the other. *)
Definition draws (steps : list (SimplePdf → SimplePdf)) (p : SimplePdf) : SimplePdf := fold_left (λ p f, f p) steps p.

Section pdf.
Context `{LocaleText}.

Definition count_passed (report : val) : res Z :=
  match report.["securityControls"] with
  | Some (JArr l) =>
      let? l := rfilter (λ c, let? c := not_null c in Ok (is_lit "PASSED" c.["status"])) l in Ok (Z.of_nat (length l))
  | None | Some JNull => Throw "Cannot read properties of undefined"
  | _ => not_a_function "filter"
  end.
(** [Math.round((passed / total) * 100)], the stored rate first *)
Definition passRate (report : val) : res val :=
  let? es := need report.["executiveSummary"] in
  if present es.["passRatePct"] then Ok es.["passRatePct"]
  else
    let? passed := count_passed report in
    let total := vlength report.["securityControls"] ||| vn 1 in
    Ok (vnum (nround (nmul (ndiv (n passed) (to_num total)) (n 100)))).
Definition fleetHealthLabel (report : val) : res jstring :=
  let? es := need report.["executiveSummary"] in
  Ok (if es.["totalAgentsActive"] === vn 0 then "N/A (no agents)"
      else ostr es.["systemHealth"] ++ " (" ++ ostr es.["onlineAgents"] ++ "/" ++ ostr es.["totalAgentsActive"] ++ " online)").

Definition drawHeader (report : val) (p : SimplePdf) : res SimplePdf :=
  let m := 44 in
  let top := cursorY p in
  let below z := nsub top (n z) in
  let boxW := 148 in
  let boxX := 595 - m - boxW in
  let? by_ := need_text (report.["generatedBy"] ||| vs "Log Guardian Compliance Engine") in
  let p := draws
    [fillRect (n m) (below 40) (n 36) (n 36) BLACK;
     text (n (m + 10)) (below 16) "LG" (o 14 true (Some WHITE));
     text (n (m + 48)) (below 18) by_ (o 7 false (Some GRAY));
     text (n (m + 48)) (below 8) "CONFIDENTIAL - INTERNAL USE ONLY" (o 7 false (Some GRAY));
     text (n m) (below 60) "SECURITY AUDIT" (o 22 true None);
     text (n m) (below 84) "COMPLIANCE REPORT" (o 16 false (Some GRAY));
     strokeRect (n boxX) (below 86) (n boxW) (n 68) (d1 15);
     text (n (boxX + 10)) (below 26) "REPORT DATE" (o 7 true (Some GRAY));
     text (n (boxX + 10)) (below 42) (en_date report.["reportDate"]) (o 11 true None);
     text (n (boxX + 10)) (below 56) (en_time report.["reportDate"]) (o 9 false (Some GRAY));
     setY (below 100)] p in
  Ok (gap (n 24) (line (n m) (cursorY p) (n (595 - m)) (cursorY p) (n 2) p)).

(** One standard as a chip; a chip that does not fit starts a new row. *)
Definition draw_chip (st : SimplePdf * num * num) (std : json) : res (SimplePdf * num * num) :=
  let '(p, x, rowY) := st in
  let? t := need_text (Some std) in
  let fit := nadd (nmul (n (slen t)) (d1 52)) (n 14) in
  let w := if nlt fit (n 122) then fit else n 122 in
  let wrap := nlt (n (44 + 507)) (nadd x w) && nlt (n 44) x in
  let x := if wrap then n 44 else x in
  let rowY := if wrap then nsub rowY (n 24) else rowY in
  let y := nadd (nsub rowY (n 18)) (n 6) in
  let p := draws [fillRect x y w (n 18) LIGHT; strokeRect x y w (n 18) (d1 5);
                  text (nadd x (n 6)) (nsub rowY (n 4)) t (o 7 true None)] p in
  Ok (p, nadd x (nadd w (n 6)), rowY).
Fixpoint draw_chips (st : SimplePdf * num * num) (l : list json) : res (SimplePdf * num * num) :=
  match l with [] => Ok st | s :: l => let? st := draw_chip st s in draw_chips st l end.

(** The figures of the summary, two to a row. *)
Definition kpis (report es : val) : res (list (jstring * jstring)) :=
  let? health := fleetHealthLabel report in
  Ok [("SYSTEM HEALTH", health); ("THREATS BLOCKED", ostr (es.["totalThreatsMitigated"] ??? vn 0));
      ("EVENTS ANALYZED", en_number (to_num (es.["totalEventsProcessed"] ??? vn 0)));
      ("PEAK EPS", ostr (es.["peakEps"] ??? vs "-"));
      ("SECURITY ALERTS", en_number (to_num (es.["totalAlerts"] ??? vn 0)));
      ("MESH IOC PEERS", ostr (es.["totalMeshPeers"] ??? vn 0))].
Definition kpi_y (sectionTop : num) (i : nat) : num := nsub (nsub sectionTop (n 18)) (n (Z.of_nat (i / 2) * 34)).
Definition draw_kpi (sectionTop : num) (p : SimplePdf) (ikv : nat * (jstring * jstring)) : SimplePdf :=
  let '(i, kv) := ikv in
  let cx := 44 + 278 + Z.of_nat (i mod 2) * 128 in
  let cy := kpi_y sectionTop i in
  draws [fillRect (n cx) (nsub cy (n 26)) (n 118) (n 28) LIGHT; strokeRect (n cx) (nsub cy (n 26)) (n 118) (n 28) (d1 5);
         text (n (cx + 5)) (nsub cy (n 10)) kv.1 (o 6 true (Some GRAY));
         text (n (cx + 5)) (nsub cy (n 22)) (str_upto 22 kv.2) (o 9 true None)] p.

Definition drawScoreSection (report : val) (p : SimplePdf) : res SimplePdf :=
  let m := 44 in
  let? rate := passRate report in
  let? es := need report.["executiveSummary"] in
  let? passed := match nullish es.["controlsPassed"] with
                 | Some v => Ok (Some v) | None => let? k := count_passed report in Ok (vn k) end in
  let? total := match nullish es.["controlsTotal"] with
                | Some v => Ok (Some v) | None => let? c := need report.["securityControls"] in Ok (vlength c) end in
  let p := gap (n 8) (textLine (n m) "COMPLIANCE STANDARDS" (with_height 14 (o 9 true (Some GRAY))) p) in
  let? standards := each report.["standards"] in
  let? chips := draw_chips (p, n m, cursorY p) standards in
  let '(p, _, rowY) := chips in
  let p := gap (n 12) (setY (nsub (nsub rowY (n 18)) (n 20)) p) in
  let sectionTop := cursorY p in
  let below z := nsub sectionTop (n z) in
  let kpiX := m + 278 in
  let p := draws
    [text (n m) sectionTop "OVERALL COMPLIANCE SCORE" (o 8 true (Some GRAY));
     text (n m) (below 36) (ostr rate ++ "%") (o 28 true None);
     text (n m) (below 54) ("(" ++ ostr passed ++ " of " ++ ostr total ++ " controls passed)") (o 9 false (Some GRAY));
     fillRect (n m) (below 66) (n 216) (n 8) (d2 85, d2 85, d2 85);
     fillRect (n m) (below 66) (ndiv (nmul (n 216) (to_num rate)) (n 100)) (n 8) BLACK;
     text (n kpiX) sectionTop "EXECUTIVE SUMMARY" (o 9 true (Some GRAY))] p in
  let leftBottom := nsub (below 66) (n 14) in
  let? ks := kpis report es in
  let p := fold_left (draw_kpi sectionTop) (imap pair ks) p in
  let kpiBottom := nsub (kpi_y sectionTop 5) (n 30) in
  let lowest := if nlt kpiBottom leftBottom then kpiBottom else leftBottom in
  let p := gap (n 6) (setY (nsub lowest (n 8)) p) in
  let siemY := cursorY p in
  let? siem := need_text (es.["siemStatus"] ||| vs "Active") in
  Ok (draws
    [fillRect (n m) (nsub siemY (n 14)) (n (595 - m * 2)) (n 18) LIGHT;
     text (n (m + 8)) (nsub siemY (n 2)) "SIEM Forwarder" (o 9 true None);
     text (n (m + 110)) (nsub siemY (n 2)) (str_upto 72 siem) (o 8 false (Some GRAY));
     setY (nsub siemY (n 22)); gap (n 14)] p).

Definition draw_control (p : SimplePdf) (ctrl : json) : res SimplePdf :=
  let m := 44 in
  let p := ensure (n 52) p in
  let rowTop := cursorY p in
  let? c := not_null ctrl in
  let statusColor := if is_lit "PASSED" c.["status"] then GREEN else AMBER in
  let? name := need_text c.["name"] in
  let? status := need_text c.["status"] in
  let? detail := need_text c.["detail"] in
  let p := draws
    [fillRect (n (m + 6)) (nsub rowTop (n 10)) (n 8) (n 8) statusColor;
     text (n (m + 20)) (nsub rowTop (n 2)) ("[" ++ ostr c.["standard"] ++ "] " ++ ostr c.["id"]) (o 9 true None);
     text (n (m + 108)) (nsub rowTop (n 2)) (str_upto 48 name) (o 9 false None);
     text (n (595 - m - 52)) (nsub rowTop (n 2)) status (o 8 true (Some statusColor));
     setY (nsub rowTop (n 18));
     textBlock (n (m + 20)) ("Evidence: " ++ ostr c.["evidence"]) (with_width 470 10 (o 8 false None));
     gap (n 2);
     textBlock (n (m + 20)) detail (with_width 470 9 (o 7 false (Some GRAY)));
     gap (n 6)] p in
  Ok (gap (n 12) (line (n m) (cursorY p) (n (595 - m)) (cursorY p) (d2 25) p)).
Fixpoint draw_controls (p : SimplePdf) (l : list json) : res SimplePdf :=
  match l with [] => Ok p | c :: l => let? p := draw_control p c in draw_controls p l end.
Definition drawControls (report : val) (p : SimplePdf) : res SimplePdf :=
  let m := 44 in
  let p := gap (n 4) (textLine (n m) "SECURITY CONTROLS ASSESSMENT" (with_height 14 (o 9 true (Some GRAY))) p) in
  let p := gap (n 12) (line (n m) (cursorY p) (n (595 - m)) (cursorY p) (d1 5) p) in
  let? controls := each report.["securityControls"] in
  draw_controls p controls.

Definition COLUMNS : list (jstring * Z) :=
  [("Node", 90); ("Status", 52); ("EPS", 40); ("RCE", 36); ("Tarpit", 44); ("Alerts", 44); ("Mesh", 40); ("Seen", 52)].
Definition tableW : Z := fold_left (λ a c, a + c.2) COLUMNS 0.
(** One row of cells at [y], each in its column. *)
Definition draw_cells (y : num) (opts : TextOpts) (cells : list jstring) (p : SimplePdf) : SimplePdf :=
  (fold_left (λ st cw, (text (n (st.2 + 4)) y cw.1 opts st.1, st.2 + cw.2)) (zip cells (map snd COLUMNS)) (p, 44)).1.
Definition node_cells (node : val) : res (list jstring) :=
  let? id := need_text node.["id"] in
  let? status := need_text node.["status"] in
  let? eps := Fix 1 node.["eps"] in
  Ok (map (str_upto 14) [id; status; eps; ostr node.["rce_prevented"]; ostr node.["tarpit_active"]; ostr node.["alerts"];
                         ostr node.["mesh_peers"]; en_time node.["last_seen"]]).
Definition draw_node (p : SimplePdf) (x : json) : res SimplePdf :=
  let p := ensure (n 16) p in
  let rowY := cursorY p in
  let? node := not_null x in
  let? cells := node_cells node in
  let color := if is_lit "Online" node.["status"] then BLACK else GRAY in
  Ok (draws [draw_cells (nsub rowY (n 2)) (o 7 false (Some color)) cells;
             line (n 44) (nsub rowY (n 12)) (n (44 + tableW)) (nsub rowY (n 12)) (d2 25);
             setY (nsub rowY (n 16))] p).
Fixpoint draw_nodes (p : SimplePdf) (l : list json) : res SimplePdf :=
  match l with [] => Ok p | x :: l => let? p := draw_node p x in draw_nodes p l end.
Definition drawFleetTable (report : val) (p : SimplePdf) : res SimplePdf :=
  let m := 44 in
  let p := ensure (n 80) p in
  let p := gap (n 4) (textLine (n m) "FLEET DEPLOYMENT MATRIX" (with_height 14 (o 9 true (Some GRAY))) p) in
  let p := gap (n 10) (line (n m) (cursorY p) (n (595 - m)) (cursorY p) (d1 5) p) in
  let? nodes := need report.["nodes"] in
  if negb (otruthy (vlength nodes)) then
    Ok (gap (n 16) (textBlock (n m) "No Guardian agents currently reporting to the fleet." (o 9 false (Some GRAY)) p))
  else
    let headY := cursorY p in
    let p := draws [fillRect (n m) (nsub headY (n 14)) (n tableW) (n 16) LIGHT;
                    draw_cells (nsub headY (n 2)) (o 7 true (Some GRAY)) (map fst COLUMNS);
                    setY (nsub headY (n 18))] p in
    let? l := each nodes in
    let? p := draw_nodes p l in
    let p := gap (n 4) p in
    let? es := need report.["executiveSummary"] in
    let totalY := cursorY p in
    Ok (draws
      [fillRect (n m) (nsub totalY (n 12)) (n tableW) (n 14) (d2 15, d2 15, d2 15);
       text (n (m + 4)) (nsub totalY (n 2)) "FLEET TOTAL" (o 7 true (Some WHITE));
       text (n (m + 90 + 4)) (nsub totalY (n 2)) (ostr es.["onlineAgents"] ++ "/" ++ ostr es.["totalAgentsActive"])
         (o 7 false (Some WHITE));
       text (n (m + 90 + 52 + 4)) (nsub totalY (n 2)) (ostr es.["peakEps"]) (o 7 false (Some WHITE));
       setY (nsub totalY (n 20)); gap (n 20)] p).

Definition draw_signature (sigRowY : num) (p : SimplePdf) (ir : nat * jstring) : SimplePdf :=
  let x := 44 + 10 + Z.of_nat ir.1 * 170 in
  draws [line (n x) (nsub sigRowY (n 2)) (n (x + 140)) (nsub sigRowY (n 2)) (d1 5);
         text (n x) (nsub sigRowY (n 12)) ir.2 (o 7 false (Some GRAY));
         text (n x) (nsub sigRowY (n 22)) "Date: _______________" (o 7 false (Some GRAY))] p.
Definition drawAttestation (p : SimplePdf) : SimplePdf :=
  let m := 44 in
  let p := ensure (n 120) p in
  let boxTop := cursorY p in
  let p := draws
    [textLine (n (m + 10)) "ATTESTATION & CERTIFICATION" (with_height 14 (o 9 true (Some GRAY))); gap (n 4);
     textBlock (n (m + 10))
       ("This report was automatically generated by Log Guardian and reflects the security posture " ++
        "at generation time. Evidence is derived from live telemetry. For internal audit and authorized personnel only.")
       (with_width 500 10 (o 8 false (Some GRAY)));
     gap (n 14)] p in
  let sigRowY := cursorY p in
  let p := fold_left (draw_signature sigRowY)
             (imap pair ["Security Officer"; "Fleet Administrator"; "Compliance Reviewer"]) p in
  let p := draws
    [setY (nsub sigRowY (n 34)); gap (n 10);
     textLine (n (m + 10)) "CONFIDENTIAL - Do not distribute without authorization." (with_height 10 (o 7 false (Some GRAY)));
     textLine (n (m + 10)) "Log Guardian Enterprise Security Platform" (with_height 10 (o 7 false (Some GRAY)))] p in
  let boxBottom := nsub (cursorY p) (n 6) in
  let boxHeight := nadd (nsub boxTop boxBottom) (n 8) in
  gap (n 12) (strokeRect (n m) boxBottom (n (595 - m * 2)) boxHeight (n 1) p).

(** The drawn document, and the file. *)
Definition draw_report (report : val) : res SimplePdf :=
  let? p := drawHeader report pdf_new in
  let? p := drawScoreSection report p in
  let? p := drawControls report p in
  let? p := drawFleetTable report p in
  Ok (drawAttestation p).
Definition buildCompliancePdf (report : json) : res (list Z) := let? p := draw_report (Some report) in Ok (build p).
End pdf.

(** ** GET /api/reports/export *)

(** [JSON.stringify(v, null, 2)] *)
Fixpoint pretty (indent : jstring) (v : json) : jstring :=
  let inner := indent ++ "  " in
  match v with
  | JArr [] => "[]"
  | JArr l => "[" ++ [10] ++ join ("," ++ [10]) (map (λ x, inner ++ pretty inner x) l) ++ [10] ++ indent ++ "]"
  | JObj [] => "{}"
  | JObj fs => "{" ++ [10] ++ join ("," ++ [10]) (map (λ f, inner ++ quote f.1 ++ ": " ++ pretty inner f.2) fs) ++
               [10] ++ indent ++ "}"
  | _ => stringify v
  end.
(** An answer of the export: a text, or the bytes of the file. *)
Inductive export_body := EJson (text : jstring) | EPdf (bytes : list Z) | EError (st : Z) (msg : jstring).
Definition export_GET `{UnicodeCase} `{LocaleText} {Tt} `{!Table Tt Telemetry t_id} (w : world) (e : env) (cwd : jstring)
    (now : Z) (r : request) (tt : Tt) : export_body :=
  let format := to_lower (oor (query "format" r) "json") in
  let report := fetchComplianceReportForRequest w e cwd now r tt in
  if format =s "json" then EJson (pretty [] report)
  else if format =s "pdf" then
    match buildCompliancePdf report with
    | Ok bytes => EPdf bytes
    | Throw _ => EError 500 "Export failed"
    end
  else EError 400 "format must be json or pdf".

(** ** Pages are well formed *)

(** The brackets of a content stream: [q] and [Q] save and restore the state, [BT]
    and [ET] enclose text, which does not nest. *)
Fixpoint brackets (stack : list bool) (ops : list jstring) : option (list bool) :=
  match ops with
  | [] => Some stack
  | op :: ops =>
      if op =s "q" then brackets (true :: stack) ops
      else if op =s "BT" then match stack with false :: _ => None | _ => brackets (false :: stack) ops end
      else if op =s "Q" then match stack with true :: s => brackets s ops | _ => None end
      else if op =s "ET" then match stack with false :: s => brackets s ops | _ => None end
      else brackets stack ops
  end.
Definition balanced (ops : list jstring) : Prop := brackets [] ops = Some [].
Definition page_ok (p : SimplePdf) : Prop :=
  balanced (p_ops p) ∧ Forall (λ s, ∃ ops, s = join nl ops ∧ balanced ops) (p_streams p).

Lemma brackets_app st a b : brackets st (a ++ b) = match brackets st a with Some st' => brackets st' b | None => None end.
Proof.
  revert st. induction a as [|op a IH]; intros st; [done|]. cbn [app brackets].
  destruct (op =s "q"); [apply IH|]. destruct (op =s "BT"); [by destruct st as [|[] st]|].
  destruct (op =s "Q"); [by destruct st as [|[] st]|]. destruct (op =s "ET"); [by destruct st as [|[] st]|]. apply IH.
Qed.
Lemma balanced_app a b : balanced a → balanced b → balanced (a ++ b).
Proof. unfold balanced. intros Ha Hb. by rewrite brackets_app, Ha. Qed.

(** Commands that are no bracket, by their last letter. *)
Definition neutral (op : jstring) : bool :=
  match op with [] => false | _ => negb (existsb (Z.eqb (List.last op 0)) [113; 81; 84]) end.
Lemma neutral_app a b : neutral b = true → neutral (a ++ b) = true.
Proof.
  intros Hb. assert (Hn : b ≠ []) by (by destruct b). unfold neutral in *. rewrite last_app2 by done.
  destruct (a ++ b) eqn:E; [by apply app_eq_nil in E as [_ ->]|]. by destruct b.
Qed.
Lemma brackets_neutral st op ops : neutral op = true → brackets st (op :: ops) = brackets st ops.
Proof.
  intros Hn. cbn [brackets].
  assert (Hne : ∀ lit, neutral lit = false → (op =s lit) = false) by (intros lit Hl; apply jeq_false; congruence).
  by rewrite !Hne.
Qed.

Lemma page_block p p' blk :
  page_ok p → p_streams p' = p_streams p → p_ops p' = p_ops p ++ blk → balanced blk → page_ok p'.
Proof. intros [Ho Hs] E1 E2 Hb. split; [rewrite E2; by apply balanced_app|by rewrite E1]. Qed.
Lemma page_newPage p : page_ok p → page_ok (newPage p).
Proof.
  intros [Ho Hs]. split; [done|]. unfold newPage. cbn [p_streams]. destruct (p_ops p) as [|op ops]; [done|].
  apply Forall_app. split; [done|]. constructor; [eauto|constructor].
Qed.
Lemma page_new : page_ok pdf_new.
Proof. by split. Qed.
Lemma page_set_y y p : page_ok p → page_ok (set_y y p).
Proof. done. Qed.
Lemma page_gap z p : page_ok p → page_ok (gap z p).
Proof. done. Qed.
Lemma page_setY y p : page_ok p → page_ok (setY y p).
Proof. done. Qed.
Lemma page_ensure m p : page_ok p → page_ok (ensure m p).
Proof. intros Hp. unfold ensure. destruct (nlt _ _); [by apply page_newPage|done]. Qed.
Ltac neutral_cmd := rewrite brackets_neutral by (repeat apply neutral_app; reflexivity).
Ltac drawn_block Hp blk :=
  apply (page_block _ _ blk Hp); [done|unfold fillRect, strokeRect, line, text, emit; cbn [p_ops]; by rewrite <- !app_assoc|unfold balanced].
Lemma page_fillRect x y w h c p : page_ok p → page_ok (fillRect x y w h c p).
Proof.
  intros Hp. drawn_block Hp [("q" : jstring); rgb_cmd c;
    num_str x ++ " " ++ num_str y ++ " " ++ num_str w ++ " " ++ num_str h ++ " re f"; ("Q" : jstring)].
  change (brackets [] (("q" : jstring) :: ?l)) with (brackets [true] l). unfold rgb_cmd. by do 2 neutral_cmd.
Qed.
Lemma page_strokeRect x y w h wd p : page_ok p → page_ok (strokeRect x y w h wd p).
Proof.
  intros Hp. drawn_block Hp [num_str wd ++ " w";
    num_str x ++ " " ++ num_str y ++ " " ++ num_str w ++ " " ++ num_str h ++ " re S"].
  by do 2 neutral_cmd.
Qed.
Lemma page_line x1 y1 x2 y2 wd p : page_ok p → page_ok (line x1 y1 x2 y2 wd p).
Proof.
  intros Hp. drawn_block Hp [num_str wd ++ " w";
    num_str x1 ++ " " ++ num_str y1 ++ " m " ++ num_str x2 ++ " " ++ num_str y2 ++ " l S"].
  by do 2 neutral_cmd.
Qed.
Lemma page_text x y t op p : page_ok p → page_ok (text x y t op p).
Proof.
  intros Hp. drawn_block Hp [("BT" : jstring); (if o_bold op then "/F2" else "/F1") ++ " " ++ num_str (opt_size op) ++ " Tf";
    rgb_cmd (o_color op ?? black); "1 0 0 1 " ++ num_str x ++ " " ++ num_str y ++ " Tm"; "(" ++ esc t ++ ") Tj";
    ("ET" : jstring)].
  change (brackets [] (("BT" : jstring) :: ?l)) with (brackets [false] l). unfold rgb_cmd. by do 4 neutral_cmd.
Qed.
Lemma page_put_line x lh op t p : page_ok p → page_ok (put_line x lh op t p).
Proof. intros Hp. unfold put_line. cbv zeta. by apply page_set_y, page_text, page_ensure. Qed.
Lemma page_textLine x t op p : page_ok p → page_ok (textLine x t op p).
Proof. intros Hp. by apply page_put_line. Qed.
Lemma page_textBlock x t op p : page_ok p → page_ok (textBlock x t op p).
Proof.
  unfold textBlock. cbv zeta. generalize (wrapLines t (approx_chars (o_maxWidth op ?? nsub page_w (nmul margin (num_of_Z 2))) (opt_size op))).
  intros ls. revert p. induction ls as [|l ls IH]; intros p Hp; [done|]. cbn [fold_left]. by apply IH, page_put_line.
Qed.
Create HintDb pages.
#[export] Hint Resolve page_new page_gap page_setY page_ensure page_fillRect page_strokeRect page_line page_text
  page_textLine page_textBlock : pages.
Lemma page_fold {A} (f : SimplePdf → A → SimplePdf) l p :
  (∀ p a, page_ok p → page_ok (f p a)) → page_ok p → page_ok (fold_left f l p).
Proof. intros Hf. revert p. induction l as [|a l IH]; intros p Hp; [done|]. cbn. by apply IH, Hf. Qed.

Lemma page_draws steps p :
  Forall (λ f : SimplePdf → SimplePdf, ∀ q, page_ok q → page_ok (f q)) steps → page_ok p → page_ok (draws steps p).
Proof.
  intros Hs. revert p. induction Hs as [|f steps Hf _ IH]; intros p Hp; [done|]. apply (IH (f p)). by apply Hf.
Qed.
(** A step that may fail keeps the pages well formed when it does not. *)
Definition okpage (m : res SimplePdf) : Prop := ∀ p, m = Ok p → page_ok p.
Lemma okpage_ret p : page_ok p → okpage (Ok p).
Proof. by intros Hp q [= <-]. Qed.
Lemma okpage_bind {A} (m : res A) k : (∀ a, m = Ok a → okpage (k a)) → okpage (rbind m k).
Proof. intros Hk. destruct m as [a|]; [by apply Hk|done]. Qed.
Ltac page_steps :=
  repeat match goal with
  | |- okpage (rbind _ _) => apply okpage_bind; intros ? ?
  | |- okpage (Ok _) => apply okpage_ret
  | |- okpage (Throw _) => done
  | |- okpage (if ?b then _ else _) => destruct b
  | |- page_ok (draws _ _) => apply page_draws; [repeat (constructor; [intros ? ?; auto 15 with pages|]); constructor|]
  | |- page_ok _ => solve [auto 15 with pages]
  | |- page_ok _ => progress auto 1 with pages
  end.

Section pages.
Context `{LocaleText}.
Lemma header_pages report p : page_ok p → okpage (drawHeader report p).
Proof. intros Hp. unfold drawHeader. page_steps. apply page_gap, page_line. by page_steps. Qed.
Lemma chips_pages l p x y p' x' y' : page_ok p → draw_chips (p, x, y) l = Ok (p', x', y') → page_ok p'.
Proof.
  revert p x y. induction l as [|s l IH]; intros p x y Hp; cbn [draw_chips]; [by intros [= <- _ _]|].
  unfold draw_chip. destruct (need_text (Some s)); cbn [rbind]; [|done]. apply IH. by page_steps.
Qed.
Lemma kpi_pages top p ikv : page_ok p → page_ok (draw_kpi top p ikv).
Proof. intros Hp. destruct ikv as [i kv]. unfold draw_kpi. by page_steps. Qed.
Lemma score_pages report p : page_ok p → okpage (drawScoreSection report p).
Proof.
  intros Hp. unfold drawScoreSection. page_steps.
  match goal with |- okpage (let '(_, _) := ?a in _) => destruct a as [[p1 x1] y1] end.
  match goal with E : draw_chips _ _ = Ok _ |- _ => apply chips_pages in E; [|by page_steps] end.
  page_steps. apply page_gap, page_setY, page_fold; [intros; by apply kpi_pages|]. by page_steps.
Qed.
Lemma control_pages p c : page_ok p → okpage (draw_control p c).
Proof. intros Hp. unfold draw_control. page_steps. apply page_gap, page_line. by page_steps. Qed.
Lemma controls_pages l p : page_ok p → okpage (draw_controls p l).
Proof.
  revert p. induction l as [|c l IH]; intros p Hp; cbn [draw_controls]; [by apply okpage_ret|].
  apply okpage_bind. intros p1 E. apply IH. by apply (control_pages p c Hp).
Qed.
Lemma drawControls_pages report p : page_ok p → okpage (drawControls report p).
Proof. intros Hp. unfold drawControls. cbv zeta. apply okpage_bind. intros l _. apply controls_pages. by page_steps. Qed.
Lemma cells_pages y op cells p : page_ok p → page_ok (draw_cells y op cells p).
Proof.
  intros Hp. unfold draw_cells. generalize 44 as x. revert p Hp. generalize (zip cells (map snd COLUMNS)).
  intros l. induction l as [|cw l IH]; intros p Hp x; [done|]. cbn [fold_left]. apply IH. by page_steps.
Qed.
Hint Resolve cells_pages : pages.
Lemma nodes_pages l p : page_ok p → okpage (draw_nodes p l).
Proof.
  revert p. induction l as [|c l IH]; intros p Hp; cbn [draw_nodes]; [by apply okpage_ret|].
  apply okpage_bind. intros p1 E. apply IH.
  assert (Hn : okpage (draw_node p c)) by (unfold draw_node; page_steps). by apply Hn.
Qed.
Lemma table_pages report p : page_ok p → okpage (drawFleetTable report p).
Proof.
  intros Hp. unfold drawFleetTable. cbv zeta. apply okpage_bind. intros nodes _. destruct (negb _); [page_steps|].
  apply okpage_bind. intros l _. apply okpage_bind. intros p1 E. apply nodes_pages in E; page_steps.
Qed.
Lemma attestation_pages p : page_ok p → page_ok (drawAttestation p).
Proof.
  intros Hp. unfold drawAttestation. cbv zeta. apply page_gap, page_strokeRect. page_steps. apply page_fold.
  - intros q ir Hq. unfold draw_signature. by page_steps.
  - by page_steps.
Qed.

(** Every page of an exported report is well formed: whatever the report holds and
    wherever the pages break, the graphics states and the text blocks of each content
    stream are opened and closed in pairs. *)
Theorem compliance_pages_balanced report p :
  draw_report report = Ok p → Forall (λ s, ∃ ops, s = join nl ops ∧ balanced ops) (all_streams p).
Proof.
  intros Hd. assert (Hp : page_ok p).
  { assert (Hr : okpage (draw_report report)); [|by apply Hr]. unfold draw_report.
    apply okpage_bind. intros p1 E1. apply header_pages in E1; [|apply page_new].
    apply okpage_bind. intros p2 E2. apply score_pages in E2; [|done].
    apply okpage_bind. intros p3 E3. apply drawControls_pages in E3; [|done].
    apply okpage_bind. intros p4 E4. apply table_pages in E4; [|done].
    apply okpage_ret. by apply attestation_pages. }
  destruct Hp as [Ho Hs]. unfold all_streams. destruct (p_ops p) as [|op ops]; [done|].
  apply Forall_app. split; [done|]. constructor; [eauto|constructor].
Qed.
End pages.

(** ** Every typed report can be exported *)

Definition SecurityControl_ty : ty :=
  TObj [req "standard" TStr; req "id" TStr; req "name" TStr; req "status" TStr; req "evidence" TStr; req "detail" TStr].
Definition NodeDetail_ty : ty :=
  TObj [req "id" TStr; req "status" TStr; req "rce_prevented" TNum; req "tarpit_active" TNum; req "eps" TNum;
        req "alerts" TNum; req "mesh_peers" TNum; req "total_lines" TNum; req "last_seen" TStr].
Definition ComplianceReport_ty : ty :=
  TObj [req "reportDate" TStr; req "standards" (TArr TStr); req "generatedBy" TStr;
        req "executiveSummary" (TObj
          [req "totalAgentsActive" TNum; req "onlineAgents" TNum; req "systemHealth" TStr; req "totalThreatsMitigated" TNum;
           req "totalEventsProcessed" TNum; req "totalAlerts" TNum; req "totalMeshPeers" TNum; req "peakEps" TStr;
           req "siemStatus" TStr; opt "controlsPassed" TNum; opt "controlsTotal" TNum; opt "passRatePct" TNum;
           opt "fpRatePct" TNum]);
        req "securityControls" (TArr SecurityControl_ty); req "nodes" (TArr NodeDetail_ty); opt "evidenceSources" (TArr TStr)].

Lemma req_field fs gs k t : has_ty (TObj fs) (JObj gs) = true → assoc k fs = Some (true, t) →
  ∃ x, assoc k gs = Some x ∧ has_ty t x = true.
Proof.
  intros Ht Hk. apply assoc_elem in Hk. cbn in Ht. rewrite forallb_forall in Ht. specialize (Ht (k, (true, t))).
  rewrite <- list_elem_of_In in Ht. specialize (Ht Hk). cbn in Ht. destruct (assoc k gs) as [x|]; [eauto|done].
Qed.
Lemma str_ty x : has_ty TStr x = true → ∃ t, x = JStr t.
Proof. destruct x; try done. eauto. Qed.
Lemma arr_ty t x : has_ty (TArr t) x = true → ∃ l, x = JArr l ∧ ∀ y, y ∈ l → has_ty t y = true.
Proof.
  destruct x as [| | | |l|]; try done. cbn. rewrite forallb_forall. intros Hl. exists l. split; [done|].
  intros y Hy. apply Hl. by apply list_elem_of_In.
Qed.
Lemma obj_ty fs x : has_ty (TObj fs) x = true → ∃ gs, x = JObj gs.
Proof. destruct x; try done. eauto. Qed.

(** What the drawing needs of a report. *)
Record drawable (r : val) : Prop := {
  dr_by : has_str (r.["generatedBy"] ||| vs "Log Guardian Compliance Engine");
  dr_standards : ∃ l, r.["standards"] = Some (JArr l) ∧ ∀ x, x ∈ l → has_ty TStr x = true;
  dr_controls : ∃ l, r.["securityControls"] = Some (JArr l) ∧ ∀ c, c ∈ l → has_ty SecurityControl_ty c = true;
  dr_summary : ∃ fs, r.["executiveSummary"] = Some (JObj fs) ∧ has_str ((Some (JObj fs)).["siemStatus"] ||| vs "Active");
  dr_nodes : ∃ l, r.["nodes"] = Some (JArr l) ∧ ∀ x, x ∈ l → has_ty NodeDetail_ty x = true;
}.

Section total.
Context `{LocaleText}.

Lemma count_passed_total r : drawable r → okv (count_passed r).
Proof.
  intros [_ _ (l & Hl & Hc) _ _]. unfold count_passed. rewrite Hl.
  destruct (rfilter_ok (λ c, rbind (not_null c) (λ c, Ok (is_lit "PASSED" c.["status"]))) l) as [l' ->]; [|by eexists].
  intros c Hin. apply Hc, obj_ty in Hin as [gs ->]. by eexists.
Qed.
Lemma passRate_total r : drawable r → okv (passRate r).
Proof.
  intros Hd. destruct (count_passed_total r Hd) as [k Hk]. destruct Hd as [_ _ _ (fs & Hfs & _) _].
  unfold passRate. rewrite Hfs. cbn [need nullish rbind]. destruct (present _); [by eexists|].
  rewrite Hk. by eexists.
Qed.
Lemma header_total r p : drawable r → okv (drawHeader r p).
Proof. intros [[t Ht] _ _ _ _]. unfold drawHeader. rewrite Ht. by eexists. Qed.
Lemma chips_total l st : (∀ x, x ∈ l → has_ty TStr x = true) → okv (draw_chips st l).
Proof.
  revert st. induction l as [|x l IH]; intros st Hl; cbn [draw_chips]; [by eexists|].
  destruct (str_ty x) as [t ->]; [apply Hl; by left|]. destruct st as [[p a] b]. cbn [draw_chip need_text rbind].
  apply IH. intros y Hy. apply Hl. by right.
Qed.
Lemma score_total r p : drawable r → okv (drawScoreSection r p).
Proof.
  intros Hd. pose proof Hd as [_ (ls & Hs & Hsl) (lc & Hc & _) (fs & Hfs & [siem Hsiem]) _].
  destruct (passRate_total r Hd) as [rate Hr]. destruct (count_passed_total r Hd) as [k Hk].
  unfold drawScoreSection. cbv zeta. rewrite Hr. cbn [rbind]. rewrite Hfs. cbn [need nullish rbind]. rewrite Hk, Hc, Hs.
  cbn [need nullish rbind].
  assert (Hm : ∀ v d, okv (match nullish v with Some x => Ok (Some x) | None => Ok d end : res val))
    by (intros v d; destruct (nullish v); by eexists).
  destruct (Hm (Some (JObj fs)).["controlsPassed"] (vn k)) as [passed ->]. cbn [rbind].
  destruct (Hm (Some (JObj fs)).["controlsTotal"] (vlength (Some (JArr lc)))) as [total ->]. cbn [rbind].
  unfold each. cbn [need nullish rbind items ncoal].
  match goal with |- context [draw_chips ?st ls] => destruct (chips_total ls st Hsl) as [[[p1 x1] y1] ->] end.
  cbn [rbind]. unfold kpis, fleetHealthLabel. rewrite Hfs. cbn [need nullish rbind]. rewrite Hsiem. by eexists.
Qed.
Lemma control_total p c : has_ty SecurityControl_ty c = true → okv (draw_control p c).
Proof.
  intros Hc. destruct (obj_ty _ _ Hc) as [gs ->].
  destruct (req_field _ _ "name" TStr Hc eq_refl) as (x1 & E1 & [t1 ->]%str_ty).
  destruct (req_field _ _ "status" TStr Hc eq_refl) as (x2 & E2 & [t2 ->]%str_ty).
  destruct (req_field _ _ "detail" TStr Hc eq_refl) as (x3 & E3 & [t3 ->]%str_ty).
  unfold draw_control. cbn [not_null rbind jopt]. rewrite E1, E2, E3. by eexists.
Qed.
Lemma controls_total l p : (∀ c, c ∈ l → has_ty SecurityControl_ty c = true) → okv (draw_controls p l).
Proof.
  revert p. induction l as [|c l IH]; intros p Hl; cbn [draw_controls]; [by eexists|].
  destruct (control_total p c) as [p1 ->]; [apply Hl; by left|]. apply IH. intros d Hd. apply Hl. by right.
Qed.
Lemma node_total p x : has_ty NodeDetail_ty x = true → okv (draw_node p x).
Proof.
  intros Hc. destruct (obj_ty _ _ Hc) as [gs ->].
  destruct (req_field _ _ "id" TStr Hc eq_refl) as (x1 & E1 & [t1 ->]%str_ty).
  destruct (req_field _ _ "status" TStr Hc eq_refl) as (x2 & E2 & [t2 ->]%str_ty).
  destruct (req_field _ _ "eps" TNum Hc eq_refl) as (x3 & E3 & Hx3). destruct x3; try done.
  unfold draw_node, node_cells. cbn [not_null rbind jopt]. rewrite E1, E2, E3. by eexists.
Qed.
Lemma nodes_total l p : (∀ c, c ∈ l → has_ty NodeDetail_ty c = true) → okv (draw_nodes p l).
Proof.
  revert p. induction l as [|c l IH]; intros p Hl; cbn [draw_nodes]; [by eexists|].
  destruct (node_total p c) as [p1 ->]; [apply Hl; by left|]. apply IH. intros d Hd. apply Hl. by right.
Qed.
Lemma table_total r p : drawable r → okv (drawFleetTable r p).
Proof.
  intros [_ _ _ (fs & Hfs & _) (l & Hl & Hn)]. unfold drawFleetTable. cbv zeta. rewrite Hl, Hfs.
  unfold each. cbn [need nullish rbind items ncoal]. destruct (negb _); [by eexists|].
  match goal with |- context [draw_nodes ?q l] => destruct (nodes_total l q Hn) as [p1 ->] end. by eexists.
Qed.
Lemma report_total r : drawable r → okv (draw_report r).
Proof.
  intros Hd. unfold draw_report. destruct (header_total r pdf_new Hd) as [p1 ->]. cbn [rbind].
  destruct (score_total r p1 Hd) as [p2 ->]. cbn [rbind].
  destruct Hd as [H1 H2 (lc & Hc & Hcl) H4 H5]. unfold drawControls at 1. rewrite Hc. unfold each.
  cbn [need nullish rbind items ncoal].
  match goal with |- context [draw_controls ?q lc] => destruct (controls_total lc q Hcl) as [p3 ->] end. cbn [rbind].
  destruct (table_total r p3) as [p4 ->]; [constructor; eauto|]. by eexists.
Qed.
End total.

(** ** The report as a whole *)

Lemma assoc_merge k a fs : NoDup (fs.*1) →
  assoc k (merge_fields a (obj fs)) = match assoc k fs with Some (Some v) => Some v | _ => assoc k a end.
Proof.
  unfold merge_fields. revert a. induction fs as [|[k' [v|]] fs IH]; intros a Hn; [done|..];
    rewrite fmap_cons in Hn; apply NoDup_cons in Hn as [Hk Hn]; cbn [obj fold_left assoc fst snd] in *; rewrite IH by done.
  - destruct (k =s k') eqn:E; bprop.
    + subst k'. rewrite assoc_put_eq. destruct (assoc k fs) as [x|] eqn:Ea; [|done].
      exfalso. apply Hk. apply assoc_elem in Ea. by apply (list_elem_of_fmap_2 fst) in Ea.
    + rewrite assoc_put_ne by done. done.
  - destruct (k =s k') eqn:E; bprop; [|done]. subst k'. destruct (assoc k fs) as [x|] eqn:Ea; [|done].
    exfalso. apply Hk. apply assoc_elem in Ea. by apply (list_elem_of_fmap_2 fst) in Ea.
Qed.

Section loading.
Context `{LocaleText}.

Lemma node_typed now a : has_ty NodeDetail_ty (node_detail now a) = true.
Proof. reflexivity. Qed.
Lemma controls_typed t : forallb (has_ty SecurityControl_ty) (baseControls t) = true.
Proof. reflexivity. Qed.
Lemma telemetry_drawable now agents : drawable (Some (buildFromTelemetry now agents)).
Proof.
  split.
  - by eexists.
  - eexists. split; [reflexivity|]. intros x Hx. apply list_elem_of_In in Hx. revert x Hx. by apply forallb_forall.
  - eexists. split; [reflexivity|]. intros x Hx. apply list_elem_of_In in Hx. revert x Hx.
    apply forallb_forall, controls_typed.
  - eexists. split; [reflexivity|]. by eexists.
  - eexists. split; [reflexivity|]. intros x Hx. rewrite list_elem_of_In, in_map_iff in Hx.
    destruct Hx as (a & <- & _). apply node_typed.
Qed.

Lemma merged_get a f t k v : assoc k (merged_report f t) = Some (Some v) →
  (Some (JObj (merge_fields a (obj (merged_report f t))))).[k] = Some v.
Proof.
  intros Hk. cbn [jopt]. rewrite assoc_merge; [by rewrite Hk|]. apply (bool_decide_unpack _). vm_compute. exact I.
Qed.
Lemma summary_siem es ts siem : es.["siemStatus"] = vs siem →
  (obj_of (merged_summary es ts)).["siemStatus"] = vs siem.
Proof.
  intros He. cbn [obj_of jopt JObject]. rewrite assoc_obj; [|apply (bool_decide_unpack _); vm_compute; exact I].
  cbn [merged_summary]. change (assoc "siemStatus" (merged_summary es ts)) with (Some (es.["siemStatus"] ??? ts.["siemStatus"])).
  by rewrite He.
Qed.
Lemma stored_drawable w e cwd now agents :
  has_ty ComplianceReport_ty (readRepoJson w e cwd "compliance-report.json") = true →
  drawable (Some (loadComplianceReport w e cwd now agents)).
Proof.
  intros Ht. unfold loadComplianceReport. cbv zeta. destruct (otruthy _) eqn:El; cbn [negb]; [|apply telemetry_drawable].
  destruct (obj_ty _ _ Ht) as [gs Egs]. rewrite Egs in *. set (t := Some (buildFromTelemetry now agents)).
  destruct (req_field _ _ "securityControls" _ Ht eq_refl) as (x1 & E1 & (lc & -> & Hlc)%arr_ty).
  destruct (req_field _ _ "standards" _ Ht eq_refl) as (x2 & E2 & (ls & -> & Hls)%arr_ty).
  destruct (req_field _ _ "generatedBy" _ Ht eq_refl) as (x3 & E3 & [by_ ->]%str_ty).
  destruct (req_field _ _ "executiveSummary" _ Ht eq_refl) as (x4 & E4 & H4).
  destruct (obj_ty _ _ H4) as [es ->]. destruct (req_field _ _ "siemStatus" _ H4 eq_refl) as (x5 & E5 & [siem ->]%str_ty).
  split.
  - assert (Hg : ∃ g, (Some (JObj gs)).["generatedBy"] ||| t.["generatedBy"] = vs g).
    { cbn [jopt]. rewrite E3. destruct by_; by eexists. }
    destruct Hg as [g Hg]. rewrite (merged_get _ _ _ "generatedBy" (JStr g)) 
      by (change (assoc "generatedBy" (merged_report ?f t)) with (Some (f.["generatedBy"] ||| t.["generatedBy"])); by rewrite Hg).
    destruct g; by eexists.
  - assert (Hst : assoc "standards" (merged_report (Some (JObj gs)) t) =
      Some (if otruthy (vlength (Some (JArr ls))) then Some (JArr ls) else Some STANDARDS))
      by (rewrite <- E2; reflexivity).
    destruct (otruthy (vlength (Some (JArr ls)))); eexists; (split; [apply merged_get; exact Hst|]); [done|].
    intros x Hx. apply list_elem_of_In in Hx. revert x Hx. by apply forallb_forall.
  - exists lc. split; [|done]. apply merged_get. change (assoc "securityControls" _) with (Some (assoc "securityControls" gs)).
    by rewrite E1.
  - eexists. split; [apply merged_get; reflexivity|]. exists (if nonempty siem then siem else "Active").
    change (Some (JObj (obj ?l))) with (obj_of l). rewrite (summary_siem _ _ siem); [by destruct siem|].
    change ((Some (JObj gs)).["executiveSummary"]) with (assoc "executiveSummary" gs). rewrite E4. exact E5.
  - eexists. split; [apply merged_get; reflexivity|]. intros x Hx. rewrite list_elem_of_In, in_map_iff in Hx.
    destruct Hx as (a & <- & _). apply node_typed.
Qed.

(** C21. The export always succeeds: for every fleet, with no stored report or with one
    of the declared type, the PDF is built. *)
Theorem compliance_export_total w e cwd now agents :
  readRepoJson w e cwd "compliance-report.json" = JNull ∨
  has_ty ComplianceReport_ty (readRepoJson w e cwd "compliance-report.json") = true →
  ∃ bytes, buildCompliancePdf (loadComplianceReport w e cwd now agents) = Ok bytes.
Proof.
  intros Hs. assert (Hd : drawable (Some (loadComplianceReport w e cwd now agents))).
  { destruct Hs as [Hn|Ht]; [|by apply stored_drawable]. unfold loadComplianceReport. rewrite Hn. apply telemetry_drawable. }
  unfold buildCompliancePdf. destruct (report_total _ Hd) as [p ->]. by eexists.
Qed.

(** The report measures nothing: for every fleet, an empty one included, all twelve
    controls are passed and the rate is a hundred percent. *)
Theorem compliance_always_passes now agents :
  let r := Some (buildFromTelemetry now agents) in
  r.["executiveSummary"].["passRatePct"] = vn 100 ∧ r.["executiveSummary"].["controlsPassed"] = vn 12 ∧
  ∃ l, r.["securityControls"] = Some (JArr l) ∧ ∀ c, c ∈ l → (Some c).["status"] = vs "PASSED".
Proof.
  assert (Hc : ∀ t, Forall (λ c, (Some c).["status"] = vs "PASSED") (baseControls t)) by (intros t; repeat constructor).
  assert (Hp : ∀ t, passed_controls (baseControls t) = 12) by reflexivity.
  cbv zeta. split_and!.
  - change (Some (JNum (percent (passed_controls (baseControls (fleet_totals now agents))) 12)) = vn 100).
    rewrite Hp. by vm_compute.
  - change (Some (jint (passed_controls (baseControls (fleet_totals now agents)))) = vn 12). by rewrite Hp.
  - eexists. split; [reflexivity|]. apply Forall_forall, Hc.
Qed.

(** The fleet of a report is the caller's: for a user who is no administrator its
    nodes are the agents of the user's tenant, all of them when the database answers. *)
Theorem compliance_nodes_confined {Tt} `{!Table Tt Telemetry t_id} w e cwd now r tenant (tt : Tt) :
  header "x-user-role" r ≠ Some ("admin" : jstring) → header "x-user-tenant" r = Some tenant →
  ∃ l, (Some (fetchComplianceReportForRequest w e cwd now r tt)).["nodes"] = Some (JArr (map (node_detail now) l)) ∧
    (l ≡ₚ jfilter (λ a, t_tenantId a =s tenant) (rows tt) ∨ l = []) ∧
    (is_Some (find_many (λ a, t_tenantId a =s tenant) tt) → l ≡ₚ jfilter (λ a, t_tenantId a =s tenant) (rows tt)).
Proof.
  intros Hr Htn. unfold fetchComplianceReportForRequest.
  assert (Hadm : match header "x-user-role" r with Some role => role =s "admin" | None => false end = false).
  { destruct (header "x-user-role" r); [|done]. apply jeq_false. congruence. }
  rewrite Hadm, Htn. cbn [copilot_agents].
  assert (Hn : ∀ l, (Some (loadComplianceReport w e cwd now l)).["nodes"] = Some (JArr (map (node_detail now) l))).
  { intros l. unfold loadComplianceReport. cbv zeta. destruct (negb _); [done|]. by apply merged_get. }
  unfold copilot_agents. destruct (find_many _ tt) as [l|] eqn:El.
  - exists l. split; [apply Hn|]. apply find_many_law in El. auto.
  - exists []. split; [apply Hn|]. split; [by right|]. by intros [? ?].
Qed.
End loading.

Module ComplianceDemo.
#[local] Instance plain_texts : LocaleText :=
  {| local_count := dec; en_number := num_to_string; en_date := λ _, "June 1, 2025"; en_time := λ _, "09:30 AM" |}.
#[local] Instance agents_table : Table (list Telemetry) Telemetry t_id := list_table t_id.
Definition report : json := buildFromTelemetry 2000 Copilot.Demo.table.

Lemma compliance_pages_balanced_witness :
  match draw_report (Some report) with
  | Ok p => Forall (λ s, ∃ ops, s = join nl ops ∧ balanced ops) (all_streams p)
  | Throw _ => False
  end.
Proof.
  destruct (draw_report (Some report)) as [p|] eqn:E; [exact (compliance_pages_balanced (Some report) p E)|].
  vm_compute in E. discriminate E.
Defined.
(** The twelve controls and the table take two pages. *)
Lemma report_pages :
  match draw_report (Some report) with Ok p => length (all_streams p) = 2%nat | Throw _ => False end.
Proof. by vm_compute. Qed.
Lemma compliance_export_total_witness :
  ∃ bytes, buildCompliancePdf (loadComplianceReport no_world (env_of []) "/app" 2000 Copilot.Demo.table) = Ok bytes.
Proof. apply compliance_export_total. left. reflexivity. Defined.
Definition user : request :=
  mk_request "/api/reports" [("x-user-role", "user"); ("x-user-tenant", "t1")] [] [] None.
Lemma compliance_nodes_confined_witness :
  ∃ l, (Some (fetchComplianceReportForRequest no_world (env_of []) "/app" 2000 user Copilot.Demo.table)).["nodes"] =
       Some (JArr (map (node_detail 2000) l)) ∧
    (l ≡ₚ jfilter (λ a, t_tenantId a =s "t1") (rows Copilot.Demo.table) ∨ l = []).
Proof.
  destruct (compliance_nodes_confined no_world (env_of []) "/app" 2000 user "t1" Copilot.Demo.table) as (l & H1 & H2 & _);
    [vm_compute; discriminate|reflexivity|]. exists l. split; [exact H1|exact H2].
Defined.
End ComplianceDemo.
