(* ===== verification/Client.v ===== *)
(** The browser side of the dashboard: pages as machines.

    A page is a state with handlers.  An event (a click, a timer, a render with new
    inputs) runs to its first [await] at once and may leave requests behind; each
    request is answered later, in any order, and its continuation runs on the state
    of that moment.  The second part is the hook that all panels poll with
    (dashboard/src/hooks/useVisibleInterval.ts). *)

From S2P Require Import Prelude JsMap.

Section machine.
Context {St Req Rsp Ev : Type}.
Context (on_event : Ev → St → St * list Req).
Context (on_response : Req → Rsp → St → St * list Req).

(** The page and the requests that wait for an answer. *)
Record config := Cfg { current : St; pending : list Req }.

Inductive page_step : config → config → Prop :=
  | step_event ev c s reqs :
      on_event ev (current c) = (s, reqs) → page_step c (Cfg s (pending c ++ reqs))
  | step_response i q r c s reqs :
      pending c !! i = Some q → on_response q r (current c) = (s, reqs) →
      page_step c (Cfg s (delete i (pending c) ++ reqs)).

Inductive page_reach (c0 : config) : config → Prop :=
  | reach_start : page_reach c0 c0
  | reach_step c c' : page_reach c0 c → page_step c c' → page_reach c0 c'.

(** Invariants are shown step by step: of an event, and of an answer to a request
    that is then no longer pending. *)
Lemma page_invariant (I : config → Prop) c0 c :
  I c0 →
  (∀ c ev s reqs, I c → on_event ev (current c) = (s, reqs) → I (Cfg s (pending c ++ reqs))) →
  (∀ c i q r s reqs, I c → pending c !! i = Some q → on_response q r (current c) = (s, reqs) →
     I (Cfg s (delete i (pending c) ++ reqs))) →
  page_reach c0 c → I c.
Proof. intros H0 He Hr Hc. induction Hc as [|c c' _ IH Hs]; [done|]. destruct Hs; eauto. Qed.

(** Running a script of actions, for examples. *)
Inductive action := Do (ev : Ev) | Answer (i : nat) (r : Rsp).
Definition act (a : action) (c : config) : option config :=
  match a with
  | Do ev => let '(s, reqs) := on_event ev (current c) in Some (Cfg s (pending c ++ reqs))
  | Answer i r =>
      match pending c !! i with
      | Some q => let '(s, reqs) := on_response q r (current c) in Some (Cfg s (delete i (pending c) ++ reqs))
      | None => None
      end
  end.
Fixpoint play (l : list action) (c : config) : option config :=
  match l with
  | [] => Some c
  | a :: l => match act a c with Some c' => play l c' | None => None end
  end.
Lemma play_reach l c0 c c' : play l c = Some c' → page_reach c0 c → page_reach c0 c'.
Proof.
  revert c. induction l as [|a l IH]; intros c; cbn [play]; [by intros [= <-]|].
  destruct (act a c) as [c1|] eqn:E; [|done]. intros Hp Hr. apply (IH c1 Hp). eapply reach_step; [done|].
  destruct a as [ev|i r]; cbn in E.
  - destruct (on_event ev (current c)) eqn:Ee. simplify_eq. by econstructor.
  - destruct (pending c !! i) eqn:Ep; [|done]. destruct (on_response _ r (current c)) eqn:Er. simplify_eq. by econstructor.
Qed.
End machine.

Arguments config : clear implicits.
Arguments action : clear implicits.
Arguments Do {Rsp Ev} ev.
Arguments Answer {Rsp Ev} i r.
Arguments Cfg {St Req} current pending.

Lemma delete_sub {A} i (l : list A) x : x ∈ delete i l → x ∈ l.
Proof. intros H. eapply elem_of_submseteq; [exact H|apply sublist_submseteq, sublist_delete]. Qed.
Lemma delete_app_sub {A} i (l l' : list A) x : x ∈ delete i l ++ l' → x ∈ l ∨ x ∈ l'.
Proof. rewrite elem_of_app. intros [H|H]; [left; by eapply delete_sub|by right]. Qed.

(** ** useVisibleInterval *)

Module VisibleInterval.

(** [timer] and [fnRef] are the hook's own; the tab's visibility, the active
    intervals and the listener belong to the document.  A function given to the
    hook is known by the render that made it.  [calls] records the calls. *)
Record state := {
  ms : Z;
  enabled : bool;
  fnRef : nat;
  timer : option Z;
  visible : bool;
  intervals : list Z;
  next_id : Z;
  listening : bool;
  calls : list nat;
}.

Definition set_host (s : state) (t : option Z) (ids : list Z) (n : Z) (li : bool) (cs : list nat) : state :=
  {| ms := ms s; enabled := enabled s; fnRef := fnRef s; timer := t; visible := visible s;
     intervals := ids; next_id := n; listening := li; calls := cs |}.

Definition tick (s : state) : state :=
  if visible s then set_host s (timer s) (intervals s) (next_id s) (listening s) (calls s ++ [fnRef s]) else s.
(** [if (timer) return; tick(); timer = setInterval(tick, ms);] *)
Definition start (s : state) : state :=
  match timer s with
  | Some _ => s
  | None => let s := tick s in
            set_host s (Some (next_id s)) (intervals s ++ [next_id s]) (next_id s + 1) (listening s) (calls s)
  end.
Definition stop (s : state) : state :=
  match timer s with
  | Some id => set_host s None (jfilter (λ i, negb (i =? id)) (intervals s)) (next_id s) (listening s) (calls s)
  | None => s
  end.
Definition onVis (s : state) : state := if visible s then start s else stop s.
Definition listen (b : bool) (s : state) : state := set_host s (timer s) (intervals s) (next_id s) b (calls s).

(** The effect and its cleanup.  [let timer = null] makes a fresh variable for
    every run of the effect. *)
Definition effect (s : state) : state :=
  let s := set_host s None (intervals s) (next_id s) (listening s) (calls s) in
  if negb (enabled s) || (ms s <=? 0) then s
  else listen true (if visible s then start s else s).
Definition cleanup (s : state) : state := if listening s then listen false (stop s) else s.

Inductive event :=
  | Render (fn : nat)                      (* a render with a new function *)
  | Inputs (ms : Z) (enabled : bool)       (* a render that changes the inputs *)
  | Visibility (b : bool)                  (* the tab is shown or hidden *)
  | Fire (id : Z)                          (* an active interval is due *)
  | Unmount.

Definition with_inputs (m : Z) (en : bool) (s : state) : state :=
  {| ms := m; enabled := en; fnRef := fnRef s; timer := timer s; visible := visible s; intervals := intervals s;
     next_id := next_id s; listening := listening s; calls := calls s |}.
Definition with_fn (fn : nat) (s : state) : state :=
  {| ms := ms s; enabled := enabled s; fnRef := fn; timer := timer s; visible := visible s; intervals := intervals s;
     next_id := next_id s; listening := listening s; calls := calls s |}.
Definition with_visible (b : bool) (s : state) : state :=
  {| ms := ms s; enabled := enabled s; fnRef := fnRef s; timer := timer s; visible := b; intervals := intervals s;
     next_id := next_id s; listening := listening s; calls := calls s |}.

(** Effects run again only when [ms] or [enabled] changed. *)
Definition handle (ev : event) (s : state) : state :=
  match ev with
  | Render fn => with_fn fn s
  | Inputs m en =>
      if (m =? ms s) && Bool.eqb en (enabled s) then s else effect (with_inputs m en (cleanup s))
  | Visibility b =>
      let s := with_visible b s in if listening s then onVis s else s
  | Fire id => if bool_decide (id ∈ intervals s) then tick s else s
  | Unmount => cleanup s
  end.

Definition mount (m : Z) (en vis : bool) (fn : nat) : state :=
  effect {| ms := m; enabled := en; fnRef := fn; timer := None; visible := vis; intervals := []; next_id := 1;
            listening := false; calls := [] |}.
Definition run_events (evs : list event) (s : state) : state := fold_left (λ s ev, handle ev s) evs s.

(** One interval while the hook listens to a visible tab, none otherwise. *)
Definition hook_inv (s : state) : Prop :=
  (listening s = true → ∃ t, timer s = t ∧ intervals s = match t with Some id => [id] | None => [] end ∧
     (is_Some t ↔ visible s = true)) ∧
  (listening s = false → timer s = None ∧ intervals s = []).

Lemma effect_inv s : intervals s = [] → listening s = false → hook_inv (effect s).
Proof.
  intros Hi Hl. unfold effect, hook_inv. cbn. destruct (negb (enabled s) || (ms s <=? 0)); cbn; [by rewrite Hl|].
  split; [|done]. intros _. destruct (visible s) eqn:Ev.
  - unfold start, tick. cbn. rewrite Ev. cbn. rewrite Hi. cbn. exists (Some (next_id s)). rewrite ?Ev. splits; naive_solver.
  - cbn. exists None. rewrite ?Ev. splits; [done|done|]. split; [by intros [? ?]|done].
Qed.
Lemma cleanup_inv s : hook_inv s → intervals (cleanup s) = [] ∧ listening (cleanup s) = false ∧ timer (cleanup s) = None.
Proof.
  intros [Ht Hf]. unfold cleanup. destruct (listening s) eqn:El; [|naive_solver].
  destruct (Ht eq_refl) as (t & Et & Ei & _). unfold stop. rewrite Et. destruct t as [id|]; cbn; rewrite ?Ei, ?Et; [|done].
  unfold jfilter. cbn. by rewrite Z.eqb_refl.
Qed.
Lemma hook_step ev s : hook_inv s → hook_inv (handle ev s).
Proof.
  intros Hs. pose proof Hs as [Ht Hf]. destruct ev as [fn|m en|b|id|]; cbn [handle].
  - done.
  - split_if; [done|]. destruct (cleanup_inv s Hs) as (Hi & Hl & _). by apply effect_inv.
  - cbn [with_visible listening]. destruct (listening s) eqn:El; [|split; cbn; rewrite El; [done|auto]].
    destruct (Ht eq_refl) as (t & Et & Ei & Hv). split; [intros _|].
    + unfold onVis. cbn. destruct b.
      * unfold start. cbn. rewrite Et. destruct t as [id|]; cbn.
        -- exists (Some id). splits; [done|done|split; [done|eauto]].
        -- rewrite Ei. cbn. exists (Some (next_id s)). splits; [done|done|split; [done|eauto]].
      * unfold stop. cbn. rewrite Et. destruct t as [id|]; cbn; rewrite ?Et, ?Ei.
        -- unfold jfilter. cbn. rewrite Z.eqb_refl. exists None. splits; [done|done|split; [by intros [? ?]|done]].
        -- exists None. splits; [done|done|split; [by intros [? ?]|done]].
    + unfold onVis, start, stop, tick. cbn. repeat split_match; cbn; congruence.
  - split_if; [|done]. unfold tick. destruct (visible s) eqn:Ev; [|done]. split; cbn; [|done].
    intros Hl. destruct (Ht Hl) as (t & ? & ? & Hiff). exists t. rewrite Ev in *. done.
  - destruct (cleanup_inv s Hs) as (Hi & Hl & Htm). split; rewrite Hl; [done|]. done.
Qed.

Lemma interval_inv evs m en vis fn : hook_inv (run_events evs (mount m en vis fn)).
Proof.
  unfold run_events. assert (H0 : hook_inv (mount m en vis fn)) by (by apply effect_inv).
  revert H0. generalize (mount m en vis fn). induction evs as [|ev evs IH]; intros s Hs; cbn; [done|]. by apply IH, hook_step.
Qed.

(** Polling stops with the tab and with the panel: whatever happens, at most one
    interval is active, only while the tab is visible; a hidden tab makes no call,
    and a call runs the function of the latest render. *)
Theorem interval_sound evs m en vis fn ev :
  let s := run_events evs (mount m en vis fn) in
  (length (intervals s) <= 1)%nat ∧ (intervals s ≠ [] → visible s = true) ∧
  (calls (handle ev s) = calls s ∨
   ∃ n, calls (handle ev s) = calls s ++ [n] ∧ n = fnRef (handle ev s) ∧ visible (handle ev s) = true).
Proof.
  intros s. pose proof (interval_inv evs m en vis fn) as [Ht Hf]. fold s in Ht, Hf. splits.
  - destruct (listening s); [|by destruct (Hf eq_refl) as [_ ->]; cbn; lia]. destruct (Ht eq_refl) as ([id|] & _ & -> & _); cbn; lia.
  - destruct (listening s); [|by destruct (Hf eq_refl) as [_ ->]]. destruct (Ht eq_refl) as (t & Et & -> & Hv).
    destruct t; [|done]. intros _. apply Hv. eauto.
  - assert (Htick : ∀ s, calls (tick s) = calls s ∨ ∃ n, calls (tick s) = calls s ++ [n] ∧ n = fnRef (tick s) ∧ visible (tick s) = true).
    { intros s'. unfold tick. destruct (visible s') eqn:E; [right|by left]. eexists. splits; done. }
    assert (Hstart : ∀ s, calls (start s) = calls s ∨ ∃ n, calls (start s) = calls s ++ [n] ∧ n = fnRef (start s) ∧ visible (start s) = true).
    { intros s'. unfold start. destruct (timer s'); [by left|]. exact (Htick s'). }
    assert (Hstop : ∀ s, calls (stop s) = calls s) by (intros s'; unfold stop; by destruct (timer s')).
    destruct ev as [fn'|m' en'|b|id|]; cbn [handle].
    + by left.
    + split_if; [by left|]. unfold effect. cbn. assert (Hc : calls (cleanup s) = calls s).
      { unfold cleanup. destruct (listening s); cbn; by rewrite ?Hstop. }
      destruct (negb en' || (m' <=? 0)); cbn; [by left|]. rewrite <- Hc.
      destruct (visible (cleanup s)) eqn:Ev; [|by left].
      unfold start, tick. cbn. rewrite Ev. cbn. right. eexists. splits; done.
    + destruct (listening (with_visible b s)); [|by left]. unfold onVis. cbn.
      destruct b; [apply (Hstart (with_visible true s))|left; apply (Hstop (with_visible false s))].
    + split_if; [apply Htick|by left].
    + left. unfold cleanup. destruct (listening s); cbn; by rewrite ?Hstop.
Qed.
End VisibleInterval.
