(* ===== verification/Dictionary.v ===== *)
(** The texts of the dashboard: the dictionaries of dashboard/src/lib/i18n.ts and
    the shorter packs of dashboard/src/lib/i18nExtraLocales.ts, entry by entry.  The
    functions on them are in [I18n]. *)

From S2P Require Import Prelude.

Definition dict_tr_1 : list (jstring * jstring) := [
  ("brand", "Linux Log Guardian");
  ("navFleet", "Filo");
  ("navBans", "Banlı IP'ler");
  ("navReports", "Raporlar");
  ("navCopilot", "Asistan");
  ("navLineage", "Lineage");
  ("navTests", "Testler");
  ("navAttackMap", "Harita");
  ("siemLive", "SIEM aktif");
  ("fleetTitle", "Filo Komuta Merkezi");
  ("fleetSubtitle", "Canlı telemetri ve koruma durumu");
  ("globalEps", "Global EPS");
  ("rcePrevented", "Engellenen RCE");
  ("activeTarpits", "Aktif Tarpit");
  ("k8sIsolated", "K8s izolasyon");
  ("tlsDecrypted", "TLS çözüldü");
  ("etcdPeers", "Etcd eşleri");
  ("nodesOnline", "aktif düğüm");
  ("tenantSegments", "Kiracı segmentleri");
  ("allTenants", "Tüm kiracılar");
  ("chartsEps", "EPS dağılımı");
  ("chartsAlerts", "Alarm özeti");
  ("chartsAgents", "Ajan durumu");
  ("copilotTitle", "Güvenlik Asistanı");
  ("copilotWelcome", "Log Guardian Güvenlik Asistanı. Yalnızca filo telemetrisi, tehdit analizi, RCE, IP engelleme ve uyumluluk konularında yardımcı olurum.");
  ("copilotPlaceholder", "Tehdit, IP veya sistem durumu hakkında sorun…");
  ("copilotContext", "Canlı bağlam");
  ("copilotQuick", "Hızlı sorular");
  ("copilotSummarize", "Tehdit özetini çıkar");
  ("copilotRce", "Son RCE girişimlerini analiz et");
  ("copilotExec", "Yönetici özeti oluştur");
  ("copilotProcessing", "Analiz ediliyor…");
  ("copilotOffline", "Ollama isteğe bağlı; yoksa kural tabanlı Copilot (filo + lineage + RAG). docs/COPILOT_LLM.md");
  ("lineageCritical", "Lineage kritik");
  ("lineageTitle", "eBPF Saldırı Ağacı");
  ("lineageSubtitle", "eBPF canlı zincir — openat · execve · connect (kernel)");
  ("lineageTrees", "Ağaç");
  ("lineageHighRisk", "Yüksek risk");
  ("lineageEmpty", "Canlı attack tree yok");
  ("lineageEmptyHint", "sudo ./log-guardian-daemon — /run/log-guardian/attack_tree.json");
  ("lineagePreviewHint", "Önizleme: /attack-tree?preview=1 (onboarding demosu)");
  ("lineageRisk", "Risk");
  ("lineageGraph", "Graf");
  ("lineageTimeline", "Zaman çizgisi");
  ("lineageBadgeLive", "eBPF Canlı");
  ("lineageBadgePreview", "Önizleme");
  ("lineageBadgeDemo", "Önizleme");
  ("banApprove", "Ban onayı");
  ("approveBan", "Onayla ve banla");
  ("cancel", "İptal");
  ("fleetCommand", "Filo komutu");
  ("fleetDispatchTitle", "Filo komut dağıtımı");
  ("fleetDispatchForm", "Komut gönder");
  ("fleetDispatchHistory", "Komut geçmişi");
  ("fleetDispatchSend", "Komutu gönder");
  ("fleetDispatchLink", "Detaylı komut merkezi");
  ("fleetCommandDesc", "Girdiğiniz IP, seçili ağdaki ajanlarda kernel seviyesinde banlanır.");
  ("banIpPlaceholder", "IP adresi (örn. 1.2.3.4)");
  ("executeBan", "Ban uygula");
  ("banConfirm", "{ip} adresini kernel seviyesinde engellemek istiyor musunuz?");
  ("banShort", "Ban");
  ("unbanIp", "Engeli kaldır");
  ("unbanShort", "Unban");
  ("banSuccess", "IP kernel seviyesinde engellendi");
  ("unbanSuccess", "IP engeli kaldırıldı");
  ("ipBanned", "Engelli");
  ("ipBannedShort", "Engelli");
  ("ipBannedHint", "Tıkla — engeli kaldır");
  ("banQueuedOnly", "Komut kuyruğa alındı — agent online olunca uygulanır");
  ("banFailed", "Ban gönderilemedi");
  ("banToastHint", "Dashboard ban → anında ipset/XDP (agent kuyruğu yedek)");
  ("bannedIpsTitle", "Engellenen IP'ler");
  ("bannedIpsEmpty", "Aktif ban yok — saldırı IP'si banlayın veya attack tree'den Ban.");
  ("bannedIpsPreview", "Önizleme");
  ("bannedIpsProofMode", "Kanıt önizleme");
  ("bannedIpsLiveMode", "Canlı ipset");
  ("bannedIpsProofDesc", "Canlı ipset boş — listedeki IP'ler kanıt raporlarından (harita ile aynı kaynak). Gerçek ban için Manuel IP engelle veya saldırı replay.");
  ("bannedIpsProofOnly", "Kanıt");
  ("kpiSnapshotHint", "lineage snapshot (canlı fleet yok)");
  ("bannedIpsLoading", "Ban listesi yükleniyor…");
  ("bannedIpsRefresh", "Yenile");
  ("bannedIpsRefreshing", "Yenileniyor…");
  ("bannedIpsSource", "Kaynak");
  ("attackMapTitle", "Saldırı haritası");
  ("attackMapSubtitle", "Banlı ve aktif incident IP'lerinin coğrafi konumu (canlı yenileme)");
  ("attackMapLoading", "Konumlar yükleniyor…");
  ("attackMapEmpty", "Henüz haritada gösterilecek saldırgan IP yok — ban veya incident oluşturun.");
  ("attackMapRefresh", "Yenile");
  ("attackMapError", "Geo verisi alınamadı — ATTACK_GEO_LOOKUP=0 veya ağ kısıtı olabilir.");
  ("attackMapBanned", "Banlı IP");
  ("attackMapIncident", "Aktif incident");
  ("attackMapDragHint", "Mouse ile sürükleyerek döndür · tekerlek ile yakınlaştır");
  ("attackMapGeoPartial", "{shown} / {total} IP haritada (RFC5737 demo kaynakları küresel yayılım)");
  ("attackMapReportSource", "Kanıt raporu (canlı ban yok)");
  ("attackMapLive", "Canlı");
  ("attackMapSocLink", "SOC timeline");
  ("attackMapLegendBan", "Ban");
  ("attackMapLegendIncident", "Incident");
  ("attackMapLegendAck", "Telegram ack");
  ("attackMapAck", "Operatör onayı");
  ("attackMapGeoOff", "Geo lookup kapalı");
  ("attackMapBansFrom", "Ban kaynağı");
  ("attackMapRisk", "Risk");
  ("attackMapLegendArc", "Saldırı yönü");
  ("attackMapLegendSource", "Kaynak IP");
  ("attackMapLegendDefender", "Sunucun (hedef)");
  ("attackMapDefenderLabel", "SUNUCUN");
  ("attackMapDefenderHint", "◀ hedef");
  ("attackMapArcFlow", "Turuncu/kırmızı noktadan cyan hedefe akan çizgi = saldırı yönü");
  ("attackMapClickBans", "Tıkla → Banned IPs listesinde filtrele");
  ("attackMapFilterAll", "Tümü");
  ("attackMapFilterNoMatch", "Bu filtrede pin yok.");
  ("attackMapFilterTimelineOnly", "Lineage ve WAF yalnızca SOC timeline'da — harita ban · incident · Telegram ack gösterir.");
  ("socTimelineTitle", "SOC zaman çizelgesi");
  ("socTimelineExportCsv", "CSV indir");
  ("webhookOpsTitle", "Webhook / Telegram");
  ("webhookOpsSubtitle", "P2 batch özeti · CRIT/ban anında · WARN pencerede birleşir");
  ("webhookOpsRoute", "Route (#waf/#ban)");
  ("webhookOpsBatch", "Batch penceresi");
  ("webhookOpsBatchOff", "kapalı");
  ("webhookOpsBatchHint", "WARN/INFO tek mesajda");
  ("webhookOpsAck", "Ack 24s");
  ("webhookOpsAckHint", "ack / unacked");
  ("webhookOpsQueue", "Kuyruk");
  ("webhookOpsQuiet", "Sessiz saat aktif");
  ("webhookOpsProof", "Kanıt raporu")].
Definition dict_tr_2 : list (jstring * jstring) := [
  ("webhookOpsProdE2eOk", "Prod zincir doğrulandı — log → WAF → ban → Telegram");
  ("webhookOpsUndoE2eOk", "Operatör undo doğrulandı — WL/Sessiz geri al (poll kesintisiz)");
  ("webhookOpsSent", "Gönderildi");
  ("webhookOpsFail", "Hata");
  ("webhookOpsDrops", "Kuyruk drop");
  ("webhookOpsDropsHint", "Yüksek drop — servis yeniden başlatınca sıfırlanır; canlı kuyruk 0 ise geçmiş sayaçtır");
  ("webhookOpsDropsRunbook", "Drop sıfırlama: sudo log-guardian webhook-metrics-reset —");
  ("webhookOpsDropsDocLink", "WEBHOOK_SETUP.md");
  ("webhookOpsDropsTestLink", "webhook-route-proof testi");
  ("edgeProtectionTitle", "Edge koruma");
  ("edgeProtectionSubtitle", "nginx rate limit · log format · XDP/ipset ban · threat intel özeti");
  ("edgeGateOk", "Edge kapısı geçti");
  ("edgeGateLink", "edge-protection-gate");
  ("edgeProofMode", "Kanıt");
  ("edgeStatIpc", "IPC");
  ("edgeStatXdp", "XDP / ipset");
  ("edgeStatNginx", "nginx");
  ("edgeStatIpset", "ipset");
  ("edgeStatRelayLan", "relay LAN");
  ("edgeStatEpsSmoke", "EPS smoke");
  ("edgeXdpKernel", "kernel-XDP");
  ("edgeXdpIpset", "ipset-fallback");
  ("edgeWifiHint", "Wi‑Fi — bilinçli");
  ("edgeSocLinks", "SOC filtre");
  ("edgeSocBan", "Ban");
  ("edgeSocAck", "Ack");
  ("edgeSocLineage", "Lineage");
  ("edgeGateFail", "Edge kapısı");
  ("edgeThreatSummary", "Threat intel özet");
  ("edgeBansActive", "Aktif ban");
  ("edgeBansDbHint", "SQLite toplam (geçmiş) — canlı ipset sayısı nav ile aynı");
  ("edgeBanDbRows", "ban_events DB");
  ("edgeBanDbLink", "intel-ban-db");
  ("edgeBanDbRunbook", "Prune: sudo log-guardian ban-db-prune --ttl-days 7 · Grafana lg-ban-db-size");
  ("edgeBanDbStale", "stale satır");
  ("edgeBanDbStaleHint", "TTL dışı satırlar — Pazar cron veya sudo log-guardian ban-db-prune --ttl-days 7");
  ("edgeChecklistTitle", "Edge checklist (laptop)");
  ("edgeChecklistWarn", "uyarı");
  ("edgeE9Title", "E9 runbook");
  ("edgeE9Link", "ENTERPRISE_SUPPORT");
  ("e9RunbookTitle", "Enterprise E9 runbook");
  ("e9RunbookSubtitle", "Laptop operatör kapıları — kanıt JSON ile senkron");
  ("e9RunbookPass", "E9 OK");
  ("e9RunbookFail", "E9 eksik");
  ("e9RunbookEmpty", "enterprise-e9-verify-report.json henüz yok — bash scripts/enterprise_e9_verify.sh");
  ("e9CheckCompetitiveProof", "Rekabetçi kanıt");
  ("e9CheckEnterpriseEscalation", "Enterprise escalation");
  ("e9CheckEdgeChecklist", "Edge checklist");
  ("e9CheckRelayLan", "Relay LAN");
  ("e9CheckMorningOperator", "Morning operator");
  ("e9CheckEpsSmoke", "EPS smoke");
  ("e9CheckDocsConsistency", "Docs tutarlılığı");
  ("e9CheckVpsPrep", "VPS prep");
  ("e9CheckVpsRemote", "VPS remote (SSH)");
  ("fleetDispatchShadowHint", "SSH izleme düğümleri komut hedefi değildir");
  ("morningOpsTitle", "Morning operator — sabah hazırlık");
  ("morningOpsSubtitle", "Hızlı kapı — demo koşmaz, mevcut gate'leri bozmaz");
  ("morningOpsPass", "Sabah OK");
  ("morningOpsFail", "Sabah eksik");
  ("morningOpsEmpty", "morning-operator-gate-report.json yok — bash scripts/morning_operator_gate.sh");
  ("morningOpsRefresh", "Yenile");
  ("morningOpsStale", "Bayat kanıt");
  ("morningOpsEpsHint", "EPS smoke — canlı grafikler ve sudo bash scripts/webhook_nginx_eps_smoke.sh");
  ("morningOpsEpsOkPrefix", "EPS smoke kanıtı — peak");
  ("morningCheckCore", "Laptop core");
  ("morningCheckShip", "Sunum ship");
  ("morningCheckDashboard", "Dashboard");
  ("morningCheckAttackMap", "Attack map parity");
  ("morningCheckTelegram", "Telegram SOC");
  ("morningCheckProofFresh", "Kanıt tazeliği");
  ("morningCheckEpsSmoke", "EPS smoke");
  ("testsVpsSoakJump", "Soak kartına git");
  ("testsMorningBannerTitle", "Morning operator — sabah hazırlık kapısı geçti");
  ("testsMorningBannerJump", "Morning kartına git");
  ("testsEpsSmokeBannerTitle", "EPS smoke — nginx tail + WAF + Telegram kanıtı");
  ("testsEpsSmokeBannerJump", "Live ops grafikleri");
  ("opsGatesTitle", "Operatör kapıları");
  ("opsTabMorning", "Morning");
  ("opsTabFleet", "Fleet");
  ("opsTabVps", "VPS prep");
  ("opsTabVpsLive", "VPS prod");
  ("opsTabE9", "E9");
  ("opsStripMorning", "morning");
  ("opsStripFleet", "fleet");
  ("opsStripVps", "vps");
  ("opsStripVpsHandsOff", "vps hands-off");
  ("opsStripE9", "e9");
  ("opsStripRelay", "relay LAN");
  ("opsStripEps", "eps");
  ("opsStripEpsSmoke", "eps smoke");
  ("opsStripEpsLivePeak", "eps {live}·pk{peak}");
  ("lineageL7Title", "Wasm · L7 · Lineage");
  ("lineageL7Subtitle", "Opsiyonel katman — native plugin, eBPF L7 probe, syscall lineage");
  ("socTimelineSubtitle", "Incident · WAF · ban · Telegram ack · eBPF lineage — tek akış");
  ("socTimelineLive", "Canlı");
  ("socTimelineLivePartial", "Canlı (kısmi)");
  ("socTimelinePreview", "Kanıt önizleme");
  ("socTimelineSources", "Kaynak");
  ("socTimelineFlow", "Yeni → eski (aşağı akış)");
  ("socTimelineAttackTree", "Attack tree");
  ("socKindIncident", "Olay");
  ("socKindBan", "Ban");
  ("socKindLineage", "Lineage");
  ("socKindWaf", "WAF");
  ("socKindAck", "Telegram onay");
  ("socTimelineEmpty", "Henüz olay yok — ban veya incident oluşunca burada görünür.");
  ("socFilterAll", "Tümü");
  ("socFilterNoMatch", "Bu filtrede olay yok.");
  ("socFilterMapLink", "Harita ↑");
  ("socShowOnMap", "Haritada göster");
  ("socFilterLinked", "Harita ↔ timeline senkron");
  ("socAckChipHint", "Telegram ack sayısı geçmiş olayları içerir; haritada yalnızca aktif ack IP pinleri görünür.");
  ("socBanParityHint", "Ban sayısı nav badge ve ipset ile uyumlu.");
  ("socScrollHint", "olay — aşağı kaydır");
  ("socMapParityHint", "Ban sayısı: nav = ipset = harita");
  ("bannedIpsScrollHint", "Liste kaydırılabilir — tüm banlar görünmeyebilir");
  ("bannedIpsPageDesc", "ipset/XDP üzerinde aktif engellenen adresler (canlı)");
  ("bannedIpsManualBan", "Manuel IP engelle");
  ("bansTelegramOpsTitle", "Telegram operatör");
  ("bansTelegramOpsDesc", "WL / Sessiz yanlış tıklama — host terminalinde SIGUSR2 undo (poll kesintisiz).");
  ("bansTelegramAcked", "Gördüm");
  ("bansTelegramNoAck", "Bu IP için kayıtlı Telegram ack yok.");
  ("bansTelegramCopy", "Kopyala");
  ("bansTelegramCopied", "Kopyalandı");
  ("bansTelegramUndoHint", "sudo gerekebilir")].
Definition dict_tr_3 : list (jstring * jstring) := [
  ("bansTelegramLiveBan", "Şu an kernel ban listesinde");
  ("bansTelegramNotBanned", "Şu an banlı değil (ack geçmişi kalabilir)");
  ("banApiOpsTitle", "Ban API — relay & SOAR mTLS");
  ("banApiOpsDesc", "Ban yolu: host :8090 → host-api-bridge (docker0) → relay :18090 / metrics :19091 → Docker.");
  ("banApiOpsTestsLink", "mTLS test kartı");
  ("banApiHost", "host");
  ("banApiBridge", "bridge");
  ("banApiRelay", "relay");
  ("banApiRelayLan", "LAN");
  ("banApiMetrics", "metrics");
  ("banApiDocker", "docker");
  ("banApiSoarOn", "mTLS on");
  ("banApiSoarEnabledNoVerify", "açık (doğrulanmadı)");
  ("banApiSoarOff", "kapalı");
  ("banApiSmokePass", "dashboard_ban_smoke geçti");
  ("banApiCopyEnable", "Enable komutu kopyala");
  ("banApiCopied", "Kopyalandı");
  ("banApiRefresh", "Yenile");
  ("banApiCopySoarCurl", "SOAR curl kopyala");
  ("banApiMtlsExpiry", "mTLS cert");
  ("fleetOpsTitle", "Filo — offline gate & rapor");
  ("fleetOpsDesc", "fleet_offline_gate raporu: agent heartbeat tazeliği. STRICT=0 laptop'ta WARN ile devam eder.");
  ("fleetOpsTestsLink", "offline gate test kartı");
  ("fleetOpsGate", "gate");
  ("fleetOpsOnline", "online");
  ("fleetOpsLive", "canlı");
  ("fleetOpsReport", "rapor");
  ("fleetOpsRefresh", "Yenile");
  ("fleetOpsCopyRefresh", "Tazele komutu kopyala");
  ("fleetOpsCopyPrune", "Prune komutu kopyala");
  ("fleetOpsCopyPruneDemo", "Demo prune (30dk) kopyala");
  ("fleetOpsPruneDemoHint", "E2E sonrasi hizli temizlik — prod cron 48h");
  ("fleetOpsCopied", "Kopyalandı");
  ("fleetOpsPrune", "pending");
  ("fleetOpsPruneHint", "Takılı delivered/pending komutlar (executed=false)");
  ("fleetOpsPruneStale", ">48h takılı komut var — fleet_prune_pending_commands.sh");
  ("fleetRemoteMonitor", "SSH izleme");
  ("fleetRemoteLastPull", "SSH rapor çekimi (hands-off)");
  ("fleetOpsReportStale", "JSON rapor anlık görünüm — canlı heartbeat ile farklı; fleet_multi_node_e2e ile tazele");
  ("fleetOpsReportStaleShort", "snapshot");
  ("vpsPrepTitle", "VPS hazırlık — sunucu gelince");
  ("vpsPrepTitleLive", "VPS prod — izleme (hands-off)");
  ("vpsPrepDesc", "Laptop hazırlık kapısı: install, XDP eth0, post_install. Sunucu yokken yalnızca rapor.");
  ("vpsPrepDescLive", "VPS ayakta — 72h soak tamam. Yalnızca SSH rapor çekimi; sunucuda değişiklik yok.");
  ("vpsPrepDocLink", "VPS_SETUP");
  ("vpsPrepTestsLink", "/tests");
  ("vpsPrepRefresh", "Yenile");
  ("vpsPrepCopyGate", "Gate komutu kopyala");
  ("vpsPrepCopied", "Kopyalandı");
  ("vpsPrepPaused", "P4 VPS — bilinçli beklemede");
  ("vpsPrepRemote", "uzak");
  ("vpsPrepRemoteLive", "VPS SSH canlı — soak/XDP raporu");
  ("vpsPrepRemoteAuthFail", "anahtar gerekli");
  ("vpsPrepRemoteHostUp", "port açık");
  ("vpsPrepRemoteAuthHint", "VPS ayakta — bu laptop'tan SSH anahtarı yok. ssh-copy-id ile ekle.");
  ("vpsPrepRemoteNeedKey", "SSH anahtarı eksik — VPS çalışıyor");
  ("vpsPrepCopyRemote", "Uzak durum komutu kopyala");
  ("vpsPrepCopySshKey", "ssh-copy-id kopyala");
  ("vpsPrepRemoteHint", ".cache/vps-production.env veya VPS_HOST");
  ("vpsPrepSoak", "soak");
  ("vpsPrepSoakWatch", "izleme");
  ("vpsPrepSoakProof", "kanıt ✓");
  ("vpsPrepHandsOff", "VPS dokunma — 72h soak tamam, yalnızca izleme");
  ("bannedIpsEmptyHint", "Liste boş — host API (8090) veya sync_dashboard_data.sh ile active_bans.json senkronize edin.");
  ("bannedIpsAlsoOn", "Ayrıca:");
  ("bannedIpsSocLink", "SOC zaman çizelgesi");
  ("bannedIpsTestsLink", "Doğrulama testleri");
  ("guardianNodes", "Koruma düğümleri");
  ("clearFilter", "filtreyi kaldır");
  ("noAgents", "Komuta merkezine bağlı ajan yok.");
  ("noAgentsTenant", "Bu kiracı için ajan yok.");
  ("startAgentHint", "SAAS_ENABLED=1 ile ajan başlatın.");
  ("tryOtherTenant", "Başka bir kiracı seçin.");
  ("lastSeenAgo", "Son görülme");
  ("agentOfflineQueue", "Offline — ban komutları kuyruğa alınır");
  ("fleetOfflineBanner", "düğüm offline — komutlar kuyruk bekler");
  ("fleetOfflineBannerWithPending", "düğüm offline — {n} komut kuyruk bekler");
  ("fleetOfflineBannerStale", "düğüm offline — heartbeat bayat; fleet_multi_node_e2e ile tazele");
  ("epsLiveMetrics", "Canlı :9091 metrikleri");
  ("grafanaMiniZeroHint", "Sayaçlar sıfır — servis yeniden başladı veya henüz log akışı yok. Canlı demo: sudo bash scripts/webhook_nginx_eps_smoke.sh · binary: sudo bash scripts/upgrade_log_guardian_binary.sh");
  ("grafanaMiniZeroHintWithBans", "{n} aktif ban ipset'te — yalnızca log sayaçları sıfır (yeniden başlatma). Canlı grafik: sudo bash scripts/webhook_nginx_eps_smoke.sh");
  ("grafanaMiniZeroHintWithSmoke", "Sayaçlar restart sonrası 0 · ipset ban={n} · EPS smoke peak={peak} kanıtı duruyor (canlı akış için smoke tekrar)");
  ("grafanaEpsSmokeBanner", "EPS smoke kanıtı — nginx tail + WAF + Telegram");
  ("tenantsCount", "kiracı");
  ("uprobeActive", "Uprobe aktif");
  ("noUprobe", "Uprobe verisi yok");
  ("raftConsensus", "Raft consensus");
  ("disconnected", "Bağlı değil");
  ("globalAlerts", "Toplam alarm");
  ("globalRceKills", "RCE engelleme");
  ("fpPanelTitle", "False positive oranı");
  ("fpPanelRate", "benign log FP");
  ("fpPanelBenign", "Temiz trafik");
  ("fpPanelAttack", "Saldırı testi");
  ("benchTitle", "Performans kanıtı");
  ("benchKpi", "Rekabet metrikleri");
  ("benchEps", "EPS");
  ("benchBanMs", "Ban gecikmesi");
  ("benchFpPct", "FP %");
  ("benchHint", "Metrik yok — bash scripts/competitive_suite.sh çalıştırın");
  ("benchLiveEps", "Canlı EPS");
  ("benchFalcoRules", "Falco kural");
  ("benchL7Probe", "L7 eBPF");
  ("benchL7Hits", "HTTP olay");
  ("benchPerLine", "satır");
  ("incidentsTitle", "Aktif olaylar");
  ("incidentsLive", "Canlı API");
  ("incidentsSnapshot", "Kanıt snapshot");
  ("incidentsEmptySource", "Boş");
  ("lineageL7Preview", "Bench önizleme");
  ("incidentsEmpty", "Açık incident yok (./log-guardian incident-sim)");
  ("incidentsRisk", "Risk");
  ("incidentsDetail", "Detay");
  ("incidentsTimeline", "Zaman çizelgesi");
  ("incidentsFirstSeen", "İlk sinyal");
  ("incidentsLastSeen", "Son sinyal");
  ("incidentsSignals", "Sinyaller");
  ("incidentsLogHits", "Log isabeti");
  ("incidentsClose", "Kapat");
  ("fpPanelWarmup", "FP öğrenme ısınıyor — 30 gün / ~100 temiz örnekten sonra false alarm düşer");
  ("fpPanelColdStart", "Soğuk başlangıç — FP trust kapalı veya yeni kurulum; birkaç gün temiz trafikten sonra EMA güvenilir olur");
  ("fpPanelEma", "Temiz IP EMA");
  ("fpPanelTrusted", "güvenilir");
  ("fpPanelSuppressed", "bastırılan");
  ("copilotEvidence", "Kanıt")].
Definition dict_tr_4 : list (jstring * jstring) := [
  ("copilotSuggested", "Önerilen aksiyon");
  ("copilotRagTitle", "RAG kanıt paketi");
  ("copilotRagLines", "satır kanıt");
  ("copilotRagEmpty", "events.db / attack tree yok — copilot_rag_collect çalıştırın");
  ("reportsLoading", "Denetim verisi derleniyor…");
  ("reportsError", "Uyumluluk raporu yüklenemedi.");
  ("opsMetricsTitle", "Canlı operasyon metrikleri");
  ("opsMetricsTrend", "trend");
  ("opsMetricsAlertsBans", "Alarm & ban");
  ("opsMetricsThroughput", "Log hacmi");
  ("opsMetricsSnapshot", "Anlık snapshot");
  ("opsMetricsOffline", "Prometheus/analyzer erişilemiyor");
  ("opsMetricsFull", "tam panel");
  ("grafanaEmbedTitle", "Grafana — tam operasyon paneli");
  ("grafanaEmbedOpen", "Yeni sekmede aç");
  ("grafanaEmbedHint", "Prometheus + alert kuralları — bash scripts/dashboard_stack.sh");
  ("grafanaEmbedLoading", "Grafana yükleniyor…");
  ("grafanaMiniTitle", "Canlı operasyon grafikleri");
  ("grafanaMiniSubtitle", "Log Guardian Prometheus metrikleri — Grafana'dan önce kendi panellerimiz");
  ("grafanaMiniLink", "Tam Grafana panosu");
  ("grafanaMiniOffline", "Prometheus erişilemiyor — bash scripts/dashboard_stack.sh");
  ("grafanaMiniAuth", "Oturum süresi doldu — çıkış yapıp tekrar giriş yapın");
  ("grafanaMiniTable", "Anlık metrikler (tablo)");
  ("grafanaStatLines", "Log satırı");
  ("grafanaStatBanOk", "Ban başarı");
  ("grafanaStatBanFail", "Ban hata");
  ("grafanaStatParseErr", "Parse hatası");
  ("grafanaStatEps", "EPS (canlı)");
  ("grafanaStatEpsPeak", "EPS (tepe)");
  ("grafanaStatEpsPeakHint", "smoke pk {peak}");
  ("grafanaStatXdp", "XDP");
  ("grafanaStatUniqueIps", "Benzersiz IP");
  ("grafanaStatRingbuf", "Ringbuf drop");
  ("grafanaTelegramSection", "Telegram operatör (Ack)");
  ("grafanaTelegramAck", "Telegram Ack (24h)");
  ("grafanaTelegramUnacked", "Telegram Unacked (24h)");
  ("grafanaTelegramRoute", "Route");
  ("grafanaTelegramBatch", "Batch");
  ("grafanaTelegramQueue", "Kuyruk");
  ("grafanaTelegramLinkOps", "Webhook panel");
  ("grafanaQuietHours", "Sessiz saat");
  ("grafanaQuietActive", "Sessiz aktif");
  ("grafanaSocSection", "SOC — tehdit · FP · ban hattı · JA3");
  ("grafanaSocJa3Clusters", "JA3 cluster");
  ("grafanaSocJa3Bans", "Cluster ban");
  ("grafanaSocDistRiskBuckets", "DIST risk bucket");
  ("grafanaSocDistRiskBonus", "DIST risk bonus");
  ("grafanaSocThreatIocs", "Threat IOC");
  ("grafanaSocThreatSyncAge", "Threat sync yaşı");
  ("grafanaSocThreatApplied", "Threat uygulandı");
  ("grafanaSocThreatFailed", "Threat hata");
  ("grafanaSocFpTrusted", "FP güvenilir");
  ("grafanaSocFpLearn", "FP learn");
  ("grafanaSocFpSuppressed", "FP bastırılan");
  ("grafanaSocBpIpc", "Ban IPC");
  ("grafanaSocBpXdp", "Ban XDP");
  ("grafanaSocBpIpset", "Ban ipset");
  ("grafanaSocBpFailed", "Ban fail");
  ("grafanaApiRequests", "API istek");
  ("grafanaApiAuthFail", "API 403");
  ("grafanaApiRateLimited", "API rate limit");
  ("grafanaWebhookSection", "Webhook teslimat");
  ("grafanaWebhookSent", "Gönderildi");
  ("grafanaWebhookFail", "Hata");
  ("grafanaWebhookDrops", "Kuyruk drop");
  ("grafanaChartEps", "EPS (gauge)");
  ("grafanaChartHttp", "HTTP 4xx / 5xx");
  ("grafanaChartAlertRate", "Alarm oranı");
  ("grafanaChartBanRate", "Ban başarı / hata");
  ("grafanaChartParseRate", "Parse hatası oranı");
  ("grafanaChartBanPipeline", "Ban pipeline yolları");
  ("grafanaSourcePrometheus", "Prometheus");
  ("grafanaSourceDirect", ":9091 canlı");
  ("grafanaRange1h", "1 sa");
  ("grafanaRange6h", "6 sa");
  ("grafanaUpdated", "Güncellendi");
  ("grafanaRangeLoading", "Grafik yükleniyor…");
  ("testsSectionTitle", "Yaptığımız Testler");
  ("testsTotalLabel", "test");
  ("testsSectionSubtitle", "Her çalıştırmada ölçülebilir kanıt — pazarlama vaadi değil, rapor.");
  ("testsPageTitle", "Doğrulama testleri");
  ("testsPageSubtitle", "Ürün iddialarımızın arkasındaki otomatik test raporları.");
  ("testsHint", "Test raporu yok — STABILITY=1 bash scripts/full_proof_pack.sh");
  ("testsRefreshHint", "Raporlar repo kökünden üretilir: STABILITY=1 bash scripts/full_proof_pack.sh · günlük: bash scripts/dashboard_refresh.sh");
  ("testsViewAll", "Tüm testler");
  ("testsBackHome", "Ana sayfaya dön");
  ("testStatusPass", "Geçti");
  ("testStatusFail", "Kaldı");
  ("testStatusWarn", "Uyarı");
  ("testStatusPending", "Bekliyor");
  ("testNoDate", "tarih yok");
  ("testGateDocLink", "Runbook");
  ("testsDownloadPdf", "Kanıt PDF");
  ("testsProofPackCmd", "STABILITY=1 bash scripts/full_proof_pack.sh");
  ("testsProofPackTitle", "Tam kanıt paketi (Track A+B)");
  ("testsProofPackCopied", "Komut kopyalandı");
  ("competitiveProofTitle", "Technical evidence brief (EN)");
  ("competitiveProofDownload", "PDF indir");
  ("testsSprintHint", "Üret: bash scripts/sprint_a.sh");
  ("testsFilterAll", "Tümü");
  ("testsFilterPass", "Geçen");
  ("testsFilterFail", "Kalan");
  ("testsFilterWarn", "Uyarı");
  ("testsFilterPending", "Bekleyen");
  ("testsAllPassedTitle", "Tüm doğrulama testleri geçti");
  ("testsAllPassedSubtitle", "ölçülebilir kanıt raporu — pazarlama vaadi değil, JSON/PDF.");
  ("testsVpsSoakBannerTitle", "VPS 72h soak kanıtı — SSH ile çekildi (sunucuya dokunulmadı)");
  ("testsVpsSoakSamples", "örnek");
  ("testsProofDriftFixed", "drift düzeltildi");
  ("testsSearchPlaceholder", "Test ara…");
  ("testsNoResults", "Eşleşen test yok");
  ("bannedIpsSearchPlaceholder", "IP filtrele…");
  ("bannedIpsSearchEmpty", "Bu IP aktif ban listesinde yok.");
  ("bannedIpsSearchMatches", "eşleşme");
  ("bannedIpsTotalActive", "aktif ban");
  ("paginationPrev", "Önceki");
  ("paginationNext", "Sonraki")].
Definition dict_tr : list (jstring * jstring) := dict_tr_1 ++ dict_tr_2 ++ dict_tr_3 ++ dict_tr_4.
Definition dict_en_1 : list (jstring * jstring) := [
  ("brand", "Linux Log Guardian");
  ("navFleet", "Fleet");
  ("navBans", "Banned IPs");
  ("navReports", "Reports");
  ("navCopilot", "Assistant");
  ("navLineage", "Lineage");
  ("navTests", "Tests");
  ("navAttackMap", "Map");
  ("siemLive", "SIEM live");
  ("fleetTitle", "Fleet Command Center");
  ("fleetSubtitle", "Live telemetry and protection status");
  ("globalEps", "Global EPS");
  ("rcePrevented", "RCE blocked");
  ("activeTarpits", "Active tarpits");
  ("k8sIsolated", "K8s isolated");
  ("tlsDecrypted", "TLS decrypted");
  ("etcdPeers", "Etcd peers");
  ("nodesOnline", "nodes online");
  ("tenantSegments", "Tenant segments");
  ("allTenants", "All tenants");
  ("chartsEps", "EPS distribution");
  ("chartsAlerts", "Alert summary");
  ("chartsAgents", "Agent status");
  ("copilotTitle", "Security Assistant");
  ("copilotWelcome", "Hello. I have access to fleet telemetry. Ask about threats, bans, or system health.");
  ("copilotPlaceholder", "Ask about threats, IPs, or system health…");
  ("copilotContext", "Live context");
  ("copilotQuick", "Quick prompts");
  ("copilotSummarize", "Summarize threat landscape");
  ("copilotRce", "Analyze recent RCE attempts");
  ("copilotExec", "Generate executive summary");
  ("copilotProcessing", "Analyzing…");
  ("copilotOffline", "Ollama optional; rules-based Copilot when offline — docs/COPILOT_LLM.md");
  ("lineageCritical", "Lineage critical");
  ("lineageTitle", "eBPF Attack Tree");
  ("lineageSubtitle", "Live eBPF chain — openat · execve · connect (kernel)");
  ("lineageTrees", "Trees");
  ("lineageHighRisk", "High risk");
  ("lineageEmpty", "No live attack tree");
  ("lineageEmptyHint", "sudo ./log-guardian-daemon — /run/log-guardian/attack_tree.json");
  ("lineagePreviewHint", "Preview only: /attack-tree?preview=1");
  ("lineageRisk", "Risk");
  ("lineageGraph", "Graph");
  ("lineageTimeline", "Timeline");
  ("lineageBadgeLive", "eBPF Live");
  ("lineageBadgePreview", "Preview");
  ("lineageBadgeDemo", "Preview");
  ("banApprove", "Ban approval");
  ("approveBan", "Approve and ban");
  ("cancel", "Cancel");
  ("fleetCommand", "Fleet command");
  ("fleetDispatchTitle", "Fleet command dispatch");
  ("fleetDispatchForm", "Dispatch command");
  ("fleetDispatchHistory", "Command history");
  ("fleetDispatchSend", "Dispatch command");
  ("fleetDispatchLink", "Advanced command center");
  ("fleetCommandDesc", "The IP you enter will be banned at kernel level on selected agents.");
  ("banIpPlaceholder", "IP address (e.g. 1.2.3.4)");
  ("executeBan", "Execute ban");
  ("banConfirm", "Block {ip} at kernel level?");
  ("banShort", "Ban");
  ("unbanIp", "Unban IP");
  ("unbanShort", "Unban");
  ("banSuccess", "IP blocked at kernel level");
  ("unbanSuccess", "IP unblocked");
  ("ipBanned", "Banned");
  ("ipBannedShort", "Banned");
  ("ipBannedHint", "Click to unban");
  ("banQueuedOnly", "Queued — applies when agent is online");
  ("banFailed", "Ban request failed");
  ("banToastHint", "Dashboard ban → immediate ipset/XDP (fleet queue as backup)");
  ("bannedIpsTitle", "Banned IPs");
  ("bannedIpsEmpty", "No active bans — ban an attacker IP or use attack tree.");
  ("bannedIpsPreview", "Preview");
  ("bannedIpsProofMode", "Proof preview");
  ("bannedIpsLiveMode", "Live ipset");
  ("bannedIpsProofDesc", "Live ipset empty — IPs from proof reports (same source as attack map). Use manual ban or attack replay for real blocks.");
  ("bannedIpsProofOnly", "Proof");
  ("kpiSnapshotHint", "lineage snapshot (no live fleet)");
  ("bannedIpsLoading", "Loading ban list…");
  ("bannedIpsRefresh", "Refresh");
  ("bannedIpsRefreshing", "Refreshing…");
  ("bannedIpsSource", "Source");
  ("attackMapTitle", "Attack map");
  ("attackMapSubtitle", "Geographic origin of banned and active incident IPs (live refresh)");
  ("attackMapLoading", "Loading locations…");
  ("attackMapEmpty", "No attacker IPs to show yet — ban an IP or trigger an incident.");
  ("attackMapRefresh", "Refresh");
  ("attackMapError", "Could not load geo data — ATTACK_GEO_LOOKUP=0 or network restriction.");
  ("attackMapBanned", "Banned IP");
  ("attackMapIncident", "Active incident");
  ("attackMapDragHint", "Drag to rotate · scroll to zoom");
  ("attackMapGeoPartial", "{shown} / {total} IPs on map (RFC5737 demo sources spread globally)");
  ("attackMapReportSource", "Proof report (no live bans)");
  ("attackMapLive", "Live");
  ("attackMapSocLink", "SOC timeline");
  ("attackMapLegendBan", "Ban");
  ("attackMapLegendIncident", "Incident");
  ("attackMapLegendAck", "Telegram ack");
  ("attackMapAck", "Operator ack");
  ("attackMapGeoOff", "Geo lookup off");
  ("attackMapBansFrom", "Ban source");
  ("attackMapRisk", "Risk");
  ("attackMapLegendArc", "Attack direction");
  ("attackMapLegendSource", "Source IP");
  ("attackMapLegendDefender", "Your server (target)");
  ("attackMapDefenderLabel", "YOUR SERVER");
  ("attackMapDefenderHint", "◀ target");
  ("attackMapArcFlow", "Animated line from orange/red source to cyan target = attack flow");
  ("attackMapClickBans", "Click → filter in Banned IPs");
  ("attackMapFilterAll", "All");
  ("attackMapFilterNoMatch", "No pins for this filter.");
  ("attackMapFilterTimelineOnly", "Lineage and WAF live in the SOC timeline only — map shows ban · incident · Telegram ack.");
  ("socTimelineTitle", "SOC timeline");
  ("socTimelineExportCsv", "Export CSV");
  ("webhookOpsTitle", "Webhook / Telegram");
  ("webhookOpsSubtitle", "P2 batch summary · CRIT/ban instant · WARN merged in window");
  ("webhookOpsRoute", "Route (#waf/#ban)");
  ("webhookOpsBatch", "Batch window");
  ("webhookOpsBatchOff", "off");
  ("webhookOpsBatchHint", "WARN/INFO in one message");
  ("webhookOpsAck", "Ack 24h");
  ("webhookOpsAckHint", "ack / unacked");
  ("webhookOpsQueue", "Queue");
  ("webhookOpsQuiet", "Quiet hours active");
  ("webhookOpsProof", "Proof report")].
Definition dict_en_2 : list (jstring * jstring) := [
  ("webhookOpsProdE2eOk", "Prod chain verified — log → WAF → ban → Telegram");
  ("webhookOpsUndoE2eOk", "Operator undo verified — WL/mute revert (poll uninterrupted)");
  ("webhookOpsSent", "Sent");
  ("webhookOpsFail", "Failed");
  ("webhookOpsDrops", "Queue drops");
  ("webhookOpsDropsHint", "High drops — counters reset on restart; if live queue is 0 this is historical");
  ("webhookOpsDropsRunbook", "Reset drops: sudo log-guardian webhook-metrics-reset —");
  ("webhookOpsDropsDocLink", "WEBHOOK_SETUP.md");
  ("webhookOpsDropsTestLink", "webhook-route-proof test");
  ("edgeProtectionTitle", "Edge protection");
  ("edgeProtectionSubtitle", "nginx rate limit · log format · XDP/ipset ban · threat intel summary");
  ("edgeGateOk", "Edge gate passed");
  ("edgeGateLink", "edge-protection-gate");
  ("edgeProofMode", "Proof");
  ("edgeStatIpc", "IPC");
  ("edgeStatXdp", "XDP / ipset");
  ("edgeStatNginx", "nginx");
  ("edgeStatIpset", "ipset");
  ("edgeStatRelayLan", "relay LAN");
  ("edgeStatEpsSmoke", "EPS smoke");
  ("edgeXdpKernel", "kernel-XDP");
  ("edgeXdpIpset", "ipset-fallback");
  ("edgeWifiHint", "Wi‑Fi — expected");
  ("edgeSocLinks", "SOC filter");
  ("edgeSocBan", "Ban");
  ("edgeSocAck", "Ack");
  ("edgeSocLineage", "Lineage");
  ("edgeGateFail", "Edge gate");
  ("edgeThreatSummary", "Threat intel summary");
  ("edgeBansActive", "Active bans");
  ("edgeBansDbHint", "SQLite total (historical) — live ipset matches nav badge");
  ("edgeBanDbRows", "ban_events DB");
  ("edgeBanDbLink", "intel-ban-db");
  ("edgeBanDbRunbook", "Prune: sudo log-guardian ban-db-prune --ttl-days 7 · Grafana lg-ban-db-size");
  ("edgeBanDbStale", "stale rows");
  ("edgeBanDbStaleHint", "Rows past TTL — Sunday cron or sudo log-guardian ban-db-prune --ttl-days 7");
  ("edgeChecklistTitle", "Edge checklist (laptop)");
  ("edgeChecklistWarn", "warn");
  ("edgeE9Title", "E9 runbook");
  ("edgeE9Link", "ENTERPRISE_SUPPORT");
  ("e9RunbookTitle", "Enterprise E9 runbook");
  ("e9RunbookSubtitle", "Laptop operator gates — synced from proof JSON");
  ("e9RunbookPass", "E9 OK");
  ("e9RunbookFail", "E9 incomplete");
  ("e9RunbookEmpty", "enterprise-e9-verify-report.json missing — run bash scripts/enterprise_e9_verify.sh");
  ("e9CheckCompetitiveProof", "Competitive proof");
  ("e9CheckEnterpriseEscalation", "Enterprise escalation");
  ("e9CheckEdgeChecklist", "Edge checklist");
  ("e9CheckRelayLan", "Relay LAN");
  ("e9CheckMorningOperator", "Morning operator");
  ("e9CheckEpsSmoke", "EPS smoke");
  ("e9CheckDocsConsistency", "Docs consistency");
  ("e9CheckVpsPrep", "VPS prep");
  ("e9CheckVpsRemote", "VPS remote (SSH)");
  ("fleetDispatchShadowHint", "SSH watch nodes are not command targets");
  ("morningOpsTitle", "Morning operator — readiness");
  ("morningOpsSubtitle", "Fast gate — no demo run, non-destructive");
  ("morningOpsPass", "Morning OK");
  ("morningOpsFail", "Morning incomplete");
  ("morningOpsEmpty", "morning-operator-gate-report.json missing — run bash scripts/morning_operator_gate.sh");
  ("morningOpsRefresh", "Refresh");
  ("morningOpsStale", "Stale proof");
  ("morningOpsEpsHint", "EPS smoke — live charts · sudo bash scripts/webhook_nginx_eps_smoke.sh");
  ("morningOpsEpsOkPrefix", "EPS smoke proof — peak");
  ("morningCheckCore", "Laptop core");
  ("morningCheckShip", "Presentation ship");
  ("morningCheckDashboard", "Dashboard");
  ("morningCheckAttackMap", "Attack map parity");
  ("morningCheckTelegram", "Telegram SOC");
  ("morningCheckProofFresh", "Proof freshness");
  ("morningCheckEpsSmoke", "EPS smoke");
  ("testsVpsSoakJump", "Jump to soak card");
  ("testsMorningBannerTitle", "Morning operator gate passed");
  ("testsMorningBannerJump", "Jump to morning card");
  ("testsEpsSmokeBannerTitle", "EPS smoke — nginx tail + WAF + Telegram proof");
  ("testsEpsSmokeBannerJump", "Live ops charts");
  ("opsGatesTitle", "Operator gates");
  ("opsTabMorning", "Morning");
  ("opsTabFleet", "Fleet");
  ("opsTabVps", "VPS prep");
  ("opsTabVpsLive", "VPS prod");
  ("opsTabE9", "E9");
  ("opsStripMorning", "morning");
  ("opsStripFleet", "fleet");
  ("opsStripVps", "vps");
  ("opsStripVpsHandsOff", "vps hands-off");
  ("opsStripE9", "e9");
  ("opsStripRelay", "relay LAN");
  ("opsStripEps", "eps");
  ("opsStripEpsSmoke", "eps smoke");
  ("opsStripEpsLivePeak", "eps {live}·pk{peak}");
  ("lineageL7Title", "Wasm · L7 · Lineage");
  ("lineageL7Subtitle", "Optional layer — native plugin, eBPF L7 probe, syscall lineage");
  ("socTimelineSubtitle", "Incident · WAF · ban · Telegram ack · eBPF lineage — unified stream");
  ("socTimelineLive", "Live");
  ("socTimelineLivePartial", "Live (partial)");
  ("socTimelinePreview", "Proof preview");
  ("socTimelineSources", "Sources");
  ("socTimelineFlow", "Newest → older (flows down)");
  ("socTimelineAttackTree", "Attack tree");
  ("socKindIncident", "Incident");
  ("socKindBan", "Ban");
  ("socKindLineage", "Lineage");
  ("socKindWaf", "WAF");
  ("socKindAck", "Telegram ack");
  ("socTimelineEmpty", "No events yet — bans and incidents will appear here.");
  ("socFilterAll", "All");
  ("socFilterNoMatch", "No events for this filter.");
  ("socFilterMapLink", "Map ↑");
  ("socShowOnMap", "Show on map");
  ("socFilterLinked", "Map ↔ timeline synced");
  ("socAckChipHint", "Telegram ack count includes historical events; the map shows active ack IP pins only.");
  ("socBanParityHint", "Ban count matches nav badge and ipset.");
  ("socScrollHint", "events — scroll down");
  ("socMapParityHint", "Ban count: nav = ipset = map");
  ("bannedIpsScrollHint", "Scroll the list — not all bans may be visible at once");
  ("bannedIpsPageDesc", "Active blocks on ipset/XDP (live)");
  ("bannedIpsManualBan", "Manual IP ban");
  ("bansTelegramOpsTitle", "Telegram operator");
  ("bansTelegramOpsDesc", "Wrong WL / mute tap — run SIGUSR2 undo on host terminal (poll stays up).");
  ("bansTelegramAcked", "Acked");
  ("bansTelegramNoAck", "No Telegram ack on record for this IP.");
  ("bansTelegramCopy", "Copy");
  ("bansTelegramCopied", "Copied");
  ("bansTelegramUndoHint", "may need sudo")].
Definition dict_en_3 : list (jstring * jstring) := [
  ("bansTelegramLiveBan", "Currently on kernel ban list");
  ("bansTelegramNotBanned", "Not banned now (ack history may remain)");
  ("banApiOpsTitle", "Ban API — relay & SOAR mTLS");
  ("banApiOpsDesc", "Ban path: host :8090 → host-api-bridge (docker0) → relay :18090 / metrics :19091 → Docker. SOAR :9443 (mTLS).");
  ("banApiOpsTestsLink", "mTLS test card");
  ("banApiHost", "host");
  ("banApiBridge", "bridge");
  ("banApiRelay", "relay");
  ("banApiRelayLan", "LAN");
  ("banApiMetrics", "metrics");
  ("banApiDocker", "docker");
  ("banApiSoarOn", "mTLS on");
  ("banApiSoarEnabledNoVerify", "on (unverified)");
  ("banApiSoarOff", "off");
  ("banApiSmokePass", "dashboard_ban_smoke passed");
  ("banApiCopyEnable", "Copy enable command");
  ("banApiCopied", "Copied");
  ("banApiRefresh", "Refresh");
  ("banApiCopySoarCurl", "Copy SOAR curl");
  ("banApiMtlsExpiry", "mTLS cert");
  ("fleetOpsTitle", "Fleet — offline gate & report");
  ("fleetOpsDesc", "fleet_offline_gate report: agent heartbeat freshness. STRICT=0 continues with WARN on laptop.");
  ("fleetOpsTestsLink", "offline gate test card");
  ("fleetOpsGate", "gate");
  ("fleetOpsOnline", "online");
  ("fleetOpsLive", "live");
  ("fleetOpsReport", "report");
  ("fleetOpsRefresh", "Refresh");
  ("fleetOpsCopyRefresh", "Copy refresh command");
  ("fleetOpsCopyPrune", "Copy prune command");
  ("fleetOpsCopyPruneDemo", "Copy demo prune (30m)");
  ("fleetOpsPruneDemoHint", "Quick cleanup after E2E — prod cron uses 48h");
  ("fleetOpsCopied", "Copied");
  ("fleetOpsPrune", "pending");
  ("fleetOpsPruneHint", "Stuck delivered/pending commands (executed=false)");
  ("fleetOpsPruneStale", "Stale >48h commands — run fleet_prune_pending_commands.sh");
  ("fleetRemoteMonitor", "SSH watch");
  ("fleetRemoteLastPull", "SSH report pull (hands-off)");
  ("fleetOpsReportStale", "JSON report snapshot differs from live heartbeat — refresh with fleet_multi_node_e2e");
  ("fleetOpsReportStaleShort", "snapshot");
  ("vpsPrepTitle", "VPS prep — when server arrives");
  ("vpsPrepTitleLive", "VPS prod — monitoring (hands-off)");
  ("vpsPrepDesc", "Laptop prep gate: install, XDP eth0, post_install. Report-only until VPS exists.");
  ("vpsPrepDescLive", "VPS is live — 72h soak done. SSH report pull only; no server changes.");
  ("vpsPrepDocLink", "VPS_SETUP");
  ("vpsPrepTestsLink", "/tests");
  ("vpsPrepRefresh", "Refresh");
  ("vpsPrepCopyGate", "Copy gate command");
  ("vpsPrepCopied", "Copied");
  ("vpsPrepPaused", "P4 VPS — intentionally waiting");
  ("vpsPrepRemote", "remote");
  ("vpsPrepRemoteLive", "VPS SSH live — soak/XDP report");
  ("vpsPrepRemoteAuthFail", "key required");
  ("vpsPrepRemoteHostUp", "port open");
  ("vpsPrepRemoteAuthHint", "VPS is up — no SSH key from this laptop. Add with ssh-copy-id.");
  ("vpsPrepRemoteNeedKey", "SSH key missing — VPS is running");
  ("vpsPrepCopyRemote", "Copy remote status command");
  ("vpsPrepCopySshKey", "Copy ssh-copy-id");
  ("vpsPrepRemoteHint", ".cache/vps-production.env or VPS_HOST");
  ("vpsPrepSoak", "soak");
  ("vpsPrepSoakWatch", "watch");
  ("vpsPrepSoakProof", "proof ✓");
  ("vpsPrepHandsOff", "VPS hands-off — 72h soak done, monitoring only");
  ("bannedIpsEmptyHint", "List empty — sync host API (8090) or run sync_dashboard_data.sh");
  ("bannedIpsAlsoOn", "Also on:");
  ("bannedIpsSocLink", "SOC timeline");
  ("bannedIpsTestsLink", "Validation tests");
  ("guardianNodes", "Guardian nodes");
  ("clearFilter", "clear filter");
  ("noAgents", "No agents connected to the command center.");
  ("noAgentsTenant", "No agents for this tenant.");
  ("startAgentHint", "Start an agent with SAAS_ENABLED=1.");
  ("tryOtherTenant", "Try another tenant.");
  ("lastSeenAgo", "Last seen");
  ("agentOfflineQueue", "Offline — ban commands are queued");
  ("fleetOfflineBanner", "nodes offline — commands wait in queue");
  ("fleetOfflineBannerWithPending", "nodes offline — {n} commands queued");
  ("fleetOfflineBannerStale", "nodes offline — stale heartbeat; refresh with fleet_multi_node_e2e");
  ("epsLiveMetrics", "Live :9091 metrics");
  ("grafanaMiniZeroHint", "Counters are zero — service restarted or no log flow yet. Live demo: sudo bash scripts/webhook_nginx_eps_smoke.sh · binary: sudo bash scripts/upgrade_log_guardian_binary.sh");
  ("grafanaMiniZeroHintWithBans", "{n} active bans in ipset — log counters only are zero (post-restart). Live charts: sudo bash scripts/webhook_nginx_eps_smoke.sh");
  ("grafanaMiniZeroHintWithSmoke", "Counters 0 after restart · ipset bans={n} · EPS smoke peak={peak} still valid (re-run smoke for live flow)");
  ("grafanaEpsSmokeBanner", "EPS smoke proof — nginx tail + WAF + Telegram");
  ("tenantsCount", "tenants");
  ("uprobeActive", "Uprobe active");
  ("noUprobe", "No uprobe data");
  ("raftConsensus", "Raft consensus");
  ("disconnected", "Disconnected");
  ("globalAlerts", "Total alerts");
  ("globalRceKills", "RCE blocks");
  ("fpPanelTitle", "False positive rate");
  ("fpPanelRate", "benign log FP");
  ("fpPanelBenign", "Benign traffic");
  ("fpPanelAttack", "Attack test");
  ("benchTitle", "Performance proof");
  ("benchKpi", "Competitive metrics");
  ("benchEps", "EPS");
  ("benchBanMs", "Ban latency");
  ("benchFpPct", "FP %");
  ("benchHint", "No metrics — run bash scripts/competitive_suite.sh");
  ("benchLiveEps", "Live EPS");
  ("benchFalcoRules", "Falco rules");
  ("benchL7Probe", "L7 eBPF");
  ("benchL7Hits", "HTTP events");
  ("benchPerLine", "line");
  ("incidentsTitle", "Active incidents");
  ("incidentsLive", "Live API");
  ("incidentsSnapshot", "Proof snapshot");
  ("incidentsEmptySource", "Empty");
  ("lineageL7Preview", "Bench preview");
  ("incidentsEmpty", "No open incidents (./log-guardian incident-sim)");
  ("incidentsRisk", "Risk");
  ("incidentsDetail", "Detail");
  ("incidentsTimeline", "Timeline");
  ("incidentsFirstSeen", "First signal");
  ("incidentsLastSeen", "Last signal");
  ("incidentsSignals", "Signals");
  ("incidentsLogHits", "Log hits");
  ("incidentsClose", "Close");
  ("fpPanelWarmup", "FP learn warming up — false alarms drop after ~30 days / 100 clean samples");
  ("fpPanelColdStart", "Cold start — FP trust off or fresh install; EMA stabilizes after a few days of clean traffic");
  ("fpPanelEma", "Clean IP EMA");
  ("fpPanelTrusted", "trusted");
  ("fpPanelSuppressed", "suppressed");
  ("copilotEvidence", "Evidence")].
Definition dict_en_4 : list (jstring * jstring) := [
  ("copilotSuggested", "Suggested action");
  ("copilotRagTitle", "RAG evidence pack");
  ("copilotRagLines", "evidence lines");
  ("copilotRagEmpty", "No events.db / attack tree — run copilot_rag_collect");
  ("reportsLoading", "Compiling audit data…");
  ("reportsError", "Failed to load compliance report.");
  ("opsMetricsTitle", "Live operations metrics");
  ("opsMetricsTrend", "trend");
  ("opsMetricsAlertsBans", "Alerts & bans");
  ("opsMetricsThroughput", "Log volume");
  ("opsMetricsSnapshot", "Instant snapshot");
  ("opsMetricsOffline", "Prometheus/analyzer unreachable");
  ("opsMetricsFull", "full panel");
  ("grafanaEmbedTitle", "Grafana — full ops dashboard");
  ("grafanaEmbedOpen", "Open in new tab");
  ("grafanaEmbedHint", "Prometheus + alerts — bash scripts/dashboard_stack.sh");
  ("grafanaEmbedLoading", "Loading Grafana…");
  ("grafanaMiniTitle", "Live operations charts");
  ("grafanaMiniSubtitle", "Log Guardian Prometheus metrics — our panels before Grafana");
  ("grafanaMiniLink", "Full Grafana dashboard");
  ("grafanaMiniOffline", "Prometheus unreachable — run bash scripts/dashboard_stack.sh");
  ("grafanaMiniAuth", "Session expired — log out and sign in again");
  ("grafanaMiniTable", "Instant metrics (table)");
  ("grafanaStatLines", "Log lines");
  ("grafanaStatBanOk", "Ban success");
  ("grafanaStatBanFail", "Ban fail");
  ("grafanaStatParseErr", "Parse errors");
  ("grafanaStatEps", "EPS (live)");
  ("grafanaStatEpsPeak", "EPS (peak)");
  ("grafanaStatEpsPeakHint", "smoke pk {peak}");
  ("grafanaStatXdp", "XDP");
  ("grafanaStatUniqueIps", "Unique IPs");
  ("grafanaStatRingbuf", "Ringbuf drops");
  ("grafanaTelegramSection", "Telegram operator (Ack)");
  ("grafanaTelegramAck", "Telegram Ack (24h)");
  ("grafanaTelegramUnacked", "Telegram Unacked (24h)");
  ("grafanaTelegramRoute", "Route");
  ("grafanaTelegramBatch", "Batch");
  ("grafanaTelegramQueue", "Queue");
  ("grafanaTelegramLinkOps", "Webhook panel");
  ("grafanaQuietHours", "Quiet hours");
  ("grafanaQuietActive", "Quiet active now");
  ("grafanaSocSection", "SOC — threat · FP · ban path · JA3");
  ("grafanaSocJa3Clusters", "JA3 clusters");
  ("grafanaSocJa3Bans", "Cluster bans");
  ("grafanaSocDistRiskBuckets", "DIST risk buckets");
  ("grafanaSocDistRiskBonus", "DIST risk bonus");
  ("grafanaSocThreatIocs", "Threat IOCs");
  ("grafanaSocThreatSyncAge", "Threat sync age");
  ("grafanaSocThreatApplied", "Threat applied");
  ("grafanaSocThreatFailed", "Threat failed");
  ("grafanaSocFpTrusted", "FP trusted");
  ("grafanaSocFpLearn", "FP learn");
  ("grafanaSocFpSuppressed", "FP suppressed");
  ("grafanaSocBpIpc", "Ban IPC");
  ("grafanaSocBpXdp", "Ban XDP");
  ("grafanaSocBpIpset", "Ban ipset");
  ("grafanaSocBpFailed", "Ban failed");
  ("grafanaApiRequests", "API requests");
  ("grafanaApiAuthFail", "API 403");
  ("grafanaApiRateLimited", "API rate limited");
  ("grafanaWebhookSection", "Webhook delivery");
  ("grafanaWebhookSent", "Sent");
  ("grafanaWebhookFail", "Failed");
  ("grafanaWebhookDrops", "Queue drops");
  ("grafanaChartEps", "EPS (gauge)");
  ("grafanaChartHttp", "HTTP 4xx / 5xx");
  ("grafanaChartAlertRate", "Alert rate");
  ("grafanaChartBanRate", "Ban success vs fail");
  ("grafanaChartParseRate", "Parse error rate");
  ("grafanaChartBanPipeline", "Ban pipeline paths");
  ("grafanaSourcePrometheus", "Prometheus");
  ("grafanaSourceDirect", ":9091 live");
  ("grafanaRange1h", "1h");
  ("grafanaRange6h", "6h");
  ("grafanaUpdated", "Updated");
  ("grafanaRangeLoading", "Loading charts…");
  ("testsSectionTitle", "Our validation tests");
  ("testsTotalLabel", "tests");
  ("testsSectionSubtitle", "Measurable evidence on every run — reports, not marketing claims.");
  ("testsPageTitle", "Validation tests");
  ("testsPageSubtitle", "Automated test reports behind our product claims.");
  ("testsHint", "No test reports — run STABILITY=1 bash scripts/full_proof_pack.sh");
  ("testsRefreshHint", "Reports from repo root: STABILITY=1 bash scripts/full_proof_pack.sh · daily: bash scripts/dashboard_refresh.sh");
  ("testsViewAll", "All tests");
  ("testsBackHome", "Back to home");
  ("testStatusPass", "Passed");
  ("testStatusFail", "Failed");
  ("testStatusWarn", "Warn");
  ("testStatusPending", "Pending");
  ("testNoDate", "no date");
  ("testGateDocLink", "Runbook");
  ("testsDownloadPdf", "Proof PDF");
  ("testsProofPackCmd", "STABILITY=1 bash scripts/full_proof_pack.sh");
  ("testsProofPackTitle", "Full proof pack (Track A+B)");
  ("testsProofPackCopied", "Command copied");
  ("competitiveProofTitle", "Technical evidence brief");
  ("competitiveProofDownload", "Download PDF");
  ("testsSprintHint", "Generate: bash scripts/sprint_a.sh");
  ("testsFilterAll", "All");
  ("testsFilterPass", "Passed");
  ("testsFilterFail", "Failed");
  ("testsFilterWarn", "Warn");
  ("testsFilterPending", "Pending");
  ("testsAllPassedTitle", "All validation tests passed");
  ("testsAllPassedSubtitle", "measurable proof reports — not marketing claims, JSON/PDF.");
  ("testsVpsSoakBannerTitle", "VPS 72h soak proof — pulled via SSH (no server changes)");
  ("testsVpsSoakSamples", "samples");
  ("testsProofDriftFixed", "drift corrected");
  ("testsSearchPlaceholder", "Search tests…");
  ("testsNoResults", "No matching tests");
  ("bannedIpsSearchPlaceholder", "Filter IP…");
  ("bannedIpsSearchEmpty", "This IP is not in the active ban list.");
  ("bannedIpsSearchMatches", "matches");
  ("bannedIpsTotalActive", "active bans");
  ("paginationPrev", "Previous");
  ("paginationNext", "Next")].
Definition dict_en : list (jstring * jstring) := dict_en_1 ++ dict_en_2 ++ dict_en_3 ++ dict_en_4.
Definition dict_de : list (jstring * jstring) := [
  ("brand", "Linux Log Guardian");
  ("navFleet", "Flotte");
  ("navBans", "Gesperrte IPs");
  ("navReports", "Berichte");
  ("navCopilot", "Assistent");
  ("navLineage", "Lineage");
  ("navAttackMap", "Karte");
  ("siemLive", "SIEM live");
  ("fleetTitle", "Flotten-Kommandozentrale");
  ("fleetSubtitle", "Live-Telemetrie und Schutzstatus");
  ("globalEps", "Globale EPS");
  ("rcePrevented", "RCE blockiert");
  ("activeTarpits", "Aktive Tarpits");
  ("k8sIsolated", "K8s isoliert");
  ("tlsDecrypted", "TLS entschlüsselt");
  ("etcdPeers", "Etcd-Peers");
  ("nodesOnline", "Knoten online");
  ("tenantSegments", "Mandantensegmente");
  ("allTenants", "Alle Mandanten");
  ("chartsEps", "EPS-Verteilung");
  ("chartsAlerts", "Alarmübersicht");
  ("chartsAgents", "Agentenstatus");
  ("copilotTitle", "Sicherheitsassistent");
  ("copilotWelcome", "Hallo. Ich habe Zugriff auf Flotten-Telemetrie. Fragen Sie zu Bedrohungen oder Bans.");
  ("copilotPlaceholder", "Frage zu Bedrohungen, IPs oder Systemzustand…");
  ("copilotContext", "Live-Kontext");
  ("copilotQuick", "Schnellfragen");
  ("copilotSummarize", "Bedrohungslage zusammenfassen");
  ("copilotRce", "Letzte RCE-Versuche analysieren");
  ("copilotExec", "Management-Zusammenfassung");
  ("copilotProcessing", "Analyse läuft…");
  ("copilotOffline", "Ollama optional; Regelmodus (Flotte + Lineage + RAG) ohne LLM.");
  ("lineageCritical", "Lineage kritisch");
  ("lineageTitle", "eBPF Angriffsbaum");
  ("lineageSubtitle", "Live eBPF-Kette — openat · execve · connect");
  ("lineageTrees", "Bäume");
  ("lineageHighRisk", "Hohes Risiko");
  ("lineageEmpty", "Kein Live-Attack-Tree");
  ("lineageEmptyHint", "sudo ./log-guardian-daemon — /run/log-guardian/attack_tree.json");
  ("lineagePreviewHint", "Vorschau: /attack-tree?preview=1");
  ("lineageRisk", "Risiko");
  ("lineageGraph", "Graph");
  ("lineageTimeline", "Zeitachse");
  ("lineageBadgeLive", "eBPF Live");
  ("lineageBadgePreview", "Vorschau");
  ("lineageBadgeDemo", "Vorschau");
  ("banApprove", "Ban bestätigen");
  ("approveBan", "Bestätigen und sperren");
  ("cancel", "Abbrechen");
  ("fleetCommand", "Flottenbefehl");
  ("fleetCommandDesc", "Die eingegebene IP wird auf den ausgewählten Agenten auf Kernel-Ebene gesperrt.");
  ("banIpPlaceholder", "IP-Adresse (z. B. 1.2.3.4)");
  ("executeBan", "Sperre ausführen");
  ("banConfirm", "{ip} auf Kernel-Ebene sperren?");
  ("banShort", "Sperre");
  ("unbanIp", "Sperre aufheben");
  ("unbanShort", "Unban");
  ("banSuccess", "IP auf Kernel-Ebene gesperrt");
  ("unbanSuccess", "Sperre aufgehoben");
  ("ipBanned", "Gesperrt");
  ("ipBannedShort", "Gesperrt");
  ("ipBannedHint", "Klicken zum Aufheben");
  ("banQueuedOnly", "In Warteschlange — bei Online-Agent");
  ("banFailed", "Sperre fehlgeschlagen");
  ("banToastHint", "Dashboard-Ban → sofort ipset/XDP");
  ("bannedIpsTitle", "Gesperrte IPs");
  ("bannedIpsEmpty", "Keine aktiven Sperren.");
  ("bannedIpsPreview", "Vorschau");
  ("bannedIpsLoading", "Lade Liste…");
  ("bannedIpsRefresh", "Aktualisieren");
  ("bannedIpsRefreshing", "Aktualisiere…");
  ("bannedIpsSource", "Quelle");
  ("bannedIpsPageDesc", "Aktive Sperren auf ipset/XDP");
  ("bannedIpsManualBan", "Manuelle IP-Sperre");
  ("bannedIpsEmptyHint", "Liste leer — sync_dashboard_data.sh ausführen");
  ("bannedIpsAlsoOn", "Auch auf:");
  ("guardianNodes", "Schutz-Knoten");
  ("clearFilter", "Filter löschen");
  ("noAgents", "Keine Agenten verbunden.");
  ("noAgentsTenant", "Keine Agenten für diesen Mandanten.");
  ("startAgentHint", "Agent mit SAAS_ENABLED=1 starten.");
  ("tryOtherTenant", "Anderen Mandanten wählen.");
  ("tenantsCount", "Mandanten");
  ("uprobeActive", "Uprobe aktiv");
  ("noUprobe", "Keine Uprobe-Daten");
  ("raftConsensus", "Raft-Konsens");
  ("disconnected", "Getrennt");
  ("globalAlerts", "Alarme gesamt");
  ("globalRceKills", "RCE-Blockierungen");
  ("fpPanelTitle", "False-Positive-Rate");
  ("fpPanelRate", "Benign FP");
  ("fpPanelBenign", "Benign Traffic");
  ("fpPanelAttack", "Angriffstest");
  ("benchTitle", "Performance-Nachweis");
  ("benchKpi", "Wettbewerbsmetriken");
  ("benchEps", "EPS");
  ("benchBanMs", "Ban-Latenz");
  ("benchFpPct", "FP %");
  ("benchHint", "Keine Metriken — bash scripts/competitive_suite.sh");
  ("benchLiveEps", "Live-EPS");
  ("benchFalcoRules", "Falco-Regeln");
  ("benchL7Probe", "L7 eBPF");
  ("benchL7Hits", "HTTP-Ereignisse");
  ("benchPerLine", "Zeile");
  ("incidentsTitle", "Aktive Vorfälle");
  ("incidentsEmpty", "Keine offenen Incidents");
  ("incidentsRisk", "Risiko");
  ("copilotEvidence", "Nachweis");
  ("copilotSuggested", "Empfohlene Aktion");
  ("copilotRagTitle", "RAG-Nachweispaket");
  ("copilotRagLines", "Nachweiszeilen");
  ("copilotRagEmpty", "Kein events.db — copilot_rag_collect ausführen");
  ("reportsLoading", "Auditdaten werden zusammengestellt…");
  ("reportsError", "Compliance-Bericht konnte nicht geladen werden.")].
Definition dict_fr : list (jstring * jstring) := [
  ("brand", "Linux Log Guardian");
  ("navFleet", "Flotte");
  ("navBans", "IP bannies");
  ("navReports", "Rapports");
  ("navCopilot", "Assistant");
  ("navLineage", "Lineage");
  ("navAttackMap", "Carte");
  ("siemLive", "SIEM actif");
  ("fleetTitle", "Centre de commandement");
  ("fleetSubtitle", "Télémétrie et protection en direct");
  ("globalEps", "EPS global");
  ("rcePrevented", "RCE bloqués");
  ("activeTarpits", "Tarpits actifs");
  ("k8sIsolated", "K8s isolés");
  ("tlsDecrypted", "TLS déchiffré");
  ("etcdPeers", "Pairs Etcd");
  ("nodesOnline", "nœuds en ligne");
  ("tenantSegments", "Segments locataires");
  ("allTenants", "Tous les locataires");
  ("chartsEps", "Répartition EPS");
  ("chartsAlerts", "Résumé alertes");
  ("chartsAgents", "État des agents");
  ("copilotTitle", "Assistant sécurité");
  ("copilotWelcome", "Bonjour. J'ai accès à la télémétrie de la flotte. Posez vos questions sur les menaces.");
  ("copilotPlaceholder", "Question sur menaces, IP ou santé système…");
  ("copilotContext", "Contexte live");
  ("copilotQuick", "Actions rapides");
  ("copilotSummarize", "Résumer la menace");
  ("copilotRce", "Analyser les tentatives RCE");
  ("copilotExec", "Résumé exécutif");
  ("copilotProcessing", "Analyse…");
  ("copilotOffline", "Ollama optionnel; mode règles (flotte + lignée + RAG) sans LLM.");
  ("lineageCritical", "Lineage critique");
  ("lineageTitle", "Arbre d attaque eBPF");
  ("lineageSubtitle", "Chaîne eBPF live — openat · execve · connect");
  ("lineageTrees", "Arbres");
  ("lineageHighRisk", "Risque élevé");
  ("lineageEmpty", "Pas d'arbre live");
  ("lineageEmptyHint", "sudo ./log-guardian-daemon — /run/log-guardian/attack_tree.json");
  ("lineagePreviewHint", "Aperçu: /attack-tree?preview=1");
  ("lineageRisk", "Risque");
  ("lineageGraph", "Graphe");
  ("lineageTimeline", "Chronologie");
  ("lineageBadgeLive", "eBPF Live");
  ("lineageBadgePreview", "Aperçu");
  ("lineageBadgeDemo", "Aperçu");
  ("banApprove", "Approbation ban");
  ("approveBan", "Approuver et bannir");
  ("cancel", "Annuler");
  ("fleetCommand", "Commande flotte");
  ("fleetCommandDesc", "L'IP saisie sera bannie au niveau noyau sur les agents sélectionnés.");
  ("banIpPlaceholder", "Adresse IP (ex. 1.2.3.4)");
  ("executeBan", "Appliquer le ban");
  ("banConfirm", "Bloquer {ip} au niveau noyau ?");
  ("banShort", "Ban");
  ("unbanIp", "Lever le ban");
  ("unbanShort", "Unban");
  ("banSuccess", "IP bloquée au niveau noyau");
  ("unbanSuccess", "Ban levé");
  ("ipBanned", "Banni");
  ("ipBannedShort", "Banni");
  ("ipBannedHint", "Cliquer pour lever le ban");
  ("banQueuedOnly", "En file — quand l'agent est en ligne");
  ("banFailed", "Échec du ban");
  ("banToastHint", "Ban dashboard → ipset/XDP immédiat");
  ("bannedIpsTitle", "IP bannies");
  ("bannedIpsEmpty", "Aucun ban actif.");
  ("bannedIpsPreview", "Aperçu");
  ("bannedIpsLoading", "Chargement…");
  ("bannedIpsRefresh", "Actualiser");
  ("bannedIpsRefreshing", "Actualisation…");
  ("bannedIpsSource", "Source");
  ("bannedIpsPageDesc", "Blocs actifs ipset/XDP");
  ("bannedIpsManualBan", "Ban IP manuel");
  ("bannedIpsEmptyHint", "Liste vide — lancer sync_dashboard_data.sh");
  ("bannedIpsAlsoOn", "Aussi sur:");
  ("guardianNodes", "Nœuds Guardian");
  ("clearFilter", "retirer le filtre");
  ("noAgents", "Aucun agent connecté.");
  ("noAgentsTenant", "Aucun agent pour ce locataire.");
  ("startAgentHint", "Démarrez un agent avec SAAS_ENABLED=1.");
  ("tryOtherTenant", "Essayez un autre locataire.");
  ("tenantsCount", "locataires");
  ("uprobeActive", "Uprobe actif");
  ("noUprobe", "Pas de données uprobe");
  ("raftConsensus", "Consensus Raft");
  ("disconnected", "Déconnecté");
  ("globalAlerts", "Alertes totales");
  ("globalRceKills", "RCE bloqués");
  ("fpPanelTitle", "Taux de faux positifs");
  ("fpPanelRate", "FP log benignes");
  ("fpPanelBenign", "Trafic benign");
  ("fpPanelAttack", "Test attaque");
  ("benchTitle", "Preuve performance");
  ("benchKpi", "Métriques compétitives");
  ("benchEps", "EPS");
  ("benchBanMs", "Latence ban");
  ("benchFpPct", "FP %");
  ("benchHint", "Pas de métriques — lancez competitive_suite.sh");
  ("benchLiveEps", "EPS live");
  ("benchFalcoRules", "Règles Falco");
  ("benchL7Probe", "L7 eBPF");
  ("benchL7Hits", "événements HTTP");
  ("benchPerLine", "ligne");
  ("incidentsTitle", "Incidents actifs");
  ("incidentsEmpty", "Aucun incident ouvert");
  ("incidentsRisk", "Risque");
  ("copilotEvidence", "Preuve");
  ("copilotSuggested", "Action suggérée");
  ("copilotRagTitle", "Pack de preuves RAG");
  ("copilotRagLines", "lignes de preuve");
  ("copilotRagEmpty", "Pas de events.db — lancer copilot_rag_collect");
  ("reportsLoading", "Compilation des données d'audit…");
  ("reportsError", "Échec du chargement du rapport de conformité.")].
Definition dict_ru : list (jstring * jstring) := [
  ("brand", "Linux Log Guardian");
  ("navFleet", "Флот");
  ("navBans", "Заблокированные IP");
  ("navReports", "Отчёты");
  ("navCopilot", "Ассистент");
  ("navLineage", "Lineage");
  ("navAttackMap", "Карта");
  ("siemLive", "SIEM активен");
  ("fleetTitle", "Центр управления флотом");
  ("fleetSubtitle", "Телеметрия и статус защиты в реальном времени");
  ("globalEps", "Глобальный EPS");
  ("rcePrevented", "RCE заблокировано");
  ("activeTarpits", "Активные tarpit");
  ("k8sIsolated", "K8s изоляция");
  ("tlsDecrypted", "TLS расшифровано");
  ("etcdPeers", "Узлы Etcd");
  ("nodesOnline", "узлов онлайн");
  ("tenantSegments", "Сегменты арендаторов");
  ("allTenants", "Все арендаторы");
  ("chartsEps", "Распределение EPS");
  ("chartsAlerts", "Сводка оповещений");
  ("chartsAgents", "Статус агентов");
  ("copilotTitle", "Ассистент безопасности");
  ("copilotWelcome", "Ассистент Log Guardian. Помогаю с телеметрией флота, анализом угроз, RCE, блокировкой IP и соответствием требованиям.");
  ("copilotPlaceholder", "Спросите об угрозах, IP или состоянии системы…");
  ("copilotContext", "Контекст live");
  ("copilotQuick", "Быстрые вопросы");
  ("copilotSummarize", "Сводка по угрозам");
  ("copilotRce", "Анализ недавних RCE");
  ("copilotExec", "Исполнительная сводка");
  ("copilotProcessing", "Анализ…");
  ("copilotOffline", "Ollama необязателен; без LLM — правила Copilot (флот + lineage + RAG). docs/COPILOT_LLM.md");
  ("lineageCritical", "Lineage критичен");
  ("lineageTitle", "Дерево атак eBPF");
  ("lineageSubtitle", "Цепочка eBPF live — openat · execve · connect (ядро)");
  ("lineageTrees", "Деревья");
  ("lineageHighRisk", "Высокий риск");
  ("lineageEmpty", "Нет live attack tree");
  ("lineageEmptyHint", "sudo ./log-guardian-daemon — /run/log-guardian/attack_tree.json");
  ("lineagePreviewHint", "Предпросмотр: /attack-tree?preview=1 (только демо)");
  ("lineageRisk", "Риск");
  ("lineageGraph", "Граф");
  ("lineageTimeline", "Временная шкала");
  ("lineageBadgeLive", "eBPF Live");
  ("lineageBadgePreview", "Предпросмотр");
  ("lineageBadgeDemo", "Предпросмотр");
  ("banApprove", "Подтверждение бана");
  ("approveBan", "Подтвердить и заблокировать");
  ("cancel", "Отмена");
  ("fleetCommand", "Команда флота");
  ("fleetCommandDesc", "Введённый IP будет заблокирован на уровне ядра на выбранных агентах.");
  ("banIpPlaceholder", "IP-адрес (напр. 1.2.3.4)");
  ("executeBan", "Применить бан");
  ("banConfirm", "Заблокировать {ip} на уровне ядра?");
  ("banShort", "Бан");
  ("unbanIp", "Снять блокировку");
  ("unbanShort", "Unban");
  ("banSuccess", "IP заблокирован на уровне ядра");
  ("unbanSuccess", "Блокировка IP снята");
  ("ipBanned", "Заблокирован");
  ("ipBannedShort", "Заблок.");
  ("ipBannedHint", "Нажмите — снять блокировку");
  ("banQueuedOnly", "В очереди — применится когда агент онлайн");
  ("banFailed", "Не удалось отправить бан");
  ("banToastHint", "Бан из dashboard → сразу ipset/XDP (очередь агента — резерв)");
  ("bannedIpsTitle", "Заблокированные IP");
  ("bannedIpsEmpty", "Нет активных банов — заблокируйте IP атакующего или через attack tree.");
  ("bannedIpsPreview", "Предпросмотр");
  ("bannedIpsLoading", "Загрузка списка банов…");
  ("bannedIpsRefresh", "Обновить");
  ("bannedIpsRefreshing", "Обновление…");
  ("bannedIpsSource", "Источник");
  ("bannedIpsPageDesc", "Активные блокировки ipset/XDP (live)");
  ("bannedIpsManualBan", "Ручная блокировка IP");
  ("bannedIpsEmptyHint", "Список пуст — синхронизируйте host API (8090) или sync_dashboard_data.sh");
  ("bannedIpsAlsoOn", "Также на:");
  ("guardianNodes", "Узлы Guardian");
  ("clearFilter", "сбросить фильтр");
  ("noAgents", "Нет агентов, подключённых к центру управления.");
  ("noAgentsTenant", "Нет агентов для этого арендатора.");
  ("startAgentHint", "Запустите агент с SAAS_ENABLED=1.");
  ("tryOtherTenant", "Выберите другого арендатора.");
  ("tenantsCount", "арендаторов");
  ("uprobeActive", "Uprobe активен");
  ("noUprobe", "Нет данных uprobe");
  ("raftConsensus", "Консенсус Raft");
  ("disconnected", "Отключено");
  ("globalAlerts", "Всего оповещений");
  ("globalRceKills", "Блокировки RCE");
  ("fpPanelTitle", "Доля ложных срабатываний");
  ("fpPanelRate", "FP benign log");
  ("fpPanelBenign", "Легитимный трафик");
  ("fpPanelAttack", "Тест атаки");
  ("benchTitle", "Доказательство производительности");
  ("benchKpi", "Конкурентные метрики");
  ("benchEps", "EPS");
  ("benchBanMs", "Задержка бана");
  ("benchFpPct", "FP %");
  ("benchHint", "Нет метрик — запустите bash scripts/competitive_suite.sh");
  ("benchLiveEps", "Live EPS");
  ("benchFalcoRules", "Правила Falco");
  ("benchL7Probe", "L7 eBPF");
  ("benchL7Hits", "HTTP-события");
  ("benchPerLine", "строка");
  ("incidentsTitle", "Активные инциденты");
  ("incidentsEmpty", "Нет открытых инцидентов (./log-guardian incident-sim)");
  ("incidentsRisk", "Риск");
  ("copilotEvidence", "Доказательства");
  ("copilotSuggested", "Рекомендуемое действие");
  ("copilotRagTitle", "Пакет доказательств RAG");
  ("copilotRagLines", "строк доказательств");
  ("copilotRagEmpty", "Нет events.db / attack tree — запустите copilot_rag_collect");
  ("reportsLoading", "Формирование данных аудита…");
  ("reportsError", "Не удалось загрузить отчёт о соответствии.")].
Definition pack_es : list (jstring * jstring) := [
  ("brand", "Linux Log Guardian");
  ("navFleet", "Flota");
  ("navBans", "IPs bloqueadas");
  ("navReports", "Informes");
  ("navCopilot", "Asistente");
  ("navLineage", "Lineage");
  ("siemLive", "SIEM activo");
  ("fleetTitle", "Centro de mando de flota");
  ("fleetSubtitle", "Telemetría en vivo y estado de protección");
  ("globalEps", "EPS global");
  ("rcePrevented", "RCE bloqueados");
  ("activeTarpits", "Tarpit activos");
  ("bannedIpsTitle", "IPs bloqueadas");
  ("bannedIpsPreview", "Vista previa");
  ("benchTitle", "Prueba de rendimiento");
  ("benchKpi", "Métricas competitivas");
  ("copilotTitle", "Asistente de seguridad");
  ("lineageTitle", "Árbol de ataque eBPF");
  ("reportsLoading", "Compilando datos de auditoría…");
  ("reportsError", "No se pudo cargar el informe de cumplimiento.")].
Definition pack_pt : list (jstring * jstring) := [
  ("brand", "Linux Log Guardian");
  ("navFleet", "Frota");
  ("navBans", "IPs banidos");
  ("navReports", "Relatórios");
  ("navCopilot", "Assistente");
  ("navLineage", "Lineage");
  ("siemLive", "SIEM ativo");
  ("fleetTitle", "Centro de comando da frota");
  ("fleetSubtitle", "Telemetria ao vivo e status de proteção");
  ("globalEps", "EPS global");
  ("rcePrevented", "RCE bloqueados");
  ("activeTarpits", "Tarpits ativos");
  ("bannedIpsTitle", "IPs banidos");
  ("bannedIpsPreview", "Pré-visualização");
  ("benchTitle", "Prova de desempenho");
  ("benchKpi", "Métricas competitivas");
  ("copilotTitle", "Assistente de segurança");
  ("lineageTitle", "Árvore de ataque eBPF");
  ("reportsLoading", "Compilando dados de auditoria…");
  ("reportsError", "Falha ao carregar relatório de conformidade.")].
Definition pack_it : list (jstring * jstring) := [
  ("brand", "Linux Log Guardian");
  ("navFleet", "Flotta");
  ("navBans", "IP bloccati");
  ("navReports", "Report");
  ("navCopilot", "Assistente");
  ("navLineage", "Lineage");
  ("siemLive", "SIEM attivo");
  ("fleetTitle", "Centro comando flotta");
  ("fleetSubtitle", "Telemetria live e stato protezione");
  ("globalEps", "EPS globale");
  ("rcePrevented", "RCE bloccati");
  ("activeTarpits", "Tarpit attivi");
  ("bannedIpsTitle", "IP bloccati");
  ("bannedIpsPreview", "Anteprima");
  ("benchTitle", "Prova prestazioni");
  ("benchKpi", "Metriche competitive");
  ("copilotTitle", "Assistente sicurezza");
  ("lineageTitle", "Albero attacco eBPF");
  ("reportsLoading", "Compilazione dati audit…");
  ("reportsError", "Impossibile caricare il report di conformità.")].
Definition pack_pl : list (jstring * jstring) := [
  ("brand", "Linux Log Guardian");
  ("navFleet", "Flota");
  ("navBans", "Zbanowane IP");
  ("navReports", "Raporty");
  ("navCopilot", "Asystent");
  ("navLineage", "Lineage");
  ("siemLive", "SIEM aktywny");
  ("fleetTitle", "Centrum dowodzenia floty");
  ("fleetSubtitle", "Telemetria na żywo i status ochrony");
  ("globalEps", "Globalne EPS");
  ("rcePrevented", "Zablokowane RCE");
  ("activeTarpits", "Aktywne tarpit");
  ("bannedIpsTitle", "Zbanowane IP");
  ("bannedIpsPreview", "Podgląd");
  ("benchTitle", "Dowód wydajności");
  ("benchKpi", "Metryki konkurencyjne");
  ("copilotTitle", "Asystent bezpieczeństwa");
  ("lineageTitle", "Drzewo ataku eBPF");
  ("reportsLoading", "Przetwarzanie danych audytu…");
  ("reportsError", "Nie udało się załadować raportu zgodności.")].
Definition pack_nl : list (jstring * jstring) := [
  ("brand", "Linux Log Guardian");
  ("navFleet", "Vloot");
  ("navBans", "Geblokkeerde IP's");
  ("navReports", "Rapporten");
  ("navCopilot", "Assistent");
  ("navLineage", "Lineage");
  ("siemLive", "SIEM actief");
  ("fleetTitle", "Vloot commandocentrum");
  ("fleetSubtitle", "Live telemetrie en beschermingsstatus");
  ("globalEps", "Globale EPS");
  ("rcePrevented", "RCE geblokkeerd");
  ("activeTarpits", "Actieve tarpits");
  ("bannedIpsTitle", "Geblokkeerde IP's");
  ("bannedIpsPreview", "Voorbeeld");
  ("benchTitle", "Prestatiebewijs");
  ("benchKpi", "Competitieve metrics");
  ("copilotTitle", "Beveiligingsassistent");
  ("lineageTitle", "eBPF-aanvalsboom");
  ("reportsLoading", "Auditgegevens samenstellen…");
  ("reportsError", "Compliance-rapport laden mislukt.")].
Definition pack_ar : list (jstring * jstring) := [
  ("brand", "Linux Log Guardian");
  ("navFleet", "الأسطول");
  ("navBans", "عناوين IP المحظورة");
  ("navReports", "التقارير");
  ("navCopilot", "المساعد");
  ("navLineage", "Lineage");
  ("siemLive", "SIEM نشط");
  ("fleetTitle", "مركز قيادة الأسطول");
  ("fleetSubtitle", "القياس الحي وحالة الحماية");
  ("globalEps", "EPS العالمي");
  ("rcePrevented", "RCE محظور");
  ("activeTarpits", "Tarpit نشط");
  ("bannedIpsTitle", "عناوين IP المحظورة");
  ("bannedIpsPreview", "معاينة");
  ("benchTitle", "إثبات الأداء");
  ("benchKpi", "مقاييس تنافسية");
  ("copilotTitle", "مساعد الأمن");
  ("lineageTitle", "شجرة الهجوم eBPF");
  ("reportsLoading", "جاري تجميع بيانات التدقيق…");
  ("reportsError", "تعذر تحميل تقرير الامتثال.")].
Definition pack_zh : list (jstring * jstring) := [
  ("brand", "Linux Log Guardian");
  ("navFleet", "机群");
  ("navBans", "已封禁 IP");
  ("navReports", "报告");
  ("navCopilot", "助手");
  ("navLineage", "Lineage");
  ("siemLive", "SIEM 在线");
  ("fleetTitle", "机群指挥中心");
  ("fleetSubtitle", "实时遥测与防护状态");
  ("globalEps", "全局 EPS");
  ("rcePrevented", "已阻止 RCE");
  ("activeTarpits", "活跃蜜罐");
  ("bannedIpsTitle", "已封禁 IP");
  ("bannedIpsPreview", "预览");
  ("benchTitle", "性能证明");
  ("benchKpi", "竞争指标");
  ("copilotTitle", "安全助手");
  ("lineageTitle", "eBPF 攻击树");
  ("reportsLoading", "正在编译审计数据…");
  ("reportsError", "无法加载合规报告。")].
Definition pack_ja : list (jstring * jstring) := [
  ("brand", "Linux Log Guardian");
  ("navFleet", "フリート");
  ("navBans", "BAN IP");
  ("navReports", "レポート");
  ("navCopilot", "アシスタント");
  ("navLineage", "Lineage");
  ("siemLive", "SIEM 稼働中");
  ("fleetTitle", "フリート司令室");
  ("fleetSubtitle", "ライブテレメトリと保護状態");
  ("globalEps", "グローバル EPS");
  ("rcePrevented", "RCE 阻止");
  ("activeTarpits", "アクティブ Tarpit");
  ("bannedIpsTitle", "BAN IP 一覧");
  ("bannedIpsPreview", "プレビュー");
  ("benchTitle", "性能証明");
  ("benchKpi", "競合メトリクス");
  ("copilotTitle", "セキュリティアシスタント");
  ("lineageTitle", "eBPF 攻撃ツリー");
  ("reportsLoading", "監査データを生成中…");
  ("reportsError", "コンプライアンスレポートを読み込めません。")].
Definition pack_ko : list (jstring * jstring) := [
  ("brand", "Linux Log Guardian");
  ("navFleet", "플릿");
  ("navBans", "차단 IP");
  ("navReports", "보고서");
  ("navCopilot", "어시스턴트");
  ("navLineage", "Lineage");
  ("siemLive", "SIEM 활성");
  ("fleetTitle", "플릿 지휘 센터");
  ("fleetSubtitle", "실시간 원격 측정 및 보호 상태");
  ("globalEps", "글로벌 EPS");
  ("rcePrevented", "차단된 RCE");
  ("activeTarpits", "활성 Tarpit");
  ("bannedIpsTitle", "차단 IP");
  ("bannedIpsPreview", "미리보기");
  ("benchTitle", "성능 증명");
  ("benchKpi", "경쟁 지표");
  ("copilotTitle", "보안 어시스턴트");
  ("lineageTitle", "eBPF 공격 트리");
  ("reportsLoading", "감사 데이터 컴파일 중…");
  ("reportsError", "규정 준수 보고서를 불러오지 못했습니다.")].
