(* ===== verification/I18n.v ===== *)
(** Translation (dashboard/src/lib/i18n.ts, i18nExtraLocales.ts) and the language
    the interface is shown in (dashboard/src/components/LanguageProvider.tsx). *)

From S2P Require Import Prelude JsMap JsString Json Dictionary CopilotText.

(** [{ ...base, ...overrides }] *)
Definition xl (base overrides : list (jstring * jstring)) : list (jstring * jstring) :=
  fold_left (λ m kv, put_field kv.1 kv.2 m) overrides base.

Definition extraLocalePacks (base : list (jstring * jstring)) : list (jstring * list (jstring * jstring)) :=
  [("es", xl base pack_es); ("pt", xl base pack_pt); ("it", xl base pack_it); ("pl", xl base pack_pl);
   ("nl", xl base pack_nl); ("ar", xl base pack_ar); ("zh", xl base pack_zh); ("ja", xl base pack_ja);
   ("ko", xl base pack_ko)].

Definition dict_literal : list (jstring * list (jstring * jstring)) :=
  [("tr", dict_tr); ("en", dict_en); ("de", dict_de); ("fr", dict_fr); ("ru", dict_ru)].
(** [Object.assign(dict, extraLocalePacks(dict.en))] *)
Definition dict : list (jstring * list (jstring * jstring)) :=
  fold_left (λ m kv, put_field kv.1 kv.2 m) (extraLocalePacks dict_en) dict_literal.

(** The code of a language, as [LOCALES] lists it. *)
Definition code (l : Lang) : jstring := match l with
  | Ltr => "tr" | Len => "en" | Lde => "de" | Lfr => "fr" | Lru => "ru" | Les => "es" | Lpt => "pt" | Lit => "it"
  | Lpl => "pl" | Lnl => "nl" | Lar => "ar" | Lzh => "zh" | Lja => "ja" | Lko => "ko" end.
Definition MessageKey : list jstring := dict_tr.*1.

(** [pack?.[key] ?? dict.en[key]]; [None] is [undefined]. *)
Definition t (locale : Lang) (key : jstring) : option jstring :=
  match assoc (code locale) dict with
  | Some pack => match assoc key pack with Some s => Some s | None => assoc key dict_en end
  | None => assoc key dict_en
  end.
Definition text (locale : Lang) (key : jstring) : jstring := t locale key ?? [].

(** The names in braces that the callers replace ([.replace("{ip}", ip)]). *)
Fixpoint placeholders_from (open : option jstring) (s : jstring) : list jstring :=
  match s with
  | [] => []
  | c :: s' =>
      if c =? 123 then placeholders_from (Some []) s'
      else match open with
           | None => placeholders_from None s'
           | Some name => if c =? 125 then rev name :: placeholders_from None s' else placeholders_from (Some (c :: name)) s'
           end
  end.
Definition placeholders (s : jstring) : list jstring := placeholders_from None s.

Definition same_names (a b : list jstring) : bool :=
  forallb (λ x, bool_decide (x ∈ b)) a && forallb (λ x, bool_decide (x ∈ a)) b.
(** A text that can stand for the English one. *)
Definition good_text (s en : jstring) : bool := nonempty s && same_names (placeholders s) (placeholders en).
Definition good_entry (kv : jstring * jstring) : bool :=
  match assoc kv.1 dict_en with Some en => good_text kv.2 en | None => false end.

(** ** Completeness *)

Lemma same_keys : dict_tr.*1 = dict_en.*1.
Proof. by vm_compute. Qed.
Lemma turkish_good : forallb (λ p, good_text p.1.2 p.2.2) (zip dict_tr dict_en) = true.
Proof. by vm_compute. Qed.
Lemma english_good : forallb (λ kv, nonempty kv.2) dict_en = true.
Proof. by vm_compute. Qed.
Definition short_packs : list (list (jstring * jstring)) :=
  [dict_de; dict_fr; dict_ru; pack_es; pack_pt; pack_it; pack_pl; pack_nl; pack_ar; pack_zh; pack_ja; pack_ko].
Lemma packs_good : forallb (forallb good_entry) short_packs = true.
Proof. by vm_compute. Qed.

(** The texts a language has, before the English ones stand in. *)
Definition pack (l : Lang) : list (jstring * jstring) := match l with
  | Ltr => dict_tr | Len => dict_en | Lde => dict_de | Lfr => dict_fr | Lru => dict_ru
  | Les => xl dict_en pack_es | Lpt => xl dict_en pack_pt | Lit => xl dict_en pack_it | Lpl => xl dict_en pack_pl
  | Lnl => xl dict_en pack_nl | Lar => xl dict_en pack_ar | Lzh => xl dict_en pack_zh | Lja => xl dict_en pack_ja
  | Lko => xl dict_en pack_ko end.
Lemma dict_pack l : assoc (code l) dict = Some (pack l).
Proof. by destruct l. Qed.
Lemma t_pack l k : t l k = match assoc k (pack l) with Some s => Some s | None => assoc k dict_en end.
Proof. unfold t. by rewrite dict_pack. Qed.

Lemma xl_get base ov k s : assoc k (xl base ov) = Some s → (k, s) ∈ ov ∨ assoc k base = Some s.
Proof.
  unfold xl. revert base. induction ov as [|[k' v] ov IH]; intros base; cbn; [by right|].
  intros H%IH. destruct H as [H|H]; [left; by right|]. destruct (decide (k = k')) as [->|Hne].
  - rewrite assoc_put_eq in H. simplify_eq. left. by left.
  - rewrite assoc_put_ne in H by done. by right.
Qed.
Lemma assoc_keys {A} k (m : list (jstring * A)) : k ∈ m.*1 → ∃ v, assoc k m = Some v.
Proof.
  induction m as [|[k' v] m IH]; cbn; [by intros ?%elem_of_nil|]. destruct (k =s k') eqn:E; bprop; [eauto|].
  intros [->|Hk]%elem_of_cons; [done|auto].
Qed.
Lemma assoc_zip {A B} (a : list (jstring * A)) (b : list (jstring * B)) k x : a.*1 = b.*1 → assoc k a = Some x →
  ∃ y, assoc k b = Some y ∧ ((k, x), (k, y)) ∈ zip a b.
Proof.
  revert b. induction a as [|[k1 x1] a IH]; intros [|[k2 y2] b] Hk; cbn in Hk |- *; try done.
  injection Hk as -> Hk. destruct (k =s k2) eqn:E; bprop; subst.
  - intros [= ->]. exists y2. split; [done|by left].
  - intros H. destruct (IH b Hk H) as (y & Hy & Hin). exists y. split; [done|by right].
Qed.

Lemma names_same a b : same_names a b = true → ∀ p, p ∈ a ↔ p ∈ b.
Proof.
  unfold same_names. intros H. bprop. rewrite !forallb_forall in *.
  intros p. split; intros Hp; apply list_elem_of_In in Hp; [apply H in Hp|apply H0 in Hp]; by bprop.
Qed.

Definition stands_for (s en : jstring) : Prop := s ≠ [] ∧ ∀ p, p ∈ placeholders s ↔ p ∈ placeholders en.
Lemma good_stands s en : good_text s en = true → stands_for s en.
Proof. unfold good_text. intros H. bprop. split; [done|by apply names_same]. Qed.

Lemma english_stands k en : assoc k dict_en = Some en → stands_for en en.
Proof.
  intros H. split; [|done]. pose proof english_good as Hg. rewrite forallb_forall in Hg.
  apply assoc_elem, list_elem_of_In, Hg in H. by bprop.
Qed.
Lemma short_stands p k s en : p ∈ short_packs → (k, s) ∈ p → assoc k dict_en = Some en → stands_for s en.
Proof.
  intros Hp Hk He. pose proof packs_good as Hg. rewrite forallb_forall in Hg. apply list_elem_of_In, Hg in Hp.
  rewrite forallb_forall in Hp. apply list_elem_of_In, Hp in Hk. unfold good_entry in Hk. cbn [fst snd] in Hk. rewrite He in Hk.
  by apply good_stands.
Qed.
Lemma pack_stands l k s en : assoc k (pack l) = Some s → assoc k dict_en = Some en → stands_for s en.
Proof.
  intros Hs He.
  assert (Hx : ∀ ov, ov ∈ short_packs → assoc k (xl dict_en ov) = Some s → stands_for s en).
  { intros ov Hov H. apply xl_get in H as [H|H]; [by eapply short_stands|]. rewrite He in H. injection H as <-. by eapply english_stands. }
  assert (Hd : ∀ p, p ∈ short_packs → assoc k p = Some s → stands_for s en).
  { intros p Hp H. eapply short_stands; [done|by apply assoc_elem|done]. }
  destruct l; cbn [pack] in Hs; [|rewrite He in Hs; injection Hs as <-; by eapply english_stands|..];
    try (first [apply (Hx _) in Hs|apply (Hd _) in Hs]; [done|unfold short_packs; rewrite !elem_of_cons; tauto]).
  destruct (assoc_zip _ _ _ _ same_keys Hs) as (y & Hy & Hin). rewrite He in Hy. injection Hy as <-.
  pose proof turkish_good as Hg. rewrite forallb_forall in Hg. apply list_elem_of_In, Hg in Hin. by apply good_stands.
Qed.

(** Every message has a text in every language, and it is not empty; a translation
    has the placeholders of the English text, so that replacing them never leaves
    one in what the user reads. *)
Theorem messages_complete l k : k ∈ MessageKey →
  ∃ s en, t l k = Some s ∧ t Len k = Some en ∧ s ≠ [] ∧ ∀ p, p ∈ placeholders s ↔ p ∈ placeholders en.
Proof.
  unfold MessageKey. rewrite same_keys. intros Hk.
  assert (He : ∃ en, assoc k dict_en = Some en) by (by apply assoc_keys).
  destruct He as [en He]. rewrite !t_pack. cbn [pack]. rewrite He.
  destruct (assoc k (pack l)) as [s|] eqn:Es.
  - exists s, en. destruct (pack_stands l k s en Es He). done.
  - exists en, en. destruct (english_stands k en He). done.
Qed.

(** ** LanguageProvider *)

Module LanguageProvider.

(** The provider's state, the browser's storage under [lg_locale], and the two
    attributes of the document. *)
Record state := { locale : Lang; storage : option jstring; doc_lang : jstring; doc_dir : jstring }.

(** [LOCALES.some((l) => l.code === saved)] and the cast. *)
Definition saved_locale (saved : option jstring) : option Lang :=
  match truthy_str saved with
  | Some s => (λ x, x.1.2) <$> jfind (λ x, x.1.1 =s s) LOCALES
  | None => None
  end.
(** The effect on [locale]. *)
Definition doc_effect (s : state) : state :=
  {| locale := locale s; storage := storage s; doc_lang := code (locale s);
     doc_dir := if is_lang (locale s) Lar then "rtl" else "ltr" |}.
Definition with_locale (l : Lang) (s : state) : state :=
  {| locale := l; storage := storage s; doc_lang := doc_lang s; doc_dir := doc_dir s |}.

(** The first render is Turkish; its effects read the storage, and a saved language
    renders again. *)
Definition mount (saved : option jstring) (lang0 dir0 : jstring) : state :=
  let s := doc_effect {| locale := Ltr; storage := saved; doc_lang := lang0; doc_dir := dir0 |} in
  match saved_locale saved with
  | Some l => if is_lang l (locale s) then s else doc_effect (with_locale l s)
  | None => s
  end.
Definition setLocale (l : Lang) (s : state) : state :=
  let s' := {| locale := l; storage := Some (code l); doc_lang := code l; doc_dir := doc_dir s |} in
  if is_lang l (locale s) then s' else doc_effect s'.
Definition choose_all (ls : list Lang) (s : state) : state := fold_left (λ s l, setLocale l s) ls s.

Definition doc_matches (s : state) : Prop :=
  doc_lang s = code (locale s) ∧ (doc_dir s = "rtl" ↔ locale s = Lar).

Lemma doc_effect_matches s : doc_matches (doc_effect s).
Proof. unfold doc_matches, doc_effect, is_lang. cbn. split; [done|]. split_if; bprop; split; done. Qed.
Lemma mount_matches saved a b : doc_matches (mount saved a b).
Proof.
  unfold mount. destruct (saved_locale saved); [split_if|]; try apply doc_effect_matches.
Qed.
Lemma set_matches l s : doc_matches s → doc_matches (setLocale l s).
Proof.
  intros [H1 H2]. unfold setLocale. split_if; [|apply doc_effect_matches].
  unfold is_lang in E. bprop; subst. by split.
Qed.
Lemma set_saved l s : locale (setLocale l s) = l ∧ storage (setLocale l s) = Some (code l).
Proof. unfold setLocale. by split_if. Qed.
Lemma saved_code l : saved_locale (Some (code l)) = Some l.
Proof. by destruct l. Qed.

(** The language a user chose last is the language of the next visit; the document
    always carries it, and runs from right to left exactly for Arabic. *)
Theorem language_restored saved a b ls l a' b' :
  let s := choose_all (ls ++ [l]) (mount saved a b) in
  doc_matches s ∧ locale s = l ∧ locale (mount (storage s) a' b') = l.
Proof.
  intros s. unfold s, choose_all. rewrite fold_left_app. cbn [fold_left].
  set (s1 := fold_left _ ls _). assert (H1 : doc_matches s1).
  { unfold s1. pose proof (mount_matches saved a b) as H. revert H. generalize (mount saved a b).
    induction ls as [|x ls IH]; intros s' H; cbn; [done|]. by apply IH, set_matches. }
  destruct (set_saved l s1) as [Hl Hs]. splits; [by apply set_matches|done|].
  rewrite Hs. unfold mount. rewrite saved_code. unfold is_lang. split_if; bprop; by subst.
Qed.
End LanguageProvider.

(** ** An instance *)

Module I18nDemo.
Lemma messages_complete_witness :
  ∃ s en, t Lde "banConfirm" = Some s ∧ t Len "banConfirm" = Some en ∧ s ≠ [] ∧ ∀ p, p ∈ placeholders s ↔ p ∈ placeholders en.
Proof. apply messages_complete. apply (bool_decide_eq_true_1 ("banConfirm" ∈ MessageKey)). vm_compute. reflexivity. Defined.
End I18nDemo.
