(* ===== verification/BanClient.v ===== *)
(** Banned addresses in the browser: the shared count and the preview
    (dashboard/src/context/BannedIpsContext.tsx), the badge in the navigation and
    the panel (BanNavBadge.tsx, BannedIpsPanel.tsx), the ban button
    (BanIpButton.tsx) and the bans page (app/bans/page.tsx).

    An answer of [/api/bans] is the document [BannedIpsResult] the route sends;
    [None] stands for a request that failed, on which axios throws. *)

From S2P Require Import Prelude JsMap JsString JsNum Json Regex Http JsValue FetchBanned ProofBans Bans CopilotText I18n Client.

(** [Boolean(x)] of an optional flag. *)
Definition flag (b : option bool) : bool := b ?? false.

Inductive DataMode := Live | Preview.
#[global] Instance DataMode_eq_dec : EqDecision DataMode.
Proof. solve_decision. Defined.

(** ** BannedIpsProvider *)

Record BannedIps := {
  totalCount : Z;
  truncated : bool;
  source : jstring;
  dataMode : DataMode;
  preview : bool;
  loading : bool;
}.
Definition bannedIps_start : BannedIps :=
  {| totalCount := 0; truncated := false; source := []; dataMode := Live; preview := false; loading := true |}.

(** What [refresh] asks: [count_only] and a fresh [bust]. *)
Definition count_query (now : Z) : list (jstring * jstring) := [("count_only", "1"); ("bust", dec now)].

(** The rest of [refresh]. *)
Definition refreshed (reply : option BannedIpsResult) (s : BannedIps) : BannedIps :=
  match reply with
  | Some d =>
      {| totalCount := br_count d; truncated := flag (br_truncated d); source := br_source d;
         dataMode := if bool_decide (br_data_mode d = Some ("preview" : jstring)) then Preview else Live;
         preview := flag (br_preview d); loading := false |}
  | None =>
      {| totalCount := 0; truncated := false; source := source s; dataMode := Live; preview := false; loading := false |}
  end.

(** The interval of the provider: [useVisibleInterval(refresh, pollMs, pollMs > 0)]. *)
Definition provider_polls (pollMs : Z) : Z * bool := (pollMs, 0 <? pollMs).

(** ** Badge and panel *)

(** [!preview && dataMode === "live" && source === "ipset" && totalCount > 0] *)
Definition liveIpset (s : BannedIps) : bool :=
  negb (preview s) && bool_decide (dataMode s = Live) && (source s =s "ipset") && (0 <? totalCount s).

Definition badge_title (l : Lang) (s : BannedIps) : jstring :=
  if liveIpset s then text l "bannedIpsLiveMode" ++ ": " ++ dec (totalCount s)
  else if preview s then text l "bannedIpsProofMode"
  else if 0 <? totalCount s then text l "navBans" ++ ": " ++ dec (totalCount s)
  else text l "navBans".
(** The number in the badge; none when nothing is banned. *)
Definition badge_count (s : BannedIps) : option jstring :=
  if 0 <? totalCount s then Some (if 99 <? totalCount s then "99+" else dec (totalCount s)) else None.

(** ** useBanPreview *)

Record BanPreview := {
  bp_bans : list BanEntry;
  bp_truncated : bool;
  bp_source : jstring;
  bp_preview : bool;
  bp_loading : bool;
  bp_refreshing : bool;
}.
Definition preview_start : BanPreview :=
  {| bp_bans := []; bp_truncated := false; bp_source := []; bp_preview := false; bp_loading := true; bp_refreshing := false |}.
Definition preview_query (limit now : Z) : list (jstring * jstring) :=
  [("limit", dec limit); ("offset", "0"); ("bust", dec now)].

(** [refresh] up to its first [await]; then the answer, which makes the provider
    refresh too ([true]) before [finally]; then [finally]. *)
Definition preview_asked (s : BanPreview) : BanPreview :=
  {| bp_bans := bp_bans s; bp_truncated := bp_truncated s; bp_source := bp_source s; bp_preview := bp_preview s;
     bp_loading := bp_loading s; bp_refreshing := true |}.
Definition preview_done (s : BanPreview) : BanPreview :=
  {| bp_bans := bp_bans s; bp_truncated := bp_truncated s; bp_source := bp_source s; bp_preview := bp_preview s;
     bp_loading := false; bp_refreshing := false |}.
Definition preview_answered (reply : option BannedIpsResult) (s : BanPreview) : BanPreview * bool :=
  match reply with
  | Some d => ({| bp_bans := br_bans d; bp_truncated := flag (br_truncated d); bp_source := br_source d;
                  bp_preview := flag (br_preview d); bp_loading := bp_loading s; bp_refreshing := bp_refreshing s |}, true)
  | None => (preview_done {| bp_bans := []; bp_truncated := bp_truncated s; bp_source := bp_source s;
                             bp_preview := bp_preview s; bp_loading := bp_loading s; bp_refreshing := bp_refreshing s |}, false)
  end.

(** What the hook returns: the preview over the shared state. *)
Definition shown_truncated (p : BanPreview) (s : BannedIps) : bool := bp_truncated p || truncated s.
Definition shown_preview (p : BanPreview) (s : BannedIps) : bool := bp_preview p || preview s.
(** useBannedIpSet *)
Definition bannedIpSet (p : BanPreview) : list jstring := dedup_by id [] (map be_ip (bp_bans p)).

(** The body of the panel. *)
Inductive PanelBody := PanelLoading | PanelEmpty | PanelList (cut : bool) (rows : list BanEntry).
Definition panel_body (p : BanPreview) (s : BannedIps) : PanelBody :=
  if bp_loading p && bool_decide (bp_bans p = []) then PanelLoading
  else if totalCount s =? 0 then PanelEmpty
  else PanelList (shown_truncated p s) (bp_bans p).
Definition panel_live_badge (p : BanPreview) (s : BannedIps) : bool :=
  negb (shown_preview p s) && bool_decide (dataMode s = Live) && (bp_source p =s "ipset") && (0 <? totalCount s).

(** ** The live badge tells the truth *)

Section live.
Context `{UnicodeCase} (e : env).

Lemma proof_source w dir opts r : fetchProofBansResult w dir opts = Ok (Some r) → br_source r = "proof-reports".
Proof.
  unfold fetchProofBansResult, packBanEntries. intros Hr. repeat (split_match; simplify_eq; try done).
Qed.
Lemma demo_source ips opts : br_source (fetchLiveDemoBansResult ips opts) = "live-demo".
Proof. unfold fetchLiveDemoBansResult, packBanEntries. cbv zeta. by destruct (countOnly opts). Qed.

Lemma ipset_answer w opts r : bans_answer e w opts = Ok r → br_source r = "ipset" → 0 < br_count r →
  resolveBansDisplayMode w (BENCH_DATA_DIR e) = Ok ModeLive ∧ r = mark_live (fetchBannedIps w e opts).
Proof.
  unfold bans_answer. intros Hr Hs Hc.
  destruct (resolveBansDisplayMode _ _) as [[|ips api|]|]; try done.
  - destruct (fetchProofBansResult _ _ _) as [[p|]|] eqn:Ep; try done; cbn in Hr; injection Hr as <-; [|done].
    apply proof_source in Ep. rewrite Hs in Ep. done.
  - injection Hr as <-. rewrite demo_source in Hs. done.
  - split; [done|]. cbv zeta in Hr. destruct ((_ =? 0) && _) eqn:E; [|by injection Hr as <-].
    destruct (fetchProofBansResult _ _ _) as [[p|]|] eqn:Ep; try done; cbn in Hr; injection Hr as <-.
    + apply proof_source in Ep. rewrite Hs in Ep. done.
    + bprop. lia.
Qed.

(** C29. The green mark is shown only for the live list: after an answer of the server,
    the navigation claims live bans only if the page runs in live mode and the count
    is the one of the analyzer's list, never for evidence or demo addresses. *)
Theorem live_badge_sound w opts r s :
  bans_answer e w opts = Ok r → liveIpset (refreshed (Some r) s) = true →
  resolveBansDisplayMode w (BENCH_DATA_DIR e) = Ok ModeLive ∧ r = mark_live (fetchBannedIps w e opts) ∧ 0 < br_count r.
Proof.
  intros Hr Hl. unfold liveIpset in Hl. cbn in Hl. bprop.
  destruct (ipset_answer w opts r Hr) as [? ?]; done.
Qed.
End live.

(** ** BanIpButton *)

Module BanButton.

Record Props := {
  p_ip : jstring;
  p_reason : jstring;
  p_unban : bool;      (* variant is "unban" *)
  p_banned : bool;
  p_compact : bool;
  p_readOnly : bool;
}.
Record state := { busy : bool; flashErr : bool; errMsg : jstring }.
Definition start : state := {| busy := false; flashErr := false; errMsg := [] |}.

Definition showUnban (p : Props) : bool := negb (p_readOnly p) && (p_unban p || p_banned p).
Definition showBannedBadge (p : Props) (s : state) : bool := negb (p_unban p) && p_banned p && negb (busy s).

(** The body of the request, and the callbacks of the button. *)
Record BanRequest := { bq_ip : jstring; bq_unban : bool; bq_reason : jstring }.
Inductive callback := OnDone (ok : bool) (msg : jstring) | OnRefresh.
(** An answer, an answer with an error status (axios throws), another failure. *)
Inductive outcome := Replied (data : val) | Refused (data : val) | Broken.

Section button.
Context (t : jstring → jstring) (p : Props).

(** [run] up to the request; [confirmed] is the user's answer to the prompt. *)
Definition press (confirmed : bool) (s : state) : state * list BanRequest :=
  if p_readOnly p then (s, [])
  else if busy s || negb (nonempty (p_ip p)) then (s, [])
  else if negb (showUnban p) && negb confirmed then (s, [])
  else ({| busy := true; flashErr := false; errMsg := [] |},
        [{| bq_ip := p_ip p; bq_unban := showUnban p; bq_reason := p_reason p |}]).
Definition prompt : jstring := replace_first "{ip}" (p_ip p) (t "banConfirm").

(** [d?.error || d?.message || msg] at the type [string]. *)
Definition refusal (d : val) : jstring := oor (as_str (d.["error"])) (oor (as_str (d.["message"])) (t "banFailed")).

Definition answered (o : outcome) (s : state) : state * list callback :=
  match o with
  | Replied data =>
      let ok := is_true (data.["success"]) in
      let msg := oor (as_str (data.["message"]))
                   (if ok then if showUnban p then t "unbanSuccess" else t "banSuccess" else t "banFailed") in
      ({| busy := false; flashErr := if ok then flashErr s else true; errMsg := if ok then errMsg s else msg |},
       OnDone ok msg :: if ok then [OnRefresh] else [])
  | Refused d =>
      ({| busy := false; flashErr := true; errMsg := refusal d |}, [OnDone false (refusal d)])
  | Broken =>
      ({| busy := false; flashErr := true; errMsg := t "banFailed" |}, [OnDone false (t "banFailed")])
  end.
(** The timer that clears a message after eight seconds. *)
Definition expired (s : state) : state := {| busy := busy s; flashErr := false; errMsg := [] |}.

Definition label (s : state) : jstring :=
  if showBannedBadge p s then if p_compact p then t "ipBannedShort" else t "ipBanned"
  else if showUnban p then if p_compact p then t "unbanShort" else t "unbanIp"
  else if p_compact p then t "banShort" else t "executeBan".
Definition disabled (s : state) : bool := if showBannedBadge p s then busy s else busy s || negb (nonempty (p_ip p)).

Inductive event := Press (confirmed : bool) | Expire.
Definition on_event (ev : event) (s : state) : state * list BanRequest :=
  match ev with Press c => press c s | Expire => (expired s, []) end.
Definition on_response (q : BanRequest) (o : outcome) (s : state) : state * list BanRequest := ((answered o s).1, []).

(** The button works on one request at a time. *)
Definition one_request (c : config state BanRequest) : Prop :=
  length (pending c) = if busy (current c) then 1%nat else 0%nat.
Lemma button_one_request c : page_reach on_event on_response (Cfg start []) c → one_request c.
Proof.
  apply page_invariant; unfold one_request.
  - done.
  - intros c' ev s reqs Hi Hev. cbn. rewrite length_app. destruct ev as [conf|]; cbn in Hev.
    + unfold press in Hev. destruct (busy (current c')) eqn:Eb; cbn [orb] in Hev;
        repeat match type of Hev with (if ?b then _ else _) = _ => destruct b end; injection Hev as <- <-; cbn; rewrite ?Eb; lia.
    + simplify_eq. cbn. lia.
  - intros c' i q r s reqs Hi Hp Hr. injection Hr as <- <-. cbn. rewrite app_nil_r.
    apply lookup_lt_Some in Hp as Hlt. pose proof (length_delete (pending c') i ltac:(eauto)). destruct r; cbn; destruct (busy (current c')); lia.
Qed.

(** Whatever the user does, at most one request of a button is on its way; one
    leaves only from a writable button with an address, does what the label says,
    and a ban has been confirmed. *)
Theorem button_guarded c ev s reqs q :
  page_reach on_event on_response (Cfg start []) c → on_event ev (current c) = (s, reqs) → q ∈ reqs →
  pending c = [] ∧ reqs = [q] ∧ p_readOnly p = false ∧ bq_ip q = p_ip p ∧ p_ip p ≠ [] ∧
  bq_unban q = p_unban p || p_banned p ∧ (bq_unban q = false → ev = Press true).
Proof.
  intros Hc Hev Hq. apply button_one_request in Hc. unfold one_request in Hc.
  destruct ev as [conf|]; cbn in Hev; [|injection Hev as <- <-; by apply elem_of_nil in Hq].
  unfold press in Hev. destruct (p_readOnly p) eqn:Er; [injection Hev as <- <-; by apply elem_of_nil in Hq|].
  destruct (busy (current c)) eqn:Eb; cbn [orb] in Hev; [injection Hev as <- <-; by apply elem_of_nil in Hq|].
  destruct (p_ip p) as [|x ip] eqn:Ei; cbn in Hev; [injection Hev as <- <-; by apply elem_of_nil in Hq|].
  destruct (negb (showUnban p) && negb conf) eqn:Eu; [injection Hev as <- <-; by apply elem_of_nil in Hq|].
  injection Hev as <- <-. apply list_elem_of_singleton in Hq as ->. cbn.
  unfold showUnban in *. rewrite Er in *. cbn in *. splits; try done.
  - by destruct (pending c).
  - intros Hu. rewrite Hu in Eu. cbn in Eu. by destruct conf.
Qed.
End button.
End BanButton.

(** ** Examples *)

Module BanClientDemo.
Definition active_bans : jstring :=
  stringify (JObj [("ips", JArr [JStr "203.0.113.7"]); ("total_count", jint 1); ("source", JStr "ipset")]).
Definition banned_world : world :=
  {| w_fetch := λ _ _, None; w_readIn := λ _ _, None; w_size := λ _, Some 70;
     w_read := λ p, if p =s "/data/lg/active_bans.json" then Some active_bans else None |}.
Definition count_opts : FetchBannedOpts := {| countOnly := true; limit := None; offset := None; search := None |}.
Definition live_answer : BannedIpsResult := mark_live (bare_result 1 "ipset" (Some false)).

Lemma live_badge_sound_witness :
  resolveBansDisplayMode banned_world (BENCH_DATA_DIR (env_of [])) = Ok ModeLive ∧
  live_answer = mark_live (fetchBannedIps (H := ascii_case) banned_world (env_of []) count_opts) ∧ 0 < br_count live_answer.
Proof.
  apply (live_badge_sound (H := ascii_case) (env_of []) banned_world count_opts live_answer bannedIps_start); by vm_compute.
Defined.

Definition ban_props : BanButton.Props :=
  {| BanButton.p_ip := "203.0.113.7"; BanButton.p_reason := "dashboard-ban"; BanButton.p_unban := false;
     BanButton.p_banned := false; BanButton.p_compact := false; BanButton.p_readOnly := false |}.
Lemma button_guarded_witness :
  let q := {| BanButton.bq_ip := "203.0.113.7"; BanButton.bq_unban := false; BanButton.bq_reason := "dashboard-ban" |} in
  BanButton.bq_unban q = false → BanButton.Press true = BanButton.Press true.
Proof.
  intros q Hq. destruct (BanButton.button_guarded (text Len) ban_props (Cfg BanButton.start []) (BanButton.Press true)
    {| BanButton.busy := true; BanButton.flashErr := false; BanButton.errMsg := [] |} [q] q) as (_ & _ & _ & _ & _ & _ & H).
  - apply reach_start.
  - reflexivity.
  - by left.
  - exact (H Hq).
Defined.
End BanClientDemo.
