(* ===== verification/BansPage.v ===== *)
(** The bans page (dashboard/src/app/bans/page.tsx): search with a delay, paging,
    acknowledgements and manual bans, as a machine whose requests may be answered
    in any order. *)

From S2P Require Import Prelude JsMap JsString JsNum Json Regex Http JsValue FetchBanned Bans CopilotText I18n Client BanClient.

Definition PAGE_SIZE : Z := 50.

(** [/^\d{1,3}(\.\d{1,3}){3}$/] *)
Definition quad_re : re := RCat (rbetween 1 2 digit) (rrep 3 (RCat (chr 46) (rbetween 1 2 digit))).
Definition isIpv4 (s : jstring) : bool := test_full quad_re (trim s).

Record state := {
  manualIp : jstring;
  filter : jstring;
  activeSearch : jstring;
  offset : Z;
  totalCount : Z;
  bans : list BanEntry;
  source : jstring;
  preview : bool;
  loading : bool;
  refreshing : bool;
  statusMsg : jstring;
  ackByIp : list (jstring * (jstring * Z));   (* operator and time *)
  searchTimer : option jstring;               (* the text the running timer will ask for *)
  searchBoot : bool;
  ctxSource : jstring;
}.
Definition start (ctx : jstring) : state :=
  {| manualIp := []; filter := []; activeSearch := []; offset := 0; totalCount := 0; bans := []; source := [];
     preview := false; loading := true; refreshing := false; statusMsg := []; ackByIp := []; searchTimer := None;
     searchBoot := true; ctxSource := ctx |}.

(** Updates of the fields that change together. *)
Definition set_filter (f : jstring) (tm : option jstring) (boot : bool) (s : state) : state :=
  {| manualIp := manualIp s; filter := f; activeSearch := activeSearch s; offset := offset s; totalCount := totalCount s;
     bans := bans s; source := source s; preview := preview s; loading := loading s; refreshing := refreshing s;
     statusMsg := statusMsg s; ackByIp := ackByIp s; searchTimer := tm; searchBoot := boot; ctxSource := ctxSource s |}.
Definition set_busy (ld rf : bool) (s : state) : state :=
  {| manualIp := manualIp s; filter := filter s; activeSearch := activeSearch s; offset := offset s; totalCount := totalCount s;
     bans := bans s; source := source s; preview := preview s; loading := ld; refreshing := rf;
     statusMsg := statusMsg s; ackByIp := ackByIp s; searchTimer := searchTimer s; searchBoot := searchBoot s; ctxSource := ctxSource s |}.
Definition set_page (act : jstring) (off total : Z) (rows : list BanEntry) (src : jstring) (pv : bool) (s : state) : state :=
  {| manualIp := manualIp s; filter := filter s; activeSearch := act; offset := off; totalCount := total;
     bans := rows; source := src; preview := pv; loading := loading s; refreshing := refreshing s;
     statusMsg := statusMsg s; ackByIp := ackByIp s; searchTimer := searchTimer s; searchBoot := searchBoot s; ctxSource := ctxSource s |}.
Definition set_misc (manual msg : jstring) (acks : list (jstring * (jstring * Z))) (ctx : jstring) (s : state) : state :=
  {| manualIp := manual; filter := filter s; activeSearch := activeSearch s; offset := offset s; totalCount := totalCount s;
     bans := bans s; source := source s; preview := preview s; loading := loading s; refreshing := refreshing s;
     statusMsg := msg; ackByIp := acks; searchTimer := searchTimer s; searchBoot := searchBoot s; ctxSource := ctx |}.

(** Requests: a page of bans (with the context's source of the moment), the
    acknowledgements, the shared count. *)
Inductive Req := Load (off : Z) (q : option jstring) (ctx : jstring) | Acks | Global.
Inductive Rsp := RBans (d : option BannedIpsResult) | RAcks (by_ip : option (list (jstring * (jstring * Z)))) | RGlobal.

(** The parameters of [axios.get("/api/bans", ...)]. *)
Definition load_query (off : Z) (q : option jstring) (now : Z) : list (jstring * jstring) :=
  [("limit", dec PAGE_SIZE); ("offset", dec off); ("bust", dec now)] ++
  match q with Some s => [("search", s)] | None => [] end.

Definition loadPage (off : Z) (search : option jstring) (s : state) : state * list Req :=
  (set_busy (loading s) true s, [Load off (truthy_str (trim <$> search)) (ctxSource s)]).
Definition loaded (off : Z) (q : option jstring) (ctx : jstring) (reply : option BannedIpsResult) (s : state) : state :=
  set_busy false false
    match reply with
    | Some d => set_page (q ?? []) off (br_count d) (br_bans d) (sor (br_source d) ctx) (flag (br_preview d)) s
    | None => set_page (activeSearch s) (offset s) (totalCount s) [] (source s) (preview s) s
    end.

(** The effect on [filter, loadPage, searchParams]: the first run loads the page of
    the address bar's search, later runs start the timer anew. *)
Definition search_effect (url : option jstring) (s : state) : state * list Req :=
  if searchBoot s then
    let q := truthy_str (trim <$> url) in
    let '(s', reqs) := loadPage 0 q s in
    match q with
    | Some f => if f =s filter s then (set_filter f (searchTimer s) false s', reqs)
                else (set_filter f (Some f) false s', reqs)
    | None => (set_filter (filter s) (searchTimer s) false s', reqs)
    end
  else (set_filter (filter s) (Some (filter s)) false s, []).

Definition setFilter (txt : jstring) (s : state) : state :=
  if txt =s filter s then s else set_filter txt (Some txt) (searchBoot s) s.

Definition spinning (s : state) : bool := loading s || refreshing s.
Definition pageEnd (s : state) : Z := Z.min (offset s + Z.of_nat (length (bans s))) (totalCount s).
Definition hasPrev (s : state) : bool := 0 <? offset s.
Definition hasNext (s : state) : bool := pageEnd s <? totalCount s.
Definition filtering (s : state) : bool := nonempty (activeSearch s).
Definition opsIp (s : state) : jstring := if isIpv4 (activeSearch s) then trim (activeSearch s) else [].
(** The row of paging buttons. *)
Definition paging (s : state) : bool := negb (filtering s) && (PAGE_SIZE <? totalCount s).

(** [handleRefresh] of a render: it keeps the values of that render. *)
Record Render := { r_offset : Z; r_active : jstring; r_filter : jstring; r_manual : jstring }.
Definition render_of (s : state) : Render :=
  {| r_offset := offset s; r_active := activeSearch s; r_filter := filter s; r_manual := manualIp s |}.
Definition handleRefresh (r : Render) (s : state) : state * list Req :=
  let '(s', reqs) := loadPage (r_offset r) (Some (sor (r_active r) (r_filter r))) s in (s', reqs ++ [Global]).
Definition onBanDone (r : Render) (ok : bool) (msg : jstring) (s : state) : state * list Req :=
  let s := set_misc (manualIp s) msg (ackByIp s) (ctxSource s) s in
  if ok then handleRefresh r s else (s, []).

(** The body of the page. *)
Inductive Body := BLoading | BNone | BNoMatch | BRows (rows : list BanEntry).
Definition body (s : state) : Body :=
  if loading s && bool_decide (bans s = []) then BLoading
  else if (totalCount s =? 0) && negb (filtering s) then BNone
  else if bool_decide (bans s = []) then if filtering s then BNoMatch else BNone
  else BRows (bans s).

Inductive event :=
  | Mount
  | Type_ (txt : jstring)                 (* the search field *)
  | TimerFire
  | CtxSource (src : jstring)             (* the shared state has another source *)
  | ClickPrev | ClickNext | ClickRefresh
  | BanDone (r : Render) (ok : bool) (msg : jstring)
  | BanRefresh (r : Render)
  | TypeManual (txt : jstring)
  | ManualDone (r : Render) (ok : bool) (msg : jstring)
  | StatusExpire.

Section page.
Context (url : option jstring).

Definition on_event (ev : event) (s : state) : state * list Req :=
  match ev with
  | Mount => let '(s', reqs) := search_effect url s in (s', Acks :: reqs)
  | Type_ txt => (setFilter txt s, [])
  | TimerFire =>
      match searchTimer s with
      | Some f => loadPage 0 (Some f) (set_filter (filter s) None (searchBoot s) s)
      | None => (s, [])
      end
  | CtxSource src =>
      if src =s ctxSource s then (s, [])
      else search_effect url (set_misc (manualIp s) (statusMsg s) (ackByIp s) src s)
  | ClickPrev =>
      if paging s && hasPrev s && negb (spinning s)
      then loadPage (Z.max 0 (offset s - PAGE_SIZE)) (Some (activeSearch s)) s else (s, [])
  | ClickNext =>
      if paging s && hasNext s && negb (spinning s)
      then loadPage (offset s + PAGE_SIZE) (Some (activeSearch s)) s else (s, [])
  | ClickRefresh => if spinning s then (s, []) else handleRefresh (render_of s) s
  | BanDone r ok msg => onBanDone r ok msg s
  | BanRefresh r => handleRefresh r s
  | TypeManual txt => (set_misc txt (statusMsg s) (ackByIp s) (ctxSource s) s, [])
  | ManualDone r ok msg =>
      let '(s', reqs) := onBanDone r ok msg s in
      if ok then
        let ip := trim (r_manual r) in
        let s' := if nonempty ip then setFilter ip s' else s' in
        (set_misc [] (statusMsg s') (ackByIp s') (ctxSource s') s', reqs)
      else (s', reqs)
  | StatusExpire => (set_misc (manualIp s) [] (ackByIp s) (ctxSource s) s, [])
  end.

Definition on_response (q : Req) (r : Rsp) (s : state) : state * list Req :=
  match q, r with
  | Load off srch ctx, RBans d => (loaded off srch ctx d s, [])
  | Acks, RAcks by_ip => (set_misc (manualIp s) (statusMsg s) (by_ip ?? []) (ctxSource s) s, [])
  | _, _ => (s, [])
  end.
End page.

(** ** The rows belong to the labels *)

Section served.
(** A server whose list changes while the page is open: the answer depends on the
    moment, the offset and the search.  A request is answered as of some moment, or
    fails. *)
Context (srv : nat → Z → option jstring → BannedIpsResult) (url : option jstring).

Definition served_response (q : Req) (moment : option nat) (s : state) : state * list Req :=
  match q with
  | Load off srch _ => on_response q (RBans ((λ n, srv n off srch) <$> moment)) s
  | Acks => on_response q (RAcks None) s
  | Global => (s, [])
  end.

Definition query_ok (q : Req) : Prop := match q with Load _ (Some s) _ => s ≠ [] | _ => True end.
(** The rows shown are none, or those the server had at one moment for the offset
    shown and the search answered last. *)
Definition consistent (s : state) : Prop :=
  bans s = [] ∨ ∃ n, bans s = br_bans (srv n (offset s) (truthy_str (Some (activeSearch s)))) ∧
                     totalCount s = br_count (srv n (offset s) (truthy_str (Some (activeSearch s)))).
Definition page_inv (c : config state Req) : Prop := consistent (current c) ∧ Forall query_ok (pending c).

Lemma load_query_ok off srch s s' reqs : loadPage off srch s = (s', reqs) → Forall query_ok reqs ∧ consistent s' = consistent s.
Proof.
  intros [= <- <-]. split; [|done]. constructor; [|constructor]. cbn.
  destruct (truthy_str (trim <$> srch)) as [x|] eqn:E; [|done]. by apply truthy_str_Some in E as [_ ?].
Qed.
Lemma refresh_ok r s s' reqs : handleRefresh r s = (s', reqs) → Forall query_ok reqs ∧ consistent s' = consistent s.
Proof.
  unfold handleRefresh. destruct (loadPage _ _ s) as [s1 reqs1] eqn:E. intros [= <- <-].
  apply load_query_ok in E as [H1 H2]. split; [|done]. apply Forall_app. split; [done|by repeat constructor].
Qed.
Lemma done_ok r ok msg s s' reqs : onBanDone r ok msg s = (s', reqs) → Forall query_ok reqs ∧ consistent s' = consistent s.
Proof. unfold onBanDone. destruct ok; [intros H%refresh_ok; exact H|]. intros [= <- <-]. split; [constructor|done]. Qed.
Lemma search_ok s s' reqs : search_effect url s = (s', reqs) → Forall query_ok reqs ∧ consistent s' = consistent s.
Proof.
  unfold search_effect. destruct (searchBoot s); [|intros [= <- <-]; split; [constructor|done]].
  destruct (loadPage 0 _ s) as [s1 reqs1] eqn:E. apply load_query_ok in E as [H1 H2]. rewrite <- H2.
  destruct (truthy_str (trim <$> url)) as [f|]; [destruct (f =s filter s)|]; by intros [= <- <-].
Qed.

Lemma event_ok ev s s' reqs : on_event url ev s = (s', reqs) → Forall query_ok reqs ∧ consistent s' = consistent s.
Proof.
  destruct ev; cbn [on_event].
  - destruct (search_effect url s) as [s1 reqs1] eqn:E. apply search_ok in E as [H1 H2]. intros [= <- <-]. split; [by constructor|done].
  - intros [= <- <-]. split; [constructor|]. unfold setFilter. by split_if.
  - destruct (searchTimer s); [intros H%load_query_ok; exact H|]. intros [= <- <-]. split; [constructor|done].
  - split_if; [intros [= <- <-]; split; [constructor|done]|]. intros H%search_ok. exact H.
  - split_if; [intros H%load_query_ok; exact H|]. intros [= <- <-]. split; [constructor|done].
  - split_if; [intros H%load_query_ok; exact H|]. intros [= <- <-]. split; [constructor|done].
  - split_if; [intros [= <- <-]; split; [constructor|done]|]. intros H%refresh_ok. exact H.
  - apply done_ok.
  - apply refresh_ok.
  - intros [= <- <-]. split; [constructor|done].
  - destruct (onBanDone r ok msg s) as [s1 reqs1] eqn:E. apply done_ok in E as [H1 H2]. rewrite <- H2.
    destruct ok; intros [= <- <-]; (split; [done|]); [|done]. unfold setFilter. by repeat split_if.
  - intros [= <- <-]. split; [constructor|done].
Qed.

Lemma page_inv_reach ctx c : page_reach (on_event url) served_response (Cfg (start ctx) []) c → page_inv c.
Proof.
  apply page_invariant; unfold page_inv.
  - split; [by left|constructor].
  - intros c' ev s reqs [Hc Hq] He. apply event_ok in He as [H1 H2]. cbn. rewrite H2. split; [done|]. by apply Forall_app.
  - intros c' i q b s reqs [Hc Hq] Hp Hr. assert (Hd : Forall query_ok (delete i (pending c') ++ [])).
    { rewrite app_nil_r. rewrite Forall_forall in *. intros x Hx. by eapply Hq, delete_sub. }
    rewrite Forall_forall in Hq. pose proof (Hq q (list_elem_of_lookup_2 _ _ _ Hp)) as Hqq.
    destruct q as [off srch cx| |]; cbn in Hr; injection Hr as <- <-; (split; [|done]); cbn; try done.
    destruct b as [n|]; [right; exists n|by left]. unfold loaded. cbn. destruct srch as [x|]; cbn; [|done].
    cbn in Hqq. destruct x; [done|]. done.
Qed.

(** C23. Answers may overtake each other and the list may change on the server, but
    what the page shows is always one page of one search at one moment: rows and
    total are what the server had at one moment for the offset shown and for the
    search that was answered last (the one the paging buttons and the refresh button
    ask for again), or there are no rows after a failed request.  The text in the
    search field may be newer than that search. *)
Theorem bans_page_consistent ctx c :
  page_reach (on_event url) served_response (Cfg (start ctx) []) c → consistent (current c).
Proof. intros H. by apply page_inv_reach in H as [? _]. Qed.

(** First load, two searches, their answers in the other order. *)
Definition race_script : list (action (option nat) event) :=
  [Do Mount; Answer 0 (Some 0%nat); Answer 0 (Some 0%nat); Do (Type_ "10"); Do TimerFire; Do (Type_ "10.0"); Do TimerFire;
   Answer 1 (Some 2%nat); Answer 0 (Some 1%nat)].

(** The search shown need not be the search asked for: the answers to two searches
    may arrive in the other order; the page then comes to rest on the older one,
    with the newer text in the search field. *)
Theorem bans_page_race ctx : url = None →
  ∃ c, page_reach (on_event url) served_response (Cfg (start ctx) []) c ∧
    pending c = [] ∧ searchTimer (current c) = None ∧ spinning (current c) = false ∧
    filter (current c) = "10.0" ∧ activeSearch (current c) = "10".
Proof.
  intros ->. eexists. split.
  - eapply (play_reach _ _ race_script); [|apply reach_start]. by vm_compute.
  - done.
Qed.
End served.

(** ** Paging through the list *)

Section walk.
(** The addresses the analyzer exports and its count of all bans, which is larger
    when the export was cut off. *)
Context `{UnicodeCase} (ips : list jstring) (total : Z) (src : jstring) (now : Z).

(** The request of [loadPage] and the answer of the route on a list of addresses. *)
Definition page_request (off : Z) (q : option jstring) : request := mk_request "/api/bans" [] [] (load_query off q now) None.
Definition list_answer (off : Z) (q : option jstring) : BannedIpsResult :=
  packResult ips total src (bans_opts (page_request off q)).

(** The pages a user sees who presses the button for the next page while it is
    enabled, and the last state. *)
Fixpoint walk (fuel : nat) (s : state) : list (list BanEntry) * state :=
  match fuel with
  | O => ([bans s], s)
  | S fuel =>
      match on_event None ClickNext s with
      | (s', [Load off q ctx]) =>
          let '(pages, last) :=
            walk fuel (on_response (Load off q ctx) (RBans (Some (list_answer off q))) s').1 in
          (bans s :: pages, last)
      | _ => ([bans s], s)
      end
  end.

Lemma page_opts off : 0 ≤ off →
  bans_opts (page_request off None) = {| countOnly := false; limit := Some (Some 50); FetchBanned.offset := Some (Some off); search := None |}.
Proof.
  intros Ho. unfold bans_opts, int_param, page_request, query, mk_request, load_query. cbn [rq_query app].
  assert (E : assoc "offset" [("limit", dec PAGE_SIZE); ("offset", dec off); ("bust", dec now)] = Some (dec off)) by done.
  rewrite E. cbn -[dec parseInt]. unfold truthy_str.
  assert (Hne : nonempty (dec off) = true) by (apply nonempty_true; intros E0; pose proof (parseInt_dec off Ho) as Hp; rewrite E0 in Hp; done).
  rewrite Hne, parseInt_dec by done. done.
Qed.

Lemma list_page off : 0 ≤ off →
  br_count (list_answer off None) = total ∧
  br_bans (list_answer off None) = map plain_ban (slice off (off + PAGE_SIZE) ips).
Proof. intros Ho. unfold list_answer. rewrite page_opts by done. unfold packResult. cbn. rewrite Z.max_r by done. done. Qed.

(** The page that shows offset [off]. *)
Definition shows (off : Z) (s : state) : Prop :=
  offset s = off ∧ bans s = map plain_ban (slice off (off + PAGE_SIZE) ips) ∧ totalCount s = total ∧
  activeSearch s = [] ∧ spinning s = false.

Lemma slice_len off n : 0 ≤ off → 0 ≤ n →
  Z.of_nat (length (slice off (off + n) ips)) = Z.min n (Z.max 0 (Z.of_nat (length ips) - off)).
Proof. intros. unfold slice. rewrite length_take, length_drop. lia. Qed.

(** What the first answer leaves on the page. *)
Definition first_page (ctx : jstring) : state :=
  (on_response (Load 0 None ctx) (RBans (Some (list_answer 0 None))) (start ctx)).1.
Lemma first_shows ctx : shows 0 (first_page ctx).
Proof. destruct (list_page 0) as [Hc Hb]; [done|]. unfold shows, first_page. cbn [on_response fst]. unfold loaded. cbn. done. Qed.

(** Whether there is a next page: while less than the count has been shown. *)
Definition more (off : Z) : bool :=
  (PAGE_SIZE <? total) && (off + Z.of_nat (length (slice off (off + PAGE_SIZE) ips)) <? total).

Lemma shows_next off s : 0 ≤ off → shows off s →
  if more off
  then ∃ s' ctx, on_event None ClickNext s = (s', [Load (off + PAGE_SIZE) None ctx]) ∧
       shows (off + PAGE_SIZE) (on_response (Load (off + PAGE_SIZE) None ctx) (RBans (Some (list_answer (off + PAGE_SIZE) None))) s').1
  else on_event None ClickNext s = (s, []).
Proof.
  intros Ho (Hoff & Hb & Ht & Ha & Hs). cbn [on_event]. unfold paging, hasNext, pageEnd, filtering, more.
  rewrite Hb, Ht, Ha, Hs, Hoff, length_map. cbn [nonempty negb andb].
  replace (Z.min _ total <? total) with (off + Z.of_nat (length (slice off (off + PAGE_SIZE) ips)) <? total)
    by (apply eq_true_iff_eq; rewrite !Z.ltb_lt; lia).
  destruct (_ && _) eqn:E; [|done]. cbn [andb]. unfold loadPage. cbn [fmap option_fmap option_map].
  change (truthy_str (Some (trim []))) with (@None jstring). eexists _, _. split; [done|].
  destruct (list_page (off + PAGE_SIZE)) as [Hc Hb']; [unfold PAGE_SIZE; lia|].
  unfold shows. cbn [on_response fst]. unfold loaded. cbn. done.
Qed.

Lemma walk_from fuel off s :
  0 ≤ off → shows off s → Z.of_nat (length ips) ≤ total → total < Z.of_nat fuel + off →
  concat (walk fuel s).1 = map plain_ban (drop (Z.to_nat off) ips) ∧
  on_event None ClickNext (walk fuel s).2 = ((walk fuel s).2, []) ∧
  (total = Z.of_nat (length ips) → off < total → Forall (λ p, p ≠ []) (walk fuel s).1).
Proof.
  revert off s. induction fuel as [|fuel IH]; intros off s Ho Hs Hlen Hf; cbn [walk];
    pose proof (shows_next off s Ho Hs) as Hn; destruct Hs as (_ & Hb & _);
    pose proof (slice_len off PAGE_SIZE Ho ltac:(done)) as Hl; unfold more, PAGE_SIZE in *.
  - destruct (_ && _) eqn:E; [apply andb_true_iff in E as [_ E]; bprop; lia|].
    cbn [concat fst snd]. rewrite app_nil_r. splits; [|done|lia].
    rewrite Hb. unfold slice. rewrite !drop_ge by lia. by rewrite take_nil.
  - destruct (_ && _) eqn:E.
    + apply andb_true_iff in E as [E1 E2]. bprop. destruct Hn as (s' & ctx & -> & Hn).
      destruct (IH (off + 50) _ ltac:(lia) Hn Hlen ltac:(lia)) as (H1 & H2 & H3).
      destruct (walk fuel _) as [pages last]. cbn [fst snd concat] in *. rewrite H1, Hb. splits; [|done|].
      * rewrite <- map_app. f_equal. unfold slice. replace (off + 50 - off) with 50 by lia.
        rewrite Z2Nat.inj_add by lia. rewrite <- drop_drop. apply take_drop.
      * intros Et Hlt. constructor; [|apply H3; [done|lia]].
        intros Hnil%(f_equal length). rewrite length_map in Hnil. cbn in Hnil. lia.
    + rewrite Hn. cbn [concat fst snd]. rewrite app_nil_r, Hb. apply andb_false_iff in E. bprop. splits; [|done|].
      * f_equal. unfold slice. apply take_ge. rewrite length_drop. lia.
      * intros Et Hlt. constructor; [|constructor]. intros Hnil%(f_equal length). rewrite length_map in Hnil. cbn in Hnil. lia.
Qed.


(** Past the exported addresses the page says that there are no bans, while the count
    beside it is positive and the button leads on. *)
Lemma cut_off_empty off s :
  shows off s → Z.of_nat (length ips) ≤ off < total → bans s = [] ∧ body s = BNone ∧ hasNext s = true.
Proof.
  intros (Hoff & Hb & Ht & Ha & Hs) Hr. assert (Hnil : bans s = []).
  { rewrite Hb. unfold slice. by rewrite drop_ge, take_nil by lia. }
  unfold body, hasNext, pageEnd, filtering. rewrite Hnil, Ht, Ha, Hoff. unfold spinning in Hs.
  apply orb_false_iff in Hs as [-> _]. cbn. splits; [done|by split_if|]. apply Z.ltb_lt. lia.
Qed.

(** A search shows its first page only: the buttons are hidden while a search is
    active, whatever the number of matches. *)
Lemma search_one_page s : activeSearch s ≠ [] → on_event None ClickNext s = (s, []).
Proof. intros H0. cbn [on_event]. unfold paging, filtering. by destruct (activeSearch s). Qed.
End walk.

(** ** Examples *)

Module BansPageDemo.
(** A list that grows: one address more at every moment. *)
Definition some_answer (n : nat) (off : Z) (q : option jstring) : BannedIpsResult :=
  let ips := ["10.0.0.1" : jstring; "10.0.0.2"] ++ map (λ i, "10.0.0." ++ dec (Z.of_nat i)) (seq 3 n) in
  list_answer (H := ascii_case) ips (Z.of_nat (length ips)) "ipset" 0 off q.
Lemma bans_page_race_witness :
  ∃ c, page_reach (on_event None) (served_response some_answer) (Cfg (start []) []) c ∧
    pending c = [] ∧ searchTimer (current c) = None ∧ spinning (current c) = false ∧
    filter (current c) = "10.0" ∧ activeSearch (current c) = "10".
Proof. by apply (bans_page_race some_answer None []). Defined.
Definition race_end : config state Req :=
  default (Cfg (start []) []) (play (on_event None) (served_response some_answer) race_script (Cfg (start []) [])).
Lemma race_played : play (on_event None) (served_response some_answer) race_script (Cfg (start []) []) = Some race_end.
Proof. by vm_compute. Qed.
Lemma bans_page_consistent_witness :
  consistent some_answer (current race_end) ∧
  bans (current race_end) = [plain_ban "10.0.0.1"; plain_ban "10.0.0.2"; plain_ban "10.0.0.3"].
Proof.
  split; [|by vm_compute]. apply (bans_page_consistent some_answer None []).
  exact (play_reach _ _ race_script _ _ _ race_played (reach_start _ _ _)).
Defined.

(** Sixty addresses exported of a hundred and twenty bans: two pages of
    them, then two empty ones. *)
Definition exported : list jstring := map (λ i, "10.0.0." ++ dec (Z.of_nat i)) (seq 1 60).
End BansPageDemo.
