(* ===== verification/SocPanel.v ===== *)
(** The security timeline and the attack map in the browser: the filter they share
    (dashboard/src/components/SocKindFilterContext.tsx), the timeline with its
    export (SocTimelinePanel.tsx), the map (AttackWorldMap.tsx, AttackGlobe.tsx). *)

From S2P Require Import Prelude JsMap JsString JsNum Json JsValue SocTimeline AttackMap BanClient.

(** ** The shared filter and the address bar *)

Inductive SocKindFilter := FAll | FKind (k : SocTimelineKind).
#[global] Instance SocKindFilter_eq_dec : EqDecision SocKindFilter.
Proof. solve_decision. Defined.

Definition HASH_KINDS : list (jstring * SocKindFilter) :=
  [("all", FAll); ("incident", FKind KindIncident); ("ban", FKind KindBan); ("lineage", FKind KindLineage);
   ("waf", FKind KindWaf); ("ack", FKind KindAck)].

(** [h.replace(/^#/, "")] *)
Definition strip_hash (h : jstring) : jstring := match h with 35 :: t => t | _ => h end.
(** [h.match(/^soc-(.+)$/)]; none of the known kinds has a line break. *)
Definition parseHashFilter (hash : jstring) : option SocKindFilter :=
  let h := strip_hash hash in
  if (h =s "soc-timeline") || (h =s "soc-all") then Some FAll
  else if starts_with "soc-" h then assoc (drop 4 h) HASH_KINDS else None.
Definition filter_text (f : SocKindFilter) : jstring := match f with FAll => "all" | FKind k => kind_text k end.
Definition hashForFilter (f : SocKindFilter) : jstring :=
  match f with FAll => "#soc-timeline" | FKind k => "#soc-" ++ kind_text k end.

(** Where the page scrolls to. *)
Inductive Target := ToTimeline | ToMap.
(** The provider, the fragment of the address bar, and the scrolling asked for. *)
Record FilterState := { kindFilter : SocKindFilter; hash : jstring; scrolls : list Target }.

Definition applyHash (s : FilterState) : FilterState :=
  if strip_hash (hash s) =s "attack-world-map"
  then {| kindFilter := kindFilter s; hash := hash s; scrolls := scrolls s ++ [ToMap] |}
  else match parseHashFilter (hash s) with
       | None => s
       | Some f => {| kindFilter := f; hash := hash s;
                      scrolls := scrolls s ++ if bool_decide (f = FAll) then [] else [ToTimeline] |}
       end.
Definition filter_mount (h : jstring) : FilterState := applyHash {| kindFilter := FAll; hash := h; scrolls := [] |}.
(** [history.replaceState] changes the fragment and fires no event. *)
Definition setKindFilter (f : SocKindFilter) (scroll : bool) (s : FilterState) : FilterState :=
  {| kindFilter := f; hash := hashForFilter f; scrolls := scrolls s ++ if scroll then [ToTimeline] else [] |}.
Inductive FilterEvent := SetFilter (f : SocKindFilter) (scroll : bool) | HashChange (h : jstring).
Definition filter_step (s : FilterState) (ev : FilterEvent) : FilterState :=
  match ev with
  | SetFilter f scroll => setKindFilter f scroll s
  | HashChange h => applyHash {| kindFilter := kindFilter s; hash := h; scrolls := scrolls s |}
  end.

Lemma hash_roundtrip f : parseHashFilter (hashForFilter f) = Some f.
Proof. by destruct f as [|[]]. Qed.

(** The address bar names the filter, or names none. *)
Definition hash_agrees (s : FilterState) : Prop :=
  ∀ f, parseHashFilter (hash s) = Some f → strip_hash (hash s) ≠ "attack-world-map" → kindFilter s = f.
Lemma apply_agrees s : hash_agrees (applyHash s).
Proof.
  unfold hash_agrees, applyHash. intros f. destruct (strip_hash (hash s) =s "attack-world-map") eqn:E; bprop; [cbn; congruence|].
  destruct (parseHashFilter (hash s)) as [g|] eqn:Ep; cbn; rewrite Ep; [|done]. by intros [= ->].
Qed.

(** A link keeps the filter: however the filter was set, whoever opens the address
    shown sees the same filter. *)
Theorem filter_link_keeps h evs f scroll :
  let s := fold_left filter_step (evs ++ [SetFilter f scroll]) (filter_mount h) in
  kindFilter s = f ∧ kindFilter (filter_mount (hash s)) = f.
Proof.
  cbv zeta. rewrite fold_left_app. cbn [fold_left filter_step setKindFilter kindFilter hash]. split; [done|].
  by destruct f as [|[]].
Qed.
Lemma filter_agrees h evs : hash_agrees (fold_left filter_step evs (filter_mount h)).
Proof.
  induction evs as [|ev evs IH] using rev_ind; [apply apply_agrees|]. rewrite fold_left_app. cbn [fold_left].
  destruct ev as [f b|h']; [|apply apply_agrees]. intros f' Hf _. cbn in *. rewrite hash_roundtrip in Hf. congruence.
Qed.

(** ** Timeline *)

Definition KIND_ORDER : list SocTimelineKind := [KindIncident; KindWaf; KindBan; KindAck; KindLineage].

(** [entry.kind === "ban" && entry.ip] *)
Definition with_ip (e : SocTimelineEntry) : option jstring :=
  if bool_decide (se_kind e = KindBan) then truthy_str (se_ip e) else None.
(** The loop of [kindCounts]: counters in the order of the literal, and the set. *)
Definition zero_counts : list (SocTimelineKind * Z) :=
  [(KindIncident, 0); (KindBan, 0); (KindLineage, 0); (KindWaf, 0); (KindAck, 0)].
Definition set_add (x : jstring) (s : list jstring) : list jstring := if bool_decide (x ∈ s) then s else s ++ [x].
Definition count_entry (acc : list (SocTimelineKind * Z) * list jstring) (e : SocTimelineEntry)
    : list (SocTimelineKind * Z) * list jstring :=
  match with_ip e with
  | Some ip => (acc.1, set_add ip acc.2)
  | None => (mset (se_kind e) ((mget (se_kind e) acc.1 ?? 0) + 1) acc.1, acc.2)
  end.
Definition kindCounts (entries : list SocTimelineEntry) : list (SocTimelineKind * Z) :=
  let '(counts, ips) := fold_left count_entry entries (zero_counts, []) in
  mset KindBan ((mget KindBan counts ?? 0) + Z.of_nat (length ips)) counts.
Definition count_of (k : SocTimelineKind) (entries : list SocTimelineEntry) : Z := mget k (kindCounts entries) ?? 0.

Definition filteredEntries (f : SocKindFilter) (entries : list SocTimelineEntry) : list SocTimelineEntry :=
  match f with FAll => entries | FKind k => jfilter (λ e, bool_decide (se_kind e = k)) entries end.
(** The chips above the list: kinds that occur, with their counts. *)
Definition chips (entries : list SocTimelineEntry) : list (SocTimelineKind * Z) :=
  omap (λ k, let n := count_of k entries in if n =? 0 then None else Some (k, n)) KIND_ORDER.
Definition banParityOk (s : BannedIps) (entries : list SocTimelineEntry) : bool :=
  liveIpset s && (0 <? count_of KindBan entries) && (totalCount s =? count_of KindBan entries).

Lemma set_add_elem x y s : y ∈ set_add x s ↔ y = x ∨ y ∈ s.
Proof. unfold set_add. split_if; bprop; [naive_solver|]. rewrite elem_of_app, list_elem_of_singleton. naive_solver. Qed.
Lemma set_add_nodup x s : NoDup s → NoDup (set_add x s).
Proof.
  unfold set_add. split_if; bprop; [done|]. intros Hs. apply NoDup_app. splits; [done| |apply NoDup_singleton].
  by intros y Hy ->%list_elem_of_singleton.
Qed.

Definition plain (k : SocTimelineKind) (e : SocTimelineEntry) : bool :=
  bool_decide (se_kind e = k) && match with_ip e with Some _ => false | None => true end.
Lemma count_loop entries counts ips counts' ips' :
  fold_left count_entry entries (counts, ips) = (counts', ips') → NoDup ips →
  NoDup ips' ∧ (∀ x, x ∈ ips' ↔ x ∈ ips ∨ ∃ e, e ∈ entries ∧ with_ip e = Some x) ∧
  ∀ k, mget k counts' ?? 0 = (mget k counts ?? 0) + Z.of_nat (length (jfilter (plain k) entries)).
Proof.
  revert counts ips. induction entries as [|e entries IH]; intros counts ips; cbn [fold_left].
  - intros [= <- <-] Hd. splits; [done| |intros; cbn; lia]. intros x. split; [by left|].
    intros [?|(e & He & _)]; [done|by apply elem_of_nil in He].
  - unfold count_entry at 2. destruct (with_ip e) as [ip|] eqn:Ew; cbn [fst snd]; intros Hf Hd.
    + destruct (IH _ _ Hf (set_add_nodup ip ips Hd)) as (H1 & H2 & H3). splits; [done| |].
      * intros x. rewrite H2, set_add_elem. setoid_rewrite elem_of_cons. naive_solver.
      * intros k. rewrite H3. unfold jfilter. cbn [List.filter]. unfold plain at 2. rewrite Ew, andb_false_r. done.
    + destruct (IH _ _ Hf Hd) as (H1 & H2 & H3). splits; [done| |].
      * intros x. rewrite H2. setoid_rewrite elem_of_cons. naive_solver.
      * intros k. rewrite H3, mget_set. unfold jfilter. cbn [List.filter]. unfold plain at 2. rewrite Ew, andb_true_r.
        destruct (bool_decide (k = se_kind e)) eqn:E; bprop.
        -- subst. rewrite bool_decide_true by done. cbn. lia.
        -- rewrite bool_decide_false by congruence. lia.
Qed.

(** The chips count what the list shows: entries of their kind, except that bans of
    one address are one; the note that the counts agree appears only when the number
    of distinct banned addresses in the timeline is the number in the navigation. *)
Theorem kind_counts_exact entries : ∃ ips,
  NoDup ips ∧ (∀ x, x ∈ ips ↔ ∃ e, e ∈ entries ∧ with_ip e = Some x) ∧
  (∀ k, k ≠ KindBan → count_of k entries = Z.of_nat (length (filteredEntries (FKind k) entries))) ∧
  count_of KindBan entries = Z.of_nat (length ips) + Z.of_nat (length (jfilter (plain KindBan) entries)) ∧
  ∀ s, banParityOk s entries = true → liveIpset s = true ∧ totalCount s = count_of KindBan entries.
Proof.
  destruct (fold_left count_entry entries (zero_counts, [])) as [counts ips] eqn:E.
  pose proof (count_loop _ _ _ _ _ E ltac:(constructor)) as (Hd & Hi & Hc). exists ips. splits.
  - done.
  - intros x. rewrite Hi. split; [|by right]. by intros [?%elem_of_nil|?].
  - intros k Hk. unfold count_of, kindCounts. rewrite E, mget_set_ne by done. rewrite Hc.
    replace (mget k zero_counts ?? 0) with 0 by (by destruct k). rewrite Z.add_0_l. unfold filteredEntries, jfilter.
    do 2 f_equal. apply filter_ext_in. intros e _. unfold plain, with_ip.
    destruct (bool_decide (se_kind e = k)) eqn:Ek; bprop; [|done]. by rewrite bool_decide_false by congruence.
  - unfold count_of, kindCounts. rewrite E, mget_set_eq. change (default 0 (Some ?x)) with x.
    rewrite Hc. change (mget KindBan zero_counts ?? 0) with 0. lia.
  - intros s. unfold banParityOk. intros H. by bprop.
Qed.

(** ** Export *)

Definition csvCell (s : jstring) : jstring := dq ++ replace_unit 34 (dq ++ dq) s ++ dq.
(** The cells of a row: [e.ip ?? ""] and [e.risk ?? ""] as text. *)
Definition csv_cells (e : SocTimelineEntry) : list jstring :=
  [dec (se_ts e); kind_text (se_kind e); se_title e; se_detail e; se_ip e ?? []; (num_to_string <$> se_risk e) ?? []].
Definition csv_header : list jstring := ["ts"; "kind"; "title"; "detail"; "ip"; "risk"].
Definition csv_row (cells : list jstring) : jstring := join "," (map csvCell cells).
Definition downloadSocCsv (entries : list SocTimelineEntry) : jstring :=
  "ts,kind,title,detail,ip,risk" ++ [10] ++ join [10] (map (csv_row ∘ csv_cells) entries).
Definition csv_name (f : SocKindFilter) : jstring := "soc-timeline-" ++ filter_text f ++ ".csv".

(** Reading such a file the way RFC 4180 prescribes: quoted cells may hold commas,
    line breaks and doubled quotes. *)
Inductive CellMode := Bare | Quoted | QuoteSeen.
Fixpoint csv_read (cells : list jstring) (cell : jstring) (mode : CellMode) (s : jstring) : list (list jstring) :=
  match s with
  | [] => match cells, cell, mode with [], [], Bare => [] | _, _, _ => [cells ++ [cell]] end
  | c :: s =>
      match mode with
      | Quoted => if c =? 34 then csv_read cells cell QuoteSeen s else csv_read cells (cell ++ [c]) Quoted s
      | _ =>
          if (c =? 34) && match mode with QuoteSeen => true | _ => false end then csv_read cells (cell ++ [c]) Quoted s
          else if (c =? 34) && bool_decide (cell = []) then csv_read cells cell Quoted s
          else if c =? 44 then csv_read (cells ++ [cell]) [] Bare s
          else if c =? 10 then (cells ++ [cell]) :: csv_read [] [] Bare s
          else csv_read cells (cell ++ [c]) Bare s
      end
  end.

Lemma read_quoted cells cell s rest :
  csv_read cells cell Quoted (replace_unit 34 (dq ++ dq) s ++ dq ++ rest) = csv_read cells (cell ++ s) QuoteSeen rest.
Proof.
  revert cell. induction s as [|c s IH]; intros cell; [by cbn; rewrite app_nil_r|].
  unfold replace_unit. cbn [flat_map]. fold (replace_unit 34 (dq ++ dq) s). destruct (c =? 34) eqn:E; bprop.
  - subst. cbn [dq app csv_read Z.eqb Pos.eqb andb]. rewrite IH. by rewrite <- app_assoc.
  - cbn [app csv_read]. rewrite (proj2 (Z.eqb_neq c 34)) by done. rewrite IH. by rewrite <- app_assoc.
Qed.
Lemma read_cell cells s rest : csv_read cells [] Bare (csvCell s ++ rest) = csv_read cells s QuoteSeen rest.
Proof. unfold csvCell. rewrite <- !app_assoc. cbn [dq app csv_read Z.eqb Pos.eqb andb]. apply (read_quoted cells []). Qed.
Lemma read_row cells cs rest : cs ≠ [] →
  csv_read cells [] Bare (csv_row cs ++ 10 :: rest) = (cells ++ cs) :: csv_read [] [] Bare rest ∧
  csv_read cells [] Bare (csv_row cs) = [cells ++ cs].
Proof.
  unfold csv_row. revert cells. induction cs as [|c cs IH]; intros cells Hne; [done|]. destruct cs as [|c' cs].
  - cbn [map join]. rewrite read_cell. rewrite <- (app_nil_r (csvCell c)) at 1. rewrite read_cell.
    split; [done|]. cbn. by destruct cells, c.
  - destruct (IH (cells ++ [c]) ltac:(done)) as [H1 H2].
    change (map csvCell (c :: c' :: cs)) with (csvCell c :: map csvCell (c' :: cs)). cbn [join].
    change (match map csvCell (c' :: cs) with [] => csvCell c | _ => _ end)
      with (csvCell c ++ "," ++ join "," (map csvCell (c' :: cs))).
    rewrite <- !app_assoc, !read_cell. cbn [app csv_read Z.eqb Pos.eqb andb].
    change (bool_decide (c = []) && false) with false. split.
    + rewrite H1. by rewrite <- app_assoc.
    + rewrite H2. by rewrite <- app_assoc.
Qed.
Lemma read_rows rows : Forall (λ r, r ≠ []) rows → csv_read [] [] Bare (join [10] (map csv_row rows)) = rows.
Proof.
  induction 1 as [|r rows Hr Hrows IH]; [done|]. destruct rows as [|r' rows].
  - cbn [map join]. by destruct (read_row [] r [] Hr) as [_ ->].
  - change (map csv_row (r :: r' :: rows)) with (csv_row r :: map csv_row (r' :: rows)). cbn [join].
    change (match map csv_row (r' :: rows) with [] => csv_row r | _ => _ end)
      with (csv_row r ++ [10] ++ join [10] (map csv_row (r' :: rows))).
    cbn [app]. destruct (read_row [] r (join [10] (map csv_row (r' :: rows))) Hr) as [-> _]. by rewrite IH.
Qed.

(** C30. The exported file can be read back: its rows are the header and the cells of
    the entries, whatever commas, quotes and line breaks the texts contain. *)
Theorem csv_roundtrip entries : csv_read [] [] Bare (downloadSocCsv entries) = csv_header :: map csv_cells entries.
Proof.
  unfold downloadSocCsv.
  change (csv_read [] [] Bare ("ts,kind,title,detail,ip,risk" ++ [10] ++ ?r)) with (csv_header :: csv_read [] [] Bare r).
  f_equal. replace (map (csv_row ∘ csv_cells) entries) with (map csv_row (map csv_cells entries)) by apply map_map.
  apply read_rows. apply Forall_forall. intros r (e & -> & _)%list_elem_of_fmap. done.
Qed.

(** ** Attack map *)

(** A marker as the map uses it. *)
Record AttackMarker := {
  am_ip : jstring; am_lat : num; am_lon : num; am_countryCode : jstring; am_country : jstring; am_kind : MarkerKind;
  am_reason : option jstring; am_risk : option num; am_operator : option jstring;
}.
#[global] Instance MarkerKind_eq_dec : EqDecision MarkerKind.
Proof. solve_decision. Defined.

Record AttackGeoResponse := {
  ag_count : option Z; ag_total_ips : option Z; ag_geo_lookup : option bool; ag_data_source : option jstring;
  ag_bans_source : option jstring; ag_defender : option (num * num); ag_markers : option (list AttackMarker);
}.
Record MapState := {
  markers : list AttackMarker; map_loading : bool; map_error : option jstring; hover : option AttackMarker;
  dataSource : option jstring; totalIps : Z; geoLookup : bool; bansSource : option jstring; defender : option (num * num);
}.
Definition map_start : MapState :=
  {| markers := []; map_loading := true; map_error := None; hover := None; dataSource := None; totalIps := 0;
     geoLookup := true; bansSource := None; defender := None |}.
(** The rest of [load]; [None] is a failed request, an error status or a body that
    is no document.  The markers on show stay in that case. *)
Definition map_loaded (reply : option AttackGeoResponse) (s : MapState) : MapState :=
  match reply with
  | Some d =>
      {| markers := ag_markers d ?? []; map_loading := false; map_error := None; hover := hover s;
         dataSource := ag_data_source d;
         totalIps := ag_total_ips d ?? (ag_count d ?? ((λ l, Z.of_nat (length l)) <$> ag_markers d) ?? 0);
         geoLookup := negb (bool_decide (ag_geo_lookup d = Some false)); bansSource := ag_bans_source d;
         defender := ag_defender d |}
  | None =>
      {| markers := markers s; map_loading := false; map_error := Some "load"; hover := hover s; dataSource := dataSource s;
         totalIps := totalIps s; geoLookup := geoLookup s; bansSource := bansSource s; defender := defender s |}
  end.

Definition marker_count (k : MarkerKind) (l : list AttackMarker) : Z := Z.of_nat (length (jfilter (λ m, bool_decide (am_kind m = k)) l)).
(** The markers of the shared filter; the map has no lineage and no WAF entries. *)
Definition filteredMarkers (f : SocKindFilter) (l : list AttackMarker) : list AttackMarker :=
  match f with
  | FAll => l
  | FKind KindLineage | FKind KindWaf => []
  | FKind KindBan => jfilter (λ m, bool_decide (am_kind m = MBan)) l
  | FKind KindIncident => jfilter (λ m, bool_decide (am_kind m = MIncident)) l
  | FKind KindAck => jfilter (λ m, bool_decide (am_kind m = MAck)) l
  end.
Definition mapParityOk (b : BannedIps) (s : MapState) : bool :=
  liveIpset b && bool_decide (dataSource s = Some ("live" : jstring)) && (0 <? marker_count MBan (markers s)) &&
  (totalCount b =? marker_count MBan (markers s)).
(** The effect that drops a pointed-at marker the filter hides. *)
Definition hover_effect (f : SocKindFilter) (s : MapState) : MapState :=
  match hover s with
  | Some m => if existsb (λ m', am_ip m' =s am_ip m) (filteredMarkers f (markers s)) then s
              else {| markers := markers s; map_loading := map_loading s; map_error := map_error s; hover := None;
                      dataSource := dataSource s; totalIps := totalIps s; geoLookup := geoLookup s;
                      bansSource := bansSource s; defender := defender s |}
  | None => s
  end.

(** AttackGlobe: an arc from every attacker to the defender, acknowledged ones left
    out; the dashes of neighbouring arcs are shifted against each other. *)
Definition DEFAULT_DEFENDER : num * num := (lit_num "41.0082", lit_num "28.9784").
Record ArcLink := {
  ar_startLat : num; ar_startLng : num; ar_endLat : num; ar_endLng : num; ar_sourceIp : jstring; ar_kind : MarkerKind;
  ar_dashOffset : num;
}.
Definition arcs (ms : list AttackMarker) (def : option (num * num)) : list ArcLink :=
  let hub := def ?? DEFAULT_DEFENDER in
  map (λ im : nat * AttackMarker,
         {| ar_startLat := am_lat im.2; ar_startLng := am_lon im.2; ar_endLat := hub.1; ar_endLng := hub.2;
            ar_sourceIp := am_ip im.2; ar_kind := am_kind im.2;
            ar_dashOffset := nmul (num_of_Z (Z.of_nat (im.1 mod 5))) (lit_num "0.08") |})
      (numbered (jfilter (λ m, negb (bool_decide (am_kind m = MAck))) ms)).

(** One arc per attacker that is shown and not acknowledged, all to one place. *)
Lemma arcs_exact ms def :
  map ar_sourceIp (arcs ms def) = map am_ip (jfilter (λ m, negb (bool_decide (am_kind m = MAck))) ms) ∧
  Forall (λ a, (ar_endLat a, ar_endLng a) = def ?? DEFAULT_DEFENDER ∧ ar_kind a ≠ MAck) (arcs ms def).
Proof.
  unfold arcs. set (l := jfilter _ ms). split.
  - rewrite map_map. rewrite <- (numbered_snd l) at 2. cbn. change ((numbered l).*2) with (map snd (numbered l)). by rewrite map_map.
  - apply Forall_forall. intros a (im & -> & Him)%list_elem_of_fmap. cbn. split; [by destruct (def ?? DEFAULT_DEFENDER)|].
    destruct im as [i m]. apply numbered_elem, list_elem_of_lookup_2 in Him. unfold l in Him. apply jfilter_elem in Him as [_ Hm]. by bprop.
Qed.
(** What the pointer shows is on the map. *)
Lemma hover_shown f s m : hover (hover_effect f s) = Some m → am_ip m ∈ map am_ip (filteredMarkers f (markers (hover_effect f s))).
Proof.
  unfold hover_effect. destruct (hover s) as [h|] eqn:E; [|by rewrite E]. split_if; cbn; [|done].
  rewrite E. intros [= ->]. apply existsb_exists in E0 as (m' & Hin & Hip). bprop. rewrite <- Hip.
  apply list_elem_of_fmap_2, list_elem_of_In. done.
Qed.
