(* ===== verification/GrafanaPanel.v ===== *)
(** The live metrics on the home page (dashboard/src/components/GrafanaMiniPanels.tsx):
    the cards, the history kept in the browser, and the requests with their
    generation counter, as a machine whose answers arrive in any order. *)

From S2P Require Import Prelude JsMap JsString JsNum Json Http JsValue CopilotText I18n Client Grafana.

(** ** Data *)

(** A missing, [undefined] or [null] statistic is [None]. *)
Definition Stats := list (jstring * option num).
Definition sget (k : jstring) (m : Stats) : option num := match assoc k m with Some v => v | None => None end.

Record Spark := { sp_t : jstring; sp_v : num }.
Record TsRow := { row_t : jstring; row_v : list (jstring * num) }.
Record Payload := {
  reachable : bool;
  source : option jstring;
  tenant : option jstring;
  hint : option jstring;
  ts : option Z;
  rangeSec : option Z;
  stats : option Stats;
  socStats : option Stats;
  telegramStats : option Stats;
  apiStats : option Stats;
  webhookStats : option Stats;
  sparklines : option (list (jstring * list Spark));
  timeseries : option (list (jstring * list TsRow));
  table : option (list (jstring * num));
}.
(** [{ reachable: false, hint, rangeSec }] *)
Definition offline (h : option jstring) (range : Z) : Payload :=
  {| reachable := false; source := None; tenant := None; hint := h; ts := None; rangeSec := Some range; stats := None;
     socStats := None; telegramStats := None; apiStats := None; webhookStats := None; sparklines := None;
     timeseries := None; table := None |}.

Definition STAT_COLORS : list (jstring * jstring) :=
  [("lines", "#6366f1"); ("ban_ok", "#16a34a"); ("ban_fail", "#be123c"); ("parse_err", "#d97706"); ("eps", "#0891b2");
   ("xdp", "#a78bfa"); ("unique_ips", "#22d3ee"); ("ringbuf", "#f97316"); ("ja3_clusters", "#c084fc");
   ("ja3_bans", "#a855f7"); ("threat_iocs", "#f59e0b"); ("fp_trusted", "#34d399"); ("bp_ipset", "#16a34a");
   ("bp_ipc", "#6366f1"); ("bp_xdp", "#a78bfa"); ("threat_applied", "#22c55e"); ("threat_failed", "#f87171");
   ("threat_sync_age_h", "#fbbf24"); ("fp_learn", "#34d399"); ("fp_suppressed", "#94a3b8"); ("api_requests", "#38bdf8");
   ("api_auth_fail", "#fb923c"); ("api_rate_limited", "#f472b6"); ("wh_sent", "#5794f2"); ("wh_fail", "#be123c");
   ("wh_drops", "#f97316"); ("tg_ack", "#5794f2"); ("tg_unacked", "#be123c"); ("quiet_hours", "#34d399");
   ("quiet_active", "#a78bfa")].
(** Cards: the id of the statistic and the key of its label. *)
Definition CORE_STATS : list (jstring * jstring) :=
  [("lines", "grafanaStatLines"); ("ban_ok", "grafanaStatBanOk"); ("ban_fail", "grafanaStatBanFail");
   ("parse_err", "grafanaStatParseErr"); ("eps", "grafanaStatEps"); ("xdp", "grafanaStatXdp")].
Definition EXTRA_STATS : list (jstring * jstring) :=
  [("unique_ips", "grafanaStatUniqueIps"); ("ringbuf", "grafanaStatRingbuf")].
Definition SOC_THREAT_STATS : list (jstring * jstring) :=
  [("threat_sync_age_h", "grafanaSocThreatSyncAge"); ("threat_iocs", "grafanaSocThreatIocs");
   ("threat_applied", "grafanaSocThreatApplied"); ("threat_failed", "grafanaSocThreatFailed");
   ("fp_trusted", "grafanaSocFpTrusted"); ("fp_learn", "grafanaSocFpLearn"); ("fp_suppressed", "grafanaSocFpSuppressed")].
Definition SOC_BAN_STATS : list (jstring * jstring) :=
  [("bp_ipc", "grafanaSocBpIpc"); ("bp_xdp", "grafanaSocBpXdp"); ("bp_ipset", "grafanaSocBpIpset");
   ("bp_failed", "grafanaSocBpFailed"); ("ja3_clusters", "grafanaSocJa3Clusters"); ("ja3_bans", "grafanaSocJa3Bans");
   ("dist_risk_buckets", "grafanaSocDistRiskBuckets"); ("dist_risk_bonus", "grafanaSocDistRiskBonus")].
Definition API_STATS : list (jstring * jstring) :=
  [("api_requests", "grafanaApiRequests"); ("api_auth_fail", "grafanaApiAuthFail");
   ("api_rate_limited", "grafanaApiRateLimited")].
Definition WEBHOOK_STATS : list (jstring * jstring) :=
  [("wh_sent", "grafanaWebhookSent"); ("wh_fail", "grafanaWebhookFail"); ("wh_drops", "grafanaWebhookDrops")].
Definition TELEGRAM_STATS : list (jstring * jstring) :=
  [("tg_ack", "grafanaTelegramAck"); ("tg_unacked", "grafanaTelegramUnacked"); ("tg_route", "grafanaTelegramRoute");
   ("tg_batch", "grafanaTelegramBatch"); ("tg_queue", "grafanaTelegramQueue"); ("quiet_hours", "grafanaQuietHours");
   ("quiet_active", "grafanaQuietActive")].

(** ** The history kept in the browser *)

Definition LIVE_MAX : nat := 36.
Record LiveHist := {
  eps_ts : list TsRow;
  http_status : list TsRow;
  alert_rate : list TsRow;
  ban_rate : list TsRow;
  parse_rate : list TsRow;
  ban_pipeline_rate : list TsRow;
  sparks : list (jstring * list Spark);
}.
Definition emptyLiveHist : LiveHist :=
  {| eps_ts := []; http_status := []; alert_rate := []; ban_rate := []; parse_rate := []; ban_pipeline_rate := []; sparks := [] |}.

(** [l.slice(-n)] for [0 < n] *)
Definition last_n {A} (n : nat) (l : list A) : list A := drop (length l - n) l.
Definition pushTs {A} (arr : list A) (row : A) : list A :=
  if (LIVE_MAX <? length (arr ++ [row]))%nat then last_n LIVE_MAX (arr ++ [row]) else arr ++ [row].
Definition pushSpark (h : LiveHist) (t id : jstring) (v : num) : list Spark :=
  last_n LIVE_MAX ((assoc id (sparks h) ?? []) ++ [{| sp_t := t; sp_v := v |}]).
(** The loop over [Object.entries(stats)]. *)
Definition push_sparks (h : LiveHist) (t : jstring) (st : Stats) : list (jstring * list Spark) :=
  fold_left (λ m kv, match kv.2 with
                     | Some v => if is_finite v then put_field kv.1 (pushSpark h t kv.1 v) m else m
                     | None => m
                     end) st (sparks h).

(** The rows appended to the six charts. *)
Definition eps_row (t : jstring) (st : Stats) : TsRow := {| row_t := t; row_v := [("eps", sget "eps" st ?? nzero)] |}.
Definition http_row (t : jstring) (st : Stats) : TsRow :=
  {| row_t := t; row_v := [("4xx", sget "http_4xx" st ?? nzero); ("5xx", sget "http_5xx" st ?? nzero)] |}.
Definition alert_row (t : jstring) (st : Stats) : TsRow := {| row_t := t; row_v := [("alerts_s", sget "alerts" st ?? nzero)] |}.
Definition ban_row (t : jstring) (st : Stats) : TsRow :=
  {| row_t := t; row_v := [("success", sget "ban_ok" st ?? nzero); ("fail", sget "ban_fail" st ?? nzero)] |}.
Definition parse_row (t : jstring) (st : Stats) : TsRow := {| row_t := t; row_v := [("parse_s", sget "parse_err" st ?? nzero)] |}.
Definition pipeline_row (t : jstring) (st : Stats) : TsRow :=
  {| row_t := t;
     row_v := [("ipc", sget "bp_ipc" st ?? nzero); ("xdp", sget "bp_xdp" st ?? sget "xdp" st ?? nzero);
               ("ipset", sget "bp_ipset" st ?? nzero); ("ja3", sget "ja3_bans" st ?? sget "ja3_clusters" st ?? nzero);
               ("dist_risk", sget "dist_risk_bonus" st ?? nzero)] |}.
(** [t] is the time of day as the browser writes it. *)
Definition appendLiveHist (t : jstring) (h : LiveHist) (st : Stats) : LiveHist :=
  {| eps_ts := pushTs (eps_ts h) (eps_row t st);
     http_status := pushTs (http_status h) (http_row t st);
     alert_rate := pushTs (alert_rate h) (alert_row t st);
     ban_rate := pushTs (ban_rate h) (ban_row t st);
     parse_rate := pushTs (parse_rate h) (parse_row t st);
     ban_pipeline_rate := pushTs (ban_pipeline_rate h) (pipeline_row t st);
     sparks := push_sparks h t st |}.
Definition liveHistTimeseries (h : LiveHist) : list (jstring * list TsRow) :=
  [("eps_ts", eps_ts h); ("http_status", http_status h); ("alert_rate", alert_rate h); ("ban_rate", ban_rate h);
   ("parse_rate", parse_rate h); ("ban_pipeline_rate", ban_pipeline_rate h)].
Definition needsLiveHistory (body : Payload) : bool :=
  if negb (reachable body) then false
  else if bool_decide (source body = Some "guardian-direct") then true
  else match assoc "eps_ts" (timeseries body ?? []) with Some (_ :: _) => false | _ => true end.

(** ** Events per second *)

Record EpsSmokeInfo := {
  pass : option bool;
  peak_eps : option num;
  derived_eps : option num;
  lines_delta : option num;
}.
(** [0.05] and [0.5] *)
Definition n005 : num := parseFloat "0.05".
Definition n05 : num := parseFloat "0.5".

(** The statistics to show, and the new peak of the session. *)
Definition mergeEpsDisplay (st : Stats) (smoke : option EpsSmokeInfo) (prevLines : option (num * Z)) (now : Z) (peak : num) :
    Stats * num :=
  let lines := sget "lines" st ?? nzero in
  let derivedEps :=
    match prevLines with
    | Some (l0, at_) =>
        let dt := ndiv (num_of_Z (now - at_)) (num_of_Z 1000) in
        let dl := nsub lines l0 in
        if nle (num_of_Z 2) dt && nlt nzero dl then ndiv dl dt else nzero
    | None => nzero
    end in
  let gaugeEps := sget "eps" st ?? nzero in
  let metricPeak := match sget "eps_peak" st with Some x => if num_truthy x then x else nzero | None => nzero end in
  let smokePeak := (smoke ≫= peak_eps) ?? nzero in
  let smokeDerived := (smoke ≫= derived_eps) ?? nzero in
  let sessionPeak := nmax (nmax (nmax (nmax (nmax peak metricPeak) smokePeak) smokeDerived) gaugeEps) derivedEps in
  let displayEps := if nle n005 gaugeEps then nmax gaugeEps derivedEps else sessionPeak in
  (put_field "eps" (Some displayEps) (put_field "eps_live" (Some gaugeEps) st), sessionPeak).

(** ** Formatting *)

(** How the browser writes numbers: [toLocaleString] with and without fractions. *)
Class NumFormat := { local_int : num → jstring; local_num : num → jstring }.

Section format.
Context `{NumFormat}.

Definition at_least (n : Z) (v : num) : bool := nle (num_of_Z n) v.
Definition positive_num (v : num) : bool := nlt nzero v.
Definition fmtStat (id : jstring) (v : num) : jstring :=
  if id =s "eps" then toFixed 1 v
  else if (id =s "xdp") || (id =s "tg_route") then if at_least 1 v then "ON" else "OFF"
  else if id =s "quiet_hours" then if at_least 1 v then "ON" else "OFF"
  else if id =s "quiet_active" then if at_least 1 v then "ACTIVE" else "no"
  else if id =s "tg_batch" then if positive_num v then num_to_string v ++ "s" else "off"
  else if id =s "fp_learn" then if at_least 1 v then "ON" else "OFF"
  else if id =s "threat_sync_age_h" then if positive_num v then toFixed 1 v ++ "h" else "—"
  else local_int v.
End format.

Definition telegramValueClass (id : jstring) (v : num) : jstring :=
  if id =s "tg_ack" then "text-blue-400"
  else if id =s "tg_unacked" then
    if at_least 20 v then "text-red-400" else if at_least 5 v then "text-amber-300" else "text-green-400"
  else if id =s "tg_route" then if at_least 1 v then "text-emerald-400" else "text-white/40"
  else if id =s "tg_batch" then if positive_num v then "text-violet-300" else "text-white/40"
  else if id =s "tg_queue" then if positive_num v then "text-amber-300" else "text-green-400"
  else if id =s "quiet_hours" then if at_least 1 v then "text-amber-300" else "text-green-400"
  else if id =s "quiet_active" then if at_least 1 v then "text-purple-300" else "text-green-400"
  else "text-white".

(** ** The panel as a machine *)

Record state := {
  data : option Payload;
  epsSmoke : option EpsSmokeInfo;
  range : Z;                      (* the range chosen *)
  forTenant : jstring;            (* the property [tenant] *)
  lang : Lang;
  loading : bool;
  reqGen : nat;
  liveHist : LiveHist;
  prevLines : option (num * Z);
  peakEps : num;
}.
Definition set_data (d : option Payload) (ld : bool) (s : state) : state :=
  {| data := d; epsSmoke := epsSmoke s; range := range s; forTenant := forTenant s; lang := lang s; loading := ld;
     reqGen := reqGen s; liveHist := liveHist s; prevLines := prevLines s; peakEps := peakEps s |}.
Definition set_refs (h : LiveHist) (pl : option (num * Z)) (pk : num) (s : state) : state :=
  {| data := data s; epsSmoke := epsSmoke s; range := range s; forTenant := forTenant s; lang := lang s; loading := loading s;
     reqGen := reqGen s; liveHist := h; prevLines := pl; peakEps := pk |}.
Definition set_inputs (r : Z) (tn : jstring) (l : Lang) (s : state) : state :=
  {| data := data s; epsSmoke := epsSmoke s; range := r; forTenant := tn; lang := l; loading := loading s;
     reqGen := reqGen s; liveHist := liveHist s; prevLines := prevLines s; peakEps := peakEps s |}.
Definition set_smoke (x : option EpsSmokeInfo) (s : state) : state :=
  {| data := data s; epsSmoke := x; range := range s; forTenant := forTenant s; lang := lang s; loading := loading s;
     reqGen := reqGen s; liveHist := liveHist s; prevLines := prevLines s; peakEps := peakEps s |}.
Definition next_gen (s : state) : state :=
  {| data := data s; epsSmoke := epsSmoke s; range := range s; forTenant := forTenant s; lang := lang s; loading := true;
     reqGen := S (reqGen s); liveHist := liveHist s; prevLines := prevLines s; peakEps := peakEps s |}.

(** One run of [fetchMetrics]: its generation, its argument, and what its closure
    keeps.  It waits three times: for both requests, for the text of the second,
    for the text of the first. *)
Record Call := { c_gen : nat; c_range : Z; c_tenant : jstring; c_lang : Lang }.
Inductive Req :=
  | QFetch (c : Call)
  | QSmoke (c : Call) (resOk : bool)
  | QBody (c : Call) (resOk : bool) (smoke : option EpsSmokeInfo).
(** [None] is a rejected promise; a body comes with the time of its arrival and its
    [error] field. *)
Inductive Rsp :=
  | AFetch (oks : option (bool * bool))
  | ASmoke (info : option EpsSmokeInfo)
  | ABody (now : Z) (clock : jstring) (body : option (Payload * option jstring)).
Definition call_of (q : Req) : Call := match q with QFetch c | QSmoke c _ | QBody c _ _ => c end.
(** The path of the first request; [enc] is [encodeURIComponent]. *)
Definition fetch_path (enc : jstring → jstring) (c : Call) (now : Z) : jstring :=
  "/api/metrics/grafana?tenant=" ++ enc (c_tenant c) ++ "&range=" ++ dec (c_range c) ++ "&_t=" ++ dec now.

Definition fetchMetrics (r : Z) (s : state) : state * list Req :=
  let s := next_gen s in
  (s, [QFetch {| c_gen := reqGen s; c_range := r; c_tenant := forTenant s; c_lang := lang s |}]).
Definition is_latest (c : Call) (s : state) : bool := (c_gen c =? reqGen s)%nat.
(** The [catch] block, with [finally]. *)
Definition failed (c : Call) (s : state) : state :=
  if is_latest c s then set_data (Some (offline None (c_range c))) false s else s.

Definition LIVE_CHARTS_HINT : jstring :=
  "Canli :9091 — grafikler tarayicida birikiyor (12sn). Gecmis: bash scripts/dashboard_stack.sh".
Definition with_stats (st : option Stats) (p : Payload) : Payload :=
  {| reachable := reachable p; source := source p; tenant := tenant p; hint := hint p; ts := ts p; rangeSec := rangeSec p;
     stats := st; socStats := socStats p; telegramStats := telegramStats p; apiStats := apiStats p;
     webhookStats := webhookStats p; sparklines := sparklines p; timeseries := timeseries p; table := table p |}.
Definition with_range (r : option Z) (p : Payload) : Payload :=
  {| reachable := reachable p; source := source p; tenant := tenant p; hint := hint p; ts := ts p; rangeSec := r;
     stats := stats p; socStats := socStats p; telegramStats := telegramStats p; apiStats := apiStats p;
     webhookStats := webhookStats p; sparklines := sparklines p; timeseries := timeseries p; table := table p |}.
Definition with_history (h : LiveHist) (p : Payload) : Payload :=
  {| reachable := reachable p; source := source p; tenant := tenant p; hint := Some (oor (hint p) LIVE_CHARTS_HINT);
     ts := ts p; rangeSec := rangeSec p; stats := stats p; socStats := socStats p; telegramStats := telegramStats p;
     apiStats := apiStats p; webhookStats := webhookStats p; sparklines := Some (sparks h);
     timeseries := Some (liveHistTimeseries h); table := table p |}.
(** [{ ...merged.stats, bp_ipset: soc.bp_ipset, ... }] *)
Definition history_stats (st soc : Stats) : Stats :=
  fold_left (λ m k, put_field k (sget k soc) m)
    ["bp_ipset"; "bp_ipc"; "bp_xdp"; "ja3_clusters"; "ja3_bans"; "dist_risk_bonus"] st.

(** The statistics of a good answer: the rates derived, the previous count kept. *)
Definition merge_answer (smoke : option EpsSmokeInfo) (now : Z) (p : Payload) (s : state) : Payload * state :=
  match stats p with
  | Some st =>
      let at_ := ts p ?? now in
      let '(st', pk) := mergeEpsDisplay st smoke (prevLines s) at_ (peakEps s) in
      (with_stats (Some st') p, set_refs (liveHist s) (Some (sget "lines" st ?? nzero, at_)) pk s)
  | None => (p, s)
  end.
Definition add_history (clock : jstring) (p : Payload) (s : state) : Payload * state :=
  match needsLiveHistory p, stats p with
  | true, Some st =>
      let h := appendLiveHist clock (liveHist s) (history_stats st (socStats p ?? [])) in
      (with_history h p, set_refs h (prevLines s) (peakEps s) s)
  | _, _ => (p, s)
  end.
(** The end of [fetchMetrics], from [gen !== reqGen.current] on. *)
Definition arrived (c : Call) (resOk : bool) (smoke : option EpsSmokeInfo) (now : Z) (clock : jstring)
    (body : Payload) (error : option jstring) (s : state) : state :=
  if negb (is_latest c s) then s
  else if negb resOk then
    set_data (Some (offline (if bool_decide (error = Some "Unauthorized") then t (c_lang c) "grafanaMiniAuth" else hint body)
                            (c_range c))) false s
  else
    let '(m1, s1) := merge_answer smoke now (with_range (Some (rangeSec body ?? c_range c)) body) s in
    let '(m2, s2) := add_history clock m1 s1 in
    set_data (Some m2) false s2.

Definition on_response (q : Req) (r : Rsp) (s : state) : state * list Req :=
  match q, r with
  | QFetch c, AFetch (Some (resOk, true)) => (s, [QSmoke c resOk])
  | QFetch c, AFetch (Some (resOk, false)) => (s, [QBody c resOk (epsSmoke s)])
  | QSmoke c resOk, ASmoke (Some info) => (set_smoke (Some info) s, [QBody c resOk (Some info)])
  | QBody c resOk smoke, ABody now clock (Some (body, error)) => (arrived c resOk smoke now clock body error s, [])
  | _, _ => (failed (call_of q) s, [])
  end.

(** The effect on [rangeSec, tenant, fetchMetrics]: the history starts anew. *)
Definition refetch (s : state) : state * list Req := fetchMetrics (range s) (set_refs emptyLiveHist None nzero s).
Inductive event :=
  | ClickRange (r : Z)            (* the buttons offer 3600 and 21600 *)
  | Poll
  | SetTenant (tn : jstring)
  | SetLang (l : Lang).           (* [t] changes, and [fetchMetrics] with it *)
Definition on_event (ev : event) (s : state) : state * list Req :=
  match ev with
  | ClickRange r => if r =? range s then (s, []) else refetch (set_inputs r (forTenant s) (lang s) s)
  | Poll => fetchMetrics (range s) s
  | SetTenant tn => if tn =s forTenant s then (s, []) else refetch (set_inputs (range s) tn (lang s) s)
  | SetLang l => if is_lang l (lang s) then (s, []) else refetch (set_inputs (range s) (forTenant s) l s)
  end.
Definition unmounted (tn : jstring) (l : Lang) : state :=
  {| data := None; epsSmoke := None; range := 3600; forTenant := tn; lang := l; loading := false; reqGen := 0;
     liveHist := emptyLiveHist; prevLines := None; peakEps := nzero |}.
(** After the first effect. *)
Definition mounted (tn : jstring) (l : Lang) : config state Req :=
  let '(s, reqs) := refetch (unmounted tn l) in Cfg s reqs.

(** ** What is drawn *)

Definition chartsReady (s : state) : bool :=
  negb (loading s) && match data s with
                      | Some d => match rangeSec d with Some r => r =? range s | None => true end
                      | None => false
                      end.
Definition shown_stats (pick : Payload → option Stats) (s : state) : Stats := (data s ≫= pick) ?? [].
Definition shown_sparks (s : state) : list (jstring * list Spark) :=
  if chartsReady s then (data s ≫= sparklines) ?? [] else [].
Definition shown_ts (k : jstring) (s : state) : list TsRow :=
  if chartsReady s then assoc k ((data s ≫= timeseries) ?? []) ?? [] else [].
Definition sourceLabel (s : state) : option jstring :=
  match data s with
  | Some d => if negb (reachable d) then None
              else if bool_decide (source d = Some "prometheus") then t (lang s) "grafanaSourcePrometheus"
              else if bool_decide (source d = Some "guardian-direct") then t (lang s) "grafanaSourceDirect"
              else t (lang s) "grafanaSourcePrometheus"
  | None => None
  end.

(** The strips above the cards. *)
Definition smoke_passed (s : state) : bool := bool_decide ((epsSmoke s ≫= pass) = Some true).
Definition smoke_banner (s : state) : option jstring :=
  match epsSmoke s with
  | Some i =>
      if smoke_passed s then
        Some (text (lang s) "grafanaEpsSmokeBanner" ++
              (if positive_num (peak_eps i ?? nzero) then " · peak=" ++ toFixed 2 (peak_eps i ?? nzero)
               else match derived_eps i with Some x => " · derived=" ++ toFixed 2 x | None => [] end) ++
              match lines_delta i with Some x => " · lines+" ++ num_to_string x | None => [] end)
      else None
  | None => None
  end.
Definition data_reachable (s : state) : bool := match data s with Some d => reachable d | None => false end.
Definition offline_strip (s : state) : option jstring :=
  if negb (data_reachable s) && negb (loading s)
  then Some (oor (data s ≫= hint) (text (lang s) "grafanaMiniOffline")) else None.
Definition direct_strip (s : state) : option jstring :=
  match data s with
  | Some d => if reachable d && bool_decide (source d = Some "guardian-direct") then truthy_str (hint d) else None
  | None => None
  end.
Definition is_zero (k : jstring) (s : state) : bool := neq_num (sget k (shown_stats stats s) ?? nzero) nzero.
Definition zero_strip (navBanCount : Z) (s : state) : option jstring :=
  if data_reachable s && negb (loading s) && is_zero "lines" s && is_zero "ban_ok" s && is_zero "alerts" s then
    Some (if smoke_passed s then
            replace_first "{peak}" (toFixed 2 ((epsSmoke s ≫= peak_eps) ?? nzero))
              (replace_first "{n}" (dec navBanCount) (text (lang s) "grafanaMiniZeroHintWithSmoke"))
          else if 0 <? navBanCount then replace_first "{n}" (dec navBanCount) (text (lang s) "grafanaMiniZeroHintWithBans")
          else text (lang s) "grafanaMiniZeroHint")
  else None.

Section cards.
Context `{NumFormat}.

(** The properties of [MiniStat] and the look they give. *)
Record MiniStat := {
  title : jstring; value : jstring; subtitle : option jstring; spark : list Spark; color : jstring; alert : bool;
  valueClassName : option jstring;
}.
Definition value_class (m : MiniStat) : jstring :=
  match valueClassName m with Some c => c | None => if alert m then "text-red-300" else "text-white" end.
Definition spark_drawn (m : MiniStat) : bool := (1 <? length (spark m))%nat.
Definition color_of (fallback id : jstring) : jstring := assoc id STAT_COLORS ?? fallback.

Definition plain_card (s : state) (m : Stats) (fallback : jstring) (bad : jstring → num → bool) (cls : option (jstring → num → jstring))
    (c : jstring * jstring) : MiniStat :=
  let v := sget c.1 m ?? nzero in
  {| title := text (lang s) c.2; value := fmtStat c.1 v; subtitle := None; spark := assoc c.1 (shown_sparks s) ?? [];
     color := color_of fallback c.1; alert := bad c.1 v; valueClassName := (λ f, f c.1 v) <$> cls |}.
Definition core_card (s : state) (c : jstring * jstring) : MiniStat :=
  let st := shown_stats stats s in
  let epsLive := sget "eps_live" st ?? nzero in
  let epsDisplay := sget "eps" st ?? nzero in
  let is_eps := c.1 =s "eps" in
  let live := nle n005 epsLive in
  {| title := if is_eps then if live then text (lang s) "grafanaStatEps"
                             else if nle n005 epsDisplay then text (lang s) "grafanaStatEpsPeak" else text (lang s) c.2
              else text (lang s) c.2;
     value := fmtStat c.1 (if is_eps && live then epsLive else sget c.1 st ?? nzero);
     subtitle := if is_eps && live && nlt (nadd epsLive n05) epsDisplay
                 then Some (replace_first "{peak}" (toFixed 1 epsDisplay) (text (lang s) "grafanaStatEpsPeakHint")) else None;
     spark := assoc c.1 (shown_sparks s) ?? []; color := color_of "#0891b2" c.1; alert := false; valueClassName := None |}.

Definition never (id : jstring) (v : num) : bool := false.
Definition core_cards (s : state) : list MiniStat := map (core_card s) CORE_STATS.
Definition extra_cards (s : state) : list MiniStat := map (plain_card s (shown_stats stats s) "#0891b2" never None) EXTRA_STATS.
Definition webhook_cards (s : state) : list MiniStat :=
  map (plain_card s (shown_stats webhookStats s) "#5794f2"
         (λ id v, ((id =s "wh_fail") || (id =s "wh_drops")) && positive_num v) None) WEBHOOK_STATS.
Definition telegram_cards (s : state) : list MiniStat :=
  map (plain_card s (shown_stats telegramStats s) "#5794f2"
         (λ id v, (id =s "tg_unacked") && at_least 20 v) (Some telegramValueClass)) TELEGRAM_STATS.
Definition soc_threat_cards (s : state) : list MiniStat :=
  map (plain_card s (shown_stats socStats s) "#0891b2" (λ id v, (id =s "threat_failed") && positive_num v) None) SOC_THREAT_STATS.
Definition soc_ban_cards (s : state) : list MiniStat :=
  map (plain_card s (shown_stats socStats s) "#0891b2" (λ id v, (id =s "bp_failed") && positive_num v) None) SOC_BAN_STATS.
Definition api_cards (s : state) : list MiniStat :=
  map (plain_card s (shown_stats apiStats s) "#38bdf8" (λ id v, (id =s "api_auth_fail") && at_least 10 v) None) API_STATS.

(** The charts: [MiniTs] draws the keys it is given, or a placeholder. *)
Record MiniTs := { ts_title : jstring; ts_data : list TsRow; ts_keys : list (jstring * jstring) }.
Definition charts (s : state) : list MiniTs :=
  let chart k label keys := {| ts_title := text (lang s) label; ts_data := shown_ts k s; ts_keys := keys |} in
  [chart "eps_ts" "grafanaChartEps" [("eps", "EPS")];
   chart "http_status" "grafanaChartHttp" [("4xx", "4xx"); ("5xx", "5xx")];
   chart "alert_rate" "grafanaChartAlertRate" [("alerts_s", "alerts/s")];
   chart "ban_rate" "grafanaChartBanRate" [("success", "success"); ("fail", "fail")];
   chart "parse_rate" "grafanaChartParseRate" [("parse_s", "parse/s")];
   chart "ban_pipeline_rate" "grafanaChartBanPipeline" [("ipc", "ipc"); ("xdp", "xdp"); ("ipset", "ipset"); ("ja3", "ja3")]].
Definition placeholder (m : MiniTs) : bool := bool_decide (ts_data m = []).
Definition table_rows (s : state) : list (jstring * jstring) :=
  map (λ r, (r.1, local_num r.2)) ((data s ≫= table) ?? []).
End cards.

(** ** The history is a window *)

Lemma last_n_length {A} n (l : list A) : length (last_n n l) = Nat.min n (length l).
Proof. unfold last_n. rewrite length_drop. lia. Qed.
Lemma last_n_all {A} n (l : list A) : (length l <= n)%nat → last_n n l = l.
Proof. intros. unfold last_n. by replace (length l - n)%nat with 0%nat by lia. Qed.
Lemma last_n_snoc {A} n (l : list A) x : last_n n (last_n n l ++ [x]) = last_n n (l ++ [x]).
Proof.
  unfold last_n. rewrite !length_app, length_drop. cbn [length].
  assert (Hb : (length l - n <= length l)%nat) by lia. rewrite <- (drop_app_le l [x] (length l - n) Hb).
  rewrite drop_drop. f_equal. lia.
Qed.
Lemma pushTs_last {A} (arr : list A) row : pushTs arr row = last_n LIVE_MAX (arr ++ [row]).
Proof.
  unfold pushTs. split_if; [done|]. match goal with H : _ = false |- _ => apply Nat.ltb_ge in H end. by rewrite last_n_all.
Qed.

(** The answers since the last reset, with the time of day of each. *)
Definition run_hist (l : list (jstring * Stats)) : LiveHist := fold_left (λ h ts, appendLiveHist ts.1 h ts.2) l emptyLiveHist.

Lemma series_window (col : LiveHist → list TsRow) (row : jstring → Stats → TsRow) l :
  col emptyLiveHist = [] → (∀ t h st, col (appendLiveHist t h st) = pushTs (col h) (row t st)) →
  col (run_hist l) = last_n LIVE_MAX (map (λ ts, row ts.1 ts.2) l).
Proof.
  intros H0 Hs. unfold run_hist. induction l as [|x l IH] using rev_ind; [exact H0|].
  rewrite fold_left_app. cbn [fold_left]. rewrite Hs, IH, pushTs_last, last_n_snoc. by rewrite map_app.
Qed.

(** The curve of one statistic: the finite values it had. *)
Definition spark_points (id : jstring) (l : list (jstring * Stats)) : list Spark :=
  omap (λ ts, match sget id ts.2 with
              | Some v => if is_finite v then Some {| sp_t := ts.1; sp_v := v |} else None
              | None => None
              end) l.
Lemma push_sparks_get h t st id : NoDup st.*1 →
  assoc id (push_sparks h t st) =
  match sget id st with
  | Some v => if is_finite v then Some (pushSpark h t id v) else assoc id (sparks h)
  | None => assoc id (sparks h)
  end.
Proof.
  unfold push_sparks. set (old := assoc id (sparks h)). assert (Ho : assoc id (sparks h) = old) by done.
  clearbody old. revert Ho. generalize (sparks h) as m. induction st as [|[k v] st IH]; intros m Hm; [by intros _|].
  cbn [fst snd fold_left fmap list_fmap]. intros [Hk Hd]%NoDup_cons. unfold sget. cbn [assoc].
  destruct (id =s k) eqn:E.
  - apply jeq_true in E as ->.
    assert (Hn : ∀ m', assoc k (fold_left (λ m kv, match kv.2 with
        | Some v => if is_finite v then put_field kv.1 (pushSpark h t kv.1 v) m else m
        | None => m end) st m') = assoc k m').
    { clear IH Hm Hd. induction st as [|[k1 v1] st IH]; intros m'; [done|]. cbn [fst snd fold_left].
      cbn in Hk. apply not_elem_of_cons in Hk as [Hk1 Hk2]. rewrite IH by done. destruct v1 as [x|]; [|done].
      split_if; [|done]. by apply assoc_put_ne. }
    rewrite Hn. destruct v as [x|]; [|done]. destruct (is_finite x); [|done]. apply assoc_put_eq.
  - rewrite IH; [done| |done]. destruct v as [x|]; [|done]. split_if; [|done]. rewrite assoc_put_ne; [done|].
    intros ->. by rewrite jeq_refl in E.
Qed.
Lemma spark_window id (l : list (jstring * Stats)) : Forall (λ ts, NoDup ts.2.*1) l →
  assoc id (sparks (run_hist l)) ?? [] = last_n LIVE_MAX (spark_points id l).
Proof.
  unfold run_hist. induction l as [|x l IH] using rev_ind; [done|]. intros [Hl Hx]%Forall_app.
  rewrite fold_left_app. cbn [fold_left appendLiveHist sparks]. rewrite push_sparks_get by (by inversion Hx).
  unfold spark_points in *. rewrite omap_app. cbn [omap list_omap]. specialize (IH Hl).
  destruct (sget id x.2) as [v|]; cbn; [|by rewrite app_nil_r].
  destruct (is_finite v); cbn -[last_n LIVE_MAX]; [|by rewrite app_nil_r]. unfold pushSpark. by rewrite IH, last_n_snoc.
Qed.

(** C31. The charts kept in the browser show the last 36 answers, all six for the same
    answers, and each curve on a card the last 36 finite values of its statistic. *)
Theorem live_charts_window (l : list (jstring * Stats)) : Forall (λ ts, NoDup ts.2.*1) l →
  liveHistTimeseries (run_hist l) =
    map (λ col : jstring * (jstring → Stats → TsRow), (col.1, last_n LIVE_MAX (map (λ ts, col.2 ts.1 ts.2) l)))
      [("eps_ts", eps_row); ("http_status", http_row); ("alert_rate", alert_row); ("ban_rate", ban_row);
       ("parse_rate", parse_row); ("ban_pipeline_rate", pipeline_row)] ∧
  ∀ id, assoc id (sparks (run_hist l)) ?? [] = last_n LIVE_MAX (spark_points id l).
Proof.
  intros Hd. split; [|intros; by apply spark_window]. unfold liveHistTimeseries. cbn [map fst snd].
  by rewrite (series_window eps_ts eps_row), (series_window http_status http_row), (series_window alert_rate alert_row),
    (series_window ban_rate ban_row), (series_window parse_rate parse_row), (series_window ban_pipeline_rate pipeline_row).
Qed.

(** ** What is shown answers the last question *)

(** The route answers for the tenant and the range asked ([grafana_answers_asked]
    of Grafana.v); an answer that does not is taken as a failed one here. *)
Definition honest (q : Req) (r : Rsp) : bool :=
  match q, r with
  | QBody c true _, ABody _ _ (Some (body, _)) =>
      bool_decide (tenant body = Some (c_tenant c)) && bool_decide (rangeSec body = None ∨ rangeSec body = Some (c_range c))
  | _, _ => true
  end.
Definition honest_response (q : Req) (r : Rsp) (s : state) : state * list Req :=
  if honest q r then on_response q r s else (failed (call_of q) s, []).

Definition gen_of (q : Req) : nat := c_gen (call_of q).
Definition current_call (s : state) : Call :=
  {| c_gen := reqGen s; c_range := range s; c_tenant := forTenant s; c_lang := lang s |}.
(** The document shown is the answer for the tenant and range chosen, or the note
    that there is none. *)
Definition answers_choice (s : state) : Prop :=
  ∃ d, data s = Some d ∧ rangeSec d = Some (range s) ∧
    (tenant d = Some (forTenant s) ∨ (reachable d = false ∧ stats d = None)).

(** Whatever the inputs: one request per generation, none from the future. *)
Definition gens_ok (c : config state Req) : Prop :=
  NoDup (gen_of <$> pending c) ∧ ∀ q, q ∈ pending c → (gen_of q <= reqGen (current c))%nat.
Definition panel_inv (c : config state Req) : Prop :=
  gens_ok c ∧
  (∀ q, q ∈ pending c → gen_of q = reqGen (current c) → call_of q = current_call (current c)) ∧
  if loading (current c) then reqGen (current c) ∈ gen_of <$> pending c
  else reqGen (current c) ∉ gen_of <$> pending c ∧ answers_choice (current c).

Lemma fetch_inv s p : gens_ok (Cfg s p) → let '(s', reqs) := fetchMetrics (range s) s in panel_inv (Cfg s' (p ++ reqs)).
Proof.
  intros [Hn Hle]. unfold fetchMetrics. split; [split|split]; cbn [pending current next_gen reqGen loading].
  - rewrite fmap_app. cbn. apply NoDup_app. splits; [done| |apply NoDup_singleton].
    intros g (q & -> & Hq)%list_elem_of_fmap Hg%list_elem_of_singleton. apply Hle in Hq. cbn in *. lia.
  - intros q [Hq|Hq%list_elem_of_singleton]%elem_of_app; [apply Hle in Hq; cbn in *; lia|]. by subst.
  - intros q [Hq|Hq%list_elem_of_singleton]%elem_of_app; [apply Hle in Hq; cbn in *; lia|]. by subst.
  - rewrite fmap_app. apply elem_of_app. right. cbn. by left.
Qed.
Lemma gens_ok_inputs r tn l h pl pk c : gens_ok c → gens_ok (Cfg (set_refs h pl pk (set_inputs r tn l (current c))) (pending c)).
Proof. done. Qed.

Lemma event_inv ev c s reqs : panel_inv c → on_event ev (current c) = (s, reqs) → panel_inv (Cfg s (pending c ++ reqs)).
Proof.
  intros Hi He. assert (Hg : gens_ok c) by apply Hi.
  assert (Hsame : panel_inv (Cfg (current c) (pending c ++ []))) by (rewrite app_nil_r; by destruct c).
  destruct ev as [r| |tn|l]; cbn [on_event] in He; [split_if| |split_if|split_if]; try by injection He as <- <-.
  - pose proof (fetch_inv _ _ (gens_ok_inputs r (forTenant (current c)) (lang (current c)) emptyLiveHist None nzero c Hg)) as H.
    unfold refetch in He. cbn -[fetchMetrics] in H, He. by rewrite He in H.
  - destruct c as [s0 p]. pose proof (fetch_inv s0 p Hg) as H. cbn -[fetchMetrics] in H, He. by rewrite He in H.
  - pose proof (fetch_inv _ _ (gens_ok_inputs (range (current c)) tn (lang (current c)) emptyLiveHist None nzero c Hg)) as H.
    unfold refetch in He. cbn -[fetchMetrics] in H, He. by rewrite He in H.
  - pose proof (fetch_inv _ _ (gens_ok_inputs (range (current c)) (forTenant (current c)) l emptyLiveHist None nzero c Hg)) as H.
    unfold refetch in He. cbn -[fetchMetrics] in H, He. by rewrite He in H.
Qed.

(** Steps of a run: it goes on with the next request, or it ends.  A run that is
    not the latest ends without a trace but the smoke report. *)
Definition same_view (s s' : state) : Prop :=
  data s' = data s ∧ loading s' = loading s ∧ range s' = range s ∧ forTenant s' = forTenant s ∧ lang s' = lang s ∧
  reqGen s' = reqGen s ∧ liveHist s' = liveHist s ∧ prevLines s' = prevLines s ∧ peakEps s' = peakEps s.
Lemma same_view_refl s : same_view s s.
Proof. by unfold same_view. Qed.
Lemma failed_stale c s : c_gen c ≠ reqGen s → failed c s = s.
Proof. intros H. unfold failed, is_latest. by rewrite (proj2 (Nat.eqb_neq _ _) H). Qed.
Lemma failed_latest s : failed (current_call s) s = set_data (Some (offline None (range s))) false s.
Proof. unfold failed, is_latest. cbn. by rewrite Nat.eqb_refl. Qed.
Lemma stale_ignored q r s : gen_of q ≠ reqGen s → same_view s (on_response q r s).1.
Proof.
  intros H. pose proof (failed_stale (call_of q) s H) as Hf. pose proof (same_view_refl s) as Hs.
  destruct q as [c|c ok|c ok sm], r as [[[a [|]]|]|[i|]|now clk [[b e]|]]; cbn in *; rewrite ?Hf; try done.
  unfold arrived, is_latest. change (c_gen c ≠ reqGen s) in H. by rewrite (proj2 (Nat.eqb_neq _ _) H).
Qed.
Lemma merge_answer_keeps sm now p s p' s' : merge_answer sm now p s = (p', s') →
  (tenant p' = tenant p ∧ rangeSec p' = rangeSec p) ∧ range s' = range s ∧ forTenant s' = forTenant s ∧ lang s' = lang s ∧ reqGen s' = reqGen s.
Proof. unfold merge_answer. destruct (stats p); [destruct (mergeEpsDisplay _ _ _ _ _)|]; by intros [= <- <-]. Qed.
Lemma add_history_keeps clk p s p' s' : add_history clk p s = (p', s') →
  (tenant p' = tenant p ∧ rangeSec p' = rangeSec p) ∧ range s' = range s ∧ forTenant s' = forTenant s ∧ lang s' = lang s ∧ reqGen s' = reqGen s.
Proof. unfold add_history. destruct (needsLiveHistory p), (stats p); by intros [= <- <-]. Qed.
Lemma arrived_latest ok sm now clk b e s : honest (QBody (current_call s) ok sm) (ABody now clk (Some (b, e))) = true →
  let s' := arrived (current_call s) ok sm now clk b e s in
  loading s' = false ∧ answers_choice s' ∧ current_call s' = current_call s.
Proof.
  intros Hh. unfold arrived, is_latest. cbn [c_gen current_call]. rewrite Nat.eqb_refl. cbn [negb].
  destruct ok; cbn [negb].
  - cbn in Hh. bprop. destruct (merge_answer _ _ _ _) as [m1 s1] eqn:E1.
    destruct (add_history _ _ _) as [m2 s2] eqn:E2. apply merge_answer_keeps in E1 as ([T1 R1] & A1 & B1 & C1 & D1).
    apply add_history_keeps in E2 as ([T2 R2] & A2 & B2 & C2 & D2). cbn in T1, R1.
    split; [done|]. split; [|unfold current_call; cbn; congruence].
    exists m2. cbn. split; [done|]. rewrite R2, R1, A2, A1, T2, T1, B2, B1. split; [|by left].
    match goal with H : _ ∨ _ |- _ => destruct H as [->| ->] end; done.
  - split; [done|]. split; [|done]. eexists. split; [done|]. split; [done|]. right. done.
Qed.

Lemma honest_step q r s s' reqs : (gen_of q = reqGen s → call_of q = current_call s) →
  honest_response q r s = (s', reqs) →
  (same_view s s' ∧ (reqs = [] ∨ ∃ q', reqs = [q'] ∧ call_of q' = call_of q) ∧ (reqs = [] → gen_of q ≠ reqGen s)) ∨
  (gen_of q = reqGen s ∧ reqs = [] ∧ loading s' = false ∧ answers_choice s' ∧ current_call s' = current_call s).
Proof.
  intros Hc. unfold honest_response. destruct (decide (gen_of q = reqGen s)) as [Hg|Hg].
  - specialize (Hc Hg). assert (Hf : let s1 := failed (call_of q) s in
      loading s1 = false ∧ answers_choice s1 ∧ current_call s1 = current_call s).
    { rewrite Hc, failed_latest. split; [done|]. split; [|done]. eexists. split; [done|]. split; [done|]. by right. }
    cbn zeta in Hf. pose proof (same_view_refl s) as Hs.
    destruct (honest q r) eqn:Hh; [|intros [= <- <-]; right; tauto].
    destruct q as [c|c ok|c ok sm], r as [[[a [|]]|]|[i|]|now clk [[b e]|]]; cbn [on_response call_of] in *;
      intros [= <- <-]; try (right; split_and!; (done || apply Hf)); try (left; split_and!; [done|right; eauto|done]).
    subst c. right. apply arrived_latest in Hh as (H1 & H2 & H3). done.
  - intros He. left. pose proof (stale_ignored q r s Hg) as Hs. destruct (honest q r).
    + rewrite He in Hs. split_and!; [done| |done].
      destruct q as [c|c ok|c ok sm], r as [[[a [|]]|]|[i|]|now clk [[b e]|]]; cbn [on_response] in He;
        injection He as <- <-; eauto.
    + injection He as <- <-. rewrite failed_stale by done. split_and!; [apply same_view_refl|by left|done].
Qed.

Lemma view_call s s' : same_view s s' → current_call s' = current_call s ∧ loading s' = loading s ∧ (answers_choice s → answers_choice s').
Proof.
  intros (H1 & H2 & H3 & H4 & H5 & H6 & _). unfold current_call, answers_choice. rewrite H1, H3, H4, H5, H6. done.
Qed.
Lemma call_gen s s' : current_call s' = current_call s → reqGen s' = reqGen s.
Proof. by intros [= H _ _ _]. Qed.

Lemma panel_inv_perm s p p' : p ≡ₚ p' → panel_inv (Cfg s p) → panel_inv (Cfg s p').
Proof.
  intros Hp ((Hn & Hle) & Hcur & Hl). unfold panel_inv, gens_ok. cbn [current pending] in *.
  rewrite <- Hp at 1. split; [split; [done|]|split].
  - intros q Hq. rewrite <- Hp in Hq. auto.
  - intros q Hq. rewrite <- Hp in Hq. auto.
  - destruct (loading s); by rewrite <- Hp.
Qed.

(** The head of the list is answered. *)
Lemma answer_inv q rest r s0 s reqs : panel_inv (Cfg s0 (q :: rest)) → honest_response q r s0 = (s, reqs) →
  panel_inv (Cfg s (reqs ++ rest)).
Proof.
  intros (([Hnq Hnr]%NoDup_cons & Hle) & Hcur & Hl) Hr. unfold panel_inv, gens_ok. cbn [current pending fmap list_fmap] in *.
  destruct (honest_step q r s0 s reqs (Hcur q (list_elem_of_here _ _)) Hr)
    as [(Hv & Hreqs & Hend)|(Hg & -> & Hld & Ha & Hc)].
  - apply view_call in Hv as (Hc & Hld & Ha). rewrite (call_gen _ _ Hc), Hc, Hld.
    destruct Hreqs as [->|(q' & -> & Hq')]; cbn [app fmap list_fmap].
    + specialize (Hend eq_refl). split_and!; [done|intros; apply Hle; by right|intros; apply Hcur; [by right|done]|].
      destruct (loading s0); [by apply elem_of_cons in Hl as [?|?]|]. destruct Hl as [[_ Hl1]%not_elem_of_cons Hl2]. auto.
    + assert (Eg : gen_of q' = gen_of q) by (unfold gen_of; by rewrite Hq'). rewrite Eg.
      split_and!; [by apply NoDup_cons| | |destruct (loading s0); [done|]; destruct Hl; auto].
      * intros x [->|Hx]%elem_of_cons; [rewrite Eg; apply Hle; by left|apply Hle; by right].
      * intros x [->|Hx]%elem_of_cons; [rewrite Eg, Hq'; apply Hcur; by left|apply Hcur; by right].
  - rewrite (call_gen _ _ Hc), Hc, Hld. cbn [app].
    split_and!; [done|intros; apply Hle; by right|intros; apply Hcur; [by right|done]|by rewrite <- Hg|done].
Qed.
Lemma response_inv c i q r s reqs : panel_inv c → pending c !! i = Some q → honest_response q r (current c) = (s, reqs) →
  panel_inv (Cfg s (delete i (pending c) ++ reqs)).
Proof.
  intros Hi Hq Hr. eapply panel_inv_perm; [apply Permutation_app_comm|]. eapply answer_inv; [|exact Hr].
  destruct c as [s0 p]. eapply panel_inv_perm; [|exact Hi]. by apply delete_Permutation.
Qed.

(** C24. However the answers overtake each other: while the panel loads, the request for
    the tenant, range and language chosen is on its way; when it does not, the
    charts are drawn, and what they show is the answer for that tenant and range or
    the note that there is none. *)
Theorem metrics_answer_choice tn l c : page_reach on_event honest_response (mounted tn l) c →
  if loading (current c) then ∃ q, q ∈ pending c ∧ call_of q = current_call (current c)
  else answers_choice (current c) ∧ chartsReady (current c) = true.
Proof.
  intros Hr. assert (Hi : panel_inv c).
  { revert Hr. apply page_invariant.
    - pose proof (fetch_inv (set_refs emptyLiveHist None nzero (unmounted tn l)) []) as H. apply H. split; [constructor|]. by intros ? ?%elem_of_nil.
    - intros. by eapply event_inv.
    - intros. by eapply response_inv. }
  destruct Hi as (_ & Hcur & Hl). destruct (loading (current c)) eqn:E.
  - apply list_elem_of_fmap in Hl as (q & Hg & Hq). eauto.
  - destruct Hl as [_ Ha]. split; [done|]. destruct Ha as (d & Hd & Hrg & _). unfold chartsReady. rewrite E, Hd, Hrg. cbn. apply Z.eqb_refl.
Qed.

(** Choosing another tenant leaves the figures of the one before on the cards, under
    the new name, until the answer is there; only the charts are cleared. *)
Lemma tenant_change_keeps_figures tn s pick : tn ≠ forTenant s →
  let s' := (on_event (SetTenant tn) s).1 in
  forTenant s' = tn ∧ shown_stats pick s' = shown_stats pick s ∧ chartsReady s' = false.
Proof. intros H. cbn [on_event]. by rewrite (proj2 (jeq_false _ _) H). Qed.

(** Answers that take longer than the polling period are all dropped. *)
Fixpoint slow_script (n : nat) (b : Payload) : list (action Rsp event) :=
  match n with
  | O => []
  | S n => Do Poll :: Answer 0 (AFetch (Some (true, false))) :: Answer 1 (ABody 0 [] (Some (b, None))) :: slow_script n b
  end.
Lemma slow_round n b s : data s = None → loading s = true →
  ∃ s', play on_event on_response (slow_script n b) (Cfg s [QFetch (current_call s)]) = Some (Cfg s' [QFetch (current_call s')]) ∧
    data s' = None ∧ loading s' = true.
Proof.
  revert s. induction n as [|n IH]; intros s Hd Hl; [eauto|].
  assert (E : (arrived (current_call s) true (epsSmoke s) 0 [] b None (next_gen s)) = next_gen s).
  { unfold arrived, is_latest. cbn [current_call c_gen next_gen reqGen].
    by rewrite (proj2 (Nat.eqb_neq _ _) (Nat.neq_succ_diag_r _)). }
  cbn -[arrived next_gen current_call]. change (epsSmoke (next_gen s)) with (epsSmoke s). rewrite E.
  by apply (IH (next_gen s)).
Qed.

(** ** Examples *)

Module GrafanaPanelDemo.
Definition answer (tn : jstring) (r : option Z) : Payload :=
  {| reachable := true; source := Some "prometheus"; tenant := Some tn; hint := None; ts := Some 5000; rangeSec := r;
     stats := Some [("lines", Some (num_of_Z 10)); ("eps", Some (num_of_Z 3))]; socStats := None; telegramStats := None;
     apiStats := None; webhookStats := None; sparklines := None; timeseries := None; table := None |}.
(** The range changes while the first request is out; its answer comes last. *)
Definition script : list (action Rsp event) :=
  [Do (ClickRange 21600);
   Answer 1 (AFetch (Some (true, false))); Answer 1 (ABody 0 "12:00:00" (Some (answer "default" (Some 21600), None)));
   Answer 0 (AFetch (Some (true, false))); Answer 0 (ABody 0 "12:00:01" (Some (answer "default" (Some 3600), None)))].
Definition end_of : config state Req :=
  default (mounted "default" Len) (play on_event honest_response script (mounted "default" Len)).
Lemma script_played : play on_event honest_response script (mounted "default" Len) = Some end_of.
Proof. by vm_compute. Qed.
Lemma metrics_answer_choice_witness :
  loading (current end_of) = false ∧ pending end_of = [] ∧ range (current end_of) = 21600 ∧
  (if loading (current end_of) then ∃ q, q ∈ pending end_of ∧ call_of q = current_call (current end_of)
   else answers_choice (current end_of) ∧ chartsReady (current end_of) = true).
Proof.
  split; [by vm_compute|]. split; [by vm_compute|]. split; [by vm_compute|].
  apply (metrics_answer_choice "default" Len). exact (play_reach _ _ script _ _ _ script_played (reach_start _ _ _)).
Defined.
Definition two : list (jstring * Stats) :=
  [("12:00:00", [("eps", Some (num_of_Z 1))]); ("12:00:12", [("eps", None); ("lines", Some (num_of_Z 7))])].
Lemma live_charts_window_witness :
  (liveHistTimeseries (run_hist two) =
    map (λ col : jstring * (jstring → Stats → TsRow), (col.1, last_n LIVE_MAX (map (λ ts, col.2 ts.1 ts.2) two)))
      [("eps_ts", eps_row); ("http_status", http_row); ("alert_rate", alert_row); ("ban_rate", ban_row);
       ("parse_rate", parse_row); ("ban_pipeline_rate", pipeline_row)] ∧
   ∀ id, assoc id (sparks (run_hist two)) ?? [] = last_n LIVE_MAX (spark_points id two)) ∧
  length (eps_ts (run_hist two)) = 2%nat ∧ length (spark_points "eps" two) = 1%nat.
Proof.
  split; [|by vm_compute]. apply (live_charts_window two). repeat constructor; cbn; set_solver.
Defined.
End GrafanaPanelDemo.
