(* ===== verification/TestsPanel.v ===== *)
(** The validation tests in the browser (dashboard/src/components/ValidationTestsPanel.tsx,
    app/tests/TestsPageClient.tsx) and the published proof they are counted against
    (lib/proofMeta.ts). *)

From Stdlib Require Import Sorted.
From stdpp Require Import sorting.
From S2P Require Import Prelude JsMap JsString JsNum Json Http JsValue CopilotText I18n Client Compliance.

(** ** The published proof *)

Record ProofMeta := { expected : Z; passed : Z; testIds : list jstring }.

(** The [try] block of [readProofJson] on the document of a file. *)
Definition proof_of (raw : json) : res (option ProofMeta) :=
  let? tests := jget "validationTests" raw in
  match tests with
  | Some (JArr ((_ :: _) as l)) =>
      let? ids := rseq (map (λ t, let? i := jget "id" t in Ok (ostr (i ??? vs ""))) l) in
      Ok (Some {| expected := Z.of_nat (length l);
                  passed := Z.of_nat (length (jfilter (λ t, is_lit "pass" (Some t).["status"]) l));
                  testIds := jfilter nonempty ids |})
  | _ => Ok None
  end.
Definition readProofJson (w : world) (dir : jstring) : option ProofMeta :=
  match w_readIn w dir "competitive-proof.json" with
  | Some raw => match JSON_parse raw with
                | Some doc => match proof_of doc with Ok m => m | Throw _ => None end
                | None => None
                end
  | None => None
  end.
Definition getProofMeta (w : world) (e : env) (cwd : jstring) : option ProofMeta :=
  first_some (readProofJson w)
    (match truthy_str (e "BENCH_DATA_DIR") with Some d => [d] | None => [] end ++ ["/data/lg"; cwd; cwd ++ "/.."]).

(** ** Cards and documents *)

Inductive Status := Pass | Fail_ | Warn | Pending.
#[global] Instance Status_eq_dec : EqDecision Status.
Proof. solve_decision. Defined.
Definition is_st (a b : Status) : bool := bool_decide (a = b).
Record Card := {
  id : jstring; title : jstring; purpose : jstring; status : Status; verdict : jstring;
  metrics : list (jstring * jstring); script : jstring; date : option jstring; badge : option jstring;
  docHref : option jstring; docLabel : option jstring;
}.
Record Summary := { s_total : Z; s_passed : Z; s_failed : Z; s_warned : Z; s_pending : Z }.
Record EpsBanner := { eb_pass : bool; eb_lines : option num; eb_peak : option num; eb_derived : option num }.
Record MorningBanner := { mb_pass : bool; mb_proof_pass : option Z; mb_proof_tests : option Z; mb_fresh : bool }.
Record SoakBanner := { sb_pass : bool; sb_hours : option num; sb_samples : option num; sb_failures : option num;
                       sb_host : option jstring; sb_xdp : option jstring }.
Record Payload := {
  available : bool;
  tests : list Card;
  summary : option Summary;
  proof_expected : option Z;
  proof_test_ids : option (list jstring);
  parity_ok : option bool;
  hint : option jstring;
  vps_soak_remote : option SoakBanner;
  morning_operator_banner : option MorningBanner;
  eps_smoke_banner : option EpsBanner;
}.
(** [{ available: false, tests: [] }] *)
Definition unavailable : Payload :=
  {| available := false; tests := []; summary := None; proof_expected := None; proof_test_ids := None; parity_ok := None;
     hint := None; vps_soak_remote := None; morning_operator_banner := None; eps_smoke_banner := None |}.

(** A number that is present and not zero; a list that is present and not empty. *)
Definition truthy_Z (n : option Z) : option Z := match n with Some 0 => None | _ => n end.
Definition full (l : option (list jstring)) : option (list jstring) := match l with Some [] => None | _ => l end.

Definition proof_order (ids : list jstring) : list (jstring * Z) := map_of (map (λ p : nat * jstring, (p.2, Z.of_nat p.1)) (numbered ids)).
Definition proofAlignedTests (l : list Card) (exp : option Z) (ids : option (list jstring)) : list Card :=
  match truthy_Z exp, full ids with
  | Some n, Some ids =>
      if Z.of_nat (length l) <=? n then l
      else let order := proof_order ids in
           sort_by (key_le (λ c, mget (id c) order ?? 0)) (jfilter (λ c, mhas (id c) order) l)
  | _, _ => l
  end.
Definition count_of (st : Status) (l : list Card) : Z := Z.of_nat (length (jfilter (λ c, is_st st (status c)) l)).
Definition effective (meta : option ProofMeta) (d : Payload) : option Z * option (list jstring) :=
  (match proof_expected d with Some n => Some n | None => expected <$> meta end,
   match full (proof_test_ids d) with Some l => Some l | None => testIds <$> meta end).
Definition normalizeTestsPayload (raw : Payload) (meta : option ProofMeta) : Payload :=
  let '(exp, ids) := effective meta raw in
  match truthy_Z exp, full ids with
  | Some n, Some l =>
      if Z.of_nat (length (tests raw)) <=? n then raw
      else
        let ts := proofAlignedTests (tests raw) exp ids in
        {| available := available raw; tests := ts;
           summary := Some {| s_total := Z.of_nat (length ts); s_passed := count_of Pass ts; s_failed := count_of Fail_ ts;
                              s_warned := count_of Warn ts; s_pending := count_of Pending ts |};
           proof_expected := proof_expected raw; proof_test_ids := proof_test_ids raw;
           parity_ok := Some (Z.of_nat (length ts) =? n); hint := hint raw; vps_soak_remote := vps_soak_remote raw;
           morning_operator_banner := morning_operator_banner raw; eps_smoke_banner := eps_smoke_banner raw |}
  | _, _ => raw
  end.

(** ** The panel *)

Inductive FilterStatus := FAny | FSt (s : Status).
#[global] Instance FilterStatus_eq_dec : EqDecision FilterStatus.
Proof. solve_decision. Defined.
Definition FILTER_TABS : list FilterStatus := [FAny; FSt Pass; FSt Warn; FSt Fail_; FSt Pending].

Record state := {
  data : option Payload;
  filter : FilterStatus;
  search : jstring;
  proofCopied : bool;
  staleKey : bool;      (* sessionStorage "lg-tests-stale-reload" is "1" *)
  reloads : nat;        (* calls of [location.reload] *)
}.
Section panel.
Context `{UnicodeCase} (compact : bool) (proofMeta : option ProofMeta).

Definition panel_expected (s : state) : option Z :=
  match data s ≫= proof_expected with Some n => Some n | None => expected <$> proofMeta end.
Definition panel_ids (s : state) : option (list jstring) :=
  match full (data s ≫= proof_test_ids) with Some l => Some l | None => testIds <$> proofMeta end.
Definition panel_tests (s : state) : list Card :=
  proofAlignedTests (match data s with Some d => tests d | None => [] end) (panel_expected s) (panel_ids s).

Definition positive_Z (n : option Z) : option Z := match n with Some n => if 0 <? n then Some n else None | None => None end.
Definition displayStats (s : state) : Summary :=
  let l := panel_tests s in
  let passed := count_of Pass l in
  {| s_total := positive_Z (panel_expected s) ?? Z.of_nat (length l);
     s_passed := match positive_Z (panel_expected s) with
                 | Some n => if n <? passed then Z.min passed n else passed
                 | None => passed
                 end;
     s_failed := count_of Fail_ l; s_warned := count_of Warn l; s_pending := count_of Pending l |}.
Definition allPassed (s : state) : bool :=
  let d := displayStats s in
  (0 <? s_total d) && (s_passed d =? s_total d) && (s_failed d =? 0) && (s_warned d =? 0).

(** The effect that reloads the page once when the list is longer than the proof. *)
Definition stale_effect (s : state) : state :=
  match positive_Z (panel_expected s) with
  | Some n =>
      if Z.of_nat (match data s with Some d => length (tests d) | None => O end) <=? n then s
      else if staleKey s then s
      else {| data := data s; filter := filter s; search := search s; proofCopied := proofCopied s; staleKey := true;
              reloads := S (reloads s) |}
  | None => s
  end.

Definition matches (q : jstring) (c : Card) : bool :=
  includes q (to_lower (id c)) || includes q (to_lower (title c)) || includes q (to_lower (purpose c)).
Definition shown (s : state) (c : Card) : bool :=
  match filter s with
  | FSt st => if is_st st (status c) then true else false
  | FAny => true
  end && (let q := to_lower (trim (search s)) in if nonempty q then matches q c else true).
Definition filtered (s : state) : list Card := jfilter (shown s) (panel_tests s).
Definition visible (s : state) : list Card := if compact then take 4 (filtered s) else filtered s.

(** The tabs with their counts; a status without tests has none. *)
Definition tab_count (s : state) (f : FilterStatus) : Z :=
  let d := displayStats s in
  match f with
  | FAny => s_total d | FSt Pass => s_passed d | FSt Warn => s_warned d | FSt Fail_ => s_failed d | FSt Pending => s_pending d
  end.
Definition tabs (s : state) : list (FilterStatus * Z) :=
  omap (λ f, if negb (bool_decide (f = FAny)) && (tab_count s f =? 0) then None else Some (f, tab_count s f)) FILTER_TABS.
Definition filterLabel (l : Lang) (f : FilterStatus) : jstring :=
  text l match f with
         | FAny => "testsFilterAll" | FSt Pass => "testsFilterPass" | FSt Fail_ => "testsFilterFail"
         | FSt Warn => "testsFilterWarn" | FSt Pending => "testsFilterPending" end.
Definition status_label (l : Lang) (st : Status) : jstring :=
  text l match st with
         | Pass => "testStatusPass" | Fail_ => "testStatusFail" | Warn => "testStatusWarn" | Pending => "testStatusPending" end.

(** [SummaryHero], shown when all passed: [Math.round((passed / total) * 100)]. *)
Definition hero_pct (p total : Z) : num := if 0 <? total then percent p total else nzero.
Definition hero (s : state) : option (jstring * jstring) :=
  if negb compact && allPassed s then
    let d := displayStats s in
    Some (num_to_string (hero_pct (s_passed d) (s_total d)) ++ "%", dec (s_passed d) ++ "/" ++ dec (s_total d))
  else None.
(** The lines of the banners. *)
Definition eps_line (s : state) : option jstring :=
  match data s ≫= eps_smoke_banner with
  | Some b =>
      if negb compact && eb_pass b then
        let part name x := if nlt nzero (x ?? nzero) then " · " ++ name ++ "=" ++ toFixed 2 (x ?? nzero) else [] in
        Some ("lines+" ++ num_to_string (eb_lines b ?? nzero) ++ part "peak" (eb_peak b) ++ part "derived" (eb_derived b))
      else None
  | None => None
  end.
Definition or_dash (n : option Z) : jstring := match n with Some n => dec n | None => "—" end.
Definition morning_line (s : state) : option jstring :=
  match data s ≫= morning_operator_banner with
  | Some b => if negb compact && mb_pass b
              then Some ("proof " ++ or_dash (mb_proof_pass b) ++ "/" ++ or_dash (mb_proof_tests b) ++
                         (if mb_fresh b then " · freshness OK" else [])) else None
  | None => None
  end.
Definition soak_line (l : Lang) (s : state) : option jstring :=
  match data s ≫= vps_soak_remote with
  | Some b =>
      if negb compact && sb_pass b then
        let part name x := match truthy_str x with Some v => " · " ++ name ++ v | None => [] end in
        Some (num_to_string (sb_hours b ?? num_of_Z 72) ++ "h · " ++ num_to_string (sb_samples b ?? nzero) ++ " " ++
              text l "testsVpsSoakSamples" ++ " · fail=" ++ num_to_string (sb_failures b ?? nzero) ++
              part "xdp=" (sb_xdp b) ++ part [] (sb_host b))
      else None
  | None => None
  end.
Definition footer_line (l : Lang) (buildRev : option jstring) (s : state) : option jstring :=
  match truthy_Z (panel_expected s) with
  | Some n =>
      if negb compact && (0 <? s_total (displayStats s)) then
        Some ("competitive-proof " ++ dec (s_passed (displayStats s)) ++ "/" ++ dec n ++
              (if bool_decide ((data s ≫= parity_ok) = Some false) then " · " ++ text l "testsProofDriftFixed" else []) ++
              match truthy_str buildRev with
              | Some r => if r =s "unknown" then [] else " · build " ++ r
              | None => []
              end)
      else None
  | None => None
  end.

(** Requests keep the language of their render. *)
Inductive Req := Poll_ (l : Lang) | CopyProof.
Inductive Rsp := RNotOk | RFail | RTests (p : Payload) | RCopied.
Inductive event := Mount (q : option jstring) | Tick (l : Lang) | Pick (f : FilterStatus) | Type_ (txt : jstring)
                 | ClickCopy | CopyExpire.
Definition with_data (d : option Payload) (s : state) : state :=
  {| data := d; filter := filter s; search := search s; proofCopied := proofCopied s; staleKey := staleKey s; reloads := reloads s |}.
Definition with_ui (f : FilterStatus) (q : jstring) (cp : bool) (s : state) : state :=
  {| data := data s; filter := f; search := q; proofCopied := cp; staleKey := staleKey s; reloads := reloads s |}.
Definition on_event (ev : event) (s : state) : state * list Req :=
  match ev with
  | Mount q => match truthy_str (trim <$> q) with
               | Some q => (stale_effect (with_ui (filter s) q (proofCopied s) s), [])
               | None => (stale_effect s, [])
               end
  | Tick l => (s, [Poll_ l])
  | Pick f => (with_ui f (search s) (proofCopied s) s, [])
  | Type_ txt => (with_ui (filter s) txt (proofCopied s) s, [])
  | ClickCopy => (s, [CopyProof])
  | CopyExpire => (with_ui (filter s) (search s) false s, [])
  end.
Definition on_response (q : Req) (r : Rsp) (s : state) : state * list Req :=
  match q, r with
  | Poll_ _, RTests p => (stale_effect (with_data (Some (normalizeTestsPayload p proofMeta)) s), [])
  | Poll_ _, RFail => (stale_effect (with_data (Some unavailable) s), [])
  | CopyProof, RCopied => (with_ui (filter s) (search s) true s, [])
  | _, _ => (s, [])
  end.
Definition start (stored : bool) : state :=
  {| data := None; filter := FAny; search := []; proofCopied := false; staleKey := stored; reloads := 0 |}.
End panel.

(** ** The published proof is well counted *)

Lemma rseq_length {A} (l : list (res A)) r : rseq l = Ok r → length r = length l.
Proof.
  revert r. induction l as [|[a|e] l IH]; intros r; cbn; [by intros [= <-]| |done].
  destruct (rseq l) as [r'|] eqn:E; [|done]. intros [= <-]. cbn. by rewrite (IH r').
Qed.
Lemma proof_meta_counts w dir m : readProofJson w dir = Some m →
  0 < expected m ∧ 0 ≤ passed m ≤ expected m ∧ Z.of_nat (length (testIds m)) ≤ expected m.
Proof.
  unfold readProofJson. destruct (w_readIn w dir _) as [raw|]; [|done]. destruct (JSON_parse raw) as [doc|]; [|done].
  destruct (proof_of doc) as [m'|] eqn:E; [|done]. intros ->. unfold proof_of in E.
  destruct (jget _ doc) as [v|]; cbn [rbind] in E; [|done].
  destruct v as [[| | | |[|x l]|]|]; try done.
  set (all := x :: l) in E. assert (Ha : (0 < length all)%nat) by (cbn; lia). clearbody all.
  match type of E with context [rseq ?l'] => destruct (rseq l') as [ids|] eqn:Er end; cbn [rbind] in E; [|done].
  injection E as <-. apply rseq_length in Er. rewrite length_map in Er. unfold expected, passed, testIds.
  pose proof (jfilter_length (λ t, is_lit "pass" (Some t).["status"]) all) as H1.
  pose proof (jfilter_length nonempty ids). unfold jopt in *. lia.
Qed.
Lemma first_some_elem {A B} (f : A → option B) l y : first_some f l = Some y → ∃ x, x ∈ l ∧ f x = Some y.
Proof. intros (l1 & x & l2 & -> & Hf & _)%first_some_Some. exists x. split; [set_solver|done]. Qed.
Lemma proof_meta_ok w e cwd m : getProofMeta w e cwd = Some m →
  0 < expected m ∧ 0 ≤ passed m ≤ expected m ∧ Z.of_nat (length (testIds m)) ≤ expected m.
Proof. intros (dir & _ & H)%first_some_elem. by eapply proof_meta_counts. Qed.

(** ** The list shown is the published one *)

Lemma order_pairs ids : NoDup ids → proof_order ids = map (λ p : nat * jstring, (p.2, Z.of_nat p.1)) (numbered ids).
Proof.
  intros Hn. apply map_of_distinct. change (NoDup (map fst (map (λ p : nat * jstring, (p.2, Z.of_nat p.1)) (numbered ids)))).
  rewrite map_map. cbn [fst]. change (NoDup (numbered ids).*2). by rewrite numbered_snd.
Qed.
Lemma order_at ids i x : NoDup ids → ids !! i = Some x → mget x (proof_order ids) = Some (Z.of_nat i).
Proof.
  intros Hn Hi. apply mget_nodup; [apply map_of_nodup|]. rewrite order_pairs by done.
  apply (list_elem_of_fmap_2 (λ p : nat * jstring, (p.2, Z.of_nat p.1)) _ (i, x)). by apply numbered_elem.
Qed.
Lemma order_has ids x : mhas x (proof_order ids) = true ↔ x ∈ ids.
Proof.
  unfold mhas. rewrite <- (numbered_snd ids) at 2. unfold proof_order, map_of.
  assert (Hk : ∀ l m, x ∈ (fold_left (λ m kv, mset kv.1 kv.2 m) (map (λ p : nat * jstring, (p.2, Z.of_nat p.1)) l) m).*1 ↔
                      x ∈ l.*2 ∨ x ∈ m.*1).
  { induction l as [|p l IH]; intros m; cbn [map fold_left]; [set_solver|]. rewrite IH, mset_keys_elem. cbn. set_solver. }
  specialize (Hk (numbered ids) []). pose proof (mget_is_Some x (fold_left (λ m kv, mset kv.1 kv.2 m)
    (map (λ p : nat * jstring, (p.2, Z.of_nat p.1)) (numbered ids)) [])) as Hs.
  destruct (mget x _); split; intros Hx; try done.
  - destruct (proj1 Hk (proj1 Hs (mk_is_Some _ _ eq_refl))) as [?|?%elem_of_nil]; done.
  - destruct (proj2 Hs (proj2 Hk (or_introl Hx))) as [? ?]. done.
Qed.

(** A long list is cut down to the published tests and put in their order. *)
Lemma aligned_elem l n ids c : n ≠ 0 → ids ≠ [] → n < Z.of_nat (length l) →
  c ∈ proofAlignedTests l (Some n) (Some ids) ↔ c ∈ l ∧ id c ∈ ids.
Proof.
  intros Hn Hi Hl. unfold proofAlignedTests, truthy_Z, full. destruct n; [done| |]; (destruct ids as [|i ids]; [done|]);
    rewrite (proj2 (Z.leb_gt _ _)) by lia; by rewrite sort_by_elem, jfilter_elem, order_has.
Qed.
Lemma aligned_nodup l exp ids : NoDup (id <$> l) → NoDup (id <$> proofAlignedTests l exp ids).
Proof.
  intros Hn. unfold proofAlignedTests. destruct (truthy_Z exp), (full ids); try done. split_if; [done|].
  rewrite sort_by_perm. eapply sublist_NoDup; [exact Hn|]. apply fmap_sublist. unfold jfilter.
  clear. induction l as [|c l IH]; cbn; [constructor|]. split_if; by constructor.
Qed.
Lemma aligned_short l n ids : NoDup (id <$> l) → n ≠ 0 → ids ≠ [] → Z.of_nat (length ids) ≤ n →
  Z.of_nat (length (proofAlignedTests l (Some n) (Some ids))) ≤ n.
Proof.
  intros Hd Hn Hi Hl. destruct (decide (n < Z.of_nat (length l))).
  - pose proof (aligned_nodup l (Some n) (Some ids) Hd) as Hd'.
    assert (Hs : (length (id <$> proofAlignedTests l (Some n) (Some ids)) <= length ids)%nat).
    { apply submseteq_length, NoDup_submseteq; [done|]. intros x (c & -> & Hc)%list_elem_of_fmap.
      by apply aligned_elem in Hc as [_ ?]. }
    rewrite length_fmap in Hs. lia.
  - unfold proofAlignedTests, truthy_Z, full. destruct n; [done| |]; (destruct ids; [done|]);
      rewrite (proj2 (Z.leb_le _ _)) by lia; lia.
Qed.
Lemma aligned_keys_sorted l n ids : n ≠ 0 → ids ≠ [] → n < Z.of_nat (length l) →
  sorted_by (λ c, mget (id c) (proof_order ids) ?? 0) (proofAlignedTests l (Some n) (Some ids)).
Proof.
  intros Hn Hi Hl. unfold proofAlignedTests, truthy_Z, full. destruct n; [done| |]; (destruct ids; [done|]);
    rewrite (proj2 (Z.leb_gt _ _)) by lia; apply sort_by_sorted.
Qed.

(** The keys of the published ids are 0, 1, 2, ... *)
Lemma order_seq ids : NoDup ids → map (λ x, mget x (proof_order ids) ?? 0) ids = Z.of_nat <$> seq 0 (length ids).
Proof.
  intros Hn. apply list_eq. intros i. change (map ?f ids) with (f <$> ids). rewrite !list_lookup_fmap.
  destruct (ids !! i) as [x|] eqn:E; cbn.
  - rewrite (order_at ids i x Hn E). pose proof (lookup_lt_Some _ _ _ E). by rewrite lookup_seq_lt.
  - apply lookup_ge_None in E. by rewrite lookup_seq_ge.
Qed.
Lemma sorted_seq n : StronglySorted Z.le (Z.of_nat <$> seq 0 n).
Proof.
  generalize 0%nat. induction n as [|n IH]; intros i; cbn; [constructor|]. constructor; [apply IH|].
  apply Forall_forall. intros z (j & -> & Hj%elem_of_seq)%list_elem_of_fmap. lia.
Qed.
Lemma sorted_keys {A} (key : A → Z) l : sorted_by key l → StronglySorted Z.le (key <$> l).
Proof. unfold sorted_by. induction 1 as [|x l _ IH Hf]; cbn; constructor; [done|]. by apply Forall_fmap. Qed.

Lemma map_inj_on {A B} (key : A → B) (P : A → Prop) a b : (∀ x y, P x → P y → key x = key y → x = y) →
  Forall P a → Forall P b → map key a = map key b → a = b.
Proof.
  intros Hinj Ha. revert b. induction Ha as [|x a Hx _ IH]; intros [|y b] Hb; cbn; try done.
  inversion_clear Hb. intros [= E1 E2]. f_equal; auto.
Qed.

(** When the server's list holds more tests than the proof, the panel shows the
    published tests, each once and in the published order. *)
Theorem published_list_shown l n ids : NoDup ids → NoDup (id <$> l) → ids ⊆ (id <$> l) → ids ≠ [] → n ≠ 0 →
  n < Z.of_nat (length l) → id <$> proofAlignedTests l (Some n) (Some ids) = ids.
Proof.
  intros Hi Hd Hsub Hne Hn Hl. set (A := proofAlignedTests l (Some n) (Some ids)).
  assert (Hp : id <$> A ≡ₚ ids).
  { apply NoDup_Permutation; [by apply aligned_nodup|done|]. intros x. rewrite list_elem_of_fmap. split.
    - by intros (c & -> & [_ ?]%aligned_elem).
    - intros Hx. pose proof (Hsub x Hx) as (c & -> & Hc)%list_elem_of_fmap. exists c. split; [done|]. by apply aligned_elem. }
  set (key := λ x, mget x (proof_order ids) ?? 0).
  assert (Hk : map key (id <$> A) = map key ids).
  { apply (StronglySorted_unique Z.le).
    - change (map key (id <$> A)) with (key <$> (id <$> A)). rewrite <- list_fmap_compose. apply sorted_keys.
      by apply aligned_keys_sorted.
    - unfold key. rewrite order_seq by done. apply sorted_seq.
    - change (key <$> (id <$> A) ≡ₚ key <$> ids). by rewrite Hp. }
  assert (Hinj : ∀ x y, x ∈ ids → y ∈ ids → key x = key y → x = y).
  { intros x y (i & Hx)%list_elem_of_lookup (j & Hy)%list_elem_of_lookup. unfold key.
    rewrite (order_at _ _ _ Hi Hx), (order_at _ _ _ Hi Hy). cbn. intros E%Nat2Z.inj. congruence. }
  eapply (map_inj_on key (λ x, x ∈ ids)); [exact Hinj| |by apply Forall_forall|exact Hk].
  apply Forall_forall. intros x. by rewrite Hp.
Qed.

(** ** Counting *)

Lemma count_le st l : 0 ≤ count_of st l ≤ Z.of_nat (length l).
Proof. unfold count_of. pose proof (jfilter_length (λ c, is_st st (status c)) l). lia. Qed.
Lemma count_all st l : count_of st l = Z.of_nat (length l) ↔ ∀ c, c ∈ l → status c = st.
Proof.
  unfold count_of. induction l as [|c l IH]; [split; [by intros _ ? ?%elem_of_nil|done]|].
  pose proof (jfilter_length (λ c, is_st st (status c)) l) as Hl. unfold jfilter in *. cbn [List.filter length].
  unfold is_st in *. destruct (bool_decide (st = status c)) eqn:E; bprop; cbn [length].
  - split.
    + intros Hc x [->|Hx]%elem_of_cons; [done|]. apply IH; [lia|done].
    + intros Hx. rewrite !Nat2Z.inj_succ. f_equal. apply IH. intros. apply Hx. by right.
  - split; [lia|]. intros Hx. destruct E. symmetry. apply Hx. by left.
Qed.
Lemma count_zero st l : count_of st l = 0 ↔ ∀ c, c ∈ l → status c ≠ st.
Proof.
  unfold count_of. split.
  - intros H0 c Hc E. assert (Hin : c ∈ jfilter (λ c, is_st st (status c)) l).
    { apply jfilter_elem. split; [done|]. unfold is_st. by rewrite bool_decide_true. }
    destruct (jfilter _ l); [by apply elem_of_nil in Hin|cbn in H0; lia].
  - intros Hx. rewrite jfilter_none; [done|]. intros c Hc. unfold is_st. apply bool_decide_false. intros E. by apply (Hx c Hc).
Qed.

Section sound.
Context `{UnicodeCase} (compact : bool) (proofMeta : option ProofMeta).

(** The proof is known by its ids and counts at least these. *)
Definition proof_listed (s : state) : Prop :=
  match positive_Z (panel_expected proofMeta s) with
  | Some n => ∃ i ids, panel_ids proofMeta s = Some (i :: ids) ∧ Z.of_nat (S (length ids)) ≤ n
  | None => panel_expected proofMeta s = None ∨ panel_expected proofMeta s = Some 0
  end.
Definition distinct_cards (s : state) : Prop := NoDup (id <$> match data s with Some d => tests d | None => [] end).

Lemma panel_at_most s n : distinct_cards s → proof_listed s → positive_Z (panel_expected proofMeta s) = Some n →
  Z.of_nat (length (panel_tests proofMeta s)) ≤ n.
Proof.
  unfold proof_listed, panel_tests. intros Hd Hp Hn. rewrite Hn in Hp. destruct Hp as (i & ids & Hi & Hl). rewrite Hi.
  destruct (panel_expected proofMeta s) as [m|]; [|done]. cbn in Hn. destruct (0 <? m) eqn:E; [|done]. bprop. simplify_eq.
  apply aligned_short; [done|lia|done|done].
Qed.

(** C27. The banner that all tests passed is right: it is shown exactly when there are
    tests, each of them passed, and their number is the published one where there is
    a proof. *)
Theorem all_passed_exact s : distinct_cards s → proof_listed s →
  allPassed proofMeta s = true ↔
  panel_tests proofMeta s ≠ [] ∧ (∀ c, c ∈ panel_tests proofMeta s → status c = Pass) ∧
  (∀ n, positive_Z (panel_expected proofMeta s) = Some n → Z.of_nat (length (panel_tests proofMeta s)) = n).
Proof.
  intros Hd Hp. pose proof (panel_at_most s) as Hm. unfold allPassed, displayStats. cbn [s_total s_passed s_failed s_warned].
  set (l := panel_tests proofMeta s) in *. clearbody l. pose proof (count_le Pass l) as Hc.
  assert (Hnz : (∀ c, c ∈ l → status c = Pass) → count_of Fail_ l = 0 ∧ count_of Warn l = 0)
    by (intros Ha; split; apply count_zero; intros c Hx; rewrite (Ha c Hx); done).
  destruct (positive_Z (panel_expected proofMeta s)) as [n|] eqn:En; cbn [default]; unfold Datatypes.id.
  - specialize (Hm n Hd Hp eq_refl). replace (n <? count_of Pass l) with false by (symmetry; apply Z.ltb_ge; lia). split.
    + intros Hb. bprop. split_and!; [intros ->; cbn in *; lia|apply (proj1 (count_all Pass l)); lia|intros ? [= <-]; lia].
    + intros (Hne & Ha & Hn). specialize (Hn n eq_refl). destruct (Hnz Ha) as [-> ->]. apply count_all in Ha.
      rewrite Ha, Hn, Z.eqb_refl. assert (0 < n) by (destruct l; [done|cbn in *; lia]). by rewrite (proj2 (Z.ltb_lt _ _)).
  - split.
    + intros Hb. bprop. split_and!; [intros ->; cbn in *; lia|apply (proj1 (count_all Pass l)); lia|done].
    + intros (Hne & Ha & _). destruct (Hnz Ha) as [-> ->]. apply count_all in Ha. rewrite Ha, Z.eqb_refl.
      rewrite (proj2 (Z.ltb_lt _ _)); [done|]. destruct l; [done|cbn; lia].
Qed.

(** Without a search, the tab of a status other than passed counts the cards it
    shows; that of the passed ones does while they are not more than expected. *)
Lemma tab_exact s st : search s = [] → filter s = FSt st → st ≠ Pass →
  tab_count proofMeta s (FSt st) = Z.of_nat (length (filtered proofMeta s)).
Proof.
  intros Hs Hf Hne. unfold filtered, shown. rewrite Hf, Hs.
  assert (E : to_lower (trim []) = ([] : jstring)) by (by apply to_lower_nil). rewrite E. cbn [nonempty].
  assert (Hc : count_of st (panel_tests proofMeta s) =
    Z.of_nat (length (jfilter (λ c, (if is_st st (status c) then true else false) && true) (panel_tests proofMeta s)))).
  { unfold count_of. do 2 f_equal. unfold jfilter. apply List.filter_ext. intros c. by destruct (is_st st (status c)). }
  by destruct st; [done| | |]; rewrite <- Hc.
Qed.

(** The page is reloaded at most once in a session. *)
Lemma stale_once (stored : bool) s : (reloads s + (if stored then 1 else 0) <= if staleKey s then 1 else 0)%nat →
  (reloads (stale_effect proofMeta s) + (if stored then 1 else 0) <= if staleKey (stale_effect proofMeta s) then 1 else 0)%nat.
Proof.
  intros Hs. unfold stale_effect. destruct (positive_Z _); [|done]. split_if; [done|]. destruct (staleKey s) eqn:Es; [by rewrite Es|].
  cbn. lia.
Qed.
Lemma reload_once (stored : bool) c : page_reach (on_event proofMeta) (on_response proofMeta) (Cfg (start stored) []) c →
  (reloads (current c) + (if stored then 1 else 0) <= 1)%nat.
Proof.
  intros Hr. assert (Hi : (reloads (current c) + (if stored then 1 else 0) <= if staleKey (current c) then 1 else 0)%nat).
  { revert Hr. apply (page_invariant _ _ (λ c, (reloads (current c) + (if stored then 1 else 0) <= if staleKey (current c) then 1 else 0)%nat)).
    - cbn. by destruct stored.
    - intros c0 ev s reqs Hc. destruct ev; cbn [on_event]; [destruct (truthy_str _)|..]; intros [= <- <-]; try done; by apply stale_once.
    - intros c0 i q r s reqs Hc _. destruct q, r; cbn [on_response]; intros [= <- <-]; try done; by apply stale_once. }
  destruct (staleKey (current c)), stored; lia.
Qed.

(** The answer is cut down before it is kept, so that with a listed proof the
    condition for the reload never holds. *)
Lemma normalized_at_most raw n i ids : NoDup (id <$> tests raw) → effective proofMeta raw = (Some n, Some (i :: ids)) → 0 < n →
  Z.of_nat (S (length ids)) ≤ n → Z.of_nat (length (tests (normalizeTestsPayload raw proofMeta))) ≤ n.
Proof.
  intros Hd He Hn Hl. unfold normalizeTestsPayload. rewrite He. cbn [full]. destruct n as [|n|n]; [done| |done]. cbn [truthy_Z].
  destruct (Z.of_nat (length (tests raw)) <=? Z.pos n) eqn:E; bprop; [done|]. cbn [tests]. by apply aligned_short.
Qed.
Lemma normalized_proof raw : proof_expected (normalizeTestsPayload raw proofMeta) = proof_expected raw.
Proof.
  unfold normalizeTestsPayload. destruct (effective proofMeta raw) as [a b]. destruct (truthy_Z a), (full b); try done. by split_if.
Qed.
Lemma reload_dead l raw n i ids s : NoDup (id <$> tests raw) → effective proofMeta raw = (Some n, Some (i :: ids)) → 0 < n →
  Z.of_nat (S (length ids)) ≤ n → reloads (on_response proofMeta (Poll_ l) (RTests raw) s).1 = reloads s.
Proof.
  intros Hd He Hn Hl. pose proof (normalized_at_most raw n i ids Hd He Hn Hl) as Hm.
  cbn [on_response fst]. unfold stale_effect, panel_expected. cbn [data with_data mbind option_bind]. rewrite normalized_proof.
  unfold effective in He. injection He as He _. rewrite He. cbn [positive_Z]. rewrite (proj2 (Z.ltb_lt _ _)) by done.
  by rewrite (proj2 (Z.leb_le _ _)) by done.
Qed.
End sound.

(** ** Examples *)

Module TestsPanelDemo.
Definition card (name : jstring) (st : Status) : Card :=
  {| id := name; title := name; purpose := []; status := st; verdict := []; metrics := []; script := []; date := None;
     badge := None; docHref := None; docLabel := None |}.
Definition answer (l : list Card) (n : option Z) (ids : option (list jstring)) : Payload :=
  {| available := true; tests := l; summary := None; proof_expected := n; proof_test_ids := ids; parity_ok := None;
     hint := None; vps_soak_remote := None; morning_operator_banner := None; eps_smoke_banner := None |}.
Definition showing (p : Payload) : state :=
  {| data := Some p; filter := FAny; search := []; proofCopied := false; staleKey := false; reloads := 0 |}.
Definition three : list Card := [card "waf" Pass; card "soak" Pending; card "crs" Pass].
Definition good : state := showing (answer three (Some 2) (Some ["crs"; "waf"])).

(** A proof that is counted but not listed: the cap on the count hides the pending
    test, and the banner says that all passed. *)
Example banner_without_ids : allPassed None (showing (answer three (Some 2) None)) = true ∧
  s_pending (displayStats None (showing (answer three (Some 2) None))) = 1.
Proof. by vm_compute. Qed.

Lemma all_passed_exact_witness :
  allPassed None good = true ∧
  (allPassed None good = true ↔
   panel_tests None good ≠ [] ∧ (∀ c, c ∈ panel_tests None good → status c = Pass) ∧
   (∀ n, positive_Z (panel_expected None good) = Some n → Z.of_nat (length (panel_tests None good)) = n)).
Proof.
  split; [by vm_compute|]. apply (all_passed_exact None good).
  - unfold distinct_cards. apply (bool_decide_unpack _). by vm_compute.
  - cbn. exists "crs", ["waf"]. split; [done|]. cbn. lia.
Defined.
Lemma published_list_shown_witness : id <$> proofAlignedTests three (Some 2) (Some ["crs"; "waf"]) = ["crs"; "waf"].
Proof.
  apply (published_list_shown three 2 ["crs"; "waf"]).
  - apply (bool_decide_unpack _). by vm_compute.
  - apply (bool_decide_unpack _). by vm_compute.
  - intros x. cbn. set_solver.
  - done.
  - done.
  - cbn. lia.
Defined.
End TestsPanelDemo.
