(* ===== verification/FleetPage.v ===== *)
(** The home page (dashboard/src/app/page.tsx): the fleet, its key figures, tenant
    selection and the quick ban; with lib/formatTimeAgo.ts and the bar and pie charts
    (components/FleetCharts.tsx). *)

From Stdlib Require Import Sorted.
From S2P Require Import Prelude JsMap JsString JsNum Json Http JsValue CopilotText I18n Client.

(** ** Data *)

Record Agent := {
  agent_id : jstring; tenant_id : jstring; eps : num; total_lines : Z; alerts_total : Z; rce_detections : Z;
  tarpit_active : Z; mesh_peers : Z; unique_ips : Z; tls_decrypted : option Z; etcd_peers : option Z;
  last_seen : Z;          (* milliseconds *)
  online : bool;          (* [status === "Online"] *)
  remote_shadow : bool; hostname : option jstring;
}.
Record TenantInfo := { ti_id : jstring; agent_count : Z; online_agents : Z }.
Record TlsStatus := { uprobe_active : bool; etcd_connected : bool; tls_etcd_peers : Z }.
Record GlobalStats := {
  activeAgents : Z; totalEps : num; totalRce : Z; totalTarpit : Z; totalK8sKills : Z; totalTlsDecrypted : Z; etcdPeers : Z;
}.
Record TenantColor := { border : jstring; badge : jstring }.
Definition TENANT_COLORS : list TenantColor :=
  [{| border := "border-l-[#7c3aed]"; badge := "bg-[#7c3aed]/20 text-[#a78bfa]" |};
   {| border := "border-l-[#0891b2]"; badge := "bg-[#0891b2]/20 text-[#67e8f9]" |};
   {| border := "border-l-[#d97706]"; badge := "bg-[#d97706]/20 text-[#fcd34d]" |};
   {| border := "border-l-[#16a34a]"; badge := "bg-[#16a34a]/20 text-[#86efac]" |};
   {| border := "border-l-[#be123c]"; badge := "bg-[#be123c]/20 text-[#fda4af]" |}].
Definition tenantColor (idx : nat) : option TenantColor := TENANT_COLORS !! (idx mod length TENANT_COLORS)%nat.
(** The dot before a tenant in the list. *)
Definition dot_class (c : TenantColor) : jstring :=
  if includes "violet" (badge c) then "bg-violet-400"
  else if includes "cyan" (badge c) then "bg-cyan-400"
  else if includes "amber" (badge c) then "bg-amber-400"
  else if includes "green" (badge c) then "bg-green-400"
  else "bg-rose-400".

(** ** Relative times *)

Inductive Unit_ := Second | Minute | Hour | Day.
Section time.
(** [new Intl.RelativeTimeFormat(locale, { numeric: "auto" }).format(n, unit)] *)
Context (rtf : jstring → Z → Unit_ → jstring).

(** The amount and the unit; [None] is a date that does not parse. *)
Definition ago (now ts : Z) : Z * Unit_ :=
  let sec := Z.max 0 ((now - ts) / 1000) in
  if sec <? 60 then (- sec, Second)
  else let min := sec / 60 in
       if min <? 60 then (- min, Minute)
       else let hr := min / 60 in
            if hr <? 48 then (- hr, Hour) else (- (hr / 24), Day).
Definition formatTimeAgo (now : Z) (ts : option Z) (locale : jstring) : jstring :=
  match ts with
  | Some ts => let '(n, u) := ago now ts in rtf locale n u
  | None => "—"
  end.
End time.
Definition unit_ms (u : Unit_) : Z :=
  match u with Second => 1000 | Minute => 60000 | Hour => 3600000 | Day => 86400000 end.

(** The phrase is never more than one unit off, and a unit is used from one (two
    days) on. *)
Lemma ago_exact now ts n u : ts ≤ now → ago now ts = (n, u) →
  n ≤ 0 ∧ - n * unit_ms u ≤ now - ts < (1 - n) * unit_ms u ∧ (u ≠ Second → 1 ≤ - n) ∧ (u = Day → 2 ≤ - n).
Proof.
  intros Ht. unfold ago. set (d := now - ts). assert (Hd : 0 ≤ d) by lia. clearbody d. rewrite Z.max_r by (apply Z.div_pos; lia).
  pose proof (Z.div_mod d 1000 ltac:(lia)). pose proof (Z.mod_pos_bound d 1000 ltac:(lia)).
  set (sec := d / 1000) in *. clearbody sec.
  destruct (sec <? 60) eqn:E1; bprop; [intros [= <- <-]; cbn; split_and!; (lia || done)|].
  pose proof (Z.div_mod sec 60 ltac:(lia)). pose proof (Z.mod_pos_bound sec 60 ltac:(lia)).
  set (min := sec / 60) in *. clearbody min.
  destruct (min <? 60) eqn:E2; bprop; [intros [= <- <-]; cbn; split_and!; (lia || done)|].
  pose proof (Z.div_mod min 60 ltac:(lia)). pose proof (Z.mod_pos_bound min 60 ltac:(lia)).
  set (hr := min / 60) in *. clearbody hr.
  destruct (hr <? 48) eqn:E3; bprop; [intros [= <- <-]; cbn; split_and!; (lia || done)|].
  pose proof (Z.div_mod hr 24 ltac:(lia)). pose proof (Z.mod_pos_bound hr 24 ltac:(lia)).
  set (day := hr / 24) in *. clearbody day. intros [= <- <-]. cbn. split_and!; (lia || done).
Qed.

(** ** The page *)

Record state := {
  fleet : list Agent;
  tenants : list TenantInfo;
  selectedTenant : jstring;
  tenantDropOpen : bool;
  tlsStatus : option TlsStatus;
  commandIp : jstring;
  banToast : option (bool * jstring);
  epsFromLive : bool;
  kpiFromSnapshot : bool;
  fleetPendingCommands : Z;
  globalStats : GlobalStats;
  k8sTick : Z;
}.
Definition no_stats : GlobalStats :=
  {| activeAgents := 0; totalEps := nzero; totalRce := 0; totalTarpit := 0; totalK8sKills := 0; totalTlsDecrypted := 0; etcdPeers := 0 |}.
Definition start : state :=
  {| fleet := []; tenants := []; selectedTenant := "*"; tenantDropOpen := false; tlsStatus := None; commandIp := [];
     banToast := None; epsFromLive := false; kpiFromSnapshot := false; fleetPendingCommands := 0; globalStats := no_stats;
     k8sTick := 0 |}.
Definition set_fleet (a : list Agent) (pending : Z) (live : bool) (tick : Z) (s : state) : state :=
  {| fleet := a; tenants := tenants s; selectedTenant := selectedTenant s; tenantDropOpen := tenantDropOpen s;
     tlsStatus := tlsStatus s; commandIp := commandIp s; banToast := banToast s; epsFromLive := live;
     kpiFromSnapshot := kpiFromSnapshot s; fleetPendingCommands := pending; globalStats := globalStats s; k8sTick := tick |}.
Definition set_stats (g : GlobalStats) (snap : bool) (s : state) : state :=
  {| fleet := fleet s; tenants := tenants s; selectedTenant := selectedTenant s; tenantDropOpen := tenantDropOpen s;
     tlsStatus := tlsStatus s; commandIp := commandIp s; banToast := banToast s; epsFromLive := epsFromLive s;
     kpiFromSnapshot := snap; fleetPendingCommands := fleetPendingCommands s; globalStats := g; k8sTick := k8sTick s |}.
Definition set_rest (ts : list TenantInfo) (tls : option TlsStatus) (s : state) : state :=
  {| fleet := fleet s; tenants := ts; selectedTenant := selectedTenant s; tenantDropOpen := tenantDropOpen s;
     tlsStatus := tls; commandIp := commandIp s; banToast := banToast s; epsFromLive := epsFromLive s;
     kpiFromSnapshot := kpiFromSnapshot s; fleetPendingCommands := fleetPendingCommands s; globalStats := globalStats s;
     k8sTick := k8sTick s |}.
Definition set_ui (sel : jstring) (dropdown : bool) (ip : jstring) (toast : option (bool * jstring)) (s : state) : state :=
  {| fleet := fleet s; tenants := tenants s; selectedTenant := sel; tenantDropOpen := dropdown; tlsStatus := tlsStatus s;
     commandIp := ip; banToast := toast; epsFromLive := epsFromLive s; kpiFromSnapshot := kpiFromSnapshot s;
     fleetPendingCommands := fleetPendingCommands s; globalStats := globalStats s; k8sTick := k8sTick s |}.

(** Updates of the key figures, [{ ...prev, ... }]. *)
Definition with_kills (k : Z) (g : GlobalStats) : GlobalStats :=
  {| activeAgents := activeAgents g; totalEps := totalEps g; totalRce := totalRce g; totalTarpit := totalTarpit g;
     totalK8sKills := k; totalTlsDecrypted := totalTlsDecrypted g; etcdPeers := etcdPeers g |}.
Definition with_eps (x : num) (g : GlobalStats) : GlobalStats :=
  {| activeAgents := activeAgents g; totalEps := x; totalRce := totalRce g; totalTarpit := totalTarpit g;
     totalK8sKills := totalK8sKills g; totalTlsDecrypted := totalTlsDecrypted g; etcdPeers := etcdPeers g |}.
Definition with_peers (n : Z) (g : GlobalStats) : GlobalStats :=
  {| activeAgents := activeAgents g; totalEps := totalEps g; totalRce := totalRce g; totalTarpit := totalTarpit g;
     totalK8sKills := totalK8sKills g; totalTlsDecrypted := totalTlsDecrypted g; etcdPeers := n |}.

(** The sums over the agents: only local agents that are online count as active and
    for the rate; all agents count for the rest. *)
Record Sums := { sm_active : Z; sm_eps : num; sm_rce : Z; sm_tarpit : Z; sm_tls : Z }.
Definition add_agent (m : Sums) (a : Agent) : Sums :=
  let counts := online a && negb (remote_shadow a) in
  {| sm_active := if counts then sm_active m + 1 else sm_active m;
     sm_eps := if counts then nadd (sm_eps m) (eps a) else sm_eps m;
     sm_rce := sm_rce m + rce_detections a; sm_tarpit := sm_tarpit m + tarpit_active a;
     sm_tls := sm_tls m + (tls_decrypted a ?? 0) |}.
Definition sums_of (l : list Agent) : Sums :=
  fold_left add_agent l {| sm_active := 0; sm_eps := nzero; sm_rce := 0; sm_tarpit := 0; sm_tls := 0 |}.
Definition with_sums (m : Sums) (x : num) (g : GlobalStats) : GlobalStats :=
  {| activeAgents := sm_active m; totalEps := x; totalRce := sm_rce m; totalTarpit := sm_tarpit m;
     totalK8sKills := totalK8sKills g; totalTlsDecrypted := sm_tls m; etcdPeers := etcdPeers g |}.

(** The five answers of a poll; [None] is a rejected promise. *)
Record Live := { lv_reachable : bool; lv_eps : option num }.
Record Hints := { rce_blocked : option Z; l7_blocked : option Z }.
Record Answers := {
  a_fleet : option (list Agent * Z);              (* agents, pending commands *)
  a_tenants : option (list TenantInfo);
  a_tls : option TlsStatus;
  a_live : option Live;
  a_hints : option Hints;                         (* [snapRes.value?.hints] *)
}.
(** [Number(metricsRes.value.eps) || 0] when the metrics are reachable *)
Definition live_eps (a : Answers) : num :=
  match a_live a with
  | Some l => if lv_reachable l then match lv_eps l with Some x => if num_truthy x then x else nzero | None => nzero end else nzero
  | None => nzero
  end.

(** A run of [fetchAll] waits for the five answers, and at every fifth run for the
    cluster's count. *)
Inductive Req := QAll (tenant : jstring) | QK8s (m : Sums) (a : Answers) | QBan (ip : jstring) (l : Lang).
Record BanReply := { immediate : option (option bool * option jstring); rp_message : option jstring }.
Inductive Rsp := AAll (a : Answers) | AK8s (kills : option Z) | ABan (r : option BanReply).

Definition all_headers (tenant : jstring) : list (jstring * jstring) :=
  if tenant =s "*" then [] else [("X-Tenant-ID", tenant)].
Definition fetchAll (s : state) : state * list Req := (s, [QAll (selectedTenant s)]).

(** From the snapshot block to the end of the run. *)
Definition snapshot_block (fleetRce : Z) (a : Answers) (s : state) : state :=
  match a_hints a with
  | Some h =>
      if neq_num (live_eps a) nzero && (fleetRce =? 0) && ((0 <? rce_blocked h ?? 0) || (0 <? l7_blocked h ?? 0)) then
        let g := globalStats s in
        set_stats {| activeAgents := activeAgents g; totalEps := totalEps g;
                     totalRce := if 0 <? totalRce g then totalRce g else rce_blocked h ?? 0;
                     totalTarpit := if 0 <? totalTarpit g then totalTarpit g else l7_blocked h ?? 0;
                     totalK8sKills := totalK8sKills g; totalTlsDecrypted := totalTlsDecrypted g; etcdPeers := etcdPeers g |}
                  true s
      else set_stats (globalStats s) false s
  | None => set_stats (globalStats s) false s
  end.
Definition last_blocks (fleetRce : Z) (a : Answers) (s : state) : state :=
  let s := snapshot_block fleetRce a s in
  let s := match a_tenants a with Some l => set_rest l (tlsStatus s) s | None => s end in
  match a_tls a with
  | Some x => set_stats (with_peers (tls_etcd_peers x) (globalStats s)) (kpiFromSnapshot s) (set_rest (tenants s) (Some x) s)
  | None => s
  end.
Definition after_k8s (m : Sums) (a : Answers) (s : state) : state :=
  let x := if nlt nzero (live_eps a) then live_eps a else sm_eps m in
  last_blocks (sm_rce m) a (set_stats (with_sums m x (globalStats s)) (kpiFromSnapshot s) s).
Definition answered (a : Answers) (s : state) : state * list Req :=
  let useLive := nlt nzero (live_eps a) in
  match a_fleet a with
  | Some (agents, pending) =>
      let m := sums_of agents in
      let tick := k8sTick s + 1 in
      let s := set_fleet agents pending useLive tick s in
      if tick mod 5 =? 1 then (s, [QK8s m a]) else (after_k8s m a s, [])
  | None =>
      if useLive then (last_blocks 0 a (set_stats (with_eps (live_eps a) (globalStats s)) (kpiFromSnapshot s)
                                                  (set_fleet (fleet s) (fleetPendingCommands s) true (k8sTick s) s)), [])
      else (last_blocks 0 a (set_fleet (fleet s) (fleetPendingCommands s) false (k8sTick s) s), [])
  end.

(** The quick ban. *)
Definition handleCommand (l : Lang) (payload : jstring) (s : state) : state * list Req :=
  if nonempty payload then (s, [QBan payload l]) else (s, []).
Definition ban_body (ip : jstring) : json :=
  JObj [("commandType", JStr "BAN_IP"); ("payload", JStr ip); ("reason", JStr "dashboard-home")].
Definition toast_of (l : Lang) (r : option BanReply) : bool * jstring :=
  match r with
  | Some r =>
      let ok := match immediate r with Some (ok, _) => ok ?? false | None => false end in
      let msg := match immediate r with Some (_, m) => m | None => None end in
      (ok, oor msg (oor (rp_message r) (if ok then text l "banSuccess" else text l "banQueuedOnly")))
  | None => (false, text l "banFailed")
  end.

Inductive event := Poll | SelectTenant (tn : jstring) (close : bool) | ToggleDrop | TypeIp (txt : jstring)
                 | ClickBan (l : Lang) | ToastExpire.
Definition on_event (ev : event) (s : state) : state * list Req :=
  match ev with
  | Poll => fetchAll s
  | SelectTenant tn close =>
      (set_ui tn (if close then false else tenantDropOpen s) (commandIp s) (banToast s) s, [])
  | ToggleDrop => (set_ui (selectedTenant s) (negb (tenantDropOpen s)) (commandIp s) (banToast s) s, [])
  | TypeIp txt => (set_ui (selectedTenant s) (tenantDropOpen s) txt (banToast s) s, [])
  | ClickBan l => handleCommand l (commandIp s) s
  | ToastExpire => (set_ui (selectedTenant s) (tenantDropOpen s) (commandIp s) None s, [])
  end.
Definition on_response (q : Req) (r : Rsp) (s : state) : state * list Req :=
  match q, r with
  | QAll _, AAll a => answered a s
  | QK8s m a, AK8s kills => (after_k8s m a (set_stats (with_kills (kills ?? 0) (globalStats s)) (kpiFromSnapshot s) s), [])
  | QBan _ l, ABan r =>
      (set_ui (selectedTenant s) (tenantDropOpen s) (match r with Some _ => [] | None => commandIp s end) (Some (toast_of l r)) s, [])
  | _, _ => (s, [])
  end.

(** ** What is drawn *)

(** The order of the cards: [cmp a b <= 0]. *)
Definition fleet_le (a b : Agent) : bool :=
  if remote_shadow a && negb (remote_shadow b) then false
  else if negb (remote_shadow a) && remote_shadow b then true
  else if negb (Bool.eqb (online a) (online b)) then online a
  else last_seen b - last_seen a <=? 0.
Definition sortedFleet (s : state) : list Agent := sort_by fleet_le (fleet s).
Definition laptopFleet (s : state) : list Agent := jfilter (λ a, negb (remote_shadow a)) (fleet s).
Definition remoteFleet (s : state) : list Agent := jfilter remote_shadow (fleet s).
Definition offlineCount (s : state) : Z :=
  Z.of_nat (length (laptopFleet s)) - Z.of_nat (length (jfilter online (laptopFleet s))).
Definition selectedLabel (l : Lang) (s : state) : jstring :=
  if selectedTenant s =s "*" then text l "allTenants" else selectedTenant s.
Definition online_badge (l : Lang) (s : state) : jstring :=
  let n := dec (activeAgents (globalStats s)) in
  match laptopFleet s with
  | [] => n ++ " " ++ text l "nodesOnline"
  | _ => n ++ "/" ++ dec (Z.of_nat (length (laptopFleet s))) ++ " " ++ text l "nodesOnline" ++
         match remoteFleet s with
         | [] => []
         | _ => " · +" ++ dec (Z.of_nat (length (remoteFleet s))) ++ " " ++ text l "fleetRemoteMonitor"
         end
  end.
Definition offline_banner (l : Lang) (s : state) : option jstring :=
  if (0 <? offlineCount s) && bool_decide (laptopFleet s ≠ []) then
    Some (dec (offlineCount s) ++ " " ++
          if 0 <? fleetPendingCommands s then replace_first "{n}" (dec (fleetPendingCommands s)) (text l "fleetOfflineBannerWithPending")
          else text l "fleetOfflineBannerStale")
  else None.
Definition tenantIndexMap (s : state) : list (jstring * nat) :=
  map_of (map (λ p : nat * TenantInfo, (ti_id p.2, p.1)) (numbered (tenants s))).
Definition card_color (s : state) (a : Agent) : option TenantColor := tenantColor (mget (tenant_id a) (tenantIndexMap s) ?? O).
Definition onlineBorder (s : state) (a : Agent) : jstring :=
  if remote_shadow a then "border-l-sky-500/60"
  else if online a then match card_color s a with Some c => border c | None => [] end
  else "border-l-danger/50 opacity-60".
(** The tenant of the metrics panel. *)
Definition metrics_tenant (s : state) : jstring := if selectedTenant s =s "*" then "default" else selectedTenant s.
Definition snapshot_hint (s : state) : bool := kpiFromSnapshot s && (0 <? totalRce (globalStats s)).

(** components/FleetCharts.tsx *)
Definition node_name (n : nat) (name : jstring) : jstring := take n (if starts_with "node-" name then drop 5 name else name).
(** [sort((a, b) => b.eps - a.eps)] *)
Definition eps_le (a b : Agent) : bool := negb (nlt nzero (nsub (eps b) (eps a))).
Definition epsData (l : list Agent) : list (jstring * num) :=
  map (λ a, (node_name 12 (agent_id a), ndiv (nround (nmul (eps a) (num_of_Z 10))) (num_of_Z 10))) (sort_by eps_le l).
Definition alertData (l : list Agent) : list (jstring * Z) := map (λ a, (node_name 10 (agent_id a), alerts_total a)) l.
Definition status_key (a : Agent) : jstring := if online a then "Online" else "Offline".
Definition pieData (l : list Agent) : list (jstring * Z) :=
  fold_left (λ acc a, put_field (status_key a) ((assoc (status_key a) acc ?? 0) + 1) acc) l [].

(** ** The key figures *)

Lemma sums_app m l :
  fold_left add_agent l m =
  {| sm_active := sm_active m + Z.of_nat (length (jfilter (λ a, online a && negb (remote_shadow a)) l));
     sm_eps := fold_left nadd (map eps (jfilter (λ a, online a && negb (remote_shadow a)) l)) (sm_eps m);
     sm_rce := sm_rce m + foldr Z.add 0 (map rce_detections l);
     sm_tarpit := sm_tarpit m + foldr Z.add 0 (map tarpit_active l);
     sm_tls := sm_tls m + foldr Z.add 0 (map (λ a, tls_decrypted a ?? 0) l) |}.
Proof.
  revert m. induction l as [|a l IH]; intros m.
  - cbn. rewrite !Z.add_0_r. by destruct m.
  - cbn [fold_left]. rewrite IH. unfold add_agent, jfilter. cbn [List.filter map foldr sm_active sm_eps sm_rce sm_tarpit sm_tls].
    destruct (online a && negb (remote_shadow a)); cbn [length map fold_left]; f_equal; lia.
Qed.

(** Reference: what the cards should say for a list of agents, the live rate and the
    snapshot's hints. *)
Definition total (f : Agent → Z) (l : list Agent) : Z := foldr Z.add 0 (map f l).
Definition active_agents (l : list Agent) : list Agent := jfilter (λ a, online a && negb (remote_shadow a)) l.
Definition snapshot_used (a : Answers) (agents : list Agent) : bool :=
  match a_hints a with
  | Some h => neq_num (live_eps a) nzero && (total rce_detections agents =? 0) &&
              ((0 <? rce_blocked h ?? 0) || (0 <? l7_blocked h ?? 0))
  | None => false
  end.
Definition shown_figures (a : Answers) (agents : list Agent) (kills peers : Z) : GlobalStats :=
  let snap := snapshot_used a agents in
  {| activeAgents := Z.of_nat (length (active_agents agents));
     totalEps := if nlt nzero (live_eps a) then live_eps a else fold_left nadd (map eps (active_agents agents)) nzero;
     totalRce := if snap then (a_hints a ≫= rce_blocked) ?? 0 else total rce_detections agents;
     totalTarpit := if snap && negb (0 <? total tarpit_active agents) then (a_hints a ≫= l7_blocked) ?? 0
                    else total tarpit_active agents;
     totalK8sKills := kills; totalTlsDecrypted := total (λ a, tls_decrypted a ?? 0) agents;
     etcdPeers := match a_tls a with Some x => tls_etcd_peers x | None => peers end |}.

(** The run ends: the first answer, and the second one where it is asked for. *)
Definition run_end (a : Answers) (kills : option Z) (s : state) : state :=
  match answered a s with
  | (s1, [QK8s m a']) => (on_response (QK8s m a') (AK8s kills) s1).1
  | (s1, _) => s1
  end.

Lemma after_figures agents a s :
  let s' := after_k8s (sums_of agents) a s in
  globalStats s' = shown_figures a agents (totalK8sKills (globalStats s)) (etcdPeers (globalStats s)) ∧
  kpiFromSnapshot s' = snapshot_used a agents ∧ fleet s' = fleet s ∧ epsFromLive s' = epsFromLive s.
Proof.
  unfold after_k8s, last_blocks, snapshot_block, shown_figures, snapshot_used, total, active_agents. unfold sums_of. rewrite sums_app.
  cbn [sm_active sm_eps sm_rce sm_tarpit sm_tls]. rewrite !Z.add_0_l.
  destruct (a_hints a) as [h|]; cbn [mbind option_bind]; [|by destruct (a_tenants a), (a_tls a)].
  destruct (neq_num _ _ && _ && _) eqn:E; cbn [andb]; [|by destruct (a_tenants a), (a_tls a)].
  apply andb_true_iff in E as [[_ E0]%andb_true_iff _]. apply Z.eqb_eq in E0. rewrite E0.
  destruct (0 <? foldr Z.add 0 (map tarpit_active agents)) eqn:E1; cbn [negb andb];
    destruct (a_tenants a), (a_tls a); cbn; rewrite ?E1; done.
Qed.

(** The state a finished run leaves. *)
Lemma run_figures a agents pending kills s : a_fleet a = Some (agents, pending) →
  let s' := run_end a kills s in
  fleet s' = agents ∧ epsFromLive s' = nlt nzero (live_eps a) ∧ kpiFromSnapshot s' = snapshot_used a agents ∧
  globalStats s' = shown_figures a agents
    (if (k8sTick s + 1) mod 5 =? 1 then kills ?? 0 else totalK8sKills (globalStats s)) (etcdPeers (globalStats s)).
Proof.
  intros Hf. unfold run_end, answered. rewrite Hf. cbn zeta. split_if; cbn [on_response fst];
    match goal with |- context [after_k8s _ _ ?x] => pose proof (after_figures agents a x) as (-> & -> & -> & ->) end; done.
Qed.


(** The label hangs on the count of intrusions alone: when the snapshot has only a
    count of tarpits, that count is shown as a live one. *)
Lemma tarpit_unlabelled a agents pending kills s n :
  a_fleet a = Some (agents, pending) → live_eps a = nzero →
  total rce_detections agents = 0 → total tarpit_active agents = 0 →
  a_hints a = Some {| rce_blocked := Some 0; l7_blocked := Some n |} → 0 < n →
  let s' := run_end a kills s in totalTarpit (globalStats s') = n ∧ snapshot_hint s' = false.
Proof.
  intros Hf Hl Hr Ht Hh Hn. destruct (run_figures a agents pending kills s Hf) as (_ & _ & H3 & H4).
  cbn zeta. unfold snapshot_hint. rewrite H3, H4. cbn. unfold snapshot_used. rewrite Hh, Hl, Hr, Ht. cbn.
  apply Z.ltb_lt in Hn as ->. done.
Qed.

(** A failed fleet request keeps the counts on the cards but takes their label away:
    counts of the snapshot are then shown as live ones. *)
Lemma snapshot_label_lost a s : a_fleet a = None → nlt nzero (live_eps a) = true → kpiFromSnapshot s = true →
  let s' := (answered a s).1 in
  totalRce (globalStats s') = totalRce (globalStats s) ∧ kpiFromSnapshot s' = false.
Proof.
  intros Hf Hl Hs. unfold answered. rewrite Hf, Hl. cbn zeta. unfold last_blocks, snapshot_block.
  assert (E : neq_num (live_eps a) nzero = false) by (destruct (live_eps a) as [[]|[]| |[] ? ?]; done).
  destruct (a_hints a); rewrite ?E; cbn [andb]; by destruct (a_tenants a), (a_tls a).
Qed.

(** ** Order, colours, charts *)

(** A total and transitive comparison sorts. *)
Lemma sort_by_strong {A} (le : A → A → bool) l : (∀ a b, le a b = false → le b a = true) →
  (∀ a b c, le a b = true → le b c = true → le a c = true) → StronglySorted (λ a b, le a b = true) (sort_by le l).
Proof.
  intros Ht Htr. induction l as [|x l IH]; [constructor|]. cbn. set (m := sort_by le l) in *. change (foldr (ins_by le) [] l) with m. clearbody m.
  induction IH as [|y m Hm IH Hy]; cbn; [by repeat constructor|]. destruct (le x y) eqn:E.
  - constructor; [by constructor|]. constructor; [done|]. eapply Forall_impl; [exact Hy|]. intros z Hz. by eapply Htr.
  - constructor; [done|]. rewrite ins_by_perm. constructor; [by apply Ht|done].
Qed.
Definition fleet_rank (a : Agent) : Z := (if remote_shadow a then 2 else 0) + (if online a then 0 else 1).
Lemma fleet_le_rank a b : fleet_le a b = true ↔
  fleet_rank a < fleet_rank b ∨ (fleet_rank a = fleet_rank b ∧ last_seen b ≤ last_seen a).
Proof.
  unfold fleet_le, fleet_rank. destruct (remote_shadow a), (remote_shadow b), (online a), (online b); cbn;
    rewrite ?Z.leb_le; split; intros; try done; lia.
Qed.
(** The cards are those of the fleet: local agents before watched hosts, agents
    that are online first, then by the time last seen, the latest first. *)
Lemma fleet_sorted s :
  sortedFleet s ≡ₚ fleet s ∧
  StronglySorted (λ a b, fleet_rank a < fleet_rank b ∨ (fleet_rank a = fleet_rank b ∧ last_seen b ≤ last_seen a)) (sortedFleet s).
Proof.
  split; [apply sort_by_perm|].
  assert (H : StronglySorted (λ a b, fleet_le a b = true) (sortedFleet s)).
  { apply sort_by_strong.
    - intros a b E. apply fleet_le_rank. destruct (decide (fleet_le a b = true)); [congruence|].
      rewrite fleet_le_rank in n. lia.
    - intros a b c. rewrite !fleet_le_rank. lia. }
  induction H as [|a l _ IH Hf]; constructor; [done|]. eapply Forall_impl; [exact Hf|]. intros b. cbn. by rewrite fleet_le_rank.
Qed.

(** Every tenant has a colour. *)
Lemma tenant_color_total i : is_Some (tenantColor i).
Proof. apply lookup_lt_is_Some. apply Nat.mod_upper_bound. done. Qed.
(** The dots of the list do not tell the tenants apart: none of the names that are
    looked for occurs in a colour, so that all dots are the same. *)
Lemma dots_all_rose i c : tenantColor i = Some c → dot_class c = "bg-rose-400".
Proof.
  intros H%list_elem_of_lookup_2. unfold TENANT_COLORS in H. repeat (apply elem_of_cons in H as [->|H]; [by vm_compute|]).
  by apply elem_of_nil in H.
Qed.

Lemma pie_count l k acc :
  assoc k (fold_left (λ acc a, put_field (status_key a) ((assoc (status_key a) acc ?? 0) + 1) acc) l acc) ?? 0 =
  (assoc k acc ?? 0) + Z.of_nat (length (jfilter (λ a, status_key a =s k) l)).
Proof.
  revert acc. induction l as [|a l IH]; intros acc; [cbn; lia|]. cbn [fold_left]. rewrite IH. unfold jfilter. cbn [List.filter].
  destruct (status_key a =s k) eqn:E; bprop.
  - rewrite E, assoc_put_eq. cbn [length default]. unfold id. lia.
  - rewrite assoc_put_ne by done. done.
Qed.
(** The slices of the pie are the numbers of agents that are and are not online. *)
Lemma pie_exact l :
  assoc "Online" (pieData l) ?? 0 = Z.of_nat (length (jfilter online l)) ∧
  assoc "Offline" (pieData l) ?? 0 = Z.of_nat (length (jfilter (λ a, negb (online a)) l)).
Proof.
  unfold pieData. rewrite !pie_count. cbn [assoc default]. rewrite !Z.add_0_l. split; do 2 f_equal; unfold jfilter;
    apply List.filter_ext; intros a; unfold status_key; by destruct (online a).
Qed.

(** ** Which tenant is shown *)

(** Choosing a tenant asks for nothing: the page keeps the fleet of the tenant before
    under the new name until the next poll. *)
Lemma select_waits tn close s :
  let r := on_event (SelectTenant tn close) s in
  r.2 = [] ∧ fleet r.1 = fleet s ∧ selectedTenant r.1 = tn.
Proof. done. Qed.

Section race.
(** A server whose answer depends on the tenant only. *)
Context (srv : jstring → list Agent) (a b : jstring).
Definition answer_of (l : list Agent) : Answers :=
  {| a_fleet := Some (l, 0); a_tenants := None; a_tls := None; a_live := None; a_hints := None |}.
Definition frozen_response (q : Req) (r : Rsp) (s : state) : state * list Req :=
  match q with QAll tn => on_response q (AAll (answer_of (srv tn))) s | _ => on_response q r s end.

(** The first poll is answered at once; two more are answered in the other order,
    with another tenant chosen in between. *)
Definition race_script : list (action Rsp event) :=
  [Do Poll; Answer 0 (AK8s None); Answer 0 (AK8s None); Do (SelectTenant a false); Do Poll;
   Do (SelectTenant b false); Do Poll; Answer 1 (AK8s None); Answer 0 (AK8s None)].

(** The fleet on the page need not be the one of the tenant chosen: the page has no
    way to tell answers apart, and comes to rest on the one that arrives last. *)
Theorem home_race : ∃ c, page_reach on_event frozen_response (Cfg start []) c ∧
  pending c = [] ∧ selectedTenant (current c) = b ∧ fleet (current c) = srv a.
Proof.
  eexists. split; [eapply (play_reach _ _ race_script _ (Cfg start [])); [cbn -[after_k8s sums_of]; reflexivity|apply reach_start]|].
  by cbn -[after_k8s sums_of].
Qed.
End race.

(** ** Examples *)

Module FleetPageDemo.
Definition agent (name : jstring) (on shadow : bool) (rate rce : Z) : Agent :=
  {| agent_id := name; tenant_id := "acme"; eps := num_of_Z rate; total_lines := 0; alerts_total := 0; rce_detections := rce;
     tarpit_active := 0; mesh_peers := 0; unique_ips := 0; tls_decrypted := None; etcd_peers := None; last_seen := 0;
     online := on; remote_shadow := shadow; hostname := None |}.
Definition two : list Agent := [agent "node-a" true false 3 0; agent "vps" true true 9 0].
Definition reply : Answers :=
  {| a_fleet := Some (two, 0); a_tenants := None; a_tls := None; a_live := None;
     a_hints := Some {| rce_blocked := Some 5; l7_blocked := None |} |}.
Definition ended : state := run_end reply (Some 2) start.
End FleetPageDemo.
