(* ===== verification/CopilotPage.v ===== *)
(** The copilot page (dashboard/src/app/copilot/page.tsx): the chat, the approval of
    bans, the side panels; and how messages are drawn
    (components/CopilotMessageBody.tsx). *)

From S2P Require Import Prelude JsMap JsString JsNum Json Http JsValue BanUtils BanExec JsDate Store FleetCommand Fleet FleetProps CopilotText I18n Client CopilotAction.

(** ** Data *)

Inductive Role := User | Assistant.
#[global] Instance Role_eq_dec : EqDecision Role.
Proof. solve_decision. Defined.
Record Message := { role : Role; content : jstring; evidence : option (list (jstring * jstring)); suggested_action : option jstring }.
Definition says (c : jstring) : Message := {| role := Assistant; content := c; evidence := None; suggested_action := None |}.
Definition asks (c : jstring) : Message := {| role := User; content := c; evidence := None; suggested_action := None |}.

Definition QUICK_PROMPTS : list (Lang * list (jstring * jstring)) :=
  [(Ltr, [("copilotSummarize", "Mevcut tehdit özetini çıkar.");
          ("copilotRce", "Son RCE girişimlerini analiz et ve önlem öner.");
          ("copilotExec", "Bugünkü olaylar için yönetici özeti oluştur.")]);
   (Len, [("copilotSummarize", "Summarize the current threat landscape.");
          ("copilotRce", "Analyze the latest RCE attempts and suggest mitigation.");
          ("copilotExec", "Generate an executive summary of today's events.")]);
   (Lde, [("copilotSummarize", "Fasse die aktuelle Bedrohungslage zusammen.");
          ("copilotRce", "Analysiere die letzten RCE-Versuche und schlage Gegenmaßnahmen vor.");
          ("copilotExec", "Erstelle eine Management-Zusammenfassung der heutigen Ereignisse.")]);
   (Lfr, [("copilotSummarize", "Résume le paysage de menaces actuel.");
          ("copilotRce", "Analyse les dernières tentatives RCE et propose des mesures.");
          ("copilotExec", "Génère un résumé exécutif des événements du jour.")]);
   (Lru, [("copilotSummarize", "Сформируй сводку по текущим угрозам.");
          ("copilotRce", "Проанализируй последние попытки RCE и предложи меры.");
          ("copilotExec", "Подготовь исполнительную сводку по сегодняшним событиям.")])].
(** [QUICK_PROMPTS[locale] ?? QUICK_PROMPTS.en ?? []] *)
Definition quick_prompts (l : Lang) : list (jstring * jstring) :=
  match mget l QUICK_PROMPTS with Some p => p | None => mget Len QUICK_PROMPTS ?? [] end.

Record RagStats := { rg_lines : Z; rg_alerts : Z; rg_trees : Z; rg_topRisk : num }.
Record FleetStats := { fs_eps : num; fs_alerts : Z; fs_rce : Z }.
Record state := {
  locale : Lang;
  messages : list Message;
  input : jstring;
  isLoading : bool;
  fleetStats : FleetStats;
  lineageRisk : num;
  pendingBanIp : option jstring;
  actionBusy : bool;
  ragStats : option RagStats;
  llmReachable : option bool;
}.
Definition set_chat (m : list Message) (inp : jstring) (ld : bool) (s : state) : state :=
  {| locale := locale s; messages := m; input := inp; isLoading := ld; fleetStats := fleetStats s; lineageRisk := lineageRisk s;
     pendingBanIp := pendingBanIp s; actionBusy := actionBusy s; ragStats := ragStats s; llmReachable := llmReachable s |}.
Definition set_ban (m : list Message) (p : option jstring) (busy : bool) (s : state) : state :=
  {| locale := locale s; messages := m; input := input s; isLoading := isLoading s; fleetStats := fleetStats s;
     lineageRisk := lineageRisk s; pendingBanIp := p; actionBusy := busy; ragStats := ragStats s; llmReachable := llmReachable s |}.
Definition set_side (f : FleetStats) (risk : num) (rag : option RagStats) (llm : option bool) (s : state) : state :=
  {| locale := locale s; messages := messages s; input := input s; isLoading := isLoading s; fleetStats := f; lineageRisk := risk;
     pendingBanIp := pendingBanIp s; actionBusy := actionBusy s; ragStats := rag; llmReachable := llm |}.
(** The effect on [locale, t]: the conversation starts anew. *)
Definition set_locale (l : Lang) (s : state) : state :=
  {| locale := l; messages := [says (text l "copilotWelcome")]; input := input s; isLoading := isLoading s;
     fleetStats := fleetStats s; lineageRisk := lineageRisk s; pendingBanIp := pendingBanIp s; actionBusy := actionBusy s;
     ragStats := ragStats s; llmReachable := llmReachable s |}.

(** ** Side panels *)

(** One agent of the fleet: rate, alerts, detections; zero where missing. *)
Definition fleet_sum (l : list (num * Z * Z)) : FleetStats :=
  fold_left (λ f a, {| fs_eps := nadd (fs_eps f) a.1.1; fs_alerts := fs_alerts f + a.1.2; fs_rce := fs_rce f + a.2 |}) l
    {| fs_eps := nzero; fs_alerts := 0; fs_rce := 0 |}.
(** The first tree of greatest risk. *)
Definition top_risk (risks : list num) : option num :=
  match risks with
  | [] => None
  | r :: _ => Some (fold_left (λ a b, if nlt a b then b else a) risks r)
  end.
Definition or_zero (x : num) : num := if num_truthy x then x else nzero.
Definition critical (x : num) : bool := nle (num_of_Z 85) x.
Definition context_note (s : state) : jstring :=
  if llmReachable s ?? false then
    if is_lang (locale s) Ltr then "Turkce icin optimize edilmis filo analizi aktif (Ollama kucuk modellerde devre disi)."
    else "Ollama bagli — dogal dil yanitlari aktif."
  else if is_lang (locale s) Ltr then "Filo telemetrisine dayali akilli ozet modu aktif."
  else "Ollama offline — smart fleet telemetry summaries active.".

(** ** Approving a ban *)

Definition approve_body (ip reason : jstring) : json :=
  JObj [("executeNow", JBool true);
        ("action", JObj [("action", JStr "BAN_IP"); ("params", JObj [("ip", JStr ip)]); ("reason", JStr reason)])].
Definition approve_headers : list (jstring * jstring) :=
  [("Content-Type", "application/json"); ("x-user-role", "admin"); ("x-user-tenant", "default")].
(** The message after the answer; throws on [null]. *)
Definition ban_message (l : Lang) (ip : jstring) (data : json) : res jstring :=
  let? done := jget "executedNow" data in
  let applied := otruthy done in
  let? msg := jget "message" data in
  let? err := jget "executionError" data in
  Ok (if is_lang l Len then
        if applied then "IP " ++ ip ++ " ban applied. " ++ ostr msg
        else "Queued OK, immediate ban failed: " ++ str_or err "unknown"
      else if applied then "IP " ++ ip ++ " ban uygulandı. " ++ ostr msg
      else "Kuyruk OK, anında ban başarısız: " ++ str_or err "unknown").

(** ** The chat *)

(** The answer of the copilot route: status, the text and the rest; [None] is a
    failed request or a body that is not JSON. *)
Record Reply := { rp_ok : bool; rp_content : option jstring; rp_evidence : option (list (jstring * jstring)); rp_action : option jstring }.
Inductive Req :=
  | QChat (msg : jstring) (l : Lang)
  | QApprove (ip reason : jstring) (l : Lang)
  | QLlm | QRag | QFleet | QTrees.
Inductive Rsp :=
  | AChat (r : option Reply)
  | AApprove (data : option json)
  | ALlm (ok : option bool) | ARag (r : option RagStats) | AFleet (l : option (list (num * Z * Z))) | ATrees (l : option (list num)).

Definition handleSubmit (customMsg : option jstring) (s : state) : state * list Req :=
  let msg := oor customMsg (input s) in
  if negb (nonempty (trim msg)) || isLoading s then (s, [])
  else (set_chat (messages s ++ [asks msg]) [] true s, [QChat msg (locale s)]).
Definition reply_message (l : Lang) (r : option Reply) : Message :=
  match r with
  | Some r =>
      if rp_ok r then
        {| role := Assistant;
           content := match rp_content r with
                      | Some c => if nonempty (trim c) then c
                                  else if is_lang l Len then "No response received." else "Yanıt alınamadı."
                      | None => if is_lang l Len then "No response received." else "Yanıt alınamadı."
                      end;
           evidence := rp_evidence r; suggested_action := rp_action r |}
      else says (text l "copilotOffline")
  | None => says (text l "copilotOffline")
  end.
Definition AUTO_LINEAGE : jstring := "AUTO_LINEAGE".
(** What the field for the address holds at first. *)
Definition ban_field (s : state) : jstring :=
  match pendingBanIp s with Some p => if p =s AUTO_LINEAGE then [] else p | None => [] end.
Definition approveBan (ip reason : jstring) (s : state) : state * list Req :=
  (set_ban (messages s) (pendingBanIp s) true s, [QApprove ip reason (locale s)]).

Inductive event := SetLang (l : Lang) | Type_ (txt : jstring) | Submit | Quick (txt : jstring)
                 | OpenBan | CancelBan | ClickApprove (field : jstring).
Definition on_event (ev : event) (s : state) : state * list Req :=
  match ev with
  | SetLang l => if is_lang l (locale s) then (s, []) else (set_locale l s, [])
  | Type_ txt => if isLoading s then (s, []) else (set_chat (messages s) txt (isLoading s) s, [])
  | Submit => handleSubmit None s
  | Quick txt => handleSubmit (Some txt) s
  | OpenBan => if actionBusy s || negb (critical (lineageRisk s)) then (s, []) else (set_ban (messages s) (Some AUTO_LINEAGE) (actionBusy s) s, [])
  | CancelBan => (set_ban (messages s) None (actionBusy s) s, [])
  | ClickApprove field =>
      if actionBusy s || bool_decide (pendingBanIp s = None) || negb (nonempty field) then (s, [])
      else approveBan field "Copilot lineage remediation" s
  end.
Definition on_response (q : Req) (r : Rsp) (s : state) : state * list Req :=
  match q, r with
  | QChat _ l, _ =>
      (set_chat (messages s ++ [reply_message l (match r with AChat rp => rp | _ => None end)]) (input s) false s, [])
  | QApprove ip _ l, AApprove data =>
      (match (match data with Some d => ban_message l ip d | None => Throw "network" end) with
       | Ok m => set_ban (messages s ++ [says m]) None false s
       | Throw _ => set_ban (messages s) (pendingBanIp s) false s
       end, [])
  | QLlm, ALlm ok => (set_side (fleetStats s) (lineageRisk s) (ragStats s) (Some (ok ?? false)) s, [])
  | QRag, ARag (Some x) => (set_side (fleetStats s) (lineageRisk s) (Some x) (llmReachable s) s, [])
  | QFleet, AFleet (Some l) => (set_side (fleet_sum l) (lineageRisk s) (ragStats s) (llmReachable s) s, [])
  | QTrees, ATrees (Some l) =>
      (match top_risk l with
       | Some x => set_side (fleetStats s) (or_zero x) (ragStats s) (llmReachable s) s
       | None => s
       end, [])
  | _, _ => (s, [])
  end.
(** After the first effects. *)
Definition mounted (l : Lang) : config state Req :=
  Cfg {| locale := l; messages := [says (text l "copilotWelcome")]; input := []; isLoading := false;
         fleetStats := {| fs_eps := nzero; fs_alerts := 0; fs_rce := 0 |}; lineageRisk := nzero; pendingBanIp := None;
         actionBusy := false; ragStats := None; llmReachable := None |}
      [QLlm; QRag; QFleet; QTrees].

(** ** Drawing a message *)

Definition line_end (c : Z) : bool := (c =? 10) || (c =? 13) || (c =? 8232) || (c =? 8233).
(** After an opening [**]: the text up to the next [**] on the same line, and the rest. *)
Fixpoint close_bold (s : jstring) : option (jstring * jstring) :=
  match s with
  | [] => None
  | c :: t =>
      match c, t with
      | 42, 42 :: r => Some ([], r)
      | _, _ => if line_end c then None
                else match close_bold t with Some (i, r) => Some (c :: i, r) | None => None end
      end
  end.
Definition open_bold (s : jstring) : option (jstring * jstring) :=
  match s with 42 :: 42 :: r => close_bold r | _ => None end.
(** The first match of [/\*\*(.*?)\*\*/]: before, inside, after. *)
Fixpoint find_bold (s : jstring) : option (jstring * jstring * jstring) :=
  match open_bold s with
  | Some (i, r) => Some ([], i, r)
  | None => match s with
            | [] => None
            | c :: t => match find_bold t with Some (b, i, r) => Some (c :: b, i, r) | None => None end
            end
  end.
(** [text.split(/\*\*(.*?)\*\*/g)]: the parts at odd places are bold. *)
Fixpoint split_bold (fuel : nat) (s : jstring) : list jstring :=
  match fuel with
  | O => [s]
  | S fuel => match find_bold s with
              | Some (b, i, r) => b :: i :: split_bold fuel r
              | None => [s]
              end
  end.
Inductive Inline := Plain (s : jstring) | Strong (s : jstring).
Definition renderInline (s : jstring) : list Inline :=
  map (λ p : nat * jstring, if Nat.odd p.1 then Strong p.2 else Plain p.2) (numbered (split_bold (length s) s)).

Inductive Block := Gap | Bullet (l : list Inline) | Numbered (l : list Inline) | Heading (l : list Inline) | Para (l : list Inline).
(** [/^[-•]\s/] and [/^\d+\.\s/] *)
Definition is_bullet (s : jstring) : bool :=
  match s with c :: d :: _ => ((c =? 45) || (c =? 8226)) && is_space d | _ => false end.
Definition is_num (c : Z) : bool := (48 <=? c) && (c <=? 57).
Fixpoint after_digits (s : jstring) : jstring := match s with c :: t => if is_num c then after_digits t else s | [] => [] end.
Definition is_numbered (s : jstring) : bool :=
  match s with
  | c :: _ => is_num c && match after_digits s with 46 :: d :: _ => is_space d | _ => false end
  | [] => false
  end.
Definition block_of (prev : option jstring) (line : jstring) : Block :=
  let t := trim line in
  if negb (nonempty t) then Gap
  else if is_bullet t then Bullet (renderInline (trim_start (drop 1 t)))
  else if is_numbered t then Numbered (renderInline t)
  else if (slen t <? 48) && negb (includes ":" t) && match prev with Some p => negb (nonempty (trim p)) | None => true end
  then Heading (renderInline t)
  else Para (renderInline t).
Fixpoint blocks_from (prev : option jstring) (lines : list jstring) : list Block :=
  match lines with
  | [] => []
  | l :: ls => block_of prev l :: blocks_from (Some l) ls
  end.
Definition CopilotMessageBody (c : jstring) : list Block := blocks_from None (split1 10 c).
(** The bubble of an assistant's message. *)
Definition bubble (m : Message) : list Block := CopilotMessageBody (sor (content m) "…").

(** ** Nothing of a message is lost *)

Lemma close_bold_text s i r : close_bold s = Some (i, r) → s = i ++ "**" ++ r.
Proof.
  revert i. induction s as [|c t IH]; intros i; [done|]. cbn [close_bold].
  assert (Hg : (if line_end c then None else match close_bold t with Some (i, r) => Some (c :: i, r) | None => None end) = Some (i, r) →
    c :: t = i ++ "**" ++ r).
  { split_if; [done|]. destruct (close_bold t) as [[i' r']|] eqn:Et; [|done]. intros [= <- <-]. cbn. f_equal. by apply IH. }
  destruct (decide (c = 42)) as [->|Hc].
  - destruct t as [|d t']; [exact Hg|]. destruct (decide (d = 42)) as [->|Hd]; [by intros [= <- <-]|].
    intros H. apply Hg. rewrite <- H. destruct d as [|p|p]; try done. do 6 (destruct p as [p|p|]; try done).
  - intros H. apply Hg. rewrite <- H. destruct c as [|p|p]; try done. do 6 (destruct p as [p|p|]; try done).
Qed.
Lemma open_bold_text s i r : open_bold s = Some (i, r) → s = "**" ++ i ++ "**" ++ r.
Proof.
  intros H. assert (Hs : ∃ t, s = 42 :: 42 :: t ∧ close_bold t = Some (i, r)).
  { unfold open_bold in H. destruct s as [|c s]; [done|].
    destruct c as [|p|p]; try done; do 6 (destruct p as [p|p|]; try done);
    destruct s as [|d s]; try done; destruct d as [|p|p]; try done; do 6 (destruct p as [p|p|]; try done); eauto. }
  destruct Hs as (t & -> & Ht). apply close_bold_text in Ht as ->. done.
Qed.
Lemma find_bold_text s b i r : find_bold s = Some (b, i, r) → s = b ++ "**" ++ i ++ "**" ++ r.
Proof.
  revert b. induction s as [|c t IH]; intros b; cbn [find_bold]; [done|].
  destruct (open_bold (c :: t)) as [[i' r']|] eqn:E.
  - intros [= <- <- <-]. by apply open_bold_text in E.
  - destruct (find_bold t) as [[[b' i'] r']|]; [|done]. intros [= <- <- <-]. cbn. f_equal. by apply IH.
Qed.
Definition inline_text (x : Inline) : jstring := match x with Plain s => s | Strong s => "**" ++ s ++ "**" end.
(** The parts put together again, [odd] telling whether the first is bold. *)
Fixpoint parts_text (odd : bool) (l : list jstring) : jstring :=
  match l with
  | [] => []
  | x :: l => (if odd then "**" ++ x ++ "**" else x) ++ parts_text (negb odd) l
  end.
Lemma split_bold_text fuel s : parts_text false (split_bold fuel s) = s.
Proof.
  revert s. induction fuel as [|fuel IH]; intros s; cbn [split_bold]; [cbn; by rewrite app_nil_r|].
  destruct (find_bold s) as [[[b i] r]|] eqn:E; [|cbn; by rewrite app_nil_r].
  apply find_bold_text in E as ->. cbn [parts_text negb]. rewrite IH. by rewrite <- !app_assoc.
Qed.
Lemma parts_inline k l :
  concat (map inline_text (map (λ p : nat * jstring, if Nat.odd p.1 then Strong p.2 else Plain p.2) (zip (seq k (length l)) l))) =
  parts_text (Nat.odd k) l.
Proof.
  revert k. induction l as [|x l IH]; intros k; [done|]. cbn [length seq zip_with map concat parts_text fst snd].
  rewrite IH. rewrite Nat.odd_succ, <- Nat.negb_odd. f_equal. by destruct (Nat.odd k).
Qed.
(** Enough fuel: after the last part there is no bold text left. *)
Lemma split_bold_done fuel s : (length s <= fuel)%nat → ∃ l x, split_bold fuel s = l ++ [x] ∧ find_bold x = None.
Proof.
  revert s. induction fuel as [|fuel IH]; intros s Hs; cbn [split_bold].
  - destruct s; [|cbn in Hs; lia]. by exists [], [].
  - destruct (find_bold s) as [[[b i] r]|] eqn:E; [|by exists [], s].
    apply find_bold_text in E as ->. rewrite !length_app in Hs. cbn in Hs.
    destruct (IH r) as (l & x & -> & Hx); [lia|]. by exists (b :: i :: l), x.
Qed.

(** Drawing a line keeps its text: the plain and the bold parts, the latter between
    their marks, are the line again, and every complete pair of marks is bold. *)
Theorem inline_lossless s :
  concat (map inline_text (renderInline s)) = s ∧
  ∃ l x, split_bold (length s) s = l ++ [x] ∧ find_bold x = None.
Proof.
  split; [|by apply split_bold_done]. unfold renderInline, numbered. rewrite parts_inline. apply split_bold_text.
Qed.

(** ** One question at a time *)

Definition is_chat (q : Req) : bool := match q with QChat _ _ => true | _ => false end.
Definition chats (c : config state Req) : nat := length (jfilter is_chat (pending c)).
Definition last_role (s : state) : option Role := role <$> last (messages s).
Definition chat_inv (c : config state Req) : Prop :=
  chats c = (if isLoading (current c) then 1 else 0)%nat ∧
  (isLoading (current c) = false → last_role (current c) = Some Assistant).

Lemma jfilter_delete {A} (p : A → bool) l i x : l !! i = Some x →
  (length (jfilter p (delete i l)) + (if p x then 1 else 0) = length (jfilter p l))%nat.
Proof.
  intros H. pose proof (delete_Permutation _ _ _ H) as Hp. apply (jfilter_perm p), Permutation_length in Hp. rewrite Hp.
  unfold jfilter. cbn [List.filter]. destruct (p x); cbn [length]; lia.
Qed.
Lemma last_role_snoc l m s inp b : last_role (set_chat (l ++ [m]) inp b s) = Some (role m).
Proof. unfold last_role. cbn. by rewrite last_snoc. Qed.
Lemma reply_role l r : role (reply_message l r) = Assistant.
Proof. unfold reply_message. destruct r as [r|]; [|done]. by destruct (rp_ok r). Qed.

Ltac split_in H := match type of H with context [if ?b then _ else _] => destruct b eqn:? end.
Lemma chat_event ev c s reqs : chat_inv c → on_event ev (current c) = (s, reqs) → chat_inv (Cfg s (pending c ++ reqs)).
Proof.
  intros [Hc Hl] He. unfold chat_inv, chats in *. cbn [current pending].
  assert (Hn : reqs = [] → isLoading s = isLoading (current c) → (isLoading s = false → last_role s = Some Assistant) →
    length (jfilter is_chat (pending c ++ reqs)) = (if isLoading s then 1 else 0)%nat ∧
    (isLoading s = false → last_role s = Some Assistant)) by (intros -> ->; by rewrite app_nil_r).
  assert (Hsub : ∀ m, handleSubmit m (current c) = (s, reqs) →
    length (jfilter is_chat (pending c ++ reqs)) = (if isLoading s then 1 else 0)%nat ∧
    (isLoading s = false → last_role s = Some Assistant)).
  { intros m. unfold handleSubmit. destruct (isLoading (current c)) eqn:Ei.
    - rewrite orb_true_r. intros [= <- <-]. rewrite Ei, app_nil_r. done.
    - rewrite orb_false_r. split_if; intros [= <- <-]; [rewrite Ei, app_nil_r; auto|].
      cbn [isLoading set_chat]. unfold jfilter in *. rewrite List.filter_app, length_app, Hc. done. }
  destruct ev as [l|txt| |txt| | |field]; cbn [on_event] in He; try by eapply Hsub.
  - split_in He; injection He as <- <-; apply Hn; (done || (intros; congruence) || (intros; by apply Hl)).
  - split_in He; injection He as <- <-; apply Hn; (done || (intros; congruence) || (intros; by apply Hl)).
  - split_in He; injection He as <- <-; apply Hn; (done || (intros; congruence) || (intros; by apply Hl)).
  - injection He as <- <-; apply Hn; (done || (intros; congruence) || (intros; by apply Hl)).
  - split_in He; [injection He as <- <-; apply Hn; (done || (intros; congruence) || (intros; by apply Hl))|]. injection He as <- <-. cbn [isLoading set_ban].
    unfold jfilter in *. rewrite List.filter_app, length_app, Hc. cbn. rewrite Nat.add_0_r. done.
Qed.
Lemma chat_response c i q r s reqs : chat_inv c → pending c !! i = Some q → on_response q r (current c) = (s, reqs) →
  chat_inv (Cfg s (delete i (pending c) ++ reqs)).
Proof.
  intros [Hc Hl] Hi Hr. unfold chat_inv, chats in *. cbn [current pending]. pose proof (jfilter_delete is_chat _ _ _ Hi) as Hd.
  assert (Hn : is_chat q = false → reqs = [] → isLoading s = isLoading (current c) →
      (messages s = messages (current c) ∨ ∃ m, messages s = messages (current c) ++ [says m]) →
    length (jfilter is_chat (delete i (pending c) ++ reqs)) = (if isLoading s then 1 else 0)%nat ∧
    (isLoading s = false → last_role s = Some Assistant)).
  { intros Hq -> -> Hm. rewrite Hq in Hd. rewrite app_nil_r. split; [lia|]. intros E%Hl. unfold last_role in *.
    destruct Hm as [->|(m & ->)]; [done|]. by rewrite last_snoc. }
  destruct q; cbn [on_response] in Hr.
  - injection Hr as <- <-. cbn [is_chat] in Hd. rewrite app_nil_r. cbn [isLoading set_chat]. split.
    + destruct (isLoading (current c)); lia.
    + intros _. by rewrite last_role_snoc, reply_role.
  - destruct r; try (injection Hr as <- <-; apply Hn; eauto; done).
    destruct (match data with Some d => _ | None => _ end); injection Hr as <- <-; apply Hn; cbn; eauto.
  - destruct r; injection Hr as <- <-; apply Hn; eauto.
  - destruct r as [| | |[x|]| |]; injection Hr as <- <-; apply Hn; eauto.
  - destruct r as [| | | |[x|]|]; injection Hr as <- <-; apply Hn; eauto.
  - destruct r as [| | | | |[x|]]; try (injection Hr as <- <-; apply Hn; eauto; done).
    destruct (top_risk x); injection Hr as <- <-; apply Hn; eauto.
Qed.

(** C28. However slow the answers and whatever else is pressed: at most one question is
    being answered, the page says so exactly then, and otherwise the last word is
    never the user's: no question stays without an answer or the notice that the
    copilot is offline. *)
Theorem chat_answers_every_question l c : page_reach on_event on_response (mounted l) c →
  chats c = (if isLoading (current c) then 1 else 0)%nat ∧
  (isLoading (current c) = false → last_role (current c) = Some Assistant).
Proof.
  apply (page_invariant _ _ chat_inv).
  - done.
  - intros. by eapply chat_event.
  - intros. by eapply chat_response.
Qed.

(** ** Approving a ban without the right to *)

Section refused.
Context (hmac_hex : jstring → jstring → jstring) (e : env).
Context (post : jstring → headers → res (Z * option json)) (execFile : jstring → list jstring → res (jstring * jstring)).
Context {Tc : Type} `{!Table Tc AgentCommand FleetCommand.c_id}.

(** Browser and server together: the session gate replaces the role the page claims;
    for a user who is not an administrator the route refuses the ban, stores no
    command and calls nobody, but the page does not look at the status and reports
    that the ban was queued. *)
Theorem refused_ban_said_queued id now r ip reason l (s : @fleet_state Tc) :
  rq_json r = Some (approve_body ip reason) → header "x-user-tenant" r ≠ None → header "x-user-tenant" r ≠ Some ([] : jstring) →
  header "x-user-role" r ≠ Some ("admin" : jstring) →
  ∃ resp data, action_POST hmac_hex e post execFile id now r s = (Ok resp, s) ∧ rs_status resp = 403 ∧
    body_json resp = Some data ∧
    ban_message l ip data = Ok (if is_lang l Len then "Queued OK, immediate ban failed: unknown"
                                else "Kuyruk OK, anında ban başarısız: unknown").
Proof.
  intros Hj Ht1 Ht2 Hr. unfold action_POST, catch, mbind', ofo, lift_res, mret'. rewrite Hj, role_not_admin by done.
  assert (Hn : nonempty (oor (header "x-user-tenant" r) []) = true) by (destruct (header "x-user-tenant" r) as [[|c h]|]; [by destruct Ht2|done|by destruct Ht1]).
  rewrite Hn. cbn -[error]. eexists _, _. split; [reflexivity|]. split; [done|]. split; [done|]. unfold ban_message. destruct (is_lang l Len); by vm_compute.
Qed.
End refused.

(** ** Examples *)

Module CopilotPageDemo.
(** The request as the route sees it, behind the session gate. *)
Definition asked : request :=
  mk_request "/api/copilot/action" [("x-user-role", "user"); ("x-user-tenant", "acme")] [] [] (Some (approve_body "45.9.1.7" "why")).
#[local] Instance commands_table : Table (list AgentCommand) AgentCommand FleetCommand.c_id := list_table FleetCommand.c_id.
Lemma refused_ban_said_queued_witness :
  ∃ resp data, action_POST FleetDemo.hmac (env_of []) FleetDemo.nopost FleetDemo.noexec "7" 30 asked FleetDemo.s0 = (Ok resp, FleetDemo.s0) ∧
    rs_status resp = 403 ∧ body_json resp = Some data ∧
    ban_message Len "45.9.1.7" data = Ok "Queued OK, immediate ban failed: unknown".
Proof.
  apply (refused_ban_said_queued FleetDemo.hmac (env_of []) FleetDemo.nopost FleetDemo.noexec "7" 30 asked "45.9.1.7" "why" Len FleetDemo.s0);
    [reflexivity|done|done|done].
Defined.

(** A question, another language, the answer. *)
Definition talk : list (action Rsp event) :=
  [Do (Type_ "status?"); Do Submit; Do Submit; Do (SetLang Lde); Answer 4 (AChat None)].
Definition talked : config state Req := default (mounted Len) (play on_event on_response talk (mounted Len)).
Lemma talk_played : play on_event on_response talk (mounted Len) = Some talked.
Proof. by vm_compute. Qed.
Lemma chat_answers_every_question_witness :
  (chats talked = (if isLoading (current talked) then 1 else 0)%nat ∧
   (isLoading (current talked) = false → last_role (current talked) = Some Assistant)) ∧ chats talked = 0%nat.
Proof.
  split; [|by vm_compute]. apply (chat_answers_every_question Len).
  exact (play_reach _ _ talk _ _ _ talk_played (reach_start _ _ _)).
Defined.
Example reply_drawn : CopilotMessageBody ("Summary" ++ [10] ++ "- **two** hosts") =
  [Heading [Plain "Summary"]; Bullet [Plain []; Strong "two"; Plain " hosts"]].
Proof. by vm_compute. Qed.
End CopilotPageDemo.
