(* ===== verification/OpsPages.v ===== *)
(** Command dispatch (dashboard/src/app/fleet/dispatch/page.tsx), the strip and the
    tabs of the operator gates (components/OpsGatesStrip.tsx, OperatorGatesTabs.tsx)
    and the live curves (components/OpsMetricsCharts.tsx). *)

From S2P Require Import Prelude JsMap JsString JsNum Json Http JsValue CopilotText I18n Client GrafanaPanel CopilotPage.

(** ** Dispatching commands *)

Module Dispatch.
Record Agent := { agent_id : jstring; tenant_id : jstring; tenant_name : option jstring; status : jstring; remote_shadow : bool }.
Record Command := { cmd_id : jstring; commandType : jstring; payload : jstring; targetAgentId : option jstring; executed : bool }.
Record state := {
  agents : list Agent;
  commands : list Command;
  loading : bool;
  selectedAgent : jstring;
  cmdType : jstring;
  cmdPayload : jstring;
  submitting : bool;
  error : jstring;
  success : jstring;
}.
Definition start : state :=
  {| agents := []; commands := []; loading := true; selectedAgent := "ALL"; cmdType := "BAN_IP"; cmdPayload := [];
     submitting := false; error := []; success := [] |}.
Definition set_lists (a : list Agent) (c : list Command) (ld : bool) (e : jstring) (s : state) : state :=
  {| agents := a; commands := c; loading := ld; selectedAgent := selectedAgent s; cmdType := cmdType s; cmdPayload := cmdPayload s;
     submitting := submitting s; error := e; success := success s |}.
Definition set_form (ag ty p : jstring) (s : state) : state :=
  {| agents := agents s; commands := commands s; loading := loading s; selectedAgent := ag; cmdType := ty; cmdPayload := p;
     submitting := submitting s; error := error s; success := success s |}.
Definition set_send (p : jstring) (sub : bool) (e ok : jstring) (s : state) : state :=
  {| agents := agents s; commands := commands s; loading := loading s; selectedAgent := selectedAgent s; cmdType := cmdType s;
     cmdPayload := p; submitting := sub; error := e; success := ok |}.

Definition COMMAND_TYPES : list jstring := ["BAN_IP"; "PUSH_WAF_RULE"; "PUSH_THREAT_FEED"; "PUSH_CONFIG"; "UNBAN_IP"].
Definition is_online (a : Agent) : bool := (status a =s "Online") && negb (remote_shadow a).
Definition online (s : state) : Z := Z.of_nat (length (jfilter is_online (agents s))).
Definition dispatchableAgents (s : state) : list Agent := jfilter (λ a, negb (remote_shadow a)) (agents s).
Definition shadowAgents (s : state) : list Agent := jfilter remote_shadow (agents s).
(** The entries of the list of targets. *)
Definition options (s : state) : list jstring := "ALL" :: map agent_id (dispatchableAgents s).
Definition send_disabled (s : state) : bool :=
  submitting s || negb (nonempty (cmdPayload s)) || bool_decide (dispatchableAgents s = []).

Record Body := { b_type : jstring; b_payload : jstring; b_target : option jstring }.
Definition body_of (s : state) : Body :=
  {| b_type := cmdType s; b_payload := cmdPayload s;
     b_target := if selectedAgent s =s "ALL" then None else Some (selectedAgent s) |}.
(** [refresh] waits for both answers; each is missing when its status is not a good
    one, and [None] as a whole when a request fails. *)
Inductive Req := QRefresh | QSend (b : Body).
Record Reply := { immediate : option (bool * option jstring); message : option jstring }.
Inductive Rsp :=
  | ARefresh (r : option (option (list Agent) * option (list Command)))
  | ASend (r : option Reply).               (* [None]: failed, or a bad status *)

Definition refresh (s : state) : state * list Req := (s, [QRefresh]).
Definition refreshed (r : option (option (list Agent) * option (list Command))) (s : state) : state :=
  match r with
  | Some (fleet, cmds) =>
      let '(a, e) := match fleet with Some a => (a, []) | None => (agents s, "Fleet API — oturum gerekli (/login)") end in
      set_lists a (cmds ?? commands s) false e s
  | None => set_lists (agents s) (commands s) false "Baglanti hatasi" s
  end.
Definition handleSendCommand (s : state) : state * list Req :=
  if nonempty (cmdPayload s) then (set_send (cmdPayload s) true (error s) [] s, [QSend (body_of s)]) else (s, []).
Definition success_text (r : Reply) : jstring :=
  match immediate r with
  | Some (true, m) => m ?? []
  | _ => oor (message r) "Komut gönderildi"
  end.
Inductive event := Tick | Pick (ag : jstring) | PickType (ty : jstring) | Type_ (txt : jstring) | Submit | SuccessExpire.
Definition on_event (ev : event) (s : state) : state * list Req :=
  match ev with
  | Tick => refresh s
  | Pick ag => if bool_decide (ag ∈ options s) then (set_form ag (cmdType s) (cmdPayload s) s, []) else (s, [])
  | PickType ty => if bool_decide (ty ∈ COMMAND_TYPES) then (set_form (selectedAgent s) ty (cmdPayload s) s, []) else (s, [])
  | Type_ txt => (set_form (selectedAgent s) (cmdType s) txt s, [])
  | Submit => if send_disabled s then (s, []) else handleSendCommand s
  | SuccessExpire => (set_send (cmdPayload s) (submitting s) (error s) [] s, [])
  end.
Definition on_response (q : Req) (r : Rsp) (s : state) : state * list Req :=
  match q, r with
  | QRefresh, ARefresh x => (refreshed x s, [])
  | QRefresh, _ => (refreshed None s, [])
  | QSend _, ASend (Some x) => refresh (set_send [] false [] (success_text x) s)
  | QSend _, _ => (set_send (cmdPayload s) false "Komut gonderilemedi" (success s) s, [])
  end.

Definition is_send (q : Req) : bool := match q with QSend _ => true | QRefresh => false end.
Definition sends (c : config state Req) : nat := length (jfilter is_send (pending c)).
(** What may be sent: a listed type, a text, and a target that was on the list. *)
Definition send_ok (q : Req) : Prop :=
  match q with QSend b => b_type b ∈ COMMAND_TYPES ∧ b_payload b ≠ [] ∧ b_target b ≠ Some ("ALL" : jstring) | QRefresh => True end.
Definition dispatch_inv (c : config state Req) : Prop :=
  sends c = (if submitting (current c) then 1 else 0)%nat ∧ Forall send_ok (pending c) ∧ cmdType (current c) ∈ COMMAND_TYPES.

Lemma dispatch_event ev c s reqs : dispatch_inv c → on_event ev (current c) = (s, reqs) → dispatch_inv (Cfg s (pending c ++ reqs)).
Proof.
  intros (Hs & Hf & Ht) He. unfold dispatch_inv, sends in *. cbn [current pending].
  assert (Hn : is_send <$> reqs = [] ∨ is_send <$> reqs = [false] → Forall send_ok reqs →
      submitting s = submitting (current c) → cmdType s ∈ COMMAND_TYPES →
    length (jfilter is_send (pending c ++ reqs)) = (if submitting s then 1 else 0)%nat ∧
    Forall send_ok (pending c ++ reqs) ∧ cmdType s ∈ COMMAND_TYPES).
  { intros Hr Hok -> ?. unfold jfilter in *. rewrite List.filter_app, length_app, Hs. split; [|split; [by apply Forall_app|done]].
    destruct reqs as [|q [|q' l]]; cbn in *; [lia| |naive_solver]. destruct Hr as [?|Hr]; [done|]. injection Hr as ->. cbn. lia. }
  destruct ev as [|ag|ty|txt| |]; cbn [on_event] in He.
  - injection He as <- <-. apply Hn; [by right|by repeat constructor|done|done].
  - split_in He; injection He as <- <-; (apply Hn; [by left|constructor|done|done]).
  - split_in He; injection He as <- <-; (apply Hn; [by left|constructor|done|]); [by bprop|done].
  - injection He as <- <-. apply Hn; [by left|constructor|done|done].
  - unfold send_disabled, handleSendCommand in He. destruct (submitting (current c)) eqn:Es; cbn [orb] in He.
    { injection He as <- <-. apply Hn; [by left|constructor|done|done]. }
    destruct (nonempty (cmdPayload (current c))) eqn:Ep; cbn [negb orb] in He; bprop.
    2:{ injection He as <- <-. apply Hn; [by left|constructor|done|done]. }
    split_in He; injection He as <- <-; [apply Hn; [by left|constructor|done|done]|].
    cbn [submitting set_send cmdType]. unfold jfilter in *. rewrite List.filter_app, length_app, Hs.
    split; [done|]. split; [|done]. apply Forall_app. split; [done|]. constructor; [|constructor]. cbn. split; [done|]. split; [done|].
    split_if; [done|]. bprop. intros [= Ea]. done.
  - injection He as <- <-. apply Hn; [by left|constructor|done|done].
Qed.
Lemma dispatch_response c i q r s reqs : dispatch_inv c → pending c !! i = Some q → on_response q r (current c) = (s, reqs) →
  dispatch_inv (Cfg s (delete i (pending c) ++ reqs)).
Proof.
  intros (Hs & Hf & Ht) Hi Hr. unfold dispatch_inv, sends in *. cbn [current pending]. pose proof (jfilter_delete is_send _ _ _ Hi) as Hd.
  assert (Hfd : Forall send_ok (delete i (pending c))) by (rewrite Forall_forall in *; intros x Hx; by eapply Hf, delete_sub).
  assert (Hend : ∀ x, refreshed x (current c) = s → reqs = [] → is_send q = false →
    length (jfilter is_send (delete i (pending c) ++ reqs)) = (if submitting s then 1 else 0)%nat ∧
    Forall send_ok (delete i (pending c) ++ reqs) ∧ cmdType s ∈ COMMAND_TYPES).
  { intros x <- -> Hq. rewrite app_nil_r. rewrite Hq in Hd. unfold refreshed. destruct x as [[[a|] k]|]; cbn; split_and!; try done; lia. }
  destruct q as [|b]; cbn [on_response] in Hr.
  - destruct r as [x|x]; injection Hr as <- <-; [by apply (Hend x)|by apply (Hend None)].
  - cbn [is_send] in Hd.
    assert (Hz : length (jfilter is_send (delete i (pending c))) = 0%nat) by (destruct (submitting (current c)); lia).
    destruct r as [x|[x|]]; injection Hr as <- <-; cbn [submitting set_send cmdType]; unfold jfilter in *;
      rewrite List.filter_app, length_app, Hz; (split; [done|]); (split; [apply Forall_app; split; [done|by repeat constructor]|done]).
Qed.

(** One command at a time: however the answers and the automatic refreshes
    interleave, at most one command is on its way, the form is blocked exactly while
    one is, and what is sent has a known type, a text, and one agent or the whole
    fleet as its target. *)
Theorem dispatch_one_at_a_time c : page_reach on_event on_response (Cfg start [QRefresh]) c →
  sends c = (if submitting (current c) then 1 else 0)%nat ∧ Forall send_ok (pending c).
Proof.
  intros H. assert (Hi : dispatch_inv c).
  { revert H. apply (page_invariant _ _ dispatch_inv).
    - split; [done|]. split; [by repeat constructor|]. cbn. by apply elem_of_cons; left.
    - intros. by eapply dispatch_event.
    - intros. by eapply dispatch_response. }
  by destruct Hi as (? & ? & _).
Qed.

(** A ban that could not be carried out is announced like a success: the message of
    the failure appears in the green box, and no error is shown. *)
Lemma failed_ban_in_green b m msg s :
  let s' := (on_response (QSend b) (ASend (Some {| immediate := Some (false, m); message := Some msg |})) s).1 in
  error s' = [] ∧ (msg ≠ [] → success s' = msg).
Proof. split; [done|]. by destruct msg. Qed.
(** An agent that calls itself ALL cannot be chosen: the command goes to all. *)
Lemma agent_named_all s : selectedAgent s = "ALL" → b_target (body_of s) = None.
Proof. intros H. unfold body_of. by rewrite H. Qed.
End Dispatch.

(** ** Operator gates: strip and tabs *)

Module Gates.
(** [null] and a missing gate are [None]; [pass] may be missing too. *)
Record Gate := { pass : option bool; proof : option jstring }.
Record Summary := {
  morning : option Gate;
  fleet : option Gate;                 (* [proof] is its [online] text *)
  vps : option Gate;
  vps_hands_off : bool;
  e9 : option Gate;
  relay_lan : option (option bool);
  smoke : option (option bool * option num * option num);   (* pass, peak_eps, derived_eps *)
}.
Record LiveMetrics := { reachable : bool; eps : option num; eps_peak : option num }.

(** components/OpsGatesStrip.tsx *)
Definition live_rate (m : LiveMetrics) : option num :=
  if reachable m && positive_num (eps m ?? nzero) then Some (eps m ?? nzero)
  else if reachable m && positive_num (eps_peak m ?? nzero) then Some (eps_peak m ?? nzero)
  else None.
Record Strip := { data : option Summary; liveEps : option num }.
(** The first load and the timer do the same with their two answers; [None] where
    the status is not a good one, both [None] when a request fails. *)
Definition strip_loaded (gates : option Summary) (live : option LiveMetrics) (s : Strip) : Strip :=
  {| data := match gates with Some g => Some g | None => data s end;
     liveEps := match live with Some m => live_rate m | None => liveEps s end |}.
Definition pill_class (ok : option bool) : jstring :=
  match ok with
  | Some true => "border-emerald-500/35 text-emerald-300/90 bg-emerald-500/10"
  | Some false => "border-amber-500/35 text-amber-200/90 bg-amber-500/10"
  | None => "border-white/10 text-white/45 bg-white/5"
  end.
Definition with_note (base : jstring) (note : option jstring) : jstring :=
  match truthy_str note with Some n => base ++ " " ++ n | None => base end.
Definition is_live (s : Strip) : bool := match liveEps s with Some x => positive_num x | None => false end.
Definition epsLabel (l : Lang) (s : Strip) (d : Summary) : jstring :=
  let peak := (smoke d ≫= λ x, x.1.2) ?? nzero in
  let derived := smoke d ≫= snd in
  let live := liveEps s ?? nzero in
  if is_live s then
    if nlt (nadd live n05) peak
    then replace_first "{peak}" (toFixed 1 peak) (replace_first "{live}" (toFixed 1 live) (text l "opsStripEpsLivePeak"))
    else text l "opsStripEps" ++ " " ++ toFixed 1 live
  else if positive_num peak then text l "opsStripEpsSmoke" ++ " " ++ toFixed 1 peak
  else if positive_num (derived ?? nzero) then text l "opsStripEpsSmoke" ++ " ~" ++ toFixed 1 (derived ?? nzero)
  else text l "opsStripEps".
(** The pills: state, label, link. *)
Definition pills (l : Lang) (s : Strip) : list (option bool * jstring * jstring) :=
  match data s with
  | None => []
  | Some d =>
      [(morning d ≫= pass, with_note (text l "opsStripMorning") (morning d ≫= proof), "#operator-gates-morning");
       (fleet d ≫= pass, with_note (text l "opsStripFleet") (fleet d ≫= proof), "#operator-gates-fleet");
       (vps d ≫= pass, if vps_hands_off d then text l "opsStripVpsHandsOff" else text l "opsStripVps", "#operator-gates-vps");
       (e9 d ≫= pass, with_note (text l "opsStripE9") (e9 d ≫= proof), "#operator-gates-e9")] ++
      match relay_lan d with
      | Some ok => [(ok, text l "opsStripRelay", "/tests#test-edge-protection-gate")]
      | None => []
      end ++
      [(if is_live s then Some true else smoke d ≫= λ x, x.1.1, epsLabel l s d, "#live-ops-metrics")]
  end.

(** components/OperatorGatesTabs.tsx *)
Inductive Tab := TMorning | TFleet | TVps | TE9.
#[global] Instance Tab_eq_dec : EqDecision Tab.
Proof. solve_decision. Defined.
Definition tab_name (t : Tab) : jstring := match t with TMorning => "morning" | TFleet => "fleet" | TVps => "vps" | TE9 => "e9" end.
Record Tabs := { tab : Tab; summary : option Summary; hash : jstring }.
(** [hash.replace("#", "")] *)
Definition applyHash (s : Tabs) : Tabs :=
  let h := replace_first "#" [] (hash s) in
  let set t := {| tab := t; summary := summary s; hash := hash s |} in
  if h =s "operator-gates-morning" then set TMorning
  else if h =s "operator-gates-fleet" then set TFleet
  else if h =s "operator-gates-vps" then set TVps
  else if h =s "operator-gates-e9" then set TE9
  else if h =s "operator-gates" then set TMorning
  else s.
Definition failing (g : option Gate) : bool := bool_decide ((g ≫= pass) = Some false).
Definition first_failing (d : Summary) : option Tab :=
  if failing (morning d) then Some TMorning
  else if failing (fleet d) then Some TFleet
  else if failing (vps d) then Some TVps
  else if failing (e9 d) then Some TE9
  else None.
Definition summary_loaded (d : Summary) (s : Tabs) : Tabs :=
  {| tab := first_failing d ?? tab s; summary := Some d; hash := hash s |}.
Definition click_tab (t : Tab) (s : Tabs) : Tabs := {| tab := t; summary := summary s; hash := "#operator-gates-" ++ tab_name t |}.
Definition tabs (l : Lang) (s : Tabs) : list (Tab * jstring * option bool * option jstring) :=
  let g f := summary s ≫= f in
  let hands_off := match summary s with Some d => vps_hands_off d | None => false end in
  [(TMorning, text l "opsTabMorning", g morning ≫= pass, g morning ≫= proof);
   (TFleet, text l "opsTabFleet", g fleet ≫= pass, g fleet ≫= proof);
   (TVps, if hands_off then text l "opsTabVpsLive" else text l "opsTabVps", g vps ≫= pass, if hands_off then Some "72h" else g vps ≫= proof);
   (TE9, text l "opsTabE9", g e9 ≫= pass, g e9 ≫= proof)].

(** The link of a tab opens it again. *)
Lemma tab_link t s : tab (applyHash (click_tab t s)) = t.
Proof. by destruct t. Qed.
(** The summary takes over: with a failing gate its tab is shown whatever link was
    followed or tab chosen before, while the address keeps naming the other one. *)
Lemma summary_overrides d t s : failing (morning d) = true → t ≠ TMorning →
  let s' := summary_loaded d (click_tab t s) in tab s' = TMorning ∧ tab (applyHash s') = t.
Proof. intros Hf Ht. cbn. unfold first_failing. rewrite Hf. split; [done|]. by destruct t. Qed.
(** Without a failing gate the choice stays. *)
Lemma summary_keeps d s : first_failing d = None → tab (summary_loaded d s) = tab s.
Proof. intros H. cbn. by rewrite H. Qed.
End Gates.

(** ** Live curves (components/OpsMetricsCharts.tsx) *)

Module LiveCurves.
Record Snap := { t : jstring; eps : num; lines : num; alerts : num; bans : num; uniqueIps : num; parseErr : num; xdp : num }.
Definition MAX_POINTS : nat := 36.
(** [Number(raw.k) || 0] *)
Definition num_field (k : jstring) (raw : json) : num :=
  let x := to_num (jopt k (Some raw)) in if num_truthy x then x else nzero.
Definition pushPoint (clock : jstring) (prev : list Snap) (raw : json) : list Snap :=
  let out := prev ++ [{| t := clock; eps := num_field "eps" raw; lines := num_field "lines_total" raw;
                         alerts := num_field "alerts_total" raw; bans := num_field "bans_success" raw;
                         uniqueIps := num_field "unique_ips" raw; parseErr := num_field "parse_errors" raw;
                         xdp := num_field "xdp_active" raw |}] in
  if (MAX_POINTS <? length out)%nat then last_n MAX_POINTS out else out.
Record state := { series : list Snap; live : option json; reachable : bool }.
Definition start : state := {| series := []; live := None; reachable := true |}.
(** The end of [poll]; [None] is a failed request, and so is the document [null]. *)
Definition polled (clock : jstring) (reply : option json) (s : state) : state :=
  match reply with
  | Some JNull => {| series := series s; live := Some JNull; reachable := false |}
  | Some d =>
      let ok := otruthy (jopt "reachable" (Some d)) in
      {| series := if ok then pushPoint clock (series s) d else series s; live := Some d; reachable := ok |}
  | None => {| series := series s; live := live s; reachable := false |}
  end.
Definition barNow (s : state) : list (jstring * num) :=
  match last (series s) with
  | Some p => [("EPS", eps p); ("Alerts", alerts p); ("Bans", bans p); ("IPs", uniqueIps p); ("ParseErr", parseErr p)]
  | None => []
  end.

(** The curve never has more than 36 points, and never a value that is not a number. *)
Lemma num_field_number k raw : is_nan (num_field k raw) = false.
Proof. unfold num_field. destruct (to_num _) as [[]|[]| |[] ? ?]; done. Qed.
Lemma curve_bound replies : (length (series (fold_left (λ s r, polled r.1 r.2 s) replies start)) <= MAX_POINTS)%nat.
Proof.
  assert (H : ∀ s, (length (series s) <= MAX_POINTS)%nat → (length (series (fold_left (λ s r, polled r.1 r.2 s) replies s)) <= MAX_POINTS)%nat).
  { induction replies as [|[k r] l IH]; intros s Hs; [done|]. cbn [fold_left fst snd]. apply IH. unfold polled.
    assert (Hp : ∀ d, (length (pushPoint k (series s) d) <= MAX_POINTS)%nat).
    { intros d. unfold pushPoint. split_if; [rewrite last_n_length; lia|by apply Nat.ltb_ge]. }
    destruct r as [[]|]; cbn [series]; try done; by split_if. }
  apply H. cbn. unfold MAX_POINTS. lia.
Qed.
End LiveCurves.

(** ** Examples *)

Module OpsPagesDemo.
Import Dispatch.
Definition fleet : option (option (list Agent) * option (list Command)) :=
  Some (Some [{| agent_id := "node-a"; tenant_id := "acme"; tenant_name := None; status := "Online"; remote_shadow := false |}], None).
(** A command is sent once although the button is pressed twice. *)
Definition script : list (action Rsp event) :=
  [Answer 0 (ARefresh fleet); Do (Pick "node-a"); Do (Type_ "203.0.113.50"); Do Submit; Do Tick; Do Submit].
Definition sent : config state Req := default (Cfg start []) (play on_event on_response script (Cfg start [QRefresh])).
Lemma script_run : play on_event on_response script (Cfg start [QRefresh]) = Some sent.
Proof. by vm_compute. Qed.
Lemma dispatch_one_at_a_time_witness :
  (sends sent = (if submitting (current sent) then 1 else 0)%nat ∧ Forall send_ok (pending sent)) ∧
  pending sent = [QSend {| b_type := "BAN_IP"; b_payload := "203.0.113.50"; b_target := Some "node-a" |}; QRefresh].
Proof.
  split; [|by vm_compute]. apply dispatch_one_at_a_time.
  exact (play_reach _ _ script _ _ _ script_run (reach_start _ _ _)).
Defined.
End OpsPagesDemo.
