(* ===== verification/System.v ===== *)
(** The parts put together: a request meets the session gate before it meets a
    route, and the tokens the gate accepts come from the login route.

    The gate promises a route its identity headers; a route that reads the agents
    promises that what it tells a user depends on the agents of that user's tenant
    only ([Confined]).  Both promises together are tenant isolation, whatever headers
    the client sends.  The second part follows a session back to the login that
    started it. *)

From S2P Require Import Prelude JsString JsNum Json Regex Http Store Tier Auth LoginRateLimit Login Middleware Telemetry CopilotText Copilot Compliance.

(** ** A route behind the gate *)

(** What a route answers, when the gate hands the request on. *)
Definition serve {A} (d : decision) (r : request) (handler : request → A) : option A :=
  match d with Next h => Some (handler (with_headers h r)) | Respond _ => None end.

(** The headers of a request the gate let through for a user of the tenant. *)
Definition identified (tn : jstring) (r : request) : Prop :=
  header "x-user-role" r = Some ("user" : jstring) ∧ header "x-user-tenant" r = Some tn ∧ header "x-tenant-id" r = Some tn.

(** The promise of a route to its users: tables that agree on the user's tenant give
    the same answer. *)
Class Confined {T A : Type} (agree : jstring → relation T) (handler : request → T → A) : Prop :=
  confined : ∀ tn r t t', identified tn r → agree tn t t' → handler r t = handler r t'.

Section isolation.
Context `{UnicodeCase} (jwtVerify : jstring → list Z → option (list (jstring * json))).
Context {T A : Type} (agree : jstring → relation T).

Lemma gate_identifies e now r h payload :
  middleware jwtVerify e now r = Next h → open_path (rq_path r) = false →
  session jwtVerify e now r payload → otruthy (assoc "isAdmin" payload) = false →
  identified (ostr (assoc "tenantId" payload)) (with_headers h r).
Proof.
  intros Hm Ho (t & s & Hc & Hs & Hv & _) Ha.
  destruct (middleware_next jwtVerify e now r h Hm) as [[_ Hp]|(p & (t' & s' & Hc' & Hs' & Hv' & _) & ->)]; [congruence|].
  assert (p = payload) as -> by congruence. unfold identified, header. cbn [rq_headers with_headers].
  by rewrite inject_role, inject_tenant, inject_shield, Ha by done.
Qed.

(** A confined route behind the gate cannot tell two tables apart that agree on the
    tenant of the session. *)
Lemma gate_confines (handler : request → T → A) `{!Confined agree handler} e now r payload t t' :
  open_path (rq_path r) = false → session jwtVerify e now r payload → otruthy (assoc "isAdmin" payload) = false →
  agree (ostr (assoc "tenantId" payload)) t t' →
  serve (middleware jwtVerify e now r) r (λ r, handler r t) = serve (middleware jwtVerify e now r) r (λ r, handler r t').
Proof.
  intros Ho Hs Ha Hag. destruct (middleware jwtVerify e now r) as [h|] eqn:Em; [|done]. cbn. f_equal.
  eapply confined; [by eapply gate_identifies|done].
Qed.
End isolation.

(** ** The routes that read the agents *)

Section routes.
Context `{UnicodeCase} `{LocaleText} `{CaseFold} {Tt : Type} `{!Table Tt Telemetry t_id}.

(** The database answers every query about agents of the tenant alone in the same way. *)
Definition same_tenant (tn : jstring) : relation Tt :=
  λ tt tt', ∀ p, (∀ a, p a = true → t_tenantId a = tn) → find_many p tt = find_many p tt'.
#[export] Instance same_tenant_equivalence tn : Equivalence (same_tenant tn).
Proof.
  split; [by intros tt p|intros tt tt' Hs p Hp; symmetry; by apply Hs|].
  intros a b c Hab Hbc p Hp. etrans; [by apply Hab|by apply Hbc].
Qed.

Lemma tenant_agents tn tt tt' : same_tenant tn tt tt' → find_many (λ a, t_tenantId a =s tn) tt = find_many (λ a, t_tenantId a =s tn) tt'.
Proof. intros Hs. apply Hs. intros a. by rewrite jeq_true. Qed.
Lemma report_agents w e cwd now tn r tt tt' : identified tn r → same_tenant tn tt tt' →
  fetchComplianceReportForRequest w e cwd now r tt = fetchComplianceReportForRequest w e cwd now r tt'.
Proof.
  intros (Hr & Ht & _) Hs. unfold fetchComplianceReportForRequest. rewrite Hr, Ht. unfold copilot_agents.
  by rewrite (tenant_agents tn tt tt').
Qed.

#[export] Instance tenants_confined now : Confined same_tenant (tenants_GET now).
Proof.
  intros tn r tt tt' (Hr & Ht & _) Hs. unfold tenants_GET. rewrite Hr, Ht. cbv zeta.
  rewrite bool_decide_eq_false_2 by done. cbn [fmap option_fmap option_map]. by rewrite (tenant_agents tn tt tt').
Qed.
#[export] Instance reports_confined w e cwd now : Confined same_tenant (reports_GET w e cwd now).
Proof. intros tn r tt tt' Hi Hs. unfold reports_GET. by rewrite (report_agents w e cwd now tn r tt tt'). Qed.
#[export] Instance export_confined w e cwd now : Confined same_tenant (export_GET w e cwd now).
Proof. intros tn r tt tt' Hi Hs. unfold export_GET. by rewrite (report_agents w e cwd now tn r tt tt'). Qed.
#[export] Instance copilot_confined w e cwd post now collect :
  Confined same_tenant (copilot_POST w e cwd post now collect).
Proof.
  intros tn r tt tt' (Hr & Ht & _) Hs. unfold copilot_POST. rewrite Hr, Ht.
  assert (Ha : copilot_agents false (Some tn) tt = copilot_agents false (Some tn) tt')
    by (unfold copilot_agents; by rewrite (tenant_agents tn tt tt')).
  destruct (rq_json r) as [body|]; [|done]. destruct (as_str _) as [[|c m]|]; try done.
  change ("user" =s "admin") with false. unfold copilot_answer. by rewrite Ha.
Qed.
End routes.

(** C2. Tenant isolation: for a signed-in user who is no administrator, the tenant list,
    the compliance report, its export and the copilot's reply are functions of the
    agents of the user's own tenant; whatever headers the request carries, agents of
    other tenants leave no trace in an answer. *)
Theorem tenant_isolation `{UnicodeCase} `{LocaleText} `{CaseFold} {Tt} `{!Table Tt Telemetry t_id}
    jwtVerify w e cwd post now collect r payload (tt tt' : Tt) :
  open_path (rq_path r) = false → session jwtVerify e now r payload → otruthy (assoc "isAdmin" payload) = false →
  same_tenant (ostr (assoc "tenantId" payload)) tt tt' →
  let gate := middleware jwtVerify e now r in
  serve gate r (λ r, tenants_GET now r tt) = serve gate r (λ r, tenants_GET now r tt') ∧
  serve gate r (λ r, reports_GET w e cwd now r tt) = serve gate r (λ r, reports_GET w e cwd now r tt') ∧
  serve gate r (λ r, export_GET w e cwd now r tt) = serve gate r (λ r, export_GET w e cwd now r tt') ∧
  serve gate r (λ r, copilot_POST w e cwd post now collect r tt) = serve gate r (λ r, copilot_POST w e cwd post now collect r tt').
Proof. intros Ho Hs Ha Hag. cbv zeta. split_and!; eapply (gate_confines jwtVerify same_tenant); eauto with typeclass_instances. Qed.

(** ** From a session back to its login *)

Section origin.
Context `{UnicodeCase}.
Context (scryptSync : jstring → list Z → Z → option (list Z)) (sha256_hex : jstring → jstring).
Context (jwtSign : list (jstring * json) → jstring → list Z → option jstring).
Context (jwtVerify : jstring → list Z → option (list (jstring * json))).
Context (findUser : jstring → option (option User)).
(** A token verifies to the claims it was signed with, and those the library adds. *)
Context (verify_signed : ∀ u ttl k t p, jwtSign (token_claims u) ttl k = Some t → jwtVerify t k = Some p →
  ∃ added, p = token_claims u ++ added).

(** The login attempts of a history, one after the other, with what they answered. *)
Fixpoint logins (e : env) (l : list (request * Z * Z)) (bs : Buckets) : list (request * response) :=
  match l with
  | [] => []
  | (r, now1, now2) :: l =>
      match login_POST scryptSync sha256_hex jwtSign findUser e now1 now2 r bs with
      | (Ok resp, bs') => (r, resp) :: logins e l bs'
      | (Throw _, bs') => logins e l bs'
      end
  end.
(** The session tokens that these answers handed out. *)
Definition issued (answers : list (request * response)) : list jstring := flat_map (λ x, map ck_value (rs_set x.2)) answers.

Lemma logins_answer e l bs r resp : (r, resp) ∈ logins e l bs →
  ∃ now1 now2 bs1 bs2, login_POST scryptSync sha256_hex jwtSign findUser e now1 now2 r bs1 = (Ok resp, bs2).
Proof.
  revert bs. induction l as [|[[r' t1] t2] l IH]; intros bs Hin; cbn in Hin; [by apply not_elem_of_nil in Hin|].
  destruct (login_POST _ _ _ _ e t1 t2 r' bs) as [[resp'|] bs'] eqn:E; [|by eapply IH].
  apply elem_of_cons in Hin as [[= -> ->]|Hin]; [eauto 10|by eapply IH].
Qed.

(** C3. No session without a password: when a guarded route sees an identity, and the
    token of the request is one that a login of the history handed out (nobody else
    can make one that verifies), then one of those logins gave the password of a user
    whose tenant and role are the ones the route sees. *)
Theorem session_needs_password e l bs now r h :
  let answers := logins e l bs in
  (∀ token secret p, cookie "auth_token" r = Some token → getJwtSecret e = Ok secret → jwtVerify token secret = Some p →
     token ∈ issued answers) →
  middleware jwtVerify e now r = Next h → open_path (rq_path r) = false →
  ∃ rl resp c row, (rl, resp) ∈ answers ∧ readCredentials rl = Ok c ∧ findUser (username c) = Some (Some row) ∧
    verifyPassword scryptSync sha256_hex (password c) (u_passwordHash row) = true ∧
    hget "x-user-tenant" h = Some (u_tenantId row) ∧
    hget "x-user-role" h = Some (if u_isAdmin row then "admin" else "user").
Proof.
  intros answers Hissued Hm Ho.
  destruct (middleware_next jwtVerify e now r h Hm) as [[_ Hp]|(p & (t & k & Hc & Hk & Hv & _) & ->)]; [congruence|].
  pose proof (Hissued t k p Hc Hk Hv) as Hin. unfold issued in Hin.
  rewrite list_elem_of_In, in_flat_map in Hin. destruct Hin as ([rl resp] & Hans & Hck).
  rewrite <- list_elem_of_In in Hans. rewrite in_map_iff in Hck. destruct Hck as (ck & Hval & Hset). cbn [snd] in Hset.
  destruct (logins_answer e l bs rl resp Hans) as (t1 & t2 & bs1 & bs2 & Hl).
  destruct (login_issues scryptSync sha256_hex jwtSign findUser e t1 t2 rl bs1 resp bs2 Hl) as (c & row & token & Hrc & Hf & Hpw & Hsg & Hst & _).
  { intros E. by rewrite E in Hset. }
  rewrite Hst in Hset. destruct Hset as [<-|[]]. cbn in Hval. subst token.
  unfold signAuthToken in Hsg. rewrite Hk in Hsg. destruct (jwtSign _ _ k) as [t'|] eqn:Es; [|done]. injection Hsg as ->.
  destruct (verify_signed _ _ _ _ _ Es Hv) as [added ->].
  exists rl, resp, c, row. rewrite inject_tenant, inject_role. cbn. by destruct (u_isAdmin row).
Qed.
End origin.

(** ** Witnesses *)

Module SystemDemo.
#[local] Instance lower_ascii : UnicodeCase := ascii_case.
#[local] Instance fold_ascii : CaseFold := ascii_upper.
#[local] Instance plain_texts : LocaleText :=
  {| local_count := dec; en_number := num_to_string; en_date := λ _, "June 1, 2025"; en_time := λ _, "09:30 AM" |}.
#[local] Instance agents_table : Table (list Telemetry) Telemetry t_id := list_table t_id.
Import Copilot.Demo.

(** The table without the agent of the other tenant. *)
Definition table' : list Telemetry := [agent "2" "t2" 7].
Lemma tables_agree : same_tenant "t2" table table'.
Proof.
  intros p Hp. cbn. destruct (p (agent "1" "t1" 4)) eqn:E; [|done]. by apply Hp in E.
Qed.
Lemma tenant_isolation_witness :
  serve (middleware MwDemo.verify MwDemo.e 0 MwDemo.forged) MwDemo.forged (λ r, tenants_GET 0 r table) =
  serve (middleware MwDemo.verify MwDemo.e 0 MwDemo.forged) MwDemo.forged (λ r, tenants_GET 0 r table').
Proof.
  refine (proj1 (tenant_isolation MwDemo.verify no_world MwDemo.e "/app" away 0 None MwDemo.forged
                   (issued_payload MwDemo.bob (num_of_Z 2000000000)) table table' _ _ _ _)).
  - reflexivity.
  - exists "tok". eexists. split_and!; reflexivity.
  - reflexivity.
  - apply tables_agree.
Defined.

(** One user, whose token is the only one. *)
Definition claim (k : jstring) (c : list (jstring * json)) : jstring := match assoc k c with Some (JStr s) => s | _ => [] end.
Definition sign (c : list (jstring * json)) (ttl : jstring) (k : list Z) : option jstring :=
  if (claim "userId" c =s "1") && (claim "username" c =s "alice") && (claim "tenantId" c =s "t1") && negb (otruthy (assoc "isAdmin" c))
  then Some "tok" else None.
Definition alice : AuthUser := {| a_id := "1"; a_username := "alice"; a_tenantId := "t1"; a_isAdmin := false |}.
Definition verify (t : jstring) (k : list Z) : option (list (jstring * json)) :=
  if t =s "tok" then Some (issued_payload alice (num_of_Z 2000000000)) else None.
Lemma demo_sign_verify u ttl k t p : sign (token_claims u) ttl k = Some t → verify t k = Some p → ∃ added, p = token_claims u ++ added.
Proof.
  unfold sign. destruct u as [i n tn a].
  replace (claim "userId" (token_claims _)) with i by done. replace (claim "username" (token_claims _)) with n by done.
  replace (claim "tenantId" (token_claims _)) with tn by done. replace (otruthy _) with a by by destruct a.
  destruct (i =s "1") eqn:Ei; [|done]. destruct (n =s "alice") eqn:En; [|done]. destruct (tn =s "t1") eqn:Et; [|done].
  apply jeq_true in Ei as ->. apply jeq_true in En as ->. apply jeq_true in Et as ->.
  destruct a; [done|]. intros [= <-] [= <-]. by eexists.
Qed.
Definition visit : request := mk_request "/api/tenants" [("x-user-role", "admin")] [("auth_token", "tok")] [] None.
Definition history : list (request * Z * Z) := [(Login.Demo.attempt "s3cret", 1000, 1001)].
Definition host : env :=
  env_of [("NODE_ENV", "production"); ("JWT_SECRET", "0123456789abcdef0123456789abcdef"); ("LOG_GUARDIAN_TIER", "pro")].
Lemma session_needs_password_witness :
  ∃ h rl resp c row, middleware verify host 5000 visit = Next h ∧
    (rl, resp) ∈ logins Login.Demo.scrypt Login.Demo.sha sign Login.Demo.users host history ∅ ∧
    readCredentials rl = Ok c ∧ Login.Demo.users (username c) = Some (Some row) ∧
    hget "x-user-tenant" h = Some (u_tenantId row).
Proof.
  set (h := inject_identity (issued_payload alice (num_of_Z 2000000000)) (rq_headers visit)).
  assert (Hm : middleware verify host 5000 visit = Next h) by reflexivity.
  destruct (session_needs_password Login.Demo.scrypt Login.Demo.sha sign verify Login.Demo.users demo_sign_verify
              host history ∅ 5000 visit h) as (rl & resp & c & row & H1 & H2 & H3 & _ & H5 & _).
  - intros token secret p Hc _ _. cbn in Hc. injection Hc as <-. vm_compute. left.
  - exact Hm.
  - reflexivity.
  - exists h, rl, resp, c, row. split_and!; assumption.
Defined.
End SystemDemo.
