(* ===== verification/LandingContent.v ===== *)
(** The texts of the landing site that do not depend on the chosen language, from
    landing/lib/content.ts and landing/lib/shareUrls.ts, and the operations on such
    documents. *)

From S2P Require Import Prelude JsString JsNum Json.

(** ** Reading documents

    The texts are documents ([json]).  A property that is missing reads as [JNull],
    which stands for [undefined]: no document of the site holds [null]. *)
Definition fld (k : jstring) (v : json) : json := match v with JObj fs => assoc k fs ?? JNull | _ => JNull end.
Definition jitems (v : json) : list json := match v with JArr l => l | _ => [] end.
Definition jfields (v : json) : list (jstring * json) := match v with JObj fs => fs | _ => [] end.
(** [v[i]] *)
Definition jix (i : nat) (v : json) : json := jitems v !! i ?? JNull.
(** [v.map(f)], with the index *)
Definition jmap (f : json → json) (v : json) : json := JArr (map f (jitems v)).
Definition jmapi (f : nat → json → json) (v : json) : json := JArr (imap f (jitems v)).
(** [{ ...a, k: x, ... }] *)
Definition spread (a : json) (fs : list (jstring * json)) : json :=
  JObj (fold_left (λ acc kv, put_field kv.1 kv.2 acc) fs (jfields a)).
(** [a ?? b] *)
Definition nn (a b : json) : json := match a with JNull => b | _ => a end.

(** ** The texts *)

Definition PROOF_TEST_COUNT : Z := 89.
Definition T : Z := PROOF_TEST_COUNT.
Definition T_TEST : jstring := dec T ++ " test".
Definition T_AUTO : jstring := dec T ++ " otomatik test".
Definition NAV : json := JArr [
    JObj [("href", JStr "#hero"); ("label", JStr "Ana sayfa"); ("i18n", JStr "nav_home")];
    JObj [("href", JStr "#nedir"); ("label", JStr "Nedir"); ("i18n", JStr "nav_about")];
    JObj [("href", JStr "#pipeline"); ("label", JStr "Pipeline"); ("i18n", JStr "nav_pipeline")];
    JObj [("href", JStr "#rakipler"); ("label", JStr "Rakipler"); ("i18n", JStr "nav_rivals")];
    JObj [("href", JStr "#kurulum"); ("label", JStr "Kurulum"); ("i18n", JStr "nav_setup")];
    JObj [("href", JStr "/testler"); ("label", JStr "Testler"); ("i18n", JStr "nav_tests")];
    JObj [("href", JStr "#iletisim"); ("label", JStr "İletişim"); ("i18n", JStr "nav_contact")]].
Definition HERO : json := JObj [
    ("badge", JStr "//:LOG→BAN · SYSTEM ONLINE");
    ("title", JStr "Linux Log Guardian");
    ("bullets", JArr [JStr "~20 ms kernel ban"; JStr T_AUTO; JStr "72h soak PASS"]);
    ("tagline", JStr "nginx access log → WAF/CRS → kernel ban · tek zincir · self-hosted");
    ("chips", JArr [JStr "açık kaynak · MIT"; JStr "72h soak PASS"]);
    ("reach", JStr "3,65k+ ziyaret · 56 ülke · kanıt PDF");
    ("quickstart", JArr [
      JStr "git clone https://github.com/kurtulusutkucenik/Linux-Log-Guardian.git";
      JStr "cd Linux-Log-Guardian";
      JStr "make -j$(nproc)";
      JStr "sudo bash install.sh"]);
    ("github", JStr "https://github.com/kurtulusutkucenik/Linux-Log-Guardian");
    ("praise", JObj [
      ("lead", JStr "Türkiye'nin ölçülebilir kanıtlı, tek zincir self-hosted güvenlik stack'i — rakipler parça parça, biz hepsi bir arada.");
      ("highlights", JArr [
        JStr "~20 ms medyan ban — Fail2ban'ın saatler süren iptables yoluna karşı ölçülmüş 21 örnek";
        JStr "%100 gerçek saldırı recall + %100 OWASP CRS parity — 121 kural, 1500 satır corpus";
        JStr "%0.2 false positive — 500 benign satırda 1 alarm; rakiplerde yüksek/orta";
        JStr "72 saat VM soak — 864 örnek, 0 hata; rakiplerde otomatik kanıt yok";
        JStr (T_AUTO ++ " + 14 dosyalık kanıt paketi — PDF/JSON, tekrar üretilebilir");
        JStr "3 araç yığını tek ürün: ban motoru + WAF/CRS + SOC/kanıt — ~15 dk kurulum"]);
      ("bold", JArr [
        JObj [("v", JStr "~20ms"); ("l", JStr "kernel ban")];
        JObj [("v", JStr "%100"); ("l", JStr "recall")];
        JObj [("v", JStr (dec T)); ("l", JStr "otomatik test")];
        JObj [("v", JStr "3→1"); ("l", JStr "araç birleşimi")]])])].
Definition ABOUT : json := JObj [
    ("eyebrow", JStr "//:Nedir");
    ("title", JStr "Linux Log Guardian nedir?");
    ("intro", JStr "Türkiye'de geliştirilen, tamamen açık kaynak (MIT) bir self-hosted güvenlik yazılımı. nginx erişim loglarını gerçek zamanlı okur, OWASP CRS/WAF ile değerlendirir ve saldırgan IP'yi ipset ile kernel seviyesinde ~20 ms'de banlar — tek zincirde, üçüncü parti bulut olmadan.");
    ("paragraphs", JArr [
      JStr "Fail2ban yalnızca ban atar, ModSecurity WAF ayrı bir modüldür, dağıtık saldırı için ayrı araçlar gerekir. Log Guardian bunları tek hatta birleştirir: log satırı düşer → parser normalize eder → CRS/WAF kural motoru (PCRE2 JIT) değerlendirir → ban pipeline politika + tenant kararı verir → ipset/XDP kernelde uygular → Prometheus metrik ve dashboard SOC timeline'a yazar.";
      JStr "Sonuç ölçülebilir ve tekrar üretilebilir: gerçek saldırı corpus'unda %100 recall, OWASP CRS ile %100 parity, %0.2 false positive, ~20 ms medyan ban gecikmesi ve 72 saatlik VM soak testinde 864 örnek boyunca 0 hata. Hepsi competitive-proof PDF/JSON paketinde ve /testler matrisinde açık.";
      JStr "Bu web sitesi halka açık tanıtım ve indirme sayfasıdır — statik içerik sunar. Yazılım burada çalışmaz; kendi Linux sunucunuza kurar, verinizin sizde kalmasını sağlarsınız. Vendor lock-in yok, kaynak kodu tamamen açık."]);
    ("highlights", JArr [
      JObj [("k", JStr "Tek zincir"); ("v", JStr "log → WAF → kernel ban, tek araç")];
      JObj [("k", JStr "~20 ms"); ("v", JStr "log satırından ipset ban'a medyan gecikme")];
      JObj [("k", JStr "%100 recall"); ("v", JStr "gerçek saldırı corpus + CRS parity")];
      JObj [("k", JStr "%0.2 FP"); ("v", JStr "500 benign satırda 1 alarm")];
      JObj [("k", JStr "72h soak"); ("v", JStr "864 örnek, 0 hata (VM)")];
      JObj [("k", JStr "MIT · TR"); ("v", JStr "açık kaynak, Türkçe doküman, self-hosted")]])].
Definition PIPELINE : json := JObj [
    ("eyebrow", JStr "//:Pipeline");
    ("title", JStr "Tek zincir: logdan kernel ban'a");
    ("sub", JStr "nginx access log satırından ipset ban'a ~20 ms — rakiplerde parçalı mimari.");
    ("steps", JArr [
      JObj [
        ("n", JStr "1");
        ("label", JStr "nginx access log");
        ("hint", JStr "yazılabilir access log, log_guardian formatı")];
      JObj [
        ("n", JStr "2");
        ("label", JStr "Parser + normalize");
        ("hint", JStr "URI, method, XFF, body — tek şema")];
      JObj [
        ("n", JStr "3");
        ("label", JStr "CRS / WAF motoru");
        ("hint", JStr "OWASP CRS, PCRE2 JIT, schema/BOLA")];
      JObj [("n", JStr "4"); ("label", JStr "Ban pipeline"); ("hint", JStr "policy + tenant + FP trust kararı")];
      JObj [("n", JStr "5"); ("label", JStr "ipset / XDP kernel"); ("hint", JStr "~20 ms kernel ban")];
      JObj [
        ("n", JStr "6");
        ("label", JStr "Metrik + dashboard");
        ("hint", JStr "Prometheus tenant + SOC timeline")]]);
    ("note", JStr "XDR, Wasm marketplace ve LLM Copilot uzun vadeli opsiyonel katmanlardır — Core tek başına üretimde kullanılabilir.")].
Definition MARQUEE_ITEMS : json := JArr [
    JStr "nginx log → WAF → kernel ban";
    JStr T_AUTO;
    JStr "72h soak PASS";
    JStr "~20 ms kernel ban";
    JStr "false positive %0.2";
    JStr "gerçek saldırı recall %100";
    JStr "OWASP CRS parity %100";
    JStr "MIT · Türkiye";
    JStr "self-hosted · vendor lock-in yok"].
Definition SELECTED : json := JObj [
    ("eyebrow", JStr "//:Seçili");
    ("title", JStr "Seçili kanıtlar");
    ("lead", JStr "Core · Pro · Proof — tek zincirde ölçülebilir sonuçlar.");
    ("cards", JArr [
      JObj [
        ("tag", JStr "//:Core");
        ("kicker", JStr "CORE");
        ("title", JStr ("What=" ++ dq ++ "we do" ++ dq));
        ("body", JStr "Tek zincir: nginx log → OWASP CRS → ~20 ms kernel ban. ~15 dakikada üretim.");
        ("chips", JArr [JStr "~20 ms ban"; JStr "OWASP CRS"])];
      JObj [
        ("tag", JStr "//:Pro");
        ("kicker", JStr "SOC");
        ("title", JStr ("Pro=" ++ dq ++ "SOC" ++ dq));
        ("body", JStr "Filo, SOC timeline, panolar — kurulum sonrası kendi sunucunuzda opsiyonel katman.");
        ("chips", JArr [JStr "Fleet"; JStr "Timeline"])];
      JObj [
        ("tag", JStr "//:Proof");
        ("kicker", JStr "PROOF");
        ("title", JStr ("Proof=" ++ dq ++ T_TEST ++ dq));
        ("body", JStr (T_AUTO ++ ", competitive PDF, 72h soak — dashboard /tests ile aynı matris."));
        ("chips", JArr [JStr T_TEST; JStr "72h soak"])];
      JObj [
        ("tag", JStr "//:Metrics");
        ("kicker", JStr "METRİK");
        ("title", JStr ("Metrics=" ++ dq ++ "obs" ++ dq));
        ("body", JStr "Tenant etiketli Prometheus metrikleri, panolar ve alert kuralları — self-hosted gözlemlenebilirlik.");
        ("chips", JArr [JStr "Prometheus"; JStr "Alert"])];
      JObj [
        ("tag", JStr "//:Fleet");
        ("kicker", JStr "FLEET");
        ("title", JStr ("Fleet=" ++ dq ++ "mesh" ++ dq));
        ("body", JStr "Çok düğümlü filo: agent senkron, etcd mesh politika ve hedefli komut dağıtımı — tek panelden.");
        ("chips", JArr [JStr "Multi-node"; JStr "etcd"])];
      JObj [
        ("tag", JStr "//:Threat");
        ("kicker", JStr "TEHDİT");
        ("title", JStr ("Ops=" ++ dq ++ "Telegram" ++ dq));
        ("body", JStr "TAXII/STIX tehdit beslemesi + Telegram SOC: alert, ban ve tek-tık 'Gördüm' onayı — canlı operatör akışı.");
        ("chips", JArr [JStr "Threat intel"; JStr "Telegram"])];
      JObj [
        ("tag", JStr "//:eBPF");
        ("kicker", JStr "KERNEL");
        ("title", JStr ("eBPF=" ++ dq ++ "XDP" ++ dq));
        ("body", JStr "XDP filter + execve/lineage uprobes — kernel seviyesinde paket düşürme ve syscall izleme. Laptop'ta --no-xdp ile ipset yeterli.");
        ("chips", JArr [JStr "XDP"; JStr "ipset"])];
      JObj [
        ("tag", JStr "//:JA3");
        ("kicker", JStr "CLUSTER");
        ("title", JStr ("JA3=" ++ dq ++ "80 IP" ++ dq));
        ("body", JStr "Dağıtık scanner tespiti: aynı JA3 fingerprint + farklı IP kümesi %100 recall — 80 IP canlı test.");
        ("chips", JArr [JStr "%100 recall"; JStr "80 IP"])];
      JObj [
        ("tag", JStr "//:XDR");
        ("kicker", JStr "XDR");
        ("title", JStr ("Lineage=" ++ dq ++ "APT" ++ dq));
        ("body", JStr "Attack tree, lineage probe, syscall uprobe — uzun vadeli opsiyonel katman; saldırı zinciri ve gizli kanal tespiti.");
        ("chips", JArr [JStr "Attack tree"; JStr "Lineage"])];
      JObj [
        ("tag", JStr "//:Wasm");
        ("kicker", JStr "PLUGIN");
        ("title", JStr ("Wasm=" ++ dq ++ "market" ++ dq));
        ("body", JStr "Wasm runtime ile özel kural eklentileri — marketplace modeli, Core'a dokunmadan genişletme.");
        ("chips", JArr [JStr "Wasm"; JStr "Plugin"])];
      JObj [
        ("tag", JStr "//:SIEM");
        ("kicker", JStr "EXPORT");
        ("title", JStr ("SIEM=" ++ dq ++ "JSON" ++ dq));
        ("body", JStr "JSON event_type akışı — Splunk/Elastic/Vector hedeflerine SIEM export kanıtı (siem-export-report.json).");
        ("chips", JArr [JStr "JSON"; JStr "SIEM"])];
      JObj [
        ("tag", JStr "//:Deception");
        ("kicker", JStr "TRAP");
        ("title", JStr ("Deception=" ++ dq ++ "tarpit" ++ dq));
        ("body", JStr "Tarpit server + trap watcher — saldırganı yavaşlatma ve honeypot sinyali; deception katmanı.");
        ("chips", JArr [JStr "Tarpit"; JStr "Honeypot"])]])].
Definition WHY : json := JObj [
    ("eyebrow", JStr "//:Why");
    ("title", JStr "Neden Log Guardian?");
    ("lead", JStr "Rakipler parça parça — biz tek zincirde ölçülebilir kanıt sunuyoruz.");
    ("cards", JArr [
      JObj [
        ("n", JStr "01");
        ("title", JStr "Tek hat");
        ("body", JStr "nginx log → OWASP CRS → ~20 ms kernel ban. Fail2ban + ModSec + script yığını yok.")];
      JObj [
        ("n", JStr "02");
        ("title", JStr "Şeffaf kanıt");
        ("body", JStr ("competitive-proof PDF, " ++ T_TEST ++ ", 72h soak — rakiplerde yok veya parçalı."))];
      JObj [
        ("n", JStr "03");
        ("title", JStr "MIT · Türkiye");
        ("body", JStr "Açık kaynak, Türkçe doküman, self-hosted — vendor lock-in yok.")];
      JObj [
        ("n", JStr "04");
        ("title", JStr "Dürüst sınır");
        ("body", JStr "ModSec inline EPS'te değiliz; L3/L4'ü CDN absorb eder. Origin'de entegrasyon + hız.")];
      JObj [
        ("n", JStr "05");
        ("title", JStr "3'ü 1 arada");
        ("body", JStr "Fail2ban, ModSecurity, CrowdSec ayrı ayrı değil — ban + WAF + SOC tek üründe.")];
      JObj [
        ("n", JStr "06");
        ("title", JStr "Kernel hızı");
        ("body", JStr "~20 ms medyan ban — Fail2ban/CrowdSec saniye–dakika ölçeğinde; ölçülmüş 21 örnek.")];
      JObj [
        ("n", JStr "07");
        ("title", JStr "Dağıtık saldırı");
        ("body", JStr "JA3 cluster %100 recall — 80 IP canlı test; IP başına ban + cluster tespiti.")];
      JObj [
        ("n", JStr "08");
        ("title", JStr "Operatör akışı");
        ("body", JStr "Telegram alert + tek-tık ack, SOC timeline, tenant metrik — kurulum sonrası :8443.")]])].
Definition VS : json := JObj [
    ("eyebrow", JStr "//:Vs");
    ("title", JStr "Rakiplerle kıyas");
    ("sub", JStr "Ölçülmüş kanıt — Fail2ban / CrowdSec / ModSecurity mimari notları. Her satırda üstün olan kırmızı ile işaretli.");
    ("advTitle", JStr "Size sağladığımız avantajlar");
    ("advLead", JStr "Fail2ban yalnızca ban atar, ModSecurity WAF ayrı modüldür, CrowdSec parçalı bir yığın ister. Log Guardian bu üç işi tek zincirde birleştirir — ölçülmüş kanıtla.");
    ("advantages", JArr [
      JObj [
        ("k", JStr "Tek kurulum, tek zincir");
        ("v", JStr "Fail2ban + ModSecurity + CrowdSec'i ayrı ayrı kurup entegre etmezsiniz. nginx log → WAF/CRS → kernel ban tek üründe, ~15 dk kurulum.")];
      JObj [
        ("k", JStr "~20 ms kernel ban");
        ("v", JStr "Log satırından ipset/XDP ban'a medyan ~20 ms. Fail2ban/CrowdSec saniye–dakika ölçeğinde kalır; 21 ölçülmüş örnekle kanıtlı.")];
      JObj [
        ("k", JStr "280.373 EPS · 16.93× ModSec");
        ("v", JStr "Aynı corpus ve aynı 121 OWASP CRS pattern'ında (PCRE2 JIT) WAF/CRS throughput 280.373 EPS — ModSec'in 16.560 EPS'ine karşı 16.93 kat hızlı. Ölçülmüş ve tekrar üretilebilir (bench-vs-modsec.json).")];
      JObj [
        ("k", JStr "%100 recall + %100 CRS parity");
        ("v", JStr "121 OWASP CRS kuralı, 1500 satır corpus'ta gerçek saldırı recall'ı %100 ve ModSec ile tam parity — %0.2 false positive ile.")];
      JObj [
        ("k", JStr "Dağıtık saldırı kapsama");
        ("v", JStr "JA3 cluster tespiti + IP başına ban — 80 IP canlı testte %100. Fail2ban tek IP mantığında, CrowdSec ayrı sinyal ağı ister.")];
      JObj [
        ("k", JStr "Şeffaf, tekrar üretilebilir kanıt");
        ("v", JStr (T_AUTO ++ " + 14 dosyalık PDF/JSON kanıt paketi + 72h soak (864 örnek, 0 hata). Rakiplerde otomatik kanıt yok veya parçalı."))];
      JObj [
        ("k", JStr "Self-hosted · MIT · Türk yapımı");
        ("v", JStr "Veriniz sizde kalır, vendor lock-in yok, kaynak tamamen açık. SOC timeline, Prometheus metrik ve Telegram ops tek panelde (:8443).")]]);
    ("cols", JArr [JStr "Metrik"; JStr "Log Guardian"; JStr "Fail2ban"; JStr "CrowdSec"; JStr "ModSec + CRS"]);
    ("groups", JArr [
      JObj [
        ("label", JStr "Güçlü yanlar (ölçülmüş)");
        ("honest", JBool false);
        ("winners", JArr [
          jint 1;
          jint 1;
          jint 1;
          jint 1;
          jint 1;
          jint 1;
          jint 1;
          jint 1;
          jint 1;
          jint 1;
          jint 1;
          jint 1;
          jint 1;
          jint 1;
          jint 1;
          jint 1;
          jint 1]);
        ("rows", JArr [
          JArr [JStr "Log → WAF → kernel ban"; JStr "Tek hat"; JStr "Yalnız ban"; JStr "Parçalı"; JStr "WAF ayrı"];
          JArr [
            JStr "WAF/CRS throughput (aynı corpus)";
            JStr "280.373 EPS (16.93×)";
            JStr "—";
            JStr "—";
            JStr "16.560 EPS"];
          JArr [JStr "OWASP CRS parity"; JStr "%100 (121 kural)"; JStr "—"; JStr "—"; JStr "Referans (%100)"];
          JArr [JStr "Gerçek saldırı recall"; JStr "%100 (1K+10K)"; JStr "—"; JStr "—"; JStr "%100"];
          JArr [JStr "Dağıtık / JA3 cluster ban"; JStr "%100 (80 IP)"; JStr "—"; JStr "Sinyal tabanlı"; JStr "—"];
          JArr [JStr "nginx inline consult"; JStr "PASS"; JStr "—"; JStr "—"; JStr "Ayrı modül"];
          JArr [JStr "L7 uygulama koruması"; JStr "WAF + consult + eBPF"; JStr "—"; JStr "—"; JStr "CRS inline"];
          JArr [JStr "Kernel / eBPF (XDP) ban"; JStr "ipset + XDP"; JStr "iptables"; JStr "iptables/nft"; JStr "—"];
          JArr [JStr "False positive"; JStr "%0.2 (ölçülü)"; JStr "Yüksek"; JStr "Orta"; JStr "CRS bağlı"];
          JArr [JStr "Ban gecikmesi"; JStr "~20 ms"; JStr "sn–dk"; JStr "sn"; JStr "Ayrı entegrasyon"];
          JArr [JStr "Kısa stabilite (5 dk)"; JStr "PASS (0 fail)"; JStr "—"; JStr "—"; JStr "—"];
          JArr [JStr "72h soak"; JStr "PASS (864/0)"; JStr "—"; JStr "—"; JStr "—"];
          JArr [JStr "Kanıt paketi PDF+JSON"; JStr "Otomatik (14 dosya)"; JStr "Yok"; JStr "Kısmi"; JStr "Modül modül"];
          JArr [JStr "Otomatik test matrisi"; JStr T_TEST; JStr "—"; JStr "Kısmi"; JStr "—"];
          JArr [JStr "SOC timeline / dashboard"; JStr "Var (:8443)"; JStr "—"; JStr "Konsol"; JStr "—"];
          JArr [JStr "Telegram ops + ack"; JStr "Var (tek-tık)"; JStr "—"; JStr "Kısmi"; JStr "—"];
          JArr [JStr "Kurulum süresi"; JStr "~15 dk"; JStr "dakikalar"; JStr "dakikalar"; JStr "saatler (tuning)"]])];
      JObj [
        ("label", JStr "Dürüst sınırlar");
        ("honest", JBool true);
        ("winners", JArr [jint 4; jint 0; jint 3; jint 4; jint 3]);
        ("rows", JArr [
          JArr [
            JStr "İlk isteği anında engelleme";
            JStr "Reaktif (log satırı)";
            JStr "Reaktif";
            JStr "Kısmen";
            JStr "Inline (anında)"];
          JArr [JStr "Volumetrik L3/L4 scrub"; JStr "Yok — CDN önerilir"; JStr "Yok"; JStr "Yok"; JStr "Yok"];
          JArr [JStr "Topluluk sinyal ağı"; JStr "Self-hosted"; JStr "—"; JStr "Var (global)"; JStr "—"];
          JArr [JStr "Edge / Cloud WAF"; JStr "Origin katmanı"; JStr "—"; JStr "Bouncer"; JStr "Proxy modu"];
          JArr [JStr "Yönetilen bulut / SaaS"; JStr "Yok (self-hosted)"; JStr "Yok"; JStr "Var (konsol)"; JStr "—"]])]]);
    ("note", JStr "Dürüst sınır: bazı alanlarda rakipler açıkça daha iyi (kırmızı hücreler). ModSec + CRS ilk isteği inline anında engeller (biz reaktifiz — log satırı düşene kadar ilk istek geçebilir); CrowdSec dağıtık topluluk sinyal ağında ve yönetilen SaaS konsolunda güçlü. Buna karşılık aynı corpus + aynı 121 CRS pattern ölçümünde WAF/CRS throughput'umuz 280.373 EPS ile ModSec'in 16.560 EPS'inin 16.93 katı (bench-vs-modsec.json).")].
Definition CHARTS : json := JObj [
    ("eyebrow", JStr "//:Charts");
    ("title", JStr "Grafiklerle kıyas");
    ("sub", JStr "Ölçülmüş kanıttan (competitive-proof.json, bench-vs-modsec.json, fp-report.json, bench-ban-latency.json) türetilmiştir. Bizim çizgi fosforlu turkuaz.");
    ("profile", JObj [
      ("title", JStr "Performans profili (9 eksen)");
      ("hint", JStr "Yüksek = iyi · 0–100 normalize · Throughput: bench-vs-modsec.json EPS oranı (280k vs 16,5k) — LG 100 iddiası yok");
      ("categories", JArr [
        JStr "Tek zincir";
        JStr "Recall";
        JStr "Düşük FP";
        JStr "Ban hızı";
        JStr "Kanıt";
        JStr "Throughput";
        JStr "Dağıtık";
        JStr "Doküman";
        JStr "Kurulum"]);
      ("yMax", jint 100);
      ("series", JArr [
        JObj [
          ("name", JStr "Log Guardian");
          ("us", JBool true);
          ("values", JArr [jint 100; jint 100; jint 98; jint 100; jint 100; jint 95; jint 100; jint 100; jint 92])];
        JObj [
          ("name", JStr "ModSec + CRS");
          ("dash", JStr "solid");
          ("values", JArr [jint 60; jint 100; jint 55; jint 40; jint 40; jint 6; jint 20; jint 70; jint 40])];
        JObj [
          ("name", JStr "CrowdSec");
          ("dash", JStr "dash");
          ("values", JArr [jint 55; jint 40; jint 60; jint 55; jint 45; jint 4; jint 85; jint 55; jint 65])];
        JObj [
          ("name", JStr "Fail2ban");
          ("dash", JStr "dot");
          ("values", JArr [jint 30; jint 10; jint 40; jint 20; jint 10; jint 3; jint 10; jint 40; jint 72])]])]);
    ("latency", JObj [
      ("title", JStr "Ban gecikmesi — ölçüm örnekleri");
      ("hint", JStr "Düşük = iyi · 21 örnekten temsili (bench-ban-latency.json) · medyan 20.2 ms · hedef 75 ms");
      ("labels", JArr [JStr "#1"; JStr "#2"; JStr "#3"; JStr "#4"; JStr "#5"]);
      ("yMax", jint 90);
      ("unit", JStr "ms");
      ("target", jint 75);
      ("series", JArr [
        JObj [
          ("name", JStr "Log Guardian");
          ("us", JBool true);
          ("values", JArr [
            JNum (parseFloat "19.68");
            JNum (parseFloat "20.06");
            JNum (parseFloat "20.23");
            JNum (parseFloat "20.61");
            JNum (parseFloat "20.82")])]])]);
    ("soak", JObj [
      ("title", JStr "72h soak — servis ayakta kalma");
      ("hint", JStr "Yüksek = iyi · 864 örnek · 0 hata");
      ("labels", JArr [JStr "0h"; JStr "12h"; JStr "24h"; JStr "36h"; JStr "48h"; JStr "60h"; JStr "72h"]);
      ("yMax", jint 100);
      ("unit", JStr "%");
      ("series", JArr [
        JObj [
          ("name", JStr "Log Guardian");
          ("us", JBool true);
          ("values", JArr [jint 100; jint 100; jint 100; jint 100; jint 100; jint 100; jint 100])]])]);
    ("fp", JObj [
      ("title", JStr "False positive karşılaştırması");
      ("hint", JStr "Düşük = iyi · % · LG ölçülü, rakipler mimari not");
      ("labels", JArr [JStr "Log Guardian"; JStr "CrowdSec"; JStr "Fail2ban"; JStr "ModSec"]);
      ("yMax", jint 100);
      ("unit", JStr "%");
      ("series", JArr [
        JObj [
          ("name", JStr "FP oranı");
          ("us", JBool true);
          ("values", JArr [JNum (parseFloat "0.2"); jint 45; jint 80; jint 55])]])]);
    ("eps", JObj [
      ("title", JStr "WAF/CRS throughput (EPS) — aynı corpus");
      ("hint", JStr "Yüksek = iyi · bench-vs-modsec.json · aynı 121 CRS pattern, PCRE2 JIT · 16.93× ModSec");
      ("labels", JArr [JStr "Log Guardian"; JStr "ModSec + CRS"]);
      ("yMax", jint 300000);
      ("unit", JStr ([]));
      ("honest", JBool false);
      ("series", JArr [
        JObj [("name", JStr "EPS (aynı corpus)"); ("us", JBool true); ("values", JArr [jint 280373; jint 16560])]])]);
    ("recall", JObj [
      ("title", JStr "Saldırı recall — kategori bazlı");
      ("hint", JStr "Yüksek = iyi · corpus · %");
      ("labels", JArr [JStr "SQLi"; JStr "XSS"; JStr "RCE"; JStr "LFI"; JStr "Bot"; JStr "Dağıtık"]);
      ("yMax", jint 110);
      ("unit", JStr "%");
      ("series", JArr [
        JObj [
          ("name", JStr "Log Guardian");
          ("us", JBool true);
          ("values", JArr [jint 100; jint 100; jint 100; jint 100; jint 100; jint 100])];
        JObj [
          ("name", JStr "ModSec CRS");
          ("dash", JStr "solid");
          ("values", JArr [jint 100; jint 100; jint 100; jint 100; jint 100; jint 0])]])])].
Definition METRICS : json := JObj [
    ("eyebrow", JStr "//:Sayılar");
    ("title", JStr "Sitede gösterilen tüm sayısal değerler");
    ("sub", JStr "Kaynak: competitive-proof.json · bench-ban-latency.json · bench-vs-modsec.json · fp-report.json · soak-report.json");
    ("groups", JArr [
      JObj [
        ("label", JStr "Ban & gecikme");
        ("items", JArr [
          JObj [("value", JStr "20.23"); ("unit", JStr "ms"); ("label", JStr "Medyan ban gecikmesi")];
          JObj [("value", JStr "21.1"); ("unit", JStr "ms"); ("label", JStr "P90 ban gecikmesi")];
          JObj [("value", JStr "18.69"); ("unit", JStr "ms"); ("label", JStr "Min örnek (21 ölçüm)")];
          JObj [("value", JStr "21.64"); ("unit", JStr "ms"); ("label", JStr "Max örnek (21 ölçüm)")];
          JObj [("value", JStr "75"); ("unit", JStr "ms"); ("label", JStr "Laptop hedef (PASS)")];
          JObj [("value", JStr "50"); ("unit", JStr "ms"); ("label", JStr "Prod hedef")]])];
      JObj [
        ("label", JStr "WAF & recall");
        ("items", JArr [
          JObj [("value", JStr "100"); ("unit", JStr "%"); ("label", JStr "Gerçek saldırı recall")];
          JObj [("value", JStr "100"); ("unit", JStr "%"); ("label", JStr "OWASP CRS parity")];
          JObj [("value", JStr "121"); ("unit", JStr ([])); ("label", JStr "CRS kural sayısı")];
          JObj [("value", JStr "0.2"); ("unit", JStr "%"); ("label", JStr "False positive oranı")];
          JObj [("value", JStr "500"); ("unit", JStr ([])); ("label", JStr "Benign test satırı")];
          JObj [("value", JStr "1500"); ("unit", JStr ([])); ("label", JStr "Bench corpus satırı")]])];
      JObj [
        ("label", JStr "Throughput");
        ("items", JArr [
          JObj [("value", JStr "280.373"); ("unit", JStr "EPS"); ("label", JStr "WAF/CRS (aynı corpus, LG)")];
          JObj [("value", JStr "16.560"); ("unit", JStr "EPS"); ("label", JStr "ModSec CRS replay")];
          JObj [("value", JStr "16.93×"); ("unit", JStr ([])); ("label", JStr "LG / ModSec hız oranı")];
          JObj [("value", JStr "3.57"); ("unit", JStr "µs"); ("label", JStr "Satır başı latency (LG)")];
          JObj [("value", JStr "16"); ("unit", JStr ([])); ("label", JStr "Bench worker sayısı")]])];
      JObj [
        ("label", JStr "Stabilite & kanıt");
        ("items", JArr [
          JObj [("value", JStr (dec T)); ("unit", JStr ([])); ("label", JStr "Otomatik test")];
          JObj [("value", JStr "72"); ("unit", JStr "saat"); ("label", JStr "VM soak süresi")];
          JObj [("value", JStr "864"); ("unit", JStr ([])); ("label", JStr "Soak örnek sayısı")];
          JObj [("value", JStr "0"); ("unit", JStr ([])); ("label", JStr "Soak hata")];
          JObj [("value", JStr "14"); ("unit", JStr ([])); ("label", JStr "Kanıt dosyası")];
          JObj [("value", JStr "80"); ("unit", JStr "IP"); ("label", JStr "JA3 cluster test")]])];
      JObj [
        ("label", JStr "Erişim & kurulum");
        ("items", JArr [
          JObj [("value", JStr "3.65k+"); ("unit", JStr ([])); ("label", JStr "Site ziyareti")];
          JObj [("value", JStr "56"); ("unit", JStr ([])); ("label", JStr "Ülke erişimi")];
          JObj [("value", JStr "~15"); ("unit", JStr "dk"); ("label", JStr "Core kurulum süresi")];
          JObj [("value", JStr "9091"); ("unit", JStr ([])); ("label", JStr "Prometheus port")];
          JObj [("value", JStr "8443"); ("unit", JStr ([])); ("label", JStr "Dashboard port (prod)")]])]])].
Definition PACKAGES : json := JObj [
    ("eyebrow", JStr "//:3Paket");
    ("title", JStr "3 paketin tek zincirde birleşimi");
    ("hero", JStr "Log Guardian, üretimde genelde ayrı ayrı kurulan üç yazılım yığınını tek self-hosted üründe birleştirir — ölçülebilir kanıtla.");
    ("merge", JArr [
      JObj [
        ("n", JStr "01");
        ("name", JStr "Ban motoru");
        ("company", JStr "Fail2ban");
        ("replaces", JStr "Fail2ban + iptables script yığını");
        ("body", JStr "Fail2ban'ı ayrı kurmazsınız. Log satırından ipset/XDP kernel ban ~20 ms — policy, tenant, FP trust tek pipeline.");
        ("metrics", JArr [JStr "~20 ms medyan"; JStr "ipset + XDP"; JStr "0 fail (5 dk)"]);
        ("color", JStr "neon")];
      JObj [
        ("n", JStr "02");
        ("name", JStr "WAF / CRS katmanı");
        ("company", JStr "ModSecurity");
        ("replaces", JStr "ModSecurity + nginx ayrı entegrasyon");
        ("body", JStr "ModSecurity'yi ayrı modül olarak bağlamazsınız. OWASP CRS 121 kural, PCRE2 JIT — nginx log satırından tek geçiş.");
        ("metrics", JArr [JStr "%100 CRS parity"; JStr "%100 recall"; JStr "%0.2 FP"]);
        ("color", JStr "turq")];
      JObj [
        ("n", JStr "03");
        ("name", JStr "SOC & sinyal katmanı");
        ("company", JStr "CrowdSec");
        ("replaces", JStr "CrowdSec bouncer + ayrı konsol + manuel kanıt");
        ("body", JStr ("CrowdSec parçalı mimarisine gerek yok — isteğe bağlı LAPI sinyali ban API'ye akar. Prometheus, SOC timeline, " ++ T_TEST ++ ", 14 kanıt dosyası, Telegram ops — tek panel."));
        ("metrics", JArr [JStr T_TEST; JStr "72h soak PASS"; JStr "14 kanıt dosyası"]);
        ("color", JStr "cyan")]]);
    ("result", JObj [
      ("title", JStr "Birleşince ne olur?");
      ("bullets", JArr [
        JStr "Tek kurulum (~15 dk) — üç ayrı araç + entegrasyon scripti yok";
        JStr "Tek metrik zinciri — loganalyzer_* tenant etiketli, Grafana/dashboard uyumlu";
        JStr "Tek kanıt paketi — competitive-proof PDF/JSON, rakiplerde parçalı veya yok";
        JStr "Tek operatör akışı — alert → ban → Telegram ack → SOC timeline"]);
      ("big", JArr [
        JObj [("v", JStr "3→1"); ("l", JStr "Araç yığını")];
        JObj [("v", JStr "~20ms"); ("l", JStr "Uçtan uca ban")];
        JObj [("v", JStr "%100"); ("l", JStr "Recall + parity")];
        JObj [("v", JStr (dec T)); ("l", JStr "Otomatik test")]])]);
    ("tiers", JObj [
      ("title", JStr "Ürün sürümleri (Core · Pro · Pro Plus)");
      ("items", JArr [
        JObj [
          ("tag", JStr "Core");
          ("time", JStr "~15 dk");
          ("body", JStr "log → WAF → ipset ban. Üretimde tek başına yeterli.");
          ("includes", JArr [JStr "nginx parser"; JStr "OWASP CRS"; JStr "ban pipeline"; JStr "ipset"; JStr "Prometheus"])];
        JObj [
          ("tag", JStr "Pro");
          ("time", JStr "kurulum sonrası");
          ("body", JStr "eBPF daemon, dashboard (:8443), filo, etcd mesh, panolar.");
          ("includes", JArr [JStr "XDP/eBPF"; JStr "SOC timeline"; JStr "fleet sync"; JStr "alert kuralları"])];
        JObj [
          ("tag", JStr "Pro Plus");
          ("time", JStr "kurumsal vitrin");
          ("body", JStr "PRO + K8s/Helm kanıtı (kind), fleet vitrin, opsiyonel Wasm/mesh — koruma aynı, sadece görünürlük+entegrasyon kanıtı.");
          ("includes", JArr [JStr "kind + Helm"; JStr "fleet vitrin"; JStr "Wasm/mesh (ops.)"; JStr "XDR/Copilot roadmap"])]])]);
    ("strengths", JArr [
      JObj [
        ("title", JStr "Tek zincir entegrasyon");
        ("body", JStr "Fail2ban log okur ban atar; ModSec ayrı modül; SIEM ayrı agent. Bizde log satırı → CRS → ban → metrik tek process hattında.");
        ("stat", JStr "1 hat")];
      JObj [
        ("title", JStr "Ölçülebilir ban hızı");
        ("body", JStr "bench-ban-latency.json: 21 örnek, medyan 20.2 ms, hedef 75 ms — PASS. Rakipler saniye–dakika ölçeğinde.");
        ("stat", JStr "~20 ms")];
      JObj [
        ("title", JStr "Şeffaf kanıt");
        ("body", JStr (T_AUTO ++ ", 14 JSON/PDF dosya, 72h soak 864/0. Rakiplerde otomatik paket yok."));
        ("stat", JStr T_TEST)];
      JObj [
        ("title", JStr "Türk yapımı · MIT");
        ("body", JStr "Self-hosted, vendor lock-in yok, Türkçe doküman. Kaynak tamamen açık.");
        ("stat", JStr "MIT")]])].
Definition LAYERS : json := JArr [
    JObj [("tag", JStr "Core"); ("body", JStr "log → WAF → ipset ban (~15 dk)")];
    JObj [("tag", JStr "Pro"); ("body", JStr "eBPF daemon, dashboard, metrikler, fleet")];
    JObj [
      ("tag", JStr "Pro Plus");
      ("body", JStr "K8s/Helm kanıtı (kind), fleet vitrin, opsiyonel Wasm/mesh (XDR/Copilot roadmap)")]].
Definition SETUP_paths : json := JArr [
    JObj [
      ("id", JStr "A");
      ("title", JStr "Sıfır sunucu — .deb paketi");
      ("badge", JStr "önerilen");
      ("note", JStr "Derleme gerektirmez. Paket binary, systemd unit'leri, kuralları ve script'leri içerir. Upgrade güvenli: mevcut /etc/log-guardian/rules.conf silinmez. İndir: GitHub Releases (log-guardian_*_amd64.deb) ya da repodan bash scripts/build_deb.sh → dist/.");
      ("steps", JArr [
        JObj [
          ("number", JStr "01");
          ("title", JStr "Bağımlılıklar");
          ("description", JStr "İlk kurulumda Debian paket bağımlılıklarını yükleyin. nginx kurulu değilse aynı komutla eklenebilir.");
          ("command", JStr ("sudo apt-get update" ++ [10] ++ "sudo apt-get install -y ipset libbpf1 libcurl4 libpcre2-8-0 \" ++ [10] ++ "  libsqlite3-0 libssl3 libelf1 liburing2 nginx"));
          ("output", JStr ("Reading package lists... Done" ++ [10] ++ "Setting up ipset (7.x) ..." ++ [10] ++ "Setting up libbpf1:amd64 ..." ++ [10] ++ "Setting up nginx (1.x) ..."))];
        JObj [
          ("number", JStr "02");
          ("title", JStr "Paketi kur");
          ("description", JStr "dpkg -i sonrası bağımlılık hatası görürseniz apt-get install -f çalıştırın. postinst; log-guardian kullanıcısını, izinleri, systemd unit'lerini ve varsayılan rules.conf'u otomatik hazırlar.");
          ("command", JStr ("sudo dpkg -i log-guardian_*_amd64.deb" ++ [10] ++ "sudo apt-get install -f   # bağımlılık eksikse"));
          ("output", JStr ("Selecting previously unselected package log-guardian." ++ [10] ++ "Setting up log-guardian (72e5a7b) ..." ++ [10] ++ "[deb_post_install] rules.conf olusturuldu: /etc/log-guardian/rules.conf" ++ [10] ++ [10] ++ "log-guardian kuruldu."))];
        JObj [
          ("number", JStr "03");
          ("title", JStr "İlk çalıştırma ve API güvenliği");
          ("description", JStr "nginx log formatı, FP trust ve API güvenliğini (token, fail-closed) tek seferde hazırlar. Script'ler paket içindedir (/usr/local/share/log-guardian/scripts/).");
          ("command", JStr ("sudo bash /usr/local/share/log-guardian/scripts/install_first_run.sh" ++ [10] ++ "sudo bash /usr/local/share/log-guardian/scripts/ensure_api_security.sh" ++ [10] ++ "bash /usr/local/share/log-guardian/scripts/post_install_verify.sh"));
          ("output", JStr ("[OK] log-guardian.service active" ++ [10] ++ "[OK] log-guardian-daemon.service active" ++ [10] ++ "[OK] --health IPC" ++ [10] ++ "[OK] API fail-closed (tokensiz 403)" ++ [10] ++ [10] ++ "=== ozet ===" ++ [10] ++ "  FAIL: 0   WARN: 0" ++ [10] ++ "[OK] post_install_verify — kurulum kapisi gecti"))]])];
    JObj [
      ("id", JStr "B");
      ("title", JStr "Kaynak kod — derleme ve kurulum");
      ("badge", JStr "geliştirici");
      ("note", JStr "GitHub reposunu klonlayıp derlersiniz. Geliştirme, özelleştirme ve tam kaynak incelemesi için uygundur. install.sh; systemd unit'lerini, kuralları ve nginx log formatını hazırlar.");
      ("steps", JArr [
        JObj [
          ("number", JStr "01");
          ("title", JStr "Kaynak ve derleme");
          ("description", JStr "Repoyu klonlayın, tüm çekirdeklerle derleyin ve ana kurulum scriptini çalıştırın.");
          ("command", JStr ("git clone https://github.com/kurtulusutkucenik/Linux-Log-Guardian.git" ++ [10] ++ "cd Linux-Log-Guardian" ++ [10] ++ "make -j$(nproc)" ++ [10] ++ "sudo bash install.sh"));
          ("output", JStr ("cc -O2 ... -o log-guardian" ++ [10] ++ "cc -O2 ... -o log-guardian-daemon" ++ [10] ++ "[install] systemd unit'leri kuruldu" ++ [10] ++ "[install] rules.conf hazir"))];
        JObj [
          ("number", JStr "02");
          ("title", JStr "İlk çalıştırma ve token senkronu");
          ("description", JStr "Servisleri ayağa kaldırır, API token senkronunu ve dashboard bağlantısını hazırlar.");
          ("command", JStr ("sudo bash scripts/install_first_run.sh" ++ [10] ++ "sudo bash scripts/ensure_api_security.sh" ++ [10] ++ "bash scripts/sync_dashboard_api_token.sh"));
          ("output", JStr ("[OK] servisler aktif" ++ [10] ++ "[OK] API token yazildi (.env)" ++ [10] ++ "[OK] dashboard token senkron"))]])]].
Definition SETUP_common : json := JObj [
    ("title", JStr "Ortak adımlar (A ve B sonrası)");
    ("steps", JArr [
      JObj [
        ("number", JStr "01");
        ("title", JStr "Nginx log formatı");
        ("description", JStr "WAF'ın request body ve X-Forwarded-For okuyabilmesi için log_guardian log formatı şarttır. Kurulum çoğu durumda otomatik uygular; STRICT modda doğrulayın.");
        ("command", JStr ("# examples/nginx-log-guardian.conf → site config" ++ [10] ++ "STRICT=1 bash scripts/check_nginx_log_format.sh" ++ [10] ++ "sudo nginx -t && sudo systemctl reload nginx"));
        ("output", JStr ("[check] log_format log_guardian bulundu" ++ [10] ++ "[check] access_log log_guardian aktif" ++ [10] ++ "nginx: configuration file test is successful"))];
      JObj [
        ("number", JStr "02");
        ("title", JStr "Sağlık ve durum doğrulama");
        ("description", JStr "Daemon IPC, servis durumu ve BPF özelliklerini kontrol edin. Yeşil kapı: post_install_verify sonunda FAIL: 0 görmelisiniz.");
        ("command", JStr ("sudo log-guardian --health" ++ [10] ++ "sudo log-guardian --status" ++ [10] ++ "bash scripts/post_install_verify.sh"));
        ("output", JStr ("[HEALTH] daemon IPC: OK" ++ [10] ++ "[HEALTH] BPF xdp=ON execve=OFF lineage=OFF" ++ [10] ++ [10] ++ "=== ozet ===" ++ [10] ++ "  FAIL: 0   WARN: 0"))];
      JObj [
        ("number", JStr "03");
        ("title", JStr "Metrik ve ilk ban testi");
        ("description", JStr "Prometheus metriklerini kontrol edin; trafik sonrası sayaçların arttığını görün. Bir saldırı satırı enjekte edip ipset'te ban'ı doğrulayabilirsiniz.");
        ("command", JStr ("curl -s http://127.0.0.1:9091/metrics | grep loganalyzer_" ++ [10] ++ "sudo ipset list log-guardian-ban | head"));
        ("output", JStr ("loganalyzer_log_lines_total{tenant_id=" ++ dq ++ "default" ++ dq ++ "} 8" ++ [10] ++ "loganalyzer_ban_success_total{tenant_id=" ++ dq ++ "default" ++ dq ++ "} 8" ++ [10] ++ "Name: log-guardian-ban" ++ [10] ++ "Members:" ++ [10] ++ "203.0.113.250"))];
      JObj [
        ("number", JStr "04");
        ("title", JStr "VirtualBox / XDP yok (laptop & VM)");
        ("description", JStr "eBPF/XDP olmayan ortamlarda --no-xdp ile ipset tabanlı ban yeterlidir. Servis bağımlılığı hatası alırsanız onarım scripti tek komuttur.");
        ("command", JStr ("sudo bash install.sh --no-xdp" ++ [10] ++ "sudo bash scripts/install_first_run.sh" ++ [10] ++ "# servis FAIL ise:" ++ [10] ++ "sudo bash scripts/repair_no_xdp_stack.sh"));
        ("output", JStr ("[install] XDP atlandi — ipset ban aktif" ++ [10] ++ "[OK] servisler aktif (no-xdp)"))]])].
Definition SETUP_dashboard : json := JObj [
    ("title", JStr "Pro dashboard — kurulum sonrası (opsiyonel)");
    ("note", JStr "Dashboard bu tanıtım sitesinde değil, kurduğunuz kendi makinenizde çalışır. Prod stack Caddy + Docker ile https://localhost:8443 üzerinden sunulur.");
    ("steps", JArr [
      JObj [
        ("number", JStr "01");
        ("title", JStr "Prod stack'i başlat");
        ("description", JStr "Dashboard'ı kendi sunucunuzda derleyip ayağa kaldırır. Giriş: admin / .env içindeki DASHBOARD_ADMIN_PASSWORD.");
        ("command", JStr ("bash scripts/dashboard_refresh.sh" ++ [10] ++ "# aynı makinede tarayıcı: https://localhost:8443"));
        ("output", JStr ("[dashboard] docker compose build + up" ++ [10] ++ "[OK] https://localhost:8443 hazir"))];
      JObj [
        ("number", JStr "02");
        ("title", JStr "Uzak VPS için SSH tüneli");
        ("description", JStr "Dashboard'ı internete açmadan güvenle görüntülemek için SSH tüneli kurun; önce sunucuyu sertleştirin.");
        ("command", JStr ("ssh -L 8443:127.0.0.1:8443 kullanici@sunucu" ++ [10] ++ "# public VPS'te önce:" ++ [10] ++ "sudo env LG_NEW_PASSWORD='...' bash scripts/laptop_harden.sh"));
        ("output", JStr ("[harden] demo parola degistirildi" ++ [10] ++ "[harden] fail-closed profil aktif"))]])].
Definition SETUP : json := JObj [
  ("eyebrow", JStr "//:Setup");
  ("title", JStr "Kurulum rehberi (detaylı)");
  ("sub", JStr "Ubuntu/Debian üzerinde sıfırdan Core kurulumu (~15 dk) — komut komut.");
  ("intro", JStr "Kaynak: GitHub — Linux-Log-Guardian. İki yol var: hazır .deb paketi (önerilen) veya kaynak koddan derleme. Laptop / sanal makinede eBPF/XDP olmadan da (ipset tabanlı ban) çalışır. Aşağıdaki adımlar üretim sunucusu içindir; her komutun beklenen çıktısı da verilmiştir.");
  ("requirements", JArr [
    JStr "Ubuntu 22.04 / 24.04 veya Debian 12 (amd64)";
    JStr "nginx + yazılabilir access log (log_guardian formatı)";
    JStr "Root veya sudo (systemd, ipset, /etc/log-guardian)";
    JStr "~200 MB disk, 128 MB RAM (Core); Pro için Docker";
    JStr "Opsiyonel Pro: eBPF/XDP için 5.10+ kernel, Docker (dashboard/metrik)"]);
  ("paths", SETUP_paths);
  ("common", SETUP_common);
  ("dashboard", SETUP_dashboard);
  ("tip", JStr "İpucu: Tek komut kanıt — STABILITY=1 bash scripts/full_proof_pack.sh. 3 dk demo: SKIP_WEBHOOK=1 bash scripts/demo_3min.sh. Operasyon cron: bash scripts/install_operator_cron.sh. Detay: docs/QUICKSTART_NGINX.md · docs/LAPTOP_OPS.md · docs/JWT_ROTATION.md.")].
Definition EVIDENCE : json := JObj [
    ("eyebrow", JStr "//:Evidence");
    ("title", JStr "Kanıt paketi");
    ("note", JStr "Tek komut: STABILITY=1 bash scripts/full_proof_pack.sh → PDF + release-pack.zip + data-room.zip");
    ("fullPackCmd", JStr "STABILITY=1 bash scripts/full_proof_pack.sh");
    ("demoCmd", JStr "SKIP_WEBHOOK=1 bash scripts/demo_3min.sh");
    ("files", JArr [
      JStr "competitive-proof.pdf";
      JStr "competitive-proof.json";
      JStr "bench-vs-modsec.json";
      JStr "fp-report.json";
      JStr "bench-ban-latency.json";
      JStr "soak-report.json";
      JStr "SOAK_SUMMARY.md";
      JStr "sprint-prod-proof.json";
      JStr "siem-export-report.json";
      JStr "taxii-feed-report.json";
      JStr "vm-sprint-proof.json";
      JStr "geoip-mmdb-report.json";
      JStr "webhook-route-proof-report.json";
      JStr "webhook-telegram-live-report.json"])].
Definition HONEST : json := JObj [
    ("eyebrow", JStr "//:Honest");
    ("title", JStr "Dürüst sınırlar");
    ("items", JArr [
      JStr "Reaktif mimari — log satırı düşene kadar ilk istek geçebilir; ModSec inline'ın ilk isteği anında engellemesine karşı biz reaktifiz.";
      JStr "Cloudflare / ticari WAF yerine geçmiyoruz — CDN arkasında origin'de son savunma hattı (EDGE_PROTECTION.md).";
      JStr "L3/L4 DDoS absorb etmiyoruz — önce CDN + nginx rate limit, sonra Log Guardian.";
      JStr "CrowdSec rakip değil tamamlayıcı — Guardian + CrowdSec LAPI sinyali → ban API.";
      JStr "Dağıtık botnet — IP başına ban; topluluk sinyali isteğe bağlı CrowdSec katmanı.";
      JStr "Yapar: log → CRS/WAF → ~20 ms kernel ban, kanıt PDF, Telegram ops, MIT self-hosted."])].
Definition CONTACT : json := JObj [
    ("eyebrow", JStr "//:Contact");
    ("title", JStr "İletişim & katkı");
    ("body", JStr "Sorular, iş birliği veya katkı için yazın. Hata bildirimi ve pull request'ler açık kaynak ruhuyla memnuniyetle karşılanır.");
    ("email", JStr "kurtulusutkucenikcontact@gmail.com");
    ("github", JStr "https://github.com/kurtulusutkucenik/Linux-Log-Guardian")].
Definition SITE_ORIGIN : jstring := "https://ceniklinuxlogguardian.org".
Definition SHARE_TESTS_TG : jstring := SITE_ORIGIN ++ "/testler?utm_source=tg".
