(* ===== verification/LandingCopy.v ===== *)
(** The texts of the landing page: the Turkish and the English page and the shorter
    overrides of landing/lib/i18n/copy.ts. *)

From S2P Require Import Prelude JsString JsNum Json LandingContent.

Definition MIT_HREF : jstring := "https://github.com/kurtulusutkucenik/Linux-Log-Guardian?tab=MIT-1-ov-file".
Definition CO_TR_vs : json := JObj [
    ("eyebrow", fld "eyebrow" VS);
    ("title", fld "title" VS);
    ("sub", fld "sub" VS);
    ("advTitle", fld "advTitle" VS);
    ("advLead", fld "advLead" VS);
    ("advantages", fld "advantages" VS);
    ("cols", fld "cols" VS);
    ("groups", jmap (λ g, JObj [
        ("label", fld "label" g);
        ("honest", fld "honest" g);
        ("winners", fld "winners" g);
        ("rows", fld "rows" g)]) (fld "groups" VS));
    ("note", fld "note" VS);
    ("legend", JStr "Kırmızı = o satırda üstün olan");
    ("crowdsecBadge", JStr "tamamlayıcı");
    ("crowdsecComplementary", JStr "CrowdSec rakip değil — LAPI sinyali kernel ban hattına tamamlayıcı katman (crowdsec-bouncer testi).");
    ("pdfCta", JStr "Rakip karşılaştırma PDF — 1 sayfa");
    ("testsCta", JStr (dec PROOF_TEST_COUNT ++ " doğrulama testi →"))].
Definition CO_TR_charts : json := JObj [
    ("eyebrow", fld "eyebrow" CHARTS);
    ("title", fld "title" CHARTS);
    ("sub", fld "sub" CHARTS);
    ("honestBadge", JStr "dürüst sınır");
    ("targetLabel", JStr "Hedef");
    ("profile", fld "profile" CHARTS);
    ("latency", fld "latency" CHARTS);
    ("soak", fld "soak" CHARTS);
    ("fp", fld "fp" CHARTS);
    ("eps", fld "eps" CHARTS);
    ("recall", fld "recall" CHARTS)].
Definition CO_TR_proof : json := JObj [
    ("eyebrow", JStr "//:Proof · Ölçülmüş kanıt");
    ("testsSuffix", JStr "otomatik doğrulama testi.");
    ("passedSuffix", JStr "geçti.");
    ("body", JStr "Slayt değil, tekrar üretilebilir kanıt. OWASP CRS parity, false positive kapıları, ban gecikmesi bench'leri, corpus recall ve 72 saatlik soak — hepsi ölçülmüş, otomatik ve halka açık test matrisinde görünür.");
    ("bodyMatrix", JStr "ile birebir aynı matris.");
    ("ctaAll", JStr "Tüm testleri gör");
    ("ctaPdf", JStr "Kanıt PDF");
    ("ctaFullPack", JStr "Tam kanıt paketi");
    ("fullPackCmd", JStr "STABILITY=1 bash scripts/full_proof_pack.sh");
    ("statLabels", JArr [JStr "Toplam test"; JStr "Geçti"; JStr "Soak PASS"; JStr "Ban pipeline E2E"]);
    ("badges", JArr [
      JStr "OWASP CRS parity %100";
      JStr "72h soak PASS";
      JStr "API fail-closed";
      JStr "false positive %0.2";
      JStr "SRI + CSP hardened";
      JStr "MIT açık kaynak"])].
Definition CO_TR_honest : json := JObj [
    ("eyebrow", fld "eyebrow" HONEST);
    ("title", fld "title" HONEST);
    ("items", fld "items" HONEST);
    ("layersEyebrow", JStr "//:Layers");
    ("layersTitle", JStr "Sürümler");
    ("layers", LAYERS);
    ("layersNote", JStr "Pro ve Pro Plus koruma seviyesini değiştirmez; yalnızca görünürlük ve entegrasyon kanıtı ekler. XDR, Wasm ve LLM Copilot Pro Plus'ın uzun vadeli opsiyonel roadmap'idir — Core tek başına üretimde kullanılabilir.")].
Definition CO_TR_setup : json := JObj [
    ("eyebrow", fld "eyebrow" SETUP);
    ("title", fld "title" SETUP);
    ("sub", fld "sub" SETUP);
    ("intro", fld "intro" SETUP);
    ("requirementsTitle", JStr "Gereksinimler");
    ("requirements", fld "requirements" SETUP);
    ("dashboardBadge", JStr "Pro · opsiyonel");
    ("paths", fld "paths" SETUP);
    ("common", fld "common" SETUP);
    ("dashboard", fld "dashboard" SETUP);
    ("tip", fld "tip" SETUP)].
Definition CO_TR_evidence : json := JObj [
    ("eyebrow", fld "eyebrow" EVIDENCE);
    ("title", fld "title" EVIDENCE);
    ("note", fld "note" EVIDENCE);
    ("fullPackCmd", fld "fullPackCmd" EVIDENCE);
    ("demoCmd", fld "demoCmd" EVIDENCE);
    ("files", fld "files" EVIDENCE);
    ("update", JStr "Güncelle: STABILITY=1 bash scripts/full_proof_pack.sh")].
Definition CO_TR_contact : json := JObj [
    ("eyebrow", fld "eyebrow" CONTACT);
    ("title", fld "title" CONTACT);
    ("body", fld "body" CONTACT);
    ("ctaEmail", JStr "E-posta gönder");
    ("ctaGithub", JStr "GitHub kaynak");
    ("email", fld "email" CONTACT);
    ("github", fld "github" CONTACT)].
Definition CO_TR_footer : json := JObj [
    ("desc", JStr "nginx access log → WAF/CRS → kernel ban. Tek zincir, self-hosted, MIT lisanslı. Türkiye'de geliştirildi.");
    ("soak", JStr "72h soak PASS · 0 fail");
    ("columns", JArr [
      JObj [
        ("title", JStr "Ürün");
        ("links", JArr [
          JObj [("label", JStr "3 Paket birleşimi"); ("href", JStr "/paketler")];
          JObj [("label", JStr "Pipeline"); ("href", JStr "#pipeline")];
          JObj [("label", JStr "Sayısal değerler"); ("href", JStr "#sayilar")];
          JObj [("label", JStr "Rakiplerle kıyas"); ("href", JStr "#rakipler")];
          JObj [("label", JStr "Kanıt paketi"); ("href", JStr "#kanit")]])];
      JObj [
        ("title", JStr "Geliştirici");
        ("links", JArr [
          JObj [("label", JStr "Kurulum rehberi"); ("href", JStr "#kurulum")];
          JObj [("label", JStr "Testler"); ("href", JStr "/testler")];
          JObj [("label", JStr "Telegram paylaşım"); ("href", JStr SHARE_TESTS_TG)];
          JObj [("label", JStr "security.txt"); ("href", JStr "/.well-known/security.txt")];
          JObj [("label", JStr "Kanıt PDF"); ("href", JStr "/evidence/competitive-proof.pdf")];
          JObj [
            ("label", JStr "Changelog");
            ("href", JStr "https://github.com/kurtulusutkucenik/Linux-Log-Guardian/releases")];
          JObj [("label", JStr "GitHub"); ("href", JStr "https://github.com/kurtulusutkucenik/Linux-Log-Guardian")]])];
      JObj [
        ("title", JStr "Proje");
        ("links", JArr [
          JObj [("label", JStr "Hakkında"); ("href", JStr "#iletisim")];
          JObj [("label", JStr "İletişim"); ("href", JStr "#iletisim")];
          JObj [("label", JStr "Katkı (PR)"); ("href", JStr "https://github.com/kurtulusutkucenik/Linux-Log-Guardian")];
          JObj [("label", JStr "MIT Lisans"); ("href", JStr MIT_HREF)]])]]);
    ("copyPrefix", JStr "Linux Log Guardian · Türk yapımı");
    ("copySuffix", JStr "açık kaynak");
    ("licenseHref", JStr MIT_HREF)].
Definition CO_TR_tests : json := JObj [
    ("eyebrow", JStr "//:Proof · Test Matrisi");
    ("title", JStr "Doğrulama testleri");
    ("intro", JStr "Dashboard ile aynı otomatik test matrisi — kurulum kapıları, CRS parity, FP, ban gecikmesi, corpus recall ve 72h soak. Tümü ölçülmüş, tekrar üretilebilir.");
    ("allPassed", JStr "Tüm testler geçti");
    ("summary", JStr "Test özeti");
    ("passedWord", JStr "test geçti");
    ("warnWord", JStr "uyarı");
    ("failWord", JStr "kaldı");
    ("ctaPdf", JStr "Kanıt PDF");
    ("filterAll", JStr "Tümü");
    ("filterGate", JStr "Kurulum & güvenlik kapıları");
    ("filterProof", JStr "Rekabet & güvenlik kanıtı");
    ("gateHeading", JStr "Kurulum ve güvenlik kapıları");
    ("proofHeading", JStr "Rekabet ve güvenlik kanıtı");
    ("statusPass", JStr "GEÇTİ");
    ("statusWarn", JStr "UYARI");
    ("statusFail", JStr "KALDI");
    ("statusPending", JStr "BEKLİYOR");
    ("researcherBanner", JStr ("Güvenlik araştırmacısı notu: Bu site e-ticaret veya WooCommerce değil. /products.json, /wp-json/, /api/item yok — " ++ dec PROOF_TEST_COUNT ++ " otomatik doğrulama testi burada."))].
Definition CO_TR : json := JObj [
  ("marquee", MARQUEE_ITEMS);
  ("pipeline", JObj [
    ("eyebrow", fld "eyebrow" PIPELINE);
    ("title", fld "title" PIPELINE);
    ("sub", fld "sub" PIPELINE);
    ("note", fld "note" PIPELINE);
    ("steps", jmap (λ s, JObj [("n", fld "n" s); ("label", fld "label" s); ("hint", fld "hint" s)]) (fld "steps" PIPELINE))]);
  ("selected", JObj [
    ("eyebrow", fld "eyebrow" SELECTED);
    ("title", fld "title" SELECTED);
    ("lead", fld "lead" SELECTED);
    ("prev", JStr "Önceki kanıt");
    ("next", JStr "Sonraki kanıt");
    ("cards", jmap (λ c, JObj [
        ("tag", fld "tag" c);
        ("kicker", fld "kicker" c);
        ("title", fld "title" c);
        ("body", fld "body" c);
        ("chips", fld "chips" c)]) (fld "cards" SELECTED))]);
  ("vs", CO_TR_vs);
  ("charts", CO_TR_charts);
  ("proof", CO_TR_proof);
  ("honest", CO_TR_honest);
  ("setup", CO_TR_setup);
  ("evidence", CO_TR_evidence);
  ("contact", CO_TR_contact);
  ("footer", CO_TR_footer);
  ("tests", CO_TR_tests)].
Definition SELECTED_BODIES_EN : json := JArr [
    JStr "Single chain: nginx log → OWASP CRS → ~20 ms kernel ban. Production in ~15 minutes.";
    JStr "Fleet, SOC timeline, dashboards — an optional layer on your own server after install.";
    JStr (dec PROOF_TEST_COUNT ++ " automated tests, competitive PDF, 72h soak — the same matrix as dashboard /tests.");
    JStr "Tenant-labeled Prometheus metrics, dashboards and alert rules — self-hosted observability.";
    JStr "Multi-node fleet: agent sync, etcd mesh policy and targeted command dispatch — from one panel.";
    JStr "TAXII/STIX threat feed + Telegram SOC: alert, ban and one-click 'ack' — live operator flow.";
    JStr "XDP filter + execve/lineage uprobes — kernel-level packet drop and syscall tracing. On laptops, --no-xdp with ipset is enough.";
    JStr "Distributed scanner detection: same JA3 fingerprint + different IP cluster, 100% recall — 80 IP live test.";
    JStr "Attack tree, lineage probe, syscall uprobe — long-term optional layer; attack chain and covert channel detection.";
    JStr "Custom rule plugins via a Wasm runtime — marketplace model, extend without touching Core.";
    JStr "JSON event_type stream — SIEM export proof to Splunk/Elastic/Vector targets (siem-export-report.json).";
    JStr "Tarpit server + trap watcher — slow the attacker and honeypot signal; deception layer."].
Definition VS_ROWS_EN_0 : json := JArr [
    JArr [
      JStr "Log → WAF → kernel ban";
      JStr "Single chain";
      JStr "Ban only";
      JStr "Piecemeal";
      JStr "WAF separate"];
    JArr [
      JStr "WAF/CRS throughput (same corpus)";
      JStr "280,373 EPS (16.93×)";
      JStr "—";
      JStr "—";
      JStr "16,560 EPS"];
    JArr [JStr "OWASP CRS parity"; JStr "100% (121 rules)"; JStr "—"; JStr "—"; JStr "Reference (100%)"];
    JArr [JStr "Real attack recall"; JStr "100% (23 cat, 1K+10K)"; JStr "—"; JStr "—"; JStr "100%"];
    JArr [JStr "Distributed / JA3 cluster ban"; JStr "100% (80 IP)"; JStr "—"; JStr "Signal-based"; JStr "—"];
    JArr [JStr "nginx inline consult"; JStr "PASS"; JStr "—"; JStr "—"; JStr "Separate module"];
    JArr [JStr "L7 application protection"; JStr "WAF + consult + eBPF"; JStr "—"; JStr "—"; JStr "CRS inline"];
    JArr [JStr "Kernel / eBPF (XDP) ban"; JStr "ipset + XDP"; JStr "iptables"; JStr "iptables/nft"; JStr "—"];
    JArr [JStr "False positive"; JStr "0.2% (measured)"; JStr "High"; JStr "Medium"; JStr "CRS-dependent"];
    JArr [JStr "Ban latency"; JStr "~20 ms"; JStr "sec–min"; JStr "sec"; JStr "Separate integration"];
    JArr [JStr "Short stability (5 min)"; JStr "PASS (0 fail)"; JStr "—"; JStr "—"; JStr "—"];
    JArr [JStr "72h soak"; JStr "PASS (864/0)"; JStr "—"; JStr "—"; JStr "—"];
    JArr [
      JStr "Evidence pack PDF+JSON";
      JStr "Automatic (14 files)";
      JStr "None";
      JStr "Partial";
      JStr "Module by module"];
    JArr [JStr "Automated test matrix"; JStr "80 tests"; JStr "—"; JStr "Partial"; JStr "—"];
    JArr [JStr "SOC timeline / dashboard"; JStr "Yes (:8443)"; JStr "—"; JStr "Console"; JStr "—"];
    JArr [JStr "Telegram ops + ack"; JStr "Yes (one-click)"; JStr "—"; JStr "Partial"; JStr "—"];
    JArr [JStr "Setup time"; JStr "~15 min"; JStr "minutes"; JStr "minutes"; JStr "hours (tuning)"]].
Definition VS_ROWS_EN_1 : json := JArr [
    JArr [
      JStr "Block the first request instantly";
      JStr "Reactive (log line)";
      JStr "Reactive";
      JStr "Partly";
      JStr "Inline (instant)"];
    JArr [JStr "Volumetric L3/L4 scrub"; JStr "None — CDN recommended"; JStr "None"; JStr "None"; JStr "None"];
    JArr [JStr "Community signal network"; JStr "Self-hosted"; JStr "—"; JStr "Yes (global)"; JStr "—"];
    JArr [JStr "Edge / Cloud WAF"; JStr "Origin layer"; JStr "—"; JStr "Bouncer"; JStr "Proxy mode"];
    JArr [JStr "Managed cloud / SaaS"; JStr "None (self-hosted)"; JStr "None"; JStr "Yes (console)"; JStr "—"]].
Definition SETUP_PATHS_EN : json := JArr [
    JObj [
      ("id", JStr "A");
      ("title", JStr "Fresh server — .deb package");
      ("badge", JStr "recommended");
      ("note", JStr "No build required. The package ships the binary, systemd units, rules and scripts. Upgrade-safe: an existing /etc/log-guardian/rules.conf is preserved. Get it from GitHub Releases (log-guardian_*_amd64.deb) or build with bash scripts/build_deb.sh → dist/.");
      ("steps", jmapi (λ i s, spread s [
          ("title", jix i (JArr [JStr "Dependencies"; JStr "Install the package"; JStr "First run and API security"]));
          ("description", jix i (JArr [
            JStr "On first install, add the Debian package dependencies. If nginx is missing it can be added in the same command.";
            JStr "If dpkg -i reports a dependency error, run apt-get install -f. The postinst step auto-creates the log-guardian user, permissions, systemd units and a default rules.conf.";
            JStr "Prepares the nginx log format, FP trust and API security (token, fail-closed) in one go. The scripts ship inside the package (/usr/local/share/log-guardian/scripts/)."]))]) (fld "steps" (jix 0 (fld "paths" SETUP))))];
    JObj [
      ("id", JStr "B");
      ("title", JStr "Source code — build and install");
      ("badge", JStr "developer");
      ("note", JStr "Clone the GitHub repo and build. Ideal for development, customization and full source review. install.sh sets up systemd units, rules and the nginx log format.");
      ("steps", jmapi (λ i s, spread s [
          ("title", jix i (JArr [JStr "Source and build"; JStr "First run and token sync"]));
          ("description", jix i (JArr [
            JStr "Clone the repo, build with all cores and run the main install script.";
            JStr "Brings services up and prepares the API token sync and dashboard connection."]))]) (fld "steps" (jix 1 (fld "paths" SETUP))))]].
Definition SETUP_COMMON_EN : json := JObj [
    ("title", JStr "Common steps (after A or B)");
    ("steps", jmapi (λ i s, spread s [
        ("title", jix i (JArr [
          JStr "Nginx log format";
          JStr "Health and status check";
          JStr "Metrics and first ban test";
          JStr "VirtualBox / no XDP (laptop & VM)"]));
        ("description", jix i (JArr [
          JStr "The log_guardian log format is required so the WAF can read the request body and X-Forwarded-For. Setup usually applies it automatically; verify in STRICT mode.";
          JStr "Check daemon IPC, service status and BPF features. Green gate: you should see FAIL: 0 at the end of post_install_verify.";
          JStr "Check Prometheus metrics; watch the counters rise after traffic. You can inject an attack line and verify the ban in ipset.";
          JStr "On environments without eBPF/XDP, --no-xdp with an ipset-based ban is enough. If a service dependency fails, the repair script is a single command."]))]) (fld "steps" (fld "common" SETUP)))].
Definition SETUP_DASHBOARD_EN : json := JObj [
    ("title", JStr "Pro dashboard — after install (optional)");
    ("note", JStr "The dashboard does not run on this landing site but on your own machine. The prod stack is served via Caddy + Docker at https://localhost:8443.");
    ("steps", jmapi (λ i s, spread s [
        ("title", jix i (JArr [JStr "Start the prod stack"; JStr "SSH tunnel for a remote VPS"]));
        ("description", jix i (JArr [
          JStr "Builds and brings up the dashboard on your own server. Login: admin / DASHBOARD_ADMIN_PASSWORD from .env.";
          JStr "To view the dashboard securely without exposing it to the internet, set up an SSH tunnel; harden the server first."]))]) (fld "steps" (fld "dashboard" SETUP)))].
Definition CO_EN_marquee : json := JArr [
    JStr "nginx log → WAF → kernel ban";
    JStr (dec PROOF_TEST_COUNT ++ " automated tests");
    JStr "72h soak PASS";
    JStr "~20 ms kernel ban";
    JStr "false positive 0.2%";
    JStr "real attack recall 100%";
    JStr "OWASP CRS parity 100%";
    JStr "MIT · Turkey";
    JStr "self-hosted · no vendor lock-in"].
Definition CO_EN_pipeline : json := JObj [
    ("eyebrow", JStr "//:Pipeline");
    ("title", JStr "Single chain: from log to kernel ban");
    ("sub", JStr "~20 ms from an nginx access log line to ipset ban — rivals have piecemeal architecture.");
    ("note", JStr "XDR, Wasm marketplace and LLM Copilot are long-term optional layers — Core is production-ready on its own.");
    ("steps", JArr [
      JObj [
        ("n", JStr "1");
        ("label", JStr "nginx access log");
        ("hint", JStr "writable access log, log_guardian format")];
      JObj [
        ("n", JStr "2");
        ("label", JStr "Parser + normalize");
        ("hint", JStr "URI, method, XFF, body — one schema")];
      JObj [
        ("n", JStr "3");
        ("label", JStr "CRS / WAF engine");
        ("hint", JStr "OWASP CRS, PCRE2 JIT, schema/BOLA")];
      JObj [("n", JStr "4"); ("label", JStr "Ban pipeline"); ("hint", JStr "policy + tenant + FP trust decision")];
      JObj [("n", JStr "5"); ("label", JStr "ipset / XDP kernel"); ("hint", JStr "~20 ms kernel ban")];
      JObj [
        ("n", JStr "6");
        ("label", JStr "Metrics + dashboard");
        ("hint", JStr "Prometheus tenant + SOC timeline")]])].
Definition CO_EN_selected : json := JObj [
    ("eyebrow", JStr "//:Selected");
    ("title", JStr "Selected proof");
    ("lead", JStr "Core · Pro · Proof — measurable results in a single chain.");
    ("prev", JStr "Previous proof");
    ("next", JStr "Next proof");
    ("cards", jmapi (λ i c, JObj [
        ("tag", fld "tag" c);
        ("kicker", fld "kicker" c);
        ("title", fld "title" c);
        ("body", jix i SELECTED_BODIES_EN);
        ("chips", fld "chips" c)]) (fld "cards" SELECTED))].
Definition CO_EN_vs : json := JObj [
    ("eyebrow", JStr "//:Vs");
    ("title", JStr "Compared with rivals");
    ("sub", JStr "Measured proof — Fail2ban / CrowdSec / ModSecurity architecture notes. The winner in each row is marked red.");
    ("advTitle", JStr "The advantages we give you");
    ("advLead", JStr "Fail2ban only bans, ModSecurity WAF is a separate module, CrowdSec needs a piecemeal stack. Log Guardian merges these three jobs in one chain — with measured proof.");
    ("advantages", JArr [
      JObj [
        ("k", JStr "One install, one chain");
        ("v", JStr "You don't install and integrate Fail2ban + ModSecurity + CrowdSec separately. nginx log → WAF/CRS → kernel ban in one product, ~15 min setup.")];
      JObj [
        ("k", JStr "~20 ms kernel ban");
        ("v", JStr "Median ~20 ms from log line to ipset/XDP ban. Fail2ban/CrowdSec stay in seconds–minutes; proven with 21 measured samples.")];
      JObj [
        ("k", JStr "280,373 EPS · 16.93× ModSec");
        ("v", JStr "On the same corpus with the same 121 OWASP CRS patterns (PCRE2 JIT), WAF/CRS throughput is 280,373 EPS — 16.93× faster than ModSec's 16,560 EPS. Measured and reproducible (bench-vs-modsec.json).")];
      JObj [
        ("k", JStr "100% recall + 100% CRS parity");
        ("v", JStr "121 OWASP CRS rules, 100% real-attack recall on a 1500-line corpus and full parity with ModSec — at 0.2% false positive.")];
      JObj [
        ("k", JStr "Distributed attack coverage");
        ("v", JStr "JA3 cluster detection + per-IP ban — 100% on an 80-IP live test. Fail2ban is single-IP; CrowdSec needs a separate signal network.")];
      JObj [
        ("k", JStr "Transparent, reproducible proof");
        ("v", JStr (dec PROOF_TEST_COUNT ++ " automated tests + a 14-file PDF/JSON evidence pack + 72h soak (864 samples, 0 errors). Rivals have no automatic proof or it's fragmented."))];
      JObj [
        ("k", JStr "Self-hosted · MIT · made in Turkey");
        ("v", JStr "Your data stays with you, no vendor lock-in, fully open source. SOC timeline, Prometheus metrics and Telegram ops in one panel (:8443).")]]);
    ("cols", JArr [JStr "Metric"; JStr "Log Guardian"; JStr "Fail2ban"; JStr "CrowdSec"; JStr "ModSec + CRS"]);
    ("groups", JArr [
      JObj [
        ("label", JStr "Strengths (measured)");
        ("honest", JBool false);
        ("winners", fld "winners" (jix 0 (fld "groups" VS)));
        ("rows", VS_ROWS_EN_0)];
      JObj [
        ("label", JStr "Honest limits");
        ("honest", JBool true);
        ("winners", fld "winners" (jix 1 (fld "groups" VS)));
        ("rows", VS_ROWS_EN_1)]]);
    ("note", JStr "Honest limit: in some areas rivals are clearly better (red cells). ModSec + CRS blocks the first request inline instantly (we're reactive — the first request may pass until the log line drops); CrowdSec is strong in its distributed community signal network and managed SaaS console. In return, on the same corpus with the same 121 CRS patterns our WAF/CRS throughput is 280,373 EPS — 16.93× ModSec's 16,560 EPS (bench-vs-modsec.json).");
    ("legend", JStr "Red = the winner in that row");
    ("crowdsecBadge", JStr "complementary");
    ("crowdsecComplementary", JStr "CrowdSec is not a rival — LAPI signal is a complementary layer to the kernel ban path (crowdsec-bouncer test).");
    ("pdfCta", JStr "Competitive comparison PDF — 1 page");
    ("testsCta", JStr (dec PROOF_TEST_COUNT ++ " validation tests →"))].
Definition CO_EN_charts : json := JObj [
    ("eyebrow", JStr "//:Charts");
    ("title", JStr "Compared in charts");
    ("sub", JStr "Derived from measured proof (competitive-proof.json, bench-vs-modsec.json, fp-report.json, bench-ban-latency.json). Our line is phosphor turquoise.");
    ("honestBadge", JStr "honest limit");
    ("targetLabel", JStr "Target");
    ("profile", spread (fld "profile" CHARTS) [
      ("title", JStr "Performance profile (9 axes)");
      ("hint", JStr "Higher = better · 0–100 normalized · Throughput: bench-vs-modsec.json EPS ratio (280k vs 16.5k) — LG not scored 100");
      ("categories", JArr [
        JStr "Single chain";
        JStr "Recall";
        JStr "Low FP";
        JStr "Ban speed";
        JStr "Proof";
        JStr "Throughput";
        JStr "Distributed";
        JStr "Docs";
        JStr "Setup"])]);
    ("latency", spread (fld "latency" CHARTS) [
      ("title", JStr "Ban latency — measurement samples");
      ("hint", JStr "Lower = better · 21 samples (bench-ban-latency.json) · target 75 ms")]);
    ("soak", spread (fld "soak" CHARTS) [
      ("title", JStr "72h soak — service uptime");
      ("hint", JStr "Higher = better · 864 samples · 0 errors")]);
    ("fp", spread (fld "fp" CHARTS) [
      ("title", JStr "False positive comparison");
      ("hint", JStr "Lower = better · % · LG measured, rivals architectural note")]);
    ("eps", spread (fld "eps" CHARTS) [
      ("title", JStr "WAF/CRS throughput (EPS) — same corpus");
      ("hint", JStr "Higher = better · bench-vs-modsec.json · same 121 CRS patterns, PCRE2 JIT · 16.93× ModSec")]);
    ("recall", spread (fld "recall" CHARTS) [
      ("title", JStr "Attack recall — by category");
      ("hint", JStr "Higher = better · corpus · %");
      ("labels", JArr [JStr "SQLi"; JStr "XSS"; JStr "RCE"; JStr "LFI"; JStr "Bot"; JStr "Distributed"])])].
Definition CO_EN_proof : json := JObj [
    ("eyebrow", JStr "//:Proof · Measured evidence");
    ("testsSuffix", JStr "automated verification tests.");
    ("passedSuffix", JStr "passed.");
    ("body", JStr "Not slides, reproducible proof. OWASP CRS parity, false-positive gates, ban-latency benchmarks, corpus recall and a 72-hour soak — all measured, automated and visible in a public test matrix.");
    ("bodyMatrix", JStr "exactly the same matrix.");
    ("ctaAll", JStr "See all tests");
    ("ctaPdf", JStr "Proof PDF");
    ("ctaFullPack", JStr "Full proof pack");
    ("fullPackCmd", JStr "STABILITY=1 bash scripts/full_proof_pack.sh");
    ("statLabels", JArr [JStr "Total tests"; JStr "Passed"; JStr "Soak PASS"; JStr "Ban pipeline E2E"]);
    ("badges", JArr [
      JStr "OWASP CRS parity 100%";
      JStr "72h soak PASS";
      JStr "API fail-closed";
      JStr "false positive 0.2%";
      JStr "SRI + CSP hardened";
      JStr "MIT open source"])].
Definition CO_EN_honest : json := JObj [
    ("eyebrow", JStr "//:Honest");
    ("title", JStr "Honest limits");
    ("items", JArr [
      JStr "Reactive architecture — the first request may pass until the log line drops; ModSec blocks the first request inline while we're reactive.";
      JStr "We don't replace Cloudflare or commercial WAF — last defense at origin behind CDN.";
      JStr "We don't absorb L3/L4 DDoS — CDN + nginx rate limit first, then Log Guardian.";
      JStr "CrowdSec is complementary, not a rival — Guardian + CrowdSec LAPI signal → ban API.";
      JStr "Distributed botnet — per-IP ban; optional CrowdSec community signal layer.";
      JStr "Does: log → CRS/WAF → ~20 ms kernel ban, proof PDF, Telegram ops, MIT self-hosted."]);
    ("layersEyebrow", JStr "//:Layers");
    ("layersTitle", JStr "Editions");
    ("layers", JArr [
      JObj [("tag", JStr "Core"); ("body", JStr "log → WAF → ipset ban (~15 min)")];
      JObj [("tag", JStr "Pro"); ("body", JStr "eBPF daemon, dashboard, metrics, fleet")];
      JObj [
        ("tag", JStr "Pro Plus");
        ("body", JStr "K8s/Helm proof (kind), fleet showcase, optional Wasm/mesh (XDR/Copilot roadmap)")]]);
    ("layersNote", JStr "Pro and Pro Plus do not change the protection level; they only add visibility and integration proof. XDR, Wasm and LLM Copilot are Pro Plus's long-term optional roadmap — Core is production-ready on its own.")].
Definition CO_EN_setup : json := JObj [
    ("eyebrow", JStr "//:Setup");
    ("title", JStr "Setup guide (detailed)");
    ("sub", JStr "Core setup from scratch on Ubuntu/Debian (~15 min) — command by command.");
    ("intro", JStr "Source: GitHub — Linux-Log-Guardian. Two ways: a prebuilt .deb package (recommended) or build from source. It also works without eBPF/XDP on laptops/VMs (ipset-based ban). The steps below are for a production server; each command's expected output is included.");
    ("requirementsTitle", JStr "Requirements");
    ("requirements", JArr [
      JStr "Ubuntu 22.04 / 24.04 or Debian 12 (amd64)";
      JStr "nginx + writable access log (log_guardian format)";
      JStr "Root or sudo (systemd, ipset, /etc/log-guardian)";
      JStr "~200 MB disk, 128 MB RAM (Core); Docker for Pro";
      JStr "Optional Pro: 5.10+ kernel for eBPF/XDP, Docker (dashboard/metrics)"]);
    ("dashboardBadge", JStr "Pro · optional");
    ("paths", SETUP_PATHS_EN);
    ("common", SETUP_COMMON_EN);
    ("dashboard", SETUP_DASHBOARD_EN);
    ("tip", JStr "Tip: for JWT and the dashboard password use bash scripts/laptop_jwt_setup.sh. 3-minute demo: SKIP_WEBHOOK=1 bash scripts/demo_3min.sh. Docs: docs/QUICKSTART_NGINX.md · docs/LAPTOP_OPS.md · docs/SECURITY_PROFILES.md.")].
Definition CO_EN_evidence : json := JObj [
    ("eyebrow", JStr "//:Evidence");
    ("title", JStr "Evidence pack");
    ("note", JStr "One command: STABILITY=1 bash scripts/full_proof_pack.sh → PDF + release-pack.zip + data-room.zip");
    ("fullPackCmd", fld "fullPackCmd" EVIDENCE);
    ("demoCmd", fld "demoCmd" EVIDENCE);
    ("files", fld "files" EVIDENCE);
    ("update", JStr "Update: STABILITY=1 bash scripts/full_proof_pack.sh")].
Definition CO_EN_contact : json := JObj [
    ("eyebrow", JStr "//:Contact");
    ("title", JStr "Contact & contribute");
    ("body", JStr "Write for questions, collaboration or contributions. Bug reports and pull requests are welcome in the open-source spirit.");
    ("ctaEmail", JStr "Send email");
    ("ctaGithub", JStr "GitHub source");
    ("email", fld "email" CONTACT);
    ("github", fld "github" CONTACT)].
Definition CO_EN_footer : json := JObj [
    ("desc", JStr "nginx access log → WAF/CRS → kernel ban. Single chain, self-hosted, MIT-licensed. Built in Turkey.");
    ("soak", JStr "72h soak PASS · 0 fail");
    ("columns", JArr [
      JObj [
        ("title", JStr "Product");
        ("links", JArr [
          JObj [("label", JStr "3-in-1 merge"); ("href", JStr "/paketler")];
          JObj [("label", JStr "Pipeline"); ("href", JStr "#pipeline")];
          JObj [("label", JStr "Numerical values"); ("href", JStr "#sayilar")];
          JObj [("label", JStr "Compare rivals"); ("href", JStr "#rakipler")];
          JObj [("label", JStr "Evidence pack"); ("href", JStr "#kanit")]])];
      JObj [
        ("title", JStr "Developer");
        ("links", JArr [
          JObj [("label", JStr "Setup guide"); ("href", JStr "#kurulum")];
          JObj [("label", JStr "Tests"); ("href", JStr "/tests")];
          JObj [("label", JStr "Telegram share"); ("href", JStr SHARE_TESTS_TG)];
          JObj [("label", JStr "security.txt"); ("href", JStr "/.well-known/security.txt")];
          JObj [("label", JStr "Proof PDF"); ("href", JStr "/evidence/competitive-proof.pdf")];
          JObj [
            ("label", JStr "Changelog");
            ("href", JStr "https://github.com/kurtulusutkucenik/Linux-Log-Guardian/releases")];
          JObj [("label", JStr "GitHub"); ("href", JStr "https://github.com/kurtulusutkucenik/Linux-Log-Guardian")]])];
      JObj [
        ("title", JStr "Project");
        ("links", JArr [
          JObj [("label", JStr "About"); ("href", JStr "#iletisim")];
          JObj [("label", JStr "Contact"); ("href", JStr "#iletisim")];
          JObj [
            ("label", JStr "Contribute (PR)");
            ("href", JStr "https://github.com/kurtulusutkucenik/Linux-Log-Guardian")];
          JObj [("label", JStr "MIT License"); ("href", JStr MIT_HREF)]])]]);
    ("copyPrefix", JStr "Linux Log Guardian · Made in Turkey");
    ("copySuffix", JStr "open source");
    ("licenseHref", JStr MIT_HREF)].
Definition CO_EN_tests : json := JObj [
    ("eyebrow", JStr "//:Proof · Test Matrix");
    ("title", JStr "Verification tests");
    ("intro", JStr "The same automated test matrix as the dashboard — install gates, CRS parity, FP, ban latency, corpus recall and 72h soak. All measured and reproducible.");
    ("allPassed", JStr "All tests passed");
    ("summary", JStr "Test summary");
    ("passedWord", JStr "tests passed");
    ("warnWord", JStr "warnings");
    ("failWord", JStr "failed");
    ("ctaPdf", JStr "Proof PDF");
    ("filterAll", JStr "All");
    ("filterGate", JStr "Install & security gates");
    ("filterProof", JStr "Competitive & security proof");
    ("gateHeading", JStr "Install and security gates");
    ("proofHeading", JStr "Competitive and security proof");
    ("statusPass", JStr "PASS");
    ("statusWarn", JStr "WARN");
    ("statusFail", JStr "FAIL");
    ("statusPending", JStr "PENDING");
    ("researcherBanner", JStr ("Security researcher note: This is not a shop or WooCommerce site. No /products.json, /wp-json/, or /api/item — the " ++ dec PROOF_TEST_COUNT ++ "-gate verification matrix lives here."))].
Definition CO_EN : json := JObj [
  ("marquee", CO_EN_marquee);
  ("pipeline", CO_EN_pipeline);
  ("selected", CO_EN_selected);
  ("vs", CO_EN_vs);
  ("charts", CO_EN_charts);
  ("proof", CO_EN_proof);
  ("honest", CO_EN_honest);
  ("setup", CO_EN_setup);
  ("evidence", CO_EN_evidence);
  ("contact", CO_EN_contact);
  ("footer", CO_EN_footer);
  ("tests", CO_EN_tests)].
Definition section_de : json := JObj [
    ("pipelineTitle", JStr "Eine Kette: vom Log zum Kernel-Ban");
    ("pipelineSub", JStr "~20 ms von der nginx-Access-Log-Zeile bis zum ipset-Ban — Konkurrenten haben eine stückweise Architektur.");
    ("selectedTitle", JStr "Ausgewählte Nachweise");
    ("selectedLead", JStr "Core · Pro · Proof — messbare Ergebnisse in einer Kette.");
    ("vsTitle", JStr "Vergleich mit Konkurrenten");
    ("vsSub", JStr "Gemessener Nachweis — Architekturnotizen zu Fail2ban / CrowdSec / ModSecurity. Der Sieger jeder Zeile ist rot markiert.");
    ("vsAdvTitle", JStr "Die Vorteile, die wir Ihnen bieten");
    ("chartsTitle", JStr "Vergleich in Diagrammen");
    ("chartsSub", JStr "Aus gemessenem Nachweis abgeleitet. Unsere Linie ist türkis.");
    ("proofTests", JStr "automatische Prüftests.");
    ("proofPassed", JStr "bestanden.");
    ("proofCtaAll", JStr "Alle Tests ansehen");
    ("proofCtaPdf", JStr "Nachweis-PDF");
    ("honestTitle", JStr "Ehrliche Grenzen");
    ("layersTitle", JStr "Schichten");
    ("setupTitle", JStr "Installationsanleitung (detailliert)");
    ("setupSub", JStr "Core-Installation von Grund auf unter Ubuntu/Debian (~15 Min) — Befehl für Befehl.");
    ("reqTitle", JStr "Voraussetzungen");
    ("evidenceTitle", JStr "Nachweispaket");
    ("contactTitle", JStr "Kontakt & Mitwirken");
    ("ctaEmail", JStr "E-Mail senden");
    ("ctaGithub", JStr "GitHub-Quelle");
    ("colProduct", JStr "Produkt");
    ("colDev", JStr "Entwickler");
    ("colProject", JStr "Projekt");
    ("copySuffix", JStr "Open Source")].
Definition section_fr : json := JObj [
    ("pipelineTitle", JStr "Une seule chaîne : du log au ban noyau");
    ("pipelineSub", JStr "~20 ms de la ligne de log d'accès nginx au ban ipset — les rivaux ont une architecture fragmentée.");
    ("selectedTitle", JStr "Preuves sélectionnées");
    ("selectedLead", JStr "Core · Pro · Proof — des résultats mesurables en une seule chaîne.");
    ("vsTitle", JStr "Comparaison avec les rivaux");
    ("vsSub", JStr "Preuve mesurée — notes d'architecture Fail2ban / CrowdSec / ModSecurity. Le gagnant de chaque ligne est en rouge.");
    ("vsAdvTitle", JStr "Les avantages que nous vous offrons");
    ("chartsTitle", JStr "Comparaison en graphiques");
    ("chartsSub", JStr "Dérivé de preuves mesurées. Notre courbe est turquoise.");
    ("proofTests", JStr "tests de vérification automatiques.");
    ("proofPassed", JStr "réussis.");
    ("proofCtaAll", JStr "Voir tous les tests");
    ("proofCtaPdf", JStr "PDF de preuve");
    ("honestTitle", JStr "Limites honnêtes");
    ("layersTitle", JStr "Couches");
    ("setupTitle", JStr "Guide d'installation (détaillé)");
    ("setupSub", JStr "Installation Core à partir de zéro sur Ubuntu/Debian (~15 min) — commande par commande.");
    ("reqTitle", JStr "Prérequis");
    ("evidenceTitle", JStr "Pack de preuves");
    ("contactTitle", JStr "Contact & contribution");
    ("ctaEmail", JStr "Envoyer un e-mail");
    ("ctaGithub", JStr "Source GitHub");
    ("colProduct", JStr "Produit");
    ("colDev", JStr "Développeur");
    ("colProject", JStr "Projet");
    ("copySuffix", JStr "open source")].
Definition section_es : json := JObj [
    ("pipelineTitle", JStr "Una sola cadena: del log al ban de kernel");
    ("pipelineSub", JStr "~20 ms desde la línea de log de acceso de nginx hasta el ban de ipset — los rivales tienen arquitectura fragmentada.");
    ("selectedTitle", JStr "Pruebas seleccionadas");
    ("selectedLead", JStr "Core · Pro · Proof — resultados medibles en una sola cadena.");
    ("vsTitle", JStr "Comparación con rivales");
    ("vsSub", JStr "Prueba medida — notas de arquitectura de Fail2ban / CrowdSec / ModSecurity. El ganador de cada fila está en rojo.");
    ("vsAdvTitle", JStr "Las ventajas que te ofrecemos");
    ("chartsTitle", JStr "Comparación en gráficos");
    ("chartsSub", JStr "Derivado de pruebas medidas. Nuestra línea es turquesa.");
    ("proofTests", JStr "pruebas de verificación automáticas.");
    ("proofPassed", JStr "superadas.");
    ("proofCtaAll", JStr "Ver todas las pruebas");
    ("proofCtaPdf", JStr "PDF de prueba");
    ("honestTitle", JStr "Límites honestos");
    ("layersTitle", JStr "Capas");
    ("setupTitle", JStr "Guía de instalación (detallada)");
    ("setupSub", JStr "Instalación de Core desde cero en Ubuntu/Debian (~15 min) — comando a comando.");
    ("reqTitle", JStr "Requisitos");
    ("evidenceTitle", JStr "Paquete de pruebas");
    ("contactTitle", JStr "Contacto y contribución");
    ("ctaEmail", JStr "Enviar correo");
    ("ctaGithub", JStr "Código GitHub");
    ("colProduct", JStr "Producto");
    ("colDev", JStr "Desarrollador");
    ("colProject", JStr "Proyecto");
    ("copySuffix", JStr "código abierto")].
Definition section_ru : json := JObj [
    ("pipelineTitle", JStr "Одна цепочка: от лога до бана в ядре");
    ("pipelineSub", JStr "~20 мс от строки access-лога nginx до бана ipset — у конкурентов фрагментарная архитектура.");
    ("selectedTitle", JStr "Избранные доказательства");
    ("selectedLead", JStr "Core · Pro · Proof — измеримые результаты в одной цепочке.");
    ("vsTitle", JStr "Сравнение с конкурентами");
    ("vsSub", JStr "Измеренное доказательство — заметки по архитектуре Fail2ban / CrowdSec / ModSecurity. Победитель в каждой строке отмечен красным.");
    ("vsAdvTitle", JStr "Преимущества, которые мы даём");
    ("chartsTitle", JStr "Сравнение в графиках");
    ("chartsSub", JStr "Выведено из измеренных доказательств. Наша линия — бирюзовая.");
    ("proofTests", JStr "автоматических проверочных тестов.");
    ("proofPassed", JStr "пройдено.");
    ("proofCtaAll", JStr "Показать все тесты");
    ("proofCtaPdf", JStr "PDF-доказательство");
    ("honestTitle", JStr "Честные границы");
    ("layersTitle", JStr "Слои");
    ("setupTitle", JStr "Руководство по установке (подробно)");
    ("setupSub", JStr "Установка Core с нуля на Ubuntu/Debian (~15 мин) — команда за командой.");
    ("reqTitle", JStr "Требования");
    ("evidenceTitle", JStr "Пакет доказательств");
    ("contactTitle", JStr "Контакты и вклад");
    ("ctaEmail", JStr "Отправить письмо");
    ("ctaGithub", JStr "Исходники GitHub");
    ("colProduct", JStr "Продукт");
    ("colDev", JStr "Разработчику");
    ("colProject", JStr "Проект");
    ("copySuffix", JStr "открытый код")].
Definition section_pt : json := JObj [
    ("pipelineTitle", JStr "Uma só cadeia: do log ao ban de kernel");
    ("pipelineSub", JStr "~20 ms da linha de log de acesso do nginx ao ban de ipset — os rivais têm arquitetura fragmentada.");
    ("selectedTitle", JStr "Provas selecionadas");
    ("selectedLead", JStr "Core · Pro · Proof — resultados mensuráveis numa só cadeia.");
    ("vsTitle", JStr "Comparação com rivais");
    ("vsSub", JStr "Prova medida — notas de arquitetura de Fail2ban / CrowdSec / ModSecurity. O vencedor de cada linha está a vermelho.");
    ("vsAdvTitle", JStr "As vantagens que oferecemos");
    ("chartsTitle", JStr "Comparação em gráficos");
    ("chartsSub", JStr "Derivado de provas medidas. A nossa linha é turquesa.");
    ("proofTests", JStr "testes de verificação automáticos.");
    ("proofPassed", JStr "aprovados.");
    ("proofCtaAll", JStr "Ver todos os testes");
    ("proofCtaPdf", JStr "PDF de prova");
    ("honestTitle", JStr "Limites honestos");
    ("layersTitle", JStr "Camadas");
    ("setupTitle", JStr "Guia de instalação (detalhado)");
    ("setupSub", JStr "Instalação do Core do zero em Ubuntu/Debian (~15 min) — comando a comando.");
    ("reqTitle", JStr "Requisitos");
    ("evidenceTitle", JStr "Pacote de provas");
    ("contactTitle", JStr "Contacto e contribuição");
    ("ctaEmail", JStr "Enviar e-mail");
    ("ctaGithub", JStr "Código GitHub");
    ("colProduct", JStr "Produto");
    ("colDev", JStr "Programador");
    ("colProject", JStr "Projeto");
    ("copySuffix", JStr "código aberto")].
Definition section_nl : json := JObj [
    ("pipelineTitle", JStr "Eén keten: van log naar kernel-ban");
    ("pipelineSub", JStr "~20 ms van de nginx-accesslogregel tot de ipset-ban — concurrenten hebben een versnipperde architectuur.");
    ("selectedTitle", JStr "Geselecteerde bewijzen");
    ("selectedLead", JStr "Core · Pro · Proof — meetbare resultaten in één keten.");
    ("vsTitle", JStr "Vergelijking met concurrenten");
    ("vsSub", JStr "Gemeten bewijs — architectuurnotities Fail2ban / CrowdSec / ModSecurity. De winnaar per rij is rood.");
    ("vsAdvTitle", JStr "De voordelen die wij bieden");
    ("chartsTitle", JStr "Vergelijking in grafieken");
    ("chartsSub", JStr "Afgeleid van gemeten bewijs. Onze lijn is turquoise.");
    ("proofTests", JStr "automatische verificatietests.");
    ("proofPassed", JStr "geslaagd.");
    ("proofCtaAll", JStr "Alle tests bekijken");
    ("proofCtaPdf", JStr "Bewijs-PDF");
    ("honestTitle", JStr "Eerlijke grenzen");
    ("layersTitle", JStr "Lagen");
    ("setupTitle", JStr "Installatiegids (gedetailleerd)");
    ("setupSub", JStr "Core vanaf nul installeren op Ubuntu/Debian (~15 min) — commando voor commando.");
    ("reqTitle", JStr "Vereisten");
    ("evidenceTitle", JStr "Bewijspakket");
    ("contactTitle", JStr "Contact & bijdragen");
    ("ctaEmail", JStr "E-mail sturen");
    ("ctaGithub", JStr "GitHub-broncode");
    ("colProduct", JStr "Product");
    ("colDev", JStr "Ontwikkelaar");
    ("colProject", JStr "Project");
    ("copySuffix", JStr "open source")].
Definition section_zh : json := JObj [
    ("pipelineTitle", JStr "单一链路：从日志到内核封禁");
    ("pipelineSub", JStr "从 nginx 访问日志行到 ipset 封禁约 20 毫秒——竞品架构零散。");
    ("selectedTitle", JStr "精选证据");
    ("selectedLead", JStr "Core · Pro · Proof——单一链路中的可衡量结果。");
    ("vsTitle", JStr "与竞品对比");
    ("vsSub", JStr "实测证据——Fail2ban / CrowdSec / ModSecurity 架构说明。每行的优胜者以红色标出。");
    ("vsAdvTitle", JStr "我们为你带来的优势");
    ("chartsTitle", JStr "图表对比");
    ("chartsSub", JStr "源自实测证据。我们的曲线为青绿色。");
    ("proofTests", JStr "项自动化验证测试。");
    ("proofPassed", JStr "通过。");
    ("proofCtaAll", JStr "查看全部测试");
    ("proofCtaPdf", JStr "证据 PDF");
    ("honestTitle", JStr "诚实边界");
    ("layersTitle", JStr "层级");
    ("setupTitle", JStr "安装指南（详细）");
    ("setupSub", JStr "在 Ubuntu/Debian 上从零安装 Core（约15分钟）——逐条命令。");
    ("reqTitle", JStr "环境要求");
    ("evidenceTitle", JStr "证据包");
    ("contactTitle", JStr "联系与贡献");
    ("ctaEmail", JStr "发送邮件");
    ("ctaGithub", JStr "GitHub 源码");
    ("colProduct", JStr "产品");
    ("colDev", JStr "开发者");
    ("colProject", JStr "项目");
    ("copySuffix", JStr "开源")].
Definition section_ja : json := JObj [
    ("pipelineTitle", JStr "単一チェーン：ログからカーネルBANまで");
    ("pipelineSub", JStr "nginx アクセスログの行から ipset BAN まで約20ms——競合は断片的なアーキテクチャ。");
    ("selectedTitle", JStr "厳選された証拠");
    ("selectedLead", JStr "Core · Pro · Proof——単一チェーンでの測定可能な結果。");
    ("vsTitle", JStr "競合との比較");
    ("vsSub", JStr "測定済みの証拠——Fail2ban / CrowdSec / ModSecurity のアーキテクチャ注記。各行の勝者は赤で表示。");
    ("vsAdvTitle", JStr "私たちが提供する利点");
    ("chartsTitle", JStr "グラフで比較");
    ("chartsSub", JStr "測定済みの証拠から導出。私たちの線はターコイズ。");
    ("proofTests", JStr "件の自動検証テスト。");
    ("proofPassed", JStr "合格。");
    ("proofCtaAll", JStr "すべてのテストを見る");
    ("proofCtaPdf", JStr "証拠PDF");
    ("honestTitle", JStr "正直な限界");
    ("layersTitle", JStr "レイヤー");
    ("setupTitle", JStr "セットアップガイド（詳細）");
    ("setupSub", JStr "Ubuntu/Debian にゼロから Core を導入（約15分）——コマンドごとに。");
    ("reqTitle", JStr "要件");
    ("evidenceTitle", JStr "証拠パッケージ");
    ("contactTitle", JStr "連絡と貢献");
    ("ctaEmail", JStr "メール送信");
    ("ctaGithub", JStr "GitHub ソース");
    ("colProduct", JStr "製品");
    ("colDev", JStr "開発者");
    ("colProject", JStr "プロジェクト");
    ("copySuffix", JStr "オープンソース")].
Definition section_ko : json := JObj [
    ("pipelineTitle", JStr "단일 체인: 로그에서 커널 밴까지");
    ("pipelineSub", JStr "nginx 액세스 로그 줄에서 ipset 밴까지 약 20ms — 경쟁사는 조각난 아키텍처.");
    ("selectedTitle", JStr "선별된 증거");
    ("selectedLead", JStr "Core · Pro · Proof — 단일 체인의 측정 가능한 결과.");
    ("vsTitle", JStr "경쟁사와 비교");
    ("vsSub", JStr "측정된 증거 — Fail2ban / CrowdSec / ModSecurity 아키텍처 참고. 각 행의 승자는 빨간색.");
    ("vsAdvTitle", JStr "우리가 제공하는 이점");
    ("chartsTitle", JStr "차트로 비교");
    ("chartsSub", JStr "측정된 증거에서 도출. 우리 선은 청록색.");
    ("proofTests", JStr "개의 자동 검증 테스트.");
    ("proofPassed", JStr "통과.");
    ("proofCtaAll", JStr "모든 테스트 보기");
    ("proofCtaPdf", JStr "증거 PDF");
    ("honestTitle", JStr "정직한 한계");
    ("layersTitle", JStr "레이어");
    ("setupTitle", JStr "설치 가이드 (상세)");
    ("setupSub", JStr "Ubuntu/Debian에서 Core를 처음부터 설치 (~15분) — 명령 단위로.");
    ("reqTitle", JStr "요구 사항");
    ("evidenceTitle", JStr "증거 패키지");
    ("contactTitle", JStr "연락 및 기여");
    ("ctaEmail", JStr "이메일 보내기");
    ("ctaGithub", JStr "GitHub 소스");
    ("colProduct", JStr "제품");
    ("colDev", JStr "개발자");
    ("colProject", JStr "프로젝트");
    ("copySuffix", JStr "오픈소스")].
Definition section_ar : json := JObj [
    ("pipelineTitle", JStr "سلسلة واحدة: من السجل إلى الحظر على مستوى النواة");
    ("pipelineSub", JStr "نحو 17 مللي ثانية من سطر سجل وصول nginx إلى حظر ipset — المنافسون بنيتهم مجزّأة.");
    ("selectedTitle", JStr "أدلة مختارة");
    ("selectedLead", JStr "Core · Pro · Proof — نتائج قابلة للقياس في سلسلة واحدة.");
    ("vsTitle", JStr "مقارنة بالمنافسين");
    ("vsSub", JStr "دليل مقاس — ملاحظات معمارية عن Fail2ban / CrowdSec / ModSecurity. الفائز في كل صف بالأحمر.");
    ("vsAdvTitle", JStr "المزايا التي نقدّمها لك");
    ("chartsTitle", JStr "مقارنة بالرسوم البيانية");
    ("chartsSub", JStr "مشتق من أدلة مقاسة. خطّنا فيروزي.");
    ("proofTests", JStr "اختبار تحقق آلي.");
    ("proofPassed", JStr "ناجحة.");
    ("proofCtaAll", JStr "عرض كل الاختبارات");
    ("proofCtaPdf", JStr "PDF الدليل");
    ("honestTitle", JStr "حدود صادقة");
    ("layersTitle", JStr "الطبقات");
    ("setupTitle", JStr "دليل التثبيت (مفصّل)");
    ("setupSub", JStr "تثبيت Core من الصفر على Ubuntu/Debian (نحو 15 دقيقة) — أمراً بأمر.");
    ("reqTitle", JStr "المتطلبات");
    ("evidenceTitle", JStr "حزمة الأدلة");
    ("contactTitle", JStr "التواصل والمساهمة");
    ("ctaEmail", JStr "إرسال بريد");
    ("ctaGithub", JStr "مصدر GitHub");
    ("colProduct", JStr "المنتج");
    ("colDev", JStr "المطوّر");
    ("colProject", JStr "المشروع");
    ("copySuffix", JStr "مفتوح المصدر")].
Definition section_az : json := JObj [
    ("pipelineTitle", JStr "Tək zəncir: logdan kernel bana");
    ("pipelineSub", JStr "nginx giriş log sətirindən ipset bana ~20 ms — rəqiblərdə parçalı memarlıq.");
    ("selectedTitle", JStr "Seçilmiş sübutlar");
    ("selectedLead", JStr "Core · Pro · Proof — tək zəncirdə ölçülə bilən nəticələr.");
    ("vsTitle", JStr "Rəqiblərlə müqayisə");
    ("vsSub", JStr "Ölçülmüş sübut — Fail2ban / CrowdSec / ModSecurity memarlıq qeydləri. Hər sətirdə üstün olan qırmızı ilə işarələnib.");
    ("vsAdvTitle", JStr "Sizə verdiyimiz üstünlüklər");
    ("chartsTitle", JStr "Qrafiklərlə müqayisə");
    ("chartsSub", JStr "Ölçülmüş sübutdan törədilib. Bizim xətt firuzəyidir.");
    ("proofTests", JStr "avtomatik doğrulama testi.");
    ("proofPassed", JStr "keçdi.");
    ("proofCtaAll", JStr "Bütün testlərə bax");
    ("proofCtaPdf", JStr "Sübut PDF");
    ("honestTitle", JStr "Dürüst hədlər");
    ("layersTitle", JStr "Qatlar");
    ("setupTitle", JStr "Quraşdırma bələdçisi (ətraflı)");
    ("setupSub", JStr "Ubuntu/Debian üzərində sıfırdan Core quraşdırması (~15 dəq) — addım-addım.");
    ("reqTitle", JStr "Tələblər");
    ("evidenceTitle", JStr "Sübut paketi");
    ("contactTitle", JStr "Əlaqə və töhfə");
    ("ctaEmail", JStr "E-poçt göndər");
    ("ctaGithub", JStr "GitHub mənbə");
    ("colProduct", JStr "Məhsul");
    ("colDev", JStr "Tərtibatçı");
    ("colProject", JStr "Layihə");
    ("copySuffix", JStr "açıq mənbə")].
Definition section_kk : json := JObj [
    ("pipelineTitle", JStr "Бір тізбек: логтан kernel банға");
    ("pipelineSub", JStr "nginx кіру журналы жолынан ipset банға ~20 мс — бәсекелестерде бөлшек архитектура.");
    ("selectedTitle", JStr "Таңдаулы дәлелдер");
    ("selectedLead", JStr "Core · Pro · Proof — бір тізбекте өлшенетін нәтижелер.");
    ("vsTitle", JStr "Бәсекелестермен салыстыру");
    ("vsSub", JStr "Өлшенген дәлел — Fail2ban / CrowdSec / ModSecurity архитектура ескертпелері. Әр жолдағы үздік қызылмен белгіленген.");
    ("vsAdvTitle", JStr "Сізге беретін артықшылықтарымыз");
    ("chartsTitle", JStr "Графиктермен салыстыру");
    ("chartsSub", JStr "Өлшенген дәлелден алынған. Біздің сызық — көгілдір.");
    ("proofTests", JStr "автоматты тексеру тесті.");
    ("proofPassed", JStr "өтті.");
    ("proofCtaAll", JStr "Барлық тесттерді көру");
    ("proofCtaPdf", JStr "Дәлел PDF");
    ("honestTitle", JStr "Адал шектер");
    ("layersTitle", JStr "Қабаттар");
    ("setupTitle", JStr "Орнату нұсқаулығы (толық)");
    ("setupSub", JStr "Ubuntu/Debian-де Core-ды нөлден орнату (~15 мин) — қадам-қадам.");
    ("reqTitle", JStr "Талаптар");
    ("evidenceTitle", JStr "Дәлел пакеті");
    ("contactTitle", JStr "Байланыс және үлес");
    ("ctaEmail", JStr "Хат жіберу");
    ("ctaGithub", JStr "GitHub бастапқы коды");
    ("colProduct", JStr "Өнім");
    ("colDev", JStr "Әзірлеуші");
    ("colProject", JStr "Жоба");
    ("copySuffix", JStr "ашық бастапқы код")].
Definition section_uz : json := JObj [
    ("pipelineTitle", JStr "Yagona zanjir: logdan kernel banga");
    ("pipelineSub", JStr "nginx kirish logi qatoridan ipset banga ~20 ms — raqiblarda bo'lak arxitektura.");
    ("selectedTitle", JStr "Tanlangan dalillar");
    ("selectedLead", JStr "Core · Pro · Proof — yagona zanjirda o'lchanadigan natijalar.");
    ("vsTitle", JStr "Raqiblar bilan taqqoslash");
    ("vsSub", JStr "O'lchangan dalil — Fail2ban / CrowdSec / ModSecurity arxitektura eslatmalari. Har qatordagi g'olib qizil bilan belgilangan.");
    ("vsAdvTitle", JStr "Sizga beradigan afzalliklarimiz");
    ("chartsTitle", JStr "Grafiklarda taqqoslash");
    ("chartsSub", JStr "O'lchangan dalildan olingan. Bizning chiziq — feruza rang.");
    ("proofTests", JStr "avtomatik tekshiruv testi.");
    ("proofPassed", JStr "o'tdi.");
    ("proofCtaAll", JStr "Barcha testlarni ko'rish");
    ("proofCtaPdf", JStr "Dalil PDF");
    ("honestTitle", JStr "Halol chegaralar");
    ("layersTitle", JStr "Qatlamlar");
    ("setupTitle", JStr "O'rnatish qo'llanmasi (batafsil)");
    ("setupSub", JStr "Ubuntu/Debian'da Core'ni noldan o'rnatish (~15 daq) — qadam-baqadam.");
    ("reqTitle", JStr "Talablar");
    ("evidenceTitle", JStr "Dalil to'plami");
    ("contactTitle", JStr "Aloqa va hissa");
    ("ctaEmail", JStr "E-pochta yuborish");
    ("ctaGithub", JStr "GitHub manba");
    ("colProduct", JStr "Mahsulot");
    ("colDev", JStr "Ishlab chiquvchi");
    ("colProject", JStr "Loyiha");
    ("copySuffix", JStr "ochiq manba")].
Definition section_ky : json := JObj [
    ("pipelineTitle", JStr "Бирдиктүү чынжыр: логдон kernel банга");
    ("pipelineSub", JStr "nginx кирүү логу сабынан ipset банга ~20 мс — атаандаштарда бөлүк архитектура.");
    ("selectedTitle", JStr "Тандалган далилдер");
    ("selectedLead", JStr "Core · Pro · Proof — бир чынжырда өлчөнгөн натыйжалар.");
    ("vsTitle", JStr "Атаандаштар менен салыштыруу");
    ("vsSub", JStr "Өлчөнгөн далил — Fail2ban / CrowdSec / ModSecurity архитектура эскертүүлөрү. Ар сапта мыктысы кызыл менен белгиленген.");
    ("vsAdvTitle", JStr "Сизге берген артыкчылыктарыбыз");
    ("chartsTitle", JStr "Графиктер менен салыштыруу");
    ("chartsSub", JStr "Өлчөнгөн далилден алынган. Биздин сызык — көгүлтүр.");
    ("proofTests", JStr "автоматтык текшерүү тести.");
    ("proofPassed", JStr "өттү.");
    ("proofCtaAll", JStr "Бардык тесттерди көрүү");
    ("proofCtaPdf", JStr "Далил PDF");
    ("honestTitle", JStr "Чынчыл чектер");
    ("layersTitle", JStr "Катмарлар");
    ("setupTitle", JStr "Орнотуу колдонмосу (толук)");
    ("setupSub", JStr "Ubuntu/Debian'да Core'ду нөлдөн орнотуу (~15 мүн) — кадам-кадам.");
    ("reqTitle", JStr "Талаптар");
    ("evidenceTitle", JStr "Далил топтому");
    ("contactTitle", JStr "Байланыш жана салым");
    ("ctaEmail", JStr "Кат жөнөтүү");
    ("ctaGithub", JStr "GitHub булагы");
    ("colProduct", JStr "Продукт");
    ("colDev", JStr "Иштеп чыгуучу");
    ("colProject", JStr "Долбоор");
    ("copySuffix", JStr "ачык булак")].
Definition section_tk : json := JObj [
    ("pipelineTitle", JStr "Ýeke zynjyr: logdan kernel bana");
    ("pipelineSub", JStr "nginx giriş logy setirinden ipset bana ~20 ms — bäsdeşlerde bölek arhitektura.");
    ("selectedTitle", JStr "Saýlanan subutnamalar");
    ("selectedLead", JStr "Core · Pro · Proof — ýeke zynjyrda ölçäp bolýan netijeler.");
    ("vsTitle", JStr "Bäsdeşler bilen deňeşdirme");
    ("vsSub", JStr "Ölçelen subutnama — Fail2ban / CrowdSec / ModSecurity arhitektura bellikleri. Her setirde öňdäki gyzyl bilen bellenen.");
    ("vsAdvTitle", JStr "Size berýän artykmaçlyklarymyz");
    ("chartsTitle", JStr "Grafikler bilen deňeşdirme");
    ("chartsSub", JStr "Ölçelen subutnamadan alnan. Biziň çyzyk — firuza.");
    ("proofTests", JStr "awtomatik barlag testi.");
    ("proofPassed", JStr "geçdi.");
    ("proofCtaAll", JStr "Ähli testleri gör");
    ("proofCtaPdf", JStr "Subutnama PDF");
    ("honestTitle", JStr "Dogruçyl çäkler");
    ("layersTitle", JStr "Gatlaklar");
    ("setupTitle", JStr "Gurnama gollanmasy (giňişleýin)");
    ("setupSub", JStr "Ubuntu/Debian-da Core-y noldan gurnamak (~15 min) — ädim-ädim.");
    ("reqTitle", JStr "Talaplar");
    ("evidenceTitle", JStr "Subutnama paketi");
    ("contactTitle", JStr "Habarlaşmak we goşant");
    ("ctaEmail", JStr "E-poçta ibermek");
    ("ctaGithub", JStr "GitHub çeşme");
    ("colProduct", JStr "Önüm");
    ("colDev", JStr "Işläp düzüji");
    ("colProject", JStr "Taslama");
    ("copySuffix", JStr "açyk çeşme")].
Definition section_crh : json := JObj [
    ("pipelineTitle", JStr "Tek zıncır: logdan kernel banğa");
    ("pipelineSub", JStr "nginx kirim logu satırından ipset banğa ~20 ms — raqiplerde parça mimarlıq.");
    ("selectedTitle", JStr "Saylanğan deliller");
    ("selectedLead", JStr "Core · Pro · Proof — tek zıncırda ölçele bilgen neticeler.");
    ("vsTitle", JStr "Raqiplernen qıyaslav");
    ("vsSub", JStr "Ölçengen delil — Fail2ban / CrowdSec / ModSecurity mimarlıq notları. Er satırda üstün olğan qırmızı ilen belgilengen.");
    ("vsAdvTitle", JStr "Size bergen üstünliklerimiz");
    ("chartsTitle", JStr "Grafiklernen qıyaslav");
    ("chartsSub", JStr "Ölçengen delilden alınğan. Bizim sızıq — firuze.");
    ("proofTests", JStr "avtomatik teşkeriş testi.");
    ("proofPassed", JStr "keçti.");
    ("proofCtaAll", JStr "Bütün testlerni köster");
    ("proofCtaPdf", JStr "Delil PDF");
    ("honestTitle", JStr "Doğru sıñırlar");
    ("layersTitle", JStr "Qatlar");
    ("setupTitle", JStr "Qurulım qılavuzı (tafsilâtlı)");
    ("setupSub", JStr "Ubuntu/Debian üzerinde sıfırdan Core qurulımı (~15 daq) — adım-adım.");
    ("reqTitle", JStr "Talaplar");
    ("evidenceTitle", JStr "Delil paketi");
    ("contactTitle", JStr "Alâqa ve qatqı");
    ("ctaEmail", JStr "E-mail yiber");
    ("ctaGithub", JStr "GitHub menba");
    ("colProduct", JStr "Mahsul");
    ("colDev", JStr "Işlep çıqaruvcı");
    ("colProject", JStr "Proyekt");
    ("copySuffix", JStr "açıq menba")].
Definition section_gag : json := JObj [
    ("pipelineTitle", JStr "Tek zincir: logdan kernel bana");
    ("pipelineSub", JStr "nginx giriş logu satırından ipset bana ~20 ms — rakiplärdä parça mimarlık.");
    ("selectedTitle", JStr "Seçili deliller");
    ("selectedLead", JStr "Core · Pro · Proof — tek zincirdä ölçülebilän sonuçlar.");
    ("vsTitle", JStr "Rakiplärlän karşılaştırma");
    ("vsSub", JStr "Ölçülü delil — Fail2ban / CrowdSec / ModSecurity mimarlık notları. Her satırda üstün olan kırmızıylan işaretli.");
    ("vsAdvTitle", JStr "Sizä verdiimiz faydalar");
    ("chartsTitle", JStr "Grafiklärlän karşılaştırma");
    ("chartsSub", JStr "Ölçülü delildän çıkarıldı. Bizim çizgi — firuza.");
    ("proofTests", JStr "avtomatik kontrol testi.");
    ("proofPassed", JStr "geçti.");
    ("proofCtaAll", JStr "Hepsi testleri gör");
    ("proofCtaPdf", JStr "Delil PDF");
    ("honestTitle", JStr "Dooru sınırlar");
    ("layersTitle", JStr "Katlar");
    ("setupTitle", JStr "Kurma kılavuzu (detaylı)");
    ("setupSub", JStr "Ubuntu/Debian üstündä sıfırdan Core kurma (~15 dak) — adım-adım.");
    ("reqTitle", JStr "Lääzımnıklar");
    ("evidenceTitle", JStr "Delil paketi");
    ("contactTitle", JStr "İlişki hem katkı");
    ("ctaEmail", JStr "E-mail yolla");
    ("ctaGithub", JStr "GitHub kaynaa");
    ("colProduct", JStr "Ürün");
    ("colDev", JStr "Geliştirici");
    ("colProject", JStr "Proekt");
    ("copySuffix", JStr "açık kaynak")].
Definition section_tt : json := JObj [
    ("pipelineTitle", JStr "Бер чылбыр: логтан kernel банга");
    ("pipelineSub", JStr "nginx керү журналы юлыннан ipset банга ~20 мс — көндәшләрдә өлешле архитектура.");
    ("selectedTitle", JStr "Сайланган дәлилләр");
    ("selectedLead", JStr "Core · Pro · Proof — бер чылбырда үлчәнә торган нәтиҗәләр.");
    ("vsTitle", JStr "Көндәшләр белән чагыштыру");
    ("vsSub", JStr "Үлчәнгән дәлил — Fail2ban / CrowdSec / ModSecurity архитектура искәрмәләре. Һәр юлда өстен булганы кызыл белән билгеләнгән.");
    ("vsAdvTitle", JStr "Сезгә биргән өстенлекләребез");
    ("chartsTitle", JStr "Графиклар белән чагыштыру");
    ("chartsSub", JStr "Үлчәнгән дәлилдән алынган. Безнең сызык — фирүзә.");
    ("proofTests", JStr "автоматик тикшерү тесты.");
    ("proofPassed", JStr "узды.");
    ("proofCtaAll", JStr "Барлык тестларны күрү");
    ("proofCtaPdf", JStr "Дәлил PDF");
    ("honestTitle", JStr "Намуслы чикләр");
    ("layersTitle", JStr "Катламнар");
    ("setupTitle", JStr "Урнаштыру кулланмасы (тулы)");
    ("setupSub", JStr "Ubuntu/Debian'да Core'ны нульдән урнаштыру (~15 мин) — адымлап.");
    ("reqTitle", JStr "Таләпләр");
    ("evidenceTitle", JStr "Дәлил пакеты");
    ("contactTitle", JStr "Элемтә һәм өлеш");
    ("ctaEmail", JStr "Хат җибәрү");
    ("ctaGithub", JStr "GitHub чыганагы");
    ("colProduct", JStr "Продукт");
    ("colDev", JStr "Эшләүче");
    ("colProject", JStr "Проект");
    ("copySuffix", JStr "ачык чыганак")].
Definition section_ba : json := JObj [
    ("pipelineTitle", JStr "Бер сылбыр: логтан kernel банға");
    ("pipelineSub", JStr "nginx инеү журналы юлынан ipset банға ~20 мс — көндәштәрҙә өлөшлө архитектура.");
    ("selectedTitle", JStr "Һайланған дәлилдәр");
    ("selectedLead", JStr "Core · Pro · Proof — бер сылбырҙа үлсәнә торған һөҙөмтәләр.");
    ("vsTitle", JStr "Көндәштәр менән сағыштырыу");
    ("vsSub", JStr "Үлсәнгән дәлил — Fail2ban / CrowdSec / ModSecurity архитектура иҫкәрмәләре. Һәр юлда өҫтөн булғаны ҡыҙыл менән билдәләнгән.");
    ("vsAdvTitle", JStr "Һеҙгә биргән өҫтөнлөктәребеҙ");
    ("chartsTitle", JStr "Графиктар менән сағыштырыу");
    ("chartsSub", JStr "Үлсәнгән дәлилдән алынған. Беҙҙең һыҙыҡ — фирүзә.");
    ("proofTests", JStr "автоматик тикшереү тесы.");
    ("proofPassed", JStr "үтте.");
    ("proofCtaAll", JStr "Бөтә тестарҙы ҡарау");
    ("proofCtaPdf", JStr "Дәлил PDF");
    ("honestTitle", JStr "Намыҫлы сиктәр");
    ("layersTitle", JStr "Ҡатламдар");
    ("setupTitle", JStr "Урынлаштырыу ҡулланмаһы (тулы)");
    ("setupSub", JStr "Ubuntu/Debian'да Core'ды нулдән урынлаштырыу (~15 мин) — аҙымлап.");
    ("reqTitle", JStr "Талаптар");
    ("evidenceTitle", JStr "Дәлил пакеты");
    ("contactTitle", JStr "Бәйләнеш һәм өлөш");
    ("ctaEmail", JStr "Хат ебәреү");
    ("ctaGithub", JStr "GitHub сығанағы");
    ("colProduct", JStr "Продукт");
    ("colDev", JStr "Эшләүсе");
    ("colProject", JStr "Проект");
    ("copySuffix", JStr "асыҡ сығанаҡ")].
Definition section_cv : json := JObj [
    ("pipelineTitle", JStr "Пӗр сӑнчӑр: логран kernel бан патне");
    ("pipelineSub", JStr "nginx кӗрӳ журналӗ йӗркинчен ipset бана ~20 мс — конкурентсенче пайланнӑ архитектура.");
    ("selectedTitle", JStr "Суйласа илнӗ кӑтартусем");
    ("selectedLead", JStr "Core · Pro · Proof — пӗр сӑнчӑрта виҫме пулакан результатсем.");
    ("vsTitle", JStr "Конкурентсемпе танлаштарни");
    ("vsSub", JStr "Виҫнӗ кӑтарту — Fail2ban / CrowdSec / ModSecurity архитектура асӑрхаттарӑвӗсем. Кашни йӗркере ҫӗнтерекенни хӗрлӗпе паллӑ тунӑ.");
    ("vsAdvTitle", JStr "Сире паракан пайдасем");
    ("chartsTitle", JStr "Графиксемпе танлаштарни");
    ("chartsSub", JStr "Виҫнӗ кӑтартуран илнӗ. Пирӗн линия — фирӳза.");
    ("proofTests", JStr "автомат тӗрӗслев тесчӗ.");
    ("proofPassed", JStr "иртнӗ.");
    ("proofCtaAll", JStr "Пур тестсене пӑх");
    ("proofCtaPdf", JStr "Кӑтарту PDF");
    ("honestTitle", JStr "Тӳрӗ чикӗсем");
    ("layersTitle", JStr "Сийсем");
    ("setupTitle", JStr "Вырнаҫтару кӑтартӑвӗ (тӗплӗ)");
    ("setupSub", JStr "Ubuntu/Debian ҫинче Core-а нульран вырнаҫтарни (~15 мин) — утӑмӑн-утӑмӑн.");
    ("reqTitle", JStr "Кирлӗлӗхсем");
    ("evidenceTitle", JStr "Кӑтарту пакечӗ");
    ("contactTitle", JStr "Ҫыхӑну тата хутшӑну");
    ("ctaEmail", JStr "Ҫыру яр");
    ("ctaGithub", JStr "GitHub çӑлкуҫӗ");
    ("colProduct", JStr "Продукт");
    ("colDev", JStr "Аталантаракан");
    ("colProject", JStr "Проект");
    ("copySuffix", JStr "уҫӑ ҫӑлкуҫ")].
Definition section_ug : json := JObj [
    ("pipelineTitle", JStr "بىرلا زەنجىر: خاتىرىدىن يادرو چەكلىشىگىچە");
    ("pipelineSub", JStr "nginx كىرىش خاتىرىسى قۇرىدىن ipset چەكلەشكىچە ~20 مىللىسېكۇنت — رەقىبلەردە پارچە قۇرۇلما.");
    ("selectedTitle", JStr "تاللانغان ئىسپاتلار");
    ("selectedLead", JStr "Core · Pro · Proof — بىرلا زەنجىردە ئۆلچىگىلى بولىدىغان نەتىجىلەر.");
    ("vsTitle", JStr "رەقىبلەر بىلەن سېلىشتۇرۇش");
    ("vsSub", JStr "ئۆلچەنگەن ئىسپات — Fail2ban / CrowdSec / ModSecurity قۇرۇلما ئىزاھاتى. ھەر قۇردا ئۈستۈن بولغىنى قىزىل بىلەن بەلگىلەنگەن.");
    ("vsAdvTitle", JStr "سىزگە بەرگەن ئارتۇقچىلىقلىرىمىز");
    ("chartsTitle", JStr "دىئاگراممىلار بىلەن سېلىشتۇرۇش");
    ("chartsSub", JStr "ئۆلچەنگەن ئىسپاتتىن ئېلىنغان. بىزنىڭ سىزىق — كۆك يېشىل.");
    ("proofTests", JStr "ئاپتوماتىك دەلىللەش سىنىقى.");
    ("proofPassed", JStr "ئۆتتى.");
    ("proofCtaAll", JStr "بارلىق سىناقلارنى كۆرۈش");
    ("proofCtaPdf", JStr "ئىسپات PDF");
    ("honestTitle", JStr "سەمىمىي چەكلەر");
    ("layersTitle", JStr "قاتلاملار");
    ("setupTitle", JStr "ئورنىتىش قوللانمىسى (تەپسىلىي)");
    ("setupSub", JStr "Ubuntu/Debian دا Core نى نۆلدىن ئورنىتىش (~15 مىنۇت) — قەدەممۇقەدەم.");
    ("reqTitle", JStr "تەلەپلەر");
    ("evidenceTitle", JStr "ئىسپات بولىقى");
    ("contactTitle", JStr "ئالاقە ۋە تۆھپە");
    ("ctaEmail", JStr "ئېلخەت ئەۋەتىش");
    ("ctaGithub", JStr "GitHub مەنبە");
    ("colProduct", JStr "مەھسۇلات");
    ("colDev", JStr "ئىجادىيەتچى");
    ("colProject", JStr "تۈر");
    ("copySuffix", JStr "ئوچۇق مەنبە")].
Definition section_sah : json := JObj [
    ("pipelineTitle", JStr "Биир сиэп: логтан kernel бан диэки");
    ("pipelineSub", JStr "nginx киирии сурунаал строкатыттан ipset бан диэки ~20 мс — күрэхтэһээччилэргэ аҥаардас архитектура.");
    ("selectedTitle", JStr "Талыллыбыт туоһулар");
    ("selectedLead", JStr "Core · Pro · Proof — биир сиэпкэ кээмэйдэнэр түмүктэр.");
    ("vsTitle", JStr "Күрэхтэһээччилэри тэҥнээһин");
    ("vsSub", JStr "Кээмэйдэммит туоһу — Fail2ban / CrowdSec / ModSecurity архитектура бэлиэтэ. Хас строкаҕа кыайааччы кыһыл өҥүнэн бэлиэтэммит.");
    ("vsAdvTitle", JStr "Эһиэхэ биэрэр туһабыт");
    ("chartsTitle", JStr "Графиктарынан тэҥнээһин");
    ("chartsSub", JStr "Кээмэйдэммит туоһуттан ылыллыбыт. Биһиги линиябыт — фирүза.");
    ("proofTests", JStr "автомат бэрэбиэркэ тиэһэ.");
    ("proofPassed", JStr "ааста.");
    ("proofCtaAll", JStr "Бары тиэстэри көр");
    ("proofCtaPdf", JStr "Туоһу PDF");
    ("honestTitle", JStr "Кырдьык кыраныыс");
    ("layersTitle", JStr "Слойдар");
    ("setupTitle", JStr "Олохтооһун көрдөрөр (сиһилии)");
    ("setupSub", JStr "Ubuntu/Debian үрдүгэр Core-у нуультан олохтооһун (~15 мүн) — хардыытан хардыы.");
    ("reqTitle", JStr "Ирдэбиллэр");
    ("evidenceTitle", JStr "Туоһу пакета");
    ("contactTitle", JStr "Ситим уонна кыттыы");
    ("ctaEmail", JStr "Сурук ыыт");
    ("ctaGithub", JStr "GitHub төрдө");
    ("colProduct", JStr "Продукт");
    ("colDev", JStr "Оҥорооччу");
    ("colProject", JStr "Проект");
    ("copySuffix", JStr "аһаҕас төрүт")].
Definition SECTION_OVERRIDES : list (jstring * json) := [("de", section_de); ("fr", section_fr); ("es", section_es); ("ru", section_ru); ("pt", section_pt); ("nl", section_nl); ("zh", section_zh); ("ja", section_ja); ("ko", section_ko); ("ar", section_ar); ("az", section_az); ("kk", section_kk); ("uz", section_uz); ("ky", section_ky); ("tk", section_tk); ("crh", section_crh); ("gag", section_gag); ("tt", section_tt); ("ba", section_ba); ("cv", section_cv); ("ug", section_ug); ("sah", section_sah)].
Definition name_ru : json := JStr "Линукс Лог Гардиан".
Definition name_kk : json := JStr "Линукс Лог Гардиан".
Definition name_ky : json := JStr "Линукс Лог Гардиан".
Definition name_tt : json := JStr "Линукс Лог Гардиан".
Definition name_ba : json := JStr "Линукс Лог Гардиан".
Definition name_cv : json := JStr "Линукс Лог Гардиан".
Definition name_sah : json := JStr "Линукс Лог Гардиан".
Definition name_ja : json := JStr "リナックス・ログ・ガーディアン".
Definition name_ko : json := JStr "리눅스 로그 가디언".
Definition name_ar : json := JStr "لينكس لوغ غارديان".
Definition name_ug : json := JStr "لىنۇكس لوگ گارديان".
Definition NAMES : list (jstring * json) := [("ru", name_ru); ("kk", name_kk); ("ky", name_ky); ("tt", name_tt); ("ba", name_ba); ("cv", name_cv); ("sah", name_sah); ("ja", name_ja); ("ko", name_ko); ("ar", name_ar); ("ug", name_ug)].
Definition testspage_de : json := JObj [
    ("eyebrow", JStr "//:Proof · Testmatrix");
    ("title", JStr "Verifikationstests");
    ("intro", JStr "Dieselbe automatische Testmatrix wie das Dashboard — Installations-Gates, CRS-Parität, FP, Ban-Latenz, Korpus-Recall und 72h-Soak. Alles gemessen und reproduzierbar.");
    ("allPassed", JStr "Alle Tests bestanden");
    ("summary", JStr "Testübersicht");
    ("passedWord", JStr "Tests bestanden");
    ("warnWord", JStr "Warnungen");
    ("failWord", JStr "fehlgeschlagen");
    ("ctaPdf", JStr "Nachweis-PDF");
    ("filterAll", JStr "Alle");
    ("filterGate", JStr "Installations- & Sicherheits-Gates");
    ("filterProof", JStr "Wettbewerbs- & Sicherheitsnachweis");
    ("gateHeading", JStr "Installations- und Sicherheits-Gates");
    ("proofHeading", JStr "Wettbewerbs- und Sicherheitsnachweis");
    ("statusPass", JStr "BESTANDEN");
    ("statusWarn", JStr "WARNUNG");
    ("statusFail", JStr "FEHLER");
    ("statusPending", JStr "AUSSTEHEND")].
Definition testspage_fr : json := JObj [
    ("eyebrow", JStr "//:Proof · Matrice de tests");
    ("title", JStr "Tests de vérification");
    ("intro", JStr "La même matrice de tests automatiques que le tableau de bord — gates d'installation, parité CRS, FP, latence de ban, rappel de corpus et soak 72h. Tout mesuré et reproductible.");
    ("allPassed", JStr "Tous les tests réussis");
    ("summary", JStr "Résumé des tests");
    ("passedWord", JStr "tests réussis");
    ("warnWord", JStr "avertissements");
    ("failWord", JStr "échoués");
    ("ctaPdf", JStr "PDF de preuve");
    ("filterAll", JStr "Tous");
    ("filterGate", JStr "Gates d'installation & sécurité");
    ("filterProof", JStr "Preuve compétitive & sécurité");
    ("gateHeading", JStr "Gates d'installation et de sécurité");
    ("proofHeading", JStr "Preuve compétitive et de sécurité");
    ("statusPass", JStr "RÉUSSI");
    ("statusWarn", JStr "ALERTE");
    ("statusFail", JStr "ÉCHEC");
    ("statusPending", JStr "EN ATTENTE")].
Definition testspage_es : json := JObj [
    ("eyebrow", JStr "//:Proof · Matriz de pruebas");
    ("title", JStr "Pruebas de verificación");
    ("intro", JStr "La misma matriz de pruebas automáticas que el panel — gates de instalación, paridad CRS, FP, latencia de ban, recall de corpus y soak 72h. Todo medido y reproducible.");
    ("allPassed", JStr "Todas las pruebas superadas");
    ("summary", JStr "Resumen de pruebas");
    ("passedWord", JStr "pruebas superadas");
    ("warnWord", JStr "avisos");
    ("failWord", JStr "fallidas");
    ("ctaPdf", JStr "PDF de prueba");
    ("filterAll", JStr "Todas");
    ("filterGate", JStr "Gates de instalación y seguridad");
    ("filterProof", JStr "Prueba competitiva y de seguridad");
    ("gateHeading", JStr "Gates de instalación y seguridad");
    ("proofHeading", JStr "Prueba competitiva y de seguridad");
    ("statusPass", JStr "PASA");
    ("statusWarn", JStr "AVISO");
    ("statusFail", JStr "FALLO");
    ("statusPending", JStr "PENDIENTE")].
Definition testspage_ru : json := JObj [
    ("eyebrow", JStr "//:Proof · Матрица тестов");
    ("title", JStr "Проверочные тесты");
    ("intro", JStr "Та же автоматическая матрица тестов, что и в дашборде — гейты установки, паритет CRS, FP, задержка бана, recall корпуса и 72ч soak. Всё измерено и воспроизводимо.");
    ("allPassed", JStr "Все тесты пройдены");
    ("summary", JStr "Сводка тестов");
    ("passedWord", JStr "тестов пройдено");
    ("warnWord", JStr "предупреждений");
    ("failWord", JStr "провалено");
    ("ctaPdf", JStr "PDF-доказательство");
    ("filterAll", JStr "Все");
    ("filterGate", JStr "Гейты установки и безопасности");
    ("filterProof", JStr "Конкурентное и защитное доказательство");
    ("gateHeading", JStr "Гейты установки и безопасности");
    ("proofHeading", JStr "Конкурентное и защитное доказательство");
    ("statusPass", JStr "ПРОЙДЕНО");
    ("statusWarn", JStr "ПРЕДУПР.");
    ("statusFail", JStr "ПРОВАЛ");
    ("statusPending", JStr "ОЖИДАНИЕ")].
Definition testspage_pt : json := JObj [
    ("eyebrow", JStr "//:Proof · Matriz de testes");
    ("title", JStr "Testes de verificação");
    ("intro", JStr "A mesma matriz de testes automáticos do painel — gates de instalação, paridade CRS, FP, latência de ban, recall de corpus e soak 72h. Tudo medido e reproduzível.");
    ("allPassed", JStr "Todos os testes aprovados");
    ("summary", JStr "Resumo dos testes");
    ("passedWord", JStr "testes aprovados");
    ("warnWord", JStr "avisos");
    ("failWord", JStr "falharam");
    ("ctaPdf", JStr "PDF de prova");
    ("filterAll", JStr "Todos");
    ("filterGate", JStr "Gates de instalação e segurança");
    ("filterProof", JStr "Prova competitiva e de segurança");
    ("gateHeading", JStr "Gates de instalação e segurança");
    ("proofHeading", JStr "Prova competitiva e de segurança");
    ("statusPass", JStr "PASSOU");
    ("statusWarn", JStr "AVISO");
    ("statusFail", JStr "FALHOU");
    ("statusPending", JStr "PENDENTE")].
Definition testspage_nl : json := JObj [
    ("eyebrow", JStr "//:Proof · Testmatrix");
    ("title", JStr "Verificatietests");
    ("intro", JStr "Dezelfde automatische testmatrix als het dashboard — installatie-gates, CRS-pariteit, FP, ban-latency, corpus-recall en 72u soak. Alles gemeten en reproduceerbaar.");
    ("allPassed", JStr "Alle tests geslaagd");
    ("summary", JStr "Testoverzicht");
    ("passedWord", JStr "tests geslaagd");
    ("warnWord", JStr "waarschuwingen");
    ("failWord", JStr "mislukt");
    ("ctaPdf", JStr "Bewijs-PDF");
    ("filterAll", JStr "Alle");
    ("filterGate", JStr "Installatie- & beveiligingsgates");
    ("filterProof", JStr "Concurrentie- & beveiligingsbewijs");
    ("gateHeading", JStr "Installatie- en beveiligingsgates");
    ("proofHeading", JStr "Concurrentie- en beveiligingsbewijs");
    ("statusPass", JStr "GESLAAGD");
    ("statusWarn", JStr "WAARSCH.");
    ("statusFail", JStr "MISLUKT");
    ("statusPending", JStr "IN AFW.")].
Definition testspage_zh : json := JObj [
    ("eyebrow", JStr "//:Proof · 测试矩阵");
    ("title", JStr "验证测试");
    ("intro", JStr "与仪表板相同的自动测试矩阵——安装关卡、CRS 对等、误报、封禁延迟、语料召回和 72 小时 soak。全部实测且可复现。");
    ("allPassed", JStr "所有测试通过");
    ("summary", JStr "测试摘要");
    ("passedWord", JStr "项测试通过");
    ("warnWord", JStr "警告");
    ("failWord", JStr "失败");
    ("ctaPdf", JStr "证据 PDF");
    ("filterAll", JStr "全部");
    ("filterGate", JStr "安装与安全关卡");
    ("filterProof", JStr "竞争与安全证据");
    ("gateHeading", JStr "安装与安全关卡");
    ("proofHeading", JStr "竞争与安全证据");
    ("statusPass", JStr "通过");
    ("statusWarn", JStr "警告");
    ("statusFail", JStr "失败");
    ("statusPending", JStr "待定")].
Definition testspage_ja : json := JObj [
    ("eyebrow", JStr "//:Proof · テストマトリクス");
    ("title", JStr "検証テスト");
    ("intro", JStr "ダッシュボードと同じ自動テストマトリクス——インストールゲート、CRS 整合、誤検知、BAN レイテンシ、コーパスリコール、72時間ソーク。すべて実測・再現可能。");
    ("allPassed", JStr "全テスト合格");
    ("summary", JStr "テスト概要");
    ("passedWord", JStr "テスト合格");
    ("warnWord", JStr "警告");
    ("failWord", JStr "失敗");
    ("ctaPdf", JStr "証拠 PDF");
    ("filterAll", JStr "すべて");
    ("filterGate", JStr "インストール & セキュリティゲート");
    ("filterProof", JStr "競合 & セキュリティ証拠");
    ("gateHeading", JStr "インストールとセキュリティゲート");
    ("proofHeading", JStr "競合とセキュリティ証拠");
    ("statusPass", JStr "合格");
    ("statusWarn", JStr "警告");
    ("statusFail", JStr "失敗");
    ("statusPending", JStr "保留")].
Definition testspage_ko : json := JObj [
    ("eyebrow", JStr "//:Proof · 테스트 매트릭스");
    ("title", JStr "검증 테스트");
    ("intro", JStr "대시보드와 동일한 자동 테스트 매트릭스 — 설치 게이트, CRS 동등성, 오탐, 밴 지연, 코퍼스 재현율, 72시간 soak. 모두 측정·재현 가능.");
    ("allPassed", JStr "모든 테스트 통과");
    ("summary", JStr "테스트 요약");
    ("passedWord", JStr "개 테스트 통과");
    ("warnWord", JStr "경고");
    ("failWord", JStr "실패");
    ("ctaPdf", JStr "증거 PDF");
    ("filterAll", JStr "전체");
    ("filterGate", JStr "설치 & 보안 게이트");
    ("filterProof", JStr "경쟁 & 보안 증거");
    ("gateHeading", JStr "설치 및 보안 게이트");
    ("proofHeading", JStr "경쟁 및 보안 증거");
    ("statusPass", JStr "통과");
    ("statusWarn", JStr "경고");
    ("statusFail", JStr "실패");
    ("statusPending", JStr "대기")].
Definition testspage_ar : json := JObj [
    ("eyebrow", JStr "//:Proof · مصفوفة الاختبارات");
    ("title", JStr "اختبارات التحقق");
    ("intro", JStr "نفس مصفوفة الاختبارات الآلية مثل اللوحة — بوابات التثبيت، تكافؤ CRS، الإيجابيات الكاذبة، زمن الحظر، استرجاع المجموعة وsoak لمدة 72 ساعة. كله مقاس وقابل لإعادة الإنتاج.");
    ("allPassed", JStr "نجحت كل الاختبارات");
    ("summary", JStr "ملخص الاختبارات");
    ("passedWord", JStr "اختبار ناجح");
    ("warnWord", JStr "تحذيرات");
    ("failWord", JStr "فشل");
    ("ctaPdf", JStr "PDF الدليل");
    ("filterAll", JStr "الكل");
    ("filterGate", JStr "بوابات التثبيت والأمان");
    ("filterProof", JStr "دليل تنافسي وأمني");
    ("gateHeading", JStr "بوابات التثبيت والأمان");
    ("proofHeading", JStr "دليل تنافسي وأمني");
    ("statusPass", JStr "ناجح");
    ("statusWarn", JStr "تحذير");
    ("statusFail", JStr "فشل");
    ("statusPending", JStr "معلّق")].
Definition testspage_az : json := JObj [
    ("eyebrow", JStr "//:Proof · Test matrisi");
    ("title", JStr "Doğrulama testləri");
    ("intro", JStr "Dashboard ilə eyni avtomatik test matrisi — quraşdırma qapıları, CRS pariteti, FP, ban gecikməsi, korpus recall və 72s soak. Hamısı ölçülmüş və təkrar istehsal edilə bilən.");
    ("allPassed", JStr "Bütün testlər keçdi");
    ("summary", JStr "Test xülasəsi");
    ("passedWord", JStr "test keçdi");
    ("warnWord", JStr "xəbərdarlıq");
    ("failWord", JStr "uğursuz");
    ("ctaPdf", JStr "Sübut PDF");
    ("filterAll", JStr "Hamısı");
    ("filterGate", JStr "Quraşdırma və təhlükəsizlik qapıları");
    ("filterProof", JStr "Rəqabət və təhlükəsizlik sübutu");
    ("gateHeading", JStr "Quraşdırma və təhlükəsizlik qapıları");
    ("proofHeading", JStr "Rəqabət və təhlükəsizlik sübutu");
    ("statusPass", JStr "KEÇDİ");
    ("statusWarn", JStr "XƏBƏRDARLIQ");
    ("statusFail", JStr "UĞURSUZ");
    ("statusPending", JStr "GÖZLƏYİR")].
Definition testspage_kk : json := JObj [
    ("eyebrow", JStr "//:Proof · Тест матрицасы");
    ("title", JStr "Тексеру тесттері");
    ("intro", JStr "Дашбордпен бірдей автоматты тест матрицасы — орнату қақпалары, CRS паритеті, FP, бан кідірісі, корпус recall және 72с soak. Бәрі өлшенген және қайта жаңғыртылатын.");
    ("allPassed", JStr "Барлық тесттер өтті");
    ("summary", JStr "Тест қорытындысы");
    ("passedWord", JStr "тест өтті");
    ("warnWord", JStr "ескерту");
    ("failWord", JStr "құлады");
    ("ctaPdf", JStr "Дәлел PDF");
    ("filterAll", JStr "Барлығы");
    ("filterGate", JStr "Орнату және қауіпсіздік қақпалары");
    ("filterProof", JStr "Бәсеке және қауіпсіздік дәлелі");
    ("gateHeading", JStr "Орнату және қауіпсіздік қақпалары");
    ("proofHeading", JStr "Бәсеке және қауіпсіздік дәлелі");
    ("statusPass", JStr "ӨТТІ");
    ("statusWarn", JStr "ЕСКЕРТУ");
    ("statusFail", JStr "ҚҰЛАДЫ");
    ("statusPending", JStr "КҮТУДЕ")].
Definition testspage_uz : json := JObj [
    ("eyebrow", JStr "//:Proof · Test matritsasi");
    ("title", JStr "Tekshirish testlari");
    ("intro", JStr "Dashboard bilan bir xil avtomatik test matritsasi — o'rnatish darvozalari, CRS pariteti, FP, ban kechikishi, korpus recall va 72s soak. Hammasi o'lchangan va qayta ishlab chiqariladigan.");
    ("allPassed", JStr "Barcha testlar o'tdi");
    ("summary", JStr "Test xulosasi");
    ("passedWord", JStr "test o'tdi");
    ("warnWord", JStr "ogohlantirish");
    ("failWord", JStr "muvaffaqiyatsiz");
    ("ctaPdf", JStr "Dalil PDF");
    ("filterAll", JStr "Hammasi");
    ("filterGate", JStr "O'rnatish va xavfsizlik darvozalari");
    ("filterProof", JStr "Raqobat va xavfsizlik dalili");
    ("gateHeading", JStr "O'rnatish va xavfsizlik darvozalari");
    ("proofHeading", JStr "Raqobat va xavfsizlik dalili");
    ("statusPass", JStr "O'TDI");
    ("statusWarn", JStr "OGOHLANTIRISH");
    ("statusFail", JStr "MUVAFFAQIYATSIZ");
    ("statusPending", JStr "KUTILMOQDA")].
Definition testspage_ky : json := JObj [
    ("eyebrow", JStr "//:Proof · Тест матрицасы");
    ("title", JStr "Текшерүү тесттери");
    ("intro", JStr "Дашборд менен бирдей автоматтык тест матрицасы — орнотуу дарбазалары, CRS паритети, FP, бан кечигүүсү, корпус recall жана 72с soak. Баары өлчөнгөн жана кайра чыгарылуучу.");
    ("allPassed", JStr "Бардык тесттер өттү");
    ("summary", JStr "Тест жыйынтыгы");
    ("passedWord", JStr "тест өттү");
    ("warnWord", JStr "эскертүү");
    ("failWord", JStr "кулады");
    ("ctaPdf", JStr "Далил PDF");
    ("filterAll", JStr "Баары");
    ("filterGate", JStr "Орнотуу жана коопсуздук дарбазалары");
    ("filterProof", JStr "Атаандаштык жана коопсуздук далили");
    ("gateHeading", JStr "Орнотуу жана коопсуздук дарбазалары");
    ("proofHeading", JStr "Атаандаштык жана коопсуздук далили");
    ("statusPass", JStr "ӨТТҮ");
    ("statusWarn", JStr "ЭСКЕРТҮҮ");
    ("statusFail", JStr "КУЛАДЫ");
    ("statusPending", JStr "КҮТҮҮДӨ")].
Definition testspage_tk : json := JObj [
    ("eyebrow", JStr "//:Proof · Test matrisasy");
    ("title", JStr "Barlaýyş testleri");
    ("intro", JStr "Dashboard bilen birmeňzeş awtomatik test matrisasy — gurnama derwezeleri, CRS pariteti, FP, ban gijikdirmesi, korpus recall we 72s soak. Hemmesi ölçelen we gaýtadan öndürilýän.");
    ("allPassed", JStr "Ähli testler geçdi");
    ("summary", JStr "Test jemi");
    ("passedWord", JStr "test geçdi");
    ("warnWord", JStr "duýduryş");
    ("failWord", JStr "şowsuz");
    ("ctaPdf", JStr "Subutnama PDF");
    ("filterAll", JStr "Hemmesi");
    ("filterGate", JStr "Gurnama we howpsuzlyk derwezeleri");
    ("filterProof", JStr "Bäsdeşlik we howpsuzlyk subutnamasy");
    ("gateHeading", JStr "Gurnama we howpsuzlyk derwezeleri");
    ("proofHeading", JStr "Bäsdeşlik we howpsuzlyk subutnamasy");
    ("statusPass", JStr "GEÇDI");
    ("statusWarn", JStr "DUÝDURYŞ");
    ("statusFail", JStr "ŞOWSUZ");
    ("statusPending", JStr "GARAŞÝAR")].
Definition testspage_tt : json := JObj [
    ("eyebrow", JStr "//:Proof · Тест матрицасы");
    ("title", JStr "Тикшерү тестлары");
    ("intro", JStr "Дашборд белән бертөрле автомат тест матрицасы — урнаштыру капкалары, CRS паритеты, FP, бан тоткарлыгы, корпус recall һәм 72с soak. Барысы да үлчәнгән һәм кабат җитештерелә торган.");
    ("allPassed", JStr "Барлык тестлар үтте");
    ("summary", JStr "Тест йомгагы");
    ("passedWord", JStr "тест үтте");
    ("warnWord", JStr "кисәтү");
    ("failWord", JStr "калды");
    ("ctaPdf", JStr "Дәлил PDF");
    ("filterAll", JStr "Барысы");
    ("filterGate", JStr "Урнаштыру һәм куркынычсызлык капкалары");
    ("filterProof", JStr "Ярыш һәм куркынычсызлык дәлиле");
    ("gateHeading", JStr "Урнаштыру һәм куркынычсызлык капкалары");
    ("proofHeading", JStr "Ярыш һәм куркынычсызлык дәлиле");
    ("statusPass", JStr "ҮТТЕ");
    ("statusWarn", JStr "КИСӘТҮ");
    ("statusFail", JStr "КАЛДЫ");
    ("statusPending", JStr "КӨТӘ")].
Definition testspage_ba : json := JObj [
    ("eyebrow", JStr "//:Proof · Тест матрицаһы");
    ("title", JStr "Тикшереү тестары");
    ("intro", JStr "Дашборд менән бер төрлө автомат тест матрицаһы — урынлаштырыу ҡапҡалары, CRS паритеты, FP, бан тотҡарлығы, корпус recall һәм 72с soak. Барыһы ла үлсәнгән һәм ҡабат етештерелә торған.");
    ("allPassed", JStr "Бөтә тестар үтте");
    ("summary", JStr "Тест йомғағы");
    ("passedWord", JStr "тест үтте");
    ("warnWord", JStr "иҫкәртеү");
    ("failWord", JStr "йығылды");
    ("ctaPdf", JStr "Дәлил PDF");
    ("filterAll", JStr "Барыһы");
    ("filterGate", JStr "Урынлаштырыу һәм хәүефһеҙлек ҡапҡалары");
    ("filterProof", JStr "Ярыш һәм хәүефһеҙлек дәлиле");
    ("gateHeading", JStr "Урынлаштырыу һәм хәүефһеҙлек ҡапҡалары");
    ("proofHeading", JStr "Ярыш һәм хәүефһеҙлек дәлиле");
    ("statusPass", JStr "ҮТТЕ");
    ("statusWarn", JStr "ИҪКӘРТЕҮ");
    ("statusFail", JStr "ЙЫҒЫЛДЫ");
    ("statusPending", JStr "КӨТӘ")].
Definition testspage_cv : json := JObj [
    ("eyebrow", JStr "//:Proof · Тест матрици");
    ("title", JStr "Тӗрӗслев тесчӗсем");
    ("intro", JStr "Дашбордри пекех автомат тест матрици — вырнаҫтару хапхисем, CRS паритечӗ, FP, бан кӗтесси, корпус recall тата 72с soak. Пурте виҫнӗ тата тепӗр хут тӑвакан.");
    ("allPassed", JStr "Пур тестсем иртрӗҫ");
    ("summary", JStr "Тест пӗтӗмлетӗвӗ");
    ("passedWord", JStr "тест иртрӗ");
    ("warnWord", JStr "асӑрхаттару");
    ("failWord", JStr "ӳкрӗ");
    ("ctaPdf", JStr "Кӑтарту PDF");
    ("filterAll", JStr "Пурте");
    ("filterGate", JStr "Вырнаҫтару тата хӑрушсӑрлӑх хапхисем");
    ("filterProof", JStr "Ӑмӑрту тата хӑрушсӑрлӑх кӑтартӑвӗ");
    ("gateHeading", JStr "Вырнаҫтару тата хӑрушсӑрлӑх хапхисем");
    ("proofHeading", JStr "Ӑмӑрту тата хӑрушсӑрлӑх кӑтартӑвӗ");
    ("statusPass", JStr "ИРТРӖ");
    ("statusWarn", JStr "АСӐРХ.");
    ("statusFail", JStr "ӲКРӖ");
    ("statusPending", JStr "КӖТЕТ")].
Definition testspage_crh : json := JObj [
    ("eyebrow", JStr "//:Proof · Test matritsası");
    ("title", JStr "Doğrulama testleri");
    ("intro", JStr "Dashboard ile aynı avtomatik test matritsası — qurulım qapıları, CRS pariteti, FP, ban keçikmesi, korpus recall ve 72s soak. Episi ölçengen ve tekrar tüzülgen.");
    ("allPassed", JStr "Episi testler keçti");
    ("summary", JStr "Test hulâsası");
    ("passedWord", JStr "test keçti");
    ("warnWord", JStr "tenbi");
    ("failWord", JStr "keçmedi");
    ("ctaPdf", JStr "Delil PDF");
    ("filterAll", JStr "Episi");
    ("filterGate", JStr "Qurulım ve qavutlıq qapıları");
    ("filterProof", JStr "Rekabet ve qavutlıq delili");
    ("gateHeading", JStr "Qurulım ve qavutlıq qapıları");
    ("proofHeading", JStr "Rekabet ve qavutlıq delili");
    ("statusPass", JStr "KEÇTI");
    ("statusWarn", JStr "TENBİ");
    ("statusFail", JStr "KEÇMEDİ");
    ("statusPending", JStr "BEKLEY")].
Definition testspage_gag : json := JObj [
    ("eyebrow", JStr "//:Proof · Test matritsası");
    ("title", JStr "Doğrulama testleri");
    ("intro", JStr "Dashboard ile aynı avtomat test matritsası — kuruluş kapıları, CRS pariteti, FP, ban gecikmesi, korpus recall hem 72s soak. Hepsi ölçülü hem tekrar yapılabilän.");
    ("allPassed", JStr "Hepsi testler geçti");
    ("summary", JStr "Test özeti");
    ("passedWord", JStr "test geçti");
    ("warnWord", JStr "tenbi");
    ("failWord", JStr "geçmedi");
    ("ctaPdf", JStr "Delil PDF");
    ("filterAll", JStr "Hepsi");
    ("filterGate", JStr "Kuruluş hem güvennik kapıları");
    ("filterProof", JStr "Yarış hem güvennik delili");
    ("gateHeading", JStr "Kuruluş hem güvennik kapıları");
    ("proofHeading", JStr "Yarış hem güvennik delili");
    ("statusPass", JStr "GEÇTI");
    ("statusWarn", JStr "TENBİ");
    ("statusFail", JStr "GEÇMEDI");
    ("statusPending", JStr "BEKLER")].
Definition testspage_ug : json := JObj [
    ("eyebrow", JStr "//:Proof · سىناق ماترىتسىسى");
    ("title", JStr "دەلىللەش سىناقلىرى");
    ("intro", JStr "باشقۇرۇش تاختىسى بىلەن ئوخشاش ئاپتوماتىك سىناق ماترىتسىسى — ئورنىتىش دەرۋازىلىرى، CRS تەڭپۇڭلۇقى، FP، چەكلەش كېچىكىشى، كورپۇس recall ۋە 72سائەت soak. ھەممىسى ئۆلچەنگەن ۋە قايتا ياسىغىلى بولىدۇ.");
    ("allPassed", JStr "بارلىق سىناقلار ئۆتتى");
    ("summary", JStr "سىناق خۇلاسىسى");
    ("passedWord", JStr "سىناق ئۆتتى");
    ("warnWord", JStr "ئاگاھلاندۇرۇش");
    ("failWord", JStr "مەغلۇپ");
    ("ctaPdf", JStr "ئىسپات PDF");
    ("filterAll", JStr "ھەممىسى");
    ("filterGate", JStr "ئورنىتىش ۋە بىخەتەرلىك دەرۋازىلىرى");
    ("filterProof", JStr "رىقابەت ۋە بىخەتەرلىك ئىسپاتى");
    ("gateHeading", JStr "ئورنىتىش ۋە بىخەتەرلىك دەرۋازىلىرى");
    ("proofHeading", JStr "رىقابەت ۋە بىخەتەرلىك ئىسپاتى");
    ("statusPass", JStr "ئۆتتى");
    ("statusWarn", JStr "ئاگاھ");
    ("statusFail", JStr "مەغلۇپ");
    ("statusPending", JStr "كۈتۈۋاتىدۇ")].
Definition testspage_sah : json := JObj [
    ("eyebrow", JStr "//:Proof · Тест матрицата");
    ("title", JStr "Бэрэбиэркэ тестэрэ");
    ("intro", JStr "Дашбордтыын биир автомат тест матрицата — туруоруу ааннара, CRS паритета, FP, бан хойутааһына, корпус recall уонна 72ч soak. Бары кээмэйдэммит уонна хат оҥоһуллар.");
    ("allPassed", JStr "Бары тестэр аастылар");
    ("summary", JStr "Тест түмүгэ");
    ("passedWord", JStr "тест ааста");
    ("warnWord", JStr "сэрэтии");
    ("failWord", JStr "түстэ");
    ("ctaPdf", JStr "Туоһу PDF");
    ("filterAll", JStr "Барыта");
    ("filterGate", JStr "Туруоруу уонна куттала суох ааннара");
    ("filterProof", JStr "Күрэс уонна куттала суох туоһута");
    ("gateHeading", JStr "Туруоруу уонна куттала суох ааннара");
    ("proofHeading", JStr "Күрэс уонна куттала суох туоһута");
    ("statusPass", JStr "ААСТА");
    ("statusWarn", JStr "СЭРЭТИИ");
    ("statusFail", JStr "ТҮСТЭ");
    ("statusPending", JStr "КҮҮТ")].
Definition TESTS_OVERRIDES : list (jstring * json) := [("de", testspage_de); ("fr", testspage_fr); ("es", testspage_es); ("ru", testspage_ru); ("pt", testspage_pt); ("nl", testspage_nl); ("zh", testspage_zh); ("ja", testspage_ja); ("ko", testspage_ko); ("ar", testspage_ar); ("az", testspage_az); ("kk", testspage_kk); ("uz", testspage_uz); ("ky", testspage_ky); ("tk", testspage_tk); ("tt", testspage_tt); ("ba", testspage_ba); ("cv", testspage_cv); ("crh", testspage_crh); ("gag", testspage_gag); ("ug", testspage_ug); ("sah", testspage_sah)].
