(* ===== verification/LandingBodies.v ===== *)
(** The long texts of the landing page in each language: the table BODY_OVERRIDES of
    landing/lib/i18n/copy.ts. *)

From S2P Require Import Prelude JsString JsNum Json LandingContent.

Definition body_de : json := JObj [
    ("pipelineNote", JStr "XDR, Wasm-Marktplatz und LLM-Copilot sind langfristige optionale Schichten — Core ist allein produktionsreif.");
    ("selectedBodies", JArr [
      JStr "Eine Kette: nginx-Log → OWASP CRS → ~20 ms Kernel-Ban. Produktion in ~15 Minuten.";
      JStr "Flotte, SOC-Timeline, Dashboards — eine optionale Schicht auf Ihrem eigenen Server nach der Installation.";
      JStr "75 automatische Tests, Vergleichs-PDF, 72h-Soak — dieselbe Matrix wie dashboard /tests.";
      JStr "Tenant-markierte Prometheus-Metriken, Dashboards und Alarmregeln — self-hosted Observability.";
      JStr "Multi-Node-Flotte: Agent-Sync, etcd-Mesh-Policy und gezielter Befehlsversand — aus einem Panel.";
      JStr "TAXII/STIX-Threat-Feed + Telegram-SOC: Alarm, Ban und Ein-Klick-'ack' — Live-Betreiber-Flow.";
      JStr "XDP-Filter + execve/lineage-uprobes — Paket-Drop auf Kernel-Ebene und Syscall-Tracing. Auf Laptops genügt --no-xdp mit ipset.";
      JStr "Erkennung verteilter Scanner: gleicher JA3-Fingerprint + anderer IP-Cluster, 100% Recall — Live-Test mit 80 IPs.";
      JStr "Angriffsbaum, Lineage-Probe, Syscall-uprobe — langfristige optionale Schicht; Erkennung von Angriffsketten und verdeckten Kanälen.";
      JStr "Eigene Regel-Plugins über eine Wasm-Runtime — Marktplatz-Modell, erweitern ohne den Core zu berühren.";
      JStr "JSON-event_type-Stream — SIEM-Export-Nachweis für Splunk/Elastic/Vector (siem-export-report.json).";
      JStr "Tarpit-Server + Trap-Watcher — den Angreifer verlangsamen und Honeypot-Signal; Deception-Schicht."]);
    ("advLead", JStr "Fail2ban bannt nur, ModSecurity-WAF ist ein separates Modul, CrowdSec braucht einen stückweisen Stack. Log Guardian vereint diese drei Aufgaben in einer Kette — mit gemessenem Nachweis.");
    ("advantages", JArr [
      JObj [
        ("k", JStr "Eine Installation, eine Kette");
        ("v", JStr "Sie installieren und integrieren Fail2ban + ModSecurity + CrowdSec nicht separat. nginx-Log → WAF/CRS → Kernel-Ban in einem Produkt, ~15 Min Setup.")];
      JObj [
        ("k", JStr "~20 ms Kernel-Ban");
        ("v", JStr "Median ~20 ms von der Logzeile bis zum ipset/XDP-Ban. Fail2ban/CrowdSec bleiben im Sekunden-Minuten-Bereich; belegt mit 21 gemessenen Proben.")];
      JObj [
        ("k", JStr "280.373 EPS · 16,93× ModSec");
        ("v", JStr "Auf demselben Korpus mit denselben 121 OWASP-CRS-Patterns (PCRE2 JIT) liegt der WAF/CRS-Durchsatz bei 280.373 EPS — 16,93× schneller als ModSecs 16.560 EPS. Gemessen und reproduzierbar (bench-vs-modsec.json).")];
      JObj [
        ("k", JStr "100% Recall + 100% CRS-Parität");
        ("v", JStr "121 OWASP-CRS-Regeln, 100% Recall echter Angriffe auf einem 1500-Zeilen-Korpus und volle Parität mit ModSec — bei 0,2% False Positives.")];
      JObj [
        ("k", JStr "Abdeckung verteilter Angriffe");
        ("v", JStr "JA3-Cluster-Erkennung + Ban pro IP — 100% in einem Live-Test mit 80 IPs. Fail2ban ist Einzel-IP; CrowdSec braucht ein separates Signalnetz.")];
      JObj [
        ("k", JStr "Transparenter, reproduzierbarer Nachweis");
        ("v", JStr "75 automatische Tests + ein 14-Dateien-Nachweispaket + 72h-Soak (864 Proben, 0 Fehler). Rivalen haben keinen automatischen Nachweis oder er ist fragmentiert.")];
      JObj [
        ("k", JStr "Self-hosted · MIT · aus der Türkei");
        ("v", JStr "Ihre Daten bleiben bei Ihnen, kein Vendor-Lock-in, voll Open Source. SOC-Timeline, Prometheus-Metriken und Telegram-Betrieb in einem Panel (:8443).")]]);
    ("vsNote", JStr "Ehrliche Grenze: In manchen Bereichen sind Rivalen klar besser (rote Zellen). ModSec + CRS führt beim sofortigen Blockieren der ersten Anfrage; CrowdSec ist stark bei seinem verteilten Community-Signalnetz und der Managed-SaaS-Konsole. Im Gegenzug liegt unser WAF/CRS-Durchsatz auf demselben Korpus mit denselben 121 CRS-Patterns bei 280.373 EPS — 16,93× ModSecs 16.560 EPS (bench-vs-modsec.json).");
    ("vsLegend", JStr "Rot = der Sieger in dieser Zeile");
    ("honestItems", JArr [
      JStr "Reaktive Architektur — die erste Anfrage kann durchgehen, bis die Logzeile fällt; wir erreichen nicht die Inline-Geschwindigkeit von ModSec.";
      JStr "Wir absorbieren kein L3/L4-DDoS — wir sitzen hinter einem CDN.";
      JStr "Verteiltes Botnetz — Ban pro IP; kein CrowdSec-Signalnetz.";
      JStr "Leistet: Log → CRS/WAF → ~20 ms Kernel-Ban, Nachweis-PDF, Telegram-Betrieb, MIT self-hosted."]);
    ("layersBodies", JArr [
      JStr "Log → WAF → ipset-Ban (~15 Min)";
      JStr "eBPF-Daemon, Dashboard, Metriken, Flotte";
      JStr "K8s/Helm (kind) + fleet + Wasm/mesh"]);
    ("layersNote", JStr "XDR, Wasm-Marktplatz und LLM-Copilot sind langfristige optionale Schichten — Core ist allein produktionsreif.");
    ("setupIntro", JStr "Quelle: GitHub — Linux-Log-Guardian. Zwei Wege: ein vorgefertigtes .deb-Paket (empfohlen) oder Bau aus dem Quellcode. Es läuft auch ohne eBPF/XDP auf Laptops/VMs (ipset-basierter Ban). Die folgenden Schritte gelten für einen Produktionsserver; die erwartete Ausgabe jedes Befehls ist enthalten.");
    ("setupTip", JStr "Tipp: Für JWT und das Dashboard-Passwort nutzen Sie bash scripts/laptop_jwt_setup.sh. 3-Minuten-Demo: SKIP_WEBHOOK=1 bash scripts/demo_3min.sh. Docs: docs/QUICKSTART_NGINX.md · docs/LAPTOP_OPS.md · docs/SECURITY_PROFILES.md.");
    ("contactBody", JStr "Schreiben Sie bei Fragen, für Zusammenarbeit oder Beiträge. Bug-Reports und Pull Requests sind im Open-Source-Geist willkommen.");
    ("footerDesc", JStr "nginx-Access-Log → WAF/CRS → Kernel-Ban. Eine Kette, self-hosted, MIT-lizenziert. In der Türkei entwickelt.");
    ("footerSoak", JStr "72h-Soak PASS · 0 Fehler");
    ("proofBody", JStr "Keine Folien, reproduzierbarer Nachweis. OWASP-CRS-Parität, False-Positive-Gates, Ban-Latenz-Benchmarks, Korpus-Recall und ein 72-Stunden-Soak — alles gemessen, automatisiert und in einer öffentlichen Testmatrix sichtbar.");
    ("vsCols", JArr [JStr "Metrik"; JStr "Log Guardian"; JStr "Fail2ban"; JStr "CrowdSec"; JStr "ModSec + CRS"]);
    ("vsGroupLabels", JArr [JStr "Stärken (gemessen)"; JStr "Ehrliche Grenzen"]);
    ("vsRows0", JArr [
      JArr [
        JStr "Log → WAF → Kernel-Ban";
        JStr "Eine Kette";
        JStr "Nur Ban";
        JStr "Stückweise";
        JStr "WAF separat"];
      JArr [
        JStr "WAF/CRS-Durchsatz (gleicher Korpus)";
        JStr "280.373 EPS (16,93×)";
        JStr "—";
        JStr "—";
        JStr "16.560 EPS"];
      JArr [JStr "OWASP-CRS-Parität"; JStr "100% (121 Regeln)"; JStr "—"; JStr "—"; JStr "Referenz (100%)"];
      JArr [JStr "Recall echter Angriffe"; JStr "100% (1K+10K)"; JStr "—"; JStr "—"; JStr "100%"];
      JArr [JStr "Verteilter / JA3-Cluster-Ban"; JStr "100% (80 IP)"; JStr "—"; JStr "Signalbasiert"; JStr "—"];
      JArr [JStr "nginx-Inline-Consult"; JStr "PASS"; JStr "—"; JStr "—"; JStr "Separates Modul"];
      JArr [JStr "L7-Anwendungsschutz"; JStr "WAF + Consult + eBPF"; JStr "—"; JStr "—"; JStr "CRS inline"];
      JArr [JStr "Kernel / eBPF (XDP) Ban"; JStr "ipset + XDP"; JStr "iptables"; JStr "iptables/nft"; JStr "—"];
      JArr [JStr "False Positive"; JStr "0,2% (gemessen)"; JStr "Hoch"; JStr "Mittel"; JStr "CRS-abhängig"];
      JArr [JStr "Ban-Latenz"; JStr "~20 ms"; JStr "Sek–Min"; JStr "Sek"; JStr "Separate Integration"];
      JArr [JStr "Kurze Stabilität (5 Min)"; JStr "PASS (0 Fehler)"; JStr "—"; JStr "—"; JStr "—"];
      JArr [JStr "72h-Soak"; JStr "PASS (864/0)"; JStr "—"; JStr "—"; JStr "—"];
      JArr [
        JStr "Nachweispaket PDF+JSON";
        JStr "Automatisch (14 Dateien)";
        JStr "Keines";
        JStr "Teilweise";
        JStr "Modul für Modul"];
      JArr [JStr "Automatische Testmatrix"; JStr "75 Tests"; JStr "—"; JStr "Teilweise"; JStr "—"];
      JArr [JStr "SOC-Timeline / Dashboard"; JStr "Ja (:8443)"; JStr "—"; JStr "Konsole"; JStr "—"];
      JArr [JStr "Telegram-Betrieb + Ack"; JStr "Ja (Ein-Klick)"; JStr "—"; JStr "Teilweise"; JStr "—"];
      JArr [JStr "Einrichtungszeit"; JStr "~15 Min"; JStr "Minuten"; JStr "Minuten"; JStr "Stunden (Tuning)"]]);
    ("vsRows1", JArr [
      JArr [
        JStr "Erste Anfrage sofort blocken";
        JStr "Reaktiv (Logzeile)";
        JStr "Reaktiv";
        JStr "Teilweise";
        JStr "Inline (sofort)"];
      JArr [
        JStr "Volumetrisches L3/L4-Scrubbing";
        JStr "Keines — CDN empfohlen";
        JStr "Keines";
        JStr "Keines";
        JStr "Keines"];
      JArr [JStr "Community-Signalnetz"; JStr "Self-hosted"; JStr "—"; JStr "Ja (global)"; JStr "—"];
      JArr [JStr "Edge / Cloud-WAF"; JStr "Origin-Schicht"; JStr "—"; JStr "Bouncer"; JStr "Proxy-Modus"];
      JArr [JStr "Managed Cloud / SaaS"; JStr "Keines (self-hosted)"; JStr "Keines"; JStr "Ja (Konsole)"; JStr "—"]]);
    ("requirements", JArr [
      JStr "Ubuntu 22.04 / 24.04 oder Debian 12 (amd64)";
      JStr "nginx + beschreibbares Access-Log (log_guardian-Format)";
      JStr "Root oder sudo (systemd, ipset, /etc/log-guardian)";
      JStr "~200 MB Disk, 128 MB RAM (Core); Docker für Pro";
      JStr "Optional Pro: Kernel 5.10+ für eBPF/XDP, Docker (Dashboard/Metriken)"]);
    ("setup", JObj [
      ("pathTitles", JArr [JStr "Frischer Server — .deb-Paket"; JStr "Quellcode — bauen und installieren"]);
      ("pathBadges", JArr [JStr "empfohlen"; JStr "Entwickler"]);
      ("pathNotes", JArr [
        JStr "Kein Bauen nötig. Das Paket liefert die Binary, systemd-Units, Regeln und Skripte. Upgrade-sicher: eine vorhandene /etc/log-guardian/rules.conf bleibt erhalten. Von GitHub Releases (log-guardian_*_amd64.deb) oder mit bash scripts/build_deb.sh → dist/.";
        JStr "Klonen Sie das GitHub-Repo und bauen Sie. Ideal für Entwicklung, Anpassung und vollständige Quellcode-Prüfung. install.sh richtet systemd-Units, Regeln und das nginx-Log-Format ein."]);
      ("pathSteps", JArr [
        JArr [
          JObj [
            ("t", JStr "Abhängigkeiten");
            ("d", JStr "Fügen Sie bei der Erstinstallation die Debian-Paketabhängigkeiten hinzu. Fehlt nginx, kann es im selben Befehl ergänzt werden.")];
          JObj [
            ("t", JStr "Paket installieren");
            ("d", JStr "Meldet dpkg -i einen Abhängigkeitsfehler, führen Sie apt-get install -f aus. Der postinst-Schritt legt den log-guardian-Benutzer, Rechte, systemd-Units und eine Standard-rules.conf automatisch an.")];
          JObj [
            ("t", JStr "Erster Start und API-Sicherheit");
            ("d", JStr "Bereitet nginx-Log-Format, FP-Trust und API-Sicherheit (Token, fail-closed) in einem Rutsch vor. Die Skripte liegen im Paket (/usr/local/share/log-guardian/scripts/).")]];
        JArr [
          JObj [
            ("t", JStr "Quelle und Bauen");
            ("d", JStr "Klonen Sie das Repo, bauen Sie mit allen Kernen und führen Sie das Haupt-Installationsskript aus.")];
          JObj [
            ("t", JStr "Erster Start und Token-Sync");
            ("d", JStr "Startet die Dienste und bereitet den API-Token-Sync und die Dashboard-Verbindung vor.")]]]);
      ("commonTitle", JStr "Gemeinsame Schritte (nach A oder B)");
      ("commonSteps", JArr [
        JObj [
          ("t", JStr "Nginx-Log-Format");
          ("d", JStr "Das log_guardian-Log-Format ist nötig, damit die WAF den Request-Body und X-Forwarded-For lesen kann. Setup wendet es meist automatisch an; im STRICT-Modus prüfen.")];
        JObj [
          ("t", JStr "Gesundheits- und Statusprüfung");
          ("d", JStr "Prüfen Sie Daemon-IPC, Dienststatus und BPF-Features. Grünes Gate: Am Ende von post_install_verify sollte FAIL: 0 stehen.")];
        JObj [
          ("t", JStr "Metriken und erster Ban-Test");
          ("d", JStr "Prüfen Sie Prometheus-Metriken; beobachten Sie, wie die Zähler nach Traffic steigen. Sie können eine Angriffszeile einspeisen und den Ban in ipset verifizieren.")];
        JObj [
          ("t", JStr "VirtualBox / ohne XDP (Laptop & VM)");
          ("d", JStr "In Umgebungen ohne eBPF/XDP genügt --no-xdp mit einem ipset-basierten Ban. Scheitert eine Dienstabhängigkeit, ist das Reparaturskript ein einziger Befehl.")]]);
      ("dashboardTitle", JStr "Pro-Dashboard — nach der Installation (optional)");
      ("dashboardBadge", JStr "Pro · optional");
      ("dashboardNote", JStr "Das Dashboard läuft nicht auf dieser Landing-Seite, sondern auf Ihrem eigenen Rechner. Der Prod-Stack wird via Caddy + Docker unter https://localhost:8443 bereitgestellt.");
      ("dashboardSteps", JArr [
        JObj [
          ("t", JStr "Prod-Stack starten");
          ("d", JStr "Baut und startet das Dashboard auf Ihrem eigenen Server. Login: admin / DASHBOARD_ADMIN_PASSWORD aus .env.")];
        JObj [
          ("t", JStr "SSH-Tunnel für einen entfernten VPS");
          ("d", JStr "Um das Dashboard sicher zu sehen, ohne es dem Internet auszusetzen, richten Sie einen SSH-Tunnel ein; härten Sie zuerst den Server.")]])])].
Definition body_fr : json := JObj [
    ("pipelineNote", JStr "XDR, la marketplace Wasm et le Copilot LLM sont des couches optionnelles à long terme — Core est prêt pour la production à lui seul.");
    ("selectedBodies", JArr [
      JStr "Une seule chaîne : log nginx → OWASP CRS → ban noyau ~20 ms. En production en ~15 minutes.";
      JStr "Flotte, timeline SOC, tableaux de bord — une couche optionnelle sur votre propre serveur après l'installation.";
      JStr "80 tests automatiques, PDF comparatif, soak 72h — la même matrice que dashboard /tests.";
      JStr "Métriques Prometheus par tenant, tableaux de bord et règles d'alerte — observabilité auto-hébergée.";
      JStr "Flotte multi-nœuds : sync d'agents, politique etcd mesh et envoi de commandes ciblé — depuis un seul panneau.";
      JStr "Flux de menaces TAXII/STIX + SOC Telegram : alerte, ban et 'ack' en un clic — flux opérateur en direct.";
      JStr "Filtre XDP + uprobes execve/lineage — drop de paquets au niveau noyau et traçage des syscalls. Sur portable, --no-xdp avec ipset suffit.";
      JStr "Détection de scanners distribués : même empreinte JA3 + cluster d'IP différent, 100% de rappel — test en direct sur 80 IP.";
      JStr "Arbre d'attaque, sonde de lignage, uprobe syscall — couche optionnelle à long terme ; détection de chaîne d'attaque et de canaux cachés.";
      JStr "Plugins de règles personnalisés via un runtime Wasm — modèle marketplace, étendre sans toucher au Core.";
      JStr "Flux JSON event_type — preuve d'export SIEM vers Splunk/Elastic/Vector (siem-export-report.json).";
      JStr "Serveur tarpit + trap watcher — ralentir l'attaquant et signal honeypot ; couche de leurre."]);
    ("advLead", JStr "Fail2ban ne fait que bannir, le WAF ModSecurity est un module séparé, CrowdSec exige une pile fragmentée. Log Guardian réunit ces trois tâches en une seule chaîne — avec preuve mesurée.");
    ("advantages", JArr [
      JObj [
        ("k", JStr "Une installation, une chaîne");
        ("v", JStr "Vous n'installez et n'intégrez pas Fail2ban + ModSecurity + CrowdSec séparément. log nginx → WAF/CRS → ban noyau en un seul produit, ~15 min d'installation.")];
      JObj [
        ("k", JStr "Ban noyau ~20 ms");
        ("v", JStr "Médiane ~20 ms de la ligne de log au ban ipset/XDP. Fail2ban/CrowdSec restent à l'échelle secondes–minutes ; prouvé avec 21 échantillons mesurés.")];
      JObj [
        ("k", JStr "280 373 EPS · 16,93× ModSec");
        ("v", JStr "Sur le même corpus avec les mêmes 121 patterns OWASP CRS (PCRE2 JIT), le débit WAF/CRS atteint 280 373 EPS — 16,93× plus rapide que les 16 560 EPS de ModSec. Mesuré et reproductible (bench-vs-modsec.json).")];
      JObj [
        ("k", JStr "100% de rappel + 100% de parité CRS");
        ("v", JStr "121 règles OWASP CRS, 100% de rappel d'attaques réelles sur un corpus de 1500 lignes et parité complète avec ModSec — à 0,2% de faux positifs.")];
      JObj [
        ("k", JStr "Couverture des attaques distribuées");
        ("v", JStr "Détection de cluster JA3 + ban par IP — 100% sur un test en direct de 80 IP. Fail2ban est mono-IP ; CrowdSec exige un réseau de signaux séparé.")];
      JObj [
        ("k", JStr "Preuve transparente et reproductible");
        ("v", JStr "80 tests automatiques + un pack de preuves de 14 fichiers + soak 72h (864 échantillons, 0 erreur). Les rivaux n'ont pas de preuve automatique ou elle est fragmentée.")];
      JObj [
        ("k", JStr "Auto-hébergé · MIT · conçu en Turquie");
        ("v", JStr "Vos données restent chez vous, aucun verrouillage fournisseur, entièrement open source. Timeline SOC, métriques Prometheus et exploitation Telegram dans un seul panneau (:8443).")]]);
    ("vsNote", JStr "Limite honnête : dans certains domaines, les rivaux sont clairement meilleurs (cellules rouges). ModSec + CRS mène en blocage instantané de la première requête ; CrowdSec est fort sur son réseau de signaux communautaire distribué et sa console SaaS managée. En contrepartie, sur le même corpus avec les mêmes 121 patterns CRS, notre débit WAF/CRS atteint 280 373 EPS — 16,93× les 16 560 EPS de ModSec (bench-vs-modsec.json).");
    ("vsLegend", JStr "Rouge = le gagnant de cette ligne");
    ("honestItems", JArr [
      JStr "Architecture réactive — la première requête peut passer jusqu'à la chute de la ligne de log ; nous n'atteignons pas la vitesse inline de ModSec.";
      JStr "Nous n'absorbons pas les DDoS L3/L4 — nous sommes derrière un CDN.";
      JStr "Botnet distribué — ban par IP ; pas de réseau de signaux CrowdSec.";
      JStr "Fait : log → CRS/WAF → ban noyau ~20 ms, PDF de preuve, exploitation Telegram, MIT auto-hébergé."]);
    ("layersBodies", JArr [
      JStr "log → WAF → ban ipset (~15 min)";
      JStr "démon eBPF, tableau de bord, métriques, flotte";
      JStr "K8s/Helm (kind) + fleet + Wasm/mesh"]);
    ("layersNote", JStr "XDR, la marketplace Wasm et le Copilot LLM sont des couches optionnelles à long terme — Core est prêt pour la production à lui seul.");
    ("setupIntro", JStr "Source : GitHub — Linux-Log-Guardian. Deux voies : un paquet .deb préconstruit (recommandé) ou la compilation depuis les sources. Fonctionne aussi sans eBPF/XDP sur portables/VM (ban basé sur ipset). Les étapes ci-dessous concernent un serveur de production ; la sortie attendue de chaque commande est incluse.");
    ("setupTip", JStr "Astuce : pour le JWT et le mot de passe du tableau de bord, utilisez bash scripts/laptop_jwt_setup.sh. Démo 3 minutes : SKIP_WEBHOOK=1 bash scripts/demo_3min.sh. Docs : docs/QUICKSTART_NGINX.md · docs/LAPTOP_OPS.md · docs/SECURITY_PROFILES.md.");
    ("contactBody", JStr "Écrivez pour toute question, collaboration ou contribution. Les rapports de bug et les pull requests sont les bienvenus dans l'esprit open source.");
    ("footerDesc", JStr "log d'accès nginx → WAF/CRS → ban noyau. Chaîne unique, auto-hébergé, sous licence MIT. Conçu en Turquie.");
    ("footerSoak", JStr "soak 72h PASS · 0 échec");
    ("proofBody", JStr "Pas des diapositives, une preuve reproductible. Parité OWASP CRS, gates de faux positifs, benchmarks de latence de ban, rappel de corpus et un soak de 72 heures — tout mesuré, automatisé et visible dans une matrice de tests publique.");
    ("vsCols", JArr [JStr "Métrique"; JStr "Log Guardian"; JStr "Fail2ban"; JStr "CrowdSec"; JStr "ModSec + CRS"]);
    ("vsGroupLabels", JArr [JStr "Points forts (mesurés)"; JStr "Limites honnêtes"]);
    ("vsRows0", JArr [
      JArr [
        JStr "Log → WAF → ban noyau";
        JStr "Chaîne unique";
        JStr "Ban seul";
        JStr "Fragmenté";
        JStr "WAF séparé"];
      JArr [JStr "Débit WAF/CRS (même corpus)"; JStr "280 373 EPS (16,93×)"; JStr "—"; JStr "—"; JStr "16 560 EPS"];
      JArr [JStr "Parité OWASP CRS"; JStr "100% (121 règles)"; JStr "—"; JStr "—"; JStr "Référence (100%)"];
      JArr [JStr "Rappel d'attaques réelles"; JStr "100% (1K+10K)"; JStr "—"; JStr "—"; JStr "100%"];
      JArr [JStr "Ban distribué / cluster JA3"; JStr "100% (80 IP)"; JStr "—"; JStr "Basé signal"; JStr "—"];
      JArr [JStr "Consult inline nginx"; JStr "PASS"; JStr "—"; JStr "—"; JStr "Module séparé"];
      JArr [JStr "Protection applicative L7"; JStr "WAF + consult + eBPF"; JStr "—"; JStr "—"; JStr "CRS inline"];
      JArr [JStr "Ban noyau / eBPF (XDP)"; JStr "ipset + XDP"; JStr "iptables"; JStr "iptables/nft"; JStr "—"];
      JArr [JStr "Faux positif"; JStr "0,2% (mesuré)"; JStr "Élevé"; JStr "Moyen"; JStr "Selon CRS"];
      JArr [JStr "Latence de ban"; JStr "~20 ms"; JStr "sec–min"; JStr "sec"; JStr "Intégration séparée"];
      JArr [JStr "Stabilité courte (5 min)"; JStr "PASS (0 échec)"; JStr "—"; JStr "—"; JStr "—"];
      JArr [JStr "Soak 72h"; JStr "PASS (864/0)"; JStr "—"; JStr "—"; JStr "—"];
      JArr [
        JStr "Pack de preuves PDF+JSON";
        JStr "Automatique (14 fichiers)";
        JStr "Aucun";
        JStr "Partiel";
        JStr "Module par module"];
      JArr [JStr "Matrice de tests auto"; JStr "80 tests"; JStr "—"; JStr "Partiel"; JStr "—"];
      JArr [JStr "Timeline SOC / tableau de bord"; JStr "Oui (:8443)"; JStr "—"; JStr "Console"; JStr "—"];
      JArr [JStr "Ops Telegram + ack"; JStr "Oui (un clic)"; JStr "—"; JStr "Partiel"; JStr "—"];
      JArr [JStr "Temps d'installation"; JStr "~15 min"; JStr "minutes"; JStr "minutes"; JStr "heures (réglage)"]]);
    ("vsRows1", JArr [
      JArr [
        JStr "Bloquer la 1re requête instantanément";
        JStr "Réactif (ligne de log)";
        JStr "Réactif";
        JStr "En partie";
        JStr "Inline (instantané)"];
      JArr [
        JStr "Scrubbing volumétrique L3/L4";
        JStr "Aucun — CDN recommandé";
        JStr "Aucun";
        JStr "Aucun";
        JStr "Aucun"];
      JArr [JStr "Réseau de signaux communautaire"; JStr "Auto-hébergé"; JStr "—"; JStr "Oui (global)"; JStr "—"];
      JArr [JStr "Edge / WAF Cloud"; JStr "Couche origine"; JStr "—"; JStr "Bouncer"; JStr "Mode proxy"];
      JArr [JStr "Cloud géré / SaaS"; JStr "Aucun (auto-hébergé)"; JStr "Aucun"; JStr "Oui (console)"; JStr "—"]]);
    ("requirements", JArr [
      JStr "Ubuntu 22.04 / 24.04 ou Debian 12 (amd64)";
      JStr "nginx + log d'accès inscriptible (format log_guardian)";
      JStr "Root ou sudo (systemd, ipset, /etc/log-guardian)";
      JStr "~200 Mo disque, 128 Mo RAM (Core) ; Docker pour Pro";
      JStr "Pro optionnel : noyau 5.10+ pour eBPF/XDP, Docker (tableau de bord/métriques)"]);
    ("setup", JObj [
      ("pathTitles", JArr [JStr "Serveur neuf — paquet .deb"; JStr "Code source — compiler et installer"]);
      ("pathBadges", JArr [JStr "recommandé"; JStr "développeur"]);
      ("pathNotes", JArr [
        JStr "Aucune compilation requise. Le paquet fournit le binaire, les units systemd, les règles et les scripts. Sûr à la mise à jour : un /etc/log-guardian/rules.conf existant est préservé. Depuis GitHub Releases (log-guardian_*_amd64.deb) ou via bash scripts/build_deb.sh → dist/.";
        JStr "Clonez le dépôt GitHub et compilez. Idéal pour le développement, la personnalisation et la revue complète des sources. install.sh met en place les units systemd, les règles et le format de log nginx."]);
      ("pathSteps", JArr [
        JArr [
          JObj [
            ("t", JStr "Dépendances");
            ("d", JStr "À la première installation, ajoutez les dépendances du paquet Debian. Si nginx manque, il peut être ajouté dans la même commande.")];
          JObj [
            ("t", JStr "Installer le paquet");
            ("d", JStr "Si dpkg -i signale une erreur de dépendance, lancez apt-get install -f. L'étape postinst crée automatiquement l'utilisateur log-guardian, les permissions, les units systemd et un rules.conf par défaut.")];
          JObj [
            ("t", JStr "Premier lancement et sécurité API");
            ("d", JStr "Prépare le format de log nginx, le FP trust et la sécurité API (token, fail-closed) en une fois. Les scripts sont livrés dans le paquet (/usr/local/share/log-guardian/scripts/).")]];
        JArr [
          JObj [
            ("t", JStr "Source et compilation");
            ("d", JStr "Clonez le dépôt, compilez avec tous les cœurs et lancez le script d'installation principal.")];
          JObj [
            ("t", JStr "Premier lancement et sync du token");
            ("d", JStr "Démarre les services et prépare la synchronisation du token API et la connexion au tableau de bord.")]]]);
      ("commonTitle", JStr "Étapes communes (après A ou B)");
      ("commonSteps", JArr [
        JObj [
          ("t", JStr "Format de log nginx");
          ("d", JStr "Le format de log log_guardian est requis pour que le WAF lise le corps de la requête et X-Forwarded-For. Le setup l'applique généralement automatiquement ; vérifiez en mode STRICT.")];
        JObj [
          ("t", JStr "Vérification santé et statut");
          ("d", JStr "Vérifiez l'IPC du daemon, le statut du service et les fonctions BPF. Gate vert : vous devez voir FAIL: 0 à la fin de post_install_verify.")];
        JObj [
          ("t", JStr "Métriques et premier test de ban");
          ("d", JStr "Vérifiez les métriques Prometheus ; observez les compteurs monter après le trafic. Vous pouvez injecter une ligne d'attaque et vérifier le ban dans ipset.")];
        JObj [
          ("t", JStr "VirtualBox / sans XDP (portable & VM)");
          ("d", JStr "Sur les environnements sans eBPF/XDP, --no-xdp avec un ban basé sur ipset suffit. Si une dépendance de service échoue, le script de réparation est une seule commande.")]]);
      ("dashboardTitle", JStr "Tableau de bord Pro — après l'installation (optionnel)");
      ("dashboardBadge", JStr "Pro · optionnel");
      ("dashboardNote", JStr "Le tableau de bord ne tourne pas sur ce site de présentation mais sur votre propre machine. La pile prod est servie via Caddy + Docker sur https://localhost:8443.");
      ("dashboardSteps", JArr [
        JObj [
          ("t", JStr "Démarrer la pile prod");
          ("d", JStr "Compile et démarre le tableau de bord sur votre propre serveur. Connexion : admin / DASHBOARD_ADMIN_PASSWORD depuis .env.")];
        JObj [
          ("t", JStr "Tunnel SSH pour un VPS distant");
          ("d", JStr "Pour voir le tableau de bord en sécurité sans l'exposer à Internet, mettez en place un tunnel SSH ; durcissez d'abord le serveur.")]])])].
Definition body_es : json := JObj [
    ("pipelineNote", JStr "XDR, el marketplace Wasm y el Copilot LLM son capas opcionales a largo plazo — Core está listo para producción por sí solo.");
    ("selectedBodies", JArr [
      JStr "Una sola cadena: log de nginx → OWASP CRS → ban de kernel ~20 ms. En producción en ~15 minutos.";
      JStr "Flota, timeline SOC, paneles — una capa opcional en tu propio servidor tras la instalación.";
      JStr "75 pruebas automáticas, PDF comparativo, soak 72h — la misma matriz que dashboard /tests.";
      JStr "Métricas Prometheus por tenant, paneles y reglas de alerta — observabilidad autoalojada.";
      JStr "Flota multinodo: sync de agentes, política etcd mesh y envío de comandos dirigido — desde un solo panel.";
      JStr "Feed de amenazas TAXII/STIX + SOC Telegram: alerta, ban y 'ack' con un clic — flujo de operador en vivo.";
      JStr "Filtro XDP + uprobes execve/lineage — drop de paquetes a nivel de kernel y traza de syscalls. En portátiles, --no-xdp con ipset basta.";
      JStr "Detección de escáneres distribuidos: misma huella JA3 + clúster de IP distinto, 100% de recall — prueba en vivo con 80 IP.";
      JStr "Árbol de ataque, sonda de linaje, uprobe de syscall — capa opcional a largo plazo; detección de cadena de ataque y canales encubiertos.";
      JStr "Plugins de reglas personalizados vía un runtime Wasm — modelo marketplace, ampliar sin tocar el Core.";
      JStr "Stream JSON event_type — prueba de export SIEM a Splunk/Elastic/Vector (siem-export-report.json).";
      JStr "Servidor tarpit + trap watcher — ralentizar al atacante y señal honeypot; capa de engaño."]);
    ("advLead", JStr "Fail2ban solo banea, el WAF ModSecurity es un módulo aparte, CrowdSec necesita un stack fragmentado. Log Guardian une estas tres tareas en una sola cadena — con prueba medida.");
    ("advantages", JArr [
      JObj [
        ("k", JStr "Una instalación, una cadena");
        ("v", JStr "No instalas ni integras Fail2ban + ModSecurity + CrowdSec por separado. log de nginx → WAF/CRS → ban de kernel en un solo producto, ~15 min de instalación.")];
      JObj [
        ("k", JStr "Ban de kernel ~20 ms");
        ("v", JStr "Mediana ~20 ms desde la línea de log al ban de ipset/XDP. Fail2ban/CrowdSec se quedan en segundos–minutos; probado con 21 muestras medidas.")];
      JObj [
        ("k", JStr "280.373 EPS · 16,93× ModSec");
        ("v", JStr "En el mismo corpus con los mismos 121 patrones OWASP CRS (PCRE2 JIT), el rendimiento WAF/CRS es de 280.373 EPS — 16,93× más rápido que los 16.560 EPS de ModSec. Medido y reproducible (bench-vs-modsec.json).")];
      JObj [
        ("k", JStr "100% de recall + 100% de paridad CRS");
        ("v", JStr "121 reglas OWASP CRS, 100% de recall de ataques reales en un corpus de 1500 líneas y paridad total con ModSec — con 0,2% de falsos positivos.")];
      JObj [
        ("k", JStr "Cobertura de ataques distribuidos");
        ("v", JStr "Detección de clúster JA3 + ban por IP — 100% en una prueba en vivo de 80 IP. Fail2ban es de una sola IP; CrowdSec necesita una red de señales aparte.")];
      JObj [
        ("k", JStr "Prueba transparente y reproducible");
        ("v", JStr "75 pruebas automáticas + un pack de evidencias de 14 archivos + soak 72h (864 muestras, 0 errores). Los rivales no tienen prueba automática o está fragmentada.")];
      JObj [
        ("k", JStr "Autoalojado · MIT · hecho en Turquía");
        ("v", JStr "Tus datos se quedan contigo, sin bloqueo de proveedor, totalmente open source. Timeline SOC, métricas Prometheus y operación Telegram en un solo panel (:8443).")]]);
    ("vsNote", JStr "Límite honesto: en algunas áreas los rivales son claramente mejores (celdas rojas). ModSec + CRS lidera en bloqueo instantáneo de la primera petición; CrowdSec es fuerte en su red de señales comunitaria distribuida y su consola SaaS gestionada. A cambio, en el mismo corpus con los mismos 121 patrones CRS, nuestro rendimiento WAF/CRS es de 280.373 EPS — 16,93× los 16.560 EPS de ModSec (bench-vs-modsec.json).");
    ("vsLegend", JStr "Rojo = el ganador de esa fila");
    ("honestItems", JArr [
      JStr "Arquitectura reactiva — la primera petición puede pasar hasta que caiga la línea de log; no llegamos a la velocidad inline de ModSec.";
      JStr "No absorbemos DDoS L3/L4 — estamos detrás de un CDN.";
      JStr "Botnet distribuida — ban por IP; sin red de señales de CrowdSec.";
      JStr "Hace: log → CRS/WAF → ban de kernel ~20 ms, PDF de prueba, operación Telegram, MIT autoalojado."]);
    ("layersBodies", JArr [
      JStr "log → WAF → ban ipset (~15 min)";
      JStr "demonio eBPF, panel, métricas, flota";
      JStr "K8s/Helm (kind) + fleet + Wasm/mesh"]);
    ("layersNote", JStr "XDR, el marketplace Wasm y el Copilot LLM son capas opcionales a largo plazo — Core está listo para producción por sí solo.");
    ("setupIntro", JStr "Fuente: GitHub — Linux-Log-Guardian. Dos vías: un paquete .deb precompilado (recomendado) o compilar desde el código. También funciona sin eBPF/XDP en portátiles/VM (ban basado en ipset). Los pasos siguientes son para un servidor de producción; se incluye la salida esperada de cada comando.");
    ("setupTip", JStr "Consejo: para el JWT y la contraseña del panel usa bash scripts/laptop_jwt_setup.sh. Demo de 3 minutos: SKIP_WEBHOOK=1 bash scripts/demo_3min.sh. Docs: docs/QUICKSTART_NGINX.md · docs/LAPTOP_OPS.md · docs/SECURITY_PROFILES.md.");
    ("contactBody", JStr "Escribe para preguntas, colaboración o contribuciones. Los reportes de errores y los pull requests son bienvenidos en el espíritu open source.");
    ("footerDesc", JStr "log de acceso de nginx → WAF/CRS → ban de kernel. Cadena única, autoalojado, con licencia MIT. Hecho en Turquía.");
    ("footerSoak", JStr "soak 72h PASS · 0 fallos");
    ("proofBody", JStr "No diapositivas, prueba reproducible. Paridad OWASP CRS, gates de falsos positivos, benchmarks de latencia de ban, recall de corpus y un soak de 72 horas — todo medido, automatizado y visible en una matriz de pruebas pública.");
    ("vsCols", JArr [JStr "Métrica"; JStr "Log Guardian"; JStr "Fail2ban"; JStr "CrowdSec"; JStr "ModSec + CRS"]);
    ("vsGroupLabels", JArr [JStr "Fortalezas (medidas)"; JStr "Límites honestos"]);
    ("vsRows0", JArr [
      JArr [
        JStr "Log → WAF → ban de kernel";
        JStr "Cadena única";
        JStr "Solo ban";
        JStr "Fragmentado";
        JStr "WAF aparte"];
      JArr [
        JStr "Rendimiento WAF/CRS (mismo corpus)";
        JStr "280.373 EPS (16,93×)";
        JStr "—";
        JStr "—";
        JStr "16.560 EPS"];
      JArr [JStr "Paridad OWASP CRS"; JStr "100% (121 reglas)"; JStr "—"; JStr "—"; JStr "Referencia (100%)"];
      JArr [JStr "Recall de ataques reales"; JStr "100% (1K+10K)"; JStr "—"; JStr "—"; JStr "100%"];
      JArr [JStr "Ban distribuido / clúster JA3"; JStr "100% (80 IP)"; JStr "—"; JStr "Basado en señal"; JStr "—"];
      JArr [JStr "Consult inline de nginx"; JStr "PASS"; JStr "—"; JStr "—"; JStr "Módulo aparte"];
      JArr [JStr "Protección de aplicación L7"; JStr "WAF + consult + eBPF"; JStr "—"; JStr "—"; JStr "CRS inline"];
      JArr [JStr "Ban de kernel / eBPF (XDP)"; JStr "ipset + XDP"; JStr "iptables"; JStr "iptables/nft"; JStr "—"];
      JArr [JStr "Falso positivo"; JStr "0,2% (medido)"; JStr "Alto"; JStr "Medio"; JStr "Según CRS"];
      JArr [JStr "Latencia de ban"; JStr "~20 ms"; JStr "seg–min"; JStr "seg"; JStr "Integración aparte"];
      JArr [JStr "Estabilidad corta (5 min)"; JStr "PASS (0 fallos)"; JStr "—"; JStr "—"; JStr "—"];
      JArr [JStr "Soak 72h"; JStr "PASS (864/0)"; JStr "—"; JStr "—"; JStr "—"];
      JArr [
        JStr "Pack de evidencias PDF+JSON";
        JStr "Automático (14 archivos)";
        JStr "Ninguno";
        JStr "Parcial";
        JStr "Módulo por módulo"];
      JArr [JStr "Matriz de pruebas auto"; JStr "75 pruebas"; JStr "—"; JStr "Parcial"; JStr "—"];
      JArr [JStr "Timeline SOC / panel"; JStr "Sí (:8443)"; JStr "—"; JStr "Consola"; JStr "—"];
      JArr [JStr "Ops Telegram + ack"; JStr "Sí (un clic)"; JStr "—"; JStr "Parcial"; JStr "—"];
      JArr [JStr "Tiempo de instalación"; JStr "~15 min"; JStr "minutos"; JStr "minutos"; JStr "horas (ajuste)"]]);
    ("vsRows1", JArr [
      JArr [
        JStr "Bloquear la 1ª petición al instante";
        JStr "Reactivo (línea de log)";
        JStr "Reactivo";
        JStr "En parte";
        JStr "Inline (instantáneo)"];
      JArr [
        JStr "Scrubbing volumétrico L3/L4";
        JStr "Ninguno — se recomienda CDN";
        JStr "Ninguno";
        JStr "Ninguno";
        JStr "Ninguno"];
      JArr [JStr "Red de señales comunitaria"; JStr "Autoalojado"; JStr "—"; JStr "Sí (global)"; JStr "—"];
      JArr [JStr "Edge / WAF Cloud"; JStr "Capa de origen"; JStr "—"; JStr "Bouncer"; JStr "Modo proxy"];
      JArr [
        JStr "Cloud gestionado / SaaS";
        JStr "Ninguno (autoalojado)";
        JStr "Ninguno";
        JStr "Sí (consola)";
        JStr "—"]]);
    ("requirements", JArr [
      JStr "Ubuntu 22.04 / 24.04 o Debian 12 (amd64)";
      JStr "nginx + log de acceso escribible (formato log_guardian)";
      JStr "Root o sudo (systemd, ipset, /etc/log-guardian)";
      JStr "~200 MB disco, 128 MB RAM (Core); Docker para Pro";
      JStr "Pro opcional: kernel 5.10+ para eBPF/XDP, Docker (panel/métricas)"]);
    ("setup", JObj [
      ("pathTitles", JArr [JStr "Servidor nuevo — paquete .deb"; JStr "Código fuente — compilar e instalar"]);
      ("pathBadges", JArr [JStr "recomendado"; JStr "desarrollador"]);
      ("pathNotes", JArr [
        JStr "Sin compilación. El paquete incluye el binario, las units systemd, las reglas y los scripts. Seguro para actualizar: un /etc/log-guardian/rules.conf existente se conserva. Desde GitHub Releases (log-guardian_*_amd64.deb) o con bash scripts/build_deb.sh → dist/.";
        JStr "Clona el repo de GitHub y compila. Ideal para desarrollo, personalización y revisión completa del código. install.sh configura las units systemd, las reglas y el formato de log de nginx."]);
      ("pathSteps", JArr [
        JArr [
          JObj [
            ("t", JStr "Dependencias");
            ("d", JStr "En la primera instalación, añade las dependencias del paquete Debian. Si falta nginx, se puede añadir en el mismo comando.")];
          JObj [
            ("t", JStr "Instalar el paquete");
            ("d", JStr "Si dpkg -i reporta un error de dependencias, ejecuta apt-get install -f. El paso postinst crea automáticamente el usuario log-guardian, los permisos, las units systemd y un rules.conf por defecto.")];
          JObj [
            ("t", JStr "Primer arranque y seguridad API");
            ("d", JStr "Prepara el formato de log de nginx, el FP trust y la seguridad API (token, fail-closed) de una vez. Los scripts vienen en el paquete (/usr/local/share/log-guardian/scripts/).")]];
        JArr [
          JObj [
            ("t", JStr "Fuente y compilación");
            ("d", JStr "Clona el repo, compila con todos los núcleos y ejecuta el script de instalación principal.")];
          JObj [
            ("t", JStr "Primer arranque y sync del token");
            ("d", JStr "Levanta los servicios y prepara la sincronización del token API y la conexión al panel.")]]]);
      ("commonTitle", JStr "Pasos comunes (después de A o B)");
      ("commonSteps", JArr [
        JObj [
          ("t", JStr "Formato de log de nginx");
          ("d", JStr "El formato de log log_guardian es necesario para que el WAF lea el cuerpo de la petición y X-Forwarded-For. El setup suele aplicarlo automáticamente; verifica en modo STRICT.")];
        JObj [
          ("t", JStr "Comprobación de salud y estado");
          ("d", JStr "Comprueba el IPC del daemon, el estado del servicio y las funciones BPF. Gate verde: deberías ver FAIL: 0 al final de post_install_verify.")];
        JObj [
          ("t", JStr "Métricas y primer test de ban");
          ("d", JStr "Comprueba las métricas Prometheus; observa cómo suben los contadores tras el tráfico. Puedes inyectar una línea de ataque y verificar el ban en ipset.")];
        JObj [
          ("t", JStr "VirtualBox / sin XDP (portátil y VM)");
          ("d", JStr "En entornos sin eBPF/XDP, --no-xdp con un ban basado en ipset es suficiente. Si falla una dependencia de servicio, el script de reparación es un solo comando.")]]);
      ("dashboardTitle", JStr "Panel Pro — tras la instalación (opcional)");
      ("dashboardBadge", JStr "Pro · opcional");
      ("dashboardNote", JStr "El panel no corre en este sitio de presentación sino en tu propia máquina. La pila prod se sirve vía Caddy + Docker en https://localhost:8443.");
      ("dashboardSteps", JArr [
        JObj [
          ("t", JStr "Arrancar la pila prod");
          ("d", JStr "Compila y levanta el panel en tu propio servidor. Acceso: admin / DASHBOARD_ADMIN_PASSWORD de .env.")];
        JObj [
          ("t", JStr "Túnel SSH para un VPS remoto");
          ("d", JStr "Para ver el panel de forma segura sin exponerlo a internet, configura un túnel SSH; endurece el servidor primero.")]])])].
Definition body_ru : json := JObj [
    ("pipelineNote", JStr "XDR, маркетплейс Wasm и LLM Copilot — долгосрочные опциональные слои; Core сам по себе готов к продакшену.");
    ("selectedBodies", JArr [
      JStr "Одна цепочка: лог nginx → OWASP CRS → бан в ядре ~20 мс. В продакшене за ~15 минут.";
      JStr "Флот, SOC-таймлайн, дашборды — опциональный слой на вашем сервере после установки.";
      JStr "75 автотестов, сравнительный PDF, 72-часовой soak — та же матрица, что dashboard /tests.";
      JStr "Метрики Prometheus с меткой tenant, дашборды и правила алертов — self-hosted наблюдаемость.";
      JStr "Многоузловой флот: синхронизация агентов, политика etcd mesh и адресная отправка команд — из одной панели.";
      JStr "Фид угроз TAXII/STIX + SOC в Telegram: алерт, бан и 'ack' в один клик — живой поток оператора.";
      JStr "XDP-фильтр + uprobes execve/lineage — сброс пакетов на уровне ядра и трассировка syscall. На ноутбуках достаточно --no-xdp с ipset.";
      JStr "Обнаружение распределённых сканеров: одинаковый отпечаток JA3 + другой кластер IP, 100% recall — живой тест на 80 IP.";
      JStr "Дерево атаки, зонд происхождения, uprobe syscall — долгосрочный опциональный слой; обнаружение цепочки атаки и скрытых каналов.";
      JStr "Пользовательские плагины правил через рантайм Wasm — модель маркетплейса, расширение без правки Core.";
      JStr "Поток JSON event_type — доказательство экспорта в SIEM (Splunk/Elastic/Vector, siem-export-report.json).";
      JStr "Tarpit-сервер + trap watcher — замедлить атакующего и сигнал honeypot; слой обмана."]);
    ("advLead", JStr "Fail2ban только банит, WAF ModSecurity — отдельный модуль, CrowdSec требует фрагментарного стека. Log Guardian объединяет эти три задачи в одну цепочку — с измеренным доказательством.");
    ("advantages", JArr [
      JObj [
        ("k", JStr "Одна установка, одна цепочка");
        ("v", JStr "Вы не ставите и не интегрируете Fail2ban + ModSecurity + CrowdSec по отдельности. лог nginx → WAF/CRS → бан в ядре в одном продукте, установка ~15 мин.")];
      JObj [
        ("k", JStr "Бан в ядре ~20 мс");
        ("v", JStr "Медиана ~20 мс от строки лога до бана ipset/XDP. Fail2ban/CrowdSec остаются в секундах–минутах; подтверждено 21 измеренными образцами.")];
      JObj [
        ("k", JStr "280 373 EPS · 16,93× ModSec");
        ("v", JStr "На том же корпусе и тех же 121 паттернах OWASP CRS (PCRE2 JIT) пропускная способность WAF/CRS — 280 373 EPS, в 16,93× быстрее, чем 16 560 EPS у ModSec. Измерено и воспроизводимо (bench-vs-modsec.json).")];
      JObj [
        ("k", JStr "100% recall + 100% паритет CRS");
        ("v", JStr "121 правило OWASP CRS, 100% recall реальных атак на корпусе из 1500 строк и полный паритет с ModSec — при 0,2% ложных срабатываний.")];
      JObj [
        ("k", JStr "Покрытие распределённых атак");
        ("v", JStr "Обнаружение кластера JA3 + бан по IP — 100% в живом тесте на 80 IP. Fail2ban работает по одному IP; CrowdSec требует отдельной сети сигналов.")];
      JObj [
        ("k", JStr "Прозрачное, воспроизводимое доказательство");
        ("v", JStr "75 автотестов + пакет доказательств из 14 файлов + 72-часовой soak (864 образца, 0 ошибок). У конкурентов нет автоматического доказательства или оно фрагментарно.")];
      JObj [
        ("k", JStr "Self-hosted · MIT · сделано в Турции");
        ("v", JStr "Ваши данные остаются у вас, без привязки к вендору, полностью открытый код. SOC-таймлайн, метрики Prometheus и управление через Telegram в одной панели (:8443).")]]);
    ("vsNote", JStr "Честная граница: в некоторых областях конкуренты явно лучше (красные ячейки). ModSec + CRS впереди по мгновенной блокировке первого запроса; CrowdSec силён распределённой сетью сигналов сообщества и управляемой SaaS-консолью. В ответ на том же корпусе и тех же 121 паттернах CRS наша пропускная способность WAF/CRS — 280 373 EPS, в 16,93× быстрее 16 560 EPS у ModSec (bench-vs-modsec.json).");
    ("vsLegend", JStr "Красный = победитель в этой строке");
    ("honestItems", JArr [
      JStr "Реактивная архитектура — первый запрос может пройти, пока не упадёт строка лога; мы не на inline-скорости ModSec.";
      JStr "Мы не поглощаем L3/L4 DDoS — мы стоим за CDN.";
      JStr "Распределённый ботнет — бан по IP; без сети сигналов CrowdSec.";
      JStr "Делает: лог → CRS/WAF → бан в ядре ~20 мс, PDF-доказательство, управление Telegram, MIT self-hosted."]);
    ("layersBodies", JArr [
      JStr "лог → WAF → бан ipset (~15 мин)";
      JStr "eBPF-демон, дашборд, метрики, флот";
      JStr "K8s/Helm (kind) + fleet + Wasm/mesh"]);
    ("layersNote", JStr "XDR, маркетплейс Wasm и LLM Copilot — долгосрочные опциональные слои; Core сам по себе готов к продакшену.");
    ("setupIntro", JStr "Источник: GitHub — Linux-Log-Guardian. Два пути: готовый пакет .deb (рекомендуется) или сборка из исходников. Работает и без eBPF/XDP на ноутбуках/ВМ (бан на основе ipset). Шаги ниже — для продакшен-сервера; для каждой команды указан ожидаемый вывод.");
    ("setupTip", JStr "Совет: для JWT и пароля дашборда используйте bash scripts/laptop_jwt_setup.sh. Демо на 3 минуты: SKIP_WEBHOOK=1 bash scripts/demo_3min.sh. Документация: docs/QUICKSTART_NGINX.md · docs/LAPTOP_OPS.md · docs/SECURITY_PROFILES.md.");
    ("contactBody", JStr "Пишите по вопросам, для сотрудничества или вклада. Сообщения об ошибках и pull request приветствуются в духе открытого кода.");
    ("footerDesc", JStr "access-лог nginx → WAF/CRS → бан в ядре. Одна цепочка, self-hosted, лицензия MIT. Разработано в Турции.");
    ("footerSoak", JStr "72ч soak PASS · 0 сбоев");
    ("proofBody", JStr "Не слайды, а воспроизводимое доказательство. Паритет OWASP CRS, гейты ложных срабатываний, бенчмарки задержки бана, recall корпуса и 72-часовой soak — всё измерено, автоматизировано и видно в публичной матрице тестов.");
    ("vsCols", JArr [JStr "Метрика"; JStr "Log Guardian"; JStr "Fail2ban"; JStr "CrowdSec"; JStr "ModSec + CRS"]);
    ("vsGroupLabels", JArr [JStr "Сильные стороны (измерено)"; JStr "Честные границы"]);
    ("vsRows0", JArr [
      JArr [
        JStr "Лог → WAF → бан в ядре";
        JStr "Одна цепочка";
        JStr "Только бан";
        JStr "Фрагментарно";
        JStr "WAF отдельно"];
      JArr [
        JStr "Пропускная способность WAF/CRS (тот же корпус)";
        JStr "280 373 EPS (16,93×)";
        JStr "—";
        JStr "—";
        JStr "16 560 EPS"];
      JArr [JStr "Паритет OWASP CRS"; JStr "100% (121 правило)"; JStr "—"; JStr "—"; JStr "Эталон (100%)"];
      JArr [JStr "Recall реальных атак"; JStr "100% (1K+10K)"; JStr "—"; JStr "—"; JStr "100%"];
      JArr [JStr "Распределённый / бан JA3-кластера"; JStr "100% (80 IP)"; JStr "—"; JStr "По сигналу"; JStr "—"];
      JArr [JStr "Inline-consult nginx"; JStr "PASS"; JStr "—"; JStr "—"; JStr "Отдельный модуль"];
      JArr [JStr "Защита приложений L7"; JStr "WAF + consult + eBPF"; JStr "—"; JStr "—"; JStr "CRS inline"];
      JArr [JStr "Бан в ядре / eBPF (XDP)"; JStr "ipset + XDP"; JStr "iptables"; JStr "iptables/nft"; JStr "—"];
      JArr [
        JStr "Ложное срабатывание";
        JStr "0,2% (измерено)";
        JStr "Высокое";
        JStr "Среднее";
        JStr "Зависит от CRS"];
      JArr [JStr "Задержка бана"; JStr "~20 мс"; JStr "сек–мин"; JStr "сек"; JStr "Отдельная интеграция"];
      JArr [JStr "Короткая стабильность (5 мин)"; JStr "PASS (0 сбоев)"; JStr "—"; JStr "—"; JStr "—"];
      JArr [JStr "72ч soak"; JStr "PASS (864/0)"; JStr "—"; JStr "—"; JStr "—"];
      JArr [
        JStr "Пакет доказательств PDF+JSON";
        JStr "Автоматически (14 файлов)";
        JStr "Нет";
        JStr "Частично";
        JStr "Модуль за модулем"];
      JArr [JStr "Автоматическая матрица тестов"; JStr "75 тестов"; JStr "—"; JStr "Частично"; JStr "—"];
      JArr [JStr "SOC-таймлайн / дашборд"; JStr "Да (:8443)"; JStr "—"; JStr "Консоль"; JStr "—"];
      JArr [JStr "Управление Telegram + ack"; JStr "Да (один клик)"; JStr "—"; JStr "Частично"; JStr "—"];
      JArr [JStr "Время установки"; JStr "~15 мин"; JStr "минуты"; JStr "минуты"; JStr "часы (тюнинг)"]]);
    ("vsRows1", JArr [
      JArr [
        JStr "Мгновенно блокировать 1-й запрос";
        JStr "Реактивно (строка лога)";
        JStr "Реактивно";
        JStr "Частично";
        JStr "Inline (мгновенно)"];
      JArr [JStr "Объёмная очистка L3/L4"; JStr "Нет — рекомендуется CDN"; JStr "Нет"; JStr "Нет"; JStr "Нет"];
      JArr [JStr "Сеть сигналов сообщества"; JStr "Self-hosted"; JStr "—"; JStr "Да (глобально)"; JStr "—"];
      JArr [JStr "Edge / облачный WAF"; JStr "Слой origin"; JStr "—"; JStr "Bouncer"; JStr "Режим прокси"];
      JArr [JStr "Управляемое облако / SaaS"; JStr "Нет (self-hosted)"; JStr "Нет"; JStr "Да (консоль)"; JStr "—"]]);
    ("requirements", JArr [
      JStr "Ubuntu 22.04 / 24.04 или Debian 12 (amd64)";
      JStr "nginx + записываемый access-лог (формат log_guardian)";
      JStr "Root или sudo (systemd, ipset, /etc/log-guardian)";
      JStr "~200 МБ диск, 128 МБ RAM (Core); Docker для Pro";
      JStr "Опционально Pro: ядро 5.10+ для eBPF/XDP, Docker (дашборд/метрики)"]);
    ("setup", JObj [
      ("pathTitles", JArr [JStr "Новый сервер — пакет .deb"; JStr "Исходный код — сборка и установка"]);
      ("pathBadges", JArr [JStr "рекомендуется"; JStr "разработчик"]);
      ("pathNotes", JArr [
        JStr "Сборка не нужна. Пакет содержит бинарь, systemd-юниты, правила и скрипты. Безопасно при обновлении: существующий /etc/log-guardian/rules.conf сохраняется. Из GitHub Releases (log-guardian_*_amd64.deb) или через bash scripts/build_deb.sh → dist/.";
        JStr "Клонируйте репозиторий GitHub и соберите. Идеально для разработки, кастомизации и полного аудита кода. install.sh настраивает systemd-юниты, правила и формат лога nginx."]);
      ("pathSteps", JArr [
        JArr [
          JObj [
            ("t", JStr "Зависимости");
            ("d", JStr "При первой установке добавьте зависимости пакета Debian. Если nginx отсутствует, его можно добавить той же командой.")];
          JObj [
            ("t", JStr "Установить пакет");
            ("d", JStr "Если dpkg -i сообщает об ошибке зависимостей, запустите apt-get install -f. Шаг postinst автоматически создаёт пользователя log-guardian, права, systemd-юниты и rules.conf по умолчанию.")];
          JObj [
            ("t", JStr "Первый запуск и безопасность API");
            ("d", JStr "Готовит формат лога nginx, FP trust и безопасность API (токен, fail-closed) за один раз. Скрипты идут внутри пакета (/usr/local/share/log-guardian/scripts/).")]];
        JArr [
          JObj [
            ("t", JStr "Исходники и сборка");
            ("d", JStr "Клонируйте репозиторий, соберите на всех ядрах и запустите основной скрипт установки.")];
          JObj [
            ("t", JStr "Первый запуск и sync токена");
            ("d", JStr "Поднимает сервисы и готовит синхронизацию API-токена и подключение к дашборду.")]]]);
      ("commonTitle", JStr "Общие шаги (после A или B)");
      ("commonSteps", JArr [
        JObj [
          ("t", JStr "Формат лога nginx");
          ("d", JStr "Формат лога log_guardian нужен, чтобы WAF читал тело запроса и X-Forwarded-For. Setup обычно применяет его автоматически; проверьте в режиме STRICT.")];
        JObj [
          ("t", JStr "Проверка здоровья и статуса");
          ("d", JStr "Проверьте IPC демона, статус сервиса и функции BPF. Зелёный гейт: в конце post_install_verify должно быть FAIL: 0.")];
        JObj [
          ("t", JStr "Метрики и первый тест бана");
          ("d", JStr "Проверьте метрики Prometheus; наблюдайте рост счётчиков после трафика. Можно внедрить строку атаки и проверить бан в ipset.")];
        JObj [
          ("t", JStr "VirtualBox / без XDP (ноутбук и ВМ)");
          ("d", JStr "В средах без eBPF/XDP достаточно --no-xdp с баном на основе ipset. Если зависимость сервиса падает, скрипт починки — одна команда.")]]);
      ("dashboardTitle", JStr "Pro-дашборд — после установки (опционально)");
      ("dashboardBadge", JStr "Pro · опционально");
      ("dashboardNote", JStr "Дашборд работает не на этом лендинге, а на вашей собственной машине. Prod-стек обслуживается через Caddy + Docker по адресу https://localhost:8443.");
      ("dashboardSteps", JArr [
        JObj [
          ("t", JStr "Запустить prod-стек");
          ("d", JStr "Собирает и поднимает дашборд на вашем сервере. Вход: admin / DASHBOARD_ADMIN_PASSWORD из .env.")];
        JObj [
          ("t", JStr "SSH-туннель для удалённого VPS");
          ("d", JStr "Чтобы безопасно смотреть дашборд, не открывая его в интернет, настройте SSH-туннель; сначала укрепите сервер.")]])])].
Definition body_pt : json := JObj [
    ("pipelineNote", JStr "XDR, o marketplace Wasm e o Copilot LLM são camadas opcionais de longo prazo — o Core está pronto para produção por si só.");
    ("selectedBodies", JArr [
      JStr "Uma só cadeia: log do nginx → OWASP CRS → ban de kernel ~20 ms. Em produção em ~15 minutos.";
      JStr "Frota, timeline SOC, painéis — uma camada opcional no seu próprio servidor após a instalação.";
      JStr "80 testes automáticos, PDF comparativo, soak 72h — a mesma matriz que dashboard /tests.";
      JStr "Métricas Prometheus por tenant, painéis e regras de alerta — observabilidade self-hosted.";
      JStr "Frota multi-nó: sync de agentes, política etcd mesh e envio de comandos direcionado — a partir de um painel.";
      JStr "Feed de ameaças TAXII/STIX + SOC Telegram: alerta, ban e 'ack' com um clique — fluxo de operador ao vivo.";
      JStr "Filtro XDP + uprobes execve/lineage — drop de pacotes ao nível do kernel e rastreio de syscalls. Em portáteis, --no-xdp com ipset basta.";
      JStr "Deteção de scanners distribuídos: mesma impressão JA3 + cluster de IP diferente, 100% de recall — teste ao vivo com 80 IP.";
      JStr "Árvore de ataque, sonda de linhagem, uprobe de syscall — camada opcional de longo prazo; deteção de cadeia de ataque e canais encobertos.";
      JStr "Plugins de regras personalizados via um runtime Wasm — modelo marketplace, estender sem tocar no Core.";
      JStr "Stream JSON event_type — prova de export SIEM para Splunk/Elastic/Vector (siem-export-report.json).";
      JStr "Servidor tarpit + trap watcher — abrandar o atacante e sinal honeypot; camada de deceção."]);
    ("advLead", JStr "O Fail2ban só bane, o WAF ModSecurity é um módulo à parte, o CrowdSec precisa de um stack fragmentado. O Log Guardian junta estas três tarefas numa só cadeia — com prova medida.");
    ("advantages", JArr [
      JObj [
        ("k", JStr "Uma instalação, uma cadeia");
        ("v", JStr "Não instala nem integra Fail2ban + ModSecurity + CrowdSec separadamente. log do nginx → WAF/CRS → ban de kernel num só produto, ~15 min de instalação.")];
      JObj [
        ("k", JStr "Ban de kernel ~20 ms");
        ("v", JStr "Mediana ~20 ms da linha de log ao ban ipset/XDP. Fail2ban/CrowdSec ficam na escala de segundos–minutos; comprovado com 21 amostras medidas.")];
      JObj [
        ("k", JStr "280.373 EPS · 16,93× ModSec");
        ("v", JStr "No mesmo corpus com os mesmos 121 padrões OWASP CRS (PCRE2 JIT), o throughput WAF/CRS é de 280.373 EPS — 16,93× mais rápido que os 16.560 EPS do ModSec. Medido e reproduzível (bench-vs-modsec.json).")];
      JObj [
        ("k", JStr "100% de recall + 100% de paridade CRS");
        ("v", JStr "121 regras OWASP CRS, 100% de recall de ataques reais num corpus de 1500 linhas e paridade total com o ModSec — a 0,2% de falsos positivos.")];
      JObj [
        ("k", JStr "Cobertura de ataques distribuídos");
        ("v", JStr "Deteção de cluster JA3 + ban por IP — 100% num teste ao vivo de 80 IP. O Fail2ban é de IP único; o CrowdSec precisa de uma rede de sinais à parte.")];
      JObj [
        ("k", JStr "Prova transparente e reproduzível");
        ("v", JStr "80 testes automáticos + um pacote de provas de 14 ficheiros + soak 72h (864 amostras, 0 erros). Os rivais não têm prova automática ou é fragmentada.")];
      JObj [
        ("k", JStr "Self-hosted · MIT · feito na Turquia");
        ("v", JStr "Os seus dados ficam consigo, sem lock-in de fornecedor, totalmente open source. Timeline SOC, métricas Prometheus e operação Telegram num só painel (:8443).")]]);
    ("vsNote", JStr "Limite honesto: em algumas áreas os rivais são claramente melhores (células vermelhas). ModSec + CRS lidera no bloqueio instantâneo do primeiro pedido; o CrowdSec é forte na sua rede de sinais comunitária distribuída e na consola SaaS gerida. Em contrapartida, no mesmo corpus com os mesmos 121 padrões CRS, o nosso throughput WAF/CRS é de 280.373 EPS — 16,93× os 16.560 EPS do ModSec (bench-vs-modsec.json).");
    ("vsLegend", JStr "Vermelho = o vencedor dessa linha");
    ("honestItems", JArr [
      JStr "Arquitetura reativa — o primeiro pedido pode passar até a linha de log cair; não estamos à velocidade inline do ModSec.";
      JStr "Não absorvemos DDoS L3/L4 — ficamos atrás de um CDN.";
      JStr "Botnet distribuída — ban por IP; sem rede de sinais do CrowdSec.";
      JStr "Faz: log → CRS/WAF → ban de kernel ~20 ms, PDF de prova, operação Telegram, MIT self-hosted."]);
    ("layersBodies", JArr [
      JStr "log → WAF → ban ipset (~15 min)";
      JStr "daemon eBPF, painel, métricas, frota";
      JStr "K8s/Helm (kind) + fleet + Wasm/mesh"]);
    ("layersNote", JStr "XDR, o marketplace Wasm e o Copilot LLM são camadas opcionais de longo prazo — o Core está pronto para produção por si só.");
    ("setupIntro", JStr "Fonte: GitHub — Linux-Log-Guardian. Duas vias: um pacote .deb pré-compilado (recomendado) ou compilar a partir do código. Também funciona sem eBPF/XDP em portáteis/VM (ban baseado em ipset). Os passos abaixo são para um servidor de produção; a saída esperada de cada comando está incluída.");
    ("setupTip", JStr "Dica: para o JWT e a palavra-passe do painel use bash scripts/laptop_jwt_setup.sh. Demo de 3 minutos: SKIP_WEBHOOK=1 bash scripts/demo_3min.sh. Docs: docs/QUICKSTART_NGINX.md · docs/LAPTOP_OPS.md · docs/SECURITY_PROFILES.md.");
    ("contactBody", JStr "Escreva para perguntas, colaboração ou contribuições. Relatórios de bugs e pull requests são bem-vindos no espírito open source.");
    ("footerDesc", JStr "log de acesso do nginx → WAF/CRS → ban de kernel. Cadeia única, self-hosted, licença MIT. Feito na Turquia.");
    ("footerSoak", JStr "soak 72h PASS · 0 falhas");
    ("proofBody", JStr "Não são slides, é prova reproduzível. Paridade OWASP CRS, gates de falsos positivos, benchmarks de latência de ban, recall de corpus e um soak de 72 horas — tudo medido, automatizado e visível numa matriz de testes pública.");
    ("vsCols", JArr [JStr "Métrica"; JStr "Log Guardian"; JStr "Fail2ban"; JStr "CrowdSec"; JStr "ModSec + CRS"]);
    ("vsGroupLabels", JArr [JStr "Pontos fortes (medidos)"; JStr "Limites honestos"]);
    ("vsRows0", JArr [
      JArr [
        JStr "Log → WAF → ban de kernel";
        JStr "Cadeia única";
        JStr "Só ban";
        JStr "Fragmentado";
        JStr "WAF à parte"];
      JArr [
        JStr "Throughput WAF/CRS (mesmo corpus)";
        JStr "280.373 EPS (16,93×)";
        JStr "—";
        JStr "—";
        JStr "16.560 EPS"];
      JArr [JStr "Paridade OWASP CRS"; JStr "100% (121 regras)"; JStr "—"; JStr "—"; JStr "Referência (100%)"];
      JArr [JStr "Recall de ataques reais"; JStr "100% (1K+10K)"; JStr "—"; JStr "—"; JStr "100%"];
      JArr [JStr "Ban distribuído / cluster JA3"; JStr "100% (80 IP)"; JStr "—"; JStr "Baseado em sinal"; JStr "—"];
      JArr [JStr "Consult inline do nginx"; JStr "PASS"; JStr "—"; JStr "—"; JStr "Módulo à parte"];
      JArr [JStr "Proteção de aplicação L7"; JStr "WAF + consult + eBPF"; JStr "—"; JStr "—"; JStr "CRS inline"];
      JArr [JStr "Ban de kernel / eBPF (XDP)"; JStr "ipset + XDP"; JStr "iptables"; JStr "iptables/nft"; JStr "—"];
      JArr [JStr "Falso positivo"; JStr "0,2% (medido)"; JStr "Alto"; JStr "Médio"; JStr "Depende do CRS"];
      JArr [JStr "Latência de ban"; JStr "~20 ms"; JStr "seg–min"; JStr "seg"; JStr "Integração à parte"];
      JArr [JStr "Estabilidade curta (5 min)"; JStr "PASS (0 falhas)"; JStr "—"; JStr "—"; JStr "—"];
      JArr [JStr "Soak 72h"; JStr "PASS (864/0)"; JStr "—"; JStr "—"; JStr "—"];
      JArr [
        JStr "Pacote de evidências PDF+JSON";
        JStr "Automático (14 ficheiros)";
        JStr "Nenhum";
        JStr "Parcial";
        JStr "Módulo a módulo"];
      JArr [JStr "Matriz de testes automática"; JStr "80 testes"; JStr "—"; JStr "Parcial"; JStr "—"];
      JArr [JStr "Timeline SOC / painel"; JStr "Sim (:8443)"; JStr "—"; JStr "Consola"; JStr "—"];
      JArr [JStr "Ops Telegram + ack"; JStr "Sim (um clique)"; JStr "—"; JStr "Parcial"; JStr "—"];
      JArr [JStr "Tempo de instalação"; JStr "~15 min"; JStr "minutos"; JStr "minutos"; JStr "horas (ajuste)"]]);
    ("vsRows1", JArr [
      JArr [
        JStr "Bloquear o 1º pedido instantaneamente";
        JStr "Reativo (linha de log)";
        JStr "Reativo";
        JStr "Em parte";
        JStr "Inline (instantâneo)"];
      JArr [
        JStr "Scrubbing volumétrico L3/L4";
        JStr "Nenhum — CDN recomendado";
        JStr "Nenhum";
        JStr "Nenhum";
        JStr "Nenhum"];
      JArr [JStr "Rede de sinais da comunidade"; JStr "Auto-hospedado"; JStr "—"; JStr "Sim (global)"; JStr "—"];
      JArr [JStr "Edge / WAF Cloud"; JStr "Camada de origem"; JStr "—"; JStr "Bouncer"; JStr "Modo proxy"];
      JArr [
        JStr "Cloud gerida / SaaS";
        JStr "Nenhum (auto-hospedado)";
        JStr "Nenhum";
        JStr "Sim (consola)";
        JStr "—"]]);
    ("requirements", JArr [
      JStr "Ubuntu 22.04 / 24.04 ou Debian 12 (amd64)";
      JStr "nginx + log de acesso gravável (formato log_guardian)";
      JStr "Root ou sudo (systemd, ipset, /etc/log-guardian)";
      JStr "~200 MB disco, 128 MB RAM (Core); Docker para Pro";
      JStr "Pro opcional: kernel 5.10+ para eBPF/XDP, Docker (painel/métricas)"]);
    ("setup", JObj [
      ("pathTitles", JArr [JStr "Servidor novo — pacote .deb"; JStr "Código-fonte — compilar e instalar"]);
      ("pathBadges", JArr [JStr "recomendado"; JStr "programador"]);
      ("pathNotes", JArr [
        JStr "Sem compilação. O pacote traz o binário, as units systemd, as regras e os scripts. Seguro na atualização: um /etc/log-guardian/rules.conf existente é preservado. Via GitHub Releases (log-guardian_*_amd64.deb) ou com bash scripts/build_deb.sh → dist/.";
        JStr "Clone o repo do GitHub e compile. Ideal para desenvolvimento, personalização e revisão completa do código. install.sh configura as units systemd, as regras e o formato de log do nginx."]);
      ("pathSteps", JArr [
        JArr [
          JObj [
            ("t", JStr "Dependências");
            ("d", JStr "Na primeira instalação, adicione as dependências do pacote Debian. Se faltar o nginx, pode ser adicionado no mesmo comando.")];
          JObj [
            ("t", JStr "Instalar o pacote");
            ("d", JStr "Se o dpkg -i reportar erro de dependências, execute apt-get install -f. O passo postinst cria automaticamente o utilizador log-guardian, as permissões, as units systemd e um rules.conf padrão.")];
          JObj [
            ("t", JStr "Primeiro arranque e segurança da API");
            ("d", JStr "Prepara o formato de log do nginx, o FP trust e a segurança da API (token, fail-closed) de uma vez. Os scripts vêm no pacote (/usr/local/share/log-guardian/scripts/).")]];
        JArr [
          JObj [
            ("t", JStr "Fonte e compilação");
            ("d", JStr "Clone o repo, compile com todos os núcleos e execute o script de instalação principal.")];
          JObj [
            ("t", JStr "Primeiro arranque e sync do token");
            ("d", JStr "Sobe os serviços e prepara a sincronização do token da API e a ligação ao painel.")]]]);
      ("commonTitle", JStr "Passos comuns (após A ou B)");
      ("commonSteps", JArr [
        JObj [
          ("t", JStr "Formato de log do nginx");
          ("d", JStr "O formato de log log_guardian é necessário para que o WAF leia o corpo do pedido e o X-Forwarded-For. O setup normalmente aplica-o automaticamente; verifique no modo STRICT.")];
        JObj [
          ("t", JStr "Verificação de saúde e estado");
          ("d", JStr "Verifique o IPC do daemon, o estado do serviço e as funções BPF. Gate verde: deve ver FAIL: 0 no fim do post_install_verify.")];
        JObj [
          ("t", JStr "Métricas e primeiro teste de ban");
          ("d", JStr "Verifique as métricas Prometheus; observe os contadores a subir após o tráfego. Pode injetar uma linha de ataque e verificar o ban no ipset.")];
        JObj [
          ("t", JStr "VirtualBox / sem XDP (portátil e VM)");
          ("d", JStr "Em ambientes sem eBPF/XDP, --no-xdp com um ban baseado em ipset basta. Se uma dependência de serviço falhar, o script de reparação é um único comando.")]]);
      ("dashboardTitle", JStr "Painel Pro — após a instalação (opcional)");
      ("dashboardBadge", JStr "Pro · opcional");
      ("dashboardNote", JStr "O painel não corre neste site de apresentação, mas na sua própria máquina. A stack de produção é servida via Caddy + Docker em https://localhost:8443.");
      ("dashboardSteps", JArr [
        JObj [
          ("t", JStr "Iniciar a stack de produção");
          ("d", JStr "Compila e sobe o painel no seu próprio servidor. Login: admin / DASHBOARD_ADMIN_PASSWORD do .env.")];
        JObj [
          ("t", JStr "Túnel SSH para um VPS remoto");
          ("d", JStr "Para ver o painel em segurança sem o expor à internet, configure um túnel SSH; endureça o servidor primeiro.")]])])].
Definition body_nl : json := JObj [
    ("pipelineNote", JStr "XDR, de Wasm-marketplace en LLM-Copilot zijn optionele lagen op lange termijn — Core is op zichzelf productieklaar.");
    ("selectedBodies", JArr [
      JStr "Eén keten: nginx-log → OWASP CRS → kernel-ban ~20 ms. In productie in ~15 minuten.";
      JStr "Fleet, SOC-timeline, dashboards — een optionele laag op je eigen server na installatie.";
      JStr "75 automatische tests, vergelijkings-PDF, 72h-soak — dezelfde matrix als dashboard /tests.";
      JStr "Prometheus-metrics met tenant-label, dashboards en alertregels — self-hosted observability.";
      JStr "Multi-node fleet: agent-sync, etcd-mesh-policy en gerichte commando's — vanuit één paneel.";
      JStr "TAXII/STIX-threatfeed + Telegram-SOC: alert, ban en één-klik 'ack' — live operator-flow.";
      JStr "XDP-filter + execve/lineage-uprobes — pakket-drop op kernelniveau en syscall-tracing. Op laptops volstaat --no-xdp met ipset.";
      JStr "Detectie van gedistribueerde scanners: dezelfde JA3-vingerafdruk + ander IP-cluster, 100% recall — live test met 80 IP's.";
      JStr "Aanvalsboom, lineage-probe, syscall-uprobe — optionele laag op lange termijn; detectie van aanvalsketen en verborgen kanalen.";
      JStr "Eigen regel-plugins via een Wasm-runtime — marketplace-model, uitbreiden zonder de Core aan te raken.";
      JStr "JSON-event_type-stream — SIEM-export-bewijs naar Splunk/Elastic/Vector (siem-export-report.json).";
      JStr "Tarpit-server + trap-watcher — de aanvaller vertragen en honeypot-signaal; deception-laag."]);
    ("advLead", JStr "Fail2ban bant alleen, de ModSecurity-WAF is een aparte module, CrowdSec vraagt een versnipperde stack. Log Guardian voegt deze drie taken samen in één keten — met gemeten bewijs.");
    ("advantages", JArr [
      JObj [
        ("k", JStr "Eén installatie, één keten");
        ("v", JStr "Je installeert en integreert Fail2ban + ModSecurity + CrowdSec niet apart. nginx-log → WAF/CRS → kernel-ban in één product, ~15 min installatie.")];
      JObj [
        ("k", JStr "Kernel-ban ~20 ms");
        ("v", JStr "Mediaan ~20 ms van logregel tot ipset/XDP-ban. Fail2ban/CrowdSec blijven op seconden–minuten; bewezen met 21 gemeten monsters.")];
      JObj [
        ("k", JStr "280.373 EPS · 16,93× ModSec");
        ("v", JStr "Op dezelfde corpus met dezelfde 121 OWASP CRS-patronen (PCRE2 JIT) is de WAF/CRS-doorvoer 280.373 EPS — 16,93× sneller dan de 16.560 EPS van ModSec. Gemeten en reproduceerbaar (bench-vs-modsec.json).")];
      JObj [
        ("k", JStr "100% recall + 100% CRS-pariteit");
        ("v", JStr "121 OWASP-CRS-regels, 100% recall van echte aanvallen op een corpus van 1500 regels en volledige pariteit met ModSec — bij 0,2% false positives.")];
      JObj [
        ("k", JStr "Dekking van gedistribueerde aanvallen");
        ("v", JStr "JA3-clusterdetectie + ban per IP — 100% in een live test met 80 IP's. Fail2ban is per enkel IP; CrowdSec vraagt een apart signaalnetwerk.")];
      JObj [
        ("k", JStr "Transparant, reproduceerbaar bewijs");
        ("v", JStr "75 automatische tests + een bewijspakket van 14 bestanden + 72h-soak (864 monsters, 0 fouten). Concurrenten hebben geen automatisch bewijs of het is versnipperd.")];
      JObj [
        ("k", JStr "Self-hosted · MIT · gemaakt in Turkije");
        ("v", JStr "Je data blijft bij jou, geen vendor lock-in, volledig open source. SOC-timeline, Prometheus-metrics en Telegram-beheer in één paneel (:8443).")]]);
    ("vsNote", JStr "Eerlijke grens: op sommige vlakken zijn concurrenten duidelijk beter (rode cellen). ModSec + CRS leidt in het direct blokkeren van het eerste verzoek; CrowdSec is sterk in zijn gedistribueerde community-signaalnetwerk en beheerde SaaS-console. Daartegenover staat dat onze WAF/CRS-doorvoer op dezelfde corpus met dezelfde 121 CRS-patronen 280.373 EPS is — 16,93× de 16.560 EPS van ModSec (bench-vs-modsec.json).");
    ("vsLegend", JStr "Rood = de winnaar in die rij");
    ("honestItems", JArr [
      JStr "Reactieve architectuur — het eerste verzoek kan door tot de logregel valt; we halen niet de inline-snelheid van ModSec.";
      JStr "We absorberen geen L3/L4-DDoS — we zitten achter een CDN.";
      JStr "Gedistribueerd botnet — ban per IP; geen CrowdSec-signaalnetwerk.";
      JStr "Doet: log → CRS/WAF → kernel-ban ~20 ms, bewijs-PDF, Telegram-beheer, MIT self-hosted."]);
    ("layersBodies", JArr [
      JStr "log → WAF → ipset-ban (~15 min)";
      JStr "eBPF-daemon, dashboard, metrics, fleet";
      JStr "K8s/Helm (kind) + fleet + Wasm/mesh"]);
    ("layersNote", JStr "XDR, de Wasm-marketplace en LLM-Copilot zijn optionele lagen op lange termijn — Core is op zichzelf productieklaar.");
    ("setupIntro", JStr "Bron: GitHub — Linux-Log-Guardian. Twee wegen: een kant-en-klaar .deb-pakket (aanbevolen) of bouwen vanuit de broncode. Werkt ook zonder eBPF/XDP op laptops/VM's (ipset-gebaseerde ban). De stappen hieronder zijn voor een productieserver; de verwachte uitvoer van elk commando is opgenomen.");
    ("setupTip", JStr "Tip: gebruik voor JWT en het dashboard-wachtwoord bash scripts/laptop_jwt_setup.sh. Demo van 3 minuten: SKIP_WEBHOOK=1 bash scripts/demo_3min.sh. Docs: docs/QUICKSTART_NGINX.md · docs/LAPTOP_OPS.md · docs/SECURITY_PROFILES.md.");
    ("contactBody", JStr "Schrijf voor vragen, samenwerking of bijdragen. Bugrapporten en pull requests zijn welkom in de open-sourcegeest.");
    ("footerDesc", JStr "nginx-accesslog → WAF/CRS → kernel-ban. Eén keten, self-hosted, MIT-gelicentieerd. Gemaakt in Turkije.");
    ("footerSoak", JStr "72h-soak PASS · 0 fouten");
    ("proofBody", JStr "Geen slides, reproduceerbaar bewijs. OWASP-CRS-pariteit, false-positive-gates, ban-latency-benchmarks, corpus-recall en een 72-uurs soak — alles gemeten, geautomatiseerd en zichtbaar in een openbare testmatrix.");
    ("vsCols", JArr [JStr "Metriek"; JStr "Log Guardian"; JStr "Fail2ban"; JStr "CrowdSec"; JStr "ModSec + CRS"]);
    ("vsGroupLabels", JArr [JStr "Sterke punten (gemeten)"; JStr "Eerlijke grenzen"]);
    ("vsRows0", JArr [
      JArr [
        JStr "Log → WAF → kernel-ban";
        JStr "Eén keten";
        JStr "Alleen ban";
        JStr "Stukje bij beetje";
        JStr "WAF apart"];
      JArr [
        JStr "WAF/CRS-doorvoer (zelfde corpus)";
        JStr "280.373 EPS (16,93×)";
        JStr "—";
        JStr "—";
        JStr "16.560 EPS"];
      JArr [JStr "OWASP-CRS-pariteit"; JStr "100% (121 regels)"; JStr "—"; JStr "—"; JStr "Referentie (100%)"];
      JArr [JStr "Recall echte aanvallen"; JStr "100% (1K+10K)"; JStr "—"; JStr "—"; JStr "100%"];
      JArr [
        JStr "Gedistribueerde / JA3-cluster-ban";
        JStr "100% (80 IP)";
        JStr "—";
        JStr "Signaalgebaseerd";
        JStr "—"];
      JArr [JStr "nginx inline consult"; JStr "PASS"; JStr "—"; JStr "—"; JStr "Aparte module"];
      JArr [JStr "L7-applicatiebescherming"; JStr "WAF + consult + eBPF"; JStr "—"; JStr "—"; JStr "CRS inline"];
      JArr [JStr "Kernel / eBPF (XDP) ban"; JStr "ipset + XDP"; JStr "iptables"; JStr "iptables/nft"; JStr "—"];
      JArr [JStr "False positive"; JStr "0,2% (gemeten)"; JStr "Hoog"; JStr "Gemiddeld"; JStr "CRS-afhankelijk"];
      JArr [JStr "Ban-latency"; JStr "~20 ms"; JStr "sec–min"; JStr "sec"; JStr "Aparte integratie"];
      JArr [JStr "Korte stabiliteit (5 min)"; JStr "PASS (0 fouten)"; JStr "—"; JStr "—"; JStr "—"];
      JArr [JStr "72u soak"; JStr "PASS (864/0)"; JStr "—"; JStr "—"; JStr "—"];
      JArr [
        JStr "Bewijspakket PDF+JSON";
        JStr "Automatisch (14 bestanden)";
        JStr "Geen";
        JStr "Gedeeltelijk";
        JStr "Module voor module"];
      JArr [JStr "Automatische testmatrix"; JStr "80 tests"; JStr "—"; JStr "Gedeeltelijk"; JStr "—"];
      JArr [JStr "SOC-tijdlijn / dashboard"; JStr "Ja (:8443)"; JStr "—"; JStr "Console"; JStr "—"];
      JArr [JStr "Telegram-ops + ack"; JStr "Ja (één klik)"; JStr "—"; JStr "Gedeeltelijk"; JStr "—"];
      JArr [JStr "Installatietijd"; JStr "~15 min"; JStr "minuten"; JStr "minuten"; JStr "uren (tuning)"]]);
    ("vsRows1", JArr [
      JArr [
        JStr "Eerste verzoek direct blokkeren";
        JStr "Reactief (logregel)";
        JStr "Reactief";
        JStr "Deels";
        JStr "Inline (direct)"];
      JArr [
        JStr "Volumetrische L3/L4-scrubbing";
        JStr "Geen — CDN aanbevolen";
        JStr "Geen";
        JStr "Geen";
        JStr "Geen"];
      JArr [JStr "Community-signaalnetwerk"; JStr "Zelf gehost"; JStr "—"; JStr "Ja (globaal)"; JStr "—"];
      JArr [JStr "Edge / Cloud-WAF"; JStr "Origin-laag"; JStr "—"; JStr "Bouncer"; JStr "Proxymodus"];
      JArr [JStr "Beheerde cloud / SaaS"; JStr "Geen (zelf gehost)"; JStr "Geen"; JStr "Ja (console)"; JStr "—"]]);
    ("requirements", JArr [
      JStr "Ubuntu 22.04 / 24.04 of Debian 12 (amd64)";
      JStr "nginx + beschrijfbaar access-log (log_guardian-formaat)";
      JStr "Root of sudo (systemd, ipset, /etc/log-guardian)";
      JStr "~200 MB schijf, 128 MB RAM (Core); Docker voor Pro";
      JStr "Optioneel Pro: kernel 5.10+ voor eBPF/XDP, Docker (dashboard/metrics)"]);
    ("setup", JObj [
      ("pathTitles", JArr [JStr "Verse server — .deb-pakket"; JStr "Broncode — bouwen en installeren"]);
      ("pathBadges", JArr [JStr "aanbevolen"; JStr "ontwikkelaar"]);
      ("pathNotes", JArr [
        JStr "Geen build nodig. Het pakket levert de binary, systemd-units, regels en scripts. Upgrade-veilig: een bestaande /etc/log-guardian/rules.conf blijft behouden. Via GitHub Releases (log-guardian_*_amd64.deb) of met bash scripts/build_deb.sh → dist/.";
        JStr "Kloon de GitHub-repo en bouw. Ideaal voor ontwikkeling, aanpassing en volledige broncode-review. install.sh zet de systemd-units, regels en het nginx-logformaat op."]);
      ("pathSteps", JArr [
        JArr [
          JObj [
            ("t", JStr "Afhankelijkheden");
            ("d", JStr "Voeg bij de eerste installatie de Debian-pakketafhankelijkheden toe. Ontbreekt nginx, dan kan het in hetzelfde commando worden toegevoegd.")];
          JObj [
            ("t", JStr "Pakket installeren");
            ("d", JStr "Meldt dpkg -i een afhankelijkheidsfout, voer dan apt-get install -f uit. De postinst-stap maakt automatisch de log-guardian-gebruiker, rechten, systemd-units en een standaard rules.conf aan.")];
          JObj [
            ("t", JStr "Eerste start en API-beveiliging");
            ("d", JStr "Bereidt het nginx-logformaat, FP-trust en API-beveiliging (token, fail-closed) in één keer voor. De scripts zitten in het pakket (/usr/local/share/log-guardian/scripts/).")]];
        JArr [
          JObj [
            ("t", JStr "Bron en build");
            ("d", JStr "Kloon de repo, bouw met alle cores en voer het hoofd-installatiescript uit.")];
          JObj [
            ("t", JStr "Eerste start en token-sync");
            ("d", JStr "Zet de services aan en bereidt de API-token-sync en dashboardverbinding voor.")]]]);
      ("commonTitle", JStr "Gemeenschappelijke stappen (na A of B)");
      ("commonSteps", JArr [
        JObj [
          ("t", JStr "Nginx-logformaat");
          ("d", JStr "Het log_guardian-logformaat is nodig zodat de WAF de request-body en X-Forwarded-For kan lezen. Setup past het meestal automatisch toe; controleer in STRICT-modus.")];
        JObj [
          ("t", JStr "Gezondheids- en statuscontrole");
          ("d", JStr "Controleer daemon-IPC, servicestatus en BPF-functies. Groene gate: aan het eind van post_install_verify hoort FAIL: 0 te staan.")];
        JObj [
          ("t", JStr "Metrics en eerste ban-test");
          ("d", JStr "Controleer Prometheus-metrics; kijk hoe de tellers stijgen na verkeer. Je kunt een aanvalsregel injecteren en de ban in ipset verifiëren.")];
        JObj [
          ("t", JStr "VirtualBox / zonder XDP (laptop & VM)");
          ("d", JStr "In omgevingen zonder eBPF/XDP volstaat --no-xdp met een ipset-gebaseerde ban. Faalt een serviceafhankelijkheid, dan is het reparatiescript één commando.")]]);
      ("dashboardTitle", JStr "Pro-dashboard — na installatie (optioneel)");
      ("dashboardBadge", JStr "Pro · optioneel");
      ("dashboardNote", JStr "Het dashboard draait niet op deze landingssite maar op je eigen machine. De prod-stack wordt via Caddy + Docker geserveerd op https://localhost:8443.");
      ("dashboardSteps", JArr [
        JObj [
          ("t", JStr "Prod-stack starten");
          ("d", JStr "Bouwt en start het dashboard op je eigen server. Login: admin / DASHBOARD_ADMIN_PASSWORD uit .env.")];
        JObj [
          ("t", JStr "SSH-tunnel voor een externe VPS");
          ("d", JStr "Om het dashboard veilig te bekijken zonder het aan internet bloot te stellen, zet een SSH-tunnel op; hard eerst de server.")]])])].
Definition body_zh : json := JObj [
    ("pipelineNote", JStr "XDR、Wasm 市场和 LLM Copilot 是长期可选层——Core 本身即可用于生产。");
    ("selectedBodies", JArr [
      JStr "单一链路：nginx 日志 → OWASP CRS → 约 20 毫秒内核封禁。约 15 分钟即可投产。";
      JStr "机群、SOC 时间线、仪表盘——安装后在你自己服务器上的可选层。";
      JStr "75 项自动化测试、竞品对比 PDF、72 小时 soak——与 dashboard /tests 相同的矩阵。";
      JStr "带 tenant 标签的 Prometheus 指标、仪表盘和告警规则——自托管可观测性。";
      JStr "多节点机群：代理同步、etcd mesh 策略和定向命令下发——统一面板操作。";
      JStr "TAXII/STIX 威胁情报 + Telegram SOC：告警、封禁和一键 'ack'——实时运维流程。";
      JStr "XDP 过滤 + execve/lineage uprobe——内核级丢包与系统调用追踪。笔记本上用 --no-xdp 配 ipset 即可。";
      JStr "分布式扫描器检测：相同 JA3 指纹 + 不同 IP 集群，100% 召回——80 IP 实测。";
      JStr "攻击树、溯源探针、syscall uprobe——长期可选层；攻击链与隐蔽通道检测。";
      JStr "通过 Wasm 运行时的自定义规则插件——市场模式，无需改动 Core 即可扩展。";
      JStr "JSON event_type 流——向 Splunk/Elastic/Vector 的 SIEM 导出证据（siem-export-report.json）。";
      JStr "Tarpit 服务器 + 陷阱监视器——拖慢攻击者并提供蜜罐信号；欺骗层。"]);
    ("advLead", JStr "Fail2ban 只做封禁，ModSecurity WAF 是独立模块，CrowdSec 需要零散的技术栈。Log Guardian 将这三项工作合并到一条链路中——并附实测证据。");
    ("advantages", JArr [
      JObj [
        ("k", JStr "一次安装，一条链路");
        ("v", JStr "无需分别安装和集成 Fail2ban + ModSecurity + CrowdSec。nginx 日志 → WAF/CRS → 内核封禁，一个产品，约 15 分钟安装。")];
      JObj [
        ("k", JStr "约 20 毫秒内核封禁");
        ("v", JStr "从日志行到 ipset/XDP 封禁中位数约 20 毫秒。Fail2ban/CrowdSec 停留在秒—分钟级；由 21 个实测样本证明。")];
      JObj [
        ("k", JStr "280,373 EPS · 16.93× ModSec");
        ("v", JStr "在相同语料、相同 121 条 OWASP CRS 规则（PCRE2 JIT）下，WAF/CRS 吞吐量为 280,373 EPS——比 ModSec 的 16,560 EPS 快 16.93 倍。已测量且可复现（bench-vs-modsec.json）。")];
      JObj [
        ("k", JStr "100% 召回 + 100% CRS 对等");
        ("v", JStr "121 条 OWASP CRS 规则，在 1500 行语料上对真实攻击 100% 召回，与 ModSec 完全对等——误报率 0.2%。")];
      JObj [
        ("k", JStr "覆盖分布式攻击");
        ("v", JStr "JA3 集群检测 + 按 IP 封禁——80 IP 实测 100%。Fail2ban 是单 IP；CrowdSec 需要独立的信号网络。")];
      JObj [
        ("k", JStr "透明、可复现的证据");
        ("v", JStr "75 项自动化测试 + 14 个文件的证据包 + 72 小时 soak（864 样本，0 错误）。竞品没有自动化证据或证据零散。")];
      JObj [
        ("k", JStr "自托管 · MIT · 土耳其制造");
        ("v", JStr "数据留在你手中，无供应商锁定，完全开源。SOC 时间线、Prometheus 指标和 Telegram 运维统一在一个面板（:8443）。")]]);
    ("vsNote", JStr "诚实边界：在某些方面竞品明显更强（红色单元格）。ModSec + CRS 在瞬时拦截首个请求上领先；CrowdSec 在其分布式社区信号网络和托管 SaaS 控制台上强大。作为回报，在相同语料、相同 121 条 CRS 规则下，我们的 WAF/CRS 吞吐量为 280,373 EPS——是 ModSec 的 16,560 EPS 的 16.93 倍（bench-vs-modsec.json）。");
    ("vsLegend", JStr "红色 = 该行的优胜者");
    ("honestItems", JArr [
      JStr "反应式架构——在日志行落下前首个请求可能通过；我们达不到 ModSec 的内联速度。";
      JStr "我们不吸收 L3/L4 DDoS——我们位于 CDN 之后。";
      JStr "分布式僵尸网络——按 IP 封禁；没有 CrowdSec 信号网络。";
      JStr "能做：日志 → CRS/WAF → 约 20 毫秒内核封禁、证据 PDF、Telegram 运维、MIT 自托管。"]);
    ("layersBodies", JArr [
      JStr "日志 → WAF → ipset 封禁（约 15 分钟）";
      JStr "eBPF 守护进程、仪表盘、指标、机群";
      JStr "K8s/Helm (kind) + fleet + Wasm/mesh"]);
    ("layersNote", JStr "XDR、Wasm 市场和 LLM Copilot 是长期可选层——Core 本身即可用于生产。");
    ("setupIntro", JStr "来源：GitHub — Linux-Log-Guardian。两种方式：预构建的 .deb 包（推荐）或从源码构建。在笔记本/虚拟机上不用 eBPF/XDP 也能运行（基于 ipset 封禁）。以下步骤针对生产服务器；每条命令都附有预期输出。");
    ("setupTip", JStr "提示：JWT 和仪表盘密码请用 bash scripts/laptop_jwt_setup.sh。3 分钟演示：SKIP_WEBHOOK=1 bash scripts/demo_3min.sh。文档：docs/QUICKSTART_NGINX.md · docs/LAPTOP_OPS.md · docs/SECURITY_PROFILES.md。");
    ("contactBody", JStr "如有问题、合作或贡献欢迎来信。本着开源精神，欢迎提交 bug 报告和 pull request。");
    ("footerDesc", JStr "nginx 访问日志 → WAF/CRS → 内核封禁。单一链路，自托管，MIT 许可。土耳其制造。");
    ("footerSoak", JStr "72 小时 soak 通过 · 0 失败");
    ("proofBody", JStr "不是幻灯片，而是可复现的证据。OWASP CRS 对等、误报门槛、封禁延迟基准、语料召回和 72 小时 soak——全部实测、自动化并在公开测试矩阵中可见。");
    ("vsCols", JArr [JStr "指标"; JStr "Log Guardian"; JStr "Fail2ban"; JStr "CrowdSec"; JStr "ModSec + CRS"]);
    ("vsGroupLabels", JArr [JStr "优势（实测）"; JStr "诚实的边界"]);
    ("vsRows0", JArr [
      JArr [JStr "日志 → WAF → 内核封禁"; JStr "单一链路"; JStr "仅封禁"; JStr "零散拼接"; JStr "WAF 分离"];
      JArr [JStr "WAF/CRS 吞吐量（相同语料）"; JStr "280,373 EPS (16.93×)"; JStr "—"; JStr "—"; JStr "16,560 EPS"];
      JArr [JStr "OWASP CRS 对等"; JStr "100%（121 条规则）"; JStr "—"; JStr "—"; JStr "参考（100%）"];
      JArr [JStr "真实攻击召回"; JStr "100%（1K+10K）"; JStr "—"; JStr "—"; JStr "100%"];
      JArr [JStr "分布式 / JA3 集群封禁"; JStr "100%（80 IP）"; JStr "—"; JStr "基于信号"; JStr "—"];
      JArr [JStr "nginx 内联咨询"; JStr "PASS"; JStr "—"; JStr "—"; JStr "独立模块"];
      JArr [JStr "L7 应用防护"; JStr "WAF + 咨询 + eBPF"; JStr "—"; JStr "—"; JStr "CRS 内联"];
      JArr [JStr "内核 / eBPF (XDP) 封禁"; JStr "ipset + XDP"; JStr "iptables"; JStr "iptables/nft"; JStr "—"];
      JArr [JStr "误报"; JStr "0.2%（实测）"; JStr "高"; JStr "中"; JStr "取决于 CRS"];
      JArr [JStr "封禁延迟"; JStr "~20 毫秒"; JStr "秒–分"; JStr "秒"; JStr "独立集成"];
      JArr [JStr "短时稳定性（5 分钟）"; JStr "PASS（0 失败）"; JStr "—"; JStr "—"; JStr "—"];
      JArr [JStr "72 小时 soak"; JStr "PASS（864/0）"; JStr "—"; JStr "—"; JStr "—"];
      JArr [JStr "证据包 PDF+JSON"; JStr "自动（14 个文件）"; JStr "无"; JStr "部分"; JStr "逐模块"];
      JArr [JStr "自动测试矩阵"; JStr "75 项测试"; JStr "—"; JStr "部分"; JStr "—"];
      JArr [JStr "SOC 时间线 / 仪表板"; JStr "是（:8443）"; JStr "—"; JStr "控制台"; JStr "—"];
      JArr [JStr "Telegram 运维 + 确认"; JStr "是（一键）"; JStr "—"; JStr "部分"; JStr "—"];
      JArr [JStr "安装时间"; JStr "~15 分钟"; JStr "分钟"; JStr "分钟"; JStr "小时（调优）"]]);
    ("vsRows1", JArr [
      JArr [JStr "瞬时拦截首个请求"; JStr "被动（日志行）"; JStr "被动"; JStr "部分"; JStr "内联（瞬时）"];
      JArr [JStr "体量型 L3/L4 清洗"; JStr "无 — 建议 CDN"; JStr "无"; JStr "无"; JStr "无"];
      JArr [JStr "社区信号网络"; JStr "自托管"; JStr "—"; JStr "是（全球）"; JStr "—"];
      JArr [JStr "边缘 / 云 WAF"; JStr "源站层"; JStr "—"; JStr "Bouncer"; JStr "代理模式"];
      JArr [JStr "托管云 / SaaS"; JStr "无（自托管）"; JStr "无"; JStr "是（控制台）"; JStr "—"]]);
    ("requirements", JArr [
      JStr "Ubuntu 22.04 / 24.04 或 Debian 12（amd64）";
      JStr "nginx + 可写访问日志（log_guardian 格式）";
      JStr "Root 或 sudo（systemd、ipset、/etc/log-guardian）";
      JStr "~200 MB 磁盘、128 MB 内存（Core）；Pro 需 Docker";
      JStr "可选 Pro：eBPF/XDP 需 5.10+ 内核，Docker（仪表板/指标）"]);
    ("setup", JObj [
      ("pathTitles", JArr [JStr "全新服务器 — .deb 包"; JStr "源代码 — 编译与安装"]);
      ("pathBadges", JArr [JStr "推荐"; JStr "开发者"]);
      ("pathNotes", JArr [
        JStr "无需编译。软件包自带二进制、systemd 单元、规则和脚本。升级安全：现有的 /etc/log-guardian/rules.conf 会被保留。可从 GitHub Releases（log-guardian_*_amd64.deb）获取或用 bash scripts/build_deb.sh → dist/ 构建。";
        JStr "克隆 GitHub 仓库并编译。适合开发、定制与完整源码审查。install.sh 会配置 systemd 单元、规则和 nginx 日志格式。"]);
      ("pathSteps", JArr [
        JArr [
          JObj [("t", JStr "依赖项"); ("d", JStr "首次安装时添加 Debian 包依赖。若缺少 nginx，可在同一命令中一并添加。")];
          JObj [
            ("t", JStr "安装软件包");
            ("d", JStr "若 dpkg -i 报依赖错误，运行 apt-get install -f。postinst 步骤会自动创建 log-guardian 用户、权限、systemd 单元和默认 rules.conf。")];
          JObj [
            ("t", JStr "首次运行与 API 安全");
            ("d", JStr "一次性准备好 nginx 日志格式、FP trust 和 API 安全（令牌、fail-closed）。脚本随包提供（/usr/local/share/log-guardian/scripts/）。")]];
        JArr [
          JObj [("t", JStr "源码与编译"); ("d", JStr "克隆仓库，使用全部核心编译并运行主安装脚本。")];
          JObj [("t", JStr "首次运行与令牌同步"); ("d", JStr "启动服务并准备 API 令牌同步和仪表板连接。")]]]);
      ("commonTitle", JStr "通用步骤（A 或 B 之后）");
      ("commonSteps", JArr [
        JObj [
          ("t", JStr "Nginx 日志格式");
          ("d", JStr "需要 log_guardian 日志格式，WAF 才能读取请求体和 X-Forwarded-For。安装通常会自动应用；在 STRICT 模式下验证。")];
        JObj [("t", JStr "健康与状态检查"); ("d", JStr "检查守护进程 IPC、服务状态和 BPF 功能。绿色关卡：post_install_verify 结尾应显示 FAIL: 0。")];
        JObj [("t", JStr "指标与首次封禁测试"); ("d", JStr "检查 Prometheus 指标；观察计数器在流量后上升。可注入一条攻击日志并在 ipset 中验证封禁。")];
        JObj [
          ("t", JStr "VirtualBox / 无 XDP（笔记本与虚拟机）");
          ("d", JStr "在无 eBPF/XDP 的环境中，--no-xdp 配合基于 ipset 的封禁即可。若某个服务依赖失败，修复脚本只需一条命令。")]]);
      ("dashboardTitle", JStr "Pro 仪表板 — 安装后（可选）");
      ("dashboardBadge", JStr "Pro · 可选");
      ("dashboardNote", JStr "仪表板不在此展示站运行，而在你自己的机器上。生产栈通过 Caddy + Docker 在 https://localhost:8443 提供服务。");
      ("dashboardSteps", JArr [
        JObj [("t", JStr "启动生产栈"); ("d", JStr "在你自己的服务器上编译并启动仪表板。登录：admin / .env 中的 DASHBOARD_ADMIN_PASSWORD。")];
        JObj [("t", JStr "远程 VPS 的 SSH 隧道"); ("d", JStr "为安全查看仪表板而不暴露到互联网，请配置 SSH 隧道；先加固服务器。")]])])].
Definition body_ja : json := JObj [
    ("pipelineNote", JStr "XDR、Wasm マーケットプレイス、LLM Copilot は長期的なオプション層です——Core 単体で本番運用が可能です。");
    ("selectedBodies", JArr [
      JStr "単一チェーン：nginx ログ → OWASP CRS → 約20msのカーネルBAN。約15分で本番投入。";
      JStr "フリート、SOC タイムライン、ダッシュボード——導入後、自前サーバー上のオプション層。";
      JStr "75件の自動テスト、比較PDF、72時間ソーク——dashboard /tests と同じマトリクス。";
      JStr "テナント別ラベルの Prometheus メトリクス、ダッシュボード、アラートルール——セルフホストの可観測性。";
      JStr "マルチノードのフリート：エージェント同期、etcd メッシュポリシー、対象を絞ったコマンド配信——一つのパネルから。";
      JStr "TAXII/STIX 脅威フィード + Telegram SOC：アラート、BAN、ワンクリック 'ack'——ライブの運用フロー。";
      JStr "XDP フィルタ + execve/lineage uprobe——カーネルレベルのパケット破棄と syscall トレース。ノートPCでは --no-xdp と ipset で十分。";
      JStr "分散スキャナー検知：同一 JA3 フィンガープリント + 異なる IP クラスタ、リコール100%——80 IP のライブテスト。";
      JStr "攻撃ツリー、系譜プローブ、syscall uprobe——長期的なオプション層；攻撃チェーンと隠れチャネルの検知。";
      JStr "Wasm ランタイム経由のカスタムルールプラグイン——マーケットプレイス方式、Core に触れず拡張。";
      JStr "JSON event_type ストリーム——Splunk/Elastic/Vector への SIEM エクスポート証拠（siem-export-report.json）。";
      JStr "Tarpit サーバー + トラップウォッチャー——攻撃者を遅延させハニーポット信号を得る；デセプション層。"]);
    ("advLead", JStr "Fail2ban は BAN のみ、ModSecurity WAF は別モジュール、CrowdSec は断片的なスタックを要します。Log Guardian はこの3つの仕事を1本のチェーンに統合します——実測の証拠付きで。");
    ("advantages", JArr [
      JObj [
        ("k", JStr "一度の導入、一本のチェーン");
        ("v", JStr "Fail2ban + ModSecurity + CrowdSec を個別に導入・統合する必要はありません。nginx ログ → WAF/CRS → カーネルBAN が1製品で、約15分の導入。")];
      JObj [
        ("k", JStr "約20msのカーネルBAN");
        ("v", JStr "ログ行から ipset/XDP BAN まで中央値 約20ms。Fail2ban/CrowdSec は秒〜分単位；21件の実測サンプルで証明。")];
      JObj [
        ("k", JStr "280,373 EPS · 16.93× ModSec");
        ("v", JStr "同一コーパス・同一の 121 個の OWASP CRS パターン（PCRE2 JIT）で、WAF/CRS スループットは 280,373 EPS — ModSec の 16,560 EPS より 16.93 倍高速。計測済みで再現可能（bench-vs-modsec.json）。")];
      JObj [
        ("k", JStr "リコール100% + CRS 100%整合");
        ("v", JStr "121件の OWASP CRS ルール、1500行コーパスで実攻撃リコール100%、ModSec と完全整合——誤検知0.2%。")];
      JObj [
        ("k", JStr "分散攻撃のカバー");
        ("v", JStr "JA3 クラスタ検知 + IP ごとの BAN——80 IP のライブテストで100%。Fail2ban は単一IP；CrowdSec は別の信号ネットワークが必要。")];
      JObj [
        ("k", JStr "透明で再現可能な証拠");
        ("v", JStr "75件の自動テスト + 14ファイルの証拠パック + 72時間ソーク（864サンプル、0エラー）。競合は自動証拠が無いか断片的。")];
      JObj [
        ("k", JStr "セルフホスト · MIT · トルコ製");
        ("v", JStr "データは手元に残り、ベンダーロックインなし、完全オープンソース。SOC タイムライン、Prometheus メトリクス、Telegram 運用が一つのパネル（:8443）に。")]]);
    ("vsNote", JStr "正直な限界：一部の領域では競合が明らかに優れています（赤いセル）。ModSec + CRS は最初のリクエストの即時ブロックで先行；CrowdSec は分散コミュニティ信号ネットワークとマネージド SaaS コンソールが強力。その代わり、同一コーパス・同一の 121 個の CRS パターンで、私たちの WAF/CRS スループットは 280,373 EPS — ModSec の 16,560 EPS の 16.93 倍です（bench-vs-modsec.json）。");
    ("vsLegend", JStr "赤 = その行の勝者");
    ("honestItems", JArr [
      JStr "リアクティブなアーキテクチャ——ログ行が落ちるまで最初のリクエストは通り得ます；ModSec のインライン速度には及びません。";
      JStr "L3/L4 DDoS は吸収しません——CDN の背後に置きます。";
      JStr "分散ボットネット——IP ごとの BAN；CrowdSec の信号ネットワークはありません。";
      JStr "できること：ログ → CRS/WAF → 約20msのカーネルBAN、証拠PDF、Telegram 運用、MIT セルフホスト。"]);
    ("layersBodies", JArr [
      JStr "ログ → WAF → ipset BAN（約15分）";
      JStr "eBPF デーモン、ダッシュボード、メトリクス、フリート";
      JStr "K8s/Helm (kind) + fleet + Wasm/mesh"]);
    ("layersNote", JStr "XDR、Wasm マーケットプレイス、LLM Copilot は長期的なオプション層です——Core 単体で本番運用が可能です。");
    ("setupIntro", JStr "ソース：GitHub — Linux-Log-Guardian。2つの方法：ビルド済み .deb パッケージ（推奨）か、ソースからのビルド。ノートPC/VM では eBPF/XDP なし（ipset ベースの BAN）でも動作します。以下の手順は本番サーバー向けで、各コマンドの期待される出力を含みます。");
    ("setupTip", JStr "ヒント：JWT とダッシュボードのパスワードは bash scripts/laptop_jwt_setup.sh を使用。3分デモ：SKIP_WEBHOOK=1 bash scripts/demo_3min.sh。ドキュメント：docs/QUICKSTART_NGINX.md · docs/LAPTOP_OPS.md · docs/SECURITY_PROFILES.md。");
    ("contactBody", JStr "質問、協業、貢献はお気軽にご連絡ください。オープンソースの精神でバグ報告と Pull Request を歓迎します。");
    ("footerDesc", JStr "nginx アクセスログ → WAF/CRS → カーネルBAN。単一チェーン、セルフホスト、MIT ライセンス。トルコ製。");
    ("footerSoak", JStr "72時間ソーク PASS · 0 失敗");
    ("proofBody", JStr "スライドではなく、再現可能な証拠。OWASP CRS 整合、誤検知ゲート、BAN レイテンシのベンチマーク、コーパスリコール、72時間ソーク——すべて実測・自動化され、公開テストマトリクスで確認できます。");
    ("vsCols", JArr [JStr "指標"; JStr "Log Guardian"; JStr "Fail2ban"; JStr "CrowdSec"; JStr "ModSec + CRS"]);
    ("vsGroupLabels", JArr [JStr "強み（実測）"; JStr "正直な限界"]);
    ("vsRows0", JArr [
      JArr [JStr "ログ → WAF → カーネル BAN"; JStr "単一チェーン"; JStr "BAN のみ"; JStr "断片的"; JStr "WAF は別"];
      JArr [JStr "WAF/CRS スループット（同一コーパス）"; JStr "280,373 EPS (16.93×)"; JStr "—"; JStr "—"; JStr "16,560 EPS"];
      JArr [JStr "OWASP CRS 整合"; JStr "100%（121 ルール）"; JStr "—"; JStr "—"; JStr "基準（100%）"];
      JArr [JStr "実攻撃のリコール"; JStr "100%（1K+10K）"; JStr "—"; JStr "—"; JStr "100%"];
      JArr [JStr "分散 / JA3 クラスタ BAN"; JStr "100%（80 IP）"; JStr "—"; JStr "シグナルベース"; JStr "—"];
      JArr [JStr "nginx インライン consult"; JStr "PASS"; JStr "—"; JStr "—"; JStr "別モジュール"];
      JArr [JStr "L7 アプリ保護"; JStr "WAF + consult + eBPF"; JStr "—"; JStr "—"; JStr "CRS インライン"];
      JArr [JStr "カーネル / eBPF (XDP) BAN"; JStr "ipset + XDP"; JStr "iptables"; JStr "iptables/nft"; JStr "—"];
      JArr [JStr "誤検知"; JStr "0.2%（実測）"; JStr "高"; JStr "中"; JStr "CRS 依存"];
      JArr [JStr "BAN レイテンシ"; JStr "~20 ms"; JStr "秒〜分"; JStr "秒"; JStr "別統合"];
      JArr [JStr "短時間安定性（5 分）"; JStr "PASS（失敗 0）"; JStr "—"; JStr "—"; JStr "—"];
      JArr [JStr "72 時間ソーク"; JStr "PASS（864/0）"; JStr "—"; JStr "—"; JStr "—"];
      JArr [JStr "証拠パック PDF+JSON"; JStr "自動（14 ファイル）"; JStr "なし"; JStr "部分的"; JStr "モジュールごと"];
      JArr [JStr "自動テストマトリクス"; JStr "75 テスト"; JStr "—"; JStr "部分的"; JStr "—"];
      JArr [JStr "SOC タイムライン / ダッシュボード"; JStr "あり（:8443）"; JStr "—"; JStr "コンソール"; JStr "—"];
      JArr [JStr "Telegram 運用 + ack"; JStr "あり（ワンクリック）"; JStr "—"; JStr "部分的"; JStr "—"];
      JArr [JStr "セットアップ時間"; JStr "~15 分"; JStr "分"; JStr "分"; JStr "時間（チューニング）"]]);
    ("vsRows1", JArr [
      JArr [JStr "最初のリクエストを即座にブロック"; JStr "リアクティブ（ログ行）"; JStr "リアクティブ"; JStr "一部"; JStr "インライン（即時）"];
      JArr [JStr "ボリューム型 L3/L4 スクラブ"; JStr "なし — CDN 推奨"; JStr "なし"; JStr "なし"; JStr "なし"];
      JArr [JStr "コミュニティシグナル網"; JStr "セルフホスト"; JStr "—"; JStr "あり（グローバル）"; JStr "—"];
      JArr [JStr "エッジ / クラウド WAF"; JStr "オリジン層"; JStr "—"; JStr "Bouncer"; JStr "プロキシモード"];
      JArr [JStr "マネージドクラウド / SaaS"; JStr "なし（セルフホスト）"; JStr "なし"; JStr "あり（コンソール）"; JStr "—"]]);
    ("requirements", JArr [
      JStr "Ubuntu 22.04 / 24.04 または Debian 12（amd64）";
      JStr "nginx + 書き込み可能なアクセスログ（log_guardian 形式）";
      JStr "Root または sudo（systemd、ipset、/etc/log-guardian）";
      JStr "~200 MB ディスク、128 MB RAM（Core）; Pro には Docker";
      JStr "任意 Pro: eBPF/XDP に 5.10+ カーネル、Docker（ダッシュボード/メトリクス）"]);
    ("setup", JObj [
      ("pathTitles", JArr [JStr "新規サーバー — .deb パッケージ"; JStr "ソースコード — ビルドとインストール"]);
      ("pathBadges", JArr [JStr "推奨"; JStr "開発者"]);
      ("pathNotes", JArr [
        JStr "ビルド不要。パッケージにはバイナリ、systemd ユニット、ルール、スクリプトが同梱。アップグレード安全: 既存の /etc/log-guardian/rules.conf は保持されます。GitHub Releases（log-guardian_*_amd64.deb）から取得するか bash scripts/build_deb.sh → dist/ でビルド。";
        JStr "GitHub リポジトリをクローンしてビルド。開発、カスタマイズ、完全なソースレビューに最適。install.sh が systemd ユニット、ルール、nginx ログ形式を設定します。"]);
      ("pathSteps", JArr [
        JArr [
          JObj [("t", JStr "依存関係"); ("d", JStr "初回インストール時に Debian パッケージの依存関係を追加します。nginx がなければ同じコマンドで追加できます。")];
          JObj [
            ("t", JStr "パッケージをインストール");
            ("d", JStr "dpkg -i が依存エラーを出したら apt-get install -f を実行。postinst 手順が log-guardian ユーザー、権限、systemd ユニット、デフォルトの rules.conf を自動作成します。")];
          JObj [
            ("t", JStr "初回起動と API セキュリティ");
            ("d", JStr "nginx ログ形式、FP trust、API セキュリティ（トークン、fail-closed）を一括で準備。スクリプトはパッケージ内（/usr/local/share/log-guardian/scripts/）にあります。")]];
        JArr [
          JObj [("t", JStr "ソースとビルド"); ("d", JStr "リポジトリをクローンし、全コアでビルドしてメインのインストールスクリプトを実行します。")];
          JObj [("t", JStr "初回起動とトークン同期"); ("d", JStr "サービスを起動し、API トークン同期とダッシュボード接続を準備します。")]]]);
      ("commonTitle", JStr "共通手順（A または B の後）");
      ("commonSteps", JArr [
        JObj [
          ("t", JStr "Nginx ログ形式");
          ("d", JStr "WAF がリクエストボディと X-Forwarded-For を読むには log_guardian ログ形式が必要です。セットアップは通常自動適用します; STRICT モードで確認してください。")];
        JObj [
          ("t", JStr "ヘルスと状態確認");
          ("d", JStr "デーモン IPC、サービス状態、BPF 機能を確認。緑のゲート: post_install_verify の最後に FAIL: 0 が表示されるはずです。")];
        JObj [
          ("t", JStr "メトリクスと初回 BAN テスト");
          ("d", JStr "Prometheus メトリクスを確認; トラフィック後にカウンターが上がるのを観察。攻撃行を注入して ipset で BAN を検証できます。")];
        JObj [
          ("t", JStr "VirtualBox / XDP なし（ノート PC と VM）");
          ("d", JStr "eBPF/XDP のない環境では ipset ベースの BAN と --no-xdp で十分。サービス依存が失敗した場合、修復スクリプトは 1 コマンドです。")]]);
      ("dashboardTitle", JStr "Pro ダッシュボード — インストール後（任意）");
      ("dashboardBadge", JStr "Pro · 任意");
      ("dashboardNote", JStr "ダッシュボードはこのランディングサイトではなく、あなた自身のマシンで動作します。本番スタックは Caddy + Docker 経由で https://localhost:8443 で提供されます。");
      ("dashboardSteps", JArr [
        JObj [
          ("t", JStr "本番スタックを起動");
          ("d", JStr "あなた自身のサーバーでダッシュボードをビルドして起動。ログイン: admin / .env の DASHBOARD_ADMIN_PASSWORD。")];
        JObj [
          ("t", JStr "リモート VPS 用 SSH トンネル");
          ("d", JStr "インターネットに晒さず安全にダッシュボードを見るには SSH トンネルを設定; まずサーバーをハードニングします。")]])])].
Definition body_ko : json := JObj [
    ("pipelineNote", JStr "XDR, Wasm 마켓플레이스, LLM Copilot은 장기 선택 계층입니다 — Core 자체로 프로덕션 준비가 되어 있습니다.");
    ("selectedBodies", JArr [
      JStr "단일 체인: nginx 로그 → OWASP CRS → 약 20ms 커널 밴. 약 15분 만에 프로덕션.";
      JStr "플릿, SOC 타임라인, 대시보드 — 설치 후 자체 서버에서의 선택 계층.";
      JStr "75개 자동 테스트, 비교 PDF, 72시간 soak — dashboard /tests와 동일한 매트릭스.";
      JStr "tenant 라벨이 붙은 Prometheus 메트릭, 대시보드, 알림 규칙 — 셀프호스팅 관측성.";
      JStr "멀티노드 플릿: 에이전트 동기화, etcd mesh 정책, 대상 지정 명령 전송 — 하나의 패널에서.";
      JStr "TAXII/STIX 위협 피드 + Telegram SOC: 알림, 밴, 원클릭 'ack' — 실시간 운영 플로우.";
      JStr "XDP 필터 + execve/lineage uprobe — 커널 수준 패킷 드롭과 syscall 추적. 노트북에서는 --no-xdp와 ipset이면 충분.";
      JStr "분산 스캐너 탐지: 동일 JA3 지문 + 다른 IP 클러스터, 100% 재현율 — 80 IP 실시간 테스트.";
      JStr "공격 트리, 계보 프로브, syscall uprobe — 장기 선택 계층; 공격 체인과 은닉 채널 탐지.";
      JStr "Wasm 런타임을 통한 사용자 정의 규칙 플러그인 — 마켓플레이스 모델, Core를 건드리지 않고 확장.";
      JStr "JSON event_type 스트림 — Splunk/Elastic/Vector로의 SIEM 내보내기 증거(siem-export-report.json).";
      JStr "Tarpit 서버 + 트랩 워처 — 공격자를 지연시키고 허니팟 신호 제공; 기만 계층."]);
    ("advLead", JStr "Fail2ban은 밴만 하고, ModSecurity WAF는 별도 모듈이며, CrowdSec은 조각난 스택이 필요합니다. Log Guardian은 이 세 가지 작업을 하나의 체인으로 통합합니다 — 측정된 증거와 함께.");
    ("advantages", JArr [
      JObj [
        ("k", JStr "한 번 설치, 하나의 체인");
        ("v", JStr "Fail2ban + ModSecurity + CrowdSec을 따로 설치·통합하지 않습니다. nginx 로그 → WAF/CRS → 커널 밴을 한 제품으로, 약 15분 설치.")];
      JObj [
        ("k", JStr "약 20ms 커널 밴");
        ("v", JStr "로그 라인에서 ipset/XDP 밴까지 중앙값 약 20ms. Fail2ban/CrowdSec은 초~분 단위; 21개 측정 샘플로 입증.")];
      JObj [
        ("k", JStr "280,373 EPS · 16.93× ModSec");
        ("v", JStr "동일 코퍼스와 동일한 121개 OWASP CRS 패턴(PCRE2 JIT)에서 WAF/CRS 처리량은 280,373 EPS로, ModSec의 16,560 EPS보다 16.93배 빠릅니다. 측정되고 재현 가능합니다(bench-vs-modsec.json).")];
      JObj [
        ("k", JStr "100% 재현율 + 100% CRS 동등성");
        ("v", JStr "121개 OWASP CRS 규칙, 1500줄 코퍼스에서 실제 공격 100% 재현율, ModSec과 완전 동등 — 오탐 0.2%.")];
      JObj [
        ("k", JStr "분산 공격 커버리지");
        ("v", JStr "JA3 클러스터 탐지 + IP별 밴 — 80 IP 실시간 테스트에서 100%. Fail2ban은 단일 IP; CrowdSec은 별도 신호 네트워크가 필요.")];
      JObj [
        ("k", JStr "투명하고 재현 가능한 증거");
        ("v", JStr "75개 자동 테스트 + 14개 파일 증거 팩 + 72시간 soak(864 샘플, 0 오류). 경쟁사는 자동 증거가 없거나 조각나 있음.")];
      JObj [
        ("k", JStr "셀프호스팅 · MIT · 튀르키예 제작");
        ("v", JStr "데이터는 당신에게 남고, 벤더 종속 없음, 완전 오픈소스. SOC 타임라인, Prometheus 메트릭, Telegram 운영을 하나의 패널(:8443)에.")]]);
    ("vsNote", JStr "정직한 한계: 일부 영역에서는 경쟁사가 분명히 더 낫습니다(빨간 셀). ModSec + CRS는 첫 요청 즉시 차단에서 앞서고, CrowdSec은 분산 커뮤니티 신호 네트워크와 관리형 SaaS 콘솔에서 강합니다. 그 대신 동일 코퍼스와 동일한 121개 CRS 패턴에서 우리의 WAF/CRS 처리량은 280,373 EPS로, ModSec의 16,560 EPS보다 16.93배 빠릅니다(bench-vs-modsec.json).");
    ("vsLegend", JStr "빨강 = 해당 행의 승자");
    ("honestItems", JArr [
      JStr "반응형 아키텍처 — 로그 라인이 떨어질 때까지 첫 요청은 통과할 수 있음; ModSec의 인라인 속도에는 미치지 못함.";
      JStr "L3/L4 DDoS는 흡수하지 않음 — CDN 뒤에 위치.";
      JStr "분산 봇넷 — IP별 밴; CrowdSec 신호 네트워크 없음.";
      JStr "수행: 로그 → CRS/WAF → 약 20ms 커널 밴, 증거 PDF, Telegram 운영, MIT 셀프호스팅."]);
    ("layersBodies", JArr [
      JStr "로그 → WAF → ipset 밴(약 15분)";
      JStr "eBPF 데몬, 대시보드, 메트릭, 플릿";
      JStr "K8s/Helm (kind) + fleet + Wasm/mesh"]);
    ("layersNote", JStr "XDR, Wasm 마켓플레이스, LLM Copilot은 장기 선택 계층입니다 — Core 자체로 프로덕션 준비가 되어 있습니다.");
    ("setupIntro", JStr "출처: GitHub — Linux-Log-Guardian. 두 가지 방법: 사전 빌드된 .deb 패키지(권장) 또는 소스에서 빌드. 노트북/VM에서는 eBPF/XDP 없이도(ipset 기반 밴) 동작합니다. 아래 단계는 프로덕션 서버용이며, 각 명령의 예상 출력이 포함되어 있습니다.");
    ("setupTip", JStr "팁: JWT와 대시보드 비밀번호는 bash scripts/laptop_jwt_setup.sh를 사용하세요. 3분 데모: SKIP_WEBHOOK=1 bash scripts/demo_3min.sh. 문서: docs/QUICKSTART_NGINX.md · docs/LAPTOP_OPS.md · docs/SECURITY_PROFILES.md.");
    ("contactBody", JStr "질문, 협업, 기여는 언제든 연락 주세요. 오픈소스 정신으로 버그 리포트와 풀 리퀘스트를 환영합니다.");
    ("footerDesc", JStr "nginx 액세스 로그 → WAF/CRS → 커널 밴. 단일 체인, 셀프호스팅, MIT 라이선스. 튀르키예 제작.");
    ("footerSoak", JStr "72시간 soak PASS · 0 실패");
    ("proofBody", JStr "슬라이드가 아니라 재현 가능한 증거. OWASP CRS 동등성, 오탐 게이트, 밴 지연 벤치마크, 코퍼스 재현율, 72시간 soak — 모두 측정·자동화되어 공개 테스트 매트릭스에서 확인 가능.");
    ("vsCols", JArr [JStr "지표"; JStr "Log Guardian"; JStr "Fail2ban"; JStr "CrowdSec"; JStr "ModSec + CRS"]);
    ("vsGroupLabels", JArr [JStr "강점(측정됨)"; JStr "정직한 한계"]);
    ("vsRows0", JArr [
      JArr [JStr "로그 → WAF → 커널 밴"; JStr "단일 체인"; JStr "밴만"; JStr "단편적"; JStr "WAF 별도"];
      JArr [JStr "WAF/CRS 처리량(동일 코퍼스)"; JStr "280,373 EPS (16.93×)"; JStr "—"; JStr "—"; JStr "16,560 EPS"];
      JArr [JStr "OWASP CRS 동등성"; JStr "100%(121 규칙)"; JStr "—"; JStr "—"; JStr "기준(100%)"];
      JArr [JStr "실제 공격 재현율"; JStr "100%(1K+10K)"; JStr "—"; JStr "—"; JStr "100%"];
      JArr [JStr "분산 / JA3 클러스터 밴"; JStr "100%(80 IP)"; JStr "—"; JStr "신호 기반"; JStr "—"];
      JArr [JStr "nginx 인라인 consult"; JStr "PASS"; JStr "—"; JStr "—"; JStr "별도 모듈"];
      JArr [JStr "L7 애플리케이션 보호"; JStr "WAF + consult + eBPF"; JStr "—"; JStr "—"; JStr "CRS 인라인"];
      JArr [JStr "커널 / eBPF (XDP) 밴"; JStr "ipset + XDP"; JStr "iptables"; JStr "iptables/nft"; JStr "—"];
      JArr [JStr "오탐"; JStr "0.2%(측정됨)"; JStr "높음"; JStr "중간"; JStr "CRS 의존"];
      JArr [JStr "밴 지연"; JStr "~20 ms"; JStr "초~분"; JStr "초"; JStr "별도 통합"];
      JArr [JStr "짧은 안정성(5분)"; JStr "PASS(실패 0)"; JStr "—"; JStr "—"; JStr "—"];
      JArr [JStr "72시간 soak"; JStr "PASS(864/0)"; JStr "—"; JStr "—"; JStr "—"];
      JArr [JStr "증거 패키지 PDF+JSON"; JStr "자동(14개 파일)"; JStr "없음"; JStr "부분"; JStr "모듈별"];
      JArr [JStr "자동 테스트 매트릭스"; JStr "75개 테스트"; JStr "—"; JStr "부분"; JStr "—"];
      JArr [JStr "SOC 타임라인 / 대시보드"; JStr "예(:8443)"; JStr "—"; JStr "콘솔"; JStr "—"];
      JArr [JStr "Telegram 운영 + ack"; JStr "예(원클릭)"; JStr "—"; JStr "부분"; JStr "—"];
      JArr [JStr "설치 시간"; JStr "~15분"; JStr "분"; JStr "분"; JStr "시간(튜닝)"]]);
    ("vsRows1", JArr [
      JArr [JStr "첫 요청을 즉시 차단"; JStr "반응형(로그 라인)"; JStr "반응형"; JStr "일부"; JStr "인라인(즉시)"];
      JArr [JStr "대용량 L3/L4 스크러빙"; JStr "없음 — CDN 권장"; JStr "없음"; JStr "없음"; JStr "없음"];
      JArr [JStr "커뮤니티 신호 네트워크"; JStr "셀프 호스팅"; JStr "—"; JStr "예(글로벌)"; JStr "—"];
      JArr [JStr "엣지 / 클라우드 WAF"; JStr "오리진 계층"; JStr "—"; JStr "Bouncer"; JStr "프록시 모드"];
      JArr [JStr "관리형 클라우드 / SaaS"; JStr "없음(셀프 호스팅)"; JStr "없음"; JStr "예(콘솔)"; JStr "—"]]);
    ("requirements", JArr [
      JStr "Ubuntu 22.04 / 24.04 또는 Debian 12(amd64)";
      JStr "nginx + 쓰기 가능한 접근 로그(log_guardian 형식)";
      JStr "Root 또는 sudo(systemd, ipset, /etc/log-guardian)";
      JStr "~200 MB 디스크, 128 MB RAM(Core); Pro에는 Docker";
      JStr "선택 Pro: eBPF/XDP에 5.10+ 커널, Docker(대시보드/메트릭)"]);
    ("setup", JObj [
      ("pathTitles", JArr [JStr "새 서버 — .deb 패키지"; JStr "소스 코드 — 빌드 및 설치"]);
      ("pathBadges", JArr [JStr "권장"; JStr "개발자"]);
      ("pathNotes", JArr [
        JStr "빌드 불필요. 패키지에 바이너리, systemd 유닛, 규칙, 스크립트가 포함됩니다. 업그레이드 안전: 기존 /etc/log-guardian/rules.conf는 보존됩니다. GitHub Releases(log-guardian_*_amd64.deb)에서 받거나 bash scripts/build_deb.sh → dist/ 로 빌드하세요.";
        JStr "GitHub 저장소를 클론하고 빌드하세요. 개발, 커스터마이징, 전체 소스 검토에 이상적. install.sh가 systemd 유닛, 규칙, nginx 로그 형식을 설정합니다."]);
      ("pathSteps", JArr [
        JArr [
          JObj [("t", JStr "의존성"); ("d", JStr "첫 설치 시 Debian 패키지 의존성을 추가합니다. nginx가 없으면 같은 명령으로 추가할 수 있습니다.")];
          JObj [
            ("t", JStr "패키지 설치");
            ("d", JStr "dpkg -i가 의존성 오류를 보고하면 apt-get install -f를 실행하세요. postinst 단계가 log-guardian 사용자, 권한, systemd 유닛, 기본 rules.conf를 자동 생성합니다.")];
          JObj [
            ("t", JStr "첫 실행 및 API 보안");
            ("d", JStr "nginx 로그 형식, FP trust, API 보안(토큰, fail-closed)을 한 번에 준비합니다. 스크립트는 패키지 내부(/usr/local/share/log-guardian/scripts/)에 있습니다.")]];
        JArr [
          JObj [("t", JStr "소스 및 빌드"); ("d", JStr "저장소를 클론하고 모든 코어로 빌드한 뒤 메인 설치 스크립트를 실행하세요.")];
          JObj [("t", JStr "첫 실행 및 토큰 동기화"); ("d", JStr "서비스를 올리고 API 토큰 동기화 및 대시보드 연결을 준비합니다.")]]]);
      ("commonTitle", JStr "공통 단계(A 또는 B 이후)");
      ("commonSteps", JArr [
        JObj [
          ("t", JStr "Nginx 로그 형식");
          ("d", JStr "WAF가 요청 본문과 X-Forwarded-For를 읽으려면 log_guardian 로그 형식이 필요합니다. 설치가 보통 자동 적용합니다; STRICT 모드에서 확인하세요.")];
        JObj [
          ("t", JStr "상태 및 헬스 체크");
          ("d", JStr "데몬 IPC, 서비스 상태, BPF 기능을 확인하세요. 녹색 게이트: post_install_verify 끝에 FAIL: 0이 보여야 합니다.")];
        JObj [
          ("t", JStr "메트릭 및 첫 밴 테스트");
          ("d", JStr "Prometheus 메트릭을 확인하세요; 트래픽 후 카운터가 오르는지 관찰합니다. 공격 라인을 주입해 ipset에서 밴을 검증할 수 있습니다.")];
        JObj [
          ("t", JStr "VirtualBox / XDP 없음(노트북 및 VM)");
          ("d", JStr "eBPF/XDP가 없는 환경에서는 ipset 기반 밴과 함께 --no-xdp면 충분합니다. 서비스 의존성이 실패하면 복구 스크립트는 명령 하나입니다.")]]);
      ("dashboardTitle", JStr "Pro 대시보드 — 설치 후(선택)");
      ("dashboardBadge", JStr "Pro · 선택");
      ("dashboardNote", JStr "대시보드는 이 랜딩 사이트가 아니라 사용자 자신의 머신에서 실행됩니다. 프로덕션 스택은 Caddy + Docker를 통해 https://localhost:8443에서 제공됩니다.");
      ("dashboardSteps", JArr [
        JObj [
          ("t", JStr "프로덕션 스택 시작");
          ("d", JStr "사용자 자신의 서버에서 대시보드를 빌드하고 올립니다. 로그인: admin / .env의 DASHBOARD_ADMIN_PASSWORD.")];
        JObj [("t", JStr "원격 VPS용 SSH 터널"); ("d", JStr "대시보드를 인터넷에 노출하지 않고 안전하게 보려면 SSH 터널을 설정하세요; 먼저 서버를 하드닝합니다.")]])])].
Definition body_ar : json := JObj [
    ("pipelineNote", JStr "XDR وسوق Wasm ومساعد LLM طبقات اختيارية طويلة المدى — أما Core فجاهز للإنتاج بمفرده.");
    ("selectedBodies", JArr [
      JStr "سلسلة واحدة: سجل nginx ← OWASP CRS ← حظر على مستوى النواة نحو 17 مللي ثانية. في الإنتاج خلال نحو 15 دقيقة.";
      JStr "أسطول، خط زمني SOC، لوحات — طبقة اختيارية على خادمك بعد التثبيت.";
      JStr "75 اختباراً آلياً، PDF مقارن، soak لمدة 72 ساعة — نفس المصفوفة كما في dashboard /tests.";
      JStr "مقاييس Prometheus موسومة بالمستأجر، لوحات وقواعد تنبيه — رصد ذاتي الاستضافة.";
      JStr "أسطول متعدد العقد: مزامنة الوكلاء، سياسة etcd mesh وإرسال أوامر موجّه — من لوحة واحدة.";
      JStr "تغذية تهديدات TAXII/STIX + SOC عبر Telegram: تنبيه وحظر و'ack' بنقرة واحدة — تدفق تشغيل حي.";
      JStr "مرشّح XDP + uprobes لـ execve/lineage — إسقاط حزم على مستوى النواة وتتبّع syscall. على الحواسيب المحمولة يكفي --no-xdp مع ipset.";
      JStr "كشف الماسحات الموزّعة: نفس بصمة JA3 + عنقود IP مختلف، استرجاع 100% — اختبار حي على 80 IP.";
      JStr "شجرة هجوم، مسبار نسب، uprobe لـ syscall — طبقة اختيارية طويلة المدى؛ كشف سلسلة الهجوم والقنوات المخفية.";
      JStr "إضافات قواعد مخصّصة عبر بيئة تشغيل Wasm — نموذج سوق، توسيع دون المساس بـ Core.";
      JStr "دفق JSON event_type — دليل تصدير SIEM إلى Splunk/Elastic/Vector (siem-export-report.json).";
      JStr "خادم tarpit + مراقب فخاخ — إبطاء المهاجم وإشارة مصيدة عسل؛ طبقة خداع."]);
    ("advLead", JStr "Fail2ban يحظر فقط، وModSecurity WAF وحدة منفصلة، وCrowdSec يتطلّب حزمة مجزّأة. يدمج Log Guardian هذه المهام الثلاث في سلسلة واحدة — مع دليل مقاس.");
    ("advantages", JArr [
      JObj [
        ("k", JStr "تثبيت واحد، سلسلة واحدة");
        ("v", JStr "لا تثبّت وتدمج Fail2ban + ModSecurity + CrowdSec بشكل منفصل. سجل nginx ← WAF/CRS ← حظر على مستوى النواة في منتج واحد، تثبيت نحو 15 دقيقة.")];
      JObj [
        ("k", JStr "حظر على مستوى النواة نحو 17 مللي ثانية");
        ("v", JStr "الوسيط نحو 17 مللي ثانية من سطر السجل إلى حظر ipset/XDP. يبقى Fail2ban/CrowdSec بمقياس ثوانٍ–دقائق؛ مثبت بخمس عينات مقاسة.")];
      JObj [
        ("k", JStr "280,373 EPS · 16.93× ModSec");
        ("v", JStr "على نفس المجموعة وبنفس 121 نمط OWASP CRS (PCRE2 JIT)، يبلغ معدل معالجة WAF/CRS ‏280,373 EPS — أسرع بـ 16.93× من 16,560 EPS لدى ModSec. مقيس وقابل لإعادة الإنتاج (bench-vs-modsec.json).")];
      JObj [
        ("k", JStr "استرجاع 100% + تكافؤ CRS 100%");
        ("v", JStr "121 قاعدة OWASP CRS، استرجاع 100% للهجمات الحقيقية على مجموعة من 1500 سطر وتكافؤ كامل مع ModSec — عند إيجابيات كاذبة 0.2%.")];
      JObj [
        ("k", JStr "تغطية الهجمات الموزّعة");
        ("v", JStr "كشف عنقود JA3 + حظر لكل IP — 100% في اختبار حي على 80 IP. Fail2ban أحادي الـ IP؛ وCrowdSec يتطلّب شبكة إشارات منفصلة.")];
      JObj [
        ("k", JStr "دليل شفّاف قابل لإعادة الإنتاج");
        ("v", JStr "75 اختباراً آلياً + حزمة أدلة من 14 ملفاً + soak لمدة 72 ساعة (864 عينة، 0 خطأ). المنافسون بلا دليل آلي أو دليلهم مجزّأ.")];
      JObj [
        ("k", JStr "ذاتي الاستضافة · MIT · صُنع في تركيا");
        ("v", JStr "بياناتك تبقى لديك، بلا احتكار مورّد، مفتوح المصدر بالكامل. خط زمني SOC ومقاييس Prometheus وتشغيل Telegram في لوحة واحدة (:8443).")]]);
    ("vsNote", JStr "حدّ صادق: في بعض المجالات المنافسون أفضل بوضوح (الخلايا الحمراء). يتصدّر ModSec + CRS في الحظر الفوري لأول طلب؛ وCrowdSec قوي في شبكة إشارات المجتمع الموزّعة وكونسول SaaS المُدار. في المقابل، على نفس المجموعة وبنفس 121 نمط CRS، يبلغ معدل معالجة WAF/CRS لدينا ‏280,373 EPS — أي 16.93× من 16,560 EPS لدى ModSec (bench-vs-modsec.json).");
    ("vsLegend", JStr "الأحمر = الفائز في ذلك الصف");
    ("honestItems", JArr [
      JStr "بنية تفاعلية — قد يمرّ الطلب الأول حتى يسقط سطر السجل؛ لسنا بسرعة ModSec المضمّنة.";
      JStr "لا نمتصّ هجمات DDoS من نوع L3/L4 — نجلس خلف CDN.";
      JStr "شبكة روبوتات موزّعة — حظر لكل IP؛ بلا شبكة إشارات CrowdSec.";
      JStr "يفعل: سجل ← CRS/WAF ← حظر على مستوى النواة نحو 17 مللي ثانية، PDF دليل، تشغيل Telegram، MIT ذاتي الاستضافة."]);
    ("layersBodies", JArr [
      JStr "سجل ← WAF ← حظر ipset (نحو 15 دقيقة)";
      JStr "خفيّ eBPF، لوحة، مقاييس، أسطول";
      JStr "K8s/Helm (kind) + fleet + Wasm/mesh"]);
    ("layersNote", JStr "XDR وسوق Wasm ومساعد LLM طبقات اختيارية طويلة المدى — أما Core فجاهز للإنتاج بمفرده.");
    ("setupIntro", JStr "المصدر: GitHub — Linux-Log-Guardian. طريقتان: حزمة .deb جاهزة (موصى بها) أو البناء من المصدر. يعمل أيضاً دون eBPF/XDP على الحواسيب المحمولة/الأجهزة الافتراضية (حظر قائم على ipset). الخطوات أدناه لخادم إنتاج؛ ومُدرَج الخرج المتوقّع لكل أمر.");
    ("setupTip", JStr "نصيحة: لـ JWT وكلمة مرور اللوحة استخدم bash scripts/laptop_jwt_setup.sh. عرض 3 دقائق: SKIP_WEBHOOK=1 bash scripts/demo_3min.sh. الوثائق: docs/QUICKSTART_NGINX.md · docs/LAPTOP_OPS.md · docs/SECURITY_PROFILES.md.");
    ("contactBody", JStr "راسلنا للأسئلة أو التعاون أو المساهمة. تقارير الأخطاء وطلبات السحب مرحّب بها بروح المصدر المفتوح.");
    ("footerDesc", JStr "سجل وصول nginx ← WAF/CRS ← حظر على مستوى النواة. سلسلة واحدة، ذاتي الاستضافة، برخصة MIT. صُنع في تركيا.");
    ("footerSoak", JStr "soak 72 ساعة PASS · 0 فشل");
    ("proofBody", JStr "ليست شرائح، بل دليل قابل لإعادة الإنتاج. تكافؤ OWASP CRS، بوابات الإيجابيات الكاذبة، مقاييس زمن الحظر، استرجاع المجموعة وsoak لمدة 72 ساعة — كله مقاس وآلي وظاهر في مصفوفة اختبارات عامة.");
    ("vsCols", JArr [JStr "المقياس"; JStr "Log Guardian"; JStr "Fail2ban"; JStr "CrowdSec"; JStr "ModSec + CRS"]);
    ("vsGroupLabels", JArr [JStr "نقاط القوة (مقاسة)"; JStr "حدود صادقة"]);
    ("vsRows0", JArr [
      JArr [JStr "سجل → WAF → حظر النواة"; JStr "سلسلة واحدة"; JStr "حظر فقط"; JStr "متجزئ"; JStr "WAF منفصل"];
      JArr [
        JStr "معدل معالجة WAF/CRS (نفس المجموعة)";
        JStr "280,373 EPS (16.93×)";
        JStr "—";
        JStr "—";
        JStr "16,560 EPS"];
      JArr [JStr "تكافؤ OWASP CRS"; JStr "100% (121 قاعدة)"; JStr "—"; JStr "—"; JStr "مرجع (100%)"];
      JArr [JStr "استرجاع الهجمات الحقيقية"; JStr "100% (1K+10K)"; JStr "—"; JStr "—"; JStr "100%"];
      JArr [JStr "حظر موزّع / عنقود JA3"; JStr "100% (80 IP)"; JStr "—"; JStr "قائم على الإشارة"; JStr "—"];
      JArr [JStr "استشارة nginx المضمّنة"; JStr "PASS"; JStr "—"; JStr "—"; JStr "وحدة منفصلة"];
      JArr [JStr "حماية تطبيقات L7"; JStr "WAF + استشارة + eBPF"; JStr "—"; JStr "—"; JStr "CRS مضمّن"];
      JArr [JStr "حظر النواة / eBPF (XDP)"; JStr "ipset + XDP"; JStr "iptables"; JStr "iptables/nft"; JStr "—"];
      JArr [JStr "إيجابية كاذبة"; JStr "0.2% (مقاس)"; JStr "مرتفع"; JStr "متوسط"; JStr "حسب CRS"];
      JArr [JStr "زمن الحظر"; JStr "~20 ms"; JStr "ثانية–دقيقة"; JStr "ثانية"; JStr "تكامل منفصل"];
      JArr [JStr "استقرار قصير (5 دقائق)"; JStr "PASS (0 فشل)"; JStr "—"; JStr "—"; JStr "—"];
      JArr [JStr "soak 72 ساعة"; JStr "PASS (864/0)"; JStr "—"; JStr "—"; JStr "—"];
      JArr [JStr "حزمة أدلة PDF+JSON"; JStr "تلقائي (14 ملفًا)"; JStr "لا شيء"; JStr "جزئي"; JStr "وحدة بوحدة"];
      JArr [JStr "مصفوفة اختبارات آلية"; JStr "75 اختبارًا"; JStr "—"; JStr "جزئي"; JStr "—"];
      JArr [JStr "مخطط زمني SOC / لوحة"; JStr "نعم (:8443)"; JStr "—"; JStr "طرفية"; JStr "—"];
      JArr [JStr "تشغيل Telegram + إقرار"; JStr "نعم (بنقرة)"; JStr "—"; JStr "جزئي"; JStr "—"];
      JArr [JStr "زمن التثبيت"; JStr "~15 دقيقة"; JStr "دقائق"; JStr "دقائق"; JStr "ساعات (ضبط)"]]);
    ("vsRows1", JArr [
      JArr [JStr "حظر أول طلب فورًا"; JStr "تفاعلي (سطر سجل)"; JStr "تفاعلي"; JStr "جزئيًا"; JStr "مضمّن (فوري)"];
      JArr [JStr "تنظيف حجمي L3/L4"; JStr "لا شيء — يُنصح بـ CDN"; JStr "لا شيء"; JStr "لا شيء"; JStr "لا شيء"];
      JArr [JStr "شبكة إشارات مجتمعية"; JStr "استضافة ذاتية"; JStr "—"; JStr "نعم (عالمي)"; JStr "—"];
      JArr [JStr "Edge / WAF سحابي"; JStr "طبقة الأصل"; JStr "—"; JStr "Bouncer"; JStr "وضع الوكيل"];
      JArr [JStr "سحابة مُدارة / SaaS"; JStr "لا شيء (استضافة ذاتية)"; JStr "لا شيء"; JStr "نعم (طرفية)"; JStr "—"]]);
    ("requirements", JArr [
      JStr "Ubuntu 22.04 / 24.04 أو Debian 12 (amd64)";
      JStr "nginx + سجل وصول قابل للكتابة (تنسيق log_guardian)";
      JStr "Root أو sudo (systemd، ipset، /etc/log-guardian)";
      JStr "~200 MB قرص، 128 MB RAM (Core); Docker لـ Pro";
      JStr "Pro اختياري: نواة 5.10+ لـ eBPF/XDP، Docker (لوحة/مقاييس)"]);
    ("setup", JObj [
      ("pathTitles", JArr [JStr "خادم جديد — حزمة .deb"; JStr "الكود المصدري — البناء والتثبيت"]);
      ("pathBadges", JArr [JStr "موصى به"; JStr "مطوّر"]);
      ("pathNotes", JArr [
        JStr "لا حاجة للبناء. تتضمن الحزمة الملف الثنائي ووحدات systemd والقواعد والسكربتات. آمنة للترقية: يُحتفظ بـ /etc/log-guardian/rules.conf الموجود. من GitHub Releases (log-guardian_*_amd64.deb) أو ابنِ عبر bash scripts/build_deb.sh → dist/.";
        JStr "استنسخ مستودع GitHub وابنِ. مثالي للتطوير والتخصيص ومراجعة الكود الكاملة. يقوم install.sh بإعداد وحدات systemd والقواعد وتنسيق سجل nginx."]);
      ("pathSteps", JArr [
        JArr [
          JObj [
            ("t", JStr "التبعيات");
            ("d", JStr "عند التثبيت الأول، أضِف تبعيات حزمة Debian. إذا كان nginx مفقودًا يمكن إضافته في الأمر نفسه.")];
          JObj [
            ("t", JStr "تثبيت الحزمة");
            ("d", JStr "إذا أبلغ dpkg -i عن خطأ تبعيات، شغّل apt-get install -f. تنشئ خطوة postinst تلقائيًا مستخدم log-guardian والأذونات ووحدات systemd وملف rules.conf افتراضي.")];
          JObj [
            ("t", JStr "التشغيل الأول وأمان API");
            ("d", JStr "يُجهّز تنسيق سجل nginx وFP trust وأمان API (رمز، fail-closed) دفعة واحدة. السكربتات ضمن الحزمة (/usr/local/share/log-guardian/scripts/).")]];
        JArr [
          JObj [
            ("t", JStr "المصدر والبناء");
            ("d", JStr "استنسخ المستودع، ابنِ بكل الأنوية وشغّل سكربت التثبيت الرئيسي.")];
          JObj [
            ("t", JStr "التشغيل الأول ومزامنة الرمز");
            ("d", JStr "يُشغّل الخدمات ويُجهّز مزامنة رمز API واتصال اللوحة.")]]]);
      ("commonTitle", JStr "خطوات مشتركة (بعد A أو B)");
      ("commonSteps", JArr [
        JObj [
          ("t", JStr "تنسيق سجل nginx");
          ("d", JStr "تنسيق سجل log_guardian مطلوب ليقرأ WAF جسم الطلب وX-Forwarded-For. عادةً يطبّقه الإعداد تلقائيًا; تحقق في وضع STRICT.")];
        JObj [
          ("t", JStr "فحص الصحة والحالة");
          ("d", JStr "افحص IPC للخدمة وحالة الخدمة وميزات BPF. البوابة الخضراء: يجب أن ترى FAIL: 0 في نهاية post_install_verify.")];
        JObj [
          ("t", JStr "المقاييس واختبار الحظر الأول");
          ("d", JStr "افحص مقاييس Prometheus; راقب ارتفاع العدّادات بعد المرور. يمكنك حقن سطر هجوم والتحقق من الحظر في ipset.")];
        JObj [
          ("t", JStr "VirtualBox / بدون XDP (حاسوب محمول وVM)");
          ("d", JStr "في البيئات بدون eBPF/XDP، يكفي --no-xdp مع حظر قائم على ipset. إذا فشلت تبعية خدمة، فسكربت الإصلاح أمر واحد.")]]);
      ("dashboardTitle", JStr "لوحة Pro — بعد التثبيت (اختياري)");
      ("dashboardBadge", JStr "Pro · اختياري");
      ("dashboardNote", JStr "لا تعمل اللوحة على موقع الهبوط هذا بل على جهازك الخاص. تُقدَّم حزمة الإنتاج عبر Caddy + Docker على https://localhost:8443.");
      ("dashboardSteps", JArr [
        JObj [
          ("t", JStr "تشغيل حزمة الإنتاج");
          ("d", JStr "يبني ويُشغّل اللوحة على خادمك الخاص. الدخول: admin / DASHBOARD_ADMIN_PASSWORD من .env.")];
        JObj [
          ("t", JStr "نفق SSH لـ VPS بعيد");
          ("d", JStr "لعرض اللوحة بأمان دون كشفها للإنترنت، أعِدّ نفق SSH; قسِّ الخادم أولًا.")]])])].
Definition body_az : json := JObj [
    ("pipelineNote", JStr "XDR, Wasm marketi və LLM Copilot uzunmüddətli opsional qatlardır — Core tək başına istehsala hazırdır.");
    ("selectedBodies", JArr [
      JStr "Tək zəncir: nginx logu → OWASP CRS → ~20 ms kernel ban. ~15 dəqiqəyə istehsalda.";
      JStr "Filo, SOC zaman xətti, panellər — quraşdırmadan sonra öz serverinizdə opsional qat.";
      JStr "75 avtomatik test, müqayisə PDF-i, 72 saat soak — dashboard /tests ilə eyni matris.";
      JStr "Tenant etiketli Prometheus metrikləri, panellər və alert qaydaları — self-hosted müşahidə.";
      JStr "Çoxdüyünlü filo: agent sinxronizasiyası, etcd mesh siyasəti və hədəfli əmr göndərmə — bir paneldən.";
      JStr "TAXII/STIX təhlükə lenti + Telegram SOC: alert, ban və bir kliklə 'ack' — canlı operator axını.";
      JStr "XDP filtri + execve/lineage uprobe-ları — kernel səviyyəsində paket atma və syscall izləmə. Noutbuklarda --no-xdp və ipset kifayətdir.";
      JStr "Paylanmış skaner aşkarlanması: eyni JA3 izi + fərqli IP klasteri, 100% recall — 80 IP canlı test.";
      JStr "Hücum ağacı, mənşə probu, syscall uprobe — uzunmüddətli opsional qat; hücum zəncirinin və gizli kanalların aşkarlanması.";
      JStr "Wasm runtime vasitəsilə xüsusi qayda plaginləri — market modeli, Core-a toxunmadan genişləndirin.";
      JStr "JSON event_type axını — Splunk/Elastic/Vector hədəflərinə SIEM ixracı sübutu (siem-export-report.json).";
      JStr "Tarpit server + tələ izləyici — hücumçunu yavaşladın və honeypot siqnalı; aldatma qatı."]);
    ("advLead", JStr "Fail2ban yalnız banlayır, ModSecurity WAF ayrıca moduldur, CrowdSec parçalı stek tələb edir. Log Guardian bu üç işi bir zəncirdə birləşdirir — ölçülmüş sübutla.");
    ("advantages", JArr [
      JObj [
        ("k", JStr "Bir quraşdırma, bir zəncir");
        ("v", JStr "Fail2ban + ModSecurity + CrowdSec-i ayrıca quraşdırıb inteqrasiya etmirsiniz. nginx logu → WAF/CRS → kernel ban tək məhsulda, ~15 dəq quraşdırma.")];
      JObj [
        ("k", JStr "~20 ms kernel ban");
        ("v", JStr "Log sətrindən ipset/XDP bana median ~20 ms. Fail2ban/CrowdSec saniyə–dəqiqə səviyyəsində qalır; 21 ölçülmüş nümunə ilə sübut olunub.")];
      JObj [
        ("k", JStr "280.373 EPS · 16,93× ModSec");
        ("v", JStr "Eyni korpus və eyni 121 OWASP CRS pattern (PCRE2 JIT) üzərində WAF/CRS ötürmə qabiliyyəti 280.373 EPS — ModSec-in 16.560 EPS-indən 16,93× daha sürətli. Ölçülmüş və təkrar istehsal olunandır (bench-vs-modsec.json).")];
      JObj [
        ("k", JStr "100% recall + 100% CRS pariteti");
        ("v", JStr "121 OWASP CRS qaydası, 1500 sətirlik korpusda real hücum recall 100% və ModSec ilə tam paritet — 0.2% yanlış pozitivdə.")];
      JObj [
        ("k", JStr "Paylanmış hücum əhatəsi");
        ("v", JStr "JA3 klaster aşkarlanması + IP başına ban — 80 IP canlı testdə 100%. Fail2ban tək IP-lidir; CrowdSec ayrıca siqnal şəbəkəsi tələb edir.")];
      JObj [
        ("k", JStr "Şəffaf, təkrar istehsal edilə bilən sübut");
        ("v", JStr "75 avtomatik test + 14 fayllıq sübut paketi + 72 saat soak (864 nümunə, 0 xəta). Rəqiblərdə avtomatik sübut yoxdur və ya parçalıdır.")];
      JObj [
        ("k", JStr "Self-hosted · MIT · Türkiyə istehsalı");
        ("v", JStr "Məlumatınız sizdə qalır, vendor asılılığı yoxdur, tam açıq mənbə. SOC zaman xətti, Prometheus metrikləri və Telegram idarəetməsi bir paneldə (:8443).")]]);
    ("vsNote", JStr "Dürüst hədd: bəzi sahələrdə rəqiblər açıq şəkildə daha yaxşıdır (qırmızı xanalar). ModSec + CRS ilk sorğunun ani bloklanmasında öndədir; CrowdSec paylanmış icma siqnal şəbəkəsində və idarə olunan SaaS konsolunda güclüdür. Bunun müqabilində eyni korpus və eyni 121 CRS pattern üzərində WAF/CRS ötürmə qabiliyyətimiz 280.373 EPS — ModSec-in 16.560 EPS-indən 16,93× yüksəkdir (bench-vs-modsec.json).");
    ("vsLegend", JStr "Qırmızı = həmin sətirdə qalib");
    ("honestItems", JArr [
      JStr "Reaktiv memarlıq — log sətri düşənə qədər ilk sorğu keçə bilər; ModSec-in inline sürətində deyilik.";
      JStr "L3/L4 DDoS-u udmuruq — CDN arxasında dayanırıq.";
      JStr "Paylanmış botnet — IP başına ban; CrowdSec siqnal şəbəkəsi yoxdur.";
      JStr "Edir: log → CRS/WAF → ~20 ms kernel ban, sübut PDF-i, Telegram idarəetmə, MIT self-hosted."]);
    ("layersBodies", JArr [
      JStr "log → WAF → ipset ban (~15 dəq)";
      JStr "eBPF demonu, panel, metriklər, filo";
      JStr "K8s/Helm (kind) + fleet + Wasm/mesh"]);
    ("layersNote", JStr "XDR, Wasm marketi və LLM Copilot uzunmüddətli opsional qatlardır — Core tək başına istehsala hazırdır.");
    ("setupIntro", JStr "Mənbə: GitHub — Linux-Log-Guardian. İki yol: hazır .deb paketi (tövsiyə olunur) və ya mənbədən qurma. eBPF/XDP olmadan noutbuk/VM-lərdə də işləyir (ipset əsaslı ban). Aşağıdakı addımlar istehsal serveri üçündür; hər əmrin gözlənilən çıxışı daxildir.");
    ("setupTip", JStr "Məsləhət: JWT və panel parolu üçün bash scripts/laptop_jwt_setup.sh istifadə edin. 3 dəqiqəlik demo: SKIP_WEBHOOK=1 bash scripts/demo_3min.sh. Sənədlər: docs/QUICKSTART_NGINX.md · docs/LAPTOP_OPS.md · docs/SECURITY_PROFILES.md.");
    ("contactBody", JStr "Suallar, əməkdaşlıq və ya töhfə üçün yazın. Açıq mənbə ruhunda baq hesabatları və pull request-lər xoş qarşılanır.");
    ("footerDesc", JStr "nginx giriş logu → WAF/CRS → kernel ban. Tək zəncir, self-hosted, MIT lisenziyalı. Türkiyədə hazırlanıb.");
    ("footerSoak", JStr "72 saat soak PASS · 0 xəta");
    ("proofBody", JStr "Slayd deyil, təkrar istehsal edilə bilən sübut. OWASP CRS pariteti, yanlış pozitiv qapıları, ban gecikməsi bençmarkları, korpus recall və 72 saatlıq soak — hamısı ölçülmüş, avtomatik və açıq test matrisində görünür.");
    ("vsCols", JArr [JStr "Metrik"; JStr "Log Guardian"; JStr "Fail2ban"; JStr "CrowdSec"; JStr "ModSec + CRS"]);
    ("vsGroupLabels", JArr [JStr "Güclü tərəflər (ölçülmüş)"; JStr "Dürüst sərhədlər"]);
    ("vsRows0", JArr [
      JArr [
        JStr "Log → WAF → kernel ban";
        JStr "Tək zəncir";
        JStr "Yalnız ban";
        JStr "Parça-parça";
        JStr "WAF ayrı"];
      JArr [
        JStr "WAF/CRS ötürmə qabiliyyəti (eyni korpus)";
        JStr "280.373 EPS (16,93×)";
        JStr "—";
        JStr "—";
        JStr "16.560 EPS"];
      JArr [JStr "OWASP CRS pariteti"; JStr "100% (121 qayda)"; JStr "—"; JStr "—"; JStr "Referans (100%)"];
      JArr [JStr "Real hücum recall"; JStr "100% (1K+10K)"; JStr "—"; JStr "—"; JStr "100%"];
      JArr [JStr "Paylanmış / JA3 klaster ban"; JStr "100% (80 IP)"; JStr "—"; JStr "Siqnal əsaslı"; JStr "—"];
      JArr [JStr "nginx inline consult"; JStr "PASS"; JStr "—"; JStr "—"; JStr "Ayrı modul"];
      JArr [JStr "L7 tətbiq qoruması"; JStr "WAF + consult + eBPF"; JStr "—"; JStr "—"; JStr "CRS inline"];
      JArr [JStr "Kernel / eBPF (XDP) ban"; JStr "ipset + XDP"; JStr "iptables"; JStr "iptables/nft"; JStr "—"];
      JArr [JStr "Yanlış pozitiv"; JStr "0,2% (ölçülmüş)"; JStr "Yüksək"; JStr "Orta"; JStr "CRS-dən asılı"];
      JArr [JStr "Ban gecikməsi"; JStr "~20 ms"; JStr "san–dəq"; JStr "san"; JStr "Ayrı inteqrasiya"];
      JArr [JStr "Qısa sabitlik (5 dəq)"; JStr "PASS (0 uğursuzluq)"; JStr "—"; JStr "—"; JStr "—"];
      JArr [JStr "72s soak"; JStr "PASS (864/0)"; JStr "—"; JStr "—"; JStr "—"];
      JArr [
        JStr "Sübut paketi PDF+JSON";
        JStr "Avtomatik (14 fayl)";
        JStr "Yoxdur";
        JStr "Qismən";
        JStr "Modul-modul"];
      JArr [JStr "Avtomat test matrisi"; JStr "80 test"; JStr "—"; JStr "Qismən"; JStr "—"];
      JArr [JStr "SOC vaxt xətti / dashboard"; JStr "Bəli (:8443)"; JStr "—"; JStr "Konsol"; JStr "—"];
      JArr [JStr "Telegram əməliyyat + ack"; JStr "Bəli (bir klik)"; JStr "—"; JStr "Qismən"; JStr "—"];
      JArr [JStr "Quraşdırma vaxtı"; JStr "~15 dəq"; JStr "dəqiqə"; JStr "dəqiqə"; JStr "saat (tənzimləmə)"]]);
    ("vsRows1", JArr [
      JArr [
        JStr "İlk sorğunu dərhal blokla";
        JStr "Reaktiv (log sətri)";
        JStr "Reaktiv";
        JStr "Qismən";
        JStr "Inline (dərhal)"];
      JArr [
        JStr "Volumetrik L3/L4 scrub";
        JStr "Yoxdur — CDN tövsiyə";
        JStr "Yoxdur";
        JStr "Yoxdur";
        JStr "Yoxdur"];
      JArr [JStr "İcma siqnal şəbəkəsi"; JStr "Öz-hostinq"; JStr "—"; JStr "Bəli (qlobal)"; JStr "—"];
      JArr [JStr "Edge / Cloud WAF"; JStr "Origin təbəqə"; JStr "—"; JStr "Bouncer"; JStr "Proksi rejimi"];
      JArr [
        JStr "İdarə olunan bulud / SaaS";
        JStr "Yoxdur (öz-hostinq)";
        JStr "Yoxdur";
        JStr "Bəli (konsol)";
        JStr "—"]]);
    ("requirements", JArr [
      JStr "Ubuntu 22.04 / 24.04 və ya Debian 12 (amd64)";
      JStr "nginx + yazıla bilən access log (log_guardian formatı)";
      JStr "Root və ya sudo (systemd, ipset, /etc/log-guardian)";
      JStr "~200 MB disk, 128 MB RAM (Core); Pro üçün Docker";
      JStr "Opsional Pro: eBPF/XDP üçün 5.10+ kernel, Docker (dashboard/metrikalar)"]);
    ("setup", JObj [
      ("pathTitles", JArr [JStr "Təzə server — .deb paketi"; JStr "Mənbə kod — qurma və quraşdırma"]);
      ("pathBadges", JArr [JStr "tövsiyə olunan"; JStr "developer"]);
      ("pathNotes", JArr [
        JStr "Qurma tələb olunmur. Paket binar faylı, systemd unitləri, qaydaları və skriptləri gətirir. Yeniləməyə təhlükəsiz: mövcud /etc/log-guardian/rules.conf saxlanılır. GitHub Releases-dən (log-guardian_*_amd64.deb) və ya bash scripts/build_deb.sh → dist/ ilə qurun.";
        JStr "GitHub repo-nu klonlayın və qurun. İnkişaf, fərdiləşdirmə və tam mənbə baxışı üçün ideal. install.sh systemd unitlərini, qaydaları və nginx log formatını qurur."]);
      ("pathSteps", JArr [
        JArr [
          JObj [
            ("t", JStr "Asılılıqlar");
            ("d", JStr "İlk quraşdırmada Debian paket asılılıqlarını əlavə edin. nginx yoxdursa, eyni əmrdə əlavə edilə bilər.")];
          JObj [
            ("t", JStr "Paketi quraşdır");
            ("d", JStr "dpkg -i asılılıq xətası bildirsə, apt-get install -f işə salın. postinst addımı log-guardian istifadəçisini, icazələri, systemd unitlərini və default rules.conf-u avtomatik yaradır.")];
          JObj [
            ("t", JStr "İlk işə salma və API təhlükəsizliyi");
            ("d", JStr "nginx log formatını, FP trust-u və API təhlükəsizliyini (token, fail-closed) bir dəfəyə hazırlayır. Skriptlər paketin içindədir (/usr/local/share/log-guardian/scripts/).")]];
        JArr [
          JObj [
            ("t", JStr "Mənbə və qurma");
            ("d", JStr "Repo-nu klonlayın, bütün nüvələrlə qurun və əsas quraşdırma skriptini işə salın.")];
          JObj [
            ("t", JStr "İlk işə salma və token sinxronu");
            ("d", JStr "Xidmətləri qaldırır və API token sinxronunu və dashboard bağlantısını hazırlayır.")]]]);
      ("commonTitle", JStr "Ümumi addımlar (A və ya B-dən sonra)");
      ("commonSteps", JArr [
        JObj [
          ("t", JStr "Nginx log formatı");
          ("d", JStr "WAF-ın sorğu gövdəsini və X-Forwarded-For-u oxuması üçün log_guardian log formatı lazımdır. Setup adətən onu avtomatik tətbiq edir; STRICT rejimdə yoxlayın.")];
        JObj [
          ("t", JStr "Sağlamlıq və status yoxlaması");
          ("d", JStr "Daemon IPC-ni, xidmət statusunu və BPF xüsusiyyətlərini yoxlayın. Yaşıl qapı: post_install_verify sonunda FAIL: 0 görməlisiniz.")];
        JObj [
          ("t", JStr "Metrikalar və ilk ban testi");
          ("d", JStr "Prometheus metrikalarını yoxlayın; trafikdən sonra sayğacların qalxdığını izləyin. Hücum sətri yeridib ban-ı ipset-də yoxlaya bilərsiniz.")];
        JObj [
          ("t", JStr "VirtualBox / XDP-siz (laptop və VM)");
          ("d", JStr "eBPF/XDP olmayan mühitlərdə ipset əsaslı ban ilə --no-xdp kifayətdir. Xidmət asılılığı uğursuz olarsa, təmir skripti bir əmrdir.")]]);
      ("dashboardTitle", JStr "Pro dashboard — quraşdırmadan sonra (opsional)");
      ("dashboardBadge", JStr "Pro · opsional");
      ("dashboardNote", JStr "Dashboard bu landing saytında deyil, öz maşınınızda işləyir. Prod stack Caddy + Docker vasitəsilə https://localhost:8443 ünvanında xidmət edilir.");
      ("dashboardSteps", JArr [
        JObj [
          ("t", JStr "Prod stack-i başlat");
          ("d", JStr "Öz serverinizdə dashboard-u qurur və qaldırır. Giriş: admin / .env-dəki DASHBOARD_ADMIN_PASSWORD.")];
        JObj [
          ("t", JStr "Uzaq VPS üçün SSH tunel");
          ("d", JStr "Dashboard-u internetə açmadan təhlükəsiz görmək üçün SSH tunel qurun; əvvəlcə serveri sərtləşdirin.")]])])].
Definition body_kk : json := JObj [
    ("pipelineNote", JStr "XDR, Wasm маркеті және LLM Copilot — ұзақ мерзімді қосымша қабаттар; Core өздігінен өнімге дайын.");
    ("selectedBodies", JArr [
      JStr "Бір тізбек: nginx логы → OWASP CRS → ~20 мс kernel ban. ~15 минутта өнімде.";
      JStr "Флот, SOC уақыт сызығы, панельдер — орнатудан кейін өз серверіңіздегі қосымша қабат.";
      JStr "75 автоматты тест, салыстыру PDF, 72 сағат soak — dashboard /tests-пен бірдей матрица.";
      JStr "Tenant белгісі бар Prometheus метрикалары, панельдер және ескерту ережелері — self-hosted бақылау.";
      JStr "Көпторапты флот: агент синхрондау, etcd mesh саясаты және бағытталған команда жіберу — бір панельден.";
      JStr "TAXII/STIX қауіп таспасы + Telegram SOC: ескерту, ban және бір рет басып 'ack' — тікелей оператор ағыны.";
      JStr "XDP сүзгісі + execve/lineage uprobe — ядро деңгейінде пакет тастау және syscall трассировкасы. Ноутбуктерде --no-xdp пен ipset жеткілікті.";
      JStr "Таратылған сканерлерді анықтау: бірдей JA3 таңбасы + басқа IP кластері, 100% recall — 80 IP тікелей тест.";
      JStr "Шабуыл ағашы, шығу тегі зонды, syscall uprobe — ұзақ мерзімді қосымша қабат; шабуыл тізбегі мен жасырын арналарды анықтау.";
      JStr "Wasm runtime арқылы арнайы ереже плагиндері — маркет моделі, Core-ды өзгертпей кеңейту.";
      JStr "JSON event_type ағыны — Splunk/Elastic/Vector-ге SIEM экспорты дәлелі (siem-export-report.json).";
      JStr "Tarpit сервер + тұзақ бақылаушы — шабуылдаушыны баяулату және honeypot сигналы; алдау қабаты."]);
    ("advLead", JStr "Fail2ban тек бан салады, ModSecurity WAF бөлек модуль, CrowdSec бөлшек стек қажет етеді. Log Guardian осы үш жұмысты бір тізбекте біріктіреді — өлшенген дәлелмен.");
    ("advantages", JArr [
      JObj [
        ("k", JStr "Бір орнату, бір тізбек");
        ("v", JStr "Fail2ban + ModSecurity + CrowdSec-ті бөлек орнатып, біріктірмейсіз. nginx логы → WAF/CRS → kernel ban бір өнімде, ~15 мин орнату.")];
      JObj [
        ("k", JStr "~20 мс kernel ban");
        ("v", JStr "Лог жолынан ipset/XDP банға медиана ~20 мс. Fail2ban/CrowdSec секунд–минут деңгейінде қалады; 21 өлшенген үлгімен дәлелденген.")];
      JObj [
        ("k", JStr "280 373 EPS · 16,93× ModSec");
        ("v", JStr "Сол корпуста және сол 121 OWASP CRS үлгісінде (PCRE2 JIT) WAF/CRS өткізу қабілеті — 280 373 EPS, ModSec-тің 16 560 EPS-інен 16,93× жылдам. Өлшенген әрі қайта жаңғыртылатын (bench-vs-modsec.json).")];
      JObj [
        ("k", JStr "100% recall + 100% CRS паритеті");
        ("v", JStr "121 OWASP CRS ережесі, 1500 жолдық корпуста нақты шабуыл recall 100% және ModSec-пен толық паритет — 0.2% жалған позитивте.")];
      JObj [
        ("k", JStr "Таратылған шабуылды қамту");
        ("v", JStr "JA3 кластерін анықтау + IP бойынша бан — 80 IP тікелей тесте 100%. Fail2ban жалғыз IP-лік; CrowdSec бөлек сигнал желісін қажет етеді.")];
      JObj [
        ("k", JStr "Ашық, қайта жаңғыртылатын дәлел");
        ("v", JStr "75 автоматты тест + 14 файлдық дәлел пакеті + 72 сағат soak (864 үлгі, 0 қате). Бәсекелестерде автоматты дәлел жоқ немесе бөлшектелген.")];
      JObj [
        ("k", JStr "Self-hosted · MIT · Түркияда жасалған");
        ("v", JStr "Деректеріңіз сізде қалады, вендорға тәуелділік жоқ, толық ашық код. SOC уақыт сызығы, Prometheus метрикалары және Telegram басқаруы бір панельде (:8443).")]]);
    ("vsNote", JStr "Адал шек: кейбір салаларда бәсекелестер анық жақсырақ (қызыл ұяшықтар). ModSec + CRS бірінші сұранысты лезде бұғаттауда алда; CrowdSec таратылған қауымдастық сигнал желісінде және басқарылатын SaaS консолінде мықты. Оның есесіне сол корпуста және сол 121 CRS үлгісінде WAF/CRS өткізу қабілетіміз — 280 373 EPS, ModSec-тің 16 560 EPS-інен 16,93× жоғары (bench-vs-modsec.json).");
    ("vsLegend", JStr "Қызыл = сол жолдағы жеңімпаз");
    ("honestItems", JArr [
      JStr "Реактивті архитектура — лог жолы түскенше бірінші сұраныс өтуі мүмкін; біз ModSec-тің inline жылдамдығында емеспіз.";
      JStr "L3/L4 DDoS-ты сіңірмейміз — CDN артында тұрамыз.";
      JStr "Таратылған ботнет — IP бойынша бан; CrowdSec сигнал желісі жоқ.";
      JStr "Істейді: лог → CRS/WAF → ~20 мс kernel ban, дәлел PDF, Telegram басқару, MIT self-hosted."]);
    ("layersBodies", JArr [
      JStr "лог → WAF → ipset бан (~15 мин)";
      JStr "eBPF демоны, панель, метрикалар, флот";
      JStr "K8s/Helm (kind) + fleet + Wasm/mesh"]);
    ("layersNote", JStr "XDR, Wasm маркеті және LLM Copilot — ұзақ мерзімді қосымша қабаттар; Core өздігінен өнімге дайын.");
    ("setupIntro", JStr "Дереккөз: GitHub — Linux-Log-Guardian. Екі жол: дайын .deb пакеті (ұсынылады) немесе бастапқы кодтан құрастыру. Ноутбук/ВМ-де eBPF/XDP-сіз де жұмыс істейді (ipset негізді бан). Төмендегі қадамдар өнім сервері үшін; әр команданың күтілетін шығысы қоса берілген.");
    ("setupTip", JStr "Кеңес: JWT және панель құпиясөзі үшін bash scripts/laptop_jwt_setup.sh қолданыңыз. 3 минуттық демо: SKIP_WEBHOOK=1 bash scripts/demo_3min.sh. Құжаттар: docs/QUICKSTART_NGINX.md · docs/LAPTOP_OPS.md · docs/SECURITY_PROFILES.md.");
    ("contactBody", JStr "Сұрақтар, ынтымақтастық немесе үлес қосу үшін жазыңыз. Ашық код рухында қате туралы есептер мен pull request-тер қарсы алынады.");
    ("footerDesc", JStr "nginx кіру логы → WAF/CRS → kernel ban. Бір тізбек, self-hosted, MIT лицензиясы. Түркияда жасалған.");
    ("footerSoak", JStr "72 сағат soak PASS · 0 қате");
    ("proofBody", JStr "Слайд емес, қайта жаңғыртылатын дәлел. OWASP CRS паритеті, жалған позитив қақпалары, бан кідірісі бенчмарктары, корпус recall және 72 сағаттық soak — бәрі өлшенген, автоматтандырылған және ашық тест матрицасында көрінеді.");
    ("vsCols", JArr [JStr "Метрика"; JStr "Log Guardian"; JStr "Fail2ban"; JStr "CrowdSec"; JStr "ModSec + CRS"]);
    ("vsGroupLabels", JArr [JStr "Күшті жақтары (өлшенген)"; JStr "Адал шектеулер"]);
    ("vsRows0", JArr [
      JArr [JStr "Лог → WAF → ядро бан"; JStr "Бір тізбек"; JStr "Тек бан"; JStr "Бөлшектеп"; JStr "WAF бөлек"];
      JArr [
        JStr "WAF/CRS өткізу қабілеті (сол корпус)";
        JStr "280 373 EPS (16,93×)";
        JStr "—";
        JStr "—";
        JStr "16 560 EPS"];
      JArr [JStr "OWASP CRS паритеті"; JStr "100% (121 ереже)"; JStr "—"; JStr "—"; JStr "Эталон (100%)"];
      JArr [JStr "Нақты шабуыл recall"; JStr "100% (1K+10K)"; JStr "—"; JStr "—"; JStr "100%"];
      JArr [JStr "Таратылған / JA3 кластер бан"; JStr "100% (80 IP)"; JStr "—"; JStr "Сигнал негізді"; JStr "—"];
      JArr [JStr "nginx inline consult"; JStr "PASS"; JStr "—"; JStr "—"; JStr "Бөлек модуль"];
      JArr [JStr "L7 қолданба қорғауы"; JStr "WAF + consult + eBPF"; JStr "—"; JStr "—"; JStr "CRS inline"];
      JArr [JStr "Ядро / eBPF (XDP) бан"; JStr "ipset + XDP"; JStr "iptables"; JStr "iptables/nft"; JStr "—"];
      JArr [JStr "Жалған позитив"; JStr "0,2% (өлшенген)"; JStr "Жоғары"; JStr "Орташа"; JStr "CRS-ке тәуелді"];
      JArr [JStr "Бан кідірісі"; JStr "~20 мс"; JStr "сек–мин"; JStr "сек"; JStr "Бөлек интеграция"];
      JArr [JStr "Қысқа тұрақтылық (5 мин)"; JStr "PASS (0 сәтсіздік)"; JStr "—"; JStr "—"; JStr "—"];
      JArr [JStr "72с soak"; JStr "PASS (864/0)"; JStr "—"; JStr "—"; JStr "—"];
      JArr [
        JStr "Дәлел пакеті PDF+JSON";
        JStr "Автоматты (14 файл)";
        JStr "Жоқ";
        JStr "Ішінара";
        JStr "Модуль-модуль"];
      JArr [JStr "Автомат тест матрицасы"; JStr "75 тест"; JStr "—"; JStr "Ішінара"; JStr "—"];
      JArr [JStr "SOC уақыт сызығы / дашборд"; JStr "Иә (:8443)"; JStr "—"; JStr "Консоль"; JStr "—"];
      JArr [JStr "Telegram операция + ack"; JStr "Иә (бір басу)"; JStr "—"; JStr "Ішінара"; JStr "—"];
      JArr [JStr "Орнату уақыты"; JStr "~15 мин"; JStr "минут"; JStr "минут"; JStr "сағат (баптау)"]]);
    ("vsRows1", JArr [
      JArr [
        JStr "Бірінші сұрауды бірден бөгеу";
        JStr "Реактивті (лог жолы)";
        JStr "Реактивті";
        JStr "Ішінара";
        JStr "Inline (лезде)"];
      JArr [JStr "Көлемдік L3/L4 тазалау"; JStr "Жоқ — CDN ұсынылады"; JStr "Жоқ"; JStr "Жоқ"; JStr "Жоқ"];
      JArr [JStr "Қауымдастық сигнал желісі"; JStr "Өзін-өзі хостинг"; JStr "—"; JStr "Иә (жаһандық)"; JStr "—"];
      JArr [JStr "Edge / Cloud WAF"; JStr "Origin қабаты"; JStr "—"; JStr "Bouncer"; JStr "Прокси режимі"];
      JArr [
        JStr "Басқарылатын бұлт / SaaS";
        JStr "Жоқ (өзін-өзі хостинг)";
        JStr "Жоқ";
        JStr "Иә (консоль)";
        JStr "—"]]);
    ("requirements", JArr [
      JStr "Ubuntu 22.04 / 24.04 немесе Debian 12 (amd64)";
      JStr "nginx + жазылатын access лог (log_guardian форматы)";
      JStr "Root немесе sudo (systemd, ipset, /etc/log-guardian)";
      JStr "~200 МБ диск, 128 МБ RAM (Core); Pro үшін Docker";
      JStr "Қосымша Pro: eBPF/XDP үшін 5.10+ ядро, Docker (дашборд/метрикалар)"]);
    ("setup", JObj [
      ("pathTitles", JArr [JStr "Жаңа сервер — .deb пакеті"; JStr "Бастапқы код — құрастыру және орнату"]);
      ("pathBadges", JArr [JStr "ұсынылады"; JStr "әзірлеуші"]);
      ("pathNotes", JArr [
        JStr "Құрастыру қажет емес. Пакет бинарды, systemd юниттерін, ережелер мен скрипттерді әкеледі. Жаңартуға қауіпсіз: бар /etc/log-guardian/rules.conf сақталады. GitHub Releases-тен (log-guardian_*_amd64.deb) немесе bash scripts/build_deb.sh → dist/ арқылы құрастырыңыз.";
        JStr "GitHub репозиторийін клондап, құрастырыңыз. Әзірлеу, теңшеу және толық код тексеруі үшін тамаша. install.sh systemd юниттерін, ережелерді және nginx лог форматын орнатады."]);
      ("pathSteps", JArr [
        JArr [
          JObj [
            ("t", JStr "Тәуелділіктер");
            ("d", JStr "Алғашқы орнатуда Debian пакет тәуелділіктерін қосыңыз. nginx жоқ болса, оны сол әмірде қосуға болады.")];
          JObj [
            ("t", JStr "Пакетті орнату");
            ("d", JStr "dpkg -i тәуелділік қатесін хабарласа, apt-get install -f орындаңыз. postinst қадамы log-guardian пайдаланушысын, рұқсаттарды, systemd юниттерін және әдепкі rules.conf-ты автоматты жасайды.")];
          JObj [
            ("t", JStr "Алғашқы іске қосу және API қауіпсіздігі");
            ("d", JStr "nginx лог форматын, FP trust-ты және API қауіпсіздігін (токен, fail-closed) бір мезетте дайындайды. Скрипттер пакет ішінде (/usr/local/share/log-guardian/scripts/).")]];
        JArr [
          JObj [
            ("t", JStr "Бастапқы код және құрастыру");
            ("d", JStr "Репозиторийді клондап, барлық ядролармен құрастырыңыз және негізгі орнату скриптін орындаңыз.")];
          JObj [
            ("t", JStr "Алғашқы іске қосу және токен синхроны");
            ("d", JStr "Қызметтерді көтереді және API токен синхронын мен дашборд байланысын дайындайды.")]]]);
      ("commonTitle", JStr "Ортақ қадамдар (A немесе B кейін)");
      ("commonSteps", JArr [
        JObj [
          ("t", JStr "Nginx лог форматы");
          ("d", JStr "WAF сұрау денесін және X-Forwarded-For-ды оқуы үшін log_guardian лог форматы қажет. Setup оны әдетте автоматты қолданады; STRICT режимде тексеріңіз.")];
        JObj [
          ("t", JStr "Денсаулық және күй тексеруі");
          ("d", JStr "Daemon IPC-ді, қызмет күйін және BPF мүмкіндіктерін тексеріңіз. Жасыл қақпа: post_install_verify соңында FAIL: 0 көруіңіз керек.")];
        JObj [
          ("t", JStr "Метрикалар және алғашқы бан тесті");
          ("d", JStr "Prometheus метрикаларын тексеріңіз; трафиктен кейін санауыштардың өсуін бақылаңыз. Шабуыл жолын енгізіп бан-ды ipset-те тексере аласыз.")];
        JObj [
          ("t", JStr "VirtualBox / XDP-сіз (ноутбук және VM)");
          ("d", JStr "eBPF/XDP жоқ орталарда ipset негізді бан мен --no-xdp жеткілікті. Қызмет тәуелділігі сәтсіз болса, жөндеу скрипті бір әмір.")]]);
      ("dashboardTitle", JStr "Pro дашборд — орнатудан кейін (қосымша)");
      ("dashboardBadge", JStr "Pro · қосымша");
      ("dashboardNote", JStr "Дашборд осы landing сайтта емес, өз машинаңызда жұмыс істейді. Prod стек Caddy + Docker арқылы https://localhost:8443 мекенжайында ұсынылады.");
      ("dashboardSteps", JArr [
        JObj [
          ("t", JStr "Prod стекті іске қосу");
          ("d", JStr "Өз серверіңізде дашбордты құрастырып көтереді. Кіру: admin / .env-тегі DASHBOARD_ADMIN_PASSWORD.")];
        JObj [
          ("t", JStr "Қашықтағы VPS үшін SSH туннель");
          ("d", JStr "Дашбордты интернетке ашпай қауіпсіз көру үшін SSH туннель орнатыңыз; алдымен серверді қатайтыңыз.")]])])].
Definition body_uz : json := JObj [
    ("pipelineNote", JStr "XDR, Wasm marketi va LLM Copilot — uzoq muddatli ixtiyoriy qatlamlar; Core o'zi ishlab chiqarishga tayyor.");
    ("selectedBodies", JArr [
      JStr "Yagona zanjir: nginx logi → OWASP CRS → ~20 ms kernel ban. ~15 daqiqada ishlab chiqarishda.";
      JStr "Flot, SOC vaqt chizig'i, panellar — o'rnatishdan keyin o'z serveringizdagi ixtiyoriy qatlam.";
      JStr "75 avtomatik test, taqqoslash PDF, 72 soat soak — dashboard /tests bilan bir xil matritsa.";
      JStr "Tenant yorlig'li Prometheus metrikalar, panellar va alert qoidalari — self-hosted kuzatuv.";
      JStr "Ko'p tugunli flot: agent sinxronizatsiyasi, etcd mesh siyosati va maqsadli buyruq yuborish — bitta paneldan.";
      JStr "TAXII/STIX tahdid tasmasi + Telegram SOC: alert, ban va bir bosishda 'ack' — jonli operator oqimi.";
      JStr "XDP filtri + execve/lineage uprobe'lar — yadro darajasida paket tashlash va syscall kuzatuvi. Noutbuklarda --no-xdp va ipset yetarli.";
      JStr "Taqsimlangan skanerlarni aniqlash: bir xil JA3 izi + boshqa IP klaster, 100% recall — 80 IP jonli test.";
      JStr "Hujum daraxti, kelib chiqish zondi, syscall uprobe — uzoq muddatli ixtiyoriy qatlam; hujum zanjiri va yashirin kanallarni aniqlash.";
      JStr "Wasm runtime orqali maxsus qoida plaginlari — market modeli, Core'ga tegmasdan kengaytirish.";
      JStr "JSON event_type oqimi — Splunk/Elastic/Vector'ga SIEM eksporti dalili (siem-export-report.json).";
      JStr "Tarpit server + tuzoq kuzatuvchi — hujumchini sekinlashtirish va honeypot signali; aldash qatlami."]);
    ("advLead", JStr "Fail2ban faqat ban qiladi, ModSecurity WAF alohida modul, CrowdSec bo'lak stek talab qiladi. Log Guardian bu uch ishni bitta zanjirda birlashtiradi — o'lchangan dalil bilan.");
    ("advantages", JArr [
      JObj [
        ("k", JStr "Bitta o'rnatish, bitta zanjir");
        ("v", JStr "Fail2ban + ModSecurity + CrowdSec'ni alohida o'rnatib, integratsiya qilmaysiz. nginx logi → WAF/CRS → kernel ban bitta mahsulotda, ~15 daq o'rnatish.")];
      JObj [
        ("k", JStr "~20 ms kernel ban");
        ("v", JStr "Log qatoridan ipset/XDP banga median ~20 ms. Fail2ban/CrowdSec soniya–daqiqa darajasida qoladi; 21 o'lchangan namuna bilan isbotlangan.")];
      JObj [
        ("k", JStr "280 373 EPS · 16,93× ModSec");
        ("v", JStr "Xuddi shu korpus va xuddi shu 121 OWASP CRS pattern (PCRE2 JIT) ustida WAF/CRS o'tkazuvchanligi 280 373 EPS — ModSec'ning 16 560 EPS'idan 16,93× tez. O'lchangan va qayta ishlab chiqariladigan (bench-vs-modsec.json).")];
      JObj [
        ("k", JStr "100% recall + 100% CRS pariteti");
        ("v", JStr "121 OWASP CRS qoidasi, 1500 qatorli korpusda haqiqiy hujum recall 100% va ModSec bilan to'liq paritet — 0.2% noto'g'ri pozitivda.")];
      JObj [
        ("k", JStr "Taqsimlangan hujum qamrovi");
        ("v", JStr "JA3 klaster aniqlash + IP bo'yicha ban — 80 IP jonli testda 100%. Fail2ban yagona IP'li; CrowdSec alohida signal tarmog'ini talab qiladi.")];
      JObj [
        ("k", JStr "Shaffof, qayta ishlab chiqariladigan dalil");
        ("v", JStr "75 avtomatik test + 14 fayllik dalil to'plami + 72 soat soak (864 namuna, 0 xato). Raqiblarda avtomatik dalil yo'q yoki bo'lak-bo'lak.")];
      JObj [
        ("k", JStr "Self-hosted · MIT · Turkiyada ishlab chiqilgan");
        ("v", JStr "Ma'lumotingiz sizda qoladi, vendor qaramligi yo'q, to'liq ochiq kod. SOC vaqt chizig'i, Prometheus metrikalari va Telegram boshqaruvi bitta panelda (:8443).")]]);
    ("vsNote", JStr "Halol chegara: ba'zi sohalarda raqiblar aniq yaxshiroq (qizil kataklar). ModSec + CRS birinchi so'rovni bir zumda bloklashda oldinda; CrowdSec taqsimlangan hamjamiyat signal tarmog'ida va boshqariladigan SaaS konsolida kuchli. Buning evaziga xuddi shu korpus va xuddi shu 121 CRS pattern ustida WAF/CRS o'tkazuvchanligimiz 280 373 EPS — ModSec'ning 16 560 EPS'idan 16,93× yuqori (bench-vs-modsec.json).");
    ("vsLegend", JStr "Qizil = shu qatordagi g'olib");
    ("honestItems", JArr [
      JStr "Reaktiv arxitektura — log qatori tushguncha birinchi so'rov o'tishi mumkin; biz ModSec'ning inline tezligida emasmiz.";
      JStr "L3/L4 DDoS'ni yutmaymiz — CDN orqasida turamiz.";
      JStr "Taqsimlangan botnet — IP bo'yicha ban; CrowdSec signal tarmog'i yo'q.";
      JStr "Qiladi: log → CRS/WAF → ~20 ms kernel ban, dalil PDF, Telegram boshqaruvi, MIT self-hosted."]);
    ("layersBodies", JArr [
      JStr "log → WAF → ipset ban (~15 daq)";
      JStr "eBPF demoni, panel, metrikalar, flot";
      JStr "K8s/Helm (kind) + fleet + Wasm/mesh"]);
    ("layersNote", JStr "XDR, Wasm marketi va LLM Copilot — uzoq muddatli ixtiyoriy qatlamlar; Core o'zi ishlab chiqarishga tayyor.");
    ("setupIntro", JStr "Manba: GitHub — Linux-Log-Guardian. Ikki yo'l: tayyor .deb paket (tavsiya etiladi) yoki manbadan qurish. Noutbuk/VM'larda eBPF/XDP'siz ham ishlaydi (ipset asosidagi ban). Quyidagi qadamlar ishlab chiqarish serveri uchun; har bir buyruqning kutilgan chiqishi kiritilgan.");
    ("setupTip", JStr "Maslahat: JWT va panel paroli uchun bash scripts/laptop_jwt_setup.sh'dan foydalaning. 3 daqiqalik demo: SKIP_WEBHOOK=1 bash scripts/demo_3min.sh. Hujjatlar: docs/QUICKSTART_NGINX.md · docs/LAPTOP_OPS.md · docs/SECURITY_PROFILES.md.");
    ("contactBody", JStr "Savollar, hamkorlik yoki hissa uchun yozing. Ochiq kod ruhida xato hisobotlari va pull request'lar xush kelibsiz.");
    ("footerDesc", JStr "nginx kirish logi → WAF/CRS → kernel ban. Yagona zanjir, self-hosted, MIT litsenziyali. Turkiyada ishlab chiqilgan.");
    ("footerSoak", JStr "72 soat soak PASS · 0 xato");
    ("proofBody", JStr "Slayd emas, qayta ishlab chiqariladigan dalil. OWASP CRS pariteti, noto'g'ri pozitiv darvozalari, ban kechikishi benchmarklari, korpus recall va 72 soatlik soak — hammasi o'lchangan, avtomatlashtirilgan va ochiq test matritsasida ko'rinadi.");
    ("vsCols", JArr [JStr "Metrika"; JStr "Log Guardian"; JStr "Fail2ban"; JStr "CrowdSec"; JStr "ModSec + CRS"]);
    ("vsGroupLabels", JArr [JStr "Kuchli tomonlar (o'lchangan)"; JStr "Halol chegaralar"]);
    ("vsRows0", JArr [
      JArr [
        JStr "Log → WAF → yadro ban";
        JStr "Yagona zanjir";
        JStr "Faqat ban";
        JStr "Bo'lak-bo'lak";
        JStr "WAF alohida"];
      JArr [
        JStr "WAF/CRS o'tkazuvchanligi (xuddi shu korpus)";
        JStr "280 373 EPS (16,93×)";
        JStr "—";
        JStr "—";
        JStr "16 560 EPS"];
      JArr [JStr "OWASP CRS pariteti"; JStr "100% (121 qoida)"; JStr "—"; JStr "—"; JStr "Etalon (100%)"];
      JArr [JStr "Haqiqiy hujum recall"; JStr "100% (1K+10K)"; JStr "—"; JStr "—"; JStr "100%"];
      JArr [JStr "Taqsimlangan / JA3 klaster ban"; JStr "100% (80 IP)"; JStr "—"; JStr "Signal asosli"; JStr "—"];
      JArr [JStr "nginx inline consult"; JStr "PASS"; JStr "—"; JStr "—"; JStr "Alohida modul"];
      JArr [JStr "L7 ilova himoyasi"; JStr "WAF + consult + eBPF"; JStr "—"; JStr "—"; JStr "CRS inline"];
      JArr [JStr "Yadro / eBPF (XDP) ban"; JStr "ipset + XDP"; JStr "iptables"; JStr "iptables/nft"; JStr "—"];
      JArr [JStr "Noto'g'ri pozitiv"; JStr "0,2% (o'lchangan)"; JStr "Yuqori"; JStr "O'rta"; JStr "CRS-ga bog'liq"];
      JArr [JStr "Ban kechikishi"; JStr "~20 ms"; JStr "son–daq"; JStr "son"; JStr "Alohida integratsiya"];
      JArr [JStr "Qisqa barqarorlik (5 daq)"; JStr "PASS (0 nosozlik)"; JStr "—"; JStr "—"; JStr "—"];
      JArr [JStr "72s soak"; JStr "PASS (864/0)"; JStr "—"; JStr "—"; JStr "—"];
      JArr [
        JStr "Dalil paketi PDF+JSON";
        JStr "Avtomatik (14 fayl)";
        JStr "Yo'q";
        JStr "Qisman";
        JStr "Modul-modul"];
      JArr [JStr "Avtomat test matritsasi"; JStr "80 test"; JStr "—"; JStr "Qisman"; JStr "—"];
      JArr [JStr "SOC vaqt chizig'i / dashboard"; JStr "Ha (:8443)"; JStr "—"; JStr "Konsol"; JStr "—"];
      JArr [JStr "Telegram operatsiya + ack"; JStr "Ha (bir bosish)"; JStr "—"; JStr "Qisman"; JStr "—"];
      JArr [JStr "O'rnatish vaqti"; JStr "~15 daq"; JStr "daqiqa"; JStr "daqiqa"; JStr "soat (sozlash)"]]);
    ("vsRows1", JArr [
      JArr [
        JStr "Birinchi so'rovni darhol bloklash";
        JStr "Reaktiv (log qatori)";
        JStr "Reaktiv";
        JStr "Qisman";
        JStr "Inline (darhol)"];
      JArr [JStr "Hajmli L3/L4 tozalash"; JStr "Yo'q — CDN tavsiya"; JStr "Yo'q"; JStr "Yo'q"; JStr "Yo'q"];
      JArr [JStr "Jamoa signal tarmog'i"; JStr "O'zini xosting"; JStr "—"; JStr "Ha (global)"; JStr "—"];
      JArr [JStr "Edge / Cloud WAF"; JStr "Origin qatlami"; JStr "—"; JStr "Bouncer"; JStr "Proksi rejimi"];
      JArr [
        JStr "Boshqariladigan bulut / SaaS";
        JStr "Yo'q (o'zini xosting)";
        JStr "Yo'q";
        JStr "Ha (konsol)";
        JStr "—"]]);
    ("requirements", JArr [
      JStr "Ubuntu 22.04 / 24.04 yoki Debian 12 (amd64)";
      JStr "nginx + yoziladigan access log (log_guardian formati)";
      JStr "Root yoki sudo (systemd, ipset, /etc/log-guardian)";
      JStr "~200 MB disk, 128 MB RAM (Core); Pro uchun Docker";
      JStr "Ixtiyoriy Pro: eBPF/XDP uchun 5.10+ yadro, Docker (dashboard/metrikalar)"]);
    ("setup", JObj [
      ("pathTitles", JArr [JStr "Yangi server — .deb paketi"; JStr "Manba kod — qurish va o'rnatish"]);
      ("pathBadges", JArr [JStr "tavsiya etiladi"; JStr "dasturchi"]);
      ("pathNotes", JArr [
        JStr "Qurish shart emas. Paket binar faylni, systemd unitlarini, qoidalar va skriptlarni keltiradi. Yangilashga xavfsiz: mavjud /etc/log-guardian/rules.conf saqlanadi. GitHub Releases-dan (log-guardian_*_amd64.deb) yoki bash scripts/build_deb.sh → dist/ orqali quring.";
        JStr "GitHub repozitoriyini klonlang va quring. Ishlab chiqish, sozlash va to'liq manba ko'rigi uchun ideal. install.sh systemd unitlarini, qoidalarni va nginx log formatini o'rnatadi."]);
      ("pathSteps", JArr [
        JArr [
          JObj [
            ("t", JStr "Bog'liqliklar");
            ("d", JStr "Birinchi o'rnatishda Debian paket bog'liqliklarini qo'shing. nginx yo'q bo'lsa, uni o'sha buyruqda qo'shish mumkin.")];
          JObj [
            ("t", JStr "Paketni o'rnatish");
            ("d", JStr "dpkg -i bog'liqlik xatosi bersa, apt-get install -f ni ishga tushiring. postinst bosqichi log-guardian foydalanuvchisini, ruxsatlarni, systemd unitlarini va standart rules.conf ni avtomatik yaratadi.")];
          JObj [
            ("t", JStr "Birinchi ishga tushirish va API xavfsizligi");
            ("d", JStr "nginx log formatini, FP trust-ni va API xavfsizligini (token, fail-closed) bir yo'la tayyorlaydi. Skriptlar paket ichida (/usr/local/share/log-guardian/scripts/).")]];
        JArr [
          JObj [
            ("t", JStr "Manba va qurish");
            ("d", JStr "Repozitoriyni klonlang, barcha yadrolar bilan quring va asosiy o'rnatish skriptini ishga tushiring.")];
          JObj [
            ("t", JStr "Birinchi ishga tushirish va token sinxroni");
            ("d", JStr "Xizmatlarni ko'taradi va API token sinxroni hamda dashboard ulanishini tayyorlaydi.")]]]);
      ("commonTitle", JStr "Umumiy bosqichlar (A yoki B dan keyin)");
      ("commonSteps", JArr [
        JObj [
          ("t", JStr "Nginx log formati");
          ("d", JStr "WAF so'rov tanasini va X-Forwarded-For-ni o'qishi uchun log_guardian log formati kerak. Setup uni odatda avtomatik qo'llaydi; STRICT rejimda tekshiring.")];
        JObj [
          ("t", JStr "Sog'liq va holat tekshiruvi");
          ("d", JStr "Daemon IPC-ni, xizmat holatini va BPF xususiyatlarini tekshiring. Yashil darvoza: post_install_verify oxirida FAIL: 0 ko'rishingiz kerak.")];
        JObj [
          ("t", JStr "Metrikalar va birinchi ban testi");
          ("d", JStr "Prometheus metrikalarini tekshiring; trafikdan keyin hisoblagichlar ko'tarilishini kuzating. Hujum qatorini kiritib ban-ni ipset-da tekshirishingiz mumkin.")];
        JObj [
          ("t", JStr "VirtualBox / XDP-siz (noutbuk va VM)");
          ("d", JStr "eBPF/XDP yo'q muhitlarda ipset asosli ban bilan --no-xdp yetarli. Xizmat bog'liqligi muvaffaqiyatsiz bo'lsa, ta'mirlash skripti bitta buyruq.")]]);
      ("dashboardTitle", JStr "Pro dashboard — o'rnatishdan keyin (ixtiyoriy)");
      ("dashboardBadge", JStr "Pro · ixtiyoriy");
      ("dashboardNote", JStr "Dashboard ushbu landing saytida emas, o'z mashinangizda ishlaydi. Prod stack Caddy + Docker orqali https://localhost:8443 manzilida xizmat qiladi.");
      ("dashboardSteps", JArr [
        JObj [
          ("t", JStr "Prod stack-ni ishga tushirish");
          ("d", JStr "O'z serveringizda dashboard-ni quradi va ko'taradi. Kirish: admin / .env-dagi DASHBOARD_ADMIN_PASSWORD.")];
        JObj [
          ("t", JStr "Uzoq VPS uchun SSH tunnel");
          ("d", JStr "Dashboard-ni internetga ochmasdan xavfsiz ko'rish uchun SSH tunnel o'rnating; avval serverni mustahkamlang.")]])])].
Definition body_ky : json := JObj [
    ("pipelineNote", JStr "XDR, Wasm маркети жана LLM Copilot — узак мөөнөттүү кошумча катмарлар; Core өзү өндүрүшкө даяр.");
    ("selectedBodies", JArr [
      JStr "Бирдиктүү чынжыр: nginx логу → OWASP CRS → ~20 мс kernel ban. ~15 мүнөттө өндүрүштө.";
      JStr "Флот, SOC убакыт сызыгы, панелдер — орнотуудан кийин өз серверыңыздагы кошумча катмар.";
      JStr "75 автоматтык тест, салыштыруу PDF, 72 саат soak — dashboard /tests менен бирдей матрица.";
      JStr "Tenant белгиси бар Prometheus метрикалары, панелдер жана эскертүү эрежелери — self-hosted байкоо.";
      JStr "Көп түйүндүү флот: агент синхрондоо, etcd mesh саясаты жана багытталган команда жөнөтүү — бир панелден.";
      JStr "TAXII/STIX коркунуч тасмасы + Telegram SOC: эскертүү, ban жана бир басып 'ack' — түз оператор агымы.";
      JStr "XDP чыпкасы + execve/lineage uprobe'дор — ядро деңгээлинде пакет таштоо жана syscall трассировкасы. Ноутбуктарда --no-xdp менен ipset жетиштүү.";
      JStr "Бөлүштүрүлгөн сканерлерди аныктоо: бирдей JA3 изи + башка IP кластери, 100% recall — 80 IP түз тест.";
      JStr "Чабуул дарагы, келип чыгуу зонду, syscall uprobe — узак мөөнөттүү кошумча катмар; чабуул чынжырын жана жашыруун каналдарды аныктоо.";
      JStr "Wasm runtime аркылуу атайын эреже плагиндери — маркет модели, Core'го тийбей кеңейтүү.";
      JStr "JSON event_type агымы — Splunk/Elastic/Vector'го SIEM экспорту далили (siem-export-report.json).";
      JStr "Tarpit сервер + тузак байкоочу — чабуулчуну жайлатуу жана honeypot сигналы; алдоо катмары."]);
    ("advLead", JStr "Fail2ban бир гана ban салат, ModSecurity WAF өзүнчө модуль, CrowdSec бөлүк стек талап кылат. Log Guardian бул үч ишти бир чынжырда бириктирет — өлчөнгөн далил менен.");
    ("advantages", JArr [
      JObj [
        ("k", JStr "Бир орнотуу, бир чынжыр");
        ("v", JStr "Fail2ban + ModSecurity + CrowdSec'ти өзүнчө орнотуп, интеграциялабайсыз. nginx логу → WAF/CRS → kernel ban бир продуктта, ~15 мүн орнотуу.")];
      JObj [
        ("k", JStr "~20 мс kernel ban");
        ("v", JStr "Лог сабынан ipset/XDP банга медиана ~20 мс. Fail2ban/CrowdSec секунд–мүнөт деңгээлинде калат; 21 өлчөнгөн үлгү менен далилденген.")];
      JObj [
        ("k", JStr "280 373 EPS · 16,93× ModSec");
        ("v", JStr "Ошол эле корпусто жана ошол эле 121 OWASP CRS үлгүсүндө (PCRE2 JIT) WAF/CRS өткөрүмдүүлүгү — 280 373 EPS, ModSec'тин 16 560 EPS'инен 16,93× тезирээк. Өлчөнгөн жана кайра чыгарылуучу (bench-vs-modsec.json).")];
      JObj [
        ("k", JStr "100% recall + 100% CRS паритети");
        ("v", JStr "121 OWASP CRS эрежеси, 1500 саптык корпуста чыныгы чабуул recall 100% жана ModSec менен толук паритет — 0.2% жалган позитивде.")];
      JObj [
        ("k", JStr "Бөлүштүрүлгөн чабуулду камтуу");
        ("v", JStr "JA3 кластерин аныктоо + IP боюнча ban — 80 IP түз тестте 100%. Fail2ban жалгыз IP'лик; CrowdSec өзүнчө сигнал тармагын талап кылат.")];
      JObj [
        ("k", JStr "Ачык, кайра чыгарылуучу далил");
        ("v", JStr "75 автоматтык тест + 14 файлдык далил топтому + 72 саат soak (864 үлгү, 0 ката). Атаандаштарда автоматтык далил жок же бөлүк-бөлүк.")];
      JObj [
        ("k", JStr "Self-hosted · MIT · Түркияда жасалган");
        ("v", JStr "Маалыматыңыз сизде калат, вендорго көз карандылык жок, толук ачык код. SOC убакыт сызыгы, Prometheus метрикалары жана Telegram башкаруусу бир панелде (:8443).")]]);
    ("vsNote", JStr "Чынчыл чек: кээ бир тармактарда атаандаштар ачык жакшыраак (кызыл уячалар). ModSec + CRS биринчи сурамды заматта бөгөттөөдө алдыда; CrowdSec бөлүштүрүлгөн коомдук сигнал тармагында жана башкарылуучу SaaS консолунда күчтүү. Анын ордуна ошол эле корпусто жана ошол эле 121 CRS үлгүсүндө WAF/CRS өткөрүмдүүлүгүбүз — 280 373 EPS, ModSec'тин 16 560 EPS'инен 16,93× жогору (bench-vs-modsec.json).");
    ("vsLegend", JStr "Кызыл = ошол саптагы жеңүүчү");
    ("honestItems", JArr [
      JStr "Реактивдүү архитектура — лог сабы түшкөнгө чейин биринчи сурам өтүшү мүмкүн; биз ModSec'тин inline ылдамдыгында эмеспиз.";
      JStr "L3/L4 DDoS'ту сиңирбейбиз — CDN артында турабыз.";
      JStr "Бөлүштүрүлгөн ботнет — IP боюнча ban; CrowdSec сигнал тармагы жок.";
      JStr "Кылат: лог → CRS/WAF → ~20 мс kernel ban, далил PDF, Telegram башкаруу, MIT self-hosted."]);
    ("layersBodies", JArr [
      JStr "лог → WAF → ipset ban (~15 мүн)";
      JStr "eBPF демону, панель, метрикалар, флот";
      JStr "K8s/Helm (kind) + fleet + Wasm/mesh"]);
    ("layersNote", JStr "XDR, Wasm маркети жана LLM Copilot — узак мөөнөттүү кошумча катмарлар; Core өзү өндүрүшкө даяр.");
    ("setupIntro", JStr "Булак: GitHub — Linux-Log-Guardian. Эки жол: даяр .deb пакети (сунушталат) же булактан куруу. Ноутбук/ВМ'де eBPF/XDP'сиз да иштейт (ipset негизиндеги ban). Төмөнкү кадамдар өндүрүш сервери үчүн; ар бир команданын күтүлгөн чыгуусу камтылган.");
    ("setupTip", JStr "Кеңеш: JWT жана панель сырсөзү үчүн bash scripts/laptop_jwt_setup.sh колдонуңуз. 3 мүнөттүк демо: SKIP_WEBHOOK=1 bash scripts/demo_3min.sh. Документтер: docs/QUICKSTART_NGINX.md · docs/LAPTOP_OPS.md · docs/SECURITY_PROFILES.md.");
    ("contactBody", JStr "Суроолор, кызматташтык же салым үчүн жазыңыз. Ачык код рухунда ката жөнүндө билдирүүлөр жана pull request'тер кубаттуу тосулат.");
    ("footerDesc", JStr "nginx кирүү логу → WAF/CRS → kernel ban. Бирдиктүү чынжыр, self-hosted, MIT лицензиясы. Түркияда жасалган.");
    ("footerSoak", JStr "72 саат soak PASS · 0 ката");
    ("proofBody", JStr "Слайд эмес, кайра чыгарылуучу далил. OWASP CRS паритети, жалган позитив дарбазалары, ban кечигүү бенчмарктары, корпус recall жана 72 сааттык soak — баары өлчөнгөн, автоматташтырылган жана ачык тест матрицасында көрүнөт.");
    ("vsCols", JArr [JStr "Метрика"; JStr "Log Guardian"; JStr "Fail2ban"; JStr "CrowdSec"; JStr "ModSec + CRS"]);
    ("vsGroupLabels", JArr [JStr "Күчтүү жактары (өлчөнгөн)"; JStr "Чынчыл чектөөлөр"]);
    ("vsRows0", JArr [
      JArr [JStr "Лог → WAF → ядро бан"; JStr "Бир чынжыр"; JStr "Бан гана"; JStr "Бөлүктөп"; JStr "WAF өзүнчө"];
      JArr [
        JStr "WAF/CRS өткөрүмдүүлүгү (ошол эле корпус)";
        JStr "280 373 EPS (16,93×)";
        JStr "—";
        JStr "—";
        JStr "16 560 EPS"];
      JArr [JStr "OWASP CRS паритети"; JStr "100% (121 эреже)"; JStr "—"; JStr "—"; JStr "Эталон (100%)"];
      JArr [JStr "Чыныгы кол салуу recall"; JStr "100% (1K+10K)"; JStr "—"; JStr "—"; JStr "100%"];
      JArr [
        JStr "Бөлүштүрүлгөн / JA3 кластер бан";
        JStr "100% (80 IP)";
        JStr "—";
        JStr "Сигнал негизинде";
        JStr "—"];
      JArr [JStr "nginx inline consult"; JStr "PASS"; JStr "—"; JStr "—"; JStr "Өзүнчө модуль"];
      JArr [JStr "L7 колдонмо коргоосу"; JStr "WAF + consult + eBPF"; JStr "—"; JStr "—"; JStr "CRS inline"];
      JArr [JStr "Ядро / eBPF (XDP) бан"; JStr "ipset + XDP"; JStr "iptables"; JStr "iptables/nft"; JStr "—"];
      JArr [
        JStr "Жалган позитив";
        JStr "0,2% (өлчөнгөн)";
        JStr "Жогорку";
        JStr "Орточо";
        JStr "CRS-ке көз каранды"];
      JArr [JStr "Бан кечигүүсү"; JStr "~20 мс"; JStr "сек–мүн"; JStr "сек"; JStr "Өзүнчө интеграция"];
      JArr [JStr "Кыска туруктуулук (5 мүн)"; JStr "PASS (0 ката)"; JStr "—"; JStr "—"; JStr "—"];
      JArr [JStr "72с soak"; JStr "PASS (864/0)"; JStr "—"; JStr "—"; JStr "—"];
      JArr [
        JStr "Далил топтому PDF+JSON";
        JStr "Автоматтык (14 файл)";
        JStr "Жок";
        JStr "Жарым-жартылай";
        JStr "Модуль-модуль"];
      JArr [JStr "Автомат тест матрицасы"; JStr "75 тест"; JStr "—"; JStr "Жарым-жартылай"; JStr "—"];
      JArr [JStr "SOC убакыт сызыгы / дашборд"; JStr "Ооба (:8443)"; JStr "—"; JStr "Консоль"; JStr "—"];
      JArr [JStr "Telegram операция + ack"; JStr "Ооба (бир басуу)"; JStr "—"; JStr "Жарым-жартылай"; JStr "—"];
      JArr [JStr "Орнотуу убактысы"; JStr "~15 мүн"; JStr "мүнөт"; JStr "мүнөт"; JStr "саат (тууралоо)"]]);
    ("vsRows1", JArr [
      JArr [
        JStr "Биринчи сурамды дароо бөгөө";
        JStr "Реактивдүү (лог сабы)";
        JStr "Реактивдүү";
        JStr "Жарым-жартылай";
        JStr "Inline (дароо)"];
      JArr [JStr "Көлөмдүк L3/L4 тазалоо"; JStr "Жок — CDN сунушталат"; JStr "Жок"; JStr "Жок"; JStr "Жок"];
      JArr [JStr "Коомчулук сигнал тармагы"; JStr "Өз-хостинг"; JStr "—"; JStr "Ооба (глобалдык)"; JStr "—"];
      JArr [JStr "Edge / Cloud WAF"; JStr "Origin катмары"; JStr "—"; JStr "Bouncer"; JStr "Прокси режими"];
      JArr [JStr "Башкарылуучу булут / SaaS"; JStr "Жок (өз-хостинг)"; JStr "Жок"; JStr "Ооба (консоль)"; JStr "—"]]);
    ("requirements", JArr [
      JStr "Ubuntu 22.04 / 24.04 же Debian 12 (amd64)";
      JStr "nginx + жазылуучу access лог (log_guardian форматы)";
      JStr "Root же sudo (systemd, ipset, /etc/log-guardian)";
      JStr "~200 МБ диск, 128 МБ RAM (Core); Pro үчүн Docker";
      JStr "Кошумча Pro: eBPF/XDP үчүн 5.10+ ядро, Docker (дашборд/метрикалар)"]);
    ("setup", JObj [
      ("pathTitles", JArr [JStr "Жаңы сервер — .deb пакети"; JStr "Баштапкы код — куруу жана орнотуу"]);
      ("pathBadges", JArr [JStr "сунушталат"; JStr "иштеп чыгуучу"]);
      ("pathNotes", JArr [
        JStr "Куруу талап кылынбайт. Пакет бинарды, systemd юниттерин, эрежелерди жана скрипттерди алып келет. Жаңылоого коопсуз: бар /etc/log-guardian/rules.conf сакталат. GitHub Releases-тен (log-guardian_*_amd64.deb) же bash scripts/build_deb.sh → dist/ аркылуу куруңуз.";
        JStr "GitHub репозиторийин клондоп, куруңуз. Иштеп чыгуу, ыңгайлаштыруу жана толук код текшерүү үчүн эң сонун. install.sh systemd юниттерин, эрежелерди жана nginx лог форматын орнотот."]);
      ("pathSteps", JArr [
        JArr [
          JObj [
            ("t", JStr "Көз карандылыктар");
            ("d", JStr "Биринчи орнотууда Debian пакет көз карандылыктарын кошуңуз. nginx жок болсо, аны ошол эле буйрукта кошсо болот.")];
          JObj [
            ("t", JStr "Пакетти орнотуу");
            ("d", JStr "dpkg -i көз карандылык катасын билдирсе, apt-get install -f иштетиңиз. postinst кадамы log-guardian колдонуучусун, уруксаттарды, systemd юниттерин жана демейки rules.conf-ту автоматтык түзөт.")];
          JObj [
            ("t", JStr "Биринчи ишке киргизүү жана API коопсуздугу");
            ("d", JStr "nginx лог форматын, FP trust-ту жана API коопсуздугун (токен, fail-closed) бир жолу даярдайт. Скрипттер пакеттин ичинде (/usr/local/share/log-guardian/scripts/).")]];
        JArr [
          JObj [
            ("t", JStr "Баштапкы код жана куруу");
            ("d", JStr "Репозиторийди клондоп, бардык өзөктөр менен куруп, негизги орнотуу скриптин иштетиңиз.")];
          JObj [
            ("t", JStr "Биринчи ишке киргизүү жана токен синхрону");
            ("d", JStr "Кызматтарды көтөрөт жана API токен синхронун жана дашборд байланышын даярдайт.")]]]);
      ("commonTitle", JStr "Жалпы кадамдар (A же B кийин)");
      ("commonSteps", JArr [
        JObj [
          ("t", JStr "Nginx лог форматы");
          ("d", JStr "WAF сурам денесин жана X-Forwarded-For-ду окуш үчүн log_guardian лог форматы керек. Setup аны адатта автоматтык колдонот; STRICT режиминде текшериңиз.")];
        JObj [
          ("t", JStr "Ден соолук жана абал текшерүү");
          ("d", JStr "Daemon IPC-ди, кызмат абалын жана BPF мүмкүнчүлүктөрүн текшериңиз. Жашыл дарбаза: post_install_verify аягында FAIL: 0 көрүшүңүз керек.")];
        JObj [
          ("t", JStr "Метрикалар жана биринчи бан тести");
          ("d", JStr "Prometheus метрикаларын текшериңиз; трафиктен кийин эсептегичтердин көтөрүлүшүн байкаңыз. Кол салуу сабын киргизип бан-ды ipset-те текшере аласыз.")];
        JObj [
          ("t", JStr "VirtualBox / XDP-сиз (ноутбук жана VM)");
          ("d", JStr "eBPF/XDP жок чөйрөлөрдө ipset негизиндеги бан менен --no-xdp жетиштүү. Кызмат көз карандылыгы ишке ашпаса, оңдоо скрипти бир буйрук.")]]);
      ("dashboardTitle", JStr "Pro дашборд — орнотуудан кийин (кошумча)");
      ("dashboardBadge", JStr "Pro · кошумча");
      ("dashboardNote", JStr "Дашборд бул landing сайтта эмес, өз машинаңызда иштейт. Prod стек Caddy + Docker аркылуу https://localhost:8443 дарегинде тейленет.");
      ("dashboardSteps", JArr [
        JObj [
          ("t", JStr "Prod стекти ишке киргизүү");
          ("d", JStr "Өз серверинизде дашбордду курат жана көтөрөт. Кирүү: admin / .env-деги DASHBOARD_ADMIN_PASSWORD.")];
        JObj [
          ("t", JStr "Алыскы VPS үчүн SSH туннель");
          ("d", JStr "Дашбордду интернетке ачпай коопсуз көрүү үчүн SSH туннель орнотуңуз; адегенде серверди катыраңыз.")]])])].
Definition body_tk : json := JObj [
    ("pipelineNote", JStr "XDR, Wasm marketi we LLM Copilot uzak möhletli goşmaça gatlaklardyr — Core ýeke özi önümçilige taýýar.");
    ("selectedBodies", JArr [
      JStr "Ýeke zynjyr: nginx logy → OWASP CRS → ~20 ms kernel ban. ~15 minutda önümçilikde.";
      JStr "Flot, SOC wagt çyzygy, panellar — gurnamadan soň öz serweriňizdäki goşmaça gatlak.";
      JStr "75 awtomatik test, deňeşdirme PDF, 72 sagat soak — dashboard /tests bilen birmeňzeş matrisa.";
      JStr "Tenant belgili Prometheus metrikalary, panellar we duýduryş düzgünleri — self-hosted gözegçilik.";
      JStr "Köp düwünli flot: agent sinhronizasiýasy, etcd mesh syýasaty we niýetlenen buýruk ibermek — bir panelden.";
      JStr "TAXII/STIX howp lentasy + Telegram SOC: duýduryş, ban we bir gezek basyp 'ack' — göni operator akymy.";
      JStr "XDP süzgüji + execve/lineage uprobe'lar — ýadro derejesinde paket taşlamak we syscall yzarlamak. Noutbuklarda --no-xdp bilen ipset ýeterlik.";
      JStr "Paýlanan skanerleri ýüze çykarmak: birmeňzeş JA3 yzy + başga IP klaster, 100% recall — 80 IP göni test.";
      JStr "Hüjüm agajy, gelip çykyş zondy, syscall uprobe — uzak möhletli goşmaça gatlak; hüjüm zynjyryny we gizlin kanallary ýüze çykarmak.";
      JStr "Wasm runtime arkaly ýörite düzgün pluginleri — market modeli, Core'a degmän giňeltmek.";
      JStr "JSON event_type akymy — Splunk/Elastic/Vector'a SIEM eksporty subutnamasy (siem-export-report.json).";
      JStr "Tarpit serwer + duzak gözegçisi — hüjümçini haýalladyp honeypot signaly; aldaw gatlagy."]);
    ("advLead", JStr "Fail2ban diňe ban edýär, ModSecurity WAF aýratyn modul, CrowdSec bölek stek talap edýär. Log Guardian bu üç işi bir zynjyrda birleşdirýär — ölçelen subutnama bilen.");
    ("advantages", JArr [
      JObj [
        ("k", JStr "Bir gurnama, bir zynjyr");
        ("v", JStr "Fail2ban + ModSecurity + CrowdSec-i aýratyn gurnap, birleşdirmeýärsiňiz. nginx logy → WAF/CRS → kernel ban bir önümde, ~15 min gurnama.")];
      JObj [
        ("k", JStr "~20 ms kernel ban");
        ("v", JStr "Log setirinden ipset/XDP bana mediana ~20 ms. Fail2ban/CrowdSec sekunt–minut derejesinde galýar; 5 ölçelen nusga bilen subut edildi.")];
      JObj [
        ("k", JStr "280 373 EPS · 16,93× ModSec");
        ("v", JStr "Şol korpusda we şol 121 OWASP CRS patterninde (PCRE2 JIT) WAF/CRS geçirijiligi 280 373 EPS — ModSec-iň 16 560 EPS-inden 16,93× çalt. Ölçelen we gaýtadan öndürilýän (bench-vs-modsec.json).")];
      JObj [
        ("k", JStr "100% recall + 100% CRS pariteti");
        ("v", JStr "121 OWASP CRS düzgüni, 1500 setirli korpusda hakyky hüjüm recall 100% we ModSec bilen doly paritet — 0.2% ýalňyş pozitiwde.")];
      JObj [
        ("k", JStr "Paýlanan hüjümi gurşap almak");
        ("v", JStr "JA3 klaster ýüze çykarmak + IP boýunça ban — 80 IP göni testde 100%. Fail2ban ýeke IP'li; CrowdSec aýratyn signal ulgamyny talap edýär.")];
      JObj [
        ("k", JStr "Aýdyň, gaýtadan öndürilýän subutnama");
        ("v", JStr "75 awtomatik test + 14 faýlly subutnama paketi + 72 sagat soak (864 nusga, 0 ýalňyşlyk). Bäsdeşlerde awtomatik subutnama ýok ýa-da bölek-bölek.")];
      JObj [
        ("k", JStr "Self-hosted · MIT · Türkiýede öndürilen");
        ("v", JStr "Maglumatyňyz sizde galýar, wendor garaşlylygy ýok, doly açyk kod. SOC wagt çyzygy, Prometheus metrikalary we Telegram dolandyryşy bir panelde (:8443).")]]);
    ("vsNote", JStr "Dogruçyl çäk: käbir ugurlarda bäsdeşler aýdyň has gowy (gyzyl öýjükler). ModSec + CRS ilkinji soragy derrew bloklamakda öňde; CrowdSec paýlanan jemgyýet signal ulgamynda we dolandyrylýan SaaS konsolynda güýçli. Munuň öwezine şol korpusda we şol 121 CRS patterninde WAF/CRS geçirijiligimiz 280 373 EPS — ModSec-iň 16 560 EPS-inden 16,93× ýokary (bench-vs-modsec.json).");
    ("vsLegend", JStr "Gyzyl = şol setirdäki ýeňiji");
    ("honestItems", JArr [
      JStr "Reaktiw arhitektura — log setiri düşýänçä ilkinji sorag geçip biler; biz ModSec-iň inline tizliginde däl.";
      JStr "L3/L4 DDoS-y siňdirmeýäris — CDN arkasynda durýarys.";
      JStr "Paýlanan botnet — IP boýunça ban; CrowdSec signal ulgamy ýok.";
      JStr "Edýär: log → CRS/WAF → ~20 ms kernel ban, subutnama PDF, Telegram dolandyryş, MIT self-hosted."]);
    ("layersBodies", JArr [
      JStr "log → WAF → ipset ban (~15 min)";
      JStr "eBPF demony, panel, metrikalar, flot";
      JStr "K8s/Helm (kind) + fleet + Wasm/mesh"]);
    ("layersNote", JStr "XDR, Wasm marketi we LLM Copilot uzak möhletli goşmaça gatlaklardyr — Core ýeke özi önümçilige taýýar.");
    ("setupIntro", JStr "Çeşme: GitHub — Linux-Log-Guardian. Iki ýol: taýýar .deb paket (maslahat berilýär) ýa-da çeşmeden gurmak. Noutbuk/VM-larda eBPF/XDP-syz hem işleýär (ipset esasly ban). Aşakdaky ädimler önümçilik serweri üçin; her buýrugyň garaşylýan çykyşy goşulýar.");
    ("setupTip", JStr "Maslahat: JWT we panel paroly üçin bash scripts/laptop_jwt_setup.sh ulanyň. 3 minutlyk demo: SKIP_WEBHOOK=1 bash scripts/demo_3min.sh. Resminamalar: docs/QUICKSTART_NGINX.md · docs/LAPTOP_OPS.md · docs/SECURITY_PROFILES.md.");
    ("contactBody", JStr "Soraglar, hyzmatdaşlyk ýa-da goşant üçin ýazyň. Açyk kod ruhunda hata habarlary we pull request'ler hoş garşylanýar.");
    ("footerDesc", JStr "nginx giriş logy → WAF/CRS → kernel ban. Ýeke zynjyr, self-hosted, MIT ygtyýarnamaly. Türkiýede öndürilen.");
    ("footerSoak", JStr "72 sagat soak PASS · 0 näsazlyk");
    ("proofBody", JStr "Slaýd däl, gaýtadan öndürilýän subutnama. OWASP CRS pariteti, ýalňyş pozitiw derwezeleri, ban gijikdirmesi benchmarklary, korpus recall we 72 sagatlyk soak — hemmesi ölçelen, awtomatik we açyk test matrisasynda görünýär.");
    ("vsCols", JArr [JStr "Metrika"; JStr "Log Guardian"; JStr "Fail2ban"; JStr "CrowdSec"; JStr "ModSec + CRS"]);
    ("vsGroupLabels", JArr [JStr "Güýçli taraplary (ölçelen)"; JStr "Dogruçyl çäkler"]);
    ("vsRows0", JArr [
      JArr [JStr "Log → WAF → ýadro ban"; JStr "Ýeke zynjyr"; JStr "Diňe ban"; JStr "Böleklaýyn"; JStr "WAF aýry"];
      JArr [
        JStr "WAF/CRS geçirijiligi (şol korpus)";
        JStr "280 373 EPS (16,93×)";
        JStr "—";
        JStr "—";
        JStr "16 560 EPS"];
      JArr [JStr "OWASP CRS pariteti"; JStr "100% (121 düzgün)"; JStr "—"; JStr "—"; JStr "Etalon (100%)"];
      JArr [JStr "Hakyky hüjüm recall"; JStr "100% (1K+10K)"; JStr "—"; JStr "—"; JStr "100%"];
      JArr [JStr "Paýlanan / JA3 klaster ban"; JStr "100% (80 IP)"; JStr "—"; JStr "Signal esasly"; JStr "—"];
      JArr [JStr "nginx inline consult"; JStr "PASS"; JStr "—"; JStr "—"; JStr "Aýry modul"];
      JArr [JStr "L7 programma goragy"; JStr "WAF + consult + eBPF"; JStr "—"; JStr "—"; JStr "CRS inline"];
      JArr [JStr "Ýadro / eBPF (XDP) ban"; JStr "ipset + XDP"; JStr "iptables"; JStr "iptables/nft"; JStr "—"];
      JArr [JStr "Ýalňyş pozitiw"; JStr "0,2% (ölçelen)"; JStr "Ýokary"; JStr "Orta"; JStr "CRS-e bagly"];
      JArr [JStr "Ban gijikdirmesi"; JStr "~20 ms"; JStr "sek–min"; JStr "sek"; JStr "Aýry integrasiýa"];
      JArr [JStr "Gysga durnuklylyk (5 min)"; JStr "PASS (0 şowsuzlyk)"; JStr "—"; JStr "—"; JStr "—"];
      JArr [JStr "72s soak"; JStr "PASS (864/0)"; JStr "—"; JStr "—"; JStr "—"];
      JArr [
        JStr "Subutnama paketi PDF+JSON";
        JStr "Awtomatik (14 faýl)";
        JStr "Ýok";
        JStr "Kismen";
        JStr "Modul-modul"];
      JArr [JStr "Awtomat test matrisasy"; JStr "80 test"; JStr "—"; JStr "Kismen"; JStr "—"];
      JArr [JStr "SOC wagt çyzygy / dashboard"; JStr "Hawa (:8443)"; JStr "—"; JStr "Konsol"; JStr "—"];
      JArr [JStr "Telegram operasiýa + ack"; JStr "Hawa (bir basyş)"; JStr "—"; JStr "Kismen"; JStr "—"];
      JArr [JStr "Gurnama wagty"; JStr "~15 min"; JStr "minut"; JStr "minut"; JStr "sagat (sazlama)"]]);
    ("vsRows1", JArr [
      JArr [
        JStr "Ilkinji islegi derrew blokla";
        JStr "Reaktiw (log setiri)";
        JStr "Reaktiw";
        JStr "Kismen";
        JStr "Inline (derrew)"];
      JArr [
        JStr "Wolýumetrik L3/L4 arassalaýyş";
        JStr "Ýok — CDN maslahat berilýär";
        JStr "Ýok";
        JStr "Ýok";
        JStr "Ýok"];
      JArr [JStr "Jemgyýet signal ulgamy"; JStr "Öz-hosting"; JStr "—"; JStr "Hawa (global)"; JStr "—"];
      JArr [JStr "Edge / Cloud WAF"; JStr "Origin gatlak"; JStr "—"; JStr "Bouncer"; JStr "Proksi režimi"];
      JArr [JStr "Dolandyrylýan bulut / SaaS"; JStr "Ýok (öz-hosting)"; JStr "Ýok"; JStr "Hawa (konsol)"; JStr "—"]]);
    ("requirements", JArr [
      JStr "Ubuntu 22.04 / 24.04 ýa-da Debian 12 (amd64)";
      JStr "nginx + ýazylýan access log (log_guardian formaty)";
      JStr "Root ýa-da sudo (systemd, ipset, /etc/log-guardian)";
      JStr "~200 MB disk, 128 MB RAM (Core); Pro üçin Docker";
      JStr "Islege bagly Pro: eBPF/XDP üçin 5.10+ ýadro, Docker (dashboard/metrikalar)"]);
    ("setup", JObj [
      ("pathTitles", JArr [JStr "Täze server — .deb paketi"; JStr "Çeşme kod — gurmak we gurnamak"]);
      ("pathBadges", JArr [JStr "maslahat berilýär"; JStr "işläp düzüji"]);
      ("pathNotes", JArr [
        JStr "Gurmak talap edilmeýär. Paket binar faýly, systemd unitleri, düzgünleri we skriptleri getirýär. Täzelemäge howpsuz: bar bolan /etc/log-guardian/rules.conf saklanýar. GitHub Releases-den (log-guardian_*_amd64.deb) ýa-da bash scripts/build_deb.sh → dist/ arkaly guruň.";
        JStr "GitHub repo-ny klonlaň we guruň. Ösüş, sazlama we doly çeşme barlagy üçin ideal. install.sh systemd unitlerini, düzgünleri we nginx log formatyny gurnaýar."]);
      ("pathSteps", JArr [
        JArr [
          JObj [
            ("t", JStr "Baglylyklar");
            ("d", JStr "Ilkinji gurnamada Debian paket baglylyklaryny goşuň. nginx ýok bolsa, ony şol buýrukda goşup bolýar.")];
          JObj [
            ("t", JStr "Paketi gurnamak");
            ("d", JStr "dpkg -i baglylyk ýalňyşyny habar berse, apt-get install -f işlediň. postinst ädimi log-guardian ulanyjysyny, rugsatlary, systemd unitlerini we deslapky rules.conf-y awtomatik döredýär.")];
          JObj [
            ("t", JStr "Ilkinji işletmek we API howpsuzlygy");
            ("d", JStr "nginx log formatyny, FP trust-y we API howpsuzlygyny (token, fail-closed) bir gezekde taýýarlaýar. Skriptler paketiň içinde (/usr/local/share/log-guardian/scripts/).")]];
        JArr [
          JObj [
            ("t", JStr "Çeşme we gurmak");
            ("d", JStr "Repo-ny klonlaň, ähli ýadrolar bilen guruň we esasy gurnama skriptini işlediň.")];
          JObj [
            ("t", JStr "Ilkinji işletmek we token sinhrony");
            ("d", JStr "Hyzmatlary galdyrýar we API token sinhronyny hem-de dashboard baglanyşygyny taýýarlaýar.")]]]);
      ("commonTitle", JStr "Umumy ädimler (A ýa-da B-den soň)");
      ("commonSteps", JArr [
        JObj [
          ("t", JStr "Nginx log formaty");
          ("d", JStr "WAF islegiň bedenini we X-Forwarded-For-y okamagy üçin log_guardian log formaty gerek. Setup ony adatça awtomatik ulanýar; STRICT režiminde barlaň.")];
        JObj [
          ("t", JStr "Saglyk we ýagdaý barlagy");
          ("d", JStr "Daemon IPC-ni, hyzmat ýagdaýyny we BPF aýratynlyklaryny barlaň. Ýaşyl derweze: post_install_verify soňunda FAIL: 0 görmeli.")];
        JObj [
          ("t", JStr "Metrikalar we ilkinji ban synagy");
          ("d", JStr "Prometheus metrikalaryny barlaň; trafikden soň sanaýjylaryň galýanyny synlaň. Hüjüm setirini goýup ban-y ipset-de barlap bilersiňiz.")];
        JObj [
          ("t", JStr "VirtualBox / XDP-siz (noutbuk we VM)");
          ("d", JStr "eBPF/XDP ýok gurşawlarda ipset esasly ban bilen --no-xdp ýeterlik. Hyzmat baglylygy şowsuz bolsa, bejeriş skripti bir buýruk.")]]);
      ("dashboardTitle", JStr "Pro dashboard — gurnamadan soň (islege bagly)");
      ("dashboardBadge", JStr "Pro · islege bagly");
      ("dashboardNote", JStr "Dashboard bu landing saýtda däl, öz maşynyňyzda işleýär. Prod stack Caddy + Docker arkaly https://localhost:8443 salgysynda hyzmat edýär.");
      ("dashboardSteps", JArr [
        JObj [
          ("t", JStr "Prod stack-i başlatmak");
          ("d", JStr "Öz serweriňizde dashboard-y gurýar we galdyrýar. Giriş: admin / .env-däki DASHBOARD_ADMIN_PASSWORD.")];
        JObj [
          ("t", JStr "Uzak VPS üçin SSH tunel");
          ("d", JStr "Dashboard-y internete açman howpsuz görmek üçin SSH tunel guruň; ilki serweri berkidiň.")]])])].
Definition body_tt : json := JObj [
    ("pipelineNote", JStr "XDR, Wasm маркеты һәм LLM Copilot — озын сроклы өстәмә катламнар; Core үзе генә җитештерүгә әзер.");
    ("selectedBodies", JArr [
      JStr "Бер чылбыр: nginx логы → OWASP CRS → ~20 мс kernel ban. ~15 минутта җитештерүдә.";
      JStr "Флот, SOC вакыт сызыгы, панельләр — урнаштыргач үз сервереңдәге өстәмә катлам.";
      JStr "75 автоматик тест, чагыштыру PDF, 72 сәгать soak — dashboard /tests белән бердәй матрица.";
      JStr "Tenant билгеле Prometheus метрикалары, панельләр һәм искәртү кагыйдәләре — self-hosted күзәтү.";
      JStr "Күп төенле флот: агент синхронлау, etcd mesh сәясәте һәм максатчан команда җибәрү — бер панельдән.";
      JStr "TAXII/STIX куркыныч тасмасы + Telegram SOC: искәртү, ban һәм бер басып 'ack' — туры оператор агымы.";
      JStr "XDP фильтры + execve/lineage uprobe'лар — ядро дәрәҗәсендә пакет ташлау һәм syscall эзләү. Ноутбукларда --no-xdp белән ipset җитә.";
      JStr "Таратылган сканерларны ачыклау: бердәй JA3 эзе + башка IP кластеры, 100% recall — 80 IP туры тест.";
      JStr "Һөҗүм агачы, чыгыш зонды, syscall uprobe — озын сроклы өстәмә катлам; һөҗүм чылбырын һәм яшерен каналларны ачыклау.";
      JStr "Wasm runtime аша махсус кагыйдә плагиннары — маркет модель, Core'га кагылмыйча киңәйтү.";
      JStr "JSON event_type агымы — Splunk/Elastic/Vector'га SIEM экспорты дәлиле (siem-export-report.json).";
      JStr "Tarpit сервер + капкын күзәтче — һөҗүмчене акрынайту һәм honeypot сигналы; алдау катламы."]);
    ("advLead", JStr "Fail2ban бары тик ban сала, ModSecurity WAF аерым модуль, CrowdSec өлешле стек таләп итә. Log Guardian бу өч эшне бер чылбырда берләштерә — үлчәнгән дәлил белән.");
    ("advantages", JArr [
      JObj [
        ("k", JStr "Бер урнаштыру, бер чылбыр");
        ("v", JStr "Fail2ban + ModSecurity + CrowdSec'ны аерым урнаштырып, берләштермисез. nginx логы → WAF/CRS → kernel ban бер продуктта, ~15 мин урнаштыру.")];
      JObj [
        ("k", JStr "~20 мс kernel ban");
        ("v", JStr "Лог юлыннан ipset/XDP банга медиана ~20 мс. Fail2ban/CrowdSec секунд–минут дәрәҗәсендә кала; 5 үлчәнгән үрнәк белән расланган.")];
      JObj [
        ("k", JStr "280 373 EPS · 16,93× ModSec");
        ("v", JStr "Шул ук корпуста һәм шул ук 121 OWASP CRS үрнәгендә (PCRE2 JIT) WAF/CRS үткәрүчәнлеге — 280 373 EPS, ModSec-ның 16 560 EPS-ыннан 16,93× тизрәк. Үлчәнгән һәм кабат ясала торган (bench-vs-modsec.json).")];
      JObj [
        ("k", JStr "100% recall + 100% CRS паритеты");
        ("v", JStr "121 OWASP CRS кагыйдәсе, 1500 юллык корпуста чын һөҗүм recall 100% һәм ModSec белән тулы паритет — 0.2% ялган позитивта.")];
      JObj [
        ("k", JStr "Таратылган һөҗүмне каплау");
        ("v", JStr "JA3 кластерын ачыклау + IP буенча ban — 80 IP туры тестта 100%. Fail2ban ялгыз IP'лы; CrowdSec аерым сигнал челтәрен таләп итә.")];
      JObj [
        ("k", JStr "Ачык, кабат җитештерелә торган дәлил");
        ("v", JStr "75 автоматик тест + 14 файллы дәлил пакеты + 72 сәгать soak (864 үрнәк, 0 хата). Көндәшләрдә автоматик дәлил юк яки өлешле.")];
      JObj [
        ("k", JStr "Self-hosted · MIT · Төркиядә ясалган");
        ("v", JStr "Мәгълүматыгыз сездә кала, вендорга бәйлелек юк, тулысынча ачык код. SOC вакыт сызыгы, Prometheus метрикалары һәм Telegram идарәсе бер панельдә (:8443).")]]);
    ("vsNote", JStr "Намуслы чик: кайбер өлкәләрдә көндәшләр ачык яхшырак (кызыл күзәнәкләр). ModSec + CRS беренче соравны шунда ук блоклауда алда; CrowdSec таратылган җәмгыять сигнал челтәрендә һәм идарә ителә торган SaaS консолендә көчле. Аның каравы шул ук корпуста һәм шул ук 121 CRS үрнәгендә WAF/CRS үткәрүчәнлегебез — 280 373 EPS, ModSec-ның 16 560 EPS-ыннан 16,93× югарырак (bench-vs-modsec.json).");
    ("vsLegend", JStr "Кызыл = шул юлдагы җиңүче");
    ("honestItems", JArr [
      JStr "Реактив архитектура — лог юлы төшкәнче беренче сорау үтә ала; без ModSec'ның inline тизлегендә түгел.";
      JStr "L3/L4 DDoS'ны сеңдермибез — CDN артында торабыз.";
      JStr "Таратылган ботнет — IP буенча ban; CrowdSec сигнал челтәре юк.";
      JStr "Эшли: лог → CRS/WAF → ~20 мс kernel ban, дәлил PDF, Telegram идарә, MIT self-hosted."]);
    ("layersBodies", JArr [
      JStr "лог → WAF → ipset ban (~15 мин)";
      JStr "eBPF демоны, панель, метрикалар, флот";
      JStr "K8s/Helm (kind) + fleet + Wasm/mesh"]);
    ("layersNote", JStr "XDR, Wasm маркеты һәм LLM Copilot — озын сроклы өстәмә катламнар; Core үзе генә җитештерүгә әзер.");
    ("setupIntro", JStr "Чыганак: GitHub — Linux-Log-Guardian. Ике юл: әзер .deb пакеты (тәкъдим ителә) яки чыганактан җыю. Ноутбук/ВМ'да eBPF/XDP'сыз да эшли (ipset нигезле ban). Түбәндәге адымнар җитештерү сервере өчен; һәр команданың көтелгән чыгышы кертелгән.");
    ("setupTip", JStr "Киңәш: JWT һәм панель серсүзе өчен bash scripts/laptop_jwt_setup.sh кулланыгыз. 3 минутлык демо: SKIP_WEBHOOK=1 bash scripts/demo_3min.sh. Документлар: docs/QUICKSTART_NGINX.md · docs/LAPTOP_OPS.md · docs/SECURITY_PROFILES.md.");
    ("contactBody", JStr "Сораулар, хезмәттәшлек яки өлеш кертү өчен языгыз. Ачык код рухында хата хәбәрләре һәм pull request'лар рәхим итеп кабул ителә.");
    ("footerDesc", JStr "nginx керү логы → WAF/CRS → kernel ban. Бер чылбыр, self-hosted, MIT лицензияле. Төркиядә ясалган.");
    ("footerSoak", JStr "72 сәгать soak PASS · 0 хата");
    ("proofBody", JStr "Слайд түгел, кабат җитештерелә торган дәлил. OWASP CRS паритеты, ялган позитив капкалары, ban тоткарлыгы бенчмарклары, корпус recall һәм 72 сәгатьлек soak — барысы да үлчәнгән, автоматлаштырылган һәм ачык тест матрицасында күренә.");
    ("vsCols", JArr [JStr "Метрика"; JStr "Log Guardian"; JStr "Fail2ban"; JStr "CrowdSec"; JStr "ModSec + CRS"]);
    ("vsGroupLabels", JArr [JStr "Көчле яклары (үлчәнгән)"; JStr "Намуслы чикләр"]);
    ("vsRows0", JArr [
      JArr [JStr "Лог → WAF → ядро бан"; JStr "Бер чылбыр"; JStr "Бары бан"; JStr "Кисәкләп"; JStr "WAF аерым"];
      JArr [
        JStr "WAF/CRS үткәрүчәнлеге (шул ук корпус)";
        JStr "280 373 EPS (16,93×)";
        JStr "—";
        JStr "—";
        JStr "16 560 EPS"];
      JArr [JStr "OWASP CRS паритеты"; JStr "100% (121 кагыйдә)"; JStr "—"; JStr "—"; JStr "Эталон (100%)"];
      JArr [JStr "Чын һөҗүм recall"; JStr "100% (1K+10K)"; JStr "—"; JStr "—"; JStr "100%"];
      JArr [
        JStr "Таратылган / JA3 кластер бан";
        JStr "100% (80 IP)";
        JStr "—";
        JStr "Сигналга нигезләнгән";
        JStr "—"];
      JArr [JStr "nginx inline consult"; JStr "PASS"; JStr "—"; JStr "—"; JStr "Аерым модуль"];
      JArr [JStr "L7 кушымта саклавы"; JStr "WAF + consult + eBPF"; JStr "—"; JStr "—"; JStr "CRS inline"];
      JArr [JStr "Ядро / eBPF (XDP) бан"; JStr "ipset + XDP"; JStr "iptables"; JStr "iptables/nft"; JStr "—"];
      JArr [JStr "Ялган позитив"; JStr "0,2% (үлчәнгән)"; JStr "Югары"; JStr "Урта"; JStr "CRS-ка бәйле"];
      JArr [JStr "Бан тоткарлыгы"; JStr "~20 мс"; JStr "сек–мин"; JStr "сек"; JStr "Аерым интеграция"];
      JArr [JStr "Кыска тотрыклылык (5 мин)"; JStr "PASS (0 хата)"; JStr "—"; JStr "—"; JStr "—"];
      JArr [JStr "72с soak"; JStr "PASS (864/0)"; JStr "—"; JStr "—"; JStr "—"];
      JArr [
        JStr "Дәлил тупламы PDF+JSON";
        JStr "Автомат (14 файл)";
        JStr "Юк";
        JStr "Өлешчә";
        JStr "Модуль-модуль"];
      JArr [JStr "Автомат тест матрицасы"; JStr "75 тест"; JStr "—"; JStr "Өлешчә"; JStr "—"];
      JArr [JStr "SOC вакыт сызыгы / дашборд"; JStr "Әйе (:8443)"; JStr "—"; JStr "Консоль"; JStr "—"];
      JArr [JStr "Telegram операция + ack"; JStr "Әйе (бер басу)"; JStr "—"; JStr "Өлешчә"; JStr "—"];
      JArr [JStr "Урнаштыру вакыты"; JStr "~15 мин"; JStr "минут"; JStr "минут"; JStr "сәгать (көйләү)"]]);
    ("vsRows1", JArr [
      JArr [
        JStr "Беренче сорауны шунда ук блоклау";
        JStr "Реактив (лог юлы)";
        JStr "Реактив";
        JStr "Өлешчә";
        JStr "Inline (шунда ук)"];
      JArr [JStr "Күләмле L3/L4 чистарту"; JStr "Юк — CDN тәкъдим ителә"; JStr "Юк"; JStr "Юк"; JStr "Юк"];
      JArr [JStr "Җәмгыять сигнал челтәре"; JStr "Үз-хостинг"; JStr "—"; JStr "Әйе (глобаль)"; JStr "—"];
      JArr [JStr "Edge / Cloud WAF"; JStr "Origin катламы"; JStr "—"; JStr "Bouncer"; JStr "Прокси режимы"];
      JArr [JStr "Идарә ителүче болыт / SaaS"; JStr "Юк (үз-хостинг)"; JStr "Юк"; JStr "Әйе (консоль)"; JStr "—"]]);
    ("requirements", JArr [
      JStr "Ubuntu 22.04 / 24.04 яки Debian 12 (amd64)";
      JStr "nginx + язылучан access лог (log_guardian форматы)";
      JStr "Root яки sudo (systemd, ipset, /etc/log-guardian)";
      JStr "~200 МБ диск, 128 МБ RAM (Core); Pro өчен Docker";
      JStr "Өстәмә Pro: eBPF/XDP өчен 5.10+ ядро, Docker (дашборд/метрикалар)"]);
    ("setup", JObj [
      ("pathTitles", JArr [JStr "Яңа сервер — .deb пакеты"; JStr "Чыганак код — җыю һәм урнаштыру"]);
      ("pathBadges", JArr [JStr "тәкъдим ителә"; JStr "эшләүче"]);
      ("pathNotes", JArr [
        JStr "Җыю таләп ителми. Пакет бинарны, systemd юнитларын, кагыйдәләрне һәм скриптларны китерә. Яңартуга куркынычсыз: булган /etc/log-guardian/rules.conf сакланa. GitHub Releases-тан (log-guardian_*_amd64.deb) яки bash scripts/build_deb.sh → dist/ аша җыегыз.";
        JStr "GitHub репозиторийны клонлагыз һәм җыегыз. Эшләү, көйләү һәм тулы чыганак тикшерүе өчен идеаль. install.sh systemd юнитларын, кагыйдәләрне һәм nginx лог форматын урнаштыра."]);
      ("pathSteps", JArr [
        JArr [
          JObj [
            ("t", JStr "Бәйлелекләр");
            ("d", JStr "Беренче урнаштыруда Debian пакет бәйлелекләрен өстәгез. nginx юк булса, аны шул ук боерыкта өстәп була.")];
          JObj [
            ("t", JStr "Пакетны урнаштыру");
            ("d", JStr "dpkg -i бәйлелек хатасын хәбәр итсә, apt-get install -f эшләтегез. postinst адымы log-guardian кулланучысын, рөхсәтләрне, systemd юнитларын һәм default rules.conf-ны автомат тудыра.")];
          JObj [
            ("t", JStr "Беренче эшләтү һәм API куркынычсызлыгы");
            ("d", JStr "nginx лог форматын, FP trust-ны һәм API куркынычсызлыгын (токен, fail-closed) бер юлы әзерли. Скриптлар пакет эчендә (/usr/local/share/log-guardian/scripts/).")]];
        JArr [
          JObj [
            ("t", JStr "Чыганак һәм җыю");
            ("d", JStr "Репозиторийны клонлагыз, барлык үзәкләр белән җыегыз һәм төп урнаштыру скриптын эшләтегез.")];
          JObj [
            ("t", JStr "Беренче эшләтү һәм токен синхроны");
            ("d", JStr "Хезмәтләрне күтәрә һәм API токен синхронын һәм дашборд бәйләнешен әзерли.")]]]);
      ("commonTitle", JStr "Уртак адымнар (A яки B соңында)");
      ("commonSteps", JArr [
        JObj [
          ("t", JStr "Nginx лог форматы");
          ("d", JStr "WAF сорау гәүдәсен һәм X-Forwarded-For-ны укуы өчен log_guardian лог форматы кирәк. Setup аны гадәттә автомат куллана; STRICT режимында тикшерегез.")];
        JObj [
          ("t", JStr "Сәламәтлек һәм халәт тикшерүе");
          ("d", JStr "Daemon IPC-ны, хезмәт халәтен һәм BPF мөмкинлекләрен тикшерегез. Яшел капка: post_install_verify азагында FAIL: 0 күрергә тиеш.")];
        JObj [
          ("t", JStr "Метрикалар һәм беренче бан тесты");
          ("d", JStr "Prometheus метрикаларын тикшерегез; трафиктан соң санагычларның үсүен күзәтегез. Һөҗүм юлын кертеп бан-ны ipset-та тикшерә аласыз.")];
        JObj [
          ("t", JStr "VirtualBox / XDP-сыз (ноутбук һәм VM)");
          ("d", JStr "eBPF/XDP юк тирәлекләрдә ipset нигезендәге бан белән --no-xdp җитә. Хезмәт бәйлелеге уңышсыз булса, төзәтү скрипты бер боерык.")]]);
      ("dashboardTitle", JStr "Pro дашборд — урнаштырудан соң (өстәмә)");
      ("dashboardBadge", JStr "Pro · өстәмә");
      ("dashboardNote", JStr "Дашборд бу landing сайтта түгел, үз машинагызда эшли. Prod стек Caddy + Docker аша https://localhost:8443 адресендә хезмәт итә.");
      ("dashboardSteps", JArr [
        JObj [
          ("t", JStr "Prod стекны җибәрү");
          ("d", JStr "Үз серверыгызда дашбордны җыя һәм күтәрә. Керү: admin / .env-тагы DASHBOARD_ADMIN_PASSWORD.")];
        JObj [
          ("t", JStr "Ерак VPS өчен SSH туннель");
          ("d", JStr "Дашбордны интернетка ачмыйча куркынычсыз күрер өчен SSH туннель урнаштырыгыз; башта серверны ныгытыгыз.")]])])].
Definition body_ba : json := JObj [
    ("pipelineNote", JStr "XDR, Wasm маркеты һәм LLM Copilot — оҙаҡ мөҙҙәтле өҫтәмә ҡатламдар; Core үҙе генә етештереүгә әҙер.");
    ("selectedBodies", JArr [
      JStr "Бер сылбыр: nginx логы → OWASP CRS → ~20 мс kernel ban. ~15 минутта етештереүҙә.";
      JStr "Флот, SOC ваҡыт һыҙығы, панелдәр — урынлаштырғас үҙ серверыңдағы өҫтәмә ҡатлам.";
      JStr "75 автоматик тест, сағыштырыу PDF, 72 сәғәт soak — dashboard /tests менән бердәй матрица.";
      JStr "Tenant билдәле Prometheus метрикалары, панелдәр һәм иҫкәртеү ҡағиҙәләре — self-hosted күҙәтеү.";
      JStr "Күп төйөнлө флот: агент синхронлау, etcd mesh сәйәсәте һәм маҡсатлы команда ебәреү — бер панелдән.";
      JStr "TAXII/STIX ҡурҡыныс таҫмаһы + Telegram SOC: иҫкәртеү, ban һәм бер баҫып 'ack' — тура оператор ағымы.";
      JStr "XDP фильтры + execve/lineage uprobe'лар — ядро кимәлендә пакет ташлау һәм syscall эҙләү. Ноутбуктарҙа --no-xdp менән ipset етә.";
      JStr "Таратылған сканерҙарҙы асыҡлау: бердәй JA3 эҙе + башҡа IP кластеры, 100% recall — 80 IP тура тест.";
      JStr "Һөжүм ағасы, сығыш зонды, syscall uprobe — оҙаҡ мөҙҙәтле өҫтәмә ҡатлам; һөжүм сылбырын һәм йәшерен каналдарҙы асыҡлау.";
      JStr "Wasm runtime аша махсус ҡағиҙә плагиндары — маркет модель, Core'ға ҡағылмайынса киңәйтеү.";
      JStr "JSON event_type ағымы — Splunk/Elastic/Vector'ға SIEM экспорты дәлиле (siem-export-report.json).";
      JStr "Tarpit сервер + ҡапҡын күҙәтсе — һөжүмсене яйлатыу һәм honeypot сигналы; алдау ҡатламы."]);
    ("advLead", JStr "Fail2ban бары тик ban һала, ModSecurity WAF айырым модуль, CrowdSec өлөшлө стек талап итә. Log Guardian был өс эште бер сылбырҙа берләштерә — үлсәнгән дәлил менән.");
    ("advantages", JArr [
      JObj [
        ("k", JStr "Бер урынлаштырыу, бер сылбыр");
        ("v", JStr "Fail2ban + ModSecurity + CrowdSec'ты айырым урынлаштырып, берләштермәйһегеҙ. nginx логы → WAF/CRS → kernel ban бер продуктта, ~15 мин урынлаштырыу.")];
      JObj [
        ("k", JStr "~20 мс kernel ban");
        ("v", JStr "Лог юлынан ipset/XDP банға медиана ~20 мс. Fail2ban/CrowdSec секунд–минут кимәлендә ҡала; 5 үлсәнгән өлгө менән раҫланған.")];
      JObj [
        ("k", JStr "280 373 EPS · 16,93× ModSec");
        ("v", JStr "Шул уҡ корпуста һәм шул уҡ 121 OWASP CRS өлгөһөндә (PCRE2 JIT) WAF/CRS үткәреү һәләтлеге — 280 373 EPS, ModSec-тың 16 560 EPS-ынан 16,93× тиҙерәк. Үлсәнгән һәм ҡабат яһала торған (bench-vs-modsec.json).")];
      JObj [
        ("k", JStr "100% recall + 100% CRS паритеты");
        ("v", JStr "121 OWASP CRS ҡағиҙәһе, 1500 юллыҡ корпуста ысын һөжүм recall 100% һәм ModSec менән тулы паритет — 0.2% ялған позитивта.")];
      JObj [
        ("k", JStr "Таратылған һөжүмде ҡаплау");
        ("v", JStr "JA3 кластерын асыҡлау + IP буйынса ban — 80 IP тура тестта 100%. Fail2ban яңғыҙ IP'лы; CrowdSec айырым сигнал селтәрен талап итә.")];
      JObj [
        ("k", JStr "Асыҡ, ҡабат етештерелә торған дәлил");
        ("v", JStr "75 автоматик тест + 14 файллы дәлил пакеты + 72 сәғәт soak (864 өлгө, 0 хата). Көндәштәрҙә автоматик дәлил юҡ йәки өлөшлө.")];
      JObj [
        ("k", JStr "Self-hosted · MIT · Төркиәлә яһалған");
        ("v", JStr "Мәғлүмәтегеҙ һеҙҙә ҡала, вендорға бәйлелек юҡ, тулыһынса асыҡ код. SOC ваҡыт һыҙығы, Prometheus метрикалары һәм Telegram идараһы бер панелдә (:8443).")]]);
    ("vsNote", JStr "Намыҫлы сик: ҡайһы бер өлкәләрҙә көндәштәр асыҡ яҡшыраҡ (ҡыҙыл күҙәнәктәр). ModSec + CRS беренсе һорауҙы шунда уҡ блоклауҙа алда; CrowdSec таратылған йәмғиәт сигнал селтәрендә һәм идара ителгән SaaS консолендә көслө. Уның ҡарауы шул уҡ корпуста һәм шул уҡ 121 CRS өлгөһөндә WAF/CRS үткәреү һәләтебеҙ — 280 373 EPS, ModSec-тың 16 560 EPS-ынан 16,93× юғарыраҡ (bench-vs-modsec.json).");
    ("vsLegend", JStr "Ҡыҙыл = шул юлдағы еңеүсе");
    ("honestItems", JArr [
      JStr "Реактив архитектура — лог юлы төшкәнсе беренсе һорау үтә ала; беҙ ModSec'тың inline тиҙлегендә түгел.";
      JStr "L3/L4 DDoS'ты һеңдермәйбеҙ — CDN артында торабыҙ.";
      JStr "Таратылған ботнет — IP буйынса ban; CrowdSec сигнал селтәре юҡ.";
      JStr "Эшләй: лог → CRS/WAF → ~20 мс kernel ban, дәлил PDF, Telegram идара, MIT self-hosted."]);
    ("layersBodies", JArr [
      JStr "лог → WAF → ipset ban (~15 мин)";
      JStr "eBPF демоны, панель, метрикалар, флот";
      JStr "K8s/Helm (kind) + fleet + Wasm/mesh"]);
    ("layersNote", JStr "XDR, Wasm маркеты һәм LLM Copilot — оҙаҡ мөҙҙәтле өҫтәмә ҡатламдар; Core үҙе генә етештереүгә әҙер.");
    ("setupIntro", JStr "Сығанаҡ: GitHub — Linux-Log-Guardian. Ике юл: әҙер .deb пакеты (тәҡдим ителә) йәки сығанаҡтан йыйыу. Ноутбук/ВМ'ла eBPF/XDP'һыҙ ҙа эшләй (ipset нигеҙле ban). Түбәндәге аҙымдар етештереү сервере өсөн; һәр команданың көтөлгән сығышы индерелгән.");
    ("setupTip", JStr "Кәңәш: JWT һәм панель серһүҙе өсөн bash scripts/laptop_jwt_setup.sh ҡулланығыҙ. 3 минутлыҡ демо: SKIP_WEBHOOK=1 bash scripts/demo_3min.sh. Документтар: docs/QUICKSTART_NGINX.md · docs/LAPTOP_OPS.md · docs/SECURITY_PROFILES.md.");
    ("contactBody", JStr "Һорауҙар, хеҙмәттәшлек йәки өлөш индереү өсөн яҙығыҙ. Асыҡ код рухында хата хәбәрҙәре һәм pull request'тар рәхим итеп ҡабул ителә.");
    ("footerDesc", JStr "nginx инеү логы → WAF/CRS → kernel ban. Бер сылбыр, self-hosted, MIT лицензиялы. Төркиәлә яһалған.");
    ("footerSoak", JStr "72 сәғәт soak PASS · 0 хата");
    ("proofBody", JStr "Слайд түгел, ҡабат етештерелә торған дәлил. OWASP CRS паритеты, ялған позитив ҡапҡалары, ban тотҡарлығы бенчмарктары, корпус recall һәм 72 сәғәтлек soak — барыһы ла үлсәнгән, автоматлаштырылған һәм асыҡ тест матрицаһында күренә.");
    ("vsCols", JArr [JStr "Метрика"; JStr "Log Guardian"; JStr "Fail2ban"; JStr "CrowdSec"; JStr "ModSec + CRS"]);
    ("vsGroupLabels", JArr [JStr "Көслө яҡтары (үлсәнгән)"; JStr "Намыҫлы сиктәр"]);
    ("vsRows0", JArr [
      JArr [JStr "Лог → WAF → ядро бан"; JStr "Бер сылбыр"; JStr "Тик бан"; JStr "Киҫәкләп"; JStr "WAF айырым"];
      JArr [
        JStr "WAF/CRS үткәреү һәләтлеге (шул уҡ корпус)";
        JStr "280 373 EPS (16,93×)";
        JStr "—";
        JStr "—";
        JStr "16 560 EPS"];
      JArr [JStr "OWASP CRS паритеты"; JStr "100% (121 ҡағиҙә)"; JStr "—"; JStr "—"; JStr "Эталон (100%)"];
      JArr [JStr "Ысын һөжүм recall"; JStr "100% (1K+10K)"; JStr "—"; JStr "—"; JStr "100%"];
      JArr [
        JStr "Таратылған / JA3 кластер бан";
        JStr "100% (80 IP)";
        JStr "—";
        JStr "Сигналға нигеҙләнгән";
        JStr "—"];
      JArr [JStr "nginx inline consult"; JStr "PASS"; JStr "—"; JStr "—"; JStr "Айырым модуль"];
      JArr [JStr "L7 ҡушымта һаҡлауы"; JStr "WAF + consult + eBPF"; JStr "—"; JStr "—"; JStr "CRS inline"];
      JArr [JStr "Ядро / eBPF (XDP) бан"; JStr "ipset + XDP"; JStr "iptables"; JStr "iptables/nft"; JStr "—"];
      JArr [JStr "Ялған позитив"; JStr "0,2% (үлсәнгән)"; JStr "Юғары"; JStr "Урта"; JStr "CRS-ҡа бәйле"];
      JArr [JStr "Бан тотҡарлығы"; JStr "~20 мс"; JStr "сек–мин"; JStr "сек"; JStr "Айырым интеграция"];
      JArr [JStr "Ҡыҫҡа тотороҡлолоҡ (5 мин)"; JStr "PASS (0 хата)"; JStr "—"; JStr "—"; JStr "—"];
      JArr [JStr "72с soak"; JStr "PASS (864/0)"; JStr "—"; JStr "—"; JStr "—"];
      JArr [
        JStr "Дәлил тупламы PDF+JSON";
        JStr "Автомат (14 файл)";
        JStr "Юҡ";
        JStr "Өлөшләтә";
        JStr "Модуль-модуль"];
      JArr [JStr "Автомат тест матрицаһы"; JStr "75 тест"; JStr "—"; JStr "Өлөшләтә"; JStr "—"];
      JArr [JStr "SOC ваҡыт һыҙығы / дашборд"; JStr "Эйе (:8443)"; JStr "—"; JStr "Консоль"; JStr "—"];
      JArr [JStr "Telegram операция + ack"; JStr "Эйе (бер баҫыу)"; JStr "—"; JStr "Өлөшләтә"; JStr "—"];
      JArr [JStr "Урынлаштырыу ваҡыты"; JStr "~15 мин"; JStr "минут"; JStr "минут"; JStr "сәғәт (көйләү)"]]);
    ("vsRows1", JArr [
      JArr [
        JStr "Беренсе һорауҙы шунда уҡ блоклау";
        JStr "Реактив (лог юлы)";
        JStr "Реактив";
        JStr "Өлөшләтә";
        JStr "Inline (шунда уҡ)"];
      JArr [JStr "Күләмле L3/L4 таҙартыу"; JStr "Юҡ — CDN тәҡдим ителә"; JStr "Юҡ"; JStr "Юҡ"; JStr "Юҡ"];
      JArr [JStr "Йәмғиәт сигнал селтәре"; JStr "Үҙ-хостинг"; JStr "—"; JStr "Эйе (глобаль)"; JStr "—"];
      JArr [JStr "Edge / Cloud WAF"; JStr "Origin ҡатламы"; JStr "—"; JStr "Bouncer"; JStr "Прокси режимы"];
      JArr [JStr "Идара ителеүсе болот / SaaS"; JStr "Юҡ (үҙ-хостинг)"; JStr "Юҡ"; JStr "Эйе (консоль)"; JStr "—"]]);
    ("requirements", JArr [
      JStr "Ubuntu 22.04 / 24.04 йәки Debian 12 (amd64)";
      JStr "nginx + яҙылыусан access лог (log_guardian форматы)";
      JStr "Root йәки sudo (systemd, ipset, /etc/log-guardian)";
      JStr "~200 МБ диск, 128 МБ RAM (Core); Pro өсөн Docker";
      JStr "Өҫтәмә Pro: eBPF/XDP өсөн 5.10+ ядро, Docker (дашборд/метрикалар)"]);
    ("setup", JObj [
      ("pathTitles", JArr [JStr "Яңы сервер — .deb пакеты"; JStr "Сығанаҡ код — йыйыу һәм урынлаштырыу"]);
      ("pathBadges", JArr [JStr "тәҡдим ителә"; JStr "эшләүсе"]);
      ("pathNotes", JArr [
        JStr "Йыйыу талап ителмәй. Пакет бинарҙы, systemd юниттарын, ҡағиҙәләрҙе һәм скрипттарҙы килтерә. Яңыртыуға хәүефһеҙ: булған /etc/log-guardian/rules.conf һаҡлана. GitHub Releases-тан (log-guardian_*_amd64.deb) йәки bash scripts/build_deb.sh → dist/ аша йыйығыҙ.";
        JStr "GitHub репозиторийын клонлағыҙ һәм йыйығыҙ. Эшләү, көйләү һәм тулы сығанаҡ тикшереүе өсөн идеаль. install.sh systemd юниттарын, ҡағиҙәләрҙе һәм nginx лог форматын урынлаштыра."]);
      ("pathSteps", JArr [
        JArr [
          JObj [
            ("t", JStr "Бәйлелектәр");
            ("d", JStr "Беренсе урынлаштырыуҙа Debian пакет бәйлелектәрен өҫтәгеҙ. nginx юҡ булһа, уны шул уҡ бойороҡта өҫтәп була.")];
          JObj [
            ("t", JStr "Пакетты урынлаштырыу");
            ("d", JStr "dpkg -i бәйлелек хатаһын хәбәр итһә, apt-get install -f эшләтегеҙ. postinst аҙымы log-guardian ҡулланыусыһын, рөхсәттәрҙе, systemd юниттарын һәм default rules.conf-ты автомат тыуҙыра.")];
          JObj [
            ("t", JStr "Беренсе эшләтеү һәм API хәүефһеҙлеге");
            ("d", JStr "nginx лог форматын, FP trust-ты һәм API хәүефһеҙлеген (токен, fail-closed) бер юлы әҙерләй. Скрипттар пакет эсендә (/usr/local/share/log-guardian/scripts/).")]];
        JArr [
          JObj [
            ("t", JStr "Сығанаҡ һәм йыйыу");
            ("d", JStr "Репозиторийҙы клонлағыҙ, бөтә үҙәктәр менән йыйығыҙ һәм төп урынлаштырыу скриптын эшләтегеҙ.")];
          JObj [
            ("t", JStr "Беренсе эшләтеү һәм токен синхроны");
            ("d", JStr "Хеҙмәттәрҙе күтәрә һәм API токен синхронын һәм дашборд бәйләнешен әҙерләй.")]]]);
      ("commonTitle", JStr "Уртаҡ аҙымдар (A йәки B һуңында)");
      ("commonSteps", JArr [
        JObj [
          ("t", JStr "Nginx лог форматы");
          ("d", JStr "WAF һорау кәүҙәһен һәм X-Forwarded-For-ҙы уҡыуы өсөн log_guardian лог форматы кәрәк. Setup уны ғәҙәттә автомат ҡуллана; STRICT режимында тикшерегеҙ.")];
        JObj [
          ("t", JStr "Һаулыҡ һәм торош тикшереүе");
          ("d", JStr "Daemon IPC-ҙы, хеҙмәт торошон һәм BPF мөмкинлектәрен тикшерегеҙ. Йәшел ҡапҡа: post_install_verify аҙағында FAIL: 0 күрергә тейеш.")];
        JObj [
          ("t", JStr "Метрикалар һәм беренсе бан тесты");
          ("d", JStr "Prometheus метрикаларын тикшерегеҙ; трафиктан һуң һанағыстарҙың үҫеүен күҙәтегеҙ. Һөжүм юлын индереп бан-ды ipset-та тикшерә алаһығыҙ.")];
        JObj [
          ("t", JStr "VirtualBox / XDP-һыҙ (ноутбук һәм VM)");
          ("d", JStr "eBPF/XDP юҡ тирәлектәрҙә ipset нигеҙендәге бан менән --no-xdp етә. Хеҙмәт бәйлелеге уңышһыҙ булһа, төҙәтеү скрипты бер бойороҡ.")]]);
      ("dashboardTitle", JStr "Pro дашборд — урынлаштырыуҙан һуң (өҫтәмә)");
      ("dashboardBadge", JStr "Pro · өҫтәмә");
      ("dashboardNote", JStr "Дашборд был landing сайтта түгел, үҙ машинағыҙҙа эшләй. Prod стек Caddy + Docker аша https://localhost:8443 адресында хеҙмәт итә.");
      ("dashboardSteps", JArr [
        JObj [
          ("t", JStr "Prod стекты ебәреү");
          ("d", JStr "Үҙ серверығыҙҙа дашбордты йыя һәм күтәрә. Инеү: admin / .env-тағы DASHBOARD_ADMIN_PASSWORD.")];
        JObj [
          ("t", JStr "Алыҫ VPS өсөн SSH туннель");
          ("d", JStr "Дашбордты интернетҡа асмайынса хәүефһеҙ күреү өсөн SSH туннель урынлаштырығыҙ; башта серверҙы нығытығыҙ.")]])])].
Definition body_cv : json := JObj [
    ("pipelineNote", JStr "XDR, Wasm маркечӗ тата LLM Copilot — вӑрӑм вӑхӑтлӑ хушма сийсем; Core хӑй тӗллӗн продакшена хатӗр.");
    ("selectedBodies", JArr [
      JStr "Пӗр сӑнчӑр: nginx логӗ → OWASP CRS → ~20 мс kernel бан. ~15 минутра продакшенра.";
      JStr "Флот, SOC вӑхӑт линийӗ, панельсем — вырнаҫтарнӑ хыҫҫӑн хӑвӑн серверунти хушма сий.";
      JStr "75 автомат тест, танлаштару PDF, 72 сехет soak — dashboard /tests пекех матрица.";
      JStr "Tenant паллӑллӑ Prometheus метрикисем, панельсем тата асӑрхаттару правилисем — self-hosted сӑнав.";
      JStr "Нумай тӗвӗллӗ флот: агент синхронлани, etcd mesh политики тата тӗллевлӗ команда яни — пӗр панельрен.";
      JStr "TAXII/STIX хӑрушлӑх ленти + Telegram SOC: асӑрхаттару, бан тата пӗр пусса 'ack' — чӗрӗ оператор юхӑмӗ.";
      JStr "XDP фильтрӗ + execve/lineage uprobe-сем — ядро шайӗнче пакет пӑрахни тата syscall йӗрлени. Ноутбуксем ҫинче --no-xdp тата ipset ҫитет.";
      JStr "Сарӑлнӑ сканерсене тупни: пӗр евӗр JA3 йӗрӗ + урӑх IP кластерӗ, 100% recall — 80 IP чӗрӗ тест.";
      JStr "Тапӑну йывӑҫҫи, тӗпчев зончӗ, syscall uprobe — вӑрӑм вӑхӑтлӑ хушма сий; тапӑну сӑнчӑрне тата пытанчӑк каналсене тупни.";
      JStr "Wasm runtime урлӑ ятарлӑ правило плагинӗсем — маркет модель, Core-а тӗкӗнмесӗр анлӑлатни.";
      JStr "JSON event_type юхӑмӗ — Splunk/Elastic/Vector валли SIEM экспорт кӑтартӑвӗ (siem-export-report.json).";
      JStr "Tarpit сервер + тапӑ сӑнавҫи — тапӑнакана вӑрахлатни тата honeypot сигналӗ; улталу сийӗ."]);
    ("advLead", JStr "Fail2ban тӳрех бан ҫеҫ тӑвать, ModSecurity WAF уйрӑм модуль, CrowdSec татӑк-татӑк стек ыйтать. Log Guardian ку виҫӗ ӗҫе пӗр сӑнчӑрта пӗрлештерет — виҫнӗ кӑтартупа.");
    ("advantages", JArr [
      JObj [
        ("k", JStr "Пӗр вырнаҫтару, пӗр сӑнчӑр");
        ("v", JStr "Fail2ban + ModSecurity + CrowdSec-а уйрӑммӑн вырнаҫтарса пӗрлештерместӗр. nginx логӗ → WAF/CRS → kernel бан пӗр продуктра, ~15 мин вырнаҫтару.")];
      JObj [
        ("k", JStr "~20 мс kernel бан");
        ("v", JStr "Лог йӗркинчен ipset/XDP бана медиана ~20 мс. Fail2ban/CrowdSec ҫекунт–минут шайӗнче юлаҫҫӗ; 5 виҫнӗ тӗслӗхпе ҫирӗплетнӗ.")];
      JObj [
        ("k", JStr "280 373 EPS · 16,93× ModSec");
        ("v", JStr "Ҫав корпусра тата ҫав 121 OWASP CRS үлгинче (PCRE2 JIT) WAF/CRS витӗмлӗхӗ — 280 373 EPS, ModSec 16 560 EPS-ӗнчен 16,93× хӑвӑртрах. Виҫнӗ тата тепӗр хут кӑларма пулакан (bench-vs-modsec.json).")];
      JObj [
        ("k", JStr "100% recall + 100% CRS паритечӗ");
        ("v", JStr "121 OWASP CRS правили, 1500 йӗркеллӗ корпусра чӑн тапӑну recall 100% тата ModSec-па тулли паритет — 0.2% суя позитивра.")];
      JObj [
        ("k", JStr "Сарӑлнӑ тапӑнӑва хуплани");
        ("v", JStr "JA3 кластерне тупни + IP тӑрӑх бан — 80 IP чӗрӗ тестра 100%. Fail2ban пӗр IP-лӑ; CrowdSec уйрӑм сигнал тетелне ыйтать.")];
      JObj [
        ("k", JStr "Уҫӑ, тепӗр хут тӑвакан кӑтарту");
        ("v", JStr "75 автомат тест + 14 файллӑ кӑтарту пакечӗ + 72 сехет soak (864 тӗслӗх, 0 йӑнӑш). Конкурентсен автомат кӑтарту ҫук е татӑк-татӑк.")];
      JObj [
        ("k", JStr "Self-hosted · MIT · Турцире тунӑ");
        ("v", JStr "Сирӗн даннӑйсем сирӗнте юлаҫҫӗ, вендора ҫыхӑнни ҫук, пӗтӗмпех уҫӑ код. SOC вӑхӑт линийӗ, Prometheus метрикисем тата Telegram майлашӑвӗ пӗр панельре (:8443).")]]);
    ("vsNote", JStr "Тӳрӗ чикӗ: хӑш-пӗр енре конкурентсем уҫҫӑнах лайӑхрах (хӗрлӗ клеткӑсем). ModSec + CRS пӗрремӗш ыйтӑва самантрах пӳлнинче мала тухать; CrowdSec сарӑлнӑ обществӑ сигнал тетелӗнче тата майлаштарнӑ SaaS консольте вӑйлӑ. Ун вырӑнне ҫав корпусра тата ҫав 121 CRS үлгинче WAF/CRS витӗмлӗхӗмӗр — 280 373 EPS, ModSec 16 560 EPS-ӗнчен 16,93× пысӑкрах (bench-vs-modsec.json).");
    ("vsLegend", JStr "Хӗрлӗ = ҫав йӗркери ҫӗнтерекен");
    ("honestItems", JArr [
      JStr "Реактивлӑ архитектура — лог йӗрки ӳкиччен пӗрремӗш ыйту иртме пултарать; эпир ModSec inline хӑвӑртлӑхӗнче мар.";
      JStr "L3/L4 DDoS-а ҫӑтмастпӑр — CDN хыҫӗнче тӑратпӑр.";
      JStr "Сарӑлнӑ ботнет — IP тӑрӑх бан; CrowdSec сигнал тетелӗ ҫук.";
      JStr "Тӑвать: лог → CRS/WAF → ~20 мс kernel бан, кӑтарту PDF, Telegram майлашу, MIT self-hosted."]);
    ("layersBodies", JArr [
      JStr "лог → WAF → ipset бан (~15 мин)";
      JStr "eBPF демонӗ, панель, метрикисем, флот";
      JStr "K8s/Helm (kind) + fleet + Wasm/mesh"]);
    ("layersNote", JStr "XDR, Wasm маркечӗ тата LLM Copilot — вӑрӑм вӑхӑтлӑ хушма сийсем; Core хӑй тӗллӗн продакшена хатӗр.");
    ("setupIntro", JStr "Ҫӑлкуҫ: GitHub — Linux-Log-Guardian. Икӗ ҫул: хатӗр .deb пакет (сӗнетпӗр) е ҫӑлкуҫран пуҫтарни. Ноутбук/ВМ ҫинче eBPF/XDP-сӗр те ӗҫлет (ipset никӗслӗ бан). Аялти утӑмсем продакшен сервер валли; кашни команда кӗтнӗ кӑларӑм кӗртнӗ.");
    ("setupTip", JStr "Канаш: JWT тата панель паролӗ валли bash scripts/laptop_jwt_setup.sh усӑ курӑр. 3 минутлӑ демо: SKIP_WEBHOOK=1 bash scripts/demo_3min.sh. Документсем: docs/QUICKSTART_NGINX.md · docs/LAPTOP_OPS.md · docs/SECURITY_PROFILES.md.");
    ("contactBody", JStr "Ыйтусем, пӗрле ӗҫлени е хутшӑну валли ҫырӑр. Уҫӑ код кӑмӑлӗпе йӑнӑш хыпарӗсене тата pull request-сене хапӑл тӑватпӑр.");
    ("footerDesc", JStr "nginx кӗрӳ логӗ → WAF/CRS → kernel бан. Пӗр сӑнчӑр, self-hosted, MIT лицензиллӗ. Турцире тунӑ.");
    ("footerSoak", JStr "72 сехет soak PASS · 0 йӑнӑш");
    ("proofBody", JStr "Слайд мар, тепӗр хут тӑвакан кӑтарту. OWASP CRS паритечӗ, суя позитив хапхисем, бан кӗтӗвӗн бенчмаркӗсем, корпус recall тата 72 сехетлӗ soak — пурте виҫнӗ, автоматланӑ тата уҫӑ тест матрицинче курӑнать.");
    ("vsCols", JArr [JStr "Метрика"; JStr "Log Guardian"; JStr "Fail2ban"; JStr "CrowdSec"; JStr "ModSec + CRS"]);
    ("vsGroupLabels", JArr [JStr "Вӑйлӑ енӗсем (виҫнӗ)"; JStr "Тӳрӗ чиккисем"]);
    ("vsRows0", JArr [
      JArr [JStr "Лог → WAF → ядро бан"; JStr "Пӗр сӑнчӑр"; JStr "Бан анчах"; JStr "Пайӑн-пайӑн"; JStr "WAF уйрӑм"];
      JArr [
        JStr "WAF/CRS витӗмлӗхӗ (ҫав корпус)";
        JStr "280 373 EPS (16,93×)";
        JStr "—";
        JStr "—";
        JStr "16 560 EPS"];
      JArr [JStr "OWASP CRS паритечӗ"; JStr "100% (121 правило)"; JStr "—"; JStr "—"; JStr "Эталон (100%)"];
      JArr [JStr "Чӑн тапӑну recall"; JStr "100% (1K+10K)"; JStr "—"; JStr "—"; JStr "100%"];
      JArr [JStr "Сапаланӑ / JA3 кластер бан"; JStr "100% (80 IP)"; JStr "—"; JStr "Сигнал ҫинче"; JStr "—"];
      JArr [JStr "nginx inline consult"; JStr "PASS"; JStr "—"; JStr "—"; JStr "Уйрӑм модуль"];
      JArr [JStr "L7 приложени хӳтлӗхӗ"; JStr "WAF + consult + eBPF"; JStr "—"; JStr "—"; JStr "CRS inline"];
      JArr [JStr "Ядро / eBPF (XDP) бан"; JStr "ipset + XDP"; JStr "iptables"; JStr "iptables/nft"; JStr "—"];
      JArr [JStr "Суя позитив"; JStr "0,2% (виҫнӗ)"; JStr "Ҫӳллӗ"; JStr "Вӑтам"; JStr "CRS ҫине килет"];
      JArr [JStr "Бан кӗтесси"; JStr "~20 мс"; JStr "ҫек–мин"; JStr "ҫек"; JStr "Уйрӑм интеграци"];
      JArr [JStr "Кӗске тӑнӑҫлӑх (5 мин)"; JStr "PASS (0 йӑнӑш)"; JStr "—"; JStr "—"; JStr "—"];
      JArr [JStr "72с soak"; JStr "PASS (864/0)"; JStr "—"; JStr "—"; JStr "—"];
      JArr [
        JStr "Кӑтарту пакечӗ PDF+JSON";
        JStr "Автомат (14 файл)";
        JStr "Ҫук";
        JStr "Пайӑн";
        JStr "Модуль-модуль"];
      JArr [JStr "Автомат тест матрици"; JStr "75 тест"; JStr "—"; JStr "Пайӑн"; JStr "—"];
      JArr [JStr "SOC вӑхӑт линийӗ / дашборд"; JStr "Ҫапла (:8443)"; JStr "—"; JStr "Консоль"; JStr "—"];
      JArr [JStr "Telegram операци + ack"; JStr "Ҫапла (пӗр пусӑ)"; JStr "—"; JStr "Пайӑн"; JStr "—"];
      JArr [JStr "Вырнаҫтару вӑхӑчӗ"; JStr "~15 мин"; JStr "минут"; JStr "минут"; JStr "сехет (тӳрлетӳ)"]]);
    ("vsRows1", JArr [
      JArr [
        JStr "Пӗрремӗш ыйтӑва тӳрех блоклани";
        JStr "Реактивлӑ (лог йӗрки)";
        JStr "Реактивлӑ";
        JStr "Пайӑн";
        JStr "Inline (тӳрех)"];
      JArr [JStr "Калӑплӑ L3/L4 тасату"; JStr "Ҫук — CDN сӗнеҫҫӗ"; JStr "Ҫук"; JStr "Ҫук"; JStr "Ҫук"];
      JArr [JStr "Пӗрлӗх сигнал тетелӗ"; JStr "Хӑй-хостинг"; JStr "—"; JStr "Ҫапла (глобаллӑ)"; JStr "—"];
      JArr [JStr "Edge / Cloud WAF"; JStr "Origin сийӗ"; JStr "—"; JStr "Bouncer"; JStr "Прокси режимӗ"];
      JArr [
        JStr "Тытса пыракан пӗлӗт / SaaS";
        JStr "Ҫук (хӑй-хостинг)";
        JStr "Ҫук";
        JStr "Ҫапла (консоль)";
        JStr "—"]]);
    ("requirements", JArr [
      JStr "Ubuntu 22.04 / 24.04 е Debian 12 (amd64)";
      JStr "nginx + ҫырма пулакан access лог (log_guardian форматне)";
      JStr "Root е sudo (systemd, ipset, /etc/log-guardian)";
      JStr "~200 МБ диск, 128 МБ RAM (Core); Pro валли Docker";
      JStr "Хушма Pro: eBPF/XDP валли 5.10+ ядро, Docker (дашборд/метрикӑсем)"]);
    ("setup", JObj [
      ("pathTitles", JArr [JStr "Ҫӗнӗ сервер — .deb пакет"; JStr "Пуҫламӑш код — пуҫтарни тата вырнаҫтарни"]);
      ("pathBadges", JArr [JStr "сӗнеҫҫӗ"; JStr "аталантаракан"]);
      ("pathNotes", JArr [
        JStr "Пуҫтарма кирлӗ мар. Пакет бинарне, systemd юничӗсене, правилӑсене тата скриптсене илсе килет. Ҫӗнетме хӑрушсӑр: пур /etc/log-guardian/rules.conf упранать. GitHub Releases-ран (log-guardian_*_amd64.deb) е bash scripts/build_deb.sh → dist/ урлӑ пуҫтарӑр.";
        JStr "GitHub репозиторине клонлӑр тата пуҫтарӑр. Аталантару, тӳрлетӳ тата тулли код тӗрӗслев валли идеаллӑ. install.sh systemd юничӗсене, правилӑсене тата nginx лог форматне вырнаҫтарать."]);
      ("pathSteps", JArr [
        JArr [
          JObj [
            ("t", JStr "Ҫыхӑнусем");
            ("d", JStr "Пӗрремӗш вырнаҫтарура Debian пакет ҫыхӑнӑвӗсене хушӑр. nginx ҫук пулсан, ӑна ҫав хушурах хушма пулать.")];
          JObj [
            ("t", JStr "Пакет вырнаҫтарни");
            ("d", JStr "dpkg -i ҫыхӑну йӑнӑшӗ пӗлтерсен, apt-get install -f ӗҫлеттерӗр. postinst утӑмӗ log-guardian усӑ куракана, ирӗксене, systemd юничӗсене тата default rules.conf-а автомат туса хурать.")];
          JObj [
            ("t", JStr "Пӗрремӗш ӗҫлеттерни тата API хӑрушсӑрлӑхӗ");
            ("d", JStr "nginx лог форматне, FP trust-а тата API хӑрушсӑрлӑхне (токен, fail-closed) пӗр харӑс хатӗрлет. Скриптсем пакет ӑшӗнче (/usr/local/share/log-guardian/scripts/).")]];
        JArr [
          JObj [
            ("t", JStr "Пуҫламӑш код тата пуҫтарни");
            ("d", JStr "Репозиторине клонлӑр, пур ядрӑпа пуҫтарӑр тата тӗп вырнаҫтару скриптне ӗҫлеттерӗр.")];
          JObj [
            ("t", JStr "Пӗрремӗш ӗҫлеттерни тата токен синхронӗ");
            ("d", JStr "Ӗҫсене ҫӗклет тата API токен синхронне тата дашборд ҫыхӑнӑвне хатӗрлет.")]]]);
      ("commonTitle", JStr "Пӗрлехи утӑмсем (A е B хыҫҫӑн)");
      ("commonSteps", JArr [
        JObj [
          ("t", JStr "Nginx лог формачӗ");
          ("d", JStr "WAF ыйту кӗлеткине тата X-Forwarded-For-а вулама log_guardian лог форматне кирлӗ. Setup ӑна яланах автомат хурать; STRICT режимра тӗрӗслӗр.")];
        JObj [
          ("t", JStr "Сывлӑх тата тӑрӑм тӗрӗслев");
          ("d", JStr "Daemon IPC-не, ӗҫ тӑрӑмне тата BPF пахалӑхӗсене тӗрӗслӗр. Симӗс хапха: post_install_verify вӗҫӗнче FAIL: 0 курмалла.")];
        JObj [
          ("t", JStr "Метрикӑсем тата пӗрремӗш бан тест");
          ("d", JStr "Prometheus метрикисене тӗрӗслӗр; трафик хыҫҫӑн шутлавҫӑсем ӳснине сӑнӑр. Тапӑну йӗркине кӗртсе бан-а ipset-ра тӗрӗслеме пулать.")];
        JObj [
          ("t", JStr "VirtualBox / XDP-сӗр (ноутбук тата VM)");
          ("d", JStr "eBPF/XDP ҫук хутлӑхсенче ipset ҫинчи бан тата --no-xdp ҫитет. Ӗҫ ҫыхӑнӑвӗ ӑнӑҫмасан, юсав скрипчӗ пӗр хушу.")]]);
      ("dashboardTitle", JStr "Pro дашборд — вырнаҫтарнӑ хыҫҫӑн (хушма)");
      ("dashboardBadge", JStr "Pro · хушма");
      ("dashboardNote", JStr "Дашборд ку landing сайтра мар, хӑвӑр машинӑра ӗҫлет. Prod стек Caddy + Docker урлӑ https://localhost:8443 адресра ӗҫлет.");
      ("dashboardSteps", JArr [
        JObj [
          ("t", JStr "Prod стека тапратни");
          ("d", JStr "Хӑвӑр серверӑра дашборда пуҫтарать тата ҫӗклет. Кӗрӳ: admin / .env-ри DASHBOARD_ADMIN_PASSWORD.")];
        JObj [
          ("t", JStr "Инҫетри VPS валли SSH туннель");
          ("d", JStr "Дашборда интернета уҫмасӑр хӑрушсӑр курма SSH туннель вырнаҫтарӑр; малтан сервера ҫирӗплетӗр.")]])])].
Definition body_crh : json := JObj [
    ("pipelineNote", JStr "XDR, Wasm marketi ve LLM Copilot uzun vadeli qoşımca qatlardır — Core tek başına istihsalge azır.");
    ("selectedBodies", JArr [
      JStr "Tek zıncır: nginx logu → OWASP CRS → ~20 ms kernel ban. ~15 daqiqada istihsalde.";
      JStr "Filo, SOC vaqıt sızığı, pan'eller — qurulımdan soñ öz serverıñızdaki qoşımca qat.";
      JStr "75 avtomatik test, qıyaslav PDF, 72 saat soak — dashboard /tests ile aynı matritsa.";
      JStr "Tenant belgili Prometheus metrikaları, pan'eller ve tenbih qaideleri — self-hosted közetüv.";
      JStr "Çoq tügünli filo: agent sinhronlav, etcd mesh siyaseti ve maqsatlı buyruq yiberüv — bir pan'elden.";
      JStr "TAXII/STIX qorqu lentası + Telegram SOC: tenbih, ban ve bir basıp 'ack' — canlı operator aqımı.";
      JStr "XDP süzgüçi + execve/lineage uprobe'ları — kernel seviyesinde paket taşlav ve syscall izlev. Noutbuklarda --no-xdp ve ipset yeter.";
      JStr "Dağıtıq skanerlerni tapuv: aynı JA3 izi + başqa IP klaster, 100% recall — 80 IP canlı test.";
      JStr "Hücum terekası, menşe zondı, syscall uprobe — uzun vadeli qoşımca qat; hücum zıncırını ve gizli kanallarnı tapuv.";
      JStr "Wasm runtime vastasınen mahsus qaide pluginleri — market model, Core'ge tiymeyip kenişletüv.";
      JStr "JSON event_type aqımı — Splunk/Elastic/Vector'ge SIEM eksport delili (siem-export-report.json).";
      JStr "Tarpit server + tuzaq közetici — hücumcını yavaşlatuv ve honeypot signalı; aldatuv qatı."]);
    ("advLead", JStr "Fail2ban tek ban yapa, ModSecurity WAF ayrı modul, CrowdSec parça-parça stek ister. Log Guardian bu üç işni tek zıncırda birleştire — ölçengen delilnen.");
    ("advantages", JArr [
      JObj [
        ("k", JStr "Bir qurulım, bir zıncır");
        ("v", JStr "Fail2ban + ModSecurity + CrowdSec'ni ayrı qurup birleştirmeysiñiz. nginx logu → WAF/CRS → kernel ban tek mahsulda, ~15 daq qurulım.")];
      JObj [
        ("k", JStr "~20 ms kernel ban");
        ("v", JStr "Log satırından ipset/XDP banğa mediana ~20 ms. Fail2ban/CrowdSec saniye–daqiqa seviyesinde qala; 5 ölçengen örneknen isbatlanğan.")];
      JObj [
        ("k", JStr "280 373 EPS · 16,93× ModSec");
        ("v", JStr "Aynı korpus ve aynı 121 OWASP CRS pattern (PCRE2 JIT) üzerinde WAF/CRS ötkerim qabiliyeti 280 373 EPS — ModSec'niñ 16 560 EPS'inden 16,93× daa tez. Ölçengen ve kene çıqarıla bilgen (bench-vs-modsec.json).")];
      JObj [
        ("k", JStr "100% recall + 100% CRS pariteti");
        ("v", JStr "121 OWASP CRS qaidesi, 1500 satırlıq korpusta kerçek hücum recall 100% ve ModSec ile tam paritet — 0.2% yañlış pozitivde.")];
      JObj [
        ("k", JStr "Dağıtıq hücumnı qaplav");
        ("v", JStr "JA3 klaster tapuv + IP başına ban — 80 IP canlı testte 100%. Fail2ban tek IP'li; CrowdSec ayrı signal ağını ister.")];
      JObj [
        ("k", JStr "Şeffaf, tekrar tüzülgen delil");
        ("v", JStr "75 avtomatik test + 14 fayllı delil paketi + 72 saat soak (864 örnek, 0 hata). Raqiplerde avtomatik delil yoq ya da parça-parça.")];
      JObj [
        ("k", JStr "Self-hosted · MIT · Türkiyede yapılğan");
        ("v", JStr "Malümatıñız sizde qala, vendor bağlılığı yoq, tamamen açıq kod. SOC vaqıt sızığı, Prometheus metrikaları ve Telegram idaresi bir pan'elde (:8443).")]]);
    ("vsNote", JStr "Doğru sıñır: bazı sahalarda raqipler açıq şekilde daha yahşı (qırmızı hüceyreler). ModSec + CRS ilk sorağını hemen bloklavda ögde; CrowdSec dağıtıq cemaat signal ağında ve idare etilgen SaaS konsolunda küçlü. Onıñ yerine aynı korpus ve aynı 121 CRS pattern üzerinde WAF/CRS ötkerim qabiliyetimiz 280 373 EPS — ModSec'niñ 16 560 EPS'inden 16,93× yüksek (bench-vs-modsec.json).");
    ("vsLegend", JStr "Qırmızı = o satırdaki ğalip");
    ("honestItems", JArr [
      JStr "Reaktiv mimarlıq — log satırı tüşkence ilk soravnıñ keçüvi mümkün; biz ModSec'niñ inline tezliginde degilmiz.";
      JStr "L3/L4 DDoS'nı yutmaymız — CDN artında turamız.";
      JStr "Dağıtıq botnet — IP başına ban; CrowdSec signal ağı yoq.";
      JStr "Yapa: log → CRS/WAF → ~20 ms kernel ban, delil PDF, Telegram idare, MIT self-hosted."]);
    ("layersBodies", JArr [
      JStr "log → WAF → ipset ban (~15 daq)";
      JStr "eBPF demonı, pan'el, metrikalar, filo";
      JStr "K8s/Helm (kind) + fleet + Wasm/mesh"]);
    ("layersNote", JStr "XDR, Wasm marketi ve LLM Copilot uzun vadeli qoşımca qatlardır — Core tek başına istihsalge azır.");
    ("setupIntro", JStr "Menba: GitHub — Linux-Log-Guardian. Eki yol: azır .deb paket (tevsiye etile) ya da menbadan tüzmek. Noutbuk/VM'lerde eBPF/XDP'siz de çalışa (ipset esaslı ban). Aşağıdaki adımlar istihsal serveri içün; er buyruqnıñ beklengen çıqışı kirsetilgen.");
    ("setupTip", JStr "Tevsiye: JWT ve pan'el parolı içün bash scripts/laptop_jwt_setup.sh qullanıñız. 3 daqiqalıq demo: SKIP_WEBHOOK=1 bash scripts/demo_3min.sh. Vesiqalar: docs/QUICKSTART_NGINX.md · docs/LAPTOP_OPS.md · docs/SECURITY_PROFILES.md.");
    ("contactBody", JStr "Sorular, işbirligi ya da qatqı içün yazıñız. Açıq kod ruhunda hata bildirimleri ve pull request'ler hoş körüle.");
    ("footerDesc", JStr "nginx kirim logu → WAF/CRS → kernel ban. Tek zıncır, self-hosted, MIT litsenziyalı. Türkiyede yapılğan.");
    ("footerSoak", JStr "72 saat soak PASS · 0 hata");
    ("proofBody", JStr "Slayd degil, tekrar tüzülgen delil. OWASP CRS pariteti, yañlış pozitiv qapıları, ban keçikmesi benchmarkları, korpus recall ve 72 saatlıq soak — episi ölçengen, avtomatlaştırılğan ve açıq test matritsasında körüne.");
    ("vsCols", JArr [JStr "Metrika"; JStr "Log Guardian"; JStr "Fail2ban"; JStr "CrowdSec"; JStr "ModSec + CRS"]);
    ("vsGroupLabels", JArr [JStr "Küçlü tarafları (ölçengen)"; JStr "Doğru sıñırlar"]);
    ("vsRows0", JArr [
      JArr [
        JStr "Log → WAF → kernel ban";
        JStr "Tek zıncır";
        JStr "Faqat ban";
        JStr "Parça-parça";
        JStr "WAF ayrı"];
      JArr [
        JStr "WAF/CRS ötkerim qabiliyeti (aynı korpus)";
        JStr "280 373 EPS (16,93×)";
        JStr "—";
        JStr "—";
        JStr "16 560 EPS"];
      JArr [JStr "OWASP CRS pariteti"; JStr "100% (121 qaide)"; JStr "—"; JStr "—"; JStr "Referans (100%)"];
      JArr [JStr "Kerçek ücüm recall"; JStr "100% (1K+10K)"; JStr "—"; JStr "—"; JStr "100%"];
      JArr [JStr "Dağıtılğan / JA3 klaster ban"; JStr "100% (80 IP)"; JStr "—"; JStr "Signal esaslı"; JStr "—"];
      JArr [JStr "nginx inline consult"; JStr "PASS"; JStr "—"; JStr "—"; JStr "Ayrı modul"];
      JArr [JStr "L7 uygulama qoruvı"; JStr "WAF + consult + eBPF"; JStr "—"; JStr "—"; JStr "CRS inline"];
      JArr [JStr "Kernel / eBPF (XDP) ban"; JStr "ipset + XDP"; JStr "iptables"; JStr "iptables/nft"; JStr "—"];
      JArr [JStr "Yañlış pozitiv"; JStr "0,2% (ölçengen)"; JStr "Yüksek"; JStr "Orta"; JStr "CRS-ge bağlı"];
      JArr [JStr "Ban keçikmesi"; JStr "~20 ms"; JStr "san–daq"; JStr "san"; JStr "Ayrı integratsiya"];
      JArr [JStr "Qısqa istiqrarlıq (5 daq)"; JStr "PASS (0 muvafaqiyetsizlik)"; JStr "—"; JStr "—"; JStr "—"];
      JArr [JStr "72s soak"; JStr "PASS (864/0)"; JStr "—"; JStr "—"; JStr "—"];
      JArr [
        JStr "Delil paketi PDF+JSON";
        JStr "Avtomatik (14 fayl)";
        JStr "Yoq";
        JStr "Qısmen";
        JStr "Modul-modul"];
      JArr [JStr "Avtomat test matritsası"; JStr "80 test"; JStr "—"; JStr "Qısmen"; JStr "—"];
      JArr [JStr "SOC vaqıt sızığı / dashboard"; JStr "Ebet (:8443)"; JStr "—"; JStr "Konsol"; JStr "—"];
      JArr [JStr "Telegram ameliyat + ack"; JStr "Ebet (bir basuv)"; JStr "—"; JStr "Qısmen"; JStr "—"];
      JArr [JStr "Qurulım vaqtı"; JStr "~15 daq"; JStr "daqqa"; JStr "daqqa"; JStr "saat (sazlav)"]]);
    ("vsRows1", JArr [
      JArr [
        JStr "Birinci istekni deral bloklamaq";
        JStr "Reaktiv (log satırı)";
        JStr "Reaktiv";
        JStr "Qısmen";
        JStr "Inline (deral)"];
      JArr [JStr "Volumetrik L3/L4 tazalav"; JStr "Yoq — CDN tevsiye etile"; JStr "Yoq"; JStr "Yoq"; JStr "Yoq"];
      JArr [JStr "Cemaat signal ağı"; JStr "Öz-hosting"; JStr "—"; JStr "Ebet (global)"; JStr "—"];
      JArr [JStr "Edge / Cloud WAF"; JStr "Origin qatı"; JStr "—"; JStr "Bouncer"; JStr "Proksi rejimi"];
      JArr [JStr "İdare etilgen bulut / SaaS"; JStr "Yoq (öz-hosting)"; JStr "Yoq"; JStr "Ebet (konsol)"; JStr "—"]]);
    ("requirements", JArr [
      JStr "Ubuntu 22.04 / 24.04 ya da Debian 12 (amd64)";
      JStr "nginx + yazıla bilgen access log (log_guardian formatı)";
      JStr "Root ya da sudo (systemd, ipset, /etc/log-guardian)";
      JStr "~200 MB disk, 128 MB RAM (Core); Pro içün Docker";
      JStr "İhtiyariy Pro: eBPF/XDP içün 5.10+ kernel, Docker (dashboard/metrikalar)"]);
    ("setup", JObj [
      ("pathTitles", JArr [JStr "Taze server — .deb paketi"; JStr "Menba kod — qurmaq ve qurmaq"]);
      ("pathBadges", JArr [JStr "tevsiye etile"; JStr "programcı"]);
      ("pathNotes", JArr [
        JStr "Qurmaq talap etilmey. Paket binar faylnı, systemd unitlerini, qaidelerni ve skriptlerni ketire. Yañartuvğa qorunçlı: mevcut /etc/log-guardian/rules.conf saqlana. GitHub Releases-ten (log-guardian_*_amd64.deb) ya da bash scripts/build_deb.sh → dist/ ile qurıñız.";
        JStr "GitHub repo-nı klonlañız ve qurıñız. İnkişaf, sazlav ve tam menba baquv içün ideal. install.sh systemd unitlerini, qaidelerni ve nginx log formatını qura."]);
      ("pathSteps", JArr [
        JArr [
          JObj [
            ("t", JStr "Bağlılıqlar");
            ("d", JStr "İlk qurulımda Debian paket bağlılıqlarını qoşuñız. nginx yoq ise, onı aynı emirde qoşmaq mümkün.")];
          JObj [
            ("t", JStr "Paketni qurmaq");
            ("d", JStr "dpkg -i bağlılıq hatasını bildirse, apt-get install -f çalıştırıñız. postinst adımı log-guardian qullanıcısını, izinlerni, systemd unitlerini ve default rules.conf-nı avtomat yarata.")];
          JObj [
            ("t", JStr "İlk çalıştıruv ve API qorunçlığı");
            ("d", JStr "nginx log formatını, FP trust-nı ve API qorunçlığını (token, fail-closed) bir kere azırlay. Skriptler paket içinde (/usr/local/share/log-guardian/scripts/).")]];
        JArr [
          JObj [
            ("t", JStr "Menba ve qurmaq");
            ("d", JStr "Repo-nı klonlañız, bütün yadrolar ile qurıñız ve esas qurulım skriptini çalıştırıñız.")];
          JObj [
            ("t", JStr "İlk çalıştıruv ve token sinxronı");
            ("d", JStr "Hızmetlerni köterе ve API token sinxronını ve dashboard bağlantısını azırlay.")]]]);
      ("commonTitle", JStr "Umumiy adımlar (A ya da B soñu)");
      ("commonSteps", JArr [
        JObj [
          ("t", JStr "Nginx log formatı");
          ("d", JStr "WAF istek gövdesini ve X-Forwarded-For-nı oqumaq içün log_guardian log formatı kerek. Setup onı adette avtomat qullana; STRICT rejiminde teşkeriñiz.")];
        JObj [
          ("t", JStr "Sağlıq ve durum teşkeriv");
          ("d", JStr "Daemon IPC-ni, hızmet durumını ve BPF hususiyetlerini teşkeriñiz. Yeşil qapı: post_install_verify soñunda FAIL: 0 körmeli.")];
        JObj [
          ("t", JStr "Metrikalar ve ilk ban testi");
          ("d", JStr "Prometheus metrikalarını teşkeriñiz; trafiktan soñ sayaçlarnıñ köterilgenini közetiñiz. Ücüm satırını qoşıp ban-nı ipset-te teşkere bilesiñiz.")];
        JObj [
          ("t", JStr "VirtualBox / XDP-sız (laptop ve VM)");
          ("d", JStr "eBPF/XDP olmağan çevrelerde ipset esaslı ban ile --no-xdp yeter. Hızmet bağlılığı muvafaqiyetsiz olsa, tamir skripti bir emir.")]]);
      ("dashboardTitle", JStr "Pro dashboard — qurulımdan soñ (ihtiyariy)");
      ("dashboardBadge", JStr "Pro · ihtiyariy");
      ("dashboardNote", JStr "Dashboard bu landing saytında degil, öz maşiñızda çalışa. Prod stack Caddy + Docker vastasında https://localhost:8443 adresinde hızmet ete.");
      ("dashboardSteps", JArr [
        JObj [
          ("t", JStr "Prod stack-nı başlatmaq");
          ("d", JStr "Öz serveriñizde dashboard-nı qura ve kötere. Kirüv: admin / .env-deki DASHBOARD_ADMIN_PASSWORD.")];
        JObj [
          ("t", JStr "Uzaq VPS içün SSH tünel");
          ("d", JStr "Dashboard-nı internetke açmadan qorunçlı körmek içün SSH tünel qurıñız; evvel serverni qatılaştırıñız.")]])])].
Definition body_gag : json := JObj [
    ("pipelineNote", JStr "XDR, Wasm marketi hem LLM Copilot uzun vadeli seçili katlar — Core tek başına üretimä hazır.");
    ("selectedBodies", JArr [
      JStr "Tek zincir: nginx logu → OWASP CRS → ~20 ms kernel ban. ~15 dakikada üretimdä.";
      JStr "Filo, SOC zaman çizgisi, panellär — kurmadan sora kendi serverindä seçili kat.";
      JStr "75 avtomatik test, karşılaştırma PDF, 72 saat soak — dashboard /tests ilä aynı matritsa.";
      JStr "Tenant nişanlı Prometheus metrikaları, panellär hem sesletmäk kuralları — self-hosted gözlemäk.";
      JStr "Çok dügümlü filo: agent sinhronlaması, etcd mesh politikası hem nişanlı komut yollaması — bir paneldän.";
      JStr "TAXII/STIX korku lentası + Telegram SOC: sesletmäk, ban hem bir basmaklan 'ack' — canlı operator akışı.";
      JStr "XDP süzgeci + execve/lineage uprobe'ları — kernel kertindä paket atmak hem syscall izlemäk. Laptoplarda --no-xdp ilä ipset yetär.";
      JStr "Daalı skannerleri bulmak: aynı JA3 izi + başka IP klaster, 100% recall — 80 IP canlı test.";
      JStr "Saldırı aacı, kök zondu, syscall uprobe — uzun vadeli seçili kat; saldırı zincirini hem gizli kanalları bulmak.";
      JStr "Wasm runtime aracılıınnan özel kural pluginneri — market model, Core'a diimeyeräk genişletmäk.";
      JStr "JSON event_type akışı — Splunk/Elastic/Vector'a SIEM eksport delili (siem-export-report.json).";
      JStr "Tarpit server + kapan gözleyicisi — saldıranı yavaşlatmak hem honeypot sinyalı; aldatmak katı."]);
    ("advLead", JStr "Fail2ban salt ban yapêr, ModSecurity WAF ayırı modül, CrowdSec parça-parça stek ister. Log Guardian bu üç işi tek zincirdä birleştirer — ölçülü delillän.");
    ("advantages", JArr [
      JObj [
        ("k", JStr "Bir kurma, bir zincir");
        ("v", JStr "Fail2ban + ModSecurity + CrowdSec'i ayırı kurup birleştirmeersiniz. nginx logu → WAF/CRS → kernel ban tek üründä, ~15 dak kurma.")];
      JObj [
        ("k", JStr "~20 ms kernel ban");
        ("v", JStr "Log satırından ipset/XDP bana mediana ~20 ms. Fail2ban/CrowdSec saniye–dakika kertindä kalêr; 5 ölçülü örneklän ispatlandı.")];
      JObj [
        ("k", JStr "280 373 EPS · 16,93× ModSec");
        ("v", JStr "Aynı korpusta hem aynı 121 OWASP CRS pattern (PCRE2 JIT) üzerindä WAF/CRS geçirim kapasitesi 280 373 EPS — ModSec'in 16 560 EPS'indän 16,93× tez. Ölçülü hem genä yapılabilän (bench-vs-modsec.json).")];
      JObj [
        ("k", JStr "100% recall + 100% CRS pariteti");
        ("v", JStr "121 OWASP CRS kuralı, 1500 satırlık korpusta gerçek saldırı recall 100% hem ModSec ilä tam paritet — 0.2% yalancı pozitivdä.")];
      JObj [
        ("k", JStr "Daalı saldırıyı kaplamak");
        ("v", JStr "JA3 klaster bulması + IP başına ban — 80 IP canlı testtä 100%. Fail2ban tek IP'li; CrowdSec ayırı sinyal aa ister.")];
      JObj [
        ("k", JStr "Açık, tekrar yapılabilän delil");
        ("v", JStr "75 avtomatik test + 14 dosyalı delil paketi + 72 saat soak (864 örnek, 0 hata). Rakiplerdä avtomatik delil yok osaydı parça-parça.")];
      JObj [
        ("k", JStr "Self-hosted · MIT · Türkiyedä yapıldı");
        ("v", JStr "Bilgileriniz sizdä kalêr, vendor baalantısı yok, bütünnä açık kod. SOC zaman çizgisi, Prometheus metrikaları hem Telegram işlemesi bir paneldä (:8443).")]]);
    ("vsNote", JStr "Dooru sınır: kimi alannarda rakiplär açık şekildä taa islää (kırmızı üücüklär). ModSec + CRS ilk isteyi hemen bloklamakta önnärdä; CrowdSec daalı cümnä sinyal aandä hem işlenän SaaS konsolundä küvetli. Onun erinä aynı korpusta hem aynı 121 CRS pattern üzerindä WAF/CRS geçirim kapasitemiz 280 373 EPS — ModSec'in 16 560 EPS'indän 16,93× büük (bench-vs-modsec.json).");
    ("vsLegend", JStr "Kırmızı = o satırdaki kazanan");
    ("honestItems", JArr [
      JStr "Reaktiv mimarlık — log satırı düşenädäk ilk isteyin geçmesi olabilir; biz ModSec'in inline hızındä diiliz.";
      JStr "L3/L4 DDoS'u yutmeeriz — CDN ardında dururuz.";
      JStr "Daalı botnet — IP başına ban; CrowdSec sinyal aa yok.";
      JStr "Yapêr: log → CRS/WAF → ~20 ms kernel ban, delil PDF, Telegram işlemäk, MIT self-hosted."]);
    ("layersBodies", JArr [
      JStr "log → WAF → ipset ban (~15 dak)";
      JStr "eBPF demonu, panel, metrikalar, filo";
      JStr "K8s/Helm (kind) + fleet + Wasm/mesh"]);
    ("layersNote", JStr "XDR, Wasm marketi hem LLM Copilot uzun vadeli seçili katlar — Core tek başına üretimä hazır.");
    ("setupIntro", JStr "Kaynak: GitHub — Linux-Log-Guardian. İki yol: hazır .deb paket (salık veriler) osaydı kaynaktan kurmak. Laptop/VM'lerdä eBPF/XDP'siz da çalışêr (ipset temelli ban). Aşaadaki adımnar üretim serveri için; her komudun beklenän çıkışı katıldı.");
    ("setupTip", JStr "Salık: JWT hem panel parolu için bash scripts/laptop_jwt_setup.sh kullanın. 3 dakikalık demo: SKIP_WEBHOOK=1 bash scripts/demo_3min.sh. Dokumentlär: docs/QUICKSTART_NGINX.md · docs/LAPTOP_OPS.md · docs/SECURITY_PROFILES.md.");
    ("contactBody", JStr "Sorular, işbirlii osaydı katkı için yazın. Açık kod ruhundä hata bildirmeleri hem pull request'lär hoş karşılanêr.");
    ("footerDesc", JStr "nginx giriş logu → WAF/CRS → kernel ban. Tek zincir, self-hosted, MIT litsenziyalı. Türkiyedä yapıldı.");
    ("footerSoak", JStr "72 saat soak PASS · 0 hata");
    ("proofBody", JStr "Slayd diil, tekrar yapılabilän delil. OWASP CRS pariteti, yalancı pozitiv kapıları, ban gecikmesi benchmarkları, korpus recall hem 72 saatlık soak — hepsi ölçülü, avtomatlaştırıldı hem açık test matritsasında görüner.");
    ("vsCols", JArr [JStr "Metrika"; JStr "Log Guardian"; JStr "Fail2ban"; JStr "CrowdSec"; JStr "ModSec + CRS"]);
    ("vsGroupLabels", JArr [JStr "Kuvetli taraflar (ölçülü)"; JStr "Dooru sınırlar"]);
    ("vsRows0", JArr [
      JArr [JStr "Log → WAF → kernel ban"; JStr "Bir zincir"; JStr "Salt ban"; JStr "Parça-parça"; JStr "WAF ayrı"];
      JArr [
        JStr "WAF/CRS geçirim kapasitesi (aynı korpus)";
        JStr "280 373 EPS (16,93×)";
        JStr "—";
        JStr "—";
        JStr "16 560 EPS"];
      JArr [JStr "OWASP CRS pariteti"; JStr "100% (121 kural)"; JStr "—"; JStr "—"; JStr "Referans (100%)"];
      JArr [JStr "Gerçek saldırı recall"; JStr "100% (23 kat, 1K+10K)"; JStr "—"; JStr "—"; JStr "100%"];
      JArr [JStr "Daaıdılmış / JA3 klaster ban"; JStr "100% (80 IP)"; JStr "—"; JStr "Signal temelli"; JStr "—"];
      JArr [JStr "nginx inline consult"; JStr "PASS"; JStr "—"; JStr "—"; JStr "Ayrı modul"];
      JArr [JStr "L7 uygulama koruması"; JStr "WAF + consult + eBPF"; JStr "—"; JStr "—"; JStr "CRS inline"];
      JArr [JStr "Kernel / eBPF (XDP) ban"; JStr "ipset + XDP"; JStr "iptables"; JStr "iptables/nft"; JStr "—"];
      JArr [JStr "Yalancı pozitiv"; JStr "0,2% (ölçülü)"; JStr "Üüsek"; JStr "Orta"; JStr "CRS-a baalı"];
      JArr [JStr "Ban gecikmesi"; JStr "~20 ms"; JStr "san–dak"; JStr "san"; JStr "Ayrı integratsiya"];
      JArr [JStr "Kısa stabillik (5 dak)"; JStr "PASS (0 başarısızlık)"; JStr "—"; JStr "—"; JStr "—"];
      JArr [JStr "72s soak"; JStr "PASS (864/0)"; JStr "—"; JStr "—"; JStr "—"];
      JArr [JStr "Delil paketi PDF+JSON"; JStr "Avtomat (14 fayl)"; JStr "Yok"; JStr "Kısmen"; JStr "Modul-modul"];
      JArr [JStr "Avtomat test matritsası"; JStr "80 test"; JStr "—"; JStr "Kısmen"; JStr "—"];
      JArr [JStr "SOC zaman çizgisi / dashboard"; JStr "Ya (:8443)"; JStr "—"; JStr "Konsol"; JStr "—"];
      JArr [JStr "Telegram operatsiya + ack"; JStr "Ya (bir basış)"; JStr "—"; JStr "Kısmen"; JStr "—"];
      JArr [JStr "Kuruluş zamanı"; JStr "~15 dak"; JStr "dakka"; JStr "dakka"; JStr "saat (ayarlama)"]]);
    ("vsRows1", JArr [
      JArr [
        JStr "İlk isteyi hemen bloklamaa";
        JStr "Reaktiv (log satırı)";
        JStr "Reaktiv";
        JStr "Kısmen";
        JStr "Inline (hemen)"];
      JArr [JStr "Volumetrik L3/L4 temizleme"; JStr "Yok — CDN tavsiye ediler"; JStr "Yok"; JStr "Yok"; JStr "Yok"];
      JArr [JStr "Cemaat signal aa"; JStr "Öz-hosting"; JStr "—"; JStr "Ya (global)"; JStr "—"];
      JArr [JStr "Edge / Cloud WAF"; JStr "Origin katı"; JStr "—"; JStr "Bouncer"; JStr "Proksi rejimi"];
      JArr [JStr "İdare edilän bulut / SaaS"; JStr "Yok (öz-hosting)"; JStr "Yok"; JStr "Ya (konsol)"; JStr "—"]]);
    ("requirements", JArr [
      JStr "Ubuntu 22.04 / 24.04 osa Debian 12 (amd64)";
      JStr "nginx + yazılabilän access log (log_guardian formatı)";
      JStr "Root osa sudo (systemd, ipset, /etc/log-guardian)";
      JStr "~200 MB disk, 128 MB RAM (Core); Pro için Docker";
      JStr "İsteğä görä Pro: eBPF/XDP için 5.10+ kernel, Docker (dashboard/metrikalar)"]);
    ("setup", JObj [
      ("pathTitles", JArr [JStr "Yeni server — .deb paketi"; JStr "Kaynak kod — kurmaa hem kurmaa"]);
      ("pathBadges", JArr [JStr "tavsiye ediler"; JStr "geliştirici"]);
      ("pathNotes", JArr [
        JStr "Kurmaa lääzım diil. Paket binar faylı, systemd unitlerini, kuralları hem skriptleri getirer. Enilemää güvenli: var olan /etc/log-guardian/rules.conf saklanêr. GitHub Releases-tan (log-guardian_*_amd64.deb) osa bash scripts/build_deb.sh → dist/ ile kurun.";
        JStr "GitHub repo-yu klonlayın hem kurun. Geliştirmä, ayarlama hem tam kaynak bakışı için ideal. install.sh systemd unitlerini, kuralları hem nginx log formatını kurêr."]);
      ("pathSteps", JArr [
        JArr [
          JObj [
            ("t", JStr "Baalantılar");
            ("d", JStr "İlk kuruluşta Debian paket baalantılarını ekleyin. nginx yoksa, onu aynı komutta eklemää olêr.")];
          JObj [
            ("t", JStr "Paketi kurmaa");
            ("d", JStr "dpkg -i baalantı yannışı bildirärsä, apt-get install -f çalıştırın. postinst adımı log-guardian kullanıcısını, izinneri, systemd unitlerini hem default rules.conf-u avtomat yaradêr.")];
          JObj [
            ("t", JStr "İlk çalıştırma hem API güvenniklii");
            ("d", JStr "nginx log formatını, FP trust-u hem API güvennikliini (token, fail-closed) birdän hazırlêr. Skriptlär paketin içindä (/usr/local/share/log-guardian/scripts/).")]];
        JArr [
          JObj [
            ("t", JStr "Kaynak hem kurmaa");
            ("d", JStr "Repo-yu klonlayın, hepsi çekirdeklärlän kurun hem baş kuruluş skriptini çalıştırın.")];
          JObj [
            ("t", JStr "İlk çalıştırma hem token sinxronu");
            ("d", JStr "Servisleri kaldırêr hem API token sinxronunu hem dashboard baalantısını hazırlêr.")]]]);
      ("commonTitle", JStr "Ortak adımnar (A osa B sora)");
      ("commonSteps", JArr [
        JObj [
          ("t", JStr "Nginx log formatı");
          ("d", JStr "WAF isteyin gövdesini hem X-Forwarded-For-u okumaa için log_guardian log formatı lääzım. Setup onu genä avtomat kullanêr; STRICT rejimindä kontrol edin.")];
        JObj [
          ("t", JStr "Saalık hem durum kontrolü");
          ("d", JStr "Daemon IPC-yi, servis durumunu hem BPF özelliklerini kontrol edin. Yeşil kapı: post_install_verify sonunda FAIL: 0 görmää lääzım.")];
        JObj [
          ("t", JStr "Metrikalar hem ilk ban testi");
          ("d", JStr "Prometheus metrikalarını kontrol edin; trafiktän sora sayaçların kalktıını izleyin. Saldırı satırını ekleyip ban-ı ipset-tä kontrol edäbilirsiniz.")];
        JObj [
          ("t", JStr "VirtualBox / XDP-sız (laptop hem VM)");
          ("d", JStr "eBPF/XDP olmayan çevrelerdä ipset temelli ban ile --no-xdp yeter. Servis baalantısı başarısız olêrsa, tamir skripti bir komut.")]]);
      ("dashboardTitle", JStr "Pro dashboard — kuruluştan sora (isteğä görä)");
      ("dashboardBadge", JStr "Pro · isteğä görä");
      ("dashboardNote", JStr "Dashboard bu landing saytında diil, kendi maşinanızda çalışêr. Prod stack Caddy + Docker aracıllıınnan https://localhost:8443 adresindä hizmet eder.");
      ("dashboardSteps", JArr [
        JObj [
          ("t", JStr "Prod stack-i başlatmaa");
          ("d", JStr "Kendi serverinizdä dashboard-u kurêr hem kaldırêr. Giriş: admin / .env-deki DASHBOARD_ADMIN_PASSWORD.")];
        JObj [
          ("t", JStr "Uzak VPS için SSH tünel");
          ("d", JStr "Dashboard-u internetä açmadaan güvenli görmää için SSH tünel kurun; ilkin serveri sertleştirin.")]])])].
Definition body_ug : json := JObj [
    ("pipelineNote", JStr "XDR، Wasm بازىرى ۋە LLM Copilot ئۇزۇن مۇددەتلىك تاللانما قاتلاملار — Core ئۆزىلا ئىشلەپچىقىرىشقا تەييار.");
    ("selectedBodies", JArr [
      JStr "بىرلا زەنجىر: nginx خاتىرىسى → OWASP CRS → ~20 مىللىسېكۇنت يادرو چەكلىشى. ~15 مىنۇتتا ئىشلەپچىقىرىشتا.";
      JStr "فلوت، SOC ۋاقىت سىزىقى، تاختىلار — ئورناتقاندىن كېيىن ئۆز مۇلازىمېتىرىڭىزدىكى تاللانما قاتلام.";
      JStr "75 ئاپتوماتىك سىناق، سېلىشتۇرۇش PDF، 72 سائەت soak — dashboard /tests بىلەن ئوخشاش ماترىتسا.";
      JStr "Tenant بەلگىسى بار Prometheus مېترىكىلىرى، تاختىلار ۋە ئاگاھلاندۇرۇش قائىدىلىرى — self-hosted كۆزىتىش.";
      JStr "كۆپ تۈگۈنلۈك فلوت: ئاگېنت ماسلاشتۇرۇش، etcd mesh سىياسىتى ۋە نىشانلىق بۇيرۇق ئەۋەتىش — بىرلا تاختىدىن.";
      JStr "TAXII/STIX خەتەر لېنتىسى + Telegram SOC: ئاگاھلاندۇرۇش، چەكلەش ۋە بىر بېسىپ 'ack' — جانلىق مەشغۇلات ئېقىمى.";
      JStr "XDP سۈزگۈچ + execve/lineage uprobe لىرى — يادرو دەرىجىسىدە بولاق تاشلاش ۋە syscall ئىزلاش. يان كومپيۇتېرلاردا --no-xdp بىلەن ipset يېتەرلىك.";
      JStr "تارقاق سكاننېرلارنى بايقاش: ئوخشاش JA3 ئىزى + باشقا IP توپلىمى، 100% recall — 80 IP جانلىق سىناق.";
      JStr "ھۇجۇم دەرىخى، مەنبە زوندى، syscall uprobe — ئۇزۇن مۇددەتلىك تاللانما قاتلام؛ ھۇجۇم زەنجىرى ۋە يوشۇرۇن قاناللارنى بايقاش.";
      JStr "Wasm runtime ئارقىلىق ئالاھىدە قائىدە قىستۇرمىلىرى — بازار مودېلى، Core غا تەگمەي كېڭەيتىش.";
      JStr "JSON event_type ئېقىمى — Splunk/Elastic/Vector غا SIEM چىقىرىش ئىسپاتى (siem-export-report.json).";
      JStr "Tarpit مۇلازىمېتىر + تۇزاق كۆزەتكۈچ — ھۇجۇمچىنى ئاستىلىتىش ۋە honeypot سىگنالى؛ ئالداش قاتلىمى."]);
    ("advLead", JStr "Fail2ban پەقەت چەكلەيدۇ، ModSecurity WAF ئايرىم مودۇل، CrowdSec پارچە-پارچە سىتاك تەلەپ قىلىدۇ. Log Guardian بۇ ئۈچ ئىشنى بىرلا زەنجىرگە بىرلەشتۈرىدۇ — ئۆلچەنگەن ئىسپات بىلەن.");
    ("advantages", JArr [
      JObj [
        ("k", JStr "بىر ئورنىتىش، بىر زەنجىر");
        ("v", JStr "Fail2ban + ModSecurity + CrowdSec نى ئايرىم ئورنىتىپ بىرلەشتۈرمەيسىز. nginx خاتىرىسى → WAF/CRS → يادرو چەكلىشى بىر مەھسۇلاتتا، ~15 مىنۇت ئورنىتىش.")];
      JObj [
        ("k", JStr "~20 مىللىسېكۇنت يادرو چەكلىشى");
        ("v", JStr "خاتىرە قۇرىدىن ipset/XDP چەكلەشكە ئوتتۇرا قىممەت ~20 مىللىسېكۇنت. Fail2ban/CrowdSec سېكۇنت–مىنۇت دەرىجىسىدە قالىدۇ؛ 21 ئۆلچەنگەن نەمۇنە بىلەن ئىسپاتلانغان.")];
      JObj [
        ("k", JStr "280,373 EPS · 16.93× ModSec");
        ("v", JStr "ئوخشاش كوربۇستا ۋە ئوخشاش 121 OWASP CRS قېلىپىدا (PCRE2 JIT) WAF/CRS ئۆتكۈزۈش ئىقتىدارى 280,373 EPS — ModSec نىڭ 16,560 EPS ئىدىن 16.93× تېز. ئۆلچەنگەن ۋە قايتا ئىشلەپچىقارغىلى بولىدۇ (bench-vs-modsec.json).")];
      JObj [
        ("k", JStr "100% recall + 100% CRS تەڭپۇڭلۇقى");
        ("v", JStr "121 OWASP CRS قائىدىسى، 1500 قۇرلۇق كورپۇستا ھەقىقىي ھۇجۇم recall 100% ۋە ModSec بىلەن تولۇق تەڭپۇڭلۇق — 0.2% يالغان مۇسبەتتە.")];
      JObj [
        ("k", JStr "تارقاق ھۇجۇمنى قاپلاش");
        ("v", JStr "JA3 توپلام بايقاش + IP بويىچە چەكلەش — 80 IP جانلىق سىناقتا 100%. Fail2ban يەككە IP لىق؛ CrowdSec ئايرىم سىگنال تورى تەلەپ قىلىدۇ.")];
      JObj [
        ("k", JStr "ئوچۇق، قايتا ياسىغىلى بولىدىغان ئىسپات");
        ("v", JStr "75 ئاپتوماتىك سىناق + 14 ھۆججەتلىك ئىسپات بولىقى + 72 سائەت soak (864 نەمۇنە، 0 خاتالىق). رەقىبلەردە ئاپتوماتىك ئىسپات يوق ياكى پارچە-پارچە.")];
      JObj [
        ("k", JStr "Self-hosted · MIT · تۈركىيەدە ياسالغان");
        ("v", JStr "سانلىق مەلۇماتىڭىز سىزدە قالىدۇ، ساتقۇچىغا باغلىنىش يوق، تولۇق ئوچۇق كود. SOC ۋاقىت سىزىقى، Prometheus مېترىكىلىرى ۋە Telegram باشقۇرۇشى بىر تاختىدا (:8443).")]]);
    ("vsNote", JStr "سەمىمىي چەك: بەزى ساھەلەردە رەقىبلەر ئېنىق ياخشىراق (قىزىل كاتەكچىلەر). ModSec + CRS تۇنجى ئىلتىماسنى دەرھال توسۇشتا ئالدىدا؛ CrowdSec تارقاق جەمئىيەت سىگنال تورىدا ۋە باشقۇرۇلىدىغان SaaS كونسولىدا كۈچلۈك. ئۇنىڭ ئورنىغا ئوخشاش كوربۇستا ۋە ئوخشاش 121 CRS قېلىپىدا WAF/CRS ئۆتكۈزۈش ئىقتىدارىمىز 280,373 EPS — ModSec نىڭ 16,560 EPS ئىدىن 16.93× يۇقىرى (bench-vs-modsec.json).");
    ("vsLegend", JStr "قىزىل = شۇ قۇردىكى غالىب");
    ("honestItems", JArr [
      JStr "ئىنكاسچان قۇرۇلما — خاتىرە قۇرى چۈشكۈچە تۇنجى ئىلتىماس ئۆتۈپ كېتىشى مۇمكىن؛ بىز ModSec نىڭ inline سۈرئىتىدە ئەمەس.";
      JStr "L3/L4 DDoS نى سىڭدۈرمەيمىز — CDN ئارقىسىدا تۇرىمىز.";
      JStr "تارقاق botnet — IP بويىچە چەكلەش؛ CrowdSec سىگنال تورى يوق.";
      JStr "قىلىدۇ: خاتىرە → CRS/WAF → ~20 مىللىسېكۇنت يادرو چەكلىشى، ئىسپات PDF، Telegram باشقۇرۇش، MIT self-hosted."]);
    ("layersBodies", JArr [
      JStr "خاتىرە → WAF → ipset چەكلەش (~15 مىنۇت)";
      JStr "eBPF دېمونى، تاختا، مېترىكىلار، فلوت";
      JStr "K8s/Helm (kind) + fleet + Wasm/mesh"]);
    ("layersNote", JStr "XDR، Wasm بازىرى ۋە LLM Copilot ئۇزۇن مۇددەتلىك تاللانما قاتلاملار — Core ئۆزىلا ئىشلەپچىقىرىشقا تەييار.");
    ("setupIntro", JStr "مەنبە: GitHub — Linux-Log-Guardian. ئىككى يول: تەييار .deb بولىقى (تەۋسىيە قىلىنىدۇ) ياكى مەنبەدىن ياساش. يان كومپيۇتېر/VM لاردا eBPF/XDP سىز مۇ ئىشلەيدۇ (ipset ئاساسلىق چەكلەش). تۆۋەندىكى قەدەملەر ئىشلەپچىقىرىش مۇلازىمېتىرى ئۈچۈن؛ ھەر بۇيرۇقنىڭ كۈتۈلگەن چىقىرىشى قوشۇلغان.");
    ("setupTip", JStr "تەۋسىيە: JWT ۋە تاختا مەخپىي نومۇرى ئۈچۈن bash scripts/laptop_jwt_setup.sh ئىشلىتىڭ. 3 مىنۇتلۇق دېمو: SKIP_WEBHOOK=1 bash scripts/demo_3min.sh. ھۆججەتلەر: docs/QUICKSTART_NGINX.md · docs/LAPTOP_OPS.md · docs/SECURITY_PROFILES.md.");
    ("contactBody", JStr "سوئال، ھەمكارلىق ياكى تۆھپە ئۈچۈن يېزىڭ. ئوچۇق كود روھىدا كەمتۈك مەلۇماتلىرى ۋە pull request لار قارشى ئېلىنىدۇ.");
    ("footerDesc", JStr "nginx كىرىش خاتىرىسى → WAF/CRS → يادرو چەكلىشى. بىرلا زەنجىر، self-hosted، MIT ئىجازەتنامىلىك. تۈركىيەدە ياسالغان.");
    ("footerSoak", JStr "72 سائەت soak PASS · 0 مەغلۇبىيەت");
    ("proofBody", JStr "سلايت ئەمەس، قايتا ياسىغىلى بولىدىغان ئىسپات. OWASP CRS تەڭپۇڭلۇقى، يالغان مۇسبەت دەرۋازىلىرى، چەكلەش كېچىكىشى benchmark لىرى، كورپۇس recall ۋە 72 سائەتلىك soak — ھەممىسى ئۆلچەنگەن، ئاپتوماتلاشتۇرۇلغان ۋە ئوچۇق سىناق ماترىتسىسىدا كۆرۈنىدۇ.");
    ("vsCols", JArr [JStr "ئۆلچەم"; JStr "Log Guardian"; JStr "Fail2ban"; JStr "CrowdSec"; JStr "ModSec + CRS"]);
    ("vsGroupLabels", JArr [JStr "كۈچلۈك تەرەپلىرى (ئۆلچەنگەن)"; JStr "سەمىمىي چەكلەر"]);
    ("vsRows0", JArr [
      JArr [
        JStr "لوگ → WAF → يادرو چەكلەش";
        JStr "بىر زەنجىر";
        JStr "پەقەت چەكلەش";
        JStr "پارچە-پارچە";
        JStr "WAF ئايرىم"];
      JArr [
        JStr "WAF/CRS ئۆتكۈزۈش ئىقتىدارى (ئوخشاش كوربۇس)";
        JStr "280,373 EPS (16.93×)";
        JStr "—";
        JStr "—";
        JStr "16,560 EPS"];
      JArr [JStr "OWASP CRS تەڭپۇڭلۇقى"; JStr "100% (121 قائىدە)"; JStr "—"; JStr "—"; JStr "پايدىلىنىش (100%)"];
      JArr [JStr "ھەقىقىي ھۇجۇم recall"; JStr "100% (1K+10K)"; JStr "—"; JStr "—"; JStr "100%"];
      JArr [JStr "تارقاق / JA3 كلاستېر چەكلەش"; JStr "100% (80 IP)"; JStr "—"; JStr "سىگنالغا ئاساسەن"; JStr "—"];
      JArr [JStr "nginx ئىچكى consult"; JStr "PASS"; JStr "—"; JStr "—"; JStr "ئايرىم مودۇل"];
      JArr [JStr "L7 پروگرامما قوغدىشى"; JStr "WAF + consult + eBPF"; JStr "—"; JStr "—"; JStr "CRS ئىچكى"];
      JArr [JStr "يادرو / eBPF (XDP) چەكلەش"; JStr "ipset + XDP"; JStr "iptables"; JStr "iptables/nft"; JStr "—"];
      JArr [JStr "يالغان مۇسبەت"; JStr "0.2% (ئۆلچەنگەن)"; JStr "يۇقىرى"; JStr "ئوتتۇرا"; JStr "CRS غا باغلىق"];
      JArr [JStr "چەكلەش كېچىكىشى"; JStr "~20 ms"; JStr "سېكۇنت–مىنۇت"; JStr "سېكۇنت"; JStr "ئايرىم بىرلەشتۈرۈش"];
      JArr [JStr "قىسقا مۇقىملىق (5 مىنۇت)"; JStr "PASS (0 مەغلۇبىيەت)"; JStr "—"; JStr "—"; JStr "—"];
      JArr [JStr "72سائەت soak"; JStr "PASS (864/0)"; JStr "—"; JStr "—"; JStr "—"];
      JArr [
        JStr "ئىسپات بوغچىسى PDF+JSON";
        JStr "ئاپتوماتىك (14 ھۆججەت)";
        JStr "يوق";
        JStr "قىسمەن";
        JStr "مودۇل-مودۇل"];
      JArr [JStr "ئاپتومات سىناق ماترىتسىسى"; JStr "75 سىناق"; JStr "—"; JStr "قىسمەن"; JStr "—"];
      JArr [JStr "SOC ۋاقىت سىزىقى / تاختا"; JStr "ھەئە (:8443)"; JStr "—"; JStr "كونسول"; JStr "—"];
      JArr [JStr "Telegram مەشغۇلات + ack"; JStr "ھەئە (بىر چېكىش)"; JStr "—"; JStr "قىسمەن"; JStr "—"];
      JArr [JStr "ئورنىتىش ۋاقتى"; JStr "~15 مىنۇت"; JStr "مىنۇت"; JStr "مىنۇت"; JStr "سائەت (تەڭشەش)"]]);
    ("vsRows1", JArr [
      JArr [
        JStr "تۇنجى ئىلتىماسنى دەرھال توسۇش";
        JStr "ئىنكاسچان (لوگ قۇرى)";
        JStr "ئىنكاسچان";
        JStr "قىسمەن";
        JStr "ئىچكى (دەرھال)"];
      JArr [JStr "ھەجىملىك L3/L4 تازىلاش"; JStr "يوق — CDN تەۋسىيە"; JStr "يوق"; JStr "يوق"; JStr "يوق"];
      JArr [JStr "مەھەللە سىگنال تورى"; JStr "ئۆزى ھوستلاش"; JStr "—"; JStr "ھەئە (گلوباللىق)"; JStr "—"];
      JArr [JStr "Edge / بۇلۇت WAF"; JStr "مەنبە قەۋىتى"; JStr "—"; JStr "Bouncer"; JStr "ۋاكالەتچى ھالىتى"];
      JArr [
        JStr "باشقۇرۇلىدىغان بۇلۇت / SaaS";
        JStr "يوق (ئۆزى ھوستلاش)";
        JStr "يوق";
        JStr "ھەئە (كونسول)";
        JStr "—"]]);
    ("requirements", JArr [
      JStr "Ubuntu 22.04 / 24.04 ياكى Debian 12 (amd64)";
      JStr "nginx + يازغىلى بولىدىغان access لوگ (log_guardian فورماتى)";
      JStr "Root ياكى sudo (systemd، ipset، /etc/log-guardian)";
      JStr "~200 MB دىسكا، 128 MB RAM (Core)؛ Pro ئۈچۈن Docker";
      JStr "تاللانما Pro: eBPF/XDP ئۈچۈن 5.10+ يادرو، Docker (تاختا/ئۆلچەملەر)"]);
    ("setup", JObj [
      ("pathTitles", JArr [JStr "يېڭى مۇلازىمېتىر — .deb بوغچىسى"; JStr "مەنبە كودى — قۇرۇش ۋە ئورنىتىش"]);
      ("pathBadges", JArr [JStr "تەۋسىيە قىلىنىدۇ"; JStr "ئىجادكار"]);
      ("pathNotes", JArr [
        JStr "قۇرۇش تەلەپ قىلىنمايدۇ. بوغچا بىنارنى، systemd بىرلىكلىرىنى، قائىدىلەرنى ۋە قوليازمىلارنى ئېلىپ كېلىدۇ. يېڭىلاشقا بىخەتەر: مەۋجۇت /etc/log-guardian/rules.conf ساقلىنىدۇ. GitHub Releases دىن (log-guardian_*_amd64.deb) ياكى bash scripts/build_deb.sh → dist/ ئارقىلىق قۇرۇڭ.";
        JStr "GitHub خەزىنىسىنى كۆچۈرۈپ قۇرۇڭ. ئېچىش، خاسلاشتۇرۇش ۋە تولۇق مەنبە تەكشۈرۈش ئۈچۈن ئەڭ ياخشى. install.sh systemd بىرلىكلىرىنى، قائىدىلەرنى ۋە nginx لوگ فورماتىنى ئورنىتىدۇ."]);
      ("pathSteps", JArr [
        JArr [
          JObj [
            ("t", JStr "بېقىنمىلىقلار");
            ("d", JStr "تۇنجى ئورنىتىشتا Debian بوغچا بېقىنمىلىقلىرىنى قوشۇڭ. nginx يوق بولسا، ئۇنى ئوخشاش بۇيرۇقتا قوشقىلى بولىدۇ.")];
          JObj [
            ("t", JStr "بوغچىنى ئورنىتىش");
            ("d", JStr "dpkg -i بېقىنمىلىق خاتالىقىنى مەلۇم قىلسا، apt-get install -f نى ئىجرا قىلىڭ. postinst باسقۇچى log-guardian ئىشلەتكۈچىسىنى، ھوقۇقلارنى، systemd بىرلىكلىرىنى ۋە كۆڭۈلدىكى rules.conf نى ئاپتوماتىك قۇرىدۇ.")];
          JObj [
            ("t", JStr "تۇنجى ئىجرا ۋە API بىخەتەرلىكى");
            ("d", JStr "nginx لوگ فورماتىنى، FP trust نى ۋە API بىخەتەرلىكىنى (تالون، fail-closed) بىراقلا تەييارلايدۇ. قوليازمىلار بوغچا ئىچىدە (/usr/local/share/log-guardian/scripts/).")]];
        JArr [
          JObj [
            ("t", JStr "مەنبە ۋە قۇرۇش");
            ("d", JStr "خەزىنىنى كۆچۈرۈپ، بارلىق يادرولار بىلەن قۇرۇڭ ۋە ئاساسلىق ئورنىتىش قوليازمىسىنى ئىجرا قىلىڭ.")];
          JObj [
            ("t", JStr "تۇنجى ئىجرا ۋە تالون ماسلىشىشى");
            ("d", JStr "مۇلازىمەتلەرنى قوزغىتىدۇ ۋە API تالون ماسلىشىشى ۋە تاختا ئۇلىنىشىنى تەييارلايدۇ.")]]]);
      ("commonTitle", JStr "ئورتاق باسقۇچلار (A ياكى B دىن كېيىن)");
      ("commonSteps", JArr [
        JObj [
          ("t", JStr "Nginx لوگ فورماتى");
          ("d", JStr "WAF نىڭ ئىلتىماس گەۋدىسى ۋە X-Forwarded-For نى ئوقۇشى ئۈچۈن log_guardian لوگ فورماتى كېرەك. Setup ئۇنى ئادەتتە ئاپتوماتىك قوللىنىدۇ؛ STRICT ھالەتتە تەكشۈرۈڭ.")];
        JObj [
          ("t", JStr "ساغلاملىق ۋە ھالەت تەكشۈرۈش");
          ("d", JStr "Daemon IPC نى، مۇلازىمەت ھالىتىنى ۋە BPF ئىقتىدارلىرىنى تەكشۈرۈڭ. يېشىل دەرۋازا: post_install_verify ئاخىرىدا FAIL: 0 كۆرۈنۈشى كېرەك.")];
        JObj [
          ("t", JStr "ئۆلچەملەر ۋە تۇنجى چەكلەش سىنىقى");
          ("d", JStr "Prometheus ئۆلچەملىرىنى تەكشۈرۈڭ؛ ئېقىمدىن كېيىن ساناقچىلارنىڭ ئۆرلىگىنىنى كۆزىتىڭ. ھۇجۇم قۇرىنى قىستۇرۇپ چەكلەشنى ipset دا تەكشۈرەلەيسىز.")];
        JObj [
          ("t", JStr "VirtualBox / XDP سىز (يان كومپيۇتېر ۋە VM)");
          ("d", JStr "eBPF/XDP يوق مۇھىتلاردا ipset ئاساسىدىكى چەكلەش بىلەن --no-xdp يېتەرلىك. مۇلازىمەت بېقىنمىلىقى مەغلۇپ بولسا، ئوڭشاش قوليازمىسى بىر بۇيرۇق.")]]);
      ("dashboardTitle", JStr "Pro تاختا — ئورنىتىشتىن كېيىن (تاللانما)");
      ("dashboardBadge", JStr "Pro · تاللانما");
      ("dashboardNote", JStr "تاختا بۇ landing بېتىدە ئەمەس، ئۆزىڭىزنىڭ ماشىنىسىدا ئىجرا بولىدۇ. Prod stack Caddy + Docker ئارقىلىق https://localhost:8443 دا مۇلازىمەت قىلىدۇ.");
      ("dashboardSteps", JArr [
        JObj [
          ("t", JStr "Prod stack نى قوزغىتىش");
          ("d", JStr "ئۆزىڭىزنىڭ مۇلازىمېتىرىدا تاختىنى قۇرۇپ قوزغىتىدۇ. كىرىش: admin / .env دىكى DASHBOARD_ADMIN_PASSWORD.")];
        JObj [
          ("t", JStr "يىراق VPS ئۈچۈن SSH توننېل");
          ("d", JStr "تاختىنى تورغا ئاشكارىلىماي بىخەتەر كۆرۈش ئۈچۈن SSH توننېل قۇرۇڭ؛ ئالدى بىلەن مۇلازىمېتىرنى مۇستەھكەملەڭ.")]])])].
Definition body_sah : json := JObj [
    ("pipelineNote", JStr "XDR, Wasm маркета уонна LLM Copilot — уһун болдьохтоох талыллар слойдар; Core бэйэтэ продакшеҥҥа бэлэм.");
    ("selectedBodies", JArr [
      JStr "Биир сиэп: nginx лога → OWASP CRS → ~20 мс kernel бан. ~15 мүнүөтэ продакшеҥҥа.";
      JStr "Флот, SOC кэм линията, панеллэр — олохтообутуҥ кэнниттэн бэйэҥ серверыҥ талыллар слоя.";
      JStr "75 автомат тест, тэҥнээһин PDF, 72 чаас soak — dashboard /tests кытта биир матрица.";
      JStr "Tenant бэлиэлээх Prometheus метриктэрэ, панеллэр уонна сэрэтии быраабылалара — self-hosted кэтээһин.";
      JStr "Элбэх түмүктээх флот: агент синхронизацията, etcd mesh политиката уонна ыҥаарыллыбыт команда ыытыы — биир панельтэн.";
      JStr "TAXII/STIX кутталлаах лента + Telegram SOC: сэрэтии, бан уонна биир баттаан 'ack' — тыыннаах оператор сүрүгэ.";
      JStr "XDP фильтр + execve/lineage uprobe-лар — ядро таһымыгар пакет быраҕыы уонна syscall кэтээһин. Ноутбуктарга --no-xdp кытта ipset тиийэр.";
      JStr "Тарҕаммыт сканердары булуу: биир JA3 бэлиэ + атын IP кластер, 100% recall — 80 IP тыыннаах тест.";
      JStr "Саба түһүү мас, төрдүн зонда, syscall uprobe — уһун болдьохтоох талыллар слой; саба түһүү сиэбин уонна кистэлэҥ каналлары булуу.";
      JStr "Wasm runtime нөҥүө анаан быраабыла плагиннара — маркет модель, Core-у тыыппакка кэҥэтии.";
      JStr "JSON event_type сүрүгэ — Splunk/Elastic/Vector диэки SIEM экспорт туоһута (siem-export-report.json).";
      JStr "Tarpit сервер + куорҕал кэтээччи — саба түһээччини хааҥнатыы уонна honeypot сигнала; албыннааһын слоя."]);
    ("advLead", JStr "Fail2ban эрэ бан оҥорор, ModSecurity WAF туспа модуль, CrowdSec аҥаардас стеги ирдиир. Log Guardian бу үс үлэни биир сиэпкэ холбуур — кээмэйдэммит туоһунан.");
    ("advantages", JArr [
      JObj [
        ("k", JStr "Биир олохтооһун, биир сиэп");
        ("v", JStr "Fail2ban + ModSecurity + CrowdSec-ы туспа олохтоон холбообоккун. nginx лога → WAF/CRS → kernel бан биир бородууксуйаҕа, ~15 мүн олохтооһун.")];
      JObj [
        ("k", JStr "~20 мс kernel бан");
        ("v", JStr "Лог строкатыттан ipset/XDP баҥҥа медиана ~20 мс. Fail2ban/CrowdSec сөкүүндэ–мүнүөтэ таһымыгар хаалаллар; 5 кээмэйдэммит холобурунан дакаастаммыт.")];
      JObj [
        ("k", JStr "280 373 EPS · 16,93× ModSec");
        ("v", JStr "Биир корпуска уонна биир 121 OWASP CRS pattern (PCRE2 JIT) үрдүгэр WAF/CRS ыытар кыаҕа — 280 373 EPS, ModSec 16 560 EPS-тан 16,93× түргэн. Кээмэйдэммит уонна хатыланар (bench-vs-modsec.json).")];
      JObj [
        ("k", JStr "100% recall + 100% CRS паритета");
        ("v", JStr "121 OWASP CRS быраабылата, 1500 строкалаах корпуска чахчы саба түһүү recall 100% уонна ModSec кытта толору паритет — 0.2% сымыйа позитивга.")];
      JObj [
        ("k", JStr "Тарҕаммыт саба түһүүнү хабыы");
        ("v", JStr "JA3 кластеры булуу + IP аайы бан — 80 IP тыыннаах тескэ 100%. Fail2ban биир IP-лаах; CrowdSec туспа сигнал ситимин ирдиир.")];
      JObj [
        ("k", JStr "Ыраас, хат оҥоһуллар туоһу");
        ("v", JStr "75 автомат тест + 14 файллаах туоһу пакета + 72 чаас soak (864 холобур, 0 алҕас). Күрэхтэһээччилэргэ автомат туоһу суох эбэтэр аҥаардас.")];
      JObj [
        ("k", JStr "Self-hosted · MIT · Турцияҕа оҥоһуллубут");
        ("v", JStr "Дааннайдарыҥ эйиэхэ хаалаллар, вендорга сыһыаны суох, толору аһаҕас код. SOC кэм линията, Prometheus метриктэрэ уонна Telegram салайыыта биир панельга (:8443).")]]);
    ("vsNote", JStr "Кырдьык кыраныыс: сорох эйгэлэргэ күрэхтэһээччилэр биллэрдик ордуктар (кыһыл клеткалар). ModSec + CRS маҥнайгы көрдөһүүнү тута хаайарыгар инники; CrowdSec тарҕаммыт общество сигнал ситимигэр уонна салайыллар SaaS консолугар күүстээх. Онун оннугар биир корпуска уонна биир 121 CRS pattern үрдүгэр биһиги WAF/CRS ыытар кыахпыт — 280 373 EPS, ModSec 16 560 EPS-тан 16,93× үрдүк (bench-vs-modsec.json).");
    ("vsLegend", JStr "Кыһыл = ол строкаҕа кыайааччы");
    ("honestItems", JArr [
      JStr "Реактивнай архитектура — лог строката түһүөр диэри маҥнайгы көрдөһүү ааһыан сөп; биһиги ModSec inline түргэнигэр буолбатахпыт.";
      JStr "L3/L4 DDoS-у ыҥырбаппыт — CDN кэннигэр турабыт.";
      JStr "Тарҕаммыт ботнет — IP аайы бан; CrowdSec сигнал ситимэ суох.";
      JStr "Оҥорор: лог → CRS/WAF → ~20 мс kernel бан, туоһу PDF, Telegram салайыы, MIT self-hosted."]);
    ("layersBodies", JArr [
      JStr "лог → WAF → ipset бан (~15 мүн)";
      JStr "eBPF демон, панель, метриктэр, флот";
      JStr "K8s/Helm (kind) + fleet + Wasm/mesh"]);
    ("layersNote", JStr "XDR, Wasm маркета уонна LLM Copilot — уһун болдьохтоох талыллар слойдар; Core бэйэтэ продакшеҥҥа бэлэм.");
    ("setupIntro", JStr "Төрүт: GitHub — Linux-Log-Guardian. Икки суол: бэлэм .deb пакета (сүбэлэнэр) эбэтэр төрүттэн туттарыы. Ноутбук/ВМ-га eBPF/XDP-та суох да үлэлиир (ipset олохтоох бан). Аллараа хардыылар продакшен сервер туһугар; хас команда күүтүллэр таһаарыыта киллэриллибит.");
    ("setupTip", JStr "Сүбэ: JWT уонна панель пароля туһугар bash scripts/laptop_jwt_setup.sh туттун. 3 мүнүөтэ демо: SKIP_WEBHOOK=1 bash scripts/demo_3min.sh. Докумуоннар: docs/QUICKSTART_NGINX.md · docs/LAPTOP_OPS.md · docs/SECURITY_PROFILES.md.");
    ("contactBody", JStr "Ыйытыылар, бииргэ үлэ эбэтэр кыттыы туһугар суруй. Аһаҕас код тыынынан алҕас туһунан иһитиннэрии уонна pull request-тэр көрсүһүннэ.");
    ("footerDesc", JStr "nginx киирии лога → WAF/CRS → kernel бан. Биир сиэп, self-hosted, MIT лицензиялаах. Турцияҕа оҥоһуллубут.");
    ("footerSoak", JStr "72 чаас soak PASS · 0 алҕас");
    ("proofBody", JStr "Слайд буолбатах, хат оҥоһуллар туоһу. OWASP CRS паритета, сымыйа позитив ааннара, бан хойутааһын бенчмарктара, корпус recall уонна 72 чаастаах soak — бары кээмэйдэммит, автоматтаммыт уонна аһаҕас тест матрицатыгар көстөр.");
    ("vsCols", JArr [JStr "Метрика"; JStr "Log Guardian"; JStr "Fail2ban"; JStr "CrowdSec"; JStr "ModSec + CRS"]);
    ("vsGroupLabels", JArr [JStr "Күүстээх өрүттэрэ (кээмэйдэммит)"; JStr "Кырдьыктаах кыраныыссалар"]);
    ("vsRows0", JArr [
      JArr [JStr "Лог → WAF → ядро бан"; JStr "Биир силбиэ"; JStr "Бан эрэ"; JStr "Аҥаардастыы"; JStr "WAF туспа"];
      JArr [
        JStr "WAF/CRS ыытар кыаҕа (биир корпус)";
        JStr "280 373 EPS (16,93×)";
        JStr "—";
        JStr "—";
        JStr "16 560 EPS"];
      JArr [JStr "OWASP CRS паритета"; JStr "100% (121 быраабыла)"; JStr "—"; JStr "—"; JStr "Эталон (100%)"];
      JArr [JStr "Дьиҥнээх саба түһүү recall"; JStr "100% (1K+10K)"; JStr "—"; JStr "—"; JStr "100%"];
      JArr [JStr "Тарҕаммыт / JA3 кластер бан"; JStr "100% (80 IP)"; JStr "—"; JStr "Сигналга олоҕуран"; JStr "—"];
      JArr [JStr "nginx inline consult"; JStr "PASS"; JStr "—"; JStr "—"; JStr "Туспа модуль"];
      JArr [JStr "L7 программа харыстабыла"; JStr "WAF + consult + eBPF"; JStr "—"; JStr "—"; JStr "CRS inline"];
      JArr [JStr "Ядро / eBPF (XDP) бан"; JStr "ipset + XDP"; JStr "iptables"; JStr "iptables/nft"; JStr "—"];
      JArr [
        JStr "Сымыйа позитив";
        JStr "0,2% (кээмэйдэммит)";
        JStr "Үрдүк";
        JStr "Орто";
        JStr "CRS-ка тутулуктаах"];
      JArr [JStr "Бан хойутааһына"; JStr "~20 мс"; JStr "сөк–мүн"; JStr "сөк"; JStr "Туспа интеграция"];
      JArr [JStr "Кылгас туруктаах (5 мүн)"; JStr "PASS (0 сатаммат)"; JStr "—"; JStr "—"; JStr "—"];
      JArr [JStr "72ч soak"; JStr "PASS (864/0)"; JStr "—"; JStr "—"; JStr "—"];
      JArr [
        JStr "Туоһу пакета PDF+JSON";
        JStr "Автомат (14 файл)";
        JStr "Суох";
        JStr "Аҥаардас";
        JStr "Модуль-модуль"];
      JArr [JStr "Автомат тест матрицата"; JStr "75 тест"; JStr "—"; JStr "Аҥаардас"; JStr "—"];
      JArr [JStr "SOC кэм линията / дашборд"; JStr "Сөп (:8443)"; JStr "—"; JStr "Консоль"; JStr "—"];
      JArr [JStr "Telegram операция + ack"; JStr "Сөп (биир баттааһын)"; JStr "—"; JStr "Аҥаардас"; JStr "—"];
      JArr [JStr "Туруорар кэмэ"; JStr "~15 мүн"; JStr "мүнүүтэ"; JStr "мүнүүтэ"; JStr "чаас (туруоруу)"]]);
    ("vsRows1", JArr [
      JArr [
        JStr "Бастакы ыйытыыны түргэнник бөҕөрдүү";
        JStr "Реактивнай (лог устуруока)";
        JStr "Реактивнай";
        JStr "Аҥаардас";
        JStr "Inline (түргэнник)"];
      JArr [
        JStr "Кээмэйдээх L3/L4 ыраастааһын";
        JStr "Суох — CDN сүбэлэнэр";
        JStr "Суох";
        JStr "Суох";
        JStr "Суох"];
      JArr [JStr "Общество сигнал ситимэ"; JStr "Бэйэ-хостинг"; JStr "—"; JStr "Сөп (глобальнай)"; JStr "—"];
      JArr [JStr "Edge / Cloud WAF"; JStr "Origin хос"; JStr "—"; JStr "Bouncer"; JStr "Прокси режим"];
      JArr [
        JStr "Салайыллар былыт / SaaS";
        JStr "Суох (бэйэ-хостинг)";
        JStr "Суох";
        JStr "Сөп (консоль)";
        JStr "—"]]);
    ("requirements", JArr [
      JStr "Ubuntu 22.04 / 24.04 эбэтэр Debian 12 (amd64)";
      JStr "nginx + суруллар access лог (log_guardian формата)";
      JStr "Root эбэтэр sudo (systemd, ipset, /etc/log-guardian)";
      JStr "~200 МБ диск, 128 МБ RAM (Core); Pro туһугар Docker";
      JStr "Эбии Pro: eBPF/XDP туһугар 5.10+ ядро, Docker (дашборд/метрикалар)"]);
    ("setup", JObj [
      ("pathTitles", JArr [JStr "Саҥа сервер — .deb пакета"; JStr "Төрүт кот — оҥоруу уонна туруоруу"]);
      ("pathBadges", JArr [JStr "сүбэлэнэр"; JStr "оҥорооччу"]);
      ("pathNotes", JArr [
        JStr "Оҥоруу наадата суох. Пакет бинары, systemd юниттарын, быраабылалары уонна скрипттэри аҕалар. Саҥардыыга куттала суох: баар /etc/log-guardian/rules.conf харалла хаалар. GitHub Releases-тан (log-guardian_*_amd64.deb) эбэтэр bash scripts/build_deb.sh → dist/ нөҥүө оҥоруҥ.";
        JStr "GitHub репозиторийын клонныаҥ уонна оҥоруҥ. Сайыннарыы, туруоруу уонна толору кот бэрэбиэркэтэ туһугар быйаҥ. install.sh systemd юниттарын, быраабылалары уонна nginx лог форматын туруорар."]);
      ("pathSteps", JArr [
        JArr [
          JObj [
            ("t", JStr "Тутулуктар");
            ("d", JStr "Бастакы туруорууга Debian пакет тутулуктарын эбиҥ. nginx суох буоллаҕына, кинини биир бэйэтигэр эбиэххэ сөп.")];
          JObj [
            ("t", JStr "Пакеты туруоруу");
            ("d", JStr "dpkg -i тутулук алҕаһын биллэрдэҕинэ, apt-get install -f хамсатыҥ. postinst хамаан log-guardian туттааччытын, көҥүллэри, systemd юниттарын уонна default rules.conf-ы автоматынан үөскэтэр.")];
          JObj [
            ("t", JStr "Бастакы хамсатыы уонна API куттала суоҕа");
            ("d", JStr "nginx лог форматын, FP trust-ы уонна API куттала суоҕун (токен, fail-closed) биирдэ бэлэмнээбит. Скрипттэр пакет иһигэр (/usr/local/share/log-guardian/scripts/).")]];
        JArr [
          JObj [
            ("t", JStr "Төрүт уонна оҥоруу");
            ("d", JStr "Репозиторийы клонныаҥ, бары ядролары кытта оҥоруҥ уонна сүрүн туруоруу скриптин хамсатыҥ.")];
          JObj [
            ("t", JStr "Бастакы хамсатыы уонна токен синхрона");
            ("d", JStr "Сулууспалары көтөҕөр уонна API токен синхронун уонна дашборд ситимин бэлэмнээбит.")]]]);
      ("commonTitle", JStr "Уопсай хаамыылар (A эбэтэр B кэнниттэн)");
      ("commonSteps", JArr [
        JObj [
          ("t", JStr "Nginx лог формата");
          ("d", JStr "WAF ыйытыы этин уонна X-Forwarded-For-у ааҕарыгар log_guardian лог формата наада. Setup кинини сүрүннээн автоматынан туттар; STRICT режимҥэ бэрэбиэрдээҥ.")];
        JObj [
          ("t", JStr "Доруобуйа уонна турук бэрэбиэркэтэ");
          ("d", JStr "Daemon IPC-ны, сулууспа турукун уонна BPF кыахтарын бэрэбиэрдээҥ. Күөх аан: post_install_verify бүтүүтүгэр FAIL: 0 көрүөхтээххин.")];
        JObj [
          ("t", JStr "Метрикалар уонна бастакы бан тест");
          ("d", JStr "Prometheus метрикаларын бэрэбиэрдээҥ; трафик кэнниттэн ааҕааччылар үрдүүрүн одуулааҥ. Саба түһүү устуруокатын киллэрэн бан-ы ipset-ка бэрэбиэрдиэххэ сөп.")];
        JObj [
          ("t", JStr "VirtualBox / XDP суох (ноутбук уонна VM)");
          ("d", JStr "eBPF/XDP суох эйгэлэргэ ipset олоҕурбут бан уонна --no-xdp тиийэр. Сулууспа тутулуга сатамматаҕына, өрөмүөн скрипта биир хамаан.")]]);
      ("dashboardTitle", JStr "Pro дашборд — туруорууттан кэнниттэн (эбии)");
      ("dashboardBadge", JStr "Pro · эбии");
      ("dashboardNote", JStr "Дашборд бу landing сайтка буолбатах, бэйэҥ массыынаҥар үлэлиир. Prod стек Caddy + Docker нөҥүө https://localhost:8443 адреска үлэлиир.");
      ("dashboardSteps", JArr [
        JObj [
          ("t", JStr "Prod стеги саҕалааһын");
          ("d", JStr "Бэйэҥ серверыҥар дашборду оҥорор уонна көтөҕөр. Киирии: admin / .env-тэн DASHBOARD_ADMIN_PASSWORD.")];
        JObj [
          ("t", JStr "Ыраах VPS туһугар SSH туннель");
          ("d", JStr "Дашборду интэриниэккэ аспакка куттала суох көрөр туһугар SSH туннель туруоруҥ; бастаан сервери бөҕөргөтүҥ.")]])])].
Definition BODY_OVERRIDES : list (jstring * json) := [("de", body_de); ("fr", body_fr); ("es", body_es); ("ru", body_ru); ("pt", body_pt); ("nl", body_nl); ("zh", body_zh); ("ja", body_ja); ("ko", body_ko); ("ar", body_ar); ("az", body_az); ("kk", body_kk); ("uz", body_uz); ("ky", body_ky); ("tk", body_tk); ("tt", body_tt); ("ba", body_ba); ("cv", body_cv); ("crh", body_crh); ("gag", body_gag); ("ug", body_ug); ("sah", body_sah)].
