(* ===== verification/LandingSections.v ===== *)
(** The texts of the sections of the landing page, from landing/lib/i18n/sections.ts. *)

From S2P Require Import Prelude JsString JsNum Json LandingContent.

Definition T_TEST : jstring := dec T ++ " test".
Definition T_TESTS : jstring := dec T ++ " tests".
Definition T_AUTO : jstring := dec T ++ " otomatik test".
Definition T_AUTO_EN : jstring := dec T ++ " automated tests".
Definition SECTIONS_TR : json := JObj [
    ("hero_badge", JStr "//:LOG→BAN · SYSTEM ONLINE");
    ("hero_bullets", JArr [JStr "~20 ms kernel ban"; JStr T_AUTO; JStr "72h soak PASS"]);
    ("hero_tagline", JStr "nginx access log → WAF/CRS → kernel ban · tek zincir · self-hosted");
    ("hero_chips", JArr [JStr "açık kaynak · MIT"; JStr "72h soak PASS"]);
    ("hero_reach", JStr "3,65k+ ziyaret · 56 ülke · kanıt PDF");
    ("hero_praise_lead", JStr "Türkiye'nin ölçülebilir kanıtlı, tek zincir self-hosted güvenlik stack'i — rakipler parça parça, biz hepsi bir arada.");
    ("hero_praise_highlights", JArr [
      JStr "~20 ms medyan ban — Fail2ban'ın saatler süren iptables yoluna karşı ölçülmüş 21 örnek";
      JStr "%100 gerçek saldırı recall + %100 OWASP CRS parity — 121 kural, 1500 satır corpus";
      JStr "%0.2 false positive — 500 benign satırda 1 alarm; rakiplerde yüksek/orta";
      JStr "72 saat VM soak — 864 örnek, 0 hata; rakiplerde otomatik kanıt yok";
      JStr (T_AUTO ++ " + 14 dosyalık kanıt paketi — PDF/JSON, tekrar üretilebilir");
      JStr "3 araç yığını tek ürün: Fail2ban + ModSecurity + CrowdSec — ~15 dk kurulum"]);
    ("hero_praise_bold", JArr [
      JObj [("v", JStr "~20ms"); ("l", JStr "kernel ban")];
      JObj [("v", JStr "100"); ("l", JStr "recall")];
      JObj [("v", JStr (dec T)); ("l", JStr "otomatik test")];
      JObj [("v", JStr "3→1"); ("l", JStr "araç birleşimi")]]);
    ("hero_side_title", JStr "Fail2ban + ModSecurity + CrowdSec ayrı ayrı mı? Tek ürün, tek kanıt, tek kurulum.");
    ("hero_side_body", JStr "nginx access log satırından ipset ban'a kadar tek hat: parser, OWASP CRS/WAF değerlendirme ve ~20 ms kernel ban. Rakipler parçalı mimari sunar — biz ölçülmüş, tekrar üretilebilir PDF/JSON kanıtıyla tek zincirde birleştiririz. Türkiye'de geliştirildi, MIT lisansıyla açık kaynak, tamamen self-hosted.");
    ("hero_cta_setup", JStr "15 dk kurulum");
    ("hero_cta_github", JStr "GitHub kaynak");
    ("hero_cta_tests", JStr (dec T ++ " testi gör"));
    ("hero_cta_pdf", JStr "Kanıt PDF");
    ("hero_researcher_note", JStr "Güvenlik araştırmacısı? WooCommerce veya mağaza API değil — doğrulama matrisi /testler · security.txt");
    ("about_eyebrow", JStr "//:Nedir");
    ("about_title", JStr "Linux Log Guardian nedir?");
    ("about_intro", JStr "Türkiye'de geliştirilen, tamamen açık kaynak (MIT) bir self-hosted güvenlik yazılımı. nginx erişim loglarını gerçek zamanlı okur, OWASP CRS/WAF ile değerlendirir ve saldırgan IP'yi ipset ile kernel seviyesinde ~20 ms'de banlar — tek zincirde, üçüncü parti bulut olmadan.");
    ("about_paragraphs", JArr [
      JStr "Fail2ban yalnızca ban atar, ModSecurity WAF ayrı bir modüldür, CrowdSec parçalı mimari ister. Log Guardian bunları tek hatta birleştirir: log satırı düşer → parser normalize eder → CRS/WAF kural motoru (PCRE2 JIT) değerlendirir → ban pipeline politika + tenant kararı verir → ipset/XDP kernelde uygular → Prometheus metrik ve dashboard SOC timeline'a yazar.";
      JStr "Sonuç ölçülebilir ve tekrar üretilebilir: gerçek saldırı corpus'unda %100 recall, OWASP CRS ile %100 parity, %0.2 false positive, ~20 ms medyan ban gecikmesi ve 72 saatlik VM soak testinde 864 örnek boyunca 0 hata.";
      JStr "Bu web sitesi halka açık tanıtım ve indirme sayfasıdır — statik içerik sunar. Yazılım burada çalışmaz; kendi Linux sunucunuza kurar, verinizin sizde kalmasını sağlarsınız."]);
    ("about_highlights", JArr [
      JObj [("k", JStr "Tek zincir"); ("v", JStr "log → WAF → kernel ban, tek araç")];
      JObj [("k", JStr "~20 ms"); ("v", JStr "log satırından ipset ban'a medyan gecikme")];
      JObj [("k", JStr "%100 recall"); ("v", JStr "gerçek saldırı corpus + CRS parity")];
      JObj [("k", JStr "%0.2 FP"); ("v", JStr "500 benign satırda 1 alarm")];
      JObj [("k", JStr "72h soak"); ("v", JStr "864 örnek, 0 hata (VM)")];
      JObj [("k", JStr "MIT · TR"); ("v", JStr "açık kaynak, Türkçe doküman, self-hosted")]]);
    ("pkg_title", JStr "3'ü 1 arada — ayrı ayrı kurulum yok");
    ("pkg_hero", JStr "Fail2ban, ModSecurity ve CrowdSec'i tek tek kurup entegre etmek yerine Log Guardian hepsini tek self-hosted pakette birleştirir.");
    ("pkg_tagline", JStr "Üç rakip araç · tek zincir · ölçülebilir kanıt");
    ("pkg_instead", JStr "Tek başına kurmak yerine → Log Guardian'da dahil");
    ("pkg_footer", JStr "Fail2ban + ModSecurity + CrowdSec → 1 tek zincir");
    ("pkg_detail", JStr "Detaylı anlatım → /paketler");
    ("merge", JArr [
      JObj [
        ("company", JStr "Fail2ban");
        ("name", JStr "Ban motoru");
        ("replaces", JStr "Fail2ban + iptables script yığını");
        ("body", JStr "Fail2ban'ı ayrı kurmazsınız. Log satırından ipset/XDP kernel ban ~20 ms — policy, tenant, FP trust tek pipeline.");
        ("metrics", JArr [JStr "~20 ms medyan"; JStr "ipset + XDP"; JStr "0 fail (5 dk)"])];
      JObj [
        ("company", JStr "ModSecurity");
        ("name", JStr "WAF / CRS katmanı");
        ("replaces", JStr "ModSecurity + nginx ayrı entegrasyon");
        ("body", JStr "ModSecurity'yi ayrı modül olarak bağlamazsınız. OWASP CRS 121 kural, PCRE2 JIT — nginx log satırından tek geçiş.");
        ("metrics", JArr [JStr "%100 CRS parity"; JStr "%100 recall"; JStr "%0.2 FP"])];
      JObj [
        ("company", JStr "CrowdSec");
        ("name", JStr "SOC & sinyal katmanı");
        ("replaces", JStr "CrowdSec bouncer + ayrı konsol + manuel kanıt");
        ("body", JStr ("CrowdSec parçalı mimarisine gerek yok — isteğe bağlı LAPI sinyali ban API'ye akar. Prometheus, SOC timeline, " ++ T_TEST ++ ", 14 kanıt dosyası, Telegram ops — tek panel."));
        ("metrics", JArr [JStr T_TEST; JStr "72h soak PASS"; JStr "14 kanıt dosyası"])]]);
    ("metrics_title", JStr "Sitede gösterilen tüm sayısal değerler");
    ("metrics_sub", JStr "Kaynak: competitive-proof.json · bench-ban-latency.json · bench-vs-modsec.json · fp-report.json · soak-report.json");
    ("metric_groups", JObj [
      ("Ban & gecikme", JStr "Ban & gecikme");
      ("WAF & recall", JStr "WAF & recall");
      ("Throughput", JStr "Throughput");
      ("Stabilite & kanıt", JStr "Stabilite & kanıt");
      ("Erişim & kurulum", JStr "Erişim & kurulum")]);
    ("why_title", JStr "Neden Log Guardian?");
    ("why_lead", JStr "Rakipler parça parça — biz tek zincirde ölçülebilir kanıt sunuyoruz.");
    ("why_cards", JArr [
      JObj [
        ("title", JStr "Tek hat");
        ("body", JStr "nginx log → OWASP CRS → ~20 ms kernel ban. Fail2ban + ModSec + script yığını yok.")];
      JObj [
        ("title", JStr "Şeffaf kanıt");
        ("body", JStr ("competitive-proof PDF, " ++ T_TEST ++ ", 72h soak — rakiplerde yok veya parçalı."))];
      JObj [
        ("title", JStr "MIT · Türkiye");
        ("body", JStr "Açık kaynak, Türkçe doküman, self-hosted — vendor lock-in yok.")];
      JObj [
        ("title", JStr "Dürüst sınır");
        ("body", JStr "İlk isteği ModSec inline anında keser, biz reaktifiz; L3/L4'ü CDN absorb eder. Buna karşılık WAF/CRS hızımız aynı corpus'ta 16.93× ModSec.")];
      JObj [
        ("title", JStr "3'ü 1 arada");
        ("body", JStr "Fail2ban, ModSecurity, CrowdSec ayrı ayrı değil — ban + WAF + SOC tek üründe.")];
      JObj [
        ("title", JStr "Kernel hızı");
        ("body", JStr "~20 ms medyan ban — Fail2ban/CrowdSec saniye–dakika ölçeğinde; ölçülmüş 21 örnek.")];
      JObj [
        ("title", JStr "Dağıtık saldırı");
        ("body", JStr "JA3 cluster %100 recall — 80 IP canlı test; IP başına ban + cluster tespiti.")];
      JObj [
        ("title", JStr "Operatör akışı");
        ("body", JStr "Telegram alert + tek-tık ack, SOC timeline, tenant metrik — kurulum sonrası :8443.")]]);
    ("stats", JArr [
      JObj [("value", JStr (dec T)); ("label", JStr "Otomatik test")];
      JObj [("value", JStr "72h"); ("label", JStr "Soak PASS")];
      JObj [("value", JStr "~20ms"); ("label", JStr "Kernel ban")];
      JObj [("value", JStr "56"); ("label", JStr "Ülke erişimi")];
      JObj [("value", JStr "280.373"); ("label", JStr "EPS")]]);
    ("metric_labels", JObj [])].
Definition SECTIONS_EN_merge : json := JArr [
    JObj [
      ("company", JStr "Fail2ban");
      ("name", JStr "Ban engine");
      ("replaces", JStr "Fail2ban + iptables scripts");
      ("body", JStr "No separate Fail2ban. Log line to ipset/XDP kernel ban ~20 ms — policy, tenant, FP trust in one pipeline.");
      ("metrics", JArr [JStr "~20 ms median"; JStr "ipset + XDP"; JStr "0 fail (5 min)"])];
    JObj [
      ("company", JStr "ModSecurity");
      ("name", JStr "WAF / CRS layer");
      ("replaces", JStr "ModSecurity + separate nginx integration");
      ("body", JStr "No separate ModSecurity module. OWASP CRS 121 rules, PCRE2 JIT — single pass from nginx log line.");
      ("metrics", JArr [JStr "100% CRS parity"; JStr "100% recall"; JStr "0.2% FP"])];
    JObj [
      ("company", JStr "CrowdSec");
      ("name", JStr "SOC & signal layer");
      ("replaces", JStr "CrowdSec bouncer + separate console + manual proof");
      ("body", JStr ("No CrowdSec piecemeal stack. Prometheus, SOC timeline, " ++ T_TESTS ++ ", 14 evidence files, Telegram ops — one panel."));
      ("metrics", JArr [JStr T_TESTS; JStr "72h soak PASS"; JStr "14 evidence files"])]].
Definition SECTIONS_EN_why_cards : json := jmapi (λ i c, JObj [
      ("title", jix i (JArr [
        JStr "Single chain";
        JStr "Transparent proof";
        JStr "MIT · Turkey";
        JStr "Honest limits";
        JStr "3-in-1";
        JStr "Kernel speed";
        JStr "Distributed attacks";
        JStr "Operator flow"]));
      ("body", jix i (JArr [
        JStr "nginx log → OWASP CRS → ~20 ms kernel ban. No Fail2ban + ModSec + script pile.";
        JStr ("competitive-proof PDF, " ++ T_TESTS ++ ", 72h soak — missing or fragmented in rivals.");
        JStr "Open source, Turkish docs, self-hosted — no vendor lock-in.";
        JStr "ModSec blocks the first request inline; we're reactive. CDN absorbs L3/L4. In return our WAF/CRS speed is 16.93× ModSec on the same corpus.";
        JStr "Fail2ban, ModSecurity, CrowdSec not separate — ban + WAF + SOC in one product.";
        JStr "~20 ms median ban — Fail2ban/CrowdSec in seconds–minutes; 21 measured samples.";
        JStr "JA3 cluster 100% recall — 80 IP live test; per-IP ban + cluster detection.";
        JStr "Telegram alert + one-click ack, SOC timeline, tenant metrics — :8443 after install."]))]) (fld "why_cards" SECTIONS_TR).
Definition SECTIONS_EN_metric_labels : json := JObj [
    ("Medyan ban gecikmesi", JStr "Median ban latency");
    ("P90 ban gecikmesi", JStr "P90 ban latency");
    ("Min örnek (21 ölçüm)", JStr "Min sample (21 runs)");
    ("Max örnek (21 ölçüm)", JStr "Max sample (21 runs)");
    ("Olay/sn parse (Core)", JStr "Events/sec parse (Core)");
    ("Laptop hedef (PASS)", JStr "Laptop target (PASS)");
    ("Prod hedef", JStr "Prod target");
    ("Gerçek saldırı recall", JStr "Real attack recall");
    ("OWASP CRS parity", JStr "OWASP CRS parity");
    ("CRS kural sayısı", JStr "CRS rule count");
    ("False positive oranı", JStr "False positive rate");
    ("Benign test satırı", JStr "Benign test lines");
    ("Bench corpus satırı", JStr "Bench corpus lines");
    ("Log Guardian replay", JStr "Log Guardian replay");
    ("ModSec CRS replay", JStr "ModSec CRS replay");
    ("Satır başı latency (LG)", JStr "Per-line latency (LG)");
    ("Bench worker sayısı", JStr "Bench worker count");
    ("Otomatik test", JStr "Automated tests");
    ("VM soak süresi", JStr "VM soak duration");
    ("Soak örnek sayısı", JStr "Soak sample count");
    ("Soak hata", JStr "Soak errors");
    ("Kanıt dosyası", JStr "Evidence files");
    ("JA3 cluster test", JStr "JA3 cluster test");
    ("Site ziyareti", JStr "Site visits");
    ("Sayfa görüntüleme", JStr "Page views");
    ("Ülke erişimi", JStr "Country reach");
    ("Core kurulum süresi", JStr "Core setup time");
    ("Prometheus port", JStr "Prometheus port");
    ("Dashboard port (prod)", JStr "Dashboard port (prod)")].
Definition SECTIONS_EN : json := JObj [
  ("hero_badge", JStr "//:LOG→BAN · SYSTEM ONLINE");
  ("hero_bullets", JArr [JStr "~20 ms kernel ban"; JStr T_AUTO_EN; JStr "72h soak PASS"]);
  ("hero_tagline", JStr "nginx access log → WAF/CRS → kernel ban · single chain · self-hosted");
  ("hero_chips", JArr [JStr "open source · MIT"; JStr "72h soak PASS"]);
  ("hero_reach", JStr "3.65k+ visits · 56 countries · proof PDF");
  ("hero_praise_lead", JStr "Turkey's measurable-proof, single-chain self-hosted security stack — rivals are piecemeal; we ship one integrated chain.");
  ("hero_praise_highlights", JArr [
    JStr "~20 ms median ban — measured 21 samples vs Fail2ban's hours-long iptables path";
    JStr "100% real attack recall + 100% OWASP CRS parity — 121 rules, 1500-line corpus";
    JStr "0.2% false positive — 1 alarm in 500 benign lines; rivals higher/medium";
    JStr "72h VM soak — 864 samples, 0 errors; no automatic proof in rivals";
    JStr (T_AUTO_EN ++ " + 14-file evidence pack — PDF/JSON, reproducible");
    JStr "Fail2ban + ModSecurity + CrowdSec in one chain — ~15 min setup"]);
  ("hero_praise_bold", JArr [
    JObj [("v", JStr "~20ms"); ("l", JStr "kernel ban")];
    JObj [("v", JStr "100"); ("l", JStr "recall")];
    JObj [("v", JStr (dec T)); ("l", JStr "auto tests")];
    JObj [("v", JStr "3→1"); ("l", JStr "tool merge")]]);
  ("hero_side_title", JStr "Fail2ban + ModSecurity + CrowdSec separately? One product, one proof, one install.");
  ("hero_side_body", JStr "Single chain from nginx access log line to ipset ban: parser, OWASP CRS/WAF evaluation and ~20 ms kernel ban. Rivals offer piecemeal architecture — we merge in one chain with measured, reproducible PDF/JSON proof. Built in Turkey, MIT open source, fully self-hosted.");
  ("hero_cta_setup", JStr "15 min setup");
  ("hero_cta_github", JStr "GitHub source");
  ("hero_cta_tests", JStr ("See " ++ T_TESTS));
  ("hero_cta_pdf", JStr "Proof PDF");
  ("hero_researcher_note", JStr "Security researcher? Not WooCommerce or a shop API — verification matrix at /testler · security.txt");
  ("about_eyebrow", JStr "//:About");
  ("about_title", JStr "What is Linux Log Guardian?");
  ("about_intro", JStr "An open-source (MIT) self-hosted security product built in Turkey. Reads nginx access logs in real time, evaluates with OWASP CRS/WAF and bans attacker IPs at kernel level via ipset in ~20 ms — single chain, no third-party cloud.");
  ("about_paragraphs", JArr [
    JStr "Fail2ban only bans, ModSecurity WAF is a separate module, CrowdSec needs a piecemeal stack. Log Guardian merges them: log line → parser → CRS/WAF (PCRE2 JIT) → ban pipeline policy + tenant → ipset/XDP kernel → Prometheus metrics and dashboard SOC timeline.";
    JStr "Results are measurable and reproducible: 100% recall on real attack corpus, 100% OWASP CRS parity, 0.2% false positive, ~20 ms median ban latency and 0 errors over 864 samples in 72h VM soak.";
    JStr "This site is a public landing and download page — static content. The software runs on your Linux server; your data stays with you."]);
  ("about_highlights", JArr [
    JObj [("k", JStr "Single chain"); ("v", JStr "log → WAF → kernel ban, one tool")];
    JObj [("k", JStr "~20 ms"); ("v", JStr "median latency log line to ipset ban")];
    JObj [("k", JStr "100% recall"); ("v", JStr "real attack corpus + CRS parity")];
    JObj [("k", JStr "0.2% FP"); ("v", JStr "1 alarm in 500 benign lines")];
    JObj [("k", JStr "72h soak"); ("v", JStr "864 samples, 0 errors (VM)")];
    JObj [("k", JStr "MIT · TR"); ("v", JStr "open source, Turkish docs, self-hosted")]]);
  ("pkg_title", JStr "3-in-1 — no separate installs");
  ("pkg_hero", JStr "Instead of installing Fail2ban, ModSecurity and CrowdSec separately, Log Guardian merges all three in one self-hosted package.");
  ("pkg_tagline", JStr "Three rival tools · one chain · measured proof");
  ("pkg_instead", JStr "Instead of standalone install → included in Log Guardian");
  ("pkg_footer", JStr "Fail2ban + ModSecurity + CrowdSec → 1 single chain");
  ("pkg_detail", JStr "Full story → /paketler");
  ("merge", SECTIONS_EN_merge);
  ("metrics_title", JStr "All numerical values on this site");
  ("metrics_sub", JStr "Source: competitive-proof.json · bench-ban-latency.json · bench-vs-modsec.json · fp-report.json · soak-report.json");
  ("metric_groups", JObj [
    ("Ban & gecikme", JStr "Ban & latency");
    ("WAF & recall", JStr "WAF & recall");
    ("Throughput", JStr "Throughput");
    ("Stabilite & kanıt", JStr "Stability & proof");
    ("Erişim & kurulum", JStr "Reach & setup")]);
  ("why_title", JStr "Why Log Guardian?");
  ("why_lead", JStr "Rivals are piecemeal — we offer measurable proof in a single chain.");
  ("why_cards", SECTIONS_EN_why_cards);
  ("stats", JArr [
    JObj [("value", JStr (dec T)); ("label", JStr "Automated tests")];
    JObj [("value", JStr "72h"); ("label", JStr "Soak PASS")];
    JObj [("value", JStr "~20ms"); ("label", JStr "Kernel ban")];
    JObj [("value", JStr "56"); ("label", JStr "Countries")];
    JObj [("value", JStr "280,373"); ("label", JStr "EPS")]]);
  ("metric_labels", SECTIONS_EN_metric_labels)].
Definition TURKIC : json := JArr [
    JStr "tr";
    JStr "az";
    JStr "kk";
    JStr "uz";
    JStr "ky";
    JStr "tk";
    JStr "ug";
    JStr "tt";
    JStr "ba";
    JStr "cv";
    JStr "crh";
    JStr "gag";
    JStr "sah"].
Definition short_de : json := JObj [
    ("hero_tagline", JStr "nginx access log → WAF/CRS → Kernel-Ban · eine Kette · self-hosted");
    ("hero_side_title", JStr "Fail2ban + ModSecurity + CrowdSec getrennt? Ein Produkt, ein Nachweis, eine Installation.");
    ("hero_praise_lead", JStr "Der messbar belegte, single-chain self-hosted Security-Stack aus der Türkei — Konkurrenten stückweise, wir alles in einem.");
    ("hero_cta_setup", JStr "15 Min Setup");
    ("hero_cta_github", JStr "GitHub-Quelle");
    ("hero_cta_tests", JStr "80 Tests ansehen");
    ("about_title", JStr "Was ist Linux Log Guardian?");
    ("about_intro", JStr "Ein Open-Source (MIT), self-hosted Sicherheitsprodukt aus der Türkei. Liest nginx-Access-Logs in Echtzeit, wertet mit OWASP CRS/WAF aus und bannt Angreifer-IPs auf Kernel-Ebene per ipset in ~20 ms — eine Kette, keine Drittanbieter-Cloud.");
    ("pkg_title", JStr "3-in-1 — keine getrennten Installationen");
    ("pkg_tagline", JStr "Drei konkurrierende Tools · eine Kette · gemessener Nachweis");
    ("pkg_instead", JStr "Statt Einzelinstallation → in Log Guardian enthalten");
    ("pkg_footer", JStr "Fail2ban + ModSecurity + CrowdSec → 1 einzige Kette");
    ("pkg_detail", JStr "Ganze Story → /paketler");
    ("metrics_title", JStr "Alle Zahlenwerte auf dieser Seite");
    ("why_title", JStr "Warum Log Guardian?");
    ("why_lead", JStr "Konkurrenten sind Stückwerk — wir liefern messbaren Nachweis in einer Kette.");
    ("why_titles", JArr [
      JStr "Eine Kette";
      JStr "Transparenter Nachweis";
      JStr "MIT · Türkei";
      JStr "Ehrliche Grenzen";
      JStr "3-in-1";
      JStr "Kernel-Tempo";
      JStr "Verteilte Angriffe";
      JStr "Betreiber-Flow"]);
    ("stats_labels", JArr [JStr "Automatische Tests"; JStr "Soak PASS"; JStr "Kernel-Ban"; JStr "Länder"])].
Definition short_fr : json := JObj [
    ("hero_tagline", JStr "nginx access log → WAF/CRS → ban noyau · une seule chaîne · self-hosted");
    ("hero_side_title", JStr "Fail2ban + ModSecurity + CrowdSec séparément ? Un produit, une preuve, une installation.");
    ("hero_praise_lead", JStr "La stack de sécurité self-hosted à preuve mesurable et chaîne unique de la Turquie — les rivaux fragmentés, nous tout-en-un.");
    ("hero_cta_setup", JStr "Installation 15 min");
    ("hero_cta_github", JStr "Source GitHub");
    ("hero_cta_tests", JStr "Voir 80 tests");
    ("about_title", JStr "Qu'est-ce que Linux Log Guardian ?");
    ("about_intro", JStr "Un produit de sécurité open source (MIT), auto-hébergé, conçu en Turquie. Lit les logs d'accès nginx en temps réel, évalue avec OWASP CRS/WAF et bannit les IP attaquantes au niveau noyau via ipset en ~20 ms — une seule chaîne, sans cloud tiers.");
    ("pkg_title", JStr "3-en-1 — aucune installation séparée");
    ("pkg_tagline", JStr "Trois outils rivaux · une chaîne · preuve mesurée");
    ("pkg_instead", JStr "Au lieu d'une installation séparée → inclus dans Log Guardian");
    ("pkg_footer", JStr "Fail2ban + ModSecurity + CrowdSec → 1 seule chaîne");
    ("pkg_detail", JStr "Détails → /paketler");
    ("metrics_title", JStr "Toutes les valeurs chiffrées de ce site");
    ("why_title", JStr "Pourquoi Log Guardian ?");
    ("why_lead", JStr "Les rivaux sont fragmentés — nous offrons une preuve mesurable en une seule chaîne.");
    ("why_titles", JArr [
      JStr "Chaîne unique";
      JStr "Preuve transparente";
      JStr "MIT · Turquie";
      JStr "Limites honnêtes";
      JStr "3-en-1";
      JStr "Vitesse noyau";
      JStr "Attaques distribuées";
      JStr "Flux opérateur"]);
    ("stats_labels", JArr [JStr "Tests automatiques"; JStr "Soak PASS"; JStr "Ban noyau"; JStr "Pays"])].
Definition short_es : json := JObj [
    ("hero_tagline", JStr "nginx access log → WAF/CRS → ban de kernel · una sola cadena · self-hosted");
    ("hero_side_title", JStr "¿Fail2ban + ModSecurity + CrowdSec por separado? Un producto, una prueba, una instalación.");
    ("hero_praise_lead", JStr "El stack de seguridad autoalojado de cadena única y prueba medible de Turquía — los rivales fragmentados, nosotros todo en uno.");
    ("hero_cta_setup", JStr "Instalación 15 min");
    ("hero_cta_github", JStr "Código GitHub");
    ("hero_cta_tests", JStr "Ver 80 pruebas");
    ("about_title", JStr "¿Qué es Linux Log Guardian?");
    ("about_intro", JStr "Un producto de seguridad de código abierto (MIT), autoalojado, desarrollado en Turquía. Lee los logs de acceso de nginx en tiempo real, evalúa con OWASP CRS/WAF y banea las IP atacantes a nivel de kernel con ipset en ~20 ms — una sola cadena, sin nube de terceros.");
    ("pkg_title", JStr "3 en 1 — sin instalaciones separadas");
    ("pkg_tagline", JStr "Tres herramientas rivales · una cadena · prueba medida");
    ("pkg_instead", JStr "En vez de instalación por separado → incluido en Log Guardian");
    ("pkg_footer", JStr "Fail2ban + ModSecurity + CrowdSec → 1 sola cadena");
    ("pkg_detail", JStr "Detalles → /paketler");
    ("metrics_title", JStr "Todos los valores numéricos de este sitio");
    ("why_title", JStr "¿Por qué Log Guardian?");
    ("why_lead", JStr "Los rivales son fragmentados — ofrecemos prueba medible en una sola cadena.");
    ("why_titles", JArr [
      JStr "Cadena única";
      JStr "Prueba transparente";
      JStr "MIT · Turquía";
      JStr "Límites honestos";
      JStr "3 en 1";
      JStr "Velocidad de kernel";
      JStr "Ataques distribuidos";
      JStr "Flujo de operador"]);
    ("stats_labels", JArr [JStr "Pruebas automáticas"; JStr "Soak PASS"; JStr "Ban de kernel"; JStr "Países"])].
Definition short_ru : json := JObj [
    ("hero_tagline", JStr "nginx access log → WAF/CRS → бан на уровне ядра · одна цепочка · self-hosted");
    ("hero_side_title", JStr "Fail2ban + ModSecurity + CrowdSec по отдельности? Один продукт, одно доказательство, одна установка.");
    ("hero_praise_lead", JStr "Турецкий self-hosted стек безопасности с измеримым доказательством и единой цепочкой — конкуренты по частям, мы всё в одном.");
    ("hero_cta_setup", JStr "Установка 15 мин");
    ("hero_cta_github", JStr "Исходники GitHub");
    ("hero_cta_tests", JStr "80 тестов");
    ("about_title", JStr "Что такое Linux Log Guardian?");
    ("about_intro", JStr "Открытый (MIT), self-hosted продукт безопасности, разработанный в Турции. Читает access-логи nginx в реальном времени, оценивает через OWASP CRS/WAF и банит IP атакующих на уровне ядра через ipset за ~20 мс — одна цепочка, без стороннего облака.");
    ("pkg_title", JStr "3-в-1 — без отдельных установок");
    ("pkg_tagline", JStr "Три конкурента · одна цепочка · измеренное доказательство");
    ("pkg_instead", JStr "Вместо отдельной установки → включено в Log Guardian");
    ("pkg_footer", JStr "Fail2ban + ModSecurity + CrowdSec → 1 единая цепочка");
    ("pkg_detail", JStr "Подробнее → /paketler");
    ("metrics_title", JStr "Все числовые значения на этом сайте");
    ("why_title", JStr "Почему Log Guardian?");
    ("why_lead", JStr "Конкуренты фрагментарны — мы даём измеримое доказательство в одной цепочке.");
    ("why_titles", JArr [
      JStr "Одна цепочка";
      JStr "Прозрачное доказательство";
      JStr "MIT · Турция";
      JStr "Честные границы";
      JStr "3-в-1";
      JStr "Скорость ядра";
      JStr "Распределённые атаки";
      JStr "Поток оператора"]);
    ("stats_labels", JArr [JStr "Автотесты"; JStr "Soak PASS"; JStr "Бан ядра"; JStr "Страны"])].
Definition short_pt : json := JObj [
    ("hero_tagline", JStr "nginx access log → WAF/CRS → ban de kernel · uma só cadeia · self-hosted");
    ("hero_side_title", JStr "Fail2ban + ModSecurity + CrowdSec separados? Um produto, uma prova, uma instalação.");
    ("hero_praise_lead", JStr "A stack de segurança self-hosted de cadeia única e prova mensurável da Turquia — rivais fragmentados, nós tudo-em-um.");
    ("hero_cta_setup", JStr "Instalação 15 min");
    ("hero_cta_github", JStr "Código GitHub");
    ("hero_cta_tests", JStr "Ver 80 testes");
    ("about_title", JStr "O que é o Linux Log Guardian?");
    ("about_intro", JStr "Um produto de segurança open source (MIT), self-hosted, feito na Turquia. Lê logs de acesso do nginx em tempo real, avalia com OWASP CRS/WAF e bane IPs atacantes ao nível do kernel via ipset em ~20 ms — uma só cadeia, sem nuvem de terceiros.");
    ("pkg_title", JStr "3 em 1 — sem instalações separadas");
    ("pkg_tagline", JStr "Três ferramentas rivais · uma cadeia · prova medida");
    ("pkg_instead", JStr "Em vez de instalação separada → incluído no Log Guardian");
    ("pkg_footer", JStr "Fail2ban + ModSecurity + CrowdSec → 1 única cadeia");
    ("pkg_detail", JStr "Detalhes → /paketler");
    ("metrics_title", JStr "Todos os valores numéricos deste site");
    ("why_title", JStr "Por que Log Guardian?");
    ("why_lead", JStr "Os rivais são fragmentados — oferecemos prova mensurável numa só cadeia.");
    ("why_titles", JArr [
      JStr "Cadeia única";
      JStr "Prova transparente";
      JStr "MIT · Turquia";
      JStr "Limites honestos";
      JStr "3 em 1";
      JStr "Velocidade de kernel";
      JStr "Ataques distribuídos";
      JStr "Fluxo do operador"]);
    ("stats_labels", JArr [JStr "Testes automáticos"; JStr "Soak PASS"; JStr "Ban de kernel"; JStr "Países"])].
Definition short_nl : json := JObj [
    ("hero_tagline", JStr "nginx access log → WAF/CRS → kernel-ban · één keten · self-hosted");
    ("hero_side_title", JStr "Fail2ban + ModSecurity + CrowdSec apart? Eén product, één bewijs, één installatie.");
    ("hero_praise_lead", JStr "Turkije's meetbaar bewezen, single-chain self-hosted security-stack — concurrenten versnipperd, wij alles-in-één.");
    ("hero_cta_setup", JStr "15 min installatie");
    ("hero_cta_github", JStr "GitHub-broncode");
    ("hero_cta_tests", JStr "Bekijk 80 tests");
    ("about_title", JStr "Wat is Linux Log Guardian?");
    ("about_intro", JStr "Een open-source (MIT), self-hosted beveiligingsproduct uit Turkije. Leest nginx-accesslogs in realtime, evalueert met OWASP CRS/WAF en bant aanvaller-IP's op kernelniveau via ipset in ~20 ms — één keten, zonder externe cloud.");
    ("pkg_title", JStr "3-in-1 — geen aparte installaties");
    ("pkg_tagline", JStr "Drie concurrerende tools · één keten · gemeten bewijs");
    ("pkg_instead", JStr "In plaats van aparte installatie → inbegrepen in Log Guardian");
    ("pkg_footer", JStr "Fail2ban + ModSecurity + CrowdSec → 1 enkele keten");
    ("pkg_detail", JStr "Details → /paketler");
    ("metrics_title", JStr "Alle numerieke waarden op deze site");
    ("why_title", JStr "Waarom Log Guardian?");
    ("why_lead", JStr "Concurrenten zijn versnipperd — wij bieden meetbaar bewijs in één keten.");
    ("why_titles", JArr [
      JStr "Eén keten";
      JStr "Transparant bewijs";
      JStr "MIT · Turkije";
      JStr "Eerlijke grenzen";
      JStr "3-in-1";
      JStr "Kernelsnelheid";
      JStr "Gedistribueerde aanvallen";
      JStr "Operatorflow"]);
    ("stats_labels", JArr [JStr "Automatische tests"; JStr "Soak PASS"; JStr "Kernel-ban"; JStr "Landen"])].
Definition short_zh : json := JObj [
    ("hero_tagline", JStr "nginx 访问日志 → WAF/CRS → 内核封禁 · 单一链路 · 自托管");
    ("hero_side_title", JStr "还在分别部署 Fail2ban + ModSecurity + CrowdSec？一个产品、一份证据、一次安装。");
    ("hero_praise_lead", JStr "土耳其打造的可衡量证据、单链路自托管安全栈——竞品零散，我们一体化。");
    ("hero_cta_setup", JStr "15分钟安装");
    ("hero_cta_github", JStr "GitHub 源码");
    ("hero_cta_tests", JStr "查看 80 项测试");
    ("about_title", JStr "什么是 Linux Log Guardian？");
    ("about_intro", JStr "一款在土耳其开发的开源（MIT）自托管安全产品。实时读取 nginx 访问日志，使用 OWASP CRS/WAF 评估，并通过 ipset 在内核层约 20 毫秒封禁攻击者 IP——单一链路，无第三方云。");
    ("pkg_title", JStr "三合一 — 无需分别安装");
    ("pkg_tagline", JStr "三个竞品 · 一条链路 · 实测证据");
    ("pkg_instead", JStr "无需单独安装 → 已包含在 Log Guardian 中");
    ("pkg_footer", JStr "Fail2ban + ModSecurity + CrowdSec → 1 条统一链路");
    ("pkg_detail", JStr "详情 → /paketler");
    ("metrics_title", JStr "本站全部数值");
    ("why_title", JStr "为什么选择 Log Guardian？");
    ("why_lead", JStr "竞品各自为政——我们在单一链路中提供可衡量的证据。");
    ("why_titles", JArr [
      JStr "单一链路";
      JStr "透明证据";
      JStr "MIT · 土耳其";
      JStr "诚实边界";
      JStr "三合一";
      JStr "内核速度";
      JStr "分布式攻击";
      JStr "运维流程"]);
    ("stats_labels", JArr [JStr "自动化测试"; JStr "Soak 通过"; JStr "内核封禁"; JStr "覆盖国家"])].
Definition short_ja : json := JObj [
    ("hero_tagline", JStr "nginx アクセスログ → WAF/CRS → カーネルBAN · 単一チェーン · セルフホスト");
    ("hero_side_title", JStr "Fail2ban + ModSecurity + CrowdSec を個別に？ 一つの製品、一つの証拠、一度の導入。");
    ("hero_praise_lead", JStr "トルコ発、測定可能な証拠と単一チェーンのセルフホスト型セキュリティスタック——競合は断片的、私たちはオールインワン。");
    ("hero_cta_setup", JStr "15分で導入");
    ("hero_cta_github", JStr "GitHub ソース");
    ("hero_cta_tests", JStr "80テストを見る");
    ("about_title", JStr "Linux Log Guardian とは？");
    ("about_intro", JStr "トルコで開発されたオープンソース（MIT）のセルフホスト型セキュリティ製品。nginx アクセスログをリアルタイムに読み取り、OWASP CRS/WAF で評価し、攻撃者 IP を ipset でカーネルレベルに約20msでBAN——単一チェーン、サードパーティクラウド不要。");
    ("pkg_title", JStr "3-in-1 — 個別インストール不要");
    ("pkg_tagline", JStr "3つの競合ツール · 単一チェーン · 実測の証拠");
    ("pkg_instead", JStr "個別導入の代わりに → Log Guardian に同梱");
    ("pkg_footer", JStr "Fail2ban + ModSecurity + CrowdSec → 1本の統一チェーン");
    ("pkg_detail", JStr "詳細 → /paketler");
    ("metrics_title", JStr "本サイトの全数値");
    ("why_title", JStr "なぜ Log Guardian か？");
    ("why_lead", JStr "競合は断片的——私たちは単一チェーンで測定可能な証拠を提供します。");
    ("why_titles", JArr [
      JStr "単一チェーン";
      JStr "透明な証拠";
      JStr "MIT · トルコ";
      JStr "正直な限界";
      JStr "3-in-1";
      JStr "カーネル速度";
      JStr "分散攻撃";
      JStr "運用フロー"]);
    ("stats_labels", JArr [JStr "自動テスト"; JStr "Soak 合格"; JStr "カーネルBAN"; JStr "対応国"])].
Definition short_ko : json := JObj [
    ("hero_tagline", JStr "nginx 액세스 로그 → WAF/CRS → 커널 밴 · 단일 체인 · 셀프호스팅");
    ("hero_side_title", JStr "Fail2ban + ModSecurity + CrowdSec 따로따로? 하나의 제품, 하나의 증거, 한 번의 설치.");
    ("hero_praise_lead", JStr "튀르키예의 측정 가능한 증거, 단일 체인 셀프호스팅 보안 스택 — 경쟁사는 조각조각, 우리는 올인원.");
    ("hero_cta_setup", JStr "15분 설치");
    ("hero_cta_github", JStr "GitHub 소스");
    ("hero_cta_tests", JStr "80개 테스트 보기");
    ("about_title", JStr "Linux Log Guardian이란?");
    ("about_intro", JStr "튀르키예에서 개발된 오픈소스(MIT) 셀프호스팅 보안 제품입니다. nginx 액세스 로그를 실시간으로 읽고 OWASP CRS/WAF로 평가하여 공격자 IP를 ipset으로 커널 수준에서 약 20ms 만에 차단합니다 — 단일 체인, 제3자 클라우드 불필요.");
    ("pkg_title", JStr "3-in-1 — 개별 설치 불필요");
    ("pkg_tagline", JStr "세 가지 경쟁 도구 · 단일 체인 · 측정된 증거");
    ("pkg_instead", JStr "개별 설치 대신 → Log Guardian에 포함");
    ("pkg_footer", JStr "Fail2ban + ModSecurity + CrowdSec → 1개의 통합 체인");
    ("pkg_detail", JStr "자세히 → /paketler");
    ("metrics_title", JStr "이 사이트의 모든 수치");
    ("why_title", JStr "왜 Log Guardian인가?");
    ("why_lead", JStr "경쟁 제품은 조각조각 — 우리는 단일 체인에서 측정 가능한 증거를 제공합니다.");
    ("why_titles", JArr [
      JStr "단일 체인";
      JStr "투명한 증거";
      JStr "MIT · 튀르키예";
      JStr "정직한 한계";
      JStr "3-in-1";
      JStr "커널 속도";
      JStr "분산 공격";
      JStr "운영 플로우"]);
    ("stats_labels", JArr [JStr "자동 테스트"; JStr "Soak 통과"; JStr "커널 밴"; JStr "국가"])].
Definition short_ar : json := JObj [
    ("hero_tagline", JStr "سجل وصول nginx ← WAF/CRS ← حظر على مستوى النواة · سلسلة واحدة · استضافة ذاتية");
    ("hero_side_title", JStr "Fail2ban + ModSecurity + CrowdSec بشكل منفصل؟ منتج واحد، دليل واحد، تثبيت واحد.");
    ("hero_praise_lead", JStr "منظومة أمن ذاتية الاستضافة من تركيا بسلسلة واحدة ودليل قابل للقياس — المنافسون مجزّأون، ونحن الكل في واحد.");
    ("hero_cta_setup", JStr "تثبيت 15 دقيقة");
    ("hero_cta_github", JStr "مصدر GitHub");
    ("hero_cta_tests", JStr "شاهد 80 اختباراً");
    ("about_title", JStr "ما هو Linux Log Guardian؟");
    ("about_intro", JStr "منتج أمني مفتوح المصدر (MIT) ذاتي الاستضافة طُوِّر في تركيا. يقرأ سجلات وصول nginx فورياً، ويقيّمها عبر OWASP CRS/WAF، ويحظر عناوين IP المهاجمة على مستوى النواة عبر ipset في نحو 17 مللي ثانية — سلسلة واحدة، بدون سحابة طرف ثالث.");
    ("pkg_title", JStr "3 في 1 — دون تثبيتات منفصلة");
    ("pkg_tagline", JStr "ثلاث أدوات منافسة · سلسلة واحدة · دليل مقاس");
    ("pkg_instead", JStr "بدلاً من التثبيت المنفصل ← مضمّن في Log Guardian");
    ("pkg_footer", JStr "Fail2ban + ModSecurity + CrowdSec ← سلسلة واحدة");
    ("pkg_detail", JStr "التفاصيل ← /paketler");
    ("metrics_title", JStr "جميع القيم الرقمية في هذا الموقع");
    ("why_title", JStr "لماذا Log Guardian؟");
    ("why_lead", JStr "المنافسون مجزّأون — نقدّم دليلاً قابلاً للقياس في سلسلة واحدة.");
    ("why_titles", JArr [
      JStr "سلسلة واحدة";
      JStr "دليل شفّاف";
      JStr "MIT · تركيا";
      JStr "حدود صادقة";
      JStr "3 في 1";
      JStr "سرعة النواة";
      JStr "هجمات موزّعة";
      JStr "سير عمل المشغّل"]);
    ("stats_labels", JArr [JStr "اختبارات آلية"; JStr "اجتياز Soak"; JStr "حظر النواة"; JStr "دول"])].
Definition short_az : json := JObj [
    ("hero_tagline", JStr "nginx giriş logu → WAF/CRS → kernel ban · tək zəncir · self-hosted");
    ("hero_side_title", JStr "Fail2ban + ModSecurity + CrowdSec ayrı-ayrı? Bir məhsul, bir sübut, bir quraşdırma.");
    ("hero_praise_lead", JStr "Türkiyənin ölçülə bilən sübutlu, tək zəncir self-hosted təhlükəsizlik yığını — rəqiblər parça-parça, biz hamısı bir arada.");
    ("hero_cta_setup", JStr "15 dəq quraşdırma");
    ("hero_cta_github", JStr "GitHub mənbə");
    ("hero_cta_tests", JStr "80 testə bax");
    ("about_title", JStr "Linux Log Guardian nədir?");
    ("about_intro", JStr "Türkiyədə hazırlanmış tam açıq mənbəli (MIT) self-hosted təhlükəsizlik məhsulu. nginx giriş loglarını real vaxtda oxuyur, OWASP CRS/WAF ilə qiymətləndirir və hücumçu IP-ni ipset ilə kernel səviyyəsində ~20 ms-də banlayır — tək zəncir, üçüncü tərəf buludu olmadan.");
    ("pkg_title", JStr "3-ü 1-də — ayrı-ayrı quraşdırma yoxdur");
    ("pkg_tagline", JStr "Üç rəqib alət · tək zəncir · ölçülmüş sübut");
    ("pkg_instead", JStr "Ayrıca quraşdırmaq əvəzinə → Log Guardian-a daxildir");
    ("pkg_footer", JStr "Fail2ban + ModSecurity + CrowdSec → 1 tək zəncir");
    ("pkg_detail", JStr "Ətraflı → /paketler");
    ("metrics_title", JStr "Bu saytdakı bütün rəqəmsal dəyərlər");
    ("why_title", JStr "Niyə Log Guardian?");
    ("why_lead", JStr "Rəqiblər parça-parça — biz tək zəncirdə ölçülə bilən sübut təqdim edirik.");
    ("why_titles", JArr [
      JStr "Tək zəncir";
      JStr "Şəffaf sübut";
      JStr "MIT · Türkiyə";
      JStr "Dürüst hədlər";
      JStr "3-ü 1-də";
      JStr "Kernel sürəti";
      JStr "Paylanmış hücumlar";
      JStr "Operator axını"]);
    ("stats_labels", JArr [JStr "Avtomatik test"; JStr "Soak PASS"; JStr "Kernel ban"; JStr "Ölkə"])].
Definition short_kk : json := JObj [
    ("hero_tagline", JStr "nginx кіру журналы → WAF/CRS → kernel ban · бір тізбек · self-hosted");
    ("hero_side_title", JStr "Fail2ban + ModSecurity + CrowdSec бөлек пе? Бір өнім, бір дәлел, бір орнату.");
    ("hero_praise_lead", JStr "Түркияның өлшенетін дәлелді, бір тізбекті self-hosted қауіпсіздік стегі — бәсекелестер бөлшек, біз бәрі бір жерде.");
    ("hero_cta_setup", JStr "15 мин орнату");
    ("hero_cta_github", JStr "GitHub бастапқы коды");
    ("hero_cta_tests", JStr "80 тестті көру");
    ("about_title", JStr "Linux Log Guardian деген не?");
    ("about_intro", JStr "Түркияда жасалған ашық кодты (MIT) self-hosted қауіпсіздік өнімі. nginx кіру журналдарын нақты уақытта оқиды, OWASP CRS/WAF арқылы бағалайды және шабуылшы IP-ді ipset арқылы ядро деңгейінде ~20 мс-та бұғаттайды — бір тізбек, үшінші тарап бұлтысыз.");
    ("pkg_title", JStr "3-і 1-де — бөлек орнату жоқ");
    ("pkg_tagline", JStr "Үш бәсекелес құрал · бір тізбек · өлшенген дәлел");
    ("pkg_instead", JStr "Бөлек орнатудың орнына → Log Guardian ішінде");
    ("pkg_footer", JStr "Fail2ban + ModSecurity + CrowdSec → 1 біртұтас тізбек");
    ("pkg_detail", JStr "Толығырақ → /paketler");
    ("metrics_title", JStr "Осы сайттағы барлық сандық мәндер");
    ("why_title", JStr "Неге Log Guardian?");
    ("why_lead", JStr "Бәсекелестер бөлшектелген — біз бір тізбекте өлшенетін дәлел ұсынамыз.");
    ("why_titles", JArr [
      JStr "Бір тізбек";
      JStr "Ашық дәлел";
      JStr "MIT · Түркия";
      JStr "Адал шектер";
      JStr "3-і 1-де";
      JStr "Ядро жылдамдығы";
      JStr "Таратылған шабуылдар";
      JStr "Оператор ағыны"]);
    ("stats_labels", JArr [JStr "Авто тесттер"; JStr "Soak PASS"; JStr "Kernel ban"; JStr "Елдер"])].
Definition short_uz : json := JObj [
    ("hero_tagline", JStr "nginx kirish logi → WAF/CRS → kernel ban · yagona zanjir · self-hosted");
    ("hero_side_title", JStr "Fail2ban + ModSecurity + CrowdSec alohida-alohidami? Bitta mahsulot, bitta dalil, bitta o'rnatish.");
    ("hero_praise_lead", JStr "Turkiyaning o'lchanadigan dalilli, yagona zanjirli self-hosted xavfsizlik steki — raqiblar bo'lak, biz hammasi bir joyda.");
    ("hero_cta_setup", JStr "15 daq o'rnatish");
    ("hero_cta_github", JStr "GitHub manba");
    ("hero_cta_tests", JStr "80 testni ko'rish");
    ("about_title", JStr "Linux Log Guardian nima?");
    ("about_intro", JStr "Turkiyada ishlab chiqilgan ochiq kodli (MIT) self-hosted xavfsizlik mahsuloti. nginx kirish loglarini real vaqtda o'qiydi, OWASP CRS/WAF bilan baholaydi va hujumchi IP'ni ipset orqali yadro darajasida ~20 ms da bloklaydi — yagona zanjir, uchinchi tomon buluti holda.");
    ("pkg_title", JStr "3 tasi 1 da — alohida o'rnatish yo'q");
    ("pkg_tagline", JStr "Uchta raqib vosita · yagona zanjir · o'lchangan dalil");
    ("pkg_instead", JStr "Alohida o'rnatish o'rniga → Log Guardian tarkibida");
    ("pkg_footer", JStr "Fail2ban + ModSecurity + CrowdSec → 1 yagona zanjir");
    ("pkg_detail", JStr "Batafsil → /paketler");
    ("metrics_title", JStr "Ushbu saytdagi barcha raqamli qiymatlar");
    ("why_title", JStr "Nega Log Guardian?");
    ("why_lead", JStr "Raqiblar bo'lak-bo'lak — biz yagona zanjirda o'lchanadigan dalil taqdim etamiz.");
    ("why_titles", JArr [
      JStr "Yagona zanjir";
      JStr "Shaffof dalil";
      JStr "MIT · Turkiya";
      JStr "Halol chegaralar";
      JStr "3 tasi 1 da";
      JStr "Yadro tezligi";
      JStr "Taqsimlangan hujumlar";
      JStr "Operator oqimi"]);
    ("stats_labels", JArr [JStr "Avto testlar"; JStr "Soak PASS"; JStr "Kernel ban"; JStr "Davlatlar"])].
Definition short_ky : json := JObj [
    ("hero_tagline", JStr "nginx кирүү логу → WAF/CRS → kernel ban · бирдиктүү чынжыр · self-hosted");
    ("hero_side_title", JStr "Fail2ban + ModSecurity + CrowdSec өзүнчөбү? Бир продукт, бир далил, бир орнотуу.");
    ("hero_praise_lead", JStr "Түркиянын өлчөнгөн далилдүү, бирдиктүү чынжырлуу self-hosted коопсуздук стеги — атаандаштар бөлүк, биз баары бир жерде.");
    ("hero_cta_setup", JStr "15 мүн орнотуу");
    ("hero_cta_github", JStr "GitHub булагы");
    ("hero_cta_tests", JStr "80 тестти көрүү");
    ("about_title", JStr "Linux Log Guardian деген эмне?");
    ("about_intro", JStr "Түркияда иштелип чыккан ачык коддуу (MIT) self-hosted коопсуздук продукту. nginx кирүү логдорун реалдуу убакытта окуйт, OWASP CRS/WAF менен баалайт жана чабуулчу IP'ни ipset аркылуу ядро деңгээлинде ~20 мс ичинде бөгөттөйт — бирдиктүү чынжыр, үчүнчү тараптын булутусуз.");
    ("pkg_title", JStr "3өө 1де — өзүнчө орнотуу жок");
    ("pkg_tagline", JStr "Үч атаандаш курал · бир чынжыр · өлчөнгөн далил");
    ("pkg_instead", JStr "Өзүнчө орнотуунун ордуна → Log Guardian ичинде");
    ("pkg_footer", JStr "Fail2ban + ModSecurity + CrowdSec → 1 бирдиктүү чынжыр");
    ("pkg_detail", JStr "Толук → /paketler");
    ("metrics_title", JStr "Бул сайттагы бардык сандык маанилер");
    ("why_title", JStr "Эмне үчүн Log Guardian?");
    ("why_lead", JStr "Атаандаштар бөлүк-бөлүк — биз бир чынжырда өлчөнгөн далил беребиз.");
    ("why_titles", JArr [
      JStr "Бирдиктүү чынжыр";
      JStr "Ачык далил";
      JStr "MIT · Түркия";
      JStr "Чынчыл чектер";
      JStr "3өө 1де";
      JStr "Ядро ылдамдыгы";
      JStr "Бөлүштүрүлгөн чабуулдар";
      JStr "Оператор агымы"]);
    ("stats_labels", JArr [JStr "Авто тесттер"; JStr "Soak PASS"; JStr "Kernel ban"; JStr "Өлкөлөр"])].
Definition short_tk : json := JObj [
    ("hero_tagline", JStr "nginx giriş logy → WAF/CRS → kernel ban · ýeke zynjyr · self-hosted");
    ("hero_side_title", JStr "Fail2ban + ModSecurity + CrowdSec aýratynmy? Bir önüm, bir subutnama, bir gurnama.");
    ("hero_praise_lead", JStr "Türkiýäniň ölçäp bolýan subutnamaly, ýeke zynjyrly self-hosted howpsuzlyk stegi — bäsdeşler bölek, biz hemmesi bir ýerde.");
    ("hero_cta_setup", JStr "15 min gurnama");
    ("hero_cta_github", JStr "GitHub çeşme");
    ("hero_cta_tests", JStr (dec T ++ " testi gör"));
    ("about_title", JStr "Linux Log Guardian näme?");
    ("about_intro", JStr "Türkiýede işlenip düzülen açyk çeşmeli (MIT) self-hosted howpsuzlyk önümi. nginx giriş loglaryny hakyky wagtda okaýar, OWASP CRS/WAF bilen bahalandyrýar we hüjümçi IP-ni ipset arkaly ýadro derejesinde ~20 ms-da baglaýar — ýeke zynjyr, üçünji tarap bulutsyz.");
    ("pkg_title", JStr "3-i 1-de — aýratyn gurnama ýok");
    ("pkg_tagline", JStr "Üç bäsdeş gural · ýeke zynjyr · ölçelen subutnama");
    ("pkg_instead", JStr "Aýratyn gurnamagyň ýerine → Log Guardian-da bar");
    ("pkg_footer", JStr "Fail2ban + ModSecurity + CrowdSec → 1 ýeke zynjyr");
    ("pkg_detail", JStr "Giňişleýin → /paketler");
    ("metrics_title", JStr "Bu saýtdaky ähli san bahalary");
    ("why_title", JStr "Näme üçin Log Guardian?");
    ("why_lead", JStr "Bäsdeşler bölek-bölek — biz ýeke zynjyrda ölçäp bolýan subutnama hödürleýäris.");
    ("why_titles", JArr [
      JStr "Ýeke zynjyr";
      JStr "Aýdyň subutnama";
      JStr "MIT · Türkiýe";
      JStr "Dogruçyl çäkler";
      JStr "3-i 1-de";
      JStr "Ýadro tizligi";
      JStr "Paýlanan hüjümler";
      JStr "Operator akymy"]);
    ("stats_labels", JArr [JStr "Awto testler"; JStr "Soak PASS"; JStr "Kernel ban"; JStr "Ýurtlar"])].
Definition short_tt : json := JObj [
    ("hero_tagline", JStr "nginx керү журналы → WAF/CRS → kernel ban · бер чылбыр · self-hosted");
    ("hero_side_title", JStr "Fail2ban + ModSecurity + CrowdSec аерыммы? Бер продукт, бер дәлил, бер урнаштыру.");
    ("hero_cta_setup", JStr "15 мин урнаштыру");
    ("hero_cta_github", JStr "GitHub чыганагы");
    ("hero_cta_tests", JStr "80 тестны күрү");
    ("about_title", JStr "Linux Log Guardian нәрсә ул?");
    ("pkg_title", JStr "3не 1дә — аерым урнаштыру юк");
    ("pkg_tagline", JStr "Өч көндәш корал · бер чылбыр · үлчәнгән дәлил");
    ("pkg_instead", JStr "Аерым урнаштыру урынына → Log Guardian эчендә");
    ("pkg_footer", JStr "Fail2ban + ModSecurity + CrowdSec → 1 бердәм чылбыр");
    ("pkg_detail", JStr "Тулырак → /paketler");
    ("metrics_title", JStr "Бу сайттагы барлык сан кыйммәтләре");
    ("why_title", JStr "Ни өчен Log Guardian?");
    ("why_lead", JStr "Көндәшләр өлеш-өлеш — без бер чылбырда үлчәнә торган дәлил тәкъдим итәбез.");
    ("why_titles", JArr [
      JStr "Бер чылбыр";
      JStr "Ачык дәлил";
      JStr "MIT · Төркия";
      JStr "Намуслы чикләр";
      JStr "3не 1дә";
      JStr "Ядро тизлеге";
      JStr "Таратылган һөҗүмнәр";
      JStr "Оператор агымы"]);
    ("stats_labels", JArr [JStr "Авто тестлар"; JStr "Soak PASS"; JStr "Kernel ban"; JStr "Илләр"])].
Definition short_ba : json := JObj [
    ("hero_tagline", JStr "nginx инеү журналы → WAF/CRS → kernel ban · бер сылбыр · self-hosted");
    ("hero_side_title", JStr "Fail2ban + ModSecurity + CrowdSec айырыммы? Бер продукт, бер дәлил, бер урынлаштырыу.");
    ("hero_cta_setup", JStr "15 мин урынлаштырыу");
    ("hero_cta_github", JStr "GitHub сығанағы");
    ("hero_cta_tests", JStr "80 тестты ҡарау");
    ("about_title", JStr "Linux Log Guardian нимә ул?");
    ("pkg_title", JStr "3-те 1-ҙә — айырым урынлаштырыу юҡ");
    ("pkg_tagline", JStr "Өс көндәш ҡорал · бер сылбыр · үлсәнгән дәлил");
    ("pkg_instead", JStr "Айырым урынлаштырыу урынына → Log Guardian эсендә");
    ("pkg_footer", JStr "Fail2ban + ModSecurity + CrowdSec → 1 берҙәм сылбыр");
    ("pkg_detail", JStr "Тулыраҡ → /paketler");
    ("metrics_title", JStr "Был сайттағы бөтә һан ҡиммәттәре");
    ("why_title", JStr "Ни өсөн Log Guardian?");
    ("why_lead", JStr "Көндәштәр өлөш-өлөш — беҙ бер сылбырҙа үлсәнә торған дәлил тәҡдим итәбеҙ.");
    ("why_titles", JArr [
      JStr "Бер сылбыр";
      JStr "Асыҡ дәлил";
      JStr "MIT · Төркиә";
      JStr "Намыҫлы сиктәр";
      JStr "3-те 1-ҙә";
      JStr "Ядро тиҙлеге";
      JStr "Таратылған һөжүмдәр";
      JStr "Оператор ағымы"]);
    ("stats_labels", JArr [JStr "Авто тестар"; JStr "Soak PASS"; JStr "Kernel ban"; JStr "Илдәр"])].
Definition short_cv : json := JObj [
    ("hero_tagline", JStr "nginx кӗрӳ журналӗ → WAF/CRS → kernel ban · пӗр сӑнчӑр · self-hosted");
    ("hero_cta_setup", JStr "15 мин вырнаҫтарни");
    ("hero_cta_github", JStr "GitHub çӑлкуҫӗ");
    ("hero_cta_tests", JStr "80 тест пӑх");
    ("about_title", JStr "Linux Log Guardian мӗн вӑл?");
    ("pkg_title", JStr "3-е 1-те — уйрӑм вырнаҫтарни ҫук");
    ("pkg_tagline", JStr "Виҫӗ конкурент хатӗр · пӗр сӑнчӑр · виҫнӗ кӑтарту");
    ("pkg_instead", JStr "Уйрӑм вырнаҫтарни вырӑнне → Log Guardian ӑшӗнче");
    ("pkg_footer", JStr "Fail2ban + ModSecurity + CrowdSec → 1 пӗрлӗ сӑнчӑр");
    ("pkg_detail", JStr "Тӗплӗнрех → /paketler");
    ("metrics_title", JStr "Ку сайтри пур хисеп паллисем");
    ("why_title", JStr "Мӗншӗн Log Guardian?");
    ("why_lead", JStr "Конкурентсем татӑк-татӑк — эпир пӗр сӑнчӑрта виҫме пулакан кӑтарту паратпӑр.");
    ("why_titles", JArr [
      JStr "Пӗр сӑнчӑр";
      JStr "Уҫӑ кӑтарту";
      JStr "MIT · Турци";
      JStr "Тӳрӗ чикӗсем";
      JStr "3-е 1-те";
      JStr "Ядро хӑвӑртлӑхӗ";
      JStr "Сарӑлнӑ тапӑнусем";
      JStr "Оператор юхӑмӗ"]);
    ("stats_labels", JArr [JStr "Авто тест"; JStr "Soak PASS"; JStr "Kernel ban"; JStr "Ҫӗршывсем"])].
Definition short_ug : json := JObj [
    ("hero_tagline", JStr "nginx كىرىش خاتىرىسى → WAF/CRS → يادرو دەرىجىسىدە چەكلەش · بىرلا زەنجىر · ئۆز مۇلازىمېتىر");
    ("hero_cta_setup", JStr "15 مىنۇت ئورنىتىش");
    ("hero_cta_github", JStr "GitHub مەنبە");
    ("hero_cta_tests", JStr "80 سىناقنى كۆرۈش");
    ("about_title", JStr "Linux Log Guardian نېمە؟");
    ("pkg_title", JStr "3 بىرگە — ئايرىم ئورنىتىش يوق");
    ("pkg_tagline", JStr "ئۈچ رەقىب قورال · بىرلا زەنجىر · ئۆلچەنگەن ئىسپات");
    ("pkg_instead", JStr "ئايرىم ئورنىتىشنىڭ ئورنىغا → Log Guardian ئىچىدە");
    ("pkg_footer", JStr "Fail2ban + ModSecurity + CrowdSec → 1 بىرلا زەنجىر");
    ("pkg_detail", JStr "تەپسىلاتى → /paketler");
    ("metrics_title", JStr "بۇ بەتتىكى بارلىق سانلىق قىممەتلەر");
    ("why_title", JStr "نېمە ئۈچۈن Log Guardian؟");
    ("why_lead", JStr "رەقىبلەر پارچە-پارچە — بىز بىرلا زەنجىردە ئۆلچىگىلى بولىدىغان ئىسپات بېرىمىز.");
    ("why_titles", JArr [
      JStr "بىرلا زەنجىر";
      JStr "ئوچۇق ئىسپات";
      JStr "MIT · تۈركىيە";
      JStr "سەمىمىي چەكلەر";
      JStr "3 بىرگە";
      JStr "يادرو تېزلىكى";
      JStr "تارقاق ھۇجۇملار";
      JStr "مەشغۇلات ئېقىمى"]);
    ("stats_labels", JArr [JStr "ئاپتوماتىك سىناق"; JStr "Soak PASS"; JStr "يادرو چەكلەش"; JStr "دۆلەتلەر"])].
Definition short_crh : json := JObj [
    ("hero_tagline", JStr "nginx kirim logu → WAF/CRS → kernel ban · tek zıncır · self-hosted");
    ("hero_side_title", JStr "Fail2ban + ModSecurity + CrowdSec ayrı-ayrımı? Bir mahsul, bir delil, bir qurulım.");
    ("hero_cta_setup", JStr "15 daq qurulım");
    ("hero_cta_github", JStr "GitHub menba");
    ("hero_cta_tests", JStr "80 testni köster");
    ("about_title", JStr "Linux Log Guardian nedir?");
    ("pkg_title", JStr "3-ü 1-de — ayrı qurulım yoq");
    ("pkg_tagline", JStr "Üç raqip alet · tek zıncır · ölçengen delil");
    ("pkg_instead", JStr "Ayrı qurulım yerine → Log Guardian içinde");
    ("pkg_footer", JStr "Fail2ban + ModSecurity + CrowdSec → 1 tek zıncır");
    ("pkg_detail", JStr "Tafsilât → /paketler");
    ("metrics_title", JStr "Bu saytdaki bütün sayı qıymetleri");
    ("why_title", JStr "Niçün Log Guardian?");
    ("why_lead", JStr "Raqipler parça-parça — biz tek zıncırda ölçele bilgen delil teklif etemiz.");
    ("why_titles", JArr [
      JStr "Tek zıncır";
      JStr "Şeffaf delil";
      JStr "MIT · Türkiye";
      JStr "Doğru sıñırlar";
      JStr "3-ü 1-de";
      JStr "Kernel tezligi";
      JStr "Dağıtıq hücumlar";
      JStr "Operator aqımı"]);
    ("stats_labels", JArr [JStr "Avto testler"; JStr "Soak PASS"; JStr "Kernel ban"; JStr "Memleketler"])].
Definition short_gag : json := JObj [
    ("hero_tagline", JStr "nginx giriş logu → WAF/CRS → kernel ban · tek zincir · self-hosted");
    ("hero_side_title", JStr "Fail2ban + ModSecurity + CrowdSec ayırı-ayırı mı? Bir ürün, bir delil, bir kurma.");
    ("hero_cta_setup", JStr "15 dak kurma");
    ("hero_cta_github", JStr "GitHub kaynaa");
    ("hero_cta_tests", JStr (dec T ++ " testi gör"));
    ("about_title", JStr "Linux Log Guardian nedir?");
    ("pkg_title", JStr "3'ü 1'dä — ayırı kurma yok");
    ("pkg_tagline", JStr "Üç rakip alet · tek zincir · ölçülü delil");
    ("pkg_instead", JStr "Ayırı kurma erinä → Log Guardian içindä");
    ("pkg_footer", JStr "Fail2ban + ModSecurity + CrowdSec → 1 tek zincir");
    ("pkg_detail", JStr "Detay → /paketler");
    ("metrics_title", JStr "Bu saytta bütün sayı diişilmekleri");
    ("why_title", JStr "Neçin Log Guardian?");
    ("why_lead", JStr "Rakiplär parça-parça — biz tek zincirdä ölçülebilän delil verämiz.");
    ("why_titles", JArr [
      JStr "Tek zincir";
      JStr "Açık delil";
      JStr "MIT · Türkiye";
      JStr "Dooru sınırlar";
      JStr "3'ü 1'dä";
      JStr "Kernel hızı";
      JStr "Daalı saldırılar";
      JStr "Operator akışı"]);
    ("stats_labels", JArr [JStr "Avto testlär"; JStr "Soak PASS"; JStr "Kernel ban"; JStr "Devletlär"])].
Definition short_sah : json := JObj [
    ("hero_tagline", JStr "nginx киирии сурунаала → WAF/CRS → kernel ban · биир сиэп · self-hosted");
    ("hero_cta_setup", JStr "15 мүн олохтооһун");
    ("hero_cta_github", JStr "GitHub төрдө");
    ("hero_cta_tests", JStr "80 туруору көр");
    ("about_title", JStr "Linux Log Guardian диэн тугуй?");
    ("pkg_title", JStr "3 биирдэ — араас олохтооһун суох");
    ("pkg_tagline", JStr "Үс күрэхтэһээччи тэрил · биир сиэп · кээмэйдэммит туоһу");
    ("pkg_instead", JStr "Араас олохтооһун оннугар → Log Guardian иһигэр");
    ("pkg_footer", JStr "Fail2ban + ModSecurity + CrowdSec → 1 биир сиэп");
    ("pkg_detail", JStr "Сиһилии → /paketler");
    ("metrics_title", JStr "Бу сайкка баар барыта ахсаан суолталара");
    ("why_title", JStr "Тоҕо Log Guardian?");
    ("why_lead", JStr "Күрэхтэһээччилэр аҥаардас — биһиги биир сиэпкэ кээмэйдэнэр туоһуну биэрэбит.");
    ("why_titles", JArr [
      JStr "Биир сиэп";
      JStr "Ыраас туоһу";
      JStr "MIT · Турция";
      JStr "Кырдьык кыраныыс";
      JStr "3 биирдэ";
      JStr "Ядро түргэнэ";
      JStr "Тарҕаммыт саба түһүүлэр";
      JStr "Оператор сүрүгэ"]);
    ("stats_labels", JArr [JStr "Авто туруору"; JStr "Soak PASS"; JStr "Kernel ban"; JStr "Дойдулар"])].
Definition SHORT_OVERRIDES : list (jstring * json) := [("de", short_de); ("fr", short_fr); ("es", short_es); ("ru", short_ru); ("pt", short_pt); ("nl", short_nl); ("zh", short_zh); ("ja", short_ja); ("ko", short_ko); ("ar", short_ar); ("az", short_az); ("kk", short_kk); ("uz", short_uz); ("ky", short_ky); ("tk", short_tk); ("tt", short_tt); ("ba", short_ba); ("cv", short_cv); ("ug", short_ug); ("crh", short_crh); ("gag", short_gag); ("sah", short_sah)].
Definition prose_de : json := JObj [
    ("hero_side_body", JStr "Eine Kette von der nginx-Access-Log-Zeile bis zum ipset-Ban: Parser, OWASP-CRS/WAF-Auswertung und ~20 ms Kernel-Ban. Rivalen bieten eine stückweise Architektur — wir vereinen alles in einer Kette mit gemessenem, reproduzierbarem PDF/JSON-Nachweis. In der Türkei entwickelt, MIT Open Source, voll self-hosted.");
    ("about_paragraphs", JArr [
      JStr "Fail2ban bannt nur, ModSecurity-WAF ist ein separates Modul, CrowdSec braucht einen stückweisen Stack. Log Guardian vereint sie: Logzeile → Parser → CRS/WAF (PCRE2 JIT) → Ban-Pipeline (Policy + Tenant) → ipset/XDP-Kernel → Prometheus-Metriken und Dashboard-SOC-Timeline.";
      JStr "Die Ergebnisse sind messbar und reproduzierbar: 100% Recall auf echtem Angriffskorpus, 100% OWASP-CRS-Parität, 0,2% False Positives, ~20 ms mediane Ban-Latenz und 0 Fehler über 864 Proben im 72h-VM-Soak.";
      JStr "Diese Seite ist eine öffentliche Landing- und Download-Seite — statischer Inhalt. Die Software läuft auf Ihrem Linux-Server; Ihre Daten bleiben bei Ihnen."]);
    ("pkg_hero", JStr "Statt Fail2ban, ModSecurity und CrowdSec einzeln zu installieren, vereint Log Guardian alle drei in einem self-hosted Paket.");
    ("why_bodies", JArr [
      JStr "nginx-Log → OWASP CRS → ~20 ms Kernel-Ban. Kein Fail2ban + ModSec + Skript-Haufen.";
      JStr "competitive-proof-PDF, 75 Tests, 72h-Soak — bei Rivalen fehlend oder fragmentiert.";
      JStr "Open Source, türkische Docs, self-hosted — kein Vendor-Lock-in.";
      JStr "Nicht Inline-ModSec-EPS; CDN absorbiert L3/L4. Origin-Integration + Tempo.";
      JStr "Fail2ban, ModSecurity, CrowdSec nicht getrennt — Ban + WAF + SOC in einem Produkt.";
      JStr "~20 ms medianer Ban — Fail2ban/CrowdSec in Sekunden–Minuten; 21 gemessene Proben.";
      JStr "JA3-Cluster 100% Recall — Live-Test mit 80 IPs; Ban pro IP + Cluster-Erkennung.";
      JStr "Telegram-Alarm + Ein-Klick-Ack, SOC-Timeline, Tenant-Metriken — :8443 nach der Installation."]);
    ("merge_bodies", JArr [
      JStr "Kein separates Fail2ban. Logzeile bis ipset/XDP-Kernel-Ban ~20 ms — Policy, Tenant, FP-Trust in einer Pipeline.";
      JStr "Kein separates ModSecurity-Modul. OWASP CRS 121 Regeln, PCRE2 JIT — ein Durchlauf ab der nginx-Logzeile.";
      JStr "Kein stückweiser CrowdSec-Stack. Prometheus, SOC-Timeline, 75 Tests, 14 Nachweisdateien, Telegram-Betrieb — ein Panel."])].
Definition prose_fr : json := JObj [
    ("hero_side_body", JStr "Une seule chaîne de la ligne de log d'accès nginx au ban ipset : parser, évaluation OWASP CRS/WAF et ban noyau ~20 ms. Les rivaux offrent une architecture fragmentée — nous réunissons tout en une chaîne avec une preuve PDF/JSON mesurée et reproductible. Conçu en Turquie, open source MIT, entièrement auto-hébergé.");
    ("about_paragraphs", JArr [
      JStr "Fail2ban ne fait que bannir, le WAF ModSecurity est un module séparé, CrowdSec exige une pile fragmentée. Log Guardian les réunit : ligne de log → parser → CRS/WAF (PCRE2 JIT) → pipeline de ban (policy + tenant) → noyau ipset/XDP → métriques Prometheus et timeline SOC du tableau de bord.";
      JStr "Les résultats sont mesurables et reproductibles : 100% de rappel sur un corpus d'attaques réelles, 100% de parité OWASP CRS, 0,2% de faux positifs, ~20 ms de latence de ban médiane et 0 erreur sur 864 échantillons lors du soak 72h en VM.";
      JStr "Ce site est une page publique de présentation et de téléchargement — contenu statique. Le logiciel s'exécute sur votre serveur Linux ; vos données restent chez vous."]);
    ("pkg_hero", JStr "Au lieu d'installer Fail2ban, ModSecurity et CrowdSec séparément, Log Guardian réunit les trois dans un seul paquet auto-hébergé.");
    ("why_bodies", JArr [
      JStr "log nginx → OWASP CRS → ban noyau ~20 ms. Pas de tas Fail2ban + ModSec + scripts.";
      JStr "PDF competitive-proof, 80 tests, soak 72h — absent ou fragmenté chez les rivaux.";
      JStr "Open source, docs turques, auto-hébergé — aucun verrouillage fournisseur.";
      JStr "Pas l'EPS inline de ModSec ; le CDN absorbe le L3/L4. Intégration à l'origine + vitesse.";
      JStr "Fail2ban, ModSecurity, CrowdSec non séparés — ban + WAF + SOC en un seul produit.";
      JStr "Ban médian ~20 ms — Fail2ban/CrowdSec en secondes–minutes ; 21 échantillons mesurés.";
      JStr "Cluster JA3 100% de rappel — test en direct sur 80 IP ; ban par IP + détection de cluster.";
      JStr "Alerte Telegram + ack en un clic, timeline SOC, métriques par tenant — :8443 après installation."]);
    ("merge_bodies", JArr [
      JStr "Pas de Fail2ban séparé. De la ligne de log au ban noyau ipset/XDP ~20 ms — policy, tenant, FP trust dans un pipeline.";
      JStr "Pas de module ModSecurity séparé. OWASP CRS 121 règles, PCRE2 JIT — un seul passage depuis la ligne de log nginx.";
      JStr "Pas de pile CrowdSec fragmentée. Prometheus, timeline SOC, 80 tests, 14 fichiers de preuve, exploitation Telegram — un seul panneau."])].
Definition prose_es : json := JObj [
    ("hero_side_body", JStr "Una sola cadena desde la línea de log de acceso de nginx hasta el ban de ipset: parser, evaluación OWASP CRS/WAF y ban de kernel ~20 ms. Los rivales ofrecen arquitectura fragmentada — nosotros unimos todo en una cadena con prueba PDF/JSON medida y reproducible. Desarrollado en Turquía, open source MIT, totalmente autoalojado.");
    ("about_paragraphs", JArr [
      JStr "Fail2ban solo banea, el WAF ModSecurity es un módulo aparte, CrowdSec necesita un stack fragmentado. Log Guardian los une: línea de log → parser → CRS/WAF (PCRE2 JIT) → pipeline de ban (policy + tenant) → kernel ipset/XDP → métricas Prometheus y timeline SOC del panel.";
      JStr "Los resultados son medibles y reproducibles: 100% de recall en corpus de ataques reales, 100% de paridad OWASP CRS, 0,2% de falsos positivos, ~20 ms de latencia de ban mediana y 0 errores en 864 muestras durante el soak 72h en VM.";
      JStr "Este sitio es una página pública de presentación y descarga — contenido estático. El software se ejecuta en tu servidor Linux; tus datos se quedan contigo."]);
    ("pkg_hero", JStr "En vez de instalar Fail2ban, ModSecurity y CrowdSec por separado, Log Guardian une los tres en un solo paquete autoalojado.");
    ("why_bodies", JArr [
      JStr "log de nginx → OWASP CRS → ban de kernel ~20 ms. Sin montón de Fail2ban + ModSec + scripts.";
      JStr "PDF competitive-proof, 75 pruebas, soak 72h — ausente o fragmentado en los rivales.";
      JStr "Open source, docs en turco, autoalojado — sin bloqueo de proveedor.";
      JStr "No el EPS inline de ModSec; el CDN absorbe L3/L4. Integración en el origen + velocidad.";
      JStr "Fail2ban, ModSecurity, CrowdSec no separados — ban + WAF + SOC en un solo producto.";
      JStr "Ban mediano ~20 ms — Fail2ban/CrowdSec en segundos–minutos; 21 muestras medidas.";
      JStr "Clúster JA3 100% de recall — prueba en vivo con 80 IP; ban por IP + detección de clúster.";
      JStr "Alerta Telegram + ack con un clic, timeline SOC, métricas por tenant — :8443 tras la instalación."]);
    ("merge_bodies", JArr [
      JStr "Sin Fail2ban aparte. De la línea de log al ban de kernel ipset/XDP ~20 ms — policy, tenant, FP trust en un pipeline.";
      JStr "Sin módulo ModSecurity aparte. OWASP CRS 121 reglas, PCRE2 JIT — una sola pasada desde la línea de log de nginx.";
      JStr "Sin stack fragmentado de CrowdSec. Prometheus, timeline SOC, 75 pruebas, 14 archivos de evidencia, operación Telegram — un solo panel."])].
Definition prose_ru : json := JObj [
    ("hero_side_body", JStr "Одна цепочка от строки access-лога nginx до бана ipset: парсер, оценка OWASP CRS/WAF и бан в ядре ~20 мс. Конкуренты предлагают фрагментарную архитектуру — мы объединяем всё в одну цепочку с измеренным, воспроизводимым доказательством PDF/JSON. Разработано в Турции, открытый код MIT, полностью self-hosted.");
    ("about_paragraphs", JArr [
      JStr "Fail2ban только банит, WAF ModSecurity — отдельный модуль, CrowdSec требует фрагментарного стека. Log Guardian объединяет их: строка лога → парсер → CRS/WAF (PCRE2 JIT) → пайплайн бана (policy + tenant) → ядро ipset/XDP → метрики Prometheus и SOC-таймлайн дашборда.";
      JStr "Результаты измеримы и воспроизводимы: 100% recall на корпусе реальных атак, 100% паритет OWASP CRS, 0,2% ложных срабатываний, ~20 мс медианной задержки бана и 0 ошибок на 864 образцах за 72-часовой soak на ВМ.";
      JStr "Этот сайт — публичная посадочная страница и страница загрузки — статический контент. Софт работает на вашем сервере Linux; ваши данные остаются у вас."]);
    ("pkg_hero", JStr "Вместо отдельной установки Fail2ban, ModSecurity и CrowdSec, Log Guardian объединяет все три в одном self-hosted пакете.");
    ("why_bodies", JArr [
      JStr "лог nginx → OWASP CRS → бан в ядре ~20 мс. Без груды Fail2ban + ModSec + скриптов.";
      JStr "PDF competitive-proof, 75 тестов, 72ч soak — у конкурентов нет или фрагментарно.";
      JStr "Открытый код, документация на турецком, self-hosted — без привязки к вендору.";
      JStr "Не inline-EPS ModSec; CDN поглощает L3/L4. Интеграция на origin + скорость.";
      JStr "Fail2ban, ModSecurity, CrowdSec не по отдельности — бан + WAF + SOC в одном продукте.";
      JStr "Медианный бан ~20 мс — Fail2ban/CrowdSec в секундах–минутах; 21 измеренных образцов.";
      JStr "Кластер JA3 100% recall — живой тест на 80 IP; бан по IP + обнаружение кластера.";
      JStr "Алерт Telegram + ack в один клик, SOC-таймлайн, метрики по tenant — :8443 после установки."]);
    ("merge_bodies", JArr [
      JStr "Без отдельного Fail2ban. От строки лога до бана в ядре ipset/XDP ~20 мс — policy, tenant, FP trust в одном пайплайне.";
      JStr "Без отдельного модуля ModSecurity. OWASP CRS 121 правило, PCRE2 JIT — один проход от строки лога nginx.";
      JStr "Без фрагментарного стека CrowdSec. Prometheus, SOC-таймлайн, 75 тестов, 14 файлов доказательств, управление Telegram — одна панель."])].
Definition prose_pt : json := JObj [
    ("hero_side_body", JStr "Uma só cadeia da linha de log de acesso do nginx ao ban de ipset: parser, avaliação OWASP CRS/WAF e ban de kernel ~20 ms. Os rivais oferecem arquitetura fragmentada — juntamos tudo numa cadeia com prova PDF/JSON medida e reproduzível. Feito na Turquia, open source MIT, totalmente self-hosted.");
    ("about_paragraphs", JArr [
      JStr "O Fail2ban só bane, o WAF ModSecurity é um módulo à parte, o CrowdSec precisa de um stack fragmentado. O Log Guardian junta-os: linha de log → parser → CRS/WAF (PCRE2 JIT) → pipeline de ban (policy + tenant) → kernel ipset/XDP → métricas Prometheus e timeline SOC do painel.";
      JStr "Os resultados são mensuráveis e reproduzíveis: 100% de recall no corpus de ataques reais, 100% de paridade OWASP CRS, 0,2% de falsos positivos, ~20 ms de latência de ban mediana e 0 erros em 864 amostras no soak 72h em VM.";
      JStr "Este site é uma página pública de apresentação e download — conteúdo estático. O software corre no seu servidor Linux; os seus dados ficam consigo."]);
    ("pkg_hero", JStr "Em vez de instalar Fail2ban, ModSecurity e CrowdSec separadamente, o Log Guardian junta os três num só pacote self-hosted.");
    ("why_bodies", JArr [
      JStr "log do nginx → OWASP CRS → ban de kernel ~20 ms. Sem pilha de Fail2ban + ModSec + scripts.";
      JStr "PDF competitive-proof, 80 testes, soak 72h — ausente ou fragmentado nos rivais.";
      JStr "Open source, docs em turco, self-hosted — sem lock-in de fornecedor.";
      JStr "Não o EPS inline do ModSec; o CDN absorve L3/L4. Integração na origem + velocidade.";
      JStr "Fail2ban, ModSecurity, CrowdSec não separados — ban + WAF + SOC num só produto.";
      JStr "Ban mediano ~20 ms — Fail2ban/CrowdSec em segundos–minutos; 21 amostras medidas.";
      JStr "Cluster JA3 100% de recall — teste ao vivo com 80 IP; ban por IP + deteção de cluster.";
      JStr "Alerta Telegram + ack com um clique, timeline SOC, métricas por tenant — :8443 após a instalação."]);
    ("merge_bodies", JArr [
      JStr "Sem Fail2ban à parte. Da linha de log ao ban de kernel ipset/XDP ~20 ms — policy, tenant, FP trust num pipeline.";
      JStr "Sem módulo ModSecurity à parte. OWASP CRS 121 regras, PCRE2 JIT — uma só passagem desde a linha de log do nginx.";
      JStr "Sem stack fragmentado do CrowdSec. Prometheus, timeline SOC, 80 testes, 14 ficheiros de prova, operação Telegram — um só painel."])].
Definition prose_nl : json := JObj [
    ("hero_side_body", JStr "Eén keten van de nginx-accesslogregel tot de ipset-ban: parser, OWASP-CRS/WAF-evaluatie en kernel-ban ~20 ms. Concurrenten bieden een versnipperde architectuur — wij voegen alles samen in één keten met gemeten, reproduceerbaar PDF/JSON-bewijs. Gemaakt in Turkije, MIT open source, volledig self-hosted.");
    ("about_paragraphs", JArr [
      JStr "Fail2ban bant alleen, de ModSecurity-WAF is een aparte module, CrowdSec vraagt een versnipperde stack. Log Guardian voegt ze samen: logregel → parser → CRS/WAF (PCRE2 JIT) → ban-pipeline (policy + tenant) → ipset/XDP-kernel → Prometheus-metrics en dashboard-SOC-timeline.";
      JStr "De resultaten zijn meetbaar en reproduceerbaar: 100% recall op een corpus van echte aanvallen, 100% OWASP-CRS-pariteit, 0,2% false positives, ~20 ms mediane ban-latency en 0 fouten over 864 monsters in de 72h-VM-soak.";
      JStr "Deze site is een openbare landings- en downloadpagina — statische inhoud. De software draait op je Linux-server; je data blijft bij jou."]);
    ("pkg_hero", JStr "In plaats van Fail2ban, ModSecurity en CrowdSec apart te installeren, voegt Log Guardian alle drie samen in één self-hosted pakket.");
    ("why_bodies", JArr [
      JStr "nginx-log → OWASP CRS → kernel-ban ~20 ms. Geen Fail2ban + ModSec + scripthoop.";
      JStr "competitive-proof-PDF, 80 tests, 72h-soak — bij concurrenten ontbrekend of versnipperd.";
      JStr "Open source, Turkse docs, self-hosted — geen vendor lock-in.";
      JStr "Niet de inline-EPS van ModSec; CDN absorbeert L3/L4. Origin-integratie + snelheid.";
      JStr "Fail2ban, ModSecurity, CrowdSec niet apart — ban + WAF + SOC in één product.";
      JStr "Mediane ban ~20 ms — Fail2ban/CrowdSec in seconden–minuten; 21 gemeten monsters.";
      JStr "JA3-cluster 100% recall — live test met 80 IP's; ban per IP + clusterdetectie.";
      JStr "Telegram-alert + één-klik-ack, SOC-timeline, tenant-metrics — :8443 na installatie."]);
    ("merge_bodies", JArr [
      JStr "Geen aparte Fail2ban. Van logregel tot ipset/XDP-kernel-ban ~20 ms — policy, tenant, FP trust in één pipeline.";
      JStr "Geen aparte ModSecurity-module. OWASP CRS 121 regels, PCRE2 JIT — één doorloop vanaf de nginx-logregel.";
      JStr "Geen versnipperde CrowdSec-stack. Prometheus, SOC-timeline, 80 tests, 14 bewijsbestanden, Telegram-beheer — één paneel."])].
Definition prose_zh : json := JObj [
    ("hero_side_body", JStr "从 nginx 访问日志行到 ipset 封禁的单一链路：解析器、OWASP CRS/WAF 评估和约 20 毫秒内核封禁。竞品提供零散架构——我们用实测、可复现的 PDF/JSON 证据将一切合并到一条链路中。土耳其制造，MIT 开源，完全自托管。");
    ("about_paragraphs", JArr [
      JStr "Fail2ban 只做封禁，ModSecurity WAF 是独立模块，CrowdSec 需要零散技术栈。Log Guardian 将它们合并：日志行 → 解析器 → CRS/WAF（PCRE2 JIT）→ 封禁流水线（策略 + 租户）→ ipset/XDP 内核 → Prometheus 指标和仪表盘 SOC 时间线。";
      JStr "结果可衡量、可复现：真实攻击语料 100% 召回、100% OWASP CRS 对等、0.2% 误报、约 20 毫秒中位封禁延迟，以及 72 小时 VM soak 中 864 个样本 0 错误。";
      JStr "本站是公开的落地与下载页面——静态内容。软件运行在你自己的 Linux 服务器上；数据留在你手中。"]);
    ("pkg_hero", JStr "无需分别安装 Fail2ban、ModSecurity 和 CrowdSec，Log Guardian 将三者合并到一个自托管软件包中。");
    ("why_bodies", JArr [
      JStr "nginx 日志 → OWASP CRS → 约 20 毫秒内核封禁。没有 Fail2ban + ModSec + 脚本堆。";
      JStr "competitive-proof PDF、75 项测试、72 小时 soak——竞品缺失或零散。";
      JStr "开源、土耳其语文档、自托管——无供应商锁定。";
      JStr "不是 ModSec 的内联 EPS；CDN 吸收 L3/L4。源站集成 + 速度。";
      JStr "Fail2ban、ModSecurity、CrowdSec 不再分离——封禁 + WAF + SOC 于一个产品。";
      JStr "中位封禁约 20 毫秒——Fail2ban/CrowdSec 在秒—分钟级；21 个实测样本。";
      JStr "JA3 集群 100% 召回——80 IP 实测；按 IP 封禁 + 集群检测。";
      JStr "Telegram 告警 + 一键 ack、SOC 时间线、租户指标——安装后 :8443。"]);
    ("merge_bodies", JArr [
      JStr "无需单独的 Fail2ban。从日志行到 ipset/XDP 内核封禁约 20 毫秒——策略、租户、FP trust 于一条流水线。";
      JStr "无需单独的 ModSecurity 模块。OWASP CRS 121 条规则、PCRE2 JIT——从 nginx 日志行一次通过。";
      JStr "无需零散的 CrowdSec 技术栈。Prometheus、SOC 时间线、75 项测试、14 个证据文件、Telegram 运维——一个面板。"])].
Definition prose_ja : json := JObj [
    ("hero_side_body", JStr "nginx アクセスログの行から ipset BAN までの単一チェーン：パーサー、OWASP CRS/WAF 評価、約20msのカーネルBAN。競合は断片的なアーキテクチャを提供します——私たちは実測・再現可能な PDF/JSON の証拠とともに一本のチェーンに統合します。トルコ製、MIT オープンソース、完全セルフホスト。");
    ("about_paragraphs", JArr [
      JStr "Fail2ban は BAN のみ、ModSecurity WAF は別モジュール、CrowdSec は断片的なスタックを要します。Log Guardian はそれらを統合します：ログ行 → パーサー → CRS/WAF（PCRE2 JIT）→ BAN パイプライン（ポリシー + テナント）→ ipset/XDP カーネル → Prometheus メトリクスとダッシュボード SOC タイムライン。";
      JStr "結果は測定可能で再現可能です：実攻撃コーパスでリコール100%、OWASP CRS 100%整合、誤検知0.2%、中央値 約20msのBANレイテンシ、72時間 VM ソークで864サンプル中0エラー。";
      JStr "本サイトは公開のランディング兼ダウンロードページ——静的コンテンツです。ソフトウェアはご自身の Linux サーバーで動作し、データは手元に残ります。"]);
    ("pkg_hero", JStr "Fail2ban、ModSecurity、CrowdSec を個別に導入する代わりに、Log Guardian は3つを1つのセルフホストパッケージに統合します。");
    ("why_bodies", JArr [
      JStr "nginx ログ → OWASP CRS → 約20msのカーネルBAN。Fail2ban + ModSec + スクリプトの山は不要。";
      JStr "competitive-proof PDF、75テスト、72時間ソーク——競合では欠落または断片的。";
      JStr "オープンソース、トルコ語ドキュメント、セルフホスト——ベンダーロックインなし。";
      JStr "ModSec のインライン EPS ではない；CDN が L3/L4 を吸収。オリジンでの統合 + 速度。";
      JStr "Fail2ban、ModSecurity、CrowdSec は別々ではない——BAN + WAF + SOC を1製品に。";
      JStr "中央値BAN 約20ms——Fail2ban/CrowdSec は秒〜分単位；21件の実測サンプル。";
      JStr "JA3 クラスタ リコール100%——80 IP のライブテスト；IP ごとの BAN + クラスタ検知。";
      JStr "Telegram アラート + ワンクリック ack、SOC タイムライン、テナントメトリクス——導入後 :8443。"]);
    ("merge_bodies", JArr [
      JStr "個別の Fail2ban は不要。ログ行から ipset/XDP カーネルBANまで約20ms——ポリシー、テナント、FP trust が1本のパイプラインに。";
      JStr "個別の ModSecurity モジュールは不要。OWASP CRS 121ルール、PCRE2 JIT——nginx ログ行から一度の通過。";
      JStr "断片的な CrowdSec スタックは不要。Prometheus、SOC タイムライン、75テスト、14の証拠ファイル、Telegram 運用——一つのパネルに。"])].
Definition prose_ko : json := JObj [
    ("hero_side_body", JStr "nginx 액세스 로그 라인에서 ipset 밴까지의 단일 체인: 파서, OWASP CRS/WAF 평가, 약 20ms 커널 밴. 경쟁사는 조각난 아키텍처를 제공합니다 — 우리는 측정되고 재현 가능한 PDF/JSON 증거와 함께 모든 것을 하나의 체인으로 통합합니다. 튀르키예 제작, MIT 오픈소스, 완전 셀프호스팅.");
    ("about_paragraphs", JArr [
      JStr "Fail2ban은 밴만 하고, ModSecurity WAF는 별도 모듈이며, CrowdSec은 조각난 스택이 필요합니다. Log Guardian은 이를 통합합니다: 로그 라인 → 파서 → CRS/WAF(PCRE2 JIT) → 밴 파이프라인(정책 + 테넌트) → ipset/XDP 커널 → Prometheus 메트릭과 대시보드 SOC 타임라인.";
      JStr "결과는 측정 가능하고 재현 가능합니다: 실제 공격 코퍼스에서 재현율 100%, OWASP CRS 100% 동등성, 오탐 0.2%, 중앙값 약 20ms 밴 지연, 72시간 VM soak에서 864 샘플 중 0 오류.";
      JStr "이 사이트는 공개 랜딩 및 다운로드 페이지입니다 — 정적 콘텐츠. 소프트웨어는 당신의 Linux 서버에서 실행되며, 데이터는 당신에게 남습니다."]);
    ("pkg_hero", JStr "Fail2ban, ModSecurity, CrowdSec을 따로 설치하는 대신, Log Guardian은 셋을 하나의 셀프호스팅 패키지로 통합합니다.");
    ("why_bodies", JArr [
      JStr "nginx 로그 → OWASP CRS → 약 20ms 커널 밴. Fail2ban + ModSec + 스크립트 더미 없음.";
      JStr "competitive-proof PDF, 75개 테스트, 72시간 soak — 경쟁사는 없거나 조각남.";
      JStr "오픈소스, 튀르키예어 문서, 셀프호스팅 — 벤더 종속 없음.";
      JStr "ModSec의 인라인 EPS가 아님; CDN이 L3/L4를 흡수. 오리진 통합 + 속도.";
      JStr "Fail2ban, ModSecurity, CrowdSec 분리 아님 — 밴 + WAF + SOC를 한 제품에.";
      JStr "중앙값 밴 약 20ms — Fail2ban/CrowdSec은 초~분 단위; 21개 측정 샘플.";
      JStr "JA3 클러스터 재현율 100% — 80 IP 실시간 테스트; IP별 밴 + 클러스터 탐지.";
      JStr "Telegram 알림 + 원클릭 ack, SOC 타임라인, 테넌트 메트릭 — 설치 후 :8443."]);
    ("merge_bodies", JArr [
      JStr "별도 Fail2ban 없음. 로그 라인에서 ipset/XDP 커널 밴까지 약 20ms — 정책, 테넌트, FP trust가 하나의 파이프라인에.";
      JStr "별도 ModSecurity 모듈 없음. OWASP CRS 121 규칙, PCRE2 JIT — nginx 로그 라인에서 한 번에 통과.";
      JStr "조각난 CrowdSec 스택 없음. Prometheus, SOC 타임라인, 75개 테스트, 14개 증거 파일, Telegram 운영 — 하나의 패널."])].
Definition prose_ar : json := JObj [
    ("hero_side_body", JStr "سلسلة واحدة من سطر سجل وصول nginx إلى حظر ipset: محلّل، تقييم OWASP CRS/WAF وحظر على مستوى النواة نحو 17 مللي ثانية. المنافسون يقدّمون بنية مجزّأة — نحن ندمج كل شيء في سلسلة واحدة مع دليل PDF/JSON مقاس وقابل لإعادة الإنتاج. صُنع في تركيا، مفتوح المصدر MIT، ذاتي الاستضافة بالكامل.");
    ("about_paragraphs", JArr [
      JStr "Fail2ban يحظر فقط، وModSecurity WAF وحدة منفصلة، وCrowdSec يتطلّب حزمة مجزّأة. يدمجها Log Guardian: سطر السجل ← محلّل ← CRS/WAF (PCRE2 JIT) ← خط حظر (سياسة + مستأجر) ← نواة ipset/XDP ← مقاييس Prometheus وخط زمني SOC للوحة.";
      JStr "النتائج قابلة للقياس وإعادة الإنتاج: استرجاع 100% على مجموعة هجمات حقيقية، تكافؤ OWASP CRS 100%، إيجابيات كاذبة 0.2%، وسيط زمن حظر نحو 17 مللي ثانية و0 خطأ عبر 864 عينة في soak لمدة 72 ساعة على جهاز افتراضي.";
      JStr "هذا الموقع صفحة تعريف وتنزيل عامة — محتوى ثابت. البرنامج يعمل على خادم Linux الخاص بك؛ بياناتك تبقى لديك."]);
    ("pkg_hero", JStr "بدلاً من تثبيت Fail2ban وModSecurity وCrowdSec بشكل منفصل، يدمج Log Guardian الثلاثة في حزمة واحدة ذاتية الاستضافة.");
    ("why_bodies", JArr [
      JStr "سجل nginx ← OWASP CRS ← حظر على مستوى النواة نحو 17 مللي ثانية. بلا كومة Fail2ban + ModSec + سكربتات.";
      JStr "PDF ‏competitive-proof، 75 اختباراً، soak 72 ساعة — مفقود أو مجزّأ لدى المنافسين.";
      JStr "مفتوح المصدر، وثائق بالتركية، ذاتي الاستضافة — بلا احتكار مورّد.";
      JStr "ليس EPS المضمّن لـ ModSec؛ الـ CDN يمتصّ L3/L4. تكامل عند الأصل + سرعة.";
      JStr "Fail2ban وModSecurity وCrowdSec ليست منفصلة — حظر + WAF + SOC في منتج واحد.";
      JStr "وسيط الحظر نحو 17 مللي ثانية — Fail2ban/CrowdSec بثوانٍ–دقائق؛ 5 عينات مقاسة.";
      JStr "عنقود JA3 استرجاع 100% — اختبار حي على 80 IP؛ حظر لكل IP + كشف عنقود.";
      JStr "تنبيه Telegram + ack بنقرة واحدة، خط زمني SOC، مقاييس لكل مستأجر — :8443 بعد التثبيت."]);
    ("merge_bodies", JArr [
      JStr "بلا Fail2ban منفصل. من سطر السجل إلى حظر نواة ipset/XDP نحو 17 مللي ثانية — سياسة، مستأجر، FP trust في خط واحد.";
      JStr "بلا وحدة ModSecurity منفصلة. OWASP CRS 121 قاعدة، PCRE2 JIT — مرور واحد من سطر سجل nginx.";
      JStr "بلا حزمة CrowdSec مجزّأة. Prometheus، خط زمني SOC، 75 اختباراً، 14 ملف دليل، تشغيل Telegram — لوحة واحدة."])].
Definition prose_az : json := JObj [
    ("hero_side_body", JStr "nginx giriş log sətrindən ipset bana qədər tək zəncir: parser, OWASP CRS/WAF qiymətləndirməsi və ~20 ms kernel ban. Rəqiblər parçalı memarlıq təklif edir — biz hər şeyi ölçülmüş, təkrar istehsal edilə bilən PDF/JSON sübutu ilə bir zəncirdə birləşdiririk. Türkiyədə hazırlanıb, MIT açıq mənbə, tam self-hosted.");
    ("about_paragraphs", JArr [
      JStr "Fail2ban yalnız banlayır, ModSecurity WAF ayrıca moduldur, CrowdSec parçalı stek tələb edir. Log Guardian onları birləşdirir: log sətri → parser → CRS/WAF (PCRE2 JIT) → ban pipeline (siyasət + tenant) → ipset/XDP kernel → Prometheus metrikləri və panel SOC zaman xətti.";
      JStr "Nəticələr ölçülə bilən və təkrar istehsal edilə biləndir: real hücum korpusunda 100% recall, 100% OWASP CRS pariteti, 0.2% yanlış pozitiv, ~20 ms median ban gecikməsi və 72 saat VM soak-da 864 nümunədə 0 xəta.";
      JStr "Bu sayt açıq təqdimat və yükləmə səhifəsidir — statik məzmun. Proqram öz Linux serverinizdə işləyir; məlumatınız sizdə qalır."]);
    ("pkg_hero", JStr "Fail2ban, ModSecurity və CrowdSec-i ayrıca quraşdırmaq əvəzinə, Log Guardian üçünü bir self-hosted paketdə birləşdirir.");
    ("why_bodies", JArr [
      JStr "nginx logu → OWASP CRS → ~20 ms kernel ban. Fail2ban + ModSec + skript yığını yoxdur.";
      JStr "competitive-proof PDF, 80 test, 72 saat soak — rəqiblərdə yoxdur və ya parçalı.";
      JStr "Açıq mənbə, türkcə sənədlər, self-hosted — vendor asılılığı yoxdur.";
      JStr "CDN L3/L4-ü udur. Origin-də inteqrasiya + sürət.";
      JStr "Fail2ban, ModSecurity, CrowdSec ayrı deyil — ban + WAF + SOC bir məhsulda.";
      JStr "Median ban ~20 ms — Fail2ban/CrowdSec saniyə–dəqiqə səviyyəsində; 21 ölçülmüş nümunə.";
      JStr "JA3 klaster 100% recall — 80 IP canlı test; IP başına ban + klaster aşkarlanması.";
      JStr "Telegram alert + bir kliklə ack, SOC zaman xətti, tenant metrikləri — quraşdırmadan sonra :8443."]);
    ("merge_bodies", JArr [
      JStr "Ayrıca Fail2ban yoxdur. Log sətrindən ipset/XDP kernel bana ~20 ms — siyasət, tenant, FP trust bir pipeline-da.";
      JStr "Ayrıca ModSecurity modulu yoxdur. OWASP CRS 121 qayda, PCRE2 JIT — nginx log sətrindən bir keçid.";
      JStr "Parçalı CrowdSec steki yoxdur. Prometheus, SOC zaman xətti, 80 test, 14 sübut faylı, Telegram idarəetmə — bir panel."])].
Definition prose_kk : json := JObj [
    ("hero_side_body", JStr "nginx кіру лог жолынан ipset банға дейін бір тізбек: parser, OWASP CRS/WAF бағалауы және ~20 мс kernel ban. Бәсекелестер бөлшек архитектура ұсынады — біз бәрін өлшенген, қайта жаңғыртылатын PDF/JSON дәлелімен бір тізбекте біріктіреміз. Түркияда жасалған, MIT ашық код, толық self-hosted.");
    ("about_paragraphs", JArr [
      JStr "Fail2ban тек бан салады, ModSecurity WAF бөлек модуль, CrowdSec бөлшек стек қажет етеді. Log Guardian оларды біріктіреді: лог жолы → parser → CRS/WAF (PCRE2 JIT) → ban pipeline (саясат + tenant) → ipset/XDP kernel → Prometheus метрикалары және панель SOC уақыт сызығы.";
      JStr "Нәтижелер өлшенеді және қайта жаңғыртылады: нақты шабуыл корпусында recall 100%, OWASP CRS паритеті 100%, 0.2% жалған позитив, ~20 мс медиана бан кідірісі және 72 сағат VM soak ішінде 864 үлгіде 0 қате.";
      JStr "Бұл сайт — ашық таныстыру және жүктеу беті — статикалық мазмұн. Бағдарлама сіздің Linux серверіңізде жұмыс істейді; деректеріңіз сізде қалады."]);
    ("pkg_hero", JStr "Fail2ban, ModSecurity және CrowdSec-ті бөлек орнатудың орнына, Log Guardian үшеуін бір self-hosted пакетте біріктіреді.");
    ("why_bodies", JArr [
      JStr "nginx логы → OWASP CRS → ~20 мс kernel ban. Fail2ban + ModSec + скрипт үйіндісі жоқ.";
      JStr "competitive-proof PDF, 75 тест, 72 сағат soak — бәсекелестерде жоқ немесе бөлшектелген.";
      JStr "Ашық код, түрікше құжаттама, self-hosted — вендорға тәуелділік жоқ.";
      JStr "CDN L3/L4-ті сіңіреді. Origin-де интеграция + жылдамдық.";
      JStr "Fail2ban, ModSecurity, CrowdSec бөлек емес — ban + WAF + SOC бір өнімде.";
      JStr "Медиана бан ~20 мс — Fail2ban/CrowdSec секунд–минут деңгейінде; 21 өлшенген үлгі.";
      JStr "JA3 кластер recall 100% — 80 IP тікелей тест; IP бойынша ban + кластерді анықтау.";
      JStr "Telegram alert + бір рет басып ack, SOC уақыт сызығы, tenant метрикалары — орнатудан кейін :8443."]);
    ("merge_bodies", JArr [
      JStr "Бөлек Fail2ban жоқ. Лог жолынан ipset/XDP kernel банға ~20 мс — саясат, tenant, FP trust бір pipeline-да.";
      JStr "Бөлек ModSecurity модулі жоқ. OWASP CRS 121 ереже, PCRE2 JIT — nginx лог жолынан бір өту.";
      JStr "Бөлшек CrowdSec стегі жоқ. Prometheus, SOC уақыт сызығы, 75 тест, 14 дәлел файлы, Telegram басқару — бір панель."])].
Definition prose_uz : json := JObj [
    ("hero_side_body", JStr "nginx kirish log qatoridan ipset banga qadar yagona zanjir: parser, OWASP CRS/WAF baholash va ~20 ms kernel ban. Raqiblar bo'lak arxitektura taklif qiladi — biz hammasini o'lchangan, qayta ishlab chiqariladigan PDF/JSON dalil bilan bitta zanjirda birlashtiramiz. Turkiyada ishlab chiqilgan, MIT ochiq kod, to'liq self-hosted.");
    ("about_paragraphs", JArr [
      JStr "Fail2ban faqat ban qiladi, ModSecurity WAF alohida modul, CrowdSec bo'lak stek talab qiladi. Log Guardian ularni birlashtiradi: log qatori → parser → CRS/WAF (PCRE2 JIT) → ban pipeline (siyosat + tenant) → ipset/XDP kernel → Prometheus metrikalar va panel SOC vaqt chizig'i.";
      JStr "Natijalar o'lchanadigan va qayta ishlab chiqariladigan: haqiqiy hujum korpusida recall 100%, OWASP CRS pariteti 100%, 0.2% noto'g'ri pozitiv, ~20 ms median ban kechikishi va 72 soat VM soak'da 864 namunada 0 xato.";
      JStr "Bu sayt ochiq taqdimot va yuklab olish sahifasi — statik kontent. Dastur o'z Linux serveringizda ishlaydi; ma'lumotingiz sizda qoladi."]);
    ("pkg_hero", JStr "Fail2ban, ModSecurity va CrowdSec'ni alohida o'rnatish o'rniga, Log Guardian uchtasini bitta self-hosted paketda birlashtiradi.");
    ("why_bodies", JArr [
      JStr "nginx logi → OWASP CRS → ~20 ms kernel ban. Fail2ban + ModSec + skript uyumi yo'q.";
      JStr "competitive-proof PDF, 80 test, 72 soat soak — raqiblarda yo'q yoki bo'lak.";
      JStr "Ochiq kod, turkcha hujjatlar, self-hosted — vendor qaramligi yo'q.";
      JStr "CDN L3/L4'ni yutadi. Origin'da integratsiya + tezlik.";
      JStr "Fail2ban, ModSecurity, CrowdSec alohida emas — ban + WAF + SOC bitta mahsulotda.";
      JStr "Median ban ~20 ms — Fail2ban/CrowdSec soniya–daqiqa darajasida; 21 o'lchangan namuna.";
      JStr "JA3 klaster recall 100% — 80 IP jonli test; IP bo'yicha ban + klaster aniqlash.";
      JStr "Telegram alert + bir bosishda ack, SOC vaqt chizig'i, tenant metrikalar — o'rnatishdan keyin :8443."]);
    ("merge_bodies", JArr [
      JStr "Alohida Fail2ban yo'q. Log qatoridan ipset/XDP kernel banga ~20 ms — siyosat, tenant, FP trust bitta pipeline'da.";
      JStr "Alohida ModSecurity moduli yo'q. OWASP CRS 121 qoida, PCRE2 JIT — nginx log qatoridan bir o'tish.";
      JStr "Bo'lak CrowdSec steki yo'q. Prometheus, SOC vaqt chizig'i, 80 test, 14 dalil fayli, Telegram boshqaruvi — bitta panel."])].
Definition prose_ky : json := JObj [
    ("hero_side_body", JStr "nginx кирүү лог сабынан ipset банга чейин бирдиктүү чынжыр: parser, OWASP CRS/WAF баалоо жана ~20 мс kernel ban. Атаандаштар бөлүк архитектура сунуштайт — биз баарын өлчөнгөн, кайра чыгарылуучу PDF/JSON далили менен бир чынжырда бириктиребиз. Түркияда жасалган, MIT ачык код, толук self-hosted.");
    ("about_paragraphs", JArr [
      JStr "Fail2ban бир гана бан салат, ModSecurity WAF өзүнчө модуль, CrowdSec бөлүк стек талап кылат. Log Guardian аларды бириктирет: лог сабы → parser → CRS/WAF (PCRE2 JIT) → ban pipeline (саясат + tenant) → ipset/XDP kernel → Prometheus метрикалары жана панель SOC убакыт сызыгы.";
      JStr "Натыйжалар өлчөнөт жана кайра чыгарылат: чыныгы чабуул корпусунда recall 100%, OWASP CRS паритети 100%, 0.2% жалган позитив, ~20 мс медиана бан кечигүүсү жана 72 саат VM soak ичинде 864 үлгүдө 0 ката.";
      JStr "Бул сайт — ачык тааныштыруу жана жүктөө барагы — статикалык мазмун. Программа өзүңүздүн Linux серверыңызда иштейт; маалыматыңыз сизде калат."]);
    ("pkg_hero", JStr "Fail2ban, ModSecurity жана CrowdSec'ти өзүнчө орнотуунун ордуна, Log Guardian үчөөнү бир self-hosted пакетте бириктирет.");
    ("why_bodies", JArr [
      JStr "nginx логу → OWASP CRS → ~20 мс kernel ban. Fail2ban + ModSec + скрипт үймөгү жок.";
      JStr "competitive-proof PDF, 75 тест, 72 саат soak — атаандаштарда жок же бөлүк.";
      JStr "Ачык код, түркчө документтер, self-hosted — вендорго көз карандылык жок.";
      JStr "CDN L3/L4'ту сиңирет. Origin'де интеграция + ылдамдык.";
      JStr "Fail2ban, ModSecurity, CrowdSec өзүнчө эмес — ban + WAF + SOC бир продуктта.";
      JStr "Медиана бан ~20 мс — Fail2ban/CrowdSec секунд–мүнөт деңгээлинде; 21 өлчөнгөн үлгү.";
      JStr "JA3 кластер recall 100% — 80 IP түз тест; IP боюнча ban + кластерди аныктоо.";
      JStr "Telegram alert + бир басып ack, SOC убакыт сызыгы, tenant метрикалары — орнотуудан кийин :8443."]);
    ("merge_bodies", JArr [
      JStr "Өзүнчө Fail2ban жок. Лог сабынан ipset/XDP kernel банга ~20 мс — саясат, tenant, FP trust бир pipeline'да.";
      JStr "Өзүнчө ModSecurity модулу жок. OWASP CRS 121 эреже, PCRE2 JIT — nginx лог сабынан бир өтүү.";
      JStr "Бөлүк CrowdSec стеги жок. Prometheus, SOC убакыт сызыгы, 75 тест, 14 далил файлы, Telegram башкаруу — бир панель."])].
Definition prose_tk : json := JObj [
    ("hero_side_body", JStr "nginx giriş log setirinden ipset bana çenli ýeke zynjyr: parser, OWASP CRS/WAF bahalandyrma we ~20 ms kernel ban. Bäsdeşler bölek arhitektura hödürleýär — biz hemmesini ölçelen, gaýtadan öndürilýän PDF/JSON subutnamasy bilen bir zynjyrda birleşdirýäris. Türkiýede öndürilen, MIT açyk çeşme, doly self-hosted.");
    ("about_paragraphs", JArr [
      JStr "Fail2ban diňe ban edýär, ModSecurity WAF aýratyn modul, CrowdSec bölek stek talap edýär. Log Guardian olary birleşdirýär: log setiri → parser → CRS/WAF (PCRE2 JIT) → ban pipeline (syýasat + tenant) → ipset/XDP kernel → Prometheus metrikalary we panel SOC wagt çyzygy.";
      JStr "Netijeler ölçäp bolýan we gaýtadan öndürilýän: hakyky hüjüm korpusynda recall 100%, OWASP CRS pariteti 100%, 0.2% ýalňyş pozitiw, ~20 ms mediana ban gijikdirmesi we 72 sagat VM soak-da 864 nusgada 0 ýalňyşlyk.";
      JStr "Bu saýt açyk tanyşdyryş we ýükleme sahypasy — statik mazmun. Programma öz Linux serweriňizde işleýär; maglumatyňyz sizde galýar."]);
    ("pkg_hero", JStr "Fail2ban, ModSecurity we CrowdSec-i aýratyn gurnamagyň ýerine, Log Guardian üçüsini bir self-hosted pakete birleşdirýär.");
    ("why_bodies", JArr [
      JStr "nginx logy → OWASP CRS → ~20 ms kernel ban. Fail2ban + ModSec + skript üýşmegi ýok.";
      JStr "competitive-proof PDF, 80 test, 72 sagat soak — bäsdeşlerde ýok ýa-da bölek.";
      JStr "Açyk çeşme, türkçe resminamalar, self-hosted — wendor garaşlylygy ýok.";
      JStr "CDN L3/L4-i siňdirýär. Origin-de integrasiýa + tizlik.";
      JStr "Fail2ban, ModSecurity, CrowdSec aýratyn däl — ban + WAF + SOC bir önümde.";
      JStr "Mediana ban ~20 ms — Fail2ban/CrowdSec sekunt–minut derejesinde; 5 ölçelen nusga.";
      JStr "JA3 klaster recall 100% — 80 IP göni test; IP boýunça ban + klaster ýüze çykarmak.";
      JStr "Telegram alert + bir gezek basyp ack, SOC wagt çyzygy, tenant metrikalary — gurnamadan soň :8443."]);
    ("merge_bodies", JArr [
      JStr "Aýratyn Fail2ban ýok. Log setirinden ipset/XDP kernel bana ~20 ms — syýasat, tenant, FP trust bir pipeline-da.";
      JStr "Aýratyn ModSecurity moduly ýok. OWASP CRS 121 düzgün, PCRE2 JIT — nginx log setirinden bir geçiş.";
      JStr "Bölek CrowdSec steki ýok. Prometheus, SOC wagt çyzygy, 80 test, 14 subutnama faýly, Telegram dolandyryş — bir panel."])].
Definition prose_tt : json := JObj [
    ("hero_side_body", JStr "nginx керү лог юлыннан ipset банга кадәр бер чылбыр: parser, OWASP CRS/WAF бәяләү һәм ~20 мс kernel ban. Көндәшләр өлешле архитектура тәкъдим итә — без барысын да үлчәнгән, кабат җитештерелә торган PDF/JSON дәлиле белән бер чылбырда берләштерәбез. Төркиядә ясалган, MIT ачык код, тулысынча self-hosted.");
    ("about_paragraphs", JArr [
      JStr "Fail2ban бары тик ban сала, ModSecurity WAF аерым модуль, CrowdSec өлешле стек таләп итә. Log Guardian аларны берләштерә: лог юлы → parser → CRS/WAF (PCRE2 JIT) → ban pipeline (сәясәт + tenant) → ipset/XDP kernel → Prometheus метрикалары һәм панель SOC вакыт сызыгы.";
      JStr "Нәтиҗәләр үлчәнә һәм кабат җитештерелә: чын һөҗүм корпусында recall 100%, OWASP CRS паритеты 100%, 0.2% ялган позитив, ~20 мс медиана бан тоткарлыгы һәм 72 сәгать VM soak эчендә 864 үрнәктә 0 хата.";
      JStr "Бу сайт — ачык тәкъдим итү һәм йөкләү бите — статик эчтәлек. Программа сезнең Linux серверыгызда эшли; мәгълүматыгыз сездә кала."]);
    ("pkg_hero", JStr "Fail2ban, ModSecurity һәм CrowdSec'ны аерым урнаштыру урынына, Log Guardian өчесен бер self-hosted пакетта берләштерә.");
    ("why_bodies", JArr [
      JStr "nginx логы → OWASP CRS → ~20 мс kernel ban. Fail2ban + ModSec + скрипт өеме юк.";
      JStr "competitive-proof PDF, 75 тест, 72 сәгать soak — көндәшләрдә юк яки өлешле.";
      JStr "Ачык код, төрекчә документлар, self-hosted — вендорга бәйлелек юк.";
      JStr "CDN L3/L4'ны сеңдерә. Origin'да интеграция + тизлек.";
      JStr "Fail2ban, ModSecurity, CrowdSec аерым түгел — ban + WAF + SOC бер продуктта.";
      JStr "Медиана бан ~20 мс — Fail2ban/CrowdSec секунд–минут дәрәҗәсендә; 5 үлчәнгән үрнәк.";
      JStr "JA3 кластер recall 100% — 80 IP туры тест; IP буенча ban + кластерны ачыклау.";
      JStr "Telegram alert + бер басып ack, SOC вакыт сызыгы, tenant метрикалары — урнаштыргач :8443."]);
    ("merge_bodies", JArr [
      JStr "Аерым Fail2ban юк. Лог юлыннан ipset/XDP kernel банга ~20 мс — сәясәт, tenant, FP trust бер pipeline'да.";
      JStr "Аерым ModSecurity модуле юк. OWASP CRS 121 кагыйдә, PCRE2 JIT — nginx лог юлыннан бер узу.";
      JStr "Өлешле CrowdSec стегы юк. Prometheus, SOC вакыт сызыгы, 75 тест, 14 дәлил файлы, Telegram идарә — бер панель."])].
Definition prose_ba : json := JObj [
    ("hero_side_body", JStr "nginx инеү лог юлынан ipset банға тиклем бер сылбыр: parser, OWASP CRS/WAF баһалау һәм ~20 мс kernel ban. Көндәштәр өлөшлө архитектура тәҡдим итә — беҙ барыһын да үлсәнгән, ҡабат етештерелә торған PDF/JSON дәлиле менән бер сылбырҙа берләштерәбеҙ. Төркиәлә яһалған, MIT асыҡ код, тулыһынса self-hosted.");
    ("about_paragraphs", JArr [
      JStr "Fail2ban бары тик ban һала, ModSecurity WAF айырым модуль, CrowdSec өлөшлө стек талап итә. Log Guardian уларҙы берләштерә: лог юлы → parser → CRS/WAF (PCRE2 JIT) → ban pipeline (сәйәсәт + tenant) → ipset/XDP kernel → Prometheus метрикалары һәм панель SOC ваҡыт һыҙығы.";
      JStr "Һөҙөмтәләр үлсәнә һәм ҡабат етештерелә: ысын һөжүм корпусында recall 100%, OWASP CRS паритеты 100%, 0.2% ялған позитив, ~20 мс медиана бан тотҡарлығы һәм 72 сәғәт VM soak эсендә 864 өлгөлә 0 хата.";
      JStr "Был сайт — асыҡ тәҡдим итеү һәм йөкләү бите — статик эстәлек. Программа һеҙҙең Linux серверыгыҙҙа эшләй; мәғлүмәтегеҙ һеҙҙә ҡала."]);
    ("pkg_hero", JStr "Fail2ban, ModSecurity һәм CrowdSec'ты айырым урынлаштырыу урынына, Log Guardian өсөһөн бер self-hosted пакетта берләштерә.");
    ("why_bodies", JArr [
      JStr "nginx логы → OWASP CRS → ~20 мс kernel ban. Fail2ban + ModSec + скрипт өйөмө юҡ.";
      JStr "competitive-proof PDF, 75 тест, 72 сәғәт soak — көндәштәрҙә юҡ йәки өлөшлө.";
      JStr "Асыҡ код, төрөксә документтар, self-hosted — вендорға бәйлелек юҡ.";
      JStr "CDN L3/L4'ты һеңдерә. Origin'да интеграция + тиҙлек.";
      JStr "Fail2ban, ModSecurity, CrowdSec айырым түгел — ban + WAF + SOC бер продуктта.";
      JStr "Медиана бан ~20 мс — Fail2ban/CrowdSec секунд–минут кимәлендә; 5 үлсәнгән өлгө.";
      JStr "JA3 кластер recall 100% — 80 IP тура тест; IP буйынса ban + кластерҙы асыҡлау.";
      JStr "Telegram alert + бер баҫып ack, SOC ваҡыт һыҙығы, tenant метрикалары — урынлаштырғас :8443."]);
    ("merge_bodies", JArr [
      JStr "Айырым Fail2ban юҡ. Лог юлынан ipset/XDP kernel банға ~20 мс — сәйәсәт, tenant, FP trust бер pipeline'да.";
      JStr "Айырым ModSecurity модуле юҡ. OWASP CRS 121 ҡағиҙә, PCRE2 JIT — nginx лог юлынан бер үтеү.";
      JStr "Өлөшлө CrowdSec стегы юҡ. Prometheus, SOC ваҡыт һыҙығы, 75 тест, 14 дәлил файлы, Telegram идара — бер панель."])].
Definition prose_cv : json := JObj [
    ("hero_side_body", JStr "nginx кӗрӳ лог йӗркинчен ipset бана ҫитиччен пӗр сӑнчӑр: parser, OWASP CRS/WAF хаклани тата ~20 мс kernel бан. Конкурентсем татӑк-татӑк архитектура сӗнеҫҫӗ — эпир пурне те виҫнӗ, тепӗр хут тӑвакан PDF/JSON кӑтартупа пӗр сӑнчӑрта пӗрлештеретпӗр. Турцире тунӑ, MIT уҫӑ код, пӗтӗмпех self-hosted.");
    ("about_paragraphs", JArr [
      JStr "Fail2ban тӳрех бан ҫеҫ тӑвать, ModSecurity WAF уйрӑм модуль, CrowdSec татӑк-татӑк стек ыйтать. Log Guardian вӗсене пӗрлештерет: лог йӗрки → parser → CRS/WAF (PCRE2 JIT) → ban pipeline (политика + tenant) → ipset/XDP kernel → Prometheus метрикисем тата панель SOC вӑхӑт линийӗ.";
      JStr "Результатсем виҫме тата тепӗр хут тума пулаҫҫӗ: чӑн тапӑну корпусӗнче recall 100%, OWASP CRS паритечӗ 100%, 0.2% суя позитив, ~20 мс медиана бан кӗтӗвӗ тата 72 сехет VM soak ӑшӗнче 864 тӗслӗхре 0 йӑнӑш.";
      JStr "Ку сайт — уҫӑ паллаштару тата анлантару страници — статик контент. Программа сирӗн Linux серверӗнче ӗҫлет; сирӗн даннӑйсем сирӗнте юлаҫҫӗ."]);
    ("pkg_hero", JStr "Fail2ban, ModSecurity тата CrowdSec-а уйрӑммӑн вырнаҫтарас вырӑнне, Log Guardian виҫҫӗшне те пӗр self-hosted пакетра пӗрлештерет.");
    ("why_bodies", JArr [
      JStr "nginx логӗ → OWASP CRS → ~20 мс kernel бан. Fail2ban + ModSec + скрипт купи ҫук.";
      JStr "competitive-proof PDF, 75 тест, 72 сехет soak — конкурентсен ҫук е татӑк-татӑк.";
      JStr "Уҫӑ код, тӗрӗкле документсем, self-hosted — вендора ҫыхӑнни ҫук.";
      JStr "CDN L3/L4-а ҫӑтать. Origin ҫинче интеграци + хӑвӑртлӑх.";
      JStr "Fail2ban, ModSecurity, CrowdSec уйрӑм мар — бан + WAF + SOC пӗр продуктра.";
      JStr "Медиана бан ~20 мс — Fail2ban/CrowdSec ҫекунт–минут шайӗнче; 5 виҫнӗ тӗслӗх.";
      JStr "JA3 кластер recall 100% — 80 IP чӗрӗ тест; IP тӑрӑх бан + кластер тупни.";
      JStr "Telegram alert + пӗр пусса ack, SOC вӑхӑт линийӗ, tenant метрикисем — вырнаҫтарнӑ хыҫҫӑн :8443."]);
    ("merge_bodies", JArr [
      JStr "Уйрӑм Fail2ban ҫук. Лог йӗркинчен ipset/XDP kernel бана ~20 мс — политика, tenant, FP trust пӗр pipeline-ра.";
      JStr "Уйрӑм ModSecurity модуль ҫук. OWASP CRS 121 правило, PCRE2 JIT — nginx лог йӗркинчен пӗр иртни.";
      JStr "Татӑк-татӑк CrowdSec стек ҫук. Prometheus, SOC вӑхӑт линийӗ, 75 тест, 14 кӑтарту файлӗ, Telegram майлашу — пӗр панель."])].
Definition prose_crh : json := JObj [
    ("hero_side_body", JStr "nginx kirim log satırından ipset banğa qadar tek zıncır: parser, OWASP CRS/WAF qıymetlendirüv ve ~20 ms kernel ban. Raqipler parça-parça mimarlıq teklif ete — biz episini ölçengen, tekrar tüzülgen PDF/JSON delilnen tek zıncırda birleştiremiz. Türkiyede yapılğan, MIT açıq kod, tamamen self-hosted.");
    ("about_paragraphs", JArr [
      JStr "Fail2ban tek ban yapa, ModSecurity WAF ayrı modul, CrowdSec parça-parça stek ister. Log Guardian olarnı birleştire: log satırı → parser → CRS/WAF (PCRE2 JIT) → ban pipeline (siyaset + tenant) → ipset/XDP kernel → Prometheus metrikaları ve pan'el SOC vaqıt sızığı.";
      JStr "Neticeler ölçele bile ve tekrar tüzüle bile: kerçek hücum korpusında recall 100%, OWASP CRS pariteti 100%, 0.2% yañlış pozitiv, ~20 ms mediana ban keçikmesi ve 72 saat VM soak içinde 864 örnekte 0 hata.";
      JStr "Bu sayt açıq tanıtım ve endirüv sahifesi — statik mündericat. Yazılım öz Linux serverıñızda çalışa; malümatıñız sizde qala."]);
    ("pkg_hero", JStr "Fail2ban, ModSecurity ve CrowdSec'ni ayrı qurmaq yerine, Log Guardian üçüsini bir self-hosted pakette birleştire.");
    ("why_bodies", JArr [
      JStr "nginx logu → OWASP CRS → ~20 ms kernel ban. Fail2ban + ModSec + skript yığını yoq.";
      JStr "competitive-proof PDF, 80 test, 72 saat soak — raqiplerde yoq ya da parça-parça.";
      JStr "Açıq kod, türkçe vesiqalar, self-hosted — vendor bağlılığı yoq.";
      JStr "CDN L3/L4'ni yuta. Origin'de integratsiya + tezlik.";
      JStr "Fail2ban, ModSecurity, CrowdSec ayrı degil — ban + WAF + SOC bir mahsulda.";
      JStr "Mediana ban ~20 ms — Fail2ban/CrowdSec saniye–daqiqa seviyesinde; 5 ölçengen örnek.";
      JStr "JA3 klaster recall 100% — 80 IP canlı test; IP başına ban + klaster tapuv.";
      JStr "Telegram alert + bir basıp ack, SOC vaqıt sızığı, tenant metrikaları — qurulımdan soñ :8443."]);
    ("merge_bodies", JArr [
      JStr "Ayrı Fail2ban yoq. Log satırından ipset/XDP kernel banğa ~20 ms — siyaset, tenant, FP trust bir pipeline'da.";
      JStr "Ayrı ModSecurity modul yoq. OWASP CRS 121 qaide, PCRE2 JIT — nginx log satırından bir keçüv.";
      JStr "Parça-parça CrowdSec stek yoq. Prometheus, SOC vaqıt sızığı, 80 test, 14 delil faylı, Telegram idare — bir pan'el."])].
Definition prose_gag : json := JObj [
    ("hero_side_body", JStr "nginx giriş log satırından ipset bana kadar tek zincir: parser, OWASP CRS/WAF diişilmesi hem ~20 ms kernel ban. Rakiplär parça-parça mimarlık verer — biz hepsini ölçülü, tekrar yapılabilän PDF/JSON delillän tek zincirdä birleştireriz. Türkiyedä yapıldı, MIT açık kod, bütünnä self-hosted.");
    ("about_paragraphs", JArr [
      JStr "Fail2ban salt ban yapêr, ModSecurity WAF ayırı modül, CrowdSec parça-parça stek ister. Log Guardian onnarı birleştirer: log satırı → parser → CRS/WAF (PCRE2 JIT) → ban pipeline (politika + tenant) → ipset/XDP kernel → Prometheus metrikaları hem panel SOC zaman çizgisi.";
      JStr "Sonuçlar ölçülebilir hem tekrar yapılabilir: gerçek saldırı korpusunda recall 100%, OWASP CRS pariteti 100%, 0.2% yalancı pozitiv, ~20 ms mediana ban gecikmesi hem 72 saat VM soak içindä 864 örnektä 0 hata.";
      JStr "Bu sayt açık tanıtım hem indirmäk sayfası — statik içerik. Yazılım kendi Linux serverindä çalışêr; bilgileriniz sizdä kalêr."]);
    ("pkg_hero", JStr "Fail2ban, ModSecurity hem CrowdSec'i ayırı kurmak erinä, Log Guardian üçünü bir self-hosted pakettä birleştirer.");
    ("why_bodies", JArr [
      JStr "nginx logu → OWASP CRS → ~20 ms kernel ban. Fail2ban + ModSec + skript yıını yok.";
      JStr "competitive-proof PDF, 80 test, 72 saat soak — rakiplerdä yok osaydı parça-parça.";
      JStr "Açık kod, türkçä dokumentlär, self-hosted — vendor baalantısı yok.";
      JStr "CDN L3/L4'ü yudêr. Origin'dä integratsiya + hız.";
      JStr "Fail2ban, ModSecurity, CrowdSec ayırı diil — ban + WAF + SOC bir üründä.";
      JStr "Mediana ban ~20 ms — Fail2ban/CrowdSec saniye–dakika kertindä; 5 ölçülü örnek.";
      JStr "JA3 klaster recall 100% — 80 IP canlı test; IP başına ban + klaster bulması.";
      JStr "Telegram alert + bir basmaklan ack, SOC zaman çizgisi, tenant metrikaları — kurmadan sora :8443."]);
    ("merge_bodies", JArr [
      JStr "Ayırı Fail2ban yok. Log satırından ipset/XDP kernel bana ~20 ms — politika, tenant, FP trust bir pipeline'dä.";
      JStr "Ayırı ModSecurity modül yok. OWASP CRS 121 kural, PCRE2 JIT — nginx log satırından bir geçmäk.";
      JStr "Parça-parça CrowdSec stek yok. Prometheus, SOC zaman çizgisi, 80 test, 14 delil dosyası, Telegram işlemäk — bir panel."])].
Definition prose_ug : json := JObj [
    ("hero_side_body", JStr "nginx كىرىش خاتىرە قۇرىدىن ipset چەكلەشكىچە بىرلا زەنجىر: parser، OWASP CRS/WAF باھالاش ۋە ~20 مىللىسېكۇنت يادرو چەكلىشى. رەقىبلەر پارچە قۇرۇلما تەمىنلەيدۇ — بىز ھەممىنى ئۆلچەنگەن، قايتا ياسىغىلى بولىدىغان PDF/JSON ئىسپاتى بىلەن بىرلا زەنجىرگە بىرلەشتۈرىمىز. تۈركىيەدە ياسالغان، MIT ئوچۇق كود، تولۇق self-hosted.");
    ("about_paragraphs", JArr [
      JStr "Fail2ban پەقەت چەكلەيدۇ، ModSecurity WAF ئايرىم مودۇل، CrowdSec پارچە سىتاك تەلەپ قىلىدۇ. Log Guardian ئۇلارنى بىرلەشتۈرىدۇ: خاتىرە قۇرى → parser → CRS/WAF (PCRE2 JIT) → چەكلەش quburى (سىياسەت + tenant) → ipset/XDP يادرو → Prometheus مېترىكىلىرى ۋە تاختا SOC ۋاقىت سىزىقى.";
      JStr "نەتىجىلەر ئۆلچىگىلى ۋە قايتا ياسىغىلى بولىدۇ: ھەقىقىي ھۇجۇم كورپۇسىدا recall 100%، OWASP CRS تەڭپۇڭلۇقى 100%، 0.2% يالغان مۇسبەت، ~20 مىللىسېكۇنت ئوتتۇرا چەكلەش كېچىكىشى ۋە 72 سائەت VM soak ئىچىدە 864 نەمۇنىدە 0 خاتالىق.";
      JStr "بۇ بەت ئوچۇق تونۇشتۇرۇش ۋە چۈشۈرۈش بېتى — مۇقىم مەزمۇن. يۇمشاق دېتال ئۆزىڭىزنىڭ Linux مۇلازىمېتىرىدا ئىشلەيدۇ؛ سانلىق مەلۇماتىڭىز سىزدە قالىدۇ."]);
    ("pkg_hero", JStr "Fail2ban، ModSecurity ۋە CrowdSec نى ئايرىم ئورنىتىشنىڭ ئورنىغا، Log Guardian ئۈچىنى بىر self-hosted بولاققا بىرلەشتۈرىدۇ.");
    ("why_bodies", JArr [
      JStr "nginx خاتىرىسى → OWASP CRS → ~20 مىللىسېكۇنت يادرو چەكلىشى. Fail2ban + ModSec + skript دۆۋىسى يوق.";
      JStr "competitive-proof PDF، 75 سىناق، 72 سائەت soak — رەقىبلەردە يوق ياكى پارچە-پارچە.";
      JStr "ئوچۇق كود، تۈركچە ھۆججەتلەر، self-hosted — ساتقۇچىغا باغلىنىش يوق.";
      JStr "CDN L3/L4 نى سىڭدۈرىدۇ. Origin دا بىرلەشتۈرۈش + سۈرئەت.";
      JStr "Fail2ban، ModSecurity، CrowdSec ئايرىم ئەمەس — چەكلەش + WAF + SOC بىر مەھسۇلاتتا.";
      JStr "ئوتتۇرا چەكلەش ~20 مىللىسېكۇنت — Fail2ban/CrowdSec سېكۇنت–مىنۇت دەرىجىسىدە؛ 21 ئۆلچەنگەن نەمۇنە.";
      JStr "JA3 توپلام recall 100% — 80 IP جانلىق سىناق؛ IP بويىچە چەكلەش + توپلام بايقاش.";
      JStr "Telegram ئاگاھلاندۇرۇش + بىر بېسىپ ack، SOC ۋاقىت سىزىقى، tenant مېترىكىلىرى — ئورناتقاندىن كېيىن :8443."]);
    ("merge_bodies", JArr [
      JStr "ئايرىم Fail2ban يوق. خاتىرە قۇرىدىن ipset/XDP يادرو چەكلىشىگە ~20 مىللىسېكۇنت — سىياسەت، tenant، FP trust بىر quburدا.";
      JStr "ئايرىم ModSecurity مودۇلى يوق. OWASP CRS 121 قائىدە، PCRE2 JIT — nginx خاتىرە قۇرىدىن بىر ئۆتۈش.";
      JStr "پارچە CrowdSec سىتاك يوق. Prometheus، SOC ۋاقىت سىزىقى، 75 سىناق، 14 ئىسپات ھۆججىتى، Telegram باشقۇرۇش — بىر تاختا."])].
Definition prose_sah : json := JObj [
    ("hero_side_body", JStr "nginx киирии лог строкатыттан ipset баҥҥа тиийэ биир сиэп: parser, OWASP CRS/WAF сыаналааһын уонна ~20 мс kernel бан. Күрэхтэһээччилэр аҥаардас архитектураны тэлэллэр — биһиги барытын кээмэйдэммит, хат оҥоһуллар PDF/JSON туоһунан биир сиэпкэ холбуубут. Турцияҕа оҥоһуллубут, MIT аһаҕас код, толору self-hosted.");
    ("about_paragraphs", JArr [
      JStr "Fail2ban эрэ бан оҥорор, ModSecurity WAF туспа модуль, CrowdSec аҥаардас стеги ирдиир. Log Guardian кинилэри холбуур: лог строката → parser → CRS/WAF (PCRE2 JIT) → бан pipeline (политика + tenant) → ipset/XDP kernel → Prometheus метриктэрэ уонна панель SOC кэм линията.";
      JStr "Түмүктэр кээмэйдэнэллэр уонна хат оҥоһуллаллар: чахчы саба түһүү корпуһугар recall 100%, OWASP CRS паритета 100%, 0.2% сымыйа позитив, ~20 мс медиана бан хойутааһына уонна 72 чаас VM soak иһигэр 864 холобурга 0 алҕас.";
      JStr "Бу сайт — аһаҕас билиһиннэрии уонна хачайдааһын сирэйэ — статичнай ис хоһоон. Программа эн бэйэҥ Linux серверыгар үлэлиир; дааннайдарыҥ эйиэхэ хаалаллар."]);
    ("pkg_hero", JStr "Fail2ban, ModSecurity уонна CrowdSec-ы туспа олохтооһун оннугар, Log Guardian үһүнү биир self-hosted пакеккэ холбуур.");
    ("why_bodies", JArr [
      JStr "nginx лога → OWASP CRS → ~20 мс kernel бан. Fail2ban + ModSec + скрипт бөҕө суох.";
      JStr "competitive-proof PDF, 75 тест, 72 чаас soak — күрэхтэһээччилэргэ суох эбэтэр аҥаардас.";
      JStr "Аһаҕас код, түүрдүү докумуоннар, self-hosted — вендорга сыһыаны суох.";
      JStr "CDN L3/L4-у ыҥырар. Origin-га интеграция + түргэн.";
      JStr "Fail2ban, ModSecurity, CrowdSec туспа буолбатах — бан + WAF + SOC биир бородууксуйаҕа.";
      JStr "Медиана бан ~20 мс — Fail2ban/CrowdSec сөкүүндэ–мүнүөтэ таһымыгар; 5 кээмэйдэммит холобур.";
      JStr "JA3 кластер recall 100% — 80 IP тыыннаах тест; IP аайы бан + кластеры булуу.";
      JStr "Telegram alert + биир баттаан ack, SOC кэм линията, tenant метриктэрэ — олохтообутуҥ кэнниттэн :8443."]);
    ("merge_bodies", JArr [
      JStr "Туспа Fail2ban суох. Лог строкатыттан ipset/XDP kernel баҥҥа ~20 мс — политика, tenant, FP trust биир pipeline-га.";
      JStr "Туспа ModSecurity модуль суох. OWASP CRS 121 быраабыла, PCRE2 JIT — nginx лог строкатыттан биир ааһыы.";
      JStr "Аҥаардас CrowdSec стеги суох. Prometheus, SOC кэм линията, 75 тест, 14 туоһу файла, Telegram салайыы — биир панель."])].
Definition SECTION_BODIES : list (jstring * json) := [("de", prose_de); ("fr", prose_fr); ("es", prose_es); ("ru", prose_ru); ("pt", prose_pt); ("nl", prose_nl); ("zh", prose_zh); ("ja", prose_ja); ("ko", prose_ko); ("ar", prose_ar); ("az", prose_az); ("kk", prose_kk); ("uz", prose_uz); ("ky", prose_ky); ("tk", prose_tk); ("tt", prose_tt); ("ba", prose_ba); ("cv", prose_cv); ("crh", prose_crh); ("gag", prose_gag); ("ug", prose_ug); ("sah", prose_sah)].
