(* ===== verification/LandingLocales.v ===== *)
(** The languages of the landing site and their short texts: landing/lib/i18n/locales.ts,
    the labels of landing/lib/i18n/pipelineDeep/labels.ts, landing/lib/sectors.ts. *)

From S2P Require Import Prelude JsString JsNum Json LandingContent.

Definition LOCALES : json := JArr [
    JObj [("code", JStr "tr"); ("label", JStr "Türkçe"); ("native", JStr "Türkçe"); ("group", JStr "turkic")];
    JObj [
      ("code", JStr "az");
      ("label", JStr "Azerbaycanca");
      ("native", JStr "Azərbaycan");
      ("group", JStr "turkic")];
    JObj [("code", JStr "kk"); ("label", JStr "Kazakça"); ("native", JStr "Қазақша"); ("group", JStr "turkic")];
    JObj [("code", JStr "uz"); ("label", JStr "Özbekçe"); ("native", JStr "Oʻzbek"); ("group", JStr "turkic")];
    JObj [("code", JStr "ky"); ("label", JStr "Kırgızca"); ("native", JStr "Кыргызча"); ("group", JStr "turkic")];
    JObj [("code", JStr "tk"); ("label", JStr "Türkmence"); ("native", JStr "Türkmen"); ("group", JStr "turkic")];
    JObj [("code", JStr "ug"); ("label", JStr "Uygurca"); ("native", JStr "ئۇيغۇرچە"); ("group", JStr "turkic")];
    JObj [("code", JStr "tt"); ("label", JStr "Tatarca"); ("native", JStr "Татарча"); ("group", JStr "turkic")];
    JObj [
      ("code", JStr "ba");
      ("label", JStr "Başkurtça");
      ("native", JStr "Башҡортса");
      ("group", JStr "turkic")];
    JObj [("code", JStr "cv"); ("label", JStr "Çuvaşça"); ("native", JStr "Чăвашла"); ("group", JStr "turkic")];
    JObj [
      ("code", JStr "crh");
      ("label", JStr "Kırım Tatarcası");
      ("native", JStr "Qırımtatarca");
      ("group", JStr "turkic")];
    JObj [("code", JStr "gag"); ("label", JStr "Gagavuzca"); ("native", JStr "Gagauz"); ("group", JStr "turkic")];
    JObj [("code", JStr "sah"); ("label", JStr "Yakutça"); ("native", JStr "Саха"); ("group", JStr "turkic")];
    JObj [("code", JStr "en"); ("label", JStr "English"); ("native", JStr "English"); ("group", JStr "other")];
    JObj [("code", JStr "ru"); ("label", JStr "Rusça"); ("native", JStr "Русский"); ("group", JStr "other")];
    JObj [("code", JStr "zh"); ("label", JStr "Çince"); ("native", JStr "中文"); ("group", JStr "other")];
    JObj [("code", JStr "ko"); ("label", JStr "Korece"); ("native", JStr "한국어"); ("group", JStr "other")];
    JObj [("code", JStr "ja"); ("label", JStr "Japonca"); ("native", JStr "日本語"); ("group", JStr "other")];
    JObj [
      ("code", JStr "nl");
      ("label", JStr "Felemenkçe");
      ("native", JStr "Nederlands");
      ("group", JStr "other")];
    JObj [("code", JStr "ar"); ("label", JStr "Arapça"); ("native", JStr "العربية"); ("group", JStr "other")];
    JObj [("code", JStr "es"); ("label", JStr "İspanyolca"); ("native", JStr "Español"); ("group", JStr "other")];
    JObj [("code", JStr "de"); ("label", JStr "Almanca"); ("native", JStr "Deutsch"); ("group", JStr "other")];
    JObj [("code", JStr "fr"); ("label", JStr "Fransızca"); ("native", JStr "Français"); ("group", JStr "other")];
    JObj [
      ("code", JStr "pt");
      ("label", JStr "Portekizce");
      ("native", JStr "Português");
      ("group", JStr "other")]].
Definition TR : json := JObj [
    ("nav_home", JStr "Ana sayfa");
    ("nav_about", JStr "Nedir");
    ("nav_pipeline", JStr "Pipeline");
    ("nav_rivals", JStr "Rakipler");
    ("nav_setup", JStr "Kurulum");
    ("nav_tests", JStr "Testler");
    ("nav_contact", JStr "İletişim");
    ("cta_setup", JStr "15 dk kurulum");
    ("hero_badge", JStr "//:LOG→BAN · SYSTEM ONLINE");
    ("hero_tagline", JStr "nginx access log → WAF/CRS → kernel ban · tek zincir · self-hosted");
    ("lang_label", JStr "Dil");
    ("turk_made", JStr "TÜRK YAPIMI")].
Definition EN : json := JObj [
    ("nav_home", JStr "Home");
    ("nav_about", JStr "About");
    ("nav_pipeline", JStr "Pipeline");
    ("nav_rivals", JStr "Compare");
    ("nav_setup", JStr "Setup");
    ("nav_tests", JStr "Tests");
    ("nav_contact", JStr "Contact");
    ("cta_setup", JStr "15 min setup");
    ("hero_badge", JStr "//:LOG→BAN · SYSTEM ONLINE");
    ("hero_tagline", JStr "nginx access log → WAF/CRS → kernel ban · single chain · self-hosted");
    ("lang_label", JStr "Language");
    ("turk_made", JStr "MADE IN TURKEY")].
Definition RU : json := spread EN [
    ("nav_home", JStr "Главная");
    ("nav_about", JStr "О проекте");
    ("nav_rivals", JStr "Сравнение");
    ("nav_setup", JStr "Установка");
    ("nav_tests", JStr "Тесты");
    ("nav_contact", JStr "Контакт");
    ("cta_setup", JStr "Установка 15 мин");
    ("lang_label", JStr "Язык");
    ("turk_made", JStr "СДЕЛАНО В ТУРЦИИ")].
Definition ZH : json := spread EN [
    ("nav_home", JStr "首页");
    ("nav_about", JStr "简介");
    ("nav_rivals", JStr "对比");
    ("nav_setup", JStr "安装");
    ("nav_tests", JStr "测试");
    ("nav_contact", JStr "联系");
    ("cta_setup", JStr "15分钟安装");
    ("lang_label", JStr "语言");
    ("turk_made", JStr "土耳其制造")].
Definition AR : json := spread EN [
    ("nav_home", JStr "الرئيسية");
    ("nav_about", JStr "ما هو");
    ("nav_rivals", JStr "المقارنة");
    ("nav_setup", JStr "التثبيت");
    ("nav_tests", JStr "الاختبارات");
    ("nav_contact", JStr "اتصل");
    ("cta_setup", JStr "تثبيت 15 دقيقة");
    ("lang_label", JStr "اللغة");
    ("turk_made", JStr "صنع في تركيا")].
Definition ES : json := spread EN [
    ("nav_home", JStr "Inicio");
    ("nav_about", JStr "Qué es");
    ("nav_rivals", JStr "Rivales");
    ("nav_setup", JStr "Instalación");
    ("nav_tests", JStr "Pruebas");
    ("nav_contact", JStr "Contacto");
    ("cta_setup", JStr "Instalación 15 min");
    ("lang_label", JStr "Idioma");
    ("turk_made", JStr "HECHO EN TURQUÍA")].
Definition DE : json := spread EN [
    ("nav_home", JStr "Start");
    ("nav_about", JStr "Über");
    ("nav_rivals", JStr "Vergleich");
    ("nav_setup", JStr "Installation");
    ("nav_tests", JStr "Tests");
    ("nav_contact", JStr "Kontakt");
    ("cta_setup", JStr "15 Min Setup");
    ("lang_label", JStr "Sprache");
    ("turk_made", JStr "AUS TÜRKEI")].
Definition FR : json := spread EN [
    ("nav_home", JStr "Accueil");
    ("nav_about", JStr "À propos");
    ("nav_rivals", JStr "Comparaison");
    ("nav_setup", JStr "Installation");
    ("nav_tests", JStr "Tests");
    ("nav_contact", JStr "Contact");
    ("cta_setup", JStr "Installation 15 min");
    ("lang_label", JStr "Langue");
    ("turk_made", JStr "FABRIQUÉ EN TURQUIE")].
Definition PT : json := spread EN [
    ("nav_home", JStr "Início");
    ("nav_about", JStr "Sobre");
    ("nav_rivals", JStr "Comparar");
    ("nav_setup", JStr "Instalação");
    ("nav_tests", JStr "Testes");
    ("nav_contact", JStr "Contato");
    ("cta_setup", JStr "Instalação 15 min");
    ("lang_label", JStr "Idioma");
    ("turk_made", JStr "FEITO NA TURQUIA")].
Definition NL : json := spread EN [
    ("nav_home", JStr "Home");
    ("nav_about", JStr "Over");
    ("nav_rivals", JStr "Vergelijk");
    ("nav_setup", JStr "Installatie");
    ("nav_tests", JStr "Tests");
    ("nav_contact", JStr "Contact");
    ("cta_setup", JStr "15 min installatie");
    ("lang_label", JStr "Taal");
    ("turk_made", JStr "GEMAAKT IN TURKIJE")].
Definition KO : json := spread EN [
    ("nav_home", JStr "홈");
    ("nav_about", JStr "소개");
    ("nav_rivals", JStr "비교");
    ("nav_setup", JStr "설치");
    ("nav_tests", JStr "테스트");
    ("nav_contact", JStr "연락");
    ("cta_setup", JStr "15분 설치");
    ("lang_label", JStr "언어");
    ("turk_made", JStr "터키 제조")].
Definition JA : json := spread EN [
    ("nav_home", JStr "ホーム");
    ("nav_about", JStr "概要");
    ("nav_rivals", JStr "比較");
    ("nav_setup", JStr "セットアップ");
    ("nav_tests", JStr "テスト");
    ("nav_contact", JStr "連絡");
    ("cta_setup", JStr "15分セットアップ");
    ("lang_label", JStr "言語");
    ("turk_made", JStr "トルコ製")].
Definition AZ : json := spread TR [
    ("nav_home", JStr "Ana səhifə");
    ("nav_about", JStr "Nədir");
    ("nav_rivals", JStr "Rəqiblərlə");
    ("nav_setup", JStr "Quraşdırma");
    ("nav_tests", JStr "Testlər");
    ("nav_contact", JStr "Əlaqə");
    ("cta_setup", JStr "15 dəq quraşdırma");
    ("lang_label", JStr "Dil");
    ("turk_made", JStr "TÜRK İSTEHSALI");
    ("hero_tagline", JStr "nginx access log → WAF/CRS → kernel ban · tək zəncir · self-hosted")].
Definition KK : json := spread TR [
    ("nav_home", JStr "Басты бет");
    ("nav_about", JStr "Не");
    ("nav_rivals", JStr "Салыстыру");
    ("nav_setup", JStr "Орнату");
    ("nav_tests", JStr "Тесттер");
    ("nav_contact", JStr "Байланыс");
    ("cta_setup", JStr "15 мин орнату");
    ("lang_label", JStr "Тіл");
    ("turk_made", JStr "ТҮРКИЯДА ЖАСАЛҒАН")].
Definition UZ : json := spread TR [
    ("nav_home", JStr "Bosh sahifa");
    ("nav_about", JStr "Nima");
    ("nav_rivals", JStr "Raqobatchilar");
    ("nav_setup", JStr "O'rnatish");
    ("nav_tests", JStr "Testlar");
    ("nav_contact", JStr "Aloqa");
    ("cta_setup", JStr "15 daq o'rnatish");
    ("lang_label", JStr "Til");
    ("turk_made", JStr "TURKIYADA ISHLAB CHIQARILGAN")].
Definition KY : json := spread TR [
    ("nav_home", JStr "Башкы бет");
    ("nav_about", JStr "Эмне");
    ("nav_rivals", JStr "Салыштыруу");
    ("nav_setup", JStr "Орнотуу");
    ("nav_tests", JStr "Тесттер");
    ("nav_contact", JStr "Байланыш");
    ("cta_setup", JStr "15 мүн орнотуу");
    ("lang_label", JStr "Тил");
    ("turk_made", JStr "ТҮРКИЯДА ЖАСАЛГАН")].
Definition TK : json := spread TR [
    ("nav_home", JStr "Baş sahypa");
    ("nav_about", JStr "Näme");
    ("nav_rivals", JStr "Bäsdeşler");
    ("nav_setup", JStr "Gurnama");
    ("nav_tests", JStr "Testler");
    ("nav_contact", JStr "Aragatnaşyk");
    ("cta_setup", JStr "15 min gurnama");
    ("lang_label", JStr "Dil");
    ("turk_made", JStr "TÜRKIÝADA ÖNDÜRILEN")].
Definition UG : json := spread TR [("lang_label", JStr "تىل"); ("turk_made", JStr "تۈركىيەدە ياسالغان")].
Definition TT : json := spread TR [("nav_home", JStr "Баш бит"); ("lang_label", JStr "Тел"); ("turk_made", JStr "ТӨРКИЯДӘ ЯСАЛГАН")].
Definition BA : json := spread TR [("nav_home", JStr "Баш бит"); ("lang_label", JStr "Тел"); ("turk_made", JStr "ТӨРКИЯЛА ЭШЛӘНГӘН")].
Definition CV : json := spread TR [("lang_label", JStr "Чĕлхе"); ("turk_made", JStr "ТУРЦИРӐ ХӐТЛӨНӖ")].
Definition CRH : json := spread TR [
    ("nav_home", JStr "Baş saife");
    ("lang_label", JStr "Til");
    ("turk_made", JStr "TÜRKİYEDE YASALĞAN")].
Definition GAG : json := spread TR [("nav_home", JStr "Baş sayfa"); ("lang_label", JStr "Liman"); ("turk_made", JStr "TÜRKIYADAN")].
Definition SAH : json := spread TR [("nav_home", JStr "Сүрүн"); ("lang_label", JStr "Тыл"); ("turk_made", JStr "ТУРКИЯТТАҒЫ")].
Definition MESSAGES : list (jstring * json) := [("tr", TR); ("en", EN); ("ru", RU); ("zh", ZH); ("ar", AR); ("es", ES); ("de", DE); ("fr", FR); ("pt", PT); ("nl", NL); ("ko", KO); ("ja", JA); ("az", AZ); ("kk", KK); ("uz", UZ); ("ky", KY); ("tk", TK); ("ug", UG); ("tt", TT); ("ba", BA); ("cv", CV); ("crh", CRH); ("gag", GAG); ("sah", SAH)].
Definition LABELS_TR : json := JObj [
    ("sectionEyebrow", JStr "//:Pipeline · Adım adım");
    ("sectionTitle", JStr "Her halka neden değerli?");
    ("sectionSub", JStr "Tek zincir özeti yukarıda — aşağıda her adımın ne yaptığı, avantajları ve rakiplerle farkı.");
    ("whatLabel", JStr "Nedir?");
    ("advantagesLabel", JStr "Avantajlar");
    ("compareLabel", JStr "Rakiplerle karşılaştırma");
    ("lgLabel", JStr "Log Guardian");
    ("rivalsLabel", JStr "Fail2ban · CrowdSec · ModSec")].
Definition LABELS_EN : json := JObj [
    ("sectionEyebrow", JStr "//:Pipeline · Step by step");
    ("sectionTitle", JStr "Why each link matters");
    ("sectionSub", JStr "The chain overview is above — below, what each step does, its advantages and how we compare to rivals.");
    ("whatLabel", JStr "What is it?");
    ("advantagesLabel", JStr "Advantages");
    ("compareLabel", JStr "Compared with rivals");
    ("lgLabel", JStr "Log Guardian");
    ("rivalsLabel", JStr "Fail2ban · CrowdSec · ModSec")].
Definition LABELS_DE : json := JObj [
    ("sectionEyebrow", JStr "//:Pipeline · Schritt für Schritt");
    ("sectionTitle", JStr "Warum jedes Glied zählt");
    ("sectionSub", JStr "Die Kettenübersicht steht oben — unten: was jeder Schritt leistet, Vorteile und der Vergleich mit Konkurrenten.");
    ("whatLabel", JStr "Was ist das?");
    ("advantagesLabel", JStr "Vorteile");
    ("compareLabel", JStr "Vergleich mit Konkurrenten");
    ("lgLabel", JStr "Log Guardian");
    ("rivalsLabel", JStr "Fail2ban · CrowdSec · ModSec")].
Definition LABELS_FR : json := JObj [
    ("sectionEyebrow", JStr "//:Pipeline · Étape par étape");
    ("sectionTitle", JStr "Pourquoi chaque maillon compte");
    ("sectionSub", JStr "La vue d'ensemble de la chaîne est ci-dessus — ci-dessous : rôle de chaque étape, avantages et comparaison aux rivaux.");
    ("whatLabel", JStr "Qu'est-ce que c'est ?");
    ("advantagesLabel", JStr "Avantages");
    ("compareLabel", JStr "Comparaison aux rivaux");
    ("lgLabel", JStr "Log Guardian");
    ("rivalsLabel", JStr "Fail2ban · CrowdSec · ModSec")].
Definition LABELS_ES : json := JObj [
    ("sectionEyebrow", JStr "//:Pipeline · Paso a paso");
    ("sectionTitle", JStr "Por qué importa cada eslabón");
    ("sectionSub", JStr "El resumen de la cadena está arriba — abajo: qué hace cada paso, ventajas y comparación con rivales.");
    ("whatLabel", JStr "¿Qué es?");
    ("advantagesLabel", JStr "Ventajas");
    ("compareLabel", JStr "Comparación con rivales");
    ("lgLabel", JStr "Log Guardian");
    ("rivalsLabel", JStr "Fail2ban · CrowdSec · ModSec")].
Definition LABELS_RU : json := JObj [
    ("sectionEyebrow", JStr "//:Pipeline · Шаг за шагом");
    ("sectionTitle", JStr "Почему важно каждое звено");
    ("sectionSub", JStr "Обзор цепочки выше — ниже: что делает каждый шаг, преимущества и сравнение с конкурентами.");
    ("whatLabel", JStr "Что это?");
    ("advantagesLabel", JStr "Преимущества");
    ("compareLabel", JStr "Сравнение с конкурентами");
    ("lgLabel", JStr "Log Guardian");
    ("rivalsLabel", JStr "Fail2ban · CrowdSec · ModSec")].
Definition LABELS_PT : json := JObj [
    ("sectionEyebrow", JStr "//:Pipeline · Passo a passo");
    ("sectionTitle", JStr "Por que cada elo importa");
    ("sectionSub", JStr "O resumo da cadeia está acima — abaixo: o que cada passo faz, vantagens e comparação com rivais.");
    ("whatLabel", JStr "O que é?");
    ("advantagesLabel", JStr "Vantagens");
    ("compareLabel", JStr "Comparação com rivais");
    ("lgLabel", JStr "Log Guardian");
    ("rivalsLabel", JStr "Fail2ban · CrowdSec · ModSec")].
Definition LABELS_NL : json := JObj [
    ("sectionEyebrow", JStr "//:Pipeline · Stap voor stap");
    ("sectionTitle", JStr "Waarom elke schakel telt");
    ("sectionSub", JStr "Het ketenoverzicht staat hierboven — hieronder: wat elke stap doet, voordelen en vergelijking met rivalen.");
    ("whatLabel", JStr "Wat is het?");
    ("advantagesLabel", JStr "Voordelen");
    ("compareLabel", JStr "Vergelijking met rivalen");
    ("lgLabel", JStr "Log Guardian");
    ("rivalsLabel", JStr "Fail2ban · CrowdSec · ModSec")].
Definition LABELS_ZH : json := JObj [
    ("sectionEyebrow", JStr "//:Pipeline · 逐步说明");
    ("sectionTitle", JStr "每一环为何重要");
    ("sectionSub", JStr "上方是链路概览 — 下方说明各步骤作用、优势及与竞品对比。");
    ("whatLabel", JStr "是什么？");
    ("advantagesLabel", JStr "优势");
    ("compareLabel", JStr "与竞品对比");
    ("lgLabel", JStr "Log Guardian");
    ("rivalsLabel", JStr "Fail2ban · CrowdSec · ModSec")].
Definition LABELS_JA : json := JObj [
    ("sectionEyebrow", JStr "//:Pipeline · ステップごと");
    ("sectionTitle", JStr "各リンクが重要な理由");
    ("sectionSub", JStr "チェーン概要は上 — 下で各ステップの役割・利点・競合比較を説明します。");
    ("whatLabel", JStr "概要");
    ("advantagesLabel", JStr "利点");
    ("compareLabel", JStr "競合との比較");
    ("lgLabel", JStr "Log Guardian");
    ("rivalsLabel", JStr "Fail2ban · CrowdSec · ModSec")].
Definition LABELS_KO : json := JObj [
    ("sectionEyebrow", JStr "//:Pipeline · 단계별");
    ("sectionTitle", JStr "각 고리가 중요한 이유");
    ("sectionSub", JStr "체인 개요는 위 — 아래에서 각 단계 역할, 장점, 경쟁사 비교를 설명합니다.");
    ("whatLabel", JStr "무엇인가?");
    ("advantagesLabel", JStr "장점");
    ("compareLabel", JStr "경쟁사 비교");
    ("lgLabel", JStr "Log Guardian");
    ("rivalsLabel", JStr "Fail2ban · CrowdSec · ModSec")].
Definition LABELS_AR : json := JObj [
    ("sectionEyebrow", JStr "//:Pipeline · خطوة بخطوة");
    ("sectionTitle", JStr "لماذا يهم كل حلقة");
    ("sectionSub", JStr "نظرة عامة على السلسلة في الأعلى — أدناه: دور كل خطوة ومزاياها ومقارنتها بالمنافسين.");
    ("whatLabel", JStr "ما هذا؟");
    ("advantagesLabel", JStr "المزايا");
    ("compareLabel", JStr "مقارنة بالمنافسين");
    ("lgLabel", JStr "Log Guardian");
    ("rivalsLabel", JStr "Fail2ban · CrowdSec · ModSec")].
Definition LABELS_AZ : json := JObj [
    ("sectionEyebrow", JStr "//:Pipeline · Addım-addım");
    ("sectionTitle", JStr "Hər halqa niyə dəyərlidir?");
    ("sectionSub", JStr "Zəncir xülasəsi yuxarıdadır — aşağıda hər addımın nə etdiyi, üstünlükləri və rəqiblərlə fərqi.");
    ("whatLabel", JStr "Nədir?");
    ("advantagesLabel", JStr "Üstünlüklər");
    ("compareLabel", JStr "Rəqiblərlə müqayisə");
    ("lgLabel", JStr "Log Guardian");
    ("rivalsLabel", JStr "Fail2ban · CrowdSec · ModSec")].
Definition LABELS_KK : json := JObj [
    ("sectionEyebrow", JStr "//:Pipeline · Қадамдық");
    ("sectionTitle", JStr "Әр halka неге маңызды?");
    ("sectionSub", JStr "Тізбек шолуы жоғарыда — төменде әр қадамның не істейтіні, артықшылықтары және бәсекелестермен салыстыру.");
    ("whatLabel", JStr "Не?");
    ("advantagesLabel", JStr "Артықшылықтар");
    ("compareLabel", JStr "Бәсекелестермен салыстыру");
    ("lgLabel", JStr "Log Guardian");
    ("rivalsLabel", JStr "Fail2ban · CrowdSec · ModSec")].
Definition LABELS_UZ : json := JObj [
    ("sectionEyebrow", JStr "//:Pipeline · Qadam-baqadam");
    ("sectionTitle", JStr "Har halqa nima uchun muhim?");
    ("sectionSub", JStr "Zanjir xulosasi yuqorida — quyida har qadam nima qiladi, afzalliklari va raqiblar bilan farqi.");
    ("whatLabel", JStr "Nima?");
    ("advantagesLabel", JStr "Afzalliklar");
    ("compareLabel", JStr "Raqiblar bilan solishtirish");
    ("lgLabel", JStr "Log Guardian");
    ("rivalsLabel", JStr "Fail2ban · CrowdSec · ModSec")].
Definition LABELS_KY : json := JObj [
    ("sectionEyebrow", JStr "//:Pipeline · Кadam-baqadam");
    ("sectionTitle", JStr "Ар бир шакиркан эмне үчүн маанилүү?");
    ("sectionSub", JStr "Тизбек обзору жогоруда — төмөндө ар бир кadamдын ролу, артыкчылыктары жана атаандаштар менен салыштыруу.");
    ("whatLabel", JStr "Эмне?");
    ("advantagesLabel", JStr "Артыкчылыктар");
    ("compareLabel", JStr "Атаандаштар менен салыштыруу");
    ("lgLabel", JStr "Log Guardian");
    ("rivalsLabel", JStr "Fail2ban · CrowdSec · ModSec")].
Definition LABELS_TK : json := JObj [
    ("sectionEyebrow", JStr "//:Pipeline · Ädimme-ädim");
    ("sectionTitle", JStr "Her halka näme üçin gymmatly?");
    ("sectionSub", JStr "Zynjyr gysgaça ýokarda — aşakda her ädimiň näme etýändigi, artykmaçlyklary we bäsdeşler bilen tapawudy.");
    ("whatLabel", JStr "Näme?");
    ("advantagesLabel", JStr "Artykmaçlyklar");
    ("compareLabel", JStr "Bäsdeşler bilen deňeşdirme");
    ("lgLabel", JStr "Log Guardian");
    ("rivalsLabel", JStr "Fail2ban · CrowdSec · ModSec")].
Definition LABELS_CRH : json := JObj [
    ("sectionEyebrow", JStr "//:Pipeline · Adım-adım");
    ("sectionTitle", JStr "Er halqa ne içün qıymetli?");
    ("sectionSub", JStr "Zincir xulasası yuqarıda — aşağıda er adımın ne etkeni, avantajları ve rakipler ile farkı.");
    ("whatLabel", JStr "Ne?");
    ("advantagesLabel", JStr "Avantajlar");
    ("compareLabel", JStr "Rakipler ile qıyas");
    ("lgLabel", JStr "Log Guardian");
    ("rivalsLabel", JStr "Fail2ban · CrowdSec · ModSec")].
Definition LABELS_GAG : json := JObj [
    ("sectionEyebrow", JStr "//:Pipeline · Adım-adım");
    ("sectionTitle", JStr "Er halqa ne için değerli?");
    ("sectionSub", JStr "Zincir özeti yukarıda — aşağıda er adımın ne yaptığı, avantajları ve rakiplerle farkı.");
    ("whatLabel", JStr "Ne?");
    ("advantagesLabel", JStr "Avantajlar");
    ("compareLabel", JStr "Rakiplerle kıyas");
    ("lgLabel", JStr "Log Guardian");
    ("rivalsLabel", JStr "Fail2ban · CrowdSec · ModSec")].
Definition LABELS_TT : json := JObj [
    ("sectionEyebrow", JStr "//:Pipeline · Адым-адым");
    ("sectionTitle", JStr "Һәр halqa нигә мöhim?");
    ("sectionSub", JStr "Тизлек обзоры өскә — астында hər adımның närse itkäne, östünläkläre häm rəqiblar belän sağıştırma.");
    ("whatLabel", JStr "Närse?");
    ("advantagesLabel", JStr "Östünläklär");
    ("compareLabel", JStr "Rəqiblar belän sağıştırma");
    ("lgLabel", JStr "Log Guardian");
    ("rivalsLabel", JStr "Fail2ban · CrowdSec · ModSec")].
Definition LABELS_BA : json := JObj [
    ("sectionEyebrow", JStr "//:Pipeline · Адым-адым");
    ("sectionTitle", JStr "Här halqa niñä qimmetle?");
    ("sectionSub", JStr "Zincir obzory öskä — tübändä här adım närse itä, östünläkläre häm rəqiblar belän sağıştırma.");
    ("whatLabel", JStr "Nimä?");
    ("advantagesLabel", JStr "Östünläklär");
    ("compareLabel", JStr "Rəqiblar belän sağıştırma");
    ("lgLabel", JStr "Log Guardian");
    ("rivalsLabel", JStr "Fail2ban · CrowdSec · ModSec")].
Definition LABELS_CV : json := JObj [
    ("sectionEyebrow", JStr "//:Pipeline · Хыпар-хыпар");
    ("sectionTitle", JStr "Mĕnle halka çyn pитlĕ?");
    ("sectionSub", JStr "Zincir obzoru çuh — tălĕ hăr adımă năm tăsă, avantajsem tata rakiplerpat çav kĕnĕ.");
    ("whatLabel", JStr "Mĕn?");
    ("advantagesLabel", JStr "Avantajsem");
    ("compareLabel", JStr "Rakiplerpat çav kĕnĕ");
    ("lgLabel", JStr "Log Guardian");
    ("rivalsLabel", JStr "Fail2ban · CrowdSec · ModSec")].
Definition LABELS_UG : json := JObj [
    ("sectionEyebrow", JStr "//:Pipeline · قadam-بە-qadam");
    ("sectionTitle", JStr "ھەر halka نېمە ئۈچün مuhim?");
    ("sectionSub", JStr "Zincir ئومۇmiy كörünüşى yukarıda — töwendä här qadam nima qilidu, avantajliri we raqiblar bilan farqi.");
    ("whatLabel", JStr "نېمە?");
    ("advantagesLabel", JStr "ئavantajlar");
    ("compareLabel", JStr "Raqiblar bilan solishturush");
    ("lgLabel", JStr "Log Guardian");
    ("rivalsLabel", JStr "Fail2ban · CrowdSec · ModSec")].
Definition LABELS_SAH : json := JObj [
    ("sectionEyebrow", JStr "//:Pipeline · Адым-адым");
    ("sectionTitle", JStr "Бары halka эмнэ foro?");
    ("sectionSub", JStr "Zincir obzor yukarıda — alaaska här adım nää tii, avantajda tata konkurenttar kıyas.");
    ("whatLabel", JStr "Туох?");
    ("advantagesLabel", JStr "Avantajda");
    ("compareLabel", JStr "Konkurenttar kıyas");
    ("lgLabel", JStr "Log Guardian");
    ("rivalsLabel", JStr "Fail2ban · CrowdSec · ModSec")].
Definition LABELS_BY_LOCALE : list (jstring * json) := [("tr", LABELS_TR); ("en", LABELS_EN); ("de", LABELS_DE); ("fr", LABELS_FR); ("es", LABELS_ES); ("ru", LABELS_RU); ("pt", LABELS_PT); ("nl", LABELS_NL); ("zh", LABELS_ZH); ("ja", LABELS_JA); ("ko", LABELS_KO); ("ar", LABELS_AR); ("az", LABELS_AZ); ("kk", LABELS_KK); ("uz", LABELS_UZ); ("ky", LABELS_KY); ("tk", LABELS_TK); ("crh", LABELS_CRH); ("gag", LABELS_GAG); ("tt", LABELS_TT); ("ba", LABELS_BA); ("cv", LABELS_CV); ("ug", LABELS_UG); ("sah", LABELS_SAH)].
Definition GATE : jstring := dec PROOF_TEST_COUNT ++ "/" ++ dec PROOF_TEST_COUNT.
Definition SECTORS_TR : json := JObj [
    ("eyebrow", JStr "//:Sektor");
    ("title", JStr "Kimler için?");
    ("note", JStr "E-ticaret veya WooCommerce mağazası değiliz — nginx önünde barındırma, API ve SOC operasyonu için kanıtlı koruma.");
    ("cards", JArr [
      JObj [
        ("tag", JStr "TR hosting");
        ("title", JStr "Paylaşımlı / VPS hosting");
        ("body", JStr "Çok kiracılı nginx, Türkçe path ve anonymized customer corpus (API/JWT/path traversal) ile recall kanıtı.");
        ("proof", JStr ("customer-corpus · tr-hosting · " ++ GATE ++ " gate"))];
      JObj [
        ("tag", JStr "API / B2B");
        ("title", JStr "OpenAPI & JWT arkası API");
        ("body", JStr "BOLA/şema ihlali, JWT abuse, OAuth redirect_uri/PKCE ve path traversal varyantları — log→WAF→ban.");
        ("proof", JStr "openapi-strict · ban-profile e2e")];
      JObj [
        ("tag", JStr "SOC");
        ("title", JStr "Telegram operatör & timeline");
        ("body", JStr "Ban/ack/lineage tek akış, webhook batch ve operatör undo — Fail2ban loglarından ayrı SOC görünürlüğü.");
        ("proof", JStr "telegram-soc · dashboard :8443")]])].
Definition SECTORS_EN : json := JObj [
    ("eyebrow", JStr "//:Sectors");
    ("title", JStr "Who is it for?");
    ("note", JStr "Not an e-commerce or WooCommerce shop — measured protection for hosting, API, and SOC operators behind nginx.");
    ("cards", JArr [
      JObj [
        ("tag", JStr "TR hosting");
        ("title", JStr "Shared / VPS hosting");
        ("body", JStr "Multi-tenant nginx with Turkish paths and anonymized customer corpus (API/JWT/path traversal) recall proof.");
        ("proof", JStr ("customer-corpus · tr-hosting · " ++ GATE ++ " gate"))];
      JObj [
        ("tag", JStr "API / B2B");
        ("title", JStr "OpenAPI & JWT-backed API");
        ("body", JStr "BOLA/schema abuse, JWT abuse, OAuth redirect_uri/PKCE and path traversal variants — log→WAF→ban.");
        ("proof", JStr "openapi-strict · ban-profile e2e")];
      JObj [
        ("tag", JStr "SOC");
        ("title", JStr "Telegram operator & timeline");
        ("body", JStr "Ban/ack/lineage in one stream, webhook batch and operator undo — SOC visibility beyond Fail2ban logs.");
        ("proof", JStr "telegram-soc · dashboard :8443")]])].
