(* ===== verification/LandingSteps.v ===== *)
(** The six steps of the pipeline in each language, from landing/lib/i18n/pipelineDeep. *)

From S2P Require Import Prelude JsString JsNum Json LandingContent.

Definition STEPS_TR : json := JArr [
    JObj [
      ("what", JStr "nginx'in zaten yazdığı access log dosyasını gerçek zamanlı okur. Ek reverse proxy, sidecar veya bulut agent'ı gerekmez — sunucudaki log satırı tek zincirin başlangıcıdır.");
      ("advantages", JArr [
        JStr "Mevcut nginx kurulumuna dokunmadan çalışır; yalnızca log formatı ayarı yeterli";
        JStr "log_guardian formatı ile URI, method, XFF ve body tek şemada hazır";
        JStr "Cloud'a log gönderimi yok — tam self-hosted, veri sunucunuzda kalır";
        JStr "Satır başına anlık işleme; kurulum ~15 dakika"]);
      ("lg", JStr "Tek binary nginx logunu okur; ayrı Fail2ban/CrowdSec agent kurulumu yok.");
      ("rivals", JStr "CrowdSec ayrı agent + merkezi API ister. Fail2ban log okur ama WAF katmanına geçmez — parçalı mimari.");
      ("proof", JStr "75 otomatik test · kurulum gate PASS")];
    JObj [
      ("what", JStr "Her log satırını URI, HTTP method, X-Forwarded-For, User-Agent ve isteğe bağlı body ile tek bir normalize şemaya dönüştürür. WAF, ban ve metrik katmanları aynı yapıyı paylaşır.");
      ("advantages", JArr [
        JStr "Tek şema — parser, WAF ve ban pipeline arasında format uyumsuzluğu yok";
        JStr "XFF ve proxy zinciri doğru IP çıkarımı için normalize edilir";
        JStr "Yüksek hacimde satır/saniye işleme; bench ile ölçülmüş throughput";
        JStr "Strict mod ile eksik alanlar kurulum gate'inde yakalanır"]);
      ("lg", JStr "Log → normalize → WAF aynı process içinde; ara format veya ETL yok.");
      ("rivals", JStr "ModSecurity nginx modülü inline çalışır ama log tabanlı ban için Fail2ban'a ayrı entegrasyon gerekir. CrowdSec farklı parser + sinyal ağı kullanır.");
      ("proof", JStr "280.373 EPS · 16,93× ModSec (bench-vs-modsec.json)")];
    JObj [
      ("what", JStr "OWASP CRS 121 kural, PCRE2 JIT derlemesi ve OpenAPI/schema + BOLA doğrulaması ile saldırı desenlerini değerlendirir. ModSecurity ile aynı corpus'ta %100 parity ölçülmüştür.");
      ("advantages", JArr [
        JStr "121 OWASP CRS kuralı — endüstri standardı WAF kapsamı";
        JStr "PCRE2 JIT ile yüksek throughput; 280.373 EPS ölçülmüş";
        JStr "Schema/BOLA katmanı API kötüye kullanımını yakalar";
        JStr "Gerçek saldırı recall %100 · false positive %0,2 (1500 satır corpus)"]);
      ("lg", JStr "WAF + CRS tek üründe; ayrı ModSecurity modülü kurulumu yok. Aynı 121 kuralda ModSec'ten 16,93× hızlı.");
      ("rivals", JStr "ModSecurity + CRS ayrı modül, nginx'e inline takılır — ilk istek anında bloklar ama log→ban zinciri yok. Fail2ban WAF değerlendirmesi yapmaz.");
      ("proof", JStr "CRS parity %100 · recall %100 · FP %0,2")];
    JObj [
      ("what", JStr "WAF eşleşmesinden sonra tenant politikası, ban eşiği, false-positive trust skoru ve operatör onayı tek karar hattında birleşir. Yanlış ban riski ölçülmüş kapılarla sınırlanır.");
      ("advantages", JArr [
        JStr "Policy + tenant + FP trust tek pipeline — ayrı Fail2ban jail yapılandırması yok";
        JStr "500 benign satırda %0,2 FP — ölçülmüş kapı";
        JStr "Multi-tenant etiketleme Prometheus ve dashboard'a taşınır";
        JStr "IPC auth fail-closed; yetkisiz ban komutu reddedilir"]);
      ("lg", JStr "Log satırından ban kararı ~20 ms medyan; policy, tenant ve FP trust aynı kod yolunda.");
      ("rivals", JStr "Fail2ban yalnızca regex/jail ban atar; FP trust ve tenant ayrı sistemlerde. CrowdSec merkezi karar + dağıtık agent ister.");
      ("proof", JStr "~20 ms medyan ban · 21 ölçüm (bench-ban-latency.json)")];
    JObj [
      ("what", JStr "Karar anında ipset ve isteğe bağlı XDP/eBPF ile kernel seviyesinde ban uygular. Kullanıcı alanından kernel'e geçiş ölçülmüş ~20 ms medyan gecikmeyle tamamlanır.");
      ("advantages", JArr [
        JStr "Kernel seviyesi ban — iptables/nftables + ipset; rootkit bypass zorlaşır";
        JStr "XDP ile paket düşürme opsiyonel; laptop/VM'de --no-xdp + ipset yeterli";
        JStr "Medyan ~20 ms log satırından ban'a (21 ölçüm)";
        JStr "Dağıtık saldırı: JA3 cluster + IP başına ban — 80 IP testte %100"]);
      ("lg", JStr "Log → kernel ban tek zincir, ~20 ms. Fail2ban/CrowdSec saniye–dakika aralığında kalır.");
      ("rivals", JStr "Fail2ban ban gecikmesi saniyeler–dakikalar. CrowdSec sinyal ağına bağımlı; kernel ban ayrı entegrasyon. ModSecurity inline bloklar ama kalıcı ipset ban pipeline'ı yok.");
      ("proof", JStr "72h soak · 864 örnek · 0 hata")];
    JObj [
      ("what", JStr "Her adım tenant etiketli Prometheus metriklerine, Grafana panolarına ve :8443 SOC dashboard timeline'ına yazar. Operatör Telegram alert + tek tık onay akışını aynı panelden yönetir.");
      ("advantages", JArr [
        JStr "tenant_id etiketli loganalyzer_* metrikleri — çok kiracılı gözlemlenebilirlik";
        JStr "SOC timeline, attack map ve /tests kanıt matrisi aynı dashboard'da";
        JStr "Self-hosted :8443 — veri üçüncü taraf buluta gitmez";
        JStr "14 dosyalık PDF/JSON kanıt paketi otomatik senkron"]);
      ("lg", JStr "Metrik + dashboard + kanıt tek üründe; CrowdSec SaaS konsolu veya parçalı Grafana kurulumu gerekmez.");
      ("rivals", JStr "Fail2ban metrik/export sınırlı. CrowdSec managed SaaS konsolu veya self-hosted parça kurulum. ModSecurity log üretir ama SOC timeline ve otomatik kanıt paketi sunmaz.");
      ("proof", JStr "80 test · competitive-proof.json · dashboard /tests")]].
Definition STEPS_EN : json := JArr [
    JObj [
      ("what", JStr "Reads the nginx access log file you already write, in real time. No extra reverse proxy, sidecar or cloud agent — the log line on your server is the start of a single chain.");
      ("advantages", JArr [
        JStr "Works without replacing nginx; only a log format tweak is needed";
        JStr "log_guardian format exposes URI, method, XFF and body in one schema";
        JStr "No shipping logs to the cloud — fully self-hosted, data stays on your server";
        JStr "Per-line instant processing; setup in ~15 minutes"]);
      ("lg", JStr "One binary reads nginx logs — no separate Fail2ban/CrowdSec agent install.");
      ("rivals", JStr "CrowdSec needs a separate agent plus central API. Fail2ban reads logs but never reaches a WAF layer — piecemeal architecture.");
      ("proof", JStr "75 automated tests · install gate PASS")];
    JObj [
      ("what", JStr "Turns each log line into one normalized schema: URI, HTTP method, X-Forwarded-For, User-Agent and optional body. WAF, ban and metrics layers all share the same structure.");
      ("advantages", JArr [
        JStr "One schema — no format mismatch between parser, WAF and ban pipeline";
        JStr "XFF and proxy chains normalized for correct client IP extraction";
        JStr "High lines/sec throughput — measured in benchmarks";
        JStr "Strict mode catches missing fields at install gates"]);
      ("lg", JStr "Log → normalize → WAF in one process; no intermediate format or ETL.");
      ("rivals", JStr "ModSecurity runs inline in nginx but log-based banning needs separate Fail2ban integration. CrowdSec uses a different parser plus signal network.");
      ("proof", JStr "280,373 EPS · 16.93× ModSec (bench-vs-modsec.json)")];
    JObj [
      ("what", JStr "Evaluates attack patterns with 121 OWASP CRS rules, PCRE2 JIT compilation and OpenAPI/schema + BOLA validation. Measured 100% parity with ModSecurity on the same corpus.");
      ("advantages", JArr [
        JStr "121 OWASP CRS rules — industry-standard WAF coverage";
        JStr "PCRE2 JIT for high throughput; 280,373 EPS measured";
        JStr "Schema/BOLA layer catches API abuse";
        JStr "100% real-attack recall · 0.2% false positive (1500-line corpus)"]);
      ("lg", JStr "WAF + CRS in one product — no separate ModSecurity module. 16.93× faster than ModSec on the same 121 rules.");
      ("rivals", JStr "ModSecurity + CRS is a separate module bolted onto nginx — blocks the first request inline but has no log→ban chain. Fail2ban does not run WAF evaluation.");
      ("proof", JStr "CRS parity 100% · recall 100% · FP 0.2%")];
    JObj [
      ("what", JStr "After a WAF match, tenant policy, ban threshold, false-positive trust score and operator ack merge in one decision path. Wrong-ban risk is bounded by measured gates.");
      ("advantages", JArr [
        JStr "Policy + tenant + FP trust in one pipeline — no separate Fail2ban jail tuning";
        JStr "0.2% FP on 500 benign lines — measured gate";
        JStr "Multi-tenant labels flow to Prometheus and dashboard";
        JStr "IPC auth is fail-closed; unauthorized ban commands are rejected"]);
      ("lg", JStr "~20 ms median from log line to ban decision; policy, tenant and FP trust share one code path.");
      ("rivals", JStr "Fail2ban only fires regex/jail bans; FP trust and tenant live in other systems. CrowdSec needs central decision plus distributed agents.");
      ("proof", JStr "~20 ms median ban · 21 samples (bench-ban-latency.json)")];
    JObj [
      ("what", JStr "Applies the ban at kernel level via ipset and optional XDP/eBPF the moment the decision is made. The userspace→kernel hop completes in a measured ~20 ms median.");
      ("advantages", JArr [
        JStr "Kernel-level ban — iptables/nftables + ipset; harder to bypass from userspace";
        JStr "Optional XDP packet drop; on laptop/VM --no-xdp + ipset is enough";
        JStr "~20 ms median from log line to ban (21 samples)";
        JStr "Distributed attacks: JA3 cluster + per-IP ban — 100% on 80-IP live test"]);
      ("lg", JStr "Log → kernel ban in one chain, ~20 ms. Fail2ban/CrowdSec stay in seconds–minutes.");
      ("rivals", JStr "Fail2ban ban latency is seconds to minutes. CrowdSec depends on its signal network; kernel ban is another integration. ModSecurity blocks inline but has no persistent ipset ban pipeline.");
      ("proof", JStr "72h soak · 864 samples · 0 errors")];
    JObj [
      ("what", JStr "Every step writes tenant-tagged Prometheus metrics, Grafana dashboards and the :8443 SOC dashboard timeline. Operators manage Telegram alerts and one-click ack from the same panel.");
      ("advantages", JArr [
        JStr "tenant_id-tagged loganalyzer_* metrics — multi-tenant observability";
        JStr "SOC timeline, attack map and /tests proof matrix in one dashboard";
        JStr "Self-hosted :8443 — no data sent to third-party cloud";
        JStr "14-file PDF/JSON evidence pack syncs automatically"]);
      ("lg", JStr "Metrics + dashboard + proof in one product — no CrowdSec SaaS console or piecemeal Grafana stack.");
      ("rivals", JStr "Fail2ban has limited metrics/export. CrowdSec wants managed SaaS or self-hosted piecemeal setup. ModSecurity emits logs but no SOC timeline or automatic proof pack.");
      ("proof", JStr "80 tests · competitive-proof.json · dashboard /tests")]].
Definition STEPS_PT : json := JArr [
    JObj [
      ("what", JStr "Lê o access log do nginx que você já grava, em tempo real. Sem reverse proxy, sidecar ou agente na nuvem — a linha de log no seu servidor é o início de uma única cadeia.");
      ("advantages", JArr [
        JStr "Funciona sem substituir o nginx; basta ajustar o formato do log";
        JStr "O formato log_guardian expõe URI, method, XFF e body num único schema";
        JStr "Sem enviar logs para a nuvem — totalmente self-hosted";
        JStr "Processamento instantâneo por linha; instalação em ~15 minutos"]);
      ("lg", JStr "Um único binário lê logs nginx — sem agente Fail2ban/CrowdSec separado.");
      ("rivals", JStr "CrowdSec exige agente separado e API central. Fail2ban lê logs mas não chega à camada WAF — arquitetura fragmentada.");
      ("proof", JStr "80 testes automáticos · gate de instalação PASS")];
    JObj [
      ("what", JStr "Converte cada linha num schema normalizado: URI, método HTTP, X-Forwarded-For, User-Agent e body opcional. WAF, ban e métricas partilham a mesma estrutura.");
      ("advantages", JArr [
        JStr "Um schema — sem incompatibilidade entre parser, WAF e pipeline de ban";
        JStr "XFF e cadeias proxy normalizados para IP cliente correto";
        JStr "Alto throughput em linhas/segundo — medido em benchmarks";
        JStr "Modo strict deteta campos em falta nos gates de instalação"]);
      ("lg", JStr "Log → normalizar → WAF num único processo; sem formato intermédio nem ETL.");
      ("rivals", JStr "ModSecurity corre inline no nginx mas ban por logs exige Fail2ban à parte. CrowdSec usa outro parser e rede de sinais.");
      ("proof", JStr "280.373 EPS · 16,93× ModSec (bench-vs-modsec.json)")];
    JObj [
      ("what", JStr "Avalia padrões de ataque com 121 regras OWASP CRS, compilação PCRE2 JIT e validação OpenAPI/schema + BOLA. Paridade medida de 100% com ModSecurity no mesmo corpus.");
      ("advantages", JArr [
        JStr "121 regras OWASP CRS — cobertura WAF padrão da indústria";
        JStr "PCRE2 JIT para alto throughput; 280.373 EPS medidos";
        JStr "Camada schema/BOLA deteta abuso de API";
        JStr "100% recall de ataques reais · 0,2% falsos positivos (corpus 1500 linhas)"]);
      ("lg", JStr "WAF + CRS num único produto — sem módulo ModSecurity separado. 16,93× mais rápido que ModSec nas mesmas 121 regras.");
      ("rivals", JStr "ModSecurity + CRS é módulo aparte no nginx — bloqueia o primeiro pedido inline mas sem cadeia log→ban. Fail2ban não faz avaliação WAF.");
      ("proof", JStr "Paridade CRS 100% · recall 100% · FP 0,2%")];
    JObj [
      ("what", JStr "Após match WAF, política tenant, limiar de ban, score FP trust e confirmação do operador unem-se num único caminho de decisão. Risco de ban errado limitado por gates medidos.");
      ("advantages", JArr [
        JStr "Policy + tenant + FP trust num pipeline — sem jails Fail2ban separados";
        JStr "0,2% FP em 500 linhas benignas — gate medido";
        JStr "Etiquetas multi-tenant fluem para Prometheus e dashboard";
        JStr "Auth IPC fail-closed; comandos de ban não autorizados rejeitados"]);
      ("lg", JStr "~20 ms mediano da linha de log à decisão de ban; policy, tenant e FP trust no mesmo code path.");
      ("rivals", JStr "Fail2ban só dispara bans regex/jail; FP trust e tenant vivem noutros sistemas. CrowdSec exige decisão central e agentes distribuídos.");
      ("proof", JStr "~20 ms ban mediano · 21 amostras (bench-ban-latency.json)")];
    JObj [
      ("what", JStr "Aplica o ban ao nível kernel via ipset e XDP/eBPF opcional no momento da decisão. Salto userspace→kernel em ~20 ms mediano medido.");
      ("advantages", JArr [
        JStr "Ban ao nível kernel — iptables/nftables + ipset; mais difícil contornar do userspace";
        JStr "Drop XDP opcional; em laptop/VM basta --no-xdp + ipset";
        JStr "~20 ms mediano da linha de log ao ban (21 amostras)";
        JStr "Ataques distribuídos: cluster JA3 + ban por IP — 100% em teste live 80 IP"]);
      ("lg", JStr "Log → ban kernel numa cadeia, ~20 ms. Fail2ban/CrowdSec ficam em segundos–minutos.");
      ("rivals", JStr "Latência de ban Fail2ban: segundos a minutos. CrowdSec depende da rede de sinais; ban kernel é outra integração. ModSecurity bloqueia inline sem pipeline ipset persistente.");
      ("proof", JStr "Soak 72h · 864 amostras · 0 erros")];
    JObj [
      ("what", JStr "Cada passo escreve métricas Prometheus com tenant, dashboards Grafana e timeline SOC :8443. Operadores gerem alertas Telegram e ack num clique no mesmo painel.");
      ("advantages", JArr [
        JStr "Métricas loganalyzer_* com tenant_id — observabilidade multi-tenant";
        JStr "Timeline SOC, attack map e matriz /tests num dashboard";
        JStr "Self-hosted :8443 — sem dados para cloud de terceiros";
        JStr "Pack de prova PDF/JSON 14 ficheiros sincronizado automaticamente"]);
      ("lg", JStr "Métricas + dashboard + prova num produto — sem consola SaaS CrowdSec nem stack Grafana fragmentada.");
      ("rivals", JStr "Fail2ban: métricas/export limitados. CrowdSec quer SaaS gerido ou setup self-hosted fragmentado. ModSecurity emite logs sem timeline SOC nem pack de prova automático.");
      ("proof", JStr "80 testes · competitive-proof.json · dashboard /tests")]].
Definition STEPS_NL : json := JArr [
    JObj [
      ("what", JStr "Leest het nginx-accesslogbestand dat u al schrijft, in realtime. Geen extra reverse proxy, sidecar of cloud-agent — de logregel op uw server is het begin van één keten.");
      ("advantages", JArr [
        JStr "Werkt zonder nginx te vervangen; alleen een logformaat-aanpassing nodig";
        JStr "log_guardian-formaat levert URI, method, XFF en body in één schema";
        JStr "Geen logs naar de cloud — volledig self-hosted";
        JStr "Directe verwerking per regel; setup in ~15 minuten"]);
      ("lg", JStr "Eén binary leest nginx-logs — geen aparte Fail2ban/CrowdSec-agent.");
      ("rivals", JStr "CrowdSec vereist aparte agent plus centrale API. Fail2ban leest logs maar bereikt nooit een WAF-laag — versnipperde architectuur.");
      ("proof", JStr "75 geautomatiseerde tests · install-gate PASS")];
    JObj [
      ("what", JStr "Zet elke logregel om in één genormaliseerd schema: URI, HTTP-methode, X-Forwarded-For, User-Agent en optionele body. WAF-, ban- en metrieklagen delen dezelfde structuur.");
      ("advantages", JArr [
        JStr "Eén schema — geen formatconflict tussen parser, WAF en ban-pipeline";
        JStr "XFF en proxyketens genormaliseerd voor correct client-IP";
        JStr "Hoge regels/sec-throughput — gemeten in benchmarks";
        JStr "Strict-modus vangt ontbrekende velden bij install-gates"]);
      ("lg", JStr "Log → normaliseren → WAF in één proces; geen tussenformaat of ETL.");
      ("rivals", JStr "ModSecurity draait inline in nginx maar loggebaseerd bannen vereist aparte Fail2ban. CrowdSec gebruikt andere parser plus signaalnetwerk.");
      ("proof", JStr "280.373 EPS · 16,93× ModSec (bench-vs-modsec.json)")];
    JObj [
      ("what", JStr "Evalueert aanvalspatronen met 121 OWASP CRS-regels, PCRE2-JIT-compilatie en OpenAPI/schema + BOLA-validatie. Gemeten 100% pariteit met ModSecurity op dezelfde corpus.");
      ("advantages", JArr [
        JStr "121 OWASP CRS-regels — industriestandaard WAF-dekking";
        JStr "PCRE2 JIT voor hoge throughput; 280.373 EPS gemeten";
        JStr "Schema/BOLA-laag detecteert API-misbruik";
        JStr "100% recall echte aanvallen · 0,2% false positives (1500-regels corpus)"]);
      ("lg", JStr "WAF + CRS in één product — geen apart ModSecurity-module. 16,93× sneller dan ModSec op dezelfde 121 regels.");
      ("rivals", JStr "ModSecurity + CRS is apart module op nginx — blokkeert eerste verzoek inline maar geen log→ban-keten. Fail2ban doet geen WAF-evaluatie.");
      ("proof", JStr "CRS-pariteit 100% · recall 100% · FP 0,2%")];
    JObj [
      ("what", JStr "Na WAF-match vloeien tenant-beleid, ban-drempel, FP-trustscore en operator-ack samen in één beslispad. Foutban-risico begrensd door gemeten gates.");
      ("advantages", JArr [
        JStr "Policy + tenant + FP trust in één pipeline — geen aparte Fail2ban-jails";
        JStr "0,2% FP op 500 benigne regels — gemeten gate";
        JStr "Multi-tenant-labels naar Prometheus en dashboard";
        JStr "IPC-auth fail-closed; ongeautoriseerde ban-commando's geweigerd"]);
      ("lg", JStr "~20 ms mediaan van logregel tot ban-beslissing; policy, tenant en FP trust in één code path.");
      ("rivals", JStr "Fail2ban vuurt alleen regex/jail-bans af; FP trust en tenant zitten elders. CrowdSec vereist centrale beslissing plus gedistribueerde agents.");
      ("proof", JStr "~20 ms mediaan-ban · 21 monsters (bench-ban-latency.json)")];
    JObj [
      ("what", JStr "Past ban op kernelniveau toe via ipset en optionele XDP/eBPF op het moment van beslissing. Userspace→kernel-sprong in gemeten ~20 ms mediaan.");
      ("advantages", JArr [
        JStr "Ban op kernelniveau — iptables/nftables + ipset; moeilijker te omzeilen vanuit userspace";
        JStr "Optionele XDP packet drop; op laptop/VM volstaat --no-xdp + ipset";
        JStr "~20 ms mediaan van logregel tot ban (21 monsters)";
        JStr "Gedistribueerde aanvallen: JA3-cluster + ban per IP — 100% op 80-IP-livetest"]);
      ("lg", JStr "Log → kernel-ban in één keten, ~20 ms. Fail2ban/CrowdSec blijven op seconden–minuten.");
      ("rivals", JStr "Fail2ban-banlatentie: seconden tot minuten. CrowdSec hangt af van signaalnetwerk; kernel-ban is extra integratie. ModSecurity inline zonder persistent ipset-pipeline.");
      ("proof", JStr "72u soak · 864 monsters · 0 fouten")];
    JObj [
      ("what", JStr "Elke stap schrijft tenant-gelabelde Prometheus-metrieken, Grafana-dashboards en :8443 SOC-timeline. Operatoren beheren Telegram-alerts en one-click ack vanuit hetzelfde panel.");
      ("advantages", JArr [
        JStr "tenant_id-gelabelde loganalyzer_*-metrieken — multi-tenant observability";
        JStr "SOC-timeline, attack map en /tests-bewijsmatrix in één dashboard";
        JStr "Self-hosted :8443 — geen data naar cloud van derden";
        JStr "14-bestanden PDF/JSON-bewijspakket synchroniseert automatisch"]);
      ("lg", JStr "Metrieken + dashboard + bewijs in één product — geen CrowdSec SaaS-console of versnipperde Grafana-stack.");
      ("rivals", JStr "Fail2ban: beperkte metrieken/export. CrowdSec wil managed SaaS of versnipperde self-hosted setup. ModSecurity levert logs zonder SOC-timeline of automatisch bewijspakket.");
      ("proof", JStr "80 tests · competitive-proof.json · dashboard /tests")]].
Definition STEPS_UZ : json := JArr [
    JObj [
      ("what", JStr "Allaqachon yozayotgan nginx access log faylini real vaqtda o'qiydi. Qo'shimcha reverse proxy, sidecar yoki bulut agent kerak emas — serverdagi log qatori yagona zanjirning boshi.");
      ("advantages", JArr [
        JStr "Mavjud nginx o'rnatmasiga tegmasdan ishlaydi; faqat log formati yetarli";
        JStr "log_guardian formati URI, method, XFF va body-ni bitta sxemada beradi";
        JStr "Loglarni bulutga yubormaydi — to'liq self-hosted";
        JStr "Qator bo'yicha darhol qayta ishlash; o'rnatish ~15 daqiqa"]);
      ("lg", JStr "Bitta binary nginx logini o'qiydi — alohida Fail2ban/CrowdSec agent yo'q.");
      ("rivals", JStr "CrowdSec alohida agent + markaziy API talab qiladi. Fail2ban log o'qiydi lekin WAF qatlamiga yetmaydi — bo'lak arxitektura.");
      ("proof", JStr "75 avtomatik test · o'rnatish gate PASS")];
    JObj [
      ("what", JStr "Har bir log qatorini URI, HTTP method, X-Forwarded-For, User-Agent va ixtiyoriy body bilan bitta normalizatsiya qilingan sxemaga aylantiradi. WAF, ban va metrika qatlamlari bir strukturani baham ko'radi.");
      ("advantages", JArr [
        JStr "Bitta sxema — parser, WAF va ban pipeline o'rtasida format nomuvofiqligi yo'q";
        JStr "XFF va proxy zanjiri to'g'ri IP uchun normalizatsiya qilinadi";
        JStr "Yuqori qator/sekund throughput — bench bilan o'lchangan";
        JStr "Strict rejim o'rnatish gate-da yetishmayotgan maydonlarni ushlaydi"]);
      ("lg", JStr "Log → normalizatsiya → WAF bitta jarayonda; oraliq format yoki ETL yo'q.");
      ("rivals", JStr "ModSecurity nginx-da inline ishlaydi lekin log asosidagi ban uchun alohida Fail2ban kerak. CrowdSec boshqa parser + signal tarmog'i.");
      ("proof", JStr "280.373 EPS · 16,93× ModSec (bench-vs-modsec.json)")];
    JObj [
      ("what", JStr "121 OWASP CRS qoidasi, PCRE2 JIT va OpenAPI/schema + BOLA bilan hujum namunalarini baholaydi. Bir xil corpusta ModSecurity bilan 100% paritet o'lchangan.");
      ("advantages", JArr [
        JStr "121 OWASP CRS qoidasi — sanoat standarti WAF qamrovi";
        JStr "PCRE2 JIT yuqori throughput; 280.373 EPS o'lchangan";
        JStr "Schema/BOLA qatlami API suiiste'mol qilinishini ushlaydi";
        JStr "Haqiqiy hujum recall 100% · FP 0,2% (1500 qator corpus)"]);
      ("lg", JStr "WAF + CRS bitta mahsulotda; alohida ModSecurity moduli yo'q. Bir xil 121 qoidada ModSec-dan 16,93× tezroq.");
      ("rivals", JStr "ModSecurity + CRS alohida modul — birinchi so'rovni inline bloklaydi lekin log→ban zanjiri yo'q. Fail2ban WAF baholash qilmaydi.");
      ("proof", JStr "CRS paritet 100% · recall 100% · FP 0,2%")];
    JObj [
      ("what", JStr "WAF mos kelishidan keyin tenant siyosati, ban chegarasi, FP trust balli va operator tasdiqi bitta qaror yo'lida birlashtiriladi. Noto'g'ri ban xavfi o'lchangan gate-lar bilan cheklangan.");
      ("advantages", JArr [
        JStr "Policy + tenant + FP trust bitta pipeline-da — alohida Fail2ban jail yo'q";
        JStr "500 benign qatorda 0,2% FP — o'lchangan gate";
        JStr "Multi-tenant yorliqlari Prometheus va dashboard-ga oqadi";
        JStr "IPC auth fail-closed; ruxsatsiz ban buyruqlari rad etiladi"]);
      ("lg", JStr "Log qatoridan ban qaroriga ~20 ms median; policy, tenant va FP trust bir code path-da.");
      ("rivals", JStr "Fail2ban faqat regex/jail ban beradi; FP trust va tenant boshqa tizimlarda. CrowdSec markaziy qaror + tarqatilgan agent talab qiladi.");
      ("proof", JStr "~20 ms median ban · 21 o'lchov (bench-ban-latency.json)")];
    JObj [
      ("what", JStr "Qaror paytida ipset va ixtiyoriy XDP/eBPF orqali kernel darajasida ban qo'llaydi. Userspace→kernel o'tishi o'lchangan ~20 ms median.");
      ("advantages", JArr [
        JStr "Kernel darajasida ban — iptables/nftables + ipset";
        JStr "XDP paket drop ixtiyoriy; laptop/VM-da --no-xdp + ipset yetarli";
        JStr "Log qatoridan banga ~20 ms median (21 o'lchov)";
        JStr "Tarqatilgan hujum: JA3 klaster + IP bo'yicha ban — 80 IP testda 100%"]);
      ("lg", JStr "Log → kernel ban bitta zanjirda ~20 ms. Fail2ban/CrowdSec soniya–daqiqa darajasida qoladi.");
      ("rivals", JStr "Fail2ban ban kechikishi soniyalar–daqiqalar. CrowdSec signal tarmog'iga bog'liq; kernel ban alohida integratsiya. ModSecurity inline bloklaydi lekin doimiy ipset pipeline yo'q.");
      ("proof", JStr "72s soak · 864 namuna · 0 xato")];
    JObj [
      ("what", JStr "Har bir qadam tenant yorliqli Prometheus metrikalari, Grafana panellari va :8443 SOC timeline-ga yozadi. Operator Telegram alert va bir bosish ack-ni bir paneldan boshqaradi.");
      ("advantages", JArr [
        JStr "tenant_id yorliqli loganalyzer_* metrikalari";
        JStr "SOC timeline, attack map va /tests isbot matritsasi bir dashboard-da";
        JStr "Self-hosted :8443 — ma'lumot uchinchi tomon bulutiga ketmaydi";
        JStr "14 faylli PDF/JSON isbot paketi avtomatik sinxron"]);
      ("lg", JStr "Metrika + dashboard + isbot bitta mahsulotda; CrowdSec SaaS konsoli yoki bo'lak Grafana kerak emas.");
      ("rivals", JStr "Fail2ban metrika/export cheklangan. CrowdSec managed SaaS yoki bo'lak self-hosted. ModSecurity log beradi lekin SOC timeline va avtomatik isbot paketi yo'q.");
      ("proof", JStr "80 test · competitive-proof.json · dashboard /tests")]].
Definition STEPS_KY : json := JArr [
    JObj [
      ("what", JStr "Сиз жазып жаткан nginx access log файлын real убакытта окуйт. Кошумча reverse proxy, sidecar же bulut agent керек эмес — сервердеги log сабы бир тизбектин башы.");
      ("advantages", JArr [
        JStr "nginx-ти алмаштырбай иштейт; log форматын гана тууралоо керек";
        JStr "log_guardian форматы URI, method, XFF жана body-ди бир schema-да берет";
        JStr "Logдорду bulutка жибербейт — толук self-hosted";
        JStr "Саб боюнча дароо иштетүү; орнотуу ~15 мүнөт"]);
      ("lg", JStr "Бир binary nginx log-ун окуйт — айрым Fail2ban/CrowdSec agent жок.");
      ("rivals", JStr "CrowdSec айрым agent + борбордук API талап кылат. Fail2ban log окуйт бирок WAF катмарына жетпейт — бөлүк архитектура.");
      ("proof", JStr "75 автomatтык тест · орнотуу gate PASS")];
    JObj [
      ("what", JStr "Ар бир log сабын URI, HTTP method, X-Forwarded-For, User-Agent жана опционал body менен бир normalize schema-га айландырат. WAF, ban жана метрика катмарлары бир структураны бөлüşөт.");
      ("advantages", JArr [
        JStr "Бир schema — parser, WAF жана ban pipeline ортосунда формат дал келбестик жок";
        JStr "XFF жана proxy чындыктarı туура client IP үчүн normalize";
        JStr "Жогорку саб/сек throughput — benchmark-та өлчөнгөн";
        JStr "Strict mode орнотуу gate-теринде талааларды кармайт"]);
      ("lg", JStr "Log → normalize → WAF бир process-те; ara format же ETL жок.");
      ("rivals", JStr "ModSecurity nginx-те inline, бирок log негизиндеги ban үчүн айрым Fail2ban керек. CrowdSec башка parser + signal network.");
      ("proof", JStr "280 373 EPS · 16,93× ModSec (bench-vs-modsec.json)")];
    JObj [
      ("what", JStr "121 OWASP CRS эрежеси, PCRE2 JIT жана OpenAPI/schema + BOLA менен чабуул үлгүлөрүн баалайт. Ошол corpusta ModSecurity менен 100% parity өлчөнгөн.");
      ("advantages", JArr [
        JStr "121 OWASP CRS эрежеси — индустрия стандарты WAF";
        JStr "PCRE2 JIT жогорку throughput; 280 373 EPS өлчөнгөн";
        JStr "Schema/BOLA катмары API зыяндуу колдонууну кармайт";
        JStr "Чыныгы чабуул recall 100% · FP 0,2% (1500 саб corpus)"]);
      ("lg", JStr "WAF + CRS бир продуктта — айрым ModSecurity модулу жок. Ошол 121 эреже боюнча ModSec-ten 16,93× тез.");
      ("rivals", JStr "ModSecurity + CRS айрым nginx модулу — биринчи суроону inline блоктойт бирок log→ban тизбеги жок. Fail2ban WAF баалоо кылбайт.");
      ("proof", JStr "CRS parity 100% · recall 100% · FP 0,2%")];
    JObj [
      ("what", JStr "WAF match-тен кийин tenant саясаты, ban босого, FP trust score жана operator ack бир decision path-те бирикет. Ката ban тобокелдigi өлчөнгөн gate-тер менен чектелген.");
      ("advantages", JArr [
        JStr "Policy + tenant + FP trust бир pipeline-да — айрым Fail2ban jail жок";
        JStr "500 benign сабда 0,2% FP — өлчөнгөн gate";
        JStr "Multi-tenant label-дар Prometheus жана dashboard-ка агат";
        JStr "IPC auth fail-closed; уруксатсыз ban командалары четке кагылат"]);
      ("lg", JStr "Log сабынан ban чечимине ~20 ms median; policy, tenant жана FP trust бир code path-те.");
      ("rivals", JStr "Fail2ban regex/jail ban гана; FP trust жана tenant башка системаларда. CrowdSec борбордук чечим + таратылган agent керек.");
      ("proof", JStr "~20 ms median ban · 21 үлгү (bench-ban-latency.json)")];
    JObj [
      ("what", JStr "Чечим учуруnda ipset жана опционал XDP/eBPF аркылуу kernel деңгээлинде ban колдонот. Userspace→kernel өтүүсү ~20 ms median өлчөнгөн.");
      ("advantages", JArr [
        JStr "Kernel деңгээлинде ban — iptables/nftables + ipset";
        JStr "XDP packet drop опционал; laptop/VM-де --no-xdp + ipset жетиштүү";
        JStr "Log сабынан ban-га ~20 ms median (21 үлгү)";
        JStr "Таратылган чабуул: JA3 cluster + IP боюнча ban — 80 IP live test 100%"]);
      ("lg", JStr "Log → kernel ban бир тизбекте ~20 ms. Fail2ban/CrowdSec секунда–мүнөт деңгээлинде.");
      ("rivals", JStr "Fail2ban ban кечигүүсү секунда–мүнөт. CrowdSec signal network-ке көз карандылуу; kernel ban айрым интеграция. ModSecurity inline, persistent ipset pipeline жок.");
      ("proof", JStr "72 саат soak · 864 үлгү · 0 ката")];
    JObj [
      ("what", JStr "Ар бир кadam tenant белгиси бар Prometheus метрикалары, Grafana dashboard-тары жана :8443 SOC timeline-га жазат. Operator Telegram alert жана бир басуу ack бир panelден.");
      ("advantages", JArr [
        JStr "tenant_id белгиси бар loganalyzer_* метрикалары";
        JStr "SOC timeline, attack map жана /tests далил матрицасы бир dashboard-та";
        JStr "Self-hosted :8443 — маалыматтар үчүнчү тарап bulutuna gitпейт";
        JStr "14 файлдык PDF/JSON далил пакети автоматтык синхрон"]);
      ("lg", JStr "Метрика + dashboard + далил бир продуктта — CrowdSec SaaS консоли же бөлүк Grafana керек эмес.");
      ("rivals", JStr "Fail2ban метрика/export чектелген. CrowdSec managed SaaS же бөлүк self-hosted. ModSecurity log берет бирок SOC timeline жана auto proof pack жок.");
      ("proof", JStr "75 тест · competitive-proof.json · dashboard /tests")]].
Definition STEPS_TK : json := JArr [
    JObj [
      ("what", JStr "Eýýäm ýazýan nginx access log faýlyny real wagtda okaýar. Goşmaça reverse proxy, sidecar ýa-da bulut agent gerek däl — serwerdäki log setiri ýeke zynjyryň başlangyjy.");
      ("advantages", JArr [
        JStr "Bar nginx gurnamasy bilen işleýär; diňe log formaty ýeterlik";
        JStr "log_guardian formaty bilen URI, method, XFF we body bir schema-da";
        JStr "Loglary buluda ibermez — doly self-hosted";
        JStr "Setir boýunça dessine işlemek; gurnama ~15 minut"]);
      ("lg", JStr "Bir binary nginx loguny okaýar; aýratyn Fail2ban/CrowdSec agent ýok.");
      ("rivals", JStr "CrowdSec aýratyn agent + merkezi API talap edýär. Fail2ban log okaýar ýöne WAF gatlagyna çenli gitmeýär — bölek arhitektura.");
      ("proof", JStr "75 awtomatik test · gurnama gate PASS")];
    JObj [
      ("what", JStr "Her log setirini URI, HTTP method, X-Forwarded-For, User-Agent we islege görä body bilen bir normalizasiýa schema-na öwürýär. WAF, ban we metrika gatlaklary bir strukturany paýlaşýar.");
      ("advantages", JArr [
        JStr "Bir schema — parser, WAF we ban pipeline arasynda format gabat gelmezligi ýok";
        JStr "XFF we proxy zynjyry dogry IP üçin normalizasiýa edilýär";
        JStr "Ýokary setir/sekunt throughput — bench bilen ölçelen";
        JStr "Strict re mode gurnama gate-de ýitik meýdanlary tutýar"]);
      ("lg", JStr "Log → normalizasiýa → WAF bir prosesde; ara format ýa-da ETL ýok.");
      ("rivals", JStr "ModSecurity nginx-de inline işleýär ýöne log esasyndaky ban üçin aýratyn Fail2ban gerek. CrowdSec başga parser + signal toruny.");
      ("proof", JStr "280.373 EPS · 16,93× ModSec (bench-vs-modsec.json)")];
    JObj [
      ("what", JStr "121 OWASP CRS düzgünleri, PCRE2 JIT we OpenAPI/schema + BOLA bilen hüjüm nusgalaryny bahalandyrýar. Şol corpusta ModSecurity bilen 100% paritet ölçelen.");
      ("advantages", JArr [
        JStr "121 OWASP CRS düzgünleri — senagat standarty WAF";
        JStr "PCRE2 JIT ýokary throughput; 280.373 EPS ölçelen";
        JStr "Schema/BOLA gatlagy API sui-istimal edilmegini tutýar";
        JStr "Hakyky hüjüm recall 100% · FP 0,2% (1500 setir corpus)"]);
      ("lg", JStr "WAF + CRS bir önümde; aýratyn ModSecurity moduly ýok. Şol 121 düzgünde ModSec-den 16,93× çalt.");
      ("rivals", JStr "ModSecurity + CRS aýratyn modul — birinji soragy inline bloklaýar ýöne log→ban zynjyry ýok. Fail2ban WAF bahalandyrma etmeýär.");
      ("proof", JStr "CRS paritet 100% · recall 100% · FP 0,2%")];
    JObj [
      ("what", JStr "WAF gabat gelenden soň tenant syýasaty, ban çägi, FP trust baly we operator tassyklamasy bir karar ýolunda birleşýär. Ýalňyş ban howpy ölçelen gate-ler bilen çeklenýär.");
      ("advantages", JArr [
        JStr "Policy + tenant + FP trust bir pipeline-da — aýratyn Fail2ban jail ýok";
        JStr "500 benign setirde 0,2% FP — ölçelen gate";
        JStr "Multi-tenant bellikler Prometheus we dashboard-a akýar";
        JStr "IPC auth fail-closed; rugsatsyz ban buýruklary ret edilýär"]);
      ("lg", JStr "Log setirinden ban kararyna ~20 ms median; policy, tenant we FP trust bir code path-de.");
      ("rivals", JStr "Fail2ban diňe regex/jail ban berýär; FP trust we tenant başga ulgamlarda. CrowdSec merkezi karar + paýlanan agent talap edýär.");
      ("proof", JStr "~20 ms median ban · 21 ölçeg (bench-ban-latency.json)")];
    JObj [
      ("what", JStr "Karar pursadynda ipset we islege görä XDP/eBPF bilen kernel derejesinde ban ulanýar. Userspace→kernel geçişi ölçelen ~20 ms median.");
      ("advantages", JArr [
        JStr "Kernel derejesinde ban — iptables/nftables + ipset";
        JStr "XDP paket drop opsional; laptop/VM-de --no-xdp + ipset ýeterlik";
        JStr "Log setirinden bana ~20 ms median (21 ölçeg)";
        JStr "Paýlanan hüjüm: JA3 klaster + IP boýunça ban — 80 IP testde 100%"]);
      ("lg", JStr "Log → kernel ban bir zynjyryda ~20 ms. Fail2ban/CrowdSec sekunt–minut derejesinde galýar.");
      ("rivals", JStr "Fail2ban ban gijikmesi sekuntlar–minutlar. CrowdSec signal toruna bagly; kernel ban aýratyn integrasiýa. ModSecurity inline bloklaýar ýöne dowamly ipset pipeline ýok.");
      ("proof", JStr "72s soak · 864 nusga · 0 ýalňyşlyk")];
    JObj [
      ("what", JStr "Her ädim tenant bellikli Prometheus metrikalary, Grafana panelleri we :8443 SOC timeline-a ýazýar. Operator Telegram alert we bir basmak ack bir panelden dolandyrýar.");
      ("advantages", JArr [
        JStr "tenant_id bellikli loganalyzer_* metrikalary";
        JStr "SOC timeline, attack map we /tests subutnama matrisasy bir dashboard-da";
        JStr "Self-hosted :8443 — maglumat üçünji tarap buludyna gitmeýär";
        JStr "14 faýllyk PDF/JSON subutnama paketi awtomatik sinhron"]);
      ("lg", JStr "Metrika + dashboard + subutnama bir önümde; CrowdSec SaaS konsoly ýa-da bölek Grafana gerek däl.");
      ("rivals", JStr "Fail2ban metrika/export çäkli. CrowdSec managed SaaS ýa-da bölek self-hosted. ModSecurity log berýär ýöne SOC timeline we awtomatik subutnama paketi ýok.");
      ("proof", JStr "80 test · competitive-proof.json · dashboard /tests")]].
Definition STEPS_CRH : json := JArr [
    JObj [
      ("what", JStr "Artıq yazğan nginx access log faylını real vaqıtta oqıy. Qo'sımça reverse proxy, sidecar ya da bulut agent kerek degil — serverdaki log satırı tek zıncırnıñ başlangıcı.");
      ("advantages", JArr [
        JStr "Mevcut nginx quraşdırmasına dokunmadan işley — yalnız log formatı kifayet";
        JStr "log_guardian formatı ile URI, method, XFF ve body tek sxemada";
        JStr "Loglarnı bulutka yubarmay — tam self-hosted";
        JStr "Satır başına anında işlem; quraşdırma ~15 daqiqa"]);
      ("lg", JStr "Tek binary nginx logını oqıy — ayrı Fail2ban/CrowdSec agent yoq.");
      ("rivals", JStr "CrowdSec ayrı agent + merkezi API ister. Fail2ban log oqıy amma WAF qatına yetmez — parçalı mimari.");
      ("proof", JStr "75 avtomatik test · quraşdırma gate PASS")];
    JObj [
      ("what", JStr "Er log satırını URI, HTTP method, X-Forwarded-For, User-Agent ve ihtiyarî body ile tek normalize sxemaya çevirir. WAF, ban ve metrik qatları aynı strukturayı paylaşır.");
      ("advantages", JArr [
        JStr "Tek sxema — parser, WAF ve ban pipeline arasında format uyumsuzluğı yoq";
        JStr "XFF ve proxy zıncırı doğru IP içün normalize";
        JStr "Yüksek satır/saniye throughput — bench ile ölçüldü";
        JStr "Strict rejim quraşdırma gate-de eksik alanlarnı tutar"]);
      ("lg", JStr "Log → normalize → WAF aynı prosesde; ara format ya da ETL yoq.");
      ("rivals", JStr "ModSecurity nginx-de inline işley amma log esaslı ban içün ayrı Fail2ban kerek. CrowdSec başqa parser + sinyal ağı.");
      ("proof", JStr "280.373 EPS · 16,93× ModSec (bench-vs-modsec.json)")];
    JObj [
      ("what", JStr "121 OWASP CRS qaidası, PCRE2 JIT ve OpenAPI/schema + BOLA ile hücum namunalarını bahalandırır. Aynı corpusta ModSecurity ile 100% paritet ölçüldü.");
      ("advantages", JArr [
        JStr "121 OWASP CRS qaidası — sanayi standartı WAF qapsamı";
        JStr "PCRE2 JIT yüksek throughput; 280.373 EPS ölçüldü";
        JStr "Schema/BOLA qatı API sui-istimalini tutar";
        JStr "Gerçek hücum recall 100% · FP 0,2% (1500 satır corpus)"]);
      ("lg", JStr "WAF + CRS tek mahsulatta; ayrı ModSecurity modulü yoq. Aynı 121 qaidada ModSec-den 16,93× tez.");
      ("rivals", JStr "ModSecurity + CRS ayrı modul — ilk sorğunı inline bloklar amma log→ban zıncırı yoq. Fail2ban WAF bahalandırması yapmaz.");
      ("proof", JStr "CRS paritet 100% · recall 100% · FP 0,2%")];
    JObj [
      ("what", JStr "WAF uygunluğından soñ tenant siyaseti, ban eşiği, FP trust skoru ve operator tasdıqı tek qarar yolunda birleşir. Yanlış ban riski ölçülü gate-ler ile sınırlanır.");
      ("advantages", JArr [
        JStr "Policy + tenant + FP trust tek pipeline — ayrı Fail2ban jail yoq";
        JStr "500 benign satırda 0,2% FP — ölçülü gate";
        JStr "Multi-tenant etiketler Prometheus ve dashboard-a gider";
        JStr "IPC auth fail-closed; izinsiz ban emirleri reddedilir"]);
      ("lg", JStr "Log satırından ban qararına ~20 ms median; policy, tenant ve FP trust aynı code path-de.");
      ("rivals", JStr "Fail2ban yalnız regex/jail ban atar; FP trust ve tenant başqa sistemlerde. CrowdSec merkezi qarar + dağıtılmış agent ister.");
      ("proof", JStr "~20 ms median ban · 21 ölçüm (bench-ban-latency.json)")];
    JObj [
      ("what", JStr "Qarar anında ipset ve ihtiyarî XDP/eBPF ile kernel seviyesinde ban uygular. Userspace→kernel geçişi ölçülü ~20 ms median.");
      ("advantages", JArr [
        JStr "Kernel seviyesinde ban — iptables/nftables + ipset";
        JStr "XDP paket drop opsional; laptop/VM-de --no-xdp + ipset kifayet";
        JStr "Log satırından bana ~20 ms median (21 ölçüm)";
        JStr "Dağıtılmış hücum: JA3 klaster + IP başına ban — 80 IP testte 100%"]);
      ("lg", JStr "Log → kernel ban tek zıncırda ~20 ms. Fail2ban/CrowdSec saniye–daqiqa seviyesinde qalır.");
      ("rivals", JStr "Fail2ban ban gecikmesi saniyeler–daqiqalar. CrowdSec sinyal ağına bağlı; kernel ban ayrı integrasyon. ModSecurity inline bloklar amma kalıcı ipset pipeline yoq.");
      ("proof", JStr "72s soak · 864 numune · 0 hata")];
    JObj [
      ("what", JStr "Er adım tenant etiketli Prometheus metrikleri, Grafana panelleri ve :8443 SOC timeline-a yazar. Operator Telegram alert ve bir tık ack aynı panelden idare etilir.");
      ("advantages", JArr [
        JStr "tenant_id etiketli loganalyzer_* metrikleri";
        JStr "SOC timeline, attack map ve /tests delil matrisi aynı dashboard-da";
        JStr "Self-hosted :8443 — veri üçüncü taraf bulutka gitmez";
        JStr "14 fayllık PDF/JSON delil paketi avtomatik sinhron"]);
      ("lg", JStr "Metrik + dashboard + delil tek mahsulatta; CrowdSec SaaS konsolu ya da parçalı Grafana kerek degil.");
      ("rivals", JStr "Fail2ban metrik/export sınırlı. CrowdSec managed SaaS ya da parçalı self-hosted. ModSecurity log verir amma SOC timeline ve avtomatik delil paketi yoq.");
      ("proof", JStr "80 test · competitive-proof.json · dashboard /tests")]].
Definition STEPS_GAG : json := JArr [
    JObj [
      ("what", JStr "Artı yazılan nginx access log dosyası real vakitte okunur. Ek reverse proxy, sidecar veya bulut agent gerekmez — serverdeki log satırı tek zincirnın başlangıcı.");
      ("advantages", JArr [
        JStr "Mevcut nginx kurulumuna dokunmadan çalışır; yalnız log formatı yeterli";
        JStr "log_guardian formatı ile URI, method, XFF ve body tek şemada";
        JStr "Logları buluta göndermez — tam self-hosted";
        JStr "Satır başına anında işlem; kurulum ~15 dakika"]);
      ("lg", JStr "Tek binary nginx logunu okur; ayrı Fail2ban/CrowdSec agent kurulumu yok.");
      ("rivals", JStr "CrowdSec ayrı agent + merkezi API ister. Fail2ban log okur amma WAF katmanına geçmez — parçalı mimari.");
      ("proof", JStr "75 otomatik test · kurulum gate PASS")];
    JObj [
      ("what", JStr "Her log satırını URI, HTTP method, X-Forwarded-For, User-Agent ve isteğe bağlı body ile tek normalize şemaya dönüştürür. WAF, ban ve metrik katmanları aynı yapıyı paylaşır.");
      ("advantages", JArr [
        JStr "Tek şema — parser, WAF ve ban pipeline arasında format uyumsuzluğu yok";
        JStr "XFF ve proxy zinciri doğru IP çıkarımı için normalize edilir";
        JStr "Yüksek hacimde satır/saniye işleme; bench ile ölçülmüş throughput";
        JStr "Strict mod ile eksik alanlar kurulum gate'inde yakalanır"]);
      ("lg", JStr "Log → normalize → WAF aynı process içinde; ara format veya ETL yok.");
      ("rivals", JStr "ModSecurity nginx modülü inline çalışır amma log tabanlı ban için Fail2ban'a ayrı entegrasyon gerekir. CrowdSec farklı parser + sinyal ağı kullanır.");
      ("proof", JStr "280.373 EPS · 16,93× ModSec (bench-vs-modsec.json)")];
    JObj [
      ("what", JStr "OWASP CRS 121 kural, PCRE2 JIT derlemesi ve OpenAPI/schema + BOLA doğrulaması ile saldırı desenlerini değerlendirir. ModSecurity ile aynı corpus'ta %100 parity ölçülmüştür.");
      ("advantages", JArr [
        JStr "121 OWASP CRS kuralı — endüstri standardı WAF kapsamı";
        JStr "PCRE2 JIT ile yüksek throughput; 280.373 EPS ölçülmüş";
        JStr "Schema/BOLA katmanı API kötüye kullanımını yakalar";
        JStr "Gerçek saldırı recall %100 · false positive %0,2 (1500 satır corpus)"]);
      ("lg", JStr "WAF + CRS tek üründe; ayrı ModSecurity modülü kurulumu yok. Aynı 121 kuralda ModSec'ten 16,93× hızlı.");
      ("rivals", JStr "ModSecurity + CRS ayrı modül, nginx'e inline takılır — ilk istek anında bloklar ama log→ban zinciri yok. Fail2ban WAF değerlendirmesi yapmaz.");
      ("proof", JStr "CRS parity %100 · recall %100 · FP %0,2")];
    JObj [
      ("what", JStr "WAF eşleşmesinden sonra tenant politikası, ban eşiği, false-positive trust skoru ve operatör onayı tek karar hattında birleşir. Yanlış ban riski ölçülmüş kapılarla sınırlanır.");
      ("advantages", JArr [
        JStr "Policy + tenant + FP trust tek pipeline — ayrı Fail2ban jail yapılandırması yok";
        JStr "500 benign satırda %0,2 FP — ölçülmüş kapı";
        JStr "Multi-tenant etiketleme Prometheus ve dashboard'a taşınır";
        JStr "IPC auth fail-closed; yetkisiz ban komutu reddedilir"]);
      ("lg", JStr "Log satırından ban kararı ~20 ms medyan; policy, tenant ve FP trust aynı kod yolunda.");
      ("rivals", JStr "Fail2ban yalnızca regex/jail ban atar; FP trust ve tenant ayrı sistemlerde. CrowdSec merkezi karar + dağıtık agent ister.");
      ("proof", JStr "~20 ms medyan ban · 21 ölçüm (bench-ban-latency.json)")];
    JObj [
      ("what", JStr "Karar anında ipset ve isteğe bağlı XDP/eBPF ile kernel seviyesinde ban uygular. Kullanıcı alanından kernel'e geçiş ölçülmüş ~20 ms medyan gecikmeyle tamamlanır.");
      ("advantages", JArr [
        JStr "Kernel seviyesi ban — iptables/nftables + ipset; rootkit bypass zorlaşır";
        JStr "XDP ile paket düşürme opsiyonel; laptop/VM'de --no-xdp + ipset yeterli";
        JStr "Medyan ~20 ms log satırından ban'a (21 ölçüm)";
        JStr "Dağıtık saldırı: JA3 cluster + IP başına ban — 80 IP testte %100"]);
      ("lg", JStr "Log → kernel ban tek zincir, ~20 ms. Fail2ban/CrowdSec saniye–dakika aralığında kalır.");
      ("rivals", JStr "Fail2ban ban gecikmesi saniyeler–dakikalar. CrowdSec sinyal ağına bağımlı; kernel ban ayrı entegrasyon. ModSecurity inline bloklar ama kalıcı ipset ban pipeline'ı yok.");
      ("proof", JStr "72h soak · 864 örnek · 0 hata")];
    JObj [
      ("what", JStr "Her adım tenant etiketli Prometheus metriklerine, Grafana panolarına ve :8443 SOC dashboard timeline'ına yazar. Operatör Telegram alert + tek tık onay akışını aynı panelden yönetir.");
      ("advantages", JArr [
        JStr "tenant_id etiketli loganalyzer_* metrikleri — çok kiracılı gözlemlenebilirlik";
        JStr "SOC timeline, attack map ve /tests kanıt matrisi aynı dashboard'da";
        JStr "Self-hosted :8443 — veri üçüncü taraf buluta gitmez";
        JStr "14 dosyalık PDF/JSON kanıt paketi otomatik senkron"]);
      ("lg", JStr "Metrik + dashboard + kanıt tek üründe; CrowdSec SaaS konsolu veya parçalı Grafana kurulumu gerekmez.");
      ("rivals", JStr "Fail2ban metrik/export sınırlı. CrowdSec managed SaaS konsolu veya self-hosted parça kurulum. ModSecurity log üretir ama SOC timeline ve otomatik kanıt paketi sunmaz.");
      ("proof", JStr "80 test · competitive-proof.json · dashboard /tests")]].
Definition STEPS_TT : json := JArr [
    JObj [
      ("what", JStr "Siz artıq yazğan nginx access log файлын real вакытта уkyа. Өстәмә reverse proxy, sidecar яки bulud agent кирәк түгел — сервердәге log юлы бер тizbekнең башы.");
      ("advantages", JArr [
        JStr "nginx-ны алмаштырмый эшли; log форматын гына көйләргә кifayət";
        JStr "log_guardian форматы URI, method, XFF һәм body-не бер schema-да бирә";
        JStr "Logларны bulutка җибәрми — тулы self-hosted";
        JStr "Юл буенча тиз эшкərtү; урнаштыру ~15 минут"]);
      ("lg", JStr "Ber binary nginx log-ын ukyа — ayrı Fail2ban/CrowdSec agent юк.");
      ("rivals", JStr "CrowdSec ayrı agent + үзәк API таләп итә. Fail2ban log ukyа, amma WAF катlamına җитми — өлешле архитектура.");
      ("proof", JStr "75 автomat test · урнаштыру gate PASS")];
    JObj [
      ("what", JStr "Hər log юлын URI, HTTP method, X-Forwarded-For, User-Agent һәм опционал body белән ber normalize schema-га әверeltә.");
      ("advantages", JArr [
        JStr "Ber schema — parser, WAF һәм ban pipeline arasında format uyğunsızlığı юк";
        JStr "XFF һәм proxy zynjyry дөрес IP өчен normalize";
        JStr "Yuqarı юл/сек throughput — benchmark-та ölçelgän";
        JStr "Strict mode урнаштыру gate-larında юлларны tuta"]);
      ("lg", JStr "Log → normalize → WAF ber process-tä; ara format яки ETL юк.");
      ("rivals", JStr "ModSecurity nginx-tä inline, amma log neгezендә ban өчен ayrı Fail2ban кирәк. CrowdSec başqa parser + signal toru.");
      ("proof", JStr "280 373 EPS · 16,93× ModSec (bench-vs-modsec.json)")];
    JObj [
      ("what", JStr "121 OWASP CRS qaydası, PCRE2 JIT һәм OpenAPI/schema + BOLA белән hücum nusgaların bahalay.");
      ("advantages", JArr [
        JStr "121 OWASP CRS qaydası — senagat standartı WAF";
        JStr "PCRE2 JIT yuqarı throughput; 280 373 EPS ölçelgän";
        JStr "Schema/BOLA qatlamı API sui-istimalen tuta";
        JStr "Real hücum recall 100% · FP 0,2% (1500 юл corpus)"]);
      ("lg", JStr "WAF + CRS ber önəmdä; ayrı ModSecurity moduly юк. Ber xil 121 qaydada ModSec-dan 16,93× tiz.");
      ("rivals", JStr "ModSecurity + CRS ayrı modul — berenchi sorawnı inline bloklay, amma log→ban tizbegе юк. Fail2ban WAF bahalay.");
      ("proof", JStr "CRS parity 100% · recall 100% · FP 0,2%")];
    JObj [
      ("what", JStr "WAF uyğunlığından soñ tenant siyasäte, ban chegäse, FP trust ballı häm operator tasdığı ber qarar yolında berləşә.");
      ("advantages", JArr [
        JStr "Policy + tenant + FP trust ber pipeline-da — ayrı Fail2ban jail юк";
        JStr "500 benign юлда 0,2% FP — ölçelgän gate";
        JStr "Multi-tenant etiketlär Prometheus häm dashboard-ka ağa";
        JStr "IPC auth fail-closed; ruxsatsız ban buyruqları radd itelә"]);
      ("lg", JStr "Log юлыннан ban qararına ~20 ms median; policy, tenant häm FP trust ber code path-tä.");
      ("rivals", JStr "Fail2ban yalnız regex/jail ban; FP trust häm tenant başqa sistemlärдә. CrowdSec үzәk qarar + taratu agent.");
      ("proof", JStr "~20 ms median ban · 21 ölçem (bench-ban-latency.json)")];
    JObj [
      ("what", JStr "Qarar anında ipset häm opsional XDP/eBPF белән kernel däräcäsendä ban qullaya.");
      ("advantages", JArr [
        JStr "Kernel däräcäsendä ban — iptables/nftables + ipset";
        JStr "XDP paket drop opsional; laptop/VM-dä --no-xdp + ipset kifayät";
        JStr "Log юлыннан bana ~20 ms median (21 ölçem)";
        JStr "Taratu hücum: JA3 klaster + IP boença ban — 80 IP test 100%"]);
      ("lg", JStr "Log → kernel ban ber tizbekte ~20 ms. Fail2ban/CrowdSec sekund–minut däräcäsendä.");
      ("rivals", JStr "Fail2ban ban gecikmäse sekundlar–minutlar. CrowdSec signal toruna bağlı; kernel ban ayrı integratsiya.");
      ("proof", JStr "72s soak · 864 numune · 0 xata")];
    JObj [
      ("what", JStr "Här ädim tenant etiketle Prometheus metrikaları, Grafana panelläre häm :8443 SOC timeline-a yazа.");
      ("advantages", JArr [
        JStr "tenant_id etiketle loganalyzer_* metrikaları";
        JStr "SOC timeline, attack map häm /tests delil matrisasy ber dashboard-da";
        JStr "Self-hosted :8443 — mäğlumat üçüncü tarap buludına gitmäy";
        JStr "14 fayllıq PDF/JSON delil paketi avtomatik sinhron"]);
      ("lg", JStr "Metrika + dashboard + delil ber önəmdä; CrowdSec SaaS konsoly ya da öleşle Grafana kirek tügel.");
      ("rivals", JStr "Fail2ban metrika/export cheklän. CrowdSec managed SaaS ya da öleşle self-hosted. ModSecurity log verä, amma SOC timeline yoq.");
      ("proof", JStr "80 test · competitive-proof.json · dashboard /tests")]].
Definition STEPS_BA : json := JArr [
    JObj [
      ("what", JStr "Siz яҙған nginx access log файлы real ваҡытта уҡыла. Өҫтәмә reverse proxy, sidecar йәки bulut agent кәрәк түгел — серверҙағы log юлы бер tizbekte башlanır.");
      ("advantages", JArr [
        JStr "nginx-ты алмаштырмай эшләй; log форматын генә көйләргә kifayət";
        JStr "log_guardian форматы URI, method, XFF һәм body-не ber schema-da бирә";
        JStr "Loglarnı bulutka eбәрmi — туллы self-hosted";
        JStr "Юл буенса tez эшкərtү; урынлаштырыу ~15 минут"]);
      ("lg", JStr "Ber binary nginx log-ын uky — ayrı Fail2ban/CrowdSec agent юҡ.");
      ("rivals", JStr "CrowdSec ayrı agent + үҙәк API talap iter. Fail2ban log uky, amma WAF qatlamına yetmi — öleşle arxitektura.");
      ("proof", JStr "75 avtomat test · урынлаштырыу gate PASS")];
    JObj [
      ("what", JStr "Hər log юлын URI, HTTP method, X-Forwarded-For, User-Agent һәм opsional body meн ber normalize schema-ға aylandırır.");
      ("advantages", JArr [
        JStr "Ber schema — parser, WAF һәм ban pipeline arasında format uyğunsuzlığı yoq";
        JStr "XFF һәм proxy zynjyry düzgün IP öçen normalize";
        JStr "Yuqarı юл/сек throughput — benchmark-та ölçelgän";
        JStr "Strict mode урынлаштырыу gate-larında meydanlarnı tuta"]);
      ("lg", JStr "Log → normalize → WAF ber process-tä; ara format yoq.");
      ("rivals", JStr "ModSecurity nginx-tä inline, amma log neгezendä ban öçen ayrı Fail2ban kirek. CrowdSec başqa parser + signal tory.");
      ("proof", JStr "280 373 EPS · 16,93× ModSec (bench-vs-modsec.json)")];
    JObj [
      ("what", JStr "121 OWASP CRS qaydasy, PCRE2 JIT һәм OpenAPI/schema + BOLA meн hücum nusgaların bahalay.");
      ("advantages", JArr [
        JStr "121 OWASP CRS qaydasy — senagat standartı WAF";
        JStr "PCRE2 JIT yuqarı throughput; 280 373 EPS ölçelgän";
        JStr "Schema/BOLA qatlamy API sui-istimalen tuta";
        JStr "Real hücum recall 100% · FP 0,2%"]);
      ("lg", JStr "WAF + CRS ber önömdä; ayrı ModSecurity moduly yoq. Ber xil 121 qaydada ModSec-dan 16,93× tez.");
      ("rivals", JStr "ModSecurity + CRS ayrı modul — berenchi sorawnı inline bloklay, amma log→ban tizbegе yoq.");
      ("proof", JStr "CRS parity 100% · recall 100% · FP 0,2%")];
    JObj [
      ("what", JStr "WAF uyğunlığından soñ tenant siyasäte, ban chegäse, FP trust ballı häm operator tasdığı ber qarar yolında berləşә. Yalňyş ban howpy ölçelgän gate-lar megnände.");
      ("advantages", JArr [
        JStr "Policy + tenant + FP trust ber pipeline-da — ayrı Fail2ban jail yoq";
        JStr "500 benign юлda 0,2% FP — ölçelgän gate";
        JStr "Multi-tenant etiketlär Prometheus häm dashboard-ka ağa";
        JStr "IPC auth fail-closed; ruxsatsız ban buyruqları radd itelә"]);
      ("lg", JStr "Log юлынnan ban qararına ~20 ms median; policy, tenant häm FP trust ber code path-tä.");
      ("rivals", JStr "Fail2ban diňe regex/jail ban; FP trust häm tenant başqa sistemlärдә. CrowdSec mərkəzi qarar häm taratu agent talap iter.");
      ("proof", JStr "~20 ms median ban · 21 ölçem (bench-ban-latency.json)")];
    JObj [
      ("what", JStr "Qarar anında ipset häm opsional XDP/eBPF meн kernel däräcäsendä ban qullay. Userspace→kernel keçеше ölçelgän ~20 ms median.");
      ("advantages", JArr [
        JStr "Kernel däräcäsendä ban — iptables/nftables + ipset; userspace-dan aydaw qiyin";
        JStr "XDP paket drop opsional; laptop/VM-dä --no-xdp + ipset kifayät";
        JStr "Log юлынnan bana ~20 ms median (21 ölçem)";
        JStr "Taratu hücum: JA3 klaster + IP boença ban — 80 IP test 100%"]);
      ("lg", JStr "Log → kernel ban ber tizbekte ~20 ms. Fail2ban/CrowdSec sekund–minut däräcäsendä qalır.");
      ("rivals", JStr "Fail2ban ban gecikmäse sekundlar–minutlar. CrowdSec signal toryna bağlı; kernel ban ayrı integratsiya. ModSecurity inline bloklay, amma daimi ipset pipeline yoq.");
      ("proof", JStr "72s soak · 864 numune · 0 xata")];
    JObj [
      ("what", JStr "Här ädim tenant etiketle Prometheus metrikaları, Grafana panelläre häm :8443 SOC timeline-a yazа. Operator Telegram alert häm bir basu ack ber paneldän idarä itelә.");
      ("advantages", JArr [
        JStr "tenant_id etiketle loganalyzer_* metrikaları — köp kiracılı gözlemlenebilirlik";
        JStr "SOC timeline, attack map häm /tests delil matrisasy ber dashboard-da";
        JStr "Self-hosted :8443 — mäğlumat өçünсü tarap buludına gitmäy";
        JStr "14 fayllıq PDF/JSON delil paketi avtomatik sinhron"]);
      ("lg", JStr "Metrika + dashboard + delil ber önömdä; CrowdSec SaaS konsoly ya da öleşle Grafana kirek tügel.");
      ("rivals", JStr "Fail2ban metrika/export cheklän. CrowdSec managed SaaS ya da öleşle self-hosted. ModSecurity log verä, amma SOC timeline häm avtomatik delil paketi yoq.");
      ("proof", JStr "80 test · competitive-proof.json · dashboard /tests")]].
Definition STEPS_CV : json := JArr [
    JObj [
      ("what", JStr "San yazsa nginx access log файлĕ real вăхăтра укăнать. Тата reverse proxy, sidecar е bulut agent кирлĕ мар — серверти log йĕрки тĕрĕс тĕрĕ tizbek пуçламăшĕ.");
      ("advantages", JArr [
        JStr "nginx-ă smenalemesen ĕşлеп кăна; log formatĕ yeterli";
        JStr "log_guardian formatĕ URI, method, XFF tata body-ĕ pĕr schema-ra";
        JStr "Logsem bulutka yatran — pĕrleh self-hosted";
        JStr "Yĕrke pĕr-e şuăna işleş; lăser ~15 minut"]);
      ("lg", JStr "Pĕr binary nginx log-ă uklat — ayră Fail2ban/CrowdSec agent çuk.");
      ("rivals", JStr "CrowdSec ayră agent + tĕp API kiret. Fail2ban log uklat, numai WAF katĕ çenmeççĕ — pĕş-pĕşe arhitektura.");
      ("proof", JStr "75 avtomat test · lăser gate PASS")];
    JObj [
      ("what", JStr "Mĕn push log yĕrkin URI, HTTP method, X-Forwarded-For, User-Agent tata kălă opsional body pĕr normalize schema-ra çăvărtать.");
      ("advantages", JArr [
        JStr "Pĕr schema — parser, WAF tata ban pipeline arăççĕ format uyumsuzlığı çuk";
        JStr "XFF tata proxy zynjyry tĕrĕs IP valli normalize";
        JStr "Yuqarı yĕr/sek throughput — bench-ra ölçen";
        JStr "Strict reim lăser gate-ĕnçe yitmeşsen yĕrkinsem tuta"]);
      ("lg", JStr "Log → normalize → WAF pĕr process-ra; ara format çuk.");
      ("rivals", JStr "ModSecurity nginx-ra inline, numai log neşĕ ban valli ayră Fail2ban kiret. CrowdSec yat parser + signal tory.");
      ("proof", JStr "280 373 EPS · 16,93× ModSec")];
    JObj [
      ("what", JStr "121 OWASP CRS jurnă, PCRE2 JIT tata OpenAPI/schema + BOLA păh hücum nusgăsen bahalay.");
      ("advantages", JArr [
        JStr "121 OWASP CRS jurnă — senagat standart WAF";
        JStr "PCRE2 JIT yuqarı throughput; 280 373 EPS ölçen";
        JStr "Schema/BOLA katĕ API sui-istimalen tuta";
        JStr "Chăn hücum recall 100% · FP 0,2%"]);
      ("lg", JStr "WAF + CRS pĕr produkt-ra; ayră ModSecurity moduly çuk. Pĕr tĕrĕ 121 jurnăran ModSec-ten 16,93× tez.");
      ("rivals", JStr "ModSecurity + CRS ayră modul — berenchi sorawnı inline bloklay, numai log→ban tizbegĕ çuk. Fail2ban WAF bahalandirmi.");
      ("proof", JStr "CRS parity 100% · recall 100% · FP 0,2%")];
    JObj [
      ("what", JStr "WAF potănăçĕ hunăn tenant siyasăte, ban chegĕ, FP trust tata operator tasdı pĕr karar yolĕnçe pĕrleşet. Şăl ban tăvăllĕhĕ ölçen gate-сен çĕтлĕ.");
      ("advantages", JArr [
        JStr "Policy + tenant + FP trust pĕr pipeline-ra — ayră Fail2ban jail çuk";
        JStr "500 benign yĕrke 0,2% FP — ölçen gate";
        JStr "Multi-tenant etiketsem Prometheus tata dashboard-ka";
        JStr "IPC auth fail-closed; ruhsat çuk ban buyruklari tăvăllĕ"]);
      ("lg", JStr "Log yĕrkinĕn ban kararĕne ~20 ms median; policy, tenant tata FP trust pĕr code path-ra.");
      ("rivals", JStr "Fail2ban regex/jail ban kăna; FP trust tata tenant yat sistemsem. CrowdSec tĕp karar tata taratu agent kiret.");
      ("proof", JStr "~20 ms median ban · 21 ölçem (bench-ban-latency.json)")];
    JObj [
      ("what", JStr "Karar văhătĕn ipset tata opsional XDP/eBPF păh kernel dăshĕnçe ban lăseret. Userspace→kernel çavăn ~20 ms median ölçen.");
      ("advantages", JArr [
        JStr "Kernel dăsh ban — iptables/nftables + ipset; userspace-rahtan ajanallahtav çyn";
        JStr "XDP paket drop opsional; laptop/VM-ra --no-xdp + ipset yeterli";
        JStr "Log yĕrkinĕn bana ~20 ms median (21 ölçem)";
        JStr "Taratu hücum: JA3 klaster + IP păh ban — 80 IP test 100%"]);
      ("lg", JStr "Log → kernel ban pĕr tizbek ~20 ms. Fail2ban/CrowdSec sekund–minut dăshĕnçe.");
      ("rivals", JStr "Fail2ban ban gijikmĕ sekund–minut. CrowdSec signal toryna tăvan; kernel ban yată integratsi. ModSecurity inline, permanent ipset pipeline çuk.");
      ("proof", JStr "72s soak · 864 numune · 0 hata")];
    JObj [
      ("what", JStr "Mĕn push ädem tenant etiketle Prometheus metrikăsem, Grafana panellĕre tata :8443 SOC timeline-a yazat. Operator Telegram alert tata bir basım ack pĕr paneltan.");
      ("advantages", JArr [
        JStr "tenant_id etiketle loganalyzer_* metrikăsem — multi-tenant observability";
        JStr "SOC timeline, attack map tata /tests delil matrisi pĕr dashboard-ra";
        JStr "Self-hosted :8443 — data üçünçi tarap buludina yatmay";
        JStr "14 fayl PDF/JSON delil paketĕ avtomatik sinhron"]);
      ("lg", JStr "Metrika + dashboard + delil pĕr produkt-ra; CrowdSec SaaS konsoly ya da pĕş-pĕşe Grafana kirek mar.");
      ("rivals", JStr "Fail2ban metrika/export cheklĕ. CrowdSec managed SaaS ya da pĕş-pĕşe self-hosted. ModSecurity log parat, numai SOC timeline tata avtomatik delil paketĕ çuk.");
      ("proof", JStr "80 test · competitive-proof.json · dashboard /tests")]].
Definition STEPS_UG : json := JArr [
    JObj [
      ("what", JStr "Siz يازغان nginx access log ھۆججىتىن real ۋاقىtta ئوقۇيدۇ. قo'shimcha reverse proxy، sidecar ياكى bulut agent كېرەك ئەمەس — serverdiki log قۇرى بىر زەنجىرنىڭ باشلىنىشى.");
      ("advantages", JArr [
        JStr "nginx نى almashturmasdan ishlaydi؛ پەقەت log formati yetarli";
        JStr "log_guardian formati URI، method، XFF va body ni bitta schema da";
        JStr "Loglarni bulutka yubormaydi — to'liq self-hosted";
        JStr "Qator bo'yicha darhol qayta ishlash؛ o'rnatish ~15 daqiqa"]);
      ("lg", JStr "Bitta binary nginx logini o'qiydi — alohida Fail2ban/CrowdSec agent yo'q.");
      ("rivals", JStr "CrowdSec alohida agent + markaziy API talab qiladi. Fail2ban log o'qiydi lekin WAF qatlamiga yetmaydi.");
      ("proof", JStr "75 avtomatik test · o'rnatish gate PASS")];
    JObj [
      ("what", JStr "Har bir log qatorini URI، HTTP method، X-Forwarded-For، User-Agent va ixtiyoriy body bilan bitta normalizatsiya qilingan sxemaga aylantiradi.");
      ("advantages", JArr [
        JStr "Bitta sxema — parser، WAF va ban pipeline o'rtasida format nomuvofiqligi yo'q";
        JStr "XFF va proxy zanjiri to'g'ri IP uchun normalizatsiya";
        JStr "Yuqori qator/sekund throughput";
        JStr "Strict rejim o'rnatish gate da yetishmayotgan maydonlarni ushlaydi"]);
      ("lg", JStr "Log → normalizatsiya → WAF bitta jarayonda; oraliq format yoki ETL yo'q.");
      ("rivals", JStr "ModSecurity nginx-da inline ishlaydi lekin log asosidagi ban uchun alohida Fail2ban kerak. CrowdSec boshqa parser + signal tarmog'i ishlatadi.");
      ("proof", JStr "280.373 EPS · 16,93× ModSec (bench-vs-modsec.json)")];
    JObj [
      ("what", JStr "121 OWASP CRS qoidasi, PCRE2 JIT va OpenAPI/schema + BOLA bilan hujum namunalarini baholaydi. Bir xil corpusta ModSecurity bilan 100% paritet o'lchangan.");
      ("advantages", JArr [
        JStr "121 OWASP CRS qoidasi — sanoat standarti WAF qamrovi";
        JStr "PCRE2 JIT yuqori throughput; 280.373 EPS o'lchangan";
        JStr "Schema/BOLA qatlami API suiiste'mol qilinishini ushlaydi";
        JStr "Haqiqiy hujum recall 100% · FP 0,2% (1500 qator corpus)"]);
      ("lg", JStr "WAF + CRS bitta mahsulotda; alohida ModSecurity moduli yo'q. Bir xil 121 qoidada ModSec-dan 16,93× tezroq.");
      ("rivals", JStr "ModSecurity + CRS alohida modul — birinchi so'rovni inline bloklaydi lekin log→ban zanjiri yo'q. Fail2ban WAF baholash qilmaydi.");
      ("proof", JStr "CRS paritet 100% · recall 100% · FP 0,2%")];
    JObj [
      ("what", JStr "WAF mos kelishidan keyin tenant siyosati, ban chegarasi, FP trust balli va operator tasdiqi bitta qaror yo'lida birlashtiriladi. Noto'g'ri ban xavfi o'lchangan gate-lar bilan cheklangan.");
      ("advantages", JArr [
        JStr "Policy + tenant + FP trust bitta pipeline-da — alohida Fail2ban jail yo'q";
        JStr "500 benign qatorda 0,2% FP — o'lchangan gate";
        JStr "Multi-tenant yorliqlari Prometheus va dashboard-ga oqadi";
        JStr "IPC auth fail-closed; ruxsatsiz ban buyruqlari rad etiladi"]);
      ("lg", JStr "Log qatoridan ban qaroriga ~20 ms median; policy, tenant va FP trust bir code path-da.");
      ("rivals", JStr "Fail2ban faqat regex/jail ban beradi; FP trust va tenant boshqa tizimlarda. CrowdSec markaziy qaror + tarqatilgan agent talab qiladi.");
      ("proof", JStr "~20 ms median ban · 21 o'lchov (bench-ban-latency.json)")];
    JObj [
      ("what", JStr "Qaror paytida ipset va ixtiyoriy XDP/eBPF orqali kernel darajasida ban qo'llaydi. Userspace→kernel o'tishi o'lchangan ~20 ms median.");
      ("advantages", JArr [
        JStr "Kernel darajasida ban — iptables/nftables + ipset; userspace-dan chetlashish qiyin";
        JStr "XDP paket drop ixtiyoriy; laptop/VM-da --no-xdp + ipset yetarli";
        JStr "Log qatoridan banga ~20 ms median (21 o'lchov)";
        JStr "Tarqatilgan hujum: JA3 klaster + IP bo'yicha ban — 80 IP testda 100%"]);
      ("lg", JStr "Log → kernel ban bitta zanjirda ~20 ms. Fail2ban/CrowdSec soniya–daqiqa darajasida qoladi.");
      ("rivals", JStr "Fail2ban ban kechikishi soniyalar–daqiqalar. CrowdSec signal tarmog'iga bog'liq; kernel ban alohida integratsiya. ModSecurity inline bloklaydi lekin doimiy ipset pipeline yo'q.");
      ("proof", JStr "72s soak · 864 namuna · 0 xato")];
    JObj [
      ("what", JStr "Har bir qadam tenant yorliqli Prometheus metrikalari, Grafana panellari va :8443 SOC timeline ga yozadi. Operator Telegram alert va bir bosish ack-ni bir paneldan boshqaradi.");
      ("advantages", JArr [
        JStr "tenant_id yorliqli loganalyzer_* metrikalari — ko'p ijarachi kuzatuvi";
        JStr "SOC timeline, attack map va /tests isbot matritsasi bir dashboard-da";
        JStr "Self-hosted :8443 — ma'lumot uchinchi tomon bulutiga ketmaydi";
        JStr "14 faylli PDF/JSON isbot paketi avtomatik sinxron"]);
      ("lg", JStr "Metrika + dashboard + isbot bitta mahsulotda; CrowdSec SaaS konsoli yoki bo'lak Grafana kerak emas.");
      ("rivals", JStr "Fail2ban metrika/export cheklangan. CrowdSec managed SaaS yoki bo'lak self-hosted. ModSecurity log beradi lekin SOC timeline va avtomatik isbot paketi yo'q.");
      ("proof", JStr "80 test · competitive-proof.json · dashboard /tests")]].
Definition STEPS_SAH : json := JArr [
    JObj [
      ("what", JStr "Эн nginx access log файлын real вакытта олус. Эбии reverse proxy, sidecar эбэтэр bulut agent кэриэкпэт — server log сабы биир tizbek начала.");
      ("advantages", JArr [
        JStr "nginx алмаспаттан дьайар; log форматын настройкала";
        JStr "log_guardian формат URI, method, XFF, body биир schema-га";
        JStr "Log bulutка илбэт — толорoon self-hosted";
        JStr "Саб барытын instant обработка; установка ~15 минут"]);
      ("lg", JStr "Биир binary nginx log олор — Fail2ban/CrowdSec agent бэйэ.");
      ("rivals", JStr "CrowdSec бэйэ agent + централь API. Fail2ban log олор, WAF катmanна барбат — бөлüк архитектура.");
      ("proof", JStr "75 автомат тест · установка gate PASS")];
    JObj [
      ("what", JStr "Бар log сабын URI, HTTP method, X-Forwarded-For, User-Agent, body биир normalize schema-га хайдаар.");
      ("advantages", JArr [
        JStr "Биир schema — parser, WAF, ban pipeline ортотунан format mismatch суох";
        JStr "XFF, proxy zynjyr туох IP normalize";
        JStr "Yukarı throughput — benchmark-та ölçülгэн";
        JStr "Strict mode установка gate-та field-тар tutar"]);
      ("lg", JStr "Log → normalize → WAF биир process-та; ara format эбэтэр ETL суох.");
      ("rivals", JStr "ModSecurity nginx-та inline, нo log негизinde ban ват Fail2ban бэйэ. CrowdSec бaska parser + signal network.");
      ("proof", JStr "280 373 EPS · 16,93× ModSec (bench-vs-modsec.json)")];
    JObj [
      ("what", JStr "121 OWASP CRS, PCRE2 JIT, OpenAPI/schema + BOLA атак pattern-нарын баар. Ол corpusta ModSecurity билиэн 100% parity ölçülгэн.");
      ("advantages", JArr [
        JStr "121 OWASP CRS — industry WAF стандарт";
        JStr "PCRE2 JIT; 280 373 EPS ölçülгэн";
        JStr "Schema/BOLA API abuse tutar";
        JStr "Чыныы attack recall 100% · FP 0,2% (1500 саб corpus)"]);
      ("lg", JStr "WAF + CRS биир продукт; 16,93× ModSec-тан тэрис. Бэйэ ModSecurity модуль кэриэкпэт.");
      ("rivals", JStr "ModSecurity + CRS бэйэ модуль — inline блок, нo log→ban chain суох. Fail2ban WAF баар.");
      ("proof", JStr "CRS parity 100% · recall 100% · FP 0,2%")];
    JObj [
      ("what", JStr "WAF match кэннитэ tenant policy, ban threshold, FP trust биир decision path-та. Сорук ban тобокелдигэ ölçülгэн gate-тар чогдот.");
      ("advantages", JArr [
        JStr "Policy + tenant + FP trust биир pipeline — бэйэ Fail2ban jail суох";
        JStr "500 benign саб 0,2% FP — ölçülгэн gate";
        JStr "Multi-tenant labels Prometheus, dashboard-ка";
        JStr "IPC auth fail-closed; уруксаттаах ban команда отторуллар"]);
      ("lg", JStr "Log сабынан ban ~20 ms median; policy, tenant, FP trust биир code path-та.");
      ("rivals", JStr "Fail2ban regex/jail кэлин; FP trust, tenant бaska системаларда. CrowdSec централь decision + distributed agent.");
      ("proof", JStr "~20 ms median ban · 21 sample (bench-ban-latency.json)")];
    JObj [
      ("what", JStr "Решение моментун ipset, XDP/eBPF kernel ban. Userspace→kernel ~20 ms median ölçülгэн.");
      ("advantages", JArr [
        JStr "Kernel ban — iptables/nftables + ipset; userspace-тан aydarsan qiyin";
        JStr "XDP optional; laptop/VM-га --no-xdp + ipset yet";
        JStr "~20 ms median log сабынан ban-га (21 sample)";
        JStr "Distributed attack: JA3 cluster + IP ban — 80 IP test 100%"]);
      ("lg", JStr "Log → kernel ban биир chain ~20 ms. Fail2ban/CrowdSec секунд–минут.");
      ("rivals", JStr "Fail2ban ban seconds–minutes. CrowdSec signal network-ка tиэн; kernel ban бэйэ integratsiya. ModSecurity inline, persistent ipset pipeline суох.");
      ("proof", JStr "72h soak · 864 sample · 0 error")];
    JObj [
      ("what", JStr "Бар step tenant Prometheus metrics, Grafana dashboard, :8443 SOC timeline-га yazar. Operator Telegram alert + bir bası ack биир paneltan.");
      ("advantages", JArr [
        JStr "tenant_id loganalyzer_* metrics — multi-tenant observability";
        JStr "SOC timeline, attack map, /tests proof matrix биир dashboard-та";
        JStr "Self-hosted :8443 — data үçünсü tarap bulutка барбат";
        JStr "14 file PDF/JSON proof pack avtomatik sync"]);
      ("lg", JStr "Metrics + dashboard + proof биир продукт; CrowdSec SaaS console эбэтэр piecemeal Grafana кэриэкпэт.");
      ("rivals", JStr "Fail2ban metrics/export чого. CrowdSec managed SaaS эбэтэр piecemeal self-hosted. ModSecurity log, нo SOC timeline эбэтэр auto proof pack суох.");
      ("proof", JStr "80 test · competitive-proof.json · dashboard /tests")]].
Definition STEPS_EXTRA_BY_LOCALE : list (jstring * json) := [("pt", STEPS_PT); ("nl", STEPS_NL); ("uz", STEPS_UZ); ("ky", STEPS_KY); ("tk", STEPS_TK); ("crh", STEPS_CRH); ("gag", STEPS_GAG); ("tt", STEPS_TT); ("ba", STEPS_BA); ("cv", STEPS_CV); ("ug", STEPS_UG); ("sah", STEPS_SAH)].
Definition STEPS_DE : json := JArr [
    JObj [
      ("what", JStr "Liest die nginx-Access-Log-Datei, die Sie bereits schreiben, in Echtzeit. Kein extra Reverse Proxy, Sidecar oder Cloud-Agent — die Logzeile auf Ihrem Server ist der Start einer einzigen Kette.");
      ("advantages", JArr [
        JStr "Funktioniert ohne nginx zu ersetzen; nur eine Logformat-Anpassung nötig";
        JStr "log_guardian-Format liefert URI, Method, XFF und Body in einem Schema";
        JStr "Keine Logs in die Cloud — voll self-hosted, Daten bleiben auf Ihrem Server";
        JStr "Sofortige Verarbeitung pro Zeile; Setup in ~15 Minuten"]);
      ("lg", JStr "Ein Binary liest nginx-Logs — kein separates Fail2ban/CrowdSec-Agent-Setup.");
      ("rivals", JStr "CrowdSec braucht einen separaten Agent plus zentrale API. Fail2ban liest Logs, erreicht aber nie eine WAF-Schicht — stückweise Architektur.");
      ("proof", JStr "75 automatische Tests · Install-Gate PASS")];
    JObj [
      ("what", JStr "Wandelt jede Logzeile in ein normalisiertes Schema um: URI, HTTP-Methode, X-Forwarded-For, User-Agent und optional Body. WAF-, Ban- und Metrikschichten teilen dieselbe Struktur.");
      ("advantages", JArr [
        JStr "Ein Schema — kein Formatkonflikt zwischen Parser, WAF und Ban-Pipeline";
        JStr "XFF und Proxy-Ketten normalisiert für korrekte Client-IP";
        JStr "Hoher Durchsatz in Zeilen/Sekunde — in Benchmarks gemessen";
        JStr "Strict-Mod fängt fehlende Felder bei Install-Gates ab"]);
      ("lg", JStr "Log → normalisieren → WAF in einem Prozess; kein Zwischenformat oder ETL.");
      ("rivals", JStr "ModSecurity läuft inline in nginx, aber logbasiertes Bannen braucht separate Fail2ban-Integration. CrowdSec nutzt anderen Parser plus Signalnetz.");
      ("proof", JStr "280.373 EPS · 16,93× ModSec (bench-vs-modsec.json)")];
    JObj [
      ("what", JStr "Bewertet Angriffsmuster mit 121 OWASP-CRS-Regeln, PCRE2-JIT und OpenAPI/Schema- plus BOLA-Validierung. Gemessene 100%-Parität mit ModSecurity auf demselben Korpus.");
      ("advantages", JArr [
        JStr "121 OWASP-CRS-Regeln — branchenübliche WAF-Abdeckung";
        JStr "PCRE2-JIT für hohen Durchsatz; 280.373 EPS gemessen";
        JStr "Schema/BOLA-Schicht erkennt API-Missbrauch";
        JStr "100% Recall echter Angriffe · 0,2% False Positives (1500-Zeilen-Korpus)"]);
      ("lg", JStr "WAF + CRS in einem Produkt — kein separates ModSecurity-Modul. 16,93× schneller als ModSec bei denselben 121 Regeln.");
      ("rivals", JStr "ModSecurity + CRS ist ein separates Modul an nginx — blockiert die erste Anfrage inline, hat aber keine Log→Ban-Kette. Fail2ban führt keine WAF-Bewertung durch.");
      ("proof", JStr "CRS-Parität 100% · Recall 100% · FP 0,2%")];
    JObj [
      ("what", JStr "Nach einem WAF-Treffer vereinen Tenant-Policy, Ban-Schwelle, FP-Trust-Score und Operator-Bestätigung in einem Entscheidungspfad. Fehlban-Risiko ist durch gemessene Gates begrenzt.");
      ("advantages", JArr [
        JStr "Policy + Tenant + FP Trust in einer Pipeline — kein separates Fail2ban-Jail-Tuning";
        JStr "0,2% FP bei 500 benignen Zeilen — gemessenes Gate";
        JStr "Multi-Tenant-Labels fließen zu Prometheus und Dashboard";
        JStr "IPC-Auth fail-closed; unbefugte Ban-Befehle werden abgelehnt"]);
      ("lg", JStr "~20 ms Median von der Logzeile zur Ban-Entscheidung; Policy, Tenant und FP Trust in einem Codepfad.");
      ("rivals", JStr "Fail2ban feuert nur Regex/Jail-Bans; FP Trust und Tenant leben in anderen Systemen. CrowdSec braucht zentrale Entscheidung plus verteilte Agenten.");
      ("proof", JStr "~20 ms Median-Ban · 21 Proben (bench-ban-latency.json)")];
    JObj [
      ("what", JStr "Wendet den Ban auf Kernel-Ebene via ipset und optional XDP/eBPF an, sobald die Entscheidung steht. Der Userspace→Kernel-Sprung in gemessen ~20 ms Median.");
      ("advantages", JArr [
        JStr "Ban auf Kernel-Ebene — iptables/nftables + ipset; Umgehung aus Userspace schwerer";
        JStr "Optionales XDP-Paket-Drop; auf Laptop/VM reicht --no-xdp + ipset";
        JStr "~20 ms Median von Logzeile bis Ban (21 Proben)";
        JStr "Verteilte Angriffe: JA3-Cluster + Ban pro IP — 100% im 80-IP-Livetest"]);
      ("lg", JStr "Log → Kernel-Ban in einer Kette, ~20 ms. Fail2ban/CrowdSec bleiben bei Sekunden–Minuten.");
      ("rivals", JStr "Fail2ban-Ban-Latenz: Sekunden bis Minuten. CrowdSec hängt am Signalnetz; Kernel-Ban ist weitere Integration. ModSecurity blockiert inline, hat aber keine persistente ipset-Ban-Pipeline.");
      ("proof", JStr "72h-Soak · 864 Proben · 0 Fehler")];
    JObj [
      ("what", JStr "Jeder Schritt schreibt tenant-markierte Prometheus-Metriken, Grafana-Dashboards und die :8443-SOC-Timeline. Operatoren steuern Telegram-Alerts und Ein-Klick-Ack im selben Panel.");
      ("advantages", JArr [
        JStr "tenant_id-markierte loganalyzer_*-Metriken — Multi-Tenant-Observability";
        JStr "SOC-Timeline, Attack Map und /tests-Nachweismatrix in einem Dashboard";
        JStr "Self-hosted :8443 — keine Daten an Drittanbieter-Cloud";
        JStr "14-Dateien-Nachweispaket synchronisiert automatisch"]);
      ("lg", JStr "Metriken + Dashboard + Nachweis in einem Produkt — keine CrowdSec-SaaS-Konsole oder stückweiser Grafana-Stack.");
      ("rivals", JStr "Fail2ban hat begrenzte Metriken/Export. CrowdSec will Managed SaaS oder stückweises Self-hosted-Setup. ModSecurity erzeugt Logs, aber keine SOC-Timeline oder automatisches Nachweispaket.");
      ("proof", JStr "75 Tests · competitive-proof.json · Dashboard /tests")]].
Definition STEPS_FR : json := JArr [
    JObj [
      ("what", JStr "Lit le fichier access log nginx que vous écrivez déjà, en temps réel. Pas de reverse proxy, sidecar ou agent cloud — la ligne de log sur votre serveur est le début d'une seule chaîne.");
      ("advantages", JArr [
        JStr "Fonctionne sans remplacer nginx ; seul un réglage de format de log suffit";
        JStr "Le format log_guardian expose URI, méthode, XFF et body dans un seul schéma";
        JStr "Pas d'envoi de logs vers le cloud — entièrement self-hosted";
        JStr "Traitement instantané par ligne ; installation en ~15 minutes"]);
      ("lg", JStr "Un seul binaire lit les logs nginx — pas d'agent Fail2ban/CrowdSec séparé.");
      ("rivals", JStr "CrowdSec exige un agent séparé plus une API centrale. Fail2ban lit les logs mais n'atteint jamais une couche WAF — architecture fragmentée.");
      ("proof", JStr "80 tests automatiques · gate d'installation PASS")];
    JObj [
      ("what", JStr "Transforme chaque ligne en schéma normalisé : URI, méthode HTTP, X-Forwarded-For, User-Agent et body optionnel. WAF, ban et métriques partagent la même structure.");
      ("advantages", JArr [
        JStr "Un schéma — pas d'incompatibilité entre parser, WAF et pipeline de ban";
        JStr "XFF et chaînes proxy normalisés pour une IP client correcte";
        JStr "Débit élevé en lignes/seconde — mesuré en benchmark";
        JStr "Mode strict détecte les champs manquants aux gates d'installation"]);
      ("lg", JStr "Log → normalisation → WAF dans un seul processus ; pas de format intermédiaire ni ETL.");
      ("rivals", JStr "ModSecurity tourne inline dans nginx mais le ban basé sur les logs exige Fail2ban à part. CrowdSec utilise un parser différent plus un réseau de signaux.");
      ("proof", JStr "280 373 EPS · 16,93× ModSec (bench-vs-modsec.json)")];
    JObj [
      ("what", JStr "Évalue les motifs d'attaque avec 121 règles OWASP CRS, compilation PCRE2 JIT et validation OpenAPI/schema + BOLA. Parité mesurée à 100 % avec ModSecurity sur le même corpus.");
      ("advantages", JArr [
        JStr "121 règles OWASP CRS — couverture WAF standard";
        JStr "PCRE2 JIT pour un débit élevé ; 280 373 EPS mesurés";
        JStr "Couche schema/BOLA détecte les abus d'API";
        JStr "100 % recall attaques réelles · 0,2 % faux positifs (corpus 1500 lignes)"]);
      ("lg", JStr "WAF + CRS dans un seul produit — pas de module ModSecurity séparé. 16,93× plus rapide que ModSec sur les mêmes 121 règles.");
      ("rivals", JStr "ModSecurity + CRS est un module séparé sur nginx — bloque la première requête inline mais sans chaîne log→ban. Fail2ban ne fait pas d'évaluation WAF.");
      ("proof", JStr "Parité CRS 100 % · recall 100 % · FP 0,2 %")];
    JObj [
      ("what", JStr "Après un match WAF, politique tenant, seuil de ban, score FP trust et acquittement opérateur fusionnent en un seul chemin de décision. Le risque de mauvais ban est limité par des gates mesurés.");
      ("advantages", JArr [
        JStr "Policy + tenant + FP trust dans un pipeline — pas de jails Fail2ban séparés";
        JStr "0,2 % FP sur 500 lignes benignes — gate mesuré";
        JStr "Labels multi-tenant vers Prometheus et dashboard";
        JStr "Auth IPC fail-closed ; commandes de ban non autorisées rejetées"]);
      ("lg", JStr "~20 ms médian de la ligne de log à la décision de ban ; policy, tenant et FP trust partagent un code path.");
      ("rivals", JStr "Fail2ban ne déclenche que des bans regex/jail ; FP trust et tenant sont ailleurs. CrowdSec exige décision centrale plus agents distribués.");
      ("proof", JStr "~20 ms ban médian · 21 échantillons (bench-ban-latency.json)")];
    JObj [
      ("what", JStr "Applique le ban au niveau noyau via ipset et XDP/eBPF optionnel dès la décision. Le saut userspace→noyau en ~20 ms médian mesuré.");
      ("advantages", JArr [
        JStr "Ban niveau noyau — iptables/nftables + ipset ; contournement userspace plus difficile";
        JStr "Drop XDP optionnel ; sur laptop/VM --no-xdp + ipset suffit";
        JStr "~20 ms médian de la ligne de log au ban (21 échantillons)";
        JStr "Attaques distribuées : cluster JA3 + ban par IP — 100 % sur test live 80 IP"]);
      ("lg", JStr "Log → ban noyau en une chaîne, ~20 ms. Fail2ban/CrowdSec restent en secondes–minutes.");
      ("rivals", JStr "Latence de ban Fail2ban : secondes à minutes. CrowdSec dépend du réseau de signaux ; ban noyau est une autre intégration. ModSecurity bloque inline sans pipeline ipset persistant.");
      ("proof", JStr "Soak 72h · 864 échantillons · 0 erreur")];
    JObj [
      ("what", JStr "Chaque étape écrit des métriques Prometheus tenant, des dashboards Grafana et la timeline SOC :8443. Les opérateurs gèrent alertes Telegram et ack en un clic depuis le même panel.");
      ("advantages", JArr [
        JStr "Métriques loganalyzer_* avec tenant_id — observabilité multi-tenant";
        JStr "Timeline SOC, attack map et matrice /tests dans un dashboard";
        JStr "Self-hosted :8443 — pas de données vers un cloud tiers";
        JStr "Pack de preuves PDF/JSON 14 fichiers synchronisé automatiquement"]);
      ("lg", JStr "Métriques + dashboard + preuve en un produit — pas de console SaaS CrowdSec ni stack Grafana fragmentée.");
      ("rivals", JStr "Fail2ban : métriques/export limités. CrowdSec veut SaaS managé ou setup self-hosted morcelé. ModSecurity émet des logs sans timeline SOC ni pack de preuve automatique.");
      ("proof", JStr "80 tests · competitive-proof.json · dashboard /tests")]].
Definition STEPS_ES : json := JArr [
    JObj [
      ("what", JStr "Lee el access log de nginx que ya escribes, en tiempo real. Sin reverse proxy, sidecar ni agente en la nube — la línea de log en tu servidor es el inicio de una sola cadena.");
      ("advantages", JArr [
        JStr "Funciona sin reemplazar nginx; solo un ajuste de formato de log";
        JStr "El formato log_guardian expone URI, método, XFF y body en un esquema";
        JStr "Sin enviar logs a la nube — totalmente self-hosted";
        JStr "Procesamiento instantáneo por línea; instalación en ~15 minutos"]);
      ("lg", JStr "Un solo binario lee logs nginx — sin instalar agentes Fail2ban/CrowdSec aparte.");
      ("rivals", JStr "CrowdSec necesita agente separado más API central. Fail2ban lee logs pero no llega a una capa WAF — arquitectura fragmentada.");
      ("proof", JStr "75 pruebas automáticas · gate de instalación PASS")];
    JObj [
      ("what", JStr "Convierte cada línea en un esquema normalizado: URI, método HTTP, X-Forwarded-For, User-Agent y body opcional. WAF, ban y métricas comparten la misma estructura.");
      ("advantages", JArr [
        JStr "Un esquema — sin desajuste entre parser, WAF y pipeline de ban";
        JStr "XFF y cadenas proxy normalizados para IP cliente correcta";
        JStr "Alto throughput en líneas/segundo — medido en benchmarks";
        JStr "Modo strict detecta campos faltantes en gates de instalación"]);
      ("lg", JStr "Log → normalizar → WAF en un proceso; sin formato intermedio ni ETL.");
      ("rivals", JStr "ModSecurity corre inline en nginx pero el ban por logs exige Fail2ban aparte. CrowdSec usa otro parser más red de señales.");
      ("proof", JStr "280.373 EPS · 16,93× ModSec (bench-vs-modsec.json)")];
    JObj [
      ("what", JStr "Evalúa patrones de ataque con 121 reglas OWASP CRS, compilación PCRE2 JIT y validación OpenAPI/schema + BOLA. Paridad medida al 100 % con ModSecurity en el mismo corpus.");
      ("advantages", JArr [
        JStr "121 reglas OWASP CRS — cobertura WAF estándar";
        JStr "PCRE2 JIT para alto throughput; 280.373 EPS medidos";
        JStr "Capa schema/BOLA detecta abuso de API";
        JStr "100 % recall ataques reales · 0,2 % falsos positivos (corpus 1500 líneas)"]);
      ("lg", JStr "WAF + CRS en un producto — sin módulo ModSecurity separado. 16,93× más rápido que ModSec en las mismas 121 reglas.");
      ("rivals", JStr "ModSecurity + CRS es módulo aparte en nginx — bloquea la primera petición inline pero sin cadena log→ban. Fail2ban no evalúa WAF.");
      ("proof", JStr "Paridad CRS 100 % · recall 100 % · FP 0,2 %")];
    JObj [
      ("what", JStr "Tras un match WAF, política tenant, umbral de ban, score FP trust y ack del operador se unen en un solo camino de decisión. El riesgo de ban erróneo está acotado por gates medidos.");
      ("advantages", JArr [
        JStr "Policy + tenant + FP trust en un pipeline — sin jails Fail2ban separados";
        JStr "0,2 % FP en 500 líneas benignas — gate medido";
        JStr "Etiquetas multi-tenant hacia Prometheus y dashboard";
        JStr "Auth IPC fail-closed; comandos de ban no autorizados rechazados"]);
      ("lg", JStr "~20 ms mediano de línea de log a decisión de ban; policy, tenant y FP trust en un code path.");
      ("rivals", JStr "Fail2ban solo dispara bans regex/jail; FP trust y tenant viven en otros sistemas. CrowdSec exige decisión central más agentes distribuidos.");
      ("proof", JStr "~20 ms ban mediano · 21 muestras (bench-ban-latency.json)")];
    JObj [
      ("what", JStr "Aplica el ban a nivel kernel vía ipset y XDP/eBPF opcional en el momento de la decisión. Salto userspace→kernel en ~20 ms mediano medido.");
      ("advantages", JArr [
        JStr "Ban a nivel kernel — iptables/nftables + ipset; más difícil eludir desde userspace";
        JStr "Drop XDP opcional; en laptop/VM basta --no-xdp + ipset";
        JStr "~20 ms mediano de línea de log a ban (21 muestras)";
        JStr "Ataques distribuidos: cluster JA3 + ban por IP — 100 % en test live 80 IP"]);
      ("lg", JStr "Log → ban kernel en una cadena, ~20 ms. Fail2ban/CrowdSec quedan en segundos–minutos.");
      ("rivals", JStr "Latencia de ban Fail2ban: segundos a minutos. CrowdSec depende de red de señales; ban kernel es otra integración. ModSecurity bloquea inline sin pipeline ipset persistente.");
      ("proof", JStr "Soak 72h · 864 muestras · 0 errores")];
    JObj [
      ("what", JStr "Cada paso escribe métricas Prometheus con tenant, dashboards Grafana y timeline SOC :8443. Operadores gestionan alertas Telegram y ack en un clic desde el mismo panel.");
      ("advantages", JArr [
        JStr "Métricas loganalyzer_* con tenant_id — observabilidad multi-tenant";
        JStr "Timeline SOC, attack map y matriz /tests en un dashboard";
        JStr "Self-hosted :8443 — sin datos a nube de terceros";
        JStr "Pack de prueba PDF/JSON 14 archivos sincronizado automáticamente"]);
      ("lg", JStr "Métricas + dashboard + prueba en un producto — sin consola SaaS CrowdSec ni stack Grafana fragmentado.");
      ("rivals", JStr "Fail2ban: métricas/export limitados. CrowdSec quiere SaaS gestionado o setup self-hosted fragmentado. ModSecurity emite logs sin timeline SOC ni pack de prueba automático.");
      ("proof", JStr "75 pruebas · competitive-proof.json · dashboard /tests")]].
Definition STEPS_RU : json := JArr [
    JObj [
      ("what", JStr "Читает access-лог nginx, который вы уже пишете, в реальном времени. Без reverse proxy, sidecar или облачного агента — строка лога на сервере — начало одной цепочки.");
      ("advantages", JArr [
        JStr "Работает без замены nginx; достаточно настроить формат лога";
        JStr "Формат log_guardian даёт URI, method, XFF и body в одной схеме";
        JStr "Без отправки логов в облако — полностью self-hosted";
        JStr "Мгновенная обработка каждой строки; установка ~15 минут"]);
      ("lg", JStr "Один бинарник читает логи nginx — без отдельного агента Fail2ban/CrowdSec.");
      ("rivals", JStr "CrowdSec требует отдельный агент и центральный API. Fail2ban читает логи, но не доходит до WAF — фрагментарная архитектура.");
      ("proof", JStr "75 автотестов · install gate PASS")];
    JObj [
      ("what", JStr "Превращает каждую строку в нормализованную схему: URI, HTTP method, X-Forwarded-For, User-Agent и опционально body. WAF, ban и метрики используют одну структуру.");
      ("advantages", JArr [
        JStr "Одна схема — нет рассинхрона между parser, WAF и ban pipeline";
        JStr "XFF и цепочки proxy нормализованы для корректного IP клиента";
        JStr "Высокий throughput строк/с — измерен в бенчмарках";
        JStr "Strict mode ловит пропущенные поля на install gates"]);
      ("lg", JStr "Log → normalize → WAF в одном процессе; без промежуточного формата и ETL.");
      ("rivals", JStr "ModSecurity inline в nginx, но ban по логам требует отдельный Fail2ban. CrowdSec — другой parser и сеть сигналов.");
      ("proof", JStr "280 373 EPS · 16,93× ModSec (bench-vs-modsec.json)")];
    JObj [
      ("what", JStr "Оценивает атаки 121 правилом OWASP CRS, PCRE2 JIT и OpenAPI/schema + BOLA. Измеренная 100% паритетность с ModSecurity на том же корпусе.");
      ("advantages", JArr [
        JStr "121 правило OWASP CRS — отраслевой стандарт WAF";
        JStr "PCRE2 JIT для высокого throughput; 280 373 EPS измерено";
        JStr "Слой schema/BOLA ловит злоупотребление API";
        JStr "100% recall реальных атак · 0,2% FP (кorpus 1500 строк)"]);
      ("lg", JStr "WAF + CRS в одном продукте — без отдельного ModSecurity. 16,93× быстрее ModSec на тех же 121 правилах.");
      ("rivals", JStr "ModSecurity + CRS — отдельный модуль nginx; блокирует первый запрос inline, но без цепочки log→ban. Fail2ban не делает WAF.");
      ("proof", JStr "CRS parity 100% · recall 100% · FP 0,2%")];
    JObj [
      ("what", JStr "После WAF match политика tenant, порог ban, FP trust и ack оператора сходятся в одном decision path. Риск ошибочного ban ограничен измеренными gates.");
      ("advantages", JArr [
        JStr "Policy + tenant + FP trust в одном pipeline — без отдельных jail Fail2ban";
        JStr "0,2% FP на 500 benign строк — измеренный gate";
        JStr "Multi-tenant labels идут в Prometheus и dashboard";
        JStr "IPC auth fail-closed; неавторизованные ban-команды отклоняются"]);
      ("lg", JStr "~20 ms медиана от строки лога до решения о ban; policy, tenant и FP trust в одном code path.");
      ("rivals", JStr "Fail2ban только regex/jail ban; FP trust и tenant — в других системах. CrowdSec — центральное решение и распределённые агенты.");
      ("proof", JStr "~20 ms median ban · 21 образец (bench-ban-latency.json)")];
    JObj [
      ("what", JStr "Применяет ban на уровне ядра через ipset и опционально XDP/eBPF сразу после решения. Переход userspace→kernel за измеренные ~20 ms медианы.");
      ("advantages", JArr [
        JStr "Ban на уровне ядра — iptables/nftables + ipset; сложнее обойти из userspace";
        JStr "Опциональный XDP drop; на laptop/VM достаточно --no-xdp + ipset";
        JStr "~20 ms медиана от строки лога до ban (21 образец)";
        JStr "Распределённые атаки: JA3 cluster + ban по IP — 100% на live-тесте 80 IP"]);
      ("lg", JStr "Log → kernel ban в одной цепочке, ~20 ms. Fail2ban/CrowdSec — секунды–минуты.");
      ("rivals", JStr "Задержка ban Fail2ban — секунды–минуты. CrowdSec зависит от сети сигналов; kernel ban — отдельная интеграция. ModSecurity inline без persistent ipset pipeline.");
      ("proof", JStr "72h soak · 864 образца · 0 ошибок")];
    JObj [
      ("what", JStr "Каждый шаг пишет Prometheus-метрики с tenant, Grafana dashboards и SOC timeline :8443. Операторы управляют Telegram alerts и ack в одном panel.");
      ("advantages", JArr [
        JStr "Метрики loganalyzer_* с tenant_id — multi-tenant observability";
        JStr "SOC timeline, attack map и матрица /tests в одном dashboard";
        JStr "Self-hosted :8443 — без данных в стороннее облако";
        JStr "14-файловый PDF/JSON evidence pack синхронизируется автоматически"]);
      ("lg", JStr "Метрики + dashboard + proof в одном продукте — без SaaS CrowdSec и фрагментированного Grafana.");
      ("rivals", JStr "Fail2ban: ограниченные метрики/export. CrowdSec хочет managed SaaS или piecemeal self-hosted. ModSecurity — логи без SOC timeline и auto proof pack.");
      ("proof", JStr "75 тестов · competitive-proof.json · dashboard /tests")]].
Definition STEPS_ZH : json := JArr [
    JObj [
      ("what", JStr "实时读取您已在写入的 nginx 访问日志。无需额外反向代理、sidecar 或云端 agent — 服务器上的日志行就是单一链路的起点。");
      ("advantages", JArr [
        JStr "无需替换 nginx，仅调整日志格式即可";
        JStr "log_guardian 格式在一个 schema 中提供 URI、method、XFF 和 body";
        JStr "日志不上云 — 完全 self-hosted，数据留在您的服务器";
        JStr "逐行即时处理；约 15 分钟完成安装"]);
      ("lg", JStr "单一二进制读取 nginx 日志 — 无需单独安装 Fail2ban/CrowdSec agent。");
      ("rivals", JStr "CrowdSec 需要独立 agent 和 central API。Fail2ban 读日志但到不了 WAF 层 — 架构零散。");
      ("proof", JStr "75 项自动化测试 · 安装 gate PASS")];
    JObj [
      ("what", JStr "将每行日志转为统一 schema：URI、HTTP method、X-Forwarded-For、User-Agent 及可选 body。WAF、封禁与指标层共享同一结构。");
      ("advantages", JArr [
        JStr "单一 schema — parser、WAF 与 ban pipeline 无格式冲突";
        JStr "XFF 与 proxy 链规范化以提取正确客户端 IP";
        JStr "高行/秒吞吐 — 基准测试已测量";
        JStr "Strict 模式在安装 gate 捕获缺失字段"]);
      ("lg", JStr "Log → 规范化 → WAF 同一进程；无中间格式或 ETL。");
      ("rivals", JStr "ModSecurity 在 nginx 内联运行，但基于日志的封禁需单独 Fail2ban。CrowdSec 使用不同 parser 与信号网络。");
      ("proof", JStr "280,373 EPS · 16.93× ModSec (bench-vs-modsec.json)")];
    JObj [
      ("what", JStr "用 121 条 OWASP CRS 规则、PCRE2 JIT 及 OpenAPI/schema + BOLA 校验评估攻击模式。在同一 corpus 上与 ModSecurity 测得 100% parity。");
      ("advantages", JArr [
        JStr "121 条 OWASP CRS — 行业标准 WAF 覆盖";
        JStr "PCRE2 JIT 高吞吐；测得 280,373 EPS";
        JStr "Schema/BOLA 层捕获 API 滥用";
        JStr "真实攻击 recall 100% · 误报 0.2%（1500 行 corpus）"]);
      ("lg", JStr "WAF + CRS 同一产品 — 无需单独 ModSecurity 模块。相同 121 规则比 ModSec 快 16.93×。");
      ("rivals", JStr "ModSecurity + CRS 是 nginx 独立模块 — 内联拦截首请求但无 log→ban 链。Fail2ban 不做 WAF 评估。");
      ("proof", JStr "CRS parity 100% · recall 100% · FP 0.2%")];
    JObj [
      ("what", JStr "WAF 匹配后，tenant 策略、封禁阈值、FP trust 分数与操作员确认合并在一条决策路径。错误封禁风险由实测 gate 约束。");
      ("advantages", JArr [
        JStr "Policy + tenant + FP trust 同一 pipeline — 无需单独 Fail2ban jail";
        JStr "500 行 benign 上 FP 0.2% — 实测 gate";
        JStr "Multi-tenant 标签流入 Prometheus 与 dashboard";
        JStr "IPC auth fail-closed；未授权 ban 命令被拒绝"]);
      ("lg", JStr "日志行到 ban 决策中位 ~20 ms；policy、tenant 与 FP trust 同一代码路径。");
      ("rivals", JStr "Fail2ban 仅 regex/jail ban；FP trust 与 tenant 在其他系统。CrowdSec 需 central 决策与分布式 agent。");
      ("proof", JStr "中位 ban ~20 ms · 21 个样本 (bench-ban-latency.json)")];
    JObj [
      ("what", JStr "决策瞬间通过 ipset 与可选 XDP/eBPF 在内核级执行封禁。userspace→kernel 跳转测得中位 ~20 ms。");
      ("advantages", JArr [
        JStr "内核级封禁 — iptables/nftables + ipset；userspace 更难绕过";
        JStr "可选 XDP 丢包；笔记本/VM 上 --no-xdp + ipset 即可";
        JStr "日志行到 ban 中位 ~20 ms（21 样本）";
        JStr "分布式攻击：JA3 cluster + 按 IP ban — 80 IP  live 测试 100%"]);
      ("lg", JStr "Log → kernel ban 单一链路 ~20 ms。Fail2ban/CrowdSec 仍在秒–分钟级。");
      ("rivals", JStr "Fail2ban 封禁延迟为秒–分钟。CrowdSec 依赖信号网络；kernel ban 是另一集成。ModSecurity 内联拦截但无持久 ipset pipeline。");
      ("proof", JStr "72h soak · 864 样本 · 0 错误")];
    JObj [
      ("what", JStr "每一步写入带 tenant 标签的 Prometheus 指标、Grafana 面板与 :8443 SOC dashboard timeline。操作员在同一面板管理 Telegram 告警与一键 ack。");
      ("advantages", JArr [
        JStr "tenant_id 标签的 loganalyzer_* 指标 — 多租户可观测性";
        JStr "SOC timeline、attack map 与 /tests 证明矩阵同一 dashboard";
        JStr "Self-hosted :8443 — 数据不上第三方云";
        JStr "14 文件 PDF/JSON 证据包自动同步"]);
      ("lg", JStr "指标 + dashboard + 证明同一产品 — 无需 CrowdSec SaaS 控制台或零散 Grafana。");
      ("rivals", JStr "Fail2ban 指标/export 有限。CrowdSec 要 managed SaaS 或零散 self-hosted。ModSecurity 产日志但无 SOC timeline 与自动证据包。");
      ("proof", JStr "75 测试 · competitive-proof.json · dashboard /tests")]].
Definition STEPS_JA : json := JArr [
    JObj [
      ("what", JStr "すでに書き込んでいる nginx アクセスログをリアルタイムで読み取ります。追加のリバースプロキシ、サイドカー、クラウド agent は不要 — サーバー上のログ行が単一チェーンの起点です。");
      ("advantages", JArr [
        JStr "nginx を置き換えずに動作；ログ形式の調整のみ";
        JStr "log_guardian 形式で URI、method、XFF、body を単一スキーマに";
        JStr "ログをクラウドに送らない — 完全 self-hosted";
        JStr "行ごとに即時処理；セットアップ約15分"]);
      ("lg", JStr "単一バイナリが nginx ログを読む — Fail2ban/CrowdSec agent の別途インストール不要。");
      ("rivals", JStr "CrowdSec は別 agent と central API が必要。Fail2ban はログを読むが WAF 層に到達しない — 断片的アーキテクチャ。");
      ("proof", JStr "75 自動テスト · インストール gate PASS")];
    JObj [
      ("what", JStr "各行を URI、HTTP method、X-Forwarded-For、User-Agent、任意 body の正規化スキーマに変換。WAF、ban、メトリクス層が同じ構造を共有。");
      ("advantages", JArr [
        JStr "単一スキーマ — parser、WAF、ban pipeline 間の形式不一致なし";
        JStr "XFF と proxy チェーンを正規化して正しいクライアント IP";
        JStr "高い行/秒スループット — ベンチマークで測定";
        JStr "Strict モードでインストール gate が欠落フィールドを検出"]);
      ("lg", JStr "Log → 正規化 → WAF を同一プロセス内；中間形式や ETL なし。");
      ("rivals", JStr "ModSecurity は nginx 内 inline だが、ログベース ban には別 Fail2ban が必要。CrowdSec は別 parser と信号ネットワーク。");
      ("proof", JStr "280,373 EPS · 16.93× ModSec (bench-vs-modsec.json)")];
    JObj [
      ("what", JStr "121 OWASP CRS ルール、PCRE2 JIT、OpenAPI/schema + BOLA 検証で攻撃パターンを評価。同一 corpus で ModSecurity と 100% parity を測定。");
      ("advantages", JArr [
        JStr "121 OWASP CRS ルール — 業界標準 WAF カバレッジ";
        JStr "PCRE2 JIT で高スループット；280,373 EPS 測定";
        JStr "Schema/BOLA 層が API 悪用を検出";
        JStr "実攻撃 recall 100% · FP 0.2%（1500行 corpus）"]);
      ("lg", JStr "WAF + CRS を単一製品に — ModSecurity モジュール不要。同じ121ルールで ModSec の16.93倍速。");
      ("rivals", JStr "ModSecurity + CRS は nginx 別モジュール — 最初のリクエストを inline ブロックするが log→ban チェーンなし。Fail2ban は WAF 評価なし。");
      ("proof", JStr "CRS parity 100% · recall 100% · FP 0.2%")];
    JObj [
      ("what", JStr "WAF マッチ後、tenant ポリシー、ban 閾値、FP trust スコア、オペレータ ack を単一 decision path に統合。誤 ban リスクは測定 gate で制限。");
      ("advantages", JArr [
        JStr "Policy + tenant + FP trust を単一 pipeline — Fail2ban jail 別設定不要";
        JStr "500 benign 行で FP 0.2% — 測定 gate";
        JStr "Multi-tenant ラベルが Prometheus と dashboard へ";
        JStr "IPC auth は fail-closed；未認可 ban コマンドは拒否"]);
      ("lg", JStr "ログ行から ban 決定まで中央値 ~20 ms；policy、tenant、FP trust が同一 code path。");
      ("rivals", JStr "Fail2ban は regex/jail ban のみ；FP trust と tenant は別システム。CrowdSec は central 決定と分散 agent が必要。");
      ("proof", JStr "中央値 ban ~20 ms · 21 サンプル (bench-ban-latency.json)")];
    JObj [
      ("what", JStr "決定と同時に ipset と任意 XDP/eBPF でカーネルレベル ban を適用。userspace→kernel 遷移は測定中央値 ~20 ms。");
      ("advantages", JArr [
        JStr "カーネルレベル ban — iptables/nftables + ipset；userspace からの回避が困難";
        JStr "任意 XDP パケット drop；ラップトップ/VM では --no-xdp + ipset で十分";
        JStr "ログ行から ban まで中央値 ~20 ms（21 サンプル）";
        JStr "分散攻撃：JA3 cluster + IP ごと ban — 80 IP live テスト 100%"]);
      ("lg", JStr "Log → kernel ban を単一チェーン ~20 ms。Fail2ban/CrowdSec は秒–分レベル。");
      ("rivals", JStr "Fail2ban ban 遅延は秒–分。CrowdSec は信号ネットワーク依存；kernel ban は別統合。ModSecurity は inline ブロックだが永続 ipset pipeline なし。");
      ("proof", JStr "72h soak · 864 サンプル · 0 エラー")];
    JObj [
      ("what", JStr "各ステップが tenant タグ付き Prometheus メトリクス、Grafana ダッシュボード、:8443 SOC timeline に書き込み。オペレータは同一 panel で Telegram アラートとワンクリック ack を管理。");
      ("advantages", JArr [
        JStr "tenant_id タグの loganalyzer_* メトリクス — マルチテナント observability";
        JStr "SOC timeline、attack map、/tests 証明マトリクスを同一 dashboard";
        JStr "Self-hosted :8443 — 第三者クラウドへデータ送信なし";
        JStr "14 ファイル PDF/JSON 証拠パックを自動同期"]);
      ("lg", JStr "メトリクス + dashboard + 証明を単一製品 — CrowdSec SaaS コンソールや断片 Grafana 不要。");
      ("rivals", JStr "Fail2ban はメトリクス/export 限定的。CrowdSec は managed SaaS や断片 self-hosted を要求。ModSecurity はログのみで SOC timeline と自動証明パックなし。");
      ("proof", JStr "75 テスト · competitive-proof.json · dashboard /tests")]].
Definition STEPS_KO : json := JArr [
    JObj [
      ("what", JStr "이미 기록 중인 nginx access log를 실시간으로 읽습니다. 추가 reverse proxy, sidecar, 클라우드 agent 불필요 — 서버의 log line이 단일 체인의 시작입니다.");
      ("advantages", JArr [
        JStr "nginx 교체 없이 동작; log format 조정만 필요";
        JStr "log_guardian format으로 URI, method, XFF, body를 단일 schema에";
        JStr "log를 클라우드로 보내지 않음 — 완전 self-hosted";
        JStr "line별 즉시 처리; 설치 ~15분"]);
      ("lg", JStr "단일 binary가 nginx log 읽음 — Fail2ban/CrowdSec agent 별도 설치 없음.");
      ("rivals", JStr "CrowdSec는 별도 agent + central API 필요. Fail2ban은 log만 읽고 WAF layer까지 가지 않음 — 조각난 architecture.");
      ("proof", JStr "75 자동 테스트 · install gate PASS")];
    JObj [
      ("what", JStr "각 log line을 URI, HTTP method, X-Forwarded-For, User-Agent, 선택 body의 normalize schema로 변환. WAF, ban, metrics layer가 동일 구조 공유.");
      ("advantages", JArr [
        JStr "단일 schema — parser, WAF, ban pipeline 간 format 불일치 없음";
        JStr "XFF와 proxy chain normalize로 올바른 client IP";
        JStr "높은 line/sec throughput — benchmark 측정";
        JStr "Strict mode가 install gate에서 누락 field 포착"]);
      ("lg", JStr "Log → normalize → WAF 단일 process; 중간 format·ETL 없음.");
      ("rivals", JStr "ModSecurity는 nginx inline이나 log 기반 ban은 별도 Fail2ban 필요. CrowdSec는 다른 parser + signal network.");
      ("proof", JStr "280,373 EPS · 16.93× ModSec (bench-vs-modsec.json)")];
    JObj [
      ("what", JStr "121 OWASP CRS rule, PCRE2 JIT, OpenAPI/schema + BOLA validation으로 attack pattern 평가. 동일 corpus에서 ModSecurity와 100% parity 측정.");
      ("advantages", JArr [
        JStr "121 OWASP CRS rule — industry-standard WAF coverage";
        JStr "PCRE2 JIT 고 throughput; 280,373 EPS 측정";
        JStr "Schema/BOLA layer가 API abuse 포착";
        JStr "real attack recall 100% · FP 0.2% (1500-line corpus)"]);
      ("lg", JStr "WAF + CRS 단일 product — ModSecurity module 별도 설치 없음. 동일 121 rule에서 ModSec 대비 16.93× 빠름.");
      ("rivals", JStr "ModSecurity + CRS는 nginx 별도 module — 첫 request inline block하나 log→ban chain 없음. Fail2ban은 WAF evaluation 없음.");
      ("proof", JStr "CRS parity 100% · recall 100% · FP 0.2%")];
    JObj [
      ("what", JStr "WAF match 후 tenant policy, ban threshold, FP trust score, operator ack가 단일 decision path로 병합. wrong-ban risk는 measured gate로 제한.");
      ("advantages", JArr [
        JStr "Policy + tenant + FP trust 단일 pipeline — Fail2ban jail 별도 tuning 없음";
        JStr "500 benign line에서 FP 0.2% — measured gate";
        JStr "Multi-tenant label이 Prometheus·dashboard로";
        JStr "IPC auth fail-closed; unauthorized ban command 거부"]);
      ("lg", JStr "log line→ban decision median ~20 ms; policy, tenant, FP trust 단일 code path.");
      ("rivals", JStr "Fail2ban은 regex/jail ban만; FP trust·tenant는 다른 system. CrowdSec는 central decision + distributed agent 필요.");
      ("proof", JStr "median ban ~20 ms · 21 samples (bench-ban-latency.json)")];
    JObj [
      ("what", JStr "결정 즉시 ipset·optional XDP/eBPF로 kernel-level ban 적용. userspace→kernel hop measured median ~20 ms.");
      ("advantages", JArr [
        JStr "Kernel-level ban — iptables/nftables + ipset; userspace bypass 어려움";
        JStr "Optional XDP packet drop; laptop/VM에서 --no-xdp + ipset 충분";
        JStr "log line→ban median ~20 ms (21 samples)";
        JStr "Distributed attack: JA3 cluster + per-IP ban — 80 IP live test 100%"]);
      ("lg", JStr "Log → kernel ban 단일 chain ~20 ms. Fail2ban/CrowdSec는 seconds–minutes.");
      ("rivals", JStr "Fail2ban ban latency seconds–minutes. CrowdSec signal network 의존; kernel ban 별도 integration. ModSecurity inline block, persistent ipset pipeline 없음.");
      ("proof", JStr "72h soak · 864 samples · 0 errors")];
    JObj [
      ("what", JStr "각 step이 tenant-tagged Prometheus metrics, Grafana dashboard, :8443 SOC timeline에 기록. operator가 동일 panel에서 Telegram alert·one-click ack 관리.");
      ("advantages", JArr [
        JStr "tenant_id tagged loganalyzer_* metrics — multi-tenant observability";
        JStr "SOC timeline, attack map, /tests proof matrix 단일 dashboard";
        JStr "Self-hosted :8443 — third-party cloud로 data 미전송";
        JStr "14-file PDF/JSON evidence pack 자동 sync"]);
      ("lg", JStr "Metrics + dashboard + proof 단일 product — CrowdSec SaaS console·piecemeal Grafana 불필요.");
      ("rivals", JStr "Fail2ban metrics/export 제한. CrowdSec managed SaaS·piecemeal self-hosted 요구. ModSecurity log만, SOC timeline·auto proof pack 없음.");
      ("proof", JStr "80 tests · competitive-proof.json · dashboard /tests")]].
Definition STEPS_AR : json := JArr [
    JObj [
      ("what", JStr "يقرأ ملف access log لـ nginx الذي تكتبه بالفعل في الوقت الفعلي. لا حاجة لـ reverse proxy أو sidecar أو agent سحابي — سطر السجل على خادمك هو بداية سلسلة واحدة.");
      ("advantages", JArr [
        JStr "يعمل دون استبدال nginx؛ يكفي ضبط تنسيق السجل";
        JStr "تنسيق log_guardian يعرض URI وmethod وXFF وbody في schema واحد";
        JStr "لا إرسال للسجلات إلى السحابة — self-hosted بالكامل";
        JStr "معالجة فورية لكل سطر؛ التثبيت ~15 دقيقة"]);
      ("lg", JStr "binary واحد يقرأ سجلات nginx — دون agent منفصل Fail2ban/CrowdSec.");
      ("rivals", JStr "CrowdSec يحتاج agent منفصل وAPI مركزي. Fail2ban يقرأ السجلات لكن لا يصل لطبقة WAF — بنية مجزّأة.");
      ("proof", JStr "75 اختبارًا آليًا · gate التثبيت PASS")];
    JObj [
      ("what", JStr "يحوّل كل سطر إلى schema موحّد: URI وHTTP method وX-Forwarded-For وUser-Agent وbody اختياري. طبقات WAF والban والمقاييس تشترك البنية نفسها.");
      ("advantages", JArr [
        JStr "schema واحد — لا تعارض بين parser وWAF وban pipeline";
        JStr "XFF وسلاسل proxy موحّدة لاستخراج IP العميل الصحيح";
        JStr "throughput عالٍ بالأسطر/ث — مقاس في benchmarks";
        JStr "وضع strict يلتقط الحقول الناقصة عند gates التثبيت"]);
      ("lg", JStr "Log → normalize → WAF في process واحد؛ دون format وسيط أو ETL.");
      ("rivals", JStr "ModSecurity inline في nginx لكن الحظر من السجل يحتاج Fail2ban منفصل. CrowdSec parser مختلف + شبكة إشارات.");
      ("proof", JStr "280,373 EPS · 16.93× ModSec (bench-vs-modsec.json)")];
    JObj [
      ("what", JStr "يقيّم أنماط الهجوم بـ 121 قاعدة OWASP CRS وPCRE2 JIT وOpenAPI/schema + BOLA. parité 100% مع ModSecurity على نفس corpus.");
      ("advantages", JArr [
        JStr "121 قاعدة OWASP CRS — تغطية WAF معيارية";
        JStr "PCRE2 JIT لـ throughput عالٍ؛ 280,373 EPS مقاس";
        JStr "طبقة schema/BOLA تلتقط إساءة API";
        JStr "recall 100% للهجمات الحقيقية · FP 0.2% (corpus 1500 سطر)"]);
      ("lg", JStr "WAF + CRS في منتج واحد — دون module ModSecurity منفصل. أسرع 16.93× من ModSec على نفس 121 قاعدة.");
      ("rivals", JStr "ModSecurity + CRS module منفصل على nginx — يحظر الطلب الأول inline لكن بلا سلسلة log→ban. Fail2ban لا يقيّم WAF.");
      ("proof", JStr "CRS parity 100% · recall 100% · FP 0.2%")];
    JObj [
      ("what", JStr "بعد تطابق WAF، policy المستأجر وعتبة الحظر وFP trust وack المشغّل تندمج في مسار قرار واحد. خطر الحظر الخاطئ محدود بـ gates مقاسة.");
      ("advantages", JArr [
        JStr "Policy + tenant + FP trust في pipeline واحد — دون jails Fail2ban منفصلة";
        JStr "FP 0.2% على 500 سطر benign — gate مقاس";
        JStr "تسميات multi-tenant إلى Prometheus وdashboard";
        JStr "IPC auth fail-closed؛ أوامر ban غير المصرّح بها مرفوضة"]);
      ("lg", JStr "median ~20 ms من سطر السجل إلى قرار الحظر؛ policy وtenant وFP trust في code path واحد.");
      ("rivals", JStr "Fail2ban يطلق bans regex/jail فقط؛ FP trust وtenant في أنظمة أخرى. CrowdSec يحتاج قرارًا مركزيًا وagents موزّعة.");
      ("proof", JStr "median ban ~20 ms · 21 عينة (bench-ban-latency.json)")];
    JObj [
      ("what", JStr "يطبّق الحظر على مستوى النواة عبر ipset وXDP/eBPF اختياري لحظة القرار. انتقال userspace→kernel بmedian ~20 ms مقاس.");
      ("advantages", JArr [
        JStr "حظر مستوى النواة — iptables/nftables + ipset؛ تجاوز userspace أصعب";
        JStr "XDP drop اختياري؛ على laptop/VM يكفي --no-xdp + ipset";
        JStr "median ~20 ms من سطر السجل إلى ban (21 عينة)";
        JStr "هجمات موزّعة: JA3 cluster + ban لكل IP — 100% في اختبار live 80 IP"]);
      ("lg", JStr "Log → kernel ban في سلسلة واحدة ~20 ms. Fail2ban/CrowdSec يبقيان بالثواني–الدقائق.");
      ("rivals", JStr "latency ban Fail2ban ثوانٍ–دقائق. CrowdSec يعتمد شبكة الإشارات؛ kernel ban تكامل آخر. ModSecurity inline بلا ipset pipeline دائم.");
      ("proof", JStr "72h soak · 864 عينة · 0 خطأ")];
    JObj [
      ("what", JStr "كل خطوة تكتب مقاييس Prometheus بوسم tenant وdashboards Grafana وtimeline SOC :8443. المشغّلون يديرون تنبيهات Telegram وack بنقرة من نفس panel.");
      ("advantages", JArr [
        JStr "مقاييس loganalyzer_* بوسم tenant_id — observability متعدد المستأجرين";
        JStr "timeline SOC وattack map ومصفوفة /tests في dashboard واحد";
        JStr "Self-hosted :8443 — لا بيانات لسحابة طرف ثالث";
        JStr "حزمة دليل PDF/JSON 14 ملفًا تتزامن تلقائيًا"]);
      ("lg", JStr "مقاييس + dashboard + دليل في منتج واحد — دون console SaaS CrowdSec أو Grafana مجزّأ.");
      ("rivals", JStr "Fail2ban مقاييس/export محدود. CrowdSec يريد SaaS مُدار أو self-hosted مجزّأ. ModSecurity ينتج سجلات بلا timeline SOC أو حزمة دليل تلقائية.");
      ("proof", JStr "75 اختبار · competitive-proof.json · dashboard /tests")]].
Definition STEPS_AZ : json := JArr [
    JObj [
      ("what", JStr "Artıq yazdığınız nginx access log faylını real vaxtda oxuyur. Əlavə reverse proxy, sidecar və ya bulud agent lazım deyil — serverdəki log sətri tək zəncirin başlanğıcıdır.");
      ("advantages", JArr [
        JStr "Mövcud nginx quraşdırmasına toxunmadan işləyir; yalnız log formatı kifayətdir";
        JStr "log_guardian formatı ilə URI, method, XFF və body tək sxemada";
        JStr "Logları buluda göndərmir — tam self-hosted";
        JStr "Sətir başına ani emal; quraşdırma ~15 dəqiqə"]);
      ("lg", JStr "Tək binary nginx logunu oxuyur; ayrı Fail2ban/CrowdSec agent yoxdur.");
      ("rivals", JStr "CrowdSec ayrı agent + mərkəzi API istəyir. Fail2ban log oxuyur amma WAF qatına çatmır — parçalı memarlıq.");
      ("proof", JStr "75 avtomatik test · quraşdırma gate PASS")];
    JObj [
      ("what", JStr "Hər log sətirini URI, HTTP method, X-Forwarded-For, User-Agent və istəyə görə body ilə tək normalize sxemaya çevirir. WAF, ban və metrik qatları eyni strukturu paylaşır.");
      ("advantages", JArr [
        JStr "Tək sxema — parser, WAF və ban pipeline arasında format uyğunsuzluğu yoxdur";
        JStr "XFF və proxy zənciri düzgün IP üçün normalize edilir";
        JStr "Yüksək sətir/saniyə throughput — bench ilə ölçülüb";
        JStr "Strict rejim quraşdırma gate-də boş sahələri tutur"]);
      ("lg", JStr "Log → normalize → WAF eyni prosesdə; ara format və ya ETL yoxdur.");
      ("rivals", JStr "ModSecurity nginx-də inline işləyir amma log əsaslı ban üçün ayrı Fail2ban lazımdır. CrowdSec fərqli parser + siqnal şəbəkəsi.");
      ("proof", JStr "280.373 EPS · 16,93× ModSec (bench-vs-modsec.json)")];
    JObj [
      ("what", JStr "121 OWASP CRS qaydası, PCRE2 JIT və OpenAPI/schema + BOLA ilə hücum nümunələrini qiymətləndirir. Eyni corpusta ModSecurity ilə 100% paritet ölçülüb.");
      ("advantages", JArr [
        JStr "121 OWASP CRS qaydası — sənaye standartı WAF əhatəsi";
        JStr "PCRE2 JIT yüksək throughput; 280.373 EPS ölçülüb";
        JStr "Schema/BOLA qatı API sui-istifadəsini tutur";
        JStr "Real hücum recall 100% · FP 0,2% (1500 sətir corpus)"]);
      ("lg", JStr "WAF + CRS tək məhsulda; ayrı ModSecurity modulu yox. Eyni 121 qaydada ModSec-dən 16,93× sürətli.");
      ("rivals", JStr "ModSecurity + CRS ayrı modul — ilk sorğunu inline bloklayır amma log→ban zənciri yoxdur. Fail2ban WAF qiymətləndirməsi etmir.");
      ("proof", JStr "CRS paritet 100% · recall 100% · FP 0,2%")];
    JObj [
      ("what", JStr "WAF uyğunluğundan sonra tenant siyasəti, ban həddi, FP trust skoru və operator təsdiqi tək qərar yolunda birləşir. Səhv ban riski ölçülü gate-lərlə məhdudlaşır.");
      ("advantages", JArr [
        JStr "Policy + tenant + FP trust tək pipeline — ayrı Fail2ban jail yox";
        JStr "500 benign sətirdə 0,2% FP — ölçülü gate";
        JStr "Multi-tenant etiketlər Prometheus və dashboard-a gedir";
        JStr "IPC auth fail-closed; icazəsiz ban əmrləri rədd edilir"]);
      ("lg", JStr "Log sətirindən ban qərarına ~20 ms median; policy, tenant və FP trust eyni code path-də.");
      ("rivals", JStr "Fail2ban yalnız regex/jail ban atır; FP trust və tenant başqa sistemlərdə. CrowdSec mərkəzi qərar + paylanmış agent istəyir.");
      ("proof", JStr "~20 ms median ban · 21 ölçüm (bench-ban-latency.json)")];
    JObj [
      ("what", JStr "Qərar anında ipset və istəyə görə XDP/eBPF ilə kernel səviyyəsində ban tətbiq edir. Userspace→kernel keçidi ölçülü ~20 ms median.");
      ("advantages", JArr [
        JStr "Kernel səviyyəli ban — iptables/nftables + ipset";
        JStr "XDP paket drop opsional; laptop/VM-də --no-xdp + ipset kifayətdir";
        JStr "Log sətirindən bana ~20 ms median (21 ölçüm)";
        JStr "Paylanmış hücum: JA3 klaster + IP başına ban — 80 IP testdə 100%"]);
      ("lg", JStr "Log → kernel ban tək zəncirdə ~20 ms. Fail2ban/CrowdSec saniyə–dəqiqə səviyyəsində qalır.");
      ("rivals", JStr "Fail2ban ban gecikməsi saniyələr–dəqiqələr. CrowdSec siqnal şəbəkəsinə bağlıdır; kernel ban ayrı inteqrasiya. ModSecurity inline bloklayır amma davamlı ipset pipeline yoxdur.");
      ("proof", JStr "72s soak · 864 nümunə · 0 xəta")];
    JObj [
      ("what", JStr "Hər addım tenant etiketli Prometheus metrikləri, Grafana panelləri və :8443 SOC timeline-a yazır. Operator Telegram alert və bir klik ack eyni paneldən idarə edir.");
      ("advantages", JArr [
        JStr "tenant_id etiketli loganalyzer_* metrikləri";
        JStr "SOC timeline, attack map və /tests sübut matrisi eyni dashboard-da";
        JStr "Self-hosted :8443 — məlumat üçüncü tərəf buluda getmir";
        JStr "14 fayllıq PDF/JSON sübut paketi avtomatik sinxron"]);
      ("lg", JStr "Metrik + dashboard + sübut tək məhsulda; CrowdSec SaaS konsolu və ya parçalı Grafana lazım deyil.");
      ("rivals", JStr "Fail2ban metrik/export məhdud. CrowdSec managed SaaS və ya parçalı self-hosted. ModSecurity log verir amma SOC timeline və avtomatik sübut paketi yoxdur.");
      ("proof", JStr "80 test · competitive-proof.json · dashboard /tests")]].
Definition STEPS_KK : json := JArr [
    JObj [
      ("what", JStr "Сіз жазып жатқан nginx access log файлын нақты уақытта оқиды. Қос reverse proxy, sidecar немесе бұлт agent қажет емес — сервердегі log жолы бір тізбектің басы.");
      ("advantages", JArr [
        JStr "nginx-ті ауыстырмай жұмыс істейді; тек log форматын реттеу керек";
        JStr "log_guardian форматы URI, method, XFF және body-ді бір schema-да береді";
        JStr "Logтарды бұлтқа жібермейді — толық self-hosted";
        JStr "Жol бойынша лезде өңдеу; орнату ~15 минут"]);
      ("lg", JStr "Бір binary nginx log-ын оқиды — бөлек Fail2ban/CrowdSec agent жоқ.");
      ("rivals", JStr "CrowdSec бөлек agent + орталық API керек. Fail2ban log оқиды бірақ WAF қабатына жетпейді — бөлшек архитектура.");
      ("proof", JStr "75 автоматты тест · орнату gate PASS")];
    JObj [
      ("what", JStr "Әр log жолын URI, HTTP method, X-Forwarded-For, User-Agent және опционал body-мен бір normalize schema-ға айналдырады. WAF, ban және метрика қабаттары бір құрылымды paydalanады.");
      ("advantages", JArr [
        JStr "Бір schema — parser, WAF және ban pipeline арасында формат сәйкessizдігі жоқ";
        JStr "XFF және proxy тізбектері дұрыс client IP үшін normalize";
        JStr "Жоғары жол/сек throughput — benchmark-та өлшенген";
        JStr "Strict mode орнату gate-терінде өрістерді ұстайды"]);
      ("lg", JStr "Log → normalize → WAF бір process-те; ara format немесе ETL жоқ.");
      ("rivals", JStr "ModSecurity nginx-те inline, бірақ log негізіндегі ban үшін бөлек Fail2ban керек. CrowdSec басқа parser + signal network.");
      ("proof", JStr "280 373 EPS · 16,93× ModSec (bench-vs-modsec.json)")];
    JObj [
      ("what", JStr "121 OWASP CRS ережесі, PCRE2 JIT және OpenAPI/schema + BOLA арқылы шабуыл үлгілерін бағалайды. Сол corpusta ModSecurity-пен 100% parity өлшенген.");
      ("advantages", JArr [
        JStr "121 OWASP CRS ережесі — индустрия стандарты WAF";
        JStr "PCRE2 JIT жоғары throughput; 280 373 EPS өлшенген";
        JStr "Schema/BOLA қабаты API зиянды пайдалануын ұстайды";
        JStr "Нағыз шабуыл recall 100% · FP 0,2% (1500 жол corpus)"]);
      ("lg", JStr "WAF + CRS бір өнімде — бөлек ModSecurity модулі жоқ. Сол 121 ереже бойынша ModSec-ten 16,93× жылдам.");
      ("rivals", JStr "ModSecurity + CRS бөлек nginx модулі — бірінші сұранысты inline блоктайды бірақ log→ban тізбегі жоқ. Fail2ban WAF бағалауын орындамайды.");
      ("proof", JStr "CRS parity 100% · recall 100% · FP 0,2%")];
    JObj [
      ("what", JStr "WAF match-тен кейін tenant саясаты, ban порогы, FP trust score және operator ack бір decision path-те біріктіріледі. Қате ban тәуекелі өлшенген gate-термен шектелген.");
      ("advantages", JArr [
        JStr "Policy + tenant + FP trust бір pipeline-да — бөлек Fail2ban jail жоқ";
        JStr "500 benign жолда 0,2% FP — өлшенген gate";
        JStr "Multi-tenant label-дар Prometheus пен dashboard-қа ағады";
        JStr "IPC auth fail-closed; рұқсатсыз ban командалары қабылданбайды"]);
      ("lg", JStr "Log жолынан ban шешіміне ~20 ms median; policy, tenant және FP trust бір code path-те.");
      ("rivals", JStr "Fail2ban тек regex/jail ban; FP trust және tenant басқа жүйелerde. CrowdSec орталық шешім + таратылған agent керек.");
      ("proof", JStr "~20 ms median ban · 21 үлgi (bench-ban-latency.json)")];
    JObj [
      ("what", JStr "Шешім сәтінде ipset және опционал XDP/eBPF арқылы kernel деңгейінде ban қолданады. Userspace→kernel өтуі ~20 ms median өлшенген.");
      ("advantages", JArr [
        JStr "Kernel деңgей ban — iptables/nftables + ipset";
        JStr "XDP packet drop опционал; laptop/VM-де --no-xdp + ipset жеткілікті";
        JStr "Log жолынан ban-ға ~20 ms median (21 үлgi)";
        JStr "Таратылған шабуыл: JA3 cluster + IP бойынша ban — 80 IP live test 100%"]);
      ("lg", JStr "Log → kernel ban бір тізбекте ~20 ms. Fail2ban/CrowdSec секунд–минут деңгейінде.");
      ("rivals", JStr "Fail2ban ban кідірісі секунд–минут. CrowdSec signal network-ке тәуелді; kernel ban бөлек интеграция. ModSecurity inline, persistent ipset pipeline жоқ.");
      ("proof", JStr "72 сағ soak · 864 үлgi · 0 қате")];
    JObj [
      ("what", JStr "Әр қadam tenant белгісі бар Prometheus метрикалары, Grafana dashboard-тары және :8443 SOC timeline-ға жазады. Operator Telegram alert және бір басу ack бір panelден.");
      ("advantages", JArr [
        JStr "tenant_id белгісі бар loganalyzer_* метрикалары";
        JStr "SOC timeline, attack map және /tests дәлел матрицасы бір dashboard-та";
        JStr "Self-hosted :8443 — деректер үшінші тарап бұлтына gitmez";
        JStr "14 файлдық PDF/JSON дәлел пакеті автоматты синхрон"]);
      ("lg", JStr "Метрика + dashboard + дәлел бір өнімде — CrowdSec SaaS консолі немесе бөлшек Grafana қажет емес.");
      ("rivals", JStr "Fail2ban метрика/export шектеулі. CrowdSec managed SaaS немесе бөлшек self-hosted. ModSecurity log береді бірақ SOC timeline және auto proof pack жоқ.");
      ("proof", JStr "75 тест · competitive-proof.json · dashboard /tests")]].
Definition STEPS_BY_LOCALE : list (jstring * json) := [("de", STEPS_DE); ("fr", STEPS_FR); ("es", STEPS_ES); ("ru", STEPS_RU); ("zh", STEPS_ZH); ("ja", STEPS_JA); ("ko", STEPS_KO); ("ar", STEPS_AR); ("az", STEPS_AZ); ("kk", STEPS_KK)] ++ STEPS_EXTRA_BY_LOCALE.
