(* ===== verification/LandingTiers.v ===== *)
(** The texts of the three editions, from landing/lib/tiers.ts. *)

From S2P Require Import Prelude JsString JsNum Json LandingContent.

Definition CMD : json := JObj [
    ("deps", JStr ("sudo apt-get update" ++ [10] ++ "sudo apt-get install -y ipset libbpf1 libcurl4 libpcre2-8-0 \" ++ [10] ++ "  libsqlite3-0 libssl3 libelf1 liburing2 nginx"));
    ("build", JStr ("git clone https://github.com/kurtulusutkucenik/Linux-Log-Guardian.git" ++ [10] ++ "cd Linux-Log-Guardian" ++ [10] ++ "make -j$(nproc)" ++ [10] ++ "sudo bash install.sh"));
    ("firstRun", JStr ("sudo bash scripts/install_first_run.sh" ++ [10] ++ "sudo bash scripts/ensure_api_security.sh" ++ [10] ++ "bash scripts/post_install_verify.sh"));
    ("nginx", JStr ("STRICT=1 bash scripts/check_nginx_log_format.sh" ++ [10] ++ "sudo nginx -t && sudo systemctl reload nginx"));
    ("health", JStr ("sudo log-guardian --health" ++ [10] ++ "curl -s http://127.0.0.1:9091/metrics | grep loganalyzer_" ++ [10] ++ "sudo ipset list log-guardian-ban | head"));
    ("docker", JStr ("curl -fsSL https://get.docker.com | sudo sh" ++ [10] ++ "sudo usermod -aG docker $USER   # yeniden oturum aç"));
    ("proStack", JStr "bash scripts/dashboard_stack.sh");
    ("proVerify", JStr ("curl -sk https://localhost:8443/api/tier | jq ." ++ [10] ++ "# tarayıcı: https://localhost:8443  (admin / .env DASHBOARD_ADMIN_PASSWORD)"));
    ("k8sCli", JStr "sudo bash scripts/install_k8s_cli.sh   # kind + kubectl + helm");
    ("proPlusStack", JStr "bash scripts/pro_plus_stack.sh");
    ("proPlusVerify", JStr ("bash scripts/pro_plus_status.sh   # Core / Pro / Pro Plus RAM ayrı ölçüm" ++ [10] ++ "bash scripts/pro_plus_down.sh     # K8s vitrin kapat → ~1,2 GB RAM geri"))].
Definition OUT : json := JObj [
    ("deps", JStr ("Setting up ipset ..." ++ [10] ++ "Setting up nginx ..."));
    ("build", JStr ("cc -O2 ... -o log-guardian" ++ [10] ++ "cc -O2 ... -o log-guardian-daemon" ++ [10] ++ "[install] systemd unit'leri kuruldu"));
    ("firstRun", JStr ("[OK] servisler aktif" ++ [10] ++ "[OK] API fail-closed (tokensiz 403)" ++ [10] ++ "  FAIL: 0   WARN: 0"));
    ("nginx", JStr ("[check] access_log log_guardian aktif" ++ [10] ++ "nginx: configuration file test is successful"));
    ("health", JStr ("[HEALTH] daemon IPC: OK" ++ [10] ++ "loganalyzer_ban_success_total{tenant_id=" ++ dq ++ "default" ++ dq ++ "} 8" ++ [10] ++ "Members:" ++ [10] ++ "203.0.113.250"));
    ("docker", JStr ("Docker version 27.x" ++ [10] ++ "[OK] docker aktif"));
    ("proStack", JStr ("[dashboard] docker compose build + up" ++ [10] ++ "[OK] https://localhost:8443 hazir"));
    ("proVerify", JStr ("{ " ++ dq ++ "tier" ++ dq ++ ": " ++ dq ++ "pro" ++ dq ++ " }"));
    ("k8sCli", JStr "[OK] kind + kubectl + helm kuruldu");
    ("proPlusStack", JStr ("[pro_plus_stack] kind cluster olusturuldu" ++ [10] ++ "[pro_plus_stack] helm install log-guardian" ++ [10] ++ "[OK] pro_plus — K8s vitrin + helm kaniti hazir"));
    ("proPlusVerify", JStr ("Core ~110 MB · Pro ~730 MB · Pro Plus ~1,9 GB" ++ [10] ++ "[OK] pro_plus_down — kind kapali"))].
Definition STEP_CMDS : json := JArr [
    fld "deps" CMD;
    fld "build" CMD;
    fld "firstRun" CMD;
    fld "nginx" CMD;
    fld "health" CMD;
    fld "docker" CMD;
    fld "proStack" CMD;
    fld "proVerify" CMD;
    fld "k8sCli" CMD;
    fld "proPlusStack" CMD;
    fld "proPlusVerify" CMD].
Definition STEP_OUTS : json := JArr [
    fld "deps" OUT;
    fld "build" OUT;
    fld "firstRun" OUT;
    fld "nginx" OUT;
    fld "health" OUT;
    fld "docker" OUT;
    fld "proStack" OUT;
    fld "proVerify" OUT;
    fld "k8sCli" OUT;
    fld "proPlusStack" OUT;
    fld "proPlusVerify" OUT].
Definition TR_PACK : json := JObj [
    ("eyebrow", JStr "//:Sürümler");
    ("sub", JStr "Aynı C çekirdeği, üç paketleme. İhtiyacın olan katmanı seç — hepsi bir arada 'mega platform' değil.");
    ("ramLabel", JStr "RAM");
    ("diskLabel", JStr "Disk");
    ("chainLabel", JStr "Zincir");
    ("includesLabel", JStr "İçindekiler");
    ("protectionNote", JStr "Koruma seviyesi üç sürümde de aynıdır. Pro ve Pro Plus yalnızca görünürlük ve entegrasyon kanıtı ekler.");
    ("respTitle", JStr "RAM ve disk artışı — sorumluluk sınırı");
    ("respBody", JStr "Sürüm büyüdükçe artan RAM ve disk Log Guardian C çekirdeğinden kaynaklanmaz. Core binary ~515 KB ve ~110 MB RAM'de kalır. Fazlalık, SOC ve demo için seçtiğin harici araçların (Docker, Grafana, kind vb.) kapladığı alandır — kapatınca veya sadece Core çalıştırınca maliyet düşer.");
    ("respCols", JArr [JStr "Katman"; JStr "Log Guardian sorumluluğu"; JStr "Üçüncü parti (bizim dışımızda)"]);
    ("respRows", JArr [
      JArr [JStr "log-guardian + daemon + config/DB (~110 MB RAM, ~4–55 MB disk)"; JStr "—"];
      JArr [
        JStr "Aynı Core binary; ek koruma yok";
        JStr "Docker image'ları, Node.js dashboard, Grafana, Prometheus, Caddy"];
      JArr [
        JStr "Yine aynı Core; ek koruma yok";
        JStr "kind/K8s node, Helm chart pod'ları, operator, opsiyonel Wasm/mesh"]]);
    ("installEyebrow", JStr "//:Kurulum");
    ("installTitle", JStr "Sürüme göre kurulum rehberi");
    ("installSub", JStr "Sekmeni seç; her rehber kendi kendine yeter — Pro için Core'a, Pro Plus için Pro/Core'a bakmana gerek yok.");
    ("selfContainedNote", JStr "Bu rehber baştan sona tek başına tamamlanır. Ubuntu 22.04/24.04 veya Debian 12 (amd64), root/sudo.");
    ("stepsWord", JStr "adım");
    ("badges", JArr [JStr "önerilen"; JStr "SOC paneli"; JStr "en kapsamlı"]);
    ("taglines", JArr [
      JStr "log → WAF → kernel ban. Üretimde tek başına yeterli.";
      JStr "Core + SOC dashboard, Grafana, Prometheus, Caddy TLS, fleet.";
      JStr "Pro + K8s/Helm kanıtı (kind), fleet vitrin, opsiyonel Wasm/mesh."]);
    ("chains", JArr [
      JStr "C binary → log → WAF → ban";
      JStr "Core + Dashboard + Grafana + Caddy + Prometheus";
      JStr "Pro + K8s/Helm kanıtı (kind) + fleet + Wasm/mesh"]);
    ("rams", JArr [JStr "~110 MB"; JStr "~730 MB (laptop) · ~400 MB (VM)"; JStr "~1,9 GB (laptop, hepsi açık)"]);
    ("disks", JArr [
      JStr "~4 MB (temiz) · ~55 MB (events.db dolu)";
      JStr "~5,3 GB (VM, çoğunlukla Docker image)";
      JStr "Pro disk + ~2–3 GB (kind volume)"]);
    ("includes", JArr [
      JArr [
        JStr "nginx parser";
        JStr "OWASP CRS 121 kural";
        JStr "ban pipeline";
        JStr "ipset / XDP";
        JStr "Prometheus metrik"];
      JArr [
        JStr "SOC timeline (:8443)";
        JStr "Grafana + $tenant panelleri";
        JStr "Caddy TLS + JWT";
        JStr "fleet / multi-tenant";
        JStr "Telegram ops"];
      JArr [
        JStr "helm install log-guardian";
        JStr "kind + admission webhook";
        JStr "DaemonSet + operator";
        JStr "fleet vitrin";
        JStr "Wasm/mesh (ops.)"]]);
    ("stepTitles", JArr [
      JStr "Bağımlılıklar";
      JStr "Kaynak + derleme + kurulum";
      JStr "İlk çalıştırma + API güvenliği";
      JStr "Nginx log formatı";
      JStr "Sağlık + ilk ban testi";
      JStr "Docker (kuruluysa atla)";
      JStr "Pro SOC stack'i başlat";
      JStr "Dashboard doğrula";
      JStr "K8s CLI (kind + kubectl + helm)";
      JStr "Pro Plus stack (kind + Helm)";
      JStr "Ölç + demo bitince kapat"]);
    ("stepDescs", JArr [
      JStr "Debian/Ubuntu paket bağımlılıklarını ve (yoksa) nginx'i yükleyin.";
      JStr "Repoyu klonlayın, tüm çekirdeklerle derleyin ve install.sh ile systemd unit'lerini + kuralları kurun.";
      JStr "Servisleri başlatır, API token'ı fail-closed hazırlar ve kurulum kapısını doğrular (FAIL: 0 bekleyin).";
      JStr "WAF'ın body + X-Forwarded-For okuyabilmesi için log_guardian formatını uygulayın ve nginx'i reload edin.";
      JStr "Daemon IPC, Prometheus metrik ve ipset ban listesini kontrol edin. Core artık üretimde.";
      JStr "Pro stack (dashboard, Grafana, Prometheus, Caddy) Docker ile çalışır.";
      JStr "Dashboard + Grafana + Prometheus + Caddy TLS'i tek komutla ayağa kaldırır (LOG_GUARDIAN_TIER=pro).";
      JStr "Tier'ı ve :8443 SOC panelini doğrulayın. Giriş: admin / .env DASHBOARD_ADMIN_PASSWORD.";
      JStr "Pro Plus vitrini için Kubernetes araçlarını kurar.";
      JStr "kind cluster oluşturur ve helm install ile 'cluster'da da çalışır' kanıtını üretir.";
      JStr "RAM'i katman katman ölçün; demo bitince kind'i kapatıp ~1,2 GB RAM'i geri alın."])].
Definition EN_PACK : json := JObj [
    ("eyebrow", JStr "//:Editions");
    ("sub", JStr "Same C core, three packagings. Pick the layer you need — not an all-in-one 'mega platform'.");
    ("ramLabel", JStr "RAM");
    ("diskLabel", JStr "Disk");
    ("chainLabel", JStr "Chain");
    ("includesLabel", JStr "Includes");
    ("protectionNote", JStr "The protection level is identical across all three editions. Pro and Pro Plus only add visibility and integration proof.");
    ("respTitle", JStr "RAM & disk growth — the responsibility boundary");
    ("respBody", JStr "The RAM and disk that grow with higher editions do not come from the Log Guardian C core. The Core binary stays at ~515 KB and ~110 MB RAM. The extra footprint is the third-party tools you chose for SOC and demos (Docker, Grafana, kind, etc.) — shut them down or run Core only and the cost drops.");
    ("respCols", JArr [JStr "Layer"; JStr "Log Guardian's responsibility"; JStr "Third-party (outside us)"]);
    ("respRows", JArr [
      JArr [JStr "log-guardian + daemon + config/DB (~110 MB RAM, ~4–55 MB disk)"; JStr "—"];
      JArr [
        JStr "Same Core binary; no extra protection";
        JStr "Docker images, Node.js dashboard, Grafana, Prometheus, Caddy"];
      JArr [
        JStr "Still the same Core; no extra protection";
        JStr "kind/K8s node, Helm chart pods, operator, optional Wasm/mesh"]]);
    ("installEyebrow", JStr "//:Setup");
    ("installTitle", JStr "Install guide by edition");
    ("installSub", JStr "Pick your tab; each guide is self-contained — you don't need to read Core for Pro, or Pro/Core for Pro Plus.");
    ("selfContainedNote", JStr "This guide completes end to end on its own. Ubuntu 22.04/24.04 or Debian 12 (amd64), root/sudo.");
    ("stepsWord", JStr "steps");
    ("badges", JArr [JStr "recommended"; JStr "SOC panel"; JStr "most complete"]);
    ("taglines", JArr [
      JStr "log → WAF → kernel ban. Enough on its own in production.";
      JStr "Core + SOC dashboard, Grafana, Prometheus, Caddy TLS, fleet.";
      JStr "Pro + K8s/Helm proof (kind), fleet showcase, optional Wasm/mesh."]);
    ("chains", JArr [
      JStr "C binary → log → WAF → ban";
      JStr "Core + Dashboard + Grafana + Caddy + Prometheus";
      JStr "Pro + K8s/Helm proof (kind) + fleet + Wasm/mesh"]);
    ("rams", JArr [JStr "~110 MB"; JStr "~730 MB (laptop) · ~400 MB (VM)"; JStr "~1.9 GB (laptop, all on)"]);
    ("disks", JArr [
      JStr "~4 MB (clean) · ~55 MB (events.db full)";
      JStr "~5.3 GB (VM, mostly Docker images)";
      JStr "Pro disk + ~2–3 GB (kind volume)"]);
    ("includes", JArr [
      JArr [
        JStr "nginx parser";
        JStr "OWASP CRS 121 rules";
        JStr "ban pipeline";
        JStr "ipset / XDP";
        JStr "Prometheus metrics"];
      JArr [
        JStr "SOC timeline (:8443)";
        JStr "Grafana + $tenant panels";
        JStr "Caddy TLS + JWT";
        JStr "fleet / multi-tenant";
        JStr "Telegram ops"];
      JArr [
        JStr "helm install log-guardian";
        JStr "kind + admission webhook";
        JStr "DaemonSet + operator";
        JStr "fleet showcase";
        JStr "Wasm/mesh (opt.)"]]);
    ("stepTitles", JArr [
      JStr "Dependencies";
      JStr "Source + build + install";
      JStr "First run + API security";
      JStr "Nginx log format";
      JStr "Health + first ban test";
      JStr "Docker (skip if installed)";
      JStr "Start the Pro SOC stack";
      JStr "Verify the dashboard";
      JStr "K8s CLI (kind + kubectl + helm)";
      JStr "Pro Plus stack (kind + Helm)";
      JStr "Measure + shut down after the demo"]);
    ("stepDescs", JArr [
      JStr "Install Debian/Ubuntu package dependencies and nginx (if missing).";
      JStr "Clone the repo, build with all cores and install systemd units + rules via install.sh.";
      JStr "Starts services, prepares the fail-closed API token and verifies the setup gate (expect FAIL: 0).";
      JStr "Apply the log_guardian format so the WAF can read body + X-Forwarded-For, then reload nginx.";
      JStr "Check daemon IPC, Prometheus metrics and the ipset ban list. Core is now in production.";
      JStr "The Pro stack (dashboard, Grafana, Prometheus, Caddy) runs on Docker.";
      JStr "Brings up dashboard + Grafana + Prometheus + Caddy TLS in one command (LOG_GUARDIAN_TIER=pro).";
      JStr "Verify the tier and the :8443 SOC panel. Login: admin / .env DASHBOARD_ADMIN_PASSWORD.";
      JStr "Installs the Kubernetes tools for the Pro Plus showcase.";
      JStr "Creates a kind cluster and produces the 'runs on a cluster too' proof via helm install.";
      JStr "Measure RAM layer by layer; after the demo shut kind down and reclaim ~1.2 GB RAM."])].
Definition DE_PACK : json := JObj [
    ("eyebrow", JStr "//:Editionen");
    ("sub", JStr "Derselbe C-Kern, drei Pakete. Wähle die Schicht, die du brauchst — keine All-in-one-'Mega-Plattform'.");
    ("ramLabel", JStr "RAM");
    ("diskLabel", JStr "Disk");
    ("chainLabel", JStr "Kette");
    ("includesLabel", JStr "Enthält");
    ("protectionNote", JStr "Das Schutzniveau ist in allen drei Editionen identisch. Pro und Pro Plus fügen nur Sichtbarkeit und Integrationsnachweis hinzu.");
    ("respTitle", JStr "RAM- & Disk-Wachstum — die Verantwortungsgrenze");
    ("respBody", JStr "Der mit höheren Editionen wachsende RAM und Disk stammt nicht aus dem Log-Guardian-C-Kern. Das Core-Binary bleibt bei ~515 KB und ~110 MB RAM. Der Mehrbedarf sind die von dir gewählten Drittanbieter-Tools für SOC und Demos (Docker, Grafana, kind usw.) — schalte sie ab oder betreibe nur Core, und die Kosten sinken.");
    ("respCols", JArr [JStr "Schicht"; JStr "Verantwortung von Log Guardian"; JStr "Drittanbieter (außerhalb von uns)"]);
    ("respRows", JArr [
      JArr [JStr "log-guardian + daemon + config/DB (~110 MB RAM, ~4–55 MB Disk)"; JStr "—"];
      JArr [
        JStr "Dasselbe Core-Binary; kein zusätzlicher Schutz";
        JStr "Docker-Images, Node.js-Dashboard, Grafana, Prometheus, Caddy"];
      JArr [
        JStr "Weiterhin derselbe Core; kein zusätzlicher Schutz";
        JStr "kind/K8s-Node, Helm-Chart-Pods, Operator, optional Wasm/mesh"]]);
    ("installEyebrow", JStr "//:Setup");
    ("installTitle", JStr "Installationsanleitung nach Edition");
    ("installSub", JStr "Wähle deinen Tab; jede Anleitung ist eigenständig — du musst für Pro nicht Core lesen, für Pro Plus nicht Pro/Core.");
    ("selfContainedNote", JStr "Diese Anleitung ist von Anfang bis Ende eigenständig. Ubuntu 22.04/24.04 oder Debian 12 (amd64), root/sudo.");
    ("stepsWord", JStr "Schritte");
    ("badges", JArr [JStr "empfohlen"; JStr "SOC-Panel"; JStr "am umfassendsten"]);
    ("taglines", JArr [
      JStr "log → WAF → Kernel-Ban. Allein produktionsreif.";
      JStr "Core + SOC-Dashboard, Grafana, Prometheus, Caddy TLS, Flotte.";
      JStr "Pro + K8s/Helm-Nachweis (kind), Flotten-Showcase, optional Wasm/mesh."]);
    ("chains", JArr [
      JStr "C-Binary → Log → WAF → Ban";
      JStr "Core + Dashboard + Grafana + Caddy + Prometheus";
      JStr "Pro + K8s/Helm-Nachweis (kind) + Flotte + Wasm/mesh"]);
    ("rams", JArr [JStr "~110 MB"; JStr "~730 MB (Laptop) · ~400 MB (VM)"; JStr "~1,9 GB (Laptop, alles an)"]);
    ("disks", JArr [
      JStr "~4 MB (sauber) · ~55 MB (events.db voll)";
      JStr "~5,3 GB (VM, meist Docker-Images)";
      JStr "Pro-Disk + ~2–3 GB (kind-Volume)"]);
    ("includes", JArr [
      JArr [
        JStr "nginx-Parser";
        JStr "OWASP CRS 121 Regeln";
        JStr "Ban-Pipeline";
        JStr "ipset / XDP";
        JStr "Prometheus-Metriken"];
      JArr [
        JStr "SOC-Timeline (:8443)";
        JStr "Grafana + $tenant-Panels";
        JStr "Caddy TLS + JWT";
        JStr "Flotte / Multi-Tenant";
        JStr "Telegram-Ops"];
      JArr [
        JStr "helm install log-guardian";
        JStr "kind + Admission-Webhook";
        JStr "DaemonSet + Operator";
        JStr "Flotten-Showcase";
        JStr "Wasm/mesh (opt.)"]]);
    ("stepTitles", JArr [
      JStr "Abhängigkeiten";
      JStr "Quelle + Build + Installation";
      JStr "Erster Start + API-Sicherheit";
      JStr "Nginx-Log-Format";
      JStr "Health + erster Ban-Test";
      JStr "Docker (überspringen, falls installiert)";
      JStr "Pro-SOC-Stack starten";
      JStr "Dashboard verifizieren";
      JStr "K8s-CLI (kind + kubectl + helm)";
      JStr "Pro-Plus-Stack (kind + Helm)";
      JStr "Messen + nach der Demo herunterfahren"]);
    ("stepDescs", JArr [
      JStr "Installiere die Debian/Ubuntu-Paketabhängigkeiten und nginx (falls fehlend).";
      JStr "Klone das Repo, baue mit allen Kernen und installiere systemd-Units + Regeln via install.sh.";
      JStr "Startet Dienste, bereitet das fail-closed API-Token vor und prüft das Setup-Gate (erwarte FAIL: 0).";
      JStr "Wende das log_guardian-Format an, damit die WAF Body + X-Forwarded-For lesen kann, dann nginx neu laden.";
      JStr "Prüfe daemon-IPC, Prometheus-Metriken und die ipset-Ban-Liste. Core ist jetzt produktiv.";
      JStr "Der Pro-Stack (Dashboard, Grafana, Prometheus, Caddy) läuft auf Docker.";
      JStr "Startet Dashboard + Grafana + Prometheus + Caddy TLS mit einem Befehl (LOG_GUARDIAN_TIER=pro).";
      JStr "Verifiziere die Edition und das :8443-SOC-Panel. Login: admin / .env DASHBOARD_ADMIN_PASSWORD.";
      JStr "Installiert die Kubernetes-Tools für den Pro-Plus-Showcase.";
      JStr "Erstellt einen kind-Cluster und erzeugt den 'läuft auch im Cluster'-Nachweis via helm install.";
      JStr "Miss den RAM Schicht für Schicht; fahre kind nach der Demo herunter und gewinne ~1,2 GB RAM zurück."])].
Definition FR_PACK : json := JObj [
    ("eyebrow", JStr "//:Éditions");
    ("sub", JStr "Le même cœur C, trois packagings. Choisis la couche dont tu as besoin — pas une 'méga-plateforme' tout-en-un.");
    ("ramLabel", JStr "RAM");
    ("diskLabel", JStr "Disque");
    ("chainLabel", JStr "Chaîne");
    ("includesLabel", JStr "Inclut");
    ("protectionNote", JStr "Le niveau de protection est identique dans les trois éditions. Pro et Pro Plus n'ajoutent que de la visibilité et une preuve d'intégration.");
    ("respTitle", JStr "Croissance RAM & disque — la limite de responsabilité");
    ("respBody", JStr "La RAM et le disque qui augmentent avec les éditions supérieures ne viennent pas du cœur C de Log Guardian. Le binaire Core reste à ~515 Ko et ~110 Mo de RAM. Le surplus provient des outils tiers que tu as choisis pour le SOC et les démos (Docker, Grafana, kind, etc.) — arrête-les ou n'exécute que Core et le coût baisse.");
    ("respCols", JArr [JStr "Couche"; JStr "Responsabilité de Log Guardian"; JStr "Tiers (hors de nous)"]);
    ("respRows", JArr [
      JArr [JStr "log-guardian + daemon + config/DB (~110 Mo RAM, ~4–55 Mo disque)"; JStr "—"];
      JArr [
        JStr "Même binaire Core ; aucune protection supplémentaire";
        JStr "Images Docker, dashboard Node.js, Grafana, Prometheus, Caddy"];
      JArr [
        JStr "Toujours le même Core ; aucune protection supplémentaire";
        JStr "nœud kind/K8s, pods Helm chart, opérateur, Wasm/mesh optionnel"]]);
    ("installEyebrow", JStr "//:Installation");
    ("installTitle", JStr "Guide d'installation par édition");
    ("installSub", JStr "Choisis ton onglet ; chaque guide est autonome — pas besoin de lire Core pour Pro, ni Pro/Core pour Pro Plus.");
    ("selfContainedNote", JStr "Ce guide se complète de bout en bout tout seul. Ubuntu 22.04/24.04 ou Debian 12 (amd64), root/sudo.");
    ("stepsWord", JStr "étapes");
    ("badges", JArr [JStr "recommandé"; JStr "panneau SOC"; JStr "le plus complet"]);
    ("taglines", JArr [
      JStr "log → WAF → ban noyau. Suffisant seul en production.";
      JStr "Core + dashboard SOC, Grafana, Prometheus, Caddy TLS, flotte.";
      JStr "Pro + preuve K8s/Helm (kind), vitrine de flotte, Wasm/mesh optionnel."]);
    ("chains", JArr [
      JStr "binaire C → log → WAF → ban";
      JStr "Core + Dashboard + Grafana + Caddy + Prometheus";
      JStr "Pro + preuve K8s/Helm (kind) + flotte + Wasm/mesh"]);
    ("rams", JArr [JStr "~110 Mo"; JStr "~730 Mo (portable) · ~400 Mo (VM)"; JStr "~1,9 Go (portable, tout activé)"]);
    ("disks", JArr [
      JStr "~4 Mo (propre) · ~55 Mo (events.db plein)";
      JStr "~5,3 Go (VM, surtout images Docker)";
      JStr "disque Pro + ~2–3 Go (volume kind)"]);
    ("includes", JArr [
      JArr [
        JStr "parseur nginx";
        JStr "OWASP CRS 121 règles";
        JStr "pipeline de ban";
        JStr "ipset / XDP";
        JStr "métriques Prometheus"];
      JArr [
        JStr "timeline SOC (:8443)";
        JStr "Grafana + panneaux $tenant";
        JStr "Caddy TLS + JWT";
        JStr "flotte / multi-tenant";
        JStr "ops Telegram"];
      JArr [
        JStr "helm install log-guardian";
        JStr "kind + admission webhook";
        JStr "DaemonSet + opérateur";
        JStr "vitrine de flotte";
        JStr "Wasm/mesh (opt.)"]]);
    ("stepTitles", JArr [
      JStr "Dépendances";
      JStr "Source + build + installation";
      JStr "Premier lancement + sécurité API";
      JStr "Format de log Nginx";
      JStr "Santé + premier test de ban";
      JStr "Docker (ignorer si installé)";
      JStr "Démarrer le stack SOC Pro";
      JStr "Vérifier le dashboard";
      JStr "CLI K8s (kind + kubectl + helm)";
      JStr "Stack Pro Plus (kind + Helm)";
      JStr "Mesurer + arrêter après la démo"]);
    ("stepDescs", JArr [
      JStr "Installe les dépendances de paquets Debian/Ubuntu et nginx (s'il manque).";
      JStr "Clone le dépôt, compile avec tous les cœurs et installe les units systemd + règles via install.sh.";
      JStr "Démarre les services, prépare le token API fail-closed et vérifie le gate d'installation (attends FAIL: 0).";
      JStr "Applique le format log_guardian pour que la WAF lise le body + X-Forwarded-For, puis recharge nginx.";
      JStr "Vérifie l'IPC du daemon, les métriques Prometheus et la liste de ban ipset. Core est maintenant en production.";
      JStr "Le stack Pro (dashboard, Grafana, Prometheus, Caddy) tourne sur Docker.";
      JStr "Démarre dashboard + Grafana + Prometheus + Caddy TLS en une commande (LOG_GUARDIAN_TIER=pro).";
      JStr "Vérifie l'édition et le panneau SOC :8443. Connexion : admin / .env DASHBOARD_ADMIN_PASSWORD.";
      JStr "Installe les outils Kubernetes pour la vitrine Pro Plus.";
      JStr "Crée un cluster kind et produit la preuve 'tourne aussi sur un cluster' via helm install.";
      JStr "Mesure la RAM couche par couche ; après la démo, arrête kind et récupère ~1,2 Go de RAM."])].
Definition ES_PACK : json := JObj [
    ("eyebrow", JStr "//:Ediciones");
    ("sub", JStr "El mismo núcleo C, tres empaquetados. Elige la capa que necesitas — no una 'megaplataforma' todo en uno.");
    ("ramLabel", JStr "RAM");
    ("diskLabel", JStr "Disco");
    ("chainLabel", JStr "Cadena");
    ("includesLabel", JStr "Incluye");
    ("protectionNote", JStr "El nivel de protección es idéntico en las tres ediciones. Pro y Pro Plus solo añaden visibilidad y prueba de integración.");
    ("respTitle", JStr "Crecimiento de RAM y disco — el límite de responsabilidad");
    ("respBody", JStr "La RAM y el disco que crecen con ediciones superiores no provienen del núcleo C de Log Guardian. El binario Core se mantiene en ~515 KB y ~110 MB de RAM. El extra son las herramientas de terceros que elegiste para SOC y demos (Docker, Grafana, kind, etc.) — apágalas o ejecuta solo Core y el coste baja.");
    ("respCols", JArr [JStr "Capa"; JStr "Responsabilidad de Log Guardian"; JStr "Terceros (fuera de nosotros)"]);
    ("respRows", JArr [
      JArr [JStr "log-guardian + daemon + config/DB (~110 MB RAM, ~4–55 MB disco)"; JStr "—"];
      JArr [
        JStr "Mismo binario Core; sin protección extra";
        JStr "Imágenes Docker, dashboard Node.js, Grafana, Prometheus, Caddy"];
      JArr [
        JStr "Sigue siendo el mismo Core; sin protección extra";
        JStr "nodo kind/K8s, pods del Helm chart, operador, Wasm/mesh opcional"]]);
    ("installEyebrow", JStr "//:Instalación");
    ("installTitle", JStr "Guía de instalación por edición");
    ("installSub", JStr "Elige tu pestaña; cada guía es autónoma — no necesitas leer Core para Pro, ni Pro/Core para Pro Plus.");
    ("selfContainedNote", JStr "Esta guía se completa de principio a fin por sí sola. Ubuntu 22.04/24.04 o Debian 12 (amd64), root/sudo.");
    ("stepsWord", JStr "pasos");
    ("badges", JArr [JStr "recomendado"; JStr "panel SOC"; JStr "el más completo"]);
    ("taglines", JArr [
      JStr "log → WAF → ban de kernel. Suficiente por sí solo en producción.";
      JStr "Core + dashboard SOC, Grafana, Prometheus, Caddy TLS, flota.";
      JStr "Pro + prueba K8s/Helm (kind), escaparate de flota, Wasm/mesh opcional."]);
    ("chains", JArr [
      JStr "binario C → log → WAF → ban";
      JStr "Core + Dashboard + Grafana + Caddy + Prometheus";
      JStr "Pro + prueba K8s/Helm (kind) + flota + Wasm/mesh"]);
    ("rams", JArr [JStr "~110 MB"; JStr "~730 MB (portátil) · ~400 MB (VM)"; JStr "~1,9 GB (portátil, todo activado)"]);
    ("disks", JArr [
      JStr "~4 MB (limpio) · ~55 MB (events.db lleno)";
      JStr "~5,3 GB (VM, sobre todo imágenes Docker)";
      JStr "disco Pro + ~2–3 GB (volumen kind)"]);
    ("includes", JArr [
      JArr [
        JStr "parser nginx";
        JStr "OWASP CRS 121 reglas";
        JStr "pipeline de ban";
        JStr "ipset / XDP";
        JStr "métricas Prometheus"];
      JArr [
        JStr "timeline SOC (:8443)";
        JStr "Grafana + paneles $tenant";
        JStr "Caddy TLS + JWT";
        JStr "flota / multi-tenant";
        JStr "ops Telegram"];
      JArr [
        JStr "helm install log-guardian";
        JStr "kind + admission webhook";
        JStr "DaemonSet + operador";
        JStr "escaparate de flota";
        JStr "Wasm/mesh (opc.)"]]);
    ("stepTitles", JArr [
      JStr "Dependencias";
      JStr "Fuente + build + instalación";
      JStr "Primer arranque + seguridad API";
      JStr "Formato de log Nginx";
      JStr "Salud + primera prueba de ban";
      JStr "Docker (omitir si está instalado)";
      JStr "Iniciar el stack SOC Pro";
      JStr "Verificar el dashboard";
      JStr "CLI K8s (kind + kubectl + helm)";
      JStr "Stack Pro Plus (kind + Helm)";
      JStr "Medir + apagar tras la demo"]);
    ("stepDescs", JArr [
      JStr "Instala las dependencias de paquetes Debian/Ubuntu y nginx (si falta).";
      JStr "Clona el repo, compila con todos los núcleos e instala units systemd + reglas via install.sh.";
      JStr "Inicia los servicios, prepara el token API fail-closed y verifica el gate de instalación (espera FAIL: 0).";
      JStr "Aplica el formato log_guardian para que la WAF lea el body + X-Forwarded-For, luego recarga nginx.";
      JStr "Comprueba el IPC del daemon, las métricas Prometheus y la lista de ban ipset. Core ya está en producción.";
      JStr "El stack Pro (dashboard, Grafana, Prometheus, Caddy) se ejecuta sobre Docker.";
      JStr "Levanta dashboard + Grafana + Prometheus + Caddy TLS en un comando (LOG_GUARDIAN_TIER=pro).";
      JStr "Verifica la edición y el panel SOC :8443. Acceso: admin / .env DASHBOARD_ADMIN_PASSWORD.";
      JStr "Instala las herramientas de Kubernetes para el escaparate Pro Plus.";
      JStr "Crea un clúster kind y produce la prueba 'también corre en un clúster' via helm install.";
      JStr "Mide la RAM capa por capa; tras la demo apaga kind y recupera ~1,2 GB de RAM."])].
Definition PT_PACK : json := JObj [
    ("eyebrow", JStr "//:Edições");
    ("sub", JStr "O mesmo núcleo C, três empacotamentos. Escolhe a camada de que precisas — não uma 'megaplataforma' tudo-em-um.");
    ("ramLabel", JStr "RAM");
    ("diskLabel", JStr "Disco");
    ("chainLabel", JStr "Cadeia");
    ("includesLabel", JStr "Inclui");
    ("protectionNote", JStr "O nível de proteção é idêntico nas três edições. Pro e Pro Plus apenas adicionam visibilidade e prova de integração.");
    ("respTitle", JStr "Crescimento de RAM e disco — o limite de responsabilidade");
    ("respBody", JStr "A RAM e o disco que crescem com edições superiores não vêm do núcleo C do Log Guardian. O binário Core mantém-se em ~515 KB e ~110 MB de RAM. O excesso são as ferramentas de terceiros que escolheste para SOC e demos (Docker, Grafana, kind, etc.) — desliga-as ou executa apenas o Core e o custo desce.");
    ("respCols", JArr [JStr "Camada"; JStr "Responsabilidade do Log Guardian"; JStr "Terceiros (fora de nós)"]);
    ("respRows", JArr [
      JArr [JStr "log-guardian + daemon + config/DB (~110 MB RAM, ~4–55 MB disco)"; JStr "—"];
      JArr [
        JStr "Mesmo binário Core; sem proteção extra";
        JStr "Imagens Docker, dashboard Node.js, Grafana, Prometheus, Caddy"];
      JArr [
        JStr "Ainda o mesmo Core; sem proteção extra";
        JStr "nó kind/K8s, pods do Helm chart, operador, Wasm/mesh opcional"]]);
    ("installEyebrow", JStr "//:Instalação");
    ("installTitle", JStr "Guia de instalação por edição");
    ("installSub", JStr "Escolhe o teu separador; cada guia é autónomo — não precisas de ler o Core para o Pro, nem Pro/Core para o Pro Plus.");
    ("selfContainedNote", JStr "Este guia completa-se de ponta a ponta sozinho. Ubuntu 22.04/24.04 ou Debian 12 (amd64), root/sudo.");
    ("stepsWord", JStr "passos");
    ("badges", JArr [JStr "recomendado"; JStr "painel SOC"; JStr "o mais completo"]);
    ("taglines", JArr [
      JStr "log → WAF → ban de kernel. Suficiente sozinho em produção.";
      JStr "Core + dashboard SOC, Grafana, Prometheus, Caddy TLS, frota.";
      JStr "Pro + prova K8s/Helm (kind), montra de frota, Wasm/mesh opcional."]);
    ("chains", JArr [
      JStr "binário C → log → WAF → ban";
      JStr "Core + Dashboard + Grafana + Caddy + Prometheus";
      JStr "Pro + prova K8s/Helm (kind) + frota + Wasm/mesh"]);
    ("rams", JArr [JStr "~110 MB"; JStr "~730 MB (portátil) · ~400 MB (VM)"; JStr "~1,9 GB (portátil, tudo ligado)"]);
    ("disks", JArr [
      JStr "~4 MB (limpo) · ~55 MB (events.db cheio)";
      JStr "~5,3 GB (VM, sobretudo imagens Docker)";
      JStr "disco Pro + ~2–3 GB (volume kind)"]);
    ("includes", JArr [
      JArr [
        JStr "parser nginx";
        JStr "OWASP CRS 121 regras";
        JStr "pipeline de ban";
        JStr "ipset / XDP";
        JStr "métricas Prometheus"];
      JArr [
        JStr "timeline SOC (:8443)";
        JStr "Grafana + painéis $tenant";
        JStr "Caddy TLS + JWT";
        JStr "frota / multi-tenant";
        JStr "ops Telegram"];
      JArr [
        JStr "helm install log-guardian";
        JStr "kind + admission webhook";
        JStr "DaemonSet + operador";
        JStr "montra de frota";
        JStr "Wasm/mesh (opc.)"]]);
    ("stepTitles", JArr [
      JStr "Dependências";
      JStr "Fonte + build + instalação";
      JStr "Primeiro arranque + segurança da API";
      JStr "Formato de log Nginx";
      JStr "Saúde + primeiro teste de ban";
      JStr "Docker (ignora se instalado)";
      JStr "Iniciar o stack SOC Pro";
      JStr "Verificar o dashboard";
      JStr "CLI K8s (kind + kubectl + helm)";
      JStr "Stack Pro Plus (kind + Helm)";
      JStr "Medir + desligar após a demo"]);
    ("stepDescs", JArr [
      JStr "Instala as dependências de pacotes Debian/Ubuntu e o nginx (se faltar).";
      JStr "Clona o repo, compila com todos os núcleos e instala as units systemd + regras via install.sh.";
      JStr "Inicia os serviços, prepara o token de API fail-closed e verifica o gate de instalação (espera FAIL: 0).";
      JStr "Aplica o formato log_guardian para a WAF ler o body + X-Forwarded-For, depois recarrega o nginx.";
      JStr "Verifica o IPC do daemon, as métricas Prometheus e a lista de ban ipset. O Core já está em produção.";
      JStr "O stack Pro (dashboard, Grafana, Prometheus, Caddy) corre sobre Docker.";
      JStr "Sobe dashboard + Grafana + Prometheus + Caddy TLS num comando (LOG_GUARDIAN_TIER=pro).";
      JStr "Verifica a edição e o painel SOC :8443. Login: admin / .env DASHBOARD_ADMIN_PASSWORD.";
      JStr "Instala as ferramentas Kubernetes para a montra Pro Plus.";
      JStr "Cria um cluster kind e produz a prova 'também corre num cluster' via helm install.";
      JStr "Mede a RAM camada a camada; após a demo desliga o kind e recupera ~1,2 GB de RAM."])].
Definition NL_PACK : json := JObj [
    ("eyebrow", JStr "//:Edities");
    ("sub", JStr "Dezelfde C-kern, drie verpakkingen. Kies de laag die je nodig hebt — geen alles-in-één 'megaplatform'.");
    ("ramLabel", JStr "RAM");
    ("diskLabel", JStr "Schijf");
    ("chainLabel", JStr "Keten");
    ("includesLabel", JStr "Bevat");
    ("protectionNote", JStr "Het beschermingsniveau is in alle drie de edities identiek. Pro en Pro Plus voegen alleen zichtbaarheid en integratiebewijs toe.");
    ("respTitle", JStr "RAM- & schijfgroei — de verantwoordelijkheidsgrens");
    ("respBody", JStr "De RAM en schijf die met hogere edities groeien, komen niet uit de Log Guardian C-kern. De Core-binary blijft op ~515 KB en ~110 MB RAM. Het extra is de door jou gekozen externe tools voor SOC en demo's (Docker, Grafana, kind enz.) — schakel ze uit of draai alleen Core en de kosten dalen.");
    ("respCols", JArr [JStr "Laag"; JStr "Verantwoordelijkheid van Log Guardian"; JStr "Derden (buiten ons)"]);
    ("respRows", JArr [
      JArr [JStr "log-guardian + daemon + config/DB (~110 MB RAM, ~4–55 MB schijf)"; JStr "—"];
      JArr [
        JStr "Dezelfde Core-binary; geen extra bescherming";
        JStr "Docker-images, Node.js-dashboard, Grafana, Prometheus, Caddy"];
      JArr [
        JStr "Nog steeds dezelfde Core; geen extra bescherming";
        JStr "kind/K8s-node, Helm-chart-pods, operator, optioneel Wasm/mesh"]]);
    ("installEyebrow", JStr "//:Installatie");
    ("installTitle", JStr "Installatiegids per editie");
    ("installSub", JStr "Kies je tab; elke gids is op zichzelf staand — je hoeft voor Pro geen Core te lezen, of Pro/Core voor Pro Plus.");
    ("selfContainedNote", JStr "Deze gids voltooit van begin tot eind op zichzelf. Ubuntu 22.04/24.04 of Debian 12 (amd64), root/sudo.");
    ("stepsWord", JStr "stappen");
    ("badges", JArr [JStr "aanbevolen"; JStr "SOC-paneel"; JStr "meest compleet"]);
    ("taglines", JArr [
      JStr "log → WAF → kernel-ban. Alleen al genoeg in productie.";
      JStr "Core + SOC-dashboard, Grafana, Prometheus, Caddy TLS, fleet.";
      JStr "Pro + K8s/Helm-bewijs (kind), fleet-showcase, optioneel Wasm/mesh."]);
    ("chains", JArr [
      JStr "C-binary → log → WAF → ban";
      JStr "Core + Dashboard + Grafana + Caddy + Prometheus";
      JStr "Pro + K8s/Helm-bewijs (kind) + fleet + Wasm/mesh"]);
    ("rams", JArr [JStr "~110 MB"; JStr "~730 MB (laptop) · ~400 MB (VM)"; JStr "~1,9 GB (laptop, alles aan)"]);
    ("disks", JArr [
      JStr "~4 MB (schoon) · ~55 MB (events.db vol)";
      JStr "~5,3 GB (VM, vooral Docker-images)";
      JStr "Pro-schijf + ~2–3 GB (kind-volume)"]);
    ("includes", JArr [
      JArr [
        JStr "nginx-parser";
        JStr "OWASP CRS 121 regels";
        JStr "ban-pipeline";
        JStr "ipset / XDP";
        JStr "Prometheus-metrics"];
      JArr [
        JStr "SOC-timeline (:8443)";
        JStr "Grafana + $tenant-panelen";
        JStr "Caddy TLS + JWT";
        JStr "fleet / multi-tenant";
        JStr "Telegram-ops"];
      JArr [
        JStr "helm install log-guardian";
        JStr "kind + admission webhook";
        JStr "DaemonSet + operator";
        JStr "fleet-showcase";
        JStr "Wasm/mesh (opt.)"]]);
    ("stepTitles", JArr [
      JStr "Afhankelijkheden";
      JStr "Broncode + build + installatie";
      JStr "Eerste start + API-beveiliging";
      JStr "Nginx-logformaat";
      JStr "Health + eerste ban-test";
      JStr "Docker (sla over indien geïnstalleerd)";
      JStr "Start de Pro SOC-stack";
      JStr "Verifieer het dashboard";
      JStr "K8s-CLI (kind + kubectl + helm)";
      JStr "Pro Plus-stack (kind + Helm)";
      JStr "Meet + sluit af na de demo"]);
    ("stepDescs", JArr [
      JStr "Installeer de Debian/Ubuntu-pakketafhankelijkheden en nginx (indien afwezig).";
      JStr "Kloon de repo, bouw met alle cores en installeer systemd-units + regels via install.sh.";
      JStr "Start diensten, bereidt het fail-closed API-token voor en verifieert de setup-gate (verwacht FAIL: 0).";
      JStr "Pas het log_guardian-formaat toe zodat de WAF body + X-Forwarded-For kan lezen, herlaad dan nginx.";
      JStr "Controleer daemon-IPC, Prometheus-metrics en de ipset-ban-lijst. Core draait nu in productie.";
      JStr "De Pro-stack (dashboard, Grafana, Prometheus, Caddy) draait op Docker.";
      JStr "Start dashboard + Grafana + Prometheus + Caddy TLS met één commando (LOG_GUARDIAN_TIER=pro).";
      JStr "Verifieer de editie en het :8443 SOC-paneel. Login: admin / .env DASHBOARD_ADMIN_PASSWORD.";
      JStr "Installeert de Kubernetes-tools voor de Pro Plus-showcase.";
      JStr "Maakt een kind-cluster en levert het 'draait ook op een cluster'-bewijs via helm install.";
      JStr "Meet de RAM laag voor laag; sluit kind na de demo af en win ~1,2 GB RAM terug."])].
Definition RU_PACK : json := JObj [
    ("eyebrow", JStr "//:Издания");
    ("sub", JStr "Одно C-ядро, три варианта поставки. Выбери нужный слой — это не универсальная «мегаплатформа».");
    ("ramLabel", JStr "ОЗУ");
    ("diskLabel", JStr "Диск");
    ("chainLabel", JStr "Цепочка");
    ("includesLabel", JStr "Включает");
    ("protectionNote", JStr "Уровень защиты одинаков во всех трёх изданиях. Pro и Pro Plus добавляют лишь наблюдаемость и доказательство интеграции.");
    ("respTitle", JStr "Рост ОЗУ и диска — граница ответственности");
    ("respBody", JStr "ОЗУ и диск, растущие в старших изданиях, не относятся к C-ядру Log Guardian. Бинарник Core остаётся на уровне ~515 КБ и ~110 МБ ОЗУ. Излишек — это выбранные тобой сторонние инструменты для SOC и демо (Docker, Grafana, kind и т.д.) — выключи их или запусти только Core, и затраты снизятся.");
    ("respCols", JArr [JStr "Слой"; JStr "Ответственность Log Guardian"; JStr "Третьи стороны (вне нас)"]);
    ("respRows", JArr [
      JArr [JStr "log-guardian + daemon + config/DB (~110 МБ ОЗУ, ~4–55 МБ диск)"; JStr "—"];
      JArr [
        JStr "Тот же бинарник Core; без доп. защиты";
        JStr "Docker-образы, Node.js-дашборд, Grafana, Prometheus, Caddy"];
      JArr [
        JStr "Всё тот же Core; без доп. защиты";
        JStr "узел kind/K8s, поды Helm chart, оператор, опционально Wasm/mesh"]]);
    ("installEyebrow", JStr "//:Установка");
    ("installTitle", JStr "Руководство по установке по изданиям");
    ("installSub", JStr "Выбери вкладку; каждое руководство самодостаточно — не нужно читать Core для Pro или Pro/Core для Pro Plus.");
    ("selfContainedNote", JStr "Это руководство выполняется от начала до конца самостоятельно. Ubuntu 22.04/24.04 или Debian 12 (amd64), root/sudo.");
    ("stepsWord", JStr "шагов");
    ("badges", JArr [JStr "рекомендуется"; JStr "панель SOC"; JStr "самое полное"]);
    ("taglines", JArr [
      JStr "log → WAF → бан в ядре. Самодостаточно в проде.";
      JStr "Core + SOC-дашборд, Grafana, Prometheus, Caddy TLS, флот.";
      JStr "Pro + доказательство K8s/Helm (kind), витрина флота, опционально Wasm/mesh."]);
    ("chains", JArr [
      JStr "C-бинарник → log → WAF → бан";
      JStr "Core + Dashboard + Grafana + Caddy + Prometheus";
      JStr "Pro + доказательство K8s/Helm (kind) + флот + Wasm/mesh"]);
    ("rams", JArr [JStr "~110 МБ"; JStr "~730 МБ (ноутбук) · ~400 МБ (VM)"; JStr "~1,9 ГБ (ноутбук, всё включено)"]);
    ("disks", JArr [
      JStr "~4 МБ (чисто) · ~55 МБ (events.db полон)";
      JStr "~5,3 ГБ (VM, в основном Docker-образы)";
      JStr "диск Pro + ~2–3 ГБ (том kind)"]);
    ("includes", JArr [
      JArr [
        JStr "nginx-парсер";
        JStr "OWASP CRS 121 правило";
        JStr "конвейер бана";
        JStr "ipset / XDP";
        JStr "метрики Prometheus"];
      JArr [
        JStr "SOC-таймлайн (:8443)";
        JStr "Grafana + панели $tenant";
        JStr "Caddy TLS + JWT";
        JStr "флот / мультитенант";
        JStr "Telegram-ops"];
      JArr [
        JStr "helm install log-guardian";
        JStr "kind + admission webhook";
        JStr "DaemonSet + оператор";
        JStr "витрина флота";
        JStr "Wasm/mesh (опц.)"]]);
    ("stepTitles", JArr [
      JStr "Зависимости";
      JStr "Исходники + сборка + установка";
      JStr "Первый запуск + безопасность API";
      JStr "Формат лога Nginx";
      JStr "Здоровье + первый тест бана";
      JStr "Docker (пропусти, если установлен)";
      JStr "Запуск Pro SOC-стека";
      JStr "Проверка дашборда";
      JStr "K8s CLI (kind + kubectl + helm)";
      JStr "Стек Pro Plus (kind + Helm)";
      JStr "Замер + выключение после демо"]);
    ("stepDescs", JArr [
      JStr "Установи зависимости пакетов Debian/Ubuntu и nginx (если отсутствует).";
      JStr "Клонируй репозиторий, собери на всех ядрах и установи systemd-юниты + правила через install.sh.";
      JStr "Запускает сервисы, готовит fail-closed API-токен и проверяет установочный гейт (ожидай FAIL: 0).";
      JStr "Примени формат log_guardian, чтобы WAF читала body + X-Forwarded-For, затем перезагрузи nginx.";
      JStr "Проверь IPC демона, метрики Prometheus и список бана ipset. Core теперь в продакшене.";
      JStr "Стек Pro (дашборд, Grafana, Prometheus, Caddy) работает на Docker.";
      JStr "Поднимает дашборд + Grafana + Prometheus + Caddy TLS одной командой (LOG_GUARDIAN_TIER=pro).";
      JStr "Проверь издание и SOC-панель :8443. Вход: admin / .env DASHBOARD_ADMIN_PASSWORD.";
      JStr "Устанавливает инструменты Kubernetes для витрины Pro Plus.";
      JStr "Создаёт кластер kind и выдаёт доказательство «работает и в кластере» через helm install.";
      JStr "Замерь ОЗУ слой за слоем; после демо выключи kind и верни ~1,2 ГБ ОЗУ."])].
Definition ZH_PACK : json := JObj [
    ("eyebrow", JStr "//:版本");
    ("sub", JStr "同一个 C 内核，三种打包。选择你需要的层级——不是一体化的“超级平台”。");
    ("ramLabel", JStr "内存");
    ("diskLabel", JStr "磁盘");
    ("chainLabel", JStr "链路");
    ("includesLabel", JStr "包含");
    ("protectionNote", JStr "三个版本的防护级别完全相同。Pro 和 Pro Plus 只增加可见性和集成证明。");
    ("respTitle", JStr "内存与磁盘增长——责任边界");
    ("respBody", JStr "随更高版本增长的内存和磁盘并非来自 Log Guardian C 内核。Core 二进制保持在约 515 KB 和约 110 MB 内存。多出的部分是你为 SOC 和演示选择的第三方工具（Docker、Grafana、kind 等）——关闭它们或只运行 Core，成本即下降。");
    ("respCols", JArr [JStr "层级"; JStr "Log Guardian 的责任"; JStr "第三方（我们之外）"]);
    ("respRows", JArr [
      JArr [JStr "log-guardian + daemon + 配置/DB（约 110 MB 内存，约 4–55 MB 磁盘）"; JStr "—"];
      JArr [JStr "同一个 Core 二进制；无额外防护"; JStr "Docker 镜像、Node.js 仪表板、Grafana、Prometheus、Caddy"];
      JArr [JStr "仍是同一个 Core；无额外防护"; JStr "kind/K8s 节点、Helm chart pod、operator、可选 Wasm/mesh"]]);
    ("installEyebrow", JStr "//:安装");
    ("installTitle", JStr "按版本的安装指南");
    ("installSub", JStr "选择你的标签页；每份指南都自成一体——Pro 无需看 Core，Pro Plus 无需看 Pro/Core。");
    ("selfContainedNote", JStr "本指南可从头到尾独立完成。Ubuntu 22.04/24.04 或 Debian 12（amd64），root/sudo。");
    ("stepsWord", JStr "步");
    ("badges", JArr [JStr "推荐"; JStr "SOC 面板"; JStr "最完整"]);
    ("taglines", JArr [
      JStr "log → WAF → 内核封禁。生产环境单独即可。";
      JStr "Core + SOC 仪表板、Grafana、Prometheus、Caddy TLS、fleet。";
      JStr "Pro + K8s/Helm 证明（kind）、fleet 展示、可选 Wasm/mesh。"]);
    ("chains", JArr [
      JStr "C 二进制 → log → WAF → 封禁";
      JStr "Core + 仪表板 + Grafana + Caddy + Prometheus";
      JStr "Pro + K8s/Helm 证明（kind）+ fleet + Wasm/mesh"]);
    ("rams", JArr [JStr "约 110 MB"; JStr "约 730 MB（笔记本）· 约 400 MB（VM）"; JStr "约 1.9 GB（笔记本，全开）"]);
    ("disks", JArr [
      JStr "约 4 MB（干净）· 约 55 MB（events.db 满）";
      JStr "约 5.3 GB（VM，主要是 Docker 镜像）";
      JStr "Pro 磁盘 + 约 2–3 GB（kind 卷）"]);
    ("includes", JArr [
      JArr [JStr "nginx 解析器"; JStr "OWASP CRS 121 条规则"; JStr "封禁流水线"; JStr "ipset / XDP"; JStr "Prometheus 指标"];
      JArr [
        JStr "SOC 时间线（:8443）";
        JStr "Grafana + $tenant 面板";
        JStr "Caddy TLS + JWT";
        JStr "fleet / 多租户";
        JStr "Telegram 运维"];
      JArr [
        JStr "helm install log-guardian";
        JStr "kind + admission webhook";
        JStr "DaemonSet + operator";
        JStr "fleet 展示";
        JStr "Wasm/mesh（可选）"]]);
    ("stepTitles", JArr [
      JStr "依赖";
      JStr "源码 + 构建 + 安装";
      JStr "首次运行 + API 安全";
      JStr "Nginx 日志格式";
      JStr "健康检查 + 首次封禁测试";
      JStr "Docker（已安装则跳过）";
      JStr "启动 Pro SOC 栈";
      JStr "验证仪表板";
      JStr "K8s CLI（kind + kubectl + helm）";
      JStr "Pro Plus 栈（kind + Helm）";
      JStr "测量 + 演示后关闭"]);
    ("stepDescs", JArr [
      JStr "安装 Debian/Ubuntu 软件包依赖和 nginx（如缺失）。";
      JStr "克隆仓库，用全部核心构建，并通过 install.sh 安装 systemd 单元 + 规则。";
      JStr "启动服务，准备 fail-closed API 令牌并验证安装关卡（期望 FAIL: 0）。";
      JStr "应用 log_guardian 格式，使 WAF 能读取 body + X-Forwarded-For，然后重载 nginx。";
      JStr "检查 daemon IPC、Prometheus 指标和 ipset 封禁列表。Core 现已投入生产。";
      JStr "Pro 栈（仪表板、Grafana、Prometheus、Caddy）运行在 Docker 上。";
      JStr "一条命令拉起仪表板 + Grafana + Prometheus + Caddy TLS（LOG_GUARDIAN_TIER=pro）。";
      JStr "验证版本和 :8443 SOC 面板。登录：admin / .env DASHBOARD_ADMIN_PASSWORD。";
      JStr "为 Pro Plus 展示安装 Kubernetes 工具。";
      JStr "创建 kind 集群并通过 helm install 产出“也能在集群运行”的证明。";
      JStr "逐层测量内存；演示结束后关闭 kind，回收约 1.2 GB 内存。"])].
Definition JA_PACK : json := JObj [
    ("eyebrow", JStr "//:エディション");
    ("sub", JStr "同じ C コア、3 つのパッケージング。必要な層を選択——オールインワンの「メガプラットフォーム」ではありません。");
    ("ramLabel", JStr "RAM");
    ("diskLabel", JStr "ディスク");
    ("chainLabel", JStr "チェーン");
    ("includesLabel", JStr "含まれるもの");
    ("protectionNote", JStr "保護レベルは 3 エディションで同一です。Pro と Pro Plus は可視性と統合の証明を追加するだけです。");
    ("respTitle", JStr "RAM・ディスクの増加——責任境界");
    ("respBody", JStr "上位エディションで増える RAM とディスクは Log Guardian の C コアに由来しません。Core バイナリは約 515 KB・約 110 MB RAM のままです。増加分は SOC やデモ用に選んだサードパーティ製ツール（Docker、Grafana、kind など）——停止するか Core のみ実行すればコストは下がります。");
    ("respCols", JArr [JStr "層"; JStr "Log Guardian の責任"; JStr "サードパーティ（当方の外）"]);
    ("respRows", JArr [
      JArr [JStr "log-guardian + daemon + config/DB（約 110 MB RAM、約 4–55 MB ディスク）"; JStr "—"];
      JArr [JStr "同じ Core バイナリ；追加保護なし"; JStr "Docker イメージ、Node.js ダッシュボード、Grafana、Prometheus、Caddy"];
      JArr [JStr "やはり同じ Core；追加保護なし"; JStr "kind/K8s ノード、Helm chart の Pod、operator、任意の Wasm/mesh"]]);
    ("installEyebrow", JStr "//:セットアップ");
    ("installTitle", JStr "エディション別インストールガイド");
    ("installSub", JStr "タブを選択；各ガイドは自己完結——Pro のために Core を、Pro Plus のために Pro/Core を読む必要はありません。");
    ("selfContainedNote", JStr "このガイドは最初から最後まで単独で完結します。Ubuntu 22.04/24.04 または Debian 12（amd64）、root/sudo。");
    ("stepsWord", JStr "ステップ");
    ("badges", JArr [JStr "推奨"; JStr "SOC パネル"; JStr "最も完全"]);
    ("taglines", JArr [
      JStr "log → WAF → カーネル BAN。本番で単独でも十分。";
      JStr "Core + SOC ダッシュボード、Grafana、Prometheus、Caddy TLS、fleet。";
      JStr "Pro + K8s/Helm 証明（kind）、fleet ショーケース、任意の Wasm/mesh。"]);
    ("chains", JArr [
      JStr "C バイナリ → log → WAF → BAN";
      JStr "Core + ダッシュボード + Grafana + Caddy + Prometheus";
      JStr "Pro + K8s/Helm 証明（kind）+ fleet + Wasm/mesh"]);
    ("rams", JArr [JStr "約 110 MB"; JStr "約 730 MB（ラップトップ）· 約 400 MB（VM）"; JStr "約 1.9 GB（ラップトップ、全て有効）"]);
    ("disks", JArr [
      JStr "約 4 MB（クリーン）· 約 55 MB（events.db 満杯）";
      JStr "約 5.3 GB（VM、主に Docker イメージ）";
      JStr "Pro ディスク + 約 2–3 GB（kind ボリューム）"]);
    ("includes", JArr [
      JArr [
        JStr "nginx パーサー";
        JStr "OWASP CRS 121 ルール";
        JStr "BAN パイプライン";
        JStr "ipset / XDP";
        JStr "Prometheus メトリクス"];
      JArr [
        JStr "SOC タイムライン（:8443）";
        JStr "Grafana + $tenant パネル";
        JStr "Caddy TLS + JWT";
        JStr "fleet / マルチテナント";
        JStr "Telegram 運用"];
      JArr [
        JStr "helm install log-guardian";
        JStr "kind + admission webhook";
        JStr "DaemonSet + operator";
        JStr "fleet ショーケース";
        JStr "Wasm/mesh（任意）"]]);
    ("stepTitles", JArr [
      JStr "依存関係";
      JStr "ソース + ビルド + インストール";
      JStr "初回実行 + API セキュリティ";
      JStr "Nginx ログ形式";
      JStr "ヘルス + 初回 BAN テスト";
      JStr "Docker（インストール済みならスキップ）";
      JStr "Pro SOC スタックを起動";
      JStr "ダッシュボードを検証";
      JStr "K8s CLI（kind + kubectl + helm）";
      JStr "Pro Plus スタック（kind + Helm）";
      JStr "計測 + デモ後にシャットダウン"]);
    ("stepDescs", JArr [
      JStr "Debian/Ubuntu のパッケージ依存関係と nginx（無ければ）をインストール。";
      JStr "リポジトリをクローンし、全コアでビルドして install.sh で systemd ユニット + ルールをインストール。";
      JStr "サービスを起動し、fail-closed の API トークンを準備してセットアップゲートを検証（FAIL: 0 を期待）。";
      JStr "WAF が body + X-Forwarded-For を読めるよう log_guardian 形式を適用し、nginx をリロード。";
      JStr "daemon IPC、Prometheus メトリクス、ipset BAN リストを確認。Core は本番稼働に入りました。";
      JStr "Pro スタック（ダッシュボード、Grafana、Prometheus、Caddy）は Docker 上で動作。";
      JStr "1 コマンドでダッシュボード + Grafana + Prometheus + Caddy TLS を起動（LOG_GUARDIAN_TIER=pro）。";
      JStr "エディションと :8443 SOC パネルを検証。ログイン：admin / .env DASHBOARD_ADMIN_PASSWORD。";
      JStr "Pro Plus ショーケース用の Kubernetes ツールをインストール。";
      JStr "kind クラスタを作成し、helm install で「クラスタでも動く」証明を生成。";
      JStr "RAM を層ごとに計測；デモ後に kind を停止して約 1.2 GB の RAM を回収。"])].
Definition KO_PACK : json := JObj [
    ("eyebrow", JStr "//:에디션");
    ("sub", JStr "동일한 C 코어, 세 가지 패키징. 필요한 계층을 선택하세요 — 올인원 '메가 플랫폼'이 아닙니다.");
    ("ramLabel", JStr "RAM");
    ("diskLabel", JStr "디스크");
    ("chainLabel", JStr "체인");
    ("includesLabel", JStr "포함");
    ("protectionNote", JStr "보호 수준은 세 에디션에서 동일합니다. Pro와 Pro Plus는 가시성과 통합 증거만 추가합니다.");
    ("respTitle", JStr "RAM·디스크 증가 — 책임 경계");
    ("respBody", JStr "상위 에디션에서 늘어나는 RAM과 디스크는 Log Guardian C 코어에서 오지 않습니다. Core 바이너리는 약 515 KB, 약 110 MB RAM을 유지합니다. 초과분은 SOC와 데모용으로 선택한 서드파티 도구(Docker, Grafana, kind 등)입니다 — 끄거나 Core만 실행하면 비용이 내려갑니다.");
    ("respCols", JArr [JStr "계층"; JStr "Log Guardian의 책임"; JStr "서드파티(우리 외부)"]);
    ("respRows", JArr [
      JArr [JStr "log-guardian + daemon + config/DB(약 110 MB RAM, 약 4–55 MB 디스크)"; JStr "—"];
      JArr [JStr "동일한 Core 바이너리; 추가 보호 없음"; JStr "Docker 이미지, Node.js 대시보드, Grafana, Prometheus, Caddy"];
      JArr [JStr "여전히 동일한 Core; 추가 보호 없음"; JStr "kind/K8s 노드, Helm 차트 Pod, operator, 선택적 Wasm/mesh"]]);
    ("installEyebrow", JStr "//:설치");
    ("installTitle", JStr "에디션별 설치 가이드");
    ("installSub", JStr "탭을 선택하세요; 각 가이드는 자체 완결형입니다 — Pro를 위해 Core를, Pro Plus를 위해 Pro/Core를 읽을 필요가 없습니다.");
    ("selfContainedNote", JStr "이 가이드는 처음부터 끝까지 단독으로 완료됩니다. Ubuntu 22.04/24.04 또는 Debian 12(amd64), root/sudo.");
    ("stepsWord", JStr "단계");
    ("badges", JArr [JStr "권장"; JStr "SOC 패널"; JStr "가장 완전함"]);
    ("taglines", JArr [
      JStr "log → WAF → 커널 밴. 프로덕션에서 단독으로 충분.";
      JStr "Core + SOC 대시보드, Grafana, Prometheus, Caddy TLS, fleet.";
      JStr "Pro + K8s/Helm 증거(kind), fleet 쇼케이스, 선택적 Wasm/mesh."]);
    ("chains", JArr [
      JStr "C 바이너리 → log → WAF → 밴";
      JStr "Core + 대시보드 + Grafana + Caddy + Prometheus";
      JStr "Pro + K8s/Helm 증거(kind) + fleet + Wasm/mesh"]);
    ("rams", JArr [JStr "약 110 MB"; JStr "약 730 MB(노트북) · 약 400 MB(VM)"; JStr "약 1.9 GB(노트북, 전체 활성화)"]);
    ("disks", JArr [
      JStr "약 4 MB(클린) · 약 55 MB(events.db 가득)";
      JStr "약 5.3 GB(VM, 대부분 Docker 이미지)";
      JStr "Pro 디스크 + 약 2–3 GB(kind 볼륨)"]);
    ("includes", JArr [
      JArr [JStr "nginx 파서"; JStr "OWASP CRS 121개 규칙"; JStr "밴 파이프라인"; JStr "ipset / XDP"; JStr "Prometheus 메트릭"];
      JArr [
        JStr "SOC 타임라인(:8443)";
        JStr "Grafana + $tenant 패널";
        JStr "Caddy TLS + JWT";
        JStr "fleet / 멀티테넌트";
        JStr "Telegram 운영"];
      JArr [
        JStr "helm install log-guardian";
        JStr "kind + admission webhook";
        JStr "DaemonSet + operator";
        JStr "fleet 쇼케이스";
        JStr "Wasm/mesh(선택)"]]);
    ("stepTitles", JArr [
      JStr "의존성";
      JStr "소스 + 빌드 + 설치";
      JStr "첫 실행 + API 보안";
      JStr "Nginx 로그 형식";
      JStr "헬스 + 첫 밴 테스트";
      JStr "Docker(설치되어 있으면 건너뛰기)";
      JStr "Pro SOC 스택 시작";
      JStr "대시보드 검증";
      JStr "K8s CLI(kind + kubectl + helm)";
      JStr "Pro Plus 스택(kind + Helm)";
      JStr "측정 + 데모 후 종료"]);
    ("stepDescs", JArr [
      JStr "Debian/Ubuntu 패키지 의존성과 nginx(없으면)를 설치합니다.";
      JStr "저장소를 클론하고 모든 코어로 빌드한 뒤 install.sh로 systemd 유닛 + 규칙을 설치합니다.";
      JStr "서비스를 시작하고 fail-closed API 토큰을 준비하며 설치 게이트를 검증합니다(FAIL: 0 예상).";
      JStr "WAF가 body + X-Forwarded-For를 읽도록 log_guardian 형식을 적용한 뒤 nginx를 리로드합니다.";
      JStr "daemon IPC, Prometheus 메트릭, ipset 밴 목록을 확인합니다. 이제 Core는 프로덕션 상태입니다.";
      JStr "Pro 스택(대시보드, Grafana, Prometheus, Caddy)은 Docker에서 실행됩니다.";
      JStr "한 명령으로 대시보드 + Grafana + Prometheus + Caddy TLS를 띄웁니다(LOG_GUARDIAN_TIER=pro).";
      JStr "에디션과 :8443 SOC 패널을 검증합니다. 로그인: admin / .env DASHBOARD_ADMIN_PASSWORD.";
      JStr "Pro Plus 쇼케이스를 위한 Kubernetes 도구를 설치합니다.";
      JStr "kind 클러스터를 만들고 helm install로 '클러스터에서도 실행됨' 증거를 생성합니다.";
      JStr "RAM을 계층별로 측정하고, 데모 후 kind를 종료해 약 1.2 GB RAM을 회수합니다."])].
Definition AR_PACK : json := JObj [
    ("eyebrow", JStr "//:الإصدارات");
    ("sub", JStr "نفس نواة C، ثلاث حزم. اختر الطبقة التي تحتاجها — وليست 'منصة عملاقة' شاملة.");
    ("ramLabel", JStr "ذاكرة");
    ("diskLabel", JStr "قرص");
    ("chainLabel", JStr "سلسلة");
    ("includesLabel", JStr "يشمل");
    ("protectionNote", JStr "مستوى الحماية متطابق في الإصدارات الثلاثة. لا يضيف Pro وPro Plus سوى الرؤية وإثبات التكامل.");
    ("respTitle", JStr "نمو الذاكرة والقرص — حدّ المسؤولية");
    ("respBody", JStr "الذاكرة والقرص اللذان يزدادان في الإصدارات الأعلى لا ينبعان من نواة C في Log Guardian. يبقى ثنائي Core عند نحو 515 كيلوبايت ونحو 110 ميغابايت ذاكرة. الزيادة هي أدوات الطرف الثالث التي اخترتها لـ SOC والعروض (Docker، Grafana، kind، إلخ) — أوقفها أو شغّل Core فقط لتنخفض التكلفة.");
    ("respCols", JArr [JStr "الطبقة"; JStr "مسؤولية Log Guardian"; JStr "طرف ثالث (خارجنا)"]);
    ("respRows", JArr [
      JArr [JStr "log-guardian + daemon + config/DB (نحو 110 ميغابايت ذاكرة، نحو 4–55 ميغابايت قرص)"; JStr "—"];
      JArr [JStr "نفس ثنائي Core؛ دون حماية إضافية"; JStr "صور Docker، لوحة Node.js، Grafana، Prometheus، Caddy"];
      JArr [
        JStr "لا يزال نفس Core؛ دون حماية إضافية";
        JStr "عقدة kind/K8s، حاويات Helm chart، operator، Wasm/mesh اختياري"]]);
    ("installEyebrow", JStr "//:التثبيت");
    ("installTitle", JStr "دليل التثبيت حسب الإصدار");
    ("installSub", JStr "اختر تبويبك؛ كل دليل مكتفٍ بذاته — لا حاجة لقراءة Core من أجل Pro، ولا Pro/Core من أجل Pro Plus.");
    ("selfContainedNote", JStr "يكتمل هذا الدليل من البداية إلى النهاية بمفرده. Ubuntu 22.04/24.04 أو Debian 12 (amd64)، root/sudo.");
    ("stepsWord", JStr "خطوات");
    ("badges", JArr [JStr "موصى به"; JStr "لوحة SOC"; JStr "الأكثر اكتمالاً"]);
    ("taglines", JArr [
      JStr "log → WAF → حظر النواة. كافٍ وحده في الإنتاج.";
      JStr "Core + لوحة SOC، Grafana، Prometheus، Caddy TLS، أسطول.";
      JStr "Pro + إثبات K8s/Helm (kind)، عرض الأسطول، Wasm/mesh اختياري."]);
    ("chains", JArr [
      JStr "ثنائي C → log → WAF → حظر";
      JStr "Core + لوحة + Grafana + Caddy + Prometheus";
      JStr "Pro + إثبات K8s/Helm (kind) + أسطول + Wasm/mesh"]);
    ("rams", JArr [
      JStr "نحو 110 ميغابايت";
      JStr "نحو 730 ميغابايت (حاسوب محمول) · نحو 400 ميغابايت (VM)";
      JStr "نحو 1.9 غيغابايت (حاسوب محمول، كل شيء مُفعّل)"]);
    ("disks", JArr [
      JStr "نحو 4 ميغابايت (نظيف) · نحو 55 ميغابايت (events.db ممتلئ)";
      JStr "نحو 5.3 غيغابايت (VM، غالباً صور Docker)";
      JStr "قرص Pro + نحو 2–3 غيغابايت (وحدة تخزين kind)"]);
    ("includes", JArr [
      JArr [
        JStr "محلل nginx";
        JStr "OWASP CRS 121 قاعدة";
        JStr "خط أنابيب الحظر";
        JStr "ipset / XDP";
        JStr "مقاييس Prometheus"];
      JArr [
        JStr "الخط الزمني SOC (:8443)";
        JStr "Grafana + لوحات $tenant";
        JStr "Caddy TLS + JWT";
        JStr "أسطول / متعدد المستأجرين";
        JStr "تشغيل Telegram"];
      JArr [
        JStr "helm install log-guardian";
        JStr "kind + admission webhook";
        JStr "DaemonSet + operator";
        JStr "عرض الأسطول";
        JStr "Wasm/mesh (اختياري)"]]);
    ("stepTitles", JArr [
      JStr "التبعيات";
      JStr "المصدر + البناء + التثبيت";
      JStr "أول تشغيل + أمان API";
      JStr "تنسيق سجل Nginx";
      JStr "الصحة + أول اختبار حظر";
      JStr "Docker (تخطَّ إن كان مثبتاً)";
      JStr "ابدأ حزمة Pro SOC";
      JStr "تحقّق من اللوحة";
      JStr "K8s CLI (kind + kubectl + helm)";
      JStr "حزمة Pro Plus (kind + Helm)";
      JStr "قِس + أوقف بعد العرض"]);
    ("stepDescs", JArr [
      JStr "ثبّت تبعيات حزم Debian/Ubuntu وnginx (إن كان مفقوداً).";
      JStr "استنسخ المستودع، ابنِ بكل الأنوية وثبّت وحدات systemd + القواعد عبر install.sh.";
      JStr "يشغّل الخدمات، يجهّز رمز API fail-closed ويتحقق من بوابة التثبيت (توقّع FAIL: 0).";
      JStr "طبّق تنسيق log_guardian ليقرأ الـ WAF الـ body وX-Forwarded-For، ثم أعد تحميل nginx.";
      JStr "افحص IPC للـ daemon، مقاييس Prometheus وقائمة حظر ipset. Core الآن في الإنتاج.";
      JStr "تعمل حزمة Pro (اللوحة، Grafana، Prometheus، Caddy) على Docker.";
      JStr "يرفع اللوحة + Grafana + Prometheus + Caddy TLS بأمر واحد (LOG_GUARDIAN_TIER=pro).";
      JStr "تحقّق من الإصدار ولوحة SOC على :8443. الدخول: admin / .env DASHBOARD_ADMIN_PASSWORD.";
      JStr "يثبّت أدوات Kubernetes لعرض Pro Plus.";
      JStr "ينشئ عنقود kind وينتج إثبات 'يعمل على عنقود أيضاً' عبر helm install.";
      JStr "قِس الذاكرة طبقة طبقة؛ بعد العرض أوقف kind واسترجع نحو 1.2 غيغابايت من الذاكرة."])].
