(* ===== verification/LandingTests.v ===== *)
(** The published test matrix, from landing/lib/tests.ts. *)

From S2P Require Import Prelude JsString JsNum Json LandingContent.

Definition TESTS_1 : list json := [
  JObj [
    ("id", JStr "api-fail-closed");
    ("status", JStr "pass");
    ("statusLabel", JStr "GECTI");
    ("statusLabelEn", JStr "PASS");
    ("title", JStr "API fail-closed — tokensiz istek 403");
    ("titleEn", JStr "API fail-closed — unauthenticated requests return 403");
    ("verdict", JStr "FAIL: 0 · WARN: 0");
    ("verdictEn", JStr "FAIL: 0 · WARN: 0");
    ("group", JStr "gate");
    ("purpose", JStr "Ban/consult/metrics uçları token olmadan reddedilir.");
    ("purposeEn", JStr "Ban/consult/metrics endpoints reject requests without a token.");
    ("metrics", JArr [JObj [("label", JStr "FAIL"); ("value", JStr "0")]; JObj [("label", JStr "WARN"); ("value", JStr "0")]]);
    ("script", JStr "scripts/api_fail_closed_test.sh");
    ("date", JStr "2026-07-10")];
  JObj [
    ("id", JStr "auth-log-ingest");
    ("status", JStr "pass");
    ("statusLabel", JStr "GECTI");
    ("statusLabelEn", JStr "PASS");
    ("title", JStr "auth.log sshd ingest — parse + brute esigi");
    ("titleEn", JStr "auth.log sshd ingest — parse + brute threshold");
    ("verdict", JStr "FAIL: 0 · WARN: 0");
    ("verdictEn", JStr "FAIL: 0 · WARN: 0");
    ("group", JStr "gate");
    ("purpose", JStr "nginx disi SSH failed-password satirlari anomaly hattina girer.");
    ("purposeEn", JStr "Non-nginx SSH failed-password lines enter the anomaly path.");
    ("metrics", JArr [JObj [("label", JStr "FAIL"); ("value", JStr "0")]; JObj [("label", JStr "WARN"); ("value", JStr "0")]]);
    ("script", JStr "scripts/auth_log_e2e.sh");
    ("date", JStr "2026-07-10")];
  JObj [
    ("id", JStr "helm-install-smoke");
    ("status", JStr "pass");
    ("statusLabel", JStr "GECTI");
    ("statusLabelEn", JStr "PASS");
    ("title", JStr "Helm chart — template smoke");
    ("titleEn", JStr "Helm chart — template smoke");
    ("verdict", JStr "FAIL: 0 · WARN: 0");
    ("verdictEn", JStr "FAIL: 0 · WARN: 0");
    ("group", JStr "gate");
    ("purpose", JStr "K8s musteri kurulumu icin helm template dogrulamasi.");
    ("purposeEn", JStr "Helm template validation for customer K8s installs.");
    ("metrics", JArr [JObj [("label", JStr "FAIL"); ("value", JStr "0")]; JObj [("label", JStr "WARN"); ("value", JStr "0")]]);
    ("script", JStr "scripts/helm_install_smoke.sh");
    ("date", JStr "2026-07-10")];
  JObj [
    ("id", JStr "journald-ingest");
    ("status", JStr "pass");
    ("statusLabel", JStr "GECTI");
    ("statusLabelEn", JStr "PASS");
    ("title", JStr "journald export — short-iso + sudo rhost spike");
    ("titleEn", JStr "journald export — short-iso + sudo rhost spike");
    ("verdict", JStr "FAIL: 0 · WARN: 0");
    ("verdictEn", JStr "FAIL: 0 · WARN: 0");
    ("group", JStr "gate");
    ("purpose", JStr "journald usec timestamp ve sudo rhost brute spike ingest.");
    ("purposeEn", JStr "Journald usec timestamps and sudo rhost brute spike ingest.");
    ("metrics", JArr [JObj [("label", JStr "FAIL"); ("value", JStr "0")]; JObj [("label", JStr "WARN"); ("value", JStr "0")]]);
    ("script", JStr "scripts/journald_e2e.sh");
    ("date", JStr "2026-07-10")];
  JObj [
    ("id", JStr "local-security-audit");
    ("status", JStr "pass");
    ("statusLabel", JStr "GECTI");
    ("statusLabelEn", JStr "PASS");
    ("title", JStr "Yerel güvenlik denetimi — IPC, JWT, token sızıntısı");
    ("titleEn", JStr "Local security audit — IPC, JWT, secret hygiene");
    ("verdict", JStr "FAIL: 0 · WARN: 0");
    ("verdictEn", JStr "FAIL: 0 · WARN: 0");
    ("group", JStr "gate");
    ("purpose", JStr "Laptop/prod öncesi güvenlik script matrisi; demo parola laptop'ta WARN kabul.");
    ("purposeEn", JStr "Pre-prod security script matrix; demo password WARN on laptop is OK.");
    ("metrics", JArr [JObj [("label", JStr "FAIL"); ("value", JStr "0")]; JObj [("label", JStr "WARN"); ("value", JStr "0")]]);
    ("script", JStr "scripts/local_security_audit.sh");
    ("date", JStr "2026-07-10")]].
Definition TESTS_2 : list json := [
  JObj [
    ("id", JStr "marketplace-sig");
    ("status", JStr "pass");
    ("statusLabel", JStr "GECTI");
    ("statusLabelEn", JStr "PASS");
    ("title", JStr "Wasm marketplace — imzali paket kapisi");
    ("titleEn", JStr "Wasm marketplace — signed package gate");
    ("verdict", JStr "FAIL: 0 · WARN: 0");
    ("verdictEn", JStr "FAIL: 0 · WARN: 0");
    ("group", JStr "gate");
    ("purpose", JStr "Unsigned marketplace paketlerinin reddedildigini kanitlar.");
    ("purposeEn", JStr "Proves unsigned marketplace packages are rejected.");
    ("metrics", JArr [JObj [("label", JStr "FAIL"); ("value", JStr "0")]; JObj [("label", JStr "WARN"); ("value", JStr "0")]]);
    ("script", JStr "scripts/marketplace_sig_gate.sh");
    ("date", JStr "2026-07-10")];
  JObj [
    ("id", JStr "mesh-etcd");
    ("status", JStr "pass");
    ("statusLabel", JStr "GECTI");
    ("statusLabelEn", JStr "PASS");
    ("title", JStr "Mesh etcd — filo politika");
    ("titleEn", JStr "Mesh etcd — fleet policy");
    ("verdict", JStr "FAIL: 0 · WARN: 0");
    ("verdictEn", JStr "FAIL: 0 · WARN: 0");
    ("group", JStr "gate");
    ("purpose", JStr "etcd mesh backend ve MESH_PUB_ENABLED=0 dogrulamasi.");
    ("purposeEn", JStr "etcd mesh backend and MESH_PUB_ENABLED=0 validation.");
    ("metrics", JArr [JObj [("label", JStr "FAIL"); ("value", JStr "0")]; JObj [("label", JStr "WARN"); ("value", JStr "0")]]);
    ("script", JStr "scripts/mesh_etcd_e2e.sh");
    ("date", JStr "2026-07-10")];
  JObj [
    ("id", JStr "post-install-verify");
    ("status", JStr "pass");
    ("statusLabel", JStr "GECTI");
    ("statusLabelEn", JStr "PASS");
    ("title", JStr "Kurulum kapısı — servis, IPC, API fail-closed");
    ("titleEn", JStr "Install gate — services, IPC, API fail-closed");
    ("verdict", JStr "FAIL: 0 · WARN: 0");
    ("verdictEn", JStr "FAIL: 0 · WARN: 0");
    ("group", JStr "gate");
    ("purpose", JStr "systemd, --health, metrics :9091, API_BIND ve nginx formatının yeşil matrisi.");
    ("purposeEn", JStr "systemd, --health, metrics :9091, API_BIND and nginx format green matrix.");
    ("metrics", JArr [JObj [("label", JStr "FAIL"); ("value", JStr "0")]; JObj [("label", JStr "WARN"); ("value", JStr "0")]]);
    ("script", JStr "scripts/post_install_verify.sh");
    ("date", JStr "2026-07-10")];
  JObj [
    ("id", JStr "vm-demo-gate");
    ("status", JStr "pass");
    ("statusLabel", JStr "GECTI");
    ("statusLabelEn", JStr "PASS");
    ("title", JStr "VM demo kapısı — post_install 0 FAIL");
    ("titleEn", JStr "VM demo gate — post_install 0 FAIL");
    ("verdict", JStr "FAIL: 0 · WARN: 0");
    ("verdictEn", JStr "FAIL: 0 · WARN: 0");
    ("group", JStr "gate");
    ("purpose", JStr "Laptop/VM sunum öncesi son kontrol (onarim: sudo vm_demo_gate).");
    ("purposeEn", JStr "Final check before laptop/VM demo (repair: sudo vm_demo_gate).");
    ("metrics", JArr [JObj [("label", JStr "FAIL"); ("value", JStr "0")]; JObj [("label", JStr "WARN"); ("value", JStr "0")]]);
    ("script", JStr "scripts/vm_demo_gate.sh");
    ("date", JStr "2026-07-10")];
  JObj [
    ("id", JStr "soak-stability");
    ("status", JStr "pass");
    ("statusLabel", JStr "GECTI");
    ("statusLabelEn", JStr "PASS");
    ("title", JStr "72 saat prod stabilite + dusuk FP");
    ("titleEn", JStr "72h prod stability + low FP");
    ("verdict", JStr "72.0 saat VPS/VM soak GECTI: 864 ornek, 0 hata — servisler ayakta, max RSS 105 MB benign FP %0.2.");
    ("verdictEn", JStr "72.0h VPS/VM soak PASS: 864 samples, 0 failures — services up, max RSS 105 MB benign FP 0.2%.");
    ("group", JStr "proof")]].
Definition TESTS_3 : list json := [
  JObj [
    ("id", JStr "soak-short-gate");
    ("status", JStr "pass");
    ("statusLabel", JStr "GECTI");
    ("statusLabelEn", JStr "PASS");
    ("title", JStr "5 dakikalik stabilite kapisi (VPS gerekmez)");
    ("titleEn", JStr "5-minute stability gate (no VPS required)");
    ("verdict", JStr "5 dk soak: 10 ornek, 0 hata — PASS.");
    ("verdictEn", JStr "5m soak: 10 samples, 0 failures — PASS.");
    ("group", JStr "proof");
    ("purpose", JStr "Daemon ve analizorun kisa prod benzeri yukte ayakta kaldigini dogrular.");
    ("purposeEn", JStr "Confirms daemon and analyzer stay up during a short production-like window.");
    ("metrics", JArr [
      JObj [("label", JStr "Sure"); ("value", JStr "5 dk")];
      JObj [("label", JStr "Max RSS"); ("value", JStr "110 MB")]]);
    ("script", JStr "scripts/soak_short_proof.sh");
    ("date", JStr "2026-06-28")];
  JObj [
    ("id", JStr "api-mutation-audit-e2e");
    ("status", JStr "pass");
    ("statusLabel", JStr "GECTI");
    ("statusLabelEn", JStr "PASS");
    ("title", JStr "API mutation audit — ban/unban jsonl izi");
    ("titleEn", JStr "API mutation audit — ban/unban jsonl trail");
    ("verdict", JStr "audit trail OK — /var/lib/log-guardian/api-mutation-audit.jsonl.");
    ("verdictEn", JStr "audit trail OK — /var/lib/log-guardian/api-mutation-audit.jsonl.");
    ("group", JStr "proof");
    ("purpose", JStr "POST /ban sonrasi append-only jsonl (/var/lib/log-guardian/).");
    ("purposeEn", JStr "Append-only jsonl after POST /ban (/var/lib/log-guardian/).");
    ("metrics", JArr [JObj [("label", JStr "audit"); ("value", JStr "OK")]]);
    ("script", JStr "scripts/api_mutation_audit_e2e.sh");
    ("date", JStr "2026-07-09")];
  JObj [
    ("id", JStr "api-mutation-token-e2e");
    ("status", JStr "pass");
    ("statusLabel", JStr "GECTI");
    ("statusLabelEn", JStr "PASS");
    ("title", JStr "API mutation token — read/mutate POST ayrimi");
    ("titleEn", JStr "API mutation token — read/mutate POST split");
    ("verdict", JStr "split=ON; read POST 403; mutation POST 200.");
    ("verdictEn", JStr "split=ON; read POST 403; mutation POST 200.");
    ("group", JStr "proof");
    ("purpose", JStr "Enterprise: API_TOKEN (GET) + API_MUTATION_TOKEN (POST ban/unban/consult).");
    ("purposeEn", JStr "Enterprise: API_TOKEN (GET) + API_MUTATION_TOKEN (POST ban/unban/consult).");
    ("metrics", JArr [JObj [("label", JStr "split"); ("value", JStr "on")]]);
    ("script", JStr "scripts/api_mutation_token_e2e.sh");
    ("date", JStr "2026-07-09")];
  JObj [
    ("id", JStr "arm64-build");
    ("status", JStr "pass");
    ("statusLabel", JStr "GECTI");
    ("statusLabelEn", JStr "PASS");
    ("title", JStr "ARM64 (aarch64) build smoke");
    ("titleEn", JStr "ARM64 (aarch64) build smoke");
    ("verdict", JStr "mode=cross-gnu; target=aarch64.");
    ("verdictEn", JStr "mode=cross-gnu; target=aarch64.");
    ("group", JStr "proof");
    ("purpose", JStr "Gomulu/ARM Linux hedefi icin derleme yolu (AVX2 yok).");
    ("purposeEn", JStr "Build path for embedded/ARM Linux targets (no AVX2).");
    ("metrics", JArr [
      JObj [("label", JStr "mode"); ("value", JStr "cross-gnu")];
      JObj [("label", JStr "host"); ("value", JStr "x86_64")]]);
    ("script", JStr "scripts/build_arm64.sh");
    ("date", JStr "2026-07-07")];
  JObj [
    ("id", JStr "attack-map");
    ("status", JStr "pass");
    ("statusLabel", JStr "GECTI");
    ("statusLabelEn", JStr "PASS");
    ("title", JStr "Attack map — geo marker + canli ban");
    ("titleEn", JStr "Attack map — geo markers + live bans");
    ("verdict", JStr "2 marker, kaynak=live; ack=1 ban=1; nav=1 parity=OK.");
    ("verdictEn", JStr "2 markers, source=live; ack=1 ban=1; nav=1 parity=OK.");
    ("group", JStr "proof");
    ("purpose", JStr "Ana sayfa kure haritasinda /api/attack-geo ile ban IP konumlarini kanitlar.");
    ("purposeEn", JStr "Proves banned IP locations on the home globe via /api/attack-geo.");
    ("metrics", JArr [
      JObj [("label", JStr "markers"); ("value", JStr "2")];
      JObj [("label", JStr "ack"); ("value", JStr "1")];
      JObj [("label", JStr "ban"); ("value", JStr "1")];
      JObj [("label", JStr "nav"); ("value", JStr "1")];
      JObj [("label", JStr "bans"); ("value", JStr "ipset")]]);
    ("script", JStr "scripts/attack_map_e2e.sh");
    ("date", JStr "2026-07-10")]].
Definition TESTS_4 : list json := [
  JObj [
    ("id", JStr "ban-api-mtls");
    ("status", JStr "pass");
    ("statusLabel", JStr "GECTI");
    ("statusLabelEn", JStr "PASS");
    ("title", JStr "Ban API mTLS — edge client cert + mutation token");
    ("titleEn", JStr "Ban API mTLS — edge client cert + mutation token");
    ("verdict", JStr "read POST 403; mutation OK; mTLS edge verify.");
    ("verdictEn", JStr "read POST 403; mutation OK; mTLS edge verify.");
    ("group", JStr "proof");
    ("purpose", JStr "Enterprise: nginx mTLS terminate + internal mutation token inject.");
    ("purposeEn", JStr "Enterprise: nginx mTLS terminate + internal mutation token inject.");
    ("metrics", JArr [
      JObj [("label", JStr "mtls"); ("value", JStr "on")];
      JObj [("label", JStr "read_post"); ("value", JStr "403")];
      JObj [("label", JStr "caddy"); ("value", JStr "on")];
      JObj [("label", JStr "strict"); ("value", JStr "on")]]);
    ("script", JStr "scripts/ban_api_mtls_e2e.sh");
    ("date", JStr "2026-07-09")];
  JObj [
    ("id", JStr "ban-latency");
    ("status", JStr "pass");
    ("statusLabel", JStr "GECTI");
    ("statusLabelEn", JStr "PASS");
    ("title", JStr "Tehdit tespitinden kernel ban'a gecen sure");
    ("titleEn", JStr "Time from threat detection to kernel ban");
    ("verdict", JStr "Medyan 28.71 ms — hedef <75.0 ms, ipset dogrulandi.");
    ("verdictEn", JStr "Median 28.71 ms — target <75.0 ms, ipset confirmed.");
    ("group", JStr "proof")];
  JObj [
    ("id", JStr "ban-policy-audit");
    ("status", JStr "pass");
    ("statusLabel", JStr "GECTI");
    ("statusLabelEn", JStr "PASS");
    ("title", JStr "Ban policy audit + OPENAPI_STRICT");
    ("titleEn", JStr "Ban policy audit + OPENAPI_STRICT");
    ("verdict", JStr "karar=force_waf; risk=80.0; OPENAPI_STRICT=1.");
    ("verdictEn", JStr "decision=force_waf; risk=80.0; OPENAPI_STRICT=1.");
    ("group", JStr "proof");
    ("purpose", JStr "Ban/unban karar izi JSONL + şema; prod API şema doğrulaması açık.");
    ("purposeEn", JStr "Ban/unban decision trail JSONL + schema; prod API schema validation on.");
    ("metrics", JArr [
      JObj [("label", JStr "lines"); ("value", JStr "1")];
      JObj [("label", JStr "decision"); ("value", JStr "force_waf")];
      JObj [("label", JStr "OPENAPI_STRICT"); ("value", JStr "1")]]);
    ("script", JStr "scripts/ban_policy_audit_e2e.sh");
    ("date", JStr "2026-07-08")];
  JObj [
    ("id", JStr "ban-profile-e2e");
    ("status", JStr "pass");
    ("statusLabel", JStr "GECTI");
    ("statusLabelEn", JStr "PASS");
    ("title", JStr "AUTO_BAN profil + consult cache + threat intel offline");
    ("titleEn", JStr "AUTO_BAN profile + consult cache + threat intel offline");
    ("verdict", JStr "6 statik kontrol PASS (AUTO_BAN_PROFILE, CONSULT_CACHE, GeoIP).");
    ("verdictEn", JStr "6 static checks PASS (AUTO_BAN_PROFILE, CONSULT_CACHE, GeoIP).");
    ("group", JStr "proof");
    ("purpose", JStr "AUTO_BAN_PROFILE preset, consult cache, threat intel offline fallback.");
    ("purposeEn", JStr "AUTO_BAN_PROFILE preset, consult cache, threat intel offline fallback.");
    ("metrics", JArr [JObj [("label", JStr "checks"); ("value", JStr "6")]]);
    ("script", JStr "scripts/ban_profile_e2e.sh");
    ("date", JStr "2026-07-09")];
  JObj [
    ("id", JStr "bans-telegram-ops");
    ("status", JStr "pass");
    ("statusLabel", JStr "GECTI");
    ("statusLabelEn", JStr "PASS");
    ("title", JStr "Bans + Telegram ack — operator panel API");
    ("titleEn", JStr "Bans + Telegram ack — operator panel API");
    ("verdict", JStr "IP 203.0.113.198; ack yes (utku); ban miss.");
    ("verdictEn", JStr "IP 203.0.113.198; ack yes (utku); ban miss.");
    ("group", JStr "proof");
    ("purpose", JStr "Operatör paneli /api/telegram-acks + /bans?search= canli veri.");
    ("purposeEn", JStr "Operator panel live data via /api/telegram-acks + /bans?search=.");
    ("metrics", JArr [
      JObj [("label", JStr "acks"); ("value", JStr "1")];
      JObj [("label", JStr "ban"); ("value", JStr "miss")];
      JObj [("label", JStr "operator"); ("value", JStr "utku")]]);
    ("script", JStr "scripts/bans_telegram_ops_e2e.sh");
    ("date", JStr "2026-07-10")]].
Definition TESTS_5 : list json := [
  JObj [
    ("id", JStr "bench-eps");
    ("status", JStr "pass");
    ("statusLabel", JStr "GECTI");
    ("statusLabelEn", JStr "PASS");
    ("title", JStr "Ayni log corpus uzerinde isleme hizi (seffaf referans)");
    ("titleEn", JStr "Processing speed on same log corpus (transparent reference)");
    ("verdict", JStr "Guardian 11709 EPS (tek gecis log-WAF); CRS replay 19761 EPS — farkli mimari, hiz iddiasi degil.");
    ("verdictEn", JStr "Guardian 11709 EPS (single-pass log-WAF); CRS replay 19761 EPS — different architecture, not a speed claim.");
    ("group", JStr "proof")];
  JObj [
    ("id", JStr "compliance-export");
    ("status", JStr "pass");
    ("statusLabel", JStr "GECTI");
    ("statusLabelEn", JStr "PASS");
    ("title", JStr "Compliance — JSON/PDF export (Pro tier)");
    ("titleEn", JStr "Compliance — JSON/PDF export (Pro tier)");
    ("verdict", JStr "mode=pro-live; tier=pro; kontrol=12; pdf=OK.");
    ("verdictEn", JStr "mode=pro-live; tier=pro; controls=12; pdf=OK.");
    ("group", JStr "proof");
    ("purpose", JStr "/api/reports/export — Pro tier PDF; Community 403.");
    ("purposeEn", JStr "/api/reports/export — Pro tier PDF; Community gets 403.");
    ("metrics", JArr [
      JObj [("label", JStr "mode"); ("value", JStr "pro-live")];
      JObj [("label", JStr "tier"); ("value", JStr "pro")]]);
    ("script", JStr "scripts/compliance_export_e2e.sh");
    ("date", JStr "2026-06-29")];
  JObj [
    ("id", JStr "copilot-ollama");
    ("status", JStr "pass");
    ("statusLabel", JStr "GECTI");
    ("statusLabelEn", JStr "PASS");
    ("title", JStr "Copilot — Ollama opsiyonel + fallback");
    ("titleEn", JStr "Copilot — optional Ollama + fallback");
    ("verdict", JStr "ollama=yes; source=ollama.");
    ("verdictEn", JStr "ollama=yes; source=ollama.");
    ("group", JStr "proof");
    ("purpose", JStr "Copilot LLM (Ollama) opsiyonel; kural tabanli fallback zorunlu degil.");
    ("purposeEn", JStr "Copilot LLM (Ollama) optional; rule-based fallback when absent.");
    ("metrics", JArr [
      JObj [("label", JStr "ollama"); ("value", JStr "yes")];
      JObj [("label", JStr "source"); ("value", JStr "ollama")]]);
    ("script", JStr "scripts/copilot_ollama_e2e.sh");
    ("date", JStr "2026-07-07")];
  JObj [
    ("id", JStr "crowdsec-bouncer");
    ("status", JStr "pass");
    ("statusLabel", JStr "GECTI");
    ("statusLabelEn", JStr "PASS");
    ("title", JStr "CrowdSec LAPI → log-guardian ban API");
    ("titleEn", JStr "CrowdSec LAPI → log-guardian ban API");
    ("verdict", JStr "mode=dry-run; 50 karar; ban API dry-run; LAPI OK.");
    ("verdictEn", JStr "mode=dry-run; 50 decisions; ban API dry-run; LAPI OK.");
    ("group", JStr "proof");
    ("purpose", JStr "CrowdSec tamamlayici (LAPI) — kernel ban hattina karar aktarimi; Fail2ban yerine degil.");
    ("purposeEn", JStr "CrowdSec complementary (LAPI) — sync decisions to kernel ban path; not a Fail2ban replacement.");
    ("metrics", JArr [
      JObj [("label", JStr "mode"); ("value", JStr "dry-run")];
      JObj [("label", JStr "karar"); ("value", JStr "50")];
      JObj [("label", JStr "ban API"); ("value", JStr "dry-run")];
      JObj [("label", JStr "LAPI"); ("value", JStr "OK")]]);
    ("script", JStr "scripts/crowdsec_bouncer_e2e.sh");
    ("date", JStr "2026-07-10");
    ("badge", JStr "tamamlayıcı");
    ("badgeEn", JStr "complementary")];
  JObj [
    ("id", JStr "crs-parity");
    ("status", JStr "pass");
    ("statusLabel", JStr "GECTI");
    ("statusLabelEn", JStr "PASS");
    ("title", JStr "OWASP CRS ile ayni saldiri satirlarinda tespit paritesi");
    ("titleEn", JStr "Detection parity with OWASP CRS on same attack lines");
    ("verdict", JStr "18 saldiri satirinin tamaminda uyari; recall %100.0, parite %100.0.");
    ("verdictEn", JStr "Alerts on all 18 attack lines; recall 100.0%, parity 100.0%.");
    ("group", JStr "proof")]].
Definition TESTS_6 : list json := [
  JObj [
    ("id", JStr "dashboard-ban-api");
    ("status", JStr "pass");
    ("statusLabel", JStr "GECTI");
    ("statusLabelEn", JStr "PASS");
    ("title", JStr "Dashboard ban/unban — API + Docker relay (18090)");
    ("titleEn", JStr "Dashboard ban/unban — API + Docker relay (18090)");
    ("verdict", JStr "Host OK, relay OK, Docker OK — 203.0.113.248.");
    ("verdictEn", JStr "Host OK, relay OK, Docker OK — 203.0.113.248.");
    ("group", JStr "proof");
    ("purpose", JStr "Operatörün /bans sayfasından kernel ban yolunun canlı çalıştığını kanıtlar.");
    ("purposeEn", JStr "Proves operators can ban/unban from /bans via the live kernel path.");
    ("metrics", JArr [
      JObj [("label", JStr "host"); ("value", JStr "OK")];
      JObj [("label", JStr "relay"); ("value", JStr "OK")];
      JObj [("label", JStr "docker"); ("value", JStr "OK")];
      JObj [("label", JStr "path"); ("value", JStr "ipc-xdp")];
      JObj [("label", JStr "soar"); ("value", JStr "on")];
      JObj [("label", JStr "strict"); ("value", JStr "on")]]);
    ("script", JStr "scripts/dashboard_ban_smoke.sh");
    ("date", JStr "2026-07-10")];
  JObj [
    ("id", JStr "dashboard-jwt-idle-gate");
    ("status", JStr "pass");
    ("statusLabel", JStr "GECTI");
    ("statusLabelEn", JStr "PASS");
    ("title", JStr "Dashboard JWT idle — oturum zaman aşımı");
    ("titleEn", JStr "Dashboard JWT idle — session timeout");
    ("verdict", JStr "mode=off; idle=0dk.");
    ("verdictEn", JStr "mode=off; idle=0m.");
    ("group", JStr "proof");
    ("purpose", JStr "middleware iat kontrolü; laptop 0dk, internet-facing 480dk önerilir.");
    ("purposeEn", JStr "middleware iat check; laptop 0m, internet-facing 480m recommended.");
    ("metrics", JArr [JObj [("label", JStr "idle_min"); ("value", JStr "0")]]);
    ("script", JStr "scripts/dashboard_jwt_idle_gate.sh");
    ("date", JStr "2026-07-09")];
  JObj [
    ("id", JStr "dashboard-live-demo");
    ("status", JStr "pass");
    ("statusLabel", JStr "GECTI");
    ("statusLabelEn", JStr "PASS");
    ("title", JStr "Dashboard Live demo — harita + /bans ipset");
    ("titleEn", JStr "Dashboard live demo — map + /bans ipset");
    ("verdict", JStr "4 ban uygulandi, 4 sync — http://127.0.0.1:8090.");
    ("verdictEn", JStr "4 bans applied, 4 synced — http://127.0.0.1:8090.");
    ("group", JStr "proof");
    ("purpose", JStr "Operatör sunumunda 4 gerçek kernel ban → harita LIVE + /bans unban.");
    ("purposeEn", JStr "Operator demo: 4 real kernel bans → LIVE map + /bans unban.");
    ("metrics", JArr [
      JObj [("label", JStr "applied"); ("value", JStr "4")];
      JObj [("label", JStr "synced"); ("value", JStr "4")];
      JObj [("label", JStr "api"); ("value", JStr "127.0.0.1:8090")];
      JObj [("label", JStr "IPs"); ("value", JStr "203.0.113.211, 203.0.113.212, 203.0.113.213, 203.0.113.214")]]);
    ("script", JStr "scripts/dashboard_live_demo.sh");
    ("date", JStr "2026-06-29")];
  JObj [
    ("id", JStr "dashboard-login-rl-e2e");
    ("status", JStr "pass");
    ("statusLabel", JStr "GECTI");
    ("statusLabelEn", JStr "PASS");
    ("title", JStr "Dashboard login rate limit — brute-force koruması");
    ("titleEn", JStr "Dashboard login rate limit — brute-force protection");
    ("verdict", JStr "10 deneme → 429 (probe 203.0.113.88).");
    ("verdictEn", JStr "10 attempts → 429 (probe 203.0.113.88).");
    ("group", JStr "proof");
    ("purpose", JStr "Prod: X-Forwarded-For ile 10 başarısız denemeden sonra HTTP 429.");
    ("purposeEn", JStr "Prod: HTTP 429 after 10 failed attempts (X-Forwarded-For).");
    ("metrics", JArr [JObj [("label", JStr "max"); ("value", JStr "10")]]);
    ("script", JStr "scripts/dashboard_login_rate_limit_e2e.sh");
    ("date", JStr "2026-07-09")];
  JObj [
    ("id", JStr "demo-rehearsal-gate");
    ("status", JStr "pass");
    ("statusLabel", JStr "GECTI");
    ("statusLabelEn", JStr "PASS");
    ("title", JStr "Demo rehearsal — 08:00 sunum kapisi");
    ("titleEn", JStr "Demo rehearsal — presentation readiness gate");
    ("verdict", JStr "demo_3min=yes; dash=yes; proof 89/89.");
    ("verdictEn", JStr "demo_3min=yes; dash=yes; proof 89/89.");
    ("group", JStr "proof");
    ("purpose", JStr "demo_3min + :8443 + PDF + canli site sunum zinciri.");
    ("purposeEn", JStr "demo_3min + :8443 + PDF + live site presentation chain.");
    ("metrics", JArr [
      JObj [("label", JStr "PDF"); ("value", JStr "yes")];
      JObj [("label", JStr "proof"); ("value", JStr "89/89")]]);
    ("script", JStr "scripts/demo_rehearsal_gate.sh");
    ("date", JStr "2026-07-08")]].
Definition TESTS_7 : list json := [
  JObj [
    ("id", JStr "demo-video-gate");
    ("status", JStr "pass");
    ("statusLabel", JStr "GECTI");
    ("statusLabelEn", JStr "PASS");
    ("title", JStr "Demo video — 04:00 kayit hazirlik kapisi");
    ("titleEn", JStr "Demo video — 04:00 recording readiness gate");
    ("verdict", JStr "pdf=yes; ship=yes; siem=yes; proof 89/89.");
    ("verdictEn", JStr "pdf=yes; ship=yes; siem=yes; proof 89/89.");
    ("group", JStr "proof");
    ("purpose", JStr "demo_video + SIEM + PDF + presentation_ship — kayit oncesi otomatik.");
    ("purposeEn", JStr "demo_video + SIEM + PDF + presentation_ship — pre-recording automation.");
    ("metrics", JArr [
      JObj [("label", JStr "SIEM"); ("value", JStr "yes")];
      JObj [("label", JStr "proof"); ("value", JStr "89/89")]]);
    ("script", JStr "scripts/demo_video_gate.sh");
    ("date", JStr "2026-06-30")];
  JObj [
    ("id", JStr "dist-risk-proof");
    ("status", JStr "pass");
    ("statusLabel", JStr "GECTI");
    ("statusLabelEn", JStr "PASS");
    ("title", JStr "DIST_RISK — dagitik saldiri skoru kaniti");
    ("titleEn", JStr "DIST_RISK — distributed attack score proof");
    ("verdict", JStr "risk off=45.0 on=65.0; delta=20.0.");
    ("verdictEn", JStr "risk off=45.0 on=65.0; delta=20.0.");
    ("group", JStr "proof");
    ("purpose", JStr "/24 + UA fp korelasyonu → ban risk bonusu; unit test + replay delta.");
    ("purposeEn", JStr "/24 + UA fp correlation → ban risk bonus; unit test + replay delta.");
    ("metrics", JArr [
      JObj [("label", JStr "delta"); ("value", JStr "20.0")];
      JObj [("label", JStr "risk_off"); ("value", JStr "45.0")];
      JObj [("label", JStr "risk_on"); ("value", JStr "65.0")]]);
    ("script", JStr "scripts/dist_risk_proof_e2e.sh");
    ("date", JStr "2026-07-09")];
  JObj [
    ("id", JStr "docs-consistency-gate");
    ("status", JStr "pass");
    ("statusLabel", JStr "GECTI");
    ("statusLabelEn", JStr "PASS");
    ("title", JStr "Docs consistency — 64 test + HOSTING §8b");
    ("titleEn", JStr "Docs consistency — 64 test + HOSTING §8b");
    ("verdict", JStr "checks OK=53; proof 89/89; hosting §8b=yes.");
    ("verdictEn", JStr "checks OK=53; proof 89/89; hosting §8b=yes.");
    ("group", JStr "proof");
    ("purpose", JStr "Dokuman vitrin tutarliligi — 64 test, Telegram cross-link.");
    ("purposeEn", JStr "Doc vitrine consistency — 64 tests, Telegram cross-link.");
    ("metrics", JArr [
      JObj [("label", JStr "checks"); ("value", JStr "53")];
      JObj [("label", JStr "proof"); ("value", JStr "89/89")]]);
    ("script", JStr "scripts/docs_consistency_gate.sh");
    ("date", JStr "2026-07-10")];
  JObj [
    ("id", JStr "edge-protection-gate");
    ("status", JStr "pass");
    ("statusLabel", JStr "GECTI");
    ("statusLabelEn", JStr "PASS");
    ("title", JStr "Edge koruma — nginx + XDP/ipset + threat intel");
    ("titleEn", JStr "Edge protection — nginx + XDP/ipset + threat intel");
    ("verdict", JStr "IPC ok; ipset-fallback; nginx OK; ipset 0.");
    ("verdictEn", JStr "IPC ok; ipset-fallback; nginx OK; ipset 0.");
    ("group", JStr "proof");
    ("purpose", JStr "Origin edge: nginx log format, ipset/XDP ban, threat-intel summary DB.");
    ("purposeEn", JStr "Origin edge: nginx log format, ipset/XDP ban, threat-intel summary DB.");
    ("metrics", JArr [
      JObj [("label", JStr "ipc"); ("value", JStr "ok")];
      JObj [("label", JStr "xdp"); ("value", JStr "ipset-fallback")];
      JObj [("label", JStr "ipset"); ("value", JStr "0")]]);
    ("script", JStr "scripts/edge_protection_gate.sh");
    ("date", JStr "2026-07-10")];
  JObj [
    ("id", JStr "enterprise-escalation-gate");
    ("status", JStr "pass");
    ("statusLabel", JStr "GECTI");
    ("statusLabelEn", JStr "PASS");
    ("title", JStr "Enterprise escalation — operator playbook");
    ("titleEn", JStr "Enterprise escalation — operator playbook");
    ("verdict", JStr "Doc sections 14; live gates 3/3.");
    ("verdictEn", JStr "Doc sections 14; live gates 3/3.");
    ("group", JStr "proof");
    ("purpose", JStr "P1-P4 runbook + Telegram/edge operator gates.");
    ("purposeEn", JStr "P1-P4 runbook + Telegram/edge operator gates.");
    ("metrics", JArr [
      JObj [("label", JStr "doc"); ("value", JStr "14")];
      JObj [("label", JStr "gates"); ("value", JStr "3/3")]]);
    ("script", JStr "scripts/enterprise_escalation_gate.sh");
    ("date", JStr "2026-07-10")]].
Definition TESTS_8 : list json := [
  JObj [
    ("id", JStr "enterprise-soar-gate");
    ("status", JStr "pass");
    ("statusLabel", JStr "GECTI");
    ("statusLabelEn", JStr "PASS");
    ("title", JStr "Enterprise SOAR gate — Caddy :9443 mTLS + strict");
    ("titleEn", JStr "Enterprise SOAR gate — Caddy :9443 mTLS + strict");
    ("verdict", JStr "mode=enterprise; SOAR on; strict=on.");
    ("verdictEn", JStr "mode=enterprise; SOAR on; strict=on.");
    ("group", JStr "proof");
    ("purpose", JStr "Operatör: enable/disable SOAR API — split token, Caddy mTLS, loopback strict.");
    ("purposeEn", JStr "Operator gate: enable/disable SOAR API — split token, Caddy mTLS, loopback strict.");
    ("metrics", JArr [
      JObj [("label", JStr "mode"); ("value", JStr "enterprise")];
      JObj [("label", JStr "soar"); ("value", JStr "on")];
      JObj [("label", JStr "strict"); ("value", JStr "on")];
      JObj [("label", JStr "caddy"); ("value", JStr "OK")];
      JObj [("label", JStr "ban_smoke"); ("value", JStr "OK")]]);
    ("script", JStr "scripts/enterprise_soar_gate.sh");
    ("date", JStr "2026-07-09")];
  JObj [
    ("id", JStr "fleet-multi-node");
    ("status", JStr "pass");
    ("statusLabel", JStr "GECTI");
    ("statusLabelEn", JStr "PASS");
    ("title", JStr "Fleet multi-node — 2+ agent + dispatch");
    ("titleEn", JStr "Fleet multi-node — 2+ agents + targeted dispatch");
    ("verdict", JStr "4 agent, 4 online; dispatch→node-vm-02; HMAC=OK.");
    ("verdictEn", JStr "4 agents, 4 online; dispatch→node-vm-02; HMAC=OK.");
    ("group", JStr "proof");
    ("purpose", JStr "2+ telemetry agent ve /fleet/dispatch hedefli komut yolunu kanıtlar.");
    ("purposeEn", JStr "Proves 2+ telemetry agents and targeted /fleet/dispatch routing.");
    ("metrics", JArr [
      JObj [("label", JStr "agents"); ("value", JStr "4")];
      JObj [("label", JStr "online"); ("value", JStr "4")];
      JObj [("label", JStr "target"); ("value", JStr "node-vm-02")];
      JObj [("label", JStr "HMAC"); ("value", JStr "OK")]]);
    ("script", JStr "scripts/fleet_multi_node_e2e.sh");
    ("date", JStr "2026-07-10")];
  JObj [
    ("id", JStr "fleet-offline-gate");
    ("status", JStr "pass");
    ("statusLabel", JStr "GECTI");
    ("statusLabelEn", JStr "PASS");
    ("title", JStr "Fleet offline gate — heartbeat rapor tazeligi");
    ("titleEn", JStr "Fleet offline gate — heartbeat report freshness");
    ("verdict", JStr "4/4 online; mode=laptop-simulated; max_age=15.0m.");
    ("verdictEn", JStr "4/4 online; mode=laptop-simulated; max_age=15.0m.");
    ("group", JStr "proof");
    ("purpose", JStr "Filo agent raporunun bayat olmadigini ve en az bir agent online oldugunu dogrular.");
    ("purposeEn", JStr "Verifies fleet agent report freshness and at least one agent online.");
    ("metrics", JArr [
      JObj [("label", JStr "online"); ("value", JStr "4")];
      JObj [("label", JStr "total"); ("value", JStr "4")];
      JObj [("label", JStr "mode"); ("value", JStr "laptop-simulated")];
      JObj [("label", JStr "max_age_m"); ("value", JStr "15.0")]]);
    ("script", JStr "scripts/fleet_offline_gate.sh");
    ("date", JStr "2026-07-10")];
  JObj [
    ("id", JStr "fp-cluster-trust");
    ("status", JStr "pass");
    ("statusLabel", JStr "GECTI");
    ("statusLabelEn", JStr "PASS");
    ("title", JStr "FP learn — guvenilir IP cluster ban disinda");
    ("titleEn", JStr "FP learn — trusted IP excluded from cluster ban");
    ("verdict", JStr "trusted=10.0.0.50 cluster_banned=False flush=True.");
    ("verdictEn", JStr "trusted=10.0.0.50 cluster_banned=False flush=True.");
    ("group", JStr "proof")];
  JObj [
    ("id", JStr "fp-rate");
    ("status", JStr "pass");
    ("statusLabel", JStr "GECTI");
    ("statusLabelEn", JStr "PASS");
    ("title", JStr "Temiz (benign) trafikte yanlis alarm orani");
    ("titleEn", JStr "False positive rate on benign traffic");
    ("verdict", JStr "500 benign satirda %0.2 FP — hedef <%5.0.");
    ("verdictEn", JStr "500 benign lines, 0.2% FP — target <5.0%.");
    ("group", JStr "proof")]].
Definition TESTS_9 : list json := [
  JObj [
    ("id", JStr "github-ship-gate");
    ("status", JStr "pass");
    ("statusLabel", JStr "GECTI");
    ("statusLabelEn", JStr "PASS");
    ("title", JStr "GitHub ship — push oncesi tam kapı");
    ("titleEn", JStr "GitHub ship — full pre-push gate");
    ("verdict", JStr "ship=yes; closure=yes; secret=yes; proof 89/89.");
    ("verdictEn", JStr "ship=yes; closure=yes; secret=yes; proof 89/89.");
    ("group", JStr "proof");
    ("purpose", JStr "presentation_ship + security_closure + secret scan — git push hazirligi.");
    ("purposeEn", JStr "presentation_ship + security_closure + secret scan — git push readiness.");
    ("metrics", JArr [
      JObj [("label", JStr "closure"); ("value", JStr "yes")];
      JObj [("label", JStr "proof"); ("value", JStr "89/89")]]);
    ("script", JStr "scripts/github_ship_gate.sh");
    ("date", JStr "2026-07-08")];
  JObj [
    ("id", JStr "grafana-alerts");
    ("status", JStr "pass");
    ("statusLabel", JStr "GECTI");
    ("statusLabelEn", JStr "PASS");
    ("title", JStr "Grafana — dashboard $tenant + alert kurallari");
    ("titleEn", JStr "Grafana — dashboard $tenant + alert rules");
    ("verdict", JStr "uid log-guardian-01; 13 alert (13 tenant_id).");
    ("verdictEn", JStr "uid log-guardian-01; 13 alerts (13 tenant_id).");
    ("group", JStr "proof");
    ("purpose", JStr "Prometheus tenant degiskeni ve Grafana alert provisioning kaniti.");
    ("purposeEn", JStr "Proves Prometheus tenant variable and Grafana alert provisioning.");
    ("metrics", JArr [
      JObj [("label", JStr "dashboard"); ("value", JStr "log-guardian-01")];
      JObj [("label", JStr "alerts"); ("value", JStr "13")];
      JObj [("label", JStr "tenant"); ("value", JStr "yes")]]);
    ("script", JStr "scripts/grafana_alert_gate.sh");
    ("date", JStr "2026-07-08")];
  JObj [
    ("id", JStr "grafana-parity-gate");
    ("status", JStr "pass");
    ("statusLabel", JStr "GECTI");
    ("statusLabelEn", JStr "PASS");
    ("title", JStr "Grafana parity — dashboard mini panel ↔ JSON");
    ("titleEn", JStr "Grafana parity — dashboard mini panels ↔ JSON");
    ("verdict", JStr "Panel 41; dashboard 43 metrics matched.");
    ("verdictEn", JStr "Panel 41; dashboard 43 metrics matched.");
    ("group", JStr "proof");
    ("purpose", JStr "grafanaPanels.ts ile grafana-dashboard.json metrik eslesmesi.");
    ("purposeEn", JStr "grafanaPanels.ts metrics match grafana-dashboard.json.");
    ("metrics", JArr [
      JObj [("label", JStr "panel"); ("value", JStr "41")];
      JObj [("label", JStr "dash"); ("value", JStr "43")]]);
    ("script", JStr "scripts/grafana_parity_gate.sh");
    ("date", JStr "2026-07-10")];
  JObj [
    ("id", JStr "hardening-rollback-gate");
    ("status", JStr "pass");
    ("statusLabel", JStr "GECTI");
    ("statusLabelEn", JStr "PASS");
    ("title", JStr "Hardening rollback — geri alma hazırlığı");
    ("titleEn", JStr "Hardening rollback — rollback readiness");
    ("verdict", JStr "kontroller 7/7 OK.");
    ("verdictEn", JStr "checks 7/7 OK.");
    ("group", JStr "proof");
    ("purpose", JStr "Internet-facing sertleştirme öncesi yedek + demo parola algısı (salt okunur).");
    ("purposeEn", JStr "Pre-hardening backup + demo password detection (read-only).");
    ("metrics", JArr [JObj [("label", JStr "checks"); ("value", JStr "7/7")]]);
    ("script", JStr "scripts/hardening_rollback_gate.sh");
    ("date", JStr "2026-07-09")];
  JObj [
    ("id", JStr "honeypot-feed");
    ("status", JStr "pass");
    ("statusLabel", JStr "GECTI");
    ("statusLabelEn", JStr "PASS");
    ("title", JStr "Honeypot / deception — trap metrikleri");
    ("titleEn", JStr "Honeypot / deception — trap metrics");
    ("verdict", JStr "mode=metrics honey=0 lfi=0 c2=0.");
    ("verdictEn", JStr "mode=metrics honey=0 lfi=0 c2=0.");
    ("group", JStr "proof");
    ("purpose", JStr "trap_watcher + tarpit deception hattının Prometheus sayaçlarını kanıtlar.");
    ("purposeEn", JStr "Proves trap_watcher + tarpit deception via Prometheus counters.");
    ("metrics", JArr [
      JObj [("label", JStr "mode"); ("value", JStr "metrics")];
      JObj [("label", JStr "honey"); ("value", JStr "0")];
      JObj [("label", JStr "lfi"); ("value", JStr "0")];
      JObj [("label", JStr "c2"); ("value", JStr "0")]]);
    ("script", JStr "scripts/honeypot_feed_e2e.sh");
    ("date", JStr "2026-06-28")]].
Definition TESTS_10 : list json := [
  JObj [
    ("id", JStr "intel-ban-db");
    ("status", JStr "pass");
    ("statusLabel", JStr "GECTI");
    ("statusLabelEn", JStr "PASS");
    ("title", JStr "INTEL_BAN_DB — ban_events boyut + TTL");
    ("titleEn", JStr "INTEL_BAN_DB — ban_events size + TTL");
    ("verdict", JStr "ban_events 1377; legacy 0; stale 0; TTL 7g.");
    ("verdictEn", JStr "ban_events 1377; legacy 0; stale 0; TTL 7d.");
    ("group", JStr "proof");
    ("purpose", JStr "SQLite ban_events sisme kontrolu — ban mantigina dokunmaz.");
    ("purposeEn", JStr "SQLite ban_events bloat check — does not change ban logic.");
    ("metrics", JArr [
      JObj [("label", JStr "rows"); ("value", JStr "1377")];
      JObj [("label", JStr "legacy"); ("value", JStr "0")];
      JObj [("label", JStr "TTL"); ("value", JStr "7d")]]);
    ("script", JStr "scripts/intel_ban_db_ops_check.sh");
    ("date", JStr "2026-07-10")];
  JObj [
    ("id", JStr "ipv6-ban-e2e");
    ("status", JStr "pass");
    ("statusLabel", JStr "GECTI");
    ("statusLabelEn", JStr "PASS");
    ("title", JStr "IPv6 ban — ipset v6 + API/CLI");
    ("titleEn", JStr "IPv6 ban — ipset v6 + API/CLI");
    ("verdict", JStr "via=api; path=ipc-xdp; ip=2001:db8::dead:beef.");
    ("verdictEn", JStr "via=api; path=ipc-xdp; ip=2001:db8::dead:beef.");
    ("group", JStr "proof");
    ("purpose", JStr "RFC 3849 doc prefix — v4-only rakiplere karsi ipset v6 kaniti.");
    ("purposeEn", JStr "RFC 3849 doc prefix — ipset v6 proof vs v4-only rivals.");
    ("metrics", JArr [
      JObj [("label", JStr "via"); ("value", JStr "api")];
      JObj [("label", JStr "path"); ("value", JStr "ipc-xdp")]]);
    ("script", JStr "scripts/ipv6_ban_e2e.sh");
    ("date", JStr "2026-07-07")];
  JObj [
    ("id", JStr "ja3-cluster");
    ("status", JStr "pass");
    ("statusLabel", JStr "GECTI");
    ("statusLabelEn", JStr "PASS");
    ("title", JStr "Dagitik saldiri (ayni UA, farkli IP) cluster recall");
    ("titleEn", JStr "Distributed attack (same UA, different IPs) cluster recall");
    ("verdict", JStr "80 IP, recall %100.0 (80/80).");
    ("verdictEn", JStr "80 IPs, recall 100.0% (80/80).");
    ("group", JStr "proof")];
  JObj [
    ("id", JStr "ja3-cluster-ban-live");
    ("status", JStr "pass");
    ("statusLabel", JStr "GECTI");
    ("statusLabelEn", JStr "PASS");
    ("title", JStr "Canli nginx log -> JA3/UA cluster -> ban_pipeline");
    ("titleEn", JStr "Live nginx log -> JA3/UA cluster -> ban_pipeline");
    ("verdict", JStr "mode=live-append delta=8 flush=True block=203.0.113.162-203.0.113.166.");
    ("verdictEn", JStr "mode=live-append delta=8 flush=True block=203.0.113.162-203.0.113.166.");
    ("group", JStr "proof")];
  JObj [
    ("id", JStr "k8s-admission");
    ("status", JStr "pass");
    ("statusLabel", JStr "GECTI");
    ("statusLabelEn", JStr "PASS");
    ("title", JStr "K8s admission webhook — deny label + allow");
    ("titleEn", JStr "K8s admission webhook — deny label + allow");
    ("verdict", JStr "mode=docker-standalone; deny label=security.log-guardian.io/deny.");
    ("verdictEn", JStr "mode=docker-standalone; deny label=security.log-guardian.io/deny.");
    ("group", JStr "proof");
    ("purpose", JStr "Operator admission: security.log-guardian.io/deny pod reddi.");
    ("purposeEn", JStr "Operator admission rejects pods with deny security label.");
    ("metrics", JArr [JObj [("label", JStr "mode"); ("value", JStr "docker-standalone")]]);
    ("script", JStr "scripts/k8s_admission_test.sh");
    ("date", JStr "2026-07-10")]].
Definition TESTS_11 : list json := [
  JObj [
    ("id", JStr "k8s-kind-e2e");
    ("status", JStr "pass");
    ("statusLabel", JStr "GECTI");
    ("statusLabelEn", JStr "PASS");
    ("title", JStr "K8s kind cluster — helm dry-run / live");
    ("titleEn", JStr "K8s kind cluster — helm dry-run / live");
    ("verdict", JStr "cluster=lg; mode=dry-run-server.");
    ("verdictEn", JStr "cluster=lg; mode=dry-run-server.");
    ("group", JStr "proof");
    ("purpose", JStr "Opsiyonel Pro: kind + helm/log-guardian canli veya dry-run kaniti.");
    ("purposeEn", JStr "Optional Pro: kind cluster + helm chart live or dry-run proof.");
    ("metrics", JArr [
      JObj [("label", JStr "mode"); ("value", JStr "dry-run-server")];
      JObj [("label", JStr "cluster"); ("value", JStr "lg")]]);
    ("script", JStr "scripts/k8s_kind_e2e.sh");
    ("date", JStr "2026-07-04")];
  JObj [
    ("id", JStr "l7-probe-prod");
    ("status", JStr "pass");
    ("statusLabel", JStr "GECTI");
    ("statusLabelEn", JStr "PASS");
    ("title", JStr "L7 eBPF HTTP probe — prod hazırlık");
    ("titleEn", JStr "L7 eBPF HTTP probe — prod readiness");
    ("verdict", JStr "IPC ok; l7_probe ON; hits=15; xdp=ipset-fallback.");
    ("verdictEn", JStr "IPC ok; l7_probe ON; hits=15; xdp=ipset-fallback.");
    ("group", JStr "proof");
    ("purpose", JStr "Daemon IPC + http_l7_probe.o ile L7 telemetry kanıtı.");
    ("purposeEn", JStr "Proves daemon IPC + http_l7_probe.o L7 telemetry.");
    ("metrics", JArr [
      JObj [("label", JStr "IPC"); ("value", JStr "ok")];
      JObj [("label", JStr "l7_probe"); ("value", JStr "ON")];
      JObj [("label", JStr "hits"); ("value", JStr "15")];
      JObj [("label", JStr "xdp"); ("value", JStr "ipset-fallback")]]);
    ("script", JStr "scripts/l7_probe_prod_e2e.sh");
    ("date", JStr "2026-07-05")];
  JObj [
    ("id", JStr "laptop-core-gate");
    ("status", JStr "pass");
    ("statusLabel", JStr "GECTI");
    ("statusLabelEn", JStr "PASS");
    ("title", JStr "Laptop Core — edge + SOC + ban operatörü");
    ("titleEn", JStr "Laptop Core — edge + SOC + ban operator gate");
    ("verdict", JStr "edge=skip; soc=yes; ban=yes; xdp=ipset-fallback; proof 89/89.");
    ("verdictEn", JStr "edge=skip; soc=yes; ban=yes; xdp=ipset-fallback; proof 89/89.");
    ("group", JStr "proof");
    ("purpose", JStr "nginx→WAF→ban Core vaadi — edge, Telegram SOC, ban API.");
    ("purposeEn", JStr "nginx→WAF→ban Core promise — edge, Telegram SOC, ban API.");
    ("metrics", JArr [
      JObj [("label", JStr "xdp"); ("value", JStr "ipset-fallba")];
      JObj [("label", JStr "proof"); ("value", JStr "89/89")]]);
    ("script", JStr "scripts/laptop_core_gate.sh");
    ("date", JStr "2026-07-10")];
  JObj [
    ("id", JStr "laptop-excellence-gate");
    ("status", JStr "pass");
    ("statusLabel", JStr "GECTI");
    ("statusLabelEn", JStr "PASS");
    ("title", JStr "Laptop excellence — demo hazirlik kapisi");
    ("titleEn", JStr "Laptop excellence — demo readiness gate");
    ("verdict", JStr "OK=14 WARN=0 FAIL=0; proof 89/89.");
    ("verdictEn", JStr "OK=14 WARN=0 FAIL=0; proof 89/89.");
    ("group", JStr "proof");
    ("purpose", JStr "Laptop demo zinciri — servis, :8443, filo, kanit.");
    ("purposeEn", JStr "Laptop demo chain — services, :8443, fleet, proof.");
    ("metrics", JArr [JObj [("label", JStr "OK"); ("value", JStr "14")]; JObj [("label", JStr "FAIL"); ("value", JStr "0")]]);
    ("script", JStr "scripts/laptop_excellence_gate.sh");
    ("date", JStr "2026-07-08")];
  JObj [
    ("id", JStr "lineage-incident");
    ("status", JStr "pass");
    ("statusLabel", JStr "GECTI");
    ("statusLabelEn", JStr "PASS");
    ("title", JStr "Lineage → incident otomatik (tek senaryo)");
    ("titleEn", JStr "Lineage → auto incident (single scenario)");
    ("verdict", JStr "INC-6a4ecb0c-2382; aktif=1; sinyal=LOG_SQLI+EBPF_EXECVE.");
    ("verdictEn", JStr "INC-6a4ecb0c-2382; active=1; signals=LOG_SQLI+EBPF_EXECVE.");
    ("group", JStr "proof");
    ("purpose", JStr "LOG_SQLI + EBPF_EXECVE sinyallerinden INC-* korelasyonu; tek otomatik incident kanıtı.");
    ("purposeEn", JStr "INC-* correlation from LOG_SQLI + EBPF_EXECVE signals; single auto-incident proof.");
    ("metrics", JArr [
      JObj [("label", JStr "INC"); ("value", JStr "INC-6a4ecb0c-2382")];
      JObj [("label", JStr "IP"); ("value", JStr "10.0.0.99")];
      JObj [("label", JStr "active"); ("value", JStr "1")]]);
    ("script", JStr "scripts/lineage_incident_e2e.sh");
    ("date", JStr "2026-07-08")]].
Definition TESTS_12 : list json := [
  JObj [
    ("id", JStr "lineage-live");
    ("status", JStr "pass");
    ("statusLabel", JStr "GECTI");
    ("statusLabelEn", JStr "PASS");
    ("title", JStr "eBPF lineage — openat/execve/connect zinciri");
    ("titleEn", JStr "eBPF lineage — openat/execve/connect chain");
    ("verdict", JStr "risk=91.2 events=4 (EXEC_SHELL · FILE_READ · FILE_WRITE · NET_CONNECT) source=daemon_file.");
    ("verdictEn", JStr "risk=91.2 events=4 (EXEC_SHELL · FILE_READ · FILE_WRITE · NET_CONNECT) source=daemon_file.");
    ("group", JStr "proof")];
  JObj [
    ("id", JStr "live-attack");
    ("status", JStr "pass");
    ("statusLabel", JStr "GECTI");
    ("statusLabelEn", JStr "PASS");
    ("title", JStr "Canli nginx :80 saldiri harness (tester + ban)");
    ("titleEn", JStr "Live nginx :80 attack harness (tester + ban)");
    ("verdict", JStr "sent=525 refused=525 kernel=True waf=True.");
    ("verdictEn", JStr "sent=525 refused=525 kernel=True waf=True.");
    ("group", JStr "proof")];
  JObj [
    ("id", JStr "live-pipeline");
    ("status", JStr "pass");
    ("statusLabel", JStr "GECTI");
    ("statusLabelEn", JStr "PASS");
    ("title", JStr "Canli ban hatti (IPC -> XDP/ipset)");
    ("titleEn", JStr "Live ban pipeline (IPC -> XDP/ipset)");
    ("verdict", JStr "IPC ok; 0 IPC, 0 XDP, 0 ipset.");
    ("verdictEn", JStr "IPC ok; 0 IPC, 0 XDP, 0 ipset.");
    ("group", JStr "proof")];
  JObj [
    ("id", JStr "marketplace-signed-api");
    ("status", JStr "pass");
    ("statusLabel", JStr "GECTI");
    ("statusLabelEn", JStr "PASS");
    ("title", JStr "Marketplace — imzali API (Enterprise tier)");
    ("titleEn", JStr "Marketplace — signed API (Enterprise tier)");
    ("verdict", JStr "mode=tier_gate; tier=pro; imzali=0.");
    ("verdictEn", JStr "mode=tier_gate; tier=pro; signed=0.");
    ("group", JStr "proof");
    ("purpose", JStr "Enterprise /api/marketplace/signed — imza dogrulama; Pro/Community 403.");
    ("purposeEn", JStr "Enterprise /api/marketplace/signed — signature verify; Pro/Community get 403.");
    ("metrics", JArr [
      JObj [("label", JStr "mode"); ("value", JStr "tier_gate")];
      JObj [("label", JStr "tier"); ("value", JStr "pro")]]);
    ("script", JStr "scripts/marketplace_signed_api_e2e.sh");
    ("date", JStr "2026-06-29")];
  JObj [
    ("id", JStr "mesh-etcd-docker");
    ("status", JStr "pass");
    ("statusLabel", JStr "GECTI");
    ("statusLabelEn", JStr "PASS");
    ("title", JStr "Mesh etcd — docker lab endpoint");
    ("titleEn", JStr "Mesh etcd — docker lab endpoint");
    ("verdict", JStr "endpoint=http://127.0.0.1:12379; container=lg-etcd-smoke.");
    ("verdictEn", JStr "endpoint=http://127.0.0.1:12379; container=lg-etcd-smoke.");
    ("group", JStr "proof");
    ("purpose", JStr "Opsiyonel filo: etcd docker ile canli endpoint smoke.");
    ("purposeEn", JStr "Optional fleet: live etcd docker endpoint smoke.");
    ("metrics", JArr [JObj [("label", JStr "mode"); ("value", JStr "docker-live")]]);
    ("script", JStr "scripts/mesh_etcd_docker_smoke.sh");
    ("date", JStr "2026-06-29")]].
Definition TESTS_13 : list json := [
  JObj [
    ("id", JStr "mesh-etcd-live");
    ("status", JStr "pass");
    ("statusLabel", JStr "GECTI");
    ("statusLabelEn", JStr "PASS");
    ("title", JStr "Mesh etcd — canlı PUT/GET");
    ("titleEn", JStr "Mesh etcd — live PUT/GET");
    ("verdict", JStr "mode=docker-live-rw; key=lg/fleet/policy/test; round_trip=True.");
    ("verdictEn", JStr "mode=docker-live-rw; key=lg/fleet/policy/test; round_trip=True.");
    ("group", JStr "proof");
    ("purpose", JStr "Docker etcd v3 round-trip; filo politika anahtarı yazma/okuma kanıtı.");
    ("purposeEn", JStr "Docker etcd v3 round-trip; fleet policy key read/write proof.");
    ("metrics", JArr [
      JObj [("label", JStr "mode"); ("value", JStr "docker-live-rw")];
      JObj [("label", JStr "endpoint"); ("value", JStr "http://127.0.0.1:12379")]]);
    ("script", JStr "scripts/mesh_etcd_live_e2e.sh");
    ("date", JStr "2026-06-29")];
  JObj [
    ("id", JStr "morning-operator-gate");
    ("status", JStr "pass");
    ("statusLabel", JStr "GECTI");
    ("statusLabelEn", JStr "PASS");
    ("title", JStr "Morning operator — sabah hazirlik (hizli)");
    ("titleEn", JStr "Morning operator — fast morning readiness");
    ("verdict", JStr "core=yes(rapor); ship=yes; proof 89/89.");
    ("verdictEn", JStr "core=yes(rapor); ship=yes; proof 89/89.");
    ("group", JStr "proof");
    ("purpose", JStr "Rapor-oncelikli sabah kapisi — demo_3min kosmaz, mevcut gate'leri bozmaz.");
    ("purposeEn", JStr "Report-first morning gate — no demo_3min, does not disturb other gates.");
    ("metrics", JArr [
      JObj [("label", JStr "core"); ("value", JStr "rapor")];
      JObj [("label", JStr "proof"); ("value", JStr "89/89")]]);
    ("script", JStr "scripts/morning_operator_gate.sh");
    ("date", JStr "2026-07-10")];
  JObj [
    ("id", JStr "mtls-cert-expiry");
    ("status", JStr "pass");
    ("statusLabel", JStr "GECTI");
    ("statusLabelEn", JStr "PASS");
    ("title", JStr "mTLS sertifika süresi — SOAR lab");
    ("titleEn", JStr "mTLS certificate expiry — SOAR lab");
    ("verdict", JStr "min 822 gün (warn<=14).");
    ("verdictEn", JStr "min 822 days (warn<=14).");
    ("group", JStr "proof");
    ("purpose", JStr "client/server/ca.crt bitiş — rotasyon runbook uyarısı.");
    ("purposeEn", JStr "client/server/ca.crt expiry — rotation runbook warning.");
    ("metrics", JArr [JObj [("label", JStr "min_days"); ("value", JStr "822")]]);
    ("script", JStr "scripts/mtls_cert_expiry_check.sh");
    ("date", JStr "2026-07-10")];
  JObj [
    ("id", JStr "nginx-consult");
    ("status", JStr "pass");
    ("statusLabel", JStr "GECTI");
    ("statusLabelEn", JStr "PASS");
    ("title", JStr "nginx inline consult API (auth_request oncesi WAF+CRS)");
    ("titleEn", JStr "nginx inline consult API (WAF+CRS before auth_request)");
    ("verdict", JStr "union=403 or1=403 benign=200.");
    ("verdictEn", JStr "union=403 or1=403 benign=200.");
    ("group", JStr "proof");
    ("script", JStr "scripts/nginx_inline_consult_proof.sh");
    ("date", JStr "2026-07-10")];
  JObj [
    ("id", JStr "nginx-hybrid");
    ("status", JStr "pass");
    ("statusLabel", JStr "GECTI");
    ("statusLabelEn", JStr "PASS");
    ("title", JStr "nginx hibrit — inline consult + log replay");
    ("titleEn", JStr "nginx hybrid — inline consult + log replay");
    ("verdict", JStr "mode=inline+log hybrid; edge_sqli=403; replay_alerts=1.");
    ("verdictEn", JStr "mode=inline+log hybrid; edge_sqli=403; replay_alerts=1.");
    ("group", JStr "proof");
    ("purpose", JStr "ModSec/Fail2ban farki: auth_request WAF + access_log tek zincir kaniti.");
    ("purposeEn", JStr "ModSec/Fail2ban gap: auth_request WAF + access_log single-chain proof.");
    ("metrics", JArr [
      JObj [("label", JStr "edge_sqli"); ("value", JStr "403")];
      JObj [("label", JStr "replay"); ("value", JStr "1")]]);
    ("script", JStr "scripts/nginx_hybrid_proof.sh");
    ("date", JStr "2026-07-07")]].
Definition TESTS_14 : list json := [
  JObj [
    ("id", JStr "owasp-corpus");
    ("status", JStr "pass");
    ("statusLabel", JStr "GECTI");
    ("statusLabelEn", JStr "PASS");
    ("title", JStr "OWASP CRS test corpus recall");
    ("titleEn", JStr "OWASP CRS test corpus recall");
    ("verdict", JStr "%112.1 recall — 199 satir.");
    ("verdictEn", JStr "112.1% recall — 199 lines.");
    ("group", JStr "proof")];
  JObj [
    ("id", JStr "parser-fuzz");
    ("status", JStr "pass");
    ("statusLabel", JStr "GECTI");
    ("statusLabelEn", JStr "PASS");
    ("title", JStr "Parser fuzz — malformed corpus + mutasyon");
    ("titleEn", JStr "Parser fuzz — malformed corpus + mutation");
    ("verdict", JStr "593 parse; corpus=36; file=40; mutasyon=512.");
    ("verdictEn", JStr "593 parses; corpus=36; file=40; mutations=512.");
    ("group", JStr "proof");
    ("purpose", JStr "Deterministik bozuk log satırlarında crash/UB yok; nginx/auth parse güvenilirliği.");
    ("purposeEn", JStr "No crash/UB on deterministic malformed log lines; nginx/auth parse reliability.");
    ("metrics", JArr [
      JObj [("label", JStr "runs"); ("value", JStr "593")];
      JObj [("label", JStr "corpus"); ("value", JStr "36")];
      JObj [("label", JStr "file"); ("value", JStr "40")];
      JObj [("label", JStr "mutations"); ("value", JStr "512")]]);
    ("script", JStr "scripts/parser_fuzz_e2e.sh");
    ("date", JStr "2026-07-08")];
  JObj [
    ("id", JStr "phase100-fast-gate");
    ("status", JStr "pass");
    ("statusLabel", JStr "GECTI");
    ("statusLabelEn", JStr "PASS");
    ("title", JStr "phase100 fast gate — Faz 0-6");
    ("titleEn", JStr "phase100 fast gate — Phases 0-6");
    ("verdict", JStr "mode=fast; faz=0-6.");
    ("verdictEn", JStr "mode=fast; phases=0-6.");
    ("group", JStr "proof");
    ("purpose", JStr "Faz 0-6 E2E scriptlerinin hizli kapisi (VPS soak haric).");
    ("purposeEn", JStr "Fast gate for phase 0-6 E2E scripts (excluding VPS soak).");
    ("metrics", JArr [
      JObj [("label", JStr "mode"); ("value", JStr "fast")];
      JObj [("label", JStr "phases"); ("value", JStr "0-6")]]);
    ("script", JStr "scripts/phase100_fast_gate.sh");
    ("date", JStr "2026-06-28")];
  JObj [
    ("id", JStr "presentation-ship-gate");
    ("status", JStr "pass");
    ("statusLabel", JStr "GECTI");
    ("statusLabelEn", JStr "PASS");
    ("title", JStr "Presentation ship — sunum + GitHub zinciri");
    ("titleEn", JStr "Presentation ship — demo rehearsal + release chain");
    ("verdict", JStr "demo=yes; release=yes; artefakt 3/3; proof 89/89.");
    ("verdictEn", JStr "demo=yes; release=yes; artefakt 3/3; proof 89/89.");
    ("group", JStr "proof");
    ("purpose", JStr "demo_rehearsal + release_ready — tek komutta sunum ve ship.");
    ("purposeEn", JStr "demo_rehearsal + release_ready — one-command presentation and ship.");
    ("metrics", JArr [
      JObj [("label", JStr "artefakt"); ("value", JStr "3/3")];
      JObj [("label", JStr "proof"); ("value", JStr "89/89")]]);
    ("script", JStr "scripts/presentation_ship_gate.sh");
    ("date", JStr "2026-07-08")];
  JObj [
    ("id", JStr "prod-stack-e2e");
    ("status", JStr "pass");
    ("statusLabel", JStr "GECTI");
    ("statusLabelEn", JStr "PASS");
    ("title", JStr "Prod stack — Wasm native + lineage + L7");
    ("titleEn", JStr "Prod stack — Wasm native + lineage + L7");
    ("verdict", JStr "wasm=native; lineage=91.2; L7=aktif; ipc=ok.");
    ("verdictEn", JStr "wasm=native; lineage=91.2; L7=active; ipc=ok.");
    ("group", JStr "proof");
    ("purpose", JStr "Stub→prod zinciri: native Wasm plugin, canli lineage, L7 probe.");
    ("purposeEn", JStr "Stub→prod chain: native Wasm plugin, live lineage, L7 probe.");
    ("metrics", JArr [
      JObj [("label", JStr "wasm"); ("value", JStr "native")];
      JObj [("label", JStr "L7"); ("value", JStr "yes")];
      JObj [("label", JStr "xdp"); ("value", JStr "ipset-fallback")]]);
    ("script", JStr "scripts/prod_stack_e2e.sh");
    ("date", JStr "2026-06-29")]].
Definition TESTS_15 : list json := [
  JObj [
    ("id", JStr "real-attack");
    ("status", JStr "pass");
    ("statusLabel", JStr "GECTI");
    ("statusLabelEn", JStr "PASS");
    ("title", JStr "Gercek saldiri corpus (SQLi/XSS/LFI/RCE/scanner) tespit orani");
    ("titleEn", JStr "Real attack corpus (SQLi/XSS/LFI/RCE/scanner) detection rate");
    ("verdict", JStr "999 satir, ortalama recall %101.0 — hedef >=%85.0.");
    ("verdictEn", JStr "999 lines, avg recall 101.0% — target >=85.0%.");
    ("group", JStr "proof")];
  JObj [
    ("id", JStr "real-attack-10k");
    ("status", JStr "pass");
    ("statusLabel", JStr "GECTI");
    ("statusLabelEn", JStr "PASS");
    ("title", JStr "Corpus 10K — genisletilmis saldiri seti recall");
    ("titleEn", JStr "Corpus 10K — extended attack set recall");
    ("verdict", JStr "10000 satir, recall %100.1.");
    ("verdictEn", JStr "10000 lines, recall 100.1%.");
    ("group", JStr "proof")];
  JObj [
    ("id", JStr "release-ready-gate");
    ("status", JStr "pass");
    ("statusLabel", JStr "GECTI");
    ("statusLabelEn", JStr "PASS");
    ("title", JStr "Release ready — GitHub oncesi zincir kapisi");
    ("titleEn", JStr "Release ready — pre-GitHub release chain gate");
    ("verdict", JStr "release=yes; docs=yes; artefakt 3/3; proof 89/89.");
    ("verdictEn", JStr "release=yes; docs=yes; artefakt 3/3; proof 89/89.");
    ("group", JStr "proof");
    ("purpose", JStr "ZIP/PDF + docs + canli site + filo zinciri.");
    ("purposeEn", JStr "ZIP/PDF + docs + live site + fleet chain.");
    ("metrics", JArr [
      JObj [("label", JStr "artefakt"); ("value", JStr "3/3")];
      JObj [("label", JStr "proof"); ("value", JStr "89/89")]]);
    ("script", JStr "scripts/release_ready_gate.sh");
    ("date", JStr "2026-07-08")];
  JObj [
    ("id", JStr "siem-export");
    ("status", JStr "pass");
    ("statusLabel", JStr "GECTI");
    ("statusLabelEn", JStr "PASS");
    ("title", JStr "SIEM forwarder — alert + ban JSON (:5044)");
    ("titleEn", JStr "SIEM forwarder — alert + ban JSON (:5044)");
    ("verdict", JStr "alert=yes ban=yes port=15044.");
    ("verdictEn", JStr "alert=yes ban=yes port=15044.");
    ("group", JStr "proof");
    ("purpose", JStr "Splunk/Elastic/Vector gibi hedeflere JSON event_type akisini kanitlar.");
    ("purposeEn", JStr "Proves JSON event_type stream to Splunk/Elastic/Vector targets.");
    ("metrics", JArr [
      JObj [("label", JStr "alert"); ("value", JStr "yes")];
      JObj [("label", JStr "ban"); ("value", JStr "yes")];
      JObj [("label", JStr "port"); ("value", JStr "15044")]]);
    ("script", JStr "scripts/siem_export_e2e.sh");
    ("date", JStr "2026-07-08")];
  JObj [
    ("id", JStr "taxii-feed");
    ("status", JStr "pass");
    ("statusLabel", JStr "GECTI");
    ("statusLabelEn", JStr "PASS");
    ("title", JStr "TAXII/STIX IOC → ban API (confidence gate)");
    ("titleEn", JStr "TAXII/STIX IOC → ban API (confidence gate)");
    ("verdict", JStr "dry-run; 2 IOC (≥70); atlanan=1.");
    ("verdictEn", JStr "dry-run; 2 IOC (≥70); skipped=1.");
    ("group", JStr "proof");
    ("purpose", JStr "STIX 2.1 göstergelerini confidence eşiği ile süzer; düşük güven IOC'leri banlamaz.");
    ("purposeEn", JStr "Filters STIX 2.1 indicators by confidence; skips low-trust IOCs from ban path.");
    ("metrics", JArr [
      JObj [("label", JStr "mode"); ("value", JStr "dry-run")];
      JObj [("label", JStr "IOC"); ("value", JStr "2")];
      JObj [("label", JStr "min conf"); ("value", JStr "70")];
      JObj [("label", JStr "atlanan"); ("value", JStr "1")]]);
    ("script", JStr "scripts/taxii_feed_e2e.sh");
    ("date", JStr "2026-07-10")]].
Definition TESTS_16 : list json := [
  JObj [
    ("id", JStr "telegram-operator-undo-e2e");
    ("status", JStr "pass");
    ("statusLabel", JStr "GECTI");
    ("statusLabelEn", JStr "PASS");
    ("title", JStr "Telegram operator undo — SIGUSR2 (WL/mute)");
    ("titleEn", JStr "Telegram operator undo — SIGUSR2 (WL/mute)");
    ("verdict", JStr "SIGUSR2 · sigusr2 · IP 203.0.113.198.");
    ("verdictEn", JStr "SIGUSR2 · sigusr2 · IP 203.0.113.198.");
    ("group", JStr "proof");
    ("purpose", JStr "WL/Sessiz/Unban yanlis tiklamalarini poll kesmeden geri alir.");
    ("purposeEn", JStr "Reverts mistaken WL/mute/unban without interrupting Telegram poll.");
    ("metrics", JArr [
      JObj [("label", JStr "mode"); ("value", JStr "sigusr2")];
      JObj [("label", JStr "ip"); ("value", JStr "203.0.113.198")];
      JObj [("label", JStr "pass"); ("value", JStr "OK")]]);
    ("script", JStr "scripts/telegram_operator_undo_e2e.sh");
    ("date", JStr "2026-06-29")];
  JObj [
    ("id", JStr "telegram-soc-gate");
    ("status", JStr "pass");
    ("statusLabel", JStr "GECTI");
    ("statusLabelEn", JStr "PASS");
    ("title", JStr "Telegram SOC — timeline + map + webhook");
    ("titleEn", JStr "Telegram SOC — timeline + map + webhook");
    ("verdict", JStr "SOC 19 (ack 8); map 2; bans ack 1; webhook undo.");
    ("verdictEn", JStr "SOC 19 (ack 8); map 2; bans ack 1; webhook undo.");
    ("group", JStr "proof");
    ("purpose", JStr "Uc operator yuzeyinin ayni anda canli kanit urettigini dogrular.");
    ("purposeEn", JStr "Proves three operator surfaces emit live evidence together.");
    ("metrics", JArr [
      JObj [("label", JStr "soc"); ("value", JStr "19")];
      JObj [("label", JStr "map"); ("value", JStr "2")];
      JObj [("label", JStr "bans"); ("value", JStr "1")];
      JObj [("label", JStr "webhook"); ("value", JStr "undo")]]);
    ("script", JStr "scripts/telegram_soc_gate.sh");
    ("date", JStr "2026-07-10")];
  JObj [
    ("id", JStr "tenant-isolation");
    ("status", JStr "pass");
    ("statusLabel", JStr "GECTI");
    ("statusLabelEn", JStr "PASS");
    ("title", JStr "Multi-tenant kiracı izolasyonu");
    ("titleEn", JStr "Multi-tenant isolation");
    ("verdict", JStr "Kiraci musteri1: 4/4 kontrol gecti.");
    ("verdictEn", JStr "Tenant musteri1: 4/4 checks passed.");
    ("group", JStr "proof")];
  JObj [
    ("id", JStr "threat-intel-sync");
    ("status", JStr "pass");
    ("statusLabel", JStr "GECTI");
    ("statusLabelEn", JStr "PASS");
    ("title", JStr "Threat intel sync -> ipset");
    ("titleEn", JStr "Threat intel sync -> ipset");
    ("verdict", JStr "sync 0s, ioc=10, ipset_delta=0.");
    ("verdictEn", JStr "sync 0s, ioc=10, ipset_delta=0.");
    ("group", JStr "proof")];
  JObj [
    ("id", JStr "tr-hosting-corpus");
    ("status", JStr "pass");
    ("statusLabel", JStr "GECTI");
    ("statusLabelEn", JStr "PASS");
    ("title", JStr "TR hosting corpus (sentetik anonymized)");
    ("titleEn", JStr "TR hosting corpus (synthetic anonymized)");
    ("verdict", JStr "%100.0 recall — 500 satir · customer_corpus %100.1 (15 attack cat, log_guardian format).");
    ("verdictEn", JStr "100.0% recall — 500 lines · customer_corpus %100.1 (15 attack cat, log_guardian format).");
    ("group", JStr "proof");
    ("metrics", JArr [
      JObj [("label", JStr "customer recall"); ("value", JStr "100.1%")];
      JObj [("label", JStr "attack cats"); ("value", JStr "15")]])]].
Definition TESTS_17 : list json := [
  JObj [
    ("id", JStr "vm-fleet-gate");
    ("status", JStr "pass");
    ("statusLabel", JStr "GECTI");
    ("statusLabelEn", JStr "PASS");
    ("title", JStr "VM fleet keepalive — host + node-vm-02");
    ("titleEn", JStr "VM fleet keepalive — host + node-vm-02");
    ("verdict", JStr "node-kurtulus-01=Online; node-vm-02=skip; online=2.");
    ("verdictEn", JStr "node-kurtulus-01=Online; node-vm-02=skip; online=2.");
    ("group", JStr "proof");
    ("purpose", JStr "LAPTOP_OPS filo + VM keepalive — iki dugum Online.");
    ("purposeEn", JStr "LAPTOP_OPS fleet + VM keepalive — two nodes Online.");
    ("metrics", JArr [
      JObj [("label", JStr "host"); ("value", JStr "Online")];
      JObj [("label", JStr "vm"); ("value", JStr "skip")]]);
    ("script", JStr "scripts/vm_fleet_gate.sh");
    ("date", JStr "2026-07-08")];
  JObj [
    ("id", JStr "vm-host-prep-gate");
    ("status", JStr "pass");
    ("statusLabel", JStr "GECTI");
    ("statusLabelEn", JStr "PASS");
    ("title", JStr "VM host prep — pre-sync evidence");
    ("titleEn", JStr "VM host prep — pre-sync evidence");
    ("verdict", JStr "ctx host-vbox; proof 89/89; post_install FAIL=0.");
    ("verdictEn", JStr "ctx host-vbox; proof 89/89; post_install FAIL=0.");
    ("group", JStr "proof");
    ("purpose", JStr "Laptop HOST vm_sync oncesi kanit.");
    ("purposeEn", JStr "Laptop HOST proof before vm_sync.");
    ("metrics", JArr [
      JObj [("label", JStr "proof"); ("value", JStr "89/89")];
      JObj [("label", JStr "ctx"); ("value", JStr "host-vbox")]]);
    ("script", JStr "scripts/vm_host_prep_gate.sh");
    ("date", JStr "2026-06-30")];
  JObj [
    ("id", JStr "vps-xdp-kernel");
    ("status", JStr "pass");
    ("statusLabel", JStr "GECTI");
    ("statusLabelEn", JStr "PASS");
    ("title", JStr "VPS XDP — kernel-xdp (laptop: ipset-fallback)");
    ("titleEn", JStr "VPS XDP — kernel-xdp (laptop: ipset-fallback)");
    ("verdict", JStr "xdp_mode=ipset-fallback; iface=—.");
    ("verdictEn", JStr "xdp_mode=ipset-fallback; iface=—.");
    ("group", JStr "proof");
    ("purpose", JStr "Gercek NIC/VPS'te eBPF XDP; laptop'ta ipset-fallback bilincli.");
    ("purposeEn", JStr "eBPF XDP on real NIC/VPS; laptop ipset-fallback is expected.");
    ("metrics", JArr [
      JObj [("label", JStr "mode"); ("value", JStr "ipset-fallback")];
      JObj [("label", JStr "iface"); ("value", JStr "—")]]);
    ("script", JStr "scripts/vps_xdp_proof.sh");
    ("date", JStr "2026-07-10")];
  JObj [
    ("id", JStr "wasm-native");
    ("status", JStr "pass");
    ("statusLabel", JStr "GECTI");
    ("statusLabelEn", JStr "PASS");
    ("title", JStr "Wasm native — block-sqli plugin smoke");
    ("titleEn", JStr "Wasm native — block-sqli plugin smoke");
    ("verdict", JStr "mode native; 2 native plugin, 1 alert, 992 B.");
    ("verdictEn", JStr "mode native; 2 native plugins, 1 alerts, 992 B.");
    ("group", JStr "proof");
    ("purpose", JStr "Wasmtime C API ile derlenmiş plugin'in SQLi logunda alert ürettiğini kanıtlar.");
    ("purposeEn", JStr "Proves compiled Wasmtime plugin alerts on SQLi in log replay.");
    ("metrics", JArr [
      JObj [("label", JStr "mode"); ("value", JStr "native")];
      JObj [("label", JStr "plugins"); ("value", JStr "2")];
      JObj [("label", JStr "alerts"); ("value", JStr "1")];
      JObj [("label", JStr "bytes"); ("value", JStr "992")]]);
    ("script", JStr "scripts/wasm_gate.sh")];
  JObj [
    ("id", JStr "webhook-route-proof");
    ("status", JStr "pass");
    ("statusLabel", JStr "GECTI");
    ("statusLabelEn", JStr "PASS");
    ("title", JStr "Telegram route + batch — #waf/#ban yönlendirme");
    ("titleEn", JStr "Telegram route + batch — #waf/#ban routing");
    ("verdict", JStr "Mod dry-run; route ON, batch 10s.");
    ("verdictEn", JStr "Mode dry-run; route ON, batch 10s.");
    ("group", JStr "proof");
    ("purpose", JStr "WARN→DM, CRIT/ban→kanal ve batch özetinin doğru hedefe gittiğini kanıtlar.");
    ("purposeEn", JStr "Proves WARN→DM, CRIT/ban→channel and batch summary routing.");
    ("metrics", JArr [
      JObj [("label", JStr "mode"); ("value", JStr "dry-run")];
      JObj [("label", JStr "route"); ("value", JStr "ON")];
      JObj [("label", JStr "batch"); ("value", JStr "10")];
      JObj [("label", JStr "prod"); ("value", JStr "skip")]]);
    ("script", JStr "scripts/webhook_route_proof.sh");
    ("date", JStr "2026-07-05")]].
Definition TESTS_18 : list json := [
  JObj [
    ("id", JStr "webhook-telegram-ack-live");
    ("status", JStr "pass");
    ("statusLabel", JStr "GECTI");
    ("statusLabelEn", JStr "PASS");
    ("title", JStr "Telegram Gordum — DB ack sayaci (24h)");
    ("titleEn", JStr "Telegram Ack — DB counter (24h)");
    ("verdict", JStr "ack 3->4; unacked 0->0.");
    ("verdictEn", JStr "ack 3->4; unacked 0->0.");
    ("group", JStr "proof");
    ("purpose", JStr "Inline Gordum onayinin events.db ve guardian-status/metrics sayacini artirdigini kanitlar.");
    ("purposeEn", JStr "Proves inline Ack bumps events.db and guardian-status/metrics counters.");
    ("metrics", JArr [
      JObj [("label", JStr "ack"); ("value", JStr "3->4")];
      JObj [("label", JStr "unacked"); ("value", JStr "0->0")];
      JObj [("label", JStr "prom"); ("value", JStr "4")]]);
    ("script", JStr "scripts/webhook_ack_e2e.sh");
    ("date", JStr "2026-06-30")];
  JObj [
    ("id", JStr "webhook-telegram-live");
    ("status", JStr "pass");
    ("statusLabel", JStr "GECTI");
    ("statusLabelEn", JStr "PASS");
    ("title", JStr "Telegram prod — canlı alert/ban/trap/batch");
    ("titleEn", JStr "Telegram prod — live alert/ban/trap/batch");
    ("verdict", JStr "mod prod; route ON, batch 10s — alert, ban, trap, batch.");
    ("verdictEn", JStr "mode prod; route ON, batch 10s — alert, ban, trap, batch.");
    ("group", JStr "proof");
    ("purpose", JStr "Gerçek bot token ile CRIT/WARN route + batch özetinin Telegram'a gittiğini kanıtlar.");
    ("purposeEn", JStr "Proves real bot token delivers CRIT/WARN route + batch summary to Telegram.");
    ("metrics", JArr [
      JObj [("label", JStr "route"); ("value", JStr "ON")];
      JObj [("label", JStr "batch"); ("value", JStr "10")];
      JObj [("label", JStr "kinds"); ("value", JStr "alert,ban,trap,batch")]]);
    ("script", JStr "scripts/webhook_install_prod.sh --test-all");
    ("date", JStr "2026-07-04")];
  JObj [
    ("id", JStr "website-live-gate");
    ("status", JStr "pass");
    ("statusLabel", JStr "GECTI");
    ("statusLabelEn", JStr "PASS");
    ("title", JStr "Website live — canli site /tests parity");
    ("titleEn", JStr "Website live — production /tests parity");
    ("verdict", JStr "ceniklinuxlogguardian.org None/89; CSS=yes.");
    ("verdictEn", JStr "ceniklinuxlogguardian.org None/89; CSS=yes.");
    ("group", JStr "proof");
    ("purpose", JStr "ceniklinuxlogguardian.org SRI + test kart parity.");
    ("purposeEn", JStr "Production domain SRI + test card parity.");
    ("metrics", JArr [
      JObj [("label", JStr "live"); ("value", JStr "None/89")];
      JObj [("label", JStr "domain"); ("value", JStr "ceniklinuxlogguardian.or")]]);
    ("script", JStr "scripts/website_live_gate.sh");
    ("date", JStr "2026-07-08")];
  JObj [
    ("id", JStr "website-preview-gate");
    ("status", JStr "pass");
    ("statusLabel", JStr "GECTI");
    ("statusLabelEn", JStr "PASS");
    ("title", JStr "Site preview — landing test parity");
    ("titleEn", JStr "Site preview — landing test parity");
    ("verdict", JStr "Site 89/89 parity; grafana yes; edge yes.");
    ("verdictEn", JStr "Site 89/89 parity; grafana yes; edge yes.");
    ("group", JStr "proof");
    ("purpose", JStr "landing/lib/tests.ts ile competitive-proof parity (yerel test-kart).");
    ("purposeEn", JStr "landing/lib/tests.ts parity with competitive-proof (local test cards).");
    ("metrics", JArr [
      JObj [("label", JStr "site"); ("value", JStr "89")];
      JObj [("label", JStr "proof"); ("value", JStr "89")]]);
    ("script", JStr "scripts/website_preview_gate.sh");
    ("date", JStr "2026-07-10")]].
Definition TESTS : list json := TESTS_1 ++ TESTS_2 ++ TESTS_3 ++ TESTS_4 ++ TESTS_5 ++ TESTS_6 ++ TESTS_7 ++ TESTS_8 ++ TESTS_9 ++ TESTS_10 ++ TESTS_11 ++ TESTS_12 ++ TESTS_13 ++ TESTS_14 ++ TESTS_15 ++ TESTS_16 ++ TESTS_17 ++ TESTS_18.
