(* ===== verification/LandingTypes.v ===== *)
(** The types of the landing site's documents, as the TypeScript sources declare
    them.  A tuple is an array of its element type. *)

From S2P Require Import Prelude JsString JsNum Json JsValue.

Definition LineSeries : ty := TObj [
  req "name" TStr;
  req "values" (TArr TNum);
  opt "us" TBool;
  opt "dash" (TLits ["solid"; "dash"; "dot"])].
Definition SetupStep : ty := TObj [
  req "number" TStr;
  req "title" TStr;
  req "description" TStr;
  req "command" TStr;
  opt "output" TStr].
Definition FooterLink : ty := TObj [req "label" TStr; req "href" TStr].
Definition FooterCol : ty := TObj [req "title" TStr; req "links" (TArr FooterLink)].
Definition PageCopy : ty := TObj [
  req "marquee" (TArr TStr);
  req "pipeline" (TObj [
    req "eyebrow" TStr;
    req "title" TStr;
    req "sub" TStr;
    req "note" TStr;
    req "steps" (TArr (TObj [req "n" TStr; req "label" TStr; req "hint" TStr]))]);
  req "selected" (TObj [
    req "eyebrow" TStr;
    req "title" TStr;
    req "lead" TStr;
    req "prev" TStr;
    req "next" TStr;
    req "cards" (TArr (TObj [
      req "tag" TStr;
      req "kicker" TStr;
      req "title" TStr;
      req "body" TStr;
      req "chips" (TArr TStr)]))]);
  req "vs" (TObj [
    req "eyebrow" TStr;
    req "title" TStr;
    req "sub" TStr;
    req "advTitle" TStr;
    req "advLead" TStr;
    req "advantages" (TArr (TObj [req "k" TStr; req "v" TStr]));
    req "cols" (TArr TStr);
    req "groups" (TArr (TObj [
      req "label" TStr;
      req "honest" TBool;
      req "winners" (TArr TNum);
      req "rows" (TArr (TArr TStr))]));
    req "note" TStr;
    req "legend" TStr;
    req "crowdsecBadge" TStr;
    req "crowdsecComplementary" TStr;
    req "pdfCta" TStr;
    req "testsCta" TStr]);
  req "charts" (TObj [
    req "eyebrow" TStr;
    req "title" TStr;
    req "sub" TStr;
    req "honestBadge" TStr;
    req "targetLabel" TStr;
    req "profile" (TObj [
      req "title" TStr;
      req "hint" TStr;
      req "categories" (TArr TStr);
      req "yMax" TNum;
      req "series" (TArr LineSeries)]);
    req "latency" (TObj [
      req "title" TStr;
      req "hint" TStr;
      req "labels" (TArr TStr);
      req "yMax" TNum;
      req "unit" TStr;
      req "target" TNum;
      req "series" (TArr LineSeries)]);
    req "soak" (TObj [
      req "title" TStr;
      req "hint" TStr;
      req "labels" (TArr TStr);
      req "yMax" TNum;
      req "unit" TStr;
      req "series" (TArr LineSeries)]);
    req "fp" (TObj [
      req "title" TStr;
      req "hint" TStr;
      req "labels" (TArr TStr);
      req "yMax" TNum;
      req "unit" TStr;
      req "series" (TArr LineSeries)]);
    req "eps" (TObj [
      req "title" TStr;
      req "hint" TStr;
      req "labels" (TArr TStr);
      req "yMax" TNum;
      req "unit" TStr;
      req "honest" TBool;
      req "series" (TArr LineSeries)]);
    req "recall" (TObj [
      req "title" TStr;
      req "hint" TStr;
      req "labels" (TArr TStr);
      req "yMax" TNum;
      req "unit" TStr;
      req "series" (TArr LineSeries)])]);
  req "proof" (TObj [
    req "eyebrow" TStr;
    req "testsSuffix" TStr;
    req "passedSuffix" TStr;
    req "body" TStr;
    req "bodyMatrix" TStr;
    req "ctaAll" TStr;
    req "ctaPdf" TStr;
    req "ctaFullPack" TStr;
    req "fullPackCmd" TStr;
    req "statLabels" (TArr TStr);
    req "badges" (TArr TStr)]);
  req "honest" (TObj [
    req "eyebrow" TStr;
    req "title" TStr;
    req "items" (TArr TStr);
    req "layersEyebrow" TStr;
    req "layersTitle" TStr;
    req "layers" (TArr (TObj [req "tag" TStr; req "body" TStr]));
    req "layersNote" TStr]);
  req "setup" (TObj [
    req "eyebrow" TStr;
    req "title" TStr;
    req "sub" TStr;
    req "intro" TStr;
    req "requirementsTitle" TStr;
    req "requirements" (TArr TStr);
    req "dashboardBadge" TStr;
    req "paths" (TArr (TObj [
      req "id" TStr;
      req "title" TStr;
      req "badge" TStr;
      req "note" TStr;
      req "steps" (TArr SetupStep)]));
    req "common" (TObj [req "title" TStr; req "steps" (TArr SetupStep)]);
    req "dashboard" (TObj [req "title" TStr; req "note" TStr; req "steps" (TArr SetupStep)]);
    req "tip" TStr]);
  req "evidence" (TObj [
    req "eyebrow" TStr;
    req "title" TStr;
    req "note" TStr;
    req "fullPackCmd" TStr;
    req "demoCmd" TStr;
    req "files" (TArr TStr);
    req "update" TStr]);
  req "contact" (TObj [
    req "eyebrow" TStr;
    req "title" TStr;
    req "body" TStr;
    req "ctaEmail" TStr;
    req "ctaGithub" TStr;
    req "email" TStr;
    req "github" TStr]);
  req "footer" (TObj [
    req "desc" TStr;
    req "soak" TStr;
    req "columns" (TArr FooterCol);
    req "copyPrefix" TStr;
    req "copySuffix" TStr;
    req "licenseHref" TStr]);
  req "tests" (TObj [
    req "eyebrow" TStr;
    req "title" TStr;
    req "intro" TStr;
    req "allPassed" TStr;
    req "summary" TStr;
    req "passedWord" TStr;
    req "warnWord" TStr;
    req "failWord" TStr;
    req "ctaPdf" TStr;
    req "filterAll" TStr;
    req "filterGate" TStr;
    req "filterProof" TStr;
    req "gateHeading" TStr;
    req "proofHeading" TStr;
    req "statusPass" TStr;
    req "statusWarn" TStr;
    req "statusFail" TStr;
    req "statusPending" TStr;
    req "researcherBanner" TStr])].
Definition SectionOverride : ty := TObj [
  opt "pipelineTitle" TStr;
  opt "pipelineSub" TStr;
  opt "selectedTitle" TStr;
  opt "selectedLead" TStr;
  opt "vsTitle" TStr;
  opt "vsSub" TStr;
  opt "vsAdvTitle" TStr;
  opt "chartsTitle" TStr;
  opt "chartsSub" TStr;
  opt "proofTests" TStr;
  opt "proofPassed" TStr;
  opt "proofCtaAll" TStr;
  opt "proofCtaPdf" TStr;
  opt "honestTitle" TStr;
  opt "layersTitle" TStr;
  opt "setupTitle" TStr;
  opt "setupSub" TStr;
  opt "reqTitle" TStr;
  opt "evidenceTitle" TStr;
  opt "contactTitle" TStr;
  opt "ctaEmail" TStr;
  opt "ctaGithub" TStr;
  opt "colProduct" TStr;
  opt "colDev" TStr;
  opt "colProject" TStr;
  opt "copySuffix" TStr].
Definition SetupStepText : ty := TObj [req "t" TStr; req "d" TStr].
Definition SetupL10n : ty := TObj [
  req "pathTitles" (TArr TStr);
  req "pathBadges" (TArr TStr);
  req "pathNotes" (TArr TStr);
  req "pathSteps" (TArr (TArr SetupStepText));
  req "commonTitle" TStr;
  req "commonSteps" (TArr SetupStepText);
  req "dashboardTitle" TStr;
  req "dashboardBadge" TStr;
  req "dashboardNote" TStr;
  req "dashboardSteps" (TArr SetupStepText)].
Definition BodyOverride : ty := TObj [
  opt "pipelineNote" TStr;
  opt "selectedBodies" (TArr TStr);
  opt "advLead" TStr;
  opt "advantages" (TArr (TObj [req "k" TStr; req "v" TStr]));
  opt "vsNote" TStr;
  opt "vsLegend" TStr;
  opt "vsCols" (TArr TStr);
  opt "vsGroupLabels" (TArr TStr);
  opt "vsRows0" (TArr (TArr TStr));
  opt "vsRows1" (TArr (TArr TStr));
  opt "requirements" (TArr TStr);
  opt "setup" SetupL10n;
  opt "honestItems" (TArr TStr);
  opt "layersBodies" (TArr TStr);
  opt "layersNote" TStr;
  opt "setupIntro" TStr;
  opt "setupTip" TStr;
  opt "contactBody" TStr;
  opt "footerDesc" TStr;
  opt "footerSoak" TStr;
  opt "proofBody" TStr].
Definition SectionCopy : ty := TObj [
  req "hero_badge" TStr;
  req "hero_bullets" (TArr TStr);
  req "hero_tagline" TStr;
  req "hero_chips" (TArr TStr);
  req "hero_reach" TStr;
  req "hero_praise_lead" TStr;
  req "hero_praise_highlights" (TArr TStr);
  req "hero_praise_bold" (TArr (TObj [req "v" TStr; req "l" TStr]));
  req "hero_side_title" TStr;
  req "hero_side_body" TStr;
  req "hero_cta_setup" TStr;
  req "hero_cta_github" TStr;
  req "hero_cta_tests" TStr;
  req "hero_cta_pdf" TStr;
  req "hero_researcher_note" TStr;
  req "about_eyebrow" TStr;
  req "about_title" TStr;
  req "about_intro" TStr;
  req "about_paragraphs" (TArr TStr);
  req "about_highlights" (TArr (TObj [req "k" TStr; req "v" TStr]));
  req "pkg_title" TStr;
  req "pkg_hero" TStr;
  req "pkg_tagline" TStr;
  req "pkg_instead" TStr;
  req "pkg_footer" TStr;
  req "pkg_detail" TStr;
  req "merge" (TArr (TObj [
    req "company" TStr;
    req "name" TStr;
    req "replaces" TStr;
    req "body" TStr;
    req "metrics" (TArr TStr)]));
  req "metrics_title" TStr;
  req "metrics_sub" TStr;
  req "metric_groups" (TRecord TStr);
  req "why_title" TStr;
  req "why_lead" TStr;
  req "why_cards" (TArr (TObj [req "title" TStr; req "body" TStr]));
  req "stats" (TArr (TObj [req "value" TStr; req "label" TStr]));
  req "metric_labels" (TRecord TStr)].
Definition SectionBody : ty := TObj [
  opt "hero_side_body" TStr;
  opt "about_paragraphs" (TArr TStr);
  opt "pkg_hero" TStr;
  opt "why_bodies" (TArr TStr);
  opt "merge_bodies" (TArr TStr)].
Definition LocaleInfo : ty := TObj [
  req "code" TStr;
  req "label" TStr;
  req "native" TStr;
  req "group" (TLits ["turkic"; "other"])].
Definition Messages : ty := TObj [
  req "nav_home" TStr;
  req "nav_about" TStr;
  req "nav_pipeline" TStr;
  req "nav_rivals" TStr;
  req "nav_setup" TStr;
  req "nav_tests" TStr;
  req "nav_contact" TStr;
  req "cta_setup" TStr;
  req "hero_badge" TStr;
  req "hero_tagline" TStr;
  req "lang_label" TStr;
  req "turk_made" TStr].
Definition PipelineStepDeep : ty := TObj [
  req "what" TStr;
  req "advantages" (TArr TStr);
  req "lg" TStr;
  req "rivals" TStr;
  opt "proof" TStr].
Definition PipelineDeepLabels : ty := TObj [
  req "sectionEyebrow" TStr;
  req "sectionTitle" TStr;
  req "sectionSub" TStr;
  req "whatLabel" TStr;
  req "advantagesLabel" TStr;
  req "compareLabel" TStr;
  req "lgLabel" TStr;
  req "rivalsLabel" TStr].
Definition TierStep : ty := TObj [req "n" TStr; req "title" TStr; req "desc" TStr; req "cmd" TStr; opt "out" TStr].
Definition Tier : ty := TObj [
  req "id" (TLits ["core"; "pro"; "proplus"]);
  req "name" TStr;
  req "fullName" TStr;
  req "badge" TStr;
  req "accent" (TLits ["neon"; "turq"; "cyan"]);
  req "tagline" TStr;
  req "chain" TStr;
  req "ram" TStr;
  req "disk" TStr;
  req "includes" (TArr TStr);
  req "installSteps" (TArr TierStep)].
Definition TiersCopy : ty := TObj [
  req "eyebrow" TStr;
  req "title" TStr;
  req "sub" TStr;
  req "ramLabel" TStr;
  req "diskLabel" TStr;
  req "chainLabel" TStr;
  req "includesLabel" TStr;
  req "protectionNote" TStr;
  req "respTitle" TStr;
  req "respBody" TStr;
  req "respRows" (TArr (TObj [req "layer" TStr; req "ours" TStr; req "third" TStr]));
  req "respCols" (TArr TStr);
  req "installEyebrow" TStr;
  req "installTitle" TStr;
  req "installSub" TStr;
  req "selfContainedNote" TStr;
  req "stepsWord" TStr;
  req "tiers" (TArr Tier)].
Definition TierTextPack : ty := TObj [
  req "eyebrow" TStr;
  req "sub" TStr;
  req "ramLabel" TStr;
  req "diskLabel" TStr;
  req "chainLabel" TStr;
  req "includesLabel" TStr;
  req "protectionNote" TStr;
  req "respTitle" TStr;
  req "respBody" TStr;
  req "respCols" (TArr TStr);
  req "respRows" (TArr (TArr TStr));
  req "installEyebrow" TStr;
  req "installTitle" TStr;
  req "installSub" TStr;
  req "selfContainedNote" TStr;
  req "stepsWord" TStr;
  req "badges" (TArr TStr);
  req "taglines" (TArr TStr);
  req "chains" (TArr TStr);
  req "rams" (TArr TStr);
  req "disks" (TArr TStr);
  req "includes" (TArr (TArr TStr));
  req "stepTitles" (TArr TStr);
  req "stepDescs" (TArr TStr)].
Definition TestStatus : ty := TLits ["pass"; "warn"; "fail"; "pending"].
Definition TestMetric : ty := TObj [req "label" TStr; req "value" TStr].
Definition TestEntry : ty := TObj [
  req "id" TStr;
  req "status" TestStatus;
  opt "statusLabel" TStr;
  opt "statusLabelEn" TStr;
  req "title" TStr;
  opt "titleEn" TStr;
  opt "verdict" TStr;
  opt "verdictEn" TStr;
  req "group" (TLits ["gate"; "proof"]);
  opt "purpose" TStr;
  opt "purposeEn" TStr;
  opt "metrics" (TArr TestMetric);
  opt "script" TStr;
  opt "date" TStr;
  opt "badge" TStr;
  opt "badgeEn" TStr].
Definition SectorCard : ty := TObj [req "tag" TStr; req "title" TStr; req "body" TStr; req "proof" TStr].
Definition SectorCopy : ty := TObj [req "eyebrow" TStr; req "title" TStr; req "note" TStr; req "cards" (TArr SectorCard)].
