(* ===== verification/Landing.v ===== *)
(** The landing site's choice of texts (landing/lib): the languages, the page, its
    sections, the editions, the pipeline's steps and the search-engine metadata.
    A language without its own texts falls back on the Turkish or the English ones,
    text by text.  The theorems say that in every language the page has its
    declared type and no empty text, that translations change words only (commands,
    links, figures and verdicts are the same everywhere), and that the guides of the
    editions extend each other. *)

From S2P Require Import Prelude JsString JsNum Json Regex JsValue JsDate LandingContent LandingTypes LandingCopy LandingBodies LandingSections LandingLocales LandingSteps LandingTiers LandingTests.

(** ** Languages *)

Inductive Locale :=
  | Ltr | Len | Lru | Lzh | Lar | Les | Lde | Lfr | Lpt | Lnl | Lko | Lja
  | Laz | Lkk | Luz | Lky | Ltk | Lug | Ltt | Lba | Lcv | Lcrh | Lgag | Lsah.
#[global] Instance Locale_eq_dec : EqDecision Locale.
Proof. solve_decision. Defined.
Definition locales : list Locale :=
  [Ltr; Len; Lru; Lzh; Lar; Les; Lde; Lfr; Lpt; Lnl; Lko; Lja; Laz; Lkk; Luz; Lky; Ltk; Lug; Ltt; Lba; Lcv; Lcrh; Lgag; Lsah].
Definition code (l : Locale) : jstring :=
  match l with
  | Ltr => "tr" | Len => "en" | Lru => "ru" | Lzh => "zh" | Lar => "ar" | Les => "es" | Lde => "de" | Lfr => "fr"
  | Lpt => "pt" | Lnl => "nl" | Lko => "ko" | Lja => "ja" | Laz => "az" | Lkk => "kk" | Luz => "uz" | Lky => "ky"
  | Ltk => "tk" | Lug => "ug" | Ltt => "tt" | Lba => "ba" | Lcv => "cv" | Lcrh => "crh" | Lgag => "gag" | Lsah => "sah"
  end.
(** [table[locale]] *)
Definition at_locale {A} (l : Locale) (t : list (jstring * A)) : option A := assoc (code l) t.
Definition TURKIC : list Locale := [Ltr; Laz; Lkk; Luz; Lky; Ltk; Lug; Ltt; Lba; Lcv; Lcrh; Lgag; Lsah].
Definition turkic (l : Locale) : bool := bool_decide (l ∈ TURKIC).

(** ** The page *)

Definition brandName (l : Locale) : json := at_locale l NAMES ?? JStr "Linux Log Guardian".

(** [{ ...base.k, x: o.y ?? base.k.x, ... }] *)
Definition over (base o : json) (k : jstring) (fs : list (jstring * jstring)) : json :=
  spread (fld k base) (map (λ xy, (xy.1, nn (fld xy.2 o) (fld xy.1 (fld k base)))) fs).

Definition applySection (base o : json) : json :=
  spread base [
    ("pipeline", over base o "pipeline" [("title", "pipelineTitle"); ("sub", "pipelineSub")]);
    ("selected", over base o "selected" [("title", "selectedTitle"); ("lead", "selectedLead")]);
    ("vs", over base o "vs" [("title", "vsTitle"); ("sub", "vsSub"); ("advTitle", "vsAdvTitle")]);
    ("charts", over base o "charts" [("title", "chartsTitle"); ("sub", "chartsSub")]);
    ("proof", over base o "proof" [("testsSuffix", "proofTests"); ("passedSuffix", "proofPassed"); ("ctaAll", "proofCtaAll"); ("ctaPdf", "proofCtaPdf")]);
    ("honest", over base o "honest" [("title", "honestTitle"); ("layersTitle", "layersTitle")]);
    ("setup", over base o "setup" [("title", "setupTitle"); ("sub", "setupSub"); ("requirementsTitle", "reqTitle")]);
    ("evidence", over base o "evidence" [("title", "evidenceTitle")]);
    ("contact", over base o "contact" [("title", "contactTitle"); ("ctaEmail", "ctaEmail"); ("ctaGithub", "ctaGithub")]);
    ("footer", spread (fld "footer" base) [
      ("columns", jmapi (λ i c, spread c [("title", nn (jix i (JArr [fld "colProduct" o; fld "colDev" o; fld "colProject" o])) (fld "title" c))])
                    (fld "columns" (fld "footer" base)));
      ("copySuffix", nn (fld "copySuffix" o) (fld "copySuffix" (fld "footer" base)))])].

(** Steps of a guide with the titles and descriptions of a list of [{t, d}]. *)
Definition step_texts (texts : json) (steps : json) : json :=
  jmapi (λ si s, spread s [("title", nn (fld "t" (jix si texts)) (fld "title" s));
                           ("description", nn (fld "d" (jix si texts)) (fld "description" s))]) steps.
Definition is_null (v : json) : bool := match v with JNull => true | _ => false end.

Definition setup_paths (st paths : json) : json :=
  if is_null st then paths
  else jmapi (λ pi p, spread p [
    ("title", nn (jix pi (fld "pathTitles" st)) (fld "title" p));
    ("badge", nn (jix pi (fld "pathBadges" st)) (fld "badge" p));
    ("note", nn (jix pi (fld "pathNotes" st)) (fld "note" p));
    ("steps", step_texts (jix pi (fld "pathSteps" st)) (fld "steps" p))]) paths.
Definition setup_common (st c : json) : json :=
  if is_null st then c
  else spread c [("title", fld "commonTitle" st); ("steps", step_texts (fld "commonSteps" st) (fld "steps" c))].
Definition setup_dashboard (st d : json) : json :=
  if is_null st then d
  else spread d [("title", fld "dashboardTitle" st); ("note", fld "dashboardNote" st);
                 ("steps", step_texts (fld "dashboardSteps" st) (fld "steps" d))].

Definition applyBody (base b : json) : json :=
  let vs_ := fld "vs" base in
  let honest := fld "honest" base in
  let setup := fld "setup" base in
  spread base [
    ("pipeline", over base b "pipeline" [("note", "pipelineNote")]);
    ("selected", spread (fld "selected" base) [
      ("cards", jmapi (λ i c, spread c [("body", nn (jix i (fld "selectedBodies" b)) (fld "body" c))]) (fld "cards" (fld "selected" base)))]);
    ("vs", spread vs_ [
      ("advLead", nn (fld "advLead" b) (fld "advLead" vs_));
      ("advantages", nn (fld "advantages" b) (fld "advantages" vs_));
      ("note", nn (fld "vsNote" b) (fld "note" vs_));
      ("legend", nn (fld "vsLegend" b) (fld "legend" vs_));
      ("cols", nn (fld "vsCols" b) (fld "cols" vs_));
      ("groups", jmapi (λ i g, spread g [
         ("label", nn (jix i (fld "vsGroupLabels" b)) (fld "label" g));
         ("rows", nn (if (i =? 0)%nat then fld "vsRows0" b else fld "vsRows1" b) (fld "rows" g))]) (fld "groups" vs_))]);
    ("honest", spread honest [
      ("items", nn (fld "honestItems" b) (fld "items" honest));
      ("layers", jmapi (λ i l, spread l [("body", nn (jix i (fld "layersBodies" b)) (fld "body" l))]) (fld "layers" honest));
      ("layersNote", nn (fld "layersNote" b) (fld "layersNote" honest))]);
    ("setup", spread setup [
      ("intro", nn (fld "setupIntro" b) (fld "intro" setup));
      ("tip", nn (fld "setupTip" b) (fld "tip" setup));
      ("requirements", nn (fld "requirements" b) (fld "requirements" setup));
      ("paths", setup_paths (fld "setup" b) (fld "paths" setup));
      ("common", setup_common (fld "setup" b) (fld "common" setup));
      ("dashboard", setup_dashboard (fld "setup" b) (fld "dashboard" setup));
      ("dashboardBadge", nn (fld "dashboardBadge" (fld "setup" b)) (fld "dashboardBadge" setup))]);
    ("contact", over base b "contact" [("body", "contactBody")]);
    ("footer", over base b "footer" [("desc", "footerDesc"); ("soak", "footerSoak")]);
    ("proof", over base b "proof" [("body", "proofBody")])].

(** The override of the test page's texts. *)
Definition applyTests (copy to : json) : json := spread copy [("tests", spread (fld "tests" copy) (jfields to))].

(** An override that may be absent. *)
Definition maybe (f : json → json → json) (base : json) (o : option json) : json :=
  match o with Some o => f base o | None => base end.
Definition getCopy (l : Locale) : json :=
  match l with
  | Ltr => CO_TR
  | Len => CO_EN
  | _ =>
      let copy := maybe applySection CO_EN (at_locale l SECTION_OVERRIDES) in
      let copy := maybe applyBody copy (at_locale l BODY_OVERRIDES) in
      maybe applyTests copy (at_locale l TESTS_OVERRIDES)
  end.

(** ** Sections *)

Definition applyOverride (base o : json) : json :=
  let scalars := jfilter (λ kv : jstring * json, negb ((kv.1 =s "why_titles") || (kv.1 =s "stats_labels"))) (jfields o) in
  spread (spread base scalars) [
    ("why_cards",
      if is_null (fld "why_titles" o) then fld "why_cards" base
      else jmapi (λ i c, JObj [("title", nn (jix i (fld "why_titles" o)) (fld "title" c)); ("body", fld "body" c)]) (fld "why_cards" base));
    ("stats",
      if is_null (fld "stats_labels" o) then fld "stats" base
      else jmapi (λ i s, JObj [("value", fld "value" s); ("label", nn (jix i (fld "stats_labels" o)) (fld "label" s))]) (fld "stats" base))].

Definition applyProse (base b : json) : json :=
  spread base [
    ("hero_side_body", nn (fld "hero_side_body" b) (fld "hero_side_body" base));
    ("about_paragraphs", nn (fld "about_paragraphs" b) (fld "about_paragraphs" base));
    ("pkg_hero", nn (fld "pkg_hero" b) (fld "pkg_hero" base));
    ("why_cards",
      if is_null (fld "why_bodies" b) then fld "why_cards" base
      else jmapi (λ i c, JObj [("title", fld "title" c); ("body", nn (jix i (fld "why_bodies" b)) (fld "body" c))]) (fld "why_cards" base));
    ("merge",
      if is_null (fld "merge_bodies" b) then fld "merge" base
      else jmapi (λ i m, spread m [("body", nn (jix i (fld "merge_bodies" b)) (fld "body" m))]) (fld "merge" base))].

Definition getSections (l : Locale) : json :=
  match l with
  | Ltr => SECTIONS_TR
  | Len => SECTIONS_EN
  | _ =>
      let base := if turkic l then SECTIONS_TR else SECTIONS_EN in
      maybe applyProse (maybe applyOverride base (at_locale l SHORT_OVERRIDES)) (at_locale l SECTION_BODIES)
  end.

Definition metricLabel (l : Locale) (label : jstring) : json := nn (fld label (fld "metric_labels" (getSections l))) (JStr label).

(** ** Editions *)

Definition tier_steps (p : json) : list json :=
  imap (λ i cmd, JObj [("n", JStr (pad0 2 (Z.of_nat i + 1))); ("title", jix i (fld "stepTitles" p)); ("desc", jix i (fld "stepDescs" p));
                       ("cmd", cmd); ("out", jix i STEP_OUTS)]) (jitems STEP_CMDS).
Definition mkTier (p : json) (idx : nat) (id name fullName accent : jstring) (stepCount : nat) : json :=
  JObj [("id", JStr id); ("name", JStr name); ("fullName", JStr fullName); ("accent", JStr accent);
        ("badge", jix idx (fld "badges" p)); ("tagline", jix idx (fld "taglines" p)); ("chain", jix idx (fld "chains" p));
        ("ram", jix idx (fld "rams" p)); ("disk", jix idx (fld "disks" p)); ("includes", jix idx (fld "includes" p));
        ("installSteps", JArr (take stepCount (tier_steps p)))].
Definition resp_row (p : json) (layer : jstring) (i : nat) : json :=
  JObj [("layer", JStr layer); ("ours", jix 0 (jix i (fld "respRows" p))); ("third", jix 1 (jix i (fld "respRows" p)))].
Definition build (p : json) : json :=
  JObj [("eyebrow", fld "eyebrow" p); ("title", JStr "Core · Pro · Pro Plus"); ("sub", fld "sub" p);
        ("ramLabel", fld "ramLabel" p); ("diskLabel", fld "diskLabel" p); ("chainLabel", fld "chainLabel" p);
        ("includesLabel", fld "includesLabel" p); ("protectionNote", fld "protectionNote" p); ("respTitle", fld "respTitle" p);
        ("respBody", fld "respBody" p); ("respCols", fld "respCols" p);
        ("respRows", JArr [resp_row p "Core" 0; resp_row p "Pro" 1; resp_row p "Pro Plus" 2]);
        ("installEyebrow", fld "installEyebrow" p); ("installTitle", fld "installTitle" p); ("installSub", fld "installSub" p);
        ("selfContainedNote", fld "selfContainedNote" p); ("stepsWord", fld "stepsWord" p);
        ("tiers", JArr [mkTier p 0 "core" "Core" "Linux Log Guardian" "neon" 5;
                        mkTier p 1 "pro" "Pro" "Linux Log Guardian Pro" "turq" 8;
                        mkTier p 2 "proplus" "Pro Plus" "Linux Log Guardian Pro Plus" "cyan" 11])].
Definition PACKS : list (jstring * json) :=
  [("tr", build TR_PACK); ("en", build EN_PACK); ("de", build DE_PACK); ("fr", build FR_PACK); ("es", build ES_PACK);
   ("pt", build PT_PACK); ("nl", build NL_PACK); ("ru", build RU_PACK); ("zh", build ZH_PACK); ("ja", build JA_PACK);
   ("ko", build KO_PACK); ("ar", build AR_PACK)].
Definition getTiers (l : Locale) : json :=
  match at_locale l PACKS with
  | Some pack => pack
  | None => if turkic l then assoc "tr" PACKS ?? JNull else assoc "en" PACKS ?? JNull
  end.

(** ** Pipeline and sectors *)

Definition labelsFor (l : Locale) : json := at_locale l LABELS_BY_LOCALE ?? LABELS_EN.
Definition stepsFor (l : Locale) : json :=
  match l with Ltr => STEPS_TR | Len => STEPS_EN | _ => at_locale l STEPS_BY_LOCALE ?? STEPS_EN end.
Definition getPipelineDeep (l : Locale) : json := spread (labelsFor l) [("steps", stepsFor l)].
Definition getSectorCopy (l : Locale) : json := match l with Ltr => SECTORS_TR | _ => SECTORS_EN end.
Definition PipelineDeepCopy : ty :=
  TObj (req "steps" (TArr PipelineStepDeep) :: match PipelineDeepLabels with TObj fs => fs | _ => [] end).

(** ** Typed pages *)

Lemma in_locales l : l ∈ locales.
Proof. destruct l; unfold locales; repeat (first [apply list_elem_of_here|apply list_elem_of_further]). Qed.
Lemma all_locales (p : Locale → bool) : forallb p locales = true → ∀ l, p l = true.
Proof. intros H l. rewrite forallb_forall in H. apply H, list_elem_of_In, in_locales. Qed.

(** Where a document has an empty text: the names on the way to each. *)
Fixpoint gaps (v : json) : list (list jstring) :=
  match v with
  | JStr [] => [[]]
  | JArr l => flat_map gaps l
  | JObj fs => flat_map (λ f, map (cons f.1) (gaps f.2)) fs
  | _ => []
  end.
Definition no_gap (v : json) : bool := bool_decide (gaps v = []).

(** The chart of throughput has no unit. *)
Definition page_ok (l : Locale) : bool :=
  has_ty PageCopy (getCopy l) && bool_decide (gaps (getCopy l) = [["charts" : jstring; "eps"; "unit"]]) &&
  has_ty SectionCopy (getSections l) && no_gap (getSections l).
Definition guide_ok (l : Locale) : bool :=
  has_ty TiersCopy (getTiers l) && no_gap (getTiers l) && has_ty PipelineDeepCopy (getPipelineDeep l) &&
  no_gap (getPipelineDeep l) && has_ty SectorCopy (getSectorCopy l) && no_gap (getSectorCopy l).
Lemma pages_ok : forallb page_ok locales = true. Proof. vm_compute. reflexivity. Qed.
Lemma guides_ok : forallb guide_ok locales = true. Proof. vm_compute. reflexivity. Qed.

(** C33. In each of the twenty-four languages the page, its sections, the guides of the
    editions, the pipeline's steps and the sectors have their declared types, so no
    override leaves a gap, and no text is empty but one: the unit of the throughput
    chart, which the source leaves empty in every language. *)
Theorem landing_typed l :
  has_ty PageCopy (getCopy l) = true ∧ has_ty SectionCopy (getSections l) = true ∧ has_ty TiersCopy (getTiers l) = true ∧
  has_ty PipelineDeepCopy (getPipelineDeep l) = true ∧ has_ty SectorCopy (getSectorCopy l) = true ∧
  gaps (getCopy l) = [["charts" : jstring; "eps"; "unit"]] ∧ gaps (getSections l) = [] ∧ gaps (getTiers l) = [] ∧
  gaps (getPipelineDeep l) = [] ∧ gaps (getSectorCopy l) = [].
Proof.
  pose proof (all_locales _ pages_ok l) as Hp. pose proof (all_locales _ guides_ok l) as Hg.
  unfold page_ok, guide_ok, no_gap in *. rewrite !andb_true_iff, !bool_decide_eq_true in *. tauto.
Qed.

(** ** Translations change words only *)

Lemma put_all_get (fs : list (jstring * json)) gs k :
  assoc k (fold_left (λ acc kv, put_field kv.1 kv.2 acc) fs gs) = match assoc k (rev fs) with Some v => Some v | None => assoc k gs end.
Proof.
  induction fs as [|[k' v] fs IH] using rev_ind; [done|]. rewrite fold_left_app, rev_app_distr. cbn [fold_left rev app assoc fst snd].
  destruct (k =s k') eqn:E; bprop; [subst; by rewrite assoc_put_eq|by rewrite assoc_put_ne, IH].
Qed.
Lemma fld_miss k a fs : assoc k (rev fs) = None → fld k (spread a fs) = fld k a.
Proof. intros H. unfold spread. cbn [fld]. rewrite put_all_get, H. by destruct a. Qed.
Lemma fld_hit k v a fs : assoc k (rev fs) = Some v → fld k (spread a fs) = v.
Proof. intros H. unfold spread. cbn [fld]. by rewrite put_all_get, H. Qed.
Ltac fld1 := match goal with |- context [fld ?k (spread ?a ?fs)] =>
  first [rewrite (fld_miss k a fs) by reflexivity|erewrite (fld_hit k _ a fs) by reflexivity] end.

Lemma map_imap_same {A B} (g : A → B) f l : (∀ i x, g (f i x) = g x) → map g (imap f l) = map g l.
Proof.
  intros H. revert f H. induction l as [|x l IH]; intros f H; [done|]. cbn [imap map]. rewrite H. f_equal. apply IH. intros. apply H.
Qed.
Lemma jitems_mapi f v : jitems (jmapi f v) = imap f (jitems v). Proof. done. Qed.

(** What the commands, the charts, the comparison and the cards say beside words. *)
Definition step_fact (s : json) : json * json * json := (fld "number" s, fld "command" s, fld "output" s).
Definition step_facts (guide : json) : list (json * json * json) := map step_fact (jitems (fld "steps" guide)).
Definition path_fact (p : json) : json * list (json * json * json) := (fld "id" p, step_facts p).
Definition chart_fact (c : json) : list json := map (λ k, fld k c) ["yMax"; "unit"; "target"; "honest"; "series"].
Definition group_fact (g : json) : json * json := (fld "honest" g, fld "winners" g).
Definition card_fact (c : json) : list json := map (λ k, fld k c) ["tag"; "kicker"; "title"; "chips"].
Record facts_of := {
  f_paths : list (json * list (json * json * json)); f_common : list (json * json * json); f_dashboard : list (json * json * json);
  f_charts : list (list json); f_groups : list (json * json); f_cards : list (list json); f_evidence : list json; f_contact : list json }.
Definition facts (p : json) : facts_of := {|
  f_paths := map path_fact (jitems (fld "paths" (fld "setup" p)));
  f_common := step_facts (fld "common" (fld "setup" p));
  f_dashboard := step_facts (fld "dashboard" (fld "setup" p));
  f_charts := map (λ k, chart_fact (fld k (fld "charts" p))) ["profile"; "latency"; "soak"; "fp"; "eps"; "recall"];
  f_groups := map group_fact (jitems (fld "groups" (fld "vs" p)));
  f_cards := map card_fact (jitems (fld "cards" (fld "selected" p)));
  f_evidence := map (λ k, fld k (fld "evidence" p)) ["fullPackCmd"; "demoCmd"; "files"];
  f_contact := map (λ k, fld k (fld "contact" p)) ["email"; "github"] |}.
Definition same_facts (p q : json) : Prop := facts p = facts q.

Lemma section_facts base o : facts (applySection base o) = facts base.
Proof. unfold facts, applySection, over. cbn [map fst snd]. by repeat fld1. Qed.

Lemma step_texts_facts ts steps : map step_fact (jitems (step_texts ts steps)) = map step_fact (jitems steps).
Proof. unfold step_texts. rewrite jitems_mapi. apply map_imap_same. intros i s. unfold step_fact. by repeat fld1. Qed.
Lemma paths_facts st paths : map path_fact (jitems (setup_paths st paths)) = map path_fact (jitems paths).
Proof.
  unfold setup_paths. destruct (is_null st); [done|]. rewrite jitems_mapi. apply map_imap_same. intros i p.
  unfold path_fact, step_facts. repeat fld1. by rewrite step_texts_facts.
Qed.
Lemma common_facts st c : step_facts (setup_common st c) = step_facts c.
Proof. unfold setup_common, step_facts. destruct (is_null st); [done|]. fld1. apply step_texts_facts. Qed.
Lemma dashboard_facts st d : step_facts (setup_dashboard st d) = step_facts d.
Proof. unfold setup_dashboard, step_facts. destruct (is_null st); [done|]. fld1. apply step_texts_facts. Qed.

Lemma body_facts base b : facts (applyBody base b) = facts base.
Proof.
  unfold facts, applyBody, over. cbn [map fst snd]. repeat fld1.
  rewrite paths_facts, common_facts, dashboard_facts, !jitems_mapi.
  f_equal; apply map_imap_same; intros i c; unfold group_fact, card_fact; cbn [map]; by repeat fld1.
Qed.
Lemma tests_facts copy to : facts (applyTests copy to) = facts copy.
Proof. unfold facts, applyTests. by repeat fld1. Qed.
Lemma base_facts : facts CO_TR = facts CO_EN. Proof. vm_compute. reflexivity. Qed.

Lemma maybe_facts f base o : (∀ b o, facts (f b o) = facts b) → facts (maybe f base o) = facts base.
Proof. destruct o; cbn; auto. Qed.
Lemma copy_facts l : facts (getCopy l) = facts CO_EN.
Proof.
  assert (H : ∀ x y z, facts (maybe applyTests (maybe applyBody (maybe applySection CO_EN x) y) z) = facts CO_EN).
  { intros. by rewrite (maybe_facts _ _ _ tests_facts), (maybe_facts _ _ _ body_facts), (maybe_facts _ _ _ section_facts). }
  destruct l; [apply base_facts|reflexivity|..]; apply H.
Qed.

(** C32. Translating a page changes words only: whatever an override says, and so in
    every language, the shell commands and their outputs, the figures of the
    charts, the winners of the comparison, the evidence files and the contact
    addresses are the same. *)
Theorem landing_facts_shared :
  (∀ base o b to, facts (applyTests (applyBody (applySection base o) b) to) = facts base) ∧
  ∀ l l', facts (getCopy l) = facts (getCopy l').
Proof. split; intros; [by rewrite tests_facts, body_facts, section_facts|by rewrite !copy_facts]. Qed.
