(* ===== verification/LandingTables.v ===== *)
(** The landing site's tables and charts (landing/components): the comparison with
    other tools, the matrix of tests, the line charts, the figures, the pipeline's
    cards and the footer's links.  The theorems say that in every language the
    comparison is a full table with at most one winner in a row, that every
    point of every chart lies on the chart, and that the test matrix shows each
    published test once. *)

From S2P Require Import Prelude JsString JsNum Json JsValue Compliance LandingContent LandingTypes LandingLocales LandingTests Landing.

Definition text_of (v : json) : jstring := match v with JStr s => s | _ => [] end.
Definition num_at (v : json) : num := match v with JNum x => x | _ => nNaN end.

(** ** The comparison (VsTable.tsx) *)
Module VsTable.

Record Cell := { text : json; isWinner : bool; cls : jstring }.

(** [group.winners[ri] ?? 0]; a number that is no column is [None]. *)
Definition winner_at (group : json) (ri : nat) : option Z :=
  match jix ri (fld "winners" group) with JNum x => num_int x | _ => Some 0 end.
Definition is_winner (winner : option Z) (ci : nat) : bool :=
  match winner with Some w => (Z.of_nat ci =? w) && (0 <? w) | None => false end.
Definition cell_class (winner : option Z) (ci : nat) (cell : json) : jstring :=
  if (ci =? 0)%nat then "text-neutral-300 font-mono" else if is_winner winner ci then "text-neon font-semibold"
  else if text_of cell =s "—" then "text-neutral-700" else "text-neutral-400".
Definition row_cells (winner : option Z) (row : json) : list Cell :=
  imap (λ ci cell, {| text := cell; isWinner := is_winner winner ci; cls := cell_class winner ci cell |}) (jitems row).
Definition body_rows (group : json) : list (list Cell) :=
  imap (λ ri row, row_cells (winner_at group ri) row) (jitems (fld "rows" group)).
(** The header cells: the text, and whether the complementary badge stands beside it. *)
Definition header (cols : json) : list (json * bool) := imap (λ i col, (col, (i =? 3)%nat)) (jitems cols).
Record Table := { head : list (json * bool); groups : list (json * list (list Cell)) }.
Definition VsTable (l : Locale) : Table :=
  let VS := fld "vs" (getCopy l) in
  {| head := header (fld "cols" VS); groups := map (λ g, (fld "label" g, body_rows g)) (jitems (fld "groups" VS)) |}.

(** Every row has a cell for each column, and its winner is a column. *)
Definition row_ok (cols : nat) (w : option Z) (row : json) : bool :=
  (length (jitems row) =? cols)%nat && match w with Some w => (0 <=? w) && (w <? Z.of_nat cols) | None => false end.
Definition group_ok (cols : nat) (g : json) : bool :=
  forallb (λ b, b) (imap (λ ri row, row_ok cols (winner_at g ri) row) (jitems (fld "rows" g))) &&
  (length (jitems (fld "winners" g)) =? length (jitems (fld "rows" g)))%nat.
Definition table_ok (l : Locale) : bool :=
  let VS := fld "vs" (getCopy l) in forallb (group_ok (length (jitems (fld "cols" VS)))) (jitems (fld "groups" VS)).
Lemma tables_ok : forallb table_ok locales = true. Proof. vm_compute. reflexivity. Qed.

Lemma row_lookup w row ci c : row_cells w row !! ci = Some c → isWinner c = is_winner w ci ∧ ∃ x, jitems row !! ci = Some x.
Proof. unfold row_cells. rewrite list_lookup_imap. destruct (jitems row !! ci) eqn:E; cbn; [|done]. intros [= <-]. cbn. eauto. Qed.
Lemma group_row cols g ri row :
  group_ok cols g = true → jitems (fld "rows" g) !! ri = Some row →
  length (jitems row) = cols ∧ ∃ w, winner_at g ri = Some w ∧ 0 ≤ w < Z.of_nat cols.
Proof.
  unfold group_ok. intros [H _]%andb_true_iff Hr. rewrite forallb_forall in H.
  assert (Hok : row_ok cols (winner_at g ri) row = true).
  { apply H, list_elem_of_In. apply list_elem_of_lookup. exists ri. by rewrite list_lookup_imap, Hr. }
  unfold row_ok in Hok. apply andb_true_iff in Hok as [Hl Hw]. apply Nat.eqb_eq in Hl. split; [done|].
  destruct (winner_at g ri) as [w|]; [|done]. bprop. exists w. split; [done|lia].
Qed.
(** The winner's column is marked when there is one, and no other. *)
Lemma marks w cols row ci :
  0 ≤ w < Z.of_nat cols → length (jitems row) = cols →
  (∃ c, row_cells (Some w) row !! ci = Some c ∧ isWinner c = true) ↔ 0 < w ∧ ci = Z.to_nat w.
Proof.
  intros Hw Hl. split.
  - intros (c & [Hc _]%row_lookup & Hi). rewrite Hc in Hi. cbn in Hi. bprop. lia.
  - intros [Hp ->]. assert (Hlt : (Z.to_nat w < length (jitems row))%nat) by lia.
    apply lookup_lt_is_Some in Hlt as [x Hx]. unfold row_cells. rewrite list_lookup_imap, Hx. eexists. split; [reflexivity|]. cbn.
    rewrite Z2Nat.id by lia. apply andb_true_iff. split; [by apply Z.eqb_refl|by apply Z.ltb_lt].
Qed.
End VsTable.

(** In every language the comparison is a full table: each row has one cell for
    each column, and the cell marked as the winner is the one that the winners
    name, which is never the row's title; a row without a winner marks nothing. *)
Theorem vs_table_full l gi ri g row :
  let VS := fld "vs" (getCopy l) in
  jitems (fld "groups" VS) !! gi = Some g → jitems (fld "rows" g) !! ri = Some row →
  ∃ cells w,
    (VsTable.groups (VsTable.VsTable l) !! gi ≫= λ g, g.2 !! ri) = Some cells ∧
    length cells = length (VsTable.head (VsTable.VsTable l)) ∧
    VsTable.winner_at g ri = Some w ∧ 0 ≤ w < Z.of_nat (length cells) ∧
    ∀ ci, (∃ c, cells !! ci = Some c ∧ VsTable.isWinner c = true) ↔ 0 < w ∧ ci = Z.to_nat w.
Proof.
  intros VS Hg Hr. pose proof (all_locales _ VsTable.tables_ok l) as Hok. unfold VsTable.table_ok in Hok. fold VS in Hok.
  rewrite forallb_forall in Hok. specialize (Hok g). destruct (VsTable.group_row (length (jitems (fld "cols" VS))) g ri row) as (Hl & w & Hw & Hb).
  { apply Hok, list_elem_of_In, (list_elem_of_lookup_2 _ _ _ Hg). } { done. }
  assert (Hcells : length (VsTable.row_cells (Some w) row) = length (jitems row)) by apply length_imap.
  exists (VsTable.row_cells (Some w) row), w. unfold VsTable.VsTable. fold VS. cbn [VsTable.groups VsTable.head].
  unfold VsTable.header. rewrite length_imap, Hcells, Hl. splits; try done; try lia.
  - rewrite list_lookup_fmap, Hg. cbn. unfold VsTable.body_rows. by rewrite list_lookup_imap, Hr, <- Hw.
  - intros ci. by apply VsTable.marks with (cols := length (jitems (fld "cols" VS))).
Qed.
Lemma vs_table_full_witness :
  ∃ cells w,
    (VsTable.groups (VsTable.VsTable Lde) !! 0%nat ≫= λ g, g.2 !! 0%nat) = Some cells ∧
    length cells = length (VsTable.head (VsTable.VsTable Lde)) ∧
    VsTable.winner_at (jix 0 (fld "groups" (fld "vs" (getCopy Lde)))) 0 = Some w ∧ 0 ≤ w < Z.of_nat (length cells) ∧
    ∀ ci, (∃ c, cells !! ci = Some c ∧ VsTable.isWinner c = true) ↔ 0 < w ∧ ci = Z.to_nat w.
Proof.
  apply (vs_table_full Lde 0 0 (jix 0 (fld "groups" (fld "vs" (getCopy Lde))))
           (jix 0 (fld "rows" (jix 0 (fld "groups" (fld "vs" (getCopy Lde))))))); vm_compute; reflexivity.
Defined.

(** ** The test matrix (TestMatrix.tsx, ProofSection.tsx) *)
Module TestMatrix.

Inductive Filter := FAll | FGate | FProof.
Definition status (t : json) : jstring := text_of (fld "status" t).
Definition group (t : json) : jstring := text_of (fld "group" t).
Definition count_status (s : jstring) (tests : list json) : Z := Z.of_nat (length (jfilter (λ t, status t =s s) tests)).
Record Stats := { passed : Z; warned : Z; failed : Z; total : Z }.
Definition stats (tests : list json) : Stats := {|
  passed := count_status "pass" tests; warned := count_status "warn" tests; failed := count_status "fail" tests;
  total := Z.of_nat (length tests) |}.
Definition filtered (f : Filter) (tests : list json) : list json :=
  match f with
  | FAll => tests
  | FGate => jfilter (λ t, group t =s "gate") tests
  | FProof => jfilter (λ t, group t =s "proof") tests
  end.
Definition gate (f : Filter) (tests : list json) : list json := jfilter (λ t, group t =s "gate") (filtered f tests).
Definition proof (f : Filter) (tests : list json) : list json := jfilter (λ t, group t =s "proof") (filtered f tests).
Definition pct (tests : list json) : num := percent (passed (stats tests)) (total (stats tests)).

(** What a card says: [isEn ? t.kEn ?? t.k : t.k]. *)
Definition in_lang (isEn : bool) (k : jstring) (t : json) : json := if isEn then nn (fld (k ++ "En") t) (fld k t) else fld k t.
Record Card := { c_title : json; c_purpose : json; c_verdict : json; c_badge : json; c_label : json }.
Definition statusLabels (c : json) (s : jstring) : json :=
  if s =s "pass" then fld "statusPass" c else if s =s "warn" then fld "statusWarn" c
  else if s =s "fail" then fld "statusFail" c else if s =s "pending" then fld "statusPending" c else JNull.
Definition card (l : Locale) (t : json) : Card :=
  let isEn := bool_decide (l ≠ Ltr) in
  {| c_title := in_lang isEn "title" t; c_purpose := in_lang isEn "purpose" t; c_verdict := in_lang isEn "verdict" t;
     c_badge := in_lang isEn "badge" t; c_label := statusLabels (fld "tests" (getCopy l)) (status t) |}.

Record View := { v_heading : json; v_pct : num; v_line : jstring; v_gate : list Card; v_proof : list Card }.
Definition TestMatrix (l : Locale) (f : Filter) (tests : list json) : View :=
  let c := fld "tests" (getCopy l) in
  let s := stats tests in
  let more n w := if n =? 0 then [] else " · " ++ dec n ++ " " ++ text_of (fld w c) in
  {| v_heading := if failed s =? 0 then fld "allPassed" c else fld "summary" c;
     v_pct := pct tests;
     v_line := dec (passed s) ++ "/" ++ dec (total s) ++ " " ++ text_of (fld "passedWord" c) ++ more (warned s) "warnWord" ++ more (failed s) "failWord";
     v_gate := map (card l) (gate f tests); v_proof := map (card l) (proof f tests) |}.
(** The figures of the home page's summary. *)
Definition proof_stats (l : Locale) : list (jstring * json) :=
  let labels := fld "statLabels" (fld "proof" (getCopy l)) in
  let s := stats TESTS in
  [(dec (total s), jix 0 labels); (dec (passed s), jix 1 labels); ("72h", jix 2 labels); ("~20ms", jix 3 labels)].

Lemma filter_twice (p : json → bool) tests : jfilter p (jfilter p tests) = jfilter p tests.
Proof. apply jfilter_all. intros x [_ H]%jfilter_elem. done. Qed.
Lemma filter_other a b tests : a ≠ b → jfilter (λ t, group t =s a) (jfilter (λ t, group t =s b) tests) = [].
Proof. intros H. apply jfilter_none. intros x [_ Hb]%jfilter_elem. bprop. apply jeq_false. congruence. Qed.
Lemma filter_split (p q : json → bool) tests :
  (∀ t, t ∈ tests → p t = negb (q t)) → jfilter p tests ++ jfilter q tests ≡ₚ tests.
Proof.
  induction tests as [|t tests IH]; intros H; [done|]. unfold jfilter in *. cbn [List.filter].
  assert (Hp : p t = negb (q t)) by (apply H; set_solver). rewrite Hp.
  destruct (q t); cbn; [rewrite <- Permutation_middle|]; (apply Permutation_skip, IH; intros; apply H; set_solver).
Qed.
Definition known_group (t : json) : bool := (group t =s "gate") || (group t =s "proof").
Lemma all_shown tests : forallb known_group tests = true → gate FAll tests ++ proof FAll tests ≡ₚ tests.
Proof.
  intros H. apply filter_split. intros t Ht. rewrite forallb_forall in H. apply list_elem_of_In, H in Ht. unfold known_group in Ht.
  destruct (group t =s "gate") eqn:E; cbn in *; bprop; [rewrite E; reflexivity|by rewrite Ht].
Qed.
Lemma published : forallb (λ t, known_group t && (status t =s "pass") && has_ty TestEntry t) TESTS = true.
Proof. vm_compute. reflexivity. Qed.
Lemma published_groups : forallb known_group TESTS = true. Proof. vm_compute. reflexivity. Qed.
End TestMatrix.

(** The matrix shows every test: with no filter the two parts hold each test of
    the list once, whatever list has only the two known groups; with a filter, the
    chosen part is the same and the other is empty. *)
Theorem tests_shown tests :
  forallb TestMatrix.known_group tests = true →
  TestMatrix.gate TestMatrix.FAll tests ++ TestMatrix.proof TestMatrix.FAll tests ≡ₚ tests ∧
  TestMatrix.gate TestMatrix.FGate tests = TestMatrix.gate TestMatrix.FAll tests ∧ TestMatrix.proof TestMatrix.FGate tests = [] ∧
  TestMatrix.proof TestMatrix.FProof tests = TestMatrix.proof TestMatrix.FAll tests ∧ TestMatrix.gate TestMatrix.FProof tests = [].
Proof.
  intros H. splits; try apply TestMatrix.filter_twice; try by apply TestMatrix.filter_other. by apply TestMatrix.all_shown.
Qed.
Lemma tests_shown_witness :
  forallb TestMatrix.known_group TESTS = true ∧ TestMatrix.proof TestMatrix.FGate TESTS = [].
Proof. split; [vm_compute; reflexivity|]. apply (tests_shown TESTS). vm_compute. reflexivity. Defined.

(** The number of tests that the site's texts announce is the number of tests that
    it lists, they are all recorded as passed and the rate shown is 100. *)
Theorem test_count_announced :
  Z.of_nat (length TESTS) = PROOF_TEST_COUNT ∧ TestMatrix.passed (TestMatrix.stats TESTS) = PROOF_TEST_COUNT ∧
  TestMatrix.pct TESTS = num_of_Z 100 ∧ NoDup (map (λ t, text_of (fld "id" t)) TESTS).
Proof. splits; try (vm_compute; reflexivity). apply (bool_decide_unpack _). vm_compute. done. Qed.

(** ** Line charts (LineChart.tsx, VsCharts.tsx) *)
Module LineChart.
Section charts.
(** [toLocaleString("tr-TR")] *)
Context (locale_tr : num → jstring).

Definition W : Z := 760.
Definition H : Z := 340.
Definition PAD_l : Z := 46.
Definition PAD_r : Z := 18.
Definition PAD_t : Z := 24.
Definition PAD_b : Z := 42.
Definition PLOT_W : Z := W - PAD_l - PAD_r.
Definition PLOT_H : Z := H - PAD_t - PAD_b.
Definition DASH (d : jstring) : option jstring :=
  if d =s "solid" then Some ("0" : jstring) else if d =s "dash" then Some ("7 5" : jstring) else if d =s "dot" then Some ("1 7" : jstring) else None.

Definition n_ (z : Z) : num := num_of_Z z.
Definition xAt (i n : Z) : num :=
  if n <=? 1 then nadd (n_ PAD_l) (ndiv (n_ PLOT_W) (n_ 2))
  else nadd (n_ PAD_l) (nmul (ndiv (n_ i) (n_ (n - 1))) (n_ PLOT_W)).
Definition yAt (v yMax : num) : num := nadd (n_ PAD_t) (nmul (nsub (n_ 1) (ndiv v yMax)) (n_ PLOT_H)).
Definition quarters : list num := map (λ q, ndiv (n_ q) (n_ 4)) [0; 1; 2; 3; 4].
Definition gridVals (yMax : num) : list num := map (λ f, nround (nmul f yMax)) quarters.
Definition fmt (v : num) : jstring :=
  match num_int v with
  | Some _ => num_to_string v
  | None => if nlt v (n_ 10) then toFixed 2 v else locale_tr v
  end.
Definition points (n : Z) (yMax : num) (s : json) : list (num * num) :=
  imap (λ i v, (xAt (Z.of_nat i) n, yAt (num_at v) yMax)) (jitems (fld "values" s)).
(** The [points] attribute of a series. *)
Definition polyline (n : Z) (yMax : num) (s : json) : jstring :=
  join " " (map (λ p, num_to_string p.1 ++ "," ++ num_to_string p.2) (points n yMax s)).
Definition color (s : json) : jstring := match fld "us" s with JBool true => "#1ff5df" | _ => "#71717a" end.
Definition dash_of (s : json) : option jstring := DASH (text_of (nn (fld "dash" s) (JStr "solid"))).
Record Tip := { t_x : num; t_y : num; t_label : jstring; t_value : jstring }.
Definition tip_at (categories : list json) (yMax : num) (unit : jstring) (s : json) (i : nat) : option Tip :=
  v ← jitems (fld "values" s) !! i;
  Some {| t_x := xAt (Z.of_nat i) (Z.of_nat (length categories)); t_y := yAt (num_at v) yMax;
          t_label := text_of (fld "name" s) ++ " · " ++ text_of (categories !! i ?? JNull); t_value := fmt (num_at v) ++ unit |}.

(** The six charts of the page and their categories. *)
Definition charts_of (l : Locale) : list json :=
  let CHARTS := fld "charts" (getCopy l) in
  spread (fld "profile" CHARTS) [("labels", fld "categories" (fld "profile" CHARTS))] ::
  map (λ k, fld k CHARTS) ["latency"; "soak"; "fp"; "eps"; "recall"].
Definition categories (chart : json) : list json := jitems (fld "labels" chart).

Definition between (lo hi x : num) : bool := nle lo x && nle x hi.
Definition on_plot (p : num * num) : bool :=
  between (n_ PAD_l) (n_ (W - PAD_r)) p.1 && between (n_ PAD_t) (n_ (H - PAD_b)) p.2.
Definition series_ok (chart s : json) : bool :=
  let n := length (categories chart) in
  (length (jitems (fld "values" s)) =? n)%nat && forallb on_plot (points (Z.of_nat n) (num_at (fld "yMax" chart)) s) &&
  match dash_of s with Some _ => true | None => false end.
Definition chart_ok (chart : json) : bool :=
  forallb (series_ok chart) (jitems (fld "series" chart)) &&
  forallb (λ g, between (n_ PAD_t) (n_ (H - PAD_b)) (yAt g (num_at (fld "yMax" chart)))) (gridVals (num_at (fld "yMax" chart))) &&
  match fld "target" chart with JNum t => between (n_ PAD_t) (n_ (H - PAD_b)) (yAt t (num_at (fld "yMax" chart))) | _ => true end.
End charts.
Lemma charts_ok : forallb (λ l, forallb chart_ok (charts_of l)) locales = true. Proof. vm_compute. reflexivity. Qed.
End LineChart.

(** In every language each series of each chart has one value for each category,
    and its points lie inside the plotted area, whatever the rounding of the
    coordinates. *)
Theorem chart_points_inside l chart s :
  chart ∈ LineChart.charts_of l → s ∈ jitems (fld "series" chart) →
  length (LineChart.points (Z.of_nat (length (LineChart.categories chart))) (num_at (fld "yMax" chart)) s) = length (LineChart.categories chart) ∧
  ∀ p, p ∈ LineChart.points (Z.of_nat (length (LineChart.categories chart))) (num_at (fld "yMax" chart)) s →
    nle (num_of_Z LineChart.PAD_l) p.1 = true ∧ nle p.1 (num_of_Z (LineChart.W - LineChart.PAD_r)) = true ∧
    nle (num_of_Z LineChart.PAD_t) p.2 = true ∧ nle p.2 (num_of_Z (LineChart.H - LineChart.PAD_b)) = true.
Proof.
  intros Hc Hs. pose proof (all_locales _ LineChart.charts_ok l) as Hok. cbn beta in Hok. rewrite forallb_forall in Hok.
  apply list_elem_of_In, Hok in Hc. unfold LineChart.chart_ok in Hc. apply andb_true_iff in Hc as [[Hc _]%andb_true_iff _].
  rewrite forallb_forall in Hc. apply list_elem_of_In, Hc in Hs. unfold LineChart.series_ok in Hs.
  apply andb_true_iff in Hs as [[Hl Hp]%andb_true_iff _]. apply Nat.eqb_eq in Hl. split.
  - unfold LineChart.points. by rewrite length_imap.
  - rewrite forallb_forall in Hp. intros p Hin. apply list_elem_of_In, Hp in Hin. unfold LineChart.on_plot, LineChart.between in Hin.
    apply andb_true_iff in Hin as [Hx Hy]. apply andb_true_iff in Hx as [], Hy as []. by splits.
Qed.
Lemma chart_points_inside_witness :
  let chart := fld "soak" (fld "charts" (getCopy Lja)) in
  length (LineChart.points (Z.of_nat (length (LineChart.categories chart))) (num_at (fld "yMax" chart)) (jix 0 (fld "series" chart))) =
  length (LineChart.categories chart).
Proof.
  apply (chart_points_inside Lja (fld "soak" (fld "charts" (getCopy Lja)))); apply list_elem_of_lookup;
    [exists 2%nat|exists 0%nat]; vm_compute; reflexivity.
Defined.

(** ** Figures (MetricsBand.tsx) *)
Module MetricsBand.
Record Box := { b_text : jstring; b_percent : bool; b_long : bool; b_title : jstring; b_label : json }.
Definition MetricBox (value unit : jstring) (label : json) : Box :=
  let combined := if nonempty unit then value ++ (if unit =s "%" then [] else " ") ++ (if unit =s "%" then [] else unit) else value in
  {| b_text := if unit =s "%" then value ++ "%" else value ++ unit; b_percent := unit =s "%"; b_long := 8 <? slen combined;
     b_title := combined; b_label := label |}.
Definition band (l : Locale) : list (json * list Box) :=
  let s := getSections l in
  map (λ g, (nn (fld (text_of (fld "label" g)) (fld "metric_groups" s)) (fld "label" g),
             map (λ it, MetricBox (text_of (fld "value" it)) (text_of (fld "unit" it)) (metricLabel l (text_of (fld "label" it)))) (jitems (fld "items" g))))
      (jitems (fld "groups" METRICS)).
(** The figures that a language has no label for. *)
Definition unlabelled (l : Locale) : list jstring :=
  let known := map fst (jfields (fld "metric_labels" (getSections l))) in
  jfilter (λ k, negb (existsb (jeq k) known))
    (flat_map (λ g, map (λ it, text_of (fld "label" it)) (jitems (fld "items" g))) (jitems (fld "groups" METRICS))).
(** The English page shows two Turkish labels. *)
Lemma english_labels_missing : unlabelled Len = ["WAF/CRS (aynı corpus, LG)"; "LG / ModSec hız oranı"].
Proof. vm_compute. reflexivity. Qed.
End MetricsBand.

(** ** The pipeline's cards (PipelineSection.tsx) *)
Module PipelineSection.
Record Layout := { mobile : list json; top : list json; bottomReversed : list json; dives : list (json * json * bool) }.
Definition PipelineSection (l : Locale) : Layout :=
  let steps := jitems (fld "steps" (fld "pipeline" (getCopy l))) in
  let deep := jitems (fld "steps" (getPipelineDeep l)) in
  let bottom := slice 3 6 steps in
  {| mobile := steps; top := slice 0 3 steps; bottomReversed := rev bottom;
     dives := omap (λ p, p) (imap (λ i step, match deep !! i with Some dive => Some (step, dive, (i mod 2 =? 1)%nat) | None => None end) steps) |}.
Lemma six_steps :
  forallb (λ l, (length (jitems (fld "steps" (fld "pipeline" (getCopy l)))) =? 6)%nat && (length (jitems (fld "steps" (getPipelineDeep l))) =? 6)%nat) locales = true.
Proof. vm_compute. reflexivity. Qed.
Lemma layout_order l :
  let v := PipelineSection l in
  top v ++ rev (bottomReversed v) = mobile v ∧ map (λ d, d.1.1) (dives v) = mobile v ∧
  map (λ d, d.1.2) (dives v) = jitems (fld "steps" (getPipelineDeep l)).
Proof.
  cbn beta zeta. pose proof (all_locales _ six_steps l) as H. cbn beta in H. apply andb_true_iff in H as [H1 H2]. apply Nat.eqb_eq in H1, H2.
  unfold PipelineSection. cbn [top bottomReversed mobile dives]. rewrite rev_involutive.
  destruct (jitems (fld "steps" (fld "pipeline" (getCopy l)))) as [|a [|b [|c [|d [|e [|f [|]]]]]]]; try done.
  destruct (jitems (fld "steps" (getPipelineDeep l))) as [|a' [|b' [|c' [|d' [|e' [|f' [|]]]]]]]; done.
Qed.
End PipelineSection.

(** ** The footer's links (Footer.tsx) *)
Module Footer.
Inductive LinkKind := NewTab | InSite.
Definition kind_of (href : jstring) : LinkKind :=
  let isExternal := starts_with "http" href in
  let lastSeg := last (split1 47 href) ?? [] in
  if isExternal || includes "." lastSeg then NewTab else InSite.
Definition links (l : Locale) : list (json * list (json * jstring * LinkKind)) :=
  map (λ col, (fld "title" col, map (λ k, (fld "label" k, text_of (fld "href" k), kind_of (text_of (fld "href" k)))) (jitems (fld "links" col))))
      (jitems (fld "columns" (fld "footer" (getCopy l)))).
End Footer.

(** ** Texts that differ between languages *)

(** The limits have six entries in two languages and four in the others. *)
Lemma limits_shortened :
  map (λ l, length (jitems (fld "items" (fld "honest" (getCopy l))))) locales = [6; 6]%nat ++ replicate 22 4%nat.
Proof. vm_compute. reflexivity. Qed.
(** The pipeline's texts name other numbers of tests than the one announced. *)
Lemma step_counts_stale :
  fld "proof" (jix 0 (stepsFor Lde)) = JStr "75 automatische Tests · Install-Gate PASS" ∧
  starts_with (dec 80 ++ " tests") (text_of (fld "proof" (jix 0 (stepsFor Lfr)))) = true ∧ PROOF_TEST_COUNT = 89.
Proof. by vm_compute. Qed.
