(* ===== verification/LandingSite.v ===== *)
(** The landing site's navigation and controls (landing/components, landing/lib/seo.ts
    and the language provider): which section the navigator shows, where links
    lead, the metadata of pages, the chosen language and its storage, the carousel,
    the guide of the editions and the contact terminal.  The theorems say that the
    navigator names the section at the reading line, that the carousel never
    leaves its cards, that a page's addresses agree, that the chosen language is
    stored and restored, and that the guides of the editions extend each other. *)

From S2P Require Import Prelude JsString JsNum Json Regex JsDate JsValue Client LandingContent LandingLocales LandingTiers LandingTypes Landing LandingTables.

(** ** Section navigator (SectionNav.tsx) *)
Module SectionNav.

Definition SECTION_IDS : list jstring :=
  ["hero"; "nedir"; "birlesim"; "sayilar"; "pipeline"; "secili"; "neden"; "rakipler"; "grafikler"; "dogrusinir"; "proof"; "kurulum"; "kanit"; "iletisim"].
Definition LABELS : list (jstring * list jstring) := [
  ("tr", ["Ana"; "Nedir"; "3 Paket"; "Sayılar"; "Pipeline"; "Seçili"; "Neden"; "Rakip"; "Grafik"; "Sınır"; "Proof"; "Kurulum"; "Kanıt"; "İletişim"]);
  ("en", ["Home"; "About"; "3 Packs"; "Numbers"; "Pipeline"; "Selected"; "Why"; "Rivals"; "Charts"; "Limits"; "Proof"; "Setup"; "Evidence"; "Contact"]);
  ("de", ["Start"; "Über"; "3 Pakete"; "Zahlen"; "Pipeline"; "Auswahl"; "Warum"; "Rivalen"; "Grafik"; "Grenzen"; "Proof"; "Setup"; "Nachweis"; "Kontakt"]);
  ("fr", ["Accueil"; "À propos"; "3 Packs"; "Chiffres"; "Pipeline"; "Sélection"; "Pourquoi"; "Rivaux"; "Graphes"; "Limites"; "Preuve"; "Install."; "Dossier"; "Contact"]);
  ("es", ["Inicio"; "Qué es"; "3 Packs"; "Números"; "Pipeline"; "Selección"; "Por qué"; "Rivales"; "Gráficos"; "Límites"; "Prueba"; "Instalar"; "Evidencia"; "Contacto"]);
  ("pt", ["Início"; "Sobre"; "3 Packs"; "Números"; "Pipeline"; "Seleção"; "Porquê"; "Rivais"; "Gráficos"; "Limites"; "Prova"; "Instalar"; "Evidência"; "Contacto"]);
  ("nl", ["Home"; "Over"; "3 Packs"; "Cijfers"; "Pipeline"; "Selectie"; "Waarom"; "Rivalen"; "Grafiek"; "Grenzen"; "Proof"; "Setup"; "Bewijs"; "Contact"]);
  ("ru", ["Главная"; "О нас"; "3 пакета"; "Цифры"; "Pipeline"; "Выбор"; "Почему"; "Соперники"; "Графики"; "Границы"; "Proof"; "Установка"; "Док-во"; "Контакт"]);
  ("zh", ["首页"; "简介"; "3 套件"; "数据"; "流程"; "精选"; "为何"; "对手"; "图表"; "边界"; "验证"; "安装"; "证据"; "联系"]);
  ("ja", ["ホーム"; "概要"; "3 パック"; "数値"; "パイプ"; "抜粋"; "理由"; "競合"; "グラフ"; "境界"; "証明"; "設定"; "証拠"; "連絡"]);
  ("ko", ["홈"; "소개"; "3 팩"; "수치"; "파이프"; "선택"; "이유"; "경쟁"; "차트"; "한계"; "증명"; "설치"; "증거"; "연락"]);
  ("ar", ["الرئيسية"; "نبذة"; "3 حزم"; "أرقام"; "خط"; "مختار"; "لماذا"; "المنافسون"; "رسوم"; "حدود"; "إثبات"; "تثبيت"; "دليل"; "اتصال"])].
Definition labelsFor (l : Locale) : list jstring :=
  at_locale l LABELS ?? (if turkic l then assoc "tr" LABELS ?? [] else assoc "en" LABELS ?? []).

(** The window: the offset, the heights, and the top of the element with an id,
    when the page has one. *)
Record Window := { scrollY : num; innerHeight : Z; scrollHeight : Z; top_of : jstring → option num }.
Record State := { idx : Z; show : bool }.
Definition last_index : Z := Z.of_nat (length SECTION_IDS) - 1.
(** [window.innerHeight * 0.35] *)
Definition line (w : Window) : num := nmul (num_of_Z (innerHeight w)) (ndiv (num_of_Z 35) (num_of_Z 100)).
Definition passed (w : Window) (id : jstring) : bool := match top_of w id with Some t => nle t (line w) | None => false end.
Fixpoint scan (w : Window) (i : Z) (ids : list jstring) (current : Z) : Z :=
  match ids with
  | [] => current
  | id :: ids => scan w (i + 1) ids (if passed w id then i else current)
  end.
Definition at_bottom (w : Window) : bool := nle (num_of_Z (scrollHeight w - 4)) (nadd (num_of_Z (innerHeight w)) (scrollY w)).
Definition update (w : Window) : State :=
  {| show := nlt (num_of_Z 400) (scrollY w); idx := if at_bottom w then last_index else scan w 0 SECTION_IDS 0 |}.

(** Where a button scrolls to: the id of an element of the page, if any. *)
Definition clamp (next : Z) : Z := Z.max 0 (Z.min last_index next).
Definition go (w : Window) (next : Z) : option jstring :=
  id ← SECTION_IDS !! Z.to_nat (clamp next); match top_of w id with Some _ => Some id | None => None end.
(** The two buttons are disabled at the ends. *)
Definition prev_disabled (s : State) : bool := idx s =? 0.
Definition next_disabled (s : State) : bool := idx s =? last_index.
Record View := { counter : jstring; label : option jstring }.
Definition view (l : Locale) (s : State) : option View :=
  if show s then Some {| counter := pad0 2 (idx s + 1) ++ "/" ++ pad0 2 (last_index + 1); label := labelsFor l !! Z.to_nat (idx s) |} else None.

Lemma scan_spec w ids i cur :
  let r := scan w i ids cur in
  (r = cur ∧ ∀ id, id ∈ ids → passed w id = false) ∨
  (∃ k id, r = i + Z.of_nat k ∧ ids !! k = Some id ∧ passed w id = true ∧ ∀ j id', ids !! j = Some id' → (k < j)%nat → passed w id' = false).
Proof.
  revert i cur. induction ids as [|id ids IH]; intros i cur; cbn; [left; set_solver|].
  destruct (IH (i + 1) (if passed w id then i else cur)) as [[-> Hno]|(k & id' & -> & Hk & Hp & Hl)].
  - destruct (passed w id) eqn:E; [right|left; set_solver].
    exists O, id. splits; try done; [lia|]. intros [|j] id' Hj Hlt; [lia|]. cbn in Hj. apply Hno. by eapply list_elem_of_lookup_2.
  - right. exists (S k), id'. splits; try done; [lia|]. intros [|j] id'' Hj Hlt; [lia|]. apply (Hl j); [done|lia].
Qed.
Lemma scan_range w : 0 ≤ scan w 0 SECTION_IDS 0 ≤ last_index.
Proof.
  destruct (scan_spec w SECTION_IDS 0 0) as [[-> _]|(k & id & -> & Hk & _)]; [unfold last_index; cbn; lia|].
  apply lookup_lt_Some in Hk. unfold last_index. cbn in *. lia.
Qed.
Lemma update_range w : 0 ≤ idx (update w) ≤ last_index.
Proof. unfold update. cbn [idx]. destruct (at_bottom w); [unfold last_index; cbn; lia|apply scan_range]. Qed.
Lemma labels_ok : forallb (λ l, (length (labelsFor l) =? length SECTION_IDS)%nat && forallb nonempty (labelsFor l)) locales = true.
Proof. vm_compute. reflexivity. Qed.
Lemma label_at l i : 0 ≤ i ≤ last_index → ∃ t, labelsFor l !! Z.to_nat i = Some t ∧ t ≠ [].
Proof.
  intros Hi. pose proof (all_locales _ labels_ok l) as H. cbn beta in H. apply andb_true_iff in H as [Hl Hn]. apply Nat.eqb_eq in Hl.
  destruct (lookup_lt_is_Some_2 (labelsFor l) (Z.to_nat i)) as [t Ht]; [rewrite Hl; unfold last_index in Hi; lia|].
  exists t. split; [done|]. rewrite forallb_forall in Hn. apply nonempty_true, Hn, list_elem_of_In. by eapply list_elem_of_lookup_2.
Qed.
End SectionNav.

(** The navigator names the section that is being read: away from the end of the
    page it is the last section whose top has passed the reading line (the first
    one before any has), at the end it is the last, and in every language that
    section has a label. *)
Theorem nav_names_section w l :
  let s := SectionNav.update w in
  (∃ t, SectionNav.labelsFor l !! Z.to_nat (SectionNav.idx s) = Some t ∧ t ≠ []) ∧
  (SectionNav.at_bottom w = true → SectionNav.idx s = SectionNav.last_index) ∧
  (SectionNav.at_bottom w = false → ∀ j id,
     SectionNav.SECTION_IDS !! j = Some id → SectionNav.passed w id = true →
     Z.of_nat j ≤ SectionNav.idx s ∧
     ∃ id', SectionNav.SECTION_IDS !! Z.to_nat (SectionNav.idx s) = Some id' ∧ SectionNav.passed w id' = true) ∧
  (∀ next, ∃ id, SectionNav.SECTION_IDS !! Z.to_nat (SectionNav.clamp next) = Some id).
Proof.
  intros s. splits.
  - apply SectionNav.label_at, SectionNav.update_range.
  - intros Hb. subst s. unfold SectionNav.update. by rewrite Hb.
  - intros Hb j id Hj Hp. subst s. unfold SectionNav.update. rewrite Hb. cbn [SectionNav.idx].
    destruct (SectionNav.scan_spec w SectionNav.SECTION_IDS 0 0) as [[_ Hno]|(k & id' & -> & Hk & Hp' & Hl)].
    + rewrite (Hno id) in Hp; [done|by eapply list_elem_of_lookup_2].
    + rewrite Z.add_0_l, Nat2Z.id. split; [|eauto]. destruct (decide (k < j)%nat) as [Hlt|]; [|lia]. by rewrite (Hl j id Hj Hlt) in Hp.
  - intros next. apply lookup_lt_is_Some_2. unfold SectionNav.clamp, SectionNav.last_index. cbn. lia.
Qed.
Lemma nav_names_section_witness :
  let w := {| SectionNav.scrollY := num_of_Z 900; SectionNav.innerHeight := 800; SectionNav.scrollHeight := 9000;
              SectionNav.top_of := λ id, if id =s "hero" then Some (num_of_Z (-900)) else if id =s "nedir" then Some (num_of_Z 200) else Some (num_of_Z 700) |} in
  Z.of_nat 1 ≤ SectionNav.idx (SectionNav.update w).
Proof.
  intros w. destruct (nav_names_section w Len) as (_ & _ & H & _). apply (H eq_refl 1%nat "nedir"); vm_compute; reflexivity.
Defined.

(** ** Links (Navbar.tsx, Footer.tsx) *)
Module Links.

(** The ids of the sections that a page holds (app/page.tsx; the other pages have
    none). *)
Definition home_ids : list jstring :=
  ["hero"; "nedir"; "sektor"; "birlesim"; "sayilar"; "pipeline"; "secili"; "neden"; "rakipler"; "grafikler"; "dogrusinir"; "proof"; "kurulum"; "kanit"; "iletisim"].
Definition ids_of (pathname : jstring) : list jstring := if pathname =s "/" then home_ids else [].
Definition PAGES : list jstring := ["/"; "/paketler"; "/testler"; "/tests"].

(** What a click does: the browser follows the link, the page scrolls to a section,
    the router opens another address, or nothing happens. *)
Inductive Outcome := Follow (href : jstring) | Scroll (id : jstring) | Push (url : jstring) | Nothing.
(** [go(href)] of the navigation bar. *)
Definition go (pathname href : jstring) : Outcome :=
  match index_of "#" href with
  | None => Follow href
  | Some hashIndex =>
      let id := str_from (Z.of_nat hashIndex + 1) href in
      if pathname =s "/" then (if existsb (jeq id) (ids_of pathname) then Scroll id else Nothing)
      else Push ("/#" ++ id)
  end.
(** A [Link] without a handler: an address that is only a fragment stays on the page. *)
Definition plain_link (pathname href : jstring) : Outcome :=
  match href with
  | 35 :: id => if existsb (jeq id) (ids_of pathname) then Scroll id else Nothing
  | _ => Follow href
  end.
(** Whether a click leads to a page of the site or a section of the home page. *)
Definition arrives (o : Outcome) : bool :=
  match o with
  | Scroll _ => true
  | Follow href => existsb (jeq href) PAGES
  | Push url => match url with 47 :: 35 :: id => existsb (jeq id) home_ids | _ => false end
  | Nothing => false
  end.
Definition nav_hrefs : list jstring := map (λ x, text_of (fld "href" x)) (jitems NAV) ++ ["/#hero"; "#kurulum"].
Lemma nav_arrives : forallb (λ p, forallb (λ h, arrives (go p h)) nav_hrefs) PAGES = true. Proof. vm_compute. reflexivity. Qed.
Definition footer_hrefs (l : Locale) : list jstring :=
  flat_map (λ c, map (λ x, x.1.2) (jfilter (λ x : json * jstring * Footer.LinkKind, match x.2 with Footer.InSite => true | _ => false end) c.2)) (Footer.links l).
Lemma footer_arrives : forallb (λ l, forallb (λ h, arrives (plain_link "/" h)) (footer_hrefs l)) locales = true.
Proof. vm_compute. reflexivity. Qed.
(** On the other pages the footer's fragments lead nowhere. *)
Lemma footer_dangles : map (plain_link "/tests") (footer_hrefs Len) =
  [Follow "/paketler"; Nothing; Nothing; Nothing; Nothing; Nothing; Follow "/tests"; Nothing; Nothing].
Proof. vm_compute. reflexivity. Qed.
(** The navigator leaves out a section of the page. *)
Lemma navigator_skips : jfilter (λ i, negb (existsb (jeq i) SectionNav.SECTION_IDS)) home_ids = ["sektor"] ∧
  jfilter (λ i, existsb (jeq i) SectionNav.SECTION_IDS) home_ids = SectionNav.SECTION_IDS.
Proof. by vm_compute. Qed.
End Links.

(** Every link of the navigation bar arrives, from every page of the site: at
    another page, or at a section of the home page; on the home page so does every
    in-site link of the footer, in every language. *)
Theorem links_arrive p h l :
  p ∈ Links.PAGES → h ∈ Links.nav_hrefs →
  Links.arrives (Links.go p h) = true ∧ ∀ h', h' ∈ Links.footer_hrefs l → Links.arrives (Links.plain_link "/" h') = true.
Proof.
  intros Hp Hh. split.
  - pose proof Links.nav_arrives as H. rewrite forallb_forall in H. apply list_elem_of_In, H in Hp. rewrite forallb_forall in Hp.
    by apply Hp, list_elem_of_In.
  - intros h' Hin. pose proof (all_locales _ Links.footer_arrives l) as H. cbn beta in H. rewrite forallb_forall in H.
    by apply H, list_elem_of_In.
Qed.
Lemma links_arrive_witness : Links.arrives (Links.go "/tests" "#rakipler") = true.
Proof. apply (links_arrive "/tests" "#rakipler" Len); apply (bool_decide_unpack _); vm_compute; exact I. Defined.

(** ** Page metadata (lib/seo.ts, app/sitemap.ts) *)
Module Seo.
Definition SITE_URL : jstring := "https://ceniklinuxlogguardian.org".
Definition SITE_NAME : jstring := "Linux Log Guardian".
Definition PUBLIC_PATHS : list jstring := ["/"; "/paketler/"; "/testler/"; "/tests/"].
Definition DEFAULT_DESCRIPTION : jstring :=
  "Open-source (MIT) self-hosted security. nginx access log → OWASP CRS/WAF → ~20 ms kernel ban. Single chain, " ++ dec PROOF_TEST_COUNT ++
  " automated tests, 72h soak PASS.".
Definition hreflangCode (locale : jstring) : jstring := if locale =s "zh" then "zh-CN" else locale.
Definition absoluteUrl (path : jstring) : jstring :=
  if path =s "/" then SITE_URL ++ "/"
  else let p := if starts_with "/" path then path else "/" ++ path in
       SITE_URL ++ (if ends_with "/" p then p else p ++ "/").
Definition locale_codes : list jstring := map (λ l, text_of (fld "code" l)) (jitems LOCALES).
Definition buildLanguageAlternates (path : jstring) : jstring * list (jstring * jstring) :=
  let url := absoluteUrl path in
  (url, fold_left (λ acc c, put_field (hreflangCode c) url acc) locale_codes [("x-default", url)]).
Record Metadata := {
  m_title : jstring; m_description : jstring; m_base : jstring; m_alternates : jstring * list (jstring * jstring);
  og_title : jstring; og_description : jstring; og_url : jstring; og_siteName : jstring; og_locale : jstring; og_image : jstring * Z * Z * jstring;
  tw_card : jstring; tw_title : jstring; tw_description : jstring; tw_images : list jstring; m_index : bool; m_follow : bool;
  m_verification : option jstring }.
Definition buildPageMetadata (title : jstring) (description : option jstring) (path : jstring) : Metadata :=
  let description := description ?? DEFAULT_DESCRIPTION in
  {| m_title := title; m_description := description; m_base := SITE_URL; m_alternates := buildLanguageAlternates path;
     og_title := title; og_description := description; og_url := absoluteUrl path; og_siteName := SITE_NAME; og_locale := "en_US";
     og_image := ("/og.svg", 1200, 630, SITE_NAME ++ " — nginx log → WAF → kernel ban");
     tw_card := "summary_large_image"; tw_title := title; tw_description := description; tw_images := ["/og.svg"];
     m_index := true; m_follow := true; m_verification := None |}.
Definition HOME_METADATA (verification : option jstring) : Metadata :=
  let m := buildPageMetadata "Linux Log Guardian | nginx log → WAF → kernel ban" (Some DEFAULT_DESCRIPTION) "/" in
  {| m_title := m_title m; m_description := m_description m; m_base := m_base m; m_alternates := m_alternates m;
     og_title := og_title m; og_description := og_description m; og_url := og_url m; og_siteName := og_siteName m; og_locale := og_locale m;
     og_image := og_image m; tw_card := tw_card m; tw_title := tw_title m; tw_description := tw_description m; tw_images := tw_images m;
     m_index := m_index m; m_follow := m_follow m; m_verification := truthy_str verification |}.
(** The sitemap: the address, the frequency and whether it has the first priority. *)
Definition sitemap : list (jstring * jstring * bool) :=
  map (λ path, (if path =s "/" then SITE_URL ++ "/" else SITE_URL ++ path, if path =s "/" then ("weekly" : jstring) else "monthly", path =s "/")) PUBLIC_PATHS.

Lemma ends_app p s t : ends_with p t = true → ends_with p (s ++ t) = true.
Proof. rewrite !ends_with_spec. intros [u ->]. exists (s ++ u). by rewrite <- app_assoc. Qed.
Lemma slash_ends s : ends_with "/" (s ++ "/") = true. Proof. apply ends_with_spec. by exists s. Qed.
(** Both forms of a path, with and without its slashes, have the same address. *)
Lemma absolute_form path : ∃ q, absoluteUrl path = SITE_URL ++ "/" ++ q ∧ ends_with "/" (absoluteUrl path) = true.
Proof.
  unfold absoluteUrl. destruct (path =s "/") eqn:E0; [exists []; split; [by rewrite app_nil_r|apply slash_ends]|].
  assert (Hp : ∃ q, (if starts_with "/" path then path else "/" ++ path) = "/" ++ q).
  { destruct (starts_with "/" path) eqn:E; [apply starts_with_spec in E as [t ->]|]; eauto. }
  destruct Hp as [q ->]. cbv zeta. destruct (ends_with "/" ("/" ++ q)) eqn:E.
  - exists q. split; [done|]. by apply ends_app.
  - exists (q ++ "/"). split; [by rewrite !app_assoc|]. apply ends_app, slash_ends.
Qed.
Lemma with_slash_before path : starts_with "/" path = false → absoluteUrl ("/" ++ path) = absoluteUrl path.
Proof.
  intros H. unfold absoluteUrl. rewrite H, starts_with_app. destruct (path =s "/") eqn:E; [bprop; by subst|].
  destruct ("/" ++ path =s "/") eqn:E'; [|done]. bprop. destruct path; [reflexivity|done].
Qed.
Lemma with_slash_after path : path ≠ [] → ends_with "/" path = false → absoluteUrl (path ++ "/") = absoluteUrl path.
Proof.
  intros Hn H. unfold absoluteUrl. destruct (path =s "/") eqn:E; [bprop; by subst|].
  destruct (path ++ "/" =s "/") eqn:E'; [bprop; destruct path as [|? [|]]; done|]. cbv zeta. clear E E'.
  assert (Hs : starts_with "/" (path ++ "/") = starts_with "/" path) by (destruct path; cbn; [done|by destruct (47 =? z)]).
  rewrite Hs. destruct (starts_with "/" path); [by rewrite slash_ends, H|].
  rewrite app_assoc, slash_ends. destruct (ends_with "/" ("/" ++ path)) eqn:E; [|done].
  apply ends_with_spec in E as [u Hu]. destruct path as [|x path _] using rev_ind; [done|]. rewrite app_assoc in Hu.
  apply app_inj_tail in Hu as [_ ->]. by rewrite slash_ends in H.
Qed.
Lemma put_same_vals (url : jstring) codes acc :
  Forall (λ kv : jstring * jstring, kv.2 = url) acc →
  Forall (λ kv : jstring * jstring, kv.2 = url) (fold_left (λ acc c, put_field (hreflangCode c) url acc) codes acc).
Proof.
  revert acc. induction codes as [|c codes IH]; intros acc H; [done|]. cbn [fold_left]. apply IH. clear IH.
  induction H as [|[k v] acc Hv H IH]; cbn; [by repeat constructor|]. destruct (jeq _ _); constructor; done.
Qed.
Lemma put_keys codes (url : jstring) acc acc' :
  map fst acc = map fst acc' →
  map fst (fold_left (λ acc c, put_field (hreflangCode c) url acc) codes acc) = map fst (fold_left (λ acc c, put_field (hreflangCode c) ([] : jstring) acc) codes acc').
Proof.
  revert acc acc'. induction codes as [|c codes IH]; intros acc acc' H; [done|]. cbn [fold_left]. apply IH. clear IH.
  revert acc' H. induction acc as [|[k v] acc IH]; intros [|[k' v'] acc'] [=]; [done|]. subst. cbn.
  destruct (jeq _ _); cbn; f_equal; auto.
Qed.
Lemma alternate_keys path : map fst (buildLanguageAlternates path).2 = ("x-default" : jstring) :: map hreflangCode locale_codes.
Proof.
  unfold buildLanguageAlternates. cbn [snd]. rewrite (put_keys _ _ _ [("x-default", [] : jstring)]) by done. vm_compute. reflexivity.
Qed.
Lemma every_code : forallb (λ l, existsb (jeq (code l)) locale_codes) locales = true. Proof. vm_compute. reflexivity. Qed.
Lemma code_listed l : code l ∈ locale_codes.
Proof.
  pose proof (all_locales _ every_code l) as H. cbn beta in H. apply existsb_exists in H as (c & Hc & ->%jeq_true). by apply list_elem_of_In.
Qed.
Lemma alternate_of path k : k ∈ map fst (buildLanguageAlternates path).2 → (k, absoluteUrl path) ∈ (buildLanguageAlternates path).2.
Proof.
  intros ([k' v] & -> & Hin)%list_elem_of_fmap. cbn [fst].
  assert (Hall : Forall (λ kv : jstring * jstring, kv.2 = absoluteUrl path) (buildLanguageAlternates path).2)
    by (apply put_same_vals; constructor; [done|constructor]).
  rewrite Forall_forall in Hall. specialize (Hall _ Hin). cbn [snd] in Hall. by subst v.
Qed.
End Seo.

(** The addresses of a page agree: each is under the site's address and ends with
    a slash, however the path is written; the sitemap lists the same addresses; and
    a page names itself as its version in each of the twenty-four languages. *)
Theorem page_addresses path :
  (∃ q, Seo.absoluteUrl path = Seo.SITE_URL ++ "/" ++ q) ∧ ends_with "/" (Seo.absoluteUrl path) = true ∧
  (starts_with "/" path = false → Seo.absoluteUrl ("/" ++ path) = Seo.absoluteUrl path) ∧
  (path ≠ [] → ends_with "/" path = false → Seo.absoluteUrl (path ++ "/") = Seo.absoluteUrl path) ∧
  map (λ e, e.1.1) Seo.sitemap = map Seo.absoluteUrl Seo.PUBLIC_PATHS ∧
  ∀ l, (Seo.hreflangCode (code l), (Seo.buildLanguageAlternates path).1) ∈ (Seo.buildLanguageAlternates path).2.
Proof.
  destruct (Seo.absolute_form path) as (q & Hq & He). splits; [by exists q|done|..].
  - apply Seo.with_slash_before.
  - apply Seo.with_slash_after.
  - vm_compute. reflexivity.
  - intros l. apply Seo.alternate_of. rewrite Seo.alternate_keys. right. apply list_elem_of_fmap. eauto using Seo.code_listed.
Qed.
Lemma page_addresses_witness :
  Seo.absoluteUrl ("testler" ++ "/") = Seo.absoluteUrl "testler" ∧ Seo.absoluteUrl ("/" ++ "testler") = Seo.absoluteUrl "testler".
Proof.
  destruct (page_addresses "testler") as (_ & _ & H1 & H2 & _). split; [apply H2; [done|vm_compute; reflexivity]|apply H1; vm_compute; reflexivity].
Defined.

(** ** The chosen language (lib/i18n/I18nProvider.tsx, lib/i18n/locales.ts) *)
Module I18nProvider.
Definition STORAGE_KEY : jstring := "lg-landing-locale".
Definition DEFAULT_LOCALE : jstring := "en".
(** The properties that every object inherits. *)
Definition OBJECT_PROTOTYPE : list jstring :=
  ["constructor"; "__defineGetter__"; "__defineSetter__"; "hasOwnProperty"; "__lookupGetter__"; "__lookupSetter__"; "isPrototypeOf";
   "propertyIsEnumerable"; "toString"; "valueOf"; "__proto__"; "toLocaleString"].
(** [v in MESSAGES] *)
Definition isLocale (v : jstring) : bool :=
  match assoc v MESSAGES with Some _ => true | None => existsb (jeq v) OBJECT_PROTOTYPE end.

(** The state of the provider, what the browser stores under the key, and the
    language of the document. *)
Record State := { locale : jstring; ready : bool; revision : Z; stored : option jstring; lang : option jstring }.
(** The effect of [locale] and [ready]. *)
Definition publish (s : State) : State :=
  if ready s then {| locale := locale s; ready := true; revision := revision s; stored := Some (locale s); lang := Some (Seo.hreflangCode (locale s)) |}
  else s.
(** The first render and its effects, then the effect of the new state. *)
Definition mount (saved : option jstring) : State :=
  let l := match truthy_str saved with Some v => if isLocale v then v else DEFAULT_LOCALE | None => DEFAULT_LOCALE end in
  publish {| locale := l; ready := true; revision := 0; stored := saved; lang := None |}.
Definition setLocale (l : Locale) (s : State) : State :=
  publish {| locale := code l; ready := ready s; revision := revision s + 1; stored := stored s; lang := lang s |}.
(** [MESSAGES[locale]] *)
Definition t (s : State) : option json := assoc (locale s) MESSAGES.
Definition run (saved : option jstring) (picks : list Locale) : State := fold_left (λ s l, setLocale l s) picks (mount saved).

(** The provider shows a language of the site, stores it and names it in the document. *)
Definition settled (s : State) : Prop :=
  ready s = true ∧ (∃ l, locale s = code l) ∧ stored s = Some (locale s) ∧ lang s = Some (Seo.hreflangCode (locale s)).

Lemma messages_typed : forallb (λ l, match assoc (code l) MESSAGES with Some m => has_ty Messages m | None => false end) locales = true.
Proof. vm_compute. reflexivity. Qed.
Lemma messages_of l : ∃ m, assoc (code l) MESSAGES = Some m ∧ has_ty Messages m = true.
Proof. pose proof (all_locales _ messages_typed l) as H. cbn beta in H. destruct (assoc (code l) MESSAGES) as [m|]; [eauto|done]. Qed.
Lemma is_locale_code l : isLocale (code l) = true.
Proof. unfold isLocale. by destruct (messages_of l) as (m & -> & _). Qed.
Lemma message_keys : forallb (λ k, existsb (λ l, k =s code l) locales) (map fst MESSAGES) = true. Proof. vm_compute. reflexivity. Qed.
Lemma is_locale_inv v : isLocale v = true → v ∉ OBJECT_PROTOTYPE → ∃ l, v = code l.
Proof.
  unfold isLocale. intros H Hn. destruct (assoc v MESSAGES) as [m|] eqn:E.
  - pose proof message_keys as Hk. rewrite forallb_forall in Hk. specialize (Hk v). destruct (existsb_exists (λ l, v =s code l) locales) as [Hx _].
    destruct Hx as (l & _ & ->%jeq_true); [|by exists l]. apply Hk. apply in_map_iff. exists (v, m). split; [done|].
    clear -E. induction MESSAGES as [|[k x] ms IH]; [done|]. cbn in E. destruct (v =s k) eqn:Ek; [bprop; left; by simplify_eq|right; auto].
  - apply existsb_exists in H as (k & Hk & ->%jeq_true). apply list_elem_of_In in Hk. by destruct Hn.
Qed.
Lemma code_inj l l' : code l = code l' → l = l'. Proof. by destruct l, l'. Qed.
Lemma mount_settled saved : (∀ v, saved = Some v → v ∉ OBJECT_PROTOTYPE) → settled (mount saved).
Proof.
  intros H. unfold mount, publish, settled. cbn. splits; try done.
  destruct (truthy_str saved) as [v|] eqn:E; [|by exists Len]. apply truthy_str_Some in E as [-> _].
  destruct (isLocale v) eqn:El; [|by exists Len]. by apply is_locale_inv; [|apply H].
Qed.
Lemma set_settled l s : settled s → settled (setLocale l s).
Proof. intros (Hr & _). unfold setLocale, publish, settled. cbn. rewrite Hr. cbn. splits; eauto. Qed.
Lemma run_settled saved picks : (∀ v, saved = Some v → v ∉ OBJECT_PROTOTYPE) → settled (run saved picks).
Proof.
  intros H. unfold run. assert (Hm := mount_settled saved H). revert Hm. generalize (mount saved).
  induction picks as [|l picks IH]; intros s Hs; cbn; [done|]. by apply IH, set_settled.
Qed.
(** A stored name that every object inherits passes for a language, has no messages
    and is stored again. *)
Lemma inherited_name_kept :
  let s := mount (Some ("constructor" : jstring)) in
  locale s = ("constructor" : jstring) ∧ t s = None ∧ stored s = Some ("constructor" : jstring).
Proof. by vm_compute. Qed.
End I18nProvider.

(** C34. The chosen language is kept: whatever the browser stored, apart from the names
    that every object inherits, and whatever languages are then picked, the site
    shows one of its languages with all its messages, and the next visit starts in
    it. *)
Theorem locale_kept saved picks :
  (∀ v, saved = Some v → v ∉ I18nProvider.OBJECT_PROTOTYPE) →
  let s := I18nProvider.run saved picks in
  (∃ l m, I18nProvider.locale s = code l ∧ I18nProvider.t s = Some m ∧ has_ty Messages m = true ∧ ∀ l', last picks = Some l' → l = l') ∧
  I18nProvider.lang s = Some (Seo.hreflangCode (I18nProvider.locale s)) ∧
  I18nProvider.locale (I18nProvider.mount (I18nProvider.stored s)) = I18nProvider.locale s.
Proof.
  intros H s. destruct (I18nProvider.run_settled saved picks H) as (_ & [l Hl] & Hst & Hla). fold s in Hl, Hst, Hla. splits.
  - destruct (I18nProvider.messages_of l) as (m & Hm & Ht). exists l, m. unfold I18nProvider.t. rewrite Hl. splits; try done.
    intros l' Hlast. apply I18nProvider.code_inj. rewrite <- Hl. subst s. unfold I18nProvider.run.
    destruct picks as [|x picks _] using rev_ind; [done|]. rewrite last_snoc in Hlast. injection Hlast as ->.
    rewrite fold_left_app. cbn [fold_left]. unfold I18nProvider.setLocale, I18nProvider.publish. cbn. by destruct (I18nProvider.ready _).
  - done.
  - rewrite Hst, Hl. unfold I18nProvider.mount. cbn [truthy_str]. destruct l; vm_compute; reflexivity.
Qed.
Lemma locale_kept_witness :
  I18nProvider.lang (I18nProvider.run (Some ("xx" : jstring)) [Lzh]) = Some (Seo.hreflangCode (I18nProvider.locale (I18nProvider.run (Some ("xx" : jstring)) [Lzh]))).
Proof.
  apply (locale_kept (Some ("xx" : jstring)) [Lzh]). intros v [= <-]. apply (bool_decide_unpack _). vm_compute. exact I.
Defined.

(** ** The language menu (LangSwitcher.tsx) *)
Module LangSwitcher.
Record State := { open : bool; toast : option jstring; toastTimer : option nat; next_timer : nat }.
Definition initial : State := {| open := false; toast := None; toastTimer := None; next_timer := 0 |}.
Inductive event := MouseDown (inside : bool) | Toggle | Pick (c : jstring) | Fired (timer : nat).
Definition entry (c : jstring) : option json := jfind (λ l, text_of (fld "code" l) =s c) (jitems LOCALES).
Definition native (c : jstring) : jstring := match entry c with Some l => text_of (fld "native" l) | None => c end.
(** A timer that fires hides the message, unless it was cleared by a later pick. *)
Definition on_event (ev : event) (s : State) : State :=
  match ev with
  | MouseDown inside => if inside then s else {| open := false; toast := toast s; toastTimer := toastTimer s; next_timer := next_timer s |}
  | Toggle => {| open := negb (open s); toast := toast s; toastTimer := toastTimer s; next_timer := next_timer s |}
  | Pick c => {| open := false; toast := Some (native c); toastTimer := Some (next_timer s); next_timer := S (next_timer s) |}
  | Fired i => if bool_decide (toastTimer s = Some i) then {| open := open s; toast := None; toastTimer := toastTimer s; next_timer := next_timer s |} else s
  end.
Definition turkic_entries : list json := jfilter (λ l, text_of (fld "group" l) =s "turkic") (jitems LOCALES).
Definition other_entries : list json := jfilter (λ l, text_of (fld "group" l) =s "other") (jitems LOCALES).
Definition menu : list jstring := map (λ l, text_of (fld "code" l)) (turkic_entries ++ other_entries).
Lemma menu_complete : NoDup menu ∧ length menu = length locales ∧ ∀ l, code l ∈ menu.
Proof.
  splits; [apply (bool_decide_unpack _); vm_compute; exact I|vm_compute; reflexivity|].
  assert (H : forallb (λ l, bool_decide (code l ∈ menu)) locales = true) by (vm_compute; reflexivity).
  intros l. apply (bool_decide_eq_true_1 _ (all_locales _ H l)).
Qed.
End LangSwitcher.

(** ** The carousel (CapabilitiesCarousel.tsx) *)
Module Carousel.
Record State := { idx : Z; dir : Z }.
Definition initial : State := {| idx := 0; dir := 0 |}.
(** The remainder of a dividend is that of the language: with the dividend's sign. *)
Definition go (total : Z) (s : State) (next : Z) : State :=
  {| dir := if idx s <? next then 1 else -1; idx := Z.rem (next + total) total |}.
Inductive event := Prev | Next | Timer | Dot (i : nat).
Definition on_event (total : Z) (ev : event) (s : State) : State :=
  match ev with
  | Prev => go total s (idx s - 1)
  | Next | Timer => go total s (idx s + 1)
  | Dot i => {| dir := if idx s <? Z.of_nat i then 1 else -1; idx := Z.of_nat i |}
  end.
(** The dots are those of the cards. *)
Definition allowed (total : Z) (ev : event) : bool := match ev with Dot i => Z.of_nat i <? total | _ => true end.
Definition run (total : Z) (evs : list event) (s : State) : State := fold_left (λ s ev, on_event total ev s) evs s.
Definition cards (l : Locale) : list json := jitems (fld "cards" (fld "selected" (getCopy l))).

Lemma step_idx total s :
  0 ≤ idx s < total → idx (on_event total Next s) = (idx s + 1) mod total ∧ idx (on_event total Prev s) = (idx s - 1) mod total.
Proof.
  intros H. cbn. rewrite !Z.rem_mod_nonneg by lia. split.
  - rewrite <- Z.add_mod_idemp_r, Z.mod_same, Z.add_0_r by lia. done.
  - rewrite <- Z.add_mod_idemp_r, Z.mod_same, Z.add_0_r by lia. done.
Qed.
Lemma step_range total ev s : allowed total ev = true → 0 ≤ idx s < total → 0 ≤ idx (on_event total ev s) < total.
Proof.
  intros Ha H. destruct (step_idx total s H) as [Hn Hp].
  destruct ev; [rewrite Hp|rewrite Hn|change (0 ≤ idx (on_event total Next s) < total); rewrite Hn|]; try (apply Z.mod_pos_bound; lia).
  cbn in *. bprop. lia.
Qed.
Lemma run_range total evs s : forallb (allowed total) evs = true → 0 ≤ idx s < total → 0 ≤ idx (run total evs s) < total.
Proof.
  revert s. induction evs as [|ev evs IH]; intros s Ha H; [done|]. cbn in *. apply andb_true_iff in Ha as [He Ha].
  apply IH; [done|]. by apply step_range.
Qed.
Lemma cards_shared l l' : length (cards l) = length (cards l').
Proof.
  assert (H : ∀ l, length (cards l) = length (f_cards (facts (getCopy l)))) by (intros; symmetry; apply length_map).
  rewrite !H. by rewrite (copy_facts l), (copy_facts l').
Qed.
End Carousel.

(** The carousel always shows a card: whatever buttons, dots and timer ticks, its
    index is that of a card, in the chosen language and in any other one that is
    chosen later; left alone it comes round to every card. *)
Theorem carousel_shows_card l evs :
  let total := Z.of_nat (length (Carousel.cards l)) in
  forallb (Carousel.allowed total) evs = true →
  let s := Carousel.run total evs Carousel.initial in
  (∀ l', ∃ c, Carousel.cards l' !! Z.to_nat (Carousel.idx s) = Some c) ∧
  ∀ i : nat, (i < length (Carousel.cards l))%nat →
    ∃ n : nat, Z.of_nat n < total ∧ Carousel.idx (Carousel.run total (replicate n Carousel.Timer) s) = Z.of_nat i.
Proof.
  intros total Ha s.
  assert (Hpos : 0 < total) by (subst total; rewrite (Carousel.cards_shared l Len); vm_compute; reflexivity).
  assert (Hr : 0 ≤ Carousel.idx s < total) by (apply Carousel.run_range; [done|cbn; lia]). split.
  - intros l'. apply lookup_lt_is_Some_2. rewrite (Carousel.cards_shared l' l). lia.
  - intros i Hi. exists (Z.to_nat ((Z.of_nat i - Carousel.idx s) mod total)).
    assert (Hm := Z.mod_pos_bound (Z.of_nat i - Carousel.idx s) total Hpos). split; [lia|].
    assert (Hk : ∀ (k : nat) s, 0 ≤ Carousel.idx s < total →
      Carousel.idx (Carousel.run total (replicate k Carousel.Timer) s) = (Carousel.idx s + Z.of_nat k) mod total).
    { clear. induction k as [|k IH]; intros s Hs; [cbn; rewrite Z.mod_small; lia|].
      change (Carousel.run total (replicate (S k) Carousel.Timer) s) with (Carousel.run total (replicate k Carousel.Timer) (Carousel.on_event total Carousel.Next s)).
      rewrite IH by (by apply Carousel.step_range). rewrite (proj1 (Carousel.step_idx total s Hs)), Z.add_mod_idemp_l by lia. f_equal. lia. }
    rewrite Hk by done. rewrite Z2Nat.id by lia. rewrite Z.add_mod_idemp_r by lia.
    replace (Carousel.idx s + (Z.of_nat i - Carousel.idx s)) with (Z.of_nat i) by lia. apply Z.mod_small. lia.
Qed.
Lemma carousel_shows_card_witness :
  ∃ c, Carousel.cards Lfr !! Z.to_nat (Carousel.idx (Carousel.run (Z.of_nat (length (Carousel.cards Len))) [Carousel.Prev; Carousel.Dot 2; Carousel.Timer] Carousel.initial)) = Some c.
Proof. apply (carousel_shows_card Len [Carousel.Prev; Carousel.Dot 2; Carousel.Timer]). vm_compute. reflexivity. Defined.

(** ** The guide of the editions (TierGuide.tsx) *)
Module TierGuide.
Record Accent := { text : jstring; border : jstring; bg : jstring; chip : jstring }.
Definition ACCENT (a : jstring) : option Accent :=
  if a =s "neon" then Some {| text := "text-neon"; border := "border-neon/30"; bg := "from-neon/[0.06]"; chip := "border-neon/30 text-neon" |}
  else if a =s "turq" then Some {| text := "text-turq"; border := "border-turq/30"; bg := "from-turq/[0.06]"; chip := "border-turq/30 text-turq" |}
  else if a =s "cyan" then Some {| text := "text-cyan"; border := "border-cyan/30"; bg := "from-cyan/[0.06]"; chip := "border-cyan/30 text-cyan" |}
  else None.
Definition tiers (t : json) : list json := jitems (fld "tiers" t).
Definition steps (tier : json) : list json := jitems (fld "installSteps" tier).
(** What is shown for the chosen edition: its name, its accent, the number of steps
    and the steps; [None] where the page would fail. *)
Definition TierGuide (l : Locale) (active : nat) : option (json * Accent * Z * list json) :=
  activeTier ← tiers (getTiers l) !! active;
  a ← ACCENT (text_of (fld "accent" activeTier));
  Some (fld "name" activeTier, a, Z.of_nat (length (steps activeTier)), steps activeTier).

Definition guide (p : json) (k : nat) : list json := steps (jix k (fld "tiers" (build p))).
Lemma guide_take p k : (k < 3)%nat → guide p k = take (5 + 3 * k) (tier_steps p).
Proof. destruct k as [|[|[|]]]; [reflexivity..|lia]. Qed.
Lemma steps_count p : length (tier_steps p) = 11%nat. Proof. unfold tier_steps. rewrite length_imap. vm_compute. reflexivity. Qed.
Lemma guide_length p k : (k < 3)%nat → length (guide p k) = (5 + 3 * k)%nat.
Proof. intros H. rewrite guide_take, length_take, steps_count by done. lia. Qed.
Lemma guide_step p k i s : (k < 3)%nat → guide p k !! i = Some s →
  fld "cmd" s = jix i STEP_CMDS ∧ fld "out" s = jix i STEP_OUTS ∧ fld "n" s = JStr (pad0 2 (Z.of_nat i + 1)).
Proof.
  intros Hk. rewrite guide_take by done. intros [Hs _]%lookup_take_Some. unfold tier_steps in Hs. rewrite list_lookup_imap in Hs.
  unfold jix. destruct (jitems STEP_CMDS !! i) as [c|]; [|done]. cbn in Hs. injection Hs as <-. done.
Qed.
Lemma shown l p k : getTiers l = build p → (k < 3)%nat → ∃ n a, TierGuide l k = Some (n, a, Z.of_nat (length (guide p k)), guide p k).
Proof. intros E Hk. unfold TierGuide. rewrite E. destruct k as [|[|[|]]]; [..|lia]; do 2 eexists; reflexivity. Qed.
Lemma built l : ∃ p, getTiers l = build p.
Proof. destruct l; eexists; reflexivity. Qed.
End TierGuide.

(** The installation guides of the editions extend each other: with any texts, the
    guide of a larger edition starts with the whole guide of the smaller one, they
    have 5, 8 and 11 steps, numbered from 01, and in every language the steps give
    the same commands and outputs. *)
Theorem tier_guides_extend p k k' :
  (k <= k')%nat → (k' < 3)%nat →
  TierGuide.guide p k `prefix_of` TierGuide.guide p k' ∧ length (TierGuide.guide p k) = (5 + 3 * k)%nat ∧
  (∀ i s, TierGuide.guide p k !! i = Some s →
     fld "cmd" s = jix i STEP_CMDS ∧ fld "out" s = jix i STEP_OUTS ∧ fld "n" s = JStr (pad0 2 (Z.of_nat i + 1))) ∧
  ∀ l, ∃ p' n a, getTiers l = build p' ∧ TierGuide.TierGuide l k = Some (n, a, 5 + 3 * Z.of_nat k, TierGuide.guide p' k).
Proof.
  intros Hkk Hk. splits.
  - rewrite !TierGuide.guide_take by lia. exists (drop (5 + 3 * k) (take (5 + 3 * k') (tier_steps p))).
    rewrite <- (take_drop (5 + 3 * k) (take (5 + 3 * k') (tier_steps p))) at 1. f_equal. rewrite take_take. f_equal. lia.
  - apply TierGuide.guide_length. lia.
  - intros i s. apply TierGuide.guide_step. lia.
  - intros l. destruct (TierGuide.built l) as [p' Hp]. exists p'.
    destruct (TierGuide.shown l p' k Hp ltac:(lia)) as (n & a & Hs). exists n, a. split; [done|]. rewrite Hs, TierGuide.guide_length by lia. repeat f_equal. lia.
Qed.
Lemma tier_guides_extend_witness : TierGuide.guide DE_PACK 0 `prefix_of` TierGuide.guide DE_PACK 2.
Proof. apply (tier_guides_extend DE_PACK 0 2); lia. Defined.

(** ** The contact terminal (ui/CyberTerminalForm.tsx)

    No page of the site mounts this component. *)
Module Contact.
Inductive Step := SName | SEmail | SMessage | SSent.
Inductive Kind := KInfo | KSuccess | KError | KPrompt | KInput.
Record LogLine := Line { kind : Kind; l_text : jstring }.
Definition PROMPT : jstring := "cenik@logguardian:~$".
Definition email_unit : re := RCls (λ c, negb (is_space c) && negb (c =? 64)).
(** [/^[^\s@]+@[^\s@]+\.[^\s@]+$/.test(v)] *)
Definition emailOk (v : jstring) : bool := test_full (RCat (rplus email_unit) (RCat (chr 64) (RCat (rplus email_unit) (RCat (chr 46) (rplus email_unit))))) v.
Definition QUESTION (s : Step) : jstring :=
  match s with
  | SName => "Lütfen isminizi girin ve ENTER'a basın:"
  | SEmail => "E-posta adresinizi girin:"
  | SMessage => "Mesajınızı / teklif talebinizi yazın:"
  | SSent => []
  end.
Record Form := { f_name : jstring; f_email : jstring; f_message : jstring }.
(** The timers of a submission that have not fired yet, the payload with them. *)
Record State := { step : Step; value : jstring; form : Form; lines : list LogLine; timers : list (Z * Form) }.
Definition initial : State := {|
  step := SName; value := []; form := {| f_name := []; f_email := []; f_message := [] |};
  lines := [Line KInfo "Linux Log Guardian secure contact shell v1.0"; Line KInfo "type your answer, press ENTER to continue"; Line KPrompt (QUESTION SName)];
  timers := [] |}.
Fixpoint hex_digits (fuel : nat) (n : Z) (acc : jstring) : jstring :=
  match fuel with
  | O => acc
  | S fuel => let acc := hex_digit (n mod 16) :: acc in if n <? 16 then acc else hex_digits fuel (n / 16) acc
  end.
(** The first code unit of each character, in hexadecimal. *)
Definition hex_unit (c : jstring) : jstring :=
  let ds := hex_digits 4 (nth 0 c 0) [] in replicate (2 - length ds) 48 ++ ds.
Definition hex (s : jstring) : jstring := join " " (map hex_unit (code_points s)).

Definition add (ls : list LogLine) (s : State) : State :=
  {| step := step s; value := value s; form := form s; lines := lines s ++ ls; timers := timers s |}.
Definition submit (payload : Form) (s : State) : State :=
  {| step := SSent; value := value s; form := form s; lines := lines s ++ [Line KInfo "encoding payload → HEX…"];
     timers := timers s ++ [(260, payload); (620, payload); (1000, payload)] |}.
Definition fired (delay : Z) (payload : Form) (s : State) : State :=
  if delay =? 260 then add [Line KInfo (str_upto 96 (hex (f_name payload ++ "|" ++ f_email payload ++ "|" ++ f_message payload)) ++ " …")] s
  else if delay =? 620 then add [Line KSuccess "[SUCCESS] payload authenticated · TLS 1.3"] s
  else add [Line KSuccess "LOG GÖNDERİLDİ — 200 OK · teşekkürler!"; Line KInfo ("yanıt için: " ++ text_of (fld "email" CONTACT))] s.

Definition to_step (st : Step) (f : Form) (ls : list LogLine) (s : State) : State :=
  {| step := st; value := []; form := f; lines := lines s ++ ls; timers := timers s |}.
Definition advance (s : State) : State :=
  let v := trim (value s) in
  let echoed := add [Line KInput (PROMPT ++ " " ++ sor v "—")] s in
  let f := form s in
  match step s with
  | SSent => s
  | SName =>
      if nonempty v then to_step SEmail {| f_name := v; f_email := f_email f; f_message := f_message f |}
        [Line KSuccess "[INFO] User input received: Name validated."; Line KPrompt (QUESTION SEmail)] echoed
      else add [Line KError "[ERROR] isim boş olamaz"] echoed
  | SEmail =>
      if emailOk v then to_step SMessage {| f_name := f_name f; f_email := v; f_message := f_message f |}
        [Line KSuccess "[SUCCESS] Email string authenticated."; Line KPrompt (QUESTION SMessage)] echoed
      else add [Line KError "[ERROR] geçersiz e-posta formatı"] echoed
  | SMessage =>
      if slen v <? 3 then add [Line KError "[ERROR] mesaj çok kısa"] echoed
      else let next := {| f_name := f_name f; f_email := f_email f; f_message := v |} in
           submit next (to_step SMessage next [Line KSuccess "[INFO] Message buffer sealed."] echoed)
  end.

Inductive event := Type_ (v : jstring) | Enter | Timer (i : nat).
(** The field is disabled once the form is sent. *)
Definition on_event (ev : event) (s : State) : State :=
  match ev with
  | Type_ v => match step s with SSent => s | _ => {| step := step s; value := v; form := form s; lines := lines s; timers := timers s |} end
  | Enter => advance s
  | Timer i => match timers s !! i with
      | Some (d, p) => fired d p {| step := step s; value := value s; form := form s; lines := lines s; timers := delete i (timers s) |}
      | None => s
      end
  end.
Definition run (evs : list event) : State := fold_left (λ s ev, on_event ev s) evs initial.

Definition name_ok (f : Form) : Prop := f_name f ≠ [].
Definition email_ok (f : Form) : Prop := emailOk (f_email f) = true.
Definition complete (f : Form) : Prop := name_ok f ∧ email_ok f ∧ 3 ≤ slen (f_message f).
Definition form_inv (s : State) : Prop :=
  match step s with SName => True | SEmail => name_ok (form s) | SMessage => name_ok (form s) ∧ email_ok (form s) | SSent => complete (form s) end ∧
  (step s ≠ SSent → timers s = []) ∧ (∀ t, t ∈ timers s → t.2 = form s).
Lemma fired_keeps d p s : step (fired d p s) = step s ∧ form (fired d p s) = form s ∧ timers (fired d p s) = timers s.
Proof. unfold fired. by repeat split_if. Qed.
Lemma contact_advance s : form_inv s → form_inv (advance s).
Proof.
  intros (H & Ht & Hp). unfold advance, form_inv. destruct s as [st v f ls ts]. cbn -[emailOk trim slen] in *. destruct st.
  - specialize (Ht ltac:(done)). subst ts. destruct (nonempty (trim v)) eqn:E; cbn -[emailOk trim]; splits; try done; try set_solver. by bprop.
  - specialize (Ht ltac:(done)). subst ts. destruct (emailOk (trim v)) eqn:E; cbn -[emailOk trim]; splits; try done; try set_solver.
  - specialize (Ht ltac:(done)). subst ts. destruct (slen (trim v) <? 3) eqn:E; cbn -[emailOk trim slen]; splits; try done; try tauto; try set_solver.
    unfold complete. cbn -[emailOk trim slen]. bprop. destruct H. splits; try done.
  - cbn -[emailOk trim slen]. by splits.
Qed.
Lemma contact_event ev s : form_inv s → form_inv (on_event ev s).
Proof.
  intros H. destruct ev as [v| |i]; cbn; [|by apply contact_advance|].
  - destruct H as (H & Ht & Hp). destruct s as [[] ? ? ? ?]; unfold form_inv; cbn in *; splits; auto; tauto.
  - destruct (timers s !! i) as [[d p]|] eqn:E; [|done]. destruct H as (H & Ht & Hp).
    match goal with |- form_inv (fired d p ?x) => destruct (fired_keeps d p x) as (E1 & E2 & E3) end.
    unfold form_inv. rewrite E1, E2, E3. cbn. splits; try done.
    + intros Hs. rewrite (Ht Hs) in E. done.
    + intros t Hin. apply Hp. by eapply delete_sub.
Qed.
Lemma contact_run evs : form_inv (run evs).
Proof.
  unfold run. assert (H : form_inv initial) by (unfold form_inv; cbn; splits; [done|done|set_solver]). revert H. generalize initial.
  induction evs as [|ev evs IH]; intros s H; [done|]. by apply IH, contact_event.
Qed.
End Contact.
