(* ===== verification/LandingPages.v ===== *)
(** The remaining sections of the landing site (landing/components) and its packages
    page: what each shows of the texts, as the lists it draws with the key of every
    element, the marks chosen by position, the links and the copy buttons.  The
    theorems say that in every language each list can be drawn (its keys differ and
    every card has its colour), and that the links to the evidence name their file. *)

From S2P Require Import Prelude JsString JsNum Json JsValue Client LandingContent LandingTypes LandingLocales Landing LandingTables.

(** An element of a drawn list: its key, and the texts it shows, in order. *)
Record Item := { key : jstring; shown : list jstring }.
(** [list.map((x) => <... key={...}>)] *)
Definition list_by (key_of : json → json) (texts_of : json → list json) (v : json) : list Item :=
  map (λ x, {| key := text_of (key_of x); shown := map text_of (texts_of x) |}) (jitems v).
Definition itself (x : json) : json := x.
Definition plain (v : json) : list Item := list_by itself (λ x, [x]) v.
Definition fields (k : jstring) (fs : list jstring) (v : json) : list Item := list_by (fld k) (λ x, map (λ f, fld f x) fs) v.

(** ** Opening section (Hero.tsx, ui/TerminalInstall.tsx) *)
Module Hero.
(** [PraiseValue]: a percent sign follows the value 100. *)
Definition PraiseValue (value : jstring) : jstring := if value =s "100" then value ++ "%" else value.
Definition bullets (l : Locale) : list Item := plain (fld "hero_bullets" (getSections l)).
Definition chips (l : Locale) : list Item := plain (fld "hero_chips" (getSections l)).
Definition praise (l : Locale) : list Item :=
  map (λ b, {| key := text_of (fld "l" b); shown := [PraiseValue (text_of (fld "v" b)); text_of (fld "l" b)] |})
    (jitems (fld "hero_praise_bold" (getSections l))).
Definition highlights (l : Locale) : list Item := plain (fld "hero_praise_highlights" (getSections l)).
Definition links (l : Locale) : list (jstring * jstring) :=
  let s := getSections l in
  [("/testler", text_of (fld "hero_cta_tests" s)); ("/evidence/competitive-proof.pdf", text_of (fld "hero_cta_pdf" s));
   ("#kurulum", text_of (fld "hero_cta_setup" s)); (text_of (fld "github" HERO), text_of (fld "hero_cta_github" s))].
Definition proof_command (l : Locale) : jstring := text_of (fld "fullPackCmd" (fld "evidence" (getCopy l))).
(** The terminal: the copied text and its lines. *)
Definition CMD : jstring := join [10] (map text_of (jitems (fld "quickstart" HERO))).
Definition OUTPUT_LINES : list (jstring * jstring) :=
  [("[OK] log-guardian.service active", "text-ok"); ("[OK] daemon IPC: OK", "text-ok"); ("[OK] API fail-closed (tokensiz 403)", "text-cyan");
   ("FAIL: 0   WARN: 0", "text-ok")].
Definition command_lines : list Item := plain (fld "quickstart" HERO).
End Hero.

(** ** Evidence (EvidencePack.tsx) *)
Module EvidencePack.
Definition pdf : jstring := "/evidence/competitive-proof.pdf".
(** A file of the pack, and its link when it has one. *)
Definition file_link (file : jstring) : option jstring := if ends_with ".pdf" file then Some pdf else None.
Definition files (l : Locale) : list (jstring * option jstring) :=
  map (λ f, (text_of f, file_link (text_of f))) (jitems (fld "files" (fld "evidence" (getCopy l)))).

(** The two copy buttons share one mark; each copy that succeeds starts a timer of
    two seconds that clears it. *)
Inductive Which := Pack | Demo.
Definition state : Type := option Which.
Inductive Ev := CopyCmd (k : Which).
Inductive Req := Clipboard (k : Which) | Timer.
Inductive Rsp := Done | Refused.
Definition text (l : Locale) (k : Which) : jstring :=
  text_of (fld (match k with Pack => "fullPackCmd" | Demo => "demoCmd" end) (fld "evidence" (getCopy l))).
Definition on_event (ev : Ev) (s : state) : state * list Req := let '(CopyCmd k) := ev in (s, [Clipboard k]).
Definition on_response (q : Req) (r : Rsp) (s : state) : state * list Req :=
  match q, r with
  | Clipboard k, Done => (Some k, [Timer])
  | Clipboard _, Refused => (s, [])
  | Timer, _ => (None, [])
  end.
End EvidencePack.

(** ** Merged packages (PackageMergeSection.tsx) *)
Module PackageMerge.
Definition COLOR : list jstring := ["text-neon border-neon/30"; "text-turq border-turq/30"; "text-cyan border-cyan/30"].
Record Card := { company : jstring; colour : option jstring; number : jstring; name : jstring; replaces : jstring; body : jstring; metrics : list Item }.
Definition card (i : nat) (p : json) : Card :=
  {| company := text_of (fld "company" p); colour := COLOR !! i; number := "PAKET 0" ++ dec (Z.of_nat i + 1); name := text_of (fld "name" p);
     replaces := text_of (fld "replaces" p); body := text_of (fld "body" p); metrics := plain (fld "metrics" p) |}.
Definition cards (l : Locale) : list Card := imap card (jitems (fld "merge" (getSections l))).
End PackageMerge.

(** ** Packages page (app/paketler/page.tsx); it is in one language *)
Module Paketler.
Definition COLOR : list (jstring * jstring) :=
  [("neon", "border-neon/40 text-neon"); ("turq", "border-turq/40 text-turq"); ("cyan", "border-cyan/40 text-cyan")].
Definition figures : list Item := fields "l" ["v"; "l"] (fld "big" (fld "result" PACKAGES)).
(** A card's colour is looked up by name. *)
Definition merge : list (Item * option jstring * list Item) :=
  map (λ p, ({| key := text_of (fld "name" p); shown := ["PAKET " ++ text_of (fld "n" p); text_of (fld "name" p); "Yerine geçer: " ++ text_of (fld "replaces" p); text_of (fld "body" p)] |},
             assoc (text_of (fld "color" p)) COLOR, plain (fld "metrics" p)))
    (jitems (fld "merge" PACKAGES)).
Definition result_bullets : list Item := plain (fld "bullets" (fld "result" PACKAGES)).
Definition tier_cards : list (Item * list Item) :=
  map (λ t, ({| key := text_of (fld "tag" t); shown := map (λ k, text_of (fld k t)) ["tag"; "time"; "body"] |}, plain (fld "includes" t)))
    (jitems (fld "items" (fld "tiers" PACKAGES))).
Definition strengths : list Item := fields "title" ["stat"; "title"; "body"] (fld "strengths" PACKAGES).
Definition links : list (jstring * jstring) := [("/#kurulum", "15 dk kurulum"); ("/testler", dec PROOF_TEST_COUNT ++ " testi gör")].
End Paketler.

(** ** About, reasons, limits, sectors, ticker, contact *)
Module Sections.
(** AboutSection.tsx: a paragraph's key is its first 24 units. *)
Definition paragraphs (l : Locale) : list Item :=
  list_by (λ p, JStr (slice 0 24 (text_of p))) (λ p, [p]) (fld "about_paragraphs" (getSections l)).
Definition highlights (l : Locale) : list Item := fields "k" ["k"; "v"] (fld "about_highlights" (getSections l)).
(** WhySection.tsx *)
Definition padStart2 (n : jstring) : jstring := repeat 48 (2 - length n) ++ n.
Definition why_cards (l : Locale) : list Item :=
  imap (λ i c, {| key := text_of (fld "title" c); shown := [padStart2 (dec (Z.of_nat i + 1)); text_of (fld "title" c); text_of (fld "body" c)] |})
    (jitems (fld "why_cards" (getSections l))).
Definition stats (l : Locale) : list Item := fields "label" ["value"; "label"] (fld "stats" (getSections l)).
(** HonestLimits.tsx *)
Definition limits (l : Locale) : list Item := plain (fld "items" (fld "honest" (getCopy l))).
Definition layers (l : Locale) : list Item :=
  imap (λ i y, {| key := text_of (fld "tag" y); shown := ["0" ++ dec (Z.of_nat i + 1); text_of (fld "tag" y); text_of (fld "body" y)] |})
    (jitems (fld "layers" (fld "honest" (getCopy l)))).
(** SectorUseCases.tsx *)
Definition sector_cards (l : Locale) : list Item := fields "tag" ["tag"; "title"; "body"; "proof"] (fld "cards" (getSectorCopy l)).
Definition sector_links (l : Locale) : list (jstring * jstring) :=
  let tr := match l with Ltr => true | _ => false end in
  [("/evidence/competitive-proof.pdf", if tr then "Rakip karşılaştırma PDF" else "Competitive proof PDF");
   ("/testler", dec PROOF_TEST_COUNT ++ " " ++ (if tr then "test" else "tests") ++ " →")].
(** StatsMarquee.tsx: the items twice, so that the ticker has no seam. *)
Definition doubled (l : Locale) : list Item :=
  let items := jitems (fld "marquee" (getCopy l)) in
  imap (λ i x, {| key := text_of x ++ "-" ++ dec (Z.of_nat i); shown := [text_of x] |}) (items ++ items).
(** Contact.tsx *)
Definition contact_links (l : Locale) : list (jstring * jstring) :=
  let c := fld "contact" (getCopy l) in
  let mail := "mailto:" ++ text_of (fld "email" c) in
  [(mail, text_of (fld "ctaEmail" c)); (text_of (fld "github" c), text_of (fld "ctaGithub" c)); (mail, text_of (fld "email" c))].
End Sections.

(** ** Theorems *)

(** The lists drawn in a language, and those of the packages page. *)
Definition drawn (l : Locale) : list (list Item) :=
  [Hero.bullets l; Hero.chips l; Hero.praise l; Hero.highlights l; Hero.command_lines; Sections.paragraphs l; Sections.highlights l;
   Sections.why_cards l; Sections.stats l; Sections.limits l; Sections.layers l; Sections.sector_cards l; Sections.doubled l] ++
  map PackageMerge.metrics (PackageMerge.cards l) ++
  [Paketler.figures; map (λ c, c.1.1) Paketler.merge; Paketler.result_bullets; map fst Paketler.tier_cards; Paketler.strengths] ++
  map snd Paketler.merge ++ map snd Paketler.tier_cards.
Definition drawable (items : list Item) : bool :=
  bool_decide (NoDup (map key items)) && negb (bool_decide (map key items = [])) && forallb (λ x, forallb nonempty (shown x)) items.
Lemma all_drawable : forallb (λ l, forallb drawable (drawn l)) locales = true.
Proof. vm_compute. reflexivity. Qed.

(** In every language each list of these sections and of the packages page can be
    drawn: it has elements, no two of them share a key (so a change of language
    replaces the right ones) and none shows an empty text. *)
Theorem lists_keyed l items : items ∈ drawn l →
  NoDup (map key items) ∧ items ≠ [] ∧ ∀ x t, x ∈ items → t ∈ shown x → t ≠ [].
Proof.
  intros Hi. pose proof all_drawable as H. rewrite forallb_forall in H. specialize (H l (proj1 (list_elem_of_In _ _) (in_locales l))).
  rewrite forallb_forall in H. specialize (H items (proj1 (list_elem_of_In _ _) Hi)). unfold drawable in H.
  apply andb_true_iff in H as [H Hs]. apply andb_true_iff in H as [Hk Hn]. apply bool_decide_eq_true in Hk. split; [done|]. split; [by intros ->|].
  intros x t Hx Ht ->. rewrite forallb_forall in Hs. specialize (Hs x (proj1 (list_elem_of_In _ _) Hx)). rewrite forallb_forall in Hs.
  by specialize (Hs [] (proj1 (list_elem_of_In _ _) Ht)).
Qed.
Lemma lists_keyed_witness : NoDup (map key (Sections.paragraphs Ltr)) ∧ Sections.paragraphs Ltr ≠ [].
Proof.
  destruct (lists_keyed Ltr (Sections.paragraphs Ltr)) as (H1 & H2 & _); [|by split].
  unfold drawn. apply elem_of_app. left. do 5 right. left.
Defined.

Definition merge_ok (l : Locale) : bool :=
  (length (PackageMerge.cards l) =? 3)%nat && bool_decide (map PackageMerge.colour (PackageMerge.cards l) = map Some PackageMerge.COLOR) &&
  bool_decide (NoDup (map PackageMerge.company (PackageMerge.cards l))).
Lemma merges_ok : forallb merge_ok locales = true. Proof. vm_compute. reflexivity. Qed.
(** The section announces three packages and shows three in every language, each of
    its own company and with its own colour; the packages page has a colour for each
    of its cards too. *)
Theorem three_packages l :
  map PackageMerge.colour (PackageMerge.cards l) = map Some PackageMerge.COLOR ∧
  NoDup (map PackageMerge.company (PackageMerge.cards l)) ∧
  map PackageMerge.number (PackageMerge.cards l) = ["PAKET 01"; "PAKET 02"; "PAKET 03"] ∧
  Forall (λ c, is_Some c.1.2) Paketler.merge.
Proof.
  pose proof merges_ok as H. rewrite forallb_forall in H. specialize (H l (proj1 (list_elem_of_In _ _) (in_locales l))). unfold merge_ok in H.
  apply andb_true_iff in H as [H Hc]. apply andb_true_iff in H as [Hl Hk]. apply bool_decide_eq_true in Hk, Hc. apply Nat.eqb_eq in Hl.
  split; [done|]. split; [done|]. split.
  - unfold PackageMerge.cards in *. rewrite length_imap in Hl.
    destruct (jitems _) as [|a [|b [|c []]]]; try done.
  - repeat constructor; vm_compute; eauto.
Qed.

Definition files_ok (l : Locale) : bool :=
  (length (EvidencePack.files l) =? 14)%nat && bool_decide (NoDup (map fst (EvidencePack.files l))) &&
  forallb (λ f, match f.2 with Some h => h =s "/evidence/" ++ f.1 | None => true end) (EvidencePack.files l).
Lemma all_files_ok : forallb files_ok locales = true. Proof. vm_compute. reflexivity. Qed.
(** In every language the evidence pack shows the fourteen files it announces, each
    once, and a file that is a link leads to the file it names. *)
Theorem evidence_links l :
  length (EvidencePack.files l) = 14%nat ∧ NoDup (map fst (EvidencePack.files l)) ∧
  ∀ f h, (f, Some h) ∈ EvidencePack.files l → h = "/evidence/" ++ f.
Proof.
  pose proof all_files_ok as H. rewrite forallb_forall in H. specialize (H l (proj1 (list_elem_of_In _ _) (in_locales l))). unfold files_ok in H.
  apply andb_true_iff in H as [H Hf]. apply andb_true_iff in H as [Hl Hk]. apply bool_decide_eq_true in Hk. apply Nat.eqb_eq in Hl.
  split; [done|]. split; [done|]. intros f h Hin. rewrite forallb_forall in Hf. specialize (Hf _ (proj1 (list_elem_of_In _ _) Hin)).
  by apply jeq_true in Hf.
Qed.

(** A copy soon after another loses its mark early: the first timer clears it while
    its own is still running. *)
Lemma mark_cleared_early :
  play EvidencePack.on_event EvidencePack.on_response
    [Do (EvidencePack.CopyCmd EvidencePack.Pack); Answer 0 EvidencePack.Done; Do (EvidencePack.CopyCmd EvidencePack.Demo);
     Answer 1 EvidencePack.Done; Answer 0 EvidencePack.Done] (Cfg None []) = Some (Cfg None [EvidencePack.Timer]).
Proof. done. Qed.
