(* ===== verification/LandingEffects.v ===== *)
(** The landing site's sound and text effects (landing/context/AudioKernelContext.tsx,
    landing/components/ui/AudioToggle.tsx, Preloader.tsx, Counter.tsx and
    landing/hooks/useGlitchText.ts).  The synthesizer's sounds are the parameter
    changes it schedules; the provider is a machine over its references, the video
    players and the volume fade.  The host's audio context, the video player and
    [Math.sin] are outside: their answers are events of the machine or parameters. *)

From S2P Require Import Prelude JsString JsNum Json JsValue Client.

(** ** The synthesizer (class AudioSynth) *)

Module AudioSynth.
(** Times are in milliseconds from the start of the sound, gains in ten-thousandths,
    frequencies in hertz. *)
Inductive Wave := Sine | Square | Sawtooth.
(** [p.setValueAtTime(v, t)] (and [p.value = v], at the start) and
    [p.exponentialRampToValueAtTime(v, t)] *)
Inductive Change (A : Type) := Set_ (v : A) (at_ : Z) | Ramp (v : A) (at_ : Z).
Arguments Set_ {A} v at_. Arguments Ramp {A} v at_.
Inductive Filter := HighPass (f : list (Change Z)) | LowPass (f : list (Change Z)).
Record Voice := { wave : Wave; frequency : list (Change num); detune : Z; filter : option Filter; gain : list (Change Z); stop : Z }.
Definition hz (z : Z) : num := num_of_Z z.

Definition hover : list Voice :=
  [{| wave := Sine; frequency := [Set_ (hz 880) 0; Ramp (hz 1760) 60]; detune := 0; filter := None;
      gain := [Set_ 1 0; Ramp 900 10; Ramp 1 120]; stop := 140 |}].
(** [rnd] is the drawn number. *)
Definition type (rnd : num) : list Voice :=
  [{| wave := Square; frequency := [Set_ (nadd (hz 1200) (nmul rnd (hz 500))) 0]; detune := 0; filter := None;
      gain := [Set_ 400 0; Ramp 1 40]; stop := 50 |}].
Definition click : list Voice :=
  [{| wave := Square; frequency := [Set_ (hz 140) 0; Ramp (hz 46) 180]; detune := 0; filter := None;
      gain := [Set_ 2800 0; Ramp 1 220]; stop := 240 |};
   {| wave := Sawtooth; frequency := [Set_ (hz 2600) 0; Ramp (hz 600) 80]; detune := 0; filter := Some (HighPass [Set_ 2000 0]);
      gain := [Set_ 1200 0; Ramp 1 100]; stop := 120 |}].
Definition warp : list Voice :=
  [{| wave := Sawtooth; frequency := [Set_ (hz 1400) 0; Ramp (hz 60) 600]; detune := 0;
      filter := Some (LowPass [Set_ 6000 0; Ramp 300 550]); gain := [Set_ 1 0; Ramp 1600 50; Ramp 1 650]; stop := 700 |}].
Definition error : list Voice :=
  imap (λ i d, {| wave := Square; frequency := [Set_ (hz 220) 0]; detune := d + (if (i =? 0)%nat then -6 else 6); filter := None;
                  gain := [Set_ 1 0; Ramp 1000 20; Set_ 1000 120; Ramp 1 160; Ramp 1000 240; Ramp 1 360]; stop := 380 |}) [0; 7].

Inductive Sfx := Hover | Click | Warp | Error | Type_.
Definition sound (s : Sfx) (rnd : num) : list Voice :=
  match s with Hover => hover | Click => click | Warp => warp | Error => error | Type_ => type rnd end.
(** A click and a warp also pulse the shared beat. *)
Definition beats (s : Sfx) : bool := match s with Click | Warp => true | _ => false end.

(** What the audio interface asks of scheduled changes: they are in order, they begin
    with a value, and a ramp starts and ends above zero. *)
Definition at_of {A} (c : Change A) : Z := match c with Set_ _ t | Ramp _ t => t end.
Definition value_of {A} (c : Change A) : A := match c with Set_ v _ | Ramp v _ => v end.
Fixpoint in_order (now : Z) (l : list (Change Z)) : bool :=
  match l with [] => true | c :: l => (now <=? at_of c) && (0 <? value_of c) && in_order (at_of c) l end.
Definition playable (v : Voice) : bool :=
  match gain v with Set_ _ 0 :: _ => true | _ => false end && in_order 0 (gain v) &&
  match List.last (gain v) (Set_ 0 0) with Ramp 1 t => t <? stop v | _ => false end.
End AudioSynth.

(** ** The provider *)

Module AudioKernel.
Section kernel.
(** The volume of a new player, as the player reports it. *)
Context (v0 : num).

Record Player := { vol : num; playing : bool }.
Record Fade := { f_player : nat; f_target : num; f_from : num; f_steps : Z; f_i : Z }.
(** [players] are those created, [playerRef] the one referred to.  [loops] are the
    analysis loops that run, each with the [started] its closure captured. *)
Record state := {
  synth : option num;          (* synthRef: the gain of its master *)
  contexts : nat;              (* audio contexts created and not closed *)
  players : list Player; playerRef : option nat;
  fade : option Fade; loops : list bool;
  ready : bool; started : bool; muted : bool; volume : num;
  api : bool;                  (* window.YT is there *)
  hooked : bool;               (* onYouTubeIframeAPIReady is set *)
}.
Definition start : state :=
  {| synth := None; contexts := 0; players := []; playerRef := None; fade := None; loops := []; ready := false; started := false;
     muted := false; volume := num_of_decimal false 55 (-2); api := false; hooked := false |}.

(** State updates. *)
Definition set_synth g (s : state) := {| synth := g; contexts := contexts s; players := players s; playerRef := playerRef s; fade := fade s; loops := loops s; ready := ready s; started := started s; muted := muted s; volume := volume s; api := api s; hooked := hooked s |}.
Definition set_contexts n (s : state) := {| synth := synth s; contexts := n; players := players s; playerRef := playerRef s; fade := fade s; loops := loops s; ready := ready s; started := started s; muted := muted s; volume := volume s; api := api s; hooked := hooked s |}.
Definition set_players l r (s : state) := {| synth := synth s; contexts := contexts s; players := l; playerRef := r; fade := fade s; loops := loops s; ready := ready s; started := started s; muted := muted s; volume := volume s; api := api s; hooked := hooked s |}.
Definition set_fade f (s : state) := {| synth := synth s; contexts := contexts s; players := players s; playerRef := playerRef s; fade := f; loops := loops s; ready := ready s; started := started s; muted := muted s; volume := volume s; api := api s; hooked := hooked s |}.
Definition set_loops l (s : state) := {| synth := synth s; contexts := contexts s; players := players s; playerRef := playerRef s; fade := fade s; loops := l; ready := ready s; started := started s; muted := muted s; volume := volume s; api := api s; hooked := hooked s |}.
Definition set_flags r st m (s : state) := {| synth := synth s; contexts := contexts s; players := players s; playerRef := playerRef s; fade := fade s; loops := loops s; ready := r; started := st; muted := m; volume := volume s; api := api s; hooked := hooked s |}.
Definition set_vol v (s : state) := {| synth := synth s; contexts := contexts s; players := players s; playerRef := playerRef s; fade := fade s; loops := loops s; ready := ready s; started := started s; muted := muted s; volume := v; api := api s; hooked := hooked s |}.
Definition set_api a h (s : state) := {| synth := synth s; contexts := contexts s; players := players s; playerRef := playerRef s; fade := fade s; loops := loops s; ready := ready s; started := started s; muted := muted s; volume := volume s; api := a; hooked := h |}.
Definition player_vol (k : nat) (v : num) (s : state) : state :=
  set_players (alter (λ p, {| vol := v; playing := playing p |}) k (players s)) (playerRef s) s.
Definition master : num := num_of_decimal false 6 (-1).

(** [Math.round(volumeRef.current * 100)] *)
Definition percent (v : num) : num := nround (nmul v (num_of_Z 100)).
Definition steps_of (ms : Z) : Z := Z.max 1 ((ms + 20) / 40).
Definition fadeTo (target : num) (ms : Z) (s : state) : state :=
  match playerRef s with
  | None => s
  | Some k => set_fade (Some {| f_player := k; f_target := target;
                                f_from := match players s !! k with Some p => vol p | None => nzero end;
                                f_steps := steps_of ms; f_i := 0 |}) s
  end.
(** One tick of the interval. *)
Definition eased (i steps : Z) : num :=
  let p := ndiv (num_of_Z i) (num_of_Z steps) in nmul (nmul p p) (nsub (num_of_Z 3) (nmul (num_of_Z 2) p)).
Definition faded (f : Fade) (i : Z) : num := nround (nadd (f_from f) (nmul (nsub (f_target f) (f_from f)) (eased i (f_steps f)))).
Definition tick (s : state) : state :=
  match fade s with
  | None => s
  | Some f =>
      let i := f_i f + 1 in
      let s := player_vol (f_player f) (faded f i) s in
      set_fade (if f_steps f <=? i then None
                else Some {| f_player := f_player f; f_target := f_target f; f_from := f_from f; f_steps := f_steps f; f_i := i |}) s
  end.

(** [create]: a new player, which will report that it is ready. *)
Inductive Req := Resume (captured : bool) | Ready (k : nat).
Inductive Rsp := Fine | Refused.
Definition create (s : state) : state * list Req :=
  if api s then (set_players (players s ++ [{| vol := v0; playing := false |}]) (Some (length (players s))) s, [Ready (length (players s))])
  else (s, []).
Definition bootYouTube (s : state) : state * list Req := if api s then create s else (set_api false true s, []).

(** [Initialize ok]: the gesture, and whether the host has an audio context. *)
Inductive Ev := Initialize (ok : bool) | ToggleMute | SetVolume (v : num) | Tick | ApiLoaded | Unmount.
Definition clamp (v : num) : num := nmin (num_of_Z 1) (nmax nzero v).
Definition toggleMute (s : state) : state :=
  let next := negb (muted s) in
  let s1 := fadeTo (if next then nzero else percent (volume s)) 400 s in
  let s2 := set_synth (match synth s with Some _ => Some (if next then nzero else master) | None => None end) s1 in
  set_flags (ready s) (started s) next s2.
Definition setVolume (v : num) (s : state) : state :=
  let s1 := set_vol (clamp v) s in
  if muted s then s1 else match playerRef s with Some k => player_vol k (percent (clamp v)) s1 | None => s1 end.
Definition on_event (ev : Ev) (s : state) : state * list Req :=
  match ev with
  | Initialize ok =>
      match synth s with
      | Some _ => (s, [])
      | None => if ok then (set_contexts (S (contexts s)) s, [Resume (started s)]) else (set_flags (ready s) true (muted s) s, [])
      end
  | ToggleMute => (toggleMute s, [])
  | SetVolume v => (setVolume v s, [])
  | Tick => (tick s, [])
  | ApiLoaded => let s := set_api true (hooked s) s in if hooked s then create s else (s, [])
  | Unmount =>
      (** Only the frame scheduled last is cancelled, and only the synthesizer referred to is closed. *)
      let s1 := set_loops (take (length (loops s) - 1) (loops s)) (set_fade None s) in
      let s2 := match synth s with Some _ => set_contexts (contexts s - 1) (set_synth None s1) | None => s1 end in
      (match playerRef s with
       | Some k => set_players (alter (λ p, {| vol := vol p; playing := false |}) k (players s)) (playerRef s) s2
       | None => s2
       end, [])
  end.
Definition on_response (q : Req) (r : Rsp) (s : state) : state * list Req :=
  match q, r with
  | Resume captured, Fine =>
      bootYouTube (set_loops (loops s ++ [captured]) (set_flags true true (muted s) (set_synth (Some master) s)))
  | Resume _, Refused => (set_flags (ready s) true (muted s) s, [])
  | Ready k, _ =>
      let s1 := set_players (alter (λ _, {| vol := nzero; playing := true |}) k (players s)) (playerRef s) s in
      (fadeTo (percent (volume s)) 2500 s1, [])
  end.

(** The sounds a component may ask for. *)
Definition play (x : AudioSynth.Sfx) (rnd : num) (s : state) : list AudioSynth.Voice :=
  match synth s with Some _ => if muted s then [] else AudioSynth.sound x rnd | None => [] end.
End kernel.

(** *** The analysis loop *)

Section frame.
Context (sin : num → num).
Record Audio := { level : num; bass : num; treble : num; beat : num }.
Definition bins : nat := 256.
Definition bassEnd : nat := 30.
Definition trebleStart : nat := 153.
Definition one : num := num_of_Z 1.
Definition half : num := num_of_decimal false 5 (-1).
Definition d (m e : Z) : num := num_of_decimal false m e.
(** The mean of a band, in the unit interval. *)
Definition band (l : list Z) (n : Z) : num := ndiv (num_of_Z (fold_left Z.add l 0)) (num_of_Z (n * 255)).
Definition musical (captured muted : bool) (t : num) : num :=
  if captured && negb muted
  then nadd (nmul (nadd half (nmul half (sin (nmul t (d 9 (-1)))))) (d 35 (-2)))
            (nmul (nadd half (nmul half (sin (nadd (nmul t (d 23 (-1))) (d 17 (-1)))))) (d 15 (-2)))
  else nzero.
Definition frame (captured muted : bool) (freq : list Z) (now : num) (a : Audio) : Audio :=
  let m := musical captured muted (nmul now (d 1 (-3))) in
  {| level := nmin one (nadd (nmul (band freq (Z.of_nat bins)) (d 16 (-1))) m);
     bass := nmin one (nadd (nmul (band (take bassEnd freq) (Z.of_nat bassEnd)) (d 19 (-1))) (nmul m (d 8 (-1))));
     treble := nmin one (nmul (band (drop trebleStart freq) (Z.of_nat (bins - trebleStart))) (d 22 (-1)));
     beat := nmul (beat a) (d 86 (-2)) |}.
End frame.
End AudioKernel.

(** ** The sound button (AudioToggle.tsx) *)

Module AudioToggle.
(** What the button reads of the kernel; outside the provider [useAudioKernel] gives a
    kernel that never starts and whose operations do nothing. *)
Record Kernel := { started : bool; muted : bool }.
Definition fallback : Kernel := {| started := false; muted := false |}.
Record state := { kernel : Kernel; busy : bool }.
Definition playing (k : Kernel) : bool := started k && negb (muted k).
Inductive Req := Initialize.
(** A click, with what the kernel's [toggleMute] does. *)
Definition onClick (toggle : Kernel → Kernel) (s : state) : state * list Req :=
  if started (kernel s) then ({| kernel := toggle (kernel s); busy := busy s |}, []) else ({| kernel := kernel s; busy := true |}, [Initialize]).
(** The end of [initialize], with the kernel it leaves. *)
Definition initialized (init : Kernel → Kernel) (s : state) : state * list Req := ({| kernel := init (kernel s); busy := false |}, []).
Definition aria (k : Kernel) : jstring := if playing k then "Sesi kapat" else "Ambient müziği aç".
Definition label (k : Kernel) : jstring := if playing k then "Ambient · açık" else "Ambient · kapalı".
Inductive Icon := Bars | Spinner | Off | On.
Definition icon (s : state) : Icon := if playing (kernel s) then Bars else if busy s then Spinner else if muted (kernel s) then Off else On.
End AudioToggle.

(** ** Counting up (Preloader.tsx, Counter.tsx) *)

Section ease.
(** [Math.pow] *)
Context (pow : num → num → num).
(** The share of the time that has passed, and [1 - Math.pow(1 - p, 3)]. *)
Definition share (elapsed duration : num) : num := nmin (num_of_Z 1) (ndiv elapsed duration).
Definition ease (p : num) : num := nsub (num_of_Z 1) (pow (nsub (num_of_Z 1) p) (num_of_Z 3)).

(** Preloader: a frame sets the percentage; the frame that reaches the end starts the
    timer that hides the screen. *)
Definition dur : num := num_of_Z 1300.
Definition pct (elapsed : num) : num := nround (nmul (ease (share elapsed dur)) (num_of_Z 100)).
Definition again (elapsed : num) : bool := nlt (share elapsed dur) (num_of_Z 1).
(** Counter: the value of a frame, and whether another one follows. *)
Definition counted (to duration elapsed : num) : num := nround (nmul to (ease (share elapsed (nmul duration (num_of_Z 1000))))).
Definition counting (duration elapsed : num) : bool := nlt (share elapsed (nmul duration (num_of_Z 1000))) (num_of_Z 1).
End ease.

(** ** Text that decrypts itself (hooks/useGlitchText.ts) *)

Module GlitchText.
Definition GLITCH_CHARS : list jstring := map (λ u, [u]) ("ABCDEFGHIJKLMNOPQRSTUVWXYZ0123456789İIŞĞÜÇÖşğüçöı#%&/<>*+=:" : jstring).
Definition duration (total : nat) : Z := 650 + Z.of_nat total * 32.
(** One frame; [draw i] is the index drawn for the [i]-th character. *)
Definition glyph (draw : nat → nat) (revealed i : nat) (ch : jstring) : jstring :=
  if ch =s " " then " " else if (i <? revealed)%nat then ch else GLITCH_CHARS !! draw i ?? [].
Definition out (draw : nat → nat) (revealed : nat) (text : jstring) : list jstring := imap (glyph draw revealed) (code_points text).
(** [Math.floor(p * total)] *)
Definition revealed (p : num) (total : nat) : nat :=
  match nfloor (nmul p (num_of_Z (Z.of_nat total))) with Some z => Z.to_nat z | None => 0 end.
(** What is shown after a frame, and whether another one follows. *)
Definition frame (draw : nat → nat) (text : jstring) (elapsed : num) : jstring * bool :=
  let total := length (code_points text) in
  let p := share elapsed (num_of_Z (duration total)) in
  if nlt p (num_of_Z 1) then (concat (out draw (revealed p total) text), true) else (text, false).
End GlitchText.

(** ** Theorems *)

(** Every sound can be scheduled: its changes are in order and never ramp from or to
    zero, which the audio interface refuses, and every voice has faded out before its
    oscillator stops. *)
Theorem sounds_playable x rnd : Forall (λ v, AudioSynth.playable v = true) (AudioSynth.sound x rnd).
Proof. destruct x; repeat constructor. Qed.

(** A number of the unit interval. *)
Definition in_unit (v : num) : Prop := nle nzero v = true ∧ nle v (num_of_Z 1) = true.
Lemma clamp_unit v : is_nan v = false → in_unit (AudioKernel.clamp v).
Proof.
  intros Hv. unfold AudioKernel.clamp, nmin, nmax, in_unit. rewrite Hv. cbn [is_nan orb].
  change (is_nan nzero) with false. cbn [orb].
  assert (Hr : ∀ z, is_nan z = false → nle z z = true).
  { intros [[]|[]| |[] m e] Hz; try done; unfold nle, SFleb, SFcompare; rewrite Z.compare_refl, Pos.compare_refl; done. }
  assert (Hlt : ∀ x y, nlt x y = true → nle x y = true)
    by (intros x y; unfold nlt, SFltb, nle, SFleb; by destruct (SFcompare x y) as [[]|]).
  destruct (nlt nzero v) eqn:E0.
  - rewrite Hv. change (is_nan (num_of_Z 1)) with false. cbn [orb].
    destruct (nlt v (num_of_Z 1)) eqn:E1; [auto|]. split; vm_compute; done.
  - change (is_nan (num_of_Z 1)) with false. cbn. by destruct v as [[]|[]| |[] m e].
Qed.
(** The volume of the kernel stays between silence and full, whatever the controls
    are set to, in any order with the answers of the host (a control that is not a
    number apart). *)
Theorem volume_bounded v0 c :
  page_reach (AudioKernel.on_event v0) (AudioKernel.on_response v0) (Cfg AudioKernel.start []) c →
  in_unit (AudioKernel.volume (current c)) ∨ is_nan (AudioKernel.volume (current c)) = true.
Proof.
  intros Hr. refine (page_invariant _ _ (λ c, in_unit (AudioKernel.volume (current c)) ∨ is_nan (AudioKernel.volume (current c)) = true) _ c _ _ _ Hr).
  - left. by split.
  - intros [s p] ev s' reqs IH He. cbn [current] in *. unfold AudioKernel.on_event, AudioKernel.create, AudioKernel.toggleMute, AudioKernel.tick, AudioKernel.fadeTo in He.
    destruct ev as [ok| |v| | |]; try (assert (Hs : AudioKernel.volume s' = AudioKernel.volume s) by (repeat split_match; by simplify_eq); by rewrite Hs).
    unfold AudioKernel.setVolume in He. assert (Hs : AudioKernel.volume s' = AudioKernel.clamp v) by (repeat (split_match; simplify_eq; try done)).
    rewrite Hs. destruct (is_nan v) eqn:En; [right|left; by apply clamp_unit].
    unfold AudioKernel.clamp, nmin, nmax. by rewrite En.
  - intros [s p] i q r s' reqs IH Hi He. cbn [current] in *.
    unfold AudioKernel.on_response, AudioKernel.bootYouTube, AudioKernel.create, AudioKernel.fadeTo in He.
    assert (Hs : AudioKernel.volume s' = AudioKernel.volume s) by (destruct q, r; repeat split_match; by simplify_eq). by rewrite Hs.
Qed.

Lemma volume_bounded_witness :
  ∃ c : config AudioKernel.state AudioKernel.Req, in_unit (AudioKernel.volume (current c)) ∨ is_nan (AudioKernel.volume (current c)) = true.
Proof.
  set (v0 := num_of_Z 100).
  destruct (play (AudioKernel.on_event v0) (AudioKernel.on_response v0)
              [Do (AudioKernel.Initialize true); Do (AudioKernel.SetVolume (num_of_Z 3)); Answer 0 AudioKernel.Fine]
              (Cfg AudioKernel.start [])) as [c|] eqn:E; [|by vm_compute in E].
  exists c. apply (volume_bounded v0). eapply play_reach; [exact E|apply reach_start].
Defined.

(** *** A fade ends at its target *)

Lemma tick_run n s f : AudioKernel.fade s = Some f → AudioKernel.f_i f + Z.of_nat n < AudioKernel.f_steps f →
  let s' := Nat.iter n AudioKernel.tick s in
  AudioKernel.fade s' = Some {| AudioKernel.f_player := AudioKernel.f_player f; AudioKernel.f_target := AudioKernel.f_target f;
    AudioKernel.f_from := AudioKernel.f_from f; AudioKernel.f_steps := AudioKernel.f_steps f; AudioKernel.f_i := AudioKernel.f_i f + Z.of_nat n |} ∧
  length (AudioKernel.players s') = length (AudioKernel.players s).
Proof.
  intros Hf. induction n as [|n IH]; intros Hlt; cbv zeta.
  - cbn. rewrite Hf, Z.add_0_r. by destruct f.
  - destruct IH as [IHf IHl]; [lia|]. rewrite Nat.iter_succ. unfold AudioKernel.tick at 1 3. rewrite IHf.
    cbn [AudioKernel.f_i AudioKernel.f_steps AudioKernel.f_player AudioKernel.f_target AudioKernel.f_from].
    destruct (_ <=? _) eqn:E; [apply Z.leb_le in E; lia|]. cbn. rewrite length_alter. split; [|done]. do 2 f_equal. lia.
Qed.
Lemma eased_one steps : steps ∈ [10; 63] → AudioKernel.eased steps steps = num_of_Z 1.
Proof. rewrite !elem_of_cons, elem_of_nil. intros [->|[->|[]]]; by vm_compute. Qed.
Definition percents : list Z := map Z.of_nat (seq 0 101).
Lemma lands_on : forallb (λ a, forallb (λ b,
    bool_decide (nround (nadd (num_of_Z a) (nmul (nsub (num_of_Z b) (num_of_Z a)) (num_of_Z 1))) = num_of_Z b)) percents) percents = true.
Proof. vm_compute. reflexivity. Qed.
Lemma in_percents a : 0 ≤ a ≤ 100 → In a percents.
Proof. intros Ha. unfold percents. apply in_map_iff. exists (Z.to_nat a). rewrite in_seq. lia. Qed.

(** A fade that nothing interrupts ends: after its last tick its timer is gone and the
    player has the volume it was to reach, from every volume to every other one, for
    both lengths the kernel uses. *)
Theorem fade_arrives s k p a b ms :
  AudioKernel.playerRef s = Some k → AudioKernel.players s !! k = Some p → AudioKernel.vol p = num_of_Z a →
  0 ≤ a ≤ 100 → 0 ≤ b ≤ 100 → ms ∈ [400; 2500] →
  let s' := Nat.iter (Z.to_nat (AudioKernel.steps_of ms)) AudioKernel.tick (AudioKernel.fadeTo (num_of_Z b) ms s) in
  AudioKernel.fade s' = None ∧ AudioKernel.vol <$> AudioKernel.players s' !! k = Some (num_of_Z b).
Proof.
  intros Hr Hp Hv Ha Hb Hms. cbv zeta.
  set (s0 := AudioKernel.fadeTo (num_of_Z b) ms s).
  set (f := {| AudioKernel.f_player := k; AudioKernel.f_target := num_of_Z b; AudioKernel.f_from := num_of_Z a;
               AudioKernel.f_steps := AudioKernel.steps_of ms; AudioKernel.f_i := 0 |}).
  assert (Hf : AudioKernel.fade s0 = Some f) by (unfold s0, AudioKernel.fadeTo; by rewrite Hr, Hp, Hv).
  assert (Hl : length (AudioKernel.players s0) = length (AudioKernel.players s)) by (unfold s0, AudioKernel.fadeTo; by rewrite Hr).
  assert (Hst : AudioKernel.steps_of ms ∈ [10; 63]).
  { rewrite !elem_of_cons, elem_of_nil in Hms. destruct Hms as [->|[->|[]]]; [by left|by right; left]. }
  assert (Hpos : 0 < AudioKernel.steps_of ms) by (rewrite !elem_of_cons, elem_of_nil in Hst; lia).
  destruct (tick_run (Z.to_nat (AudioKernel.steps_of ms) - 1) s0 f Hf) as [H1 H2]; [cbn; lia|].
  replace (Z.to_nat (AudioKernel.steps_of ms)) with (S (Z.to_nat (AudioKernel.steps_of ms) - 1)) by lia.
  rewrite Nat.iter_succ. set (s1 := Nat.iter _ _ s0) in *. unfold AudioKernel.tick. rewrite H1.
  cbn [AudioKernel.f_i AudioKernel.f_steps AudioKernel.f_player AudioKernel.f_target AudioKernel.f_from f].
  replace (0 + Z.of_nat (Z.to_nat (AudioKernel.steps_of ms) - 1) + 1) with (AudioKernel.steps_of ms) by lia.
  rewrite Z.leb_refl. split; [done|]. cbn.
  assert (Hk : (k < length (AudioKernel.players s1))%nat) by (rewrite H2, Hl; by apply lookup_lt_Some in Hp).
  apply lookup_lt_is_Some in Hk as [p1 Hp1]. rewrite list_lookup_alter_eq, Hp1. cbn. f_equal.
  unfold AudioKernel.faded. cbn. rewrite eased_one by done.
  pose proof lands_on as Ht. rewrite forallb_forall in Ht. specialize (Ht a (in_percents a Ha)).
  rewrite forallb_forall in Ht. specialize (Ht b (in_percents b Hb)). by apply bool_decide_eq_true in Ht.
Qed.

Lemma fade_arrives_witness :
  let s := AudioKernel.set_players [{| AudioKernel.vol := num_of_Z 55; AudioKernel.playing := true |}] (Some 0%nat) AudioKernel.start in
  AudioKernel.fade (Nat.iter 10 AudioKernel.tick (AudioKernel.fadeTo (num_of_Z 0) 400 s)) = None.
Proof.
  cbv zeta. apply (fade_arrives _ 0 {| AudioKernel.vol := num_of_Z 55; AudioKernel.playing := true |} 55 0 400); try done; by left.
Defined.

(** *** What the provider does beside its intent *)

Section departures.
Let v0 := num_of_Z 100.
Let run l := play (AudioKernel.on_event v0) (AudioKernel.on_response v0) l (Cfg AudioKernel.start []).
Let ticks n : list (action AudioKernel.Rsp AudioKernel.Ev) := repeat (Do AudioKernel.Tick) n.
Let heard (c : config AudioKernel.state AudioKernel.Req) := map (λ p, num_int (AudioKernel.vol p)) (AudioKernel.players (current c)).

(** The player that becomes ready after the sound was muted fades in to full volume. *)
Lemma muted_fades_in :
  (λ c, (AudioKernel.muted (current c), heard c)) <$>
    run ([Do (AudioKernel.Initialize true); Answer 0 AudioKernel.Fine; Do AudioKernel.ToggleMute; Do AudioKernel.ApiLoaded;
          Answer 0 AudioKernel.Fine] ++ ticks 63) = Some (true, [Some 55]).
Proof. by vm_compute. Qed.
(** A volume chosen during a fade is lost when the fade goes on. *)
Lemma volume_lost_in_fade :
  (λ c, (num_int (AudioKernel.volume (current c)), heard c)) <$>
    run ([Do (AudioKernel.Initialize true); Answer 0 AudioKernel.Fine; Do AudioKernel.ApiLoaded; Answer 0 AudioKernel.Fine;
          Do (AudioKernel.SetVolume (num_of_Z 1))] ++ ticks 63) = Some (Some 1, [Some 55]).
Proof. by vm_compute. Qed.
(** The loop that is started with the sound has captured that it had not started, so
    its musical part stays silent. *)
Lemma musical_part_silent sin m t :
  (λ c, (AudioKernel.started (current c), AudioKernel.loops (current c))) <$>
    run [Do (AudioKernel.Initialize true); Answer 0 AudioKernel.Fine] = Some (true, [false]) ∧ AudioKernel.musical sin false m t = nzero.
Proof. split; [by vm_compute|done]. Qed.
(** Two gestures before the host has resumed start everything twice, and one context
    and one loop outlive the page. *)
Lemma started_twice :
  (λ c, (AudioKernel.contexts (current c), AudioKernel.loops (current c))) <$>
    run [Do (AudioKernel.Initialize true); Do (AudioKernel.Initialize true); Answer 0 AudioKernel.Fine; Answer 0 AudioKernel.Fine;
         Do AudioKernel.Unmount] = Some (1%nat, [false]).
Proof. by vm_compute. Qed.
End departures.

(** Outside the provider, which no page mounts, the button is dead: no number of clicks
    makes it say that music plays. *)
Lemma button_dead n :
  let click s := (AudioToggle.initialized (λ k, k) (AudioToggle.onClick (λ k, k) s).1).1 in
  let s := Nat.iter n click {| AudioToggle.kernel := AudioToggle.fallback; AudioToggle.busy := false |} in
  AudioToggle.label (AudioToggle.kernel s) = "Ambient · kapalı" ∧ AudioToggle.icon s = AudioToggle.On.
Proof.
  cbv zeta. assert (H : ∀ n, Nat.iter n (λ s, (AudioToggle.initialized (λ k, k) (AudioToggle.onClick (λ k, k) s).1).1)
      {| AudioToggle.kernel := AudioToggle.fallback; AudioToggle.busy := false |} = {| AudioToggle.kernel := AudioToggle.fallback; AudioToggle.busy := false |}).
  { intros m. induction m as [|m IH]; [done|]. by rewrite Nat.iter_succ, IH. }
  by rewrite H.
Qed.

(** The boot screen ends at 100: a frame at or after its time is the last one and shows
    the full percentage ([Math.pow(0, 3)] is 0). *)
Theorem preloader_ends pow elapsed : pow nzero (num_of_Z 3) = nzero →
  is_nan (ndiv elapsed dur) = false → nlt (ndiv elapsed dur) (num_of_Z 1) = false →
  again elapsed = false ∧ pct pow elapsed = num_of_Z 100.
Proof.
  intros Hp Hn Hl. assert (Hs : share elapsed dur = num_of_Z 1).
  { unfold share, nmin. rewrite Hn, Hl. done. }
  unfold again, pct. rewrite Hs. split; [done|]. unfold ease. change (nsub (num_of_Z 1) (num_of_Z 1)) with nzero. rewrite Hp. by vm_compute.
Qed.
Lemma preloader_ends_witness : again (num_of_Z 1400) = false ∧ pct (λ x _, nmul (nmul x x) x) (num_of_Z 1400) = num_of_Z 100.
Proof. apply preloader_ends; by vm_compute. Defined.

(** Every frame of the decrypting text has its characters in place: blanks stay, a
    character is the right one or a drawn glyph, and the last frame is the text. *)
Theorem glitch_frames draw text elapsed shown more :
  (∀ i, (draw i < length GlitchText.GLITCH_CHARS)%nat) → GlitchText.frame draw text elapsed = (shown, more) →
  (more = false → shown = text) ∧
  (more = true → ∃ cs, shown = concat cs ∧ length cs = length (code_points text) ∧
     ∀ i ch c, code_points text !! i = Some ch → cs !! i = Some c →
       c = ch ∨ (ch ≠ " " ∧ c ∈ GlitchText.GLITCH_CHARS)).
Proof.
  intros Hd. unfold GlitchText.frame. cbv zeta. destruct (nlt _ _); intros [= <- <-]; (split; [done|]); [|done].
  intros _. eexists. split; [reflexivity|]. unfold GlitchText.out. split; [apply length_imap|].
  intros i ch c Hch. rewrite list_lookup_imap, Hch. intros [= <-]. unfold GlitchText.glyph.
  destruct (ch =s " ") eqn:Eb; [left; by apply jeq_true in Eb as ->|].
  destruct (_ <? _)%nat; [by left|right]. split; [by apply jeq_false|].
  destruct (proj2 (lookup_lt_is_Some _ _) (Hd i)) as [g Hg]. rewrite Hg. by eapply list_elem_of_lookup_2.
Qed.
Lemma glitch_frames_witness :
  GlitchText.frame (λ _, 0%nat) "a b" (num_of_Z 0) = ("A A" : jstring, true) ∧
  ∃ cs, ("A A" : jstring) = concat cs ∧ length cs = 3%nat.
Proof.
  split; [by vm_compute|].
  destruct (glitch_frames (λ _, 0%nat) "a b" (num_of_Z 0) "A A" true) as [_ H]; [intros i; vm_compute; lia|by vm_compute|].
  destruct H as (cs & H1 & H2 & _); [done|]. exists cs. split; [exact H1|exact H2].
Defined.
