(* ===== verification/AdminPages.v ===== *)
(** The dashboard's pages for signing in, plugins, schemas, attack trees and reports
    (dashboard/src/app/login, plugins, schema, attack-tree and reports).  Each page is
    a machine of events and answers; the theorems tie what a page shows and sends to
    the routes behind it. *)

From S2P Require Import Prelude JsString JsNum Json Http JsValue Regex Store Registry Plugins BanUtils LineageGraph Telemetry Compliance Client.

(** ** Signing in *)

Module LoginPage.
Definition ERROR_MESSAGES : list (jstring * jstring) :=
  [("invalid", "Kullanici adi veya parola hatali"); ("session", "Oturum suresi doldu — tekrar girin")].
(** The box above the form, for the [error] of the address. *)
Definition error (queryError : option jstring) : jstring :=
  match truthy_str queryError with
  | Some q => assoc q ERROR_MESSAGES ?? "Giris basarisiz"
  | None => []
  end.
(** The button, before and after the form is sent. *)
Definition button (loading : bool) : jstring := if loading then "Authenticating..." else "Access Command Center".
(** The method with which a browser follows a redirect of a form's request. *)
Definition follow (status : Z) (method : jstring) : jstring := if (status =? 307) || (status =? 308) then method else "GET".
(** The redirects of the login route repeat the form, with its credentials. *)
Lemma redirect_repeats_form url : follow (rs_status (redirect url)) "POST" = "POST".
Proof. reflexivity. Qed.
Lemma every_error_shown q : q ≠ [] → error (Some q) ≠ [].
Proof.
  intros Hq. unfold error. assert (E : truthy_str (Some q) = Some q) by (by destruct q). rewrite E. cbn [assoc ERROR_MESSAGES].
  destruct (q =s _); [done|]. by destruct (q =s _).
Qed.
End LoginPage.

(** ** Plugins *)

Module PluginsPage.
(** A chosen file: its name and its content, read as a data address. *)
Record File := { f_name : jstring; f_url : jstring }.
Record state := { plugins : list json; loading : bool; file : option File; name : jstring; uploading : bool }.
Definition start : state := {| plugins := []; loading := true; file := None; name := []; uploading := false |}.
Definition with_list (l : list json) (s : state) : state :=
  {| plugins := l; loading := false; file := file s; name := name s; uploading := uploading s |}.
Definition with_form (f : option File) (n : jstring) (u : bool) (s : state) : state :=
  {| plugins := plugins s; loading := loading s; file := f; name := n; uploading := u |}.

(** The requests: the list, the reading of a file (with the name of that moment),
    the upload with its body, and the removal of a plugin. *)
Record Body := { b_name : jstring; wasmBase64 : option jstring }.
Inductive Req := QList | QRead (f : File) (n : jstring) | QUpload (b : Body) | QDelete (id : jstring).
(** An answer; [None] is a failure. *)
Inductive Rsp := AList (v : option json) | ARead (url : option jstring) | ADone (ok : bool).
Definition headers_of (q : Req) : list (jstring * jstring) :=
  match q with
  | QList => [("x-user-tenant", "tenant-demo")]
  | QRead _ _ => []
  | QUpload _ => [("Content-Type", "application/json"); ("x-user-tenant", "tenant-demo"); ("x-user-role", "admin")]
  | QDelete _ => [("x-user-tenant", "tenant-demo"); ("x-user-role", "admin")]
  end.

(** [data.plugins || []] *)
Definition plugins_in (data : json) : list json := match jopt "plugins" (Some data) with Some (JArr l) => l | _ => [] end.
Definition handleFileChange (f : option File) (s : state) : state :=
  match f with
  | Some f => with_form (Some f) (if nonempty (name s) then name s else replace_first ".wasm" [] (f_name f)) (uploading s) s
  | None => s
  end.
Definition submit_disabled (s : state) : bool := match file s with None => true | Some _ => uploading s end.
Definition handleUpload (s : state) : state * list Req :=
  match file s with
  | Some f => (with_form (file s) (name s) true s, [QRead f (name s)])
  | None => (s, [])
  end.
(** [url.split(',')[1]] *)
Definition after_comma (url : jstring) : option jstring := split1 44 url !! 1%nat.

Inductive event := Mount | Choose (f : option File) | Type_ (n : jstring) | Submit | Delete (id : jstring) (confirmed : bool).
Definition active_ids (s : state) : list jstring :=
  map (λ p, ostr (jopt "id" (Some p))) (jfilter (λ p, otruthy (jopt "active" (Some p))) (plugins s)).
Definition on_event (ev : event) (s : state) : state * list Req :=
  match ev with
  | Mount => (s, [QList])
  | Choose f => (handleFileChange f s, [])
  | Type_ n => (with_form (file s) n (uploading s) s, [])
  | Submit => if submit_disabled s then (s, []) else handleUpload s
  | Delete id confirmed => if bool_decide (id ∈ active_ids s) && confirmed then (s, [QDelete id]) else (s, [])
  end.
(** A failure of the list leaves the list; one of the file or of the upload is not
    handled, and the page goes on waiting. *)
Definition on_response (q : Req) (r : Rsp) (s : state) : state * list Req :=
  match q, r with
  | QList, AList (Some data) => (with_list (plugins_in data) s, [])
  | QList, _ => (with_list (plugins s) s, [])
  | QRead _ n, ARead (Some url) => (s, [QUpload {| b_name := sor n "Custom Plugin"; wasmBase64 := after_comma url |}])
  | QRead _ _, _ => (s, [])
  | QUpload _, ADone true => (with_form None [] false s, [QList])
  | QUpload _, _ => (s, [])
  | QDelete _, ADone true => (s, [QList])
  | QDelete _, _ => (s, [])
  end.

(** An upload on its way, in either of its two phases. *)
Definition is_upload (q : Req) : bool := match q with QRead _ _ | QUpload _ => true | _ => false end.
Definition named (q : Req) : Prop := match q with QUpload b => b_name b ≠ [] | _ => True end.
Definition upload_inv (c : config state Req) : Prop :=
  (length (jfilter is_upload (pending c)) <= (if uploading (current c) then 1 else 0))%nat ∧ Forall named (pending c).

Lemma count_app l l' : length (jfilter is_upload (l ++ l')) = (length (jfilter is_upload l) + length (jfilter is_upload l'))%nat.
Proof. unfold jfilter. by rewrite List.filter_app, length_app. Qed.
Lemma count_delete l i q : l !! i = Some q →
  length (jfilter is_upload l) = (length (jfilter is_upload (delete i l)) + if is_upload q then 1 else 0)%nat.
Proof.
  revert i. induction l as [|x l IH]; intros [|i] H; [done|done|..]; cbn in H.
  - injection H as ->. unfold jfilter. cbn. destruct (is_upload q); cbn; lia.
  - specialize (IH i H). change (delete (S i) (x :: l)) with (x :: delete i l). unfold jfilter in *. cbn [List.filter].
    destruct (is_upload x); cbn [length]; lia.
Qed.
Lemma plugins_event ev c s reqs : upload_inv c → on_event ev (current c) = (s, reqs) → upload_inv (Cfg s (pending c ++ reqs)).
Proof.
  intros [Hn Hf] He. unfold upload_inv. cbn [current pending]. rewrite count_app.
  assert (Hk : ∀ k, uploading s = uploading (current c) → reqs = k → jfilter is_upload k = [] → Forall named k →
    (length (jfilter is_upload (pending c)) + length (jfilter is_upload reqs) <= (if uploading s then 1 else 0))%nat ∧ Forall named (pending c ++ reqs)).
  { intros k -> -> -> Hk. cbn. rewrite Nat.add_0_r. split; [done|by apply Forall_app]. }
  destruct ev as [|f|n| |id ok]; cbn [on_event] in He.
  - injection He as <- <-. by apply (Hk [QList]); [..|repeat constructor].
  - injection He as <- <-. apply (Hk []); [|done..]. destruct f; done.
  - injection He as <- <-. by apply (Hk []).
  - unfold submit_disabled, handleUpload in He. destruct (file (current c)) as [f|] eqn:Ef; [|injection He as <- <-; by apply (Hk [])].
    destruct (uploading (current c)) eqn:Eu; injection He as <- <-; [by apply (Hk [])|]. cbn. split; [lia|].
    apply Forall_app. split; [done|by repeat constructor].
  - destruct (bool_decide _ && ok); injection He as <- <-; [apply (Hk [QDelete id])|apply (Hk [])]; repeat constructor.
Qed.
Lemma plugins_answer c i q r s reqs :
  upload_inv c → pending c !! i = Some q → on_response q r (current c) = (s, reqs) → upload_inv (Cfg s (delete i (pending c) ++ reqs)).
Proof.
  intros [Hn Hf] Hi He. unfold upload_inv. cbn [current pending]. rewrite count_app. rewrite (count_delete _ _ _ Hi) in Hn.
  assert (Hd : Forall named (delete i (pending c))) by (rewrite Forall_forall in *; intros x Hx; apply Hf; by eapply delete_sub).
  destruct q as [|f n|b|id]; cbn [is_upload] in Hn.
  - destruct r as [[v|]| |]; cbn in He; injection He as <- <-; cbn; (split; [lia|]); by rewrite app_nil_r.
  - destruct r as [|[u|]|]; cbn in He; injection He as <- <-; cbn; (split; [lia|]); try (by rewrite app_nil_r).
    apply Forall_app. split; [done|]. repeat constructor. cbn. unfold sor. destruct (nonempty n) eqn:E; by bprop.
  - destruct r as [| |[]]; cbn in He; injection He as <- <-; cbn; (split; [destruct (uploading (current c)); lia|]); try (by rewrite app_nil_r).
    apply Forall_app. split; [done|by repeat constructor].
  - destruct r as [| |[]]; cbn in He; injection He as <- <-; cbn; (split; [lia|]); try (by rewrite app_nil_r).
    apply Forall_app. split; [done|by repeat constructor].
Qed.

(** When the upload fails the page waits for ever: no event sends the file again. *)
Definition wasm : File := {| f_name := "geo.wasm"; f_url := "data:application/wasm;base64,AGFzbQ==" |}.
Lemma upload_stuck :
  ∃ c, play on_event on_response [Do Mount; Do (Choose (Some wasm)); Do Submit; Answer 1 (ARead (Some (f_url wasm))); Answer 1 (ADone false)] (Cfg start []) = Some c ∧
    uploading (current c) = true ∧ pending c = [QList] ∧ on_event Submit (current c) = (current c, []).
Proof. eexists. split; [reflexivity|]. done. Qed.
End PluginsPage.

(** One upload at a time: whatever is clicked and however answers arrive, at most one
    plugin is on its way, none while the button is enabled, and its name is not
    empty. *)
Theorem plugins_one_upload c :
  page_reach PluginsPage.on_event PluginsPage.on_response (Cfg PluginsPage.start []) c →
  (length (jfilter PluginsPage.is_upload (pending c)) <= 1)%nat ∧
  (PluginsPage.submit_disabled (current c) = false → jfilter PluginsPage.is_upload (pending c) = []) ∧
  ∀ b, PluginsPage.QUpload b ∈ pending c → PluginsPage.b_name b ≠ [].
Proof.
  intros Hr. assert (Hi : PluginsPage.upload_inv c).
  { eapply page_invariant; [..|exact Hr]; [by split; [cbn; lia|constructor]|intros; by eapply PluginsPage.plugins_event|].
    intros; by eapply PluginsPage.plugins_answer. }
  destruct Hi as [Hn Hf]. rewrite Forall_forall in Hf. splits; [destruct (PluginsPage.uploading _); lia| |intros b Hb; apply (Hf _ Hb)].
  unfold PluginsPage.submit_disabled. destruct (PluginsPage.file (current c)); [|done]. intros Hu. rewrite Hu in Hn.
  apply nil_length_inv. lia.
Qed.
Lemma plugins_one_upload_witness :
  ∃ c, PluginsPage.uploading (current c) = true ∧ (length (jfilter PluginsPage.is_upload (pending c)) <= 1)%nat.
Proof.
  destruct (play PluginsPage.on_event PluginsPage.on_response
    [Do PluginsPage.Mount; Do (PluginsPage.Choose (Some PluginsPage.wasm)); Do PluginsPage.Submit] (Cfg PluginsPage.start [])) as [c|] eqn:E; [|done].
  exists c. assert (Hu : PluginsPage.uploading (current c) = true) by (injection E as <-; reflexivity). split; [exact Hu|].
  apply (plugins_one_upload c). eapply play_reach; [exact E|constructor].
Defined.

(** ** Schemas *)

Module SchemaPage.
Record state := { schemaInfo : option json; loading : bool; jsonInput : jstring; schemaName : jstring; error : jstring; success : jstring }.
Definition start : state := {| schemaInfo := None; loading := true; jsonInput := []; schemaName := []; error := []; success := [] |}.
Definition with_info (v : option json) (s : state) : state :=
  {| schemaInfo := v; loading := false; jsonInput := jsonInput s; schemaName := schemaName s; error := error s; success := success s |}.
Definition with_form (input nm e ok : jstring) (s : state) : state :=
  {| schemaInfo := schemaInfo s; loading := loading s; jsonInput := input; schemaName := nm; error := e; success := ok |}.

Inductive Req := QGet | QUpload (nm content : jstring) | QDelete.
(** Answers: the document whatever its status; a failure carries its message. *)
Inductive Rsp := AGet (v : option json) | AUpload (r : jstring + bool * json) | ADelete (ok : bool).
Inductive event := Mount | TypeName (t : jstring) | TypeJson (t : jstring) | Submit | Delete (confirmed : bool).
Definition submit_disabled (s : state) : bool := negb (nonempty (trim (jsonInput s))).
Definition handleUpload (s : state) : state * list Req :=
  (with_form (jsonInput s) (schemaName s) [] [] s, [QUpload (sor (schemaName s) "API_v1") (jsonInput s)]).
(** [data.error || 'Upload failed'], as the message of an error *)
Definition error_text (data : json) : jstring :=
  match jopt "error" (Some data) with Some v => if truthy v then to_str v else "Upload failed" | None => "Upload failed" end.
Definition success_text (data : json) : jstring := "✅ Schema deployed! " ++ ostr (jopt "pathCount" (Some data)) ++ " endpoints protected.".

(** The card of the current policy. *)
Inductive Card := Loading | Enforcing (nm version endpoints : option json) | NoSchema.
Definition card (s : state) : Card :=
  if loading s then Loading
  else match schemaInfo s with
       | Some v => if otruthy (jopt "loaded" (Some v)) then Enforcing (jopt "name" (Some v)) (jopt "version" (Some v)) (jopt "endpointCount" (Some v)) else NoSchema
       | None => NoSchema
       end.
Definition on_event (ev : event) (s : state) : state * list Req :=
  match ev with
  | Mount => (s, [QGet])
  | TypeName t => (with_form (jsonInput s) t (error s) (success s) s, [])
  | TypeJson t => (with_form t (schemaName s) (error s) (success s) s, [])
  | Submit => if submit_disabled s then (s, []) else handleUpload s
  | Delete confirmed => match card s with Enforcing _ _ _ => if confirmed then (s, [QDelete]) else (s, []) | _ => (s, []) end
  end.
Definition on_response (q : Req) (r : Rsp) (s : state) : state * list Req :=
  match q, r with
  | QGet, AGet (Some data) => (with_info (Some data) s, [])
  | QGet, _ => (with_info (schemaInfo s) s, [])
  | QUpload _ _, AUpload (inr (true, data)) => (with_form [] (schemaName s) (error s) (success_text data) s, [QGet])
  | QUpload _ _, AUpload (inr (false, data)) => (with_form (jsonInput s) (schemaName s) (error_text data) (success s) s, [])
  | QUpload _ _, AUpload (inl m) => (with_form (jsonInput s) (schemaName s) m (success s) s, [])
  | QUpload _ _, _ => (s, [])
  | QDelete, ADelete true => (s, [QGet])
  | QDelete, _ => (s, [])
  end.

(** What the page makes of an answer of the route. *)
Definition answer_of (r : response) : option json := match rs_body r with BJson v => Some v | _ => None end.
Definition is_enforcing (c : Card) : bool := match c with Enforcing _ _ _ => true | _ => false end.

(** Two uploads at the same time can show success and failure together. *)
Lemma both_messages :
  ∃ c, play on_event on_response
      [Do (TypeJson "{}"); Do Submit; Do Submit; Answer 0 (AUpload (inr (true, JObj [("pathCount", jint 2)]))); Answer 0 (AUpload (inr (false, JObj [])))] (Cfg start []) = Some c ∧
    error (current c) = "Upload failed" ∧ success (current c) = "✅ Schema deployed! 2 endpoints protected.".
Proof. eexists. split; [reflexivity|]. by vm_compute. Qed.
End SchemaPage.

Section schema_card.
Context {Ts : Type} `{!Table Ts SchemaRow s_id}.

(** Page and route together: after the route has answered, the card says that a
    schema is enforced exactly when the tenant of the request has an active one, and
    names one of those; when the database fails it says that there is none. *)
Theorem schema_card_sound (r : request) (t : Ts) s :
  let s' := (SchemaPage.on_response SchemaPage.QGet (SchemaPage.AGet (SchemaPage.answer_of (schema_GET r t))) s).1 in
  (find_sorted (λ x, - s_uploadedAt x) (active_of (user_tenant r)) t ≠ None →
     (SchemaPage.is_enforcing (SchemaPage.card s') = true ↔ ∃ x, x ∈ rows t ∧ active_of (user_tenant r) x = true)) ∧
  (∀ nm v n, SchemaPage.card s' = SchemaPage.Enforcing nm v n →
     ∃ x, x ∈ rows t ∧ active_of (user_tenant r) x = true ∧ nm = Some (JStr (s_name x)) ∧ v = Some (JStr (s_version x))) ∧
  (find_sorted (λ x, - s_uploadedAt x) (active_of (user_tenant r)) t = None → SchemaPage.card s' = SchemaPage.NoSchema).
Proof.
  unfold schema_GET. destruct (find_sorted _ _ t) as [[|x l]|] eqn:E; cbn; splits; try done.
  - intros _. split; [done|]. intros (x & Hx & Ha). assert (Hn := proj2 (find_sorted_rows _ _ _ _ x E) (conj Hx Ha)). by apply elem_of_nil in Hn.
  - intros _. split; [|done]. intros _. exists x. apply (find_sorted_rows _ _ _ _ x E). by left.
  - intros nm v n [= <- <- <-]. exists x. destruct (proj1 (find_sorted_rows _ _ _ _ x E)); [by left|]. done.
Qed.
End schema_card.

(** ** Attack trees *)

Module AttackTreePage.
Record Meta := { total : Z; high_risk : Z; source : jstring; data_mode : jstring; live : bool; setup_hint : jstring; probes : option json }.
Record ApiResponse := {
  r_trees : option (list AttackTree); r_total : option Z; r_high_risk : option Z; r_source : option jstring;
  r_data_mode : option jstring; r_live : option bool; r_setup_hint : option jstring; r_probes : option json }.
Inductive View := VGraph | VTimeline.
Record state := { trees : list AttackTree; meta : Meta; loading : bool; selected : nat; view : View }.
Definition start : state := {|
  trees := []; meta := {| total := 0; high_risk := 0; source := []; data_mode := "none"; live := false; setup_hint := []; probes := None |};
  loading := true; selected := 0; view := VGraph |}.
Definition with_sel (i : nat) (v : View) (s : state) : state :=
  {| trees := trees s; meta := meta s; loading := loading s; selected := i; view := v |}.
Definition meta_of (d : ApiResponse) : Meta := {|
  total := r_total d ?? 0; high_risk := r_high_risk d ?? 0; source := r_source d ?? [];
  data_mode := r_data_mode d ?? (if r_live d ?? false then ("live" : jstring) else "none");
  live := r_live d ?? match r_data_mode d with Some m => m =s "live" | None => false end;
  setup_hint := r_setup_hint d ?? []; probes := r_probes d |}.
(** A poll, with the selection its closure sees; the timer of the page keeps the
    closure of the first render. *)
Inductive Req := QTrees (selected : nat).
Inductive Rsp := ATrees (d : option ApiResponse).
Definition fetched (sel : nat) (d : option ApiResponse) (s : state) : state :=
  match d with
  | Some d =>
      let l := r_trees d ?? [] in
      {| trees := l; meta := meta_of d; loading := false; view := view s;
         selected := if (0 <? length l)%nat && (length l <=? sel)%nat then 0%nat else selected s |}
  | None => {| trees := trees s; meta := meta s; loading := false; selected := selected s; view := view s |}
  end.
Inductive event := Mount | Tick | Pick (i : nat) | PickView (v : View).
Definition on_event (ev : event) (s : state) : state * list Req :=
  match ev with
  | Mount | Tick => (s, [QTrees (selected start)])
  | Pick i => if (i <? length (trees s))%nat then (with_sel i (view s) s, []) else (s, [])
  | PickView v => (with_sel (selected s) v s, [])
  end.
Definition on_response (q : Req) (r : Rsp) (s : state) : state * list Req :=
  match q, r with QTrees sel, ATrees d => (fetched sel d s, []) end.

Definition active (s : state) : option AttackTree := trees s !! selected s.
Definition tree_event (ev : LineageEvent) : TreeEvent := {| ev_type := Some (le_type ev); ev_detail := Some (le_detail ev) |}.
Definition banIps (s : state) : list jstring :=
  match active s with Some t => collectBanIpsFromTree (map tree_event <$> at_events t) | None => [] end.
Definition graph (s : state) : LineageGraphElements :=
  match active s with Some t => treeToGraph t (dec (Z.of_nat (selected s))) | None => {| nodes := []; edges := [] |} end.
(** The two badges of the header. *)
Definition live_badge (s : state) : bool := data_mode (meta s) =s "live".
Definition preview_badge (s : state) : bool := data_mode (meta s) =s "preview".
(** The ban buttons of the page: the address and the reason of each. *)
Definition header_buttons (s : state) : list (jstring * jstring) :=
  match active s with Some t => map (λ ip, (ip, "lineage-c2-" ++ dec (at_pid t))) (banIps s) | None => [] end.
Definition event_button (t : AttackTree) (ev : LineageEvent) : option (jstring * jstring) :=
  if le_type ev =s "NET_CONNECT" then
    match ipFromConnectDetail (Some (le_detail ev)) with
    | Some c2 => Some (c2, "lineage-" ++ le_type ev ++ "-" ++ dec (at_pid t))
    | None => None
    end
  else None.
Definition timeline_buttons (s : state) : list (jstring * jstring) :=
  match active s, view s with Some t, VTimeline => omap (event_button t) (at_events t ?? []) | _, _ => [] end.
Inductive Body := BLoading | BEmpty (hint : jstring) | BTrees (tabs : list (jstring * Z * RiskClass * jstring)) (shown : option AttackTree).
Definition body (t : jstring → jstring) (s : state) : Body :=
  if loading s then BLoading
  else match trees s with
       | [] => BEmpty (sor (setup_hint (meta s)) (t "lineageEmptyHint"))
       | l => BTrees (map (λ x, (at_comm x, at_pid x, riskClass (at_risk x), toFixed 0 (at_risk x))) l) (active s)
       end.

(** A shorter list keeps the old selection, so no tree is shown although there are some. *)
Definition sample (pid : Z) : AttackTree :=
  {| at_pid := pid; at_comm := "bash"; at_risk := num_of_Z 90; at_agentId := None; at_events := None; at_firstSeen := None; at_lastSeen := None |}.
Definition answer (l : list AttackTree) : Rsp := ATrees (Some {|
  r_trees := Some l; r_total := None; r_high_risk := None; r_source := None; r_data_mode := Some ("live" : jstring); r_live := None; r_setup_hint := None; r_probes := None |}).
Lemma selection_lost :
  ∃ c, play on_event on_response [Do Mount; Answer 0 (answer [sample 1; sample 2]); Do (Pick 1); Do Tick; Answer 0 (answer [sample 1])] (Cfg start []) = Some c ∧
    trees (current c) = [sample 1] ∧ active (current c) = None.
Proof. eexists. split; [reflexivity|]. done. Qed.

Lemma header_quads s ip w : (ip, w) ∈ header_buttons s →
  dotted_quad ip ∧ ∃ t ev, active s = Some t ∧ ev ∈ (at_events t ?? []) ∧ le_type ev = "NET_CONNECT" ∧ ipFromConnectDetail (Some (le_detail ev)) = Some ip.
Proof.
  unfold header_buttons, banIps. destruct (active s) as [t|]; [|by intros ?%elem_of_nil].
  intros (ip' & [= -> _] & Hip)%list_elem_of_fmap. destruct (collect_from_spec ((map tree_event <$> at_events t) ?? []) []) as [Hin _].
  apply Hin in Hip as [?%elem_of_nil|(ev & Hev & Ht & Hi)]; [done|]. split; [by eapply ipFromConnectDetail_quad|].
  destruct (at_events t) as [l|] eqn:El; cbn in Hev; [|by apply elem_of_nil in Hev]. apply list_elem_of_fmap in Hev as (le & -> & Hle).
  cbn in Ht, Hi. injection Ht as Ht. exists t, le. rewrite El. by splits.
Qed.
End AttackTreePage.

(** The ban buttons beside an attack tree are for addresses of its own connect
    events: each is a dotted quad that such an event names, in the header as in the
    timeline, and the header has each address of the tree once. *)
Theorem attack_page_buttons s ip w :
  (ip, w) ∈ AttackTreePage.header_buttons s ∨ (ip, w) ∈ AttackTreePage.timeline_buttons s →
  dotted_quad ip ∧
  (∃ t ev, AttackTreePage.active s = Some t ∧ ev ∈ (at_events t ?? []) ∧ le_type ev = "NET_CONNECT" ∧
     ipFromConnectDetail (Some (le_detail ev)) = Some ip) ∧
  ip ∈ AttackTreePage.banIps s.
Proof.
  intros Hb. assert (Hd : dotted_quad ip ∧ ∃ t ev, AttackTreePage.active s = Some t ∧ ev ∈ (at_events t ?? []) ∧ le_type ev = "NET_CONNECT" ∧
     ipFromConnectDetail (Some (le_detail ev)) = Some ip).
  { destruct Hb as [Hb|Hb]; [by eapply AttackTreePage.header_quads|]. unfold AttackTreePage.timeline_buttons in Hb.
    destruct (AttackTreePage.active s) as [t|] eqn:Ea; [|by apply elem_of_nil in Hb].
    destruct (AttackTreePage.view s); [by apply elem_of_nil in Hb|]. apply list_elem_of_omap in Hb as (ev & Hev & He).
    unfold AttackTreePage.event_button in He. destruct (le_type ev =s "NET_CONNECT") eqn:Et; [|done]. bprop.
    destruct (ipFromConnectDetail (Some (le_detail ev))) as [c2|] eqn:Ei; [|done]. injection He as -> _.
    split; [by eapply ipFromConnectDetail_quad|eauto 8]. }
  destruct Hd as (Hq & t & ev & Ha & Hev & Ht & Hi). splits; [done|eauto 8|]. unfold AttackTreePage.banIps. rewrite Ha.
  apply collect_from_spec. right. exists (AttackTreePage.tree_event ev). splits; [|cbn; by rewrite Ht|done].
  destruct (at_events t); cbn in *; [by apply list_elem_of_fmap_2|by apply elem_of_nil in Hev].
Qed.
Lemma attack_page_buttons_witness :
  let ev := {| le_type := "NET_CONNECT"; le_pid := 7; le_ppid := None; le_comm := "nc"; le_detail := "203.0.113.9:4444"; le_ts := 0 |} in
  let t := {| at_pid := 7; at_comm := "nc"; at_risk := num_of_Z 90; at_agentId := None; at_events := Some [ev]; at_firstSeen := None; at_lastSeen := None |} in
  let s := {| AttackTreePage.trees := [t]; AttackTreePage.meta := AttackTreePage.meta AttackTreePage.start; AttackTreePage.loading := false;
              AttackTreePage.selected := 0; AttackTreePage.view := AttackTreePage.VTimeline |} in
  ("203.0.113.9" : jstring) ∈ AttackTreePage.banIps s.
Proof.
  intros ev t s. apply (attack_page_buttons s "203.0.113.9" "lineage-NET_CONNECT-7"). right. apply list_elem_of_lookup.
  exists 0%nat. vm_compute. reflexivity.
Defined.

(** ** Reports *)

Module ReportsPage.
Record state := { data : option json; loading : bool; loadError : jstring; activeStd : jstring }.
Definition start : state := {| data := None; loading := true; loadError := []; activeStd := "ALL" |}.
Definition STANDARD_COLORS : list (jstring * jstring) :=
  [("SOC2", "bg-cyan-900/40 text-cyan-300 border-cyan-700/40"); ("PCI-DSS", "bg-violet-900/40 text-violet-300 border-violet-700/40");
   ("KVKK", "bg-amber-900/40 text-amber-300 border-amber-700/40"); ("ISO 27001", "bg-emerald-900/40 text-emerald-300 border-emerald-700/40")].
Definition FILTER_STANDARDS : list jstring := ["ALL"; "SOC2"; "PCI-DSS"; "KVKK"; "ISO 27001"].

(** The answer of the load: the report, or the error with the document of its
    response and its message. *)
Inductive Rsp := ALoaded (v : json) | AFailed (response : option json) (message : jstring).
Definition or_text (a : option json) (b : jstring) : jstring := match a with Some v => if truthy v then to_str v else b | None => b end.
Definition hint (t : jstring → jstring) (response : option json) (message : jstring) : jstring :=
  or_text (jopt "hint" response) (or_text (jopt "error" response) (sor message (t "reportsError"))).
Definition loaded (t : jstring → jstring) (r : Rsp) (s : state) : state :=
  match r with
  | ALoaded v => {| data := Some v; loading := false; loadError := []; activeStd := activeStd s |}
  | AFailed d m => {| data := data s; loading := false; loadError := hint t d m; activeStd := activeStd s |}
  end.
Definition pick (std : jstring) (s : state) : state :=
  if bool_decide (std ∈ FILTER_STANDARDS) then {| data := data s; loading := loading s; loadError := loadError s; activeStd := std |} else s.

(** The export: the name of the saved file, or the text of the alert. *)
Definition downloadExport (format : jstring) (res : option (Z * option json)) : jstring + jstring :=
  match res with
  | None => inl ("Export failed — check console" : jstring)
  | Some (st, body) =>
      if (200 <=? st) && (st <=? 299) then inr ("compliance-report." ++ format)
      else inl (or_text (jopt "hint" body) (or_text (jopt "error" body) ("Export failed (" ++ dec st ++ ")")))
  end.

Definition controls (d : json) : list json := match jopt "securityControls" (Some d) with Some (JArr l) => l | _ => [] end.
Definition standard (c : json) : jstring := ostr (jopt "standard" (Some c)).
Definition filteredControls (std : jstring) (d : json) : list json :=
  if std =s "ALL" then controls d else jfilter (λ c, standard c =s std) (controls d).
Definition passedCount (d : json) : Z := Z.of_nat (length (jfilter (λ c, ostr (jopt "status" (Some c)) =s "PASSED") (controls d))).
Definition totalCount (d : json) : Z := Z.of_nat (length (controls d)).
Definition passRate (d : json) : num := percent (passedCount d) (totalCount d).
Definition chip (c : json) : jstring := assoc (standard c) STANDARD_COLORS ?? "bg-gray-100 text-gray-600 border-gray-200".
Definition nodes (d : json) : list json := match jopt "nodes" (Some d) with Some (JArr l) => l | _ => [] end.
Definition num_field (k : jstring) (v : json) : num := match jopt k (Some v) with Some (JNum x) => x | _ => nNaN end.
(** [data.nodes.reduce((s, n) => s + n.k, 0)] *)
Definition total_of (k : jstring) (d : json) : num := fold_left (λ s v, nadd s (num_field k v)) (nodes d) nzero.

Definition known (c : json) : bool := existsb (jeq (standard c)) (tail FILTER_STANDARDS).
Definition by_standard (ss : list jstring) (l : list json) : list json := concat (map (λ std, jfilter (λ c, standard c =s std) l) ss).
Lemma by_standard_other ss c l : standard c ∉ ss → by_standard ss (c :: l) = by_standard ss l.
Proof.
  induction ss as [|s ss IH]; intros H; [done|]. apply not_elem_of_cons in H as [Hs H]. unfold by_standard in *. cbn [map concat].
  rewrite (IH H). unfold jfilter. cbn [List.filter]. by rewrite (proj2 (jeq_false _ _) Hs).
Qed.
Lemma by_standard_cons ss c l : NoDup ss → standard c ∈ ss → by_standard ss (c :: l) ≡ₚ c :: by_standard ss l.
Proof.
  induction 1 as [|s ss Hn Hd IH]; intros Hc; [by apply elem_of_nil in Hc|]. destruct (decide (standard c = s)) as [<-|Hne].
  - pose proof (by_standard_other ss c l Hn) as E. unfold by_standard in *. cbn [map concat]. rewrite E. unfold jfilter. cbn [List.filter].
    by rewrite jeq_refl.
  - apply elem_of_cons in Hc as [?|Hc]; [done|]. specialize (IH Hc). unfold by_standard in *. cbn [map concat]. rewrite IH.
    unfold jfilter at 1. cbn [List.filter]. rewrite (proj2 (jeq_false _ _) Hne). by rewrite <- Permutation_middle.
Qed.
Lemma split_four l : forallb known l = true → by_standard (tail FILTER_STANDARDS) l ≡ₚ l.
Proof.
  induction l as [|c l IH]; intros H; [done|]. cbn [forallb] in H. apply andb_true_iff in H as [Hc Hl].
  rewrite by_standard_cons, (IH Hl); [done|by apply (bool_decide_unpack _); vm_compute|].
  apply existsb_exists in Hc as (s & Hs & ->%jeq_true). by apply list_elem_of_In.
Qed.
Lemma base_known `{LocaleText} t : forallb known (baseControls t) = true.
Proof. reflexivity. Qed.
End ReportsPage.

Section reports.
Context `{LocaleText}.

(** Page and route together: the four filters divide the controls of a computed
    report between them without loss, so each control is under exactly one, all of
    them are counted and the rate shown is that of all twelve. *)
Theorem report_filters_divide now agents :
  let d := buildFromTelemetry now agents in
  ReportsPage.by_standard (tail ReportsPage.FILTER_STANDARDS) (ReportsPage.controls d) ≡ₚ ReportsPage.filteredControls "ALL" d ∧
  (∀ std, std ∈ tail ReportsPage.FILTER_STANDARDS → ReportsPage.filteredControls std d ≠ []) ∧
  ReportsPage.totalCount d = 12 ∧ ReportsPage.passedCount d = 12 ∧ ReportsPage.passRate d = num_of_Z 100 ∧
  length (ReportsPage.nodes d) = length agents.
Proof.
  assert (E : ReportsPage.controls (buildFromTelemetry now agents) = baseControls (fleet_totals now agents)) by reflexivity.
  unfold ReportsPage.filteredControls, ReportsPage.totalCount, ReportsPage.passRate, ReportsPage.passedCount, ReportsPage.totalCount.
  cbv zeta. rewrite !E. splits; [apply ReportsPage.split_four, ReportsPage.base_known| |reflexivity..|apply (length_map (node_detail now) agents)].
  intros std Hs. assert (Hx : existsb (λ c, ReportsPage.standard c =s std) (baseControls (fleet_totals now agents)) = true).
  { cbn [tail ReportsPage.FILTER_STANDARDS] in Hs. repeat (apply elem_of_cons in Hs as [->|Hs]; [reflexivity|]). by apply elem_of_nil in Hs. }
  destruct (std =s "ALL"); [done|]. apply existsb_exists in Hx as (c & Hc & Hstd). intros Hnil. apply (elem_of_nil c). rewrite <- Hnil.
  apply jfilter_elem. by rewrite list_elem_of_In.
Qed.
End reports.
