(* ===== verification/StatusPanels.v ===== *)
(** The dashboard's status panels (dashboard/src/components): each loads the answer
    of one route and shows it.  Modelled are the loading, what the panels say for a
    document, the incident dialog, the state of an operator's ban and the links to
    the test page.  A document is a dynamic value ([val]) whose fields may be missing;
    present ones have their declared types. *)

From S2P Require Import Prelude JsString JsNum Json Http JsValue Regex FetchBanned Bans BansPage ValidationTests Client.

(** ** Loading a document *)

Module Loader.
(** Some panels keep what they show when the status is a bad one, others clear it;
    all clear it when the request fails. *)
Inductive Policy := Keep | Clear.
Record state := { data : val; loading : bool }.
Definition start : state := {| data := None; loading := true |}.
Inductive Rsp := AOk (v : json) | ABadStatus | AFailed.
(** [load], with or without the loading mark, and its answer. *)
Definition load (mark : bool) (s : state) : state := {| data := data s; loading := mark || loading s |}.
Definition answered (p : Policy) (r : Rsp) (s : state) : state :=
  match r with
  | AOk v => {| data := Some v; loading := false |}
  | ABadStatus => {| data := match p with Keep => data s | Clear => None end; loading := false |}
  | AFailed => {| data := None; loading := false |}
  end.
End Loader.

(** A value as the child of an element, and in a template literal. *)
Definition node (v : val) : jstring := match v with None | Some JNull | Some (JBool _) => [] | _ => ostr v end.
Definition tmpl (v : val) : jstring := ostr v.
(** [v ?? d] as a number, and its order against a whole number *)
Definition num_or (v : val) (d : Z) : num := to_num (v ??? vn d).
Definition above (v : val) (lim : Z) : bool := nlt (num_of_Z lim) (num_or v 0).
Definition at_least (v : val) (lim : Z) : bool := nle (num_of_Z lim) (num_or v 0).
Definition items_of (v : val) : list json := match v with Some (JArr l) => l | _ => [] end.
(** [x.toFixed(n)] of a number that is there *)
Definition fix_num (n : Z) (v : val) : jstring := match v with Some (JNum x) => toFixed n x | _ => [] end.
(** [cond ? text : ""] *)
Definition when (c : bool) (s : jstring) : jstring := if c then s else [].

Section panels.
(** The texts of the chosen language, and the host's formats of numbers and dates. *)
Context (t : jstring → jstring) (show_num : num → jstring) (show_when : val → jstring).

(** [chip(ok, label)]: the label, the verdict and its colour. *)
Inductive Tone := Good | Bad | Dim.
Definition tone (ok : val) : Tone := if ok === vb true then Good else if ok === vb false then Bad else Dim.
Definition chip (bad : jstring) (ok : val) (label : jstring) : jstring * Tone :=
  (label ++ ": " ++ match tone ok with Good => "OK" | Bad => bad | Dim => "—" end, tone ok).

(** ** Fleet (FleetOpsPanel.tsx) *)
Definition refreshCmd (data : val) : val := data.["setup"].["refresh"] ??? vs "FLEET_MODE=laptop-simulated bash scripts/fleet_multi_node_e2e.sh".
Definition pruneCmd (data : val) : val := data.["setup"].["prune"] ??? vs "bash scripts/fleet_prune_pending_commands.sh".
Definition pruneDemoCmd (data : val) : val := data.["setup"].["prune_demo"] ??? vs "STALE_MINUTES=30 bash scripts/fleet_prune_pending_commands.sh".
Definition liveOnline (data : val) : val := data.["live"].["online"] ??? data.["gate"].["online"] ??? vn 0.
Definition liveTotal (data : val) : val := data.["live"].["total"] ??? data.["gate"].["total"] ??? vn 0.
Definition report_line (data : val) : jstring :=
  when (otruthy data.["gate"])
    (t "fleetOpsReport" ++ ": " ++ node (data.["gate"].["online"] ??? vn 0) ++ "/" ++ node (data.["gate"].["total"] ??? vn 0) ++
     when (otruthy data.["report_stale"]) (" · " ++ t "fleetOpsReportStaleShort")).
Definition prune_line (data : val) : jstring :=
  let prune := data.["prune"] in
  when (otruthy prune)
    (t "fleetOpsPrune" ++ ": " ++ node (prune.["pending_total"] ??? vn 0) ++
     when (above prune.["pending_stale"] 0)
       (" (" ++ tmpl prune.["pending_stale"] ++ " >" ++ tmpl (prune.["stale_hours"] ??? vn 48) ++ "h)")).
Definition prune_good (data : val) : bool := neq_num (num_or data.["prune"].["pending_stale"] 0) nzero.
Definition fail_line (data : val) : jstring :=
  when (otruthy data.["gate"].["reason"] && (data.["gate"].["pass"] === vb false)) (node data.["gate"].["reason"]).
Definition agent_line (a : json) : jstring :=
  node (Some a).["id"] ++
  (if otruthy (Some a).["remote_shadow"] then " (" ++ t "fleetRemoteMonitor" ++ ")"
   else if otruthy (Some a).["online"] then []
   else " (" ++ num_to_string (nround (ndiv (to_num (Some a).["age_sec"]) (num_of_Z 60))) ++ "m)").
Definition agent_lines (data : val) : list jstring := map agent_line (items_of data.["live"].["agents"]).
Definition prune_item (item : json) : jstring :=
  node (Some item).["type"] ++ " → " ++ node (Some item).["target"] ++ " (" ++ node (Some item).["status"] ++ ", " ++ node (Some item).["age_h"] ++ "h)".
Definition shows_prune_demo (data : val) : bool :=
  otruthy data.["prune"] && nlt nzero (to_num (data.["prune"].["pending_young"] ??? data.["prune"].["pending_total"] ??? vn 0)).

(** ** Ban interface (BanApiOpsPanel.tsx) *)
Definition enableCmd (data : val) : val := data.["setup"].["enable"] ??? vs "sudo bash scripts/enable_enterprise_soar_api.sh".
Definition soarLabel (data : val) : jstring :=
  if otruthy data.["soar"].["enabled"]
  then if otruthy data.["soar"].["caddy_mtls_verify"] then t "banApiSoarOn" else t "banApiSoarEnabledNoVerify"
  else t "banApiSoarOff".
Definition api_chips (data : val) : list (jstring * Tone) :=
  [chip "FAIL" data.["host"].["ok"] (t "banApiHost"); chip "FAIL" data.["host_api_bridge"].["ok"] (t "banApiBridge");
   chip "FAIL" data.["relay"].["ok"] (t "banApiRelay"); chip "FAIL" data.["relay_lan"].["pass"] (t "banApiRelayLan");
   chip "FAIL" data.["metrics"].["ok"] (t "banApiMetrics"); chip "FAIL" data.["docker"].["ok"] (t "banApiDocker")].
Definition gate_line (data : val) : jstring :=
  let g := data.["enterprise_gate"] in
  "gate: " ++ node (g.["mode"] ??? vs "—") ++ (if g.["pass"] === vb true then " OK" else if g.["pass"] === vb false then " FAIL" else []).
Definition strict_line (data : val) : jstring := "strict: " ++ (if otruthy data.["mtls_strict"] then "on" else "off").
Definition cert_text (c : json) : jstring := tmpl ((Some c).["id"] ??? vs "?") ++ ": " ++ tmpl ((Some c).["days_left"] ??? vs "?") ++ "d".
Definition expiry_line (data : val) : jstring :=
  let x := data.["mtls_expiry"] in
  when (otruthy x) (t "banApiMtlsExpiry" ++ ": " ++ node (x.["min_days_left"] ??? vs "—") ++ "d" ++ (if otruthy x.["pass"] then " OK" else " WARN")).
Definition expiry_title (data : val) : jstring := join " · " (map cert_text (items_of data.["mtls_expiry"].["certs"])).
Definition relay_text (data : val) : jstring :=
  node (data.["relay"].["url"] ??? vs "http://ban-api-relay:18090") ++
  when (otruthy data.["host_api_bridge"].["note"]) (" · " ++ tmpl data.["host_api_bridge"].["note"]).
Definition metrics_text (data : val) : jstring :=
  node (data.["metrics"].["url"] ??? vs "http://metrics-relay:19091/metrics") ++ when (otruthy data.["metrics"].["live"]) " · live".
Definition soar_text (data : val) : jstring :=
  node (data.["soar"].["url"] ??? vs "https://localhost:9443") ++ when (otruthy data.["ban_path"]) (" · " ++ tmpl data.["ban_path"]).
Definition lan_text (data : val) : jstring :=
  let r := data.["relay_lan"] in
  when (otruthy r)
    (t "banApiRelayLan" ++ ": " ++ (if otruthy r.["pass"] then "OK" else "FAIL") ++ when (otruthy r.["bridge_up"]) " · docker0" ++
     when (otruthy r.["docker0_ip"]) (" " ++ tmpl r.["docker0_ip"])).

(** ** Production host (VpsPrepPanel.tsx) *)
Definition gateCmd (data : val) : val := data.["setup"].["gate"] ??? vs "bash scripts/vps_prep_gate.sh".
Definition remoteCmd (data : val) : val :=
  data.["setup"].["remote"] ??? vs "QUIET=1 source .cache/vps-production.env && bash scripts/vps_remote_status.sh".
Definition sshCopyCmd (data : val) : val :=
  data.["setup"].["ssh_copy_id"] ???
  (if otruthy data.["remote"].["host"] then vs ("ssh-copy-id " ++ tmpl data.["remote"].["host"]) else vs "ssh-copy-id root@HOST").
Definition soaked (data : val) : bool := at_least data.["remote"].["soak_proof_72h"] 72.
Definition handsOff (data : val) : bool := otruthy data.["remote"].["ssh_ok"] && soaked data.
Definition vps_gate (data : val) : jstring := "gate: " ++ (if data.["pass"] === vb true then "OK" else "WARN").
Definition place_text (data : val) : jstring :=
  (if negb (data.["laptop_mode"] === vb false) && negb (otruthy data.["remote"].["ssh_ok"]) then "laptop" else "vps") ++ " · proof " ++
  node (data.["competitive_proof"] ??? vs "—").
Definition soak_watch (data : val) : jstring :=
  let r := data.["remote"] in
  when (otruthy r.["soak_active"] && negb (r.["soak_mode"] === vs "72h") && nlt (num_or r.["soak_proof_72h"] 0) (num_of_Z 72))
    (t "vpsPrepSoakWatch" ++ ": " ++ node (r.["soak_mode"] ??? vs "?") ++
     match nullish r.["soak_progress"] with Some p => " · " ++ tmpl (Some p) ++ "%" | None => [] end).
(** What the panel says of the connection, in the badge and in the note. *)
Inductive Remote := SshOk | AuthFail | HostUp | Unknown.
Definition remote_state (data : val) : Remote :=
  let r := data.["remote"] in
  if otruthy r.["ssh_ok"] || otruthy r.["reachable"] then SshOk else if otruthy r.["auth_error"] then AuthFail
  else if otruthy r.["host_up"] then HostUp else Unknown.
Definition remote_line (data : val) : jstring :=
  when (otruthy data.["remote"])
    (t "vpsPrepRemote" ++ ": " ++
     match remote_state data with SshOk => "SSH OK" | AuthFail => t "vpsPrepRemoteAuthFail" | HostUp => t "vpsPrepRemoteHostUp" | Unknown => "—" end ++
     when (otruthy data.["remote"].["host"]) (" · " ++ tmpl data.["remote"].["host"])).
Definition remote_note (data : val) : jstring :=
  match remote_state data with SshOk => t "vpsPrepRemoteLive" | AuthFail => t "vpsPrepRemoteNeedKey" | _ => t "vpsPrepPaused" end.
Definition steps_shown (data : val) : list jstring * jstring :=
  let steps := items_of data.["steps"] in
  (map (λ s, node (Some s)) (slice 0 4 steps), when (4 <? Z.of_nat (length steps)) ("+" ++ dec (Z.of_nat (length steps) - 4) ++ " …")).

(** ** Morning checks (MorningOperatorPanel.tsx) and runbook (E9RunbookPanel.tsx) *)
Definition MORNING_LABEL_KEYS : list (jstring * jstring) :=
  [("laptop_core", "morningCheckCore"); ("presentation_ship", "morningCheckShip"); ("dashboard", "morningCheckDashboard");
   ("attack_map", "morningCheckAttackMap"); ("telegram_soc", "morningCheckTelegram"); ("proof_freshness", "morningCheckProofFresh");
   ("eps_smoke", "morningCheckEpsSmoke")].
Definition E9_LABEL_KEYS : list (jstring * jstring) :=
  [("competitive_proof", "e9CheckCompetitiveProof"); ("enterprise_escalation", "e9CheckEnterpriseEscalation"); ("edge_checklist", "e9CheckEdgeChecklist");
   ("relay_lan_exposure", "e9CheckRelayLan"); ("morning_operator", "e9CheckMorningOperator"); ("eps_smoke", "e9CheckEpsSmoke");
   ("docs_consistency", "e9CheckDocsConsistency"); ("vps_prep", "e9CheckVpsPrep"); ("vps_remote", "e9CheckVpsRemote")].
Definition CHECK_TEST_HASH : list (jstring * jstring) :=
  [("competitive_proof", []); ("enterprise_escalation", "test-enterprise-escalation-gate"); ("edge_checklist", "test-edge-protection-gate");
   ("morning_operator", "test-morning-operator-gate"); ("eps_smoke", "#live-ops-metrics"); ("vps_prep", "test-vps-xdp-kernel");
   ("vps_remote", "test-vps-xdp-kernel")].
Definition checks (data : val) : list json := items_of data.["checks"].
Definition passN (data : val) : Z := Z.of_nat (length (jfilter (λ c, otruthy (Some c).["ok"]) (checks data))).
Definition check_row (keys : list (jstring * jstring)) (c : json) : jstring * jstring * bool :=
  (match assoc (tmpl (Some c).["id"]) keys with Some k => t k | None => node (Some c).["id"] end,
   when (otruthy (Some c).["detail"]) (node (Some c).["detail"]), otruthy (Some c).["ok"]).
Definition check_href (c : json) : option jstring :=
  h ← assoc (tmpl (Some c).["id"]) CHECK_TEST_HASH;
  Some (if starts_with "#" h then h else if nonempty h then "/tests#" ++ h else "/tests").
Definition count_text (data : val) : jstring :=
  match checks data with [] => "—" | l => dec (passN data) ++ "/" ++ dec (Z.of_nat (length l)) end.
Definition morning_line (data : val) : jstring :=
  count_text data ++
  match nullish data.["proof_pass"], nullish data.["proof_tests"] with
  | Some a, Some b => " · proof " ++ tmpl (Some a) ++ "/" ++ tmpl (Some b)
  | _, _ => []
  end ++ when (otruthy data.["at"]) (" · " ++ show_when data.["at"]).
Definition e9_line (data : val) : jstring :=
  count_text data ++ when (otruthy data.["competitive_proof"]) (" · " ++ tmpl data.["competitive_proof"]) ++
  when (otruthy data.["at"]) (" · " ++ show_when data.["at"]).
Definition stale_line (data : val) : jstring :=
  let ids := map (λ i, ostr (Some i)) (items_of data.["proof_stale_ids"]) in
  when (negb (bool_decide (ids = [])))
    (t "morningOpsStale" ++ ": " ++ join ", " (slice 0 4 ids) ++ when (4 <? Z.of_nat (length ids)) (" +" ++ dec (Z.of_nat (length ids) - 4))).
(** The verdict beside the title: passed, failed, or nothing. *)
Definition verdict (passKey failKey : jstring) (data : val) : jstring :=
  match tone data.["pass"] with Good => t passKey | Bad => t failKey | Dim => [] end.

(** Both requests of the morning panel: each good answer is taken; a failure clears
    the first document only. *)
Record Morning := { m_data : val; m_eps : val; m_loading : bool }.
Definition morning_answered (r : option (option json * option json)) (s : Morning) : Morning :=
  match r with
  | Some (a, b) => {| m_data := match a with Some v => Some v | None => m_data s end; m_eps := match b with Some v => Some v | None => m_eps s end; m_loading := false |}
  | None => {| m_data := None; m_eps := m_eps s; m_loading := false |}
  end.
Definition smoke_ok (s : Morning) : bool := otruthy (m_eps s).["pass"] || otruthy (m_data s).["eps_smoke_ok"].
Definition smoke_text (s : Morning) : jstring :=
  if smoke_ok s
  then t "morningOpsEpsOkPrefix" ++ " " ++ toFixed 2 (to_num ((m_eps s).["peak_eps"] ??? (m_data s).["eps_smoke_peak"] ??? vn 0)) ++ " · lines+" ++
       tmpl ((m_eps s).["lines_delta"] ??? (m_data s).["eps_smoke_lines_delta"] ??? vn 0)
  else t "morningOpsEpsHint".

(** ** Notifications (WebhookOpsPanel.tsx) *)
Definition poll_ms (data : val) : Z := if data.["data_mode"] === vs "live" then 5000 else 15000.
(** [at.slice(0, 16).replace("T", " ")] *)
Definition short_time (v : val) : jstring := when (otruthy v) (" · " ++ replace_first "T" " " (slice 0 16 (ostr v))).
Definition webhook_badge (data : val) : option jstring :=
  if data.["data_mode"] === vs "live" then Some (t "attackMapLive")
  else if otruthy data.["proof_pass"] then Some (t "webhookOpsProof") else None.
Definition prod_line (data : val) : jstring :=
  when (otruthy data.["prod_e2e_ok"])
    (t "webhookOpsProdE2eOk" ++
     match nullish data.["prod_e2e_metrics_delta"] with
     | Some d =>
         " · Δ" ++ node (Some d) ++ " msg" ++
         match nullish data.["prod_e2e_alerts"] with Some a => " · " ++ tmpl (Some a) ++ " alarm" | None => [] end ++
         short_time data.["prod_e2e_at"]
     | None => []
     end).
Definition undo_line (data : val) : jstring :=
  when (otruthy data.["undo_e2e_ok"])
    (t "webhookOpsUndoE2eOk" ++ " · " ++ node (data.["undo_e2e_mode"] ??? vs "SIGUSR2") ++
     when (otruthy data.["undo_e2e_ip"]) (" · " ++ tmpl data.["undo_e2e_ip"]) ++ short_time data.["undo_e2e_at"]).
Definition route_text (data : val) : jstring := if otruthy data.["telegram_route"] then "ON" else "OFF".
Definition batch_text (data : val) : jstring :=
  if above data.["batch_sec"] 0 then tmpl (data.["batch_sec"] ??? vn 0) ++ "s" else t "webhookOpsBatchOff".
Definition ack_text (data : val) : jstring := node (data.["ack_24h"] ??? vn 0) ++ " / " ++ node (data.["unacked_24h"] ??? vn 0).
Definition shows_counters (data : val) : bool :=
  above data.["webhook_sent"] 0 || above data.["webhook_fail"] 0 || above data.["webhook_drops"] 0.
(** The counter of dropped messages: its text, the hint of a large one, the runbook line. *)
Definition drops_cell (data : val) : jstring * option jstring * option jstring :=
  (show_num (num_or data.["webhook_drops"] 0),
   if above data.["webhook_drops"] 1000 then Some (t "webhookOpsDropsHint") else None,
   if above data.["webhook_drops"] 0 then Some (t "webhookOpsDropsRunbook") else None).

(** ** Edge protection (EdgeProtectionPanel.tsx); [navBanCount] and [banPreview] come
    from the shared ban list. *)
Definition statClass (ok : option bool) : Tone := match ok with None => Dim | Some true => Good | Some false => Bad end.
Definition edge_badge (data : val) : jstring := if data.["data_mode"] === vs "live" then t "attackMapLive" else t "edgeProofMode".
Definition nginxOk (data : val) : bool := otruthy data.["nginx_log_format"] || otruthy data.["nginx_snippets"].
Definition nginx_text (data : val) : jstring := (if nginxOk data then "OK" else "—") ++ when (otruthy data.["nginx_live"]) " · :80".
Definition xdpLabel (data : val) : jstring :=
  if data.["xdp_mode"] === vs "kernel-xdp" then t "edgeXdpKernel"
  else if data.["xdp_mode"] === vs "ipset-fallback" then t "edgeXdpIpset" else node (data.["xdp_mode"] ??? vs "—").
Definition live_count (banPreview : bool) (navBanCount : Z) (own : val) : val :=
  if negb banPreview && (0 <? navBanCount) then vn navBanCount else own ??? vn 0.
Definition liveBanCount (banPreview : bool) (navBanCount : Z) (data : val) : val := live_count banPreview navBanCount data.["bans_active"].
Definition ipsetDisplay (banPreview : bool) (navBanCount : Z) (data : val) : val := live_count banPreview navBanCount data.["ipset_entries"].
Definition edge_gate (data : val) : jstring :=
  if otruthy data.["gate_pass"]
  then t "edgeGateOk" ++ " · " ++ node data.["default_nic"] ++ when (otruthy data.["wifi_nic"]) (" (" ++ t "edgeWifiHint" ++ ")")
  else when (otruthy data.["gate_fail_reason"]) (t "edgeGateFail" ++ ": " ++ node data.["gate_fail_reason"]).
Definition edge_filters : list (jstring * jstring) :=
  [("all", t "socFilterAll"); ("incident", t "socKindIncident"); ("ban", t "edgeSocBan"); ("ack", t "edgeSocAck"); ("waf", t "socKindWaf");
   ("lineage", t "edgeSocLineage")].
Definition relay_cell (data : val) : jstring :=
  if otruthy data.["relay_lan"].["pass"] then "OK" else if data.["relay_lan"].["pass"] === vb false then "FAIL" else "—".
Definition smoke_cell (data : val) : jstring :=
  if otruthy data.["eps_smoke"].["pass"]
  then if above data.["eps_smoke"].["peak_eps"] 0 then fix_num 1 data.["eps_smoke"].["peak_eps"] else "OK"
  else "—".
Definition checklist_line (data : val) : jstring :=
  let c := data.["edge_checklist"] in
  when (otruthy c)
    (node c.["pass_n"] ++ "/" ++ node c.["total"] ++ when (above c.["warn_n"] 0) (" · " ++ tmpl c.["warn_n"] ++ " " ++ t "edgeChecklistWarn")).
Definition edge_e9_line (data : val) : jstring :=
  let e := data.["enterprise_e9"] in
  when (otruthy e)
    ((if otruthy e.["pass"] then "OK" else "—") ++ when (otruthy e.["competitive_proof"]) (" · " ++ tmpl e.["competitive_proof"])).
Definition legacy_rows (data : val) : val := data.["intel_ban_db"].["intel_legacy_rows"] ??? data.["threat_intel_legacy_rows"].
Definition intel_line (data : val) : jstring :=
  t "edgeThreatSummary" ++ ": " ++ node (data.["intel_ban_db"].["intel_summary_rows"] ??? data.["threat_intel_summary_rows"] ??? vn 0) ++
  when (above (legacy_rows data) 0) ("· legacy " ++ node (legacy_rows data)).
(** The amber marks: too many rows, too many stale ones. *)
Definition rows_warn (data : val) : bool :=
  let d := data.["intel_ban_db"] in
  (d.["pass"] === vb false) || nlt (num_or d.["max_total_rows"] 50000) (num_or d.["ban_events_total"] 0).
Definition rows_line (data : val) : jstring :=
  t "edgeBanDbRows" ++ ": " ++ node (data.["intel_ban_db"].["ban_events_total"] ??? vs "—") ++
  when (data.["intel_ban_db"].["data_source"] === vs "live") " · live".
Definition stale_warn (data : val) : bool := at_least data.["intel_ban_db"].["stale_rows"] 500.
(** The number of bans, the page it links to, and the hint on the database's number. *)
Definition bans_cell (banPreview : bool) (navBanCount : Z) (data : val) : jstring * option jstring * option jstring :=
  let n := liveBanCount banPreview navBanCount data in
  if nlt nzero (to_num n)
  then (node n, Some "/bans",
        if nlt (to_num n) (num_or data.["bans_active_db"] 0) then Some (t "edgeBansDbHint" ++ " (" ++ tmpl data.["bans_active_db"] ++ ")") else None)
  else (node n, None, None).

(** ** Probes (LineageL7Panel.tsx) *)
Definition wasmOk (data : val) : bool := otruthy data.["wasm"].["pass"] && (data.["wasm"].["mode"] === vs "native").
Definition l7On (data : val) : bool := otruthy data.["l7"].["probe_active"].
Definition l7_badge (data : val) : jstring := if data.["data_mode"] === vs "live" then t "attackMapLive" else t "lineageL7Preview".
Definition execLive (data : val) : bool := otruthy data.["lineage"].["execve_probe"].
Definition wasm_cell (data : val) : jstring * jstring :=
  (node (data.["wasm"].["mode"] ??? vs "—"),
   node (data.["wasm"].["plugins_native"] ??? vn 0) ++ " native · " ++ node (data.["wasm"].["plugin_bytes"] ??? vn 0) ++ " B").
Definition l7_cell (data : val) : jstring * jstring :=
  (if l7On data then "ON" else "OFF", node (data.["l7"].["inspected"] ??? vn 0) ++ " insp · " ++ node (data.["l7"].["blocked"] ??? vn 0) ++ " blk").
Definition lineage_cell (data : val) : jstring * jstring :=
  (node (data.["lineage"].["events"] ??? vn 0),
   node (data.["lineage"].["connects"] ??? vn 0) ++ " connect · execve " ++ (if execLive data then "ON" else "off")).
Definition xdp_cell (data : val) : jstring * jstring :=
  (node (data.["xdp_mode"] ??? vs "—"),
   "IPC " ++ node (data.["ipc"] ??? vs "—") ++ " · XDP " ++ (if otruthy data.["xdp_active"] then "ON" else "OFF")).

(** ** Measurements (CompetitiveMetricsPanel.tsx) *)
Definition bench_eps (data : val) : val := data.["bench"].["log_guardian"].["eps"] ??? vn 0.
Definition rssMb (data : val) : jstring := toFixed 1 (ndiv (num_or data.["bench"].["log_guardian"].["maxrss_kb"] 0) (num_of_Z 1024)).
(** [v != null && v < (target ?? d)] *)
Definition within (v target : val) (d : Z) : bool :=
  match nullish v with Some x => nlt (to_num (Some x)) (num_or target d) | None => false end.
Definition banMs (data : val) : val := data.["ban"].["ban_latency_ms"].
Definition fp_rate (data : val) : val := data.["fp"].["benign"].["fp_rate_pct"].
Definition fpOk (data : val) : bool := within (fp_rate data) data.["fp"].["target_fp_pct"] 5.
Definition banOk (data : val) : bool := within (banMs data) data.["ban"].["target_ms"] 50.
Definition l7Active (data : val) : bool :=
  let p := data.["live"].["l7_http"].["probe_active"] in (p === vb true) || (p === vs "true").
(** The bars: name, value and colour. *)
Definition green (ok : bool) : jstring := if ok then "#16a34a" else "#d97706".
Definition bar (shown : bool) (name : jstring) (v : num) (fill : jstring) : list (jstring * num * jstring) :=
  if shown then [(name, v, fill)] else [].
Definition there (v : val) : bool := match nullish v with Some _ => true | None => false end.
Definition chartData (data : val) : list (jstring * num * jstring) :=
  let bp := data.["live"].["ban_pipeline"] in
  let liveEps := data.["live"].["metrics"].["eps"] in
  [(t "benchEps", to_num (bench_eps data), "#0891b2")] ++
  bar (there liveEps && nlt nzero (to_num liveEps)) (t "benchLiveEps") (nround (to_num liveEps)) "#6366f1" ++
  bar (there (banMs data)) (t "benchBanMs") (to_num (banMs data)) (green (banOk data)) ++
  bar (there (fp_rate data)) (t "benchFpPct") (to_num (fp_rate data)) (green (fpOk data)) ++
  bar (otruthy bp) "IPC" (to_num bp.["ipc"]) "#0891b2" ++ bar (otruthy bp) "XDP" (to_num bp.["xdp"]) "#16a34a" ++
  bar (otruthy bp) "ipset" (to_num bp.["ipset"]) "#d97706".
Definition l7_probe_line (data : val) : jstring :=
  when (otruthy data.["live"].["l7_http"]) (t "benchL7Probe" ++ ": " ++ (if l7Active data then "ON" else "OFF")).
Definition ipc_line (data : val) : jstring :=
  when (otruthy data.["live"].["ipc"])
    ("IPC: " ++ node data.["live"].["ipc"] ++ when (otruthy data.["live"].["daemon"].["xdp_active"]) " · XDP" ++
     when (otruthy data.["live"].["daemon"].["lineage_probe"]) " · lineage").
(** A failed request of this panel and of the next one leaves this document. *)
Definition unavailable : json := JObj [("available", JBool false)].

(** ** False positives (FpMetricsPanel.tsx); hidden without a measurement *)
Definition fp_shown (data : val) : bool := otruthy data.["available"] && there data.["benign"].
Definition fp_ok (data : val) : bool := nlt (to_num data.["benign"].["fp_rate_pct"]) (num_or data.["target_fp_pct"] 5).
Definition minSamples (data : val) : num := num_or data.["fp_trust"].["min_samples"] 100.
Definition trusted (data : val) : num := num_or data.["fp_trust"].["trusted_ips"] 0.
Definition partial (data : val) : num := num_or data.["fp_trust"].["partial_ips"] 0.
Definition warmupPct (data : val) : num :=
  if otruthy data.["fp_trust"].["enabled"]
  then nmin (num_of_Z 100)
         (nround (nmul (ndiv (nadd (trusted data) (nmul (partial data) (num_of_decimal false 5 (-1)))) (nmax (num_of_Z 1) (minSamples data))) (num_of_Z 100)))
  else nzero.
Definition warmed (data : val) : bool := nle (nmin (num_of_Z 10) (ndiv (minSamples data) (num_of_Z 10))) (trusted data).
Definition ema_text (data : val) : jstring := toFixed 1 (nmul (num_or data.["fp_trust"].["tenant_clean_ema"] 0) (num_of_Z 100)) ++ "%".

End panels.

(** ** Incidents (IncidentsPanel.tsx) *)

Module Incidents.
Definition SIGNAL_BITS : list (Z * jstring) :=
  [(1, "log_sqli"); (2, "log_waf"); (4, "log_brute"); (8, "ebpf_execve"); (16, "ebpf_lineage"); (32, "ebpf_outbound")].
Definition decodeSignals (n : option Z) : list jstring :=
  match n with
  | None | Some 0 => []
  | Some n => map snd (jfilter (λ s, negb (Z.land n (fst s) =? 0)) SIGNAL_BITS)
  end.
(** The field is a whole number when it is there. *)
Definition signals (selected : val) : option Z := match selected.["signals"] with Some (JNum x) => num_int x | _ => None end.
Definition detailSignals (selected : val) : list jstring := decodeSignals (signals selected).
Definition ebpfSignals (selected : val) : list jstring := jfilter (starts_with "ebpf_") (detailSignals selected).
Definition logSignals (selected : val) : list jstring := jfilter (starts_with "log_") (detailSignals selected).
(** The marks shown, and the widths of the two parts of the bar in percent. *)
Definition marks (selected : val) : list jstring :=
  jfilter nonempty (match detailSignals selected with [] => [ostr (selected.["primary_signal"] ??? vs "unknown")] | l => l end).
Definition bar_width (l : list jstring) : option Z :=
  if 0 <? Z.of_nat (length l) then Some (Z.min 100 (Z.of_nat (length l) * 25)) else None.
Inductive Risk := Danger | Warning | Plain.
Definition risk (v : val) : Risk :=
  if nle (num_of_Z 85) (to_num v) then Danger else if nle (num_of_Z 50) (to_num v) then Warning else Plain.
Definition hits (selected : val) : val := selected.["log_hits"] ??? selected.["log_hits_detail"].["count"] ??? vn 0.

Record state := { incidents : list json; source : jstring; selected : val; loadingDetail : bool }.
Definition start : state := {| incidents := []; source := []; selected := None; loadingDetail := false |}.
Definition shown_rows (s : state) : list json := slice 0 8 (incidents s).
Definition sourceLabel (t : jstring → jstring) (s : state) : jstring :=
  if source s =s "guardian_api" then t "incidentsLive" else if source s =s "snapshot" then t "incidentsSnapshot"
  else if nonempty (source s) then source s else t "incidentsEmptySource".

(** [Visit q] is the address of the page with [incident=q]; the list is asked for once. *)
Inductive Ev := Mount | Visit (incident : option jstring) | OpenDetail (inc : json) | Close.
Inductive Req := GetList | GetOne (id : val) | GetById (id : jstring).
Inductive Rsp := Answered (v : json) | Failed.
Definition set_detail (v : val) (l : bool) (s : state) : state :=
  {| incidents := incidents s; source := source s; selected := v; loadingDetail := l |}.
Definition on_event (ev : Ev) (s : state) : state * list Req :=
  match ev with
  | Mount => (s, [GetList])
  | Visit q => match truthy_str q with
               | Some id => (set_detail (selected s) true s, [GetById id])
               | None => (s, [])
               end
  | OpenDetail inc => (set_detail (Some inc) true s, [GetOne (Some inc).["incident_id"]])
  | Close => (set_detail None (loadingDetail s) s, [])
  end.
Definition one_of (data : json) : val := (Some data).["incident"] ??? items_of (Some data).["incidents"] !! 0%nat.
Definition stub (id : jstring) : json := JObj [("incident_id", JStr id); ("ip", JStr "—"); ("risk_score", jint 0)].
Definition on_response (q : Req) (r : Rsp) (s : state) : state * list Req :=
  match q, r with
  | GetList, Answered d =>
      ({| incidents := items_of (Some d).["incidents"]; source := ostr ((Some d).["source"] ??? vs []); selected := selected s;
          loadingDetail := loadingDetail s |}, [])
  | GetList, Failed => ({| incidents := []; source := source s; selected := selected s; loadingDetail := loadingDetail s |}, [])
  | GetOne _, Answered d => (set_detail (if otruthy (one_of d) then one_of d else selected s) false s, [])
  | GetOne _, Failed => (set_detail (selected s) false s, [])
  | GetById id, Answered d => (set_detail (if otruthy (one_of d) then one_of d else Some (stub id)) false s, [])
  | GetById id, Failed => (set_detail (Some (stub id)) false s, [])
  end.
Definition page : Type := config state Req.
Definition reach : page → page → Prop := page_reach on_event on_response.
End Incidents.

(** ** An operator's ban (BanTelegramOpsPanel.tsx) *)

Module BanTelegram.
(** [run] numbers the effect: the answer of an earlier address is dropped. *)
Record state := { ip : jstring; run : nat; banned : option bool; copied : bool }.
Definition undoCmd (s : state) : jstring := "bash scripts/telegram_operator_undo.sh " ++ ip s.
Inductive Ev := Show (ip : jstring) | Copied | CopyTimer.
Inductive Req := LoadBans (ip : jstring) (run : nat).
Inductive Rsp := Bans (ips : option (list jstring)) | BadStatus | Failed.
Definition first (i : jstring) : state * list Req := ({| ip := i; run := 0; banned := None; copied := false |}, [LoadBans i 0]).
Definition bans_query (i : jstring) : list (jstring * jstring) := [("search", i); ("limit", "5")].
Definition set_copied (b : bool) (s : state) : state := {| ip := ip s; run := run s; banned := banned s; copied := b |}.
Definition on_event (ev : Ev) (s : state) : state * list Req :=
  match ev with
  | Show i => if i =s ip s then (s, [])
              else ({| ip := i; run := S (run s); banned := banned s; copied := copied s |}, [LoadBans i (S (run s))])
  | Copied => (set_copied true s, [])
  | CopyTimer => (set_copied false s, [])
  end.
Definition set_banned (b : option bool) (s : state) : state := {| ip := ip s; run := run s; banned := b; copied := copied s |}.
Definition on_response (q : Req) (r : Rsp) (s : state) : state * list Req :=
  let '(LoadBans i n) := q in
  let live := Nat.eqb n (run s) in
  match r with
  | Bans ips => (if live then set_banned (Some (existsb (λ b, b =s i) (ips ?? []))) s else s, [])
  | BadStatus => (s, [])
  | Failed => (if live then set_banned None s else s, [])
  end.
Definition notice (t : jstring → jstring) (s : state) : jstring :=
  match banned s with Some true => t "bansTelegramLiveBan" | Some false => t "bansTelegramNotBanned" | None => [] end.
End BanTelegram.

(** ** Navigation (SiteNav.tsx) *)

Module Nav.
Definition active (pathname href : jstring) : bool :=
  if href =s "/" then (pathname =s "/") || (pathname =s "/fleet") else (pathname =s href) || starts_with (href ++ "/") pathname.
Definition linkClass (pathname href : jstring) : jstring := "nav-link " ++ when (active pathname href) "nav-link-active".
Definition hidden (pathname : jstring) : bool := (pathname =s "/login") || (pathname =s "/competitive-proof").
Definition links : list jstring := ["/"; "/reports"; "/tests"; "/copilot"; "/attack-tree"].
End Nav.

(** ** Theorems *)

Lemma bit_land n i : 0 ≤ i → negb (Z.land n (2 ^ i) =? 0) = Z.testbit n i.
Proof.
  intros Hi. destruct (Z.testbit n i) eqn:E.
  - apply negb_true_iff, Z.eqb_neq. intros H. apply (f_equal (λ z, Z.testbit z i)) in H.
    rewrite Z.land_spec, E, Z.pow2_bits_true, Z.bits_0 in H by done. done.
  - apply negb_false_iff, Z.eqb_eq, Z.bits_inj_0. intros j. rewrite Z.land_spec, Z.pow2_bits_eqb by done.
    destruct (Z.eqb_spec i j) as [->|]; [by rewrite E|apply andb_false_r].
Qed.

(** The dialog names exactly the signals whose bit is set in the number of the
    incident: the [i]-th label is among them when bit [i] is set, and not otherwise. *)
Theorem signals_exact n i b lab : Incidents.SIGNAL_BITS !! i = Some (b, lab) →
  lab ∈ Incidents.decodeSignals (Some n) ↔ Z.testbit n (Z.of_nat i) = true.
Proof.
  intros Hi. assert (Hb : b = 2 ^ Z.of_nat i ∧ ∀ j b', Incidents.SIGNAL_BITS !! j = Some (b', lab) → b' = b).
  { do 6 (destruct i as [|i]; [cbn in Hi; simplify_eq; split; [done|];
      intros j b' Hj; do 6 (destruct j as [|j]; [cbn in Hj; by simplify_eq|]); done|]). done. }
  destruct Hb as [-> Hu]. rewrite <- bit_land by lia.
  assert (E : Incidents.decodeSignals (Some n) = map snd (jfilter (λ s, negb (Z.land n (fst s) =? 0)) Incidents.SIGNAL_BITS)).
  { unfold Incidents.decodeSignals. destruct n; [by vm_compute|done|done]. }
  rewrite E, list_elem_of_fmap. split.
  - intros ([b' l'] & -> & Hx). apply jfilter_elem in Hx as [Hx Ht]. apply list_elem_of_lookup_1 in Hx as [j Hj].
    cbn [fst snd] in *. by rewrite <- (Hu j b' Hj).
  - intros Ht. exists (2 ^ Z.of_nat i, lab). split; [done|]. apply jfilter_elem. split; [by eapply list_elem_of_lookup_2|done].
Qed.
Lemma signals_exact_witness :
  Incidents.SIGNAL_BITS !! 3%nat = Some (8, "ebpf_execve") ∧
  ("ebpf_execve" ∈ Incidents.decodeSignals (Some 9) ↔ Z.testbit 9 (Z.of_nat 3) = true).
Proof. split; [done|by apply (signals_exact 9 3 8)]. Defined.

Lemma delete_keep {A} i (l : list A) x y : l !! i = Some y → x ∈ l → x ≠ y → x ∈ delete i l.
Proof.
  intros Hi Hx Hn. rewrite (delete_take_drop l i). rewrite <- (take_drop_middle l i y Hi) in Hx.
  rewrite elem_of_app, elem_of_cons in Hx. rewrite elem_of_app.
  destruct Hx as [Hx|[Hx|Hx]]; [by left|done|by right].
Qed.

(** The mark of the dialog that it waits is true: while it is shown, a request for an
    incident is under way, whatever was opened, closed or answered before. *)
Theorem incident_wait_answered c : Incidents.reach (Cfg Incidents.start []) c →
  Incidents.loadingDetail (current c) = true → ∃ q, q ∈ pending c ∧ q ≠ Incidents.GetList.
Proof.
  intros Hr. refine (page_invariant _ _ (λ c, Incidents.loadingDetail (current c) = true → ∃ q, q ∈ pending c ∧ q ≠ Incidents.GetList) _ c _ _ _ Hr).
  - done.
  - intros [s p] ev s' reqs IH He Hl. destruct ev as [|q|inc|]; cbn in *.
    + simplify_eq. destruct (IH Hl) as (q & Hq & Hn). exists q. split; [apply elem_of_app; by left|done].
    + destruct (truthy_str q) as [id|]; simplify_eq.
      * exists (Incidents.GetById id). split; [apply elem_of_app; right; by apply list_elem_of_singleton|done].
      * destruct (IH Hl) as (q' & Hq & Hn). exists q'. split; [apply elem_of_app; by left|done].
    + simplify_eq. eexists. split; [apply elem_of_app; right; by apply list_elem_of_singleton|done].
    + simplify_eq. destruct (IH Hl) as (q & Hq & Hn). exists q. split; [apply elem_of_app; by left|done].
  - intros [s p] i q r s' reqs IH Hi He Hl. cbn in *.
    destruct q as [|id|id], r as [d|]; cbn in He; simplify_eq; try done;
      cbn in Hl; destruct (IH Hl) as (q & Hq & Hn); exists q;
      (split; [|done]); apply elem_of_app; left; by apply (delete_keep i _ _ Incidents.GetList).
Qed.

Lemma incident_wait_answered_witness :
  ∃ c, Incidents.reach (Cfg Incidents.start []) c ∧ Incidents.loadingDetail (current c) = true ∧
       ∃ q, q ∈ pending c ∧ q ≠ Incidents.GetList.
Proof.
  set (script := [Do (Rsp := Incidents.Rsp) Incidents.Mount; Do (Incidents.Visit (Some "INC-1")); Do Incidents.Close]).
  destruct (play Incidents.on_event Incidents.on_response script (Cfg Incidents.start [])) as [c|] eqn:E; [|by vm_compute in E].
  assert (Hr : Incidents.reach (Cfg Incidents.start []) c) by (eapply play_reach; [exact E|apply reach_start]).
  assert (Hl : Incidents.loadingDetail (current c) = true) by (vm_compute in E; by simplify_eq).
  exists c. split; [done|]. split; [done|]. by apply incident_wait_answered.
Defined.

(** The answer for an incident is shown whatever the dialog shows by then: the dialog
    that was closed opens again, and an incident opened later is replaced by the
    earlier one. *)
Lemma closed_reopens :
  let inc i := JObj [("incident_id", JStr i)] in
  let answer i := Incidents.Answered (JObj [("incident", inc i)]) in
  (λ c, Incidents.selected (current c)) <$>
    play Incidents.on_event Incidents.on_response
      [Do (Incidents.OpenDetail (inc "A")); Do Incidents.Close; Answer 0 (answer "A")] (Cfg Incidents.start []) = Some (Some (inc "A")) ∧
  (λ c, Incidents.selected (current c)) <$>
    play Incidents.on_event Incidents.on_response
      [Do (Incidents.OpenDetail (inc "A")); Do (Incidents.OpenDetail (inc "B")); Answer 1 (answer "B"); Answer 0 (answer "A")]
      (Cfg Incidents.start []) = Some (Some (inc "A")).
Proof. by vm_compute. Qed.

(** An answer on an address changes what the panel says only while that address is
    the one shown, and then to whether the answered list holds it. *)
Theorem telegram_verdict_own i0 c k i n l :
  page_reach BanTelegram.on_event BanTelegram.on_response (Cfg (BanTelegram.first i0).1 (BanTelegram.first i0).2) c →
  pending c !! k = Some (BanTelegram.LoadBans i n) →
  BanTelegram.banned (BanTelegram.on_response (BanTelegram.LoadBans i n) (BanTelegram.Bans (Some l)) (current c)).1 =
    if bool_decide (n = BanTelegram.run (current c)) then Some (bool_decide (BanTelegram.ip (current c) ∈ l))
    else BanTelegram.banned (current c).
Proof.
  intros Hr Hk.
  assert (Hinv : ∀ i n, BanTelegram.LoadBans i n ∈ pending c → (n <= BanTelegram.run (current c))%nat ∧ (n = BanTelegram.run (current c) → i = BanTelegram.ip (current c))).
  { clear k i n l Hk. pattern c. eapply page_invariant; [| | |exact Hr].
    - cbn. intros i' n' Hi. apply list_elem_of_singleton in Hi. by simplify_eq.
    - intros [s p] ev s' reqs IH He i n Hin. cbn in *. apply elem_of_app in Hin. destruct ev as [j| |]; cbn in He.
      + destruct (j =s BanTelegram.ip s); simplify_eq; cbn.
        * destruct Hin as [Hin|Hin]; [by apply IH|by apply not_elem_of_nil in Hin].
        * destruct Hin as [Hin|Hin]; [destruct (IH _ _ Hin); lia|]. apply list_elem_of_singleton in Hin. by simplify_eq.
      + simplify_eq. destruct Hin as [Hin|Hin]; [by apply IH|by apply not_elem_of_nil in Hin].
      + simplify_eq. destruct Hin as [Hin|Hin]; [by apply IH|by apply not_elem_of_nil in Hin].
    - intros [s p] k [j m] r s' reqs IH Hk He i n Hin. cbn in *.
      assert (Hs : BanTelegram.ip s' = BanTelegram.ip s ∧ BanTelegram.run s' = BanTelegram.run s ∧ reqs = [])
        by (destruct r, (Nat.eqb m (BanTelegram.run s)); by simplify_eq).
      destruct Hs as (-> & -> & ->). rewrite app_nil_r in Hin. apply IH. by eapply delete_sub. }
  destruct (Hinv i n (list_elem_of_lookup_2 _ _ _ Hk)) as [_ Hi]. cbn.
  destruct (Nat.eqb_spec n (BanTelegram.run (current c))) as [He|He].
  - rewrite bool_decide_true by done. cbn. rewrite <- (Hi He). f_equal. apply eq_true_iff_eq.
    rewrite existsb_exists, bool_decide_eq_true, list_elem_of_In. split; [intros (x & Hx & He'); apply jeq_true in He'; by subst|].
    intros Hx. exists i. by rewrite jeq_refl.
  - by rewrite bool_decide_false.
Qed.

Lemma telegram_verdict_own_witness :
  let c := Cfg (BanTelegram.first "203.0.113.9").1 (BanTelegram.first "203.0.113.9").2 in
  pending c !! 0%nat = Some (BanTelegram.LoadBans "203.0.113.9" 0) ∧
  BanTelegram.banned (BanTelegram.on_response (BanTelegram.LoadBans "203.0.113.9" 0) (BanTelegram.Bans (Some ["203.0.113.9"])) (current c)).1 = Some true.
Proof.
  split; [done|]. rewrite (telegram_verdict_own "203.0.113.9" _ 0); [by vm_compute|apply reach_start|done].
Defined.

(** The verdict on one address stays when the next address is shown, until its own
    answer comes; a bad status leaves it for good. *)
Lemma verdict_stays :
  (λ c, (BanTelegram.ip (current c), BanTelegram.banned (current c), pending c)) <$>
    play BanTelegram.on_event BanTelegram.on_response
      [Answer 0 (BanTelegram.Bans (Some ["203.0.113.9"])); Do (BanTelegram.Show "198.51.100.7"); Answer 0 BanTelegram.BadStatus]
      (Cfg (BanTelegram.first "203.0.113.9").1 (BanTelegram.first "203.0.113.9").2) = Some ("198.51.100.7" : jstring, Some true, []).
Proof. by vm_compute. Qed.

(** The panel asks for the first five addresses that contain the shown one, so a banned
    address is called not banned when five others come before it. *)
Lemma banned_missed :
  let ips := ["102.1.1.1"; "112.1.1.1"; "12.1.1.1"; "122.1.1.1"; "132.1.1.1"; "2.1.1.1"] in
  let opts := bans_opts (mk_request "/api/bans" [] [] (BanTelegram.bans_query "2.1.1.1") None) in
  let answer := map be_ip (br_bans (packResult (H := ascii_case) ips 6 "ipset" opts)) in
  "2.1.1.1" ∈ ips ∧
  (λ c, BanTelegram.banned (current c)) <$>
    play BanTelegram.on_event BanTelegram.on_response [Answer 0 (BanTelegram.Bans (Some answer))]
      (Cfg (BanTelegram.first "2.1.1.1").1 (BanTelegram.first "2.1.1.1").2) = Some (Some false).
Proof. cbv zeta. split; [|by vm_compute]. apply (bool_decide_unpack _). by vm_compute. Qed.

Lemma active_prefix p h : Nav.active p h = true → h ≠ "/" → ∃ t, p = h ++ t.
Proof.
  unfold Nav.active. intros Ha Hh. apply jeq_false in Hh. rewrite Hh in Ha.
  apply orb_true_iff in Ha as [Ha|Ha]; [apply jeq_true in Ha as ->; exists []; by rewrite app_nil_r|].
  apply starts_with_spec in Ha as [t ->]. exists ("/" ++ t). by rewrite <- app_assoc.
Qed.
(** On every page at most one link of the navigation is marked as the current one. *)
Theorem nav_one_active p a b : a ∈ Nav.links → b ∈ Nav.links → Nav.active p a = true → Nav.active p b = true → a = b.
Proof.
  assert (Hroot : ∀ h, h ∈ Nav.links → h ≠ "/" → Nav.active p "/" = true → Nav.active p h = true → False).
  { intros h Hh Hn Hp Ha. unfold Nav.active at 1 in Hp. rewrite jeq_refl in Hp. apply orb_true_iff in Hp as [Hp|Hp]; apply jeq_true in Hp as ->;
      repeat (apply elem_of_cons in Hh as [->|Hh]; [done|]); by apply not_elem_of_nil in Hh. }
  intros Ha Hb Hpa Hpb.
  destruct (decide (a = "/")) as [->|Na], (decide (b = "/")) as [->|Nb]; [done|by destruct (Hroot b)|by destruct (Hroot a)|].
  destruct (active_prefix _ _ Hpa Na) as [ta ->], (active_prefix _ _ Hpb Nb) as [tb E].
  repeat (apply elem_of_cons in Ha as [->|Ha]; [|]); try (by apply not_elem_of_nil in Ha);
    repeat (apply elem_of_cons in Hb as [->|Hb]; [first [done|by destruct Na|by destruct Nb|discriminate E]|]); by apply not_elem_of_nil in Hb.
Qed.
Lemma nav_one_active_witness : Nav.active "/reports/pci" "/reports" = true ∧ "/reports" = ("/reports" : jstring).
Proof.
  split; [done|]. apply (nav_one_active "/reports/pci" "/reports" "/reports"); try done; right; left.
Defined.

(** Each check of the runbook that links to the test page names a test of that page. *)
Theorem check_links_exist reports k h : (k, h) ∈ CHECK_TEST_HASH → starts_with "test-" h = true →
  drop 5 h ∈ map fst (gates reports).
Proof.
  intros Hk Hh. repeat (apply elem_of_cons in Hk as [E|Hk]; [simplify_eq; try done; apply (bool_decide_unpack _); by vm_compute|]).
  by apply not_elem_of_nil in Hk.
Qed.
Lemma check_links_exist_witness : "vps-xdp-kernel" ∈ map fst (gates None).
Proof. apply (check_links_exist None "vps_prep" "test-vps-xdp-kernel"); [apply (bool_decide_unpack _); by vm_compute|done]. Defined.

Lemma nmin_le x y : is_nan (nmin x y) = true ∨ nle (nmin x y) x = true.
Proof.
  unfold nmin. destruct (is_nan x || is_nan y) eqn:En; [by left|right]. apply orb_false_iff in En as [Ex Ey].
  assert (Hr : ∀ z, is_nan z = false → nle z z = true).
  { intros [[]|[]| |[] m e] Hz; try done; unfold nle, SFleb, SFcompare; rewrite Z.compare_refl, Pos.compare_refl; done. }
  destruct (nlt y x) eqn:El.
  - unfold nlt, SFltb in El. unfold nle, SFleb. by destruct (SFcompare y x) as [[]|].
  - destruct x as [[]|[]| |[] m e], y as [[]|[]| |[] m' e']; try done; by apply Hr.
Qed.
(** The bar of the trust measurement never leaves its frame: its width is at most 100
    percent, or not a number. *)
Theorem warmup_bounded data : is_nan (warmupPct data) = true ∨ nle (warmupPct data) (num_of_Z 100) = true.
Proof. unfold warmupPct. destruct (otruthy _); [apply nmin_le|by right]. Qed.
