(* ===== verification/HomeView.v ===== *)
(** What the home page shows: its tenant menu, key figures and agent cards
    (dashboard/src/app/page.tsx), the panel of the security timeline
    (components/SocTimelinePanel.tsx) and the panel of the attack map
    (components/AttackWorldMap.tsx), as the texts, marks and actions on the screen
    for a state of the page. *)

From S2P Require Import Prelude JsMap JsString JsNum Json JsValue CopilotText I18n BanUtils BanExec BansPage SocTimeline AttackMap BanClient SocPanel FleetPage.

(** How the browser writes integers and times: [toLocaleString] of a number, and of
    a date with the short month, day, hour and minute. *)
Class Printing := {
  local_count : Z → jstring;
  local_short : Z → jstring;                           (* of milliseconds *)
  relative : jstring → Z → Unit_ → jstring;            (* [Intl.RelativeTimeFormat] *)
}.

Definition shown_if {A} (b : bool) (x : A) : option A := if b then Some x else None.
Definition len {A} (l : list A) : Z := Z.of_nat (length l).
Lemma shown_some {A} b (x y : A) : shown_if b x = Some y ↔ b = true ∧ y = x.
Proof. destruct b; cbn; naive_solver. Qed.
Lemma len_pos {A} (l : list A) : 0 < len l ↔ l ≠ [].
Proof. unfold len. destruct l; cbn; split; (done || lia). Qed.

(** ** The fleet *)

Module Fleet.
Section view.
Context `{Printing} (l : Lang) (locale : jstring).

(** A line of the tenant menu: its identifier, text, count, dot, highlight, and what
    a click does. *)
Record MenuItem := {
  mi_dom : jstring; mi_tenant : jstring; mi_label : jstring; mi_count : jstring; mi_dot : option jstring; mi_active : bool;
}.
Definition mi_click (i : MenuItem) : event := SelectTenant (mi_tenant i) true.
Definition item_all (s : state) : MenuItem :=
  {| mi_dom := "tenant-option-all"; mi_tenant := "*"; mi_label := text l "allTenants";
     mi_count := dec (len (tenants s)) ++ " " ++ text l "tenantsCount"; mi_dot := None;
     mi_active := selectedTenant s =s "*" |}.
Definition online_of (t : TenantInfo) : jstring := dec (online_agents t) ++ "/" ++ dec (agent_count t).
Definition item_tenant (s : state) (p : nat * TenantInfo) : MenuItem :=
  {| mi_dom := "tenant-option-" ++ ti_id p.2; mi_tenant := ti_id p.2; mi_label := ti_id p.2;
     mi_count := online_of p.2 ++ " online"; mi_dot := dot_class <$> tenantColor p.1;
     mi_active := selectedTenant s =s ti_id p.2 |}.
(** The menu, and its remark when nobody is connected. *)
Definition tenant_menu (s : state) : option (list MenuItem * option jstring) :=
  shown_if (tenantDropOpen s)
    (item_all s :: map (item_tenant s) (numbered (tenants s)),
     shown_if (len (tenants s) =? 0) ("No tenants connected yet" : jstring)).

(** The pulse before the number of nodes. *)
Definition online_pulse (s : state) : bool := 0 <? activeAgents (globalStats s).

(** The bar of tenants: shown while none is chosen. *)
Record Segment := { sg_dom : jstring; sg_tenant : jstring; sg_online : jstring; sg_badge : option jstring }.
Definition sg_click (g : Segment) : event := SelectTenant (sg_tenant g) false.
Definition segment_of (p : nat * TenantInfo) : Segment :=
  {| sg_dom := "tenant-seg-" ++ ti_id p.2; sg_tenant := ti_id p.2; sg_online := online_of p.2;
     sg_badge := badge <$> tenantColor p.1 |}.
Definition segments (s : state) : list Segment :=
  if (selectedTenant s =s "*") && (0 <? len (tenants s)) then map segment_of (numbered (tenants s)) else [].

(** The six figures: identifier, heading, number, remark, and the lamp with its text. *)
Record Kpi := {
  kp_dom : jstring; kp_title : jstring; kp_value : jstring; kp_note : option jstring; kp_lamp : option (bool * jstring);
}.
Definition kpi_cards (s : state) : list Kpi :=
  let g := globalStats s in
  let up := match tlsStatus s with Some x => uprobe_active x | None => false end in
  let etcd := match tlsStatus s with Some x => etcd_connected x | None => false end in
  [{| kp_dom := "kpi-eps"; kp_title := text l "globalEps"; kp_value := toFixed 1 (totalEps g);
      kp_note := shown_if (epsFromLive s) (text l "epsLiveMetrics"); kp_lamp := None |};
   {| kp_dom := "kpi-rce"; kp_title := text l "rcePrevented"; kp_value := local_count (totalRce g);
      kp_note := shown_if (snapshot_hint s) (text l "kpiSnapshotHint"); kp_lamp := None |};
   {| kp_dom := "kpi-tarpit"; kp_title := text l "activeTarpits"; kp_value := local_count (totalTarpit g);
      kp_note := None; kp_lamp := None |};
   {| kp_dom := "kpi-k8s"; kp_title := text l "k8sIsolated"; kp_value := local_count (totalK8sKills g);
      kp_note := None; kp_lamp := None |};
   {| kp_dom := "kpi-tls"; kp_title := text l "tlsDecrypted"; kp_value := local_count (totalTlsDecrypted g);
      kp_note := None; kp_lamp := Some (up, if up then text l "uprobeActive" else text l "noUprobe") |};
   {| kp_dom := "kpi-etcd"; kp_title := text l "etcdPeers"; kp_value := dec (etcdPeers g);
      kp_note := None; kp_lamp := Some (etcd, if etcd then text l "raftConsensus" else text l "disconnected") |}].

(** The agents handed to the charts; no charts for an empty fleet. *)
Definition charted (s : state) : option (list (jstring * num * Z * jstring)) :=
  shown_if (0 <? len (fleet s)) (map (λ a, (agent_id a, eps a, alerts_total a, status_key a)) (fleet s)).

(** The quick ban: the toast with its colour, and whether the button can be pressed. *)
Definition toast_line (s : state) : option (jstring * jstring) :=
  (λ t : bool * jstring,
     (if t.1 then "bg-green-500/15 text-green-300 border border-green-500/30"
      else "bg-amber-500/15 text-amber-200 border border-amber-500/30", t.2)) <$> banToast s.
Definition ban_enabled (s : state) : bool := nonempty (commandIp s).

(** The heading of the grid, and whether the choice can be taken back there. *)
Definition nodes_heading (s : state) : jstring :=
  if selectedTenant s =s "*" then text l "guardianNodes" else text l "guardianNodes" ++ " — " ++ selectedTenant s.
Definition clear_filter (s : state) : option (jstring * event) :=
  shown_if (negb (selectedTenant s =s "*")) ("(" ++ text l "clearFilter" ++ ")", SelectTenant "*" false).

(** The card of an agent. *)
Record Card := {
  cd_id : jstring; cd_class : jstring; cd_hostname : option jstring; cd_seen : jstring; cd_queue : option jstring;
  cd_status : jstring * jstring;               (* colours and text *)
  cd_tenant : option jstring * jstring;
  cd_traffic : jstring; cd_unique : jstring; cd_tls : option jstring; cd_etcd : option jstring;
  cd_footer : list jstring; cd_lines : jstring;
}.
Definition card (now : Z) (s : state) (a : Agent) : Card :=
  let shadow := remote_shadow a in
  {| cd_id := agent_id a;
     cd_class := "glass-panel p-5 border-l-4 " ++ onlineBorder s a ++ " " ++ (if shadow then "border border-sky-500/15" else []);
     cd_hostname := if shadow then truthy_str (hostname a) else None;
     cd_seen := if shadow then text l "fleetRemoteLastPull"
                else text l "lastSeenAgo" ++ ": " ++ formatTimeAgo relative now (Some (last_seen a)) locale;
     cd_queue := shown_if (negb (online a) && negb shadow) (text l "agentOfflineQueue");
     cd_status := (if shadow then "bg-sky-500/15 text-sky-300"
                   else if online a then "bg-primary/20 text-primary" else "bg-danger/20 text-danger",
                   if shadow then text l "fleetRemoteMonitor" else status_key a);
     cd_tenant := (badge <$> card_color s a, tenant_id a);
     cd_traffic := toFixed 1 (eps a) ++ " EPS"; cd_unique := dec (unique_ips a);
     cd_tls := local_count <$> tls_decrypted a; cd_etcd := dec <$> etcd_peers a;
     cd_footer := [dec (rce_detections a); dec (tarpit_active a); dec (mesh_peers a)];
     cd_lines := local_count (total_lines a) ++ " lines" |}.
Inductive Grid := NoAgents (title hint : jstring) | Cards (cs : list Card).
Definition grid (now : Z) (s : state) : Grid :=
  if len (fleet s) =? 0
  then NoAgents (if selectedTenant s =s "*" then text l "noAgents" else text l "noAgentsTenant")
                (if selectedTenant s =s "*" then text l "startAgentHint" else text l "tryOtherTenant")
  else Cards (map (card now s) (sortedFleet s)).

(** *** The tenant menu *)

Lemma filter_key {A} (f : A → jstring) k (xs : list A) : NoDup (map f xs) → k ∈ map f xs →
  ∃ i, jfilter (λ x, k =s f x) xs = [i] ∧ f i = k.
Proof.
  unfold jfilter. induction xs as [|x xs IH]; cbn [map List.filter]; [by intros _ ?%elem_of_nil|]. intros [Hn Hd]%NoDup_cons Hk.
  destruct (k =s f x) eqn:E; bprop.
  - exists x. split; [|done]. f_equal. subst k. clear IH Hd Hk. induction xs as [|y xs IHx]; [done|]. cbn in *.
    apply not_elem_of_cons in Hn as [Hn Hm]. destruct (f x =s f y) eqn:E; bprop; [done|]. by apply IHx.
  - apply elem_of_cons in Hk as [->|Hk]; [done|]. by apply IH.
Qed.

(** Whichever line of the open menu is clicked, the menu closes, the tenant of the
    line is chosen, and the next poll asks for that tenant and no other; the lines
    are the choice of all tenants and the tenants of the last answer. *)
Theorem menu_selects s items remark : tenant_menu s = Some (items, remark) →
  map mi_tenant items = ("*" : jstring) :: map ti_id (tenants s) ∧
  ∀ i, i ∈ items →
    let s' := (on_event (mi_click i) s).1 in
    tenant_menu s' = None ∧ selectedTenant s' = mi_tenant i ∧ (on_event (mi_click i) s).2 = [] ∧
    (on_event Poll s').2 = [QAll (mi_tenant i)] ∧
    all_headers (mi_tenant i) = if mi_tenant i =s "*" then [] else [("X-Tenant-ID", mi_tenant i)].
Proof.
  intros [_ [= -> ->]]%shown_some. split; [|done]. cbn. f_equal. rewrite map_map. cbn.
  rewrite <- (numbered_snd (tenants s)) at 2. change ((numbered (tenants s)).*2) with (map snd (numbered (tenants s))). by rewrite map_map.
Qed.

(** While the tenant chosen is still listed, exactly its line is highlighted. *)
Theorem menu_highlight s items remark : tenant_menu s = Some (items, remark) →
  NoDup (map mi_tenant items) → selectedTenant s ∈ map mi_tenant items →
  ∃ i, jfilter mi_active items = [i] ∧ mi_tenant i = selectedTenant s.
Proof.
  intros [_ [= -> ->]]%shown_some Hd Hs. destruct (filter_key mi_tenant _ _ Hd Hs) as (i & Hf & Hi).
  exists i. split; [|done]. rewrite <- Hf. apply filter_ext_in. intros j [<-|(p & <- & _)%in_map_iff]; done.
Qed.

(** *** The grid *)

Lemma none_pass {A} (p : A → bool) (xs : list A) : ¬ 0 < len (jfilter p xs) ↔ Forall (λ x, p x = false) xs.
Proof.
  rewrite len_pos. unfold jfilter. induction xs as [|x xs IH]; cbn [List.filter]; [split; [constructor|by intros _ []]|].
  rewrite Forall_cons, <- IH. destruct (p x); split; try tauto; [|by intros []]. intros Hc. by destruct Hc.
Qed.

Definition queued (c : Card) : bool := match cd_queue c with Some _ => true | None => false end.
Lemma queue_notes now s agents :
  length (jfilter queued (map (card now s) agents)) =
  length (jfilter (λ a, negb (online a)) (jfilter (λ a, negb (remote_shadow a)) agents)).
Proof.
  induction agents as [|a agents IH]; [done|]. unfold jfilter in *. cbn [map List.filter]. unfold queued at 1. cbn [card cd_queue].
  destruct (remote_shadow a), (online a) eqn:Eo; cbn [negb andb shown_if List.filter]; rewrite ?Eo; cbn [negb length]; congruence.
Qed.
Lemma offline_count s : offlineCount s = len (jfilter (λ a, negb (online a)) (laptopFleet s)).
Proof.
  unfold offlineCount, len. induction (laptopFleet s) as [|a l' IH]; [done|]. unfold jfilter in *. cbn [List.filter].
  destruct (online a); cbn [negb length]; lia.
Qed.

(** Every agent of the fleet has its card, once; and the banner above counts the
    cards that say their commands are queued. *)
Theorem grid_exact now s : fleet s ≠ [] → ∃ cs,
  grid now s = Cards cs ∧ map cd_id cs ≡ₚ map agent_id (fleet s) ∧
  offlineCount s = len (jfilter queued cs) ∧
  (offline_banner l s = None ↔ Forall (λ c, cd_queue c = None) cs).
Proof.
  intros Hf%len_pos. exists (map (card now s) (sortedFleet s)). unfold grid. rewrite (proj2 (Z.eqb_neq _ _)) by lia.
  assert (Hn : offlineCount s = len (jfilter queued (map (card now s) (sortedFleet s)))).
  { rewrite offline_count. unfold len, laptopFleet. rewrite queue_notes. f_equal. apply Permutation_length.
    unfold jfilter. by rewrite (proj1 (fleet_sorted s)). }
  splits; [done| |done|].
  - rewrite map_map. cbn. by rewrite (proj1 (fleet_sorted s)).
  - unfold offline_banner. rewrite Hn. set (cs := map _ _).
    assert (Hq : 0 < len (jfilter queued cs) → laptopFleet s ≠ []).
    { intros Hp Hl. unfold cs in Hp. rewrite <- Hn in Hp. rewrite offline_count, Hl in Hp. done. }
    transitivity (¬ 0 < len (jfilter queued cs)).
    + destruct (0 <? _) eqn:E; bprop; [|split; (done || lia)]. rewrite bool_decide_true by auto. cbn. split; [done|by intros []].
    + rewrite none_pass. apply Forall_iff. intros c. unfold queued. by destruct (cd_queue c).
Qed.

(** *** The quick ban *)

(** The button can be pressed exactly when pressing it asks for a ban, of the
    address in the field; the answer empties the field only when there is one. *)
Lemma ban_button s :
  (ban_enabled s = true ↔ (on_event (ClickBan l) s).2 = [QBan (commandIp s) l]) ∧
  (ban_enabled s = false → on_event (ClickBan l) s = (s, [])).
Proof. unfold ban_enabled. cbn. unfold handleCommand. by destruct (nonempty (commandIp s)). Qed.
End view.
End Fleet.

(** ** Links to the bans page *)

(** The address of the bans page for an IP; a lone surrogate throws. *)
Definition bans_link (ip : jstring) : option jstring := app "/bans?search=" <$> encodeURIComponent ip.

Lemma quad_trim ip : dotted_quad ip → trim ip = ip.
Proof.
  intros H%dotted_quad_chars. apply trim_no_space. intros c Hc. rewrite Forall_forall in H. destruct (H c Hc) as [?| ->]; [by apply digit_not_space|done].
Qed.
(** Following the link of an address: the link carries the address as it is, and the
    bans page it opens has the address in its search field and asks for it first. *)
Theorem link_opens ctx ip : dotted_quad ip →
  bans_link ip = Some ("/bans?search=" ++ ip) ∧
  (search_effect (Some ip) (BansPage.start ctx)).2 = [BansPage.Load 0 (Some ip) ctx] ∧
  BansPage.filter (search_effect (Some ip) (BansPage.start ctx)).1 = ip.
Proof.
  intros Hq. assert (Hne : ip ≠ []) by (intros ->; by apply ipv4_dotted in Hq). split.
  { unfold bans_link. by rewrite encode_quad. }
  unfold search_effect. cbn [BansPage.start searchBoot fmap option_fmap option_map]. rewrite quad_trim by done.
  unfold loadPage. destruct ip as [|c ip]; [done|]. cbn [truthy_str nonempty fmap option_fmap option_map].
  change (truthy_str (Some (c :: ip))) with (Some (c :: ip)). cbn -[trim]. by rewrite quad_trim.
Qed.

(** ** The timeline *)

(** The kinds in a fixed order of cases, each with the class of a colour. *)
Definition kind_hue (k : SocTimelineKind) : jstring :=
  match k with
  | KindIncident => "amber" | KindBan => "red" | KindLineage => "violet" | KindWaf => "orange" | KindAck => "emerald"
  end.

Module Timeline.

Definition kindIcon (k : SocTimelineKind) : jstring * jstring :=
  match k with
  | KindIncident => ("ShieldAlert", "w-4 h-4 text-amber-400")
  | KindBan => ("Ban", "w-4 h-4 text-red-400")
  | KindLineage => ("GitBranch", "w-4 h-4 text-violet-400")
  | KindWaf => ("Bell", "w-4 h-4 text-orange-400")
  | KindAck => ("CheckCircle2", "w-4 h-4 text-emerald-400")
  end.
Definition kindRailClass (k : SocTimelineKind) : jstring :=
  match k with
  | KindIncident => "from-amber-400/80 via-amber-500/30 to-transparent"
  | KindBan => "from-red-400/80 via-red-500/30 to-transparent"
  | KindLineage => "from-violet-400/80 via-violet-500/30 to-transparent"
  | KindWaf => "from-orange-400/80 via-orange-500/30 to-transparent"
  | KindAck => "from-emerald-400/80 via-emerald-500/30 to-transparent"
  end.
Definition kindDotClass (k : SocTimelineKind) : jstring :=
  match k with
  | KindIncident => "bg-amber-400 border-amber-300/60 shadow-[0_0_8px_rgba(251,191,36,0.45)]"
  | KindBan => "bg-red-500 border-red-300/60 shadow-[0_0_8px_rgba(239,68,68,0.45)]"
  | KindLineage => "bg-violet-400 border-violet-300/60 shadow-[0_0_8px_rgba(167,139,250,0.45)]"
  | KindWaf => "bg-orange-400 border-orange-300/60 shadow-[0_0_8px_rgba(251,146,60,0.45)]"
  | KindAck => "bg-emerald-400 border-emerald-300/60 shadow-[0_0_8px_rgba(52,211,153,0.45)]"
  end.
Definition chip_base (active : bool) : jstring :=
  if active then "border-white/25 bg-white/10 text-white"
  else "border-white/10 bg-white/[0.03] text-white/55 hover:text-white/80 hover:border-white/20".
Definition chip_accent (k : SocTimelineKind) : jstring :=
  match k with
  | KindIncident => "border-amber-400/40 text-amber-200" | KindWaf => "border-orange-400/40 text-orange-200"
  | KindBan => "border-red-400/40 text-red-200" | KindAck => "border-emerald-400/40 text-emerald-200"
  | KindLineage => "border-violet-400/40 text-violet-200"
  end.
Definition kindChipClass (k : SocTimelineKind) (active : bool) : jstring :=
  "text-xs px-3 py-1.5 rounded-full border transition-colors " ++ chip_base active ++ " " ++ (if active then chip_accent k else []).
Definition kindLabels (l : Lang) (k : SocTimelineKind) : jstring :=
  match k with
  | KindIncident => text l "socKindIncident" | KindBan => text l "socKindBan" | KindLineage => text l "socKindLineage"
  | KindWaf => text l "socKindWaf" | KindAck => text l "socKindAck"
  end.

(** The icon, the dot and the rail of a kind have one hue, and the hues differ. *)
Lemma kind_hues k :
  includes (kind_hue k) (kindIcon k).2 = true ∧ includes (kind_hue k) (kindRailClass k) = true ∧
  includes (kind_hue k) (kindDotClass k) = true ∧ includes (kind_hue k) (kindChipClass k true) = true ∧
  includes (kind_hue k) (kindChipClass k false) = false ∧ ∀ k', kind_hue k = kind_hue k' → k = k'.
Proof. split_and!; [by destruct k..|]. intros k'. by destruct k, k'. Qed.

(** *** The answers *)

Record Response := { entries_of : option (list SocTimelineEntry); sources : option (jstring * jstring * jstring); data_mode : option jstring }.
Record state := { data : option Response; loading : bool }.
Definition mounted : state := {| data := None; loading := true |}.
(** A status that is no success; a document; anything thrown. *)
Inductive Reply := Refused | Document (d : Response) | Broken.
Definition load (cancelled : bool) (r : Reply) (s : state) : state :=
  if cancelled then s
  else {| data := match r with Refused => data s | Document d => Some d | Broken => None end; loading := false |}.
Definition entries (s : state) : list SocTimelineEntry := (data s ≫= entries_of) ?? [].

Section view.
Context `{Printing} (l : Lang).

Definition fmtTs (ts : Z) : jstring := if ts =? 0 then "—" else local_short (ts * 1000).

Record Row := {
  rw_entry : SocTimelineEntry; rw_dot : jstring; rw_rail : option jstring; rw_icon : jstring * jstring; rw_kind : jstring;
  rw_time : jstring; rw_risk : option jstring; rw_ip : option (option jstring * jstring); rw_onmap : option jstring;
  rw_href : option jstring;
}.
Definition risk_badge (e : SocTimelineEntry) : option jstring :=
  match se_risk e with
  | Some x => shown_if (nle (num_of_Z 70) x) ("risk " ++ toFixed 0 x)
  | None => None
  end.
Definition on_map (k : SocTimelineKind) : bool := match k with KindBan | KindAck => true | _ => false end.
Definition row (last : nat) (p : nat * SocTimelineEntry) : Row :=
  let e := p.2 in
  let ip := truthy_str (se_ip e) in
  {| rw_entry := e; rw_dot := kindDotClass (se_kind e);
     rw_rail := shown_if (negb (Nat.eqb p.1 last)) (kindRailClass (se_kind e));
     rw_icon := kindIcon (se_kind e); rw_kind := kindLabels l (se_kind e); rw_time := fmtTs (se_ts e);
     rw_risk := risk_badge e; rw_ip := (λ ip, (bans_link ip, "IP · " ++ ip)) <$> ip;
     rw_onmap := match ip with Some _ => shown_if (on_map (se_kind e)) (text l "socShowOnMap") | None => None end;
     rw_href := truthy_str (se_href e) |}.
Definition rows (f : SocKindFilter) (s : state) : list Row :=
  let es := filteredEntries f (entries s) in map (row (length es - 1)) (numbered es).

(** The panel: its count, the remarks of a filter, the badge of the source, the line
    of sources, the chips with their classes, the hints, and the rows. *)
Record Panel := {
  pn_count : jstring; pn_linked : option (jstring * jstring); pn_mode : option jstring; pn_export : option (jstring * jstring);
  pn_sources : option jstring; pn_all : jstring * bool; pn_chips : list (SocTimelineKind * jstring * jstring);
  pn_ack : option jstring; pn_parity : option jstring; pn_scroll : option jstring; pn_rows : list Row; pn_nomatch : option jstring;
}.
Inductive View := Pulse | NoEvents (lines : list jstring) (link : jstring) | Shown (p : Panel).
Definition mode_badge (m : option jstring) : option jstring :=
  m ≫= λ m, if m =s "live" then Some (text l "socTimelineLive")
             else if m =s "live_partial" then Some (text l "socTimelineLivePartial")
             else if m =s "preview" then Some (text l "socTimelinePreview") else None.
Definition panel (f : SocKindFilter) (b : BannedIps) (s : state) : Panel :=
  let es := filteredEntries f (entries s) in
  {| pn_count := dec (len es) ++ "/" ++ dec (len (entries s));
     pn_linked := shown_if (negb (bool_decide (f = FAll))) (text l "socFilterLinked", text l "socFilterMapLink");
     pn_mode := mode_badge (data s ≫= data_mode);
     pn_export := shown_if (0 <? len es) (text l "socTimelineExportCsv", csv_name f);
     pn_sources := (λ x : jstring * jstring * jstring,
         text l "socTimelineSources" ++ ": inc=" ++ x.1.1 ++ " · ban=" ++ x.1.2 ++ " · lg=" ++ x.2) <$> (data s ≫= sources);
     pn_all := (text l "socFilterAll" ++ " " ++ dec (len (entries s)), bool_decide (f = FAll));
     pn_chips := map (λ c : SocTimelineKind * Z,
         (c.1, kindLabels l c.1 ++ " " ++ dec c.2, kindChipClass c.1 (bool_decide (f = FKind c.1)))) (chips (entries s));
     pn_ack := shown_if (0 <? count_of KindAck (entries s)) (text l "socAckChipHint");
     pn_parity := shown_if (bool_decide (f = FKind KindBan) && banParityOk b (entries s)) (text l "socBanParityHint");
     pn_scroll := shown_if (3 <? len es) (dec (len es) ++ " " ++ text l "socScrollHint");
     pn_rows := rows f s;
     pn_nomatch := shown_if (len es =? 0) (text l "socFilterNoMatch") |}.
Definition view (f : SocKindFilter) (b : BannedIps) (s : state) : View :=
  if loading s then Pulse
  else if len (entries s) =? 0
  then NoEvents [text l "socTimelineTitle"; text l "socTimelineSubtitle"; text l "socTimelineEmpty"] "/attack-tree"
  else Shown (panel f b s).

(** A chip filters and does not scroll; the button of a row filters by the row's kind
    and scrolls to the map. *)
Definition press_chip (k : SocTimelineKind) (s : FilterState) : FilterState := setKindFilter (FKind k) false s.
Definition goto_map (s : FilterState) : FilterState := {| kindFilter := kindFilter s; hash := hash s; scrolls := scrolls s ++ [ToMap] |}.
Definition press_onmap (r : Row) (s : FilterState) : FilterState :=
  goto_map (setKindFilter (FKind (se_kind (rw_entry r))) false s).

(** *** What the rows and chips promise *)

Lemma rows_entries f s : map rw_entry (rows f s) = filteredEntries f (entries s).
Proof.
  unfold rows. rewrite map_map. cbn. set (es := filteredEntries f (entries s)). rewrite <- (numbered_snd es) at 2. done.
Qed.
Lemma filtered_elem f es e : e ∈ filteredEntries f es ↔ e ∈ es ∧ (f = FAll ∨ f = FKind (se_kind e)).
Proof.
  destruct f as [|k]; cbn; [naive_solver|]. rewrite jfilter_elem, bool_decide_eq_true. naive_solver.
Qed.

(** A kind has a chip exactly when an entry has the kind. *)
Lemma chip_iff k es : (∃ n, (k, n) ∈ chips es) ↔ filteredEntries (FKind k) es ≠ [].
Proof.
  assert (Hc : (∃ n, (k, n) ∈ chips es) ↔ count_of k es ≠ 0).
  { unfold chips. setoid_rewrite list_elem_of_omap. split.
    - intros (n & k' & _ & Hk). cbn in Hk. destruct (_ =? 0) eqn:E; bprop; [done|]. by injection Hk as -> _.
    - intros Hn. exists (count_of k es), k. split; [by destruct k; repeat constructor|]. cbn. by rewrite (proj2 (Z.eqb_neq _ _)). }
  rewrite Hc. destruct (kind_counts_exact es) as (ips & Hd & Hi & Hk & Hb & _).
  destruct (decide (k = KindBan)) as [->|Hne]; [|rewrite Hk by done; destruct (filteredEntries (FKind k) es); cbn; split; (done || lia)].
  rewrite Hb. split.
  - intros Hn He. destruct ips as [|ip ips].
    + destruct (jfilter (plain KindBan) es) as [|e es'] eqn:Ep; [done|].
      assert (Hp : e ∈ jfilter (plain KindBan) es) by (rewrite Ep; left). apply jfilter_elem in Hp as [Hin Hp]. unfold plain in Hp. bprop.
      eapply (not_elem_of_nil e). rewrite <- He. apply filtered_elem. split; [done|right; congruence].
    + destruct (proj1 (Hi ip) ltac:(left)) as (e & Hin & Hw). unfold with_ip in Hw. destruct (bool_decide _) eqn:E; [|done]. bprop.
      eapply (not_elem_of_nil e). rewrite <- He. apply filtered_elem. split; [done|right; congruence].
  - destruct (filteredEntries (FKind KindBan) es) as [|e es'] eqn:Ee; [done|]. intros _.
    assert (Hin : e ∈ filteredEntries (FKind KindBan) es) by (rewrite Ee; left). apply filtered_elem in Hin as [Hin [|[= Hkd]]]; [done|].
    destruct (with_ip e) as [ip|] eqn:Ew.
    + assert (Hx : ip ∈ ips) by (apply Hi; eauto). destruct ips; [by apply elem_of_nil in Hx|cbn; lia].
    + assert (Hx : e ∈ jfilter (plain KindBan) es).
      { apply jfilter_elem. split; [done|]. unfold plain. rewrite Ew, bool_decide_true by congruence. done. }
      destruct (jfilter (plain KindBan) es); [by apply elem_of_nil in Hx|cbn; lia].
Qed.

(** Pressing any chip of the panel leaves a list that is not empty and has entries of
    that kind only; every kind that occurs has its chip. *)
Theorem chip_press f b s p k label cls fs : view f b s = Shown p → (k, label, cls) ∈ pn_chips p →
  let p' := panel (kindFilter (press_chip k fs)) b s in
  pn_rows p' ≠ [] ∧ pn_nomatch p' = None ∧ Forall (λ r, se_kind (rw_entry r) = k) (pn_rows p').
Proof.
  unfold view. destruct (loading s); [done|]. destruct (len (entries s) =? 0); [done|]. intros [= <-] Hc.
  apply list_elem_of_fmap in Hc as ([k' n] & [= -> -> ->] & Hc). assert (Hne : filteredEntries (FKind k') (entries s) ≠ []) by (apply chip_iff; eauto).
  cbn [press_chip setKindFilter kindFilter panel pn_rows pn_nomatch]. splits.
  - intros Hr. apply Hne. by rewrite <- rows_entries, Hr.
  - apply len_pos in Hne. by rewrite (proj2 (Z.eqb_neq _ _)) by lia.
  - apply Forall_forall. intros r Hr. assert (He : rw_entry r ∈ map rw_entry (rows (FKind k') s)) by (by apply list_elem_of_fmap_2).
    rewrite rows_entries in He. apply filtered_elem in He as [_ [|[= ->]]]; done.
Qed.

(** The kind of a marker among the kinds of the timeline. *)
Definition marker_kind (k : MarkerKind) : SocTimelineKind := match k with MBan => KindBan | MIncident => KindIncident | MAck => KindAck end.
(** "Show on map": only on rows of bans and acknowledgements with an address; the row
    stays in the list, the page scrolls to the map, and the map then shows every
    marker of that kind it has. *)
Theorem onmap_press f s r txt fs : r ∈ rows f s → rw_onmap r = Some txt →
  let fs' := press_onmap r fs in
  is_Some (rw_ip r) ∧ rw_entry r ∈ map rw_entry (rows (kindFilter fs') s) ∧ last (scrolls fs') = Some ToMap ∧
  ∀ ms m, m ∈ ms → marker_kind (am_kind m) = se_kind (rw_entry r) → m ∈ filteredMarkers (kindFilter fs') ms.
Proof.
  intros Hr Ht. assert (He : rw_entry r ∈ entries s).
  { eapply (filtered_elem f). rewrite <- rows_entries. by apply list_elem_of_fmap_2. }
  unfold rows in Hr. apply list_elem_of_fmap in Hr as ([i e] & -> & _). cbn [row rw_entry rw_onmap rw_ip snd] in *.
  destruct (truthy_str (se_ip e)) as [ip|]; [|done]. apply shown_some in Ht as [Hk _]. splits.
  - by eexists.
  - rewrite rows_entries. apply filtered_elem. split; [done|by right].
  - cbn. by rewrite last_snoc.
  - intros ms m Hm Hmk. cbn [press_onmap goto_map setKindFilter kindFilter rw_entry row snd].
    destruct (se_kind e); try done; apply jfilter_elem; (split; [done|]); apply bool_decide_eq_true; by destruct (am_kind m).
Qed.

(** A request that breaks empties the panel and says that there are no events,
    whatever was listed; a refused one keeps the list. *)
Lemma failure_shows_empty f b s :
  view f b (load false Broken s) =
    NoEvents [text l "socTimelineTitle"; text l "socTimelineSubtitle"; text l "socTimelineEmpty"] "/attack-tree" ∧
  entries (load false Refused s) = entries s.
Proof. done. Qed.
End view.
End Timeline.

(** ** The map *)

Module Map.

Definition KIND_ORDER : list MarkerKind := [MBan; MAck; MIncident].
Definition chip_accent (k : MarkerKind) : jstring :=
  match k with
  | MBan => "border-orange-400/40 text-orange-200" | MIncident => "border-red-400/40 text-red-200"
  | MAck => "border-emerald-400/40 text-emerald-200"
  end.
Definition kindChipClass (k : MarkerKind) (active : bool) : jstring :=
  "text-xs px-3 py-1.5 rounded-full border transition-colors " ++ Timeline.chip_base active ++ " " ++
  (if active then chip_accent k else []).

Section view.
Context (l : Lang).

Definition kindLabels (k : MarkerKind) : jstring :=
  match k with
  | MBan => text l "attackMapLegendBan" | MIncident => text l "attackMapLegendIncident" | MAck => text l "attackMapLegendAck"
  end.
(** The numbers behind the title: markers shown, of how many, of how many addresses. *)
Definition count_text (f : SocKindFilter) (s : MapState) : jstring :=
  let shown := len (filteredMarkers f (markers s)) in
  let n := len (markers s) in
  "(" ++ dec shown ++ (if negb (n =? shown) then " / " ++ dec n else []) ++
  (if n <? totalIps s then " · " ++ dec (totalIps s) ++ " IP" else []) ++ ")".
Definition linked (f : SocKindFilter) : option jstring := shown_if (negb (bool_decide (f = FAll))) (text l "socFilterLinked").
Definition parity (b : BannedIps) (s : MapState) : option jstring := shown_if (mapParityOk b s) (text l "socMapParityHint").
Definition source_is (x : jstring) (s : MapState) : bool := bool_decide (dataSource s = Some x).
Definition live_badge (s : MapState) : option jstring := shown_if (source_is "live" s) (text l "attackMapLive").
Definition timeline_only (f : SocKindFilter) : option jstring :=
  match f with FKind KindLineage | FKind KindWaf => Some (text l "attackMapFilterTimelineOnly") | _ => None end.

(** The chips; they scroll to the timeline. *)
Record Chip := { ch_filter : SocKindFilter; ch_label : jstring; ch_class : jstring }.
Definition chip_all (f : SocKindFilter) (s : MapState) : Chip :=
  {| ch_filter := FAll; ch_label := text l "attackMapFilterAll" ++ " " ++ dec (len (markers s));
     ch_class := "text-xs px-3 py-1.5 rounded-full border transition-colors " ++
                 (if bool_decide (f = FAll) then "border-cyan-400/40 bg-cyan-500/10 text-cyan-200"
                  else "border-white/10 bg-white/[0.03] text-white/55 hover:text-white/80 hover:border-white/20") |}.
Definition chip_kind (f : SocKindFilter) (s : MapState) (k : MarkerKind) : option Chip :=
  let n := marker_count k (markers s) in
  shown_if (negb (n =? 0))
    {| ch_filter := FKind (Timeline.marker_kind k); ch_label := kindLabels k ++ " " ++ dec n;
       ch_class := kindChipClass k (bool_decide (f = FKind (Timeline.marker_kind k))) |}.
Definition chips (f : SocKindFilter) (s : MapState) : list Chip :=
  if 0 <? len (markers s) then chip_all f s :: omap (chip_kind f s) KIND_ORDER else [].
Definition press_chip (c : Chip) (fs : FilterState) : FilterState := setKindFilter (ch_filter c) true fs.
(** The link to the timeline asks for the scrolling twice. *)
Definition press_soc (fs : FilterState) : FilterState :=
  let fs := setKindFilter FAll true fs in {| kindFilter := kindFilter fs; hash := hash fs; scrolls := scrolls fs ++ [ToTimeline] |}.

(** The remarks on where the markers come from. *)
Definition geo_off (s : MapState) : option jstring := shown_if (negb (geoLookup s)) (text l "attackMapGeoOff").
Definition bans_from (s : MapState) : option jstring := (λ x, text l "attackMapBansFrom" ++ ": " ++ x) <$> truthy_str (bansSource s).
Definition geo_partial (s : MapState) : option jstring :=
  shown_if ((len (markers s) <? totalIps s) && (0 <? len (markers s)))
    (replace_first "{total}" (dec (totalIps s)) (replace_first "{shown}" (dec (len (markers s))) (text l "attackMapGeoPartial"))).

(** What lies over the globe; and what is said below it. *)
Definition globe (f : SocKindFilter) (s : MapState) : option (list AttackMarker * option (num * num)) :=
  shown_if (negb (map_loading s)) (filteredMarkers f (markers s), defender s).
Definition overlays (f : SocKindFilter) (s : MapState) : list jstring :=
  omap id
    [shown_if (map_loading s) (text l "attackMapLoading");
     shown_if (negb (map_loading s) && (len (markers s) =? 0) && bool_decide (map_error s = None)) (text l "attackMapEmpty");
     shown_if (negb (map_loading s) && (0 <? len (markers s)) && (len (filteredMarkers f (markers s)) =? 0))
       (text l "attackMapFilterNoMatch")].
Definition error_line (s : MapState) : option jstring :=
  match map_error s with Some e => shown_if (nonempty e) (text l "attackMapError") | None => None end.
Definition report_badge (f : SocKindFilter) (s : MapState) : option jstring :=
  shown_if (source_is "report" s && (0 <? len (filteredMarkers f (markers s)))) (text l "attackMapReportSource").

(** The card of the marker under the pointer, line by line. *)
Definition kind_line (k : MarkerKind) : jstring :=
  match k with MIncident => text l "attackMapIncident" | MAck => text l "attackMapAck" | MBan => text l "attackMapBanned" end.
Definition hover_lines (m : AttackMarker) : list jstring :=
  omap id
    [Some (am_ip m); Some (am_country m ++ " (" ++ am_countryCode m ++ ")"); truthy_str (am_reason m);
     match am_risk m with Some x => shown_if (nlt nzero x) (text l "attackMapRisk" ++ ": " ++ toFixed 0 x) | None => None end;
     Some (kind_line (am_kind m)); truthy_str (am_operator m);
     Some (am_ip m ++ " → " ++ text l "attackMapDefenderLabel"); Some (text l "attackMapClickBans")].
Definition hover_card (f : SocKindFilter) (s : MapState) : option (list jstring) :=
  match hover s with
  | Some m => shown_if (existsb (λ m', am_ip m' =s am_ip m) (filteredMarkers f (markers s))) (hover_lines m)
  | None => None
  end.
Definition onPointClick (m : AttackMarker) : option jstring := bans_link (am_ip m).

(** *** What the panel promises *)

Lemma marker_filter k ms :
  filteredMarkers (FKind (Timeline.marker_kind k)) ms = jfilter (λ m, bool_decide (am_kind m = k)) ms.
Proof. by destruct k. Qed.

(** Every chip leads to markers: pressing it leaves a map that is not empty and says
    neither that nothing matches nor that the kind is on the timeline only; the number
    on it is the number of markers shown then. *)
Theorem map_chip_press f s c fs : map_loading s = false → c ∈ chips f s →
  let f' := kindFilter (press_chip c fs) in
  filteredMarkers f' (markers s) ≠ [] ∧ overlays f' s = [] ∧ timeline_only f' = None ∧
  ∃ word, ch_label c = word ++ " " ++ dec (len (filteredMarkers f' (markers s))).
Proof.
  intros Hl Hc. cbn [press_chip setKindFilter kindFilter]. unfold chips in Hc. destruct (0 <? len (markers s)) eqn:En; [|by apply elem_of_nil in Hc].
  bprop. assert (Hf : filteredMarkers (ch_filter c) (markers s) ≠ [] ∧ timeline_only (ch_filter c) = None ∧
    ∃ word, ch_label c = word ++ " " ++ dec (len (filteredMarkers (ch_filter c) (markers s)))).
  { apply elem_of_cons in Hc as [->|Hc]; [cbn; splits; [by apply len_pos|done|eauto]|].
    apply list_elem_of_omap in Hc as (k & _ & [Hk ->]%shown_some). cbn [ch_filter ch_label]. rewrite marker_filter. splits.
    - intros E. unfold marker_count in Hk. rewrite E in Hk. done.
    - by destruct k.
    - by eexists. }
  destruct Hf as (Hf & Ht & Hw). splits; [done| |done|done]. apply len_pos in Hf.
  unfold overlays. rewrite Hl, (proj2 (Z.eqb_neq (len (markers s)) 0)), (proj2 (Z.eqb_neq (len (filteredMarkers _ _)) 0)) by lia.
  cbn [negb andb]. by rewrite andb_false_r.
Qed.

(** The map is never blank without a word: at most one notice lies over it, and when
    none does there is a marker on it or the error below it. *)
Theorem map_never_blank f s : map_error s ≠ Some [] →
  (length (overlays f s) ≤ 1)%nat ∧
  (overlays f s = [] → (∃ ms d, globe f s = Some (ms, d) ∧ ms ≠ []) ∨ is_Some (error_line s)).
Proof.
  intros He. unfold overlays, globe, error_line. destruct (map_loading s); cbn [shown_if negb andb omap list_omap id length]; [split; [lia|done]|].
  destruct (markers s) as [|m ms] eqn:Em.
  - change (len []) with 0. cbn [Z.eqb Z.ltb Z.compare andb shown_if]. destruct (map_error s) as [e|].
    + cbn. split; [lia|]. intros _. right. destruct e; [done|]. by eexists.
    + cbn. split; [lia|done].
  - assert (Hp : 0 < len (m :: ms)) by (by apply len_pos). rewrite (proj2 (Z.eqb_neq _ 0)), (proj2 (Z.ltb_lt 0 _)) by lia. cbn [andb shown_if].
    destruct (len (filteredMarkers f (m :: ms)) =? 0) eqn:Ef; cbn; (split; [lia|]); [done|]. intros _. left. do 2 eexists. split; [done|].
    apply len_pos. bprop. unfold len in *. lia.
Qed.

(** The card under the pointer is that of an address on the map, and the page a click
    opens searches for it. *)
Theorem hover_card_shown f s m lines : hover s = Some m → hover_card f s = Some lines →
  am_ip m ∈ map am_ip (filteredMarkers f (markers s)) ∧ lines = hover_lines m ∧ head lines = Some (am_ip m) ∧
  (dotted_quad (am_ip m) → onPointClick m = Some ("/bans?search=" ++ am_ip m)).
Proof.
  intros Hm. unfold hover_card. rewrite Hm. intros [(m' & Hin & Hip)%existsb_exists ->]%shown_some. bprop. splits; [|done|done|].
  - rewrite <- Hip. by apply list_elem_of_fmap_2, list_elem_of_In.
  - intros Hq. unfold onPointClick, bans_link. by rewrite encode_quad.
Qed.
End view.
End Map.

(** ** Examples *)

Module HomeViewDemo.
#[local] Instance plain_printing : Printing :=
  {| local_count := dec; local_short := dec; relative := λ _ n _, dec n |}.
Definition entry (id : jstring) (k : SocTimelineKind) (ip : option jstring) : SocTimelineEntry :=
  {| se_id := id; se_kind := k; se_ts := 1; se_title := id; se_detail := []; se_ip := ip; se_risk := Some (num_of_Z 80); se_href := None |}.
Definition listed : Timeline.state :=
  Timeline.load false (Timeline.Document {| Timeline.entries_of := Some [entry "a" KindBan (Some "203.0.113.9"); entry "b" KindBan (Some "203.0.113.9");
      entry "c" KindWaf None]; Timeline.sources := None; Timeline.data_mode := Some ("live" : jstring) |}) Timeline.mounted.
(** Two bans of one address are one on the chip and two in the list. *)
Example chip_and_rows :
  chips (Timeline.entries listed) = [(KindWaf, 1); (KindBan, 1)] ∧
  map (se_id ∘ Timeline.rw_entry) (Timeline.rows Len (FKind KindBan) listed) = ["a" : jstring; "b" : jstring] ∧
  map Timeline.rw_risk (Timeline.rows Len FAll listed) = [Some ("risk 80" : jstring); Some ("risk 80" : jstring); Some ("risk 80" : jstring)].
Proof. by vm_compute. Qed.

Definition ended : FleetPage.state := FleetPageDemo.ended.
Example cards_of_two : ∃ cs, Fleet.grid Len "en" 0 ended = Fleet.Cards cs ∧
  map Fleet.cd_id cs = ["node-a" : jstring; "vps" : jstring] ∧ map Fleet.cd_traffic cs = ["3.0 EPS" : jstring; "9.0 EPS" : jstring].
Proof. eexists. split; [reflexivity|]. by vm_compute. Qed.
End HomeViewDemo.
