(* ===== verification/PageViews.v ===== *)
(** What further pages show: the compliance report (dashboard/src/app/reports/page.tsx),
    the ban list (app/bans/page.tsx), the embedded viewers (components/PdfEmbed.tsx,
    CompetitiveProofViewer.tsx, GrafanaEmbedPanel.tsx, lib/pdfLocale.ts), the deep link
    of an incident and the heading of the tests page.  The report is a document the
    page does not check, so that drawing it can throw. *)

From S2P Require Import Prelude JsMap JsString JsNum Json JsValue JsDate CopilotText I18n Telemetry Compliance FetchBanned BanUtils BanExec DataRoom BanClient SocTimeline SocPanel BansPage TestsPanel AdminPages HomeView.

(** ** Values on a page *)

(** A value between tags: texts and numbers are printed, truth values and missing ones
    print nothing, an array prints its elements, an object throws. *)
Fixpoint child (v : json) : res jstring :=
  match v with
  | JStr s => Ok s
  | JNum x => Ok (num_to_string x)
  | JNull | JBool _ => Ok []
  | JArr l => rbind (rseq (map child l)) (λ ts, Ok (concat ts))
  | JObj _ => Throw "Objects are not valid as a React child"
  end.
Definition Child (v : val) : res jstring := match v with Some x => child x | None => Ok [] end.
(** [v.map(...)] and [v.filter(...)] *)
Definition array (name : jstring) (v : val) : res (list json) :=
  match v with
  | Some (JArr l) => Ok l
  | None | Some JNull => Throw "Cannot read properties of undefined"
  | _ => not_a_function name
  end.
(** [v.k] of a value that may be missing. *)
Definition get (k : jstring) (v : val) : res val :=
  match v with
  | None | Some JNull => Throw "Cannot read properties of undefined"
  | Some _ => Ok v.[k]
  end.
(** Texts the host formats: [toLocaleString] of a value that is there and of a number,
    and the dates of the report ([reportDate] in three forms, the time of a node). *)
Class PageText := {
  local_value : json → jstring;
  local_number : num → jstring;
  date_minute : val → jstring;
  date_long : val → jstring;
  time_zoned : val → jstring;
  time_plain : val → jstring;
}.
Section local.
Context `{PageText}.
Definition Local (v : val) : res jstring :=
  match nullish v with Some x => Ok (local_value x) | None => Throw "Cannot read properties of undefined" end.
(** [v.toString()] *)
Definition ToString (v : val) : res jstring :=
  match nullish v with Some x => Ok (to_str x) | None => Throw "Cannot read properties of undefined" end.
End local.

(** ** The compliance report *)

Module Report.
Import ReportsPage.
Section view.
Context `{PageText} `{UnicodeCase} (t : jstring → jstring).

(** The row of the four scores: heading, number, remark. *)
Definition scores (d : json) (passed total rate : jstring) : res (list (jstring * jstring * jstring)) :=
  let? es := get "executiveSummary" (Some d) in
  let? threats := get "totalThreatsMitigated" es in
  let? threats := Local threats in
  let? health := Child es.["systemHealth"] in
  Ok [("Controls Passed", passed ++ "/" ++ total, rate ++ "% pass rate");
      ("Threats Mitigated", threats, "RCE + Tarpits" : jstring);
      ("Events Analyzed", local_number (to_num es.["totalEventsProcessed"]), ostr es.["peakEps"] ++ " EPS peak");
      ("Fleet Health", health, ostr es.["onlineAgents"] ++ "/" ++ ostr es.["totalAgentsActive"] ++ " nodes online")].
(** The summary of the printed report; the flag is the emphasis. *)
Definition summary (d : json) : res (list (jstring * jstring * bool)) :=
  let? es := get "executiveSummary" (Some d) in
  let? health := Child es.["systemHealth"] in
  let? threats := Local es.["totalThreatsMitigated"] in
  let? eps := Child es.["peakEps"] in
  let? alerts := Local es.["totalAlerts"] in
  let? mesh := ToString es.["totalMeshPeers"] in
  Ok [("System Health" : jstring, health, false); ("Threats Blocked" : jstring, threats, true);
      ("Events Analyzed" : jstring, local_number (to_num es.["totalEventsProcessed"]), false); ("Peak EPS" : jstring, eps, false);
      ("Security Alerts" : jstring, alerts, false); ("Mesh IoC Peers" : jstring, mesh, false)].

(** A control: its mark, the colours of its standard, and its texts. *)
Record ControlView := {
  cv_ok : bool; cv_chip : jstring; cv_standard : jstring; cv_id : jstring; cv_name : jstring; cv_status : jstring;
  cv_evidence : jstring; cv_detail : jstring;
}.
Definition control_view (c : json) : res ControlView :=
  let? std := get "standard" (Some c) in
  let? std := Child std in
  let? id := Child (Some c).["id"] in
  let? name := Child (Some c).["name"] in
  let? status := Child (Some c).["status"] in
  let? evidence := Child (Some c).["evidence"] in
  let? detail := Child (Some c).["detail"] in
  Ok {| cv_ok := is_lit "PASSED" (Some c).["status"]; cv_chip := chip c; cv_standard := std; cv_id := id; cv_name := "— " ++ name;
        cv_status := status; cv_evidence := evidence; cv_detail := detail |}.

(** A row of the fleet: stripes, the colour of the state, the cells. *)
Record NodeRow := { nr_stripe : jstring; nr_online : bool; nr_cells : list jstring }.
Definition node_row (p : nat * json) : res NodeRow :=
  let v := Some p.2 in
  let? id := get "id" v in
  let? id := Child id in
  let? status := Child v.["status"] in
  let? eps := Fix 1 v.["eps"] in
  let? rce := Child v.["rce_prevented"] in
  let? tarpit := Child v.["tarpit_active"] in
  let? alerts := Child v.["alerts"] in
  let? mesh := Child v.["mesh_peers"] in
  Ok {| nr_stripe := if Nat.even p.1 then "bg-white" else "bg-gray-50"; nr_online := is_lit "Online" v.["status"];
        nr_cells := [id; status; eps; rce; tarpit; alerts; mesh; time_plain v.["last_seen"]] |}.
Definition footer (d : json) : res (list jstring) :=
  let? es := get "executiveSummary" (Some d) in
  let? online := Child es.["onlineAgents"] in
  let? active := Child es.["totalAgentsActive"] in
  let? eps := Child es.["peakEps"] in
  let? alerts := Local es.["totalAlerts"] in
  let? mesh := Child es.["totalMeshPeers"] in
  Ok ["FLEET TOTAL" : jstring; online ++ "/" ++ active ++ " online"; eps; num_to_string (total_of "rce_prevented" d);
      num_to_string (total_of "tarpit_active" d); alerts; mesh; "—"].
(** The table, or the remark that no agent reports. *)
Definition matrix (d : json) : res (option (list NodeRow * list jstring)) :=
  let? ns := array "map" (Some d).["nodes"] in
  match ns with
  | [] => Ok None
  | _ => let? rows := rseq (map node_row (numbered ns)) in let? foot := footer d in Ok (Some (rows, foot))
  end.

Record Body := {
  rb_generated : jstring; rb_filters : list (jstring * bool); rb_scores : list (jstring * jstring * jstring);
  rb_by : jstring; rb_date : jstring * jstring; rb_standards : list jstring; rb_rate : jstring * jstring;
  rb_summary : list (jstring * jstring * bool); rb_siem : jstring; rb_controls : list ControlView;
  rb_matrix : option (list NodeRow * list jstring); rb_roles : list jstring;
}.
Definition body (std : jstring) (d : json) : res Body :=
  let? cs := array "filter" (Some d).["securityControls"] in
  let? _ := rseq (map (λ c, get "status" (Some c)) cs) in
  let passed := dec (passedCount d) in
  let total := dec (totalCount d) in
  let rate := num_to_string (passRate d) in
  let? scores := scores d passed total rate in
  let? by_ := Child (Some d).["generatedBy"] in
  let? stds := array "map" (Some d).["standards"] in
  let? stds := rseq (map child stds) in
  let? summary := summary d in
  let? siem := Child (Some d).["executiveSummary"].["siemStatus"] in
  let? controls := rseq (map control_view (filteredControls std d)) in
  let? matrix := matrix d in
  Ok {| rb_generated := "Generated: " ++ date_minute (Some d).["reportDate"];
        rb_filters := map (λ s, (s, std =s s)) FILTER_STANDARDS; rb_scores := scores; rb_by := by_;
        rb_date := (date_long (Some d).["reportDate"], time_zoned (Some d).["reportDate"]); rb_standards := stds;
        rb_rate := (rate ++ "%", "(" ++ passed ++ " of " ++ total ++ " controls passed)"); rb_summary := summary; rb_siem := siem;
        rb_controls := controls; rb_matrix := matrix;
        rb_roles := ["Security Officer"; "Fleet Administrator"; "Compliance Reviewer"] |}.
Inductive View := Loading (txt : jstring) | Failed (lines : list jstring) | Shown (b : Body).
Definition view (s : state) : res View :=
  if loading s then Ok (Loading (to_upper (t "reportsLoading")))
  else match data s with
       | Some d => if truthy d then let? b := body (activeStd s) d in Ok (Shown b)
                   else Ok (Failed (t "reportsError" :: if nonempty (loadError s) then [loadError s] else []))
       | None => Ok (Failed (t "reportsError" :: if nonempty (loadError s) then [loadError s] else []))
       end.

(** *** Every computed report can be drawn *)

Lemma rseq_exists {A B} (f : A → res B) (P : A → B → Prop) l :
  (∀ x, x ∈ l → ∃ y, f x = Ok y ∧ P x y) → ∃ ys, rseq (map f l) = Ok ys ∧ Forall2 P l ys.
Proof.
  induction l as [|x l IH]; intros Hl; [by exists []|]. destruct (Hl x ltac:(left)) as (y & Hy & HP).
  destruct IH as (ys & Hys & HF); [intros z Hz; apply Hl; by right|]. exists (y :: ys). cbn. rewrite Hy. cbn. rewrite Hys. cbn. eauto.
Qed.
Lemma filter_alike {A B} (p : A → bool) (q : B → bool) l l' : Forall2 (λ x y, q y = p x) l l' →
  length (jfilter q l') = length (jfilter p l).
Proof. unfold jfilter. induction 1 as [|x y l l' E _ IH]; [done|]. cbn. rewrite E. destruct (p x); cbn; congruence. Qed.

Lemma base_drawn `{LocaleText} tot c : c ∈ baseControls tot → ∃ cv, control_view c = Ok cv ∧ cv_ok cv = true.
Proof.
  intros Hc. unfold baseControls, KVKK_CONTROLS in Hc. cbn [app] in Hc.
  repeat (apply elem_of_cons in Hc as [->|Hc]; [eexists; by split|]). by apply elem_of_nil in Hc.
Qed.

Lemma nodes_drawn now agents :
  ∃ rows, rseq (map node_row (numbered (map (node_detail now) agents))) = Ok rows ∧
    length rows = length agents ∧ length (jfilter nr_online rows) = length (jfilter (is_online now) agents).
Proof.
  destruct (rseq_exists node_row (λ p r, nr_online r = is_lit "Online" (Some p.2).["status"]) (numbered (map (node_detail now) agents)))
    as (rows & Hr & HF).
  { intros [i v] Hi. apply numbered_elem, list_elem_of_lookup_2, list_elem_of_fmap in Hi as (a & -> & _). eexists. by split. }
  exists rows. splits; [done| |].
  - apply Forall2_length in HF. rewrite <- HF, <- (length_map snd). change (map snd ?x) with (x.*2). by rewrite numbered_snd, length_map.
  - rewrite (filter_alike _ _ _ _ HF).
    assert (E : ∀ xs : list (nat * json), length (jfilter (λ p, is_lit "Online" (Some p.2).["status"]) xs) =
                  length (jfilter (λ v, is_lit "Online" (Some v).["status"]) (map snd xs))).
    { intros xs. unfold jfilter. induction xs as [|x xs IH]; [done|]. cbn [map List.filter]. destruct (is_lit _ _); cbn [length]; congruence. }
    rewrite E. change (map snd ?x) with (x.*2). rewrite numbered_snd. clear. unfold jfilter. induction agents as [|a agents IH]; [done|].
    cbn [map List.filter]. replace (is_lit "Online" (Some (node_detail now a)).["status"]) with (is_online now a)
      by (unfold node_detail; cbn; by destruct (is_online now a)).
    destruct (is_online now a); cbn [length]; congruence.
Qed.
Lemma head_drawn `{LocaleText} now agents a b c : ∃ sc, scores (buildFromTelemetry now agents) a b c = Ok sc.
Proof. eexists. reflexivity. Qed.
Lemma middle_drawn `{LocaleText} now agents : let d := buildFromTelemetry now agents in ∃ stds ss sum siem,
  array "map" (Some d).["standards"] = Ok stds ∧ rseq (map child stds) = Ok ss ∧ summary d = Ok sum ∧
  Child (Some d).["executiveSummary"].["siemStatus"] = Ok siem.
Proof. do 4 eexists. split_and!; reflexivity. Qed.

(** Whatever the fleet, a computed report can be drawn under every filter: each control
    of the filter with its mark, a row for every agent, and a foot that counts the
    rows marked as online. *)
Theorem report_drawn `{LocaleText} now agents std :
  let d := buildFromTelemetry now agents in
  ∃ b, body std d = Ok b ∧ length (rb_controls b) = length (filteredControls std d) ∧ Forall (λ c, cv_ok c = true) (rb_controls b) ∧
    match rb_matrix b with
    | None => agents = []
    | Some (rows, foot) =>
        length rows = length agents ∧
        foot !! 1%nat = Some (num_to_string (num_of_Z (len (jfilter nr_online rows))) ++ "/" ++
                              num_to_string (num_of_Z (len rows)) ++ " online")
    end.
Proof.
  intros d. destruct (rseq_exists control_view (λ _ cv, cv_ok cv = true) (filteredControls std d)) as (cs & Hcs & HF).
  { intros c Hc. apply (base_drawn (fleet_totals now agents)). change (baseControls (fleet_totals now agents)) with (controls d).
    unfold filteredControls in Hc. destruct (std =s "ALL"); [done|]. by apply jfilter_elem in Hc as [? _]. }
  destruct (nodes_drawn now agents) as (rows & Hr & Hlen & Hon).
  assert (Hm : ∃ m, matrix d = Ok m ∧ match m with None => agents = [] | Some (rows', foot) => rows' = rows ∧
    foot !! 1%nat = Some (num_to_string (num_of_Z (ft_online (fleet_totals now agents))) ++ "/" ++
                          num_to_string (num_of_Z (ft_agents (fleet_totals now agents))) ++ " online") end).
  { unfold matrix. change (array "map" (Some d).["nodes"]) with (Ok (map (node_detail now) agents) : res _). cbn [rbind].
    destruct agents as [|a agents']; [by exists None|]. cbn [map]. cbn [map] in Hr. rewrite Hr. cbn [rbind]. eexists. by split. }
  destruct (head_drawn now agents (dec (passedCount d)) (dec (totalCount d)) (num_to_string (passRate d))) as (sc & Hs).
  fold d in Hs.
  destruct (middle_drawn now agents) as (stds & ss & sum & siem & E1 & E2 & E3 & E4). fold d in E1, E3, E4.
  destruct Hm as (m & Hm & Hfoot). eexists. split; [|split; [|split]].
  - unfold body. change (array "filter" (Some d).["securityControls"]) with (Ok (controls d) : res _). cbn [rbind].
    change (rseq (map _ (controls d))) with (Ok (map (λ c, (Some c).["status"]) (controls d)) : res _). cbn [rbind]. rewrite Hs. cbn [rbind]. change (Child (Some d).["generatedBy"]) with (Ok GENERATED_BY). cbn [rbind].
    rewrite E1. cbn [rbind]. rewrite E2. cbn [rbind]. rewrite E3. cbn [rbind]. rewrite E4. cbn [rbind]. rewrite Hcs. cbn [rbind].
    rewrite Hm. cbn [rbind]. reflexivity.
  - cbn [rb_controls]. symmetry. by eapply Forall2_length.
  - cbn [rb_controls]. clear -HF. induction HF; by constructor.
  - cbn [rb_matrix]. destruct m as [[rows' foot]|]; [|done]. destruct Hfoot as [-> Hf]. split; [done|]. rewrite Hf. unfold len.
    by rewrite Hon, Hlen.
Qed.
End view.
End Report.

(** ** The ban list *)

Module BansView.
Section view.
Context (l : Lang) (local_count : Z → jstring).

(** The heading: the count, the badges of what the list is, its source. *)
Definition total_badge (s : BansPage.state) : option jstring :=
  shown_if (0 <? BansPage.totalCount s)
    (local_count (BansPage.totalCount s) ++ " " ++
     if BansPage.filtering s then text l "bannedIpsSearchMatches" else text l "bannedIpsTotalActive").
Definition proof_badge (s : BansPage.state) : option jstring := shown_if (BansPage.preview s) (text l "bannedIpsProofMode").
(** [ctx] is the state all pages share. *)
Definition live_badge (ctx : BannedIps) (s : BansPage.state) : option jstring :=
  shown_if (negb (BansPage.preview s) && negb (BanClient.preview ctx) && bool_decide (BanClient.dataMode ctx = Live) &&
            (sor (BansPage.source s) (BansPage.ctxSource s) =s "ipset") && (0 <? BansPage.totalCount s))
    (text l "bannedIpsLiveMode").
Definition source_badge (s : BansPage.state) : option jstring := shown_if (nonempty (BansPage.source s)) (BansPage.source s).
Definition HEADER_LINKS : list jstring := ["/#soc-ban"; "/#attack-world-map"; "/tests"].
Definition refresh_button (s : BansPage.state) : jstring * bool :=
  (if BansPage.refreshing s then text l "bannedIpsRefreshing" else text l "bannedIpsRefresh", BansPage.spinning s).

(** A row: the address, the tick of an acknowledgement, the reason, and whether the
    button only explains. *)
Record Row := { rw_ip : jstring; rw_ack : option jstring; rw_reason : option jstring; rw_readonly : bool }.
Definition row (s : BansPage.state) (b : BanEntry) : Row :=
  {| rw_ip := be_ip b;
     rw_ack := (λ a : jstring * Z, text l "bansTelegramAcked" ++ " · " ++ a.1) <$> assoc (be_ip b) (BansPage.ackByIp s);
     rw_reason := truthy_str (be_reason b); rw_readonly := BansPage.preview s |}.

Inductive Body := Waiting (txt : jstring) | Nothing (txt : jstring) | Listing (hint : option jstring) (rows : list Row).
Definition list_body (s : BansPage.state) : Body :=
  match BansPage.body s with
  | BLoading => Waiting (text l "bannedIpsLoading")
  | BNone => Nothing (text l "bannedIpsEmpty")
  | BNoMatch => Nothing (text l "bannedIpsSearchEmpty")
  | BRows bs => Listing (shown_if ((len (BansPage.bans s) <? BansPage.totalCount s) && negb (BansPage.filtering s))
                           (text l "bannedIpsScrollHint")) (map (row s) bs)
  end.
(** The row of paging: which buttons can be pressed, and the text between them. *)
Record Pager := { pg_prev : bool; pg_range : jstring; pg_next : bool }.
Definition pager (s : BansPage.state) : option Pager :=
  shown_if (BansPage.paging s)
    {| pg_prev := negb (negb (BansPage.hasPrev s) || BansPage.spinning s);
       pg_range := dec (BansPage.offset s + 1) ++ "–" ++ dec (BansPage.pageEnd s) ++ " / " ++ dec (BansPage.totalCount s);
       pg_next := negb (negb (BansPage.hasNext s) || BansPage.spinning s) |}.
(** The panel of one address, when the search is for one. *)
Definition ops_panel (s : BansPage.state) : option (jstring * option (jstring * Z)) :=
  shown_if (nonempty (BansPage.opsIp s)) (BansPage.opsIp s, assoc (BansPage.opsIp s) (BansPage.ackByIp s)).
Definition status_line (s : BansPage.state) : option jstring := shown_if (nonempty (BansPage.statusMsg s)) (BansPage.statusMsg s).
Definition empty_hint (s : BansPage.state) : option jstring :=
  shown_if ((BansPage.source s =s "empty") && negb (BansPage.loading s) && negb (BansPage.preview s)) (text l "bannedIpsEmptyHint").

(** A list of proof entries is never called live, and none of its rows can be
    unbanned; other lists have a row for each ban, with its button. *)
Theorem proof_list_inert ctx s : is_Some (proof_badge s) →
  live_badge ctx s = None ∧ ∀ hint rows, list_body s = Listing hint rows → Forall (λ r, rw_readonly r = true) rows.
Proof.
  intros [x [Hp _]%shown_some]. split; [unfold live_badge; by rewrite Hp|]. intros hint rows. unfold list_body.
  destruct (BansPage.body s); try done. intros [= _ <-]. apply Forall_forall. by intros r (b & -> & _)%list_elem_of_fmap.
Qed.
Theorem list_rows s hint rows : list_body s = Listing hint rows →
  map rw_ip rows = map be_ip (BansPage.bans s) ∧ rows ≠ [] ∧
  Forall (λ r, is_Some (rw_ack r) ↔ is_Some (assoc (rw_ip r) (BansPage.ackByIp s))) rows.
Proof.
  unfold list_body. destruct (BansPage.body s) as [| | |bs] eqn:Eb; try done. intros [= _ <-].
  assert (bs = BansPage.bans s ∧ bs ≠ []) as [-> Hne].
  { unfold BansPage.body in Eb. repeat (split_if; try done); bprop; by injection Eb as <-. }
  splits; [by rewrite map_map| |].
  - by intros E%map_eq_nil.
  - apply Forall_forall. intros r (b & -> & _)%list_elem_of_fmap. cbn. by rewrite fmap_is_Some.
Qed.

(** A paging button can be pressed exactly when pressing it asks for a page. *)
Theorem pager_asks url s p : pager s = Some p →
  (pg_prev p = true ↔ (BansPage.on_event url BansPage.ClickPrev s).2 ≠ []) ∧
  (pg_next p = true ↔ (BansPage.on_event url BansPage.ClickNext s).2 ≠ []).
Proof.
  intros [Hp ->]%shown_some. cbn [pg_prev pg_next]. rewrite !negb_orb, !negb_involutive. cbn [BansPage.on_event]. rewrite Hp. cbn [andb].
  split; [destruct (BansPage.hasPrev s)|destruct (BansPage.hasNext s)]; destruct (BansPage.spinning s); cbn; split; done.
Qed.

(** The links of the heading open the home page at the bans of the timeline, and at
    the map with nothing filtered. *)
Lemma header_links_open :
  map (λ h : jstring, filter_mount (drop 1 h)) (take 2 HEADER_LINKS) =
    [{| kindFilter := FKind KindBan; hash := "#soc-ban"; scrolls := [ToTimeline] |};
     {| kindFilter := FAll; hash := "#attack-world-map"; scrolls := [ToMap] |}].
Proof. reflexivity. Qed.
End view.
End BansView.

(** ** Viewers and short pages *)

Module Viewers.

(** lib/pdfLocale.ts *)
Definition PROOF_PDF_FILENAME : jstring := "competitive-proof.pdf".
Definition proofPdfApiUrl (raw : bool) : jstring :=
  if raw then "/api/data-room/competitive-proof.pdf?raw=1" else "/api/data-room/competitive-proof.pdf".

(** PdfEmbed: the states of the view, the object URL of the effect's closure, and the
    object URLs that were made and not revoked. *)
Record embed := { em_url : option Z; em_err : option jstring; em_blob : option Z; em_next : Z; em_live : list Z }.
Definition embed_start : embed := {| em_url := None; em_err := None; em_blob := None; em_next := 0; em_live := [] |}.
(** The answer: a document, a bad status, or an error with its message; something
    that is no [Error] has no message. *)
Inductive Answer := Pdf | BadStatus (st : Z) | Rejected (msg : option jstring).
Definition answered (a : Answer) (s : embed) : embed :=
  match a with
  | Pdf => {| em_url := Some (em_next s); em_err := em_err s; em_blob := Some (em_next s); em_next := em_next s + 1;
              em_live := em_live s ++ [em_next s] |}
  | BadStatus st => {| em_url := em_url s; em_err := Some ("HTTP " ++ dec st); em_blob := em_blob s; em_next := em_next s;
                       em_live := em_live s |}
  | Rejected m => {| em_url := em_url s; em_err := Some (m ?? "PDF yuklenemedi"); em_blob := em_blob s; em_next := em_next s;
                     em_live := em_live s |}
  end.
(** The cleanup of the effect. *)
Definition cleanup (s : embed) : embed :=
  match em_blob s with
  | Some b => {| em_url := em_url s; em_err := em_err s; em_blob := em_blob s; em_next := em_next s;
                 em_live := jfilter (λ x, negb (x =? b)) (em_live s) |}
  | None => s
  end.
Inductive EmbedView := EmError (txt link : jstring) | EmLoading (txt : jstring) | EmFrame (url : Z).
Definition embed_view (src : jstring) (s : embed) : EmbedView :=
  match truthy_str (em_err s) with
  | Some e => EmError ("PDF onizleme acilamadi: " ++ e) src
  | None => match em_url s with Some u => EmFrame u | None => EmLoading "PDF yukleniyor…" end
  end.

(** CompetitiveProofViewer: what is embedded, and the link with the name of its file. *)
Definition viewer_src : jstring := proofPdfApiUrl true.
Definition viewer_download : jstring * jstring := (viewer_src, PROOF_PDF_FILENAME).

(** GrafanaEmbedPanel: the address of the build, or the one of a local installation; the
    frame is loaded once the panel has come into sight. *)
Definition LOCAL_EMBED : jstring :=
  "http://127.0.0.1:3002/d/log-guardian-01/linux-log-guardian?orgId=1&refresh=15s&kiosk&theme=dark&var-tenant=default".
Definition DEFAULT_EMBED (configured : option jstring) : jstring := oor configured LOCAL_EMBED.
Definition embed_open (url : jstring) : jstring := replace_first "&kiosk" [] url.
Definition embed_base (url : jstring) : jstring := head (split_str "/d/" url) ?? [].
Definition intersect (seen : bool) (show : bool) : bool := if seen then true else show.
Definition embed_frame (url : jstring) (show : bool) : option jstring := shown_if show url.

(** app/incidents/[id]: where the deep link of an incident leads; a lone surrogate
    throws.  [None] is a parameter that is no text. *)
Definition incident_target (id : option jstring) : option jstring :=
  match truthy_str id with
  | Some id => app "/?incident=" <$> BanExec.encodeURIComponent id
  | None => Some ("/" : jstring)
  end.
(** app/tests/TestsPageClient.tsx: the line of the published proof. *)
Definition proof_line (meta : option TestsPanel.ProofMeta) (buildRev : option jstring) : option jstring :=
  match meta with
  | Some m =>
      shown_if (0 <? TestsPanel.expected m)
        ("competitive-proof " ++ dec (TestsPanel.passed m) ++ "/" ++ dec (TestsPanel.expected m) ++
         match truthy_str buildRev with Some r => if r =s "unknown" then [] else " · build " ++ r | None => [] end)
  | None => None
  end.

(** The viewer asks for a file the data room serves to everyone, under its own type. *)
Lemma viewer_file_public :
  starts_with ("/api/data-room/" ++ PROOF_PDF_FILENAME) viewer_src = true ∧
  PROOF_PDF_FILENAME ∈ DataRoom.PUBLIC_FILES ∧ DataRoom.allowed PROOF_PDF_FILENAME = Some ("application/pdf" : jstring).
Proof. split_and!; [reflexivity|left|reflexivity]. Qed.

(** A document that arrives while the viewer is open is shown and its memory is given
    back when the viewer closes. *)
Lemma embed_releases src : embed_view src (answered Pdf embed_start) = EmFrame 0 ∧ em_live (cleanup (answered Pdf embed_start)) = [].
Proof. done. Qed.
(** One that arrives after the viewer was closed is kept for good: the cleanup has run
    before there was anything to revoke. *)
Lemma late_blob_leaks : em_live (answered Pdf (cleanup embed_start)) = [0].
Proof. done. Qed.

(** Once in sight, the frame stays, whatever is reported later. *)
Lemma frame_stays seen url : embed_frame url (fold_left (λ s b, intersect b s) seen true) = Some url.
Proof. induction seen as [|[] seen IH]; [done|exact IH|exact IH]. Qed.
Example embed_links :
  embed_base (DEFAULT_EMBED None) = "http://127.0.0.1:3002" ∧ includes "kiosk" (embed_open (DEFAULT_EMBED None)) = false.
Proof. by vm_compute. Qed.
End Viewers.

(** ** Examples *)

Module PageViewsDemo.
Definition listed : BansPage.state :=
  (BansPage.loaded 0 None "ipset" (Some {| br_source := "ipset"; br_count := 2; br_truncated := None; br_limit := None; br_offset := None; br_preview := Some false; br_data_mode := None;
     br_bans := [plain_ban "203.0.113.9"; plain_ban "203.0.113.10"] |}) (BansPage.start "ipset")).
Example two_rows : ∃ rows, BansView.list_body Len listed = BansView.Listing None rows ∧
  map BansView.rw_ip rows = ["203.0.113.9" : jstring; "203.0.113.10" : jstring].
Proof. eexists. split; reflexivity. Qed.
End PageViewsDemo.
